(* ===== verification/_CoqProject ===== *)
-Q . S2P
Prelude.v
Errno.v
Buffer.v
Convert.v
ConvertFacts.v
Utf.v
Varargs.v
Float.v
FloatParse.v
Printf.v
PrintfFacts.v
PrintfSpec.v
Scanf.v
ScanfFacts.v
ScanSet.v
FdTable.v
FdTableFacts.v
FileIo.v
Path.v
PathFacts.v
PathSpec.v
Open.v
OpenSpec.v
Stream.v
StreamFacts.v
StreamChars.v
StreamSpec.v
StreamList.v
StreamListFacts.v
StreamListSpec.v
PrintfStream.v
Getopt.v
GetoptFacts.v
Cpuset.v
Sched.v
Signal.v
SignalSpec.v
Process.v
ProcessSpec.v
CommandLine.v
CommandLineSpec.v
SpawnActions.v
Spawn.v
SpawnSpec.v
Time.v
Resource.v
Concurrent.v
Sync.v
Mutex.v
MutexSpec.v
Rwlock.v
Cond.v
CondSpec.v
Tss.v
Thread.v
ThreadSpec.v
Timer.v
Barrier.v
Dirent.v
DirentSpec.v
Security.v
Stat.v
StatSpec.v
Acl.v
AclSpec.v
Poll.v
Accounts.v
Names.v
NamesSpec.v
Text.v
Idle.v
Statfs.v
Memory.v
Terminal.v
System.v
Xattr.v
XattrSpec.v
Temp.v
Pipe.v
Exec.v
