(* ===== verification/Prelude.v ===== *)
(** * windows-libc: a verification library

    windows-libc implements the POSIX C library on top of the native NT
    system calls of Windows. This library models the parts of it that hold its
    own logic, function by function, and proves what makes them correct. Paths
    below are relative to the repository. A file [X] holds the definitions that
    are translated from the source and a file [XSpec] or [XFacts] what is proved
    of them; where there is no such file the proofs follow the definitions.

    ** The program's parts and the files that model them

    - Formatted output. src/stdio/printf.c interprets a format: it parses
      conversion specifications, fetches arguments (by position or in order)
      from the cache of include/internal/varargs.h, converts them with
      src/internal/convert.c and hands the text to a [buffer_t] of
      include/internal/buffer.h.
      -- [Buffer]: the buffer, its fixed and its growing form.
      -- [Convert], [ConvertFacts]: the integer and pointer conversions with
         the wrappers of every width; [Float]: hexadecimal text of [float] and
         [double]; [Utf]: the UTF-8 and UTF-16 encoders and decoders.
      -- [Varargs]: the argument cache.
      -- [Printf]: printf.c itself; [PrintfFacts]: every printer hands its
         buffer a list of chunks that does not depend on the buffer;
         [PrintfSpec]: an abstract syntax of formats with its meaning, and that
         the interpreter implements it; [PrintfStream]: [vfprintf] and
         [vdprintf], over streams and descriptors.
    - Formatted input. src/stdio/scanf.c, over the same buffers, conversions
      and arguments.
      -- [FloatParse]: the parsers of floating-point numbers; [Scanf]: scanf.c
         itself; [ScanfFacts]: numbers printed are read back, termination;
         [ScanSet]: the notation of scan sets, and inputs on which the code
         departs from the contract of [scanf].
    - Descriptors and files. src/fcntl/internal.c keeps a table from
      descriptors to NT handles; most of the library goes through it.
      -- [FdTable], [FdTableFacts]: the table as a partial map, and a step
         relation over the operations of src/fcntl/internal.c, src/unistd/dup.c,
         close.c and src/fcntl/fcntl.c.
      -- [FileIo]: read, write, lseek, pread and pwrite.
      -- [Path], [PathFacts], [PathSpec]: src/internal/path.c, the resolution of
         POSIX and DOS paths to NT paths with its caches of volumes and
         descriptors, and src/internal/registry.c.
      -- [Open], [OpenSpec]: src/fcntl/open.c.
      -- [Poll]: descriptor sets, poll and select (src/poll).
      -- [Pipe]: pipes, popen and pclose (src/unistd/pipe.c, src/stdio).
      -- [Memory]: mapped memory (src/sys/mman), flock and fsync.
      -- [Terminal]: termios, ioctl, isatty and ttyname (src/termios, src/sys/ioctl).
    - Streams. src/stdio: a [FILE] has a buffer over a descriptor and is linked
      in a list of all streams.
      -- [Stream], [StreamFacts], [StreamChars], [StreamSpec]: one stream:
         fread, fwrite, fseek, fflush, characters and lines; [StreamSpec] also
         states where streams and files part.
      -- [StreamList], [StreamListFacts], [StreamListSpec]: the list: fopen,
         fdopen, freopen, fclose, fcloseall and the public entry points.
    - The file system.
      -- [Dirent], [DirentSpec]: directory streams and scandir (src/dirent).
      -- [Security]: the identifiers of the process, the translation of modes to
         access control lists and the cache of descriptors
         (src/internal/security.c).
      -- [Stat], [StatSpec]: stat, statx, chmod, chflags, chown, access, utimens,
         utimes and mkdir (src/sys/stat, src/unistd).
      -- [Acl], [AclSpec]: access control lists (src/sys/acl).
      -- [Names], [NamesSpec]: symbolic and hard links, removal, renaming and
         exchanging, the current directory, truncation (src/unistd,
         src/stdio/rename.c).
      -- [Xattr], [XattrSpec]: extended attributes (src/sys/xattr), on the bytes of
         the kernel's lists.
      -- [Statfs]: statfs, statvfs and the list of mounted drives.
      -- [Temp]: temporary files and names (src/stdlib/mkstemp.c, src/stdio/temp.c).
    - Processes.
      -- [Signal], [SignalSpec]: masks, pending signals, handlers (src/signal).
      -- [Process], [ProcessSpec]: the table of children and the wait calls
         (src/spawn/internal.c, src/sys/wait).
      -- [CommandLine], [CommandLineSpec], [SpawnActions], [Spawn], [SpawnSpec]:
         the command line, actions and attributes, and the creation of processes
         (src/spawn).
      -- [Exec]: the exec and spawn families and kill (src/unistd).
      -- [Sched], [Cpuset]: policies, priorities, affinity and sets of processors
         (src/sched); [Resource]: priorities, limits and usage
         (src/sys/resource).
      -- [Time], [Timer]: clocks, interval timers and timers with a thread
         (src/sys/time).
      -- [Accounts]: users and groups (src/pwd, src/grp).
      -- [System]: the start of the process (src/internal/wmain.c), random bytes, the
         names and limits of the machine, handles as descriptors, loaded libraries
         and the texts of the locale.
      -- [Getopt], [GetoptFacts]: src/getopt/getopt.c with its static state and
         the permutation of [argv].
    - Threads.
      -- [Concurrent]: programs of atomic steps and their interleavings;
         [Sync]: the memory and the errors they share.
      -- [Mutex], [MutexSpec], [Rwlock], [Cond], [CondSpec]: src/thread/mutex.c,
         rwlock.c and cond.c as such programs.
      -- [Tss], [Thread], [ThreadSpec]: keys, clean-up, creation, joining and
         cancellation (src/thread/key.c, internal.c, thread.c); [Barrier]:
         barriers and one-time initialisation.
    - Errors. src/internal/error.c.
      -- [Errno]: the maps from Windows errors to [errno], with the
         fall-throughs of the switch statements.
      -- [Text]: the messages of errors and signals, the functions of src/string and
         src/wchar, and the environment (src/stdlib).
      -- [Idle]: a kernel that does nothing, for the witnesses of the other files.

    ** How code becomes definitions

    - An unsigned [w]-bit integer is a [Z] in [0, 2^w), with [wrap] where the C
      code can wrap around; [swrap] converts to the signed type. Bytes are
      [Z] below 256, strings are lists of bytes, UTF-16 texts lists of code units.
    - A C function that changes memory, a buffer or a global takes its state
      and returns it. [M K] is the monad of the descriptor table, [errno] and the
      kernel [K]; [SM S K] adds the static state [S] of a component. Undefined
      behaviour (an access outside an object, a missing variadic argument, a
      null pointer that is followed) gives [None]. An error the code reports is
      a value: the return value and the [errno] it stores. What a variable that
      is not initialised holds is an argument.
    - The memory a call works on is a finite map from addresses to bytes or to
      objects; an address outside it is unmapped.
    - Threads run programs of atomic steps; a theorem about the synchronisation
      objects holds for every interleaving, or exhibits one.
    - Code outside the repository is a parameter: the success of an allocation
      ([Allocator]), addresses of new blocks ([StreamHeap], [AclHeap],
      [ThreadHeap], ...), routines of the caller ([Handlers], [Routines]) and the
      NT kernel, a state of its own with one class of calls per component
      ([Kernel], [FileKernel], [PathKernel], [OpenKernel], [StatKernel],
      [NameKernel], [DirKernel], [PollKernel], [AccountKernel], [WaitKernel],
      [SpawnKernel], [SchedKernel], [TimeKernel], [SyncKernel], [ThreadKernel],
      [EaKernel], [PipeKernel], [FsKernel], [MemoryKernel], [ConsoleKernel],
      [SystemKernel], ...). Where a theorem needs to know what a call does, a second class states
      its documented behaviour ([RegularFile], [Directories], [PlainFile],
      [Volume], [LinkFile], [EaFile], [Fifo], [AddressSpace], [FileLocks],
      [Console], [Mutants], [SlimLocks], [Alerts], ...), and the
      witnesses hold for an instance that can be run.
    - Floating-point arithmetic is that of binary64 with round to nearest,
      ties to even ([SpecFloat] of the Standard Library); the NaN produced is the
      default one of x86-64.

    ** Bounds and fuel

    Loops over a format or an input recurse on a fuel of one more than the length
    of the string they consume ([fuel_of]); the termination theorems show that this
    is enough for every input. The printers' digit loops have the number of digits of
    the width (64 at most) as fuel, the loop of a scan-set range the 256 values of
    its byte counter (after which the C loop would run forever), the scaling loop of
    the float parsers the 64 bits of the exponent, [getopt] a rotation and a step per
    argument. A string without a NUL in its first 65536 bytes is cut there, as
    [strnlen] does in the source. Loops that wait for others ([spin], [poll_rounds],
    the rounds of a timed lock) or that a caller can feed ([run_cleanup], [alert_all],
    [collect], the walks over the streams) take their fuel as an argument or from the
    state they consume: the theorems give a bound that is enough, or show that none is.

    ** What the theorems show

    - Meaning of formats (refinement): for every format made of text and of integer,
      character, string and pointer conversions the interpreter prints a denotation
      defined without it; [vsnprintf] agrees with [vasprintf] whenever the text fits;
      [vfprintf] puts these bytes at the position of a stream with room for them; the
      interpreters terminate.
    - Round trips: decimal, hexadecimal, octal and binary integers, pointers,
      UTF-8 and UTF-16 code points, and whole lists of integers of every width
      through [printf] and [scanf]; command lines of short options through [getopt],
      and of processes through the rules of Windows; DOS and NT paths; descriptors
      handed to a child; modes, owners and times through stat; links through
      readlink; the attributes of terminals; handles through descriptors.
    - Descriptor table: the lowest free descriptor is used, every other binding is
      kept, and the sequence numbers stay distinct along every sequence of operations.
    - Paths: the in-place resolution of [.] and [..] is the normal form of the list of
      names; open makes one system call with the rights its flags ask for.
    - Streams: a buffered stream refines the file it stands for, under every program
      of reads, writes, seeks and flushes; the streams of a process stay one doubly
      linked list.
    - Names, extended attributes, mapped views, the environment, access control
      lists, children, keys, read-write locks, mutexes, CPU sets and descriptor sets
      refine maps, sequences, sets and counters; a pipe is a queue between its two
      descriptors; file locks keep an exclusive lock alone.
    - Threads: mutual exclusion under every interleaving of the calls of any number of
      threads; a broadcast wakes the threads the queue counts, all of them when no
      signal left a hole in it; timed locks end; a thread that ends runs its clean-up
      in order.
    - Signals: unblocking delivers exactly the pending signals, in order.
    - Departures: theorems that fix where the code does not do what C, POSIX or its
      comments ask for (a truncation without a terminator, ranges past the end of a
      scan set, a directory that is read without end, a scan of more than 32 entries,
      a waiter that is lost, an unlock that locks forever, a link to [/dev/null] that
      names a drive, sizes cut to 16 bits, an overlong home directory, a mapping with an offset
      that never succeeds, a variable that [main] does not get, errors without
      their [errno], and others; the manifest lists them all).

    ** What is not modelled, and why

    - The messages of error and warn (src/error/error.c): a sequence of fprintf
      calls on the standard error stream, which [PrintfStream] covers one by one.
    - Locks of streams (src/stdio/flock.c): critical sections of the system; the
      streams are modelled for one thread.
    - src/stdio/stdio-hooks.c and pipe-hooks.c, which are not part of the build, and
      src/internal/misc.c, calls of the C run-time library.
    - The inline functions of the headers that only give another name to a function
      that is modelled (pthread.h, threads.h, stdio.h, ...).
    - Theorems on the floating-point parsers, which are modelled and evaluated
      on the values of tests/stdio/test-scanf.c only.
    - The declarations of include/internal/nt.h, except for the structures the
      code fills: they describe a system the repository does not contain. *)

From Stdlib Require Export ZArith Lia.
From Stdlib Require Export Ascii.
From stdpp Require Export base tactics numbers option list gmap.

#[global] Open Scope Z_scope.
Delimit Scope char_scope with char.

(** ** Characters *)

(** [ch "a"] is the byte value of a character constant of the C source; it is
    expanded to the numeral when it is parsed, so that arithmetic tactics see
    numbers. *)
Notation "'ch' c" :=
  (ltac:(let v := eval vm_compute in (Z.of_N (Ascii.N_of_ascii c%char)) in exact v))
  (at level 1, c at level 0, only parsing).

(** ** Machine integers

    An unsigned [w]-bit value is an integer in [0, 2^w); [wrap] is the
    conversion to such a type, [swrap] the conversion to the signed
    two's-complement type of the same width. *)

Definition wrap (w x : Z) : Z := x mod 2 ^ w.

Definition swrap (w x : Z) : Z :=
  let y := x mod 2 ^ w in
  if y <? 2 ^ (w - 1) then y else y - 2 ^ w.

Abbreviation u8 := (wrap 8).
Abbreviation u16 := (wrap 16).
Abbreviation u32 := (wrap 32).
Abbreviation u64 := (wrap 64).

Abbreviation is_u8 x := (0 <= x < 256).
Abbreviation is_u32 x := (0 <= x < 4294967296).
Abbreviation is_u64 x := (0 <= x < 18446744073709551616).

Definition UINT32_MAX : Z := 4294967295.

Lemma wrap_small w x : 0 <= x < 2 ^ w -> wrap w x = x.
Proof. apply Z.mod_small. Qed.

Lemma wrap_range w x : 0 <= w -> 0 <= wrap w x < 2 ^ w.
Proof. intros Hw. apply Z.mod_pos_bound. lia. Qed.

Lemma wrap_wrap w x : wrap w (wrap w x) = wrap w x.
Proof. unfold wrap. apply Zmod_mod. Qed.

Lemma wrap_add_l w x y : wrap w (wrap w x + y) = wrap w (x + y).
Proof. apply Zplus_mod_idemp_l. Qed.

Lemma wrap_mul_add w x y z : wrap w (wrap w x * y + z) = wrap w (x * y + z).
Proof. unfold wrap. by rewrite <- Zplus_mod_idemp_l, Zmult_mod_idemp_l, Zplus_mod_idemp_l. Qed.

Lemma swrap_small w x : 0 < w -> - 2 ^ (w - 1) <= x < 2 ^ (w - 1) -> swrap w x = x.
Proof.
  intros Hw Hx. unfold swrap.
  assert (2 ^ w = 2 * 2 ^ (w - 1)) as E by (rewrite <- Z.pow_succ_r by lia; f_equal; lia).
  destruct (decide (0 <= x)).
  - rewrite Z.mod_small by lia. destruct (x <? 2 ^ (w - 1)) eqn:?; lia.
  - rewrite <- (Z_mod_plus_full x 1), Z.mod_small by lia.
    destruct (x + 1 * 2 ^ w <? 2 ^ (w - 1)) eqn:?; lia.
Qed.

Lemma swrap_congr w x y : wrap w x = wrap w y -> swrap w x = swrap w y.
Proof. unfold wrap, swrap. by intros ->. Qed.

Lemma wrap_swrap w x : wrap w (swrap w x) = wrap w x.
Proof.
  unfold wrap, swrap. destruct (_ <? _); [apply Zmod_mod|].
  rewrite <- Zminus_mod_idemp_r, Z_mod_same_full, Z.sub_0_r. apply Zmod_mod.
Qed.

Lemma swrap_mul_add w x y z : swrap w (swrap w x * y + z) = swrap w (x * y + z).
Proof. apply swrap_congr. by rewrite <- wrap_mul_add, wrap_swrap, wrap_mul_add. Qed.

Lemma swrap_add_l w x y : swrap w (swrap w x + y) = swrap w (x + y).
Proof. apply swrap_congr. by rewrite <- wrap_add_l, wrap_swrap, wrap_add_l. Qed.

(** ** Flag words *)

(** [has f m] is the C test [f & m] of a condition. *)
Definition has (f m : Z) : bool := negb (Z.land f m =? 0).

Lemma has_0 m : has 0 m = false.
Proof. done. Qed.


Lemma land_mask x k : 0 <= k -> Z.land x (2 ^ k - 1) = x mod 2 ^ k.
Proof. intros Hk. rewrite <- Z.land_ones by done. f_equal. rewrite Z.ones_equiv. lia. Qed.

(** Packing a field of [k] bits below [a] is an addition. *)
Lemma lor_shiftl_add k a c : 0 <= k -> 0 <= c < 2 ^ k -> Z.lor (Z.shiftl a k) c = a * 2 ^ k + c.
Proof.
  intros Hk Hc.
  assert (Z.land (Z.shiftl a k) c = 0) as E.
  { apply Z.bits_inj'. intros n Hn. rewrite Z.land_spec, Z.bits_0.
    destruct (decide (n < k)); [by rewrite Z.shiftl_spec_low by lia|].
    rewrite <- (Z.mod_small c (2 ^ k)), Z.mod_pow2_bits_high by lia. by rewrite andb_false_r. }
  by rewrite <- Z.lxor_lor, <- Z.add_nocarry_lxor, Z.shiftl_mul_pow2.
Qed.

(** ** Arrays of 64-bit masks *)

Lemma testbit_pow2 n k : 0 <= n -> 0 <= k -> Z.testbit (2 ^ n) k = (k =? n).
Proof. intros. rewrite Z.pow2_bits_eqb by lia. apply Z.eqb_sym. Qed.

Lemma land_pow2_bit x n : 0 <= n -> negb (Z.land x (2 ^ n) =? 0) = Z.testbit x n.
Proof.
  intros Hn. destruct (Z.testbit x n) eqn:E.
  - apply negb_true_iff, Z.eqb_neq. intros H. apply (f_equal (fun y => Z.testbit y n)) in H.
    rewrite Z.land_spec, E, testbit_pow2, Z.eqb_refl, Z.bits_0 in H by lia. done.
  - apply negb_false_iff, Z.eqb_eq. apply Z.bits_inj'. intros k Hk.
    rewrite Z.land_spec, testbit_pow2, Z.bits_0 by lia. destruct (k =? n) eqn:Ek; [|by rewrite andb_false_r].
    apply Z.eqb_eq in Ek. subst. by rewrite E.
Qed.

Lemma has_pow2 x n : 0 <= n -> has x (2 ^ n) = Z.testbit x n.
Proof. apply land_pow2_bit. Qed.

Lemma testbit_lnot_pow2 n k : 0 <= n < 64 -> 0 <= k < 64 -> Z.testbit (u64 (Z.lnot (2 ^ n))) k = negb (k =? n).
Proof. intros Hn Hk. unfold wrap. rewrite Z.mod_pow2_bits_low, Z.lnot_spec, testbit_pow2 by lia. done. Qed.

(** A bit is known by its word and its place in the word. *)
Lemma same_bit c d : 0 <= c -> 0 <= d -> (d / 64 =? c / 64) && (d mod 64 =? c mod 64) = (d =? c).
Proof. intros. destruct (d =? c) eqn:E; Z.div_mod_to_equations; lia. Qed.

(** [1ull << (c % 64)]. *)
Lemma shiftl_bit c : u64 (Z.shiftl 1 (c mod 64)) = 2 ^ (c mod 64).
Proof.
  rewrite Z.shiftl_1_l. apply wrap_small. pose proof (Z.mod_pos_bound c 64 ltac:(lia)).
  split; [lia|]. apply Z.pow_lt_mono_r; lia.
Qed.

(** ** Arrays of bytes

    Memory objects are lists of bytes; an access goes through an unsigned
    index. A read past the end of the modelled object gives the NUL byte that
    terminates it. *)

Definition byte_at (l : list Z) (i : Z) : Z := default 0 (l !! Z.to_nat i).

(** [memcpy (l + i, bs, length bs)]. *)
Definition write_at (l : list Z) (i : Z) (bs : list Z) : list Z :=
  take (Z.to_nat i) l ++ bs ++ drop (Z.to_nat i + length bs) l.

(** The length of a list as a [size_t]. *)
Abbreviation zlen l := (Z.of_nat (length l)).

Lemma byte_at_app_l l k i : 0 <= i < zlen l -> byte_at (l ++ k) i = byte_at l i.
Proof. intros Hi. unfold byte_at. rewrite lookup_app_l by lia. done. Qed.

Lemma byte_at_app_r l k i :
  zlen l <= i -> byte_at (l ++ k) i = byte_at k (i - zlen l).
Proof.
  intros Hi. unfold byte_at. rewrite lookup_app_r by lia. do 3 f_equal. lia.
Qed.

Lemma byte_at_cons_0 x l : byte_at (x :: l) 0 = x.
Proof. done. Qed.

Lemma byte_at_cons_S x l i : 0 < i -> byte_at (x :: l) i = byte_at l (i - 1).
Proof.
  intros Hi. unfold byte_at. replace (Z.to_nat i) with (S (Z.to_nat (i - 1))) by lia. done.
Qed.

Lemma byte_at_ge l i : zlen l <= i -> byte_at l i = 0.
Proof. intros Hi. unfold byte_at. rewrite lookup_ge_None_2 by lia. done. Qed.

Lemma byte_at_Forall (P : Z -> Prop) l i : P 0 -> Forall P l -> P (byte_at l i).
Proof.
  intros H0 Hl. unfold byte_at. destruct (l !! Z.to_nat i) as [x|] eqn:E; [|done].
  exact (Forall_lookup_1 _ _ _ _ Hl E).
Qed.

Lemma length_write_at l i bs :
  0 <= i -> i + zlen bs <= zlen l -> length (write_at l i bs) = length l.
Proof. intros. unfold write_at. rewrite !length_app, length_take, length_drop. lia. Qed.

Lemma write_at_cons l i x bs :
  0 <= i -> i + zlen (x :: bs) <= zlen l -> write_at (write_at l i [x]) (i + 1) bs = write_at l i (x :: bs).
Proof.
  intros Hi Hl. cbn [length] in Hl. unfold write_at at 1 3. cbn [length].
  assert (write_at l i [x] = (take (Z.to_nat i) l ++ [x]) ++ drop (Z.to_nat i + 1) l) as ->
    by (unfold write_at; by rewrite <- app_assoc).
  assert (length (take (Z.to_nat i) l ++ [x]) = Z.to_nat (i + 1)) as El by (rewrite length_app, length_take; cbn [length]; lia).
  rewrite take_app_length', drop_app, (drop_ge (_ ++ _)), El, drop_drop by lia. rewrite <- app_assoc. cbn [app].
  do 4 f_equal. lia.
Qed.

Lemma write_at_app l i a b :
  0 <= i -> i + zlen (a ++ b) <= zlen l -> write_at (write_at l i a) (i + zlen a) b = write_at l i (a ++ b).
Proof.
  revert i l. induction a as [|x a IH]; intros i l Hi Hl.
  - cbn [length app] in *. rewrite Z.add_0_r. f_equal. unfold write_at. cbn [length app]. by rewrite Nat.add_0_r, take_drop.
  - cbn [length app] in *. rewrite length_app in *.
    rewrite <- (write_at_cons l i x a), <- (write_at_cons l i x (a ++ b)) by (cbn [length]; rewrite ?length_app; lia).
    rewrite <- IH by (rewrite ?length_write_at, ?length_app; cbn [length]; lia). f_equal. lia.
Qed.

Lemma take_write_at l i bs :
  0 <= i -> i + zlen bs <= zlen l ->
  take (Z.to_nat (i + zlen bs)) (write_at l i bs) = take (Z.to_nat i) l ++ bs.
Proof.
  intros. unfold write_at. rewrite app_assoc, take_app_le.
  - apply take_ge. rewrite length_app, length_take. lia.
  - rewrite length_app, length_take. lia.
Qed.

(** ** Tactics *)

(** Case analysis on the boolean tests of the code, keeping the outcome as a
    hypothesis [lia] understands. *)
Ltac tests :=
  repeat match goal with
  | |- context [if ?b then _ else _] =>
      lazymatch b with
      | context [if _ then _ else _] => fail
      | _ => destruct b eqn:?
      end
  | H : context [if ?b then _ else _] |- _ =>
      lazymatch b with
      | context [if _ then _ else _] => fail
      | _ => destruct b eqn:?
      end
  end.

(** As [tests], closing the branches that are arithmetically impossible. *)
Ltac tests_lia := tests; try lia.

(** Linear arithmetic with division and remainder by constants. *)
Ltac zlia := Z.div_mod_to_equations; lia.

(** Evaluates the accesses to explicit bytes. *)
Ltac simpl_bytes :=
  cbn [app];
  repeat match goal with
  | |- context [byte_at (?x :: ?l) 0] => change (byte_at (x :: l) 0) with x
  | |- context [byte_at (?x :: ?l) (Zpos ?n)] =>
      let m := eval cbv in (Zpos n - 1) in
      change (byte_at (x :: l) (Zpos n)) with (byte_at l m)
  end.
