(* ===== verification/Errno.v ===== *)
(** * Error codes

    The [errno] values the library sets (include/errno.h) and the translation of
    Windows error codes (src/internal/error.c). The codes of the system are
    names here: the translation only compares them. *)

From S2P Require Import Prelude.

Definition EPERM : Z := 1.
Definition ENOENT : Z := 2.
Definition ESRCH : Z := 3.
Definition EIO : Z := 5.
Definition E2BIG : Z := 7.
Definition ENOEXEC : Z := 8.
Definition EBADF : Z := 9.
Definition ECHILD : Z := 10.
Definition EAGAIN : Z := 11.
Definition ENOMEM : Z := 12.
Definition EACCES : Z := 13.
Definition EFAULT : Z := 14.
Definition EBUSY : Z := 16.
Definition EEXIST : Z := 17.
Definition ENOTDIR : Z := 20.
Definition EISDIR : Z := 21.
Definition EINVAL : Z := 22.
Definition EMFILE : Z := 24.
Definition ESPIPE : Z := 29.
Definition EROFS : Z := 30.
Definition EPIPE : Z := 32.
Definition ERANGE : Z := 34.
Definition EDEADLK : Z := 36.
Definition ENAMETOOLONG : Z := 38.
Definition ENOLCK : Z := 39.
Definition ENOTEMPTY : Z := 41.
Definition ELOOP : Z := 114.
Definition ENODATA : Z := 120.
Definition ENOTSUP : Z := 129.
Definition ETIMEDOUT : Z := 138.

Inductive DOSERROR :=
  | ERROR_NOT_ENOUGH_MEMORY | ERROR_OUTOFMEMORY
  | ERROR_ACCESS_DENIED | ERROR_SHARING_VIOLATION
  | ERROR_FILE_NOT_FOUND | ERROR_PATH_NOT_FOUND
  | ERROR_TOO_MANY_OPEN_FILES
  | ERROR_DIRECTORY | ERROR_DIR_NOT_EMPTY
  | ERROR_ALREADY_EXISTS | ERROR_FILE_EXISTS
  | ERROR_INVALID_HANDLE
  | ERROR_WRITE_FAULT | ERROR_READ_FAULT
  | ERROR_INVALID_PARAMETER | ERROR_INVALID_FUNCTION | ERROR_INVALID_REPARSE_DATA | ERROR_INVALID_NAME
  | ERROR_BROKEN_PIPE | ERROR_BAD_PIPE | ERROR_PIPE_BUSY | ERROR_NO_DATA | ERROR_PIPE_NOT_CONNECTED
  | ERROR_other (code : Z).

(** The new value of [errno], given the old one. *)
Definition map_doserror_to_errno (error : DOSERROR) (errno : Z) : Z :=
  match error with
  | ERROR_NOT_ENOUGH_MEMORY | ERROR_OUTOFMEMORY => ENOMEM
  | ERROR_ACCESS_DENIED | ERROR_SHARING_VIOLATION => EACCES
  | ERROR_FILE_NOT_FOUND | ERROR_PATH_NOT_FOUND => ENOENT
  | ERROR_TOO_MANY_OPEN_FILES => EMFILE
  | ERROR_DIRECTORY => ENOTDIR
  | ERROR_DIR_NOT_EMPTY => ENOTEMPTY
  | ERROR_ALREADY_EXISTS | ERROR_FILE_EXISTS => EEXIST
  | ERROR_INVALID_HANDLE => EBADF
  | ERROR_WRITE_FAULT | ERROR_READ_FAULT => EIO
  | ERROR_INVALID_PARAMETER | ERROR_INVALID_FUNCTION
  | ERROR_INVALID_REPARSE_DATA | ERROR_INVALID_NAME => EINVAL
  | ERROR_BROKEN_PIPE | ERROR_BAD_PIPE | ERROR_PIPE_BUSY
  | ERROR_NO_DATA | ERROR_PIPE_NOT_CONNECTED => EPIPE
  | ERROR_other _ => errno
  end.

Inductive NTSTATUS :=
  | STATUS_SUCCESS
  | STATUS_NO_MEMORY | STATUS_FATAL_MEMORY_EXHAUSTION
  | STATUS_ACCESS_DENIED | STATUS_SHARING_VIOLATION | STATUS_SECTION_PROTECTION | STATUS_INVALID_OWNER
  | STATUS_CANNOT_DELETE | STATUS_MUTANT_NOT_OWNED | STATUS_PRIVILEGE_NOT_HELD
  | STATUS_OBJECT_NAME_NOT_FOUND | STATUS_OBJECT_PATH_NOT_FOUND
  | STATUS_TOO_MANY_OPENED_FILES
  | STATUS_NAME_TOO_LONG | STATUS_NOT_A_DIRECTORY
  | STATUS_DIRECTORY_NOT_EMPTY
  | STATUS_OBJECT_NAME_EXISTS | STATUS_OBJECT_NAME_COLLISION
  | STATUS_INVALID_HANDLE
  | STATUS_IO_TIMEOUT | STATUS_IO_UNALIGNED_WRITE | STATUS_FILE_LOCK_CONFLICT
  | STATUS_INVALID_PARAMETER | STATUS_ILLEGAL_FUNCTION | STATUS_OBJECT_NAME_INVALID
  | STATUS_INVALID_EA_NAME | STATUS_EA_LIST_INCONSISTENT | STATUS_SECTION_TOO_BIG
  | STATUS_MAPPED_ALIGNMENT | STATUS_INVALID_SUB_AUTHORITY | STATUS_INVALID_ACL
  | STATUS_INVALID_SID | STATUS_INVALID_SECURITY_DESCR | STATUS_IO_REPARSE_DATA_INVALID
  | STATUS_FILE_IS_A_DIRECTORY
  | STATUS_PIPE_BROKEN | STATUS_PIPE_BUSY | STATUS_PIPE_DISCONNECTED | STATUS_PIPE_NOT_AVAILABLE
  | STATUS_INVALID_DEVICE_REQUEST
  | STATUS_NOT_SUPPORTED | STATUS_EAS_NOT_SUPPORTED
  | STATUS_INSUFFICIENT_RESOURCES | STATUS_LOCK_NOT_GRANTED | STATUS_RANGE_NOT_LOCKED
  | STATUS_BUFFER_TOO_SMALL
  | STATUS_EA_TOO_LARGE | STATUS_BUFFER_OVERFLOW
  | STATUS_TIMEOUT
  | STATUS_other (code : Z).

#[export] Instance NTSTATUS_eq_dec : EqDecision NTSTATUS.
Proof. solve_decision. Defined.

(** [STATUS_NAME_TOO_LONG] has no [break]: its assignment is overwritten by the
    one of the next case. *)
Definition map_ntstatus_to_errno (error : NTSTATUS) (errno : Z) : Z :=
  match error with
  | STATUS_NO_MEMORY | STATUS_FATAL_MEMORY_EXHAUSTION => ENOMEM
  | STATUS_ACCESS_DENIED | STATUS_SHARING_VIOLATION
  | STATUS_SECTION_PROTECTION | STATUS_INVALID_OWNER => EACCES
  | STATUS_CANNOT_DELETE | STATUS_MUTANT_NOT_OWNED | STATUS_PRIVILEGE_NOT_HELD => EPERM
  | STATUS_OBJECT_NAME_NOT_FOUND | STATUS_OBJECT_PATH_NOT_FOUND => ENOENT
  | STATUS_TOO_MANY_OPENED_FILES => EMFILE
  | STATUS_NAME_TOO_LONG => let errno := ENAMETOOLONG in let errno := ENOTDIR in errno
  | STATUS_NOT_A_DIRECTORY => ENOTDIR
  | STATUS_DIRECTORY_NOT_EMPTY => ENOTEMPTY
  | STATUS_OBJECT_NAME_EXISTS | STATUS_OBJECT_NAME_COLLISION => EEXIST
  | STATUS_INVALID_HANDLE => EBADF
  | STATUS_IO_TIMEOUT | STATUS_IO_UNALIGNED_WRITE | STATUS_FILE_LOCK_CONFLICT => EIO
  | STATUS_INVALID_PARAMETER | STATUS_ILLEGAL_FUNCTION | STATUS_OBJECT_NAME_INVALID
  | STATUS_INVALID_EA_NAME | STATUS_EA_LIST_INCONSISTENT | STATUS_SECTION_TOO_BIG
  | STATUS_MAPPED_ALIGNMENT | STATUS_INVALID_SUB_AUTHORITY | STATUS_INVALID_ACL
  | STATUS_INVALID_SID | STATUS_INVALID_SECURITY_DESCR | STATUS_IO_REPARSE_DATA_INVALID => EINVAL
  | STATUS_FILE_IS_A_DIRECTORY => EISDIR
  | STATUS_PIPE_BROKEN | STATUS_PIPE_BUSY
  | STATUS_PIPE_DISCONNECTED | STATUS_PIPE_NOT_AVAILABLE => EPIPE
  | STATUS_INVALID_DEVICE_REQUEST => EROFS
  | STATUS_NOT_SUPPORTED | STATUS_EAS_NOT_SUPPORTED => ENOTSUP
  | STATUS_INSUFFICIENT_RESOURCES | STATUS_LOCK_NOT_GRANTED | STATUS_RANGE_NOT_LOCKED => ENOLCK
  | STATUS_BUFFER_TOO_SMALL => ERANGE
  | STATUS_EA_TOO_LARGE | STATUS_BUFFER_OVERFLOW => E2BIG
  | STATUS_TIMEOUT => ETIMEDOUT
  | STATUS_SUCCESS | STATUS_other _ => errno
  end.

(** no Windows status is ever reported as "file name too long": whatever the
    status, an [errno] of [ENAMETOOLONG] was there before. *)
Theorem map_ntstatus_never_ENAMETOOLONG (status : NTSTATUS) (errno : Z) :
  map_ntstatus_to_errno status errno = ENAMETOOLONG -> errno = ENAMETOOLONG.
Proof. by destruct status. Qed.

Lemma map_ntstatus_never_ENAMETOOLONG_witness :
  map_ntstatus_to_errno STATUS_NAME_TOO_LONG 0 = ENOTDIR /\ ENAMETOOLONG = 38.
Proof.
  split; [reflexivity|].
  apply (map_ntstatus_never_ENAMETOOLONG (STATUS_other 0) ENAMETOOLONG). reflexivity.
Defined.
