(* ===== verification/Buffer.v ===== *)
(** * The byte buffers of the formatted I/O routines

    [buffer_t] of include/internal/buffer.h is both the cursor over a format or
    an input string and the output device of [printf]: a block of memory of
    [size] bytes with a position, and an optional callback that makes room
    when a write does not fit. The only callback of the library is
    [memory_buffer_write] (src/internal/buffer.c), which grows the block by
    doubling. [pos] and [size] count bytes of an object in memory, so their
    64-bit sums do not wrap around and they are plain integers here. *)

From S2P Require Import Prelude.

(** The process heap, as far as the library sees it: whether a request of a
    given size is granted. *)
Class Allocator := malloc_ok : Z -> bool.

Inductive write_cb := write_NULL | write_memory.

Record buffer_t := Buffer {
  data : list Z;
  pos : Z;
  size : Z;
  write : write_cb;
  error : bool
}.

Definition set_pos (b : buffer_t) (p : Z) : buffer_t :=
  Buffer (data b) p (size b) (write b) (error b).

Definition set_size (b : buffer_t) (n : Z) : buffer_t :=
  Buffer (data b) (pos b) n (write b) (error b).

(** The cursor over a string constant: [{.data = str, .pos = 0, .size = n}]. *)
Definition string_buffer (str : list Z) (n : Z) : buffer_t :=
  Buffer str 0 n write_NULL false.

(** [{.write = memory_buffer_write}]. *)
Definition empty_memory_buffer : buffer_t := Buffer [] 0 0 write_memory false.

Definition advance (b : buffer_t) (step : Z) : buffer_t :=
  set_pos b (Z.min (pos b + step) (size b)).

Definition pending (b : buffer_t) : Z := size b - pos b.

(** [current(buffer)] is the address of the byte at the cursor; what is read
    through it are the bytes from there on. *)
Definition current (b : buffer_t) : list Z := drop (Z.to_nat (pos b)) (data b).

Definition readbyte (b : buffer_t) : Z * buffer_t :=
  if error b then (0, b)
  else if pos b + 1 >? size b then (0, b)
  else (byte_at (data b) (pos b), set_pos b (pos b + 1)).

Definition peekbyte (b : buffer_t) (offset : Z) : Z :=
  if error b then 0
  else if pos b + offset >=? size b then 0
  else byte_at (data b) (pos b + offset).

(** [while (need > size - pos) size *= 2;] run with fuel: every round adds at
    least one byte of room, so [need] rounds are enough ([grow_room]). *)
Fixpoint grow (fuel : nat) (need p sz : Z) : Z :=
  match fuel with
  | O => sz
  | S fuel => if need >? sz - p then grow fuel need p (sz * 2) else sz
  end.

Section Write.
Context {A : Allocator}.

Definition memory_buffer_write (b : buffer_t) (n : Z) : buffer_t * Z :=
  let old_size := size b in
  if error b then (b, 0)
  else if n =? 0 then (b, 0)
  else if size b =? 0 then
    let sz := grow (Z.to_nat n) n 0 64 in
    if malloc_ok sz
    then (Buffer (replicate (Z.to_nat sz) 0) 0 sz (write b) false, sz)
    else (Buffer [] 0 sz (write b) true, 0)
  else
    let sz := grow (Z.to_nat n) n (pos b) (size b) in
    if malloc_ok sz
    then (Buffer (data b ++ replicate (Z.to_nat (sz - old_size)) 0) (pos b) sz (write b) false, sz)
    else (Buffer [] (pos b) sz (write b) true, 0).

(** [buffer->write(buffer, n)] through the callback that is set. *)
Definition call_write (b : buffer_t) (n : Z) : buffer_t :=
  match write b with
  | write_NULL => b
  | write_memory => (memory_buffer_write b n).1
  end.

Definition flush (b : buffer_t) : buffer_t := call_write b 0.

Definition writebyte (b : buffer_t) (byte : Z) : buffer_t * Z :=
  if error b then (b, 0)
  else
    let put b := (Buffer (write_at (data b) (pos b) [byte]) (pos b + 1) (size b) (write b) (error b), 1) in
    if pos b + 1 >? size b then
      match write b with
      | write_NULL => (b, 0)
      | write_memory => let b := call_write b 1 in if error b then (b, 0) else put b
      end
    else put b.

Definition writen (b : buffer_t) (bs : list Z) : buffer_t * Z :=
  if error b then (b, 0)
  else
    let n := zlen bs in
    let put b := (Buffer (write_at (data b) (pos b) bs) (pos b + n) (size b) (write b) (error b), n) in
    if pos b + n >? size b then
      match write b with
      | write_NULL => (b, 0)
      | write_memory => let b := call_write b n in if error b then (b, 0) else put b
      end
    else put b.

End Write.

(** ** The output device a buffer implements

    Seen from outside, a buffer is the list of bytes written so far and a
    capacity: none when the block grows, the size of the block otherwise. A
    write appends its bytes, all of them or none. *)

Definition contents (b : buffer_t) : list Z := take (Z.to_nat (pos b)) (data b).

Definition capacity (b : buffer_t) : option Z :=
  match write b with write_NULL => Some (size b) | write_memory => None end.

Definition emit (cap : option Z) (out bs : list Z) : list Z :=
  match cap with
  | None => out ++ bs
  | Some c => if zlen out + zlen bs <=? c then out ++ bs else out
  end.

Definition emit_all (cap : option Z) (out : list Z) (chunks : list (list Z)) : list Z :=
  foldl (emit cap) out chunks.

Record wf (b : buffer_t) : Prop := {
  wf_error : error b = false;
  wf_pos : 0 <= pos b <= size b;
  wf_data : zlen (data b) = size b
}.

(** [Emits b chunks b']: from [b], the writes [chunks] lead to [b']. *)
Record Emits (b : buffer_t) (chunks : list (list Z)) (b' : buffer_t) : Prop := {
  emits_wf : wf b';
  emits_capacity : capacity b' = capacity b;
  emits_contents : contents b' = emit_all (capacity b) (contents b) chunks
}.

Create HintDb buffer.
#[export] Hint Constructors wf : buffer.

Lemma wf_empty : wf empty_memory_buffer.
Proof. done. Qed.

Lemma wf_string str : wf (string_buffer str (zlen str)).
Proof. split; simpl; lia. Qed.

#[export] Hint Resolve wf_empty wf_string : buffer.

Lemma length_contents b : wf b -> zlen (contents b) = pos b.
Proof. intros [_ Hp Hd]. unfold contents. rewrite length_take. lia. Qed.

Lemma emit_all_app cap out c1 c2 :
  emit_all cap out (c1 ++ c2) = emit_all cap (emit_all cap out c1) c2.
Proof. apply foldl_app. Qed.

Lemma emit_all_grow out chunks : emit_all None out chunks = out ++ concat chunks.
Proof.
  revert out. induction chunks as [|c cs IH]; intros out; simpl; [by rewrite app_nil_r|].
  change (emit_all None (out ++ c) cs = out ++ c ++ concat cs). by rewrite IH, app_assoc.
Qed.

Lemma Emits_nil b : wf b -> Emits b [] b.
Proof. by split. Qed.

Lemma Emits_app b1 b2 b3 c1 c2 :
  Emits b1 c1 b2 -> Emits b2 c2 b3 -> Emits b1 (c1 ++ c2) b3.
Proof.
  intros [W1 P1 C1] [W2 P2 C2]. split; [done|congruence|].
  rewrite C2, C1, P1. by rewrite emit_all_app.
Qed.

Lemma Emits_cons b1 b2 b3 c cs :
  Emits b1 [c] b2 -> Emits b2 cs b3 -> Emits b1 (c :: cs) b3.
Proof. apply (Emits_app b1 b2 b3 [c] cs). Qed.

Lemma grow_room fuel need p sz :
  p <= sz -> 0 < sz -> need <= Z.of_nat fuel + (sz - p) ->
  sz <= grow fuel need p sz /\ need <= grow fuel need p sz - p.
Proof.
  revert sz. induction fuel as [|fuel IH]; intros sz Hp Hs Hn; simpl; [lia|].
  destruct (need >? sz - p) eqn:E; [|lia].
  specialize (IH (sz * 2)). lia.
Qed.

Section WriteLemmas.
Context {A : Allocator} (alloc_ok : forall n, malloc_ok n = true).

(** Making room keeps the bytes written and leaves space for [n] more. *)
Lemma memory_buffer_write_room b n :
  wf b -> write b = write_memory -> pos b + n > size b -> 0 < n ->
  let b' := call_write b n in
  wf b' /\ write b' = write_memory /\ pos b' = pos b /\ contents b' = contents b /\
  pos b' + n <= size b'.
Proof.
  intros [We Wp Wd] Hw Hn Hn0. unfold call_write, memory_buffer_write.
  rewrite Hw, We. replace (n =? 0) with false by lia.
  destruct (size b =? 0) eqn:Hs; rewrite alloc_ok; simpl.
  - destruct (grow_room (Z.to_nat n) n 0 64); [lia..|].
    assert (pos b = 0) by lia.
    repeat split; simpl; rewrite ?length_replicate; try lia.
    unfold contents; simpl. by replace (pos b) with 0 by lia.
  - destruct (grow_room (Z.to_nat n) n (pos b) (size b)); [lia..|].
    repeat split; simpl; rewrite ?length_app, ?length_replicate; try lia.
    unfold contents; simpl. apply take_app_le. lia.
Qed.

(** Storing bytes that fit appends them to the contents. *)
Lemma put_contents b bs :
  wf b -> pos b + zlen bs <= size b ->
  let b' := Buffer (write_at (data b) (pos b) bs) (pos b + zlen bs) (size b) (write b) (error b) in
  wf b' /\ contents b' = contents b ++ bs.
Proof.
  intros [We Wp Wd] Hn. split.
  - split; simpl; [done|lia|]. rewrite length_write_at; lia.
  - unfold contents; simpl. apply take_write_at; lia.
Qed.

Lemma writen_Emits b bs : wf b -> Emits b [bs] (writen b bs).1.
Proof.
  intros W. pose proof W as [We Wp Wd]. unfold writen. rewrite We.
  destruct (pos b + zlen bs >? size b) eqn:Hf.
  - destruct (write b) eqn:Hw.
    + split; [done|done|]. unfold emit_all, emit, capacity; simpl. rewrite Hw.
      rewrite length_contents by done. by replace (pos b + zlen bs <=? size b) with false by lia.
    + destruct (memory_buffer_write_room b (zlen bs)) as (W' & Hw' & Hp & Hc & Hr); [done..|lia|lia|].
      rewrite (wf_error _ W'). edestruct (put_contents (call_write b (zlen bs)) bs) as [Wb Cb]; [done|lia|].
      simpl. rewrite (wf_error _ W') in *. split; [done| |].
      * unfold capacity; simpl. by rewrite Hw', Hw.
      * rewrite Cb, Hc. unfold emit_all, emit, capacity; simpl. by rewrite Hw.
  - edestruct (put_contents b bs) as [Wb Cb]; [done|lia|]. rewrite We in *. simpl.
    split; [done|done|]. rewrite Cb. unfold emit_all, emit, capacity; simpl.
    destruct (write b); [|done]. rewrite length_contents by done.
    by replace (pos b + zlen bs <=? size b) with true by lia.
Qed.

Lemma writebyte_writen b c : writebyte b c = writen b [c].
Proof. done. Qed.

Lemma writebyte_Emits b c : wf b -> Emits b [[c]] (writebyte b c).1.
Proof. rewrite writebyte_writen. apply writen_Emits. Qed.

End WriteLemmas.

#[export] Hint Resolve writen_Emits writebyte_Emits Emits_nil : buffer.

(** ** Reading

    What a reader sees of a buffer is [rest]: the bytes from the cursor to the
    end of the string, or to [size] when a field width makes it smaller. *)

Definition rest (b : buffer_t) : list Z :=
  take (Z.to_nat (size b - pos b)) (current b).

Record readable (b : buffer_t) : Prop := {
  rd_error : error b = false;
  rd_pos : 0 <= pos b
}.

#[export] Hint Constructors readable : buffer.

Lemma wf_readable b : wf b -> readable b.
Proof. intros [? ? ?]. split; [done|lia]. Qed.

Lemma readable_step b : readable b -> readable (set_pos b (pos b + 1)).
Proof. intros [? ?]. split; simpl; [done|lia]. Qed.

#[export] Hint Resolve wf_readable readable_step : buffer.

Lemma rest_string str : rest (string_buffer str (zlen str)) = str.
Proof.
  unfold rest, current; simpl. rewrite drop_0. apply take_ge. lia.
Qed.

Lemma peekbyte_rest b k : readable b -> 0 <= k -> peekbyte b k = byte_at (rest b) k.
Proof.
  intros [He Hp] Hk. unfold peekbyte, rest, current, byte_at. rewrite He.
  destruct (pos b + k >=? size b) eqn:E.
  - by rewrite lookup_take_ge by lia.
  - rewrite lookup_take_lt, lookup_drop by lia. do 2 f_equal. lia.
Qed.

Lemma rest_cons b x s : readable b -> rest b = x :: s ->
  readbyte b = (x, set_pos b (pos b + 1)) /\ rest (set_pos b (pos b + 1)) = s /\
  pos b < zlen (data b).
Proof.
  intros [He Hp] Hr. unfold rest, current in *. simpl.
  assert (zlen (x :: s) <= size b - pos b /\ pos b < zlen (data b)) as [Hs Hl].
  { rewrite <- Hr, length_take, length_drop.
    apply (f_equal length) in Hr. rewrite length_take, length_drop in Hr. simpl in Hr. lia. }
  simpl in Hs. unfold readbyte. rewrite He. replace (pos b + 1 >? size b) with false by lia.
  assert (data b !! Z.to_nat (pos b) = Some x) as Hx.
  { apply (f_equal (.!! 0%nat)) in Hr. rewrite lookup_take_lt, lookup_drop in Hr by lia.
    simpl in Hr. by rewrite Nat.add_0_r in Hr. }
  split; [unfold byte_at; by rewrite Hx|]. split; [|done].
  rewrite (drop_S _ _ _ Hx) in Hr.
  replace (Z.to_nat (size b - pos b)) with (S (Z.to_nat (size b - (pos b + 1)))) in Hr by lia.
  simpl in Hr. replace (Z.to_nat (pos b + 1)) with (S (Z.to_nat (pos b))) by lia. congruence.
Qed.

(** A visible byte that is not NUL is really there. *)
Lemma peekbyte_cons b : readable b -> peekbyte b 0 <> 0 ->
  exists s, rest b = peekbyte b 0 :: s.
Proof.
  intros R. rewrite peekbyte_rest by (done || lia).
  destruct (rest b) as [|x s]; [done|]. intros _. by exists s.
Qed.

Lemma set_pos_set_pos b p q : set_pos (set_pos b p) q = set_pos b q.
Proof. done. Qed.

Lemma set_pos_id b : set_pos b (pos b) = b.
Proof. by destruct b. Qed.

Lemma set_pos_readable b p : readable b -> 0 <= p -> readable (set_pos b p).
Proof. intros [? ?]. by split. Qed.

#[export] Hint Resolve set_pos_readable : buffer.

(** Moving the cursor over a visible prefix. *)
Lemma rest_app b ds tl : readable b -> rest b = ds ++ tl ->
  rest (set_pos b (pos b + zlen ds)) = tl.
Proof.
  revert b. induction ds as [|d ds IH]; intros b R Hr; simpl in Hr.
  - simpl. by rewrite Z.add_0_r, set_pos_id.
  - destruct (rest_cons b d (ds ++ tl)) as (_ & Hr' & _); [done..|].
    apply IH in Hr'; [|auto with buffer]. simpl in Hr'. rewrite set_pos_set_pos in Hr'.
    rewrite <- Hr'. do 2 f_equal. simpl. lia.
Qed.

Lemma rest_length b : readable b -> (length (rest b) <= length (data b))%nat.
Proof. intros _. unfold rest, current. rewrite length_take, length_drop. lia. Qed.
