(* ===== verification/Convert.v ===== *)
(** * Numbers and their text

    The integer conversions of src/internal/convert.c, with the per-width
    wrappers of include/internal/convert.h. A [*_to_*] function writes digits
    to the caller's buffer and returns their number: here it returns the list
    of bytes written. The digits go through a [temp] array of 32 bytes; a
    store past its end is undefined behaviour and gives [None]. A [*_from_*]
    function consumes digits at the cursor of a buffer and returns the buffer,
    the value and the number of bytes consumed. *)

From S2P Require Import Prelude Buffer.

(** ** Flags of the conversions *)

Definition CONVERT_FORCE_SIGN : Z := 0x10.
Definition CONVERT_GROUP_DIGITS : Z := 0x40.

Definition TO_LOWER (x : Z) : Z := Z.lor x 0x20.
Definition IS_DIGIT (x : Z) : bool := (x >=? ch "0") && (x <=? ch "9").

Definition hex_lower_table : list Z :=
  [ch "0"; ch "1"; ch "2"; ch "3"; ch "4"; ch "5"; ch "6"; ch "7"; ch "8"; ch "9";
   ch "a"; ch "b"; ch "c"; ch "d"; ch "e"; ch "f"].
Definition hex_upper_table : list Z :=
  [ch "0"; ch "1"; ch "2"; ch "3"; ch "4"; ch "5"; ch "6"; ch "7"; ch "8"; ch "9";
   ch "A"; ch "B"; ch "C"; ch "D"; ch "E"; ch "F"].

(** The 256-entry table, row by row. *)
Definition hex_to_nibble_table : list Z :=
  replicate 48 255 ++
  [0; 1; 2; 3; 4; 5; 6; 7; 8; 9; 255; 255; 255; 255; 255; 255] ++
  [255; 10; 11; 12; 13; 14; 15] ++ replicate 9 255 ++
  replicate 16 255 ++
  [255; 10; 11; 12; 13; 14; 15] ++ replicate 9 255 ++
  replicate 144 255.

(** ** Printing *)

(** [temp[pos++] = d] for [uint8_t temp[32]]. *)
Definition push (temp : list Z) (d : Z) : option (list Z) :=
  if (length temp <? 32)%nat then Some (temp ++ [d]) else None.

(** [for (i = 0; i < pos; ++i) buffer[i] = temp[(pos - i) - 1];] *)
Definition copy_back (temp : list Z) : list Z :=
  (fun i => byte_at temp ((zlen temp - i) - 1)) <$> seqZ 0 (zlen temp).

(** The [do { temp[pos++] = digit(x); x = next(x); } while (x != 0)] loop of the
    power-of-two radixes. A 64-bit [x] is zero after at most 64 rounds. *)
Fixpoint radix_loop (fuel : nat) (digit next : Z -> Z) (temp : list Z) (x : Z) : option (list Z) :=
  match fuel with
  | O => None
  | S fuel =>
      temp ← push temp (digit x);
      let x := next x in
      if x =? 0 then Some temp else radix_loop fuel digit next temp x
  end.

Definition uint_to_hex_common (upper : bool) (x : Z) : option (list Z) :=
  let table := if upper then hex_upper_table else hex_lower_table in
  temp ← radix_loop 64 (fun x => byte_at table (Z.land x 0x0F)) (fun x => Z.shiftr x 4) [] x;
  Some (copy_back temp).

Definition uint_to_oct_common (x : Z) : option (list Z) :=
  temp ← radix_loop 64 (fun x => Z.land x 0x07 + ch "0") (fun x => Z.shiftr x 3) [] x;
  Some (copy_back temp).

Definition uint_to_bin_common (x : Z) : option (list Z) :=
  temp ← radix_loop 64 (fun x => Z.land x 0x1 + ch "0") (fun x => Z.shiftr x 1) [] x;
  Some (copy_back temp).

(** The decimal loop; [sep] counts the digits since the last separator. *)
Fixpoint dec_loop (fuel : nat) (group : bool) (temp : list Z) (sep x : Z) : option (list Z) :=
  match fuel with
  | O => None
  | S fuel =>
      '(temp, sep) ←
        (if sep =? 3
         then (if group then temp ← push temp (ch ","); Some (temp, 0) else Some (temp, 0))
         else Some (temp, sep));
      temp ← push temp (x mod 10 + ch "0");
      let x := x / 10 in
      let sep := sep + 1 in
      if x =? 0 then Some temp else dec_loop fuel group temp sep x
  end.

Definition uint_to_dec_common (x flags : Z) : option (list Z) :=
  temp ← dec_loop 64 (has flags CONVERT_GROUP_DIGITS) [] 0 x;
  Some (copy_back temp).

Definition INT64_MIN : Z := -9223372036854775808.

(** ["-9223372036854775808"]. *)
Definition int64_min_text : list Z :=
  [ch "-"; ch "9"; ch "2"; ch "2"; ch "3"; ch "3"; ch "7"; ch "2"; ch "0"; ch "3";
   ch "6"; ch "8"; ch "5"; ch "4"; ch "7"; ch "7"; ch "5"; ch "8"; ch "0"; ch "8"].

Definition int_to_dec_common (x flags : Z) : option (list Z) :=
  if x =? INT64_MIN then Some int64_min_text
  else if x <? 0 then
    let x := swrap 64 (Z.lnot x + 1) in
    ds ← uint_to_dec_common (u64 x) flags; Some (ch "-" :: ds)
  else if has flags CONVERT_FORCE_SIGN then
    ds ← uint_to_dec_common (u64 x) flags; Some (ch "+" :: ds)
  else uint_to_dec_common (u64 x) flags.

(** [pointer_encode] on a 64-bit target: the bytes of the byte-swapped value
    in memory order, that is the bytes of [ptr] from the most significant. *)
Definition byteswap_uint64 (v : Z) : Z :=
  foldl (fun acc i => Z.lor (Z.shiftl acc 8) (Z.land (Z.shiftr v (8 * i)) 0xFF)) 0 (seqZ 0 8).

(** [((uint8_t * )&value)[i]] on a little-endian machine. *)
Definition le_byte (v i : Z) : Z := Z.land (Z.shiftr v (8 * i)) 0xFF.

Definition pointer_encode (ptr : Z) : list Z :=
  let value := byteswap_uint64 ptr in
  [ch "0"; ch "x"] ++
  concat ((fun i => [byte_at hex_lower_table (le_byte value i / 16);
                     byte_at hex_lower_table (le_byte value i mod 16)]) <$> seqZ 0 8).

(** ** Parsing *)

(** The digit loop of the power-of-two radixes: [digit] is the value of an
    accepted byte, [shift] the number of bits of a digit. Every round consumes
    a byte of the string, so its length bounds the rounds. *)
Fixpoint uint_from_loop (fuel : nat) (digit : Z -> option Z) (shift : Z)
    (b : buffer_t) (value count : Z) : buffer_t * Z * Z :=
  match fuel with
  | O => (b, value, count)
  | S fuel =>
      let byte := peekbyte b 0 in
      if byte =? 0 then (b, value, count)
      else
        match digit byte with
        | None => (b, value, count)
        | Some d =>
            uint_from_loop fuel digit shift (readbyte b).2
              (u64 (u64 (Z.shiftl value shift) + d)) (u32 (count + 1))
        end
  end.

(** More rounds than the string has bytes. *)
Definition fuel_of (b : buffer_t) : nat := S (length (data b)).

Definition hex_digit (byte : Z) : option Z :=
  let nibble := byte_at hex_to_nibble_table byte in
  if nibble =? 255 then None else Some nibble.

Definition oct_digit (byte : Z) : option Z :=
  if (byte >=? ch "0") && (byte <=? ch "7") then Some (byte - ch "0") else None.

Definition bin_digit (byte : Z) : option Z :=
  if (byte =? ch "0") || (byte =? ch "1") then Some (byte - ch "0") else None.

Definition uint_from_hex_common (b : buffer_t) : buffer_t * Z * Z :=
  uint_from_loop (fuel_of b) hex_digit 4 b 0 0.

Definition uint_from_oct_common (b : buffer_t) : buffer_t * Z * Z :=
  uint_from_loop (fuel_of b) oct_digit 3 b 0 0.

Definition uint_from_bin_common (b : buffer_t) : buffer_t * Z * Z :=
  uint_from_loop (fuel_of b) bin_digit 1 b 0 0.

Record digit_parse_state := DigitState {
  period : Z;
  grouping : bool;
  fraction : bool;
  flags : Z
}.

(** [parse_digits]: the next digit of the number, or 0 at its end; [goto begin]
    is the recursive call. *)
Fixpoint parse_digits (fuel : nat) (st : digit_parse_state) (b : buffer_t) (count : Z)
    : Z * digit_parse_state * buffer_t * Z :=
  match fuel with
  | O => (0, st, b, count)
  | S fuel =>
  let byte := peekbyte b 0 in
  if byte =? 0 then (0, st, b, count)
  else if IS_DIGIT byte then
    if grouping st && (period st =? 3) then (0, st, b, count)
    else
      (byte, DigitState (u8 (period st + 1)) (grouping st) (fraction st) (flags st),
       (readbyte b).2, u32 (count + 1))
  else if (byte =? ch ",") && has (flags st) CONVERT_GROUP_DIGITS then
    (* consume trailing periods *)
    if peekbyte b 1 =? 0 then (0, st, (readbyte b).2, u32 (count + 1))
    else if fraction st then
      if negb (period st =? 3) then (0, st, b, count)
      else parse_digits fuel (DigitState 0 true (fraction st) (flags st)) (readbyte b).2 (u32 (count + 1))
    else if grouping st && negb (period st =? 3) then (0, st, b, count)
    else if negb (grouping st) && (period st >? 3) then (0, st, b, count)
    else
      let st := DigitState 0 true (fraction st) (flags st) in
      if IS_DIGIT (peekbyte b 1) && IS_DIGIT (peekbyte b 2) && IS_DIGIT (peekbyte b 3)
      then parse_digits fuel st (readbyte b).2 (u32 (count + 1))
      else (0, st, b, count)
  else (0, st, b, count)
  end.

(** The loop over [parse_digits]: [step] folds a digit into the value. *)
Fixpoint dec_digits_loop (fuel : nat) (step : Z -> Z -> Z) (st : digit_parse_state)
    (b : buffer_t) (value count : Z) : buffer_t * Z * Z :=
  match fuel with
  | O => (b, value, count)
  | S fuel =>
      let '(byte, st, b, count) := parse_digits (fuel_of b) st b count in
      if byte =? 0 then (b, value, count)
      else dec_digits_loop fuel step st b (step value byte) count
  end.

Definition uint_from_dec_common (b : buffer_t) (flags : Z) : buffer_t * Z * Z :=
  let state := DigitState 0 false false (u8 flags) in
  let '(b, count) :=
    if peekbyte b 0 =? ch "+" then ((readbyte b).2, 1) else (b, 0) in
  dec_digits_loop (fuel_of b) (fun v byte => u64 (u64 (v * 10) + (byte - ch "0"))) state b 0 count.

(** Signed overflow is two's-complement wrap-around here. *)
Definition int_from_dec_common (b : buffer_t) (flags : Z) : buffer_t * Z * Z :=
  let state := DigitState 0 false false (u8 flags) in
  let byte := peekbyte b 0 in
  let minus := byte =? ch "-" in
  let '(b, count) :=
    if (byte =? ch "+") || (byte =? ch "-") then ((readbyte b).2, 1) else (b, 0) in
  dec_digits_loop (fuel_of b)
    (fun v byte =>
       if minus then swrap 64 (swrap 64 (v * 10) - (byte - ch "0"))
       else swrap 64 (swrap 64 (v * 10) + (byte - ch "0")))
    state b 0 count.

Definition pointer_decode (b : buffer_t) : buffer_t * Z * Z :=
  if peekbyte b 0 =? ch "0" then
    let b := (readbyte b).2 in
    if TO_LOWER (peekbyte b 0) =? ch "x" then
      let b := (readbyte b).2 in
      let '(b, result, count) := uint_from_hex_common b in
      (b, result, u32 (2 + count))
    else (b, 0, 0)
  else (b, 0, 0).

(** ** The per-width wrappers

    The argument or the destination is narrowed to the type the wrapper's
    prototype gives it; [uintmax_t], [size_t] and [uintptr_t] have 64 bits. *)

Definition u8_to_hex (upper : bool) (x : Z) := uint_to_hex_common upper (u8 x).
Definition u16_to_hex (upper : bool) (x : Z) := uint_to_hex_common upper (u16 x).
Definition u32_to_hex (upper : bool) (x : Z) := uint_to_hex_common upper (u32 x).
Definition u64_to_hex (upper : bool) (x : Z) := uint_to_hex_common upper (u64 x).
Definition umax_to_hex (upper : bool) (x : Z) := uint_to_hex_common upper (u64 x).
Definition usize_to_hex (upper : bool) (x : Z) := uint_to_hex_common upper (u64 x).
Definition uptr_to_hex (upper : bool) (x : Z) := uint_to_hex_common upper (u64 x).

Definition u8_to_oct (x : Z) := uint_to_oct_common (u8 x).
Definition u16_to_oct (x : Z) := uint_to_oct_common (u16 x).
Definition u32_to_oct (x : Z) := uint_to_oct_common (u32 x).
Definition u64_to_oct (x : Z) := uint_to_oct_common (u64 x).
Definition umax_to_oct (x : Z) := uint_to_oct_common (u64 x).
Definition usize_to_oct (x : Z) := uint_to_oct_common (u64 x).
Definition uptr_to_oct (x : Z) := uint_to_oct_common (u64 x).

Definition u8_to_bin (x : Z) := uint_to_bin_common (u8 x).
Definition u16_to_bin (x : Z) := uint_to_bin_common (u16 x).
Definition u32_to_bin (x : Z) := uint_to_bin_common (u32 x).
Definition u64_to_bin (x : Z) := uint_to_bin_common (u64 x).
Definition umax_to_bin (x : Z) := uint_to_bin_common (u64 x).
Definition usize_to_bin (x : Z) := uint_to_bin_common (u64 x).
Definition uptr_to_bin (x : Z) := uint_to_bin_common (u64 x).

Definition u8_to_dec (x flags : Z) := uint_to_dec_common (u8 x) flags.
Definition u16_to_dec (x flags : Z) := uint_to_dec_common (u16 x) flags.
Definition u32_to_dec (x flags : Z) := uint_to_dec_common (u32 x) flags.
Definition u64_to_dec (x flags : Z) := uint_to_dec_common (u64 x) flags.
Definition umax_to_dec (x flags : Z) := uint_to_dec_common (u64 x) flags.
Definition usize_to_dec (x flags : Z) := uint_to_dec_common (u64 x) flags.
Definition uptr_to_dec (x flags : Z) := uint_to_dec_common (u64 x) flags.

Definition i8_to_dec (x flags : Z) := int_to_dec_common (swrap 8 x) flags.
Definition i16_to_dec (x flags : Z) := int_to_dec_common (swrap 16 x) flags.
Definition i32_to_dec (x flags : Z) := int_to_dec_common (swrap 32 x) flags.
Definition i64_to_dec (x flags : Z) := int_to_dec_common (swrap 64 x) flags.
Definition imax_to_dec (x flags : Z) := int_to_dec_common (swrap 64 x) flags.
Definition isize_to_dec (x flags : Z) := int_to_dec_common (swrap 64 x) flags.
Definition iptr_to_dec (x flags : Z) := int_to_dec_common (swrap 64 x) flags.

(** [*value = (uintN_t)result] and [*value = (intN_t)result]. *)
Definition narrow (w : Z) (r : buffer_t * Z * Z) : buffer_t * Z * Z :=
  let '(b, result, count) := r in (b, wrap w result, count).
Definition snarrow (w : Z) (r : buffer_t * Z * Z) : buffer_t * Z * Z :=
  let '(b, result, count) := r in (b, swrap w result, count).

Definition u8_from_hex (b : buffer_t) := narrow 8 (uint_from_hex_common b).
Definition u16_from_hex (b : buffer_t) := narrow 16 (uint_from_hex_common b).
Definition u32_from_hex (b : buffer_t) := narrow 32 (uint_from_hex_common b).
Definition u64_from_hex (b : buffer_t) := narrow 64 (uint_from_hex_common b).
Definition umax_from_hex (b : buffer_t) := narrow 64 (uint_from_hex_common b).
Definition usize_from_hex (b : buffer_t) := narrow 64 (uint_from_hex_common b).
Definition uptr_from_hex (b : buffer_t) := narrow 64 (uint_from_hex_common b).

Definition u8_from_oct (b : buffer_t) := narrow 8 (uint_from_oct_common b).
Definition u16_from_oct (b : buffer_t) := narrow 16 (uint_from_oct_common b).
Definition u32_from_oct (b : buffer_t) := narrow 32 (uint_from_oct_common b).
Definition u64_from_oct (b : buffer_t) := narrow 64 (uint_from_oct_common b).
Definition umax_from_oct (b : buffer_t) := narrow 64 (uint_from_oct_common b).
Definition usize_from_oct (b : buffer_t) := narrow 64 (uint_from_oct_common b).
Definition uptr_from_oct (b : buffer_t) := narrow 64 (uint_from_oct_common b).

Definition u8_from_bin (b : buffer_t) := narrow 8 (uint_from_bin_common b).
Definition u16_from_bin (b : buffer_t) := narrow 16 (uint_from_bin_common b).
Definition u32_from_bin (b : buffer_t) := narrow 32 (uint_from_bin_common b).
Definition u64_from_bin (b : buffer_t) := narrow 64 (uint_from_bin_common b).
Definition umax_from_bin (b : buffer_t) := narrow 64 (uint_from_bin_common b).
Definition usize_from_bin (b : buffer_t) := narrow 64 (uint_from_bin_common b).
Definition uptr_from_bin (b : buffer_t) := narrow 64 (uint_from_bin_common b).

Definition u8_from_dec (b : buffer_t) (flags : Z) := narrow 8 (uint_from_dec_common b flags).
Definition u16_from_dec (b : buffer_t) (flags : Z) := narrow 16 (uint_from_dec_common b flags).
Definition u32_from_dec (b : buffer_t) (flags : Z) := narrow 32 (uint_from_dec_common b flags).
Definition u64_from_dec (b : buffer_t) (flags : Z) := narrow 64 (uint_from_dec_common b flags).
Definition umax_from_dec (b : buffer_t) (flags : Z) := narrow 64 (uint_from_dec_common b flags).
Definition usize_from_dec (b : buffer_t) (flags : Z) := narrow 64 (uint_from_dec_common b flags).
Definition uptr_from_dec (b : buffer_t) (flags : Z) := narrow 64 (uint_from_dec_common b flags).

Definition i8_from_dec (b : buffer_t) (flags : Z) := snarrow 8 (int_from_dec_common b flags).
Definition i16_from_dec (b : buffer_t) (flags : Z) := snarrow 16 (int_from_dec_common b flags).
Definition i32_from_dec (b : buffer_t) (flags : Z) := snarrow 32 (int_from_dec_common b flags).
Definition i64_from_dec (b : buffer_t) (flags : Z) := snarrow 64 (int_from_dec_common b flags).
Definition imax_from_dec (b : buffer_t) (flags : Z) := snarrow 64 (int_from_dec_common b flags).
Definition isize_from_dec (b : buffer_t) (flags : Z) := snarrow 64 (int_from_dec_common b flags).
Definition iptr_from_dec (b : buffer_t) (flags : Z) := snarrow 64 (int_from_dec_common b flags).
