(* ===== verification/ConvertFacts.v ===== *)
(** * Correctness of the number conversions

    Printing writes the positional numeral of the value, parsing reads it
    back; the numeral of a number in a base is unique, so this fixes the text
    completely. *)

From S2P Require Import Prelude Buffer Convert.

(** ** Numerals *)

(** The value of a list of digits, most significant first. *)
Definition of_digits (base : Z) (ds : list Z) : Z :=
  foldl (fun v d => v * base + d) 0 ds.

(** [ds] is the numeral of [x]: digits below the base, no leading zero. *)
Record numeral (base x : Z) (ds : list Z) : Prop := {
  num_value : of_digits base ds = x;
  num_digits : Forall (fun d => 0 <= d < base) ds;
  num_canonical : ds = [0] \/ exists d ds', ds = d :: ds' /\ d <> 0
}.

(** The digits of [x], least significant first. *)
Fixpoint le_digits (fuel : nat) (base x : Z) : list Z :=
  match fuel with
  | O => []
  | S fuel => x mod base :: (if x / base =? 0 then [] else le_digits fuel base (x / base))
  end.

Definition digits (base x : Z) : list Z := reverse (le_digits 64 base x).

Lemma foldl_digits_app base v ds es :
  foldl (fun v d => v * base + d) v (ds ++ es) =
  foldl (fun v d => v * base + d) v ds * base ^ zlen es + of_digits base es.
Proof.
  unfold of_digits. revert v ds. induction es as [|e es IH] using rev_ind; intros v ds.
  - rewrite app_nil_r. simpl. lia.
  - rewrite app_assoc, !foldl_app. simpl. rewrite <- foldl_app, IH, length_app. simpl.
    rewrite Nat2Z.inj_add, Z.pow_add_r by lia. lia.
Qed.

Lemma of_digits_app base ds es :
  of_digits base (ds ++ es) = of_digits base ds * base ^ zlen es + of_digits base es.
Proof. apply foldl_digits_app. Qed.

Lemma of_digits_cons base d ds :
  of_digits base (d :: ds) = d * base ^ zlen ds + of_digits base ds.
Proof. apply (of_digits_app base [d] ds). Qed.

Lemma of_digits_bound base ds :
  1 < base -> Forall (fun d => 0 <= d < base) ds -> 0 <= of_digits base ds < base ^ zlen ds.
Proof.
  intros Hb. induction 1 as [|d ds Hd _ IH]; [unfold of_digits; simpl; lia|].
  rewrite of_digits_cons. cbn [length]. rewrite Nat2Z.inj_succ, Z.pow_succ_r by lia. nia.
Qed.

Lemma le_digits_numeral base fuel k x :
  1 < base -> 0 <= x < base ^ Z.of_nat k -> (0 < k <= fuel)%nat ->
  numeral base x (reverse (le_digits fuel base x)) /\ (length (le_digits fuel base x) <= k)%nat.
Proof.
  intros Hb. revert k x. induction fuel as [|fuel IH]; intros k x Hx Hk; [lia|].
  simpl. pose proof (Z.div_mod x base) as E. pose proof (Z.mod_pos_bound x base) as M.
  destruct (x / base =? 0) eqn:Q.
  - split; [|simpl; lia]. assert (x mod base = x) by lia. split; simpl.
    + unfold of_digits; simpl. lia.
    + by repeat constructor; lia.
    + destruct (decide (x = 0)) as [->|]; [left; by rewrite Z.mod_0_l by lia|right].
      exists x, []. split; [|done]. change (reverse [x mod base]) with [x mod base]. congruence.
  - destruct k as [|[|k]]; [lia| |].
    { exfalso. change (Z.of_nat 1) with 1 in Hx. rewrite Z.pow_1_r in Hx.
      rewrite Z.div_small in Q by lia. done. }
    assert (0 <= x / base < base ^ Z.of_nat (S k)) as Hq.
    { split; [apply Z.div_pos; lia|]. apply Z.div_lt_upper_bound; [lia|].
      rewrite <- Z.pow_succ_r by lia. replace (Z.succ (Z.of_nat (S k))) with (Z.of_nat (S (S k))) by lia. lia. }
    destruct (IH (S k) (x / base) Hq) as [[Hv Hd Hc] Hl]; [lia|]. split; [|simpl; lia].
    rewrite reverse_cons. split.
    + rewrite of_digits_app, Hv. unfold of_digits; simpl. lia.
    + apply Forall_app. split; [done|]. repeat constructor; lia.
    + right. destruct Hc as [Hc|(d & ds & -> & Hd0)].
      * rewrite Hc in Hv. unfold of_digits in Hv; simpl in Hv. lia.
      * exists d, (ds ++ [x mod base]). done.
Qed.

Lemma of_digits_inj base ds es :
  1 < base -> length ds = length es ->
  Forall (fun d => 0 <= d < base) ds -> Forall (fun d => 0 <= d < base) es ->
  of_digits base ds = of_digits base es -> ds = es.
Proof.
  intros Hb. revert es. induction ds as [|d ds IH]; intros [|e es] HL Hd He HV; try done.
  apply Forall_cons in Hd as [Hd Hds]. apply Forall_cons in He as [He Hes].
  rewrite !of_digits_cons in HV. injection HL as HL.
  pose proof (of_digits_bound base ds Hb Hds). pose proof (of_digits_bound base es Hb Hes).
  replace (zlen es) with (zlen ds) in * by lia.
  assert (d = e) as -> by nia. f_equal. apply IH; [done..|lia].
Qed.

Lemma numeral_length_le base x ds es :
  1 < base -> numeral base x ds -> numeral base x es -> (length ds <= length es)%nat.
Proof.
  intros Hb [V1 D1 C1] [V2 D2 C2].
  destruct C1 as [->|(d & ds' & -> & Hd)]; [destruct C2 as [->|(?&?&->&?)]; simpl; lia|].
  apply Forall_cons in D1 as [Hd1 D1].
  pose proof (of_digits_bound base es Hb D2). pose proof (of_digits_bound base ds' Hb D1).
  rewrite of_digits_cons in V1. apply Nat.nlt_ge. intros Hlt. simpl in Hlt.
  assert (base ^ zlen es <= base ^ zlen ds') by (apply Z.pow_le_mono_r; lia). nia.
Qed.

(** A number has one numeral. *)
Lemma numeral_unique base x ds es :
  1 < base -> numeral base x ds -> numeral base x es -> ds = es.
Proof.
  intros Hb N1 N2. apply (of_digits_inj base).
  - done.
  - apply Nat.le_antisymm; by eapply numeral_length_le.
  - apply N1.
  - apply N2.
  - by rewrite (num_value _ _ _ N1), (num_value _ _ _ N2).
Qed.

(** ** Printing in a power-of-two radix *)

Lemma copy_back_reverse temp : copy_back temp = reverse temp.
Proof.
  apply list_eq. intros i. unfold copy_back.
  rewrite list_lookup_fmap. destruct (decide (i < length temp)%nat) as [Hi|Hi].
  - rewrite lookup_seqZ_lt by lia. simpl. rewrite reverse_lookup by done. unfold byte_at.
    replace (Z.to_nat (zlen temp - (0 + Z.of_nat i) - 1)) with (length temp - S i)%nat by lia.
    destruct (lookup_lt_is_Some_2 temp (length temp - S i)) as [y ->]; [lia|done].
  - rewrite lookup_seqZ_ge by lia. rewrite lookup_ge_None_2; [done|]. rewrite length_reverse. lia.
Qed.

Section Radix.
Context (base : Z) (dig digit next : Z -> Z) (base_gt : 1 < base).
Hypothesis digit_eq : forall x, digit x = dig (x mod base).
Hypothesis next_eq : forall x, next x = x / base.

(** Within the 32 bytes of [temp], the loop produces the digits. *)
Lemma radix_loop_digits fuel k temp x :
  0 <= x < base ^ Z.of_nat k -> (0 < k <= fuel)%nat -> (length temp + k <= 32)%nat ->
  radix_loop fuel digit next temp x = Some (temp ++ (dig <$> le_digits fuel base x)).
Proof.
  revert k temp x. induction fuel as [|fuel IH]; intros k temp x Hx Hk Ht; [lia|].
  simpl. unfold push. replace (length temp <? 32)%nat with true by (symmetry; apply Nat.ltb_lt; lia).
  simpl. rewrite next_eq, digit_eq. destruct (x / base =? 0) eqn:Q; [done|].
  destruct k as [|[|k]]; [lia| |].
  { exfalso. change (Z.of_nat 1) with 1 in Hx. rewrite Z.pow_1_r in Hx.
    rewrite Z.div_small in Q by lia. done. }
  rewrite (IH (S k)); [by rewrite <- app_assoc| |lia|rewrite length_app; simpl; lia].
  split; [apply Z.div_pos; lia|]. apply Z.div_lt_upper_bound; [lia|].
  rewrite <- Z.pow_succ_r by lia. replace (Z.succ (Z.of_nat (S k))) with (Z.of_nat (S (S k))) by lia. lia.
Qed.

(** Past them, it stores out of bounds. *)
Lemma radix_loop_overflow fuel temp x :
  base ^ (32 - zlen temp) <= x -> (length temp <= 32)%nat ->
  radix_loop fuel digit next temp x = None.
Proof.
  revert temp x. induction fuel as [|fuel IH]; intros temp x Hx Ht; [done|].
  simpl. unfold push. destruct (length temp <? 32)%nat eqn:E; [|done].
  apply Nat.ltb_lt in E. simpl. rewrite next_eq.
  replace (32 - zlen temp) with (Z.succ (31 - zlen temp)) in Hx by lia.
  rewrite Z.pow_succ_r in Hx by lia.
  assert (base ^ (31 - zlen temp) <= x / base) as Hq by (apply Z.div_le_lower_bound; lia).
  assert (0 < base ^ (31 - zlen temp)) by (apply Z.pow_pos_nonneg; lia).
  replace (x / base =? 0) with false by lia.
  apply IH; rewrite length_app; simpl; [|lia]. by replace (32 - Z.of_nat (length temp + 1)) with (31 - zlen temp) by lia.
Qed.

End Radix.

Definition hex_char (upper : bool) (d : Z) : Z :=
  byte_at (if upper then hex_upper_table else hex_lower_table) d.

Lemma radix_digits base dig digit next k x :
  1 < base -> (forall x, digit x = dig (x mod base)) -> (forall x, next x = x / base) ->
  0 <= x < base ^ Z.of_nat k -> (0 < k <= 32)%nat ->
  (temp ← radix_loop 64 digit next [] x; Some (copy_back temp)) = Some (dig <$> digits base x).
Proof.
  intros Hb Hd Hn Hx Hk. rewrite (radix_loop_digits base dig) with (k := k); [|done..|lia|simpl; lia].
  unfold digits. cbv [mbind option_bind]. by rewrite copy_back_reverse, fmap_reverse.
Qed.

Lemma uint_to_hex_digits upper x :
  is_u64 x -> uint_to_hex_common upper x = Some (hex_char upper <$> digits 16 x).
Proof.
  intros Hx. unfold uint_to_hex_common.
  rewrite (radix_digits 16 (hex_char upper) _ _ 16); [done|done| | |simpl; lia|lia]; intros y.
  - unfold hex_char. f_equal. apply (land_mask y 4). lia.
  - by rewrite Z.shiftr_div_pow2.
Qed.

Lemma uint_to_oct_digits x :
  is_u64 x -> uint_to_oct_common x = Some ((fun d => d + ch "0") <$> digits 8 x).
Proof.
  intros Hx. unfold uint_to_oct_common.
  rewrite (radix_digits 8 (fun d => d + ch "0") _ _ 22); [done|done| | |simpl; lia|lia]; intros y.
  - f_equal. apply (land_mask y 3). lia.
  - by rewrite Z.shiftr_div_pow2.
Qed.

Lemma uint_to_bin_digits x :
  is_u32 x -> uint_to_bin_common x = Some ((fun d => d + ch "0") <$> digits 2 x).
Proof.
  intros Hx. unfold uint_to_bin_common.
  rewrite (radix_digits 2 (fun d => d + ch "0") _ _ 32); [done|done| | |simpl; lia|lia]; intros y.
  - f_equal. apply (land_mask y 1). lia.
  - by rewrite Z.shiftr_div_pow2.
Qed.

Lemma uint_to_bin_overflow x : 4294967296 <= x -> uint_to_bin_common x = None.
Proof.
  intros Hx. unfold uint_to_bin_common.
  rewrite (radix_loop_overflow 2); [done|done| |done|simpl; lia]; intros y.
  by rewrite Z.shiftr_div_pow2.
Qed.

(** ** Parsing in a power-of-two radix *)

(** [tl] does not continue a number whose digits are the bytes [digit] accepts. *)
Definition ends (digit : Z -> option Z) (tl : list Z) : Prop :=
  byte_at tl 0 = 0 \/ digit (byte_at tl 0) = None.

Lemma uint_from_loop_digits digit shift fuel b cs ns tl v count :
  0 < shift -> readable b -> rest b = cs ++ tl ->
  Forall2 (fun c n => c <> 0 /\ digit c = Some n) cs ns -> ends digit tl ->
  (length cs < fuel)%nat -> is_u64 v -> is_u32 count ->
  uint_from_loop fuel digit shift b v count =
    (set_pos b (pos b + zlen cs),
     u64 (v * (2 ^ shift) ^ zlen cs + of_digits (2 ^ shift) ns),
     u32 (count + zlen cs)).
Proof.
  intros Hs. revert fuel b ns v count.
  induction cs as [|c cs IH]; intros fuel b ns v count R Hr Hd He Hf Hv Hc.
  - inversion Hd; subst ns. destruct fuel as [|fuel]; [simpl in Hf; lia|]. simpl in *.
    rewrite Z.add_0_r, set_pos_id. change (of_digits (2 ^ shift) []) with 0.
    rewrite Z.mul_1_r, !Z.add_0_r, (wrap_small 64 v), (wrap_small 32 count) by lia.
    rewrite (peekbyte_rest b 0), Hr by (done || lia).
    destruct He as [->| ->]; [done|]. by destruct (_ =? _).
  - inversion Hd as [|? n ? ns' [Hc0 Hn] Hd']; subst ns. clear Hd. rename ns' into ns.
    destruct fuel as [|fuel]; [simpl in Hf; lia|]. simpl in Hf, Hr.
    destruct (rest_cons b c (cs ++ tl)) as (Hrd & Hr' & _); [done..|].
    simpl. rewrite (peekbyte_rest b 0), Hr, byte_at_cons_0 by (done || lia).
    replace (c =? 0) with false by lia. rewrite Hn, Hrd. cbn [snd].
    rewrite (IH _ _ ns); [|auto with buffer|done|done|done|lia| |].
    + rewrite set_pos_set_pos. cbn [pos set_pos]. f_equal; [f_equal|].
      * f_equal. lia.
      * rewrite of_digits_cons, <- (Forall2_length _ _ _ Hd').
        rewrite Z.shiftl_mul_pow2 by lia. rewrite wrap_add_l, wrap_mul_add.
        f_equal. rewrite Nat2Z.inj_succ, Z.pow_succ_r by lia. nia.
      * rewrite wrap_add_l. f_equal. lia.
    + apply (wrap_range 64). lia.
    + apply (wrap_range 32). lia.
Qed.

(** Reading back a numeral that was printed with the digits [dig]. *)
Lemma uint_from_loop_numeral digit dig shift b x ds tl :
  0 < shift -> readable b -> is_u64 x -> numeral (2 ^ shift) x ds ->
  (forall d, 0 <= d < 2 ^ shift -> dig d <> 0 /\ digit (dig d) = Some d) ->
  rest b = (dig <$> ds) ++ tl -> ends digit tl -> zlen ds < 4294967296 ->
  uint_from_loop (fuel_of b) digit shift b 0 0 = (set_pos b (pos b + zlen ds), x, zlen ds).
Proof.
  intros Hs R Hx [Hv Hd _] Hdig Hr He Hl.
  rewrite (uint_from_loop_digits digit shift _ b (dig <$> ds) ds tl); try done.
  - rewrite length_fmap, Z.mul_0_l, Z.add_0_l, Hv, !wrap_small by lia. done.
  - apply Forall2_fmap_l, Forall2_same_length_lookup. split; [done|].
    intros i d e H1 H2. assert (d = e) as -> by congruence. apply Hdig.
    exact (Forall_lookup_1 _ _ _ _ Hd H2).
  - apply rest_length in R. rewrite Hr, length_app in R. unfold fuel_of. lia.
Qed.

Lemma digits_numeral base x : 1 < base -> is_u64 x -> numeral base x (digits base x).
Proof.
  intros Hb Hx. apply (le_digits_numeral base 64 64); [done| |lia].
  split; [lia|]. apply Z.lt_le_trans with (2 ^ 64); [lia|]. apply (Z.pow_le_mono_l 2 base). lia.
Qed.

Lemma length_digits base k x :
  1 < base -> 0 <= x < base ^ Z.of_nat k -> (0 < k <= 64)%nat -> (length (digits base x) <= k)%nat.
Proof.
  intros Hb Hx Hk. unfold digits. rewrite length_reverse.
  by apply (le_digits_numeral base 64 k).
Qed.

Lemma hex_char_digit upper d :
  0 <= d < 2 ^ 4 -> hex_char upper d <> 0 /\ hex_digit (hex_char upper d) = Some d.
Proof.
  intros Hd. assert (d ∈ seqZ 0 16) as Hin by (apply elem_of_seqZ; lia).
  clear Hd. revert d Hin. apply Forall_forall. destruct upper; repeat constructor; done.
Qed.

Lemma oct_char_digit d : 0 <= d < 2 ^ 3 -> d + ch "0" <> 0 /\ oct_digit (d + ch "0") = Some d.
Proof.
  intros Hd. split; [lia|]. unfold oct_digit.
  replace (d + 48 >=? 48) with true by lia. replace (d + 48 <=? 55) with true by lia.
  simpl. f_equal. lia.
Qed.

Lemma bin_char_digit d : 0 <= d < 2 ^ 1 -> d + ch "0" <> 0 /\ bin_digit (d + ch "0") = Some d.
Proof.
  intros Hd. split; [lia|]. unfold bin_digit.
  assert (d = 0 \/ d = 1) as [-> | ->] by lia; done.
Qed.

(** ** Decimal text *)

(** What [dec_loop] appends for the digits [ds], least significant first. *)
Fixpoint le_group (group : bool) (sep : Z) (ds : list Z) : list Z :=
  match ds with
  | [] => []
  | d :: ds =>
      (if (sep =? 3) && group then [ch ","] else []) ++
      (d + ch "0") :: le_group group ((if sep =? 3 then 0 else sep) + 1) ds
  end.

Lemma dec_loop_digits fuel k group temp sep x :
  0 <= x < 10 ^ Z.of_nat k -> (0 < k <= fuel)%nat ->
  (length temp + length (le_group group sep (le_digits fuel 10 x)) <= 32)%nat ->
  dec_loop fuel group temp sep x = Some (temp ++ le_group group sep (le_digits fuel 10 x)).
Proof.
  revert k temp sep x. induction fuel as [|fuel IH]; intros k temp sep x Hx Hk Ht; [lia|].
  simpl in *. rewrite length_app in Ht. simpl in Ht.
  assert (forall t d, (length t < 32)%nat -> push t d = Some (t ++ [d])) as Hpush.
  { intros t d Hl. unfold push. apply Nat.ltb_lt in Hl. by rewrite Hl. }
  set (comma := if (sep =? 3) && group then [ch ","] else []) in *.
  set (sep' := if sep =? 3 then 0 else sep) in *.
  assert ((if sep =? 3
     then (if group then temp ← push temp (ch ","); Some (temp, 0) else Some (temp, 0))
     else Some (temp, sep)) = Some (temp ++ comma, sep')) as ->.
  { subst comma sep'. destruct (sep =? 3), group; simpl in *; rewrite ?app_nil_r; try done.
    by rewrite Hpush by lia. }
  simpl. rewrite Hpush by (rewrite length_app; lia). simpl.
  destruct (x / 10 =? 0) eqn:Q; [by rewrite <- app_assoc|].
  destruct k as [|[|k]]; [lia| |].
  { exfalso. change (10 ^ Z.of_nat 1) with 10 in Hx. rewrite Z.div_small in Q by lia. done. }
  rewrite (IH (S k)).
  - by rewrite <- !app_assoc.
  - split; [apply Z.div_pos; lia|]. apply Z.div_lt_upper_bound; [lia|].
    rewrite <- Z.pow_succ_r by lia. replace (Z.succ (Z.of_nat (S k))) with (Z.of_nat (S (S k))) by lia. lia.
  - lia.
  - rewrite !length_app. simpl. lia.
Qed.

(** The text, most significant digit first: after a digit comes a comma when
    a positive multiple of three digits follows. [n] more digits follow [ds]. *)
Definition comma (group : bool) (n : nat) : list Z :=
  if group && negb (n =? 0)%nat && (n mod 3 =? 0)%nat then [ch ","] else [].

Fixpoint be_group (group : bool) (n : nat) (ds : list Z) : list Z :=
  match ds with
  | [] => []
  | d :: ds => (d + ch "0") :: comma group (n + length ds) ++ be_group group n ds
  end.

Lemma be_group_snoc group n ds d :
  be_group group n (ds ++ [d]) = be_group group (S n) ds ++ (d + ch "0") :: comma group n.
Proof.
  induction ds as [|e ds IH]; simpl; [by rewrite Nat.add_0_r, app_nil_r|].
  rewrite IH, length_app. simpl. rewrite <- app_assoc. do 3 f_equal. lia.
Qed.

(** The value of [sep] after [n] digits. *)
Definition sep_after (n : nat) : Z :=
  match n with O => 0 | S m => Z.of_nat (m mod 3) + 1 end.

Lemma sep_after_3 n : (sep_after n =? 3) = negb (n =? 0)%nat && (n mod 3 =? 0)%nat.
Proof.
  destruct n as [|n]; [done|]. cbn [sep_after].
  pose proof (Nat.mod_upper_bound n 3). pose proof (Nat.mod_upper_bound (S n) 3).
  pose proof (Nat.div_mod_eq n 3). pose proof (Nat.div_mod_eq (S n) 3).
  destruct (S n mod 3 =? 0)%nat eqn:E; cbn [negb andb Nat.eqb]; [apply Nat.eqb_eq in E|apply Nat.eqb_neq in E]; lia.
Qed.

Lemma sep_after_S n :
  (if sep_after n =? 3 then 0 else sep_after n) + 1 = sep_after (S n).
Proof.
  rewrite sep_after_3. destruct n as [|n]; [done|]. cbn [sep_after].
  pose proof (Nat.mod_upper_bound n 3). pose proof (Nat.mod_upper_bound (S n) 3).
  pose proof (Nat.div_mod_eq n 3). pose proof (Nat.div_mod_eq (S n) 3).
  destruct (S n mod 3 =? 0)%nat eqn:E; cbn [negb andb Nat.eqb]; [apply Nat.eqb_eq in E|apply Nat.eqb_neq in E]; lia.
Qed.

Lemma reverse_le_group group n ds :
  reverse (le_group group (sep_after n) ds) = be_group group n (reverse ds).
Proof.
  revert n. induction ds as [|d ds IH]; intros n; [done|].
  simpl le_group. rewrite sep_after_S, reverse_app, reverse_cons, IH, reverse_cons, be_group_snoc.
  rewrite <- app_assoc. do 2 f_equal. unfold comma. rewrite sep_after_3.
  by destruct group, (n =? 0)%nat, (n mod 3 =? 0)%nat.
Qed.

Lemma length_be_group group n ds :
  (length (be_group group n ds) <= length ds + (n + length ds + 2) / 3)%nat.
Proof.
  induction ds as [|d ds IH]; cbn [be_group length]; [lia|]. rewrite length_app.
  assert (length (comma group (n + length ds)) + (n + length ds + 2) / 3 <= (n + S (length ds) + 2) / 3)%nat; [|lia].
  unfold comma. set (m := (n + length ds)%nat). replace (n + S (length ds) + 2)%nat with (m + 3)%nat by lia.
  pose proof (Nat.div_mod_eq m 3). pose proof (Nat.div_mod_eq (m + 2) 3).
  pose proof (Nat.div_mod_eq (m + 3) 3). pose proof (Nat.mod_upper_bound (m + 2) 3).
  pose proof (Nat.mod_upper_bound (m + 3) 3).
  destruct (m mod 3 =? 0)%nat eqn:E; [apply Nat.eqb_eq in E|rewrite andb_false_r];
    [destruct (group && _)|]; cbn [andb length]; lia.
Qed.

Lemma uint_to_dec_text x flags :
  is_u64 x ->
  uint_to_dec_common x flags =
    Some (be_group (has flags CONVERT_GROUP_DIGITS) 0 (digits 10 x)).
Proof.
  intros Hx. unfold uint_to_dec_common.
  set (group := has flags CONVERT_GROUP_DIGITS).
  assert (be_group group 0 (digits 10 x) = reverse (le_group group 0 (le_digits 64 10 x))) as E
    by (unfold digits; by rewrite <- (reverse_le_group group 0)).
  rewrite (dec_loop_digits 64 20).
  - cbv [mbind option_bind]. by rewrite copy_back_reverse, E.
  - lia.
  - lia.
  - rewrite <- (length_reverse (le_group _ _ _)), <- E. cbn [length].
    pose proof (length_digits 10 20 x ltac:(lia) ltac:(lia) ltac:(lia)) as L.
    pose proof (length_be_group group 0 (digits 10 x)) as B.
    pose proof (Nat.Div0.div_le_mono (0 + length (digits 10 x) + 2) 22 3 ltac:(lia)) as D.
    change (22 / 3)%nat with 7%nat in D. lia.
Qed.

(** ** Parsing decimal text *)

(** [tl] does not continue a decimal number. *)
Definition dec_ends (tl : list Z) : Prop :=
  let c := byte_at tl 0 in c = 0 \/ (IS_DIGIT c = false /\ c <> ch ",").

Lemma IS_DIGIT_char d : 0 <= d < 10 -> IS_DIGIT (d + ch "0") = true.
Proof. unfold IS_DIGIT. lia. Qed.

Lemma parse_digits_end fuel st b count :
  readable b -> dec_ends (rest b) -> parse_digits (S fuel) st b count = (0, st, b, count).
Proof.
  intros R He. cbn [parse_digits]. rewrite peekbyte_rest by (done || lia).
  destruct He as [->|[Hd Hc]]; [done|]. rewrite Hd.
  replace (byte_at (rest b) 0 =? 44) with false by lia. by destruct (_ =? _).
Qed.

Lemma parse_digits_digit fuel st b count c s :
  readable b -> rest b = c :: s -> IS_DIGIT c = true ->
  grouping st && (period st =? 3) = false ->
  parse_digits (S fuel) st b count =
    (c, DigitState (u8 (period st + 1)) (grouping st) (fraction st) (flags st),
     set_pos b (pos b + 1), u32 (count + 1)).
Proof.
  intros R Hr Hc Hp. cbn [parse_digits].
  destruct (rest_cons b c s) as (-> & _ & _); [done..|].
  rewrite (peekbyte_rest b 0), Hr, byte_at_cons_0, Hc, Hp by (done || lia).
  unfold IS_DIGIT in Hc. by replace (c =? 0) with false by lia.
Qed.

Lemma parse_digits_comma fuel st b count c1 c2 c3 s :
  readable b -> rest b = ch "," :: c1 :: c2 :: c3 :: s ->
  Forall (fun c => IS_DIGIT c = true) [c1; c2; c3] ->
  has (flags st) CONVERT_GROUP_DIGITS = true -> fraction st = false ->
  (if grouping st then period st = 3 else period st <= 3) ->
  parse_digits (S (S fuel)) st b count =
    (c1, DigitState 1 true (fraction st) (flags st), set_pos b (pos b + 2), u32 (count + 2)).
Proof.
  intros R Hr Hc Hg Hf Hp. repeat (apply Forall_cons in Hc as [? Hc]).
  destruct (rest_cons b (ch ",") (c1 :: c2 :: c3 :: s)) as (Hrd & Hr' & _); [done..|].
  cbn [parse_digits]. fold parse_digits.
  rewrite Hrd, !(peekbyte_rest b), Hr by (done || lia). cbn [snd].
  change (byte_at (ch "," :: c1 :: c2 :: c3 :: s) 0) with (ch ",").
  change (byte_at (ch "," :: c1 :: c2 :: c3 :: s) 1) with c1.
  change (byte_at (ch "," :: c1 :: c2 :: c3 :: s) 2) with c2.
  change (byte_at (ch "," :: c1 :: c2 :: c3 :: s) 3) with c3.
  change (ch "," =? 0) with false. change (IS_DIGIT (ch ",")) with false.
  change (ch "," =? ch ",") with true. rewrite Hg, Hf. cbn [andb negb].
  replace (c1 =? 0) with false by (unfold IS_DIGIT in *; lia).
  replace (grouping st && negb (period st =? 3)) with false by (destruct (grouping st); lia).
  replace (negb (grouping st) && (period st >? 3)) with false by (destruct (grouping st); lia).
  repeat match goal with H : IS_DIGIT _ = true |- _ => rewrite H end. cbn [andb].
  change (parse_digits (S fuel) (DigitState 0 true false (flags st)) (set_pos b (pos b + 1)) (u32 (count + 1)) =
    (c1, DigitState 1 true false (flags st), set_pos b (pos b + 2), u32 (count + 2))).
  rewrite (parse_digits_digit _ _ _ _ c1 (c2 :: c3 :: s)); [|auto with buffer|done..].
  rewrite wrap_add_l, set_pos_set_pos. cbn [pos set_pos]. do 2 f_equal; [f_equal|]; lia.
Qed.

(** The text that follows a digit when the digits [ds] are still to come. *)
Definition dec_cont (group : bool) (ds : list Z) : list Z :=
  comma group (length ds) ++ be_group group 0 ds.

Lemma be_group_cons group d ds :
  be_group group 0 (d :: ds) = (d + ch "0") :: dec_cont group ds.
Proof. done. Qed.

(** What [digit_parse_state] records between two digits. *)
Definition state_ok (group : bool) (st : digit_parse_state) (ds : list Z) : Prop :=
  has (flags st) CONVERT_GROUP_DIGITS = group /\ fraction st = false /\
  if group then
    1 <= period st <= 3 /\
    (if grouping st then (period st + zlen ds) mod 3 = 0 else period st + zlen ds mod 3 <= 3)
  else grouping st = false.

Lemma comma_cases group (ds : list Z) :
  (comma group (length ds) = [ch ","] /\ group = true /\ zlen ds mod 3 = 0 /\ 3 <= zlen ds) \/
  (comma group (length ds) = [] /\ (group = true -> ds <> [] -> zlen ds mod 3 <> 0)).
Proof.
  unfold comma. destruct group; [|by right].
  pose proof (Nat2Z.inj_mod (length ds) 3) as M. change (Z.of_nat 3) with 3 in M.
  destruct (length ds mod 3 =? 0)%nat eqn:E; [apply Nat.eqb_eq in E|apply Nat.eqb_neq in E].
  - destruct ds as [|d ds]; [by right|]. left. rewrite E in M. split; [done|]. split; [done|].
    split; [done|]. cbn [length] in *. zlia.
  - right. rewrite andb_false_r. split; [done|]. intros _ _ ?. lia.
Qed.

(** Three digits at least follow a separator. *)
Lemma be_group_three (ds : list Z) :
  zlen ds mod 3 = 0 -> 3 <= zlen ds -> Forall (fun d => 0 <= d < 10) ds ->
  exists d t c2 c3 s, ds = d :: t /\ comma true (length t) = [] /\
    be_group true 0 ds = (d + ch "0") :: c2 :: c3 :: s /\
    Forall (fun c => IS_DIGIT c = true) [d + ch "0"; c2; c3].
Proof.
  intros Hm Hl Hd. destruct ds as [|d1 [|d2 [|d3 t]]]; cbn [length] in *; try lia.
  assert (comma true (length (d2 :: d3 :: t)) = [] /\ comma true (length (d3 :: t)) = []) as [E1 E2].
  { destruct (comma_cases true (d2 :: d3 :: t)) as [(_ & _ & M & _)|[E _]];
    destruct (comma_cases true (d3 :: t)) as [(_ & _ & M' & _)|[E' _]]; [| | |done]; exfalso;
    cbn [length] in *; zlia. }
  do 2 apply Forall_cons in Hd as [? Hd]. apply Forall_cons in Hd as [? _].
  exists d1, (d2 :: d3 :: t), (d2 + ch "0"), (d3 + ch "0"), (dec_cont true t).
  split; [done|]. split; [done|].
  rewrite !be_group_cons. unfold dec_cont at 1. rewrite E1, be_group_cons.
  unfold dec_cont at 1. rewrite E2, be_group_cons. split; [done|].
  repeat constructor; by apply IS_DIGIT_char.
Qed.

(** One round of the loop on a number's text: the next digit is read, with the
    separator in front of it when there is one, and the state fits the rest. *)
Definition next_digit (group : bool) (d : Z) (ds : list Z) (st : digit_parse_state) (b : buffer_t)
    (tl : list Z) (count : Z) : Prop :=
  exists st' n,
    parse_digits (fuel_of b) st b count = (d + ch "0", st', set_pos b (pos b + n), u32 (count + n)) /\
    readable (set_pos b (pos b + n)) /\ rest (set_pos b (pos b + n)) = dec_cont group ds ++ tl /\
    state_ok group st' ds /\ zlen (dec_cont group (d :: ds)) = n + zlen (dec_cont group ds).

Lemma next_digit_comma d ds st b tl count :
  readable b -> rest b = dec_cont true (d :: ds) ++ tl -> Forall (fun d => 0 <= d < 10) (d :: ds) ->
  state_ok true st (d :: ds) -> comma true (length (d :: ds)) = [ch ","] ->
  zlen (d :: ds) mod 3 = 0 -> 3 <= zlen (d :: ds) ->
  next_digit true d ds st b tl count.
Proof.
  intros R Hr Hd (Hg & Hfr & Hp & Hst) Ec M L. unfold dec_cont in Hr. rewrite Ec in Hr.
  destruct (be_group_three (d :: ds)) as (d' & t & c2 & c3 & s & [= <- <-] & Et & Eb & D); [done..|].
  rewrite Eb in Hr. simpl in Hr.
  assert (exists f, fuel_of b = S (S f)) as [f Ef].
  { pose proof (rest_length b R) as RL. rewrite Hr in RL. simpl in RL.
    unfold fuel_of. destruct (length (data b)) eqn:?; [lia|]. by eexists. }
  assert (dec_cont true (d :: ds) = ch "," :: (d + ch "0") :: dec_cont true ds) as E
    by (unfold dec_cont at 1; by rewrite Ec).
  eexists _, 2. rewrite Ef, (parse_digits_comma f st b count (d + ch "0") c2 c3 (s ++ tl)); [|done..|].
  2: { destruct (grouping st); [|lia]. cbn [length] in *. zlia. }
  split; [done|]. split; [destruct R; split; simpl; [done|]|split; [|split]].
  - pose proof (rest_length b ltac:(done)) as RL. rewrite Hr in RL. simpl in RL. lia.
  - apply (rest_app b [ch ","; d + ch "0"]); [done|]. rewrite Hr. simpl. do 2 f_equal.
    rewrite be_group_cons in Eb. injection Eb as Eb. by rewrite Eb.
  - split; [done|]. split; [done|]. cbn [length] in *. simpl. split; [lia|]. zlia.
  - rewrite E. cbn [length]. lia.
Qed.

Lemma next_digit_plain group d ds st b tl count :
  readable b -> rest b = dec_cont group (d :: ds) ++ tl -> Forall (fun d => 0 <= d < 10) (d :: ds) ->
  state_ok group st (d :: ds) -> comma group (length (d :: ds)) = [] ->
  (group = true -> d :: ds <> [] -> zlen (d :: ds) mod 3 <> 0) ->
  next_digit group d ds st b tl count.
Proof.
  intros R Hr Hd (Hg & Hfr & Hst) Ec M. apply Forall_cons in Hd as [Hd Hds].
  assert (dec_cont group (d :: ds) = (d + ch "0") :: dec_cont group ds) as E
    by (unfold dec_cont at 1; by rewrite Ec, be_group_cons).
  rewrite E in Hr. eexists _, 1. unfold fuel_of.
  rewrite (parse_digits_digit _ st b count (d + ch "0") (dec_cont group ds ++ tl));
    [|done..|by apply IS_DIGIT_char|].
  2: { destruct group; [|by rewrite Hst]. destruct Hst as [Hp Hst]. destruct (grouping st); [|done].
       specialize (M eq_refl ltac:(done)). cbn [length] in *. zlia. }
  split; [done|]. split; [auto with buffer|]. split; [by apply (rest_app b [d + ch "0"])|]. split.
  - split; [done|]. split; [done|]. cbn [period grouping]. destruct group; [|done].
    specialize (M eq_refl ltac:(done)). destruct Hst as [Hp Hst]. cbn [length] in *.
    rewrite wrap_small by lia. destruct (grouping st); zlia.
  - rewrite E. cbn [length]. lia.
Qed.

Lemma dec_digits_loop_text group step ds fuel st b tl v count :
  readable b -> rest b = dec_cont group ds ++ tl -> Forall (fun d => 0 <= d < 10) ds ->
  dec_ends tl -> (length ds < fuel)%nat -> state_ok group st ds -> is_u32 count ->
  dec_digits_loop fuel step st b v count =
    (set_pos b (pos b + zlen (dec_cont group ds)),
     foldl (fun v d => step v (d + ch "0")) v ds, u32 (count + zlen (dec_cont group ds))).
Proof.
  revert fuel st b v count.
  induction ds as [|d ds IH]; intros fuel st b v count R Hr Hd He Hf Hst Hc;
    (destruct fuel as [|fuel]; [lia|]); cbn [dec_digits_loop].
  { assert (dec_cont group [] = []) as E by (unfold dec_cont, comma; by destruct group).
    rewrite E in *. simpl in Hr. unfold fuel_of. rewrite parse_digits_end by (done || congruence).
    cbn. rewrite !Z.add_0_r, set_pos_id, wrap_small by lia. done. }
  assert (next_digit group d ds st b tl count) as (st' & n & -> & R' & Hr' & Hst' & En).
  { destruct (comma_cases group (d :: ds)) as [(Ec & -> & M & L)|[Ec M]];
      [by apply next_digit_comma|by apply next_digit_plain]. }
  apply Forall_cons in Hd as [Hd Hds]. cbn [length] in Hf. replace (d + ch "0" =? 0) with false by lia.
  rewrite IH by (done || lia || apply (wrap_range 32); lia).
  rewrite set_pos_set_pos, wrap_add_l, En. cbn [pos set_pos foldl].
  f_equal; [f_equal; f_equal|f_equal]; lia.
Qed.

(** Digits without separators are read whatever the flags. *)
Lemma dec_digits_loop_plain step ds fuel st b tl v count :
  readable b -> rest b = ((fun d => d + ch "0") <$> ds) ++ tl ->
  Forall (fun d => 0 <= d < 10) ds -> dec_ends tl -> (length ds < fuel)%nat ->
  grouping st = false -> is_u32 count ->
  dec_digits_loop fuel step st b v count =
    (set_pos b (pos b + zlen ds), foldl (fun v d => step v (d + ch "0")) v ds, u32 (count + zlen ds)).
Proof.
  revert fuel st b v count.
  induction ds as [|d ds IH]; intros fuel st b v count R Hr Hd He Hf Hg Hc;
    (destruct fuel as [|fuel]; [lia|]); cbn [dec_digits_loop]; unfold fuel_of; simpl in Hr.
  { rewrite parse_digits_end by (done || congruence).
    cbn. rewrite !Z.add_0_r, set_pos_id, wrap_small by lia. done. }
  apply Forall_cons in Hd as [Hd Hds].
  erewrite parse_digits_digit; [|done|exact Hr|by apply IS_DIGIT_char|by rewrite Hg].
  cbn [length] in *. replace (d + ch "0" =? 0) with false by lia.
  rewrite IH; [|auto with buffer|by apply (rest_app b [d + ch "0"])|done..|lia|done|].
  - rewrite set_pos_set_pos, wrap_add_l. cbn [pos set_pos foldl].
    f_equal; [f_equal; f_equal|f_equal]; lia.
  - apply (wrap_range 32). lia.
Qed.

Lemma has_u8 flags m : 0 <= m < 256 -> has (u8 flags) m = has flags m.
Proof.
  intros Hm. unfold has, wrap. rewrite <- Z.land_ones by lia.
  rewrite <- Z.land_assoc, (Z.land_comm (Z.ones 8)), Z.land_ones, (Z.mod_small m) by (simpl; lia). done.
Qed.

Lemma dec_digits_loop_start group step ds b tl v count flags :
  readable b -> rest b = be_group group 0 ds ++ tl -> ds <> [] ->
  Forall (fun d => 0 <= d < 10) ds -> dec_ends tl ->
  has flags CONVERT_GROUP_DIGITS = group -> is_u32 count ->
  dec_digits_loop (fuel_of b) step (DigitState 0 false false (u8 flags)) b v count =
    (set_pos b (pos b + zlen (be_group group 0 ds)),
     foldl (fun v d => step v (d + ch "0")) v ds, u32 (count + zlen (be_group group 0 ds))).
Proof.
  intros R Hr Hne Hd He Hg Hc. destruct ds as [|d ds]; [done|]. apply Forall_cons in Hd as [Hd Hds].
  rewrite be_group_cons in *. simpl in Hr.
  assert (length ds < length (data b))%nat.
  { pose proof (rest_length b R) as RL. rewrite Hr in RL. simpl in RL.
    unfold dec_cont in RL. rewrite !length_app in RL.
    assert (length ds <= length (be_group group 0 ds))%nat; [|lia].
    clear. induction ds; simpl; rewrite ?length_app; lia. }
  unfold fuel_of. cbn [dec_digits_loop].
  unfold fuel_of. erewrite parse_digits_digit; [|done|exact Hr|by apply IS_DIGIT_char|done].
  replace (d + ch "0" =? 0) with false by lia.
  rewrite (dec_digits_loop_text group) with (tl := tl) (ds := ds);
    [|auto with buffer|by apply (rest_app b [d + ch "0"])|done..|done| |].
  - rewrite set_pos_set_pos, wrap_add_l. cbn [pos set_pos foldl length].
    f_equal; [f_equal; f_equal|f_equal]; lia.
  - unfold state_ok; simpl. rewrite has_u8 by (unfold CONVERT_GROUP_DIGITS; lia).
    split; [done|]. split; [done|]. destruct group; [|done]. change (u8 (0 + 1)) with 1.
    pose proof (Z.mod_pos_bound (zlen ds) 3). lia.
  - apply (wrap_range 32). lia.
Qed.

Lemma foldl_u64_digits v ds :
  is_u64 v ->
  foldl (fun v d => u64 (u64 (v * 10) + (d + ch "0" - ch "0"))) v ds =
  u64 (foldl (fun v d => v * 10 + d) v ds).
Proof.
  intros Hv. rewrite <- (wrap_small 64 v) at 1 by lia. clear Hv. revert v.
  induction ds as [|d ds IH]; intros v; [done|]. cbn [foldl]. rewrite <- IH. f_equal.
  rewrite wrap_add_l, wrap_mul_add. f_equal. lia.
Qed.

Lemma foldl_s64_digits (minus : bool) v ds :
  foldl (fun v d =>
       if minus then swrap 64 (swrap 64 (v * 10) - (d + ch "0" - ch "0"))
       else swrap 64 (swrap 64 (v * 10) + (d + ch "0" - ch "0"))) (swrap 64 v) ds =
  swrap 64 (v * 10 ^ zlen ds + (if minus then -1 else 1) * of_digits 10 ds).
Proof.
  revert v. induction ds as [|d ds IH]; intros v.
  - cbn. f_equal. change (of_digits 10 []) with 0. lia.
  - cbn [foldl length]. rewrite Nat2Z.inj_succ, Z.pow_succ_r, of_digits_cons by lia.
    assert (forall s, swrap 64 (swrap 64 (swrap 64 v * 10) + s) = swrap 64 (v * 10 + s)) as E
      by (intros s; by rewrite swrap_add_l, swrap_mul_add).
    destruct minus.
    + rewrite <- Z.add_opp_r, E, IH. f_equal. lia.
    + rewrite E, IH. f_equal. lia.
Qed.

(** The text [int_to_dec_common] writes. *)
Definition int_text (x flags : Z) : list Z :=
  if x =? INT64_MIN then int64_min_text
  else
    (if x <? 0 then [ch "-"] else if has flags CONVERT_FORCE_SIGN then [ch "+"] else []) ++
    be_group (has flags CONVERT_GROUP_DIGITS) 0 (digits 10 (Z.abs x)).

Lemma int_to_dec_text x flags :
  - 2 ^ 63 <= x < 2 ^ 63 -> int_to_dec_common x flags = Some (int_text x flags).
Proof.
  intros Hx. unfold int_to_dec_common, int_text. destruct (x =? INT64_MIN) eqn:E; [done|].
  unfold INT64_MIN in E. destruct (x <? 0) eqn:N.
  - replace (Z.lnot x + 1) with (- x) by (unfold Z.lnot; lia).
    rewrite (swrap_small 64 (- x)), (wrap_small 64), uint_to_dec_text by lia.
    by replace (Z.abs x) with (- x) by lia.
  - rewrite (wrap_small 64), uint_to_dec_text by lia. replace (Z.abs x) with x by lia.
    by destruct (has flags CONVERT_FORCE_SIGN).
Qed.

(** ** Pointers *)

Lemma le_byte_div v i : 0 <= i -> le_byte v i = (v / 256 ^ i) mod 256.
Proof.
  intros Hi. unfold le_byte. rewrite (land_mask _ 8), Z.shiftr_div_pow2 by lia.
  by rewrite Z.pow_mul_r by lia.
Qed.

Lemma le_byte_range v i : 0 <= i -> 0 <= le_byte v i < 256.
Proof. intros Hi. rewrite le_byte_div by done. apply Z.mod_pos_bound. lia. Qed.

(** The bytes of a value make up the value. *)
Lemma of_digits_le_bytes v n :
  of_digits 256 (reverse (le_byte v <$> seqZ 0 (Z.of_nat n))) = v mod 256 ^ Z.of_nat n.
Proof.
  induction n as [|n IH]; [by rewrite Z.mod_1_r|].
  rewrite Nat2Z.inj_succ, <- Z.add_1_r, seqZ_app by lia.
  rewrite fmap_app, reverse_app, of_digits_app, IH, length_reverse, length_fmap, length_seqZ.
  change (of_digits 256 (reverse (le_byte v <$> seqZ (0 + Z.of_nat n) 1))) with (0 * 256 + le_byte v (Z.of_nat n)).
  rewrite le_byte_div by lia. rewrite Z.pow_add_r, Z.pow_1_r, Z.rem_mul_r by lia.
  rewrite Nat2Z.id. lia.
Qed.

(** The byte at place [length es] of a number is its digit in base 256. *)
Lemma le_byte_of_digits ds d es :
  Forall (fun d => 0 <= d < 256) (d :: es) ->
  le_byte (of_digits 256 (ds ++ d :: es)) (zlen es) = d.
Proof.
  intros [Hd Hes]%Forall_cons. rewrite le_byte_div, of_digits_app, of_digits_cons by lia.
  pose proof (of_digits_bound 256 es ltac:(lia) Hes). cbn [length].
  rewrite Nat2Z.inj_succ, Z.pow_succ_r by lia.
  replace (of_digits 256 ds * (256 * 256 ^ zlen es) + (d * 256 ^ zlen es + of_digits 256 es))
    with ((of_digits 256 ds * 256 + d) * 256 ^ zlen es + of_digits 256 es) by lia.
  rewrite Z.div_add_l, (Z.div_small (of_digits 256 es)), Z.add_0_r by lia.
  rewrite Z.add_comm, Z_mod_plus_full. apply Z.mod_small. lia.
Qed.

Lemma le_bytes_of_digits ds :
  Forall (fun d => 0 <= d < 256) ds ->
  le_byte (of_digits 256 ds) <$> seqZ 0 (zlen ds) = reverse ds.
Proof.
  intros Hd. apply list_eq. intros i. rewrite list_lookup_fmap.
  destruct (decide (i < length ds)%nat) as [Hi|Hi].
  - rewrite lookup_seqZ_lt, reverse_lookup by lia. cbn [fmap option_fmap option_map].
    destruct (lookup_lt_is_Some_2 ds (length ds - S i)) as [d Hx]; [lia|]. rewrite Hx. f_equal.
    rewrite <- (take_drop_middle _ _ _ Hx) at 1.
    assert (0 + Z.of_nat i = zlen (drop (S (length ds - S i)) ds)) as -> by (rewrite length_drop; lia).
    apply le_byte_of_digits. rewrite <- (drop_S _ _ _ Hx). by apply Forall_drop.
  - rewrite lookup_seqZ_ge, lookup_ge_None_2; [done| |lia]. rewrite length_reverse. lia.
Qed.

Lemma byteswap_digits v :
  byteswap_uint64 v = of_digits 256 (le_byte v <$> seqZ 0 8).
Proof.
  unfold byteswap_uint64, of_digits.
  assert (forall l acc, Forall (fun i => 0 <= i) l ->
    foldl (fun acc i => Z.lor (Z.shiftl acc 8) (Z.land (Z.shiftr v (8 * i)) 0xFF)) acc l =
    foldl (fun v d => v * 256 + d) acc (le_byte v <$> l)) as H.
  { induction l as [|i l IH]; intros acc Hl; [done|]. apply Forall_cons in Hl as [Hi Hl].
    cbn [foldl fmap list_fmap]. rewrite <- IH by done. f_equal.
    apply (lor_shiftl_add 8); [lia|]. by apply le_byte_range. }
  apply H. apply Forall_forall. intros i Hi. apply elem_of_seqZ in Hi. lia.
Qed.

(** The sixteen hexadecimal digits of a pointer. *)
Definition pointer_digits (p : Z) : list Z :=
  concat ((fun c => [c / 16; c mod 16]) <$> reverse (le_byte p <$> seqZ 0 8)).

Lemma of_digits_nibbles cs :
  of_digits 16 (concat ((fun c => [c / 16; c mod 16]) <$> cs)) = of_digits 256 cs.
Proof.
  induction cs as [|c cs IH]; [done|]. cbn [fmap list_fmap concat].
  rewrite of_digits_app, IH, (of_digits_cons 256).
  assert (zlen (concat ((fun c => [c / 16; c mod 16]) <$> cs)) = 2 * zlen cs) as ->.
  { clear. induction cs as [|c cs IH]; [done|]. cbn [fmap list_fmap concat length app]. lia. }
  rewrite Z.pow_mul_r by lia. change (16 ^ 2) with 256. f_equal. f_equal.
  change (of_digits 16 [c / 16; c mod 16]) with ((0 * 16 + c / 16) * 16 + c mod 16).
  zlia.
Qed.

Lemma pointer_encode_text p :
  pointer_encode p = [ch "0"; ch "x"] ++ (hex_char false <$> pointer_digits p).
Proof.
  unfold pointer_encode, pointer_digits. f_equal.
  set (value := byteswap_uint64 p).
  assert (le_byte value <$> seqZ 0 8 = reverse (le_byte p <$> seqZ 0 8)) as <-.
  { subst value. rewrite byteswap_digits, <- (le_bytes_of_digits (le_byte p <$> seqZ 0 8)); [done|].
    apply Forall_fmap, Forall_forall. intros i Hi. apply le_byte_range. apply elem_of_seqZ in Hi. lia. }
  generalize (seqZ 0 8). induction l as [|i l IH]; [done|].
  cbn [fmap list_fmap concat app]. by rewrite IH.
Qed.

(** ** The properties of the conversions *)

(** For every 64-bit value the octal, decimal and hexadecimal printers
    write, without overrunning their 32-byte scratch array, exactly the
    positional numeral of the value (digits below the base, no leading zero,
    value recovered by Horner's rule); the decimal text has a comma before
    every third digit from the right when grouping is asked for and none
    otherwise. The binary printer does the same for 32-bit values. *)
Theorem uint_print_numeral (upper : bool) (x flags : Z) :
  is_u64 x ->
  (exists ds, uint_to_hex_common upper x = Some (hex_char upper <$> ds) /\ numeral 16 x ds) /\
  (exists ds, uint_to_oct_common x = Some ((fun d => d + ch "0") <$> ds) /\ numeral 8 x ds) /\
  (exists ds, uint_to_dec_common x flags =
                Some (be_group (has flags CONVERT_GROUP_DIGITS) 0 ds) /\ numeral 10 x ds) /\
  (x < 2 ^ 32 ->
   exists ds, uint_to_bin_common x = Some ((fun d => d + ch "0") <$> ds) /\ numeral 2 x ds).
Proof.
  intros Hx. split_and!.
  - exists (digits 16 x). split; [by apply uint_to_hex_digits|by apply digits_numeral].
  - exists (digits 8 x). split; [by apply uint_to_oct_digits|by apply digits_numeral].
  - exists (digits 10 x). split; [by apply uint_to_dec_text|by apply digits_numeral].
  - intros Hs. exists (digits 2 x). split; [apply uint_to_bin_digits; lia|by apply digits_numeral].
Qed.

(** The hypotheses of [uint_print_numeral] hold at [1234567]. *)
Lemma uint_print_numeral_witness :
  uint_to_dec_common 1234567 0x40 =
    Some [ch "1"; ch ","; ch "2"; ch "3"; ch "4"; ch ","; ch "5"; ch "6"; ch "7"] /\
  exists ds, uint_to_hex_common true 1234567 = Some (hex_char true <$> ds) /\ numeral 16 1234567 ds.
Proof. split; [reflexivity|]. apply (uint_print_numeral true 1234567 0x40). lia. Defined.

(** The binary printer is defined on exactly the values below [2^32]: on
    any larger one it stores past the end of its 32-byte scratch array. *)
Theorem uint_to_bin_defined (x : Z) :
  0 <= x -> is_Some (uint_to_bin_common x) <-> x < 2 ^ 32.
Proof.
  intros Hx. split.
  - intros [ds Hds]. destruct (decide (x < 2 ^ 32)); [done|].
    rewrite uint_to_bin_overflow in Hds by lia. done.
  - intros Hlt. rewrite uint_to_bin_digits by lia. by eexists.
Qed.

Lemma uint_to_bin_defined_witness :
  uint_to_bin_common (2 ^ 32) = None /\ is_Some (uint_to_bin_common (2 ^ 32 - 1)).
Proof.
  split; [reflexivity|]. apply (uint_to_bin_defined (2 ^ 32 - 1)); lia.
Defined.

(** Reading back what was printed, in hexadecimal, octal and binary: the
    parser consumes exactly the digits that were written, whatever follows
    them, and gives the value back. *)
Theorem uint_radix_roundtrip (upper : bool) (x : Z) (tl : list Z) :
  is_u64 x ->
  (ends hex_digit tl -> exists text, uint_to_hex_common upper x = Some text /\
     let b := string_buffer (text ++ tl) (zlen (text ++ tl)) in
     uint_from_hex_common b = (set_pos b (zlen text), x, zlen text)) /\
  (ends oct_digit tl -> exists text, uint_to_oct_common x = Some text /\
     let b := string_buffer (text ++ tl) (zlen (text ++ tl)) in
     uint_from_oct_common b = (set_pos b (zlen text), x, zlen text)) /\
  (ends bin_digit tl -> x < 2 ^ 32 -> exists text, uint_to_bin_common x = Some text /\
     let b := string_buffer (text ++ tl) (zlen (text ++ tl)) in
     uint_from_bin_common b = (set_pos b (zlen text), x, zlen text)).
Proof.
  intros Hx. split_and!; intros He.
  - eexists. split; [by apply uint_to_hex_digits|]. cbv zeta. unfold uint_from_hex_common.
    pose proof (length_digits 16 16 x ltac:(lia) ltac:(lia) ltac:(lia)).
    rewrite (uint_from_loop_numeral hex_digit (hex_char upper) 4 _ x (digits 16 x) tl);
      rewrite ?length_fmap, ?rest_string; auto with buffer; try lia.
    + by apply digits_numeral.
    + intros d. apply hex_char_digit.
  - eexists. split; [by apply uint_to_oct_digits|]. cbv zeta. unfold uint_from_oct_common.
    pose proof (length_digits 8 22 x ltac:(lia) ltac:(lia) ltac:(lia)).
    rewrite (uint_from_loop_numeral oct_digit (fun d => d + ch "0") 3 _ x (digits 8 x) tl);
      rewrite ?length_fmap, ?rest_string; auto with buffer; try lia.
    + by apply digits_numeral.
    + intros d. apply oct_char_digit.
  - intros Hs. eexists. split; [apply uint_to_bin_digits; lia|]. cbv zeta. unfold uint_from_bin_common.
    pose proof (length_digits 2 32 x ltac:(lia) ltac:(lia) ltac:(lia)).
    rewrite (uint_from_loop_numeral bin_digit (fun d => d + ch "0") 1 _ x (digits 2 x) tl);
      rewrite ?length_fmap, ?rest_string; auto with buffer; try lia.
    + by apply digits_numeral.
    + intros d. apply bin_char_digit.
Qed.

Lemma uint_radix_roundtrip_witness :
  ends hex_digit [ch "z"] /\
  exists text, uint_to_hex_common false 0xBEEF = Some text /\
    let b := string_buffer (text ++ [ch "z"]) (zlen (text ++ [ch "z"])) in
    uint_from_hex_common b = (set_pos b (zlen text), 0xBEEF, zlen text).
Proof.
  split; [right; reflexivity|]. apply (uint_radix_roundtrip false 0xBEEF [ch "z"]); [lia|right; reflexivity].
Defined.

Lemma digits_head x :
  is_u64 x -> exists d ds, digits 10 x = d :: ds /\ 0 <= d < 10.
Proof.
  intros Hx. destruct (digits_numeral 10 x) as [_ Hd Hc]; [lia..|].
  destruct (digits 10 x) as [|d ds]; [by destruct Hc as [?|(?&?&?&?)]|].
  apply Forall_cons in Hd as [Hd _]. by exists d, ds.
Qed.

Lemma length_dec_text group x : is_u64 x -> zlen (be_group group 0 (digits 10 x)) <= 27.
Proof.
  intros Hx. pose proof (length_digits 10 20 x ltac:(lia) ltac:(lia) ltac:(lia)) as L.
  pose proof (length_be_group group 0 (digits 10 x)) as B.
  pose proof (Nat.Div0.div_le_mono (0 + length (digits 10 x) + 2) 22 3 ltac:(lia)) as D.
  change (22 / 3)%nat with 7%nat in D. lia.
Qed.

(** The loop of [int_from_dec_common] on the text of a magnitude. *)
Lemma int_loop_text (minus : bool) flags m b tl count :
  readable b -> is_u64 m ->
  rest b = be_group (has flags CONVERT_GROUP_DIGITS) 0 (digits 10 m) ++ tl ->
  dec_ends tl -> 0 <= count <= 1 ->
  let text := be_group (has flags CONVERT_GROUP_DIGITS) 0 (digits 10 m) in
  dec_digits_loop (fuel_of b)
    (fun v byte =>
       if minus then swrap 64 (swrap 64 (v * 10) - (byte - ch "0"))
       else swrap 64 (swrap 64 (v * 10) + (byte - ch "0")))
    (DigitState 0 false false (u8 flags)) b 0 count =
  (set_pos b (pos b + zlen text), swrap 64 ((if minus then -1 else 1) * m), count + zlen text).
Proof.
  intros R Hm Hr He Hc text. destruct (digits_numeral 10 m) as [Hv Hd _]; [lia..|].
  destruct (digits_head m Hm) as (d & ds & Ed & _).
  pose proof (length_dec_text (has flags CONVERT_GROUP_DIGITS) m Hm).
  rewrite (dec_digits_loop_start (has flags CONVERT_GROUP_DIGITS)) with (ds := digits 10 m) (tl := tl);
    try done; [|by rewrite Ed|lia].
  pose proof (foldl_s64_digits minus 0 (digits 10 m)) as F. change (swrap 64 0) with 0 in F.
  rewrite F, Hv, Z.mul_0_l, Z.add_0_l. rewrite (wrap_small 32) by lia. done.
Qed.

Definition min_digits : list Z := [9; 2; 2; 3; 3; 7; 2; 0; 3; 6; 8; 5; 4; 7; 7; 5; 8; 0; 8].

Lemma int64_min_digits : int64_min_text = ch "-" :: ((fun d => d + ch "0") <$> min_digits).
Proof. done. Qed.

(** The cursor after a sign byte. *)
Lemma after_sign b c s : readable b -> rest b = c :: s ->
  peekbyte b 0 = c /\ (readbyte b).2 = set_pos b (pos b + 1) /\
  readable (set_pos b (pos b + 1)) /\ rest (set_pos b (pos b + 1)) = s.
Proof.
  intros R Hr. destruct (rest_cons b c s R Hr) as (-> & Hr' & _).
  rewrite peekbyte_rest, Hr by (done || lia). auto with buffer.
Qed.

(** Equal results of a parser: the cursor, the value and the count. *)
Ltac same_result := apply f_equal2; [apply f_equal2; [apply (f_equal (set_pos _)); lia|lia]|lia].

(** [int_from_dec_common] at the text of [x] in any string. *)
Lemma int_from_dec_text b x flags tl :
  readable b -> rest b = int_text x flags ++ tl -> - 2 ^ 63 <= x < 2 ^ 63 -> dec_ends tl ->
  int_from_dec_common b flags = (set_pos b (pos b + zlen (int_text x flags)), x, zlen (int_text x flags)).
Proof.
  intros R Hr Hx He. unfold int_text, int_from_dec_common in *.
  set (T := be_group (has flags CONVERT_GROUP_DIGITS) 0 (digits 10 (Z.abs x))) in *.
  destruct (x =? INT64_MIN) eqn:Emin; [|destruct (x <? 0) eqn:Eneg;
    [|destruct (has flags CONVERT_FORCE_SIGN) eqn:Efs]]; unfold INT64_MIN in Emin.
  - rewrite int64_min_digits in *. rewrite <- app_comm_cons in Hr.
    destruct (after_sign b _ (((fun d => d + ch "0") <$> min_digits) ++ tl) R Hr) as (-> & -> & R1 & Hr1).
    cbn [Z.eqb Pos.eqb orb].
    rewrite (dec_digits_loop_plain _ min_digits _ _ _ tl); [|done|done|repeat constructor; lia|done| |done|lia].
    + rewrite set_pos_set_pos. cbn [pos set_pos length]. rewrite length_fmap.
      replace x with (-9223372036854775808) by lia. 
      by replace (pos b + 1 + zlen min_digits) with (pos b + Z.of_nat (S (length min_digits))) by lia.
    + pose proof (rest_length _ R1) as RL. rewrite Hr1, length_app, length_fmap in RL. unfold fuel_of. lia.
  - destruct (after_sign b _ _ R Hr) as (-> & -> & R1 & Hr1). cbn [Z.eqb Pos.eqb orb].
    rewrite (int_loop_text true flags (Z.abs x)) with (tl := tl) by (done || lia).
    rewrite set_pos_set_pos, swrap_small by lia. cbn [pos set_pos app length]. fold T. same_result.
  - destruct (after_sign b _ _ R Hr) as (-> & -> & R1 & Hr1). cbn [Z.eqb Pos.eqb orb].
    rewrite (int_loop_text false flags (Z.abs x)) with (tl := tl) by (done || lia).
    rewrite set_pos_set_pos, swrap_small by lia. cbn [pos set_pos app length]. fold T. same_result.
  - cbn [app] in *. destruct (digits_head (Z.abs x)) as (d & ds & Ed & Hd); [lia|].
    assert (peekbyte b 0 = d + ch "0") as ->
      by (rewrite peekbyte_rest, Hr by (done || lia); subst T; by rewrite Ed).
    replace (d + ch "0" =? ch "+") with false by lia. replace (d + ch "0" =? ch "-") with false by lia.
    cbn [orb]. rewrite (int_loop_text false flags (Z.abs x)) with (tl := tl) by (done || lia).
    rewrite swrap_small by lia. fold T. same_result.
Qed.

(** [uint_from_dec_common] at the text of [x] in any string. *)
Lemma uint_from_dec_text b x flags tl :
  let text := be_group (has flags CONVERT_GROUP_DIGITS) 0 (digits 10 x) in
  readable b -> rest b = text ++ tl -> is_u64 x -> dec_ends tl ->
  uint_from_dec_common b flags = (set_pos b (pos b + zlen text), x, zlen text).
Proof.
  intros text R Hr Hx He. destruct (digits_numeral 10 x) as [Hv Hd _]; [lia..|].
  destruct (digits_head x Hx) as (d & ds & Ed & Hd1). unfold uint_from_dec_common.
  assert (peekbyte b 0 = d + ch "0") as ->
    by (rewrite peekbyte_rest, Hr by (done || lia); subst text; by rewrite Ed).
  replace (d + ch "0" =? ch "+") with false by lia.
  pose proof (length_dec_text (has flags CONVERT_GROUP_DIGITS) x Hx).
  rewrite (dec_digits_loop_start (has flags CONVERT_GROUP_DIGITS)) with (ds := digits 10 x) (tl := tl);
    [|done|done|by rewrite Ed|done|done|done|lia].
  rewrite (foldl_u64_digits 0) by lia. fold text.
  change (foldl _ 0 (digits 10 x)) with (of_digits 10 (digits 10 x)).
  rewrite Hv, Z.add_0_l, !wrap_small by (unfold text; lia). done.
Qed.

(** Reading back a signed decimal: for every 64-bit signed value and every
    combination of the sign and grouping flags, [int_from_dec_common] with the
    same flags consumes exactly the text [int_to_dec_common] wrote and returns
    the value, the most negative one included. *)
Theorem int_dec_roundtrip (x flags : Z) (tl : list Z) :
  - 2 ^ 63 <= x < 2 ^ 63 -> dec_ends tl ->
  exists text, int_to_dec_common x flags = Some text /\
    let b := string_buffer (text ++ tl) (zlen (text ++ tl)) in
    int_from_dec_common b flags = (set_pos b (zlen text), x, zlen text).
Proof.
  intros Hx He. exists (int_text x flags). split; [by apply int_to_dec_text|]. cbv zeta.
  rewrite (int_from_dec_text _ x flags tl); [done|auto with buffer|apply rest_string|done|done].
Qed.

Lemma int_dec_roundtrip_witness :
  dec_ends [ch " "] /\
  exists text, int_to_dec_common (-1234567) 0x40 = Some text /\
    let b := string_buffer (text ++ [ch " "]) (zlen (text ++ [ch " "])) in
    int_from_dec_common b 0x40 = (set_pos b (zlen text), -1234567, zlen text).
Proof.
  split; [by right|]. apply (int_dec_roundtrip (-1234567) 0x40 [ch " "]); [lia|by right].
Defined.

Lemma pointer_digits_range p : Forall (fun d => 0 <= d < 16) (pointer_digits p).
Proof.
  unfold pointer_digits. apply Forall_concat, Forall_fmap, Forall_reverse, Forall_fmap, Forall_forall.
  intros i Hi%elem_of_seqZ. pose proof (le_byte_range p i). simpl.
  repeat constructor; zlia.
Qed.

(** A 64-bit pointer prints as ["0x"] and its sixteen hexadecimal digits,
    and [pointer_decode] reads it back. *)
Theorem pointer_roundtrip (p : Z) (tl : list Z) :
  is_u64 p -> ends hex_digit tl ->
  length (pointer_encode p) = 18%nat /\
  let b := string_buffer (pointer_encode p ++ tl) (zlen (pointer_encode p ++ tl)) in
  pointer_decode b = (set_pos b 18, p, 18).
Proof.
  intros Hp He. rewrite pointer_encode_text. set (T := hex_char false <$> pointer_digits p).
  assert (length T = 16%nat) as HL by (subst T; by rewrite length_fmap).
  split; [by rewrite length_app, HL|]. cbv zeta. cbn [app].
  set (b := string_buffer _ _). assert (readable b) as R by (subst b; auto with buffer).
  assert (rest b = ch "0" :: ch "x" :: (T ++ tl)) as Hr by apply rest_string.
  destruct (rest_cons b (ch "0") (ch "x" :: (T ++ tl)) R Hr) as (Hb1 & Hr1 & _).
  set (b1 := set_pos b (pos b + 1)) in *. assert (readable b1) as R1 by (subst b1; auto with buffer).
  destruct (rest_cons b1 (ch "x") (T ++ tl) R1 Hr1) as (Hb2 & Hr2 & _).
  unfold pointer_decode. rewrite (peekbyte_rest b), Hr by (done || lia). cbn [Z.eqb Pos.eqb byte_at].
  rewrite Hb1. cbn [snd]. rewrite (peekbyte_rest b1), Hr1 by (done || lia).
  change (TO_LOWER (byte_at (ch "x" :: T ++ tl) 0) =? ch "x") with true. cbn match. rewrite Hb2. cbn [snd].
  unfold uint_from_hex_common.
  rewrite (uint_from_loop_digits hex_digit 4 _ _ T (pointer_digits p) tl); [|lia| |done| |done| |lia|lia].
  - rewrite HL, Z.mul_0_l, Z.add_0_l. unfold pointer_digits. rewrite of_digits_nibbles.
    change (seqZ 0 8) with (seqZ 0 (Z.of_nat 8)).
    rewrite of_digits_le_bytes, Z.mod_small, wrap_small by (simpl; lia). done.
  - subst b1. auto with buffer.
  - apply Forall2_fmap_l, Forall2_same_length_lookup. split; [done|].
    intros i d e H1 H2. assert (d = e) as -> by congruence. apply hex_char_digit.
    exact (Forall_lookup_1 _ _ _ _ (pointer_digits_range p) H2).
  - pose proof (rest_length _ R) as RL. rewrite Hr in RL. cbn [length] in RL. rewrite length_app in RL.
    unfold fuel_of. subst b1. simpl in *. lia.
Qed.

Lemma pointer_roundtrip_witness :
  let b := string_buffer (pointer_encode 0xDEADBEEF ++ [ch ")"]) (zlen (pointer_encode 0xDEADBEEF ++ [ch ")"])) in
  pointer_decode b = (set_pos b 18, 0xDEADBEEF, 18).
Proof. apply (pointer_roundtrip 0xDEADBEEF [ch ")"]); [lia|right; reflexivity]. Defined.
