(* ===== verification/Utf.v ===== *)
(** * UTF-8 and UTF-16

    The code point encoders and decoders of src/internal/convert.c. An encoder
    returns the bytes it writes (none for an illegal code point: the C function
    returns their number). A decoder takes the bytes at the given address, the
    number of bytes that may be read, and the previous value of its output
    parameter; it returns the number of bytes consumed, 0 when the sequence is
    invalid, and the output parameter. *)

From S2P Require Import Prelude.

Definition utf8_octets (codepoint : Z) : Z :=
  if codepoint <=? 0x7F then 1
  else if (codepoint >=? 0x80) && (codepoint <=? 0x07FF) then 2
  else if (codepoint >=? 0x800) && (codepoint <=? 0xFFFF) then 3
  else if (codepoint >=? 0x10000) && (codepoint <=? 0x10FFFF) then 4
  else 0.

Definition utf8_encode (codepoint : Z) : list Z :=
  if codepoint <=? 0x7F then [Z.land codepoint 0x7F]
  else if (codepoint >=? 0x80) && (codepoint <=? 0x07FF) then
    [Z.lor 0xC0 (Z.land (Z.shiftr codepoint 6) 0x1F);
     Z.lor 0x80 (Z.land codepoint 0x3F)]
  else if (codepoint >=? 0x800) && (codepoint <=? 0xFFFF) then
    [Z.lor 0xE0 (Z.land (Z.shiftr codepoint 12) 0x0F);
     Z.lor 0x80 (Z.land (Z.shiftr codepoint 6) 0x3F);
     Z.lor 0x80 (Z.land codepoint 0x3F)]
  else if (codepoint >=? 0x10000) && (codepoint <=? 0x10FFFF) then
    [Z.lor 0xF0 (Z.land (Z.shiftr codepoint 18) 0x07);
     Z.lor 0x80 (Z.land (Z.shiftr codepoint 12) 0x3F);
     Z.lor 0x80 (Z.land (Z.shiftr codepoint 6) 0x3F);
     Z.lor 0x80 (Z.land codepoint 0x3F)]
  else [].

Definition utf8_decode (inp : list Z) (size codepoint : Z) : Z * Z :=
  if size =? 0 then (0, codepoint)
  else
  let byte := byte_at inp 0 in
  let codepoint := 0 in
  if byte <=? 0x7F then (1, byte)
  else if Z.land byte 0xE0 =? 0xC0 then
    if size <? 2 then (0, codepoint) else
    let codepoint := Z.lor codepoint (Z.shiftl (Z.land byte 0x1F) 6) in
    let byte := byte_at inp 1 in
    if negb (Z.land byte 0xC0 =? 0x80) then (0, codepoint) else
    let codepoint := Z.lor codepoint (Z.land byte 0x3F) in
    if codepoint <? 0x80 then (0, codepoint)
    else (2, codepoint)
  else if Z.land byte 0xF0 =? 0xE0 then
    if size <? 3 then (0, codepoint) else
    let codepoint := Z.lor codepoint (Z.shiftl (Z.land byte 0x0F) 12) in
    let byte := byte_at inp 1 in
    if negb (Z.land byte 0xC0 =? 0x80) then (0, codepoint) else
    let codepoint := Z.lor codepoint (Z.shiftl (Z.land byte 0x3F) 6) in
    let byte := byte_at inp 2 in
    if negb (Z.land byte 0xC0 =? 0x80) then (0, codepoint) else
    let codepoint := Z.lor codepoint (Z.land byte 0x3F) in
    if (codepoint >=? 0xD800) && (codepoint <=? 0xDFFF) then (0, codepoint)
    else if codepoint <? 0x800 then (0, codepoint)
    else (3, codepoint)
  else if Z.land byte 0xF8 =? 0xF0 then
    if size <? 4 then (0, codepoint) else
    let codepoint := Z.lor codepoint (Z.shiftl (Z.land byte 0x07) 18) in
    let byte := byte_at inp 1 in
    if negb (Z.land byte 0xC0 =? 0x80) then (0, codepoint) else
    let codepoint := Z.lor codepoint (Z.shiftl (Z.land byte 0x3F) 12) in
    let byte := byte_at inp 2 in
    if negb (Z.land byte 0xC0 =? 0x80) then (0, codepoint) else
    let codepoint := Z.lor codepoint (Z.shiftl (Z.land byte 0x3F) 6) in
    let byte := byte_at inp 3 in
    if negb (Z.land byte 0xC0 =? 0x80) then (0, codepoint) else
    let codepoint := Z.lor codepoint (Z.land byte 0x3F) in
    if codepoint <? 0x10000 then (0, codepoint)
    else (4, codepoint)
  else (0, codepoint).

Definition utf16_octets (codepoint : Z) : Z :=
  if codepoint <=? 0xFFFF then 2
  else if codepoint <=? 0x10FFFF then 4
  else 0.

(** The two bytes of a 16-bit unit in memory (little endian). *)
Definition le16 (v : Z) : list Z := [v mod 256; v / 256 mod 256].

(** The unit at byte offset [i]. *)
Definition unit16 (inp : list Z) (i : Z) : Z := byte_at inp i + 256 * byte_at inp (i + 1).

Definition utf16_encode (codepoint : Z) : list Z :=
  if codepoint >? 0x10FFFF then []
  else if codepoint <=? 0xFFFF then le16 codepoint
  else
    let v := codepoint - 0x10000 in
    let high := Z.lor 0xD800 (Z.land (Z.shiftr v 10) 0x3FF) in
    let low := Z.lor 0xDC00 (Z.land v 0x3FF) in
    le16 high ++ le16 low.

Definition utf16_decode (inp : list Z) (size codepoint : Z) : Z * Z :=
  if size <? 2 then (0, codepoint)
  else
  let codepoint := 0 in
  let high := unit16 inp 0 in
  if (high <? 0xD800) || (high >? 0xDFFF) then (2, high)
  else if (high >=? 0xD800) && (high <=? 0xDBFF) then
    if size <? 4 then (0, codepoint) else
    let low := unit16 inp 2 in
    if (low >=? 0xDC00) && (low <=? 0xDFFF) then
      let codepoint := Z.lor codepoint (Z.shiftl (Z.land high 0x3FF) 10) in
      let codepoint := Z.lor codepoint (Z.land low 0x3FF) in
      (4, codepoint + 0x10000)
    else (0, codepoint)
  else (0, codepoint).

(** ** Code points *)

(** A Unicode scalar value. *)
Definition scalar (cp : Z) : Prop := 0 <= cp <= 0x10FFFF /\ ~ (0xD800 <= cp <= 0xDFFF).

(** ** The bit operations as arithmetic *)

Lemma land_7F x : Z.land x 0x7F = x mod 128. Proof. by apply (land_mask x 7). Qed.
Lemma land_3F x : Z.land x 0x3F = x mod 64. Proof. by apply (land_mask x 6). Qed.
Lemma land_1F x : Z.land x 0x1F = x mod 32. Proof. by apply (land_mask x 5). Qed.
Lemma land_0F x : Z.land x 0x0F = x mod 16. Proof. by apply (land_mask x 4). Qed.
Lemma land_07 x : Z.land x 0x07 = x mod 8. Proof. by apply (land_mask x 3). Qed.
Lemma land_3FF x : Z.land x 0x3FF = x mod 1024. Proof. by apply (land_mask x 10). Qed.

Lemma shiftr_6 x : Z.shiftr x 6 = x / 64. Proof. by apply Z.shiftr_div_pow2. Qed.
Lemma shiftr_10 x : Z.shiftr x 10 = x / 1024. Proof. by apply Z.shiftr_div_pow2. Qed.
Lemma shiftr_12 x : Z.shiftr x 12 = x / 4096. Proof. by apply Z.shiftr_div_pow2. Qed.
Lemma shiftr_18 x : Z.shiftr x 18 = x / 262144. Proof. by apply Z.shiftr_div_pow2. Qed.

Create Rewrite HintDb fields.
#[local] Hint Rewrite land_7F land_3F land_1F land_0F land_07 land_3FF
  shiftr_6 shiftr_10 shiftr_12 shiftr_18 : fields.

Lemma lor_tag a k c : 0 <= k -> 0 <= c < 2 ^ k -> Z.lor (a * 2 ^ k) c = a * 2 ^ k + c.
Proof. intros Hk Hc. rewrite <- (Z.shiftl_mul_pow2 a k) at 1 by done. by apply lor_shiftl_add. Qed.

(** Facts about all bytes, by evaluation. *)
Lemma byte_masks b : is_u8 b ->
  Z.land b 0xC0 = b / 64 * 64 /\ Z.land b 0xE0 = b / 32 * 32 /\
  Z.land b 0xF0 = b / 16 * 16 /\ Z.land b 0xF8 = b / 8 * 8.
Proof.
  intros Hb. assert (b ∈ seqZ 0 256) as Hin by (apply elem_of_seqZ; lia). clear Hb. revert b Hin.
  apply Forall_forall. apply (bool_decide_unpack _). by vm_compute.
Qed.

Lemma lor_pack2 a c : 0 <= c < 64 -> Z.lor (Z.shiftl a 6) c = a * 64 + c.
Proof. intros Hc. by apply (lor_shiftl_add 6). Qed.

Lemma lor_pack3 a b c : 0 <= b < 64 -> 0 <= c < 64 ->
  Z.lor (Z.lor (Z.shiftl a 12) (Z.shiftl b 6)) c = a * 4096 + b * 64 + c.
Proof.
  intros Hb Hc. change 12 with (6 + 6). rewrite <- Z.shiftl_shiftl, <- Z.shiftl_lor, !lor_pack2 by lia. lia.
Qed.

Lemma lor_pack4 a b c d : 0 <= b < 64 -> 0 <= c < 64 -> 0 <= d < 64 ->
  Z.lor (Z.lor (Z.lor (Z.shiftl a 18) (Z.shiftl b 12)) (Z.shiftl c 6)) d =
  a * 262144 + b * 4096 + c * 64 + d.
Proof.
  intros Hb Hc Hd. change 18 with (12 + 6). change (Z.shiftl b 12) with (Z.shiftl b (6 + 6)).
  rewrite <- !Z.shiftl_shiftl, <- !Z.shiftl_lor, lor_pack2, lor_pack3 by lia. lia.
Qed.

(** What the encoder writes, in arithmetic. *)
Lemma utf8_encode_arith cp : 0 <= cp ->
  utf8_encode cp =
    if cp <=? 0x7F then [cp]
    else if cp <=? 0x7FF then [192 + cp / 64; 128 + cp mod 64]
    else if cp <=? 0xFFFF then [224 + cp / 4096; 128 + cp / 64 mod 64; 128 + cp mod 64]
    else if cp <=? 0x10FFFF then
      [240 + cp / 262144; 128 + cp / 4096 mod 64; 128 + cp / 64 mod 64; 128 + cp mod 64]
    else [].
Proof.
  intros Hcp. unfold utf8_encode.
  autorewrite with fields.
  assert (forall c, 0 <= c < 64 -> Z.lor 0x80 c = 128 + c) as E1 by (intros c Hc; apply (lor_tag 2 6); lia).
  assert (forall c, 0 <= c < 32 -> Z.lor 0xC0 c = 192 + c) as E2 by (intros c Hc; apply (lor_tag 6 5); lia).
  assert (forall c, 0 <= c < 16 -> Z.lor 0xE0 c = 224 + c) as E3 by (intros c Hc; apply (lor_tag 14 4); lia).
  assert (forall c, 0 <= c < 8 -> Z.lor 0xF0 c = 240 + c) as E4 by (intros c Hc; apply (lor_tag 30 3); lia).
  rewrite !E1, E2, E3, E4 by zlia.
  tests; try lia; try done; repeat f_equal; zlia.
Qed.

(** A continuation byte. *)
Definition cont (b : Z) : Prop := 128 <= b < 192.

Lemma land_C0 b : is_u8 b -> (Z.land b 0xC0 =? 0x80) = (128 <=? b) && (b <? 192).
Proof. intros Hb. destruct (byte_masks b Hb) as (-> & _ & _ & _). zlia. Qed.
Lemma land_E0 b : is_u8 b -> (Z.land b 0xE0 =? 0xC0) = (192 <=? b) && (b <? 224).
Proof. intros Hb. destruct (byte_masks b Hb) as (_ & -> & _ & _). zlia. Qed.
Lemma land_F0 b : is_u8 b -> (Z.land b 0xF0 =? 0xE0) = (224 <=? b) && (b <? 240).
Proof. intros Hb. destruct (byte_masks b Hb) as (_ & _ & -> & _). zlia. Qed.
Lemma land_F8 b : is_u8 b -> (Z.land b 0xF8 =? 0xF0) = (240 <=? b) && (b <? 248).
Proof. intros Hb. destruct (byte_masks b Hb) as (_ & _ & _ & ->). zlia. Qed.

(** What the decoder accepts, in arithmetic: a sequence of [n] bytes with code
    point [cp]. *)
Inductive utf8_seq (inp : list Z) : Z -> Z -> Prop :=
  | seq1 : byte_at inp 0 <= 127 -> utf8_seq inp 1 (byte_at inp 0)
  | seq2 cp : 192 <= byte_at inp 0 < 224 -> cont (byte_at inp 1) ->
      cp = (byte_at inp 0 - 192) * 64 + (byte_at inp 1 - 128) -> 0x80 <= cp -> utf8_seq inp 2 cp
  | seq3 cp : 224 <= byte_at inp 0 < 240 -> cont (byte_at inp 1) -> cont (byte_at inp 2) ->
      cp = (byte_at inp 0 - 224) * 4096 + (byte_at inp 1 - 128) * 64 + (byte_at inp 2 - 128) ->
      0x800 <= cp -> ~ (0xD800 <= cp <= 0xDFFF) -> utf8_seq inp 3 cp
  | seq4 cp : 240 <= byte_at inp 0 < 248 -> cont (byte_at inp 1) -> cont (byte_at inp 2) ->
      cont (byte_at inp 3) ->
      cp = (byte_at inp 0 - 240) * 262144 + (byte_at inp 1 - 128) * 4096 +
           (byte_at inp 2 - 128) * 64 + (byte_at inp 3 - 128) ->
      0x10000 <= cp -> utf8_seq inp 4 cp.

Lemma utf8_decode_seq inp size cp0 n cp :
  Forall (fun b => is_u8 b) inp -> 0 <= size ->
  (utf8_decode inp size cp0 = (n, cp) /\ 0 < n) <-> (utf8_seq inp n cp /\ n <= size).
Proof.
  intros Hb Hs. assert (forall i, is_u8 (byte_at inp i)) as B
    by (intros i; apply (byte_at_Forall (fun b => is_u8 b)); [lia|done]).
  pose proof (B 0) as B0. pose proof (B 1) as B1. pose proof (B 2) as B2. pose proof (B 3) as B3.
  unfold utf8_decode. rewrite !Z.lor_0_l.
  rewrite (land_E0 _ B0), (land_F0 _ B0), (land_F8 _ B0), (land_C0 _ B1), (land_C0 _ B2), (land_C0 _ B3).
  autorewrite with fields.
  rewrite lor_pack4, lor_pack3, lor_pack2 by zlia.
  split.
  - intros [H Hn]. repeat (case_match; try (simplify_eq; lia)); simplify_eq; (split; [|lia]).
    + constructor. lia.
    + apply seq2; unfold cont; zlia.
    + apply seq3; unfold cont; zlia.
    + apply seq4; unfold cont; zlia.
  - intros [H Hn]. inversion H; subst; unfold cont in *; (split; [|lia]);
      repeat (case_match; try lia; try zlia); f_equal; zlia.
Qed.

Lemma utf8_seq_fun inp n1 n2 cp1 cp2 :
  utf8_seq inp n1 cp1 -> utf8_seq inp n2 cp2 -> n1 = n2 /\ cp1 = cp2.
Proof. unfold cont. intros H1 H2. inversion H1; inversion H2; subst; lia. Qed.

Lemma length_utf8_encode cp : 0 <= cp -> zlen (utf8_encode cp) = utf8_octets cp.
Proof. intros Hcp. unfold utf8_encode, utf8_octets. by repeat case_match. Qed.

Lemma utf8_encode_bytes cp : 0 <= cp -> Forall (fun b => is_u8 b) (utf8_encode cp).
Proof.
  intros Hcp. rewrite utf8_encode_arith by done. repeat case_match; repeat constructor; zlia.
Qed.

Lemma utf8_encode_seq cp tl :
  scalar cp -> utf8_seq (utf8_encode cp ++ tl) (utf8_octets cp) cp.
Proof.
  intros [Hcp Hs]. rewrite utf8_encode_arith by lia. unfold utf8_octets.
  destruct (cp <=? 0x7F) eqn:E1; [apply (seq1 ([cp] ++ tl)); change (cp <= 127); lia|].
  destruct (cp <=? 0x7FF) eqn:E2.
  { replace (cp >=? 0x80) with true by lia. apply seq2; unfold cont; simpl_bytes; zlia. }
  rewrite andb_false_r. destruct (cp <=? 0xFFFF) eqn:E3.
  { replace (cp >=? 0x800) with true by lia. apply seq3; unfold cont; simpl_bytes; zlia. }
  rewrite andb_false_r. replace (cp <=? 0x10FFFF) with true by lia.
  replace (cp >=? 0x10000) with true by lia. apply seq4; unfold cont; simpl_bytes; zlia.
Qed.

Lemma seq_take (inp : list Z) (k : nat) :
  (k <= length inp)%nat -> take k inp = (fun i => byte_at inp i) <$> seqZ 0 (Z.of_nat k).
Proof.
  intros Hk. apply list_eq. intros i. rewrite list_lookup_fmap.
  destruct (decide (i < k)%nat).
  - rewrite lookup_seqZ_lt, lookup_take_lt by lia. simpl. unfold byte_at.
    destruct (lookup_lt_is_Some_2 inp i) as [x Hx]; [lia|].
    replace (Z.to_nat (0 + Z.of_nat i)) with i by lia. by rewrite Hx.
  - by rewrite lookup_seqZ_ge, lookup_take_ge by lia.
Qed.

(** A sequence the decoder accepts is the encoding of its code point. *)
Lemma utf8_seq_encode inp n cp :
  Forall (fun b => is_u8 b) inp -> utf8_seq inp n cp -> n <= zlen inp -> cp <= 0x10FFFF ->
  scalar cp /\ utf8_encode cp = take (Z.to_nat n) inp.
Proof.
  intros Hb H Hn Hcp. assert (forall i, is_u8 (byte_at inp i)) as B
    by (intros i; apply (byte_at_Forall (fun b => is_u8 b)); [lia|done]).
  pose proof (B 0). unfold cont, scalar in *.
  rewrite seq_take by lia. inversion H; subst n; unfold cont in *; clear H;
    (split; [lia|]); rewrite utf8_encode_arith by lia;
    (match goal with |- context [seqZ 0 ?k] =>
       let l := eval vm_compute in (seqZ 0 k) in change (seqZ 0 k) with l end);
    cbn [fmap list_fmap]; repeat (case_match; try lia); repeat f_equal; zlia.
Qed.

(** ** Properties *)

(** C34: Encoding a Unicode scalar value in UTF-8 and decoding the bytes gives the
    scalar value back and consumes exactly the bytes written, whatever
    follows; their number is [utf8_octets]. *)
Theorem utf8_roundtrip (cp size cp0 : Z) (tl : list Z) :
  scalar cp -> Forall (fun b => is_u8 b) tl -> utf8_octets cp <= size ->
  zlen (utf8_encode cp) = utf8_octets cp /\
  utf8_decode (utf8_encode cp ++ tl) size cp0 = (utf8_octets cp, cp).
Proof.
  intros Hcp Htl Hs. pose proof Hcp as [? _]. split; [by apply length_utf8_encode; lia|].
  assert (0 < utf8_octets cp) by (unfold utf8_octets; repeat case_match; lia).
  apply utf8_decode_seq.
  - apply Forall_app. split; [apply utf8_encode_bytes; lia|done].
  - lia.
  - split; [by apply utf8_encode_seq|done].
Qed.

Lemma utf8_roundtrip_witness :
  utf8_encode 0x20AC = [0xE2; 0x82; 0xAC] /\
  utf8_decode (utf8_encode 0x20AC ++ [ch "x"]) 4 0 = (utf8_octets 0x20AC, 0x20AC).
Proof.
  split; [reflexivity|].
  apply (utf8_roundtrip 0x20AC 4 0 [ch "x"]); [unfold scalar; lia|repeat constructor; lia|done].
Defined.

(** The UTF-8 decoder accepts no overlong form, no surrogate and no
    truncated sequence: when it reports [n > 0] bytes with a code point of the
    Unicode range, the code point is a scalar value and the [n] bytes read are
    exactly its shortest encoding, within the given size. *)
Theorem utf8_decode_sound (inp : list Z) (size cp0 n cp : Z) :
  Forall (fun b => is_u8 b) inp -> 0 <= size <= zlen inp ->
  utf8_decode inp size cp0 = (n, cp) -> 0 < n -> cp <= 0x10FFFF ->
  n <= size /\ scalar cp /\ take (Z.to_nat n) inp = utf8_encode cp.
Proof.
  intros Hb Hs Hd Hn Hcp.
  destruct (proj1 (utf8_decode_seq inp size cp0 n cp Hb ltac:(lia)) (conj Hd Hn)) as [H Hle].
  destruct (utf8_seq_encode inp n cp Hb H ltac:(lia) Hcp) as [? ->]. done.
Qed.

Lemma utf8_decode_sound_witness :
  utf8_decode [0xC3; 0xA9; ch "t"] 3 0 = (2, 0xE9) /\
  take 2 [0xC3; 0xA9; ch "t"] = utf8_encode 0xE9.
Proof.
  split; [reflexivity|].
  apply (utf8_decode_sound [0xC3; 0xA9; ch "t"] 3 0 2 0xE9);
    [repeat constructor; lia|simpl; lia|reflexivity|lia|lia].
Defined.

(** The decoder has no upper bound on the code point: the four-byte forms
    of the values from [0x110000] to [0x1FFFFF], which are no code points, are
    accepted, although the encoder refuses every one of them. *)
Theorem utf8_decode_above_unicode (cp : Z) :
  0x110000 <= cp <= 0x1FFFFF ->
  utf8_encode cp = [] /\
  utf8_decode [240 + cp / 262144; 128 + cp / 4096 mod 64; 128 + cp / 64 mod 64; 128 + cp mod 64] 4 0 = (4, cp).
Proof.
  intros Hcp. split.
  - rewrite utf8_encode_arith by lia. by repeat (case_match; try lia).
  - apply utf8_decode_seq; [repeat constructor; zlia|lia|]. split; [|lia].
    apply seq4; unfold cont; simpl_bytes; zlia.
Qed.

Lemma utf8_decode_above_unicode_witness :
  utf8_decode [0xF4; 0x90; 0x80; 0x80] 4 0 = (4, 0x110000).
Proof. apply (utf8_decode_above_unicode 0x110000). lia. Defined.

(** Encoding a Unicode scalar value in UTF-16 and decoding the bytes gives
    the scalar value back, with a surrogate pair exactly above [0xFFFF]. *)
Theorem utf16_roundtrip (cp size cp0 : Z) (tl : list Z) :
  scalar cp -> utf16_octets cp <= size ->
  zlen (utf16_encode cp) = utf16_octets cp /\
  utf16_decode (utf16_encode cp ++ tl) size cp0 = (utf16_octets cp, cp).
Proof.
  intros [Hcp Hs] Hsize. unfold utf16_encode, utf16_decode, utf16_octets in *.
  replace (cp >? 0x10FFFF) with false by lia. destruct (cp <=? 0xFFFF) eqn:E.
  - split; [done|]. replace (size <? 2) with false by lia. unfold le16, unit16. change (0 + 1) with 1. simpl_bytes.
    replace (cp mod 256 + 256 * (cp / 256 mod 256)) with cp by zlia.
    by replace ((cp <? 0xD800) || (cp >? 0xDFFF)) with true by lia.
  - replace (cp <=? 0x10FFFF) with true in * by lia. split; [done|].
    replace (size <? 2) with false by lia. replace (size <? 4) with false by lia.
    set (v := cp - 0x10000). autorewrite with fields. rewrite Z.lor_0_l.
    rewrite (lor_tag 54 10), (lor_tag 55 10) by (try lia; change (2 ^ 10) with 1024; zlia).
    change (54 * 2 ^ 10) with 0xD800. change (55 * 2 ^ 10) with 0xDC00.
    set (high := 0xD800 + v / 1024 mod 1024). set (low := 0xDC00 + v mod 1024).
    assert (0xD800 <= high <= 0xDBFF) by (subst high v; zlia).
    assert (0xDC00 <= low <= 0xDFFF) by (subst low v; zlia).
    unfold le16, unit16. change (0 + 1) with 1. change (2 + 1) with 3. simpl_bytes.
    replace (high mod 256 + 256 * (high / 256 mod 256)) with high by zlia.
    replace (low mod 256 + 256 * (low / 256 mod 256)) with low by zlia.
    replace ((high <? 0xD800) || (high >? 0xDFFF)) with false by lia.
    replace ((high >=? 0xD800) && (high <=? 0xDBFF)) with true by lia.
    replace ((low >=? 0xDC00) && (low <=? 0xDFFF)) with true by lia.
    rewrite (lor_shiftl_add 10) by (try lia; change (2 ^ 10) with 1024; zlia).
    change (2 ^ 10) with 1024. f_equal. subst high low v. zlia.
Qed.

Lemma utf16_roundtrip_witness :
  utf16_decode (utf16_encode 0x1F600 ++ [0; 0]) 4 0 = (utf16_octets 0x1F600, 0x1F600).
Proof. apply (utf16_roundtrip 0x1F600 4 0 [0; 0]); [unfold scalar; lia|done]. Defined.
