(* ===== verification/Varargs.v ===== *)
(** * Random access to variadic arguments

    [variadic_args] of include/internal/varargs.h lets a format refer to its
    arguments by position ([%2$d]) although a [va_list] can only be walked
    once: the arguments read so far are kept in an array of 64 slots and,
    beyond that, in a heap block. An argument is a 64-bit word. Reading past
    the last argument and storing past the end of an array are undefined
    behaviour and give [None]. *)

From S2P Require Import Prelude Buffer.

Definition VARIADIC_ARGS_DEFAULT_SIZE : Z := 64.

(** In the 32-bit arithmetic of its operands. *)
Definition ROUND_UP (x y : Z) : Z := u32 (u32 (x + (y - 1)) / y * y).

(** [va_arg(list, void * )]. *)
Definition va_arg (l : list Z) : option (Z * list Z) :=
  match l with [] => None | x :: l => Some (x, l) end.

Record variadic_args := VarArgs {
  va : list Z;
  current_index : Z;
  read_count : Z;
  args : list Z;
  extra_capacity : Z;
  extra_args : option (list Z)
}.

Definition variadic_args_init (l : list Z) : variadic_args :=
  VarArgs l 0 0 (replicate 64 0) 0 None.

(** [l[i] = v]. *)
Definition store (l : list Z) (i v : Z) : option (list Z) :=
  if (0 <=? i) && (i <? zlen l) then Some (<[Z.to_nat i := v]> l) else None.

(** [l[i]]. *)
Definition load (l : list Z) (i : Z) : option Z :=
  if 0 <=? i then l !! Z.to_nat i else None.

(** [args->args[args->read_count++] = va_arg(args->list, void * )]. *)
Definition read_static (a : variadic_args) : option variadic_args :=
  '(v, l) ← va_arg (va a);
  arr ← store (args a) (read_count a) v;
  Some (VarArgs l (current_index a) (read_count a + 1) arr (extra_capacity a) (extra_args a)).

(** [args->extra_args[args->read_count++ - VARIADIC_ARGS_DEFAULT_SIZE] = va_arg(...)]. *)
Definition read_extra (a : variadic_args) : option variadic_args :=
  '(v, l) ← va_arg (va a);
  block ← extra_args a;
  arr ← store block (read_count a - VARIADIC_ARGS_DEFAULT_SIZE) v;
  Some (VarArgs l (current_index a) (read_count a + 1) (args a) (extra_capacity a) (Some arr)).

(** [for (i = args->read_count; i < index; ++i) read(args);] *)
Fixpoint read_upto (read : variadic_args -> option variadic_args) (n : nat) (a : variadic_args)
    : option variadic_args :=
  match n with
  | O => Some a
  | S n => a ← read a; read_upto read n a
  end.

Definition set_current (a : variadic_args) (c : Z) : variadic_args :=
  VarArgs (va a) c (read_count a) (args a) (extra_capacity a) (extra_args a).

Section Get.
Context {A : Allocator}.

(** [extra_args = realloc(extra_args, sizeof(void * ) * capacity)]: the block with
    its old words kept, [NULL] when the heap is exhausted. *)
Definition realloc_extra (a : variadic_args) (capacity : Z) : variadic_args :=
  let block := if malloc_ok (8 * capacity)
               then Some (resize (Z.to_nat capacity) 0 (default [] (extra_args a))) else None in
  VarArgs (va a) (current_index a) (read_count a) (args a) capacity block.

Definition is_null (a : variadic_args) : bool :=
  match extra_args a with None => true | Some _ => false end.

(** [variadic_args_get]: the word and the new state; [NULL] is 0. *)
Definition variadic_args_get (a : variadic_args) (index : Z) : option (Z * variadic_args) :=
  if index =? 0 then
    if current_index a <? VARIADIC_ARGS_DEFAULT_SIZE then
      a ← (if read_count a =? current_index a then read_static a else Some a);
      v ← load (args a) (current_index a);
      Some (v, set_current a (current_index a + 1))
    else
      let get a :=
        block ← extra_args a;
        v ← load block (current_index a - VARIADIC_ARGS_DEFAULT_SIZE);
        Some (v, set_current a (current_index a + 1)) in
      if read_count a =? current_index a then
        let a :=
          if is_null a || (read_count a - VARIADIC_ARGS_DEFAULT_SIZE =? extra_capacity a)
          then realloc_extra a (Z.max 4 (u32 (extra_capacity a * 2))) else a in
        if is_null a then Some (0, a)
        else a ← read_extra a; get a
      else get a
  else if index <=? VARIADIC_ARGS_DEFAULT_SIZE then
    a ← read_upto read_static (Z.to_nat (index - read_count a)) a;
    v ← load (args a) (index - 1);
    Some (v, a)
  else
    a ← read_upto read_static (Z.to_nat (VARIADIC_ARGS_DEFAULT_SIZE - read_count a)) a;
    let a :=
      if is_null a || (index - VARIADIC_ARGS_DEFAULT_SIZE >? extra_capacity a)
      then realloc_extra a (Z.max 4 (ROUND_UP (index - VARIADIC_ARGS_DEFAULT_SIZE) 4)) else a in
    if is_null a then Some (0, a)
    else
      a ← read_upto read_extra (Z.to_nat (index - read_count a)) a;
      block ← extra_args a;
      v ← load block (index - VARIADIC_ARGS_DEFAULT_SIZE - 1);
      Some (v, a).

End Get.

(** ** What a format sees

    The arguments [L] and the number [c] of the next one: a positional access
    gives the argument of that number, an access without position gives the
    next one and moves on. *)

Definition spec_get (L : list Z) (c index : Z) : option (Z * Z) :=
  if index =? 0 then v ← load L c; Some (v, c + 1)
  else v ← load L (index - 1); Some (v, c).

(** The words stored so far are the arguments read so far. *)
Record args_inv (L : list Z) (a : variadic_args) : Prop := {
  inv_counts : 0 <= current_index a <= read_count a /\ read_count a <= zlen L;
  inv_va : va a = drop (Z.to_nat (read_count a)) L;
  inv_args : length (args a) = 64%nat;
  inv_block : match extra_args a with
              | None => read_count a <= 64
              | Some block => zlen block = extra_capacity a /\ read_count a - 64 <= extra_capacity a
              end;
  inv_words : forall i, Z.of_nat i < read_count a ->
              (args a ++ default [] (extra_args a)) !! i = L !! i
}.

Lemma args_inv_init L : args_inv L (variadic_args_init L).
Proof. split; simpl; try done; try lia. Qed.

Lemma va_next L a :
  args_inv L a -> read_count a < zlen L ->
  exists v, L !! Z.to_nat (read_count a) = Some v /\
    va_arg (va a) = Some (v, drop (Z.to_nat (read_count a + 1)) L).
Proof.
  intros I Hr. pose proof (inv_counts _ _ I). rewrite (inv_va _ _ I).
  destruct (lookup_lt_is_Some_2 L (Z.to_nat (read_count a))) as [v Hv]; [lia|].
  exists v. split; [done|]. rewrite (drop_S _ _ _ Hv). simpl. do 3 f_equal. lia.
Qed.

Lemma store_Some l i v : 0 <= i < zlen l -> store l i v = Some (<[Z.to_nat i := v]> l).
Proof. intros Hi. unfold store. by replace ((0 <=? i) && (i <? zlen l)) with true by lia. Qed.

Lemma read_static_inv L a :
  args_inv L a -> read_count a < 64 -> read_count a < zlen L ->
  exists a', read_static a = Some a' /\ args_inv L a' /\
    read_count a' = read_count a + 1 /\ current_index a' = current_index a /\
    extra_args a' = extra_args a /\ extra_capacity a' = extra_capacity a.
Proof.
  intros I H64 Hr. destruct (va_next L a I Hr) as (v & Hv & Ev).
  destruct I as [Hc Hva Ha Hb Hw]. unfold read_static. rewrite Ev. simpl.
  rewrite store_Some by lia. simpl. eexists. split; [done|]. split; [|done].
  split; simpl; try lia; try done.
  - by rewrite length_insert.
  - destruct (extra_args a); [lia|]. lia.
  - intros i Hi. destruct (decide (i = Z.to_nat (read_count a))) as [->|Hne].
    + rewrite lookup_app_l by (rewrite length_insert; lia).
      rewrite list_lookup_insert_eq by lia. done.
    + rewrite <- Hw by lia. destruct (decide (i < 64)%nat).
      * rewrite !lookup_app_l by (rewrite ?length_insert; lia). by apply list_lookup_insert_ne.
      * lia.
Qed.

Lemma read_extra_inv L a block :
  args_inv L a -> extra_args a = Some block -> 64 <= read_count a ->
  read_count a - 64 < extra_capacity a -> read_count a < zlen L ->
  exists a' block', read_extra a = Some a' /\ args_inv L a' /\ extra_args a' = Some block' /\
    read_count a' = read_count a + 1 /\ current_index a' = current_index a /\
    extra_capacity a' = extra_capacity a.
Proof.
  intros I Eb H64 Hcap Hr. destruct (va_next L a I Hr) as (v & Hv & Ev).
  destruct I as [Hc Hva Ha Hb Hw]. unfold read_extra. rewrite Ev. simpl. rewrite Eb in *. simpl.
  rewrite store_Some by (unfold VARIADIC_ARGS_DEFAULT_SIZE; lia). simpl.
  do 2 eexists. split; [done|]. split; [|done].
  split; simpl; try lia; try done.
  - rewrite length_insert. lia.
  - intros i Hi. simpl in Hw. unfold VARIADIC_ARGS_DEFAULT_SIZE.
    destruct (decide (i = Z.to_nat (read_count a))) as [->|Hne].
    + rewrite lookup_app_r by lia. rewrite Ha.
      replace (Z.to_nat (read_count a) - 64)%nat with (Z.to_nat (read_count a - 64)) by lia.
      rewrite list_lookup_insert_eq by lia. done.
    + rewrite <- Hw by lia. destruct (decide (i < 64)%nat).
      * by rewrite !lookup_app_l by lia.
      * rewrite !lookup_app_r by lia. apply list_lookup_insert_ne. lia.
Qed.

Lemma load_lookup l i : 0 <= i -> load l i = l !! Z.to_nat i.
Proof. intros Hi. unfold load. by replace (0 <=? i) with true by lia. Qed.

(** Below 64 a word sits in the static array, from there on in the block. *)
Lemma load_static L a i :
  args_inv L a -> 0 <= i < read_count a -> i < 64 -> load (args a) i = load L i.
Proof.
  intros [Hc Hva Ha Hb Hw] Hi H64. rewrite !load_lookup by lia. rewrite <- Hw by lia.
  by rewrite lookup_app_l by lia.
Qed.

Lemma load_extra L a block i :
  args_inv L a -> extra_args a = Some block -> 64 <= i < read_count a ->
  load block (i - 64) = load L i.
Proof.
  intros [Hc Hva Ha Hb Hw] E Hi. rewrite !load_lookup by lia. rewrite <- Hw by lia.
  rewrite E. rewrite lookup_app_r by lia. simpl. f_equal. lia.
Qed.

Lemma load_in L i : 0 <= i < zlen L -> exists v, load L i = Some v.
Proof. intros Hi. rewrite load_lookup by lia. apply lookup_lt_is_Some_2. lia. Qed.

Lemma set_current_inv L a c :
  args_inv L a -> 0 <= c <= read_count a -> args_inv L (set_current a c).
Proof. intros [Hc Hva Ha Hb Hw] ?. split; simpl; try done; lia. Qed.

Lemma read_upto_static L n a :
  args_inv L a -> read_count a + Z.of_nat n <= 64 -> read_count a + Z.of_nat n <= zlen L ->
  exists a', read_upto read_static n a = Some a' /\ args_inv L a' /\
    read_count a' = read_count a + Z.of_nat n /\ current_index a' = current_index a.
Proof.
  revert a. induction n as [|n IH]; intros a I H64 HL; simpl.
  - exists a. repeat split; [by apply I..|lia].
  - destruct (read_static_inv L a) as (a1 & -> & I1 & Hr & Hc & _); [done|lia..|]. simpl.
    destruct (IH a1) as (a2 & -> & I2 & Hr2 & Hc2); [done|lia..|].
    exists a2. split; [done|]. split; [done|]. lia.
Qed.

Lemma read_upto_extra L n a block :
  args_inv L a -> extra_args a = Some block -> 64 <= read_count a ->
  read_count a + Z.of_nat n - 64 <= extra_capacity a -> read_count a + Z.of_nat n <= zlen L ->
  exists a' block', read_upto read_extra n a = Some a' /\ args_inv L a' /\
    extra_args a' = Some block' /\
    read_count a' = read_count a + Z.of_nat n /\ current_index a' = current_index a.
Proof.
  revert a block. induction n as [|n IH]; intros a block I E H64 Hcap HL; simpl.
  - exists a, block. repeat split; [by apply I..|done|lia].
  - destruct (read_extra_inv L a block) as (a1 & b1 & -> & I1 & E1 & Hr & Hc & Hcap1); [done|done|lia..|].
    simpl. destruct (IH a1 b1) as (a2 & b2 & -> & I2 & E2 & Hr2 & Hc2); [done|done|lia..|].
    exists a2, b2. split; [done|]. split; [done|]. split; [done|]. lia.
Qed.

Section GetLemmas.
Context {A : Allocator} (alloc_ok : forall n, malloc_ok n = true).

(** Growing the block keeps the words read so far. *)
Lemma realloc_extra_inv L a n :
  args_inv L a -> 0 <= n -> read_count a - 64 <= n ->
  args_inv L (realloc_extra a n) /\ is_null (realloc_extra a n) = false.
Proof.
  intros [Hc Hva Ha Hb Hw] Hn Hr. unfold is_null, realloc_extra. rewrite alloc_ok.
  split; [|done]. split; simpl; try done.
  - rewrite length_resize. lia.
  - intros i Hi. rewrite <- Hw by lia. destruct (decide (i < 64)%nat).
    + by rewrite !lookup_app_l by lia.
    + rewrite !lookup_app_r by lia. destruct (extra_args a) as [block|]; simpl; [|lia].
      apply lookup_resize; lia.
Qed.

(** The block after the room check of either branch. *)
Lemma ensure_block L a (b : bool) n :
  args_inv L a -> (is_null a || b = true -> 0 <= n /\ read_count a - 64 <= n) ->
  let a' := if is_null a || b then realloc_extra a n else a in
  exists block, args_inv L a' /\ extra_args a' = Some block /\ is_null a' = false /\
    read_count a' = read_count a /\ current_index a' = current_index a /\
    extra_capacity a' = (if is_null a || b then n else extra_capacity a).
Proof.
  intros I Hn. simpl. destruct (is_null a || b) eqn:E.
  - destruct (realloc_extra_inv L a n) as [I' N']; [done|by apply Hn..|].
    unfold is_null in N'. destruct (extra_args (realloc_extra a n)) as [block|] eqn:Eb; [|done].
    exists block. unfold is_null. by rewrite Eb.
  - apply orb_false_iff in E as [E _]. unfold is_null in *.
    destruct (extra_args a) as [block|] eqn:Eb; [|done]. by exists block.
Qed.

Ltac read_one L a :=
  destruct (read_static_inv L a) as (?a & -> & ?I & ?Hr & ?Hc & _); [done|lia..|].

Lemma get_next_static L a :
  args_inv L a -> current_index a < 64 -> current_index a < zlen L ->
  exists v a', variadic_args_get a 0 = Some (v, a') /\
    load L (current_index a) = Some v /\ args_inv L a' /\ current_index a' = current_index a + 1.
Proof.
  intros I H64 HL. unfold variadic_args_get, VARIADIC_ARGS_DEFAULT_SIZE. simpl.
  pose proof (inv_counts _ _ I). replace (current_index a <? 64) with true by lia.
  destruct (load_in L (current_index a)) as [v Hv]; [lia|]. exists v.
  destruct (read_count a =? current_index a) eqn:E; simpl.
  - read_one L a. simpl. rewrite (load_static L) by (done || lia). rewrite Hc, Hv. simpl.
    eexists. split; [done|]. split; [done|]. split; [|done]. apply set_current_inv; [done|lia].
  - rewrite (load_static L) by (done || lia). rewrite Hv. simpl.
    eexists. split; [done|]. split; [done|]. split; [|done]. apply set_current_inv; [done|lia].
Qed.

Lemma get_next_extra L a :
  args_inv L a -> zlen L < 2 ^ 31 -> 64 <= current_index a < zlen L ->
  exists v a', variadic_args_get a 0 = Some (v, a') /\
    load L (current_index a) = Some v /\ args_inv L a' /\ current_index a' = current_index a + 1.
Proof.
  intros I Hmax HL. unfold variadic_args_get, VARIADIC_ARGS_DEFAULT_SIZE. simpl.
  pose proof (inv_counts _ _ I). replace (current_index a <? 64) with false by lia.
  destruct (load_in L (current_index a)) as [v Hv]; [lia|]. exists v.
  destruct (read_count a =? current_index a) eqn:E.
  - pose proof (inv_block _ _ I) as Hb.
    assert (is_null a || (read_count a - 64 =? extra_capacity a) = true ->
            read_count a - 64 < Z.max 4 (u32 (extra_capacity a * 2))) as Hn.
    { unfold is_null. destruct (extra_args a); simpl; intros; [rewrite wrap_small; lia|lia]. }
    edestruct (ensure_block L a) as (block & I0 & Eb & N0 & Hr0 & Hc0 & Hcap);
      [done| |rewrite N0].
    { intros Ht. specialize (Hn Ht). lia. }
    edestruct (read_extra_inv L) as (a1 & b1 & -> & I1 & E1 & Hr1 & Hc1 & Hcap1);
      [exact I0|exact Eb|lia| |lia|].
    { rewrite Hcap, Hr0. destruct (is_null a || _) eqn:Et; [by apply Hn|].
      unfold is_null in Et. destruct (extra_args a); simpl in Et; [lia|done]. }
    simpl. rewrite E1. simpl. rewrite (load_extra L a1) by (done || lia).
    rewrite Hc1, Hc0, Hv. simpl. eexists. split; [done|]. split; [done|]. split; [|done].
    apply set_current_inv; [done|lia].
  - pose proof (inv_block _ _ I) as Hb. destruct (extra_args a) as [block|] eqn:Eb; [|lia]. simpl.
    rewrite (load_extra L a) by (done || lia). rewrite Hv. simpl.
    eexists. split; [done|]. split; [done|]. split; [|done]. apply set_current_inv; [done|lia].
Qed.

Lemma get_at_static L a i :
  args_inv L a -> 0 < i <= 64 -> i <= zlen L ->
  exists v a', variadic_args_get a i = Some (v, a') /\
    load L (i - 1) = Some v /\ args_inv L a' /\ current_index a' = current_index a.
Proof.
  intros I Hi HL. unfold variadic_args_get, VARIADIC_ARGS_DEFAULT_SIZE.
  replace (i =? 0) with false by lia. replace (i <=? 64) with true by lia.
  pose proof (inv_counts _ _ I). destruct (load_in L (i - 1)) as [v Hv]; [lia|].
  assert (exists a', read_upto read_static (Z.to_nat (i - read_count a)) a = Some a' /\
    args_inv L a' /\ i <= read_count a' /\ current_index a' = current_index a) as (a1 & -> & I1 & Hr & Hc).
  { destruct (decide (i <= read_count a)).
    - exists a. replace (Z.to_nat _) with 0%nat by lia. done.
    - destruct (read_upto_static L (Z.to_nat (i - read_count a)) a) as (a1 & -> & ? & ? & ?); [done|lia..|].
      exists a1. split; [done|]. split; [done|]. lia. }
  simpl. rewrite (load_static L), Hv by (done || lia). by exists v, a1.
Qed.

Lemma ROUND_UP_4 x : 0 <= x < 2 ^ 31 -> x <= ROUND_UP x 4.
Proof. intros Hx. unfold ROUND_UP. rewrite (wrap_small 32 (x + _)) by lia. rewrite wrap_small; zlia. Qed.

Lemma get_at_extra L a i :
  args_inv L a -> zlen L < 2 ^ 31 -> 64 < i <= zlen L ->
  exists v a', variadic_args_get a i = Some (v, a') /\
    load L (i - 1) = Some v /\ args_inv L a' /\ current_index a' = current_index a.
Proof.
  intros I Hmax Hi. unfold variadic_args_get, VARIADIC_ARGS_DEFAULT_SIZE.
  replace (i =? 0) with false by lia. replace (i <=? 64) with false by lia.
  pose proof (inv_counts _ _ I). destruct (load_in L (i - 1)) as [v Hv]; [lia|].
  assert (exists a', read_upto read_static (Z.to_nat (64 - read_count a)) a = Some a' /\
    args_inv L a' /\ 64 <= read_count a' /\ current_index a' = current_index a) as (a1 & -> & I1 & Hr & Hc).
  { destruct (decide (64 <= read_count a)).
    - exists a. replace (Z.to_nat _) with 0%nat by lia. done.
    - destruct (read_upto_static L (Z.to_nat (64 - read_count a)) a) as (a1 & -> & ? & ? & ?); [done|lia..|].
      exists a1. split; [done|]. split; [done|]. lia. }
  simpl. pose proof (ROUND_UP_4 (i - 64)) as HR. pose proof (inv_block _ _ I1) as Hb.
  pose proof (inv_counts _ _ I1).
  edestruct (ensure_block L a1) as (block & I2 & Eb & N2 & Hr2 & Hc2 & Hcap); [done| |rewrite N2].
  { unfold is_null. destruct (extra_args a1); simpl; lia. }
  set (a2 := if is_null a1 || _ then _ else _) in *.
  assert (i - 64 <= extra_capacity a2).
  { rewrite Hcap. unfold is_null. destruct (extra_args a1); simpl; [|lia].
    destruct (i - 64 >? extra_capacity a1) eqn:?; lia. }
  pose proof (inv_counts _ _ I2).
  assert (exists a' block', read_upto read_extra (Z.to_nat (i - read_count a2)) a2 = Some a' /\
    args_inv L a' /\ extra_args a' = Some block' /\ i <= read_count a' /\
    current_index a' = current_index a2) as (a3 & b3 & -> & I3 & E3 & Hr3 & Hc3).
  { destruct (decide (i <= read_count a2)).
    - exists a2, block. replace (Z.to_nat _) with 0%nat by lia. done.
    - destruct (read_upto_extra L (Z.to_nat (i - read_count a2)) a2 block)
        as (a3 & b3 & -> & ? & ? & ? & ?); [done|done|lia..|].
      exists a3, b3. split; [done|]. split; [done|]. split; [done|]. lia. }
  simpl. rewrite E3. simpl. replace (i - 64 - 1) with (i - 1 - 64) by lia.
  rewrite (load_extra L a3), Hv by (done || lia). exists v, a3.
  do 3 (split; [done|]). lia.
Qed.

(** One access is simulated by the specification. *)
Lemma variadic_args_get_sim L a i v c :
  args_inv L a -> zlen L < 2 ^ 31 -> 0 <= i -> spec_get L (current_index a) i = Some (v, c) ->
  exists a', variadic_args_get a i = Some (v, a') /\ args_inv L a' /\ current_index a' = c.
Proof.
  intros I Hmax Hi Hs. pose proof (inv_counts _ _ I). unfold spec_get in Hs.
  assert (forall j w, load L j = Some w -> 0 <= j < zlen L) as Hl.
  { unfold load. intros j w. destruct (0 <=? j) eqn:?; [|done]. intros ?%lookup_lt_Some. lia. }
  destruct (i =? 0) eqn:E.
  - destruct (load L (current_index a)) as [w|] eqn:El; simplify_eq/=.
    specialize (Hl _ _ El). replace i with 0 by lia.
    destruct (decide (current_index a < 64)).
    + destruct (get_next_static L a) as (v' & a' & Hg & Hv & I' & Hc); [done|lia..|].
      exists a'. split; [congruence|done].
    + destruct (get_next_extra L a) as (v' & a' & Hg & Hv & I' & Hc); [done|lia..|].
      exists a'. split; [congruence|done].
  - destruct (load L (i - 1)) as [w|] eqn:El; simplify_eq/=. specialize (Hl _ _ El).
    destruct (decide (i <= 64)).
    + destruct (get_at_static L a i) as (v' & a' & Hg & Hv & I' & Hc); [done|lia..|].
      exists a'. split; [congruence|done].
    + destruct (get_at_extra L a i) as (v' & a' & Hg & Hv & I' & Hc); [done|lia..|].
      exists a'. split; [congruence|done].
Qed.

End GetLemmas.

(** A sequence of accesses, by the code and by the specification. *)
Fixpoint get_all {A : Allocator} (a : variadic_args) (idxs : list Z) : option (list Z) :=
  match idxs with
  | [] => Some []
  | i :: idxs => '(v, a) ← variadic_args_get a i; vs ← get_all a idxs; Some (v :: vs)
  end.

Fixpoint spec_all (L : list Z) (c : Z) (idxs : list Z) : option (list Z) :=
  match idxs with
  | [] => Some []
  | i :: idxs => '(v, c) ← spec_get L c i; vs ← spec_all L c idxs; Some (v :: vs)
  end.

(** whatever the order in which a format asks for its arguments, by position
    (including positions beyond the 64 static slots, where the block grows)
    or one after the other, it gets the arguments of the call: the array cache
    over the one-pass [va_list] refines random access to the argument list. *)
Theorem variadic_args_refines {A : Allocator} (L idxs vs : list Z)
    (alloc_ok : forall n, malloc_ok n = true)
    (HL : zlen L < 2 ^ 31) (Hi : Forall (fun i => 0 <= i) idxs)
    (Hs : spec_all L 0 idxs = Some vs) :
  get_all (variadic_args_init L) idxs = Some vs.
Proof.
  assert (forall a, args_inv L a -> forall vs, spec_all L (current_index a) idxs = Some vs ->
          get_all a idxs = Some vs) as G; [|by apply G; [apply args_inv_init|]].
  clear vs Hs. induction Hi as [|i idxs Hi _ IH]; intros a I vs Hs; [done|]. simpl in *.
  destruct (spec_get L (current_index a) i) as [[v c]|] eqn:E; [|done]. simpl in Hs.
  destruct (variadic_args_get_sim alloc_ok L a i v c) as (a' & -> & I' & <-); [done..|]. simpl.
  destruct (spec_all L _ idxs) as [vs'|] eqn:E'; [|done]. by rewrite (IH a' I' vs' E').
Qed.

Definition ample : Allocator := fun _ => true.

Lemma variadic_args_refines_witness :
  get_all (A := ample) (variadic_args_init (Z.of_nat <$> seq 1 80)) [0; 70; 0; 3; 66; 0; 80]
  = Some [1; 70; 2; 3; 66; 3; 80].
Proof.
  apply (variadic_args_refines (A := ample) (Z.of_nat <$> seq 1 80)).
  - done.
  - vm_compute. done.
  - repeat constructor; lia.
  - vm_compute. reflexivity.
Defined.
