(* ===== verification/Float.v ===== *)
(** * Floating-point numbers as hexadecimal text

    [float32_to_hex] and [float64_to_hex] of src/internal/convert.c. A floating-point
    argument is given by its IEEE bit pattern, which is all the functions
    look at. As in the integer conversions the result is the text written. *)

From S2P Require Import Prelude Buffer Convert ConvertFacts.

Definition FLOAT32_EXP_INF : Z := 255.
Definition FLOAT32_EXP_BIAS : Z := 127.
Definition FLOAT64_EXP_INF : Z := 2047.
Definition FLOAT64_EXP_BIAS : Z := 1023.

Definition print_nan (upper : bool) : list Z :=
  if upper then [ch "N"; ch "A"; ch "N"] else [ch "n"; ch "a"; ch "n"].

Definition print_inf (upper : bool) : list Z :=
  if upper then [ch "I"; ch "N"; ch "F"] else [ch "i"; ch "n"; ch "f"].

(** [while (buffer[pos - 1] == '0') { if (buffer[pos - 2] == '.') break; --pos; }]
    where [text] is [buffer[0 .. pos)]; a round removes a byte. *)
Fixpoint trim_zeros (fuel : nat) (text : list Z) : list Z :=
  match fuel with
  | O => text
  | S fuel =>
      if byte_at text (zlen text - 1) =? ch "0" then
        if byte_at text (zlen text - 2) =? ch "." then text
        else trim_zeros fuel (removelast text)
      else text
  end.

(** The part both functions share, on the three fields of the number. *)
Definition hex_fields (EXP_INF EXP_BIAS : Z) (upper : bool) (sign exponent mantissa : Z)
    : option (list Z) :=
  let text := if sign =? 0 then [] else [ch "-"] in
  if exponent =? EXP_INF then
    Some (text ++ (if mantissa =? 0 then print_inf upper else print_nan upper))
  else
    let text := text ++ [ch "0"; if upper then ch "X" else ch "x";
                         if exponent =? 0 then ch "0" else ch "1"; ch "."] in
    m ← uint_to_hex_common upper mantissa;
    let text := text ++ m in
    let text := trim_zeros (length text) text in
    let text := text ++ [if upper then ch "P" else ch "p"] in
    if exponent >=? EXP_BIAS then
      e ← uint_to_dec_common (exponent - EXP_BIAS) 0; Some (text ++ ch "+" :: e)
    else
      e ← uint_to_dec_common (EXP_BIAS - exponent) 0; Some (text ++ ch "-" :: e).

Definition float32_to_hex (upper : bool) (v : Z) : option (list Z) :=
  let sign := Z.land (Z.shiftr v 31) 0x1 in
  let exponent := Z.land (Z.shiftr (u32 (Z.shiftl v 1)) 24) 0xFF in
  let mantissa := Z.land v 0x7FFFFF in
  hex_fields FLOAT32_EXP_INF FLOAT32_EXP_BIAS upper sign exponent mantissa.

Definition float64_to_hex (upper : bool) (v : Z) : option (list Z) :=
  let sign := Z.land (Z.shiftr v 63) 0x1 in
  let exponent := Z.land (Z.shiftr (u64 (Z.shiftl v 1)) 53) 0x7FF in
  let mantissa := Z.land v 0xFFFFFFFFFFFFF in
  hex_fields FLOAT64_EXP_INF FLOAT64_EXP_BIAS upper sign exponent mantissa.

(** ** The text of a finite number *)

Lemma byte_at_last (l : list Z) x : byte_at (l ++ [x]) (zlen (l ++ [x]) - 1) = x.
Proof.
  rewrite length_app. cbn [length]. rewrite byte_at_app_r by lia.
  by replace (Z.of_nat (length l + 1) - 1 - zlen l) with 0 by lia.
Qed.

Lemma byte_at_last2 (l : list Z) x y : byte_at (l ++ [x; y]) (zlen (l ++ [x; y]) - 2) = x.
Proof.
  rewrite length_app. cbn [length]. rewrite byte_at_app_r by lia.
  by replace (Z.of_nat (length l + 2) - 2 - zlen l) with 0 by lia.
Qed.

(** Trailing zeros go, down to a single digit after the point. *)
Lemma trim_zeros_text fuel pre cs :
  cs <> [] -> ch "." ∉ cs -> (length cs <= fuel)%nat ->
  exists ds j, trim_zeros fuel (pre ++ ch "." :: cs) = pre ++ ch "." :: ds /\
    cs = ds ++ replicate j (ch "0") /\ ds <> [] /\
    (byte_at ds (zlen ds - 1) = ch "0" -> ds = [ch "0"]).
Proof.
  revert cs. induction fuel as [|fuel IH]; intros cs Hne Hdot Hf; [by destruct cs; simpl in Hf; [|lia]|].
  destruct cs as [|x cs _] using rev_ind; [done|]. clear Hne. cbn [trim_zeros].
  replace (pre ++ ch "." :: cs ++ [x]) with ((pre ++ ch "." :: cs) ++ [x]) by (by rewrite <- app_assoc).
  rewrite byte_at_last. destruct (x =? ch "0") eqn:Ex.
  - apply Z.eqb_eq in Ex. subst x. destruct cs as [|y cs _] using rev_ind.
    + rewrite <- app_assoc. simpl. rewrite byte_at_last2. simpl. exists [ch "0"], 0%nat. done.
    + replace ((pre ++ ch "." :: cs ++ [y]) ++ [ch "0"]) with ((pre ++ ch "." :: cs) ++ [y; ch "0"])
        by (by rewrite <- !app_assoc; simpl; rewrite <- app_assoc).
      rewrite byte_at_last2. replace (y =? ch ".") with false.
      2: { symmetry. apply Z.eqb_neq. intros ->. apply Hdot. set_solver. }
      replace (removelast _) with (pre ++ ch "." :: cs ++ [y]).
      2: { change [y; ch "0"] with ([y] ++ [ch "0"]). rewrite app_assoc, removelast_last.
           by rewrite <- app_assoc. }
      destruct (IH (cs ++ [y])) as (ds & j & -> & Hcs & Hds & Hl); [by destruct cs|by apply not_elem_of_app in Hdot as [? _]| |].
      { rewrite !length_app in *. simpl in *. lia. }
      exists ds, (S j). split; [done|]. split; [|done].
      rewrite Hcs, <- app_assoc. f_equal. by rewrite replicate_S_end.
  - exists (cs ++ [x]), 0%nat. rewrite app_nil_r. split; [by rewrite <- app_assoc|]. split; [done|].
    split; [by destruct cs|]. rewrite byte_at_last. intros ->. done.
Qed.

Lemma hex_char_range upper d :
  0 <= d < 16 -> hex_char upper d <> ch "." /\ (hex_char upper d = ch "0" -> d = 0).
Proof.
  intros Hd.
  assert (forallb (fun d => negb (hex_char upper d =? ch ".") && ((d =? 0) || negb (hex_char upper d =? ch "0")))
            (seqZ 0 16) = true) as H by (by destruct upper).
  rewrite forallb_forall in H. specialize (H d).
  rewrite <- list_elem_of_In, elem_of_seqZ in H. specialize (H ltac:(lia)). lia.
Qed.

Lemma of_digits_zeros base ds (j : nat) :
  Forall (fun d => d = 0) ds -> length ds = j -> of_digits base ds = 0.
Proof.
  intros H <-. induction H as [|d ds -> _ IH]; [done|]. rewrite of_digits_cons, IH. lia.
Qed.

(** The digits after the point: those of the mantissa without trailing zeros. *)
Lemma trim_hex_digits upper pre m :
  is_u64 m ->
  exists ds, let text := pre ++ ch "." :: (hex_char upper <$> digits 16 m) in
    trim_zeros (length text) text = pre ++ ch "." :: (hex_char upper <$> ds) /\
    Forall (fun d => 0 <= d < 16) ds /\ 0 < zlen ds <= zlen (digits 16 m) /\
    m = of_digits 16 ds * 16 ^ (zlen (digits 16 m) - zlen ds).
Proof.
  intros Hm. destruct (digits_numeral 16 m ltac:(lia) Hm) as [Hv Hd Hc].
  destruct (trim_zeros_text (length (pre ++ ch "." :: (hex_char upper <$> digits 16 m))) pre
              (hex_char upper <$> digits 16 m)) as (cs & j & Ht & Hcs & Hne & _).
  - destruct (digits 16 m); [by destruct Hc as [?|(?&?&?&?)]|done].
  - rewrite list_elem_of_fmap. intros (d & E & Hin). rewrite Forall_forall in Hd.
    by apply (hex_char_range upper d (Hd _ Hin)).
  - rewrite length_app. simpl. rewrite length_fmap. lia.
  - apply fmap_app_inv in Hcs as (ds & zs & -> & Hz & E). exists ds. rewrite E in Hd, Hv.
    apply Forall_app in Hd as [Hds Hzs]. split; [exact Ht|]. rewrite E, length_app. split; [done|].
    split; [destruct ds; simpl in *; [done|lia]|].
    assert (Forall (fun d => d = 0) zs) as H0.
    { apply Forall_lookup_2. intros i d Hi. apply (hex_char_range upper d).
      - exact (Forall_lookup_1 _ _ _ _ Hzs Hi).
      - assert ((hex_char upper <$> zs) !! i = Some (hex_char upper d)) as Hl by (by rewrite list_lookup_fmap, Hi).
        rewrite <- Hz in Hl. by apply lookup_replicate in Hl as [? _]. }
    rewrite <- Hv, of_digits_app, (of_digits_zeros 16 zs _ H0 eq_refl).
    replace (Z.of_nat (length ds + length zs) - zlen ds) with (zlen zs) by lia. lia.
Qed.

(** The fields of a double. *)
Definition sign_bit (v : Z) : Z := v / 2 ^ 63.
Definition exponent_bits (v : Z) : Z := v / 2 ^ 52 mod 2 ^ 11.
Definition mantissa_bits (v : Z) : Z := v mod 2 ^ 52.

Lemma float64_fields upper v :
  is_u64 v -> float64_to_hex upper v =
    hex_fields FLOAT64_EXP_INF FLOAT64_EXP_BIAS upper (sign_bit v) (exponent_bits v) (mantissa_bits v).
Proof.
  intros Hv. unfold float64_to_hex, sign_bit, exponent_bits, mantissa_bits.
  rewrite (land_mask _ 1), (land_mask _ 11), (land_mask _ 52) by lia.
  rewrite !Z.shiftr_div_pow2, Z.shiftl_mul_pow2 by lia. unfold wrap.
  f_equal; [|].
  - apply Z.mod_small. change (2 ^ 63) with 9223372036854775808. change (2 ^ 1) with 2. zlia.
  - change (2 ^ 1) with 2. change (2 ^ 64) with 18446744073709551616.
    change (2 ^ 53) with 9007199254740992. change (2 ^ 52) with 4503599627370496.
    change (2 ^ 11) with 2048. zlia.
Qed.

Lemma digits_16_length m :
  0 <= m < 2 ^ 52 -> 1 <= zlen (digits 16 m) <= 13 /\ (zlen (digits 16 m) = 13 <-> 2 ^ 48 <= m).
Proof.
  intros Hm. destruct (digits_numeral 16 m ltac:(lia) ltac:(lia)) as [Hv Hd Hc].
  pose proof (length_digits 16 13 m ltac:(lia) ltac:(simpl; lia) ltac:(lia)) as L.
  pose proof (of_digits_bound 16 (digits 16 m) ltac:(lia) Hd) as B. rewrite Hv in B.
  assert (1 <= zlen (digits 16 m)) as L1 by (destruct (digits 16 m); [by destruct Hc as [?|(?&?&?&?)]|simpl; lia]).
  split; [lia|]. split; intros H.
  - destruct Hc as [Hc|(d & ds & Hc & Hd0)]; [by rewrite Hc in H|]. rewrite Hc in *.
    rewrite of_digits_cons in Hv. apply Forall_cons in Hd as [Hd Hds].
    pose proof (of_digits_bound 16 ds ltac:(lia) Hds). cbn [length] in H.
    replace (zlen ds) with 12 in * by lia. change (16 ^ 12) with (2 ^ 48) in *. nia.
  - destruct (decide (zlen (digits 16 m) <= 12)); [|lia]. exfalso.
    pose proof (Z.pow_le_mono_r 16 (zlen (digits 16 m)) 12 ltac:(lia) ltac:(lia)) as P.
    change (16 ^ 12) with (2 ^ 48) in P. lia.
Qed.

(** the hexadecimal text of a finite double has the IEEE sign, the leading
    digit, a fraction and the unbiased exponent; the fraction it shows equals
    the one of the number exactly when the mantissa is zero or its first
    hexadecimal digit is not: leading zeros of the mantissa are dropped. *)
Theorem float64_hex_exact (upper : bool) (v : Z) :
  is_u64 v -> exponent_bits v <> FLOAT64_EXP_INF ->
  exists ds,
    float64_to_hex upper v = Some (
      (if sign_bit v =? 0 then [] else [ch "-"]) ++
      [ch "0"; if upper then ch "X" else ch "x"; if exponent_bits v =? 0 then ch "0" else ch "1"; ch "."] ++
      (hex_char upper <$> ds) ++
      [if upper then ch "P" else ch "p"; if exponent_bits v >=? FLOAT64_EXP_BIAS then ch "+" else ch "-"] ++
      be_group false 0 (digits 10 (Z.abs (exponent_bits v - FLOAT64_EXP_BIAS)))) /\
    (of_digits 16 ds * 2 ^ 52 = mantissa_bits v * 16 ^ zlen ds <->
     mantissa_bits v = 0 \/ 2 ^ 48 <= mantissa_bits v).
Proof.
  intros Hv He. rewrite float64_fields by done.
  assert (0 <= exponent_bits v < 2 ^ 11) as Hex by (apply Z.mod_pos_bound; lia).
  assert (0 <= mantissa_bits v < 2 ^ 52) as Hm by (apply Z.mod_pos_bound; lia).
  set (e := exponent_bits v) in *. set (m := mantissa_bits v) in *. unfold hex_fields.
  replace (e =? FLOAT64_EXP_INF) with false by lia. rewrite uint_to_hex_digits by lia.
  cbn [mbind option_bind].
  set (sg := if sign_bit v =? 0 then [] else [ch "-"]).
  destruct (trim_hex_digits upper
              (sg ++ [ch "0"; if upper then ch "X" else ch "x"; if e =? 0 then ch "0" else ch "1"]) m)
    as (ds & Ht & Hds & Hl & Hval); [lia|].
  exists ds. unfold FLOAT64_EXP_BIAS in *. split.
  - rewrite <- !app_assoc in Ht |- *. cbn [app] in Ht |- *. rewrite Ht.
    destruct (e >=? 1023) eqn:E;
      [rewrite Z.abs_eq by lia|rewrite Z.abs_neq, Z.opp_sub_distr, Z.add_comm by lia; change (1023 + - e) with (1023 - e)];
      rewrite uint_to_dec_text by lia; cbn [mbind option_bind]; rewrite <- ?app_assoc; cbn [app]; done.
  - destruct (digits_16_length m Hm) as [L13 Liff]. rewrite <- Liff. rewrite Hval at 1 2.
    rewrite <- Z.mul_assoc, <- Z.pow_add_r by lia.
    replace (zlen (digits 16 m) - zlen ds + zlen ds) with (zlen (digits 16 m)) by lia.
    pose proof (of_digits_bound 16 ds ltac:(lia) Hds) as B.
    change (2 ^ 52) with (16 ^ 13). split.
    + intros E. destruct (decide (of_digits 16 ds = 0)) as [->|Hnz]; [by left|]. right.
      apply Z.mul_reg_l in E; [|done]. apply Z.pow_inj_r in E; lia.
    + intros [E|E]; [|by rewrite E]. apply Z.mul_eq_0 in E as [->|E]; [done|].
      assert (0 < 16 ^ (zlen (digits 16 m) - zlen ds)) by (apply Z.pow_pos_nonneg; lia). lia.
Qed.

(** [1.0625] and [1 + 2^-8] have the same text. *)
Lemma float64_hex_exact_witness :
  float64_to_hex false 0x3FF1000000000000 = float64_to_hex false 0x3FF0100000000000 /\
  exists ds, float64_to_hex false 0x3FF1000000000000 =
      Some ([] ++ [ch "0"; ch "x"; ch "1"; ch "."] ++ (hex_char false <$> ds) ++ [ch "p"; ch "+"] ++
            be_group false 0 (digits 10 0)) /\
    (of_digits 16 ds * 2 ^ 52 = mantissa_bits 0x3FF1000000000000 * 16 ^ zlen ds <->
     mantissa_bits 0x3FF1000000000000 = 0 \/ 2 ^ 48 <= mantissa_bits 0x3FF1000000000000).
Proof.
  split; [vm_compute; reflexivity|].
  apply (float64_hex_exact false 0x3FF1000000000000); [lia|vm_compute; discriminate].
Defined.
