(* ===== verification/FloatParse.v ===== *)
(** * Parsing of floating-point numbers

    src/internal/convert.c: [float_from_hex_common] and
    [float_from_normal_common], which accumulate their result in [double]
    arithmetic. A [double] of the computation is a [spec_float] of the Standard
    Library with the parameters of binary64 (round to nearest, ties to even);
    the value stored is its 64-bit pattern. *)

From Stdlib Require Import Floats.SpecFloat.
From S2P Require Import Prelude Buffer Convert.

Abbreviation fmul := (SFmul 53 1024).
Abbreviation fadd := (SFadd 53 1024).
Abbreviation fdiv := (SFdiv 53 1024).

(** [(double)n]. *)
Definition of_int (n : Z) : spec_float := binary_normalize 53 1024 n 0 false.

(** The bits of a number in a format with [m] bits of mantissa and the given
    exponent bias; an invalid operation gives the default NaN of the x86-64
    instructions. *)
Definition encode (m w bias : Z) (x : spec_float) : Z :=
  let signed (s : bool) v := (if s then 2 ^ (m + w) else 0) + v in
  match x with
  | S754_zero s => signed s 0
  | S754_infinity s => signed s ((2 ^ w - 1) * 2 ^ m)
  | S754_nan => signed true ((2 ^ w - 1) * 2 ^ m + 2 ^ (m - 1))
  | S754_finite s p e =>
      if Zpos p <? 2 ^ m then signed s (Zpos p)
      else signed s ((e + bias + m) * 2 ^ m + (Zpos p - 2 ^ m))
  end.

Definition double_bits : spec_float -> Z := encode 52 11 1023.

(** [(float)d] for the [double] with the bits [v]; a NaN keeps its sign and the
    high bits of its payload and becomes quiet. *)
Definition to_float (v : Z) : Z :=
  let s := v / 2 ^ 63 =? 1 in
  let e := v / 2 ^ 52 mod 2 ^ 11 in
  let m := v mod 2 ^ 52 in
  if (e =? 2047) && negb (m =? 0) then
    (if s then 2 ^ 31 else 0) + 0x7F800000 + Z.lor (2 ^ 22) (m / 2 ^ 29)
  else
    encode 23 8 127
      (if e =? 2047 then S754_infinity s
       else if e =? 0 then binary_normalize 24 128 (if s then - m else m) (-1074) s
       else binary_normalize 24 128 (if s then - (m + 2 ^ 52) else m + 2 ^ 52) (e - 1075) s).

(** The bits for ["inf"], ["infinity"] or ["nan"] and the number of bytes. *)
Definition parse_float_inf_or_nan (b : buffer_t) : buffer_t * option (Z * Z) :=
  let low b i := TO_LOWER (peekbyte b i) in
  if (low b 0 =? ch "i") && (low b 1 =? ch "n") && (low b 2 =? ch "f") then
    let b := advance b 3 in
    if (low b 0 =? ch "i") && (low b 1 =? ch "n") && (low b 2 =? ch "i") && (low b 3 =? ch "t") &&
       (low b 4 =? ch "y")
    then (advance b 5, Some (Z.shiftl 0x7FF 52, 8))
    else (b, Some (Z.shiftl 0x7FF 52, 3))
  else if (low b 0 =? ch "n") && (low b 1 =? ch "a") && (low b 2 =? ch "n") then
    (advance b 3, Some (0x7FFFFFFFFFFFFFFF, 3))
  else (b, None).

(** The optional sign: the cursor, whether it is a minus, the bytes read. *)
Definition parse_sign (b : buffer_t) : buffer_t * bool * Z :=
  let byte := peekbyte b 0 in
  if (byte =? ch "+") || (byte =? ch "-") then ((readbyte b).2, byte =? ch "-", 1) else (b, false, 0).

Fixpoint hex_whole (fuel : nat) (b : buffer_t) (value : spec_float) (count : Z) : buffer_t * spec_float * Z :=
  match fuel with
  | O => (b, value, count)
  | S fuel =>
      let byte := peekbyte b 0 in
      if byte =? 0 then (b, value, count)
      else match hex_digit byte with
           | None => (b, value, count)
           | Some nibble =>
               hex_whole fuel (readbyte b).2 (fadd (fmul value (of_int 16)) (of_int nibble)) (u32 (count + 1))
           end
  end.

Fixpoint hex_fraction (fuel : nat) (b : buffer_t) (value div : spec_float) (count : Z)
    : buffer_t * spec_float * Z :=
  match fuel with
  | O => (b, value, count)
  | S fuel =>
      let byte := peekbyte b 0 in
      if byte =? 0 then (b, value, count)
      else match hex_digit byte with
           | None => (b, value, count)
           | Some nibble =>
               hex_fraction fuel (readbyte b).2 (fadd value (fdiv (of_int nibble) div)) (fmul div (of_int 16))
                 (u32 (count + 1))
           end
  end.

(** [while (exp != 0)]: square and multiply; a 64-bit exponent has 64 rounds. *)
Fixpoint power_loop (fuel : nat) (exp : Z) (factor temp : spec_float) : spec_float :=
  match fuel with
  | O => factor
  | S fuel =>
      if exp =? 0 then factor
      else
        let temp := fmul temp temp in
        let factor := if has exp 1 then fmul factor temp else factor in
        power_loop fuel (Z.shiftr exp 1) factor temp
  end.

(** The exponent after its letter: [value * base^exp] or [value / base^exp]. *)
Definition scale (base : Z) (b : buffer_t) (value : spec_float) (count : Z) : buffer_t * spec_float * Z :=
  let '(b, sign, n) := parse_sign b in
  let '(b, exp, n') := uint_from_dec_common b 0 in
  let factor := power_loop 64 (Z.shiftr exp 1) (of_int (if has exp 1 then base else 1)) (of_int base) in
  (b, if sign then fdiv value factor else fmul value factor, u32 (count + n + n')).

Definition negate (minus : bool) (value : spec_float) : spec_float :=
  if minus then fmul value (of_int (-1)) else value.

Definition float_from_hex_common (b : buffer_t) : buffer_t * Z * Z :=
  let '(b, minus, count) := parse_sign b in
  match parse_float_inf_or_nan b with
  | (b, Some (bits, n)) => (b, if minus then Z.lor bits (Z.shiftl 1 63) else bits, u32 (count + n))
  | (b, None) =>
      let '(byte, b) := readbyte b in
      if negb (byte =? ch "0") then (b, 0, 0)
      else
        let '(byte, b) := readbyte b in
        if negb (TO_LOWER byte =? ch "x") then (b, 0, 0)
        else
          let '(b, value, count) := hex_whole (fuel_of b) b (S754_zero false) (u32 (count + 2)) in
          let '(b, value, count) :=
            if peekbyte b 0 =? ch "." then hex_fraction (fuel_of b) (readbyte b).2 value (of_int 16) (u32 (count + 1))
            else (b, value, count) in
          let '(b, value, count) :=
            if TO_LOWER (peekbyte b 0) =? ch "p" then scale 2 (readbyte b).2 value (u32 (count + 1))
            else (b, value, count) in
          (b, double_bits (negate minus value), count)
  end.

Fixpoint dec_whole (fuel : nat) (st : digit_parse_state) (b : buffer_t) (value : spec_float) (count : Z)
    : buffer_t * spec_float * Z :=
  match fuel with
  | O => (b, value, count)
  | S fuel =>
      let '(byte, st, b, count) := parse_digits (fuel_of b) st b count in
      if byte =? 0 then (b, value, count)
      else dec_whole fuel st b (fadd (fmul value (of_int 10)) (of_int (byte - ch "0"))) count
  end.

Fixpoint dec_fraction (fuel : nat) (st : digit_parse_state) (b : buffer_t) (value div : spec_float) (count : Z)
    : buffer_t * spec_float * Z :=
  match fuel with
  | O => (b, value, count)
  | S fuel =>
      let '(byte, st, b, count) := parse_digits (fuel_of b) st b count in
      if byte =? 0 then (b, value, count)
      else dec_fraction fuel st b (fadd value (fdiv (of_int (byte - ch "0")) div)) (fmul div (of_int 10)) count
  end.

Definition float_from_normal_common (b : buffer_t) (flags : Z) : buffer_t * Z * Z :=
  let '(b, minus, count) := parse_sign b in
  match parse_float_inf_or_nan b with
  | (b, Some (bits, n)) => (b, if minus then Z.lor bits (Z.shiftl 1 63) else bits, u32 (count + n))
  | (b, None) =>
      let '(b, value, count) :=
        dec_whole (fuel_of b) (DigitState 0 false false (u8 flags)) b (S754_zero false) count in
      let '(b, value, count) :=
        if peekbyte b 0 =? ch "." then
          dec_fraction (fuel_of b) (DigitState 0 false true (u8 flags)) (readbyte b).2 value (of_int 10)
            (u32 (count + 1))
        else (b, value, count) in
      let '(b, value, count) :=
        if TO_LOWER (peekbyte b 0) =? ch "e" then scale 10 (readbyte b).2 value (u32 (count + 1))
        else (b, value, count) in
      (b, double_bits (negate minus value), count)
  end.

Definition float32_from_hex (b : buffer_t) : buffer_t * Z * Z :=
  let '(b, result, count) := float_from_hex_common b in (b, to_float result, count).

Definition float64_from_hex (b : buffer_t) : buffer_t * Z * Z := float_from_hex_common b.

Definition float32_from_normal (b : buffer_t) (flags : Z) : buffer_t * Z * Z :=
  let '(b, result, count) := float_from_normal_common b flags in (b, to_float result, count).

Definition float64_from_normal (b : buffer_t) (flags : Z) : buffer_t * Z * Z := float_from_normal_common b flags.
