(* ===== verification/Printf.v ===== *)
(** * Formatted output

    src/stdio/printf.c: the parser of conversion specifications, the printers
    of the argument types and the interpreter of a format string. The output
    goes to a [buffer_t]. The arguments are the 64-bit words of the call; the
    strings they point to and the objects [%n] stores to are bytes of a memory
    [mem]. Undefined behaviour (a missing argument, an access to an unmapped
    byte, a store past the end of a local array) gives [None]. *)

From S2P Require Import Prelude Errno Buffer Convert Utf Varargs Float.

(** ** Memory *)

Abbreviation mem := (gmap Z Z).

(** [*(uintN_t * )p] for [N = 8 * n], little endian. *)
Fixpoint load_le (rd : Z -> option Z) (n : nat) (p : Z) : option Z :=
  match n with
  | O => Some 0
  | S n => x ← rd p; y ← load_le rd n (p + 1); Some (x + 256 * y)
  end.

(** [*(uintN_t * )p = v]; storing to a byte that is not mapped is undefined. *)
Fixpoint store_le (m : mem) (n : nat) (p v : Z) : option mem :=
  match n with
  | O => Some m
  | S n => _ ← m !! p; store_le (<[p := v mod 256]> m) n (p + 1) (v / 256)
  end.

(** ** Data *)

Definition PRINT_ALTERNATE_FORM : Z := 0x01.
Definition PRINT_ZERO_PADDED : Z := 0x02.
Definition PRINT_EMPTY_SPACE : Z := 0x04.
Definition PRINT_LEFT_JUSTIFY : Z := 0x08.
Definition PRINT_FORCE_SIGN : Z := 0x10.
Definition PRINT_UPPER_CASE : Z := 0x20.
Definition PRINT_GROUP_DIGITS : Z := 0x40.
Definition PRINT_PRECISION : Z := 0x80.

Inductive print_modifier :=
  | PRINT_MOD_NONE | PRINT_MOD_SHORT_SHORT | PRINT_MOD_SHORT | PRINT_MOD_LONG
  | PRINT_MOD_LONG_LONG | PRINT_MOD_MAX | PRINT_MOD_SIZE | PRINT_MOD_PTRDIFF
  | PRINT_MOD_LONG_DOUBLE.

Inductive print_type :=
  | PRINT_INT_NUMBER
  | PRINT_UINT_NUMBER | PRINT_UINT_BINARY | PRINT_UINT_OCTAL | PRINT_UINT_HEX
  | PRINT_DOUBLE_NORMAL | PRINT_DOUBLE_HEX | PRINT_DOUBLE_SCIENTIFIC
  | PRINT_DOUBLE_SCIENTIFIC_SHORT
  | PRINT_CHAR | PRINT_STRING | PRINT_POINTER | PRINT_RESULT | PRINT_UNKNOWN.

#[export] Instance print_type_eq_dec : EqDecision print_type.
Proof. solve_decision. Defined.

Record print_config := PrintConfig {
  type : print_type;
  modifier : print_modifier;
  pflags : Z;
  width : Z;
  precision : Z;
  presult : Z;
  pdata : Z
}.

(** ** Parsing a conversion specification *)

(** The loop of [parse_number]; a round consumes a byte of the format. *)
Fixpoint parse_number_loop (fuel : nat) (format : buffer_t) (index : Z) : buffer_t * Z :=
  match fuel with
  | O => (format, index)
  | S fuel =>
      let byte := peekbyte format 0 in
      if byte =? 0 then (format, index)
      else if (byte >=? ch "0") && (byte <=? ch "9") then
        parse_number_loop fuel (readbyte format).2 (u32 (u32 (index * 10) + (byte - ch "0")))
      else (format, index)
  end.

Definition parse_number (format : buffer_t) : buffer_t * Z :=
  parse_number_loop (fuel_of format) format 0.

(** [n$]: the number of the argument, 0 when none is given. *)
Definition parse_position (format : buffer_t) : buffer_t * Z :=
  let pos := pos format in
  let '(format, index) := parse_number format in
  if negb (index =? 0) then
    if peekbyte format 0 =? ch "$" then ((readbyte format).2, index)
    else (set_pos format pos, 0)
  else (set_pos format pos, 0).

Fixpoint parse_flags (fuel : nat) (format : buffer_t) (flags : Z) : buffer_t * Z :=
  match fuel with
  | O => (format, flags)
  | S fuel =>
      let byte := peekbyte format 0 in
      if byte =? 0 then (format, flags)
      else
        let next flag := parse_flags fuel (readbyte format).2 (Z.lor flags flag) in
        if byte =? ch "#" then next PRINT_ALTERNATE_FORM
        else if byte =? ch "0" then next PRINT_ZERO_PADDED
        else if byte =? ch " " then next PRINT_EMPTY_SPACE
        else if byte =? ch "-" then next PRINT_LEFT_JUSTIFY
        else if byte =? ch "+" then next PRINT_FORCE_SIGN
        else if byte =? ch "'" then next PRINT_GROUP_DIGITS
        else (format, flags)
  end.

(** A width or a precision: the number, or the position of the argument that
    gives it ([*], [*n$]) and [UINT32_MAX] otherwise. *)
Definition parse_size (format : buffer_t) : buffer_t * Z * Z :=
  if peekbyte format 0 =? ch "*" then
    let '(format, index) := parse_number (readbyte format).2 in
    if peekbyte format 0 =? ch "$" then ((readbyte format).2, 0, index) else (format, 0, 0)
  else
    let '(format, index) := parse_number format in
    (format, index, UINT32_MAX).

Definition parse_modifier (format : buffer_t) : buffer_t * print_modifier :=
  let byte := peekbyte format 0 in
  if byte =? ch "h" then
    let format := (readbyte format).2 in
    if peekbyte format 0 =? ch "h" then ((readbyte format).2, PRINT_MOD_SHORT_SHORT)
    else (format, PRINT_MOD_SHORT)
  else if byte =? ch "l" then
    let format := (readbyte format).2 in
    if peekbyte format 0 =? ch "l" then ((readbyte format).2, PRINT_MOD_LONG_LONG)
    else (format, PRINT_MOD_LONG)
  else if byte =? ch "L" then ((readbyte format).2, PRINT_MOD_LONG_DOUBLE)
  else if byte =? ch "j" then ((readbyte format).2, PRINT_MOD_MAX)
  else if byte =? ch "z" then ((readbyte format).2, PRINT_MOD_SIZE)
  else if byte =? ch "t" then ((readbyte format).2, PRINT_MOD_PTRDIFF)
  else (format, PRINT_MOD_NONE).

(** The conversion character: its type and the flag it sets. *)
Definition conversion (byte : Z) : print_type * Z :=
  if (byte =? ch "i") || (byte =? ch "d") then (PRINT_INT_NUMBER, 0)
  else if byte =? ch "u" then (PRINT_UINT_NUMBER, 0)
  else if byte =? ch "B" then (PRINT_UINT_BINARY, PRINT_UPPER_CASE)
  else if byte =? ch "b" then (PRINT_UINT_BINARY, 0)
  else if byte =? ch "O" then (PRINT_UINT_OCTAL, PRINT_UPPER_CASE)
  else if byte =? ch "o" then (PRINT_UINT_OCTAL, 0)
  else if byte =? ch "X" then (PRINT_UINT_HEX, PRINT_UPPER_CASE)
  else if byte =? ch "x" then (PRINT_UINT_HEX, 0)
  else if byte =? ch "A" then (PRINT_DOUBLE_HEX, PRINT_UPPER_CASE)
  else if byte =? ch "a" then (PRINT_DOUBLE_HEX, 0)
  else if byte =? ch "F" then (PRINT_DOUBLE_NORMAL, PRINT_UPPER_CASE)
  else if byte =? ch "f" then (PRINT_DOUBLE_NORMAL, 0)
  else if byte =? ch "E" then (PRINT_DOUBLE_SCIENTIFIC, PRINT_UPPER_CASE)
  else if byte =? ch "e" then (PRINT_DOUBLE_SCIENTIFIC, 0)
  else if byte =? ch "G" then (PRINT_DOUBLE_SCIENTIFIC_SHORT, PRINT_UPPER_CASE)
  else if byte =? ch "g" then (PRINT_DOUBLE_SCIENTIFIC_SHORT, 0)
  else if byte =? ch "c" then (PRINT_CHAR, 0)
  else if byte =? ch "s" then (PRINT_STRING, 0)
  else if byte =? ch "p" then (PRINT_POINTER, 0)
  else if byte =? ch "n" then (PRINT_RESULT, 0)
  else (PRINT_UNKNOWN, 0).

(** The flags that are ignored in presence of others. *)
Definition resolve_flags (flags : Z) : Z :=
  let flags := if has flags PRINT_LEFT_JUSTIFY then Z.ldiff flags PRINT_ZERO_PADDED else flags in
  let flags := if has flags PRINT_PRECISION then Z.ldiff flags PRINT_ZERO_PADDED else flags in
  if has flags PRINT_FORCE_SIGN then Z.ldiff flags PRINT_EMPTY_SPACE else flags.

Definition alternate_form_char (config : print_config) : Z :=
  let upper := has (pflags config) PRINT_UPPER_CASE in
  match type config with
  | PRINT_UINT_BINARY => if upper then ch "B" else ch "b"
  | PRINT_UINT_OCTAL => if upper then ch "O" else ch "o"
  | PRINT_UINT_HEX => if upper then ch "X" else ch "x"
  | _ => 0
  end.

Section Print.
Context {A : Allocator}.

(** An argument that is only fetched when [index] is not [UINT32_MAX]. *)
Definition get_size (args : variadic_args) (index value : Z) : option (Z * variadic_args) :=
  if negb (index =? UINT32_MAX) then
    '(w, args) ← variadic_args_get args index; Some (u32 w, args)
  else Some (value, args).

Definition parse_print_specifier (format : buffer_t) (args : variadic_args)
    : option (buffer_t * print_config * variadic_args) :=
  let '(format, arg_index) := parse_position format in
  let '(format, flags) := parse_flags (fuel_of format) format 0 in
  let '(format, width, width_index) := parse_size format in
  let '(format, precision, precision_index, flags) :=
    if peekbyte format 0 =? ch "." then
      let '(format, precision, precision_index) := parse_size (readbyte format).2 in
      (format, precision, precision_index, Z.lor flags PRINT_PRECISION)
    else (format, 0, UINT32_MAX, flags) in
  let '(format, modifier) := parse_modifier format in
  let '(type, upper) := conversion (peekbyte format 0) in
  let flags := Z.lor flags upper in
  if decide (type = PRINT_UNKNOWN) then
    Some (format, PrintConfig type modifier (resolve_flags flags) width precision 0 0, args)
  else
    let format := (readbyte format).2 in
    '(width, args) ← get_size args width_index width;
    '(precision, args) ← get_size args precision_index precision;
    '(data, args) ← variadic_args_get args arg_index;
    Some (format, PrintConfig type modifier (resolve_flags flags) width precision 0 data, args).

(** ** Numbers in a field *)

(** [while (pos + k < limit) { writebyte(buffer, c); pos += 1; }] on [uint32_t]; the
    sum reaches [limit] after at most [limit] rounds ([pad_Emits]). *)
Fixpoint pad (fuel : nat) (buffer : buffer_t) (c pos k limit : Z) : buffer_t * Z :=
  match fuel with
  | O => (buffer, pos)
  | S fuel =>
      if u32 (pos + k) <? limit
      then pad fuel (writebyte buffer c).1 c (u32 (pos + 1)) k limit
      else (buffer, pos)
  end.

(** [if (sign != 0) writebyte(buffer, sign);] *)
Definition put_sign (buffer : buffer_t) (sign : Z) : buffer_t :=
  if negb (sign =? 0) then (writebyte buffer sign).1 else buffer.

(** The part of [print_int_formatted] after the sign has been taken off. *)
Definition int_field (config : print_config) (buffer : buffer_t) (temp : list Z) (size extra sign : Z)
    : buffer_t * Z :=
  let period := if has (pflags config) PRINT_GROUP_DIGITS then u32 (size - 1) / 3 else 0 in
  let signed := if negb (sign =? 0) then 1 else 0 in
  let width := width config in
  let precision := precision config in
  let zeros b := pad (Z.to_nat precision) b (ch "0") 0 (u32 (size - period)) precision in
  if has (pflags config) PRINT_LEFT_JUSTIFY then
    let buffer := put_sign buffer sign in
    let '(buffer, pos) := zeros buffer in
    let buffer := (writen buffer temp).1 in
    let size := u32 (u32 (size + pos) + extra) in
    let '(buffer, size) := pad (Z.to_nat width) buffer (ch " ") size 0 width in
    (buffer, size)
  else if width >? Z.max precision size then
    if has (pflags config) PRINT_ZERO_PADDED then
      let buffer := put_sign buffer sign in
      let pos := if negb (sign =? 0) then extra else 0 in
      let '(buffer, pos) := pad (Z.to_nat width) buffer (ch "0") pos size width in
      let buffer := (writen buffer temp).1 in
      (buffer, u32 (pos + size))
    else
      let count := u32 (u32 (Z.max precision (u32 (size - period)) + signed) + period) in
      let '(buffer, pos) := pad (Z.to_nat width) buffer (ch " ") 0 count width in
      let buffer := put_sign buffer sign in
      let pos := if negb (sign =? 0) then u32 (pos + extra) else pos in
      let '(buffer, count) := zeros buffer in
      let buffer := (writen buffer temp).1 in
      (buffer, u32 (u32 (size + pos) + count))
  else
    let buffer := put_sign buffer sign in
    let '(buffer, pos) := zeros buffer in
    let buffer := (writen buffer temp).1 in
    (buffer, u32 (u32 (pos + size) + extra)).

Definition print_int_formatted (config : print_config) (buffer : buffer_t) (temp : list Z)
    : buffer_t * Z :=
  let size := zlen temp in
  let first := byte_at temp 0 in
  if (first =? ch "-") || (first =? ch "+") then
    let sign :=
      if has (pflags config) PRINT_EMPTY_SPACE then
        if first =? ch "+" then ch " " else ch "-"
      else first in
    int_field config buffer (drop 1 temp) (u32 (size - 1)) 1 sign
  else int_field config buffer temp size 0 0.

(** The two bytes of the alternate form. *)
Definition put_prefix (config : print_config) (buffer : buffer_t) : buffer_t :=
  if has (pflags config) PRINT_ALTERNATE_FORM
  then (writebyte (writebyte buffer (ch "0")).1 (alternate_form_char config)).1 else buffer.

Definition print_uint_formatted (config : print_config) (buffer : buffer_t) (temp : list Z)
    : buffer_t * Z :=
  let size := zlen temp in
  let extra := if has (pflags config) PRINT_ALTERNATE_FORM then 2 else 0 in
  let width := width config in
  let precision := precision config in
  let zeros b := pad (Z.to_nat precision) b (ch "0") 0 size precision in
  if has (pflags config) PRINT_LEFT_JUSTIFY then
    let buffer := put_prefix config buffer in
    let '(buffer, pos) := zeros buffer in
    let buffer := (writen buffer temp).1 in
    let size := u32 (size + u32 (pos + extra)) in
    let '(buffer, size) := pad (Z.to_nat width) buffer (ch " ") size 0 width in
    (buffer, size)
  else if width >? Z.max precision size then
    if has (pflags config) PRINT_ZERO_PADDED then
      let buffer := put_prefix config buffer in
      let pos := extra in
      let '(buffer, pos) := pad (Z.to_nat width) buffer (ch "0") pos size width in
      let buffer := (writen buffer temp).1 in
      (buffer, u32 (pos + size))
    else
      let count := u32 (Z.max precision size + extra) in
      let '(buffer, pos) := pad (Z.to_nat width) buffer (ch " ") 0 count width in
      let buffer := put_prefix config buffer in
      let pos := u32 (pos + extra) in
      let '(buffer, count) := zeros buffer in
      let buffer := (writen buffer temp).1 in
      (buffer, u32 (u32 (size + pos) + count))
  else
    let buffer := put_prefix config buffer in
    let '(buffer, pos) := zeros buffer in
    let buffer := (writen buffer temp).1 in
    (buffer, u32 (u32 (pos + size) + extra)).

(** ** Printing an argument

    [print_arg] is split by the type of the conversion. The buffer, the number
    of bytes printed and, for [%n], the memory are returned. *)

Definition print_int_number (buffer : buffer_t) (config : print_config) : option (buffer_t * Z) :=
  let flags := Z.land (pflags config) (Z.lor PRINT_FORCE_SIGN PRINT_GROUP_DIGITS) in
  let flags := if has (pflags config) PRINT_EMPTY_SPACE then Z.lor flags PRINT_FORCE_SIGN else flags in
  let x := pdata config in
  temp ← match modifier config with
         | PRINT_MOD_NONE => i32_to_dec x flags
         | PRINT_MOD_SHORT => i16_to_dec x flags
         | PRINT_MOD_SHORT_SHORT => i8_to_dec x flags
         | PRINT_MOD_LONG => i64_to_dec x flags
         | PRINT_MOD_LONG_LONG => imax_to_dec x flags
         | PRINT_MOD_MAX => imax_to_dec x flags
         | PRINT_MOD_SIZE => isize_to_dec x flags
         | PRINT_MOD_PTRDIFF => iptr_to_dec x flags
         | _ => i32_to_dec x flags
         end;
  Some (print_int_formatted config buffer temp).

Definition print_uint_number (buffer : buffer_t) (config : print_config) : option (buffer_t * Z) :=
  let flags := Z.land (pflags config) PRINT_GROUP_DIGITS in
  let x := pdata config in
  temp ← match modifier config with
         | PRINT_MOD_NONE => u32_to_dec x flags
         | PRINT_MOD_SHORT => u16_to_dec x flags
         | PRINT_MOD_SHORT_SHORT => u8_to_dec x flags
         | PRINT_MOD_LONG => u64_to_dec x flags
         | PRINT_MOD_LONG_LONG => umax_to_dec x flags
         | PRINT_MOD_MAX => umax_to_dec x flags
         | PRINT_MOD_SIZE => usize_to_dec x flags
         | PRINT_MOD_PTRDIFF => uptr_to_dec x flags
         | _ => u32_to_dec x flags
         end;
  Some (print_int_formatted config buffer temp).

Definition print_uint_binary (buffer : buffer_t) (config : print_config) : option (buffer_t * Z) :=
  let x := pdata config in
  temp ← match modifier config with
         | PRINT_MOD_NONE => u32_to_bin x
         | PRINT_MOD_SHORT => u16_to_bin x
         | PRINT_MOD_SHORT_SHORT => u8_to_bin x
         | PRINT_MOD_LONG => u64_to_bin x
         | PRINT_MOD_LONG_LONG => umax_to_bin x
         | PRINT_MOD_MAX => umax_to_bin x
         | PRINT_MOD_SIZE => usize_to_bin x
         | PRINT_MOD_PTRDIFF => uptr_to_bin x
         | _ => u32_to_bin x
         end;
  Some (print_uint_formatted config buffer temp).

Definition print_uint_octal (buffer : buffer_t) (config : print_config) : option (buffer_t * Z) :=
  let x := pdata config in
  temp ← match modifier config with
         | PRINT_MOD_NONE => u32_to_oct x
         | PRINT_MOD_SHORT => u16_to_oct x
         | PRINT_MOD_SHORT_SHORT => u8_to_oct x
         | PRINT_MOD_LONG => u64_to_oct x
         | PRINT_MOD_LONG_LONG => umax_to_oct x
         | PRINT_MOD_MAX => umax_to_oct x
         | PRINT_MOD_SIZE => usize_to_oct x
         | PRINT_MOD_PTRDIFF => uptr_to_oct x
         | _ => u32_to_oct x
         end;
  Some (print_uint_formatted config buffer temp).

Definition print_uint_hex (buffer : buffer_t) (config : print_config) : option (buffer_t * Z) :=
  let upper := has (pflags config) PRINT_UPPER_CASE in
  let x := pdata config in
  temp ← match modifier config with
         | PRINT_MOD_NONE => u32_to_hex upper x
         | PRINT_MOD_SHORT => u16_to_hex upper x
         | PRINT_MOD_SHORT_SHORT => u8_to_hex upper x
         | PRINT_MOD_LONG => u64_to_hex upper x
         | PRINT_MOD_LONG_LONG => umax_to_hex upper x
         | PRINT_MOD_MAX => umax_to_hex upper x
         | PRINT_MOD_SIZE => usize_to_hex upper x
         | PRINT_MOD_PTRDIFF => uptr_to_hex upper x
         | _ => u32_to_hex upper x
         end;
  Some (print_uint_formatted config buffer temp).

Definition print_double_hex (buffer : buffer_t) (config : print_config) : option (buffer_t * Z) :=
  temp ← float64_to_hex (has (pflags config) PRINT_UPPER_CASE) (pdata config);
  Some ((writen buffer temp).1, u32 (zlen temp)).

(** [temp[pos++] = c] over the bytes [cs], with [byte_t temp[128]]. *)
Definition push_temp (temp cs : list Z) : option (list Z) :=
  if zlen temp + zlen cs <=? 128 then Some (temp ++ cs) else None.

Definition print_char (buffer : buffer_t) (config : print_config) : option (buffer_t * Z) :=
  let pre_temp :=
    match modifier config with
    | PRINT_MOD_LONG =>
        let '(n, codepoint) := utf16_decode (le_byte (pdata config) <$> seqZ 0 8) 8 0 in
        if negb (n =? 0) then utf8_encode codepoint else []
    | PRINT_MOD_LONG_LONG => utf8_encode (u32 (pdata config))
    | _ => [u8 (pdata config)]
    end in
  if width config >? 1 then
    let spaces := replicate (Z.to_nat (width config - 1)) (ch " ") in
    temp ← (if has (pflags config) PRINT_LEFT_JUSTIFY
            then temp ← push_temp [] pre_temp; push_temp temp spaces
            else temp ← push_temp [] spaces; push_temp temp pre_temp);
    Some ((writen buffer temp).1, u32 (zlen temp))
  else Some ((writen buffer pre_temp).1, u32 (zlen pre_temp)).

(** The object a string argument points to, by byte offset; a null pointer
    stands for the constant ["\0\0\0"]. *)
Definition string_object (m : mem) (data i : Z) : option Z :=
  if data =? 0 then (if (0 <=? i) && (i <? 4) then Some 0 else None)
  else m !! (data + i).

(** [while ( *ch++ != 0 && count < precision) ++count;] over units of [n]
    bytes. Every round reads another byte of a finite memory. *)
Fixpoint count_units (fuel : nat) (rd : Z -> option Z) (n : nat) (precision count : Z) : option Z :=
  match fuel with
  | O => None
  | S fuel =>
      c ← load_le rd n (Z.of_nat n * count);
      if negb (c =? 0) && (count <? precision)
      then count_units fuel rd n precision (count + 1) else Some count
  end.

(** [for (i = 0; i < n; ++i) { writebyte(buffer, ' '); result += 1; }] *)
Fixpoint spaces (n : nat) (buffer : buffer_t) (result : Z) : buffer_t * Z :=
  match n with
  | O => (buffer, result)
  | S n => spaces n (writebyte buffer (ch " ")).1 (u32 (result + 1))
  end.

(** The bytes of the object in [from, from + n). *)
Fixpoint load_bytes (rd : Z -> option Z) (n : nat) (from : Z) : option (list Z) :=
  match n with
  | O => Some []
  | S n => x ← rd from; xs ← load_bytes rd n (from + 1); Some (x :: xs)
  end.

(** The loop over 16-bit units: [n] is [count - i]. Whenever it runs, the unit
    after the one at [pos] was read by [count_units], so four bytes are there. *)
Fixpoint print_utf16 (n : nat) (rd : Z -> option Z) (pos : Z) (buffer : buffer_t) (result : Z)
    : option (buffer_t * Z) :=
  match n with
  | O => Some (buffer, result)
  | S n =>
      unit ← load_bytes rd 4 pos;
      let '(size, codepoint) := utf16_decode unit 4 0 in
      let pos := u32 (pos + size) in
      let n := if size =? 4 then Nat.pred n else n in
      if codepoint =? 0 then Some (buffer, result)
      else
        let temp := utf8_encode codepoint in
        print_utf16 n rd pos (writen buffer temp).1 (u32 (result + zlen temp))
  end.

Fixpoint print_utf32 (n : nat) (rd : Z -> option Z) (pos : Z) (buffer : buffer_t) (result : Z)
    : option (buffer_t * Z) :=
  match n with
  | O => Some (buffer, result)
  | S n =>
      c ← load_le rd 4 pos;
      let temp := utf8_encode c in
      print_utf32 n rd (pos + 4) (writen buffer temp).1 (u32 (result + zlen temp))
  end.

(** The units themselves. *)
Definition print_units (modifier : print_modifier) (rd : Z -> option Z) (count : Z)
    (buffer : buffer_t) (result : Z) : option (buffer_t * Z) :=
  match modifier with
  | PRINT_MOD_LONG => print_utf16 (Z.to_nat count) rd 0 buffer result
  | PRINT_MOD_LONG_LONG => print_utf32 (Z.to_nat count) rd 0 buffer result
  | _ => bs ← load_bytes rd (Z.to_nat count) 0;
         Some ((writen buffer bs).1, u32 (result + u32 count))
  end.

Definition print_string (m : mem) (buffer : buffer_t) (config : print_config) : option (buffer_t * Z) :=
  let precision :=
    if negb (has (pflags config) PRINT_PRECISION) then UINT32_MAX else precision config in
  let rd := string_object m (pdata config) in
  let fuel := (5 + base.size m)%nat in
  count ← count_units fuel rd
            match modifier config with
            | PRINT_MOD_LONG => 2 | PRINT_MOD_LONG_LONG => 4 | _ => 1
            end precision 0;
  let fill := Z.to_nat (width config - count) in
  let left := has (pflags config) PRINT_LEFT_JUSTIFY in
  let '(buffer, result) :=
    if (width config >? count) && negb left then spaces fill buffer 0 else (buffer, 0) in
  '(buffer, result) ← print_units (modifier config) rd count buffer result;
  Some (if (width config >? count) && left then spaces fill buffer result else (buffer, result)).

Definition print_pointer (buffer : buffer_t) (config : print_config) : buffer_t * Z :=
  let temp := pointer_encode (pdata config) in
  let size := zlen temp in
  if width config >? size then
    let fill := Z.to_nat (width config - size) in
    if has (pflags config) PRINT_LEFT_JUSTIFY then
      spaces fill (writen buffer temp).1 size
    else
      let '(buffer, pos) := spaces fill buffer 0 in
      ((writen buffer temp).1, u32 (size + pos))
  else ((writen buffer temp).1, size).

(** [%n]: the number of bytes [store_le] stores is the width of the type. *)
Definition print_result (m : mem) (config : print_config) : option mem :=
  let bytes := match modifier config with
               | PRINT_MOD_NONE => 4 | PRINT_MOD_SHORT => 2 | PRINT_MOD_SHORT_SHORT => 1
               | PRINT_MOD_LONG | PRINT_MOD_LONG_LONG | PRINT_MOD_MAX | PRINT_MOD_SIZE
               | PRINT_MOD_PTRDIFF => 8
               | _ => 4
               end%nat in
  store_le m bytes (pdata config) (presult config).

Definition print_arg (m : mem) (buffer : buffer_t) (config : print_config)
    : option (mem * buffer_t * Z) :=
  let keep r := '(buffer, result) ← r; Some (m, buffer, result) in
  match type config with
  | PRINT_INT_NUMBER => keep (print_int_number buffer config)
  | PRINT_UINT_NUMBER => keep (print_uint_number buffer config)
  | PRINT_UINT_BINARY => keep (print_uint_binary buffer config)
  | PRINT_UINT_OCTAL => keep (print_uint_octal buffer config)
  | PRINT_UINT_HEX => keep (print_uint_hex buffer config)
  | PRINT_DOUBLE_NORMAL => Some (m, buffer, 0)
  | PRINT_DOUBLE_SCIENTIFIC | PRINT_DOUBLE_SCIENTIFIC_SHORT => Some (m, buffer, 0)
  | PRINT_DOUBLE_HEX => keep (print_double_hex buffer config)
  | PRINT_CHAR => keep (print_char buffer config)
  | PRINT_STRING => keep (print_string m buffer config)
  | PRINT_POINTER => let '(buffer, result) := print_pointer buffer config in Some (m, buffer, result)
  | PRINT_RESULT => m ← print_result m config; Some (m, buffer, 0)
  | PRINT_UNKNOWN => Some (m, buffer, 0)
  end.

(** ** The format interpreter *)

(** [strnlen(s, maxlen)]. *)
Fixpoint strnlen (s : list Z) (maxlen : nat) : Z :=
  match maxlen, s with
  | S n, c :: s => if c =? 0 then 0 else 1 + strnlen s n
  | _, _ => 0
  end.

(** What [wlibc_printf_internal] leaves: the memory, the output buffer and the
    value returned. *)
Record printed := Printed { p_mem : mem; p_out : buffer_t; p_ret : Z }.

(** The [while] loop; a round consumes at least a byte of the format. *)
Fixpoint printf_loop (fuel : nat) (m : mem) (buffer inp : buffer_t) (args : variadic_args)
    (result : Z) : option printed :=
  match fuel with
  | O => None
  | S fuel =>
      let '(byte, inp) := readbyte inp in
      if byte =? 0 then Some (Printed m buffer (swrap 32 result))
      else if byte =? ch "%" then
        let byte := peekbyte inp 0 in
        if byte =? 0 then
          Some (Printed m (writebyte buffer (ch "%")).1 (swrap 32 (u32 (result + 1))))
        else if byte =? ch "%" then
          printf_loop fuel m (writebyte buffer (ch "%")).1 (readbyte inp).2 args (u32 (result + 1))
        else
          let pos := pos inp in
          '(inp, config, args) ← parse_print_specifier inp args;
          if decide (type config = PRINT_UNKNOWN) then
            printf_loop fuel m (writebyte buffer (ch "%")).1 (set_pos inp pos) args (u32 (result + 1))
          else
            let config := PrintConfig (type config) (modifier config) (pflags config)
                            (width config) (precision config) result (pdata config) in
            '(m, buffer, n) ← print_arg m buffer config;
            if error buffer then Some (Printed m buffer (-1))
            else printf_loop fuel m buffer inp args (u32 (result + n))
      else printf_loop fuel m (writebyte buffer byte).1 inp args (u32 (result + 1))
  end.

Definition wlibc_printf_internal (m : mem) (buffer : buffer_t) (format : list Z) (list : list Z)
    : option printed :=
  let inp := string_buffer format (strnlen format (Z.to_nat 65536)) in
  printf_loop (fuel_of inp) m buffer inp (variadic_args_init list) 0.

(** ** Entry points

    A null pointer argument is [None]; the first component of a result is the
    value of [errno] when it is set. *)

Record sprinted := Sprinted { s_errno : option Z; s_mem : mem; s_buffer : option (list Z); s_ret : Z }.

Definition wlibc_vasprintf (m : mem) (format : option (list Z)) (args : list Z) : option sprinted :=
  match format with
  | None => Some (Sprinted (Some EINVAL) m None (-1))
  | Some format =>
      r ← wlibc_printf_internal m empty_memory_buffer format args;
      Some (Sprinted None (p_mem r)
              (if size (p_out r) =? 0 then None else Some (data (p_out r))) (p_ret r))
  end.

(** [buffer[i] = '\0']. *)
Definition put_nul (buffer : list Z) (i : Z) : option (list Z) :=
  if (0 <=? i) && (i <? zlen buffer) then Some (write_at buffer i [0]) else None.

(** An array shorter than [size] is undefined behaviour. *)
Definition wlibc_vsnprintf (m : mem) (buffer : option (list Z)) (size : Z) (format : option (list Z))
    (args : list Z) : option sprinted :=
  match format with
  | None => Some (Sprinted (Some EINVAL) m buffer (-1))
  | Some format =>
      if negb (bool_decide (buffer = None)) && (size =? 0) then Some (Sprinted (Some EINVAL) m buffer (-1))
      else
        let block := default [] buffer in
        if zlen block <? size then None else
        r ← wlibc_printf_internal m (Buffer block 0 size write_NULL false) format args;
        let result := p_ret r in
        if result <? swrap 32 size then
          block ← put_nul (data (p_out r)) result;
          Some (Sprinted None (p_mem r) (Some block) result)
        else Some (Sprinted None (p_mem r) (_ ← buffer; Some (data (p_out r))) result)
  end.

(** [memset(buffer, 0, n); memcpy(buffer, src, length src)] with
    [length src <= n]. *)
Definition fill_buffer (buffer : option (list Z)) (n : Z) (src : list Z) : option (option (list Z)) :=
  if n =? 0 then Some buffer
  else
    block ← buffer;
    if n <=? zlen block
    then Some (Some (write_at (write_at block 0 (replicate (Z.to_nat n) 0)) 0 src)) else None.

(** The pointer returned is the caller's array or a heap block. *)
Inductive vasn_result :=
  | vasn_error (errno : Z)
  | vasn_caller (buffer : option (list Z)) (size : Z)
  | vasn_heap (block : list Z) (size : Z).

Definition wlibc_vasnprintf (m : mem) (buffer : option (list Z)) (psize : option Z)
    (format : option (list Z)) (args : list Z) : option vasn_result :=
  match format, psize with
  | None, _ => Some (vasn_error EINVAL)
  | _, None => Some (vasn_error EINVAL)
  | Some format, Some size0 =>
      if negb (bool_decide (buffer = None)) && (size0 =? 0) then Some (vasn_error EINVAL)
      else
        r ← wlibc_printf_internal m empty_memory_buffer format args;
        let n := u64 (p_ret r) in
        let out := p_out r in
        if size out <=? n then
          buffer ← fill_buffer buffer n (data out);
          Some (vasn_caller buffer (size out))
        else Some (vasn_heap (data out) (size out))
  end.

End Print.
