(* ===== verification/PrintfFacts.v ===== *)
(** * What [printf] writes

    Every printer of src/stdio/printf.c hands a list of chunks to its buffer, and
    that list does not depend on the buffer. From this follow the laws of the
    return value, the agreement of [vsnprintf] with [vasprintf], and the exact
    text of a conversion. *)

From S2P Require Import Prelude Buffer Convert ConvertFacts Utf Varargs Float Printf.

(** ** Chunks *)

Section Chunks.
Context {A : Allocator}.

(** Writing a list of chunks. *)
Definition put_all (b : buffer_t) (chunks : list (list Z)) : buffer_t :=
  foldl (fun b bs => (writen b bs).1) b chunks.

Lemma put_all_app b c1 c2 : put_all b (c1 ++ c2) = put_all (put_all b c1) c2.
Proof. apply foldl_app. Qed.

Lemma put_all_writen b bs : (writen b bs).1 = put_all b [bs].
Proof. done. Qed.

Lemma put_all_writebyte b c : (writebyte b c).1 = put_all b [[c]].
Proof. by rewrite writebyte_writen. Qed.

Lemma put_all_nil b : put_all b [] = b.
Proof. done. Qed.

Lemma put_all_Emits (alloc_ok : forall n, malloc_ok n = true) b chunks :
  wf b -> Emits b chunks (put_all b chunks).
Proof.
  revert b. induction chunks as [|c cs IH]; intros b W; simpl; [by apply Emits_nil|].
  pose proof (writen_Emits alloc_ok b c W) as E.
  eapply Emits_cons; [exact E|]. apply IH. apply E.
Qed.

(** The number of rounds of [pad]. *)
Fixpoint pad_count (fuel : nat) (pos k limit : Z) : nat :=
  match fuel with
  | O => 0
  | S fuel => if u32 (pos + k) <? limit then S (pad_count fuel (u32 (pos + 1)) k limit) else 0
  end.

Lemma pad_put_all fuel b c pos k limit :
  is_u32 pos ->
  pad fuel b c pos k limit =
    (put_all b (replicate (pad_count fuel pos k limit) [c]),
     u32 (pos + Z.of_nat (pad_count fuel pos k limit))).
Proof.
  revert b pos. induction fuel as [|fuel IH]; intros b pos Hp; simpl.
  - rewrite wrap_small by lia. f_equal. lia.
  - destruct (u32 (pos + k) <? limit).
    + rewrite IH by (apply wrap_range; lia). simpl. rewrite writebyte_writen. f_equal.
      rewrite wrap_add_l. f_equal. lia.
    + simpl. rewrite wrap_small by lia. f_equal. lia.
Qed.

Lemma pad_count_eq fuel pos k limit :
  0 <= pos -> 0 <= k -> limit < 2 ^ 32 -> pos + k < 2 ^ 32 -> limit <= Z.of_nat fuel + (pos + k) ->
  pad_count fuel pos k limit = Z.to_nat (limit - (pos + k)).
Proof.
  revert pos. induction fuel as [|fuel IH]; intros pos Hp Hk Hl Hs Hf; simpl; [lia|].
  rewrite (wrap_small 32 (pos + k)) by lia. destruct (pos + k <? limit) eqn:E; [|lia].
  rewrite (wrap_small 32 (pos + 1)), IH by lia. lia.
Qed.

Lemma spaces_put_all n b r :
  is_u32 r -> spaces n b r = (put_all b (replicate n [ch " "]), u32 (r + Z.of_nat n)).
Proof.
  revert b r. induction n as [|n IH]; intros b r Hr; simpl.
  - rewrite wrap_small by lia. f_equal. lia.
  - rewrite IH by (apply wrap_range; lia). rewrite wrap_add_l, writebyte_writen.
    f_equal. f_equal. lia.
Qed.

Lemma put_sign_put_all b s : put_sign b s = put_all b (if negb (s =? 0) then [[s]] else []).
Proof. unfold put_sign. destruct (negb _); [by rewrite put_all_writebyte|done]. Qed.

Lemma put_prefix_put_all config b :
  put_prefix config b =
  put_all b (if has (pflags config) PRINT_ALTERNATE_FORM
             then [[ch "0"]; [alternate_form_char config]] else []).
Proof. unfold put_prefix. destruct (has _ _); [by rewrite !put_all_writebyte|done]. Qed.

End Chunks.

(** The length of the text of some chunks. *)
Definition text_len (chunks : list (list Z)) : Z := zlen (concat chunks).

Lemma text_len_app c1 c2 : text_len (c1 ++ c2) = text_len c1 + text_len c2.
Proof. unfold text_len. rewrite concat_app, length_app. lia. Qed.

Lemma concat_replicate_single n (c : Z) : concat (replicate n [c]) = replicate n c.
Proof. induction n as [|n IH]; simpl; [done|]. by rewrite IH. Qed.

Lemma text_len_replicate n (c : Z) : text_len (replicate n [c]) = Z.of_nat n.
Proof. unfold text_len. by rewrite concat_replicate_single, length_replicate. Qed.

Lemma text_len_single bs : text_len [bs] = zlen bs.
Proof. unfold text_len. simpl. by rewrite app_nil_r. Qed.

(** ** Fields

    The layout of a number: sign or prefix, zeros up to the precision, digits;
    filled up to the width on the side the flags say. [skip] counts the bytes
    of [digits] that are not digits. *)
Definition field (left zero : bool) (width precision skip : Z) (pre digits : list Z) : list Z :=
  let body := replicate (Z.to_nat (precision - (zlen digits - skip))) (ch "0") ++ digits in
  let fill := Z.to_nat (width - (zlen pre + zlen body)) in
  if left then pre ++ body ++ replicate fill (ch " ")
  else if zero then pre ++ replicate fill (ch "0") ++ body
  else replicate fill (ch " ") ++ pre ++ body.

(** The field is as wide as asked for, or as its contents. *)
Lemma field_length left zero width precision skip pre digits :
  0 <= skip <= zlen digits ->
  zlen (field left zero width precision skip pre digits) =
    Z.max width (zlen pre + Z.max (zlen digits) (precision + skip)).
Proof.
  intros Hs. unfold field. destruct left, zero; rewrite !length_app, !length_replicate; lia.
Qed.

(** The parts of a number's text as [print_int_formatted] sees them. *)
Definition is_sign (c : Z) : bool := (c =? ch "-") || (c =? ch "+").

Definition sign_part (flags : Z) (temp : list Z) : list Z :=
  let c := byte_at temp 0 in
  if is_sign c then [if has flags PRINT_EMPTY_SPACE && (c =? ch "+") then ch " " else c] else [].

Definition digit_part (temp : list Z) : list Z :=
  if is_sign (byte_at temp 0) then drop 1 temp else temp.

Definition group_skip (flags : Z) (digits : list Z) : Z :=
  if has flags PRINT_GROUP_DIGITS then (zlen digits - 1) / 3 else 0.

(** Collects the writes of a printer into one list of chunks. *)
Ltac collect :=
  rewrite ?put_sign_put_all, ?put_prefix_put_all, ?put_all_writen, <- ?put_all_app.

(** The wrap-around of a sum of [uint32_t] is that of the whole sum. *)
Ltac u32_sum :=
  unfold wrap; change (2 ^ 32) with 4294967296; Z.div_mod_to_equations; lia.

(** Removes the wrap-arounds that do not happen, from the inside out. *)
Ltac u32_small :=
  repeat match goal with
  | |- context [wrap 32 ?x] =>
      lazymatch x with context [wrap _ _] => fail | _ => rewrite (wrap_small 32 x) by lia end
  end.

(** The text of a list of chunks built by the printers. *)
Ltac chunk_text :=
  rewrite ?concat_app, ?concat_replicate_single; cbn [concat]; rewrite ?app_nil_r, <- ?app_assoc.

Ltac chunk_len :=
  rewrite ?text_len_app, ?text_len_replicate, ?text_len_single.

(** ** The chunks of a field

    [sc] are the chunks of the sign or the prefix; [n] zeros reach the
    precision. Each branch of the printers writes one of these lists. *)
Section Layout.
Context (sc : list (list Z)) (temp : list Z) (W P k : Z).

Lemma layout_zero m :
  P <= zlen temp - k -> m = Z.to_nat (W - (zlen (concat sc) + zlen temp)) ->
  concat (sc ++ replicate m [ch "0"] ++ [temp]) = field false true W P k (concat sc) temp.
Proof.
  intros HP ->. unfold field. chunk_text.
  by replace (Z.to_nat (P - (zlen temp - k))) with 0%nat by lia.
Qed.

Context (n : nat) (En : n = Z.to_nat (P - (zlen temp - k))).

Lemma layout_left zero m :
  m = Z.to_nat (W - (zlen temp + Z.of_nat n + zlen (concat sc))) ->
  concat (sc ++ replicate n [ch "0"] ++ [temp] ++ replicate m [ch " "]) =
    field true zero W P k (concat sc) temp.
Proof.
  intros ->. unfold field. chunk_text. rewrite <- En, length_app, length_replicate.
  do 4 f_equal. lia.
Qed.

Lemma layout_right m :
  m = Z.to_nat (W - (zlen temp + Z.of_nat n + zlen (concat sc))) ->
  concat (replicate m [ch " "] ++ sc ++ replicate n [ch "0"] ++ [temp]) =
    field false false W P k (concat sc) temp.
Proof.
  intros ->. unfold field. chunk_text. rewrite <- En, length_app, length_replicate.
  do 2 f_equal. lia.
Qed.

Lemma layout_full zero :
  0 <= k <= zlen temp -> W <= Z.max P (zlen temp) ->
  concat (sc ++ replicate n [ch "0"] ++ [temp]) = field false zero W P k (concat sc) temp.
Proof.
  intros Hk HW. unfold field. rewrite <- En.
  replace (Z.to_nat (W - _)) with 0%nat by (rewrite length_app, length_replicate; lia).
  destruct zero; cbn [replicate app]; by chunk_text.
Qed.
End Layout.

Section Fields.
Context {A : Allocator}.

(** [put_sign] writes the sign as a chunk of its own. *)
Lemma sign_chunks sign :
  Forall (fun c => c <> 0) sign -> (length sign <= 1)%nat ->
  concat (if negb (byte_at sign 0 =? 0) then [[byte_at sign 0]] else []) = sign /\
  (if negb (byte_at sign 0 =? 0) then 1 else 0) = zlen sign /\
  (if negb (byte_at sign 0 =? 0) then zlen sign else 0) = zlen sign.
Proof.
  intros Hs0 Hs1. destruct sign as [|c [|]]; simpl in *; [done| |lia].
  rewrite byte_at_cons_0. inversion Hs0; subst. by replace (c =? 0) with false by lia.
Qed.

Lemma print_int_formatted_split config b temp :
  0 < zlen (digit_part temp) < 2 ^ 31 ->
  print_int_formatted config b temp =
    int_field config b (digit_part temp) (zlen (digit_part temp))
      (zlen (sign_part (pflags config) temp)) (byte_at (sign_part (pflags config) temp) 0).
Proof.
  unfold print_int_formatted, sign_part, digit_part, is_sign. intros Hd.
  destruct ((byte_at temp 0 =? ch "-") || (byte_at temp 0 =? ch "+")) eqn:E; [|done].
  rewrite length_drop in *.
  rewrite (wrap_small 32 (zlen temp - 1)) by lia.
  replace (zlen temp - 1) with (Z.of_nat (length temp - 1)) by lia.
  unfold int_field. rewrite byte_at_cons_0.
  destruct (has (pflags config) PRINT_EMPTY_SPACE), (byte_at temp 0 =? ch "+") eqn:E2; cbn [andb]; try done.
  by replace (byte_at temp 0) with (ch "-") by lia.
Qed.

Lemma int_field_chunks config temp sign :
  0 < zlen temp <= 128 -> is_u32 (width config) -> is_u32 (precision config) ->
  Forall (fun c => c <> 0) sign -> (length sign <= 1)%nat ->
  exists cs,
    (forall b, int_field config b temp (zlen temp) (zlen sign) (byte_at sign 0) =
               (put_all b cs, u32 (text_len cs))) /\
    (width config < 2 ^ 31 -> precision config < 2 ^ 31 ->
     (has (pflags config) PRINT_ZERO_PADDED = true -> precision config = 0) ->
     concat cs = field (has (pflags config) PRINT_LEFT_JUSTIFY) (has (pflags config) PRINT_ZERO_PADDED)
                   (width config) (precision config) (group_skip (pflags config) temp) sign temp).
Proof.
  intros Ht Hw Hp Hs0 Hs1. unfold int_field.
  assert ((if has (pflags config) PRINT_GROUP_DIGITS then u32 (zlen temp - 1) / 3 else 0) =
          group_skip (pflags config) temp) as -> by (unfold group_skip; by rewrite wrap_small by lia).
  assert (0 <= group_skip (pflags config) temp < zlen temp) as Hk
    by (unfold group_skip; destruct (has _ _); zlia).
  set (k := group_skip (pflags config) temp) in *.
  set (W := width config) in *. set (P := precision config) in *.
  rewrite (wrap_small 32 (zlen temp - k)) by lia.
  destruct (sign_chunks sign) as (Hsc & Hsl & Hsl'); [done..|].
  set (sc := if negb (byte_at sign 0 =? 0) then [[byte_at sign 0]] else []) in *.
  assert (text_len sc = zlen sign) as Hst by (unfold text_len; by rewrite Hsc).
  set (n := pad_count (Z.to_nat P) 0 (zlen temp - k) P).
  assert (n = Z.to_nat (P - (zlen temp - k))) as En
    by (unfold n; rewrite pad_count_eq by lia; f_equal; lia).
  destruct (has (pflags config) PRINT_LEFT_JUSTIFY) eqn:HL;
    [|destruct (W >? Z.max P (zlen temp)) eqn:HW; [destruct (has (pflags config) PRINT_ZERO_PADDED) eqn:HZ|]].
  - eexists. split.
    + intros b. rewrite !pad_put_all by (lia || apply wrap_range; lia).
      collect. fold n sc. rewrite <- ?app_assoc. f_equal. chunk_len. rewrite Hst. u32_sum.
    + intros HW1 HP1 _. rewrite (layout_left _ _ W P k) with (zero := has (pflags config) PRINT_ZERO_PADDED);
        rewrite ?Hsc; [done..|].
      u32_small. rewrite pad_count_eq by lia. lia.
  - eexists. split.
    + intros b. rewrite Hsl', pad_put_all by lia.
      collect. fold sc. rewrite <- ?app_assoc. f_equal. chunk_len. rewrite Hst. u32_sum.
    + intros HW1 HP1 HP0. specialize (HP0 eq_refl). rewrite (layout_zero _ _ W P k); rewrite ?Hsc; [done|lia|].
      by rewrite pad_count_eq by lia.
  - eexists. split.
    + intros b. rewrite Hsl, !pad_put_all by lia.
      collect. fold n sc. rewrite <- ?app_assoc. f_equal. chunk_len. rewrite Hst.
      destruct (negb (byte_at sign 0 =? 0)); rewrite <- Hsl; u32_sum.
    + intros HW1 HP1 _. rewrite (layout_right _ _ W P k); rewrite ?Hsc; [done..|].
      u32_small. rewrite pad_count_eq by lia. lia.
  - eexists. split.
    + intros b. rewrite pad_put_all by lia.
      collect. fold n sc. rewrite <- ?app_assoc. f_equal. chunk_len. rewrite Hst. u32_sum.
    + intros _ _ _. rewrite (layout_full _ _ W P k) with (zero := has (pflags config) PRINT_ZERO_PADDED);
        rewrite ?Hsc; (done || lia).
Qed.

(** ["0x"] and the like. *)
Definition prefix_part (config : print_config) : list Z :=
  if has (pflags config) PRINT_ALTERNATE_FORM then [ch "0"; alternate_form_char config] else [].

Lemma print_uint_formatted_chunks config temp :
  0 < zlen temp <= 128 -> is_u32 (width config) -> is_u32 (precision config) ->
  exists cs,
    (forall b, print_uint_formatted config b temp = (put_all b cs, u32 (text_len cs))) /\
    (width config < 2 ^ 31 -> precision config < 2 ^ 31 ->
     (has (pflags config) PRINT_ZERO_PADDED = true -> precision config = 0) ->
     concat cs = field (has (pflags config) PRINT_LEFT_JUSTIFY) (has (pflags config) PRINT_ZERO_PADDED)
                   (width config) (precision config) 0 (prefix_part config) temp).
Proof.
  intros Ht Hw Hp. unfold print_uint_formatted, prefix_part.
  set (W := width config) in *. set (P := precision config) in *.
  set (X := if has (pflags config) PRINT_ALTERNATE_FORM then 2 else 0).
  set (sc := if has (pflags config) PRINT_ALTERNATE_FORM
             then [[ch "0"]; [alternate_form_char config]] else []).
  set (pre := if has (pflags config) PRINT_ALTERNATE_FORM then _ else []).
  assert (concat sc = pre /\ X = zlen pre /\ X = text_len sc /\ 0 <= X <= 2) as (Hsc & Hx & Hst & HX)
    by (subst sc pre X; by destruct (has _ _)).
  set (n := pad_count (Z.to_nat P) 0 (zlen temp) P).
  assert (n = Z.to_nat (P - (zlen temp - 0))) as En
    by (unfold n; rewrite pad_count_eq by lia; f_equal; lia).
  destruct (has (pflags config) PRINT_LEFT_JUSTIFY) eqn:HL;
    [|destruct (W >? Z.max P (zlen temp)) eqn:HW; [destruct (has (pflags config) PRINT_ZERO_PADDED) eqn:HZ|]].
  - eexists. split.
    + intros b. rewrite !pad_put_all by (lia || apply wrap_range; lia).
      collect. fold n sc. rewrite <- ?app_assoc. f_equal. chunk_len. u32_sum.
    + intros HW1 HP1 _. rewrite (layout_left _ _ W P 0) with (zero := has (pflags config) PRINT_ZERO_PADDED);
        rewrite ?Hsc; [done..|].
      u32_small. rewrite pad_count_eq by lia. lia.
  - eexists. split.
    + intros b. rewrite pad_put_all by lia.
      collect. fold sc. rewrite <- ?app_assoc. f_equal. chunk_len. u32_sum.
    + intros HW1 HP1 HP0. specialize (HP0 eq_refl). rewrite (layout_zero _ _ W P 0); rewrite ?Hsc; [done|lia|].
      rewrite pad_count_eq by lia. lia.
  - eexists. split.
    + intros b. rewrite !pad_put_all by lia.
      collect. fold n sc. rewrite <- ?app_assoc. f_equal. chunk_len. u32_sum.
    + intros HW1 HP1 _. rewrite (layout_right _ _ W P 0); rewrite ?Hsc; [done..|].
      u32_small. rewrite pad_count_eq by lia. lia.
  - eexists. split.
    + intros b. rewrite pad_put_all by lia.
      collect. fold n sc. rewrite <- ?app_assoc. f_equal. chunk_len. u32_sum.
    + intros _ _ _. rewrite (layout_full _ _ W P 0) with (zero := has (pflags config) PRINT_ZERO_PADDED);
        rewrite ?Hsc; (done || lia).
Qed.

Lemma print_int_formatted_chunks config temp :
  0 < zlen (digit_part temp) <= 128 -> is_u32 (width config) -> is_u32 (precision config) ->
  exists cs,
    (forall b, print_int_formatted config b temp = (put_all b cs, u32 (text_len cs))) /\
    (width config < 2 ^ 31 -> precision config < 2 ^ 31 ->
     (has (pflags config) PRINT_ZERO_PADDED = true -> precision config = 0) ->
     concat cs = field (has (pflags config) PRINT_LEFT_JUSTIFY) (has (pflags config) PRINT_ZERO_PADDED)
                   (width config) (precision config) (group_skip (pflags config) (digit_part temp))
                   (sign_part (pflags config) temp) (digit_part temp)).
Proof.
  intros Ht Hw Hp.
  destruct (int_field_chunks config (digit_part temp) (sign_part (pflags config) temp))
    as (cs & Hcs & Hf); [done..| | |].
  - unfold sign_part, is_sign.
    destruct (byte_at temp 0 =? ch "-") eqn:E1, (byte_at temp 0 =? ch "+") eqn:E2; simpl;
      repeat constructor; destruct (has _ _); simpl; lia.
  - unfold sign_part. destruct (is_sign _); simpl; lia.
  - exists cs. split; [|done]. intros b. rewrite print_int_formatted_split by lia. apply Hcs.
Qed.

End Fields.

(** ** The text of a number *)

(** The width in bits of the type a length modifier names. *)
Definition mod_bits (m : print_modifier) : Z :=
  match m with
  | PRINT_MOD_SHORT_SHORT => 8
  | PRINT_MOD_SHORT => 16
  | PRINT_MOD_NONE | PRINT_MOD_LONG_DOUBLE => 32
  | _ => 64
  end.

Definition int_arg (config : print_config) : Z := swrap (mod_bits (modifier config)) (pdata config).
Definition uint_arg (config : print_config) : Z := wrap (mod_bits (modifier config)) (pdata config).

(** The digits of a signed number: the most negative one is never grouped. *)
Definition int_digits (config : print_config) : list Z :=
  let x := int_arg config in
  be_group (has (pflags config) PRINT_GROUP_DIGITS && negb (x =? INT64_MIN)) 0 (digits 10 (Z.abs x)).

Definition int_sign (config : print_config) : list Z :=
  if int_arg config <? 0 then [ch "-"]
  else if has (pflags config) PRINT_EMPTY_SPACE then [ch " "]
  else if has (pflags config) PRINT_FORCE_SIGN then [ch "+"]
  else [].

Definition digit_chars (base x : Z) : list Z := (fun d => d + ch "0") <$> digits base x.

(** What a conversion of an integer should print. *)
Definition number_text (config : print_config) : list Z :=
  let layout := field (has (pflags config) PRINT_LEFT_JUSTIFY) (has (pflags config) PRINT_ZERO_PADDED)
                  (width config) (precision config) in
  let x := uint_arg config in
  match type config with
  | PRINT_INT_NUMBER =>
      layout (group_skip (pflags config) (int_digits config)) (int_sign config) (int_digits config)
  | PRINT_UINT_NUMBER =>
      let ds := be_group (has (pflags config) PRINT_GROUP_DIGITS) 0 (digits 10 x) in
      layout (group_skip (pflags config) ds) [] ds
  | PRINT_UINT_BINARY => layout 0 (prefix_part config) (digit_chars 2 x)
  | PRINT_UINT_OCTAL => layout 0 (prefix_part config) (digit_chars 8 x)
  | PRINT_UINT_HEX =>
      layout 0 (prefix_part config) (hex_char (has (pflags config) PRINT_UPPER_CASE) <$> digits 16 x)
  | _ => []
  end.

Lemma mod_bits_cases m : mod_bits m = 8 \/ mod_bits m = 16 \/ mod_bits m = 32 \/ mod_bits m = 64.
Proof. destruct m; simpl; tauto. Qed.

Lemma uint_arg_u64 config : is_u64 (uint_arg config).
Proof.
  unfold uint_arg. destruct (mod_bits_cases (modifier config)) as [E|[E|[E|E]]]; rewrite E;
    [pose proof (wrap_range 8 (pdata config))|pose proof (wrap_range 16 (pdata config))
    |pose proof (wrap_range 32 (pdata config))|pose proof (wrap_range 64 (pdata config))]; lia.
Qed.

Lemma swrap_range w x : 0 < w -> - 2 ^ (w - 1) <= swrap w x < 2 ^ (w - 1).
Proof.
  intros Hw. unfold swrap.
  assert (2 ^ w = 2 * 2 ^ (w - 1)) as E by (rewrite <- Z.pow_succ_r by lia; f_equal; lia).
  pose proof (Z.mod_pos_bound x (2 ^ w)). destruct (_ <? _) eqn:?; lia.
Qed.

Lemma int_arg_s64 config : - 2 ^ 63 <= int_arg config < 2 ^ 63.
Proof.
  unfold int_arg. destruct (mod_bits_cases (modifier config)) as [E|[E|[E|E]]]; rewrite E;
    [pose proof (swrap_range 8 (pdata config))|pose proof (swrap_range 16 (pdata config))
    |pose proof (swrap_range 32 (pdata config))|pose proof (swrap_range 64 (pdata config))]; lia.
Qed.

Lemma dec_text_head group x :
  is_u64 x -> exists c t, be_group group 0 (digits 10 x) = c :: t /\ ch "0" <= c <= ch "9".
Proof.
  intros Hx. destruct (digits_head x Hx) as (d & ds & -> & Hd). simpl. do 2 eexists.
  split; [done|]. lia.
Qed.

Lemma has_land f m k : has (Z.land f k) m = has f (Z.land k m).
Proof. unfold has. by rewrite Z.land_assoc. Qed.

Lemma has_lor f m k : has (Z.lor f k) m = has f m || has k m.
Proof.
  unfold has. rewrite Z.land_lor_distr_l. destruct (Z.land f m =? 0) eqn:E1, (Z.land k m =? 0) eqn:E2; simpl.
  - apply Z.eqb_eq in E1 as ->. apply Z.eqb_eq in E2 as ->. done.
  - apply Z.eqb_eq in E1 as ->. rewrite Z.lor_0_l, E2. done.
  - apply Z.eqb_eq in E2 as ->. rewrite Z.lor_0_r, E1. done.
  - destruct (Z.lor _ _ =? 0) eqn:E; [|done]. apply Z.eqb_eq, Z.lor_eq_0_iff in E. lia.
Qed.

(** The flags [print_arg] passes to the conversion. *)
Definition int_flags (flags : Z) : Z :=
  let f := Z.land flags (Z.lor PRINT_FORCE_SIGN PRINT_GROUP_DIGITS) in
  if has flags PRINT_EMPTY_SPACE then Z.lor f PRINT_FORCE_SIGN else f.

Lemma int_flags_group flags : has (int_flags flags) CONVERT_GROUP_DIGITS = has flags PRINT_GROUP_DIGITS.
Proof.
  unfold int_flags. destruct (has flags PRINT_EMPTY_SPACE); rewrite ?has_lor, has_land; [|done].
  by rewrite orb_false_r.
Qed.

Lemma int_flags_sign flags :
  has (int_flags flags) CONVERT_FORCE_SIGN = has flags PRINT_FORCE_SIGN || has flags PRINT_EMPTY_SPACE.
Proof.
  unfold int_flags. destruct (has flags PRINT_EMPTY_SPACE); rewrite ?has_lor, has_land;
    [by rewrite orb_true_r, orb_comm|by rewrite orb_false_r].
Qed.

Lemma int_text_parts config :
  let temp := int_text (int_arg config) (int_flags (pflags config)) in
  sign_part (pflags config) temp = int_sign config /\ digit_part temp = int_digits config.
Proof.
  unfold int_text, int_sign, int_digits. rewrite int_flags_group, int_flags_sign.
  pose proof (int_arg_s64 config). set (x := int_arg config) in *.
  destruct (x =? INT64_MIN) eqn:E.
  - apply Z.eqb_eq in E. rewrite E, andb_false_r. split; [|vm_compute; reflexivity].
    unfold sign_part; cbn -[has]. by rewrite andb_false_r.
  - rewrite andb_true_r. set (g := has (pflags config) PRINT_GROUP_DIGITS).
    destruct (dec_text_head g (Z.abs x)) as (c & t & Et & Hc); [lia|].
    destruct (x <? 0) eqn:N; [|destruct (has (pflags config) PRINT_FORCE_SIGN) eqn:HF,
      (has (pflags config) PRINT_EMPTY_SPACE) eqn:HS]; unfold sign_part, digit_part; simpl;
      rewrite ?HS, ?HF; try (split; [|done]; cbn; by rewrite ?andb_false_r).
    rewrite Et, byte_at_cons_0. unfold is_sign.
    by replace ((c =? ch "-") || (c =? ch "+")) with false by lia.
Qed.

Lemma int_digits_length config : 0 < zlen (int_digits config) <= 128.
Proof.
  unfold int_digits. pose proof (int_arg_s64 config). set (g := _ && _).
  destruct (dec_text_head g (Z.abs (int_arg config))) as (c & t & Et & Hc); [lia|].
  pose proof (length_dec_text g (Z.abs (int_arg config))). rewrite Et in *. simpl in *. lia.
Qed.

Lemma uint_digits_parts flags group x :
  is_u64 x -> let temp := be_group group 0 (digits 10 x) in
  sign_part flags temp = [] /\ digit_part temp = temp /\ 0 < zlen temp <= 128.
Proof.
  intros Hx temp. destruct (dec_text_head group x Hx) as (c & t & Et & Hc).
  pose proof (length_dec_text group x Hx). unfold temp, sign_part, digit_part, is_sign in *.
  rewrite Et in *. rewrite byte_at_cons_0. simpl length in *.
  replace ((c =? ch "-") || (c =? ch "+")) with false by lia. split; [done|]. split; [done|]. lia.
Qed.

Lemma length_numeral_text (base k x : Z) (f : Z -> Z) :
  1 < base -> is_u64 x -> x < base ^ k -> 0 < k <= 64 -> 0 < zlen (f <$> digits base x) <= k.
Proof.
  intros Hb Hx Hk Hk2. rewrite length_fmap.
  pose proof (length_digits base (Z.to_nat k) x Hb ltac:(rewrite Z2Nat.id by lia; lia) ltac:(lia)).
  destruct (digits_numeral base x Hb Hx) as [_ _ Hc].
  destruct (digits base x); [by destruct Hc as [?|(?&?&?&?)]|]. simpl in *. lia.
Qed.

(** ** Every conversion of an integer prints its text *)

Definition in_range (config : print_config) : Prop :=
  is_u32 (width config) /\ is_u32 (precision config).

(** The configurations for which the layout is the documented one. *)
Definition laid_out (config : print_config) : Prop :=
  width config < 2 ^ 31 /\ precision config < 2 ^ 31 /\
  (has (pflags config) PRINT_ZERO_PADDED = true -> precision config = 0).

Definition is_number (config : print_config) : Prop :=
  match type config with
  | PRINT_INT_NUMBER | PRINT_UINT_NUMBER | PRINT_UINT_OCTAL | PRINT_UINT_HEX => True
  | PRINT_UINT_BINARY => uint_arg config < 2 ^ 32
  | _ => False
  end.

Section Numbers.
Context {A : Allocator}.

(** The printer [f] writes the same chunks to every buffer and returns their
    length; they make up [text] when the layout is the documented one. *)
Definition Prints (f : buffer_t -> option (buffer_t * Z)) (config : print_config) (text : list Z) : Prop :=
  exists cs, (forall b, f b = Some (put_all b cs, u32 (text_len cs))) /\
    (laid_out config -> concat cs = text).

Lemma print_int_number_Prints config :
  type config = PRINT_INT_NUMBER -> in_range config ->
  Prints (fun b => print_int_number b config) config (number_text config).
Proof.
  intros T [Hw Hp]. unfold number_text. rewrite T. destruct (int_text_parts config) as [Hs Hd].
  destruct (print_int_formatted_chunks config (int_text (int_arg config) (int_flags (pflags config))))
    as (cs & Hcs & Hf); [rewrite Hd; apply int_digits_length|done..|].
  exists cs. split.
  - intros b. unfold print_int_number. fold (int_flags (pflags config)).
    replace (match modifier config with PRINT_MOD_NONE => _ | _ => _ end)
      with (int_to_dec_common (int_arg config) (int_flags (pflags config)))
      by (unfold int_arg; by destruct (modifier config)).
    rewrite int_to_dec_text by apply int_arg_s64. simpl. by rewrite Hcs.
  - intros (HW & HP & HZ). rewrite Hf by done. by rewrite Hs, Hd.
Qed.

Lemma print_uint_number_Prints config :
  type config = PRINT_UINT_NUMBER -> in_range config ->
  Prints (fun b => print_uint_number b config) config (number_text config).
Proof.
  intros T [Hw Hp]. unfold number_text. rewrite T. pose proof (uint_arg_u64 config) as Hu.
  set (g := has (pflags config) PRINT_GROUP_DIGITS).
  destruct (uint_digits_parts (pflags config) g (uint_arg config) Hu) as (Hs & Hd & Hl).
  destruct (print_int_formatted_chunks config (be_group g 0 (digits 10 (uint_arg config))))
    as (cs & Hcs & Hf); [by rewrite Hd|done..|].
  exists cs. split.
  - intros b. unfold print_uint_number.
    replace (match modifier config with PRINT_MOD_NONE => _ | _ => _ end)
      with (uint_to_dec_common (uint_arg config) (Z.land (pflags config) PRINT_GROUP_DIGITS))
      by (unfold uint_arg; by destruct (modifier config)).
    rewrite uint_to_dec_text, has_land by done. simpl. fold g. by rewrite Hcs.
  - intros (HW & HP & HZ). rewrite Hf by done. by rewrite Hs, Hd.
Qed.

(** The printers of the power-of-two radixes differ in the conversion only. *)
Lemma print_radix_Prints config (text : option (list Z)) (f : Z -> Z) base :
  in_range config -> 2 <= base -> text = Some (f <$> digits base (uint_arg config)) ->
  Prints (fun b => temp ← text; Some (print_uint_formatted config b temp)) config
    (field (has (pflags config) PRINT_LEFT_JUSTIFY) (has (pflags config) PRINT_ZERO_PADDED)
       (width config) (precision config) 0 (prefix_part config) (f <$> digits base (uint_arg config))).
Proof.
  intros [Hw Hp] Hb ->. pose proof (uint_arg_u64 config) as Hu.
  destruct (print_uint_formatted_chunks config (f <$> digits base (uint_arg config)))
    as (cs & Hcs & Hf); [|done..|].
  - pose proof (length_numeral_text base 64 (uint_arg config) f ltac:(lia) Hu).
    pose proof (Z.pow_le_mono_l 2 base 64). lia.
  - exists cs. split; [|by intros (? & ? & ?); apply Hf]. intros b. simpl. by rewrite Hcs.
Qed.

Lemma print_uint_radix_Prints config :
  is_number config -> in_range config ->
  match type config with
  | PRINT_UINT_BINARY => Prints (fun b => print_uint_binary b config) config (number_text config)
  | PRINT_UINT_OCTAL => Prints (fun b => print_uint_octal b config) config (number_text config)
  | PRINT_UINT_HEX => Prints (fun b => print_uint_hex b config) config (number_text config)
  | _ => True
  end.
Proof.
  intros Hn R. unfold is_number in Hn. pose proof (uint_arg_u64 config) as Hu.
  unfold number_text. destruct (type config); try done; apply print_radix_Prints; try (done || lia).
  - rewrite <- uint_to_bin_digits by lia. unfold uint_arg. by destruct (modifier config).
  - rewrite <- uint_to_oct_digits by lia. unfold uint_arg. by destruct (modifier config).
  - rewrite <- uint_to_hex_digits by lia. unfold uint_arg. by destruct (modifier config).
Qed.

Lemma print_number_chunks m config :
  is_number config -> in_range config ->
  exists cs, (forall b, print_arg m b config = Some (m, put_all b cs, u32 (text_len cs))) /\
    (laid_out config -> concat cs = number_text config).
Proof.
  intros Hn R.
  pose proof (print_int_number_Prints config) as H1. pose proof (print_uint_number_Prints config) as H2.
  pose proof (print_uint_radix_Prints config Hn R) as H3.
  unfold is_number in Hn. unfold print_arg. destruct (type config); try done;
    [destruct (H1 eq_refl R) as (cs & Hb & Ht)|destruct (H2 eq_refl R) as (cs & Hb & Ht)
    |destruct H3 as (cs & Hb & Ht)..];
    (exists cs; split; [|done]; intros b; by rewrite Hb).
Qed.

End Numbers.

(** ** Every conversion writes the same chunks to every buffer *)

Section Uniform.
Context {A : Allocator}.

Definition Uniform (r : Z) (f : buffer_t -> option (buffer_t * Z)) : Prop :=
  exists o, forall b, f b = (cs ← o; Some (put_all b cs, u32 (r + text_len cs))).

Lemma Uniform_None r f : (forall b, f b = None) -> Uniform r f.
Proof. intros H. exists None. done. Qed.

Lemma Uniform_Some r f cs :
  (forall b, f b = Some (put_all b cs, u32 (r + text_len cs))) -> Uniform r f.
Proof. intros H. by exists (Some cs). Qed.

(** Printing [cs] first and the rest with the result so far. *)
Lemma Uniform_after r cs (f : buffer_t -> option (buffer_t * Z)) g :
  Uniform (u32 (r + text_len cs)) g -> (forall b, f b = g (put_all b cs)) -> Uniform r f.
Proof.
  intros [o Hg] Hf. exists ((fun cs' => cs ++ cs') <$> o). intros b. rewrite Hf, Hg.
  destruct o as [cs'|]; simpl; [|done]. rewrite put_all_app, text_len_app, wrap_add_l, Z.add_assoc. done.
Qed.

Lemma Uniform_nil r f : is_u32 r -> (forall b, f b = Some (b, r)) -> Uniform r f.
Proof.
  intros Hr H. apply (Uniform_Some _ _ []). intros b. rewrite H. change (text_len []) with 0.
  by rewrite Z.add_0_r, wrap_small by lia.
Qed.

Lemma print_utf16_Uniform n rd pos r : is_u32 r -> Uniform r (fun b => print_utf16 n rd pos b r).
Proof.
  revert pos r. induction n as [n IH] using lt_wf_ind; intros pos r Hr.
  destruct n as [|n]; simpl; [by apply Uniform_nil|].
  destruct (load_bytes rd 4 pos) as [u|] eqn:E; simpl in E |- *; [rewrite E|by rewrite E; apply Uniform_None].
  simpl. destruct (utf16_decode u 4 0) as [sz c]. destruct (c =? 0); [by apply Uniform_nil|].
  eapply (Uniform_after _ [utf8_encode c]).
  - rewrite text_len_single. apply (IH (if sz =? 4 then Nat.pred n else n)).
    + destruct (sz =? 4); lia.
    + apply wrap_range. lia.
  - done.
Qed.

Lemma print_utf32_Uniform n rd pos r : is_u32 r -> Uniform r (fun b => print_utf32 n rd pos b r).
Proof.
  revert pos r. induction n as [|n IH]; intros pos r Hr; simpl; [by apply Uniform_nil|].
  destruct (load_le rd 4 pos) as [c|] eqn:E; simpl in E |- *; rewrite E; simpl; [|by apply Uniform_None].
  eapply (Uniform_after _ [utf8_encode c]).
  - rewrite text_len_single. apply IH. apply wrap_range. lia.
  - done.
Qed.

Lemma load_bytes_length rd n from bs : load_bytes rd n from = Some bs -> length bs = n.
Proof.
  revert from bs. induction n as [|n IH]; intros from bs H; simplify_eq/=; [done|].
  destruct (rd from) as [x|]; simplify_eq/=.
  destruct (load_bytes rd n (from + 1)) as [xs|] eqn:E; simplify_eq/=. f_equal. by eapply IH.
Qed.

Lemma count_units_nonneg fuel rd n precision count c :
  0 <= count -> count_units fuel rd n precision count = Some c -> 0 <= c.
Proof.
  revert count. induction fuel as [|fuel IH]; intros count Hc H; simplify_eq/=.
  destruct (load_le rd n (Z.of_nat n * count)) as [x|]; simplify_eq/=.
  destruct (_ && _); [apply (IH (count + 1)); [lia|done]|by simplify_eq].
Qed.

Lemma print_units_Uniform modifier rd count r :
  0 <= count -> is_u32 r -> Uniform r (fun b => print_units modifier rd count b r).
Proof.
  intros Hc Hr.
  assert (Uniform r (fun b => bs ← load_bytes rd (Z.to_nat count) 0;
                              Some ((writen b bs).1, u32 (r + u32 count)))) as H.
  { destruct (load_bytes rd (Z.to_nat count) 0) as [bs|] eqn:E; [|by apply Uniform_None].
    apply (Uniform_Some _ _ [bs]). intros b. simpl. rewrite text_len_single.
    apply load_bytes_length in E. rewrite E, Z2Nat.id by lia. do 2 f_equal. u32_sum. }
  destruct modifier; try exact H; [by apply print_utf16_Uniform|by apply print_utf32_Uniform].
Qed.

Lemma Uniform_bind r f g :
  Uniform r f -> (forall r', is_u32 r' -> Uniform r' (fun b => g (b, r'))) ->
  Uniform r (fun b => x ← f b; g x).
Proof.
  intros [[cs|] Hf] Hg.
  - destruct (Hg (u32 (r + text_len cs))) as [o Ho]; [apply wrap_range; lia|].
    apply (Uniform_after r cs _ (fun b => g (b, u32 (r + text_len cs)))); [by exists o|].
    intros b. by rewrite Hf.
  - apply Uniform_None. intros b. by rewrite Hf.
Qed.

Lemma spaces_Uniform (c : bool) n r :
  is_u32 r -> Uniform r (fun b => Some (if c then spaces n b r else (b, r))).
Proof.
  intros Hr. destruct c; [|by apply Uniform_nil].
  apply (Uniform_Some _ _ (replicate n [ch " "])). intros b.
  by rewrite spaces_put_all, text_len_replicate by done.
Qed.

Lemma print_string_Uniform m config : Uniform 0 (fun b => print_string m b config).
Proof.
  unfold print_string. set (rd := string_object m (pdata config)).
  destruct (count_units _ rd _ _ 0) as [count|] eqn:E; simpl; [|by apply Uniform_None].
  apply count_units_nonneg in E; [|done].
  set (fill := Z.to_nat _). set (c1 := _ && negb _). set (c2 := _ && has _ _).
  edestruct (Uniform_bind 0 (fun b => Some (if c1 then spaces fill b 0 else (b, 0)))
    (fun '(b, r) => '(b, r) ← print_units (modifier config) rd count b r;
                    Some (if c2 then spaces fill b r else (b, r)))) as [o Ho];
    [by apply spaces_Uniform| |].
  - intros r Hr. apply (Uniform_bind r (fun b => print_units (modifier config) rd count b r)
      (fun '(b, r) => Some (if c2 then spaces fill b r else (b, r)))).
    + by apply print_units_Uniform.
    + intros r' Hr'. by apply spaces_Uniform.
  - exists o. intros b. rewrite <- Ho. simpl. by destruct (if c1 then _ else _).
Qed.

Lemma print_char_Uniform config : Uniform 0 (fun b => print_char b config).
Proof.
  unfold print_char. set (pre := match modifier config with PRINT_MOD_LONG => _ | _ => _ end).
  assert (forall cs, Uniform 0 (fun b => Some ((writen b cs).1, u32 (zlen cs)))) as H.
  { intros cs. apply (Uniform_Some _ _ [cs]). intros b. by rewrite text_len_single. }
  destruct (width config >? 1); [|apply H].
  destruct (if has _ _ then _ else _) as [temp|]; simpl; [apply H|by apply Uniform_None].
Qed.

Lemma print_pointer_Uniform config : Uniform 0 (fun b => Some (print_pointer b config)).
Proof.
  unfold print_pointer. set (temp := pointer_encode (pdata config)).
  assert (zlen temp = 18) as L.
  { unfold temp. by rewrite pointer_encode_text, length_app, length_fmap. }
  rewrite L. set (fill := Z.to_nat _).
  destruct (width config >? 18); [destruct (has _ _)|].
  - apply (Uniform_Some _ _ ([temp] ++ replicate fill [ch " "])). intros b.
    rewrite spaces_put_all by lia. rewrite put_all_writen, <- put_all_app.
    by rewrite text_len_app, text_len_replicate, text_len_single, L.
  - apply (Uniform_Some _ _ (replicate fill [ch " "] ++ [temp])). intros b.
    rewrite spaces_put_all by lia. rewrite put_all_writen, <- put_all_app.
    rewrite text_len_app, text_len_replicate, text_len_single, L. do 2 f_equal. u32_sum.
  - apply (Uniform_Some _ _ [temp]). intros b. by rewrite text_len_single, L.
Qed.

(** Whatever the conversion, the chunks and the memory after it do not depend
    on the buffer, and the value returned is the number of bytes printed. *)
Lemma print_arg_Uniform m config :
  in_range config ->
  exists o, forall b, print_arg m b config =
    ('(m', cs) ← o; Some (m', put_all b cs, u32 (text_len cs))).
Proof.
  intros R.
  assert (forall f, Uniform 0 f ->
    exists o : option (mem * list (list Z)), forall b,
      ('(buffer, result) ← f b; Some (m, buffer, result)) =
      ('(m', cs) ← o; Some (m', put_all b cs, u32 (text_len cs)))) as keep.
  { intros f [o Ho]. exists ((fun cs => (m, cs)) <$> o). intros b. rewrite Ho. by destruct o. }
  assert (is_number config ->
    exists o : option (mem * list (list Z)), forall b, print_arg m b config =
      ('(m', cs) ← o; Some (m', put_all b cs, u32 (text_len cs)))) as num.
  { intros Hn. destruct (print_number_chunks m config Hn R) as (cs & H & _). by exists (Some (m, cs)). }
  unfold is_number in num. unfold print_arg in *. destruct (type config) eqn:T; try (by apply num);
    try (by apply keep, print_string_Uniform || by apply keep, print_char_Uniform);
    try (by exists (Some (m, []))).
  - destruct (decide (uint_arg config < 2 ^ 32)) as [H|H]; [by apply num|].
    exists None. intros b. unfold print_uint_binary.
    replace (match modifier config with PRINT_MOD_NONE => _ | _ => _ end)
      with (uint_to_bin_common (uint_arg config)) by (unfold uint_arg; by destruct (modifier config)).
    by rewrite uint_to_bin_overflow by lia.
  - apply (keep (fun b => print_double_hex b config)). unfold print_double_hex.
    destruct (float64_to_hex _ _) as [t|]; simpl; [|by apply Uniform_None].
    apply (Uniform_Some _ _ [t]). intros b. by rewrite text_len_single.
  - destruct (keep _ (print_pointer_Uniform config)) as [o Ho]. exists o. intros b. rewrite <- Ho.
    simpl. by destruct (print_pointer b config).
  - destruct (print_result m config) as [m'|]; [by exists (Some (m', []))|by exists None].
Qed.

End Uniform.

(** ** The interpreter *)

Lemma parse_number_loop_u32 fuel f i : is_u32 i -> is_u32 (parse_number_loop fuel f i).2.
Proof.
  revert f i. induction fuel as [|fuel IH]; intros f i Hi; simpl; [done|].
  destruct (peekbyte f 0 =? 0); [done|]. destruct (_ && _); [|done]. apply IH, wrap_range. lia.
Qed.

Lemma parse_size_u32 f : is_u32 (parse_size f).1.2.
Proof.
  unfold parse_size. destruct (peekbyte f 0 =? ch "*").
  - destruct (parse_number _) as [f' i]. destruct (peekbyte f' 0 =? ch "$"); simpl; lia.
  - pose proof (parse_number_loop_u32 (fuel_of f) f 0 ltac:(lia)) as H. unfold parse_number.
    by destruct (parse_number_loop _ _ _).
Qed.

Section Interpreter.
Context {A : Allocator}.

Lemma get_size_u32 args index v w args' :
  is_u32 v -> get_size args index v = Some (w, args') -> is_u32 w.
Proof.
  intros Hv. unfold get_size. destruct (negb _).
  - destruct (variadic_args_get args index) as [[x a]|]; intros; simplify_eq/=. apply wrap_range. lia.
  - intros. by simplify_eq.
Qed.

Lemma parse_print_specifier_range f args f' c args' :
  parse_print_specifier f args = Some (f', c, args') -> in_range c.
Proof.
  unfold parse_print_specifier. destruct (parse_position f) as [f1 ai].
  destruct (parse_flags _ f1 0) as [f2 fl].
  pose proof (parse_size_u32 f2) as Hw. destruct (parse_size f2) as [[f3 w] wi]. simpl in Hw.
  destruct (if peekbyte f3 0 =? ch "." then _ else _) as [[[f4 p] pi] fl'] eqn:Ep.
  assert (is_u32 p) as Hp.
  { destruct (peekbyte f3 0 =? ch "."); [|simplify_eq; lia].
    pose proof (parse_size_u32 (readbyte f3).2) as H. destruct (parse_size _) as [[? ?] ?]. by simplify_eq/=. }
  destruct (parse_modifier f4) as [f5 md]. destruct (conversion _) as [t up].
  destruct (decide _); [intros; by simplify_eq|].
  destruct (get_size args wi w) as [[w' a1]|] eqn:E1; [|done]. simpl.
  destruct (get_size a1 pi p) as [[p' a2]|] eqn:E2; [|done]. simpl.
  destruct (variadic_args_get a2 ai) as [[d a3]|]; [|done]. simpl. intros. simplify_eq.
  split; simpl; [exact (get_size_u32 _ _ _ _ _ Hw E1)|exact (get_size_u32 _ _ _ _ _ Hp E2)].
Qed.

Lemma swrap_u32 x : swrap 32 (u32 x) = swrap 32 x.
Proof. apply swrap_congr, wrap_wrap. Qed.

Definition Printfs (f : buffer_t -> option printed) (r : Z) : Prop :=
  exists o, forall b, wf b -> f b =
    ('(m, cs) ← o; Some (Printed m (put_all b cs) (swrap 32 (r + text_len cs)))).

Lemma Printfs_after (alloc_ok : forall n, malloc_ok n = true) cs r f g :
  Printfs g (u32 (r + text_len cs)) -> (forall b, wf b -> f b = g (put_all b cs)) -> Printfs f r.
Proof.
  intros [o Hg] Hf. exists ((fun '(m, cs') => (m, cs ++ cs')) <$> o). intros b W.
  rewrite Hf by done. rewrite Hg by (apply put_all_Emits; done).
  destruct o as [[m cs']|]; simpl; [|done]. rewrite put_all_app, text_len_app. do 2 f_equal.
  apply swrap_congr. rewrite wrap_add_l. f_equal. lia.
Qed.

Lemma Printfs_end m r cs f :
  (forall b, f b = Some (Printed m (put_all b cs) (swrap 32 (u32 (r + text_len cs))))) -> Printfs f r.
Proof. intros H. exists (Some (m, cs)). intros b _. rewrite H. simpl. by rewrite swrap_u32. Qed.

Lemma printf_loop_Printfs (alloc_ok : forall n, malloc_ok n = true) fuel m inp args r :
  is_u32 r -> Printfs (fun b => printf_loop fuel m b inp args r) r.
Proof.
  revert m inp args r. induction fuel as [|fuel IH]; intros m inp args r Hr; [by exists None|].
  assert (forall c m inp args, Printfs (fun b => printf_loop fuel m (writebyte b c).1 inp args (u32 (r + 1))) r)
    as byte.
  { intros c m' inp' args'. apply (Printfs_after alloc_ok [[c]]
      _ _ (fun b => printf_loop fuel m' b inp' args' (u32 (r + 1)))); [apply IH, wrap_range; lia|].
    intros b _. by rewrite put_all_writebyte. }
  simpl. destruct (readbyte inp) as [c inp1].
  destruct (c =? 0).
  { apply (Printfs_end m r []). intros b. change (text_len []) with 0. by rewrite Z.add_0_r, swrap_u32. }
  destruct (c =? ch "%"); [|apply byte].
  destruct (peekbyte inp1 0 =? 0).
  { apply (Printfs_end m r [[ch "%"]]). intros b. by rewrite put_all_writebyte. }
  destruct (peekbyte inp1 0 =? ch "%"); [apply byte|].
  destruct (parse_print_specifier inp1 args) as [[[inp2 config] args2]|] eqn:E; simpl; [|by exists None].
  destruct (decide _); [apply byte|].
  apply parse_print_specifier_range in E. set (config' := PrintConfig _ _ _ _ _ _ _).
  destruct (print_arg_Uniform m config') as [[[m' cs]|] Ho]; [done| |].
  - apply (Printfs_after alloc_ok cs
      _ _ (fun b => printf_loop fuel m' b inp2 args2 (u32 (r + text_len cs)))); [apply IH, wrap_range; lia|].
    intros b W. rewrite Ho. simpl.
    rewrite (wf_error _ (emits_wf _ _ _ (put_all_Emits alloc_ok b cs W))).
    f_equal. u32_sum.
  - exists None. intros b _. by rewrite Ho.
Qed.

Lemma printf_internal_Printfs (alloc_ok : forall n, malloc_ok n = true) m format args :
  Printfs (fun b => wlibc_printf_internal m b format args) 0.
Proof. by apply printf_loop_Printfs. Qed.

End Interpreter.
