(* ===== verification/PrintfSpec.v ===== *)
(** * The meaning of a format

    An abstract syntax of formats, its text, and what it should print ([Means],
    defined without the parser and the printers of the code); the interpreter of
    src/stdio/printf.c implements it. *)

From S2P Require Import Prelude Buffer Convert ConvertFacts Utf Varargs Float Printf PrintfFacts.

(** ** Conversion specifications *)

Record conv_spec := Conv {
  cs_flags : list Z;
  cs_width : Z;
  cs_precision : option Z;
  cs_modifier : print_modifier;
  cs_conversion : Z
}.

Definition flag_bit (c : Z) : Z :=
  if c =? ch "#" then PRINT_ALTERNATE_FORM
  else if c =? ch "0" then PRINT_ZERO_PADDED
  else if c =? ch " " then PRINT_EMPTY_SPACE
  else if c =? ch "-" then PRINT_LEFT_JUSTIFY
  else if c =? ch "+" then PRINT_FORCE_SIGN
  else if c =? ch "'" then PRINT_GROUP_DIGITS
  else 0.

(** A number in a specification; 0 is written by leaving it out. *)
Definition size_text (n : Z) : list Z := if n =? 0 then [] else digit_chars 10 n.

Definition precision_text (p : option Z) : list Z :=
  match p with None => [] | Some p => ch "." :: size_text p end.

Definition modifier_text (m : print_modifier) : list Z :=
  match m with
  | PRINT_MOD_NONE => []
  | PRINT_MOD_SHORT_SHORT => [ch "h"; ch "h"]
  | PRINT_MOD_SHORT => [ch "h"]
  | PRINT_MOD_LONG => [ch "l"]
  | PRINT_MOD_LONG_LONG => [ch "l"; ch "l"]
  | PRINT_MOD_MAX => [ch "j"]
  | PRINT_MOD_SIZE => [ch "z"]
  | PRINT_MOD_PTRDIFF => [ch "t"]
  | PRINT_MOD_LONG_DOUBLE => [ch "L"]
  end.

Definition spec_text (s : conv_spec) : list Z :=
  cs_flags s ++ size_text (cs_width s) ++ precision_text (cs_precision s) ++
  modifier_text (cs_modifier s) ++ [cs_conversion s].

Definition wf_spec (s : conv_spec) : Prop :=
  Forall (fun c => flag_bit c <> 0) (cs_flags s) /\
  is_u32 (cs_width s) /\ is_u32 (default 0 (cs_precision s)) /\
  (conversion (cs_conversion s)).1 <> PRINT_UNKNOWN.

Definition spec_flags (s : conv_spec) : Z :=
  let flags := foldl Z.lor 0 (flag_bit <$> cs_flags s) in
  let flags := match cs_precision s with None => flags | Some _ => Z.lor flags PRINT_PRECISION end in
  resolve_flags (Z.lor flags (conversion (cs_conversion s)).2).

(** The configuration a specification stands for. *)
Definition spec_config (s : conv_spec) (result arg : Z) : print_config :=
  PrintConfig (conversion (cs_conversion s)).1 (cs_modifier s) (spec_flags s)
    (cs_width s) (default 0 (cs_precision s)) result arg.

(** ** Parsing the text of a specification *)

Definition is_digit_char (c : Z) : bool := (c >=? ch "0") && (c <=? ch "9").

(** The cursor moved by [n] bytes. *)
Definition skip (f : buffer_t) (n : Z) : buffer_t := set_pos f (pos f + n).

Lemma skip_skip f m n : 0 <= m -> 0 <= n -> skip (skip f m) n = skip f (m + n).
Proof. intros. unfold skip. simpl. rewrite set_pos_set_pos. f_equal. lia. Qed.

Lemma skip_0 f : skip f 0 = f.
Proof. unfold skip. by rewrite Z.add_0_r, set_pos_id. Qed.

Lemma skip_readable f n : readable f -> 0 <= n -> readable (skip f n).
Proof. intros R Hn. apply set_pos_readable; [done|]. pose proof (rd_pos _ R). lia. Qed.

Lemma read_skip f c s : readable f -> rest f = c :: s ->
  readbyte f = (c, skip f 1) /\ rest (skip f 1) = s /\ readable (skip f 1) /\ peekbyte f 0 = c.
Proof.
  intros R Hr. destruct (rest_cons f c s R Hr) as (H1 & H2 & _).
  split; [done|]. split; [done|]. split; [apply skip_readable; [done|lia]|].
  rewrite peekbyte_rest by (done || lia). by rewrite Hr.
Qed.

(** The first byte of a text, 0 when it is empty. *)
Lemma peek_head f : readable f -> peekbyte f 0 = byte_at (rest f) 0.
Proof. intros R. by rewrite peekbyte_rest by (done || lia). Qed.

Lemma parse_number_loop_text fuel f ds tl i :
  readable f -> rest f = ((fun d => d + ch "0") <$> ds) ++ tl ->
  Forall (fun d => 0 <= d < 10) ds -> is_digit_char (byte_at tl 0) = false ->
  (length ds < fuel)%nat ->
  parse_number_loop fuel f i =
    (skip f (zlen ds), foldl (fun i d => u32 (u32 (i * 10) + d)) i ds).
Proof.
  revert f ds i. induction fuel as [|fuel IH]; intros f ds i R Hr Hd Ht Hf; [lia|]. simpl.
  destruct ds as [|d ds]; simpl in Hr.
  - rewrite peek_head, Hr, skip_0 by done. destruct (byte_at tl 0 =? 0); [done|].
    unfold is_digit_char in Ht. by rewrite Ht.
  - destruct (read_skip f _ _ R Hr) as (Hb & Hr1 & R1 & ->). apply Forall_cons in Hd as [Hd Hds].
    replace (d + 48 =? 0) with false by lia.
    replace ((d + 48 >=? ch "0") && (d + 48 <=? ch "9")) with true by lia.
    rewrite Hb. simpl. rewrite (IH _ ds) by (done || (simpl in Hf; lia)). rewrite skip_skip by lia.
    replace (d + 48 - 48) with d by lia. do 2 f_equal. lia.
Qed.

Lemma foldl_u32_digits v ds :
  foldl (fun i d => u32 (u32 (i * 10) + d)) (u32 v) ds = u32 (foldl (fun v d => v * 10 + d) v ds).
Proof.
  revert v. induction ds as [|d ds IH]; intros v; [done|]. simpl.
  rewrite <- IH. f_equal. by rewrite wrap_add_l, wrap_mul_add.
Qed.

(** A number that is not followed by a digit. *)
Lemma parse_number_text f n tl :
  readable f -> rest f = size_text n ++ tl -> is_u32 n -> is_digit_char (byte_at tl 0) = false ->
  parse_number f = (skip f (zlen (size_text n)), n).
Proof.
  intros R Hr Hn Ht. unfold size_text, digit_chars in *. unfold parse_number.
  pose proof (rest_length f R) as Hl. rewrite Hr, length_app in Hl.
  destruct (n =? 0) eqn:E.
  - rewrite (parse_number_loop_text _ f [] tl) by (done || (unfold fuel_of; simpl; lia)).
    simpl. f_equal. lia.
  - destruct (digits_numeral 10 n ltac:(lia) ltac:(lia)) as [Hv Hd _].
    rewrite length_fmap in Hl.
    rewrite (parse_number_loop_text _ f (digits 10 n) tl) by (done || (unfold fuel_of; lia)).
    rewrite length_fmap. f_equal. change 0 with (u32 0). rewrite foldl_u32_digits.
    change (foldl _ 0 (digits 10 n)) with (of_digits 10 (digits 10 n)). rewrite Hv.
    apply wrap_small. lia.
Qed.

(** Without a dollar sign ahead there is no argument number. *)
Lemma parse_number_loop_pos fuel f i :
  readable f -> exists n, parse_number_loop fuel f i = (skip f n, (parse_number_loop fuel f i).2) /\
    0 <= n /\ exists ds, rest f = ds ++ rest (skip f n) /\ Forall is_digit_char ds.
Proof.
  revert f i. induction fuel as [|fuel IH]; intros f i R; simpl.
  - exists 0. rewrite skip_0. split; [done|]. split; [lia|]. by exists [].
  - assert (exists n, (f, i) = (skip f n, i) /\ 0 <= n /\ exists ds, rest f = ds ++ rest (skip f n) /\ Forall is_digit_char ds) as Stop.
    { exists 0. rewrite skip_0. split; [done|]. split; [lia|]. by exists []. }
    destruct (peekbyte f 0 =? 0) eqn:E; [done|].
    destruct (_ && _) eqn:Ed; [|done].
    destruct (peekbyte_cons f R) as [s Hs]; [lia|].
    destruct (read_skip f _ _ R Hs) as (Hb & Hr1 & R1 & _). rewrite Hb. simpl.
    set (i' := u32 _). destruct (IH (skip f 1) i' R1) as (n & Hn & Hn0 & ds & Hds & Fds).
    rewrite skip_skip in Hn, Hds by lia. exists (1 + n). split; [by rewrite Hn|]. split; [lia|].
    exists (peekbyte f 0 :: ds). rewrite Hs at 1. rewrite <- Hr1, Hds. split; [done|].
    constructor; [|done]. unfold is_digit_char. by rewrite Ed.
Qed.

Lemma parse_position_none f pre tl :
  readable f -> rest f = pre ++ tl -> ch "$" ∉ pre -> ~ Forall is_digit_char pre ->
  parse_position f = (f, 0).
Proof.
  intros R Hr Hd Hnd. unfold parse_position, parse_number.
  destruct (parse_number_loop_pos (fuel_of f) f 0 R) as (n & Hn & Hn0 & ds & Hds & Fds).
  rewrite Hn. destruct (parse_number_loop _ _ _) as [g i]. simpl in *.
  assert (set_pos (skip f n) (pos f) = f) as -> by (unfold skip; by rewrite set_pos_set_pos, set_pos_id).
  destruct (negb (i =? 0)); [|done]. destruct (peekbyte (skip f n) 0 =? ch "$") eqn:E; [|done].
  exfalso. destruct (peekbyte_cons (skip f n)) as [s Hs]; [by apply skip_readable|lia|].
  apply Z.eqb_eq in E. rewrite Hds, Hs, E in Hr. apply app_eq_inv in Hr as [[k [-> Hk]]|[k [-> Hk]]].
  - destruct k as [|x k]; [by rewrite app_nil_r in Fds|]. by apply Forall_app in Fds as [? _].
  - destruct k as [|x k]; [by rewrite app_nil_r in Hnd|]. simplify_eq/=. apply Hd. set_solver.
Qed.

Lemma parse_flags_text fuel f cs tl acc :
  readable f -> rest f = cs ++ tl -> Forall (fun c => flag_bit c <> 0) cs ->
  flag_bit (byte_at tl 0) = 0 -> (length cs < fuel)%nat ->
  parse_flags fuel f acc = (skip f (zlen cs), foldl Z.lor acc (flag_bit <$> cs)).
Proof.
  revert f cs acc. induction fuel as [|fuel IH]; intros f cs acc R Hr Hc Ht Hf; [lia|].
  destruct cs as [|c cs]; simpl in Hr |- *.
  - rewrite peek_head, Hr, skip_0 by done. unfold flag_bit in Ht. tests; done.
  - destruct (read_skip f _ _ R Hr) as (Hb & Hr1 & R1 & ->). apply Forall_cons in Hc as [Hc Hcs].
    rewrite Hb. cbn [snd]. simpl in Hf.
    assert (forall flag, flag_bit c = flag -> parse_flags fuel (skip f 1) (Z.lor acc flag) =
      (skip f (zlen (c :: cs)), foldl Z.lor (Z.lor acc (flag_bit c)) (flag_bit <$> cs))) as Next.
    { intros flag <-. rewrite (IH _ cs) by (done || lia). rewrite skip_skip by lia. do 2 f_equal. simpl. lia. }
    unfold flag_bit in Hc, Next |- *.
    destruct (c =? 0) eqn:E0; [replace c with 0 in Hc by lia; done|].
    repeat (match goal with |- context [if ?x =? ?y then _ else _] => destruct (x =? y) end;
            [by apply Next|]). done.
Qed.

Lemma conversion_known c :
  (conversion c).1 <> PRINT_UNKNOWN ->
  c ∈ [ch "i"; ch "d"; ch "u"; ch "B"; ch "b"; ch "O"; ch "o"; ch "X"; ch "x"; ch "A"; ch "a"; ch "F";
       ch "f"; ch "E"; ch "e"; ch "G"; ch "g"; ch "c"; ch "s"; ch "p"; ch "n"].
Proof.
  unfold conversion. rewrite !elem_of_cons. tests; simpl; try lia; done.
Qed.

(** A boolean property of all conversion characters. *)
Lemma known_all (P : Z -> bool) c :
  (conversion c).1 <> PRINT_UNKNOWN ->
  forallb P [ch "i"; ch "d"; ch "u"; ch "B"; ch "b"; ch "O"; ch "o"; ch "X"; ch "x"; ch "A"; ch "a"; ch "F";
             ch "f"; ch "E"; ch "e"; ch "G"; ch "g"; ch "c"; ch "s"; ch "p"; ch "n"] = true ->
  P c = true.
Proof.
  intros Hc H. rewrite forallb_forall in H. apply H.
  apply list_elem_of_In. by apply conversion_known.
Qed.

(** The bytes that start what follows the flags, the width, the precision. *)
Definition ends_flags (c : Z) : bool := flag_bit c =? 0.
Definition ends_size (c : Z) : bool :=
  negb (is_digit_char c) && negb (c =? ch "*") && negb (c =? ch "$") && ends_flags c.
Definition ends_precision (c : Z) : bool := ends_size c && negb (c =? ch ".").
Definition ends_modifier (c : Z) : bool :=
  negb (c =? ch "h") && negb (c =? ch "l") && negb (c =? ch "L") && negb (c =? ch "j") &&
  negb (c =? ch "z") && negb (c =? ch "t").

Lemma modifier_head m c tl :
  (conversion c).1 <> PRINT_UNKNOWN -> ends_precision (byte_at (modifier_text m ++ c :: tl) 0) = true.
Proof.
  intros Hc. destruct m; try done. simpl. rewrite byte_at_cons_0. by apply known_all.
Qed.

Lemma precision_head p m c tl :
  (conversion c).1 <> PRINT_UNKNOWN ->
  ends_size (byte_at (precision_text p ++ modifier_text m ++ c :: tl) 0) = true.
Proof.
  intros Hc. destruct p; [done|]. simpl.
  pose proof (modifier_head m c tl Hc) as H. by apply andb_prop in H as [H _].
Qed.

Lemma size_head n tl :
  is_u64 n -> ends_flags (byte_at tl 0) = true -> byte_at tl 0 <> ch "*" ->
  ends_flags (byte_at (size_text n ++ tl) 0) = true /\ byte_at (size_text n ++ tl) 0 <> ch "*".
Proof.
  intros Hn Ht Hs. unfold size_text, digit_chars. destruct (n =? 0) eqn:E; [done|].
  destruct (digits_numeral 10 n ltac:(lia) Hn) as [Hv Hd Hc].
  destruct Hc as [Hc|(d & ds & Hc & Hne)]; rewrite Hc in *.
  - unfold of_digits in Hv. simpl in Hv. lia.
  - apply Forall_cons in Hd as [Hd _]. simpl. rewrite byte_at_cons_0.
    unfold ends_flags, flag_bit. split; [|lia]. tests_lia.
Qed.

Lemma parse_size_text f n tl :
  readable f -> rest f = size_text n ++ tl -> is_u32 n -> ends_size (byte_at tl 0) = true ->
  parse_size f = (skip f (zlen (size_text n)), n, UINT32_MAX).
Proof.
  intros R Hr Hn Ht. unfold parse_size. unfold ends_size in Ht.
  apply andb_prop in Ht as [[[H1 H2]%andb_prop H3]%andb_prop H4].
  assert ((peekbyte f 0 =? ch "*") = false) as ->.
  { rewrite peek_head, Hr by done. apply Z.eqb_neq.
    apply size_head; [lia|done|]. intros E. by rewrite E in H2. }
  rewrite (parse_number_text f n tl R Hr Hn) by (by apply negb_true_iff). done.
Qed.

Lemma parse_modifier_text f m c tl :
  readable f -> rest f = modifier_text m ++ c :: tl -> (conversion c).1 <> PRINT_UNKNOWN ->
  parse_modifier f = (skip f (zlen (modifier_text m)), m).
Proof.
  intros R Hr Hc. assert (ends_modifier c = true) as He by by apply known_all.
  unfold ends_modifier in He. unfold parse_modifier.
  destruct m; cbn [modifier_text app] in Hr;
    destruct (read_skip f _ _ R Hr) as (Hb & Hr1 & R1 & ->); rewrite ?Hb; cbn [snd];
    try (destruct (read_skip _ _ _ R1 Hr1) as (Hb2 & Hr2 & R2 & ->); rewrite ?Hb2; cbn [snd]);
    cbn [modifier_text length]; rewrite ?skip_skip, ?skip_0 by lia; try done; tests_lia; done.
Qed.

(** Bytes that cannot occur in a specification. *)
Definition spec_char (c : Z) : bool := negb (c =? 0) && negb (c =? ch "$") && negb (c =? ch "%").

Lemma size_text_chars n : is_u32 n -> Forall spec_char (size_text n).
Proof.
  intros Hn. unfold size_text, digit_chars. destruct (n =? 0); [constructor|].
  destruct (digits_numeral 10 n ltac:(lia) ltac:(lia)) as [_ Hd _].
  apply Forall_fmap. eapply Forall_impl; [exact Hd|]. intros d Hx. cbn beta in Hx. simpl. unfold spec_char.
  by replace (negb _ && negb _ && negb _) with true by lia.
Qed.

Lemma spec_text_chars s : wf_spec s -> Forall spec_char (spec_text s).
Proof.
  intros (Hf & Hw & Hp & Hc). unfold spec_text. rewrite !Forall_app. split_and!.
  - eapply Forall_impl; [exact Hf|]. intros c. cbn beta. unfold flag_bit, spec_char. intros H.
    destruct (c =? 0) eqn:E0; [by replace c with 0 in H by lia|].
    destruct (c =? ch "$") eqn:E1; [by replace c with (ch "$") in H by lia|].
    destruct (c =? ch "%") eqn:E2; [by replace c with (ch "%") in H by lia|]. done.
  - by apply size_text_chars.
  - destruct (cs_precision s); [|constructor]. constructor; [done|by apply size_text_chars].
  - destruct (cs_modifier s); repeat constructor.
  - constructor; [|constructor]. apply Is_true_true. by apply known_all.
Qed.

Lemma spec_text_no_dollar s : wf_spec s -> ch "$" ∉ spec_text s.
Proof. intros W Hin. pose proof (spec_text_chars s W) as H. rewrite Forall_forall in H. by specialize (H _ Hin). Qed.

Lemma spec_text_head s : wf_spec s -> exists c t, spec_text s = c :: t /\ spec_char c.
Proof.
  intros W. pose proof (spec_text_chars s W) as H. destruct (spec_text s) as [|c t] eqn:E.
  - unfold spec_text in E. by repeat (apply app_eq_nil in E as [_ E]).
  - apply Forall_cons in H as [H _]. by exists c, t.
Qed.

Lemma rest_skip f cs tl : readable f -> rest f = cs ++ tl -> rest (skip f (zlen cs)) = tl.
Proof. apply rest_app. Qed.

(** The part of a specification after the flags. *)
Definition spec_tail (s : conv_spec) (tl : list Z) : list Z :=
  size_text (cs_width s) ++ precision_text (cs_precision s) ++
  modifier_text (cs_modifier s) ++ cs_conversion s :: tl.

Lemma spec_text_tail s tl : spec_text s ++ tl = cs_flags s ++ spec_tail s tl.
Proof. unfold spec_text, spec_tail. by rewrite <- !app_assoc. Qed.

Lemma parse_precision_text f p m c tl flags :
  readable f -> rest f = precision_text p ++ modifier_text m ++ c :: tl ->
  is_u32 (default 0 p) -> (conversion c).1 <> PRINT_UNKNOWN ->
  (if peekbyte f 0 =? ch "." then
     let '(format, precision, precision_index) := parse_size (readbyte f).2 in
     (format, precision, precision_index, Z.lor flags PRINT_PRECISION)
   else (f, 0, UINT32_MAX, flags)) =
  (skip f (zlen (precision_text p)), default 0 p, UINT32_MAX,
   match p with None => flags | Some _ => Z.lor flags PRINT_PRECISION end).
Proof.
  intros R Hr Hp Hc. pose proof (modifier_head m c tl Hc) as Hm. destruct p as [p|]; simpl in Hr, Hp.
  - destruct (read_skip f _ _ R Hr) as (Hb & Hr1 & R1 & ->). rewrite Hb. cbn [snd].
    rewrite (parse_size_text _ p (modifier_text m ++ c :: tl)); try done.
    + rewrite skip_skip by lia.
      by replace (1 + zlen (size_text p)) with (zlen (precision_text (Some p))) by (cbn [precision_text length]; lia).
    + by apply andb_prop in Hm as [? _].
  - rewrite peek_head, Hr, skip_0 by done. apply andb_prop in Hm as [_ Hm].
    destruct (byte_at _ 0 =? ch "."); done.
Qed.

Section Parse.
Context {A : Allocator}.

(** The text of a specification is parsed back into its configuration, with
    the next argument as its data. *)
Lemma parse_spec_text f s tl args data args' :
  readable f -> rest f = spec_text s ++ tl -> wf_spec s ->
  variadic_args_get args 0 = Some (data, args') ->
  parse_print_specifier f args =
    Some (skip f (zlen (spec_text s)), spec_config s 0 data, args').
Proof.
  intros R Hr W Hg. pose proof W as (Hf & Hw & Hp & Hc). unfold parse_print_specifier.
  rewrite (parse_position_none f (spec_text s) tl R Hr); [|by apply spec_text_no_dollar|].
  2: { unfold spec_text. rewrite !Forall_app. intros (_ & _ & _ & _ & H). apply Forall_cons in H as [H _].
       pose proof (known_all (fun c => negb (is_digit_char c)) _ Hc eq_refl) as N. simpl in N.
       by destruct (is_digit_char (cs_conversion s)). }
  rewrite spec_text_tail in Hr. unfold spec_tail in Hr.
  set (T3 := modifier_text (cs_modifier s) ++ cs_conversion s :: tl) in *.
  set (T2 := precision_text (cs_precision s) ++ T3) in *.
  assert (ends_size (byte_at T2 0) = true) as E2 by by apply precision_head.
  assert (flag_bit (byte_at (size_text (cs_width s) ++ T2) 0) = 0) as E1.
  { unfold ends_size in E2. apply andb_prop in E2 as [[[_ Hs]%andb_prop _]%andb_prop Hfl].
    apply Z.eqb_eq. apply size_head; [lia|done|]. intros E. by rewrite E in Hs. }
  pose proof (rest_length f R) as Hl. rewrite Hr, length_app in Hl.
  rewrite (parse_flags_text _ f (cs_flags s) _ 0 R Hr Hf E1) by (unfold fuel_of; lia).
  apply (rest_skip f _ _ R) in Hr. apply (skip_readable f (zlen (cs_flags s))) in R; [|lia].
  rewrite (parse_size_text _ (cs_width s) T2 R Hr Hw E2).
  apply (rest_skip _ _ _ R) in Hr. apply (skip_readable _ (zlen (size_text (cs_width s)))) in R; [|lia].
  rewrite (parse_precision_text _ (cs_precision s) _ _ tl _ R Hr Hp Hc).
  apply (rest_skip _ _ _ R) in Hr. apply (skip_readable _ (zlen (precision_text (cs_precision s)))) in R; [|lia].
  rewrite (parse_modifier_text _ _ _ tl R Hr Hc).
  apply (rest_skip _ _ _ R) in Hr. apply (skip_readable _ (zlen (modifier_text (cs_modifier s)))) in R; [|lia].
  destruct (read_skip _ _ _ R Hr) as (Hb & _ & _ & ->). rewrite Hb. rewrite !skip_skip by lia.
  destruct (conversion (cs_conversion s)) as [t up] eqn:Ec. simpl in Hc. rewrite decide_False by done.
  cbn [snd]. unfold get_size. simpl. rewrite Hg. simpl. unfold spec_config, spec_flags. rewrite Ec.
  do 4 f_equal. unfold spec_text. rewrite !length_app. cbn [length]. lia.
Qed.

End Parse.

(** ** Formats *)

Inductive item :=
  | Lit (c : Z)
  | Percent
  | Spec (s : conv_spec).

Definition item_text (i : item) : list Z :=
  match i with Lit c => [c] | Percent => [ch "%"; ch "%"] | Spec s => ch "%" :: spec_text s end.

Definition format_text (items : list item) : list Z := concat (item_text <$> items).

Section Denotation.
Context {A : Allocator}.

(** The conversion prints [text], whatever the buffer, and keeps the memory. *)
Definition PrintsArg (m : mem) (config : print_config) (text : list Z) : Prop :=
  exists cs, (forall b, print_arg m b config = Some (m, put_all b cs, u32 (text_len cs))) /\ concat cs = text.

(** A step towards the meaning of formats ([Means] below, which does not refer
    to the printers): the text of each conversion is what [print_arg] prints. *)
Inductive Denotes (m : mem) : list item -> list Z -> list Z -> Prop :=
  | denotes_nil args : Denotes m [] args []
  | denotes_lit c items args text :
      c <> 0 -> c <> ch "%" -> Denotes m items args text -> Denotes m (Lit c :: items) args (c :: text)
  | denotes_percent items args text :
      Denotes m items args text -> Denotes m (Percent :: items) args (ch "%" :: text)
  | denotes_spec s items x args t text :
      wf_spec s -> (forall result, PrintsArg m (spec_config s result x) t) ->
      Denotes m items args text -> Denotes m (Spec s :: items) (x :: args) (t ++ text).

Lemma readbyte_nil f : readable f -> rest f = [] -> (readbyte f).1 = 0.
Proof.
  intros [He Hp] Hr. unfold readbyte. rewrite He. destruct (pos f + 1 >? size f) eqn:E; [done|]. simpl.
  unfold rest, current in Hr. unfold byte_at.
  destruct (data f !! Z.to_nat (pos f)) as [x|] eqn:Hx; [|done].
  apply (drop_S _ _ _) in Hx. rewrite Hx in Hr.
  replace (Z.to_nat (size f - pos f)) with (S (Z.to_nat (size f - (pos f + 1)))) in Hr by lia. done.
Qed.

(** The state of the arguments after some have been used. *)
Definition remaining (L : list Z) (a : variadic_args) (args : list Z) : Prop :=
  args_inv L a /\ drop (Z.to_nat (current_index a)) L = args.

Lemma get_next (alloc_ok : forall n, malloc_ok n = true) L a x args :
  zlen L < 2 ^ 31 -> remaining L a (x :: args) ->
  exists a', variadic_args_get a 0 = Some (x, a') /\ remaining L a' args.
Proof.
  intros HL [I Hd]. pose proof (inv_counts _ _ I).
  assert (L !! Z.to_nat (current_index a) = Some x) as Hx.
  { apply (f_equal (.!! 0%nat)) in Hd. rewrite lookup_drop in Hd. simpl in Hd. by rewrite Nat.add_0_r in Hd. }
  destruct (variadic_args_get_sim alloc_ok L a 0 x (current_index a + 1)) as (a' & Hg & I' & Hc); [done|done|lia| |].
  { unfold spec_get. simpl. rewrite load_lookup by lia. by rewrite Hx. }
  exists a'. split; [done|]. split; [done|]. rewrite Hc.
  rewrite (drop_S _ _ _ Hx) in Hd. injection Hd as Hd. rewrite <- Hd. f_equal. lia.
Qed.

(** The shape of the result of the loop from result count [r] and buffer [b]. *)
Definition loop_prints (m : mem) (b : buffer_t) (r : Z) (text : list Z) (res : option printed) : Prop :=
  exists cs, concat cs = text /\
    res = Some (Printed m (put_all b cs) (swrap 32 (r + zlen text))).

Lemma loop_prints_after m b r cs t text res :
  concat cs = t -> loop_prints m (put_all b cs) (u32 (r + zlen t)) text res ->
  loop_prints m b r (t ++ text) res.
Proof.
  intros Hc (cs' & Hc' & ->). exists (cs ++ cs'). rewrite concat_app, Hc, Hc', put_all_app. split; [done|].
  do 2 f_equal. apply swrap_congr. rewrite wrap_add_l, length_app. f_equal. lia.
Qed.

Lemma printf_loop_denotes (alloc_ok : forall n, malloc_ok n = true) m L items args text :
  zlen L < 2 ^ 31 -> Denotes m items args text ->
  forall fuel inp a r b,
    readable inp -> rest inp = format_text items -> remaining L a args ->
    (length (rest inp) < fuel)%nat -> wf b ->
    loop_prints m b r text (printf_loop fuel m b inp a r).
Proof.
  intros HL. induction 1 as [args|c items args text Hc0 Hcp _ IH|items args text _ IH
    |s items x args t text Hs Hp _ IH]; intros fuel inp a r b R Hr Ha Hf W;
    (destruct fuel as [|fuel]; [lia|]); cbn [printf_loop].
  - pose proof (readbyte_nil inp R Hr) as H0. destruct (readbyte inp) as [c inp']. simpl in H0. subst c.
    simpl. exists []. split; [done|]. simpl. by rewrite Z.add_0_r.
  - destruct (read_skip inp c (format_text items) R Hr) as (-> & Hr1 & R1 & _).
    replace (c =? 0) with false by lia. replace (c =? ch "%") with false by lia.
    change (rest inp = c :: format_text items) in Hr. rewrite Hr in Hf. cbn [length] in Hf.
    rewrite put_all_writebyte.
    apply (loop_prints_after m b r [[c]] [c]); [done|]. apply IH; try done; [rewrite Hr1; lia|].
    by apply put_all_Emits.
  - destruct (read_skip inp (ch "%") (ch "%" :: format_text items) R Hr) as (-> & Hr1 & R1 & _).
    simpl. destruct (read_skip _ _ _ R1 Hr1) as (-> & Hr2 & R2 & ->). simpl.
    change (rest inp = ch "%" :: ch "%" :: format_text items) in Hr. rewrite Hr in Hf. cbn [length] in Hf.
    rewrite put_all_writebyte.
    apply (loop_prints_after m b r [[ch "%"]] [ch "%"]); [done|]. apply IH; try done; [rewrite Hr2; lia|].
    by apply put_all_Emits.
  - destruct (read_skip inp (ch "%") (spec_text s ++ format_text items) R Hr) as (-> & Hr1 & R1 & _).
    simpl. destruct (spec_text_head s Hs) as (c & tl & Es & Hc).
    assert (peekbyte (skip inp 1) 0 = c) as ->
      by (rewrite peek_head, Hr1, Es by done; simpl; by rewrite byte_at_cons_0).
    unfold spec_char in Hc. replace (c =? 0) with false by (destruct (c =? 0); done).
    replace (c =? ch "%") with false by (destruct (c =? 0), (c =? ch "$"), (c =? ch "%"); done).
    destruct (get_next alloc_ok L a x args HL Ha) as (a' & Hg & Ha').
    rewrite (parse_spec_text (skip inp 1) s (format_text items) a x a' R1 Hr1 Hs Hg). simpl.
    destruct Hs as (? & ? & ? & Hk). rewrite decide_False by done.
    destruct (Hp r) as (cs & Hcs & Ht). fold (spec_config s r x). rewrite Hcs. simpl.
    pose proof (put_all_Emits alloc_ok b cs W) as E. rewrite (wf_error _ (emits_wf _ _ _ E)).
    apply (loop_prints_after m b r cs t); [done|].
    replace (u32 (r + u32 (text_len cs))) with (u32 (r + zlen t)) by (unfold text_len; rewrite Ht; u32_sum).
    change (rest inp = ch "%" :: spec_text s ++ format_text items) in Hr.
    rewrite Hr in Hf. cbn [length] in Hf. rewrite length_app in Hf.
    apply IH; [by apply skip_readable; [|lia]|by apply (rest_skip _ (spec_text s))|done| |apply E].
    rewrite (rest_skip _ (spec_text s) _ R1 Hr1). lia.
Qed.

End Denotation.

(** ** Conversions of numbers *)

Definition number_spec (s : conv_spec) (x : Z) : Prop :=
  wf_spec s /\ cs_width s < 2 ^ 31 /\ default 0 (cs_precision s) < 2 ^ 31 /\
  is_number (spec_config s 0 x).

Lemma has_ldiff f k m : has (Z.ldiff f k) m = has f (Z.ldiff m k).
Proof.
  unfold has. do 2 f_equal. apply Z.bits_inj'. intros n Hn.
  rewrite !Z.land_spec, !Z.ldiff_spec. destruct (Z.testbit f n), (Z.testbit m n), (Z.testbit k n); done.
Qed.

(** A precision switches zero padding off. *)
Lemma resolve_flags_precision flags :
  has flags PRINT_PRECISION = true -> has (resolve_flags flags) PRINT_ZERO_PADDED = false.
Proof.
  intros Hp. unfold resolve_flags.
  set (f1 := if has flags PRINT_LEFT_JUSTIFY then _ else _).
  assert (has f1 PRINT_PRECISION = true) as H1
    by (unfold f1; destruct (has flags PRINT_LEFT_JUSTIFY); [by rewrite has_ldiff|done]).
  rewrite H1.
  destruct (has (Z.ldiff f1 PRINT_ZERO_PADDED) PRINT_FORCE_SIGN); rewrite ?has_ldiff; unfold has; cbn; by rewrite Z.land_0_r.
Qed.

Lemma spec_flags_zero s :
  has (spec_flags s) PRINT_ZERO_PADDED = true -> default 0 (cs_precision s) = 0.
Proof.
  unfold spec_flags. destruct (cs_precision s) as [p|]; [|done].
  rewrite resolve_flags_precision; [done|]. by rewrite !has_lor, orb_true_r.
Qed.

Lemma group_skip_range flags (ds : list Z) : 0 < zlen ds -> 0 <= group_skip flags ds <= zlen ds.
Proof. intros H. unfold group_skip. destruct (has _ _); zlia. Qed.

Lemma number_text_width s x :
  number_spec s x -> cs_width s <= zlen (number_text (spec_config s 0 x)).
Proof.
  intros (_ & _ & _ & Hn). unfold is_number in Hn. unfold number_text.
  pose proof (uint_arg_u64 (spec_config s 0 x)) as Hu.
  pose proof (int_digits_length (spec_config s 0 x)) as Hi.
  set (g := has (pflags (spec_config s 0 x)) PRINT_GROUP_DIGITS).
  destruct (uint_digits_parts 0 g _ Hu) as (_ & _ & Hd).
  destruct (type (spec_config s 0 x)); try done; rewrite field_length;
    try apply group_skip_range; simpl width; lia.
Qed.

Section Conversions.
Context {A : Allocator}.

Lemma number_PrintsArg m s x result :
  number_spec s x -> PrintsArg m (spec_config s result x) (number_text (spec_config s result x)).
Proof.
  intros ((Hf & Hw & Hp & Hc) & Hw2 & Hp2 & Hn).
  destruct (print_number_chunks m (spec_config s result x)) as (cs & Hcs & Ht); [done|done|].
  exists cs. split; [done|]. apply Ht. split; [done|]. split; [done|]. apply spec_flags_zero.
Qed.

(** ** Strings *)

(** The NUL-terminated string [s] at address [p]. *)
Definition cstring (m : mem) (p : Z) (s : list Z) : Prop :=
  p <> 0 /\ Forall (fun c => c <> 0) s /\
  forall i, 0 <= i <= zlen s -> m !! (p + i) = Some (byte_at s i).

(** The field of a string: cut to the precision, filled up to the width. *)
Definition string_text (config : print_config) (s : list Z) : list Z :=
  let s := if has (pflags config) PRINT_PRECISION then take (Z.to_nat (precision config)) s else s in
  let fill := replicate (Z.to_nat (width config - zlen s)) (ch " ") in
  if has (pflags config) PRINT_LEFT_JUSTIFY then s ++ fill else fill ++ s.

Lemma cstring_fits m p s : cstring m p s -> (S (length s) <= base.size m)%nat.
Proof.
  intros (_ & _ & H). pose proof (size_dom (D := gset Z) m) as <-.
  set (l := (fun i => p + Z.of_nat i) <$> seq 0 (S (length s))).
  assert (NoDup l) as Hl.
  { apply NoDup_fmap_2_strong; [|apply NoDup_seq]. intros. lia. }
  assert (length l = S (length s)) as <- by (unfold l; by rewrite length_fmap, length_seq).
  rewrite <- (size_list_to_set (C := gset Z) l Hl). apply subseteq_size.
  intros x. rewrite elem_of_list_to_set. unfold l. rewrite list_elem_of_fmap.
  intros (i & -> & Hi%elem_of_seq). apply elem_of_dom. rewrite H by lia. by eexists.
Qed.

Lemma count_units_string fuel rd s precision count :
  (forall i, 0 <= i <= zlen s -> rd i = Some (byte_at s i)) -> Forall (fun c => c <> 0) s ->
  0 <= count <= Z.min (zlen s) precision -> zlen s - count < Z.of_nat fuel ->
  count_units fuel rd 1 precision count = Some (Z.min (zlen s) precision).
Proof.
  intros Hrd Hs. revert count. induction fuel as [|fuel IH]; intros count Hc Hf; [lia|].
  cbn [count_units load_le]. rewrite Z.mul_1_l, Hrd by lia. simpl. rewrite Z.add_0_r.
  destruct (decide (count = zlen s)) as [->|Hne].
  - rewrite byte_at_ge by lia. simpl. f_equal. lia.
  - destruct (lookup_lt_is_Some_2 s (Z.to_nat count)) as [c E]; [lia|].
    assert (byte_at s count = c) as -> by (unfold byte_at; by rewrite E).
    pose proof (Forall_lookup_1 _ _ _ _ Hs E) as Hc0. cbn beta in Hc0.
    replace (c =? 0) with false by lia. simpl.
    destruct (count <? precision) eqn:Ep; [apply IH; lia|]. f_equal. lia.
Qed.

Lemma load_bytes_string rd s n from :
  (forall i, 0 <= i <= zlen s -> rd i = Some (byte_at s i)) -> 0 <= from -> from + Z.of_nat n <= zlen s ->
  load_bytes rd n from = Some (take n (drop (Z.to_nat from) s)).
Proof.
  intros Hrd. revert from. induction n as [|n IH]; intros from Hf Hn; [done|].
  cbn [load_bytes]. rewrite Hrd by lia. simpl. rewrite IH by lia. simpl.
  destruct (lookup_lt_is_Some_2 s (Z.to_nat from)) as [c E]; [lia|].
  rewrite (drop_S _ _ _ E). unfold byte_at. rewrite E. simpl.
  by replace (Z.to_nat (from + 1)) with (S (Z.to_nat from)) by lia.
Qed.

(** Units of one byte. *)
Definition byte_units (md : print_modifier) : Prop :=
  md <> PRINT_MOD_LONG /\ md <> PRINT_MOD_LONG_LONG.

Lemma byte_units_1 md : byte_units md ->
  match md with PRINT_MOD_LONG => 2 | PRINT_MOD_LONG_LONG => 4 | _ => 1 end%nat = 1%nat.
Proof. intros [H1 H2]. by destruct md. Qed.

Lemma print_units_bytes md rd count b r bs :
  byte_units md -> load_bytes rd (Z.to_nat count) 0 = Some bs -> 0 <= count < 2 ^ 31 ->
  print_units md rd count b r = Some (put_all b [bs], u32 (r + zlen bs)).
Proof.
  intros [H1 H2] Hl Hc. pose proof (load_bytes_length _ _ _ _ Hl) as E.
  assert (print_units md rd count b r = (bs ← load_bytes rd (Z.to_nat count) 0;
         Some ((writen b bs).1, u32 (r + u32 count)))) as -> by by destruct md.
  rewrite Hl. simpl. rewrite E, Z2Nat.id, (wrap_small 32 count) by lia. done.
Qed.

(** A string that can be read from the object of the argument. *)
Lemma object_PrintsArg m config s :
  type config = PRINT_STRING -> byte_units (modifier config) -> in_range config ->
  (forall i, 0 <= i <= zlen s -> string_object m (pdata config) i = Some (byte_at s i)) ->
  Forall (fun c => c <> 0) s -> (length s < 5 + base.size m)%nat -> zlen s < 2 ^ 31 ->
  PrintsArg m config (string_text config s).
Proof.
  intros T Hm [Hw Hp] Hrd' Hnz Hfit Hl. unfold PrintsArg, print_arg, print_string. rewrite T, byte_units_1 by done.
  set (rd := string_object m (pdata config)) in *.
  set (P := if negb _ then UINT32_MAX else _). assert (is_u32 P) by (unfold P, UINT32_MAX; destruct (negb _); lia).
  rewrite (count_units_string _ rd s P 0) by (done || lia). simpl.
  set (s' := take (Z.to_nat (Z.min (zlen s) P)) s).
  assert (zlen s' = Z.min (zlen s) P) as Hl' by (unfold s'; rewrite length_take; lia).
  assert (load_bytes rd (Z.to_nat (Z.min (zlen s) P)) 0 = Some s') as Hld
    by (rewrite (load_bytes_string rd s) by (done || lia); done).
  unfold string_text.
  assert ((if has (pflags config) PRINT_PRECISION then take (Z.to_nat (precision config)) s else s) = s') as ->.
  { unfold s', P. destruct (has (pflags config) PRINT_PRECISION); simpl.
    - destruct (decide (precision config <= zlen s)); [by rewrite Z.min_r by lia|].
      by rewrite !take_ge by lia.
    - rewrite take_ge; [done|]. unfold UINT32_MAX. lia. }
  rewrite Hl'. set (n := Z.to_nat (width config - _)).
  assert (n <> 0%nat -> (width config >? Z.min (zlen s) P) = true) as Hgt by lia.
  assert (Z.of_nat n + zlen s' < 2 ^ 33) as Hbound by lia.
  destruct (has (pflags config) PRINT_LEFT_JUSTIFY).
  - exists ([s'] ++ replicate n [ch " "]). split; [|by chunk_text].
    intros b. rewrite andb_false_r, andb_true_r, (print_units_bytes _ _ _ _ _ s') by (done || lia).
    cbn [mbind option_bind]. destruct (width config >? _) eqn:E.
    + rewrite spaces_put_all by (apply wrap_range; lia). rewrite <- put_all_app. do 2 f_equal.
      chunk_len. u32_sum.
    + replace n with 0%nat by lia. do 2 f_equal. chunk_len. simpl. u32_sum.
  - exists (replicate n [ch " "] ++ [s']). split; [|by chunk_text].
    intros b. rewrite andb_false_r, andb_true_r. destruct (width config >? _) eqn:E.
    + rewrite spaces_put_all by lia. rewrite (print_units_bytes _ _ _ _ _ s') by (done || lia).
      cbn [mbind option_bind]. rewrite <- put_all_app. do 2 f_equal. chunk_len. u32_sum.
    + rewrite (print_units_bytes _ _ _ _ _ s') by (done || lia).
      replace n with 0%nat by lia. simpl. do 2 f_equal. chunk_len. done.
Qed.

Lemma string_PrintsArg m config s :
  type config = PRINT_STRING -> byte_units (modifier config) -> in_range config ->
  cstring m (pdata config) s -> zlen s < 2 ^ 31 ->
  PrintsArg m config (string_text config s).
Proof.
  intros T Hm R Hs Hl. pose proof (cstring_fits m _ s Hs) as Hfit. destruct Hs as (H0 & Hnz & Hrd).
  apply object_PrintsArg; [done..| |done|lia|done].
  intros i Hi. unfold string_object. replace (pdata config =? 0) with false by lia. by apply Hrd.
Qed.

Lemma null_string_PrintsArg m config :
  type config = PRINT_STRING -> byte_units (modifier config) -> in_range config -> pdata config = 0 ->
  PrintsArg m config (string_text config []).
Proof.
  intros T Hm R H0. apply object_PrintsArg; [done..| |constructor|simpl; lia|simpl; lia].
  intros i Hi. simpl in Hi. replace i with 0 by lia. unfold string_object. by rewrite H0.
Qed.

End Conversions.

(** ** The meaning of a conversion

    What the text of a conversion should be, said without the parser, the
    flag words or the printers of the code: from the characters of the
    specification, the value the argument word has in the type the length
    modifier names ([mod_bits]), its digits and the layout of the field. *)

Definition flag_chars : list Z := [ch "#"; ch "0"; ch " "; ch "-"; ch "+"; ch "'"].

Definition flagged (s : conv_spec) (c : Z) : bool := bool_decide (c ∈ cs_flags s).

(** The character of a digit. *)
Definition letter (upper : bool) (d : Z) : Z :=
  if d <? 10 then ch "0" + d else (if upper then ch "A" else ch "a") + (d - 10).

Definition signed_value (s : conv_spec) (x : Z) : Z := swrap (mod_bits (cs_modifier s)) x.
Definition unsigned_value (s : conv_spec) (x : Z) : Z := wrap (mod_bits (cs_modifier s)) x.

(** The sign of a signed number: a plus prevails over a space. *)
Definition sign_chars (s : conv_spec) (v : Z) : list Z :=
  if v <? 0 then [ch "-"]
  else if flagged s (ch "+") then [ch "+"]
  else if flagged s (ch " ") then [ch " "]
  else [].

(** The alternate form puts a zero and the letter of the conversion in front. *)
Definition radix_prefix (s : conv_spec) : list Z :=
  if flagged s (ch "#") then [ch "0"; cs_conversion s] else [].

(** Zeros up to the precision, fill up to the width: spaces behind the number
    ([-]), zeros between the sign and the digits ([0], unless [-] or a
    precision is given), spaces in front otherwise. Departing from ISO C, zero
    keeps its digit under a precision of 0 and its prefix in the alternate
    form. *)
Definition number_field (s : conv_spec) (pre ds : list Z) : list Z :=
  let body := replicate (Z.to_nat (default 0 (cs_precision s) - zlen ds)) (ch "0") ++ ds in
  let fill := Z.to_nat (cs_width s - zlen (pre ++ body)) in
  if flagged s (ch "-") then pre ++ body ++ replicate fill (ch " ")
  else if flagged s (ch "0") && bool_decide (cs_precision s = None)
  then pre ++ replicate fill (ch "0") ++ body
  else replicate fill (ch " ") ++ pre ++ body.

(** Text in a field of spaces. *)
Definition text_field (s : conv_spec) (t : list Z) : list Z :=
  let fill := replicate (Z.to_nat (cs_width s - zlen t)) (ch " ") in
  if flagged s (ch "-") then t ++ fill else fill ++ t.

(** Decimal digits, in groups of three when asked for. *)
Definition decimal (s : conv_spec) (v : Z) : list Z := be_group (flagged s (ch "'")) 0 (digits 10 v).

(** Grouped numbers without a precision, the most negative one aside. *)
Definition groupable (s : conv_spec) (v : Z) : Prop :=
  flagged s (ch "'") = true -> cs_precision s = None /\ v <> - 2 ^ 63.

(** The string an argument points to; a null pointer counts as empty. *)
Definition points_to (m : mem) (p : Z) (str : list Z) : Prop :=
  (p = 0 /\ str = []) \/ (cstring m p str /\ zlen str < 2 ^ 31).

Inductive renders (m : mem) (s : conv_spec) (x : Z) : list Z -> Prop :=
  | renders_signed :
      cs_conversion s = ch "d" \/ cs_conversion s = ch "i" -> groupable s (signed_value s x) ->
      renders m s x (number_field s (sign_chars s (signed_value s x)) (decimal s (Z.abs (signed_value s x))))
  | renders_unsigned :
      cs_conversion s = ch "u" -> groupable s (unsigned_value s x) ->
      renders m s x (number_field s [] (decimal s (unsigned_value s x)))
  | renders_binary :
      cs_conversion s = ch "b" \/ cs_conversion s = ch "B" -> unsigned_value s x < 2 ^ 32 ->
      renders m s x (number_field s (radix_prefix s) (letter false <$> digits 2 (unsigned_value s x)))
  | renders_octal :
      cs_conversion s = ch "o" \/ cs_conversion s = ch "O" ->
      renders m s x (number_field s (radix_prefix s) (letter false <$> digits 8 (unsigned_value s x)))
  | renders_hex upper :
      cs_conversion s = (if upper : bool then ch "X" else ch "x") ->
      renders m s x (number_field s (radix_prefix s) (letter upper <$> digits 16 (unsigned_value s x)))
  | renders_char :
      cs_conversion s = ch "c" -> byte_units (cs_modifier s) -> cs_width s <= 128 ->
      renders m s x (text_field s [x mod 256])
  | renders_string str :
      cs_conversion s = ch "s" -> byte_units (cs_modifier s) -> points_to m x str ->
      renders m s x (text_field s match cs_precision s with
                                  | Some p => take (Z.to_nat p) str
                                  | None => str
                                  end)
  | renders_pointer :
      cs_conversion s = ch "p" ->
      renders m s x (text_field s ([ch "0"; ch "x"] ++
        ((fun i => letter false (x / 16 ^ i mod 16)) <$> reverse (seqZ 0 16)))).

(** The widths and precisions the field arithmetic is free of overflow for. *)
Definition sane (s : conv_spec) : Prop :=
  Forall (fun c => c ∈ flag_chars) (cs_flags s) /\
  0 <= cs_width s < 2 ^ 31 /\ 0 <= default 0 (cs_precision s) < 2 ^ 31.

(** The text a format means, with the words of its arguments. *)
Inductive Means (m : mem) : list item -> list Z -> list Z -> Prop :=
  | means_nil args : Means m [] args []
  | means_lit c items args text :
      c <> 0 -> c <> ch "%" -> Means m items args text -> Means m (Lit c :: items) args (c :: text)
  | means_percent items args text :
      Means m items args text -> Means m (Percent :: items) args (ch "%" :: text)
  | means_spec s items x args t text :
      sane s -> renders m s x t -> Means m items args text -> Means m (Spec s :: items) (x :: args) (t ++ text).

(** *** The flag word says what the characters say *)

(** The case analysis over the six flag characters. *)
Ltac each_flag H :=
  unfold flag_chars in H; rewrite !elem_of_cons in H;
  destruct H as [->|[->|[->|[->|[->|[->|H]]]]]]; [..|by apply not_elem_of_nil in H].

Lemma has_flag_bits l c acc :
  Forall (fun c => c ∈ flag_chars) l -> c ∈ flag_chars ->
  has (foldl Z.lor acc (flag_bit <$> l)) (flag_bit c) = has acc (flag_bit c) || bool_decide (c ∈ l).
Proof.
  intros Hl Hc. revert acc. induction Hl as [|d l Hd _ IH]; intros acc; cbn [fmap list_fmap foldl].
  - by rewrite bool_decide_eq_false_2, orb_false_r by apply not_elem_of_nil.
  - rewrite IH, has_lor, <- orb_assoc. f_equal.
    assert (has (flag_bit d) (flag_bit c) = bool_decide (c = d)) as ->
      by (clear IH; each_flag Hd; each_flag Hc; done).
    destruct (decide (c = d)) as [->|Hne].
    + transitivity true; [by rewrite bool_decide_eq_true_2|].
      symmetry. apply bool_decide_eq_true_2, elem_of_cons. by left.
    + rewrite bool_decide_eq_false_2 by done. simpl. apply bool_decide_ext. rewrite elem_of_cons. tauto.
Qed.

(** A bit that is no flag character's does not come from them. *)
Lemma has_flag_bits_other l k acc :
  Forall (fun c => c ∈ flag_chars) l -> (forall c, c ∈ flag_chars -> has (flag_bit c) k = false) ->
  has (foldl Z.lor acc (flag_bit <$> l)) k = has acc k.
Proof.
  intros Hl Hk. revert acc. induction Hl as [|d l Hd _ IH]; intros acc; [done|]. simpl.
  by rewrite IH, has_lor, (Hk d), orb_false_r.
Qed.

(** The flag word of the characters, the precision and the conversion. *)
Definition raw_flags (s : conv_spec) : Z :=
  let flags := foldl Z.lor 0 (flag_bit <$> cs_flags s) in
  let flags := match cs_precision s with None => flags | Some _ => Z.lor flags PRINT_PRECISION end in
  Z.lor flags (conversion (cs_conversion s)).2.

Lemma upper_flag c : (conversion c).2 = 0 \/ (conversion c).2 = PRINT_UPPER_CASE.
Proof. unfold conversion. tests; simpl; tauto. Qed.

Lemma has_raw_flags s c :
  sane s -> c ∈ flag_chars -> has (raw_flags s) (flag_bit c) = flagged s c.
Proof.
  intros (Hf & _) Hc. unfold raw_flags, flagged.
  assert (has PRINT_PRECISION (flag_bit c) = false /\ has (conversion (cs_conversion s)).2 (flag_bit c) = false)
    as [Hp Hu] by (destruct (upper_flag (cs_conversion s)) as [-> | ->]; clear Hf; each_flag Hc; done).
  rewrite has_lor, Hu, orb_false_r.
  destruct (cs_precision s); rewrite ?has_lor, ?Hp, ?orb_false_r, has_flag_bits, has_0 by done; done.
Qed.

Lemma has_raw_precision s :
  sane s -> has (raw_flags s) PRINT_PRECISION = match cs_precision s with Some _ => true | None => false end.
Proof.
  intros (Hf & _). unfold raw_flags. rewrite has_lor.
  assert (has (conversion (cs_conversion s)).2 PRINT_PRECISION = false) as ->
    by (destruct (upper_flag (cs_conversion s)) as [-> | ->]; done).
  rewrite orb_false_r.
  destruct (cs_precision s); rewrite ?has_lor, has_flag_bits_other, has_0; try done;
    intros c Hc; clear Hf; each_flag Hc; done.
Qed.

Lemma has_raw_upper s :
  sane s -> has (raw_flags s) PRINT_UPPER_CASE = has (conversion (cs_conversion s)).2 PRINT_UPPER_CASE.
Proof.
  intros (Hf & _). unfold raw_flags. rewrite has_lor.
  destruct (cs_precision s); rewrite ?has_lor, has_flag_bits_other, has_0; try done;
    intros c Hc; clear Hf; each_flag Hc; done.
Qed.

(** What is left of a bit the resolution of conflicts clears, or does not. *)
Lemma resolve_flags_bits f :
  has (resolve_flags f) PRINT_ZERO_PADDED =
    has f PRINT_ZERO_PADDED && negb (has f PRINT_LEFT_JUSTIFY) && negb (has f PRINT_PRECISION) /\
  has (resolve_flags f) PRINT_EMPTY_SPACE = has f PRINT_EMPTY_SPACE && negb (has f PRINT_FORCE_SIGN).
Proof.
  unfold resolve_flags.
  destruct (has f PRINT_LEFT_JUSTIFY) eqn:HL; rewrite ?has_ldiff;
    change (Z.ldiff PRINT_PRECISION PRINT_ZERO_PADDED) with PRINT_PRECISION;
    destruct (has f PRINT_PRECISION) eqn:HP; rewrite ?has_ldiff;
    change (Z.ldiff (Z.ldiff PRINT_FORCE_SIGN PRINT_ZERO_PADDED) PRINT_ZERO_PADDED) with PRINT_FORCE_SIGN;
    change (Z.ldiff PRINT_FORCE_SIGN PRINT_ZERO_PADDED) with PRINT_FORCE_SIGN;
    destruct (has f PRINT_FORCE_SIGN) eqn:HF; rewrite ?has_ldiff; cbn [negb andb];
    rewrite ?andb_true_r, ?andb_false_r; split; try done; unfold has; cbn; by rewrite ?Z.land_0_r.
Qed.

Lemma resolve_flags_keeps f k :
  Z.ldiff k PRINT_ZERO_PADDED = k -> Z.ldiff k PRINT_EMPTY_SPACE = k -> has (resolve_flags f) k = has f k.
Proof.
  intros H1 H2. unfold resolve_flags.
  set (f1 := if has f PRINT_LEFT_JUSTIFY then _ else _).
  assert (has f1 k = has f k) as <- by (unfold f1; destruct (has f PRINT_LEFT_JUSTIFY); by rewrite ?has_ldiff, ?H1).
  set (f2 := if has f1 PRINT_PRECISION then _ else _).
  assert (has f2 k = has f1 k) as <- by (unfold f2; destruct (has f1 PRINT_PRECISION); by rewrite ?has_ldiff, ?H1).
  destruct (has f2 PRINT_FORCE_SIGN); by rewrite ?has_ldiff, ?H2.
Qed.

Lemma spec_flags_keep s c :
  sane s -> c ∈ [ch "#"; ch "-"; ch "+"; ch "'"] -> has (spec_flags s) (flag_bit c) = flagged s c.
Proof.
  intros Hs Hc. change (spec_flags s) with (resolve_flags (raw_flags s)).
  rewrite resolve_flags_keeps; [apply has_raw_flags; [done|]|..]; rewrite !elem_of_cons in Hc;
    destruct Hc as [->|[->|[->|[->|Hc]]]]; try (by apply not_elem_of_nil in Hc); try done;
    apply (bool_decide_unpack _); done.
Qed.

Lemma spec_flags_zero_iff s :
  sane s -> has (spec_flags s) PRINT_ZERO_PADDED =
    flagged s (ch "0") && negb (flagged s (ch "-")) && bool_decide (cs_precision s = None).
Proof.
  intros Hs. change (spec_flags s) with (resolve_flags (raw_flags s)).
  destruct (resolve_flags_bits (raw_flags s)) as [-> _].
  change PRINT_ZERO_PADDED with (flag_bit (ch "0")). change PRINT_LEFT_JUSTIFY with (flag_bit (ch "-")).
  rewrite !has_raw_flags, has_raw_precision by (done || by apply (bool_decide_unpack _)).
  by destruct (cs_precision s).
Qed.

Lemma spec_flags_space s :
  sane s -> has (spec_flags s) PRINT_EMPTY_SPACE = flagged s (ch " ") && negb (flagged s (ch "+")).
Proof.
  intros Hs. change (spec_flags s) with (resolve_flags (raw_flags s)).
  destruct (resolve_flags_bits (raw_flags s)) as [_ ->].
  change PRINT_EMPTY_SPACE with (flag_bit (ch " ")). change PRINT_FORCE_SIGN with (flag_bit (ch "+")).
  by rewrite !has_raw_flags by (done || by apply (bool_decide_unpack _)).
Qed.

Lemma spec_flags_precision s :
  sane s -> has (spec_flags s) PRINT_PRECISION = match cs_precision s with Some _ => true | None => false end.
Proof.
  intros Hs. change (spec_flags s) with (resolve_flags (raw_flags s)).
  by rewrite resolve_flags_keeps, has_raw_precision.
Qed.

Lemma spec_flags_upper s :
  sane s -> has (spec_flags s) PRINT_UPPER_CASE = has (conversion (cs_conversion s)).2 PRINT_UPPER_CASE.
Proof.
  intros Hs. change (spec_flags s) with (resolve_flags (raw_flags s)).
  by rewrite resolve_flags_keeps, has_raw_upper.
Qed.

Lemma spec_flags_named s :
  sane s ->
  has (spec_flags s) PRINT_ALTERNATE_FORM = flagged s (ch "#") /\
  has (spec_flags s) PRINT_LEFT_JUSTIFY = flagged s (ch "-") /\
  has (spec_flags s) PRINT_FORCE_SIGN = flagged s (ch "+") /\
  has (spec_flags s) PRINT_GROUP_DIGITS = flagged s (ch "'").
Proof.
  intros Hs. pose proof (fun c => spec_flags_keep s c Hs) as H.
  split_and!; [apply (H (ch "#"))|apply (H (ch "-"))|apply (H (ch "+"))|apply (H (ch "'"))];
    by apply (bool_decide_unpack _).
Qed.

(** *** Numbers *)

Lemma number_field_field s k pre ds :
  sane s -> 0 <= k <= zlen ds -> k = 0 \/ cs_precision s = None ->
  field (has (spec_flags s) PRINT_LEFT_JUSTIFY) (has (spec_flags s) PRINT_ZERO_PADDED)
    (cs_width s) (default 0 (cs_precision s)) k pre ds = number_field s pre ds.
Proof.
  intros Hs Hk Hz. destruct (spec_flags_named s Hs) as (_ & -> & _). rewrite spec_flags_zero_iff by done.
  unfold field, number_field.
  assert (Z.to_nat (default 0 (cs_precision s) - (zlen ds - k)) =
          Z.to_nat (default 0 (cs_precision s) - zlen ds)) as ->.
  { destruct Hz as [-> | ->]; [f_equal; lia|]. simpl. lia. }
  rewrite !length_app, !Nat2Z.inj_add.
  by destruct (flagged s (ch "-")), (flagged s (ch "0")).
Qed.

Lemma letter_hex upper d : 0 <= d < 16 -> hex_char upper d = letter upper d.
Proof.
  intros Hd. assert (d ∈ seqZ 0 16) as H by (apply elem_of_seqZ; lia).
  revert H. generalize d. apply Forall_forall. destruct upper; repeat constructor.
Qed.

Lemma letters_digits base v :
  2 <= base <= 10 -> is_u64 v -> (fun d => d + ch "0") <$> digits base v = letter false <$> digits base v.
Proof.
  intros Hb Hv. destruct (digits_numeral base v ltac:(lia) Hv) as [_ Hd _].
  apply list_fmap_ext. intros i d Hi. pose proof (Forall_lookup_1 _ _ _ _ Hd Hi) as H. cbn beta in H.
  unfold letter. replace (d <? 10) with true by lia. lia.
Qed.

Lemma letters_hex upper v :
  is_u64 v -> hex_char upper <$> digits 16 v = letter upper <$> digits 16 v.
Proof.
  intros Hv. destruct (digits_numeral 16 v ltac:(lia) Hv) as [_ Hd _].
  apply list_fmap_ext. intros i d Hi. apply letter_hex. exact (Forall_lookup_1 _ _ _ _ Hd Hi).
Qed.

Lemma sane_wf s : sane s -> (conversion (cs_conversion s)).1 <> PRINT_UNKNOWN -> wf_spec s.
Proof.
  intros (Hf & Hw & Hp) Hc. split; [|split; [lia|split; [lia|done]]].
  eapply Forall_impl; [exact Hf|]. intros c Hin. clear Hf. each_flag Hin; done.
Qed.

Lemma signed_text s x result :
  sane s -> (conversion (cs_conversion s)).1 = PRINT_INT_NUMBER -> groupable s (signed_value s x) ->
  number_text (spec_config s result x) =
    number_field s (sign_chars s (signed_value s x)) (decimal s (Z.abs (signed_value s x))).
Proof.
  intros Hs Hc Hg. unfold number_text. cbn [spec_config type pflags width precision]. rewrite Hc.
  pose proof (int_digits_length (spec_config s result x)) as Hl.
  pose proof (group_skip_range (spec_flags s) (int_digits (spec_config s result x)) ltac:(lia)) as Hk.
  destruct (spec_flags_named s Hs) as (_ & _ & HF & HG).
  rewrite number_field_field; [|done|done|].
  - unfold int_sign, int_digits, int_arg, decimal, sign_chars, signed_value in *.
    cbn [spec_config modifier pdata pflags] in *. rewrite spec_flags_space, HF, HG by done.
    f_equal.
    + destruct (_ <? 0), (flagged s (ch " ")), (flagged s (ch "+")); done.
    + destruct (flagged s (ch "'")) eqn:E; [|done]. destruct (Hg E) as [_ Hne].
      by replace (_ =? INT64_MIN) with false by (symmetry; by apply Z.eqb_neq).
  - unfold group_skip in *. rewrite HG in *. destruct (flagged s (ch "'")) eqn:E; [|by left].
    right. by apply Hg.
Qed.

Lemma unsigned_text s x result :
  sane s -> (conversion (cs_conversion s)).1 = PRINT_UINT_NUMBER -> groupable s (unsigned_value s x) ->
  number_text (spec_config s result x) = number_field s [] (decimal s (unsigned_value s x)).
Proof.
  intros Hs Hc Hg. unfold number_text. cbn [spec_config type pflags width precision]. rewrite Hc.
  destruct (spec_flags_named s Hs) as (_ & _ & _ & HG). rewrite HG.
  destruct (uint_digits_parts 0 (flagged s (ch "'")) _ (uint_arg_u64 (spec_config s result x))) as (_ & _ & Hl).
  rewrite number_field_field; [done|done|apply group_skip_range; lia|].
  unfold group_skip. rewrite HG. destruct (flagged s (ch "'")) eqn:E; [|by left]. right. by apply Hg.
Qed.

(** The prefix of the three other radixes is the conversion character. *)
Lemma prefix_chars s x result :
  sane s -> cs_conversion s ∈ [ch "b"; ch "B"; ch "o"; ch "O"; ch "x"; ch "X"] ->
  prefix_part (spec_config s result x) = radix_prefix s.
Proof.
  intros Hs Hc. destruct (spec_flags_named s Hs) as (HA & _).
  unfold prefix_part, radix_prefix, alternate_form_char. cbn [spec_config pflags type].
  rewrite HA, spec_flags_upper by done. destruct (flagged s (ch "#")); [|done]. do 2 f_equal.
  rewrite !elem_of_cons in Hc.
  destruct Hc as [->|[->|[->|[->|[->|[->|Hc]]]]]]; try (by apply not_elem_of_nil in Hc); done.
Qed.

Lemma radix_field s pre ds :
  sane s -> field (has (spec_flags s) PRINT_LEFT_JUSTIFY) (has (spec_flags s) PRINT_ZERO_PADDED)
    (cs_width s) (default 0 (cs_precision s)) 0 pre ds = number_field s pre ds.
Proof. intros Hs. apply number_field_field; [done|lia|by left]. Qed.

Lemma radix_text s x result :
  sane s ->
  number_text (spec_config s result x) =
    match (conversion (cs_conversion s)).1 with
    | PRINT_UINT_BINARY =>
        number_field s (radix_prefix s) (letter false <$> digits 2 (unsigned_value s x))
    | PRINT_UINT_OCTAL =>
        number_field s (radix_prefix s) (letter false <$> digits 8 (unsigned_value s x))
    | PRINT_UINT_HEX =>
        number_field s (radix_prefix s)
          (letter (has (conversion (cs_conversion s)).2 PRINT_UPPER_CASE) <$> digits 16 (unsigned_value s x))
    | _ => number_text (spec_config s result x)
    end.
Proof.
  intros Hs. pose proof (uint_arg_u64 (spec_config s result x)) as Hu.
  pose proof (prefix_chars s x result Hs) as Hp.
  unfold number_text, digit_chars. cbn [spec_config type pflags width precision].
  rewrite !radix_field, spec_flags_upper by done.
  destruct (conversion (cs_conversion s)) as [ty up] eqn:Ec. cbn [fst snd].
  assert (ty = PRINT_UINT_BINARY \/ ty = PRINT_UINT_OCTAL \/ ty = PRINT_UINT_HEX ->
          prefix_part (spec_config s result x) = radix_prefix s) as Hp'.
  { intros Hty. apply Hp. unfold conversion in Ec. rewrite !elem_of_cons.
    revert Ec. tests; intros [= <- <-]; (lia || (destruct Hty as [?|[?|?]]; discriminate)). }
  unfold spec_config in *. rewrite Ec in *. cbn [fst snd] in *.
  destruct ty; try done; rewrite Hp' by tauto; f_equal.
  - by apply letters_digits; [lia|].
  - by apply letters_digits; [lia|].
  - by apply letters_hex.
Qed.

(** *** Characters, pointers and strings *)

Section Rendered.
Context {A : Allocator}.

Lemma push_temp_fits temp cs : zlen temp + zlen cs <= 128 -> push_temp temp cs = Some (temp ++ cs).
Proof. intros H. unfold push_temp. by rewrite (proj2 (Z.leb_le _ _) H). Qed.

Lemma char_PrintsArg m s x result :
  sane s -> (conversion (cs_conversion s)).1 = PRINT_CHAR -> byte_units (cs_modifier s) -> cs_width s <= 128 ->
  PrintsArg m (spec_config s result x) (text_field s [x mod 256]).
Proof.
  intros Hs Hc [H1 H2] Hw. exists [text_field s [x mod 256]]. split; [|cbn [concat]; by rewrite app_nil_r].
  intros b. unfold print_arg, print_char. cbn [spec_config type modifier pdata width pflags]. rewrite Hc.
  destruct (spec_flags_named s Hs) as (_ & -> & _). destruct Hs as (_ & Hw0 & _).
  replace (match cs_modifier s with PRINT_MOD_LONG => _ | _ => _ end) with [u8 x]
    by (destruct (cs_modifier s); done).
  change (u8 x) with (x mod 256). rewrite text_len_single. unfold text_field. cbn [length].
  change (Z.of_nat 1) with 1. set (fill := replicate (Z.to_nat (cs_width s - 1)) (ch " ")).
  assert (length fill = Z.to_nat (cs_width s - 1)) as Hl by apply length_replicate.
  destruct (cs_width s >? 1) eqn:E; [apply Z.gtb_lt in E|].
  - destruct (flagged s (ch "-")); rewrite push_temp_fits by (rewrite ?Hl; cbn [length]; lia);
      cbn [mbind option_bind app]; rewrite push_temp_fits by (rewrite ?Hl; cbn [length]; lia); done.
  - rewrite Z.gtb_ltb in E. apply Z.ltb_ge in E.
    assert (fill = []) as -> by (apply nil_length_inv; lia). by destruct (flagged s (ch "-")).
Qed.

(** The digits of a pointer, most significant first. *)
Lemma pointer_digits_div p : pointer_digits p = (fun i => p / 16 ^ i mod 16) <$> reverse (seqZ 0 16).
Proof.
  assert (forall i, 0 <= i -> le_byte p i / 16 = p / 16 ^ (2 * i + 1) mod 16 /\
                              le_byte p i mod 16 = p / 16 ^ (2 * i) mod 16) as H.
  { intros i Hi. rewrite le_byte_div by done.
    rewrite Z.pow_add_r, Z.pow_mul_r, <- Z.div_div by lia. change (16 ^ 2) with 256. change (16 ^ 1) with 16.
    zlia. }
  unfold pointer_digits. change (seqZ 0 8) with [0; 1; 2; 3; 4; 5; 6; 7].
  change (reverse (seqZ 0 16)) with [15; 14; 13; 12; 11; 10; 9; 8; 7; 6; 5; 4; 3; 2; 1; 0].
  change (reverse (le_byte p <$> [0; 1; 2; 3; 4; 5; 6; 7])) with
    [le_byte p 7; le_byte p 6; le_byte p 5; le_byte p 4; le_byte p 3; le_byte p 2; le_byte p 1; le_byte p 0].
  cbn [fmap list_fmap concat app].
  destruct (H 7 ltac:(lia)) as [-> ->], (H 6 ltac:(lia)) as [-> ->], (H 5 ltac:(lia)) as [-> ->],
    (H 4 ltac:(lia)) as [-> ->], (H 3 ltac:(lia)) as [-> ->], (H 2 ltac:(lia)) as [-> ->],
    (H 1 ltac:(lia)) as [-> ->], (H 0 ltac:(lia)) as [-> ->]. reflexivity.
Qed.

Lemma pointer_text p :
  pointer_encode p =
    [ch "0"; ch "x"] ++ ((fun i => letter false (p / 16 ^ i mod 16)) <$> reverse (seqZ 0 16)).
Proof.
  rewrite pointer_encode_text, pointer_digits_div, <- list_fmap_compose. f_equal.
  apply list_fmap_ext. intros i d _. simpl. apply letter_hex, Z.mod_pos_bound. lia.
Qed.

Lemma pointer_PrintsArg m s x result :
  sane s -> (conversion (cs_conversion s)).1 = PRINT_POINTER ->
  PrintsArg m (spec_config s result x) (text_field s (pointer_encode x)).
Proof.
  intros Hs Hc. unfold PrintsArg, print_arg, print_pointer. cbn [spec_config type pdata width pflags]. rewrite Hc.
  destruct (spec_flags_named s Hs) as (_ & -> & _). destruct Hs as (_ & Hw & _). unfold text_field.
  set (temp := pointer_encode x).
  assert (zlen temp = 18) as L by (unfold temp; by rewrite pointer_encode_text, length_app, length_fmap).
  rewrite L. set (n := Z.to_nat (cs_width s - 18)).
  destruct (flagged s (ch "-")).
  - exists ([temp] ++ replicate n [ch " "]). split; [|by chunk_text]. intros b.
    chunk_len. rewrite L. destruct (cs_width s >? 18) eqn:E.
    + by rewrite spaces_put_all, put_all_writen, <- put_all_app by lia.
    + rewrite Z.gtb_ltb in E. apply Z.ltb_ge in E. by replace n with 0%nat by lia.
  - exists (replicate n [ch " "] ++ [temp]). split; [|by chunk_text]. intros b.
    chunk_len. rewrite L. destruct (cs_width s >? 18) eqn:E.
    + rewrite spaces_put_all, put_all_writen, <- put_all_app by lia. do 2 f_equal. u32_sum.
    + rewrite Z.gtb_ltb in E. apply Z.ltb_ge in E. by replace n with 0%nat by lia.
Qed.

Lemma str_PrintsArg m s x result str :
  sane s -> (conversion (cs_conversion s)).1 = PRINT_STRING -> byte_units (cs_modifier s) -> points_to m x str ->
  PrintsArg m (spec_config s result x)
    (text_field s match cs_precision s with Some p => take (Z.to_nat p) str | None => str end).
Proof.
  intros Hs Hc Hm Hp.
  assert (in_range (spec_config s result x)) as R by (destruct Hs as (_ & ? & ?); split; simpl; lia).
  assert (string_text (spec_config s result x) str =
    text_field s match cs_precision s with Some p => take (Z.to_nat p) str | None => str end) as <-.
  { unfold string_text, text_field. cbn [spec_config pflags width precision].
    rewrite spec_flags_precision by done. destruct (spec_flags_named s Hs) as (_ & -> & _).
    by destruct (cs_precision s). }
  destruct Hp as [[-> ->]|[Hp Hl]]; [by apply null_string_PrintsArg|by apply string_PrintsArg].
Qed.

(** What a conversion means is what the code prints. *)
Lemma renders_PrintsArg m s x t :
  sane s -> renders m s x t -> wf_spec s /\ forall result, PrintsArg m (spec_config s result x) t.
Proof.
  intros Hs Ht. pose proof Hs as (_ & Hw & Hp).
  assert ((conversion (cs_conversion s)).1 <> PRINT_UNKNOWN) as Hk.
  { clear Hs Hw Hp. destruct Ht as [[E|E] _|E _|[E|E] _|[E|E]|[] E|E _ _|str E _ _|E]; by rewrite E. }
  pose proof (sane_wf s Hs Hk) as W. split; [done|]. intros result.
  assert (is_number (spec_config s 0 x) ->
          PrintsArg m (spec_config s result x) (number_text (spec_config s result x))) as Num
    by (intros Hn; apply number_PrintsArg; split; [done|]; split; [lia|]; split; [lia|done]).
  pose proof (radix_text s x result Hs) as Hr. unfold is_number in Num. cbn [spec_config type] in Num.
  destruct Ht as [E Hg|E Hg|E Hb|E|upper E|E Hm Hl|str E Hm Hs'|E].
  - assert ((conversion (cs_conversion s)).1 = PRINT_INT_NUMBER) as Ec by (destruct E as [-> | ->]; done).
    rewrite <- (signed_text s x result) by done. apply Num. by rewrite Ec.
  - assert ((conversion (cs_conversion s)).1 = PRINT_UINT_NUMBER) as Ec by by rewrite E.
    rewrite <- (unsigned_text s x result) by done. apply Num. by rewrite Ec.
  - assert ((conversion (cs_conversion s)).1 = PRINT_UINT_BINARY) as Ec by (destruct E as [-> | ->]; done).
    rewrite Ec in Hr. rewrite <- Hr. apply Num. by rewrite Ec.
  - assert ((conversion (cs_conversion s)).1 = PRINT_UINT_OCTAL) as Ec by (destruct E as [-> | ->]; done).
    rewrite Ec in Hr. rewrite <- Hr. apply Num. by rewrite Ec.
  - assert (conversion (cs_conversion s) = (PRINT_UINT_HEX, if upper then PRINT_UPPER_CASE else 0)) as Ec
      by (rewrite E; by destruct upper).
    rewrite Ec in Hr. cbn [fst snd] in Hr. replace (has _ _) with upper in Hr by by destruct upper.
    rewrite <- Hr. apply Num. by rewrite Ec.
  - apply char_PrintsArg; [done|by rewrite E|done|done].
  - apply str_PrintsArg; [done|by rewrite E|done|done].
  - rewrite <- pointer_text. apply pointer_PrintsArg; [done|by rewrite E].
Qed.

Lemma Means_Denotes m items args text : Means m items args text -> Denotes m items args text.
Proof.
  induction 1 as [args|c items args text Hc Hp _ IH|items args text _ IH|s items x args t text Hs Ht _ IH].
  - apply denotes_nil.
  - by apply denotes_lit.
  - by apply denotes_percent.
  - destruct (renders_PrintsArg m s x t Hs Ht) as [W Hp]. by apply denotes_spec.
Qed.

End Rendered.

(** ** Properties *)

Lemma strnlen_all s n : Forall (fun c => c <> 0) s -> (length s <= n)%nat -> strnlen s n = zlen s.
Proof.
  intros H. revert n. induction H as [|c s Hc _ IH]; intros n Hn; [by destruct n|].
  destruct n as [|n]; simpl in *; [lia|]. replace (c =? 0) with false by lia. rewrite IH by lia. lia.
Qed.

Lemma format_text_nonzero {A : Allocator} m items args text :
  Denotes m items args text -> Forall (fun c => c <> 0) (format_text items).
Proof.
  induction 1 as [|c items args text Hc _ _ IH|items args text _ IH|s items x args t text Hs _ _ IH];
    unfold format_text; simpl; [done| | |].
  - by constructor.
  - constructor; [done|]. by constructor.
  - constructor; [done|]. apply Forall_app. split; [|done].
    eapply Forall_impl; [by apply spec_text_chars|]. intros c. unfold spec_char. by destruct (c =? 0) eqn:E; [|lia].
Qed.

Lemma printf_internal_denotes {A : Allocator} (alloc_ok : forall n, malloc_ok n = true) m items args text :
  Denotes m items args text -> zlen args < 2 ^ 31 -> zlen (format_text items) <= 65536 ->
  exists r, wlibc_printf_internal m empty_memory_buffer (format_text items) args = Some r /\
    contents (p_out r) = text /\ p_ret r = swrap 32 (zlen text) /\ p_mem r = m.
Proof.
  intros Hd Ha Hf. unfold wlibc_printf_internal.
  rewrite strnlen_all; [|by eapply format_text_nonzero|lia].
  set (inp := string_buffer _ _).
  destruct (printf_loop_denotes alloc_ok m args items args text Ha Hd (fuel_of inp) inp
              (variadic_args_init args) 0 empty_memory_buffer) as (cs & Hc & ->).
  - subst inp. auto with buffer.
  - apply rest_string.
  - split; [apply args_inv_init|]. by rewrite drop_0.
  - subst inp. rewrite rest_string. unfold fuel_of. simpl. lia.
  - apply wf_empty.
  - eexists. split; [done|]. simpl. split; [|done].
    rewrite (emits_contents _ _ _ (put_all_Emits alloc_ok empty_memory_buffer cs wf_empty)).
    simpl. rewrite emit_all_grow. by rewrite Hc.
Qed.

(** C2: the interpreter implements the meaning of formats. A format is a list of
    ordinary bytes, percent signs and conversion specifications with any flags,
    a width and a precision below [2^31], any length modifier and one of the
    conversions [d i u b B o O x X c s p]; its text is defined by [Means] from
    the characters of the specifications, the value each argument word has in
    the type the length modifier names, the digits of that value, and the
    string a pointer leads to. For every such format of up to 65536 bytes
    [wlibc_printf_internal] with a growing buffer succeeds, has written exactly
    that text, returns its length as an [int] and keeps the memory.

    Not covered: [n$] and [*], the floating-point conversions and [%n]; wide
    characters and strings ([l], [ll] with [c] and [s]); [%b] of values of
    [2^32] and more, [%c] in a field of more than 128, which the code gets
    wrong; grouped digits together with a precision, or of [- 2^63]. *)
Theorem printf_denotes {A : Allocator} (m : mem) (items : list item) (args text : list Z)
    (alloc_ok : forall n, malloc_ok n = true)
    (Hd : Means m items args text) (Ha : zlen args < 2 ^ 31)
    (Hf : zlen (format_text items) <= 65536) :
  exists r, wlibc_printf_internal m empty_memory_buffer (format_text items) args = Some r /\
    contents (p_out r) = text /\ p_ret r = swrap 32 (zlen text) /\ p_mem r = m.
Proof. apply printf_internal_denotes; [done|by apply Means_Denotes|done|done]. Qed.

Definition abc_memory : mem := list_to_map (zip (seqZ 1000 4) [ch "a"; ch "b"; ch "c"; 0]).

Lemma abc_cstring : cstring abc_memory 1000 [ch "a"; ch "b"; ch "c"].
Proof.
  split; [done|]. split; [repeat constructor; done|]. intros i Hi. simpl in Hi.
  assert (i = 0 \/ i = 1 \/ i = 2 \/ i = 3) as [-> |[-> |[-> | ->]]] by lia; reflexivity.
Qed.

(** ["<%+05d|%-5.2s|%#hhX%c>"] with 42, ["abc"], [0x1AB] and ['z']. *)
Lemma printf_denotes_witness :
  exists r, wlibc_printf_internal (A := ample) abc_memory empty_memory_buffer
      (format_text [Lit (ch "<"); Spec (Conv [ch "+"; ch "0"] 5 None PRINT_MOD_NONE (ch "d")); Lit (ch "|");
                    Spec (Conv [ch "-"] 5 (Some 2) PRINT_MOD_NONE (ch "s")); Lit (ch "|");
                    Spec (Conv [ch "#"] 0 None PRINT_MOD_SHORT_SHORT (ch "X"));
                    Spec (Conv [] 0 None PRINT_MOD_NONE (ch "c")); Lit (ch ">")]) [42; 1000; 0x1AB; ch "z"] = Some r /\
    contents (p_out r) = [ch "<"; ch "+"; ch "0"; ch "0"; ch "4"; ch "2"; ch "|";
                          ch "a"; ch "b"; ch " "; ch " "; ch " "; ch "|";
                          ch "0"; ch "X"; ch "A"; ch "B"; ch "z"; ch ">"] /\
    p_ret r = 19 /\ p_mem r = abc_memory.
Proof.
  assert (forall fl w p md c, Forall (fun c => c ∈ flag_chars) fl -> 0 <= w < 2 ^ 31 -> 0 <= default 0 p < 2 ^ 31 ->
    sane (Conv fl w p md c)) as Sane by (intros; split; [done|by split]).
  apply (printf_denotes (A := ample) abc_memory _ [42; 1000; 0x1AB; ch "z"]);
    [done| |vm_compute; done|vm_compute; discriminate].
  apply means_lit; [done|done|].
  apply (means_spec abc_memory _ _ 42 [1000; 0x1AB; ch "z"] [ch "+"; ch "0"; ch "0"; ch "4"; ch "2"]);
    [apply Sane; [apply (bool_decide_unpack _); exact I|simpl; lia|simpl; lia]
    |apply renders_signed; [by left|done]|].
  apply means_lit; [done|done|].
  apply (means_spec abc_memory _ _ 1000 [0x1AB; ch "z"] [ch "a"; ch "b"; ch " "; ch " "; ch " "]);
    [apply Sane; [apply (bool_decide_unpack _); exact I|simpl; lia|simpl; lia]
    |apply (renders_string abc_memory (Conv [ch "-"] 5 (Some 2) PRINT_MOD_NONE (ch "s")) 1000
            [ch "a"; ch "b"; ch "c"]); [done|done|right; split; [apply abc_cstring|done]]|].
  apply means_lit; [done|done|].
  apply (means_spec abc_memory _ _ 0x1AB [ch "z"] [ch "0"; ch "X"; ch "A"; ch "B"]);
    [apply Sane; [apply (bool_decide_unpack _); exact I|simpl; lia|simpl; lia]
    |by apply (renders_hex abc_memory (Conv [ch "#"] 0 None PRINT_MOD_SHORT_SHORT (ch "X")) 0x1AB true)|].
  apply (means_spec abc_memory _ _ (ch "z") [] [ch "z"]);
    [apply Sane; [constructor|simpl; lia|simpl; lia]|by apply renders_char|].
  apply means_lit; [done|done|]. apply means_nil.
Defined.

(** an integer conversion prints its field. For every specification of a
    decimal, octal, hexadecimal or (below [2^32]) binary conversion and every
    argument, the output is the numeral of the argument narrowed to the type
    of the length modifier, with sign, prefix, zeros up to the precision and
    fill up to the width placed as the flags ask; the value returned is the
    larger of the width and the length of the unfilled text. *)
Theorem printf_integer_field {A : Allocator} (m : mem) (s : conv_spec) (x : Z)
    (alloc_ok : forall n, malloc_ok n = true) (Hs : number_spec s x)
    (Hl : zlen (spec_text s) < 65536) :
  let config := spec_config s 0 x in
  exists r, wlibc_printf_internal m empty_memory_buffer (ch "%" :: spec_text s) [x] = Some r /\
    contents (p_out r) = number_text config /\ p_ret r = swrap 32 (zlen (number_text config)) /\
    cs_width s <= zlen (number_text config).
Proof.
  cbv zeta. destruct (printf_internal_denotes alloc_ok m [Spec s] [x] (number_text (spec_config s 0 x)))
    as (r & Hr & Hc & Hret & _).
  - rewrite <- (app_nil_r (number_text _)). apply denotes_spec; [apply Hs| |apply denotes_nil].
    intros result. change (number_text _) with (number_text (spec_config s result x)).
    by apply number_PrintsArg.
  - done.
  - unfold format_text. simpl. rewrite app_nil_r. lia.
  - unfold format_text in Hr. simpl in Hr. rewrite app_nil_r in Hr. exists r.
    do 3 (split; [done|]). by apply number_text_width.
Qed.

(** ["%#-8.4x"] of [0xBEE]. *)
Lemma printf_integer_field_witness :
  exists r, wlibc_printf_internal (A := ample) ∅ empty_memory_buffer
      [ch "%"; ch "#"; ch "-"; ch "8"; ch "."; ch "4"; ch "x"] [0xBEE] = Some r /\
    contents (p_out r) = [ch "0"; ch "x"; ch "0"; ch "b"; ch "e"; ch "e"; ch " "; ch " "] /\
    p_ret r = 8 /\ 8 <= 8.
Proof.
  apply (printf_integer_field (A := ample) ∅ (Conv [ch "#"; ch "-"] 8 (Some 4) PRINT_MOD_NONE (ch "x")) 0xBEE);
    [done| |vm_compute; done].
  split; [|simpl; repeat split; lia].
  split; [repeat constructor; done|]. simpl. repeat split; done || lia.
Defined.

(** the value returned is the number of bytes printed, for every format,
    arguments and memory on which the call is defined (modulo [2^32], read as an
    [int]). *)
Theorem printf_returns_length {A : Allocator} (m : mem) (format args : list Z) (r : printed)
    (alloc_ok : forall n, malloc_ok n = true)
    (Hr : wlibc_printf_internal m empty_memory_buffer format args = Some r) :
  p_ret r = swrap 32 (zlen (contents (p_out r))).
Proof.
  destruct (printf_internal_Printfs alloc_ok m format args) as [[[m' cs]|] Ho];
    specialize (Ho _ wf_empty); rewrite Hr in Ho; simplify_eq/=.
  rewrite (emits_contents _ _ _ (put_all_Emits alloc_ok empty_memory_buffer cs wf_empty)).
  simpl. by rewrite emit_all_grow.
Qed.

(** ["%2$s %1$#o %n"]: positional arguments and a store through [%n]. *)
Lemma printf_returns_length_witness :
  exists r, wlibc_printf_internal (A := ample) abc_memory empty_memory_buffer
      [ch "%"; ch "2"; ch "$"; ch "s"; ch "%"; ch "1"; ch "$"; ch "#"; ch "o"; ch "%"; ch "2"; ch "$"; ch "n"]
      [8; 1000] = Some r /\
    contents (p_out r) = [ch "a"; ch "b"; ch "c"; ch "0"; ch "o"; ch "1"; ch "0"] /\
    p_mem r !! 1000 = Some 7 /\ p_ret r = 7.
Proof.
  destruct (wlibc_printf_internal (A := ample) abc_memory empty_memory_buffer
      [ch "%"; ch "2"; ch "$"; ch "s"; ch "%"; ch "1"; ch "$"; ch "#"; ch "o"; ch "%"; ch "2"; ch "$"; ch "n"]
      [8; 1000]) as [r|] eqn:E; [|vm_compute in E; discriminate].
  pose proof (printf_returns_length (A := ample) abc_memory _ _ r (fun _ => eq_refl) E) as H.
  exists r. split; [reflexivity|]. vm_compute in E. injection E as <-.
  split; [vm_compute; reflexivity|]. split; [vm_compute; reflexivity|]. rewrite H. vm_compute. reflexivity.
Defined.

Lemma write_at_write_at (l a b : list Z) i :
  0 <= i -> i + zlen a + zlen b <= zlen l ->
  write_at (write_at l i a) (i + zlen a) b = write_at l i (a ++ b).
Proof.
  intros Hi Hl. unfold write_at.
  assert (length (take (Z.to_nat i) l ++ a) = Z.to_nat (i + zlen a)) as E
    by (rewrite length_app, length_take; lia).
  rewrite (app_assoc (take _ l) a), <- E, take_app_length, <- !app_assoc. do 3 f_equal.
  rewrite app_assoc, drop_app_ge by lia. rewrite drop_drop, !length_app, length_take. f_equal. lia.
Qed.

(** Writing to a fixed array what fits into it. *)
Lemma put_all_fits {A : Allocator} b cs :
  wf b -> pos b + text_len cs <= size b ->
  put_all b cs =
    Buffer (write_at (data b) (pos b) (concat cs)) (pos b + text_len cs) (size b) (write b) (error b).
Proof.
  revert b. induction cs as [|c cs IH]; intros b W Hf.
  - unfold write_at, text_len. simpl. rewrite Nat.add_0_r, take_drop, Z.add_0_r. by destruct b.
  - change (text_len (c :: cs)) with (text_len ([c] ++ cs)) in *.
    rewrite text_len_app, text_len_single in *. pose proof (Zle_0_nat (length (concat cs))) as H0.
    fold (text_len cs) in H0. simpl. unfold writen. rewrite (wf_error _ W).
    replace (pos b + zlen c >? size b) with false by lia. cbn [fst].
    destruct (put_contents b c W) as [W' _]; [lia|]. rewrite (wf_error _ W) in W'.
    rewrite IH; [|done|simpl; lia]. simpl. pose proof (wf_data _ W). pose proof (wf_pos _ W).
    rewrite write_at_write_at by (unfold text_len in Hf; lia). f_equal. lia.
Qed.

(** C22: [vsnprintf] prints what [vasprintf] prints. Whenever the formatted text is
    defined, the result of [wlibc_vsnprintf] is its length, and when the text
    and a terminator fit the array holds exactly the text, a NUL and its old
    bytes; when they do not fit the array keeps its size. *)
Theorem vsnprintf_agrees {A : Allocator} (m : mem) (format args block : list Z) (r : printed)
    (alloc_ok : forall n, malloc_ok n = true)
    (Hr : wlibc_printf_internal m empty_memory_buffer format args = Some r)
    (Hn : 0 < zlen block < 2 ^ 31) :
  let text := contents (p_out r) in
  (zlen text < zlen block ->
   wlibc_vsnprintf m (Some block) (zlen block) (Some format) args =
     Some (Sprinted None (p_mem r) (Some (text ++ 0 :: drop (S (length text)) block)) (zlen text))) /\
  (zlen block <= zlen text < 2 ^ 31 ->
   exists out, wlibc_vsnprintf m (Some block) (zlen block) (Some format) args =
     Some (Sprinted None (p_mem r) (Some out) (zlen text)) /\ length out = length block).
Proof.
  destruct (printf_internal_Printfs alloc_ok m format args) as [[[m' cs]|] Ho];
    [|by rewrite (Ho _ wf_empty) in Hr].
  pose proof (Ho _ wf_empty) as H1. rewrite Hr in H1. simplify_eq/=.
  rewrite (emits_contents _ _ _ (put_all_Emits alloc_ok empty_memory_buffer cs wf_empty)).
  simpl. rewrite emit_all_grow. change (contents empty_memory_buffer) with (@nil Z). rewrite app_nil_l.
  set (b0 := Buffer block 0 (zlen block) write_NULL false).
  assert (wf b0) as W0 by (split; simpl; lia).
  unfold wlibc_vsnprintf. cbv beta iota. replace (zlen block =? 0) with false by lia.
  simpl default. replace (zlen block <? zlen block) with false by lia.
  fold b0. rewrite (Ho b0 W0). cbn [mbind option_bind p_ret p_out p_mem]. rewrite Z.add_0_l. unfold text_len.
  rewrite (swrap_small 32 (zlen block)) by (simpl; lia).
  split; intros Ht; rewrite (swrap_small 32 (zlen (concat cs))) by (simpl; lia).
  - replace (zlen (concat cs) <? zlen block) with true by lia.
    rewrite put_all_fits by (done || (unfold text_len; simpl; lia)). simpl. unfold put_nul.
    rewrite length_write_at by lia.
    replace ((0 <=? zlen (concat cs)) && (zlen (concat cs) <? zlen block)) with true by lia. simpl.
    do 3 f_equal. replace (zlen (concat cs)) with (0 + zlen (concat cs)) by lia.
    rewrite write_at_write_at by (simpl; lia). unfold write_at. simpl.
    rewrite length_app, <- app_assoc. simpl. do 4 f_equal. lia.
  - replace (zlen (concat cs) <? zlen block) with false by lia. simpl.
    eexists. split; [done|]. pose proof (put_all_Emits alloc_ok b0 cs W0) as [[We Wp Wd] Hcap _].
    unfold capacity in Hcap. simpl in Hcap. destruct (write (put_all b0 cs)); simplify_eq. lia.
Qed.

(** ["%d"] of 1234 into arrays of 6 and 3 bytes. *)
Lemma vsnprintf_agrees_witness :
  wlibc_vsnprintf (A := ample) ∅ (Some [1; 1; 1; 1; 1; 1]) 6 (Some [ch "%"; ch "d"]) [1234] =
    Some (Sprinted None ∅ (Some [ch "1"; ch "2"; ch "3"; ch "4"; 0; 1]) 4) /\
  exists out, wlibc_vsnprintf (A := ample) ∅ (Some [1; 1; 1]) 3 (Some [ch "%"; ch "d"]) [1234] =
    Some (Sprinted None ∅ (Some out) 4) /\ length out = 3%nat.
Proof.
  destruct (wlibc_printf_internal (A := ample) ∅ empty_memory_buffer [ch "%"; ch "d"] [1234]) as [r|] eqn:E;
    [|vm_compute in E; discriminate].
  destruct (vsnprintf_agrees (A := ample) ∅ [ch "%"; ch "d"] [1234] [1; 1; 1; 1; 1; 1] r (fun _ => eq_refl) E)
    as [H1 _]; [simpl; lia|].
  destruct (vsnprintf_agrees (A := ample) ∅ [ch "%"; ch "d"] [1234] [1; 1; 1] r (fun _ => eq_refl) E)
    as [_ H2]; [simpl; lia|].
  vm_compute in E. injection E as <-. split; [apply H1; vm_compute; done|].
  apply H2. vm_compute. split; done || discriminate.
Defined.

(** ** The interpreter terminates *)

(** [g] is [f] with the cursor moved forward. *)
Definition forward (f g : buffer_t) : Prop := exists n, 0 <= n /\ g = skip f n.

Lemma forward_refl f : forward f f.
Proof. exists 0. by rewrite skip_0. Qed.

Lemma forward_trans f g h : forward f g -> forward g h -> forward f h.
Proof. intros (m & Hm & ->) (n & Hn & ->). exists (m + n). rewrite skip_skip by lia. split; [lia|done]. Qed.

Lemma forward_readbyte f : forward f (readbyte f).2.
Proof.
  unfold readbyte. destruct (error f); [apply forward_refl|].
  destruct (pos f + 1 >? size f); [apply forward_refl|]. by exists 1.
Qed.

#[local] Hint Resolve forward_refl forward_readbyte : core.
#[local] Hint Extern 2 (forward ?f (readbyte ?g).2) =>
  apply (forward_trans f g); [|apply forward_readbyte] : core.

Lemma forward_parse_number_loop fuel f i : forward f (parse_number_loop fuel f i).1.
Proof.
  revert f i. induction fuel as [|fuel IH]; intros f i; simpl; [done|].
  destruct (peekbyte f 0 =? 0); [done|]. destruct (_ && _); [|done].
  eapply forward_trans; [apply forward_readbyte|apply IH].
Qed.

Lemma forward_parse_number f : forward f (parse_number f).1.
Proof. apply forward_parse_number_loop. Qed.

Lemma forward_parse_position f : forward f (parse_position f).1.
Proof.
  unfold parse_position. pose proof (forward_parse_number f) as H.
  destruct (parse_number f) as [g i]. simpl in H.
  assert (set_pos g (pos f) = f) as E
    by (destruct H as (n & _ & ->); unfold skip; by rewrite set_pos_set_pos, set_pos_id).
  destruct (negb _); [destruct (peekbyte g 0 =? ch "$")|]; simpl; rewrite ?E; auto.
Qed.

Lemma forward_parse_flags fuel f i : forward f (parse_flags fuel f i).1.
Proof.
  revert f i. induction fuel as [|fuel IH]; intros f i; simpl; [done|].
  assert (forall fl, forward f (parse_flags fuel (readbyte f).2 fl).1) as H
    by (intros; eapply forward_trans; [apply forward_readbyte|apply IH]).
  tests; auto.
Qed.

Lemma forward_parse_size f : forward f (parse_size f).1.1.
Proof.
  unfold parse_size. destruct (peekbyte f 0 =? ch "*").
  - pose proof (forward_parse_number (readbyte f).2) as H.
    destruct (parse_number (readbyte f).2) as [g i]. simpl in H.
    assert (forward f g) by (eapply forward_trans; [apply forward_readbyte|done]).
    destruct (peekbyte g 0 =? ch "$"); simpl; auto.
  - pose proof (forward_parse_number f) as H. by destruct (parse_number f).
Qed.

Lemma forward_parse_modifier f : forward f (parse_modifier f).1.
Proof. unfold parse_modifier. tests; simpl; auto. Qed.

Lemma forward_parse_print_specifier {A : Allocator} f args g config args' :
  parse_print_specifier f args = Some (g, config, args') -> forward f g.
Proof.
  unfold parse_print_specifier.
  pose proof (forward_parse_position f) as H1. destruct (parse_position f) as [f1 ai]. simpl in H1.
  pose proof (forward_parse_flags (fuel_of f1) f1 0) as H2. destruct (parse_flags _ f1 0) as [f2 fl]. simpl in H2.
  pose proof (forward_parse_size f2) as H3. destruct (parse_size f2) as [[f3 w] wi]. simpl in H3.
  pose proof (forward_parse_size (readbyte f3).2) as H4.
  assert (forward f f3) as H13 by exact (forward_trans _ _ _ H1 (forward_trans _ _ _ H2 H3)).
  destruct (parse_size (readbyte f3).2) as [[f4 p] pi]. simpl in H4.
  assert (forward f3 f4) as H34 by exact (forward_trans _ _ _ (forward_readbyte f3) H4).
  destruct (if peekbyte f3 0 =? ch "." then _ else _) as [[[f5 p'] pi'] fl'] eqn:E.
  assert (forward f f5) as H15
    by (destruct (peekbyte f3 0 =? ch "."); simplify_eq; [exact (forward_trans _ _ _ H13 H34)|done]).
  pose proof (forward_parse_modifier f5) as H6. destruct (parse_modifier f5) as [f6 md]. simpl in H6.
  assert (forward f f6) as H16 by exact (forward_trans _ _ _ H15 H6).
  destruct (conversion _) as [t up]. destruct (decide _); [by intros [= <- _ _]|].
  destruct (get_size args wi w) as [[w' a1]|]; [|done]. simpl.
  destruct (get_size a1 pi' p') as [[p'' a2]|]; [|done]. simpl.
  destruct (variadic_args_get a2 ai) as [[d a3]|]; [|done]. simpl. intros [= <- _ _]. auto.
Qed.

(** The bytes of the format still to be read. *)
Definition todo (f : buffer_t) : nat := Z.to_nat (size f - pos f).

Lemma forward_todo f g : forward f g -> (todo g <= todo f)%nat.
Proof. intros (n & Hn & ->). unfold todo, skip. simpl. lia. Qed.

Lemma readbyte_todo f c g : readbyte f = (c, g) -> c <> 0 -> (todo g < todo f)%nat.
Proof.
  unfold readbyte. destruct (error f); [intros; simplify_eq|].
  destruct (pos f + 1 >? size f) eqn:E; intros; simplify_eq. unfold todo. simpl. lia.
Qed.

(** More fuel than bytes does not change the result. *)
Lemma printf_loop_fuel {A : Allocator} fuel1 fuel2 m b inp args r :
  (todo inp < fuel1)%nat -> (todo inp < fuel2)%nat ->
  printf_loop fuel1 m b inp args r = printf_loop fuel2 m b inp args r.
Proof.
  revert fuel2 m b inp args r. induction fuel1 as [|fuel1 IH]; intros fuel2 m b inp args r H1 H2; [lia|].
  destruct fuel2 as [|fuel2]; [lia|]. cbn [printf_loop].
  destruct (readbyte inp) as [c inp1] eqn:E. destruct (c =? 0) eqn:E0; [done|].
  apply readbyte_todo in E; [|lia].
  destruct (c =? ch "%"); [|apply IH; lia].
  destruct (peekbyte inp1 0 =? 0); [done|].
  pose proof (forward_todo _ _ (forward_readbyte inp1)).
  destruct (peekbyte inp1 0 =? ch "%"); [apply IH; lia|].
  destruct (parse_print_specifier inp1 args) as [[[inp2 config] args2]|] eqn:Ep; [|done]. simpl.
  apply forward_parse_print_specifier in Ep. pose proof (forward_todo _ _ Ep).
  destruct (decide _).
  - assert (set_pos inp2 (pos inp1) = inp1) as ->
      by (destruct Ep as (k & _ & ->); unfold skip; by rewrite set_pos_set_pos, set_pos_id).
    apply IH; lia.
  - destruct (print_arg _ _ _) as [[[m1 b1] n1]|]; [|done]. simpl.
    destruct (error b1); [done|]. apply IH; lia.
Qed.

Lemma strnlen_le s n : strnlen s n <= zlen s.
Proof. revert n. induction s as [|c s IH]; intros [|n]; simpl; try lia. destruct (c =? 0); [lia|]. specialize (IH n). lia. Qed.

(** the interpreter terminates: a round of its loop consumes a byte of the
    format, so that running it with any larger bound on the number of rounds
    gives the same result, for every format, argument list and memory. *)
Theorem printf_terminates {A : Allocator} (m : mem) (b : buffer_t) (format args : list Z) (extra : nat) :
  let inp := string_buffer format (strnlen format (Z.to_nat 65536)) in
  printf_loop (fuel_of inp + extra) m b inp (variadic_args_init args) 0 =
  wlibc_printf_internal m b format args.
Proof.
  cbv zeta. unfold wlibc_printf_internal. pose proof (strnlen_le format (Z.to_nat 65536)).
  apply printf_loop_fuel; unfold todo, fuel_of; simpl; lia.
Qed.

(** ** Texts that are not strings *)

Definition ordinary (c : Z) : Prop := c <> 0 /\ c <> ch "%".

Lemma printf_loop_ordinary {A : Allocator} m a s :
  Forall ordinary s -> forall fuel inp r b,
  readable inp -> rest inp = s -> (length s < fuel)%nat ->
  printf_loop fuel m b inp a r =
    Some (Printed m (put_all b ((fun c => [c]) <$> s)) (swrap 32 (r + zlen s))).
Proof.
  induction 1 as [|c s [Hc0 Hcp] _ IH]; intros fuel inp r b R Hr Hf;
    (destruct fuel as [|fuel]; [simpl in Hf; lia|]); cbn [printf_loop].
  - pose proof (readbyte_nil inp R Hr) as H0. destruct (readbyte inp) as [c inp']. simpl in H0. subst c.
    simpl. by rewrite Z.add_0_r.
  - destruct (read_skip inp c s R Hr) as (-> & Hr1 & R1 & _).
    replace (c =? 0) with false by lia. replace (c =? ch "%") with false by lia.
    rewrite (IH fuel _ _ _ R1 Hr1) by (simpl in Hf; lia). rewrite put_all_writebyte. do 2 f_equal.
    apply swrap_congr. rewrite wrap_add_l. f_equal. cbn [length]. lia.
Qed.

Lemma put_all_full {A : Allocator} b s :
  wf b -> write b = write_NULL -> pos b = size b -> put_all b ((fun c => [c]) <$> s) = b.
Proof.
  intros W Hw Hp. induction s as [|c s IH]; [done|]. simpl. unfold writen at 1. rewrite (wf_error _ W), Hw.
  assert ((pos b + zlen [c] >? size b) = true) as E by (rewrite Hp; cbn [length]; apply Z.gtb_lt; lia).
  rewrite E. apply IH.
Qed.

Lemma concat_singles (s : list Z) : concat ((fun c => [c]) <$> s) = s.
Proof. induction s as [|c s IH]; [done|]. rewrite fmap_cons. cbn [concat]. by rewrite IH. Qed.

(** on truncation [vsnprintf] leaves no terminator: ordinary text at least as
    long as the array fills it completely, without a NUL. *)
Theorem vsnprintf_truncation_unterminated {A : Allocator} (m : mem) (format block : list Z)
    (Hf : Forall ordinary format)
    (Hn : 0 < zlen block <= zlen format) (Hl : zlen format <= 65536) :
  wlibc_vsnprintf m (Some block) (zlen block) (Some format) [] =
    Some (Sprinted None m (Some (take (length block) format)) (zlen format)) /\
  Forall (fun c => c <> 0) (take (length block) format).
Proof.
  assert (Forall (fun c => c <> 0) format) as Hz by (eapply Forall_impl; [exact Hf|]; by intros c [? _]).
  split; [|by apply Forall_take].
  unfold wlibc_vsnprintf. cbv beta iota. replace (zlen block =? 0) with false by lia.
  simpl default.
  replace (zlen block <? zlen block) with false by lia. simpl.
  set (b0 := Buffer block 0 (zlen block) write_NULL false).
  assert (wf b0) as W0 by (split; simpl; lia).
  unfold wlibc_printf_internal. rewrite strnlen_all by (done || lia).
  rewrite (printf_loop_ordinary m _ format Hf); [|auto with buffer|apply rest_string|unfold fuel_of; simpl; lia].
  cbn [mbind option_bind p_ret p_out p_mem]. rewrite Z.add_0_l, !swrap_small by (simpl; lia).
  replace (zlen format <? zlen block) with false by lia.
  set (s1 := take (length block) format).
  assert (length s1 = length block) as L1 by (unfold s1; rewrite length_take; lia).
  assert (put_all b0 ((fun c => [c]) <$> s1) = Buffer s1 (zlen block) (zlen block) write_NULL false) as E.
  { rewrite put_all_fits; [|done|unfold text_len; rewrite concat_singles; simpl; lia].
    unfold text_len, b0. rewrite concat_singles, L1. simpl. f_equal.
    unfold write_at. simpl. rewrite drop_ge by lia. by rewrite app_nil_r. }
  rewrite <- (take_drop (length block) format) at 1. fold s1.
  rewrite fmap_app, put_all_app, E, put_all_full; [done|split; simpl; lia|done|done].
Qed.

Lemma vsnprintf_truncation_unterminated_witness :
  wlibc_vsnprintf (A := ample) ∅ (Some [0; 0; 0]) 3 (Some [ch "a"; ch "b"; ch "c"; ch "d"]) [] =
    Some (Sprinted None ∅ (Some [ch "a"; ch "b"; ch "c"]) 4) /\
  Forall (fun c => c <> 0) [ch "a"; ch "b"; ch "c"].
Proof.
  apply (vsnprintf_truncation_unterminated (A := ample) ∅ [ch "a"; ch "b"; ch "c"; ch "d"] [0; 0; 0]);
    [repeat constructor; done|simpl; lia|simpl; lia].
Defined.

(** a precision does not stop [%s] from reading past the array it bounds: an
    unterminated array of [n] bytes printed with precision [n] makes the
    scan of the string read the byte after it, which is undefined. *)
Theorem print_string_overread {A : Allocator} (m : mem) (b : buffer_t) (config : print_config) (s : list Z)
    (Ht : type config = PRINT_STRING) (Hm : byte_units (modifier config))
    (Hp : has (pflags config) PRINT_PRECISION = true) (Hl : precision config = zlen s)
    (H0 : pdata config <> 0) (Hs : Forall (fun c => c <> 0) s)
    (Hrd : forall i, 0 <= i < zlen s -> m !! (pdata config + i) = Some (byte_at s i))
    (Hend : m !! (pdata config + zlen s) = None) :
  print_arg m b config = None.
Proof.
  unfold print_arg, print_string. rewrite Ht, Hp, Hl, byte_units_1 by done. simpl negb. cbv iota.
  set (rd := string_object m (pdata config)).
  assert (forall i, rd i = m !! (pdata config + i)) as Erd
    by (intros i; unfold rd, string_object; by replace (pdata config =? 0) with false by lia).
  assert (forall fuel count, 0 <= count <= zlen s -> count_units fuel rd 1 (zlen s) count = None) as H.
  { induction fuel as [|fuel IH]; intros count Hc; [done|]. cbn [count_units load_le].
    rewrite Z.mul_1_l, Erd.
    destruct (decide (count = zlen s)) as [->|Hne]; [by rewrite Hend|]. rewrite Hrd by lia. simpl.
    rewrite IH by lia. rewrite Z.add_0_r. replace (count <? zlen s) with true by lia.
    destruct (lookup_lt_is_Some_2 s (Z.to_nat count)) as [c E]; [lia|].
    assert (byte_at s count = c) as -> by (unfold byte_at; by rewrite E).
    pose proof (Forall_lookup_1 _ _ _ _ Hs E) as Hc0. cbn beta in Hc0.
    by replace (c =? 0) with false by lia. }
  by rewrite H by lia.
Qed.

(** ["%.2s"] of the two-byte array ["ab"]. *)
Lemma print_string_overread_witness :
  print_arg (A := ample) (list_to_map [(1000, ch "a"); (1001, ch "b")]) empty_memory_buffer
    (PrintConfig PRINT_STRING PRINT_MOD_NONE PRINT_PRECISION 0 2 0 1000) = None.
Proof.
  apply (print_string_overread (A := ample) _ _ _ [ch "a"; ch "b"]); try done.
  - repeat constructor; done.
  - intros i Hi. simpl in Hi. assert (i = 0 \/ i = 1) as [-> | ->] by lia; reflexivity.
Defined.
