(* ===== verification/Scanf.v ===== *)
(** * Formatted input

    src/stdio/scanf.c: the parser of conversion specifications, scan sets
    included, the readers of the argument types and the interpreter of a
    format string. The input is a [buffer_t] over the string. The arguments
    are the 64-bit words of the call, addresses of a memory [mem] the results
    are stored to. Undefined behaviour (a missing argument, a store to an
    unmapped byte or past the end of the set of a configuration) gives [None]. *)

From S2P Require Import Prelude Errno Buffer Convert Utf Varargs FloatParse Printf.

(** ** Data *)

Definition SCAN_SUPPRESS_INPUT : Z := 0x01.
Definition SCAN_ALLOCATE_STRING : Z := 0x02.
Definition SCAN_UPPER_CASE : Z := 0x20.
Definition SCAN_GROUP_DIGITS : Z := 0x40.

Inductive scan_modifier :=
  | SCAN_MOD_NONE | SCAN_MOD_SHORT_SHORT | SCAN_MOD_SHORT | SCAN_MOD_LONG
  | SCAN_MOD_LONG_LONG | SCAN_MOD_MAX | SCAN_MOD_SIZE | SCAN_MOD_PTRDIFF
  | SCAN_MOD_LONG_DOUBLE.

Inductive scan_type :=
  | SCAN_INT_NUMBER
  | SCAN_UINT_NUMBER | SCAN_UINT_BINARY | SCAN_UINT_OCTAL | SCAN_UINT_HEX
  | SCAN_DOUBLE_NORMAL | SCAN_DOUBLE_HEX | SCAN_DOUBLE_SCIENTIFIC
  | SCAN_DOUBLE_SCIENTIFIC_SHORT
  | SCAN_CHAR | SCAN_STRING | SCAN_SET | SCAN_POINTER | SCAN_RESULT | SCAN_UNKNOWN.

#[export] Instance scan_type_eq_dec : EqDecision scan_type.
Proof. solve_decision. Defined.

(** Where a conversion stores its result: the [suppress] member of the
    configuration, which nothing reads, or an address given by the caller. *)
Inductive target := suppress | address (p : Z).

Record scan_config := ScanConfig {
  stype : scan_type;
  smodifier : scan_modifier;
  sflags : Z;
  swidth : Z;
  sindex : Z;
  sresult : Z;
  sdata : target;
  sset : list Z
}.

Definition IS_SPACE (x : Z) : bool := (x =? ch " ") || ((x >=? 9) && (x <=? 13)).

(** [uint64_t set[2]]: bit [x] of the set; an index outside the array is
    undefined. *)
Definition GET_BIT (s : list Z) (x : Z) : bool := Z.testbit (byte_at s (x / 64)) (x mod 64).

Definition SET_BIT (s : list Z) (x : Z) : option (list Z) :=
  w ← s !! Z.to_nat (x / 64); Some (<[Z.to_nat (x / 64) := Z.lor w (u64 (Z.shiftl 1 (x mod 64)))]> s).

Definition UNSET_BIT (s : list Z) (x : Z) : option (list Z) :=
  w ← s !! Z.to_nat (x / 64);
  Some (<[Z.to_nat (x / 64) := Z.land w (u64 (Z.lnot (u64 (Z.shiftl 1 (x mod 64)))))]> s).

Definition put_bit (exclude : bool) (s : list Z) (x : Z) : option (list Z) :=
  if exclude then UNSET_BIT s x else SET_BIT s x.

(** ** Parsing a conversion specification *)

(** The same text as in printf.c. *)
Definition parse_number (format : buffer_t) : buffer_t * Z := Printf.parse_number format.

Definition scan_position (format : buffer_t) : buffer_t * Z :=
  let pos := pos format in
  let '(format, index) := parse_number format in
  if negb (index =? 0) then
    if peekbyte format 0 =? ch "$" then ((readbyte format).2, index)
    else (set_pos format pos, 0)
  else (set_pos format pos, 0).

Fixpoint scan_flags (fuel : nat) (format : buffer_t) (flags : Z) : buffer_t * Z :=
  match fuel with
  | O => (format, flags)
  | S fuel =>
      let byte := peekbyte format 0 in
      if byte =? 0 then (format, flags)
      else
        let next flag := scan_flags fuel (readbyte format).2 (Z.lor flags flag) in
        if byte =? ch "*" then next SCAN_SUPPRESS_INPUT
        else if byte =? ch "'" then next SCAN_GROUP_DIGITS
        else if byte =? ch "m" then next SCAN_ALLOCATE_STRING
        else (format, flags)
  end.

Definition scan_length (format : buffer_t) : buffer_t * scan_modifier :=
  let byte := peekbyte format 0 in
  let next := (readbyte format).2 in
  if byte =? ch "h" then
    if peekbyte next 0 =? ch "h" then ((readbyte next).2, SCAN_MOD_SHORT_SHORT) else (next, SCAN_MOD_SHORT)
  else if byte =? ch "l" then
    if peekbyte next 0 =? ch "l" then ((readbyte next).2, SCAN_MOD_LONG_LONG) else (next, SCAN_MOD_LONG)
  else if byte =? ch "L" then (next, SCAN_MOD_LONG_DOUBLE)
  else if byte =? ch "j" then (next, SCAN_MOD_MAX)
  else if byte =? ch "z" then (next, SCAN_MOD_SIZE)
  else if byte =? ch "t" then (next, SCAN_MOD_PTRDIFF)
  else (format, SCAN_MOD_NONE).

(** The type of a conversion letter and the flag it adds. *)
Definition scan_conversion (byte : Z) : scan_type * Z :=
  if (byte =? ch "i") || (byte =? ch "d") then (SCAN_INT_NUMBER, 0)
  else if byte =? ch "u" then (SCAN_UINT_NUMBER, 0)
  else if byte =? ch "B" then (SCAN_UINT_BINARY, SCAN_UPPER_CASE)
  else if byte =? ch "b" then (SCAN_UINT_BINARY, 0)
  else if byte =? ch "O" then (SCAN_UINT_OCTAL, SCAN_UPPER_CASE)
  else if byte =? ch "o" then (SCAN_UINT_OCTAL, 0)
  else if byte =? ch "X" then (SCAN_UINT_HEX, SCAN_UPPER_CASE)
  else if byte =? ch "x" then (SCAN_UINT_HEX, 0)
  else if byte =? ch "A" then (SCAN_DOUBLE_HEX, SCAN_UPPER_CASE)
  else if byte =? ch "a" then (SCAN_DOUBLE_HEX, 0)
  else if byte =? ch "F" then (SCAN_DOUBLE_NORMAL, SCAN_UPPER_CASE)
  else if byte =? ch "f" then (SCAN_DOUBLE_NORMAL, 0)
  else if byte =? ch "E" then (SCAN_DOUBLE_SCIENTIFIC, SCAN_UPPER_CASE)
  else if byte =? ch "e" then (SCAN_DOUBLE_SCIENTIFIC, 0)
  else if byte =? ch "G" then (SCAN_DOUBLE_SCIENTIFIC_SHORT, SCAN_UPPER_CASE)
  else if byte =? ch "g" then (SCAN_DOUBLE_SCIENTIFIC_SHORT, 0)
  else if byte =? ch "c" then (SCAN_CHAR, 0)
  else if byte =? ch "s" then (SCAN_STRING, 0)
  else if byte =? ch "[" then (SCAN_SET, 0)
  else if byte =? ch "p" then (SCAN_POINTER, 0)
  else if byte =? ch "n" then (SCAN_RESULT, 0)
  else (SCAN_UNKNOWN, 0).

(** [while (from <= to)] with byte counters. The first byte is below 128, so
    that a round that goes on past 127 is undefined and 128 rounds are enough. *)
Fixpoint set_range (fuel : nat) (exclude : bool) (s : list Z) (from to : Z) : option (list Z) :=
  match fuel with
  | O => None
  | S fuel =>
      if from <=? to then s ← put_bit exclude s from; set_range fuel exclude s (u8 (from + 1)) to
      else Some s
  end.

(** The members between the brackets: the cursor, the set and [closed]. A round
    consumes a byte of the format. *)
Fixpoint parse_set (fuel : nat) (format : buffer_t) (first exclude : bool) (s : list Z)
    : option (buffer_t * list Z * bool) :=
  match fuel with
  | O => Some (format, s, false)
  | S fuel =>
      let byte := peekbyte format 0 in
      let next := (readbyte format).2 in
      if byte =? 0 then Some (format, s, false)
      else if first && (byte =? ch "]") then s ← SET_BIT s byte; parse_set fuel next false exclude s
      else if first && (byte =? ch "^") then
        let s := [0xFFFFFFFFFFFFFFFF; 0xFFFFFFFFFFFFFFFF] in
        if peekbyte format 1 =? ch "]" then
          s ← UNSET_BIT s (ch "]"); parse_set fuel (readbyte next).2 false true s
        else parse_set fuel next false true s
      else if byte =? ch "]" then Some (next, s, true)
      else if byte <? 128 then
        let to := peekbyte format 2 in
        if (peekbyte format 1 =? ch "-") && negb (to =? ch "]") then
          s ← set_range 256 exclude s byte to; parse_set fuel (advance format 3) false exclude s
        else s ← put_bit exclude s byte; parse_set fuel next false exclude s
      else parse_set fuel next false exclude s
  end.

Section Scan.
Context {A : Allocator}.

Definition parse_scan_specifier (format : buffer_t) (args : variadic_args)
    : option (buffer_t * scan_config * variadic_args) :=
  let '(format, index) := scan_position format in
  let '(format, flags) := scan_flags (fuel_of format) format 0 in
  let '(format, width) := parse_number format in
  let '(format, modifier) := scan_length format in
  let '(byte, format) := readbyte format in
  let '(type, case) := scan_conversion byte in
  let flags := Z.lor flags case in
  '(format, s, type) ←
    (if decide (type = SCAN_SET) then
       '(format, s, closed) ← parse_set (fuel_of format) format true false [0; 0];
       Some (format, s, if closed : bool then SCAN_SET else SCAN_UNKNOWN)
     else Some (format, [0; 0], type));
  if decide (type = SCAN_UNKNOWN) then
    Some (format, ScanConfig type modifier flags width index 0 (address 0) s, args)
  else if has flags SCAN_SUPPRESS_INPUT then
    Some (format, ScanConfig type modifier flags width index 0 suppress s, args)
  else
    '(data, args) ← variadic_args_get args index;
    Some (format, ScanConfig type modifier flags width index 0 (address data) s, args).

(** ** Memory

    The bytes of the program and the blocks of the [m] flag: the address of a
    pointer variable and the bytes of the block it was made to point to, none
    for a null pointer. *)
Record world := World { bytes : mem; blocks : list (Z * list Z) }.

Definition store (w : world) (n : nat) (d : target) (v : Z) : option world :=
  match d with
  | suppress => Some w
  | address p => m ← store_le (bytes w) n p v; Some (World m (blocks w))
  end.

Fixpoint store_bytes (w : world) (p : Z) (bs : list Z) : option world :=
  match bs with
  | [] => Some w
  | b :: bs => w ← store w 1 (address p) b; store_bytes w (p + 1) bs
  end.

Definition store_pointer (w : world) (d : target) (block : list Z) : option world :=
  match d with
  | suppress => Some w
  | address p =>
      _ ← load_le (fun a => bytes w !! a) 8 p; Some (World (bytes w) (blocks w ++ [(p, block)]))
  end.

(** The [out] buffer of the string conversions: the caller's array, whose size
    is not known, or a block that grows. *)
Inductive sink := to_array (d : target) (at_pos : Z) | to_block (b : buffer_t).

Definition open_sink (config : scan_config) : sink :=
  if has (sflags config) SCAN_ALLOCATE_STRING then to_block empty_memory_buffer
  else to_array (sdata config) 0.

(** [writen(&out, bs, length bs)], and [writebyte] for one byte. *)
Definition put (w : world) (out : sink) (bs : list Z) : option (world * sink) :=
  match out with
  | to_array suppress i => None
  | to_array (address p) i => w ← store_bytes w (p + i) bs; Some (w, to_array (address p) (i + zlen bs))
  | to_block b => Some (w, to_block (writen b bs).1)
  end.

(** Bytes written through [current(&out)], then [advance(&out, count)]: nothing
    makes room in a block. *)
Definition put_raw (w : world) (out : sink) (bs : list Z) : option (world * sink) :=
  match out with
  | to_array _ _ => put w out bs
  | to_block b =>
      if pos b + zlen bs <=? zlen (data b)
      then Some (w, to_block (advance (Buffer (write_at (data b) (pos b) bs) (pos b) (size b) (write b) (error b)) (zlen bs)))
      else None
  end.

Definition close_sink (w : world) (config : scan_config) (out : sink) : option world :=
  match out with
  | to_array _ _ => Some w
  | to_block b => store_pointer w (sdata config) (data b)
  end.

(** ** The conversions: the memory, the input and the bytes consumed *)

Fixpoint consume_whitespaces_loop (fuel : nat) (buffer : buffer_t) (count : Z) : buffer_t * Z :=
  match fuel with
  | O => (buffer, count)
  | S fuel =>
      let byte := peekbyte buffer 0 in
      if byte =? 0 then (buffer, count)
      else if IS_SPACE byte then consume_whitespaces_loop fuel (readbyte buffer).2 (u32 (count + 1))
      else (buffer, count)
  end.

Definition consume_whitespaces (buffer : buffer_t) : buffer_t * Z :=
  consume_whitespaces_loop (fuel_of buffer) buffer 0.

(** A converter's result stored as [n] bytes; [result] bytes were read before. *)
Definition save (w : world) (config : scan_config) (n : nat) (result : Z) (r : buffer_t * Z * Z)
    : option (world * buffer_t * Z) :=
  let '(buffer, v, count) := r in
  w ← store w n (sdata config) v; Some (w, buffer, u32 (result + count)).

Definition scan_int_number (w : world) (buffer : buffer_t) (config : scan_config) : option (world * buffer_t * Z) :=
  let flags := Z.land (sflags config) SCAN_GROUP_DIGITS in
  match smodifier config with
  | SCAN_MOD_NONE => save w config 4 0 (i32_from_dec buffer flags)
  | SCAN_MOD_SHORT => save w config 2 0 (i16_from_dec buffer flags)
  | SCAN_MOD_SHORT_SHORT => save w config 1 0 (i8_from_dec buffer flags)
  | SCAN_MOD_LONG => save w config 8 0 (i64_from_dec buffer flags)
  | SCAN_MOD_LONG_LONG => save w config 8 0 (imax_from_dec buffer flags)
  | SCAN_MOD_MAX => save w config 8 0 (imax_from_dec buffer flags)
  | SCAN_MOD_SIZE => save w config 8 0 (isize_from_dec buffer flags)
  | SCAN_MOD_PTRDIFF => save w config 8 0 (iptr_from_dec buffer flags)
  | _ => save w config 4 0 (i32_from_dec buffer flags)
  end.

Definition scan_uint_number (w : world) (buffer : buffer_t) (config : scan_config) : option (world * buffer_t * Z) :=
  let flags := Z.land (sflags config) SCAN_GROUP_DIGITS in
  match smodifier config with
  | SCAN_MOD_NONE => save w config 4 0 (u32_from_dec buffer flags)
  | SCAN_MOD_SHORT => save w config 2 0 (u16_from_dec buffer flags)
  | SCAN_MOD_SHORT_SHORT => save w config 1 0 (u8_from_dec buffer flags)
  | SCAN_MOD_LONG => save w config 8 0 (u64_from_dec buffer flags)
  | SCAN_MOD_LONG_LONG => save w config 8 0 (umax_from_dec buffer flags)
  | SCAN_MOD_MAX => save w config 8 0 (umax_from_dec buffer flags)
  | SCAN_MOD_SIZE => save w config 8 0 (usize_from_dec buffer flags)
  | SCAN_MOD_PTRDIFF => save w config 8 0 (uptr_from_dec buffer flags)
  | _ => save w config 4 0 (u32_from_dec buffer flags)
  end.

Definition scan_uint_binary (w : world) (buffer : buffer_t) (config : scan_config) : option (world * buffer_t * Z) :=
  let '(buffer, result) :=
    if (peekbyte buffer 0 =? ch "0") && (TO_LOWER (peekbyte buffer 1) =? ch "b")
    then (advance buffer 2, 2) else (buffer, 0) in
  match smodifier config with
  | SCAN_MOD_NONE => save w config 4 result (u32_from_bin buffer)
  | SCAN_MOD_SHORT => save w config 2 result (u16_from_bin buffer)
  | SCAN_MOD_SHORT_SHORT => save w config 1 result (u8_from_bin buffer)
  | SCAN_MOD_LONG => save w config 8 result (u64_from_bin buffer)
  | SCAN_MOD_LONG_LONG => save w config 8 result (umax_from_bin buffer)
  | SCAN_MOD_MAX => save w config 8 result (umax_from_bin buffer)
  | SCAN_MOD_SIZE => save w config 8 result (usize_from_bin buffer)
  | SCAN_MOD_PTRDIFF => save w config 8 result (uptr_from_bin buffer)
  | _ => save w config 4 result (u32_from_bin buffer)
  end.

Definition scan_uint_octal (w : world) (buffer : buffer_t) (config : scan_config) : option (world * buffer_t * Z) :=
  let '(buffer, result) :=
    if peekbyte buffer 0 =? ch "0" then
      let buffer := (readbyte buffer).2 in
      if TO_LOWER (peekbyte buffer 0) =? ch "o" then ((readbyte buffer).2, 2) else (buffer, 1)
    else (buffer, 0) in
  match smodifier config with
  | SCAN_MOD_NONE => save w config 4 result (u32_from_oct buffer)
  | SCAN_MOD_SHORT => save w config 2 result (u16_from_oct buffer)
  | SCAN_MOD_SHORT_SHORT => save w config 1 result (u8_from_oct buffer)
  | SCAN_MOD_LONG => save w config 8 result (u64_from_oct buffer)
  | SCAN_MOD_LONG_LONG => save w config 8 result (umax_from_oct buffer)
  | SCAN_MOD_MAX => save w config 8 result (umax_from_oct buffer)
  | SCAN_MOD_SIZE => save w config 8 result (usize_from_oct buffer)
  | SCAN_MOD_PTRDIFF => save w config 8 result (uptr_from_oct buffer)
  | _ => save w config 4 result (u32_from_oct buffer)
  end.

Definition scan_uint_hex (w : world) (buffer : buffer_t) (config : scan_config) : option (world * buffer_t * Z) :=
  let '(buffer, result) :=
    if (peekbyte buffer 0 =? ch "0") && (TO_LOWER (peekbyte buffer 1) =? ch "x")
    then (advance buffer 2, 2) else (buffer, 0) in
  match smodifier config with
  | SCAN_MOD_NONE => save w config 4 result (u32_from_hex buffer)
  | SCAN_MOD_SHORT => save w config 2 result (u16_from_hex buffer)
  | SCAN_MOD_SHORT_SHORT => save w config 1 result (u8_from_hex buffer)
  | SCAN_MOD_LONG => save w config 8 result (u64_from_hex buffer)
  | SCAN_MOD_LONG_LONG => save w config 8 result (umax_from_hex buffer)
  | SCAN_MOD_MAX => save w config 8 result (umax_from_hex buffer)
  | SCAN_MOD_SIZE => save w config 8 result (usize_from_hex buffer)
  | SCAN_MOD_PTRDIFF => save w config 8 result (uptr_from_hex buffer)
  | _ => save w config 4 result (u32_from_hex buffer)
  end.

Definition scan_double_normal (w : world) (buffer : buffer_t) (config : scan_config) : option (world * buffer_t * Z) :=
  let flags := Z.land (sflags config) SCAN_GROUP_DIGITS in
  match smodifier config with
  | SCAN_MOD_NONE => save w config 4 0 (float32_from_normal buffer flags)
  | SCAN_MOD_LONG | SCAN_MOD_LONG_LONG | SCAN_MOD_LONG_DOUBLE =>
      save w config 8 0 (float64_from_normal buffer flags)
  | _ => save w config 4 0 (float32_from_normal buffer flags)
  end.

Definition scan_double_hex (w : world) (buffer : buffer_t) (config : scan_config) : option (world * buffer_t * Z) :=
  match smodifier config with
  | SCAN_MOD_NONE => save w config 4 0 (float32_from_hex buffer)
  | SCAN_MOD_LONG | SCAN_MOD_LONG_LONG | SCAN_MOD_LONG_DOUBLE => save w config 8 0 (float64_from_hex buffer)
  | _ => save w config 4 0 (float32_from_hex buffer)
  end.

(** The next code point of the input: [(uint8_t)pending] bytes at most. *)
Definition next_codepoint (buffer : buffer_t) (codepoint : Z) : Z * Z * buffer_t :=
  let '(count, codepoint) := utf8_decode (current buffer) (u8 (pending buffer)) codepoint in
  (count, codepoint, advance buffer count).

Definition scan_char (w : world) (buffer : buffer_t) (config : scan_config) : option (world * buffer_t * Z) :=
  if pending buffer =? 0 then Some (w, buffer, 0)
  else
    match smodifier config with
    | SCAN_MOD_LONG =>
        let '(result, codepoint, buffer) := next_codepoint buffer 0 in
        if result =? 0 then Some (w, buffer, 0)
        else if codepoint >? 0xFFFF then
          w ← store w 2 (sdata config) 0xFFFF; Some (w, buffer, result)
        else
          match sdata config with
          | suppress => Some (w, buffer, result)
          | address p => w ← store_bytes w p (utf16_encode codepoint); Some (w, buffer, result)
          end
    | SCAN_MOD_LONG_LONG =>
        let '(result, codepoint, buffer) := next_codepoint buffer 0 in
        if result =? 0 then Some (w, buffer, 0)
        else w ← store w 4 (sdata config) codepoint; Some (w, buffer, result)
    | _ =>
        let '(byte, buffer) := readbyte buffer in
        w ← store w 1 (sdata config) byte; Some (w, buffer, 1)
    end.

(** The loops that skip the bytes a suppressed conversion accepts. *)
Fixpoint skip_while (fuel : nat) (accept : Z -> bool) (buffer : buffer_t) (result : Z) : buffer_t * Z :=
  match fuel with
  | O => (buffer, result)
  | S fuel =>
      let byte := peekbyte buffer 0 in
      if byte =? 0 then (buffer, result)
      else if accept byte then skip_while fuel accept (readbyte buffer).2 (u32 (result + 1))
      else (buffer, result)
  end.

(** The terminator of a string of the unit the modifier gives. *)
Definition terminator (modifier : scan_modifier) : list Z :=
  match modifier with
  | SCAN_MOD_LONG => [0; 0]
  | SCAN_MOD_LONG_LONG => [0; 0; 0; 0]
  | _ => [0]
  end.

(** Bytes written one by one with [writebyte]. *)
Fixpoint put_each (w : world) (out : sink) (bs : list Z) : option (world * sink) :=
  match bs with
  | [] => Some (w, out)
  | b :: bs => '(w, out) ← put w out [b]; put_each w out bs
  end.

(** The bytes of an unsigned 32-bit object in memory. *)
Definition le32 (v : Z) : list Z := [v mod 256; v / 256 mod 256; v / 65536 mod 256; v / 16777216 mod 256].

(** The copying loop; [true] when it is left through [goto str_end]. *)
Fixpoint string_loop (fuel : nat) (w : world) (out : sink) (buffer : buffer_t) (modifier : scan_modifier)
    (codepoint result : Z) : option (world * sink * buffer_t * Z * bool) :=
  match fuel with
  | O => Some (w, out, buffer, result, false)
  | S fuel =>
      let byte := peekbyte buffer 0 in
      if byte =? 0 then Some (w, out, buffer, result, false)
      else if IS_SPACE byte then Some (w, out, buffer, result, false)
      else
        match modifier with
        | SCAN_MOD_LONG =>
            let '(count, codepoint, buffer) := next_codepoint buffer codepoint in
            if count =? 0 then Some (w, out, buffer, result, true)
            else
              '(w, out) ← put_raw w out (utf16_encode codepoint);
              string_loop fuel w out buffer modifier codepoint (u32 (result + count))
        | SCAN_MOD_LONG_LONG =>
            let '(count, codepoint, buffer) := next_codepoint buffer codepoint in
            if count =? 0 then Some (w, out, buffer, result, true)
            else
              '(w, out) ← put w out (le32 codepoint);
              string_loop fuel w out buffer modifier codepoint (u32 (result + count))
        | _ =>
            '(w, out) ← put w out [byte];
            string_loop fuel w out (readbyte buffer).2 modifier codepoint (u32 (result + 1))
        end
  end.

Definition scan_string (w : world) (buffer : buffer_t) (config : scan_config) : option (world * buffer_t * Z) :=
  let out := open_sink config in
  if has (sflags config) SCAN_SUPPRESS_INPUT then
    let '(buffer, result) := skip_while (fuel_of buffer) (fun byte => negb (IS_SPACE byte)) buffer 0 in
    w ← close_sink w config out; Some (w, buffer, result)
  else
    '(w, out, buffer, result, str_end) ← string_loop (fuel_of buffer) w out buffer (smodifier config) 0 0;
    '(w, out) ← (if str_end : bool then Some (w, out) else put_each w out (terminator (smodifier config)));
    w ← close_sink w config out; Some (w, buffer, result).

(** A byte accepted by a scan set. *)
Definition in_set (s : list Z) (byte : Z) : bool := (byte <=? 127) && GET_BIT s byte.

Definition set_unit (modifier : scan_modifier) (byte : Z) : list Z :=
  match modifier with
  | SCAN_MOD_LONG => [byte; 0]
  | SCAN_MOD_LONG_LONG => [byte; 0; 0; 0]
  | _ => [byte]
  end.

Fixpoint set_loop (fuel : nat) (w : world) (out : sink) (buffer : buffer_t) (modifier : scan_modifier)
    (s : list Z) (result : Z) : option (world * sink * buffer_t * Z) :=
  match fuel with
  | O => Some (w, out, buffer, result)
  | S fuel =>
      let byte := peekbyte buffer 0 in
      if byte =? 0 then Some (w, out, buffer, result)
      else if in_set s byte then
        '(w, out) ← put_each w out (set_unit modifier byte);
        set_loop fuel w out (readbyte buffer).2 modifier s (u32 (result + 1))
      else Some (w, out, buffer, result)
  end.

Definition scan_set (w : world) (buffer : buffer_t) (config : scan_config) : option (world * buffer_t * Z) :=
  let out := open_sink config in
  if has (sflags config) SCAN_SUPPRESS_INPUT then
    let '(buffer, result) := skip_while (fuel_of buffer) (in_set (sset config)) buffer 0 in
    w ← close_sink w config out; Some (w, buffer, result)
  else
    '(w, out, buffer, result) ← set_loop (fuel_of buffer) w out buffer (smodifier config) (sset config) 0;
    '(w, out) ← put_each w out (terminator (smodifier config));
    w ← close_sink w config out; Some (w, buffer, result).

Definition scan_result (w : world) (config : scan_config) : option world :=
  let n := match smodifier config with
           | SCAN_MOD_NONE => 4 | SCAN_MOD_SHORT => 2 | SCAN_MOD_SHORT_SHORT => 1
           | SCAN_MOD_LONG | SCAN_MOD_LONG_LONG | SCAN_MOD_MAX | SCAN_MOD_SIZE | SCAN_MOD_PTRDIFF => 8
           | _ => 4
           end%nat in
  store w n (sdata config) (sresult config).

Definition do_scan (w : world) (buffer : buffer_t) (config : scan_config) : option (world * buffer_t * Z) :=
  match stype config with
  | SCAN_INT_NUMBER => scan_int_number w buffer config
  | SCAN_UINT_NUMBER => scan_uint_number w buffer config
  | SCAN_UINT_BINARY => scan_uint_binary w buffer config
  | SCAN_UINT_OCTAL => scan_uint_octal w buffer config
  | SCAN_UINT_HEX => scan_uint_hex w buffer config
  | SCAN_DOUBLE_NORMAL | SCAN_DOUBLE_SCIENTIFIC | SCAN_DOUBLE_SCIENTIFIC_SHORT => scan_double_normal w buffer config
  | SCAN_DOUBLE_HEX => scan_double_hex w buffer config
  | SCAN_CHAR => scan_char w buffer config
  | SCAN_STRING => scan_string w buffer config
  | SCAN_SET => scan_set w buffer config
  | SCAN_POINTER => save w config 8 0 (pointer_decode buffer)
  | SCAN_RESULT => w ← scan_result w config; Some (w, buffer, 0)
  | SCAN_UNKNOWN => Some (w, buffer, 0)
  end.

(** The width is the size of the buffer the conversion sees. *)
Definition scan_arg (w : world) (buffer : buffer_t) (config : scan_config) : option (world * buffer_t * Z) :=
  let '(buffer, spaces) :=
    match stype config with
    | SCAN_RESULT | SCAN_CHAR | SCAN_SET => (buffer, 0)
    | _ => consume_whitespaces buffer
    end in
  if swidth config >? 0 then
    let old_size := size buffer in
    '(w, buffer, result) ← do_scan w (set_size buffer (pos buffer + swidth config)) config;
    Some (w, set_size buffer old_size, u32 (spaces + result))
  else
    '(w, buffer, result) ← do_scan w buffer config;
    Some (w, buffer, u32 (spaces + result)).

(** ** The format interpreter *)

(** What [wlibc_scanf_internal] leaves: the memory and the value returned. *)
Record scanned := Scanned { sc_world : world; sc_ret : Z }.

(** The [while] loop; a round consumes at least a byte of the format. *)
Fixpoint scanf_loop (fuel : nat) (w : world) (buffer inp : buffer_t) (args : variadic_args)
    (processed result : Z) : option scanned :=
  match fuel with
  | O => None
  | S fuel =>
      let finish w := Some (Scanned w (swrap 32 result)) in
      let '(byte, inp) := readbyte inp in
      if byte =? 0 then finish w
      else if byte =? ch "%" then
        let byte := peekbyte inp 0 in
        if byte =? 0 then finish w
        else if byte =? ch "%" then
          if negb (peekbyte buffer 0 =? byte) then finish w
          else scanf_loop fuel w (readbyte buffer).2 (readbyte inp).2 args (u32 (processed + 1)) result
        else
          '(inp, config, args) ← parse_scan_specifier inp args;
          if decide (stype config = SCAN_UNKNOWN) then Some (Scanned w (-1))
          else
            let config := ScanConfig (stype config) (smodifier config) (sflags config) (swidth config)
                            (sindex config) processed (sdata config) (sset config) in
            '(w, buffer, count) ← scan_arg w buffer config;
            if error buffer then Some (Scanned w (-1))
            else if bool_decide (stype config <> SCAN_RESULT) && negb (has (sflags config) SCAN_SUPPRESS_INPUT) then
              if (count =? 0) && (bool_decide (stype config <> SCAN_SET) || (peekbyte inp 0 =? 0)) then
                Some (Scanned w (swrap 32 result))
              else scanf_loop fuel w buffer inp args (u32 (processed + count)) (u32 (result + 1))
            else scanf_loop fuel w buffer inp args (u32 (processed + count)) result
      else if IS_SPACE byte then
        let '(buffer, n) := consume_whitespaces buffer in
        scanf_loop fuel w buffer inp args (u32 (processed + n)) result
      else if negb (peekbyte buffer 0 =? byte) then finish w
      else scanf_loop fuel w (readbyte buffer).2 inp args (u32 (processed + 1)) result
  end.

Definition wlibc_scanf_internal (w : world) (buffer : buffer_t) (format : list Z) (list : list Z) : option scanned :=
  let inp := string_buffer format (strnlen format (Z.to_nat 65536)) in
  scanf_loop (fuel_of inp) w buffer inp (variadic_args_init list) 0 0.

(** ** Entry points: the value of [errno] when it is set, and the result *)

Definition wlibc_vfscanf (w : world) (stream_null : bool) (format : option (list Z)) (args : list Z)
    : option (option Z * scanned) :=
  match format with
  | None => Some (Some EINVAL, Scanned w (-1))
  | Some format =>
      if stream_null then Some (None, Scanned w (-1))
      else r ← wlibc_scanf_internal w (string_buffer [] 0) format args; Some (None, r)
  end.

Definition wlibc_vsscanf (w : world) (str format : option (list Z)) (args : list Z) : option (option Z * scanned) :=
  match format, str with
  | Some format, Some str =>
      r ← wlibc_scanf_internal w (string_buffer str (strnlen str (Z.to_nat 65536))) format args; Some (None, r)
  | _, _ => Some (Some EINVAL, Scanned w (-1))
  end.

End Scan.
