(* ===== verification/ScanfFacts.v ===== *)
(** * Properties of formatted input

    The text of a conversion specification is parsed back; numbers printed by
    the interpreter of printf.c are read back by the one of scanf.c; scan sets
    denote sets of characters. *)

From S2P Require Import Prelude Errno Buffer Convert ConvertFacts Utf Varargs Float FloatParse.
From S2P Require Import Printf PrintfFacts PrintfSpec Scanf.

(** ** Parsing the text of a specification *)

Record scan_spec := ScanSpec {
  ss_flags : list Z;
  ss_width : Z;
  ss_modifier : print_modifier;
  ss_conversion : Z
}.

(** The length modifiers are the same letters in both directions. *)
Definition scan_mod (m : print_modifier) : scan_modifier :=
  match m with
  | PRINT_MOD_NONE => SCAN_MOD_NONE
  | PRINT_MOD_SHORT_SHORT => SCAN_MOD_SHORT_SHORT
  | PRINT_MOD_SHORT => SCAN_MOD_SHORT
  | PRINT_MOD_LONG => SCAN_MOD_LONG
  | PRINT_MOD_LONG_LONG => SCAN_MOD_LONG_LONG
  | PRINT_MOD_MAX => SCAN_MOD_MAX
  | PRINT_MOD_SIZE => SCAN_MOD_SIZE
  | PRINT_MOD_PTRDIFF => SCAN_MOD_PTRDIFF
  | PRINT_MOD_LONG_DOUBLE => SCAN_MOD_LONG_DOUBLE
  end.

Definition scan_flag_bit (c : Z) : Z :=
  if c =? ch "*" then SCAN_SUPPRESS_INPUT
  else if c =? ch "'" then SCAN_GROUP_DIGITS
  else if c =? ch "m" then SCAN_ALLOCATE_STRING
  else 0.

Definition scan_text (s : scan_spec) : list Z :=
  ss_flags s ++ size_text (ss_width s) ++ modifier_text (ss_modifier s) ++ [ss_conversion s].

(** A conversion other than a scan set. *)
Definition plain_conversion (c : Z) : Prop :=
  (scan_conversion c).1 <> SCAN_UNKNOWN /\ (scan_conversion c).1 <> SCAN_SET.

Definition wf_scan (s : scan_spec) : Prop :=
  Forall (fun c => scan_flag_bit c <> 0) (ss_flags s) /\ is_u32 (ss_width s) /\ plain_conversion (ss_conversion s).

Definition scan_spec_flags (s : scan_spec) : Z :=
  Z.lor (foldl Z.lor 0 (scan_flag_bit <$> ss_flags s)) (scan_conversion (ss_conversion s)).2.

Definition scan_spec_config (s : scan_spec) (processed : Z) (d : target) : scan_config :=
  ScanConfig (scan_conversion (ss_conversion s)).1 (scan_mod (ss_modifier s)) (scan_spec_flags s) (ss_width s)
    0 processed d [0; 0].

(** A boolean property of all plain conversion letters. *)
Lemma plain_all (P : Z -> bool) c :
  plain_conversion c ->
  forallb P [ch "i"; ch "d"; ch "u"; ch "B"; ch "b"; ch "O"; ch "o"; ch "X"; ch "x"; ch "A"; ch "a"; ch "F";
             ch "f"; ch "E"; ch "e"; ch "G"; ch "g"; ch "c"; ch "s"; ch "p"; ch "n"] = true ->
  P c = true.
Proof.
  intros [Hu Hs] H. rewrite forallb_forall in H. apply H. apply list_elem_of_In.
  unfold scan_conversion in Hu, Hs. rewrite !elem_of_cons. tests; simpl in *; try lia; done.
Qed.

(** The bytes that may follow the flags and the width. *)
Definition ends_scan_flags (c : Z) : bool := scan_flag_bit c =? 0.
Definition ends_width (c : Z) : bool := negb (is_digit_char c) && ends_scan_flags c && negb (c =? ch "$").

Lemma scan_modifier_head m c tl : plain_conversion c -> ends_width (byte_at (modifier_text m ++ c :: tl) 0) = true.
Proof. intros Hc. destruct m; try done. simpl. rewrite byte_at_cons_0. by apply plain_all. Qed.

Lemma width_head n tl :
  is_u32 n -> ends_width (byte_at tl 0) = true -> scan_flag_bit (byte_at (size_text n ++ tl) 0) = 0.
Proof.
  intros Hn Ht. unfold size_text, digit_chars. destruct (n =? 0) eqn:E.
  - unfold ends_width, ends_scan_flags in Ht. simpl. lia.
  - destruct (digits_head n) as (d & ds & -> & Hd); [lia|]. simpl. rewrite byte_at_cons_0.
    unfold scan_flag_bit. tests_lia.
Qed.

Lemma scan_flags_text fuel f cs tl acc :
  readable f -> rest f = cs ++ tl -> Forall (fun c => scan_flag_bit c <> 0) cs ->
  scan_flag_bit (byte_at tl 0) = 0 -> (length cs < fuel)%nat ->
  scan_flags fuel f acc = (skip f (zlen cs), foldl Z.lor acc (scan_flag_bit <$> cs)).
Proof.
  revert f cs acc. induction fuel as [|fuel IH]; intros f cs acc R Hr Hc Ht Hf; [lia|].
  destruct cs as [|c cs]; simpl in Hr |- *.
  - rewrite peek_head, Hr, skip_0 by done. unfold scan_flag_bit in Ht. tests; done.
  - destruct (read_skip f _ _ R Hr) as (Hb & Hr1 & R1 & ->). apply Forall_cons in Hc as [Hc Hcs].
    rewrite Hb. cbn [snd]. simpl in Hf.
    assert (forall flag, scan_flag_bit c = flag -> scan_flags fuel (skip f 1) (Z.lor acc flag) =
      (skip f (zlen (c :: cs)), foldl Z.lor (Z.lor acc (scan_flag_bit c)) (scan_flag_bit <$> cs))) as Next.
    { intros flag <-. rewrite (IH _ cs) by (done || lia). rewrite skip_skip by lia. do 2 f_equal. simpl. lia. }
    unfold scan_flag_bit in Hc, Next |- *.
    destruct (c =? 0) eqn:E0; [replace c with 0 in Hc by lia; done|].
    repeat (match goal with |- context [if ?x =? ?y then _ else _] => destruct (x =? y) end;
            [by apply Next|]). done.
Qed.

Lemma scan_length_text f m c tl :
  readable f -> rest f = modifier_text m ++ c :: tl -> plain_conversion c ->
  scan_length f = (skip f (zlen (modifier_text m)), scan_mod m).
Proof.
  intros R Hr Hc. assert (ends_modifier c = true) as He by by apply plain_all.
  unfold ends_modifier in He. unfold scan_length.
  destruct m; cbn [modifier_text app] in Hr;
    destruct (read_skip f _ _ R Hr) as (Hb & Hr1 & R1 & ->); rewrite ?Hb; cbn [snd];
    try (destruct (read_skip _ _ _ R1 Hr1) as (Hb2 & Hr2 & R2 & ->); rewrite ?Hb2; cbn [snd]);
    cbn [modifier_text length]; rewrite ?skip_skip, ?skip_0 by lia; try done; tests_lia; done.
Qed.

Lemma scan_text_no_dollar s : wf_scan s -> ch "$" ∉ scan_text s.
Proof.
  intros (Hf & Hw & Hc) Hin. unfold scan_text in Hin. rewrite !elem_of_app in Hin.
  destruct Hin as [H|[H|[H|H]]].
  - rewrite Forall_forall in Hf. by specialize (Hf _ H).
  - pose proof (size_text_chars _ Hw) as F. rewrite Forall_forall in F. by specialize (F _ H).
  - revert H. destruct (ss_modifier s); simpl; rewrite ?elem_of_cons, ?elem_of_nil; lia.
  - apply list_elem_of_singleton in H. rewrite <- H in Hc.
    pose proof (plain_all (fun c => negb (c =? ch "$")) _ Hc eq_refl). done.
Qed.

Section Parse.
Context {A : Allocator}.

(** The text of a specification is parsed back into its configuration; its data
    is the next argument, or the suppressed cell. *)
Lemma parse_scan_text f s tl args d args' :
  readable f -> rest f = scan_text s ++ tl -> wf_scan s ->
  (if has (scan_spec_flags s) SCAN_SUPPRESS_INPUT then d = suppress /\ args' = args
   else exists p, d = address p /\ variadic_args_get args 0 = Some (p, args')) ->
  parse_scan_specifier f args = Some (skip f (zlen (scan_text s)), scan_spec_config s 0 d, args').
Proof.
  intros R Hr W Hg. pose proof W as (Hf & Hw & Hc). unfold parse_scan_specifier.
  change (scan_position f) with (parse_position f).
  rewrite (parse_position_none f (scan_text s) tl R Hr); [|by apply scan_text_no_dollar|].
  2: { unfold scan_text. rewrite !Forall_app. intros (_ & _ & _ & H). apply Forall_cons in H as [H _].
       pose proof (plain_all (fun c => negb (is_digit_char c)) _ Hc eq_refl) as N. simpl in N.
       by destruct (is_digit_char (ss_conversion s)). }
  unfold scan_text in Hr. rewrite <- !app_assoc in Hr. cbn [app] in Hr.
  set (T2 := modifier_text (ss_modifier s) ++ ss_conversion s :: tl) in *.
  assert (ends_width (byte_at T2 0) = true) as E2 by by apply scan_modifier_head.
  pose proof (width_head (ss_width s) T2 Hw E2) as E1.
  pose proof (rest_length f R) as Hl. rewrite Hr, length_app in Hl.
  rewrite (scan_flags_text _ f (ss_flags s) _ 0 R Hr Hf E1) by (unfold fuel_of; lia).
  apply (rest_skip f _ _ R) in Hr. apply (skip_readable f (zlen (ss_flags s))) in R; [|lia].
  unfold parse_number. rewrite (parse_number_text _ (ss_width s) T2 R Hr Hw)
    by (unfold ends_width in E2; destruct (is_digit_char _); done).
  apply (rest_skip _ _ _ R) in Hr. apply (skip_readable _ (zlen (size_text (ss_width s)))) in R; [|lia].
  rewrite (scan_length_text _ _ _ tl R Hr Hc).
  apply (rest_skip _ _ _ R) in Hr. apply (skip_readable _ (zlen (modifier_text (ss_modifier s)))) in R; [|lia].
  destruct (read_skip _ _ _ R Hr) as (Hb & _ & _ & _). rewrite Hb. rewrite !skip_skip by lia.
  unfold plain_conversion, scan_spec_config, scan_spec_flags, scan_text in *.
  destruct (scan_conversion (ss_conversion s)) as [t up]. cbn [fst snd] in *.
  rewrite decide_False by tauto. cbn [mbind option_bind]. rewrite decide_False by tauto.
  rewrite !length_app. cbn [length].
  replace (zlen (ss_flags s) + (zlen (size_text (ss_width s)) + (zlen (modifier_text (ss_modifier s)) + 1)))
    with (Z.of_nat (length (ss_flags s) + (length (size_text (ss_width s)) +
            (length (modifier_text (ss_modifier s)) + 1)))) by lia.
  destruct (has _ SCAN_SUPPRESS_INPUT).
  - by destruct Hg as [-> ->].
  - destruct Hg as (p & -> & Hg). by rewrite Hg.
Qed.

End Parse.

(** ** White space *)

Lemma consume_whitespaces_text b ws tl :
  readable b -> rest b = ws ++ tl -> Forall (fun c => IS_SPACE c = true) ws -> IS_SPACE (byte_at tl 0) = false ->
  consume_whitespaces b = (skip b (zlen ws), u32 (zlen ws)).
Proof.
  intros R Hr Hw Ht. unfold consume_whitespaces.
  assert (forall fuel b count, readable b -> rest b = ws ++ tl -> (length ws < fuel)%nat ->
    consume_whitespaces_loop fuel b (u32 count) = (skip b (zlen ws), u32 (count + zlen ws))) as H.
  { clear b R Hr. induction Hw as [|c ws Hc Hws IH]; intros fuel b count R Hr Hf; (destruct fuel as [|fuel]; [lia|]);
      cbn [consume_whitespaces_loop].
    - rewrite peek_head, Hr by done. simpl in *. rewrite Ht, skip_0, Z.add_0_r. by destruct (_ =? 0).
    - destruct (read_skip b c (ws ++ tl) R Hr) as (-> & Hr1 & R1 & ->). cbn [snd length] in *. rewrite Hc.
      replace (c =? 0) with false by (destruct (c =? 0) eqn:E; [replace c with 0 in Hc by lia|]; done).
      rewrite wrap_add_l, IH by (done || lia). rewrite skip_skip by lia. do 2 f_equal; lia. }
  apply (H (fuel_of b) b 0 R Hr). pose proof (rest_length b R) as L. rewrite Hr, length_app in L. unfold fuel_of. lia.
Qed.

Lemma no_whitespaces b : readable b -> IS_SPACE (byte_at (rest b) 0) = false -> consume_whitespaces b = (b, 0).
Proof.
  intros R Hb. rewrite (consume_whitespaces_text b [] (rest b) R eq_refl) by (constructor || done).
  by rewrite skip_0.
Qed.

(** ** Numbers *)

(** The numeric conversion [%mc] without flags, width or precision: its text for
    an argument, the value and the number of bytes it stores. *)
Definition number_letter (c : Z) : Prop :=
  c ∈ [ch "i"; ch "d"; ch "u"; ch "B"; ch "b"; ch "O"; ch "o"; ch "X"; ch "x"].

Definition plain_spec (m : print_modifier) (c : Z) : conv_spec := Conv [] 0 None m c.

Definition plain_text (m : print_modifier) (c x : Z) : list Z := number_text (spec_config (plain_spec m c) 0 x).

Definition plain_value (m : print_modifier) (c x : Z) : Z :=
  if decide ((conversion c).1 = PRINT_INT_NUMBER) then swrap (mod_bits m) x else wrap (mod_bits m) x.

Definition mod_bytes (m : print_modifier) : nat := Z.to_nat (mod_bits m / 8).

Lemma plain_field pre ds : field false false 0 0 0 pre ds = pre ++ ds.
Proof. unfold field. rewrite Z.sub_0_r, !Z2Nat.nonpos by (rewrite ?length_app; lia). done. Qed.

Lemma int_plain_text (x : Z) :
  (if x <? 0 then [ch "-"] else []) ++ be_group false 0 (digits 10 (Z.abs x)) = int_text x 0.
Proof.
  unfold int_text. destruct (x =? INT64_MIN) eqn:E; [|done]. apply Z.eqb_eq in E. subst x. by vm_compute.
Qed.

Ltac each_letter H :=
  unfold number_letter in H; rewrite !elem_of_cons, elem_of_nil in H;
  destruct H as [->|[->|[->|[->|[->|[->|[->|[->|[->|[]]]]]]]]]].

Lemma plain_text_cases m c x :
  number_letter c ->
  match (conversion c).1 with
  | PRINT_INT_NUMBER => plain_text m c x = int_text (plain_value m c x) 0
  | PRINT_UINT_NUMBER => plain_text m c x = be_group false 0 (digits 10 (plain_value m c x))
  | PRINT_UINT_BINARY => plain_text m c x = digit_chars 2 (plain_value m c x)
  | PRINT_UINT_OCTAL => plain_text m c x = digit_chars 8 (plain_value m c x)
  | PRINT_UINT_HEX => exists upper, plain_text m c x = hex_char upper <$> digits 16 (plain_value m c x)
  | _ => False
  end.
Proof.
  intros H. unfold plain_text, plain_value, number_text, int_sign, int_digits, int_arg, uint_arg, group_skip, prefix_part.
  each_letter H; cbn -[digits swrap wrap mod_bits be_group INT64_MIN field]; rewrite ?plain_field; try done;
    try (eexists; done); apply int_plain_text.
Qed.

Lemma plain_value_u64 m c x :
  (conversion c).1 <> PRINT_INT_NUMBER -> is_u64 (plain_value m c x).
Proof.
  intros Hc. unfold plain_value. rewrite decide_False by done.
  apply (uint_arg_u64 (PrintConfig (conversion c).1 m 0 0 0 0 x)).
Qed.

Lemma plain_value_s64 m c x :
  (conversion c).1 = PRINT_INT_NUMBER -> - 2 ^ 63 <= plain_value m c x < 2 ^ 63.
Proof.
  intros Hc. unfold plain_value. rewrite decide_True by done.
  apply (int_arg_s64 (PrintConfig (conversion c).1 m 0 0 0 0 x)).
Qed.

Lemma int_text_length x : - 2 ^ 63 <= x < 2 ^ 63 -> 0 < zlen (int_text x 0) <= 64.
Proof.
  intros Hx. rewrite <- int_plain_text, length_app. pose proof (length_dec_text false (Z.abs x) ltac:(lia)).
  destruct (dec_text_head false (Z.abs x)) as (c & t & Et & _); [lia|]. rewrite Et in *.
  destruct (x <? 0); simpl in *; lia.
Qed.

Lemma plain_text_length m c x : number_letter c -> 0 < zlen (plain_text m c x) <= 64.
Proof.
  intros Hc. pose proof (plain_text_cases m c x Hc) as H.
  assert ((conversion c).1 <> PRINT_INT_NUMBER -> forall (base : Z) (f : Z -> Z), 2 <= base ->
    0 < zlen (f <$> digits base (plain_value m c x)) <= 64) as L.
  { intros Hn base f Hb. pose proof (plain_value_u64 m c x Hn). apply length_numeral_text; lia. }
  destruct (conversion c).1 eqn:E; try done.
  - rewrite H. apply int_text_length, plain_value_s64. done.
  - rewrite H. pose proof (plain_value_u64 m c x ltac:(congruence)) as Hu.
    pose proof (length_dec_text false _ Hu). destruct (dec_text_head false _ Hu) as (? & ? & Et & _).
    rewrite Et in *. simpl in *. lia.
  - rewrite H. by apply L.
  - rewrite H. by apply L.
  - destruct H as [up ->]. by apply L.
Qed.

(** The first digits of a numeral followed by a space. *)
Lemma numeral_peek b base dig x tl :
  readable b -> rest b = (dig <$> digits base x) ++ tl -> byte_at tl 0 = ch " " -> is_u64 x -> 1 < base ->
  dig 0 = ch "0" -> (forall d, 0 < d < base -> dig d <> ch "0") -> digits base 0 = [0] ->
  (peekbyte b 0 =? ch "0") = (x =? 0) /\ (x = 0 -> peekbyte b 1 = ch " ").
Proof.
  intros R Hr Ht Hx Hb H0 Hd Hz. rewrite !peekbyte_rest, Hr by (done || lia).
  destruct (decide (x = 0)) as [->|Hne].
  - rewrite Hz. simpl. rewrite byte_at_cons_0, H0, byte_at_cons_S by lia. done.
  - replace (x =? 0) with false by lia. split; [|done].
    destruct (digits_numeral base x Hb Hx) as [Hv Hr2 [Hc|(d & ds & Hc & Hdn)]]; rewrite Hc in *.
    + unfold of_digits in Hv. simpl in Hv. lia.
    + simpl. rewrite byte_at_cons_0. apply Forall_cons in Hr2 as [Hr2 _]. apply Z.eqb_neq, Hd. lia.
Qed.

(** Reading a numeral in a power-of-two base at the cursor. *)
Lemma uint_from_digits digit dig shift b x tl :
  1 <= shift <= 4 -> readable b -> is_u64 x ->
  (forall d, 0 <= d < 2 ^ shift -> dig d <> 0 /\ digit (dig d) = Some d) ->
  rest b = (dig <$> digits (2 ^ shift) x) ++ tl -> ends digit tl ->
  uint_from_loop (fuel_of b) digit shift b 0 0 =
    (skip b (zlen (digits (2 ^ shift) x)), x, zlen (digits (2 ^ shift) x)).
Proof.
  intros Hs R Hx Hd Hr He. assert (2 ^ 1 <= 2 ^ shift) as H2 by (apply Z.pow_le_mono_r; lia).
  apply (uint_from_loop_numeral digit dig shift b x _ tl); try done; [lia| |].
  - apply digits_numeral; lia.
  - pose proof (length_numeral_text (2 ^ shift) 64 x dig ltac:(lia) Hx) as L. rewrite length_fmap in L.
    pose proof (Z.pow_le_mono_l 2 (2 ^ shift) 64). lia.
Qed.

Lemma swrap_swrap w x : swrap w (swrap w x) = swrap w x.
Proof. apply swrap_congr, wrap_swrap. Qed.

Section Scan.
Context {A : Allocator}.

Definition plain_scan (m : print_modifier) (c : Z) : scan_spec := ScanSpec [] 0 m c.

(** What a conversion of [x] does when it succeeds with the text [text]. *)
Definition stores (w : world) (b : buffer_t) (n : nat) (d : target) (v k : Z) : option (world * buffer_t * Z) :=
  w ← store w n d v; Some (w, skip b k, k).

Lemma save_stores w config n result b v k k' :
  is_u32 k' -> result + k = k' ->
  save w config n result (skip b k', v, k) = stores w b n (sdata config) v k'.
Proof.
  intros Hk <-. unfold save, stores. destruct (store _ _ _ _); simpl; [|done]. by rewrite wrap_small by lia.
Qed.

Lemma scan_int_plain w b m c x tl pr d :
  number_letter c -> (conversion c).1 = PRINT_INT_NUMBER ->
  readable b -> rest b = plain_text m c x ++ tl -> byte_at tl 0 = ch " " ->
  do_scan w b (scan_spec_config (plain_scan m c) pr d) =
    stores w b (mod_bytes m) d (plain_value m c x) (zlen (plain_text m c x)).
Proof.
  intros Hc Ht R Hr Hs. pose proof (plain_text_cases m c x Hc) as E. rewrite Ht in E.
  pose proof (plain_text_length m c x Hc) as L. rewrite E in *.
  pose proof (int_from_dec_text b _ 0 tl R Hr (plain_value_s64 m c x Ht)) as P.
  assert (forall k n config, k = mod_bits m -> sdata config = d -> save w config n 0 (snarrow k (int_from_dec_common b 0)) =
    stores w b n d (plain_value m c x) (zlen (int_text (plain_value m c x) 0))) as Save.
  { intros k n config -> <-. rewrite P by (right; by rewrite Hs). cbn [snarrow].
    replace (swrap (mod_bits m) (plain_value m c x)) with (plain_value m c x)
      by (unfold plain_value; rewrite decide_True by done; by rewrite swrap_swrap).
    apply save_stores; lia. }
  each_letter Hc; try done; destruct m; by apply Save.
Qed.

Lemma scan_uint_plain w b m c x tl pr d :
  number_letter c -> (conversion c).1 = PRINT_UINT_NUMBER ->
  readable b -> rest b = plain_text m c x ++ tl -> byte_at tl 0 = ch " " ->
  do_scan w b (scan_spec_config (plain_scan m c) pr d) =
    stores w b (mod_bytes m) d (plain_value m c x) (zlen (plain_text m c x)).
Proof.
  intros Hc Ht R Hr Hs. pose proof (plain_text_cases m c x Hc) as E. rewrite Ht in E.
  pose proof (plain_text_length m c x Hc) as L. rewrite E in *.
  pose proof (plain_value_u64 m c x ltac:(congruence)) as Hu.
  pose proof (uint_from_dec_text b _ 0 tl R Hr Hu) as P. change (has 0 CONVERT_GROUP_DIGITS) with false in P.
  assert (forall k n config, k = mod_bits m -> sdata config = d -> save w config n 0 (narrow k (uint_from_dec_common b 0)) =
    stores w b n d (plain_value m c x) (zlen (be_group false 0 (digits 10 (plain_value m c x))))) as Save.
  { intros k n config -> <-. rewrite P by (right; by rewrite Hs). cbn [narrow].
    replace (wrap (mod_bits m) (plain_value m c x)) with (plain_value m c x)
      by (unfold plain_value; rewrite decide_False by congruence; by rewrite wrap_wrap).
    apply save_stores; lia. }
  each_letter Hc; try done; destruct m; by apply Save.
Qed.

(** A value already narrowed to the type of the modifier. *)
Lemma wrap_plain_value m c x :
  (conversion c).1 <> PRINT_INT_NUMBER -> wrap (mod_bits m) (plain_value m c x) = plain_value m c x.
Proof. intros Hc. unfold plain_value. rewrite decide_False by done. apply wrap_wrap. Qed.

(** The power-of-two radixes. *)
Lemma save_radix digit dig shift base w b m c x tl n config :
  1 <= shift <= 4 -> base = 2 ^ shift -> (conversion c).1 <> PRINT_INT_NUMBER ->
  (forall d, 0 <= d < base -> dig d <> 0 /\ digit (dig d) = Some d) -> digit (ch " ") = None ->
  readable b -> rest b = (dig <$> digits base (plain_value m c x)) ++ tl -> byte_at tl 0 = ch " " ->
  save w config n 0 (narrow (mod_bits m) (uint_from_loop (fuel_of b) digit shift b 0 0)) =
  stores w b n (sdata config) (plain_value m c x) (zlen (dig <$> digits base (plain_value m c x))).
Proof.
  intros Hs -> Hc Hd Hsp R Hr Ht. pose proof (plain_value_u64 m c x Hc) as Hu.
  rewrite (uint_from_digits digit dig shift b _ tl Hs R Hu Hd Hr) by (right; by rewrite Ht). cbn [narrow].
  rewrite wrap_plain_value, length_fmap by done.
  assert (2 ^ 1 <= 2 ^ shift) by (apply Z.pow_le_mono_r; lia).
  assert (2 ^ 64 <= (2 ^ shift) ^ 64) by (apply Z.pow_le_mono_l; lia).
  assert (0 < zlen (dig <$> digits (2 ^ shift) (plain_value m c x)) <= 64) as L by (apply length_numeral_text; lia).
  rewrite length_fmap in L. apply save_stores; lia.
Qed.

Lemma no_prefix b base dig x tl letter :
  readable b -> rest b = (dig <$> digits base x) ++ tl -> byte_at tl 0 = ch " " -> is_u64 x -> 1 < base ->
  dig 0 = ch "0" -> (forall d, 0 < d < base -> dig d <> ch "0") -> digits base 0 = [0] -> letter <> ch " " ->
  (peekbyte b 0 =? ch "0") && (TO_LOWER (peekbyte b 1) =? letter) = false.
Proof.
  intros R Hr Hs Hu Hb H0 Hd Hz Hl. destruct (numeral_peek b base dig x tl) as [-> P1]; try done.
  destruct (x =? 0) eqn:Z0; [|done]. rewrite P1 by lia. change (TO_LOWER (ch " ")) with (ch " "). lia.
Qed.

Lemma hex_char_nonzero up d : 0 < d < 16 -> hex_char up d <> ch "0".
Proof.
  intros Hd E. destruct (hex_char_digit up d) as [_ H]; [lia|]. rewrite E in H.
  change (Some 0 = Some d) in H. injection H as H. lia.
Qed.

Lemma scan_hex_plain w b m c x tl pr d :
  number_letter c -> (conversion c).1 = PRINT_UINT_HEX ->
  readable b -> rest b = plain_text m c x ++ tl -> byte_at tl 0 = ch " " ->
  do_scan w b (scan_spec_config (plain_scan m c) pr d) =
    stores w b (mod_bytes m) d (plain_value m c x) (zlen (plain_text m c x)).
Proof.
  intros Hc Ht R Hr Hs. pose proof (plain_text_cases m c x Hc) as E. rewrite Ht in E. destruct E as [up E].
  rewrite E in *. pose proof (plain_value_u64 m c x ltac:(congruence)) as Hu.
  pose proof (no_prefix b 16 (hex_char up) _ tl (ch "x") R Hr Hs Hu ltac:(lia)) as N.
  specialize (N ltac:(by destruct up) (hex_char_nonzero up) eq_refl ltac:(lia)).
  pose proof (fun n config => save_radix hex_digit (hex_char up) 4 16 w b m c x tl n config ltac:(lia) eq_refl
    ltac:(congruence) (hex_char_digit up) eq_refl R Hr Hs) as Save.
  each_letter Hc; try done; cbn -[scan_uint_hex]; unfold scan_uint_hex; rewrite N;
    destruct m; apply (Save _ (scan_spec_config (plain_scan _ _) pr d)).
Qed.

Lemma scan_bin_plain w b m c x tl pr d :
  number_letter c -> (conversion c).1 = PRINT_UINT_BINARY ->
  readable b -> rest b = plain_text m c x ++ tl -> byte_at tl 0 = ch " " ->
  do_scan w b (scan_spec_config (plain_scan m c) pr d) =
    stores w b (mod_bytes m) d (plain_value m c x) (zlen (plain_text m c x)).
Proof.
  intros Hc Ht R Hr Hs. pose proof (plain_text_cases m c x Hc) as E. rewrite Ht in E. unfold digit_chars in E.
  rewrite E in *. pose proof (plain_value_u64 m c x ltac:(congruence)) as Hu.
  pose proof (no_prefix b 2 (fun d => d + ch "0") _ tl (ch "b") R Hr Hs Hu ltac:(lia) eq_refl
    ltac:(intros; lia) eq_refl ltac:(lia)) as N.
  pose proof (fun n config => save_radix bin_digit (fun d => d + ch "0") 1 2 w b m c x tl n config ltac:(lia) eq_refl
    ltac:(congruence) bin_char_digit eq_refl R Hr Hs) as Save.
  each_letter Hc; try done; cbn -[scan_uint_binary]; unfold scan_uint_binary; rewrite N;
    destruct m; apply (Save _ (scan_spec_config (plain_scan _ _) pr d)).
Qed.

(** A zero is taken for the octal prefix; nothing is left to read then. *)
Lemma scan_oct_plain w b m c x tl pr d :
  number_letter c -> (conversion c).1 = PRINT_UINT_OCTAL ->
  readable b -> rest b = plain_text m c x ++ tl -> byte_at tl 0 = ch " " ->
  do_scan w b (scan_spec_config (plain_scan m c) pr d) =
    stores w b (mod_bytes m) d (plain_value m c x) (zlen (plain_text m c x)).
Proof.
  intros Hc Ht R Hr Hs. pose proof (plain_text_cases m c x Hc) as E. rewrite Ht in E. unfold digit_chars in E.
  rewrite E in *. pose proof (plain_value_u64 m c x ltac:(congruence)) as Hu.
  destruct (numeral_peek b 8 (fun d => d + ch "0") _ tl R Hr Hs Hu ltac:(lia) eq_refl ltac:(intros; lia) eq_refl)
    as [P0 _].
  destruct (plain_value m c x =? 0) eqn:Z0.
  - apply Z.eqb_eq in Z0. rewrite Z0 in *. change (digits 8 0) with [0] in *.
    destruct (read_skip b (ch "0") tl R Hr) as (Hb & Hr1 & R1 & _).
    assert (uint_from_loop (fuel_of (skip b 1)) oct_digit 3 (skip b 1) 0 0 = (skip b 1, 0, 0)) as Z1.
    { unfold fuel_of. cbn [uint_from_loop]. rewrite peek_head, Hr1, Hs by done. done. }
    assert ((TO_LOWER (peekbyte (skip b 1) 0) =? ch "o") = false) as N by by rewrite peek_head, Hr1, Hs.
    assert (forall n config, save w config n 1 (narrow (mod_bits m) (skip b 1, 0, 0)) = stores w b n (sdata config) 0 1) as Save.
    { intros n config. cbn [narrow]. rewrite (wrap_small _ 0) by (destruct m; simpl; lia). apply save_stores; lia. }
    each_letter Hc; try done; cbn -[scan_uint_octal]; unfold scan_uint_octal; rewrite P0, Hb; cbn [snd]; rewrite N;
      destruct m; unfold u8_from_oct, u16_from_oct, u32_from_oct, u64_from_oct, umax_from_oct, usize_from_oct,
        uptr_from_oct, uint_from_oct_common; rewrite Z1; apply (Save _ (scan_spec_config (plain_scan _ _) pr d)).
  - pose proof (fun n config => save_radix oct_digit (fun d => d + ch "0") 3 8 w b m c x tl n config ltac:(lia) eq_refl
      ltac:(congruence) oct_char_digit eq_refl R Hr Hs) as Save.
    each_letter Hc; try done; cbn -[scan_uint_octal]; unfold scan_uint_octal; rewrite P0;
      destruct m; apply (Save _ (scan_spec_config (plain_scan _ _) pr d)).
Qed.

(** Every plain conversion of a number reads its own text back. *)
Lemma scan_plain w b m c x tl pr d :
  number_letter c -> readable b -> rest b = plain_text m c x ++ tl -> byte_at tl 0 = ch " " ->
  do_scan w b (scan_spec_config (plain_scan m c) pr d) =
    stores w b (mod_bytes m) d (plain_value m c x) (zlen (plain_text m c x)).
Proof.
  intros Hc R Hr Hs. pose proof (plain_text_cases m c x Hc) as H. destruct (conversion c).1 eqn:E; try done.
  - by apply (scan_int_plain _ _ _ _ _ tl).
  - by apply (scan_uint_plain _ _ _ _ _ tl).
  - by apply (scan_bin_plain _ _ _ _ _ tl).
  - by apply (scan_oct_plain _ _ _ _ _ tl).
  - by apply (scan_hex_plain _ _ _ _ _ tl).
Qed.

(** ** Lists of numbers *)

Record number_arg := Num { n_modifier : print_modifier; n_letter : Z; n_value : Z }.

(** Each number in a conversion of its own, followed by a space. *)
Definition number_items (ns : list number_arg) : list item :=
  concat ((fun n => [Spec (plain_spec (n_modifier n) (n_letter n)); Lit (ch " ")]) <$> ns).

Definition number_texts (ns : list number_arg) : list Z :=
  concat ((fun n => plain_text (n_modifier n) (n_letter n) (n_value n) ++ [ch " "]) <$> ns).

(** The values stored one after the other at the addresses [ps]. *)
Fixpoint store_all (w : world) (ns : list number_arg) (ps : list Z) : option world :=
  match ns, ps with
  | n :: ns, p :: ps =>
      w ← store w (mod_bytes (n_modifier n)) (address p) (plain_value (n_modifier n) (n_letter n) (n_value n));
      store_all w ns ps
  | [], _ => Some w
  | _, [] => None
  end.

Lemma number_letter_all (P : Z -> bool) c :
  number_letter c ->
  forallb P [ch "i"; ch "d"; ch "u"; ch "B"; ch "b"; ch "O"; ch "o"; ch "X"; ch "x"] = true -> P c = true.
Proof. intros Hc H. rewrite forallb_forall in H. by apply H, list_elem_of_In. Qed.

Lemma number_letter_known c : number_letter c -> (conversion c).1 <> PRINT_UNKNOWN /\ plain_conversion c.
Proof. intros Hc. unfold plain_conversion. each_letter Hc; simpl; repeat split; done. Qed.

Lemma plain_text_not_space m c x tl : number_letter c -> IS_SPACE (byte_at (plain_text m c x ++ tl) 0) = false.
Proof.
  intros Hc. pose proof (plain_text_cases m c x Hc) as H.
  assert ((conversion c).1 <> PRINT_INT_NUMBER -> forall base dig, 1 < base ->
    (forall d, 0 <= d < base -> IS_SPACE (dig d) = false) ->
    IS_SPACE (byte_at ((dig <$> digits base (plain_value m c x)) ++ tl) 0) = false) as Radix.
  { intros Hn base dig Hb Hd. pose proof (plain_value_u64 m c x Hn) as Hu.
    destruct (digits_numeral base _ Hb Hu) as [_ Hds Hcan].
    destruct (digits base _) as [|d ds]; [by destruct Hcan as [?|(?&?&?&?)]|].
    apply Forall_cons in Hds as [Hds _]. by apply Hd. }
  destruct (conversion c).1 eqn:E; try done.
  - rewrite H, <- int_plain_text. pose proof (plain_value_s64 m c x E).
    destruct (dec_text_head false (Z.abs (plain_value m c x))) as (k & t & -> & Hk); [lia|].
    destruct (_ <? 0); simpl; rewrite byte_at_cons_0; unfold IS_SPACE; lia.
  - rewrite H. destruct (dec_text_head false (plain_value m c x)) as (k & t & -> & Hk).
    { apply plain_value_u64. congruence. }
    simpl. rewrite byte_at_cons_0. unfold IS_SPACE. lia.
  - rewrite H. apply Radix; [done|lia|]. intros d Hd. unfold IS_SPACE. lia.
  - rewrite H. apply Radix; [done|lia|]. intros d Hd. unfold IS_SPACE. lia.
  - destruct H as [up ->]. apply Radix; [done|lia|]. intros d Hd.
    destruct (hex_char_digit up d) as [_ H]; [lia|]. destruct (IS_SPACE (hex_char up d)) eqn:Es; [|done].
    unfold IS_SPACE in Es. assert (hex_char up d ∈ [32; 9; 10; 11; 12; 13]) as Hin by (rewrite !elem_of_cons; lia).
    revert H. clear -Hin. rewrite !elem_of_cons, elem_of_nil in Hin.
    by destruct Hin as [->|[->|[->|[->|[->|[->|[]]]]]]].
Qed.

Lemma scan_arg_plain w b m c x tl pr d :
  number_letter c -> readable b -> rest b = plain_text m c x ++ tl -> byte_at tl 0 = ch " " ->
  scan_arg w b (scan_spec_config (plain_scan m c) pr d) =
    stores w b (mod_bytes m) d (plain_value m c x) (zlen (plain_text m c x)).
Proof.
  intros Hc R Hr Hs. pose proof (plain_text_length m c x Hc) as L.
  assert (match stype (scan_spec_config (plain_scan m c) pr d) with
          | SCAN_RESULT | SCAN_CHAR | SCAN_SET => (b, 0)
          | _ => consume_whitespaces b
          end = (b, 0)) as W.
  { rewrite no_whitespaces; [|done|rewrite Hr; by apply plain_text_not_space]. by destruct (stype _). }
  unfold scan_arg. rewrite W. cbn [scan_spec_config swidth plain_scan ss_width].
  change (0 >? 0) with false. cbv iota.
  rewrite (scan_plain w b m c x tl pr d Hc R Hr Hs). unfold stores.
  destruct (store _ _ _ _); simpl; [|done]. by rewrite wrap_small by lia.
Qed.

(** A round of the interpreter over the conversion of a number. *)
Lemma scanf_loop_number (alloc_ok : forall n, malloc_ok n = true) fuel w w' b inp L a p ps m c x ftl tl processed result :
  zlen L < 2 ^ 31 -> number_letter c -> readable b -> rest b = plain_text m c x ++ tl -> byte_at tl 0 = ch " " ->
  readable inp -> rest inp = ch "%" :: spec_text (plain_spec m c) ++ ftl -> remaining L a (p :: ps) ->
  store w (mod_bytes m) (address p) (plain_value m c x) = Some w' ->
  exists a', remaining L a' ps /\
    scanf_loop (S fuel) w b inp a processed result =
    scanf_loop fuel w' (skip b (zlen (plain_text m c x))) (skip inp (1 + zlen (spec_text (plain_spec m c)))) a'
      (u32 (processed + zlen (plain_text m c x))) (u32 (result + 1)).
Proof.
  intros HL Hc R Hr Hs Ri Hi Ha Hst. pose proof (plain_text_length m c x Hc) as Len.
  destruct (number_letter_known c Hc) as [Hk Hp].
  destruct (get_next alloc_ok L a p ps HL Ha) as (a' & Hg & Ha'). exists a'. split; [done|].
  destruct (read_skip inp _ _ Ri Hi) as (Hb & Hi1 & Ri1 & _).
  cbn [scanf_loop]. rewrite Hb. change (ch "%" =? 0) with false. change (ch "%" =? ch "%") with true. cbv iota.
  assert (wf_spec (plain_spec m c)) as Wf by (split; [constructor|]; simpl; split; [lia|]; split; [lia|done]).
  destruct (spec_text_head _ Wf) as (k & t & Es & Hkc).
  assert (peekbyte (skip inp 1) 0 = k) as ->
    by (rewrite peek_head, Hi1, Es by done; simpl; by rewrite byte_at_cons_0).
  unfold spec_char in Hkc. replace (k =? 0) with false by (destruct (k =? 0); done).
  replace (k =? ch "%") with false by (destruct (k =? 0), (k =? ch "$"), (k =? ch "%"); done).
  assert (has (scan_spec_flags (plain_scan m c)) SCAN_SUPPRESS_INPUT = false) as Hns
    by (clear -Hc; each_letter Hc; done).
  change (spec_text (plain_spec m c)) with (scan_text (plain_scan m c)) in *.
  rewrite (parse_scan_text (skip inp 1) (plain_scan m c) ftl a (address p) a');
    [|done|done|split; [constructor|]; split; [simpl; lia|done]|rewrite Hns; by exists p].
  cbn [mbind option_bind]. destruct Hp as [Hu _]. rewrite decide_False by done.
  change (ScanConfig _ _ _ _ _ _ _ _) with (scan_spec_config (plain_scan m c) processed (address p)).
  rewrite (scan_arg_plain w b m c x tl processed (address p) Hc R Hr Hs). unfold stores. rewrite Hst.
  cbn [mbind option_bind]. rewrite (rd_error _ (skip_readable b (zlen (plain_text m c x)) R ltac:(lia))).
  cbn [scan_spec_config stype sflags]. rewrite Hns.
  rewrite bool_decide_eq_true_2 by (clear -Hc; each_letter Hc; done).
  cbn [andb negb]. replace (zlen (plain_text m c x) =? 0) with false by lia. cbn [andb].
  by rewrite skip_skip by lia.
Qed.

(** A round over a white-space directive. *)
Lemma scanf_loop_space fuel w b inp a ws tl ftl processed result :
  readable b -> rest b = ws ++ tl -> Forall (fun c => IS_SPACE c = true) ws -> IS_SPACE (byte_at tl 0) = false ->
  readable inp -> rest inp = ch " " :: ftl ->
  scanf_loop (S fuel) w b inp a processed result =
  scanf_loop fuel w (skip b (zlen ws)) (skip inp 1) a (u32 (processed + u32 (zlen ws))) result.
Proof.
  intros R Hr Hws Ht Ri Hi. destruct (read_skip inp _ _ Ri Hi) as (Hb & _ & _ & _).
  cbn [scanf_loop]. rewrite Hb. change (ch " " =? 0) with false. change (ch " " =? ch "%") with false.
  change (IS_SPACE (ch " ")) with true. cbv iota. by rewrite (consume_whitespaces_text b ws tl R Hr Hws Ht).
Qed.

Lemma scanf_loop_numbers (alloc_ok : forall n, malloc_ok n = true) L ns :
  zlen L < 2 ^ 31 -> Forall (fun n => number_letter (n_letter n)) ns ->
  forall fuel w w' b inp a ps processed result,
    readable b -> rest b = number_texts ns -> readable inp -> rest inp = format_text (number_items ns) ->
    remaining L a ps -> (length (rest inp) < fuel)%nat -> store_all w ns ps = Some w' ->
    scanf_loop fuel w b inp a processed result = Some (Scanned w' (swrap 32 (result + zlen ns))).
Proof.
  intros HL. induction 1 as [|[m c x] ns Hc Hns IH]; intros fuel w w' b inp a ps processed result R Hr Ri Hi Ha Hf Hst.
  - destruct fuel as [|fuel]; [lia|]. injection Hst as <-. cbn [scanf_loop].
    pose proof (readbyte_nil inp Ri Hi) as H0. destruct (readbyte inp) as [k inp']. simpl in H0. subst k.
    simpl. by rewrite Z.add_0_r.
  - destruct ps as [|p ps]; [done|]. cbn [store_all n_modifier n_letter n_value] in Hst.
    destruct (store w _ _ _) as [w1|] eqn:Hs; [|done]. cbn [mbind option_bind] in Hst.
    assert (rest b = plain_text m c x ++ ch " " :: number_texts ns) as Hr'
      by (rewrite Hr; unfold number_texts; simpl; by rewrite <- app_assoc).
    assert (rest inp = ch "%" :: spec_text (plain_spec m c) ++ ch " " :: format_text (number_items ns)) as Hi' by done.
    rewrite Hi' in Hf. cbn [length] in Hf. rewrite length_app in Hf. cbn [length] in Hf.
    destruct fuel as [|[|fuel]]; [lia..|].
    destruct (scanf_loop_number alloc_ok (S fuel) w w1 b inp L a p ps m c x _ _ processed result
      HL Hc R Hr' eq_refl Ri Hi' Ha Hs) as (a' & Ha' & ->).
    set (T := plain_text m c x) in *. set (F := spec_text (plain_spec m c)) in *.
    pose proof (rest_skip b T _ R Hr') as Hr1. pose proof (skip_readable b (zlen T) R ltac:(lia)) as R1.
    pose proof (rest_skip inp (ch "%" :: F) _ Ri Hi') as Hi1. cbn [length] in Hi1.
    replace (Z.of_nat (S (length F))) with (1 + zlen F) in Hi1 by lia.
    pose proof (skip_readable inp (1 + zlen F) Ri ltac:(lia)) as Ri1.
    rewrite (scanf_loop_space fuel w1 _ _ a' [ch " "] (number_texts ns) (format_text (number_items ns)));
      [|done|done|by constructor| |done|done].
    + destruct (read_skip _ _ _ R1 Hr1) as (_ & Hr2 & R2 & _). destruct (read_skip _ _ _ Ri1 Hi1) as (_ & Hi2 & Ri2 & _).
      rewrite (IH fuel w1 w' _ _ a' ps); try done; [|rewrite Hi2; lia].
      do 2 f_equal. apply swrap_congr. rewrite wrap_add_l. f_equal. cbn [length]. lia.
    + destruct ns as [|[m' c' x'] ns]; [done|]. apply Forall_cons in Hns as [Hc' _]. unfold number_texts. simpl.
      rewrite <- app_assoc. by apply plain_text_not_space.
Qed.

End Scan.

(** ** Printing and scanning *)

Lemma be_group_plain n ds : be_group false n ds = (fun d => d + ch "0") <$> ds.
Proof. revert n. induction ds as [|d ds IH]; intros n; [done|]. simpl. by rewrite IH. Qed.

Lemma plain_text_nonzero m c x : number_letter c -> Forall (fun k => k <> 0) (plain_text m c x).
Proof.
  intros Hc. pose proof (plain_text_cases m c x Hc) as H.
  assert (forall base dig v, 1 < base -> is_u64 v -> (forall d, 0 <= d < base -> dig d <> 0) ->
    Forall (fun k => k <> 0) (dig <$> digits base v)) as Radix.
  { intros base dig v Hb Hv Hd. apply Forall_fmap. eapply Forall_impl; [apply (digits_numeral base v Hb Hv)|].
    intros d Hr. by apply Hd. }
  assert (forall v, is_u64 v -> Forall (fun k => k <> 0) (be_group false 0 (digits 10 v))) as Dec.
  { intros v Hv. rewrite be_group_plain. apply Radix; [lia|done|intros; lia]. }
  destruct (conversion c).1 eqn:E; try done.
  - rewrite H, <- int_plain_text. pose proof (plain_value_s64 m c x E). apply Forall_app. split; [|apply Dec; lia].
    destruct (_ <? 0); repeat constructor; done.
  - rewrite H. apply Dec, plain_value_u64. congruence.
  - rewrite H. apply Radix; [lia|apply plain_value_u64; congruence|intros; lia].
  - rewrite H. apply Radix; [lia|apply plain_value_u64; congruence|intros; lia].
  - destruct H as [up ->]. apply Radix; [lia|apply plain_value_u64; congruence|]. intros d Hd. by apply hex_char_digit.
Qed.

Lemma number_texts_nonzero ns :
  Forall (fun n => number_letter (n_letter n)) ns -> Forall (fun k => k <> 0) (number_texts ns).
Proof.
  induction 1 as [|[m c x] ns Hc _ IH]; [constructor|]. unfold number_texts. simpl.
  rewrite !Forall_app. split; [|done]. split; [by apply plain_text_nonzero|by repeat constructor].
Qed.

(** A number the interpreter of printf.c prints. *)
Definition printable (n : number_arg) : Prop :=
  number_letter (n_letter n) /\
  ((conversion (n_letter n)).1 = PRINT_UINT_BINARY -> wrap (mod_bits (n_modifier n)) (n_value n) < 2 ^ 32).

Lemma number_items_denote {A : Allocator} m ns :
  Forall printable ns -> Denotes m (number_items ns) (n_value <$> ns) (number_texts ns).
Proof.
  induction 1 as [|[md c x] ns [Hc Hb] _ IH]; [constructor|]. cbn [n_modifier n_letter n_value] in *.
  destruct (number_letter_known c Hc) as [Hk _].
  unfold number_texts. simpl. rewrite <- app_assoc. apply denotes_spec.
  - split; [constructor|]. simpl. split; [lia|]. split; [lia|done].
  - intros result. apply number_PrintsArg. unfold number_spec.
    split; [split; [constructor|]; simpl; split; [lia|]; split; [lia|done]|]. simpl. split; [lia|]. split; [lia|].
    unfold is_number. cbn [spec_config type]. clear -Hc Hb. each_letter Hc; simpl; try done; by apply Hb.
  - apply denotes_lit; done.
Qed.

Lemma number_items_length ns : zlen ns <= zlen (format_text (number_items ns)).
Proof.
  induction ns as [|n ns IH]; [done|].
  change (format_text (number_items (n :: ns))) with
    (ch "%" :: spec_text (plain_spec (n_modifier n) (n_letter n)) ++ ch " " :: format_text (number_items ns)).
  cbn [length]. rewrite length_app. cbn [length]. lia.
Qed.

(** ** Properties *)

(** C6: what [printf] prints [sscanf] reads back. For every list of numbers, each
    with a decimal, octal, hexadecimal or (below [2^32]) binary conversion and
    any length modifier, [sscanf] with the format and the text of [printf]
    converts them all and stores each value, narrowed to the type of its
    modifier, at the address given for it. *)
Theorem printf_scanf_roundtrip {A : Allocator} (m : mem) (w w' : world) (ns : list number_arg) (ps : list Z)
    (alloc_ok : forall n, malloc_ok n = true) (Hn : Forall printable ns)
    (Hs : store_all w ns ps = Some w') (Hp : zlen ps < 2 ^ 31)
    (Hf : zlen (format_text (number_items ns)) <= 65536) (Ht : zlen (number_texts ns) <= 65536) :
  exists r, wlibc_printf_internal m empty_memory_buffer (format_text (number_items ns)) (n_value <$> ns) = Some r /\
    wlibc_vsscanf w (Some (contents (p_out r))) (Some (format_text (number_items ns))) ps =
      Some (None, Scanned w' (zlen ns)).
Proof.
  pose proof (number_items_denote m ns Hn) as Hd. pose proof (number_items_length ns) as Hl.
  destruct (printf_internal_denotes alloc_ok m _ _ _ Hd) as (r & Hr & Hc & _); [rewrite length_fmap; lia|done|].
  exists r. split; [done|]. rewrite Hc. unfold wlibc_vsscanf, wlibc_scanf_internal.
  assert (Forall (fun n => number_letter (n_letter n)) ns) as Hlet by (eapply Forall_impl; [exact Hn|]; by intros ? []).
  rewrite !strnlen_all; [|by apply number_texts_nonzero|lia|by eapply format_text_nonzero|lia].
  rewrite (scanf_loop_numbers alloc_ok ps ns Hp Hlet _ w w' _ _ _ ps);
    [|auto with buffer|apply rest_string|auto with buffer|apply rest_string| | |done].
  - cbn [mbind option_bind]. rewrite swrap_small by lia. by rewrite Z.add_0_l.
  - split; [apply args_inv_init|]. by rewrite drop_0.
  - rewrite rest_string. unfold fuel_of. simpl. lia.
Qed.

Definition cells (p n : Z) : mem := list_to_map ((fun i => (p + i, 0)) <$> seqZ 0 n).

Lemma printf_scanf_roundtrip_witness :
  let ns := [Num PRINT_MOD_NONE (ch "d") (-42); Num PRINT_MOD_SHORT_SHORT (ch "x") 255; Num PRINT_MOD_NONE (ch "b") 5] in
  exists w' r, store_all (World (cells 1000 16) []) ns [1000; 1004; 1008] = Some w' /\
    wlibc_printf_internal (A := ample) ∅ empty_memory_buffer (format_text (number_items ns)) [-42; 255; 5] = Some r /\
    wlibc_vsscanf (A := ample) (World (cells 1000 16) []) (Some (contents (p_out r)))
      (Some (format_text (number_items ns))) [1000; 1004; 1008] = Some (None, Scanned w' 3).
Proof.
  intros ns. destruct (store_all (World (cells 1000 16) []) ns [1000; 1004; 1008]) as [w'|] eqn:E; [|vm_compute in E; done].
  destruct (@printf_scanf_roundtrip ample ∅ (World (cells 1000 16) []) w' ns [1000; 1004; 1008] (fun _ => eq_refl))
    as (r & H1 & H2).
  - repeat constructor; try (apply bool_decide_unpack; vm_compute; exact I); try done; by vm_compute.
  - exact E.
  - done.
  - by vm_compute.
  - by vm_compute.
  - exact (ex_intro _ w' (ex_intro _ r (conj eq_refl (conj H1 H2)))).
Defined.

(** ** The interpreter terminates *)

#[local] Hint Resolve forward_refl forward_readbyte : core.
#[local] Hint Extern 2 (forward ?f (readbyte ?g).2) =>
  apply (forward_trans f g); [|apply forward_readbyte] : core.

Lemma forward_scan_flags fuel f i : forward f (scan_flags fuel f i).1.
Proof.
  revert f i. induction fuel as [|fuel IH]; intros f i; simpl; [done|].
  assert (forall fl, forward f (scan_flags fuel (readbyte f).2 fl).1) as H
    by (intros; eapply forward_trans; [apply forward_readbyte|apply IH]).
  tests; auto.
Qed.

Lemma forward_scan_length f : forward f (scan_length f).1.
Proof. unfold scan_length. tests; simpl; auto. Qed.

Lemma forward_advance f n : 0 <= n -> peekbyte f 0 <> 0 -> forward f (advance f n).
Proof.
  intros Hn. unfold peekbyte. destruct (error f); [done|]. destruct (pos f + 0 >=? size f) eqn:E; [done|].
  intros _. exists (Z.min (pos f + n) (size f) - pos f). unfold advance, skip. split; [lia|]. f_equal. lia.
Qed.

Lemma forward_parse_set fuel f first exclude s g s' closed :
  parse_set fuel f first exclude s = Some (g, s', closed) -> forward f g.
Proof.
  revert f first exclude s. induction fuel as [|fuel IH]; intros f first exclude s; cbn [parse_set].
  { by intros [= <- _ _]. }
  destruct (peekbyte f 0 =? 0) eqn:E0; [by intros [= <- _ _]|].
  assert (forall h fi ex st, forward f h -> parse_set fuel h fi ex st = Some (g, s', closed) -> forward f g) as Next.
  { intros h fi ex st Hh H. eapply forward_trans; [exact Hh|]. by eapply IH. }
  assert (forward f (advance f 3)) as H3 by (apply forward_advance; lia).
  repeat case_match; intros Hs; try (apply bind_Some in Hs as (? & _ & Hs));
    first [eapply Next; [|exact Hs]; by auto | by simplify_eq; auto].
Qed.

Lemma forward_parse_scan_specifier {A : Allocator} f args g config args' :
  parse_scan_specifier f args = Some (g, config, args') -> forward f g.
Proof.
  unfold parse_scan_specifier. change (scan_position f) with (parse_position f).
  pose proof (forward_parse_position f) as H1. destruct (parse_position f) as [f1 ai]. simpl in H1.
  pose proof (forward_scan_flags (fuel_of f1) f1 0) as H2. destruct (scan_flags _ f1 0) as [f2 fl]. simpl in H2.
  pose proof (forward_parse_number f2) as H3. unfold parse_number.
  destruct (Printf.parse_number f2) as [f3 w]. simpl in H3.
  pose proof (forward_scan_length f3) as H4. destruct (scan_length f3) as [f4 md]. simpl in H4.
  assert (forward f f4) as H14 by exact (forward_trans _ _ _ (forward_trans _ _ _ H1 H2) (forward_trans _ _ _ H3 H4)).
  pose proof (forward_readbyte f4) as H5. destruct (readbyte f4) as [byte f5]. simpl in H5.
  assert (forward f f5) as H15 by exact (forward_trans _ _ _ H14 H5).
  destruct (scan_conversion byte) as [t up]. intros ([[f6 s] t'] & Ht & H)%bind_Some.
  assert (forward f f6) as H16.
  { destruct (decide _); [|by simplify_eq].
    apply bind_Some in Ht as ([[f7 s'] closed] & Hset & Ht). simplify_eq.
    exact (forward_trans _ _ _ H15 (forward_parse_set _ _ _ _ _ _ _ _ Hset)). }
  cbn beta iota in H. destruct (decide (t' = SCAN_UNKNOWN)); [by injection H as <- _ _|].
  destruct (has _ _); [by injection H as <- _ _|]. apply bind_Some in H as ([d a] & _ & H). by injection H as <- _ _.
Qed.

Lemma scanf_loop_fuel {A : Allocator} fuel1 fuel2 w b inp args processed r :
  (todo inp < fuel1)%nat -> (todo inp < fuel2)%nat ->
  scanf_loop fuel1 w b inp args processed r = scanf_loop fuel2 w b inp args processed r.
Proof.
  revert fuel2 w b inp args processed r.
  induction fuel1 as [|fuel1 IH]; intros fuel2 w b inp args processed r H1 H2; [lia|].
  destruct fuel2 as [|fuel2]; [lia|]. cbn [scanf_loop].
  destruct (readbyte inp) as [c inp1] eqn:E. destruct (c =? 0) eqn:E0; [done|].
  apply readbyte_todo in E; [|lia]. destruct (c =? ch "%").
  - destruct (peekbyte inp1 0 =? 0); [done|].
    pose proof (forward_todo _ _ (forward_readbyte inp1)).
    destruct (peekbyte inp1 0 =? ch "%"); [destruct (negb _); [done|apply IH; lia]|].
    destruct (parse_scan_specifier inp1 args) as [[[inp2 config] args2]|] eqn:Ep; [|done]. simpl.
    apply forward_parse_scan_specifier in Ep. pose proof (forward_todo _ _ Ep).
    destruct (decide _); [done|]. destruct (scan_arg _ _ _) as [[[w1 b1] n1]|]; [|done]. simpl.
    destruct (error b1); [done|]. destruct (_ && _); [destruct (_ && _); [done|]|]; apply IH; lia.
  - destruct (IS_SPACE c); [destruct (consume_whitespaces b); apply IH; lia|].
    destruct (negb _); [done|apply IH; lia].
Qed.

(** the interpreter of [scanf] terminates: a round of its loop consumes a byte
    of the format, so that any larger bound on the number of rounds gives the
    same result, for every input, format, argument list and memory. *)
Theorem scanf_terminates {A : Allocator} (w : world) (b : buffer_t) (format args : list Z) (extra : nat) :
  let inp := string_buffer format (strnlen format (Z.to_nat 65536)) in
  scanf_loop (fuel_of inp + extra) w b inp (variadic_args_init args) 0 0 =
  wlibc_scanf_internal w b format args.
Proof.
  cbv zeta. unfold wlibc_scanf_internal. pose proof (strnlen_le format (Z.to_nat 65536)).
  apply scanf_loop_fuel; unfold todo, fuel_of; simpl; lia.
Qed.
