(* ===== verification/ScanSet.v ===== *)
(** * Scan sets

    The bracketed sets of src/stdio/scanf.c: their notation, the set of
    characters the parser makes of it, and the text a conversion accepts. *)

From S2P Require Import Prelude Errno Buffer Convert ConvertFacts Utf Varargs FloatParse.
From S2P Require Import Printf PrintfFacts PrintfSpec Scanf ScanfFacts.

(** ** The bits of a set *)

(** A set of the 128 characters: two words of 64 bits. *)
Definition is_set (s : list Z) : Prop := length s = 2%nat.

Lemma put_bit_get ex s x :
  is_set s -> 0 <= x < 128 ->
  exists s', put_bit ex s x = Some s' /\ is_set s' /\
    forall y, 0 <= y < 128 -> GET_BIT s' y = if y =? x then negb ex else GET_BIT s y.
Proof.
  intros Hs Hx. unfold is_set in *. assert (0 <= x / 64 < 2) as Hw by zlia.
  destruct (lookup_lt_is_Some_2 s (Z.to_nat (x / 64))) as [m Hm]; [lia|].
  unfold put_bit, SET_BIT, UNSET_BIT. rewrite Hm. cbn [mbind option_bind]. rewrite shiftl_bit.
  set (v := if ex then Z.land m (u64 (Z.lnot (2 ^ (x mod 64)))) else Z.lor m (2 ^ (x mod 64))).
  exists (<[Z.to_nat (x / 64) := v]> s). split; [unfold v; by destruct ex|]. split; [by rewrite length_insert|].
  intros y Hy. unfold GET_BIT, byte_at. assert (0 <= y / 64 < 2) by zlia. pose proof (same_bit x y) as Same.
  pose proof (Z.mod_pos_bound x 64). pose proof (Z.mod_pos_bound y 64). rewrite <- Same by lia.
  destruct (y / 64 =? x / 64) eqn:E.
  - apply Z.eqb_eq in E. rewrite E, list_lookup_insert_eq by lia. rewrite Hm. cbn [default from_option id andb].
    unfold v. destruct ex; rewrite ?Z.land_spec, ?Z.lor_spec, ?testbit_lnot_pow2, ?testbit_pow2 by lia;
      destruct (y mod 64 =? x mod 64), (Z.testbit m (y mod 64)); done.
  - by rewrite list_lookup_insert_ne by lia.
Qed.

Lemma set_range_get ex s from to fuel :
  is_set s -> 0 <= from -> to < 128 -> (Z.to_nat (to + 1 - from) < fuel)%nat -> from <= 128 ->
  exists s', set_range fuel ex s from to = Some s' /\ is_set s' /\
    forall y, 0 <= y < 128 -> GET_BIT s' y = if (from <=? y) && (y <=? to) then negb ex else GET_BIT s y.
Proof.
  revert s from. induction fuel as [|fuel IH]; intros s from Hs Hf Ht Hfu Hle; [lia|]. cbn [set_range].
  destruct (from <=? to) eqn:E.
  - destruct (put_bit_get ex s from Hs) as (s1 & -> & Hs1 & Hg1); [lia|]. cbn [mbind option_bind].
    rewrite wrap_small by lia. destruct (IH s1 (from + 1) Hs1) as (s2 & -> & Hs2 & Hg2); [lia..|].
    exists s2. split; [done|]. split; [done|]. intros y Hy. rewrite Hg2, Hg1 by done.
    destruct (y =? from) eqn:E1, ((from + 1 <=? y) && (y <=? to)) eqn:E2, ((from <=? y) && (y <=? to)) eqn:E3; lia || done.
  - exists s. split; [done|]. split; [done|]. intros y Hy.
    by replace ((from <=? y) && (y <=? to)) with false by lia.
Qed.

(** ** The notation of a set *)

Inductive set_item := One (c : Z) | Range (a b : Z).

(** [negated]: it starts with a circumflex; [bracket]: then with a closing
    bracket that is a member; [dash]: it ends with a hyphen that is one. *)
Record set_spec := SetSpec { negated : bool; bracket : bool; members : list set_item; dash : bool }.

Definition item_chars (i : set_item) : list Z :=
  match i with One c => [c] | Range a b => [a; ch "-"; b] end.

Definition members_text (s : set_spec) : list Z :=
  concat (item_chars <$> members s) ++ (if dash s then [ch "-"] else []) ++ [ch "]"].

Definition set_text (s : set_spec) : list Z :=
  (if negated s then [ch "^"] else []) ++ (if bracket s then [ch "]"] else []) ++ members_text s.

Definition in_item (y : Z) (i : set_item) : bool :=
  match i with One c => y =? c | Range a b => (a <=? y) && (y <=? b) end.

(** The characters listed between the brackets, and those the set accepts. *)
Definition listed (s : set_spec) (y : Z) : bool :=
  (bracket s && (y =? ch "]")) || existsb (in_item y) (members s) || (dash s && (y =? ch "-")).

Definition accepts (s : set_spec) (y : Z) : bool := xorb (negated s) (listed s y).

Definition set_char (c : Z) : Prop := 0 < c < 128 /\ c <> ch "]" /\ c <> ch "-".

Definition wf_set_item (i : set_item) : Prop :=
  match i with One c => set_char c | Range a b => set_char a /\ set_char b end.

(** The set is not empty, and one that is not negated does not start with a
    circumflex. *)
Definition wf_set (s : set_spec) : Prop :=
  Forall wf_set_item (members s) /\
  (bracket s = false -> byte_at (members_text s) 0 <> ch "]" /\
     (negated s = false -> byte_at (members_text s) 0 <> ch "^")).

(** ** Parsing the notation *)

(** The first byte of the rest of a set is no hyphen, or it is the last one. *)
Lemma members_head items d tl :
  Forall wf_set_item items ->
  let t := concat (item_chars <$> items) ++ (if d : bool then [ch "-"] else []) ++ ch "]" :: tl in
  byte_at t 0 = ch "-" -> byte_at t 1 = ch "]".
Proof.
  intros Hi. destruct Hi as [|[c|a b] items Hc Hi]; simpl.
  - destruct d; done.
  - rewrite byte_at_cons_0. destruct Hc as (_ & _ & Hc). done.
  - rewrite byte_at_cons_0. destruct Hc as ((_ & _ & Hc) & _). done.
Qed.

(** The rounds of the parser: a character, a range, the closing bracket. *)
Lemma parse_set_one fuel f ex s c t :
  readable f -> rest f = c :: t -> 0 < c < 128 -> c <> ch "]" -> (byte_at t 0 = ch "-" -> byte_at t 1 = ch "]") ->
  is_set s ->
  exists s', parse_set (S fuel) f false ex s = parse_set fuel (skip f 1) false ex s' /\ is_set s' /\
    forall y, 0 <= y < 128 -> GET_BIT s' y = if y =? c then negb ex else GET_BIT s y.
Proof.
  intros R Hr Hc Hb Hd Hs. destruct (read_skip f c t R Hr) as (Hrd & _ & _ & Hp).
  destruct (put_bit_get ex s c Hs) as (s' & Hput & Hs' & Hg); [lia|]. exists s'. split; [|done].
  cbn [parse_set]. rewrite Hrd, Hp, Hput. cbn [andb snd].
  replace (c =? 0) with false by lia. replace (c =? ch "]") with false by lia. replace (c <? 128) with true by lia.
  rewrite !peekbyte_rest, Hr by (done || lia). simpl_bytes.
  destruct (byte_at t 0 =? ch "-") eqn:E; [|done]. apply Z.eqb_eq in E. by rewrite Hd.
Qed.

Lemma advance_skip f n : readable f -> 0 < n <= zlen (rest f) -> advance f n = skip f n.
Proof.
  intros R Hn. unfold advance, skip. f_equal. pose proof (rd_pos _ R). unfold rest, current in Hn.
  rewrite length_take, length_drop in Hn. lia.
Qed.

Lemma parse_set_range_round fuel f ex s a b t :
  readable f -> rest f = a :: ch "-" :: b :: t -> 0 < a < 128 -> a <> ch "]" -> 0 < b < 128 -> b <> ch "]" -> is_set s ->
  exists s', parse_set (S fuel) f false ex s = parse_set fuel (skip f 3) false ex s' /\ is_set s' /\
    forall y, 0 <= y < 128 -> GET_BIT s' y = if (a <=? y) && (y <=? b) then negb ex else GET_BIT s y.
Proof.
  intros R Hr Ha Hab Hb Hbb Hs. destruct (read_skip f a _ R Hr) as (Hrd & _ & _ & Hp).
  destruct (set_range_get ex s a b 256 Hs) as (s' & Hput & Hs' & Hg); [lia..|]. exists s'. split; [|done].
  cbn [parse_set]. rewrite Hrd, Hp. cbn [andb].
  replace (a =? 0) with false by lia. replace (a =? ch "]") with false by lia. replace (a <? 128) with true by lia.
  rewrite !peekbyte_rest, Hr by (done || lia). simpl_bytes. replace (b =? ch "]") with false by lia. change (ch "-" =? ch "-") with true. cbn [andb negb].
  rewrite Hput. cbn [mbind option_bind]. by rewrite advance_skip by (done || rewrite Hr; cbn [length]; lia).
Qed.

Lemma parse_set_close fuel f ex s t :
  readable f -> rest f = ch "]" :: t -> parse_set (S fuel) f false ex s = Some (skip f 1, s, true).
Proof. intros R Hr. cbn [parse_set]. by destruct (read_skip f _ t R Hr) as (-> & _ & _ & ->). Qed.

Lemma parse_members ex items d tl :
  Forall wf_set_item items ->
  forall fuel f s,
    readable f -> is_set s ->
    rest f = concat (item_chars <$> items) ++ (if d : bool then [ch "-"] else []) ++ ch "]" :: tl ->
    (length (rest f) < fuel)%nat ->
    exists s', parse_set fuel f false ex s = Some (skip f (zlen (rest f) - zlen tl), s', true) /\ is_set s' /\
      forall y, 0 <= y < 128 ->
        GET_BIT s' y = if existsb (in_item y) items || (d && (y =? ch "-")) then negb ex else GET_BIT s y.
Proof.
  intros Hi. induction Hi as [|[c|a b] items Hc Hi IH]; intros fuel f s R Hs Hr Hf;
    (destruct fuel as [|fuel]; [lia|]); cbn [fmap list_fmap concat item_chars app] in Hr; rewrite Hr in *.
  - destruct d; cbn [app length existsb orb andb] in *.
    + destruct (parse_set_one fuel f ex s (ch "-") (ch "]" :: tl)) as (s' & -> & Hs' & Hg); try done.
      destruct (read_skip f _ _ R Hr) as (_ & Hr1 & R1 & _). destruct fuel as [|fuel]; [lia|].
      rewrite (parse_set_close fuel _ _ _ tl R1 Hr1), skip_skip by lia. exists s'.
      split; [do 4 f_equal; lia|]. by split.
    + rewrite (parse_set_close fuel _ _ _ tl R Hr). exists s. split; [do 4 f_equal; lia|]. by split.
  - destruct Hc as (Hc & Hb & Hd).
    destruct (parse_set_one fuel f ex s c _ R Hr Hc Hb (members_head items d tl Hi) Hs) as (s1 & -> & Hs1 & Hg1).
    destruct (read_skip f _ _ R Hr) as (_ & Hr1 & R1 & _).
    destruct (IH fuel (skip f 1) s1 R1 Hs1 Hr1) as (s2 & -> & Hs2 & Hg2); [rewrite Hr1; simpl in Hf; lia|].
    exists s2. rewrite Hr1, skip_skip by (rewrite ?length_app; simpl; rewrite ?length_app; simpl; lia).
    split; [do 4 f_equal; cbn [length]; lia|]. split; [done|]. intros y Hy. rewrite Hg2, Hg1 by done. cbn [existsb in_item].
    destruct (y =? c), (existsb (in_item y) items), (d && (y =? ch "-")); done.
  - destruct Hc as ((Ha & Hab & _) & (Hb & Hbb & _)).
    destruct (parse_set_range_round fuel f ex s a b _ R Hr Ha Hab Hb Hbb Hs) as (s1 & -> & Hs1 & Hg1).
    pose proof (rest_skip f [a; ch "-"; b] _ R Hr) as Hr1. change (zlen [a; ch "-"; b]) with 3 in Hr1.
    pose proof (skip_readable f 3 R ltac:(lia)) as R1.
    destruct (IH fuel (skip f 3) s1 R1 Hs1 Hr1) as (s2 & -> & Hs2 & Hg2); [rewrite Hr1; simpl in Hf; lia|].
    exists s2. rewrite Hr1, skip_skip by (rewrite ?length_app; simpl; rewrite ?length_app; simpl; lia).
    split; [do 4 f_equal; cbn [length]; lia|]. split; [done|]. intros y Hy. rewrite Hg2, Hg1 by done. cbn [existsb in_item].
    destruct ((a <=? y) && (y <=? b)), (existsb (in_item y) items), (d && (y =? ch "-")); done.
Qed.

Lemma full_set y : 0 <= y < 128 -> GET_BIT [0xFFFFFFFFFFFFFFFF; 0xFFFFFFFFFFFFFFFF] y = true.
Proof.
  intros Hy. unfold GET_BIT. assert (y / 64 = 0 \/ y / 64 = 1) as H by zlia.
  change 0xFFFFFFFFFFFFFFFF with (Z.ones 64). pose proof (Z.mod_pos_bound y 64).
  destruct H as [-> | ->]; cbn [byte_at]; apply Z.ones_spec_low; lia.
Qed.

Lemma empty_set y : GET_BIT [0; 0] y = false.
Proof.
  unfold GET_BIT, byte_at. destruct (Z.to_nat (y / 64)) as [|[|n]]; simpl; by rewrite ?lookup_nil, Z.bits_0.
Qed.

(** From the members on. *)
Lemma parse_members_text fuel f ex bits s tl :
  readable f -> rest f = members_text s ++ tl -> Forall wf_set_item (members s) -> is_set bits ->
  (length (members_text s ++ tl) < fuel)%nat ->
  exists bits', parse_set fuel f false ex bits = Some (skip f (zlen (members_text s)), bits', true) /\ is_set bits' /\
    forall y, 0 <= y < 128 -> GET_BIT bits' y =
      if existsb (in_item y) (members s) || (dash s && (y =? ch "-")) then negb ex else GET_BIT bits y.
Proof.
  intros R Hr Hm Hb Hf. assert (zlen (rest f) - zlen tl = zlen (members_text s)) as E by (rewrite Hr, length_app; lia).
  rewrite <- E. rewrite <- Hr in Hf. apply parse_members; try done.
  rewrite Hr. unfold members_text. by rewrite <- !app_assoc.
Qed.

(** A first byte without a special meaning. *)
Lemma parse_set_first fuel f ex s :
  peekbyte f 0 <> ch "]" -> peekbyte f 0 <> ch "^" -> parse_set (S fuel) f true ex s = parse_set (S fuel) f false ex s.
Proof.
  intros H1 H2. cbn [parse_set]. replace (peekbyte f 0 =? ch "]") with false by lia.
  by replace (peekbyte f 0 =? ch "^") with false by lia.
Qed.

(** The notation of a set is parsed into the characters it accepts. *)
Lemma parse_set_text f s tl :
  readable f -> rest f = set_text s ++ tl -> wf_set s ->
  exists bits, parse_set (fuel_of f) f true false [0; 0] = Some (skip f (zlen (set_text s)), bits, true) /\
    is_set bits /\ forall y, 0 <= y < 128 -> GET_BIT bits y = accepts s y.
Proof.
  intros R Hr [Hm Hh]. pose proof (rest_length f R) as Hl. rewrite Hr in Hl. unfold fuel_of.
  unfold set_text, accepts, listed in *. destruct (negated s), (bracket s); cbn [app] in *.
  - destruct (read_skip f _ _ R Hr) as (Hrd & Hr1 & R1 & Hp). destruct (read_skip _ _ _ R1 Hr1) as (Hrd1 & Hr2 & R2 & Hp1).
    destruct (put_bit_get true [0xFFFFFFFFFFFFFFFF; 0xFFFFFFFFFFFFFFFF] (ch "]")) as (bits & Hput & Hb & Hg); [done|lia|].
    destruct (parse_members_text (length (data f)) (skip (skip f 1) 1) true bits s tl) as (bits' & Hps & Hb' & Hg');
      [done|done|done|done|simpl in Hl; lia|].
    exists bits'. split; [|split; [done|]].
    + cbn [parse_set]. rewrite Hp, Hrd. cbn [andb Z.eqb Pos.eqb snd]. rewrite peekbyte_rest, Hr by (done || lia).
      change (byte_at (ch "^" :: ch "]" :: members_text s ++ tl) 1 =? ch "]") with true. cbv iota.
      change (UNSET_BIT _ _) with (put_bit true [0xFFFFFFFFFFFFFFFF; 0xFFFFFFFFFFFFFFFF] (ch "]")).
      rewrite Hput, Hrd1. cbn [mbind option_bind snd]. rewrite Hps, !skip_skip by lia. do 4 f_equal. cbn [length]. lia.
    + intros y Hy. rewrite Hg', Hg, full_set by done. cbn [andb orb]. by destruct (y =? ch "]"), (existsb _ _), (dash s && _).
  - destruct (read_skip f _ _ R Hr) as (Hrd & Hr1 & R1 & Hp).
    destruct (parse_members_text (length (data f)) (skip f 1) true [0xFFFFFFFFFFFFFFFF; 0xFFFFFFFFFFFFFFFF] s tl)
      as (bits' & Hps & Hb' & Hg'); [done|done|done|done|simpl in Hl; lia|].
    exists bits'. split; [|split; [done|]].
    + cbn [parse_set]. rewrite Hp, Hrd. cbn [andb Z.eqb Pos.eqb snd]. rewrite peekbyte_rest, Hr, byte_at_cons_S by (done || lia).
      assert (byte_at (members_text s ++ tl) 0 <> ch "]") as Hn.
      { rewrite byte_at_app_l; [by apply Hh|]. unfold members_text. rewrite !length_app. simpl. lia. }
      replace (byte_at (members_text s ++ tl) (1 - 1) =? ch "]") with false by (symmetry; by apply Z.eqb_neq).
      rewrite Hps, skip_skip by lia. do 4 f_equal. cbn [length]. lia.
    + intros y Hy. rewrite Hg', full_set by done. cbn [andb orb]. by destruct (existsb _ _), (dash s && _).
  - destruct (read_skip f _ _ R Hr) as (Hrd & Hr1 & R1 & Hp).
    destruct (put_bit_get false [0; 0] (ch "]")) as (bits & Hput & Hb & Hg); [done|lia|].
    destruct (parse_members_text (length (data f)) (skip f 1) false bits s tl) as (bits' & Hps & Hb' & Hg');
      [done|done|done|done|simpl in Hl; lia|].
    exists bits'. split; [|split; [done|]].
    + cbn [parse_set]. rewrite Hp, Hrd. cbn [andb Z.eqb Pos.eqb snd]. change (SET_BIT ?s ?x) with (put_bit false s x).
      rewrite Hput. cbn [mbind option_bind]. rewrite Hps, skip_skip by lia. do 4 f_equal. cbn [length]. lia.
    + intros y Hy. rewrite Hg', Hg, empty_set by done. cbn [andb orb xorb]. by destruct (y =? ch "]"), (existsb _ _), (dash s && _).
  - destruct (Hh eq_refl) as [H1 H2]. specialize (H2 eq_refl).
    assert (byte_at (members_text s ++ tl) 0 = byte_at (members_text s) 0) as Hb0
      by (apply byte_at_app_l; unfold members_text; rewrite !length_app; simpl; lia).
    rewrite parse_set_first by (rewrite peek_head, Hr, Hb0 by done; done).
    destruct (parse_members_text (S (length (data f))) f false [0; 0] s tl) as (bits' & Hps & Hb' & Hg'); [done|done|done|done|lia|].
    exists bits'. split; [done|]. split; [done|].
    intros y Hy. rewrite Hg', empty_set by done. cbn [andb orb xorb]. by destruct (existsb _ _), (dash s && _).
Qed.

(** ** Reading with a set *)

Lemma store_bytes_app w p l k :
  store_bytes w p (l ++ k) = (w ← store_bytes w p l; store_bytes w (p + zlen l) k).
Proof.
  revert w p. induction l as [|x l IH]; intros w p; cbn [app store_bytes].
  - simpl. by rewrite Z.add_0_r.
  - destruct (store w 1 (address p) x) as [w1|]; [|done]. cbn [mbind option_bind]. rewrite IH.
    replace (p + 1 + zlen l) with (p + zlen (x :: l)) by (cbn [length]; lia). done.
Qed.

(** The bytes a set of the notation [s] accepts. *)
Definition accepted (s : set_spec) (c : Z) : bool := (c <=? 127) && accepts s c.

Section Read.
Context {A : Allocator}.

Lemma set_loop_text bits s p pre tl :
  (forall y, 0 <= y < 128 -> GET_BIT bits y = accepts s y) ->
  Forall (fun c => 0 < c /\ accepted s c = true) pre -> 0 <= byte_at tl 0 ->
  (byte_at tl 0 = 0 \/ accepted s (byte_at tl 0) = false) ->
  forall fuel w w' b i r,
    readable b -> rest b = pre ++ tl -> (length pre < fuel)%nat -> store_bytes w (p + i) pre = Some w' -> is_u32 r ->
    set_loop fuel w (to_array (address p) i) b SCAN_MOD_NONE bits r =
      Some (w', to_array (address p) (i + zlen pre), skip b (zlen pre), u32 (r + zlen pre)).
Proof.
  intros Hbits Hpre H0 Hend. assert (forall c, 0 <= c -> in_set bits c = accepted s c) as Hin.
  { intros c Hc. unfold in_set, accepted. destruct (c <=? 127) eqn:E; [|done]. rewrite Hbits by lia. done. }
  induction Hpre as [|c pre [Hc Ha] _ IH]; intros fuel w w' b i r R Hr Hf Hs Hru; (destruct fuel as [|fuel]; [lia|]);
    cbn [set_loop].
  - injection Hs as <-. rewrite peek_head, Hr by done. cbn [app length]. rewrite skip_0, !Z.add_0_r, (wrap_small 32 r) by lia.
    destruct (byte_at tl 0 =? 0) eqn:E; [done|]. rewrite Hin by done. destruct Hend as [He|He]; [lia|]. by rewrite He.
  - destruct (read_skip b c (pre ++ tl) R Hr) as (-> & Hr1 & R1 & ->). cbn [snd].
    replace (c =? 0) with false by lia. rewrite Hin, Ha by lia.
    cbn [store_bytes] in Hs. cbn [set_unit put_each put store_bytes].
    destruct (store w 1 (address (p + i)) c) as [w1|]; [|done]. cbn [mbind option_bind] in *.
    replace (p + i + 1) with (p + (i + 1)) in Hs by lia. cbn [length] in *. change (zlen [c]) with 1.
    rewrite (IH fuel w1 w'); [|done|done|lia|done|apply (wrap_range 32); lia].
    rewrite skip_skip, wrap_add_l by lia.
    replace (i + Z.of_nat (S (length pre))) with (i + 1 + zlen pre) by lia.
    replace (r + Z.of_nat (S (length pre))) with (r + 1 + zlen pre) by lia.
    by replace (Z.of_nat (S (length pre))) with (1 + zlen pre) by lia.
Qed.

(** The specification [%[...]] without flags or width. *)
Lemma parse_set_start f t args :
  readable f -> rest f = ch "[" :: t ->
  parse_scan_specifier f args =
    ('(format, s, closed) ← parse_set (fuel_of (skip f 1)) (skip f 1) true false [0; 0];
     if closed : bool then
       '(d, args) ← variadic_args_get args 0;
       Some (format, ScanConfig SCAN_SET SCAN_MOD_NONE 0 0 0 0 (address d) s, args)
     else Some (format, ScanConfig SCAN_UNKNOWN SCAN_MOD_NONE 0 0 0 0 (address 0) s, args)).
Proof.
  intros R Hr. destruct (read_skip f _ _ R Hr) as (Hrd & Hr1 & R1 & Hp).
  unfold parse_scan_specifier. change (scan_position f) with (parse_position f).
  rewrite (parse_position_none f [ch "["] t R Hr);
    [|rewrite list_elem_of_singleton; done|by intros [? _]%Forall_cons].
  rewrite (scan_flags_text _ f [] _ 0 R Hr (Forall_nil_2 _)) by (done || (unfold fuel_of; simpl; lia)). rewrite skip_0.
  unfold parse_number. rewrite (parse_number_text f 0 (ch "[" :: t) R) by (done || lia). rewrite skip_0.
  unfold scan_length. rewrite Hp. cbn [Z.eqb Pos.eqb]. rewrite Hrd.
  change (scan_conversion (ch "[")) with (SCAN_SET, 0). cbv iota beta. rewrite decide_True by done.
  destruct (parse_set _ _ _ _ _) as [[[format s] closed]|]; [|done]. by destruct closed.
Qed.

Lemma parse_set_specifier f s tl args p args' :
  readable f -> rest f = ch "[" :: set_text s ++ tl -> wf_set s -> variadic_args_get args 0 = Some (p, args') ->
  exists bits, (forall y, 0 <= y < 128 -> GET_BIT bits y = accepts s y) /\
    parse_scan_specifier f args =
      Some (skip f (1 + zlen (set_text s)), ScanConfig SCAN_SET SCAN_MOD_NONE 0 0 0 0 (address p) bits, args').
Proof.
  intros R Hr W Hg. destruct (read_skip f _ _ R Hr) as (_ & Hr1 & R1 & _).
  destruct (parse_set_text (skip f 1) s tl R1 Hr1 W) as (bits & Hps & _ & Hbits). exists bits. split; [done|].
  rewrite (parse_set_start f _ args R Hr), Hps. cbn [mbind option_bind]. rewrite Hg. cbn [mbind option_bind].
  by rewrite skip_skip by lia.
Qed.

(** A set conversion into an array: the accepted prefix and a NUL. *)
Lemma scan_set_text bits s p pre tl w w' b processed :
  (forall y, 0 <= y < 128 -> GET_BIT bits y = accepts s y) ->
  Forall (fun c => 0 < c /\ accepted s c = true) pre -> 0 <= byte_at tl 0 ->
  (byte_at tl 0 = 0 \/ accepted s (byte_at tl 0) = false) -> zlen pre < 2 ^ 32 ->
  readable b -> rest b = pre ++ tl -> store_bytes w p (pre ++ [0]) = Some w' ->
  scan_arg w b (ScanConfig SCAN_SET SCAN_MOD_NONE 0 0 0 processed (address p) bits) =
    Some (w', skip b (zlen pre), zlen pre).
Proof.
  intros Hbits Hpre H0 Hend Hl R Hr Hst. rewrite store_bytes_app in Hst.
  destruct (store_bytes w p pre) as [w1|] eqn:Hw; [|done]. cbn [mbind option_bind store_bytes] in Hst.
  unfold scan_arg. cbn [stype swidth]. change (0 >? 0) with false. cbv iota.
  unfold do_scan, scan_set, open_sink. cbn [stype sflags smodifier sset sdata].
  change (has 0 SCAN_ALLOCATE_STRING) with false. change (has 0 SCAN_SUPPRESS_INPUT) with false. cbv iota.
  rewrite (set_loop_text bits s p pre tl Hbits Hpre H0 Hend _ w w1 b 0 0); try done; [| |by rewrite Z.add_0_r].
  - cbn [mbind option_bind terminator put_each put store_bytes]. rewrite Z.add_0_l.
    destruct (store w1 1 (address (p + zlen pre)) 0) as [w2|]; [|done]. cbn [mbind option_bind] in *. simplify_eq.
    cbn [mbind option_bind close_sink]. rewrite !Z.add_0_l, !wrap_small; [done|lia|]. rewrite wrap_small; lia.
  - pose proof (rest_length b R) as L. rewrite Hr, length_app in L. unfold fuel_of. lia.
Qed.

End Read.

Lemma set_text_nonzero s : wf_set s -> Forall (fun c => c <> 0) (set_text s).
Proof.
  intros [Hm _]. unfold set_text, members_text. rewrite !Forall_app. split_and!.
  - destruct (negated s); by repeat constructor.
  - destruct (bracket s); by repeat constructor.
  - induction Hm as [|[c|a b] items Hc _ IH]; simpl; [constructor| |].
    + constructor; [|done]. destruct Hc. lia.
    + destruct Hc as [[? _] [? _]]. repeat (constructor; [lia|]). done.
  - destruct (dash s); by repeat constructor.
  - by repeat constructor.
Qed.

(** ** Properties *)

(** C23: a scan set reads the longest prefix of its characters. For every set
    notation (characters, ranges, a leading circumflex, a leading bracket, a
    trailing hyphen) and every input, [sscanf] with that one conversion stores
    the longest prefix of accepted characters and a NUL, and returns 1, or 0
    when the prefix is empty. *)
Theorem scanset_reads {A : Allocator} (w w' : world) (s : set_spec) (p : Z) (pre tl : list Z)
    (alloc_ok : forall n, malloc_ok n = true) (W : wf_set s)
    (Hpre : Forall (fun c => 0 < c /\ accepted s c = true) pre) (Htl : Forall (fun c => 0 < c) tl)
    (Hend : tl = [] \/ accepted s (byte_at tl 0) = false) (Hst : store_bytes w p (pre ++ [0]) = Some w')
    (Hl : zlen (pre ++ tl) <= 65536) (Hf : zlen (set_text s) < 65535) :
  wlibc_vsscanf w (Some (pre ++ tl)) (Some (ch "%" :: ch "[" :: set_text s)) [p] =
    Some (None, Scanned w' (if bool_decide (pre = []) then 0 else 1)).
Proof.
  unfold wlibc_vsscanf, wlibc_scanf_internal. pose proof (set_text_nonzero s W) as Hnz.
  assert (Forall (fun c => c <> 0) (ch "%" :: ch "[" :: set_text s)) as Hfz by (by repeat constructor).
  assert (Forall (fun c => c <> 0) (pre ++ tl)) as Hiz.
  { apply Forall_app. split; (eapply Forall_impl; [eassumption|]); cbn; lia. }
  rewrite !strnlen_all by (done || (cbn [length]; lia)). set (b := string_buffer (pre ++ tl) _).
  set (inp := string_buffer (ch "%" :: ch "[" :: set_text s) _).
  assert (readable b /\ readable inp) as [R Ri] by (subst b inp; split; auto with buffer).
  assert (rest b = pre ++ tl /\ rest inp = ch "%" :: ch "[" :: set_text s) as [Hr Hi] by (split; apply rest_string).
  destruct (read_skip inp _ _ Ri Hi) as (Hb & Hi1 & Ri1 & _). rewrite length_app in Hl.
  destruct (get_next alloc_ok [p] (variadic_args_init [p]) p []) as (a' & Hg & _);
    [simpl; lia|split; [apply args_inv_init|done]|].
  destruct (parse_set_specifier (skip inp 1) s [] (variadic_args_init [p]) p a' Ri1) as (bits & Hbits & Hps); [by rewrite app_nil_r|done|done|].
  assert (0 <= byte_at tl 0) as H0 by (destruct Htl; [done|]; rewrite byte_at_cons_0; lia).
  unfold fuel_of. cbn [scanf_loop]. rewrite Hb. change (ch "%" =? 0) with false. change (ch "%" =? ch "%") with true. cbv iota.
  rewrite peek_head, Hi1, byte_at_cons_0 by done. change (ch "[" =? 0) with false. change (ch "[" =? ch "%") with false. cbv iota.
  rewrite Hps. cbn [mbind option_bind stype smodifier sflags swidth sindex sdata sset]. rewrite decide_False by done.
  rewrite (scan_set_text bits s p pre tl w w') by (done || lia || (destruct Hend as [->|]; [by left|by right])).
  cbn [mbind option_bind]. rewrite (rd_error _ (skip_readable b (zlen pre) R ltac:(lia))).
  rewrite bool_decide_eq_true_2, bool_decide_eq_false_2 by (done || tauto). cbn [andb orb negb].
  change (has 0 SCAN_SUPPRESS_INPUT) with false. cbn [andb negb].
  rewrite skip_skip by lia. set (e := skip inp _).
  assert (readable e /\ rest e = []) as [Re He].
  { split; [by apply skip_readable; [|lia]|]. unfold e. rewrite Z.add_assoc.
    rewrite <- (app_nil_r (_ :: _)) in Hi. apply (rest_skip inp _ [] Ri) in Hi. rewrite <- Hi. do 2 f_equal. cbn [length]. lia. }
  rewrite peek_head, He by done. change (byte_at [] 0 =? 0) with true. rewrite andb_true_r.
  destruct pre as [|c pre]; [done|]. rewrite bool_decide_eq_false_2 by done.
  change (zlen (c :: pre) =? 0) with false. cbv iota.
  cbn [data inp string_buffer length scanf_loop]. pose proof (readbyte_nil e Re He) as Hend'.
  destruct (readbyte e) as [k e']. simpl in Hend'. by subst k.
Qed.

Definition letters : set_spec := SetSpec false false [Range (ch "a") (ch "z")] false.

Lemma scanset_reads_witness :
  wf_set letters /\ exists w', store_bytes (World (cells 1000 8) []) 1000 [ch "a"; ch "b"; 0] = Some w' /\
    wlibc_vsscanf (A := ample) (World (cells 1000 8) []) (Some [ch "a"; ch "b"; ch "1"])
      (Some [ch "%"; ch "["; ch "a"; ch "-"; ch "z"; ch "]"]) [1000] = Some (None, Scanned w' 1).
Proof.
  assert (wf_set letters) as W.
  { split; [constructor; [|constructor]; repeat split; lia|]. intros _. split; [|intros _]; discriminate. }
  split; [exact W|].
  destruct (store_bytes (World (cells 1000 8) []) 1000 [ch "a"; ch "b"; 0]) as [w'|] eqn:E; [|vm_compute in E; done].
  exists w'. split; [reflexivity|].
  apply (@scanset_reads ample (World (cells 1000 8) []) w' letters 1000 [ch "a"; ch "b"] [ch "1"] (fun _ => eq_refl) W).
  - repeat constructor; lia.
  - repeat constructor; lia.
  - right. reflexivity.
  - exact E.
  - vm_compute. discriminate.
  - vm_compute. reflexivity.
Defined.

(** ** Where formatted input departs from its contract

    Inputs on which src/stdio/scanf.c reports a conversion that did not happen,
    reads nothing, or has no defined behaviour. *)
(** ** Formats of one conversion *)

Section Single.
Context {A : Allocator} (alloc_ok : forall n, malloc_ok n = true).

Lemma scan_text_head s : wf_scan s -> exists c t, scan_text s = c :: t /\ c <> 0 /\ c <> ch "%".
Proof.
  intros (Hf & Hw & Hc).
  assert (forall c t, scan_flag_bit c <> 0 -> exists c' t', c :: t = c' :: t' /\ c' <> 0 /\ c' <> ch "%") as Flag.
  { intros c t H. exists c, t. split; [done|]. split; intros ->; done. }
  unfold scan_text. destruct Hf as [|c cs Hc' _]; [|by apply Flag]. cbn [app].
  pose proof (size_text_chars _ Hw) as Hs. destruct (size_text (ss_width s)) as [|c t].
  - cbn [app]. destruct (ss_modifier s); cbn [modifier_text app]; try (do 2 eexists; split; [done|]; done).
    exists (ss_conversion s), []. split; [done|].
    pose proof (plain_all (fun c => negb (c =? 0) && negb (c =? ch "%")) _ Hc eq_refl) as P. simpl in P. lia.
  - apply Forall_cons in Hs as [Hs _]. do 2 eexists. split; [done|]. unfold spec_char in Hs.
    destruct (c =? 0) eqn:E0; [done|]. destruct (c =? ch "$"); [done|]. destruct (c =? ch "%") eqn:E1; [done|]. lia.
Qed.

(** One conversion that stores to [p]: what it counts decides the result. *)
Lemma scanf_single w b s p :
  wf_scan s -> has (scan_spec_flags s) SCAN_SUPPRESS_INPUT = false -> (scan_conversion (ss_conversion s)).1 <> SCAN_RESULT ->
  Forall (fun c => c <> 0) (scan_text s) -> zlen (scan_text s) < 65536 ->
  (forall w' b' n, scan_arg w b (scan_spec_config s 0 (address p)) = Some (w', b', n) -> error b' = false) ->
  wlibc_scanf_internal w b (ch "%" :: scan_text s) [p] =
    ('(w', _, n) ← scan_arg w b (scan_spec_config s 0 (address p)); Some (Scanned w' (if n =? 0 then 0 else 1))).
Proof.
  intros W Hns Hres Hnz Hl Herr. unfold wlibc_scanf_internal.
  rewrite strnlen_all by ((by constructor) || (cbn [length]; lia)). set (inp := string_buffer _ _).
  assert (readable inp) as Ri by (subst inp; auto with buffer).
  assert (rest inp = ch "%" :: scan_text s) as Hi by apply rest_string.
  destruct (read_skip inp _ _ Ri Hi) as (Hb & Hi1 & Ri1 & _).
  destruct (get_next alloc_ok [p] (variadic_args_init [p]) p []) as (a' & Hg & _);
    [simpl; lia|split; [apply args_inv_init|done]|].
  unfold fuel_of. cbn [scanf_loop]. rewrite Hb. change (ch "%" =? 0) with false. change (ch "%" =? ch "%") with true. cbv iota.
  destruct (scan_text_head s W) as (k & t & Hk & Hk0 & Hkp).
  assert (peekbyte (skip inp 1) 0 = k) as -> by (by rewrite peek_head, Hi1, Hk, byte_at_cons_0 by done).
  replace (k =? 0) with false by lia. replace (k =? ch "%") with false by lia.
  rewrite (parse_scan_text (skip inp 1) s [] _ (address p) a'); [|done|by rewrite app_nil_r|done|rewrite Hns; by exists p].
  cbn [mbind option_bind]. rewrite decide_False by (by destruct W as (_ & _ & ? & _)).
  change (ScanConfig _ _ _ _ _ _ _ _) with (scan_spec_config s 0 (address p)).
  destruct (scan_arg _ _ _) as [[[w' b'] n]|] eqn:Es; [|done]. cbn [mbind option_bind]. rewrite (Herr _ _ _ eq_refl).
  cbn [scan_spec_config stype sflags]. rewrite Hns, !bool_decide_eq_true_2 by (done || by destruct W as (_ & _ & _ & ?)).
  cbn [andb negb orb]. destruct (n =? 0); cbn [andb]; [done|].
  rewrite skip_skip by lia. set (e := skip inp _).
  assert (readable e /\ rest e = []) as [Re He].
  { split; [by apply skip_readable; [|lia]|]. unfold e.
    rewrite <- (app_nil_r (_ :: _)) in Hi. apply (rest_skip inp _ [] Ri) in Hi. rewrite <- Hi. do 2 f_equal. cbn [length]. lia. }
  cbn [data inp string_buffer length scanf_loop]. pose proof (readbyte_nil e Re He) as Hend.
  destruct (readbyte e) as [c e']. simpl in Hend. by subst c.
Qed.

End Single.

(** ** White space counts as a number *)

Lemma int_from_dec_nothing b flags :
  readable b -> dec_ends (rest b) -> byte_at (rest b) 0 <> ch "+" -> byte_at (rest b) 0 <> ch "-" ->
  int_from_dec_common b flags = (b, 0, 0).
Proof.
  intros R He Hp Hm. unfold int_from_dec_common. rewrite peek_head by done.
  replace (byte_at (rest b) 0 =? ch "+") with false by lia. replace (byte_at (rest b) 0 =? ch "-") with false by lia.
  cbn [orb]. unfold fuel_of. cbn [dec_digits_loop]. unfold fuel_of. by rewrite parse_digits_end.
Qed.

(** white space in front of something that is no number is counted as a
    number: [sscanf] with [%d] reports one conversion and stores 0, where
    nothing was converted. *)
Theorem scanf_space_counts {A : Allocator} (w w' : world) (p : Z) (ws tl : list Z)
    (alloc_ok : forall n, malloc_ok n = true)
    (Hws : ws <> []) (Hsp : Forall (fun c => IS_SPACE c = true) ws) (Hl : zlen (ws ++ tl) <= 65536)
    (Hnz : Forall (fun c => c <> 0) (ws ++ tl)) (Hs : IS_SPACE (byte_at tl 0) = false) (Hd : dec_ends tl)
    (Hp : byte_at tl 0 <> ch "+") (Hm : byte_at tl 0 <> ch "-") (Hst : store w 4 (address p) 0 = Some w') :
  wlibc_vsscanf w (Some (ws ++ tl)) (Some [ch "%"; ch "d"]) [p] = Some (None, Scanned w' 1).
Proof.
  unfold wlibc_vsscanf. rewrite strnlen_all by (done || lia). set (b := string_buffer _ _).
  assert (readable b) as R by (subst b; auto with buffer). assert (rest b = ws ++ tl) as Hr by apply rest_string.
  set (s := ScanSpec [] 0 PRINT_MOD_NONE (ch "d")). rewrite length_app in Hl.
  assert (scan_arg w b (scan_spec_config s 0 (address p)) = Some (w', skip b (zlen ws), zlen ws)) as Ha.
  { change (scan_spec_config s 0 (address p)) with (ScanConfig SCAN_INT_NUMBER SCAN_MOD_NONE 0 0 0 0 (address p) [0; 0]).
    unfold scan_arg. cbn [stype swidth]. rewrite (consume_whitespaces_text b ws tl R Hr Hsp Hs).
    change (0 >? 0) with false. cbv iota. unfold do_scan, scan_int_number, i32_from_dec, save. cbn [stype smodifier sflags sdata].
    pose proof (rest_skip b ws tl R Hr) as Hr1. pose proof (skip_readable b (zlen ws) R ltac:(lia)) as R1.
    rewrite <- Hr1 in Hd, Hp, Hm. rewrite (int_from_dec_nothing _ _ R1 Hd Hp Hm). cbn [snarrow].
    change (swrap 32 0) with 0. rewrite Hst. cbn [mbind option_bind]. change (u32 (0 + 0)) with 0.
    rewrite Z.add_0_r, !wrap_small by (rewrite ?wrap_small; lia). done. }
  change [ch "%"; ch "d"] with (ch "%" :: scan_text s).
  rewrite (scanf_single alloc_ok w b s p); [|split; [constructor|]; split; [simpl; lia|done]|done|done
    |by repeat constructor|done|].
  - rewrite Ha. cbn [mbind option_bind]. by destruct ws.
  - intros w1 b1 n. rewrite Ha. intros [= <- <- <-]. by apply skip_readable; [|lia].
Qed.

Lemma scanf_space_counts_witness :
  exists w', store (World (cells 1000 8) []) 4 (address 1000) 0 = Some w' /\
    wlibc_vsscanf (A := ample) (World (cells 1000 8) []) (Some [ch " "; ch "x"]) (Some [ch "%"; ch "d"]) [1000] =
      Some (None, Scanned w' 1).
Proof.
  destruct (store (World (cells 1000 8) []) 4 (address 1000) 0) as [w'|] eqn:E; [|vm_compute in E; done].
  exists w'. split; [reflexivity|].
  apply (@scanf_space_counts ample (World (cells 1000 8) []) w' 1000 [ch " "] [ch "x"] (fun _ => eq_refl)); try done.
  - repeat constructor.
  - repeat constructor; done.
  - right. done.
Defined.

(** ** Wide strings *)

Lemma string_head (c : Z) (tl : list Z) :
  let b := string_buffer (c :: tl) (zlen (c :: tl)) in
  c <> 0 -> IS_SPACE c = false ->
  readable b /\ rest b = c :: tl /\ peekbyte b 0 = c /\ consume_whitespaces b = (b, 0) /\ pending b = zlen (c :: tl) /\
  current b = c :: tl.
Proof.
  intros b H0 Hs. assert (readable b) as R by (subst b; auto with buffer).
  assert (rest b = c :: tl) as Hr by apply rest_string.
  split; [done|]. split; [done|]. split; [by rewrite peek_head, Hr by done|].
  split; [apply no_whitespaces; [done|by rewrite Hr]|]. split; [|done]. unfold pending. simpl. lia.
Qed.

(** wide strings are not read. [(uint8_t)pending] is 0 when a multiple of 256
    bytes is left, and the decoder then sees none of them: [%ls] stores
    nothing and [sscanf] returns 0. With the [m] flag the code units are
    written through a block that was never allocated, which is undefined. *)
Theorem scanf_wide_string_faults {A : Allocator} (w : world) (p c : Z) (tl : list Z)
    (alloc_ok : forall n, malloc_ok n = true) (Hc : 0 < c < 128) (Hs : IS_SPACE c = false)
    (Hnz : Forall (fun x => x <> 0) tl) (Hl : zlen (c :: tl) <= 65536) :
  (zlen (c :: tl) mod 256 = 0 ->
   wlibc_vsscanf w (Some (c :: tl)) (Some [ch "%"; ch "l"; ch "s"]) [p] = Some (None, Scanned w 0)) /\
  (zlen (c :: tl) mod 256 <> 0 ->
   wlibc_vsscanf w (Some (c :: tl)) (Some [ch "%"; ch "m"; ch "l"; ch "s"]) [p] = None).
Proof.
  destruct (string_head c tl ltac:(lia) Hs) as (R & Hr & Hp & Hw & Hpe & Hcu).
  unfold wlibc_vsscanf. rewrite strnlen_all by ((constructor; [lia|done]) || lia). set (b := string_buffer _ _) in *.
  split; intros Hm.
  - set (s := ScanSpec [] 0 PRINT_MOD_LONG (ch "s")). change [ch "%"; ch "l"; ch "s"] with (ch "%" :: scan_text s).
    assert (scan_arg w b (scan_spec_config s 0 (address p)) = Some (w, b, 0)) as Ha.
    { change (scan_spec_config s 0 (address p)) with (ScanConfig SCAN_STRING SCAN_MOD_LONG 0 0 0 0 (address p) [0; 0]).
      unfold scan_arg. cbn [stype swidth]. rewrite Hw. change (0 >? 0) with false. cbv iota.
      unfold do_scan, scan_string, open_sink. cbn [stype sflags smodifier sdata].
      change (has 0 SCAN_ALLOCATE_STRING) with false. change (has 0 SCAN_SUPPRESS_INPUT) with false. cbv iota.
      unfold fuel_of. cbn [string_loop]. rewrite Hp, Hs. replace (c =? 0) with false by lia.
      unfold next_codepoint. rewrite Hpe. change (u8 (zlen (c :: tl))) with (zlen (c :: tl) mod 256). rewrite Hm. done. }
    rewrite (scanf_single alloc_ok w b s p); [|split; [constructor|]; split; [simpl; lia|done]|done|done
      |by repeat constructor|done|].
    + by rewrite Ha.
    + intros w1 b1 n. rewrite Ha. by intros [= <- <- <-].
  - set (s := ScanSpec [ch "m"] 0 PRINT_MOD_LONG (ch "s")).
    change [ch "%"; ch "m"; ch "l"; ch "s"] with (ch "%" :: scan_text s).
    assert (scan_arg w b (scan_spec_config s 0 (address p)) = None) as Ha.
    { change (scan_spec_config s 0 (address p)) with (ScanConfig SCAN_STRING SCAN_MOD_LONG 2 0 0 0 (address p) [0; 0]).
      unfold scan_arg. cbn [stype swidth]. rewrite Hw. change (0 >? 0) with false. cbv iota.
      unfold do_scan, scan_string, open_sink. cbn [stype sflags smodifier sdata].
      change (has 2 SCAN_ALLOCATE_STRING) with true. change (has 2 SCAN_SUPPRESS_INPUT) with false. cbv iota.
      unfold fuel_of. cbn [string_loop]. rewrite Hp, Hs. replace (c =? 0) with false by lia.
      unfold next_codepoint. rewrite Hpe, Hcu. change (u8 (zlen (c :: tl))) with (zlen (c :: tl) mod 256).
      unfold utf8_decode. replace (zlen (c :: tl) mod 256 =? 0) with false by lia.
      rewrite byte_at_cons_0. replace (c <=? 0x7F) with true by lia. cbn [Z.eqb].
      unfold utf16_encode. replace (c >? 0x10FFFF) with false by lia. by replace (c <=? 0xFFFF) with true by lia. }
    rewrite (scanf_single alloc_ok w b s p); [|split; [by repeat constructor|]; split; [simpl; lia|done]|done|done
      |by repeat constructor|done|].
    + by rewrite Ha.
    + intros w1 b1 n. by rewrite Ha.
Qed.

Lemma scanf_wide_string_faults_witness :
  wlibc_vsscanf (A := ample) (World (cells 1000 8) []) (Some (replicate 256 (ch "a"))) (Some [ch "%"; ch "l"; ch "s"]) [1000] =
    Some (None, Scanned (World (cells 1000 8) []) 0) /\
  wlibc_vsscanf (A := ample) (World (cells 1000 8) []) (Some [ch "a"]) (Some [ch "%"; ch "m"; ch "l"; ch "s"]) [1000] = None.
Proof.
  split.
  - apply (proj1 (@scanf_wide_string_faults ample (World (cells 1000 8) []) 1000 (ch "a") (replicate 255 (ch "a"))
      (fun _ => eq_refl) ltac:(lia) eq_refl ltac:(apply Forall_replicate; lia) ltac:(vm_compute; discriminate))).
    reflexivity.
  - apply (proj2 (@scanf_wide_string_faults ample (World (cells 1000 8) []) 1000 (ch "a") []
      (fun _ => eq_refl) ltac:(lia) eq_refl ltac:(constructor) ltac:(vm_compute; discriminate))).
    vm_compute. discriminate.
Defined.

(** ** Ranges *)

Lemma put_bit_outside ex s x : is_set s -> 128 <= x -> put_bit ex s x = None.
Proof.
  intros Hs Hx. unfold put_bit, SET_BIT, UNSET_BIT, is_set in *.
  rewrite lookup_ge_None_2 by (rewrite Hs; zlia). by destruct ex.
Qed.

Lemma set_range_outside ex s from to fuel :
  is_set s -> 0 <= from <= 128 -> 128 <= to -> (Z.to_nat (129 - from) <= fuel)%nat -> set_range fuel ex s from to = None.
Proof.
  revert s from. induction fuel as [|fuel IH]; intros s from Hs Hf Ht Hfu; [lia|]. cbn [set_range].
  replace (from <=? to) with true by lia. destruct (decide (from = 128)) as [->|].
  - by rewrite put_bit_outside.
  - destruct (put_bit_get ex s from Hs) as (s1 & -> & Hs1 & _); [lia|]. cbn [mbind option_bind].
    rewrite wrap_small by lia. apply IH; lia || done.
Qed.

(** a range of a scan set that ends above the 128 characters of the set makes
    the parser of the format write past the end of [config->set]. *)
Theorem scan_range_overflow {A : Allocator} (w : world) (str : list Z) (p a b : Z)
    (Ha : set_char a) (Hne : a <> ch "^") (Hb : 128 <= b < 256) :
  wlibc_vsscanf w (Some str) (Some [ch "%"; ch "["; a; ch "-"; b; ch "]"]) [p] = None.
Proof.
  destruct Ha as (Ha & Hbr & Hd). unfold wlibc_vsscanf, wlibc_scanf_internal.
  assert (Forall (fun c => c <> 0) [ch "%"; ch "["; a; ch "-"; b; ch "]"]) as Hz
    by (rewrite !Forall_cons; split_and!; try lia; apply Forall_nil_2).
  rewrite (strnlen_all _ _ Hz) by (cbn [length]; lia).
  set (inp := string_buffer [ch "%"; ch "["; a; ch "-"; b; ch "]"] _).
  assert (readable inp) as Ri by (subst inp; auto with buffer).
  assert (rest inp = [ch "%"; ch "["; a; ch "-"; b; ch "]"]) as Hi by apply rest_string.
  destruct (read_skip inp _ _ Ri Hi) as (Hb1 & Hi1 & Ri1 & _). destruct (read_skip _ _ _ Ri1 Hi1) as (_ & Hi2 & Ri2 & Hp1).
  unfold fuel_of. cbn [scanf_loop]. rewrite Hb1. change (ch "%" =? 0) with false. change (ch "%" =? ch "%") with true. cbv iota.
  rewrite Hp1. change (ch "[" =? 0) with false. change (ch "[" =? ch "%") with false. cbv iota.
  rewrite (parse_set_start _ _ _ Ri1 Hi1). unfold fuel_of. cbn [parse_set]. rewrite !peekbyte_rest, Hi2 by (done || lia). simpl_bytes.
  replace (a =? 0) with false by lia. replace (a =? ch "]") with false by lia. replace (a =? ch "^") with false by lia.
  replace (a <? 128) with true by lia. change (ch "-" =? ch "-") with true. replace (b =? ch "]") with false by lia.
  cbn [andb negb]. rewrite set_range_outside by (done || lia). done.
Qed.

Lemma scan_range_overflow_witness :
  set_char (ch "a") /\
  wlibc_vsscanf (A := ample) (World ∅ []) (Some [ch "x"]) (Some [ch "%"; ch "["; ch "a"; ch "-"; 255; ch "]"]) [1000] = None.
Proof.
  assert (set_char (ch "a")) as H by (repeat split; lia). split; [exact H|].
  apply (@scan_range_overflow ample (World ∅ []) [ch "x"] 1000 (ch "a") 255 H); lia.
Defined.
