(* ===== verification/FdTable.v ===== *)
(** * The file descriptor table

    src/fcntl/internal.c with src/unistd/dup.c, src/unistd/close.c and
    src/fcntl/fcntl.c. A descriptor is an index of a table of [fdinfo]; an
    entry is free when its handle is [NULL]. Every operation runs under the
    table's lock, so it is one step on the state here. An access outside the
    table is undefined behaviour and gives [None]. The kernel is a parameter
    with a state of its own. *)

From S2P Require Import Prelude Errno Buffer.

(** ** Data *)

Inductive handle_t :=
  | INVALID_HANDLE | NULL_HANDLE | CONSOLE_HANDLE | FILE_HANDLE | DIRECTORY_HANDLE | PIPE_HANDLE.

#[export] Instance handle_t_eq_dec : EqDecision handle_t.
Proof. solve_decision. Defined.

Record fdinfo := Fdinfo { handle : Z; type : handle_t; flags : Z; sequence : Z }.

(** [INVALID_HANDLE_VALUE], [(HANDLE)-1]; [NULL] is 0. *)
Definition INVALID_HANDLE_VALUE : Z := 2 ^ 64 - 1.

Definition O_RDONLY : Z := 0x0000.
Definition O_WRONLY : Z := 0x0001.
Definition O_RDWR : Z := 0x0002.
Definition O_APPEND : Z := 0x0008.
Definition O_CLOEXEC : Z := 0x0080.
Definition O_ASYNC : Z := 0x100000.
Definition O_NOATIME : Z := 0x200000.
Definition O_DIRECT : Z := 0x400000.
Definition O_NONBLOCK : Z := 0x4000000.
Definition O_CREAT : Z := 0x0100.
Definition O_TRUNC : Z := 0x0200.
Definition O_EXCL : Z := 0x0400.
Definition O_SYNC : Z := 0x800000.
Definition O_NOINHERIT : Z := 0x0080.
Definition O_SEQUENTIAL : Z := 0x0020.
Definition O_RANDOM : Z := 0x0010.
Definition O_SHORT_LIVED : Z := 0x1000.
Definition O_TEXT : Z := 0x4000.
Definition O_BINARY : Z := 0x8000.
Definition O_ACCMODE : Z := Z.lor (Z.lor O_RDONLY O_WRONLY) O_RDWR.
Definition O_DIRECTORY : Z := 0x2000.
Definition O_NOTDIR : Z := 0x20000.
Definition O_NOFOLLOW : Z := 0x2000000.
Definition O_PATH : Z := 0x80000.
Definition O_TMPFILE : Z := 0x0040.
Definition O_READONLY : Z := 0x10000.
Definition O_ARCHIVE : Z := 0x0004.
Definition O_HIDDEN : Z := 0x10000000.
Definition O_ENCRYPTED : Z := 0x20000000.
Definition O_SYSTEM : Z := 0x40000000.
Definition AT_FDCWD : Z := 0x1000000.

Inductive device_type :=
  | FILE_DEVICE_NULL | FILE_DEVICE_CONSOLE | FILE_DEVICE_DISK | FILE_DEVICE_NAMED_PIPE
  | FILE_DEVICE_other (code : Z).

(** Access rights and attributes of the NT object manager (winnt.h). *)
Definition FILE_READ_DATA : Z := 0x0001.
Definition FILE_WRITE_DATA : Z := 0x0002.
Definition FILE_APPEND_DATA : Z := 0x0004.
Definition GENERIC_ALL : Z := 0x10000000.
Definition GENERIC_EXECUTE : Z := 0x20000000.
Definition GENERIC_WRITE : Z := 0x40000000.
Definition GENERIC_READ : Z := 0x80000000.
Definition FILE_ATTRIBUTE_DIRECTORY : Z := 0x0010.

(** The system calls the table uses, on a kernel state [K]; a query gives
    [None] when its status is not success. [garbage] is what fresh heap memory
    holds at a given index. *)
Class Kernel (K : Type) := {
  NtClose : Z -> K -> NTSTATUS * K;
  NtDuplicateObject : Z -> bool -> K -> NTSTATUS * Z * K;
  NtQueryDeviceType : K -> Z -> option device_type;
  NtQueryAttributes : K -> Z -> option Z;
  NtQueryAccess : K -> Z -> option Z;
  NtOpenConsole : bool -> K -> Z * K;
  garbage : nat -> fdinfo
}.

(** [_wlibc_fd_table] (its length is [_wlibc_fd_table_size]), [_wlibc_fd_sequence],
    the standard handles of the process parameters, [errno] and the kernel. *)
Record state (K : Type) := State {
  table : list fdinfo;
  fd_sequence : Z;
  StandardInput : Z;
  StandardOutput : Z;
  StandardError : Z;
  errno : Z;
  kernel : K
}.
Arguments State {K}.
Arguments table {K}.
Arguments fd_sequence {K}.
Arguments StandardInput {K}.
Arguments StandardOutput {K}.
Arguments StandardError {K}.
Arguments errno {K}.
Arguments kernel {K}.

(** ** State and undefined behaviour *)

Definition M (K X : Type) : Type := state K -> option (X * state K).

#[export] Instance M_ret {K} : MRet (M K) := fun _ x s => Some (x, s).
#[export] Instance M_bind {K} : MBind (M K) :=
  fun _ _ k m s => match m s with None => None | Some (x, s) => k x s end.

Section Table.
Context {K : Type} {KN : Kernel K} {A : Allocator}.

Definition get : M K (state K) := fun s => Some (s, s).
Definition UB {X} : M K X := fun _ => None.

Definition set_table (t : list fdinfo) : M K unit := fun s =>
  Some ((), State t (fd_sequence s) (StandardInput s) (StandardOutput s) (StandardError s) (errno s) (kernel s)).

Definition set_errno (e : Z) : M K unit := fun s =>
  Some ((), State (table s) (fd_sequence s) (StandardInput s) (StandardOutput s) (StandardError s) e (kernel s)).

Definition set_kernel (k : K) : M K unit := fun s =>
  Some ((), State (table s) (fd_sequence s) (StandardInput s) (StandardOutput s) (StandardError s) (errno s) k).

(** [++_wlibc_fd_sequence]. *)
Definition next_sequence : M K Z := fun s =>
  let q := u32 (fd_sequence s + 1) in
  Some (q, State (table s) q (StandardInput s) (StandardOutput s) (StandardError s) (errno s) (kernel s)).

(** [_wlibc_fd_table[fd]]. *)
Definition entry (fd : Z) : M K fdinfo := fun s =>
  match (if 0 <=? fd then table s !! Z.to_nat fd else None) with
  | None => None
  | Some e => Some (e, s)
  end.

(** [_wlibc_fd_table[fd] = e]. *)
Definition put_entry (fd : Z) (e : fdinfo) : M K unit :=
  _ ← entry fd; s ← get; set_table (<[Z.to_nat fd := e]> (table s)).

Definition with_handle (e : fdinfo) (h : Z) : fdinfo := Fdinfo h (type e) (flags e) (sequence e).
Definition with_flags (e : fdinfo) (f : Z) : fdinfo := Fdinfo (handle e) (type e) f (sequence e).
Definition with_type (e : fdinfo) (t : handle_t) : fdinfo := Fdinfo (handle e) t (flags e) (sequence e).

(** [n] entries of fresh memory from index [from], their handle set to [NULL]. *)
Definition free_entries (from n : nat) : list fdinfo :=
  (fun i => with_handle (garbage i) 0) <$> seq from n.

(** ** Handles *)

Definition determine_handle_type (k : K) (h : Z) : handle_t :=
  match NtQueryDeviceType k h with
  | None => INVALID_HANDLE
  | Some FILE_DEVICE_NULL => NULL_HANDLE
  | Some FILE_DEVICE_CONSOLE => CONSOLE_HANDLE
  | Some FILE_DEVICE_DISK =>
      match NtQueryAttributes k h with
      | None => FILE_HANDLE
      | Some attributes => if has attributes FILE_ATTRIBUTE_DIRECTORY then DIRECTORY_HANDLE else FILE_HANDLE
      end
  | Some FILE_DEVICE_NAMED_PIPE => PIPE_HANDLE
  | Some (FILE_DEVICE_other _) => INVALID_HANDLE
  end.

Definition determine_handle_flags (k : K) (h : Z) : Z :=
  match NtQueryAccess k h with
  | None => O_RDONLY
  | Some access =>
      let flags := 0 in
      let flags := if has access FILE_APPEND_DATA then Z.lor flags (Z.lor O_APPEND O_WRONLY) else flags in
      let flags :=
        if has access (Z.lor (Z.lor (Z.lor GENERIC_READ GENERIC_WRITE) GENERIC_EXECUTE) GENERIC_ALL) then
          if has access GENERIC_ALL ||
             (Z.land access (Z.lor GENERIC_READ GENERIC_WRITE) =? Z.lor GENERIC_READ GENERIC_WRITE)
          then Z.lor flags O_RDWR
          else if has access GENERIC_WRITE then Z.lor flags O_WRONLY
          else if has access GENERIC_READ then Z.lor flags O_RDONLY
          else flags
        else flags in
      let flags :=
        if Z.land access (Z.lor FILE_READ_DATA FILE_WRITE_DATA) =? Z.lor FILE_READ_DATA FILE_WRITE_DATA
        then Z.lor flags O_RDWR
        else if has access FILE_WRITE_DATA then Z.lor flags O_WRONLY
        else if has access FILE_READ_DATA then Z.lor flags O_RDONLY
        else flags in
      if Z.land flags (Z.lor O_WRONLY O_RDWR) =? Z.lor O_WRONLY O_RDWR
      then Z.ldiff flags O_WRONLY else flags
  end.

(** ** Primary functions *)

(** [NtCurrentPeb()->ProcessParameters->Standard... = h] for the first three. *)
Definition set_standard (index h : Z) : M K unit := fun s =>
  Some ((), State (table s) (fd_sequence s)
              (if index =? 0 then h else StandardInput s)
              (if index =? 1 then h else StandardOutput s)
              (if index =? 2 then h else StandardError s) (errno s) (kernel s)).

Definition internal_insert_fd (index h : Z) (t : handle_t) (f : Z) : M K Z :=
  _ ← entry index;
  q ← next_sequence;
  _ ← put_entry index (Fdinfo h t f q);
  _ ← set_standard index h;
  mret index.

(** The search for a free entry. *)
Fixpoint find_free (t : list fdinfo) (i : Z) : option Z :=
  match t with
  | [] => None
  | e :: t => if handle e =? 0 then Some i else find_free t (i + 1)
  end.

(** [sizeof(fdinfo)]. *)
Definition sizeof_fdinfo : Z := 24.

Definition register_to_fd_table (h : Z) (t : handle_t) (f : Z) : M K Z :=
  s ← get;
  match find_free (table s) 0 with
  | Some index => internal_insert_fd index h t f
  | None =>
      let size := length (table s) in
      if malloc_ok (sizeof_fdinfo * Z.of_nat size * 2) then
        _ ← set_table (table s ++ garbage size :: free_entries (S size) (size - 1));
        internal_insert_fd (Z.of_nat size) h t f
      else _ ← set_errno ENOMEM; mret (-1)
  end.

(** The size [2 * fd] of the new table is an [int]. *)
Definition insert_into_fd_table (fd h : Z) (t : handle_t) (f : Z) : M K Z :=
  s ← get;
  let size := length (table s) in
  if fd >=? Z.of_nat size then
    if malloc_ok (sizeof_fdinfo * fd * 2) then
      if fd * 2 >=? 2 ^ 31 then UB
      else
        _ ← set_table (table s ++ free_entries size (Z.to_nat (fd * 2) - size));
        _ ← internal_insert_fd fd h t f;
        mret fd
    else _ ← set_errno ENOMEM; mret (-1)
  else _ ← internal_insert_fd fd h t f; mret fd.

(** The loop of [unregister_from_fd_table] and [get_fd]. *)
Fixpoint find_handle (t : list fdinfo) (h i : Z) : option Z :=
  match t with
  | [] => None
  | e :: t => if negb (handle e =? INVALID_HANDLE_VALUE) && (handle e =? h) then Some i
              else find_handle t h (i + 1)
  end.

Definition unregister_from_fd_table (h : Z) : M K unit :=
  s ← get;
  match find_handle (table s) h 0 with
  | Some i => e ← entry i; put_entry i (with_handle e 0)
  | None => mret ()
  end.

Definition get_fd (h : Z) : M K Z :=
  s ← get;
  match find_handle (table s) h 0 with
  | Some i => mret i
  | None => _ ← set_errno EBADF; mret (-1)
  end.

Definition close_fd (fd : Z) : M K Z :=
  e ← entry fd;
  s ← get;
  let '(status, k) := NtClose (handle e) (kernel s) in
  _ ← set_kernel k;
  if decide (status = STATUS_SUCCESS) then
    _ ← put_entry fd (Fdinfo 0 INVALID_HANDLE (flags e) (sequence e)); mret 0
  else _ ← set_errno (map_ntstatus_to_errno status (errno s)); mret (-1).

(** ** Getters, setters, validation *)

Definition validate_fd_in (t : list fdinfo) (fd : Z) : bool :=
  if (fd <? 0) || (fd >=? zlen t) then false
  else match t !! Z.to_nat fd with
       | Some e => negb (handle e =? 0)
       | None => false
       end.

Definition validate_fd (fd : Z) : M K bool := s ← get; mret (validate_fd_in (table s) fd).

Definition get_fd_handle (fd : Z) : M K Z := e ← entry fd; mret (handle e).
Definition get_fd_flags (fd : Z) : M K Z := e ← entry fd; mret (flags e).

Definition get_fd_type (fd : Z) : M K handle_t :=
  ok ← validate_fd fd;
  if ok : bool then e ← entry fd; mret (type e) else mret INVALID_HANDLE.

(** [info] is the caller's structure. *)
Definition get_fdinfo (fd : Z) (info : fdinfo) : M K fdinfo :=
  ok ← validate_fd fd;
  if ok : bool then entry fd else mret (Fdinfo 0 INVALID_HANDLE (flags info) (sequence info)).

Definition set_fd_handle (fd h : Z) : M K unit := e ← entry fd; put_entry fd (with_handle e h).
Definition set_fd_flags (fd f : Z) : M K unit := e ← entry fd; put_entry fd (with_flags e f).
Definition set_fd_type (fd : Z) (t : handle_t) : M K unit := e ← entry fd; put_entry fd (with_type e t).
Definition add_fd_flags (fd f : Z) : M K unit :=
  e ← entry fd; put_entry fd (with_flags e (Z.lor (flags e) f)).

(** ** close, dup and fcntl *)

Definition wlibc_close (fd : Z) : M K Z :=
  if fd =? AT_FDCWD then mret 0
  else
    ok ← validate_fd fd;
    if negb ok then _ ← set_errno EBADF; mret (-1) else close_fd fd.

(** [fdinfo oldfd_info;] is uninitialised before [get_fdinfo]. *)
Definition do_dup (oldfd newfd dflags : Z) : M K Z :=
  oldfd_info ← get_fdinfo oldfd (garbage 0);
  s ← get;
  let '(status, target, k) := NtDuplicateObject (handle oldfd_info) (negb (dflags =? O_CLOEXEC)) (kernel s) in
  _ ← set_kernel k;
  if negb (bool_decide (status = STATUS_SUCCESS)) then
    _ ← set_errno (map_ntstatus_to_errno status (errno s)); mret (-1)
  else if newfd =? -1 then register_to_fd_table target (type oldfd_info) (flags oldfd_info)
  else
    ok ← validate_fd newfd;
    r ← (if ok : bool then close_fd newfd else mret 0);
    if r =? -1 then mret (-1)
    else insert_into_fd_table newfd target (type oldfd_info) (Z.lor (flags oldfd_info) dflags).

Definition wlibc_common_dup (oldfd newfd dflags : Z) : M K Z :=
  ok ← validate_fd oldfd;
  if negb ok then _ ← set_errno EBADF; mret (-1)
  else if negb (dflags =? 0) && negb (dflags =? O_CLOEXEC) then _ ← set_errno EINVAL; mret (-1)
  else if newfd =? oldfd then mret newfd
  else do_dup oldfd newfd dflags.

Definition dup (fd : Z) : M K Z := wlibc_common_dup fd (-1) 0.

Definition dup2 (oldfd newfd : Z) : M K Z :=
  if (oldfd <? 0) || (newfd <? 0) then _ ← set_errno EINVAL; mret (-1)
  else wlibc_common_dup oldfd newfd 0.

Definition dup3 (oldfd newfd dflags : Z) : M K Z :=
  if (oldfd <? 0) || (newfd <? 0) then _ ← set_errno EINVAL; mret (-1)
  else if newfd =? oldfd then _ ← set_errno EINVAL; mret (-1)
  else wlibc_common_dup oldfd newfd dflags.

(** [while (validate_fd(new_fd)) ++new_fd;] leaves the table after at most its
    length in rounds. *)
Fixpoint next_unused (fuel : nat) (t : list fdinfo) (fd : Z) : Z :=
  match fuel with
  | O => fd
  | S fuel => if validate_fd_in t fd then next_unused fuel t (fd + 1) else fd
  end.

Definition do_dupfd (old_fd new_fd o_cloexec : Z) : M K Z :=
  s ← get;
  do_dup old_fd (next_unused (length (table s)) (table s) new_fd) o_cloexec.

Definition F_DUPFD : Z := 1.
Definition F_DUPFD_CLOEXEC : Z := 2.
Definition F_GETFD : Z := 3.
Definition F_SETFD : Z := 4.
Definition F_GETFL : Z := 5.
Definition F_SETFL : Z := 6.

(** [arg] is the optional argument [va_arg(args, int)]. *)
Definition wlibc_fcntl (fd cmd arg : Z) : M K Z :=
  ok ← validate_fd fd;
  if negb ok then mret (-1)
  else if cmd =? F_DUPFD then do_dupfd fd arg 0
  else if cmd =? F_DUPFD_CLOEXEC then do_dupfd fd arg O_CLOEXEC
  else if cmd =? F_GETFD then f ← get_fd_flags fd; mret (Z.land f O_CLOEXEC)
  else if cmd =? F_SETFD then _ ← add_fd_flags fd (Z.land arg O_CLOEXEC); mret 0
  else if cmd =? F_GETFL then get_fd_flags fd
  else if cmd =? F_SETFL then
    _ ← add_fd_flags fd (Z.land arg (Z.lor (Z.lor (Z.lor (Z.lor O_APPEND O_ASYNC) O_DIRECT) O_NOATIME) O_NONBLOCK));
    mret 0
  else _ ← set_errno EINVAL; mret (-1).

(** ** Initialization *)

Definition initialize_std_handles (h index : Z) (console_subsystem output : bool) : M K unit :=
  s ← get;
  let t := determine_handle_type (kernel s) h in
  if negb (bool_decide (t = INVALID_HANDLE)) then
    q ← next_sequence;
    put_entry index (Fdinfo h t (determine_handle_flags (kernel s) h) q)
  else if console_subsystem then
    let '(h, k) := NtOpenConsole output (kernel s) in
    _ ← set_kernel k;
    e ← entry index;
    if negb (h =? 0) then
      q ← next_sequence;
      put_entry index (Fdinfo h CONSOLE_HANDLE (if output then O_WRONLY else O_RDONLY) q)
    else put_entry index (with_handle e 0)
  else mret ().

(** [x] in [n] bytes, little endian. *)
Fixpoint le_bytes (n : nat) (x : Z) : list Z :=
  match n with O => [] | S n => x mod 256 :: le_bytes n (x / 256) end.

(** The bytes of the [RuntimeData] parameter, little endian. *)
Fixpoint read_le (l : list Z) (off : Z) (n : nat) : option Z :=
  match n with
  | O => Some 0
  | S n => x ← l !! Z.to_nat off; y ← read_le l (off + 1) n; Some (x + 256 * y)
  end.

Definition lift {X} (o : option X) : M K X := fun s => match o with None => None | Some x => Some (x, s) end.

Definition FOPEN_FLAG : Z := 0x01.

(** The loop over the inherited descriptors [i], [i + 1], ... of [n]. *)
Fixpoint inherit (fuel : nat) (data : list Z) (n i : Z) : M K unit :=
  match fuel with
  | O => mret ()
  | S fuel =>
      if i <? n then
        handle_flag ← lift (read_le data (4 + i) 1);
        inherited_handle ← lift (read_le data (4 + n + i * 8) 8);
        _ ← (if negb (has handle_flag FOPEN_FLAG) || (inherited_handle =? INVALID_HANDLE_VALUE)
             then e ← entry i; put_entry i (with_handle e 0)
             else
               s ← get;
               let t := determine_handle_type (kernel s) inherited_handle in
               if decide (t = INVALID_HANDLE) then e ← entry i; put_entry i (with_handle e 0)
               else
                 q ← next_sequence;
                 put_entry i (Fdinfo inherited_handle t (determine_handle_flags (kernel s) inherited_handle) q));
        inherit fuel data n (i + 1)
      else mret ()
  end.

(** [while (size < n) size *= 2;], [n] a [DWORD]: 30 rounds are enough. *)
Fixpoint table_size_for (fuel : nat) (size n : Z) : Z :=
  match fuel with
  | O => size
  | S fuel => if size <? n then table_size_for fuel (size * 2) n else size
  end.

(** The process is started with the kernel state [k], the console handle, the
    standard handles and the runtime data; no table means the process exits. *)
Definition init_fd_table (k : K) (console hin hout herr : Z) (data : option (list Z)) : option (state K) :=
  let console_subsystem := negb ((console =? 0) || (console =? INVALID_HANDLE_VALUE)) in
  n ← match data with None => Some 0 | Some bs => read_le bs 0 4 end;
  let size := table_size_for 30 4 n in
  if malloc_ok (sizeof_fdinfo * size) then
    let s0 := State (free_entries 0 (Z.to_nat size)) 0 hin hout herr 0 k in
    r ← (_ ← initialize_std_handles hin 0 console_subsystem false;
         _ ← initialize_std_handles hout 1 console_subsystem true;
         _ ← initialize_std_handles herr 2 console_subsystem true;
         if negb (n =? 0) then inherit (Z.to_nat n) (default [] data) n 3 else mret ()) s0;
    Some r.2
  else None.

End Table.

(** ** The contract of the table

    A table is a partial map from descriptors to entries: the open ones. *)

Definition view (t : list fdinfo) (fd : Z) : option fdinfo :=
  if fd <? 0 then None
  else match t !! Z.to_nat fd with
       | Some e => if handle e =? 0 then None else Some e
       | None => None
       end.

(** [v] with [fd] bound to [o]. *)
Definition update (v : Z -> option fdinfo) (fd : Z) (o : option fdinfo) (k : Z) : option fdinfo :=
  if k =? fd then o else v k.

(** [fd] is the smallest descriptor that is not open, from [from] on. *)
Definition lowest_from (from : Z) (v : Z -> option fdinfo) (fd : Z) : Prop :=
  from <= fd /\ v fd = None /\ forall k, from <= k < fd -> v k <> None.
