(* ===== verification/FdTableFacts.v ===== *)
(** * The file descriptor table implements a partial map

    Registration gives the lowest free descriptor, insertion and closing
    update one binding and nothing else, [dup], [dup2] and [fcntl] are
    compositions of these, and a live entry never shares its sequence number
    with another one. *)

From stdpp Require Import relations.
From S2P Require Import Prelude Errno Buffer FdTable.

(** ** Little-endian numbers *)

Lemma length_le_bytes n x : length (le_bytes n x) = n.
Proof. revert x. induction n; intros; cbn; auto. Qed.

Lemma read_le_app n : forall pre post x, 0 <= x < 256 ^ Z.of_nat n ->
  read_le (pre ++ le_bytes n x ++ post) (zlen pre) n = Some x.
Proof.
  induction n as [|n IH]; intros pre post x Hx.
  - cbn in *. f_equal. lia.
  - cbn [read_le le_bytes]. rewrite Nat2Z.inj_succ, Z.pow_succ_r in Hx by lia.
    rewrite Nat2Z.id.
    rewrite lookup_app_r, Nat.sub_diag by lia. cbn [lookup list_lookup mbind option_bind app].
    replace (pre ++ x mod 256 :: le_bytes n (x / 256) ++ post)
      with ((pre ++ [x mod 256]) ++ le_bytes n (x / 256) ++ post) by (rewrite <- app_assoc; reflexivity).
    replace (Z.of_nat (length pre) + 1) with (zlen (pre ++ [x mod 256]))
      by (rewrite length_app; cbn; lia).
    rewrite IH by (split; [apply Z.div_pos; lia | apply Z.div_lt_upper_bound; lia]).
    cbn. f_equal. pose proof (Z.div_mod x 256). lia.
Qed.

(** ** Views *)

Lemma view_Some t fd e :
  view t fd = Some e <-> 0 <= fd /\ t !! Z.to_nat fd = Some e /\ handle e <> 0.
Proof.
  unfold view. destruct (fd <? 0) eqn:E; [split; [done|lia]|].
  destruct (t !! Z.to_nat fd) as [e'|] eqn:L; [|split; [done|by intros (_ & ? & _)]].
  destruct (handle e' =? 0) eqn:H; split.
  - done.
  - intros (_ & [= ->] & ?). lia.
  - intros [= ->]. split; [lia|]. split; [done|]. lia.
  - by intros (_ & [= ->] & _).
Qed.

Lemma view_None t fd :
  view t fd = None <-> forall e, 0 <= fd -> t !! Z.to_nat fd = Some e -> handle e = 0.
Proof.
  split.
  - intros Hv e Hf Hl. destruct (decide (handle e = 0)); [done|].
    assert (view t fd = Some e) as E by by apply view_Some. congruence.
  - intros H. destruct (view t fd) as [e|] eqn:E; [|done].
    apply view_Some in E as (Hf & Hl & Hn). by specialize (H e Hf Hl).
Qed.

(** The test of the code is membership. *)
Lemma validate_fd_view t fd : validate_fd_in t fd = true <-> is_Some (view t fd).
Proof.
  unfold validate_fd_in, view. destruct (fd <? 0) eqn:E; simpl; [split; [done|by intros [? ?]]|].
  destruct (fd >=? zlen t) eqn:E2.
  - rewrite lookup_ge_None_2 by lia. split; [done|by intros [? ?]].
  - destruct (t !! Z.to_nat fd) as [e|]; [|split; [done|by intros [? ?]]].
    destruct (handle e =? 0); simpl; split; try done; first [by intros [? ?]|intros _; by eexists].
Qed.

Lemma validate_fd_false t fd : validate_fd_in t fd = false <-> view t fd = None.
Proof.
  pose proof (validate_fd_view t fd) as H. destruct (view t fd) as [e|], (validate_fd_in t fd).
  - split; done.
  - assert (false = true) by (apply H; by eexists). done.
  - destruct (proj1 H eq_refl) as [? ?]. done.
  - done.
Qed.

(** What an entry contributes to the view. *)
Definition live (e : fdinfo) : option fdinfo := if handle e =? 0 then None else Some e.

Lemma view_insert t fd e k :
  0 <= fd < zlen t -> view (<[Z.to_nat fd := e]> t) k = update (view t) fd (live e) k.
Proof.
  intros Hf. unfold update, view. destruct (k =? fd) eqn:E.
  - apply Z.eqb_eq in E. subst k. replace (fd <? 0) with false by lia.
    rewrite list_lookup_insert_eq by lia. done.
  - destruct (k <? 0) eqn:N; [done|]. by rewrite list_lookup_insert_ne by lia.
Qed.

Lemma view_free (t l : list fdinfo) k : Forall (fun e => handle e = 0) l -> view (t ++ l) k = view t k.
Proof.
  intros Hl. unfold view. destruct (k <? 0); [done|].
  destruct (decide (Z.to_nat k < length t)%nat) as [H|H]; [by rewrite lookup_app_l|].
  rewrite lookup_app_r, (lookup_ge_None_2 t) by lia.
  destruct (l !! _) as [e|] eqn:E; [|done]. apply (Forall_lookup_1 _ _ _ _ Hl) in E. by rewrite E.
Qed.

Lemma view_beyond t k : zlen t <= k -> view t k = None.
Proof. intros H. unfold view. destruct (k <? 0); [done|]. by rewrite lookup_ge_None_2 by lia. Qed.

Lemma free_entries_free {K} {KN : Kernel K} from n : Forall (fun e => handle e = 0) (free_entries from n).
Proof. apply Forall_fmap, Forall_forall. done. Qed.

(** ** The search for a descriptor *)

Lemma find_free_Some t i j :
  find_free t i = Some j -> 0 <= i ->
  i <= j < i + zlen t /\ (exists e, t !! Z.to_nat (j - i) = Some e /\ handle e = 0) /\
  forall k e, i <= k < j -> t !! Z.to_nat (k - i) = Some e -> handle e <> 0.
Proof.
  revert i. induction t as [|e t IH]; intros i Hj Hi; [done|]. simpl in Hj.
  destruct (handle e =? 0) eqn:E.
  - simplify_eq. split; [simpl; lia|]. split; [|lia].
    exists e. rewrite Z.sub_diag. split; [done|lia].
  - destruct (IH (i + 1) Hj ltac:(lia)) as (H1 & (e' & H2 & H3) & H4). split; [simpl; lia|]. split.
    + exists e'. replace (Z.to_nat (j - i)) with (S (Z.to_nat (j - (i + 1)))) by lia. done.
    + intros k e'' Hk Hl. destruct (decide (k = i)) as [->|Hne].
      * rewrite Z.sub_diag in Hl. simpl in Hl. simplify_eq. lia.
      * replace (Z.to_nat (k - i)) with (S (Z.to_nat (k - (i + 1)))) in Hl by lia.
        apply (H4 k e''); [lia|done].
Qed.

Lemma find_free_None t i : find_free t i = None -> Forall (fun e => handle e <> 0) t.
Proof.
  revert i. induction t as [|e t IH]; intros i H; [done|]. simpl in H.
  destruct (handle e =? 0) eqn:E; [done|]. constructor; [lia|]. by apply (IH (i + 1)).
Qed.

Lemma find_free_lowest t j : find_free t 0 = Some j -> 0 <= j < zlen t /\ lowest_from 0 (view t) j.
Proof.
  intros H. destruct (find_free_Some t 0 j H ltac:(lia)) as (H1 & (e & H2 & H3) & H4).
  split; [lia|]. split; [lia|]. rewrite Z.sub_0_r in H2. split.
  - apply view_None. intros e' _ Hl. congruence.
  - intros k Hk. destruct (lookup_lt_is_Some_2 t (Z.to_nat k)) as [e' Hl]; [lia|].
    assert (view t k = Some e') as ->; [|done]. apply view_Some. split; [lia|]. split; [done|].
    apply (H4 k e'); [lia|]. by rewrite Z.sub_0_r.
Qed.

Lemma full_lowest t : Forall (fun e => handle e <> 0) t -> lowest_from 0 (view t) (zlen t).
Proof.
  intros H. split; [lia|]. split; [by apply view_beyond|].
  intros k Hk. destruct (lookup_lt_is_Some_2 t (Z.to_nat k)) as [e Hl]; [lia|].
  assert (view t k = Some e) as ->; [|done]. apply view_Some. split; [lia|]. split; [done|].
  exact (Forall_lookup_1 _ _ _ _ H Hl).
Qed.

(** ** Operations *)

Section Facts.
Context {K : Type} {KN : Kernel K} {A : Allocator}.
Implicit Types s : state K.

(** What registration and insertion leave: [fd] bound to a new entry, a new
    sequence number, everything else as before. *)
Record bound (s s' : state K) (fd h : Z) (t : handle_t) (f : Z) : Prop := {
  bound_view : forall k, view (table s') k =
    update (view (table s)) fd (Some (Fdinfo h t f (u32 (fd_sequence s + 1)))) k;
  bound_sequence : fd_sequence s' = u32 (fd_sequence s + 1);
  bound_kernel : kernel s' = kernel s;
  bound_errno : errno s' = errno s;
  bound_size : zlen (table s) <= zlen (table s')
}.

Lemma entry_lookup s fd e : 0 <= fd -> table s !! Z.to_nat fd = Some e -> entry fd s = Some (e, s).
Proof. intros Hf He. unfold entry. replace (0 <=? fd) with true by lia. by rewrite He. Qed.

Lemma put_entry_table s fd e :
  0 <= fd < zlen (table s) ->
  put_entry fd e s = Some ((), State (<[Z.to_nat fd := e]> (table s)) (fd_sequence s)
    (StandardInput s) (StandardOutput s) (StandardError s) (errno s) (kernel s)).
Proof.
  intros Hf. destruct (lookup_lt_is_Some_2 (table s) (Z.to_nat fd)) as [e' He]; [lia|].
  unfold put_entry, mbind, M_bind. rewrite (entry_lookup s fd e') by (done || lia). done.
Qed.

Lemma internal_insert_bound s fd h t f :
  0 <= fd < zlen (table s) -> h <> 0 ->
  exists s', internal_insert_fd fd h t f s = Some (fd, s') /\ bound s s' fd h t f.
Proof.
  intros Hf Hh. destruct (lookup_lt_is_Some_2 (table s) (Z.to_nat fd)) as [e He]; [lia|].
  unfold internal_insert_fd, mbind, M_bind. rewrite (entry_lookup s fd e) by (done || lia).
  cbn [next_sequence]. rewrite put_entry_table by (simpl; lia). eexists. split; [done|].
  split; simpl; try done; [|by rewrite length_insert].
  intros k. rewrite view_insert by lia. unfold live. simpl. by replace (h =? 0) with false by lia.
Qed.

(** A table extended by free entries has the same view. *)
Lemma bound_extend s t2 s' fd h t f :
  (forall k, k <> fd -> view t2 k = view (table s) k) -> zlen (table s) <= zlen t2 ->
  bound (State t2 (fd_sequence s) (StandardInput s) (StandardOutput s) (StandardError s) (errno s) (kernel s))
    s' fd h t f ->
  bound s s' fd h t f.
Proof.
  intros Hv Hl [H1 H2 H3 H4 H5]. split; simpl in *; try done; [|lia].
  intros k. rewrite H1. unfold update. destruct (k =? fd) eqn:E; [done|]. apply Hv. lia.
Qed.

Lemma register_bound s h t f :
  (find_free (table s) 0 = None -> malloc_ok (sizeof_fdinfo * zlen (table s) * 2) = true) -> h <> 0 ->
  exists fd s', register_to_fd_table h t f s = Some (fd, s') /\
    lowest_from 0 (view (table s)) fd /\ bound s s' fd h t f.
Proof.
  intros Hal Hh. unfold register_to_fd_table, mbind, M_bind, get.
  destruct (find_free (table s) 0) as [j|] eqn:Ef.
  - destruct (find_free_lowest _ _ Ef) as [Hj Hlow].
    destruct (internal_insert_bound s j h t f Hj Hh) as (s' & Hs' & Hb).
    exists j, s'. done.
  - rewrite Hal by done. apply find_free_None in Ef. cbn [set_table].
    set (n := length (table s)). set (t2 := table s ++ garbage n :: free_entries (S n) (n - 1)).
    assert (zlen (table s) < zlen t2) as Hl by (unfold t2; rewrite length_app; simpl; lia).
    edestruct (internal_insert_bound (State t2 (fd_sequence s) (StandardInput s) (StandardOutput s)
      (StandardError s) (errno s) (kernel s)) (Z.of_nat n) h t f) as (s' & Hs' & Hb); [cbn [table]; lia|done|].
    exists (Z.of_nat n), s'. split; [done|]. split; [by apply full_lowest|].
    apply (bound_extend s t2); [|lia|done].
    intros k Hk. unfold t2. replace (table s ++ garbage n :: free_entries (S n) (n - 1))
      with ((table s ++ [garbage n]) ++ free_entries (S n) (n - 1)) by (by rewrite <- app_assoc).
    rewrite view_free by apply free_entries_free. unfold view. destruct (k <? 0) eqn:Hneg; [done|].
    destruct (decide (Z.to_nat k < n)%nat) as [H|H]; [by rewrite lookup_app_l|].
    rewrite (lookup_ge_None_2 (table s)) by lia.
    by rewrite lookup_ge_None_2 by (rewrite length_app; simpl; lia).
Qed.

Lemma insert_into_bound s fd h t f :
  (zlen (table s) <= fd -> malloc_ok (sizeof_fdinfo * fd * 2) = true) ->
  h <> 0 -> 0 <= fd < 2 ^ 30 -> 0 < zlen (table s) ->
  exists s', insert_into_fd_table fd h t f s = Some (fd, s') /\ bound s s' fd h t f.
Proof.
  intros Hal Hh Hf Hs. unfold insert_into_fd_table, mbind, M_bind, get.
  destruct (fd >=? zlen (table s)) eqn:E.
  - rewrite Hal by lia. replace (fd * 2 >=? 2 ^ 31) with false by lia. cbn [set_table].
    set (t2 := table s ++ _).
    assert (zlen t2 = fd * 2) as Hl
      by (unfold t2, free_entries; rewrite length_app, length_fmap, length_seq; lia).
    edestruct (internal_insert_bound (State t2 (fd_sequence s) (StandardInput s) (StandardOutput s)
      (StandardError s) (errno s) (kernel s)) fd h t f) as (s' & Hs' & Hb); [cbn [table]; lia|done|].
    rewrite Hs'. exists s'. split; [done|]. apply (bound_extend s t2); [|lia|done].
    intros k _. apply view_free, free_entries_free.
  - destruct (internal_insert_bound s fd h t f ltac:(lia) Hh) as (s' & Hs' & Hb). rewrite Hs'.
    by exists s'.
Qed.

(** Closing an open descriptor unbinds it; on failure nothing but the kernel
    and [errno] changes. *)
Lemma close_fd_view s fd e :
  view (table s) fd = Some e ->
  let '(status, k) := NtClose (handle e) (kernel s) in
  exists s', kernel s' = k /\ fd_sequence s' = fd_sequence s /\ zlen (table s') = zlen (table s) /\
    if decide (status = STATUS_SUCCESS)
    then close_fd fd s = Some (0, s') /\ forall i, view (table s') i = update (view (table s)) fd None i
    else close_fd fd s = Some (-1, s') /\ table s' = table s /\
         errno s' = map_ntstatus_to_errno status (errno s).
Proof.
  intros Hv. apply view_Some in Hv as (Hf & He & Hh).
  destruct (NtClose (handle e) (kernel s)) as [status k] eqn:En.
  assert (0 <= fd < zlen (table s)) as Hr by (apply lookup_lt_Some in He; lia).
  unfold close_fd, mbind, M_bind. rewrite (entry_lookup s fd e) by done. cbn [get]. rewrite En.
  cbn [set_kernel]. destruct (decide (status = STATUS_SUCCESS)) as [->|Hne].
  - rewrite put_entry_table by (simpl; lia).
    eexists. split; [|split; [|split; [|split; [reflexivity|]]]]; simpl; try done; [by rewrite length_insert|].
    intros i. by rewrite view_insert by lia.
  - eexists. split; [|split; [|split; [|split; [reflexivity|]]]]; simpl; done.
Qed.

Lemma validate_fd_M s fd : validate_fd fd s = Some (validate_fd_in (table s) fd, s).
Proof. done. Qed.

Lemma validate_open s fd e : view (table s) fd = Some e -> validate_fd_in (table s) fd = true.
Proof. intros H. apply validate_fd_view. by eexists. Qed.

Lemma entry_view s fd e : view (table s) fd = Some e -> entry fd s = Some (e, s).
Proof. intros H. apply view_Some in H as (H1 & H2 & _). by apply entry_lookup. Qed.

Lemma get_fdinfo_view s fd e info : view (table s) fd = Some e -> get_fdinfo fd info s = Some (e, s).
Proof.
  intros H. unfold get_fdinfo, mbind, M_bind. rewrite validate_fd_M, (validate_open s fd e H).
  by apply entry_view.
Qed.

(** The state with another kernel. *)
Definition kernel_step (s : state K) (k : K) : state K :=
  State (table s) (fd_sequence s) (StandardInput s) (StandardOutput s) (StandardError s) (errno s) k.

(** [do_dup] after the handle has been duplicated, for [dup]. *)
Lemma do_dup_register s oldfd dflags e target k :
  view (table s) oldfd = Some e ->
  NtDuplicateObject (handle e) (negb (dflags =? O_CLOEXEC)) (kernel s) = (STATUS_SUCCESS, target, k) ->
  do_dup oldfd (-1) dflags s = register_to_fd_table target (type e) (flags e) (kernel_step s k).
Proof.
  intros He Hd. unfold do_dup, mbind, M_bind. rewrite (get_fdinfo_view s oldfd e _ He). cbn [get].
  by rewrite Hd.
Qed.

(** The same for [dup2]: the old binding of [newfd] is closed first. *)
Lemma do_dup_bound s oldfd newfd dflags e target k :
  (forall n, malloc_ok n = true) -> 0 < zlen (table s) ->
  view (table s) oldfd = Some e -> 0 <= newfd < 2 ^ 30 -> target <> 0 ->
  NtDuplicateObject (handle e) (negb (dflags =? O_CLOEXEC)) (kernel s) = (STATUS_SUCCESS, target, k) ->
  (forall h, (NtClose h k).1 = STATUS_SUCCESS) ->
  exists s', do_dup oldfd newfd dflags s = Some (newfd, s') /\
    fd_sequence s' = u32 (fd_sequence s + 1) /\
    forall i, view (table s') i = update (view (table s)) newfd
      (Some (Fdinfo target (type e) (Z.lor (flags e) dflags) (u32 (fd_sequence s + 1)))) i.
Proof.
  intros Hal Hl He Hn Ht Hd Hclose. unfold do_dup, mbind, M_bind.
  rewrite (get_fdinfo_view s oldfd e _ He). cbn [get]. rewrite Hd. cbn [set_kernel].
  fold (kernel_step s k). replace (newfd =? -1) with false by lia. rewrite bool_decide_true by done.
  cbn [negb]. rewrite validate_fd_M. cbv beta iota.
  destruct (validate_fd_in (table (kernel_step s k)) newfd) eqn:V.
  - apply validate_fd_view in V as [e2 V].
    pose proof (close_fd_view (kernel_step s k) newfd e2 V) as C. pose proof (Hclose (handle e2)) as Hc.
    change (kernel (kernel_step s k)) with k in C.
    destruct (NtClose (handle e2) k) as [status k2]. simpl in Hc. subst status.
    destruct C as (s1 & _ & Hq & Hsz & Hcl & Hv).
    rewrite Hcl. simpl.
    destruct (insert_into_bound s1 newfd target (type e) (Z.lor (flags e) dflags)) as (s' & Hs' & [B1 B2 _ _ _]);
      [done|done|done|by rewrite Hsz|].
    exists s'. split; [done|]. rewrite Hq in B1, B2. split; [done|]. intros i. rewrite B1. unfold update.
    destruct (i =? newfd) eqn:E; [done|]. rewrite Hv. unfold update. by rewrite E.
  - simpl. destruct (insert_into_bound (kernel_step s k) newfd target (type e) (Z.lor (flags e) dflags))
      as (s' & Hs' & [B1 B2 _ _ _]); [done..|]. by exists s'.
Qed.

(** [do_dupfd] looks for the first unused descriptor from its argument on. *)
Lemma next_unused_lowest t fuel fd :
  0 <= fd -> zlen t - fd <= Z.of_nat fuel -> lowest_from fd (view t) (next_unused fuel t fd).
Proof.
  revert fd. induction fuel as [|fuel IH]; intros fd Hf Hl; simpl.
  - split; [lia|]. split; [apply view_beyond; lia|lia].
  - destruct (validate_fd_in t fd) eqn:V.
    + destruct (IH (fd + 1) ltac:(lia) ltac:(lia)) as (H1 & H2 & H3). split; [lia|]. split; [done|].
      intros k Hk. destruct (decide (k = fd)) as [->|Hne]; [|apply H3; lia].
      apply validate_fd_view in V as [e V]. congruence.
    + split; [lia|]. split; [by apply validate_fd_false|lia].
Qed.

Lemma next_unused_bound t fuel fd : next_unused fuel t fd <= fd + Z.of_nat fuel.
Proof.
  revert fd. induction fuel as [|fuel IH]; intros fd; simpl; [lia|].
  destruct (validate_fd_in t fd); [|lia]. specialize (IH (fd + 1)). lia.
Qed.

End Facts.

(** ** Properties *)

Section Properties.
Context {K : Type} {KN : Kernel K} {A : Allocator}.
Implicit Types s : state K.

(** C8: registering a handle binds the lowest free descriptor to it, in a table
    that grows when it is full, and leaves every other descriptor as it was. *)
Theorem register_lowest s (h : Z) (t : handle_t) (f : Z)
    (alloc_ok : forall n, malloc_ok n = true) (Hh : h <> 0) :
  exists fd s', register_to_fd_table h t f s = Some (fd, s') /\
    lowest_from 0 (view (table s)) fd /\
    forall k, view (table s') k =
      update (view (table s)) fd (Some (Fdinfo h t f (u32 (fd_sequence s + 1)))) k.
Proof.
  destruct (register_bound s h t f (fun _ => alloc_ok _) Hh) as (fd & s' & H & L & B).
  exists fd, s'. split; [done|]. split; [done|]. apply B.
Qed.

(** [dup] gives the lowest free descriptor an entry with the type and flags
    of the old one and the duplicated handle; all others are unchanged. *)
Theorem dup_lowest s (fd target : Z) (e : fdinfo) (k : K)
    (alloc_ok : forall n, malloc_ok n = true) (He : view (table s) fd = Some e) (Ht : target <> 0)
    (Hd : NtDuplicateObject (handle e) true (kernel s) = (STATUS_SUCCESS, target, k)) :
  exists newfd s', dup fd s = Some (newfd, s') /\ lowest_from 0 (view (table s)) newfd /\
    forall i, view (table s') i = update (view (table s)) newfd
      (Some (Fdinfo target (type e) (flags e) (u32 (fd_sequence s + 1)))) i.
Proof.
  unfold dup, wlibc_common_dup, mbind, M_bind. rewrite validate_fd_M, (validate_open s fd e He). cbn [negb andb]. rewrite Z.eqb_refl. cbn [negb andb].
  replace (-1 =? fd) with false by (apply view_Some in He; lia).
  rewrite (do_dup_register s fd 0 e target k He Hd).
  destruct (register_bound (kernel_step s k) target (type e) (flags e) (fun _ => alloc_ok _) Ht) as (nfd & s' & H & L & B).
  exists nfd, s'. split; [done|]. split; [done|]. apply B.
Qed.

(** [dup2] makes [newfd] refer to the duplicated handle whatever it was
    before: an open [newfd] is closed, the table grows to contain it, it is
    returned, and no other descriptor changes. *)
Theorem dup2_replaces s (oldfd newfd target : Z) (e : fdinfo) (k : K)
    (alloc_ok : forall n, malloc_ok n = true) (Hs : 0 < zlen (table s))
    (He : view (table s) oldfd = Some e) (Hn : 0 <= newfd < 2 ^ 30) (Hne : newfd <> oldfd) (Ht : target <> 0)
    (Hd : NtDuplicateObject (handle e) true (kernel s) = (STATUS_SUCCESS, target, k))
    (Hc : forall h, (NtClose h k).1 = STATUS_SUCCESS) :
  exists s', dup2 oldfd newfd s = Some (newfd, s') /\
    forall i, view (table s') i = update (view (table s)) newfd
      (Some (Fdinfo target (type e) (flags e) (u32 (fd_sequence s + 1)))) i.
Proof.
  unfold dup2. replace ((oldfd <? 0) || (newfd <? 0)) with false by (apply view_Some in He; lia).
  unfold wlibc_common_dup, mbind, M_bind. rewrite validate_fd_M, (validate_open s oldfd e He). cbn [negb andb].
  rewrite Z.eqb_refl. cbn [negb andb].
  replace (newfd =? oldfd) with false by lia.
  destruct (do_dup_bound s oldfd newfd 0 e target k) as (s' & H & _ & Hv); try done.
  exists s'. split; [done|]. by rewrite Z.lor_0_r in Hv.
Qed.

(** [fcntl] with [F_DUPFD] duplicates to the lowest free descriptor that is not
    below its argument. *)
Theorem fcntl_dupfd_lowest s (fd arg target : Z) (e : fdinfo) (k : K)
    (alloc_ok : forall n, malloc_ok n = true) (Hs : 0 < zlen (table s) < 2 ^ 29)
    (He : view (table s) fd = Some e) (Ha : 0 <= arg < 2 ^ 29) (Ht : target <> 0)
    (Hd : NtDuplicateObject (handle e) true (kernel s) = (STATUS_SUCCESS, target, k))
    (Hc : forall h, (NtClose h k).1 = STATUS_SUCCESS) :
  exists newfd s', wlibc_fcntl fd F_DUPFD arg s = Some (newfd, s') /\
    lowest_from arg (view (table s)) newfd /\
    forall i, view (table s') i = update (view (table s)) newfd
      (Some (Fdinfo target (type e) (flags e) (u32 (fd_sequence s + 1)))) i.
Proof.
  unfold wlibc_fcntl, mbind, M_bind. rewrite validate_fd_M, (validate_open s fd e He). cbn [negb]. rewrite Z.eqb_refl.
  unfold do_dupfd, mbind, M_bind. cbn [get].
  set (n := next_unused (length (table s)) (table s) arg).
  assert (lowest_from arg (view (table s)) n) as L by (apply next_unused_lowest; lia).
  pose proof (next_unused_bound (table s) (length (table s)) arg) as Hb. fold n in Hb.
  destruct (do_dup_bound s fd n 0 e target k) as (s' & H & _ & Hv); try done; [lia|destruct L; lia|].
  exists n, s'. split; [done|]. split; [done|]. by rewrite Z.lor_0_r in Hv.
Qed.

(** [F_SETFD] and [F_SETFL] only ever set flags: a flag of an open descriptor,
    close-on-exec included, survives every such call, whatever the argument. *)
Theorem fcntl_set_never_clears s (fd cmd arg : Z) (e : fdinfo) (m : Z)
    (He : view (table s) fd = Some e) (Hc : cmd = F_SETFD \/ cmd = F_SETFL) (Hm : has (flags e) m = true) :
  exists s' e', wlibc_fcntl fd cmd arg s = Some (0, s') /\
    view (table s') fd = Some e' /\ has (flags e') m = true.
Proof.
  pose proof He as (Hf & Hl & Hh)%view_Some.
  assert (0 <= fd < zlen (table s)) as Hr by (apply lookup_lt_Some in Hl; lia).
  assert (forall f, exists s' e', (_ ← add_fd_flags fd f; mret 0) s = Some (0, s') /\
    view (table s') fd = Some e' /\ has (flags e') m = true) as H.
  { intros f. unfold add_fd_flags, mbind, M_bind. rewrite (entry_view s fd e He).
    rewrite put_entry_table by done. do 2 eexists. split; [done|]. cbn [table]. rewrite view_insert by done.
    unfold update, live. rewrite Z.eqb_refl. simpl. replace (handle e =? 0) with false by lia.
    split; [done|]. simpl. unfold has in *. apply negb_true_iff, Z.eqb_neq. apply negb_true_iff, Z.eqb_neq in Hm.
    rewrite Z.land_lor_distr_l. intros E. apply Z.lor_eq_0_iff in E. by destruct E. }
  unfold wlibc_fcntl, mbind at 1, M_bind at 1. rewrite validate_fd_M, (validate_open s fd e He).
  destruct Hc as [-> | ->]; apply H.
Qed.

End Properties.

(** ** Witnesses

    A kernel that grants every request and numbers the handles it creates. *)
Definition plain_kernel : Kernel Z := {|
  NtClose h k := (STATUS_SUCCESS, k);
  NtDuplicateObject h inherit k := (STATUS_SUCCESS, k, k + 1);
  NtQueryDeviceType k h := Some FILE_DEVICE_DISK;
  NtQueryAttributes k h := Some 0;
  NtQueryAccess k h := Some 3;
  NtOpenConsole output k := (k, k + 1);
  garbage i := Fdinfo 77 PIPE_HANDLE 5 9
|}.

(** Descriptors 0, 1 and 3 are open. *)
Definition four_entries : state Z :=
  State [Fdinfo 10 CONSOLE_HANDLE 0 1; Fdinfo 11 CONSOLE_HANDLE 1 2; Fdinfo 0 INVALID_HANDLE 0 0;
         Fdinfo 12 FILE_HANDLE (Z.lor O_RDWR O_CLOEXEC) 3] 3 10 11 0 0 100.

Definition roomy : Allocator := fun _ => true.

Lemma register_lowest_witness :
  exists fd s', register_to_fd_table (KN := plain_kernel) (A := roomy) 50 FILE_HANDLE 2 four_entries = Some (fd, s') /\
    lowest_from 0 (view (table four_entries)) fd /\
    forall k, view (table s') k =
      update (view (table four_entries)) fd (Some (Fdinfo 50 FILE_HANDLE 2 4)) k.
Proof.
  apply (register_lowest (KN := plain_kernel) (A := roomy) four_entries 50 FILE_HANDLE 2); [done|lia].
Defined.

Lemma dup_lowest_witness :
  exists newfd s', dup (KN := plain_kernel) (A := roomy) 3 four_entries = Some (newfd, s') /\
    lowest_from 0 (view (table four_entries)) newfd /\
    forall i, view (table s') i = update (view (table four_entries)) newfd
      (Some (Fdinfo 100 FILE_HANDLE 0x82 4)) i.
Proof.
  apply (dup_lowest (KN := plain_kernel) (A := roomy) four_entries 3 100 (Fdinfo 12 FILE_HANDLE 0x82 3) 101);
    [done|reflexivity|lia|reflexivity].
Defined.

(** [dup2] to a descriptor beyond the table. *)
Lemma dup2_replaces_witness :
  exists s', dup2 (KN := plain_kernel) (A := roomy) 3 9 four_entries = Some (9, s') /\
    forall i, view (table s') i = update (view (table four_entries)) 9
      (Some (Fdinfo 100 FILE_HANDLE 0x82 4)) i.
Proof.
  apply (dup2_replaces (KN := plain_kernel) (A := roomy) four_entries 3 9 100 (Fdinfo 12 FILE_HANDLE 0x82 3) 101);
    [done|simpl; lia|reflexivity|lia|lia|lia|reflexivity|done].
Defined.

Lemma fcntl_dupfd_lowest_witness :
  exists newfd s', wlibc_fcntl (KN := plain_kernel) (A := roomy) 0 F_DUPFD 3 four_entries = Some (newfd, s') /\
    lowest_from 3 (view (table four_entries)) newfd /\
    forall i, view (table s') i = update (view (table four_entries)) newfd
      (Some (Fdinfo 100 CONSOLE_HANDLE 0 4)) i.
Proof.
  apply (fcntl_dupfd_lowest (KN := plain_kernel) (A := roomy) four_entries 0 3 100 (Fdinfo 10 CONSOLE_HANDLE 0 1) 101);
    [done|simpl; lia|reflexivity|lia|lia|reflexivity|done].
Defined.

(** Clearing close-on-exec of descriptor 3 has no effect. *)
Lemma fcntl_set_never_clears_witness :
  exists s' e', wlibc_fcntl (KN := plain_kernel) (A := roomy) 3 F_SETFD 0 four_entries = Some (0, s') /\
    view (table s') 3 = Some e' /\ has (flags e') O_CLOEXEC = true.
Proof.
  apply (fcntl_set_never_clears (KN := plain_kernel) (A := roomy) four_entries 3 F_SETFD 0
           (Fdinfo 12 FILE_HANDLE 0x82 3) O_CLOEXEC); [reflexivity|left; reflexivity|reflexivity].
Defined.

(** ** Sequence numbers

    An entry carries the number of the operation that created it. A stale
    copy of an entry can be told from a new one with the same descriptor and
    even the same handle, because live entries never share a number. *)

Record fresh_inv {K} (s : state K) : Prop := {
  inv_size : 0 < zlen (table s);
  inv_sequence : 0 <= fd_sequence s;
  inv_bound : forall fd e, view (table s) fd = Some e -> sequence e <= fd_sequence s;
  inv_inj : forall fd1 fd2 e1 e2, view (table s) fd1 = Some e1 -> view (table s) fd2 = Some e2 ->
    sequence e1 = sequence e2 -> fd1 = fd2
}.

Section Steps.
Context {K : Type} {KN : Kernel K} {A : Allocator}.

(** The operations other parts of the library perform on the table. *)
Inductive step (s : state K) : state K -> Prop :=
  | step_register h t f fd s' : h <> 0 ->
      register_to_fd_table h t f s = Some (fd, s') -> step s s'
  | step_insert fd h t f r s' : h <> 0 -> 0 <= fd < 2 ^ 30 ->
      insert_into_fd_table fd h t f s = Some (r, s') -> step s s'
  | step_close fd r s' :
      wlibc_close fd s = Some (r, s') -> step s s'
  | step_unregister h s' :
      unregister_from_fd_table h s = Some ((), s') -> step s s'
  | step_set_flags fd f s' :
      set_fd_flags fd f s = Some ((), s') -> step s s'
  | step_add_flags fd f s' :
      add_fd_flags fd f s = Some ((), s') -> step s s'
  | step_set_type fd t s' :
      set_fd_type fd t s = Some ((), s') -> step s s'.

(** A step taken before the counter overflows. *)
Definition numbered_step (s s' : state K) : Prop := step s s' /\ fd_sequence s + 1 < 2 ^ 32.

Lemma fresh_bound (s s' : state K) fd h t f :
  fresh_inv s -> fd_sequence s + 1 < 2 ^ 32 -> bound s s' fd h t f -> fresh_inv s'.
Proof.
  intros [Hs Hq Hb Hi] Hmax [Bv Bq _ _ Bs]. rewrite wrap_small in Bv, Bq by lia.
  split; [lia|lia| |].
  - intros k e. rewrite Bv, Bq. unfold update. destruct (k =? fd); [intros [= <-]; simpl; lia|].
    intros H%Hb. lia.
  - intros k1 k2 e1 e2. rewrite !Bv. unfold update.
    destruct (k1 =? fd) eqn:E1, (k2 =? fd) eqn:E2; intros H1 H2; simplify_eq/=; [lia| | |by eapply Hi].
    + apply Hb in H2. lia.
    + apply Hb in H1. lia.
Qed.

(** An entry rewritten with its old number, or removed. *)
Lemma fresh_update (s s' : state K) fd o :
  fresh_inv s -> fd_sequence s' = fd_sequence s -> zlen (table s') = zlen (table s) ->
  (forall e', o = Some e' -> exists e, view (table s) fd = Some e /\ sequence e' = sequence e) ->
  (forall k, view (table s') k = update (view (table s)) fd o k) -> fresh_inv s'.
Proof.
  intros [Hs Hq Hb Hi] Eq Es Ho Hv.
  assert (forall k e', view (table s') k = Some e' ->
    exists e, view (table s) k = Some e /\ sequence e' = sequence e) as Old.
  { intros k e'. rewrite Hv. unfold update. destruct (k =? fd) eqn:E; [|by exists e'].
    apply Z.eqb_eq in E. subst k. apply Ho. }
  split; [lia|lia| |].
  - intros k e' (e & He & ->)%Old. rewrite Eq. by eapply Hb.
  - intros k1 k2 e1' e2' (e1 & H1 & ->)%Old (e2 & H2 & ->)%Old. by eapply Hi.
Qed.

Lemma set_entry_view (s : state K) fd g (s' : state K) :
  (e ← entry fd; put_entry fd (g e)) s = Some ((), s') ->
  (forall e, sequence (g e) = sequence e) -> (forall e, handle e = 0 -> handle (g e) = 0) ->
  fresh_inv s -> fresh_inv s'.
Proof.
  unfold mbind, M_bind. intros H Hg H0 I. destruct (entry fd s) as [[e s1]|] eqn:E; [|done].
  unfold entry in E. destruct (0 <=? fd) eqn:Hf; [|done].
  destruct (table s !! Z.to_nat fd) as [e'|] eqn:L; simplify_eq.
  assert (0 <= fd < zlen (table s1)) as Hr by (apply lookup_lt_Some in L; lia).
  rewrite put_entry_table in H by done. simplify_eq.
  eapply (fresh_update s1 _ fd (live (g e))); try done; simpl; [by rewrite length_insert| |].
  - intros e'. unfold live. destruct (handle (g e) =? 0) eqn:Hz; [done|]. intros [= <-]. exists e.
    split; [|apply Hg]. apply view_Some. split; [lia|]. split; [done|]. intros Hz'. apply H0 in Hz'. lia.
  - intros k. by apply view_insert.
Qed.

Lemma unchanged_fresh (s s' : state K) :
  table s' = table s -> fd_sequence s' = fd_sequence s -> fresh_inv s -> fresh_inv s'.
Proof. intros E1 E2 [H1 H2 H3 H4]. split; rewrite ?E1, ?E2; done. Qed.

Lemma register_fresh (s s' : state K) h t f fd :
  h <> 0 -> fd_sequence s + 1 < 2 ^ 32 -> register_to_fd_table h t f s = Some (fd, s') ->
  fresh_inv s -> fresh_inv s'.
Proof.
  intros Hh Hmax H I.
  destruct (decide (find_free (table s) 0 = None -> malloc_ok (sizeof_fdinfo * zlen (table s) * 2) = true)) as [Hm|Hm].
  - destruct (register_bound s h t f Hm Hh) as (fd' & s1 & H1 & _ & B). rewrite H in H1. simplify_eq.
    by eapply fresh_bound.
  - unfold register_to_fd_table, mbind, M_bind, get in H.
    destruct (find_free (table s) 0); [by destruct Hm|].
    destruct (malloc_ok _); [by destruct Hm|]. injection H as <- <-. by apply (unchanged_fresh s).
Qed.

Lemma insert_fresh (s s' : state K) fd h t f r :
  h <> 0 -> 0 <= fd < 2 ^ 30 -> fd_sequence s + 1 < 2 ^ 32 ->
  insert_into_fd_table fd h t f s = Some (r, s') -> fresh_inv s -> fresh_inv s'.
Proof.
  intros Hh Hf Hmax H I.
  destruct (decide (zlen (table s) <= fd -> malloc_ok (sizeof_fdinfo * fd * 2) = true)) as [Hm|Hm].
  - destruct (insert_into_bound s fd h t f Hm Hh Hf (inv_size _ I)) as (s1 & H1 & B). rewrite H in H1. simplify_eq.
    by eapply fresh_bound.
  - unfold insert_into_fd_table, mbind, M_bind, get in H.
    destruct (fd >=? zlen (table s)) eqn:E; [|destruct Hm; lia].
    destruct (malloc_ok _); [by destruct Hm|]. injection H as <- <-. by apply (unchanged_fresh s).
Qed.

Lemma close_fresh (s s' : state K) fd r :
  wlibc_close fd s = Some (r, s') -> fresh_inv s -> fresh_inv s'.
Proof.
  intros H I. unfold wlibc_close in H. destruct (fd =? AT_FDCWD); [by injection H as <- <-|].
  unfold mbind at 1, M_bind at 1 in H. rewrite validate_fd_M in H.
  destruct (validate_fd_in (table s) fd) eqn:V; cbn [negb] in H;
    [|injection H as <- <-; by apply (unchanged_fresh s)].
  apply validate_fd_view in V as [e V]. pose proof (close_fd_view s fd e V) as C.
  destruct (NtClose (handle e) (kernel s)) as [status k].
  destruct C as (s1 & _ & Hq & Hsz & C). destruct (decide (status = STATUS_SUCCESS)).
  - destruct C as [C Hv]. rewrite H in C. simplify_eq.
    apply (fresh_update s s1 fd None I Hq (f_equal Z.of_nat Hsz)); [by intros|exact Hv].
  - destruct C as (C & Ht & _). rewrite H in C. simplify_eq. by apply (unchanged_fresh s).
Qed.

Lemma step_fresh (s s' : state K) : fresh_inv s -> numbered_step s s' -> fresh_inv s'.
Proof.
  intros I [St Hmax]. destruct St as [h t f fd s' Hh H|fd h t f r s' Hh Hf H|fd r s' H|h s' H|fd f s' H|fd f s' H|fd t s' H].
  - by eapply register_fresh.
  - by eapply insert_fresh.
  - by eapply close_fresh.
  - unfold unregister_from_fd_table, mbind at 1, M_bind at 1, get in H.
    destruct (find_handle (table s) h 0) as [i|]; [|by injection H as <-].
    eapply (set_entry_view s i (fun e => with_handle e 0)); done.
  - by eapply (set_entry_view s fd (fun e => with_flags e f)).
  - by eapply (set_entry_view s fd (fun e => with_flags e (Z.lor (flags e) f))).
  - by eapply (set_entry_view s fd (fun e => with_type e t)).
Qed.

(** C19: in every state reached from a well-formed one by any sequence of
    registrations, insertions, closings, unregistrations and flag or type
    changes (including failing ones, and as long as the 32-bit counter does not
    overflow), two open descriptors never carry the same sequence number, and
    none carries a number the counter has not reached. *)
Theorem sequence_unique (s s' : state K)
    (I : fresh_inv s) (R : rtc numbered_step s s') :
  (forall fd e, view (table s') fd = Some e -> sequence e <= fd_sequence s') /\
  (forall fd1 fd2 e1 e2, view (table s') fd1 = Some e1 -> view (table s') fd2 = Some e2 ->
     sequence e1 = sequence e2 -> fd1 = fd2).
Proof.
  assert (fresh_inv s') as [_ _ Hb Hi]; [|split; [exact Hb|exact Hi]].
  induction R as [|s1 s2 s3 St _ IH]; [done|]. apply IH. by eapply step_fresh.
Qed.

End Steps.

(** Closing descriptor 1 and registering another handle. *)
Lemma sequence_unique_witness :
  exists s', rtc (numbered_step (KN := plain_kernel) (A := roomy)) four_entries s' /\
    view (table s') 1 = Some (Fdinfo 60 PIPE_HANDLE 1 4) /\
    (forall fd e, view (table s') fd = Some e -> sequence e <= fd_sequence s') /\
    (forall fd1 fd2 e1 e2, view (table s') fd1 = Some e1 -> view (table s') fd2 = Some e2 ->
       sequence e1 = sequence e2 -> fd1 = fd2).
Proof.
  set (s2 := State [Fdinfo 10 CONSOLE_HANDLE 0 1; Fdinfo 60 PIPE_HANDLE 1 4; Fdinfo 0 INVALID_HANDLE 0 0;
                    Fdinfo 12 FILE_HANDLE (Z.lor O_RDWR O_CLOEXEC) 3] 4 10 60 0 0 100).
  exists s2. assert (rtc (numbered_step (KN := plain_kernel) (A := roomy)) four_entries s2) as R.
  { eapply rtc_l; [split; [eapply (step_close (KN := plain_kernel) (A := roomy) four_entries 1); reflexivity|simpl; lia]|].
    eapply rtc_l; [split; [eapply (step_register (KN := plain_kernel) (A := roomy) _ 60 PIPE_HANDLE 1); [lia|reflexivity]|simpl; lia]|].
    apply rtc_refl. }
  split; [exact R|]. split; [reflexivity|].
  apply (sequence_unique (KN := plain_kernel) (A := roomy) four_entries); [|exact R].
  assert (forall fd e, view (table four_entries) fd = Some e ->
    fd = 0 /\ sequence e = 1 \/ fd = 1 /\ sequence e = 2 \/ fd = 3 /\ sequence e = 3) as H.
  { intros fd e (Hf & Hl & Hh)%view_Some. unfold four_entries in Hl. simpl in Hl.
    destruct (Z.to_nat fd) as [|[|[|[|n]]]] eqn:E; simpl in Hl; simplify_eq/=; try lia. }
  split; [simpl; lia|simpl; lia| |].
  - intros fd e He%H. simpl. lia.
  - intros fd1 fd2 e1 e2 H1%H H2%H Hs. lia.
Defined.

(** ** Errors *)

(** a descriptor that is not open is rejected: [close], [dup], [dup2] and
    [dup3] return -1 with [EBADF], change nothing else and make no system call. *)
Theorem bad_fd_rejected {K : Type} {KN : Kernel K} {A : Allocator} (s : state K) (fd newfd dflags : Z)
    (Hv : view (table s) fd = None) (Hf : 0 <= fd) (Hn : 0 <= newfd) (Hne : newfd <> fd)
    (Hc : fd <> AT_FDCWD) :
  let s' := State (table s) (fd_sequence s) (StandardInput s) (StandardOutput s) (StandardError s)
              EBADF (kernel s) in
  wlibc_close fd s = Some (-1, s') /\ dup fd s = Some (-1, s') /\
  dup2 fd newfd s = Some (-1, s') /\ dup3 fd newfd dflags s = Some (-1, s').
Proof.
  cbv zeta. apply validate_fd_false in Hv.
  assert (forall n g, wlibc_common_dup fd n g s = Some (-1, State (table s) (fd_sequence s) (StandardInput s)
    (StandardOutput s) (StandardError s) EBADF (kernel s))) as H.
  { intros n g. unfold wlibc_common_dup, mbind, M_bind. by rewrite validate_fd_M, Hv. }
  split_and!.
  - unfold wlibc_close. replace (fd =? AT_FDCWD) with false by lia.
    unfold mbind, M_bind. by rewrite validate_fd_M, Hv.
  - apply H.
  - unfold dup2. replace ((fd <? 0) || (newfd <? 0)) with false by lia. apply H.
  - unfold dup3. replace ((fd <? 0) || (newfd <? 0)) with false by lia.
    replace (newfd =? fd) with false by lia. apply H.
Qed.

Lemma bad_fd_rejected_witness :
  let s' := State (table four_entries) 3 10 11 0 EBADF 100 in
  wlibc_close (KN := plain_kernel) 2 four_entries = Some (-1, s') /\
  dup (KN := plain_kernel) (A := roomy) 2 four_entries = Some (-1, s') /\
  dup2 (KN := plain_kernel) (A := roomy) 2 1 four_entries = Some (-1, s') /\
  dup3 (KN := plain_kernel) (A := roomy) 2 1 O_CLOEXEC four_entries = Some (-1, s').
Proof.
  apply (bad_fd_rejected (KN := plain_kernel) (A := roomy) four_entries 2 1 O_CLOEXEC);
    [reflexivity|lia|lia|lia|unfold AT_FDCWD; lia].
Defined.

(** Whatever access rights the kernel reports for an inherited handle, the
    flags recorded for it never ask for both write-only and read-write mode. *)
Theorem determine_handle_flags_mode {K : Type} {KN : Kernel K} (k : K) (h : Z) :
  Z.land (determine_handle_flags k h) (Z.lor O_WRONLY O_RDWR) <> Z.lor O_WRONLY O_RDWR.
Proof.
  unfold determine_handle_flags. destruct (NtQueryAccess k h) as [access|]; [|done].
  cbv zeta. set (flags := if Z.land access _ =? _ then _ else _).
  destruct (Z.land flags (Z.lor O_WRONLY O_RDWR) =? Z.lor O_WRONLY O_RDWR) eqn:E; [|lia].
  intros H. apply (f_equal (fun x => Z.testbit x 0)) in H.
  rewrite Z.land_spec, Z.ldiff_spec in H. change (Z.testbit O_WRONLY 0) with true in H.
  by rewrite andb_false_r in H.
Qed.
