(* ===== verification/FileIo.v ===== *)
(** * Reading, writing and seeking

    src/unistd/read.c, write.c, lseek.c, pread.c and pwrite.c: descriptors are
    looked up in the table and the transfer is one system call. The kernel's
    side of it is a parameter ([FileKernel]); what a regular file does is
    stated as laws a kernel may satisfy ([RegularFile]). *)

From S2P Require Import Prelude Errno Buffer FdTable FdTableFacts.

(** ** System calls *)

(** Where a transfer starts: at the file pointer, at the end, at an offset. *)
Inductive io_offset := FILE_USE_FILE_POINTER_POSITION | FILE_WRITE_TO_END_OF_FILE | byte_offset (o : Z).

(** [NtReadFile] returns the status and the bytes it stores ([io.Information] is
    their number), [NtWriteFile] the status and the number written. *)
Class FileKernel (K : Type) := {
  NtReadFile : Z -> Z -> io_offset -> K -> NTSTATUS * list Z * K;
  NtWriteFile : Z -> list Z -> io_offset -> K -> NTSTATUS * Z * K;
  NtQueryPosition : Z -> K -> NTSTATUS * Z;
  NtQueryEndOfFile : Z -> K -> NTSTATUS * Z;
  NtSetPosition : Z -> Z -> K -> NTSTATUS * K
}.

Definition STATUS_PENDING : NTSTATUS := STATUS_other 0x00000103.
Definition STATUS_END_OF_FILE : NTSTATUS := STATUS_other 0xC0000011.
Definition STATUS_PIPE_EMPTY : NTSTATUS := STATUS_other 0xC00000D9.

Definition SEEK_SET : Z := 0.
Definition SEEK_CUR : Z := 1.
Definition SEEK_END : Z := 2.

Definition one_of (status : NTSTATUS) (l : list NTSTATUS) : bool := bool_decide (status ∈ l).

Section Io.
Context {K : Type} {KN : Kernel K} {FK : FileKernel K}.

(** [errno = e; return -1;] *)
Definition fail (e : Z) : M K Z := _ ← set_errno e; mret (-1).

(** [map_ntstatus_to_errno(status); return -1;] *)
Definition fail_status (status : NTSTATUS) : M K Z :=
  s ← get; _ ← set_errno (map_ntstatus_to_errno status (errno s)); mret (-1).

(** [buffer] tells whether the pointer is not null; the bytes stored through it
    are returned with the result. The structure for [get_fdinfo] is
    uninitialised. *)
Definition wlibc_read (fd : Z) (buffer : bool) (count : Z) : M K (Z * list Z) :=
  let none (m : M K Z) : M K (Z * list Z) := r ← m; mret (r, []) in
  if negb buffer then none (fail EFAULT)
  else
    info ← get_fdinfo fd (garbage 0);
    if decide (type info = DIRECTORY_HANDLE) then none (fail EISDIR)
    else if decide (type info = INVALID_HANDLE) then none (fail EBADF)
    else
      s ← get;
      let '(status, bytes, k) := NtReadFile (handle info) (u32 count) FILE_USE_FILE_POINTER_POSITION (kernel s) in
      _ ← set_kernel k;
      if one_of status [STATUS_SUCCESS; STATUS_PENDING; STATUS_END_OF_FILE; STATUS_PIPE_BROKEN; STATUS_PIPE_EMPTY]
      then mret (zlen bytes, bytes)
      else r ← fail_status status; mret (r, bytes).

(** [buffer] is [None] for a null pointer, else the bytes at it; the call sends
    the first [count] of them. *)
Definition wlibc_write (fd : Z) (buffer : option (list Z)) (count : Z) : M K Z :=
  match buffer with
  | None => fail EFAULT
  | Some bytes =>
      info ← get_fdinfo fd (garbage 0);
      if decide (type info = DIRECTORY_HANDLE) then fail EISDIR
      else if decide (type info = INVALID_HANDLE) then fail EBADF
      else
        let offset := if has (flags info) O_APPEND then FILE_WRITE_TO_END_OF_FILE
                      else FILE_USE_FILE_POINTER_POSITION in
        if zlen bytes <? u32 count then UB
        else
          s ← get;
          let '(status, n, k) := NtWriteFile (handle info) (take (Z.to_nat (u32 count)) bytes) offset (kernel s) in
          _ ← set_kernel k;
          if one_of status [STATUS_SUCCESS; STATUS_PENDING] then mret n else fail_status status
  end.

(** The position [offset] is relative to; an error is the value [inr]. *)
Definition seek_base (h offset whence : Z) : M K (Z + Z) :=
  s ← get;
  if whence =? SEEK_SET then
    if offset <? 0 then r ← fail EINVAL; mret (inr r) else mret (inl 0)
  else if whence =? SEEK_CUR then
    let '(status, p) := NtQueryPosition h (kernel s) in
    if decide (status = STATUS_SUCCESS) then mret (inl p) else r ← fail_status status; mret (inr r)
  else
    let '(status, p) := NtQueryEndOfFile h (kernel s) in
    if decide (status = STATUS_SUCCESS) then mret (inl p) else r ← fail_status status; mret (inr r).

(** The sum is one of [LONGLONG]s: an overflow is undefined. *)
Definition wlibc_lseek (fd offset whence : Z) : M K Z :=
  info ← get_fdinfo fd (garbage 0);
  if decide (type info = INVALID_HANDLE) then fail EBADF
  else if decide (type info = PIPE_HANDLE) then fail ESPIPE
  else if (whence <? 0) || (whence >? 2) then fail EINVAL
  else
    base ← seek_base (handle info) offset whence;
    match base with
    | inr r => mret r
    | inl current_pos =>
        let p := current_pos + offset in
        if negb (swrap 64 p =? p) then UB
        else
          s ← get;
          let '(status, k) := NtSetPosition (handle info) p (kernel s) in
          _ ← set_kernel k;
          if decide (status = STATUS_SUCCESS) then mret p else fail_status status
    end.

(** The type check of [pread] and [pwrite]: the error, if any. *)
Definition positional_error (t : handle_t) : option Z :=
  match t with
  | FILE_HANDLE | NULL_HANDLE => None
  | DIRECTORY_HANDLE => Some EISDIR
  | CONSOLE_HANDLE | PIPE_HANDLE => Some ESPIPE
  | INVALID_HANDLE => Some EBADF
  end.

Definition wlibc_pread (fd : Z) (buffer : bool) (count offset : Z) : M K (Z * list Z) :=
  let none (m : M K Z) : M K (Z * list Z) := r ← m; mret (r, []) in
  if negb buffer then none (fail EFAULT)
  else
    info ← get_fdinfo fd (garbage 0);
    match positional_error (type info) with
    | Some e => none (fail e)
    | None =>
        s ← get;
        let '(status, saved) := NtQueryPosition (handle info) (kernel s) in
        if negb (bool_decide (status = STATUS_SUCCESS)) then none (fail_status status)
        else
          let '(status, bytes, k) := NtReadFile (handle info) (u32 count) (byte_offset offset) (kernel s) in
          _ ← set_kernel k;
          if negb (one_of status [STATUS_SUCCESS; STATUS_PENDING; STATUS_END_OF_FILE])
          then r ← fail_status status; mret (r, bytes)
          else
            let '(status, k) := NtSetPosition (handle info) saved k in
            _ ← set_kernel k;
            if decide (status = STATUS_SUCCESS) then mret (zlen bytes, bytes)
            else r ← fail_status status; mret (r, bytes)
    end.

Definition wlibc_pwrite (fd : Z) (buffer : option (list Z)) (count offset : Z) : M K Z :=
  match buffer with
  | None => fail EFAULT
  | Some bytes =>
      info ← get_fdinfo fd (garbage 0);
      match positional_error (type info) with
      | Some e => fail e
      | None =>
          s ← get;
          let '(status, saved) := NtQueryPosition (handle info) (kernel s) in
          if negb (bool_decide (status = STATUS_SUCCESS)) then fail_status status
          else if zlen bytes <? u32 count then UB
          else
            let '(status, n, k) :=
              NtWriteFile (handle info) (take (Z.to_nat (u32 count)) bytes) (byte_offset offset) (kernel s) in
            _ ← set_kernel k;
            if negb (one_of status [STATUS_SUCCESS; STATUS_PENDING]) then fail_status status
            else
              let '(status, k) := NtSetPosition (handle info) saved k in
              _ ← set_kernel k;
              if decide (status = STATUS_SUCCESS) then mret n else fail_status status
      end
  end.

End Io.

Lemma M_bind_Some {K X Y} (m : M K X) (k : X -> M K Y) s x s' : m s = Some (x, s') -> (m ≫= k) s = k x s'.
Proof. intros E. unfold mbind, M_bind. by rewrite E. Qed.

(** Runs the steps of the monad that only pass the state on. *)
Ltac run_with tac := cbv beta iota zeta delta [mbind M_bind mret M_ret get set_kernel UB negb]; tac.
Ltac run := run_with idtac.

(** ** Regular files

    What the kernel promises of a disk file opened for synchronous access: it
    is a sequence of bytes with a pointer. *)

(** [bs] stored at [p], over what is there; a gap before it is filled with zeros. *)
Definition splice (c : list Z) (p : Z) (bs : list Z) : list Z :=
  take (Z.to_nat p) c ++ replicate (Z.to_nat p - length c) 0 ++ bs ++ drop (Z.to_nat p + length bs) c.

(** The [n] bytes from [p] on, fewer at the end. *)
Definition segment (c : list Z) (p n : Z) : list Z := take (Z.to_nat n) (drop (Z.to_nat p) c).

Class RegularFile {K : Type} `{FileKernel K} (h : Z) (file_of : K -> list Z * Z) : Prop := {
  rf_read k n : is_u32 n ->
    exists status k', NtReadFile h n FILE_USE_FILE_POINTER_POSITION k =
        (status, segment (file_of k).1 (file_of k).2 n, k') /\
      (status = STATUS_SUCCESS \/ status = STATUS_END_OF_FILE) /\
      file_of k' = ((file_of k).1, (file_of k).2 + zlen (segment (file_of k).1 (file_of k).2 n));
  rf_read_at k n o : is_u32 n -> 0 <= o ->
    exists status k', NtReadFile h n (byte_offset o) k = (status, segment (file_of k).1 o n, k') /\
      (status = STATUS_SUCCESS \/ status = STATUS_END_OF_FILE) /\
      file_of k' = ((file_of k).1, o + zlen (segment (file_of k).1 o n));
  rf_write k bs : is_u32 (zlen bs) ->
    exists k', NtWriteFile h bs FILE_USE_FILE_POINTER_POSITION k = (STATUS_SUCCESS, zlen bs, k') /\
      file_of k' = (splice (file_of k).1 (file_of k).2 bs, (file_of k).2 + zlen bs);
  rf_append k bs : is_u32 (zlen bs) ->
    exists k', NtWriteFile h bs FILE_WRITE_TO_END_OF_FILE k = (STATUS_SUCCESS, zlen bs, k') /\
      file_of k' = ((file_of k).1 ++ bs, zlen ((file_of k).1 ++ bs));
  rf_write_at k bs o : is_u32 (zlen bs) -> 0 <= o ->
    exists k', NtWriteFile h bs (byte_offset o) k = (STATUS_SUCCESS, zlen bs, k') /\
      file_of k' = (splice (file_of k).1 o bs, o + zlen bs);
  rf_position k : NtQueryPosition h k = (STATUS_SUCCESS, (file_of k).2);
  rf_end k : NtQueryEndOfFile h k = (STATUS_SUCCESS, zlen (file_of k).1);
  rf_seek k o : 0 <= o ->
    exists k', NtSetPosition h o k = (STATUS_SUCCESS, k') /\ file_of k' = ((file_of k).1, o)
}.

(** [s] with its kernel changed. *)
Definition with_kernel {K} (s : state K) (k : K) : state K :=
  State (table s) (fd_sequence s) (StandardInput s) (StandardOutput s) (StandardError s) (errno s) k.
Definition with_errno {K} (s : state K) (e : Z) : state K :=
  State (table s) (fd_sequence s) (StandardInput s) (StandardOutput s) (StandardError s) e (kernel s).

Section Regular.
Context {K : Type} {KN : Kernel K} {FK : FileKernel K} (h : Z) (file_of : K -> list Z * Z).
Context {RF : RegularFile h file_of}.
Implicit Types s : state K.

(** Descriptor [fd] is open on the file, which holds [c] with the pointer at [p]. *)
Definition file_at (fd : Z) (append : bool) (s : state K) (c : list Z) (p : Z) : Prop :=
  (exists e, view (table s) fd = Some e /\ type e = FILE_HANDLE /\ handle e = h /\
             has (flags e) O_APPEND = append) /\
  file_of (kernel s) = (c, p).

(** The step common to the transfers: what is left when the descriptor has been
    looked up. *)
Lemma read_file fd a s c p n :
  file_at fd a s c p -> is_u32 n ->
  exists k, wlibc_read fd true n s = Some ((zlen (segment c p n), segment c p n), with_kernel s k) /\
    file_at fd a (with_kernel s k) c (p + zlen (segment c p n)).
Proof.
  intros [(e & Hv & Ht & Hh & Ha) Hf] Hn.
  destruct (rf_read (kernel s) n Hn) as (status & k & Hr & Hst & Hk). rewrite Hf in *. cbn [fst snd] in *.
  exists k. split; [|split; [by exists e|done]].
  unfold wlibc_read. run. rewrite (get_fdinfo_view s fd e) by done. rewrite Ht, Hh, (wrap_small 32) by done.
  run. cbn [decide_rel]. rewrite !decide_False by done. run. rewrite Hr. by destruct Hst as [-> | ->].
Qed.

Lemma write_file fd s c p bs rest :
  file_at fd false s c p -> is_u32 (zlen bs) ->
  exists k, wlibc_write fd (Some (bs ++ rest)) (zlen bs) s = Some (zlen bs, with_kernel s k) /\
    file_at fd false (with_kernel s k) (splice c p bs) (p + zlen bs).
Proof.
  intros [(e & Hv & Ht & Hh & Ha) Hf] Hn.
  destruct (rf_write (kernel s) bs Hn) as (k & Hr & Hk). rewrite Hf in *. cbn [fst snd] in *.
  exists k. split; [|split; [by exists e|done]].
  unfold wlibc_write. run. rewrite (get_fdinfo_view s fd e) by done. rewrite Ht, Hh, Ha, (wrap_small 32) by done.
  rewrite !decide_False by done. run.
  destruct (zlen (bs ++ rest) <? zlen bs) eqn:E; [apply Z.ltb_lt in E; rewrite length_app in E; lia|].
  rewrite take_app_length' by lia. rewrite Hr. done.
Qed.

Lemma append_file fd s c p bs rest :
  file_at fd true s c p -> is_u32 (zlen bs) ->
  exists k, wlibc_write fd (Some (bs ++ rest)) (zlen bs) s = Some (zlen bs, with_kernel s k) /\
    file_at fd true (with_kernel s k) (c ++ bs) (zlen (c ++ bs)).
Proof.
  intros [(e & Hv & Ht & Hh & Ha) Hf] Hn.
  destruct (rf_append (kernel s) bs Hn) as (k & Hr & Hk). rewrite Hf in *. cbn [fst snd] in *.
  exists k. split; [|split; [by exists e|done]].
  unfold wlibc_write. run. rewrite (get_fdinfo_view s fd e) by done. rewrite Ht, Hh, Ha, (wrap_small 32) by done.
  rewrite !decide_False by done. run.
  destruct (zlen (bs ++ rest) <? zlen bs) eqn:E; [apply Z.ltb_lt in E; rewrite length_app in E; lia|].
  rewrite take_app_length' by lia. rewrite Hr. done.
Qed.

(** The position [lseek] computes. *)
Definition seek_target (c : list Z) (p offset whence : Z) : Z :=
  offset + (if whence =? SEEK_SET then 0 else if whence =? SEEK_CUR then p else zlen c).

Lemma lseek_file fd a s c p offset whence :
  file_at fd a s c p -> 0 <= whence <= 2 -> 0 <= seek_target c p offset whence < 2 ^ 63 ->
  exists k, wlibc_lseek fd offset whence s = Some (seek_target c p offset whence, with_kernel s k) /\
    file_at fd a (with_kernel s k) c (seek_target c p offset whence).
Proof.
  intros [(e & Hv & Ht & Hh & Ha) Hf] Hw Ho.
  destruct (rf_seek (kernel s) (seek_target c p offset whence)) as (k & Hr & Hk); [lia|].
  rewrite Hf in *. cbn [fst snd] in *. exists k. split; [|split; [by exists e|done]].
  unfold wlibc_lseek. run. rewrite (get_fdinfo_view s fd e) by done. rewrite Ht, Hh, !decide_False by done.
  replace ((whence <? 0) || (whence >? 2)) with false by lia.
  assert (seek_base h offset whence s = Some (inl (seek_target c p offset whence - offset), s)) as ->.
  { unfold seek_base, seek_target in *. run. rewrite rf_position, rf_end, Hf. cbn [fst snd].
    destruct (whence =? SEEK_SET) eqn:E0; [replace (offset <? 0) with false by lia|
      destruct (whence =? SEEK_CUR) eqn:E1]; rewrite ?decide_True by done; do 3 f_equal; lia. }
  replace (seek_target c p offset whence - offset + offset) with (seek_target c p offset whence) by lia.
  rewrite swrap_small, Z.eqb_refl by lia. run. rewrite Hr. by rewrite decide_True.
Qed.

(** [pread] and [pwrite] do not move the file pointer: on a regular file
    [pread] returns the bytes at its offset and [pwrite] replaces them, [errno]
    and the table stay as they are, and the pointer is where it was. *)
Theorem positional_io_keeps_pointer fd a s c p n o bs
    (Hf : file_at fd a s c p) (Hp : 0 <= p) (Hn : is_u32 n) (Ho : 0 <= o) (Hb : is_u32 (zlen bs)) :
  (exists k, wlibc_pread fd true n o s = Some ((zlen (segment c o n), segment c o n), with_kernel s k) /\
     file_at fd a (with_kernel s k) c p) /\
  (exists k, wlibc_pwrite fd (Some bs) (zlen bs) o s = Some (zlen bs, with_kernel s k) /\
     file_at fd a (with_kernel s k) (splice c o bs) p).
Proof.
  destruct Hf as [(e & Hv & Ht & Hh & Ha) Hf]. split.
  - destruct (rf_read_at (kernel s) n o Hn Ho) as (status & k & Hr & Hst & Hk). rewrite Hf in *.
    destruct (rf_seek k p Hp) as (k' & Hs & Hk'). rewrite Hk in Hk'. cbn [fst snd] in *.
    exists k'. split; [|split; [by exists e|done]].
    unfold wlibc_pread. run. rewrite (get_fdinfo_view s fd e) by done. rewrite Ht, Hh, (wrap_small 32) by done.
    cbn [positional_error]. run. rewrite rf_position, Hf, bool_decide_eq_true_2 by done. rewrite Hr. cbn [snd].
    destruct Hst as [-> | ->]; cbn [one_of]; rewrite Hs; by rewrite decide_True.
  - destruct (rf_write_at (kernel s) bs o Hb Ho) as (k & Hr & Hk). rewrite Hf in *.
    destruct (rf_seek k p Hp) as (k' & Hs & Hk'). rewrite Hk in Hk'. cbn [fst snd] in *.
    exists k'. split; [|split; [by exists e|done]].
    unfold wlibc_pwrite. run. rewrite (get_fdinfo_view s fd e) by done. rewrite Ht, Hh, (wrap_small 32) by done.
    cbn [positional_error]. run. rewrite rf_position, Hf, bool_decide_eq_true_2 by done.
    rewrite Z.ltb_irrefl, take_ge, Hr by lia. cbn [snd]. rewrite Hs. by rewrite decide_True.
Qed.

End Regular.

(** ** A disk with one file

    The laws can hold: a kernel whose state is one file, open as handle 1. *)
Module Disk.

Definition disk : Type := list Z * Z.

#[export] Instance disk_kernel : Kernel disk := {
  NtClose _ k := (STATUS_SUCCESS, k);
  NtDuplicateObject _ _ k := (STATUS_SUCCESS, 1, k);
  NtQueryDeviceType _ _ := Some FILE_DEVICE_DISK;
  NtQueryAttributes _ _ := Some 0;
  NtQueryAccess _ _ := None;
  NtOpenConsole _ k := (0, k);
  garbage _ := Fdinfo 0 INVALID_HANDLE 0 0
}.

Definition start_of (o : io_offset) (d : disk) : Z :=
  match o with
  | FILE_USE_FILE_POINTER_POSITION => d.2
  | FILE_WRITE_TO_END_OF_FILE => zlen d.1
  | byte_offset o => o
  end.

#[export] Instance disk_files : FileKernel disk := {
  NtReadFile _ n o d :=
    let bs := segment d.1 (start_of o d) n in
    (match bs with [] => STATUS_END_OF_FILE | _ => STATUS_SUCCESS end, bs, (d.1, start_of o d + zlen bs));
  NtWriteFile _ bs o d := (STATUS_SUCCESS, zlen bs, (splice d.1 (start_of o d) bs, start_of o d + zlen bs));
  NtQueryPosition _ d := (STATUS_SUCCESS, d.2);
  NtQueryEndOfFile _ d := (STATUS_SUCCESS, zlen d.1);
  NtSetPosition _ o d := (STATUS_SUCCESS, (d.1, o))
}.

#[export] Instance disk_regular h : RegularFile h (fun d : disk => d).
Proof.
  split; intros; cbn.
  - eexists _, _. split; [done|]. split; [|done]. destruct (segment _ _ _); auto.
  - eexists _, _. split; [done|]. split; [|done]. destruct (segment _ _ _); auto.
  - by eexists.
  - eexists. split; [done|]. unfold splice. rewrite take_ge, drop_ge, app_nil_r by lia.
    replace (_ - _)%nat with 0%nat by lia. cbn. rewrite length_app. f_equal. lia.
  - by eexists.
  - done.
  - done.
  - by eexists.
Qed.

(** A process whose descriptor 3 is open on the file [c], with the given flags. *)
Definition process (f : Z) (c : list Z) (p : Z) : state disk :=
  State [Fdinfo 0 INVALID_HANDLE 0 0; Fdinfo 0 INVALID_HANDLE 0 0; Fdinfo 0 INVALID_HANDLE 0 0;
         Fdinfo 1 FILE_HANDLE f 1] 1 0 0 0 0 (c, p).

Lemma process_file f c p : file_at 1 (fun d : disk => d) 3 (has f O_APPEND) (process f c p) c p.
Proof. split; [|done]. by eexists. Qed.

End Disk.
Import Disk.

Lemma positional_io_keeps_pointer_witness :
  exists k, wlibc_pread 3 true 2 1 (Disk.process O_RDWR [10; 11; 12; 13] 4) =
    Some ((2, [11; 12]), with_kernel (Disk.process O_RDWR [10; 11; 12; 13] 4) k).
Proof.
  destruct (positional_io_keeps_pointer 1 (fun d : Disk.disk => d) 3 false (Disk.process O_RDWR [10; 11; 12; 13] 4)
    [10; 11; 12; 13] 4 2 1 [0]) as [(k & Hk & _) _].
  - apply (Disk.process_file O_RDWR).
  - lia.
  - lia.
  - lia.
  - simpl. lia.
  - exists k. exact Hk.
Defined.
