(* ===== verification/Path.v ===== *)
(** * Paths

    src/internal/path.c with [wlibc_tmpdir] of src/stdio/temp.c and
    src/internal/registry.c: the translation of the paths a program uses to the
    names of the NT object manager and back, with the caches it keeps. A
    [UNICODE_STRING] is the list of its code units; a fixed-size or allocated
    buffer is checked where the code fills it, and overrunning one is undefined
    behaviour. *)

From stdpp Require Import strings.
From S2P Require Import Prelude Errno Buffer FdTable.

(** ** Strings *)

(** The characters of a literal. *)
Definition str (s : string) : list Z := (fun a => Z.of_N (Ascii.N_of_ascii a)) <$> String.list_ascii_of_string s.

Definition isalpha (c : Z) : bool := ((65 <=? c) && (c <=? 90)) || ((97 <=? c) && (c <=? 122)).
Definition toupper (c : Z) : Z := if (97 <=? c) && (c <=? 122) then c - 32 else c.
Definition tolower (c : Z) : Z := if (65 <=? c) && (c <=? 90) then c + 32 else c.

(** [strncmp(s + off, t, strlen(t)) == 0]. *)
Definition starts_with (s t : list Z) : bool := bool_decide (take (length t) s = t).

(** The same without regard to the case of letters. *)
Definition istarts_with (s t : list Z) : bool := bool_decide (tolower <$> take (length t) s = tolower <$> t).
Definition iequal (s t : list Z) : bool := bool_decide (tolower <$> s = tolower <$> t).

Definition is_space (c : Z) : bool := (c =? 32) || ((9 <=? c) && (c <=? 13)).

Fixpoint atoi_digits (s : list Z) (acc : Z) : Z :=
  match s with
  | c :: s => if (48 <=? c) && (c <=? 57) then atoi_digits s (acc * 10 + (c - 48)) else acc
  | [] => acc
  end.

Fixpoint skip_space (s : list Z) : list Z :=
  match s with c :: s' => if is_space c then skip_space s' else s | [] => [] end.

(** An [int] that overflows is undefined. *)
Definition atoi (s : list Z) : option Z :=
  let n := match skip_space s with
           | 45 :: s => - atoi_digits s 0
           | 43 :: s => atoi_digits s 0
           | s => atoi_digits s 0
           end in
  if swrap 32 n =? n then Some n else None.

Definition IS_ABSOLUTE_PATH (path : list Z) : bool :=
  (isalpha (byte_at path 0) && (byte_at path 1 =? ch ":")) || (byte_at path 0 =? ch "/").

Definition IS_ROOT_PATH (path : list Z) : bool :=
  (byte_at path 1 =? 0) && ((byte_at path 0 =? ch "/") || (byte_at path 0 =? 92)).

(** ** State *)

(** [length] is in bytes: 0 when the volume has not been looked up, 65535 when it
    does not exist. *)
Record nt_device := NtDevice { dev_length : Z; dev_name : list Z }.
Record dos_device := DosDevice { device_number : Z; label : Z }.
Record fd_path := FdPath { fp_fd : Z; fp_sequence : Z; nt_path : option (list Z) }.

Record path_state := PathState {
  path_components_size : Z;
  devices : list nt_device;
  fd_path_cache : list fd_path;
  dos_device_cache : dos_device * dos_device;
  tmpdir : list Z;
  tmpdir_initialized : bool
}.

Definition FD_PATH_CACHE_SLOTS : Z := 128.

Definition initial_paths : path_state :=
  PathState 16 (replicate 32 (NtDevice 0 [])) (FdPath (-1) 0 None :: replicate 127 (FdPath 0 0 None))
    (DosDevice (2 ^ 32 - 1) 0, DosDevice (2 ^ 32 - 1) 0) [] false.

Definition with_components_size (p : path_state) (n : Z) : path_state :=
  PathState n (devices p) (fd_path_cache p) (dos_device_cache p) (tmpdir p) (tmpdir_initialized p).
Definition with_devices (p : path_state) (l : list nt_device) : path_state :=
  PathState (path_components_size p) l (fd_path_cache p) (dos_device_cache p) (tmpdir p) (tmpdir_initialized p).
Definition with_fd_cache (p : path_state) (l : list fd_path) : path_state :=
  PathState (path_components_size p) (devices p) l (dos_device_cache p) (tmpdir p) (tmpdir_initialized p).
Definition with_dos_cache (p : path_state) (c : dos_device * dos_device) : path_state :=
  PathState (path_components_size p) (devices p) (fd_path_cache p) c (tmpdir p) (tmpdir_initialized p).
Definition with_tmpdir (p : path_state) (d : list Z) : path_state :=
  PathState (path_components_size p) (devices p) (fd_path_cache p) (dos_device_cache p) d true.

(** ** The system *)

(** The conversions get the size of the destination in bytes, [None] when they
    allocate it. Queries of values and names get the size of the buffer and give
    the size they need. *)
Class PathKernel (K : Type) := {
  RtlUTF8StringToUnicodeString : list Z -> option Z -> NTSTATUS * list Z;
  RtlUnicodeStringToUTF8String : list Z -> option Z -> NTSTATUS * list Z;
  CurrentDirectory : K -> list Z;
  NtOpenSymbolicLinkObject : Z -> K -> NTSTATUS * Z * K;
  NtQuerySymbolicLinkObject : Z -> K -> NTSTATUS * list Z;
  NtQueryObjectName : Z -> Z -> K -> NTSTATUS * Z * list Z;
  QueryDosVolumePaths : list Z -> K -> NTSTATUS * list Z;
  NtOpenKeyEx : list Z -> K -> NTSTATUS * Z;
  NtQueryValueKey : Z -> list Z -> Z -> K -> NTSTATUS * Z * list Z;
  current_user_sid : list Z
}.

(** A computation that also changes the state [S] of a component. *)
Definition SM (S K X : Type) : Type := S -> M K (X * S).

#[export] Instance SM_ret {S K} : MRet (SM S K) := fun _ x p => mret (x, p).
#[export] Instance SM_bind {S K} : MBind (SM S K) := fun _ _ k m p => '(x, p) ← m p; k x p.

Definition run_M {S K X} (m : M K X) : SM S K X := fun p => x ← m; mret (x, p).
Definition get_S {S K} : SM S K S := fun p => mret (p, p).
Definition put_S {S K} (p : S) : SM S K unit := fun _ => mret ((), p).

Section Paths.
Context {K : Type} {KN : Kernel K} {A : Allocator} {PK : PathKernel K}.

Abbreviation P := (SM path_state K).

(** [errno = e; return NULL;] *)
Definition null {X} (e : Z) : P (option X) := _ ← run_M (set_errno e); mret None.

Definition null_status {X} (status : NTSTATUS) : P (option X) :=
  s ← run_M get; null (map_ntstatus_to_errno status (errno s)).

(** [RtlAllocateHeap] of [n] bytes, then [m]; [ENOMEM] when it fails. *)
Definition allocate {X} (n : Z) (m : P (option X)) : P (option X) :=
  if malloc_ok n then m else null ENOMEM.

Definition system : P K := s ← run_M get; mret (kernel s).
Definition set_system (k : K) : P unit := run_M (set_kernel k).

(** [sizeof(UNICODE_STRING)]. *)
Definition sizeof_UNICODE_STRING : Z := 16.

(** ** Volumes *)

Definition volume_slot (volume : Z) : nat := Z.to_nat (volume - ch "A").

Definition set_device (volume : Z) (d : nt_device) : P unit :=
  p ← get_S; put_S (with_devices p (<[volume_slot volume := d]> (devices p))).

(** A failed query may leave anything in the name; it is not read again. *)
Definition dos_device_to_nt_device (volume : Z) : P (option nt_device) :=
  if (volume <? ch "A") || (volume >? ch "Z") then mret None
  else
    p ← get_S;
    d ← run_M (lift (devices p !! volume_slot volume));
    if negb (dev_length d =? 65535) then
      if negb (dev_length d =? 0) then mret (Some d)
      else
        k ← system;
        let '(status, h, k) := NtOpenSymbolicLinkObject volume k in
        _ ← set_system k;
        if negb (bool_decide (status = STATUS_SUCCESS)) then
          _ ← set_device volume (NtDevice 65535 (dev_name d)); mret None
        else
          let '(status, target) := NtQuerySymbolicLinkObject h k in
          let '(_, k) := NtClose h k in
          _ ← set_system k;
          if negb (bool_decide (status = STATUS_SUCCESS)) then
            _ ← set_device volume (NtDevice 65535 (dev_name d)); mret None
          else if 26 <? zlen target then run_M UB
          else
            let d := NtDevice (2 * zlen target) target in
            _ ← set_device volume d; mret (Some d)
    else mret None.

(** The request holds at most 60 bytes of name. *)
Definition nt_device_to_dos_device (device : list Z) : P Z :=
  k ← system;
  if 62 <? 2 * zlen device then run_M UB
  else
    let '(status, multi) := QueryDosVolumePaths device k in
    let label := swrap 8 (byte_at multi 0) in
    if bool_decide (status = STATUS_SUCCESS) && ((label >=? ch "A") && (label <=? ch "Z")) then mret label
    else mret 0.

(** ** Paths of descriptors *)

Definition cache_index (sequence : Z) : nat := Z.to_nat (Z.land sequence (FD_PATH_CACHE_SLOTS - 1)).

Definition check_fd_path_cache (fd sequence : Z) : P (option (list Z)) :=
  p ← get_S;
  e ← run_M (lift (fd_path_cache p !! cache_index sequence));
  if (sequence =? fp_sequence e) && (fd =? fp_fd e) then mret (nt_path e) else mret None.

Definition update_fd_path_cache (fd sequence : Z) (path : list Z) : P unit :=
  p ← get_S;
  _ ← run_M (lift (fd_path_cache p !! cache_index sequence));
  put_S (with_fd_cache p (<[cache_index sequence := FdPath fd sequence (Some path)]> (fd_path_cache p))).

Definition get_handle_ntpath (h : Z) : P (option (list Z)) :=
  allocate 1024 (
    k ← system;
    let '(status, length, name) := NtQueryObjectName h 1024 k in
    if bool_decide (status = STATUS_BUFFER_OVERFLOW) then
      allocate length (
        let '(status, _, name) := NtQueryObjectName h length k in
        if negb (bool_decide (status = STATUS_SUCCESS)) then null_status status else mret (Some name))
    else if negb (bool_decide (status = STATUS_SUCCESS)) then null_status status
    else mret (Some name)).

(** [fdinfo info;] is uninitialised. *)
Definition get_fd_ntpath_internal (fd : Z) : P (option (list Z)) :=
  info ← run_M (get_fdinfo fd (garbage 0));
  if bool_decide (type info = INVALID_HANDLE) then mret None
  else
    path ← check_fd_path_cache fd (sequence info);
    match path with
    | Some path => mret (Some path)
    | None =>
        path ← get_handle_ntpath (handle info);
        match path with
        | Some path => _ ← update_fd_path_cache fd (sequence info) path; mret (Some path)
        | None => mret None
        end
    end.

(** The copy is as long as the original; a null original is dereferenced. *)
Definition get_fd_ntpath (fd : Z) : P (option (list Z)) :=
  ntpath ← get_fd_ntpath_internal fd;
  match ntpath with
  | None => run_M UB
  | Some ntpath => allocate (sizeof_UNICODE_STRING + 2 * zlen ntpath + 2) (mret (Some ntpath))
  end.

(** ** The temporary directory *)

(** The data of a value and its size in bytes, as code units. *)
Definition get_registry_value (basekey subkey : list Z) : P (option (list Z)) :=
  k ← system;
  let '(status, key) := NtOpenKeyEx basekey k in
  let finish (data : list Z) : P (option (list Z)) :=
    if 2 * zlen data >? 2 then allocate (2 * zlen data) (mret (Some data)) else mret None in
  if negb (bool_decide (status = STATUS_SUCCESS)) then null_status status
  else
    allocate 512 (
      let '(status, length, data) := NtQueryValueKey key subkey 512 k in
      if bool_decide (status = STATUS_SUCCESS) then finish data
      else if bool_decide (status = STATUS_BUFFER_TOO_SMALL) || bool_decide (status = STATUS_BUFFER_OVERFLOW) then
        allocate length (
          let '(status, _, data) := NtQueryValueKey key subkey length k in
          if negb (bool_decide (status = STATUS_SUCCESS)) then null_status status else finish data)
      else null_status status).

(** [strlen]: up to the first NUL. *)
Fixpoint c_string (l : list Z) : list Z :=
  match l with [] => [] | c :: l => if c =? 0 then [] else c :: c_string l end.

Definition L_tmpnam : Z := 260.

(** Without a registry value the directory is the empty string, and it will be
    looked up again. *)
Definition wlibc_tmpdir : P (option (list Z)) :=
  p ← get_S;
  if tmpdir_initialized p then mret (Some (tmpdir p))
  else
    let key := str "\Registry\User\" ++ current_user_sid ++ str "\Volatile Environment" in
    allocate (2 * (15 + zlen current_user_sid + 20 + 2)) (
      localdir ← get_registry_value key (str "LOCALAPPDATA");
      match localdir with
      | None => mret (Some (tmpdir p))
      | Some localdir =>
          let '(status, u8) := RtlUnicodeStringToUTF8String localdir (Some L_tmpnam) in
          if negb (bool_decide (status = STATUS_SUCCESS)) then null_status status
          else
            let d := c_string u8 ++ str "\Temp" in
            if L_tmpnam <? zlen d + 1 then run_M UB
            else _ ← put_S (with_tmpdir p d); mret (Some d)
      end).

(** ** Components *)

(** [start] and [length] of a component, in code units and bytes. *)
Record path_component := Component { c_start : Z; c_length : Z }.

(** [components] are the first [index] entries of the array: it is allocated with
    the first and doubled when it is full. *)
Definition add_component (components : list path_component) (start length : Z) : P (option (list path_component)) :=
  p ← get_S;
  let push : P (option (list path_component)) := mret (Some (components ++ [Component start length])) in
  match components with
  | [] => allocate (path_components_size p * 8) push
  | _ =>
      if zlen components =? path_components_size p then
        allocate (path_components_size p * 2 * 8)
          (_ ← put_S (with_components_size p (path_components_size p * 2)); push)
      else push
  end.

(** The first component is never popped. *)
Definition pop_component (components : list path_component) : list path_component :=
  let index := zlen components - 1 in
  take (Z.to_nat (if index <? 1 then 1 else index)) components.

(** One component, from [start] to [i]. *)
Definition path_step (ntpath : list Z) (start i : Z) (components : list path_component)
    : P (option (list path_component)) :=
  let at_ k := byte_at ntpath (start + k) in
  if i - start >? 2 then add_component components start (2 * (i - start))
  else if (i - start =? 2) && ((at_ 0 =? ch ".") && (at_ 1 =? ch ".")) then mret (Some (pop_component components))
  else if (i - start =? 1) && (at_ 0 =? ch ".") then mret (Some components)
  else add_component components start (2 * (i - start)).

(** The loop over the code units; the terminator is the one behind the last. *)
Fixpoint path_components (fuel : nat) (ntpath : list Z) (i start : Z) (components : list path_component)
    : P (option (list path_component)) :=
  match fuel with
  | O => run_M UB
  | S fuel =>
      if zlen ntpath <? i then run_M UB
      else
        let c := byte_at ntpath i in
        if (c =? 92) || (c =? 0) then
          cs ← path_step ntpath start i components;
          match cs with
          | None => mret None
          | Some cs => if c =? 0 then mret (Some cs) else path_components fuel ntpath (i + 1) (i + 1) cs
          end
        else path_components fuel ntpath (i + 1) start components
  end.

Definition component_text (ntpath : list Z) (c : path_component) : list Z :=
  take (Z.to_nat (c_length c / 2)) (drop (Z.to_nat (c_start c)) ntpath).

(** The copies with a separator between them. *)
Fixpoint join_components (ntpath : list Z) (cs : list path_component) : list Z :=
  match cs with
  | [] => []
  | [c] => component_text ntpath c
  | c :: cs => component_text ntpath c ++ 92 :: join_components ntpath cs
  end.

(** [ntpath_buffer] holds [ntpath] and a terminator; [required_size] is the size of
    the result's buffer. *)
Definition path_coalesce (ntpath : list Z) (required_size : Z) : P (option (list Z)) :=
  cs ← path_components (S (length ntpath)) ntpath 8 0 [];
  match cs with
  | None => mret None
  | Some cs =>
      allocate (required_size + sizeof_UNICODE_STRING) (
        let path := join_components ntpath cs in
        let path := if zlen cs =? 1 then path ++ [92] else path in
        if required_size <? 2 * zlen path + 2 then run_M UB else mret (Some path))
  end.

(** ** Absolute paths *)

Definition backslashes (l : list Z) : list Z := (fun c => if c =? ch "/" then 92 else c) <$> l.

(** A name that needs no buffer of its own; [t0] is the type the caller gave. *)
Definition fixed_name (t0 : handle_t) (name : list Z) (t : handle_t) : P (option (list Z) * handle_t) :=
  if malloc_ok sizeof_UNICODE_STRING then mret (Some name, t)
  else _ ← run_M (set_errno ENOMEM); mret (None, t0).

Definition failed (t0 : handle_t) (e : Z) : P (option (list Z) * handle_t) :=
  _ ← run_M (set_errno e); mret (None, t0).

(** [/dev/stdin] and its kind. *)
Definition fd_device (t0 : handle_t) (fd : Z) : P (option (list Z) * handle_t) :=
  info ← run_M (get_fdinfo fd (garbage 0));
  if bool_decide (type info = INVALID_HANDLE) then failed t0 ENOENT
  else
    path ← get_fd_ntpath fd;
    match path with
    | None => failed t0 ENOMEM
    | Some path => mret (Some path, type info)
    end.

(** A root path: the drive of the current directory. *)
Definition root_path (t0 : handle_t) : P (option (list Z) * handle_t) :=
  k ← system;
  device ← dos_device_to_nt_device (swrap 8 (byte_at (CurrentDirectory k) 0));
  match device with
  | None => run_M UB
  | Some device =>
      if malloc_ok (sizeof_UNICODE_STRING + dev_length device + 4) then mret (Some (dev_name device ++ [92]), t0)
      else failed t0 ENOMEM
  end.

(** The POSIX devices; [None] when [rest], behind [/dev/], is none of them. *)
Definition posix_device (t0 : handle_t) (rest : list Z) : option (P (option (list Z) * handle_t)) :=
  let named s := bool_decide (rest = str s) in
  if named "null" then Some (fixed_name t0 (str "\Device\Null") NULL_HANDLE)
  else if named "tty" then Some (fixed_name t0 (str "\Device\ConDrv\Console") CONSOLE_HANDLE)
  else if named "stdin" then Some (fd_device t0 0)
  else if named "stdout" then Some (fd_device t0 1)
  else if named "stderr" then Some (fd_device t0 2)
  else if named "zero" then Some (fixed_name t0 (str "\Device\Zero") NULL_HANDLE)
  else if named "full" then Some (fixed_name t0 (str "\Device\Full") NULL_HANDLE)
  else if named "random" then Some (fixed_name t0 (str "\Device\Random") NULL_HANDLE)
  else if named "urandom" then Some (fixed_name t0 (str "\Device\Random") NULL_HANDLE)
  else if starts_with rest (str "fd/") then
    Some (fd ← run_M (lift (atoi (drop 3 rest))); if fd <? 0 then failed t0 ENOENT else fd_device t0 fd)
  else None.

Definition dos_device_name (t0 : handle_t) (path : list Z) : option (P (option (list Z) * handle_t)) :=
  if iequal path (str "NUL") then Some (fixed_name t0 (str "\Device\Null") NULL_HANDLE)
  else if iequal path (str "CON") then Some (fixed_name t0 (str "\Device\ConDrv\Console") CONSOLE_HANDLE)
  else if iequal path (str "CONIN$") then Some (fixed_name t0 (str "\Device\ConDrv\CurrentIn") CONSOLE_HANDLE)
  else if iequal path (str "CONOUT$") then Some (fixed_name t0 (str "\Device\ConDrv\CurrentOut") CONSOLE_HANDLE)
  else None.

(** The size of the name is a [USHORT]. A conversion that fails sets no error. *)
Definition pipe_path (t0 : handle_t) (path : list Z) : P (option (list Z) * handle_t) :=
  let length := u16 (zlen path - 9) in
  let required_size := u16 (36 + (2 * length + 2)) in
  if negb (malloc_ok (sizeof_UNICODE_STRING + required_size)) then failed t0 ENOMEM
  else
    let '(status, name) := RtlUTF8StringToUnicodeString (take (Z.to_nat length) (drop 9 path)) (Some required_size) in
    if negb (bool_decide (status = STATUS_SUCCESS)) then mret (None, t0)
    else if required_size <? 36 + 2 * zlen name + 2 then run_M UB
    else mret (Some (str "\Device\NamedPipe\" ++ name), PIPE_HANDLE).

Definition network_path (path : list Z) : P (option (list Z)) :=
  let '(status, u16_path) := RtlUTF8StringToUnicodeString path None in
  if negb (bool_decide (status = STATUS_SUCCESS)) then null_status status
  else
    let required_size := u16 ((zlen path + 12 - 1) * 2) in
    allocate required_size (
      let ntpath := str "\Device\Mup\" ++ drop 2 (backslashes u16_path) in
      if required_size <? 2 * zlen ntpath + 2 then run_M UB else path_coalesce ntpath required_size).

(** [/tmp] at the front is replaced by the temporary directory. *)
Definition expand_tmp (path : list Z) : P (option (list Z)) :=
  if istarts_with path (str "/tmp") then
    tmp ← wlibc_tmpdir;
    match tmp with
    | None => null ENOENT
    | Some tmp =>
        let required_size := u16 (zlen tmp + zlen path - 4 + 1) in
        allocate required_size (
          if required_size <? zlen tmp + zlen path - 3 then run_M UB else mret (Some (tmp ++ drop 4 path)))
    end
  else mret (Some path).

(** The directory a relative path starts from and whether it ends in a slash. *)
Definition root_directory (dirfd : Z) : P (option (list Z * bool)) :=
  if dirfd =? AT_FDCWD then
    allocate 1024 (
      k ← system;
      let cwd := CurrentDirectory k in
      device ← dos_device_to_nt_device (swrap 8 (byte_at cwd 0));
      match device with
      | None => run_M UB
      | Some device =>
          if 1024 <? dev_length device + (2 * zlen cwd - 4) then run_M UB
          else mret (Some (dev_name device ++ drop 2 cwd, true))
      end)
  else
    root ← get_fd_ntpath_internal dirfd;
    match root with
    | None => null EBADF
    | Some root =>
        match last root with
        | None => run_M UB
        | Some c => mret (Some (root, c =? 92))
        end
    end.

(** A path as code units with backslashes. *)
Definition convert_path (path : list Z) : P (option (list Z)) :=
  let '(status, u16_path) := RtlUTF8StringToUnicodeString path None in
  if negb (bool_decide (status = STATUS_SUCCESS)) then null_status status else mret (Some (backslashes u16_path)).

Definition relative_path (root : list Z) (trailing_slash : bool) (path : list Z) : P (option (list Z)) :=
  u16_path ← convert_path path;
  match u16_path with
  | None => mret None
  | Some u16_path =>
      let required_size := u16 (2 * zlen u16_path + 2 + (2 * zlen root + 2)) in
      allocate required_size (
        let ntpath := root ++ (if trailing_slash then [] else [92]) ++ u16_path in
        if required_size <? 2 * zlen ntpath + 2 then run_M UB else path_coalesce ntpath required_size)
  end.

(** [volume] is the letter of the drive; two characters are dropped. *)
Definition absolute_path (volume : Z) (path : list Z) : P (option (list Z)) :=
  u16_path ← convert_path path;
  match u16_path with
  | None => mret None
  | Some u16_path =>
      let required_size := u16 (2 * zlen u16_path + 2 + 54) in
      allocate required_size (
        device ← dos_device_to_nt_device (toupper volume);
        match device with
        | None => null ENOENT
        | Some device =>
            if (zlen u16_path <? 2) || (required_size <? dev_length device + 2 * zlen u16_path - 2) then run_M UB
            else path_coalesce (dev_name device ++ drop 2 u16_path) required_size
        end)
  end.

(** A path on disk. *)
Definition disk_path (dirfd : Z) (path : list Z) : P (option (list Z)) :=
  path ← expand_tmp path;
  match path with
  | None => mret None
  | Some path =>
      if IS_ABSOLUTE_PATH path then
        if byte_at path 0 =? ch "/" then
          if isalpha (byte_at path 1) && ((byte_at path 2 =? ch "/") || (byte_at path 2 =? 0))
          then absolute_path (byte_at path 1) path
          else null ENOENT
        else absolute_path (byte_at path 0) path
      else
        root ← root_directory dirfd;
        match root with
        | None => mret None
        | Some (root, trailing_slash) => relative_path root trailing_slash path
        end
  end.

(** [path] is not empty; the type is not set for a root path. *)
Definition get_absolute_ntpath2 (dirfd : Z) (path : list Z) (t0 : handle_t) : P (option (list Z) * handle_t) :=
  if IS_ROOT_PATH path then root_path t0
  else
    match (if starts_with path (str "/dev/") then posix_device t0 (drop 5 path) else None) with
    | Some m => m
    | None =>
        match dos_device_name t0 path with
        | Some m => m
        | None =>
            if istarts_with path (str "\\.\pipe\") then pipe_path t0 path
            else
              r ← (if ((byte_at path 0 =? 92) && (byte_at path 1 =? 92)) ||
                      ((byte_at path 0 =? ch "/") && (byte_at path 1 =? ch "/"))
                   then network_path path else disk_path dirfd path);
              mret (r, FILE_HANDLE)
        end
    end.

(** The type is not asked for. *)
Definition get_absolute_ntpath (dirfd : Z) (path : list Z) : P (option (list Z)) :=
  '(r, _) ← get_absolute_ntpath2 dirfd path INVALID_HANDLE; mret r.

(** ** DOS paths *)

(** [device_number] is an unsigned [int]; the loop ends at the terminator. *)
Fixpoint parse_device (l : list Z) (i n : Z) : Z * option Z :=
  match l with
  | [] => (n, None)
  | c :: l => if c =? 92 then (n, Some i) else parse_device l (i + 1) (u32 (n * 10 + u32 (c - ch "0")))
  end.

(** The letter of a volume: the first slot of the cache is the one last used. *)
Definition lookup_label (number : Z) (device : list Z) : P Z :=
  p ← get_S;
  let '(slot1, slot2) := dos_device_cache p in
  if device_number slot1 =? number then mret (label slot1)
  else if device_number slot2 =? number then
    _ ← put_S (with_dos_cache p (slot2, slot1)); mret (label slot2)
  else
    label ← nt_device_to_dos_device device;
    p ← get_S;
    _ ← (if negb (label =? 0) then
           put_S (with_dos_cache p
             (if device_number slot1 =? 2 ^ 32 - 1 then (DosDevice number label, slot2)
              else (slot1, DosDevice number label)))
         else mret ());
    mret label.

(** [ntpath] has a terminator; [memcmp] stops at the first difference. *)
Definition ntpath_to_dospath (ntpath : list Z) : P (option (list Z)) :=
  if bool_decide (ntpath = str "\Device\Null") then allocate sizeof_UNICODE_STRING (mret (Some (str "NUL")))
  else if starts_with ntpath (str "\Device\ConDrv") then allocate sizeof_UNICODE_STRING (mret (Some (str "CON")))
  else if starts_with ntpath (str "\Device\NamedPipe") then
    allocate (sizeof_UNICODE_STRING + 2 * zlen ntpath - 16) (mret (Some (str "\\.\pipe" ++ drop 17 ntpath)))
  else if starts_with ntpath (str "\Device\Mup") then
    allocate (sizeof_UNICODE_STRING + 2 * zlen ntpath - 18) (mret (Some (92 :: drop 11 ntpath)))
  else if zlen ntpath <? 22 then run_M UB
  else
    let '(number, second_slash) := parse_device (drop 22 ntpath) 22 0 in
    label ← lookup_label number (match second_slash with Some i => take (Z.to_nat i) ntpath | None => ntpath end);
    if negb (label =? 0) then
      allocate (sizeof_UNICODE_STRING + 2 * zlen ntpath - 32)
        (mret (Some (label :: ch ":" :: match second_slash with Some i => drop (Z.to_nat i) ntpath | None => [] end)))
    else mret None.

(** [dospath] has a drive letter and a colon. *)
Definition dospath_to_ntpath (dospath : list Z) : P (option (list Z)) :=
  device ← dos_device_to_nt_device (swrap 8 (byte_at dospath 0));
  match device with
  | None => mret None
  | Some device =>
      if zlen dospath <? 2 then run_M UB
      else allocate (sizeof_UNICODE_STRING + dev_length device + (2 * zlen dospath + 2) - 4)
             (mret (Some (dev_name device ++ drop 2 dospath)))
  end.

Definition get_absolute_dospath (dirfd : Z) (path : list Z) : P (option (list Z)) :=
  ntpath ← get_absolute_ntpath dirfd path;
  match ntpath with
  | None => mret None
  | Some ntpath => ntpath_to_dospath ntpath
  end.

Definition get_fd_dospath (fd : Z) : P (option (list Z)) :=
  ntpath ← get_fd_ntpath_internal fd;
  match ntpath with
  | None => mret None
  | Some ntpath => ntpath_to_dospath ntpath
  end.

End Paths.
