(* ===== verification/PathFacts.v ===== *)
(** * Lexical resolution of paths

    The stack of components [get_absolute_ntpath2] keeps as offsets into one
    buffer computes the lexical normal form of the path: [.] is dropped, [..]
    removes the name before it, and the device is never removed. *)

From stdpp Require Import strings.
From S2P Require Import Prelude Errno Buffer FdTable FdTableFacts FileIo Path.

(** ** The reference *)

(** Entering a directory. *)
Definition enter (acc : list (list Z)) (name : list Z) : list (list Z) :=
  if bool_decide (name = str "..") then removelast acc
  else if bool_decide (name = str ".") then acc
  else acc ++ [name].

Definition normalise (names : list (list Z)) : list (list Z) := foldl enter [] names.

(** Names with a backslash between them. *)
Fixpoint join (names : list (list Z)) : list Z :=
  match names with
  | [] => []
  | [n] => n
  | n :: names => n ++ 92 :: join names
  end.

(** The path on a volume: the volume alone is its root directory. *)
Definition normal_path (device : list Z) (names : list (list Z)) : list Z :=
  match normalise names with
  | [] => device ++ [92]
  | l => join (device :: l)
  end.

(** A component holds neither separators nor terminators. *)
Definition plain_name (n : list Z) : Prop := Forall (fun c => c <> 92 /\ c <> 0) n.

(** [\Device\X]. *)
Definition device_name (d : list Z) : Prop := 8 <= zlen d /\ plain_name (drop 8 d).

(** ** Running *)

Lemma SM_bind_Some {S K X Y} (m : SM S K X) (k : X -> SM S K Y) p s x p' s' :
  m p s = Some ((x, p'), s') -> (m ≫= k) p s = k x p' s'.
Proof. intros E. unfold mbind, SM_bind, mbind, M_bind. by rewrite E. Qed.

Section Coalesce.
Context {K : Type} {KN : Kernel K} {A : Allocator} {PK : PathKernel K}.
Context (alloc_ok : forall n, malloc_ok n = true).
Implicit Types s : state K.
Implicit Types p : path_state.

(** [m] returns [x] and may grow the array of components. *)
Definition returns {X} (m : SM path_state K X) (x : X) : Prop :=
  forall p s, exists n, m p s = Some ((x, with_components_size p n), s).

Lemma with_size_self p : with_components_size p (path_components_size p) = p.
Proof. by destruct p. Qed.

Lemma returns_ret {X} (x : X) : returns (mret x) x.
Proof. intros p s. exists (path_components_size p). by rewrite with_size_self. Qed.

Lemma returns_bind {X Y} (m : SM path_state K X) (k : X -> SM path_state K Y) x y :
  returns m x -> returns (k x) y -> returns (m ≫= k) y.
Proof.
  intros Hm Hk p s. destruct (Hm p s) as [n Hn]. rewrite (SM_bind_Some _ _ _ _ _ _ _ Hn).
  destruct (Hk (with_components_size p n) s) as [n' Hn']. by exists n'.
Qed.

Lemma returns_allocate {X} n (m : SM path_state K (option X)) x : returns m x -> returns (allocate n m) x.
Proof. unfold allocate. by rewrite alloc_ok. Qed.

Lemma add_component_ok cs start n : returns (add_component cs start n) (Some (cs ++ [Component start n])).
Proof.
  intros p s. unfold add_component. rewrite (SM_bind_Some get_S _ p s p p s eq_refl). cbv zeta.
  destruct cs as [|c cs]; [apply (returns_allocate _ _ _ (returns_ret _))|].
  destruct (_ =? _); [|apply returns_ret]. unfold allocate. rewrite alloc_ok. by eexists.
Qed.

(** The texts the components stand for. *)
Abbreviation texts ntpath cs := (component_text ntpath <$> cs).

Lemma slice_text pre name post :
  component_text (pre ++ name ++ post) (Component (zlen pre) (2 * zlen name)) = name.
Proof.
  unfold component_text. cbn [c_start c_length]. rewrite Z.mul_comm, Z.div_mul by lia.
  rewrite drop_app_length' by lia. by rewrite take_app_length' by lia.
Qed.

Lemma byte_at_middle pre name post k :
  0 <= k < zlen name -> byte_at (pre ++ name ++ post) (zlen pre + k) = byte_at name k.
Proof. intros Hk. rewrite byte_at_app_r by lia. rewrite byte_at_app_l by lia. f_equal. lia. Qed.

Lemma pop_texts ntpath d acc cs :
  texts ntpath cs = d :: acc -> texts ntpath (pop_component cs) = d :: removelast acc.
Proof.
  intros E. unfold pop_component. rewrite fmap_take, E.
  assert (length cs = S (length acc)) as El by (by rewrite <- (length_fmap (component_text ntpath)), E).
  rewrite removelast_firstn_len. destruct acc as [|x acc]; cbn [length] in *.
  - by replace (_ <? 1) with true by lia.
  - rewrite (proj2 (Z.ltb_ge _ 1)) by lia. replace (Z.to_nat (zlen cs - 1)) with (S (pred (S (length acc)))) by lia. done.
Qed.

(** One component enters the directory it names. *)
Lemma path_step_ok pre name post d acc cs :
  let ntpath := pre ++ name ++ post in
  texts ntpath cs = d :: acc ->
  exists cs', returns (path_step ntpath (zlen pre) (zlen pre + zlen name) cs) (Some cs') /\
    texts ntpath cs' = d :: enter acc name.
Proof.
  intros ntpath E. unfold path_step. replace (zlen pre + zlen name - zlen pre) with (zlen name) by lia.
  assert (texts ntpath (cs ++ [Component (zlen pre) (2 * zlen name)]) = d :: acc ++ [name]) as Hpush
    by (rewrite fmap_app, E; cbn [fmap list_fmap]; unfold ntpath; by rewrite slice_text).
  assert (forall k, 0 <= k < zlen name -> byte_at ntpath (zlen pre + k) = byte_at name k) as Hat
    by (intros; by apply byte_at_middle).
  unfold enter. destruct name as [|a [|b [|c name]]]; cbn [length].
  - change (Z.of_nat 0 >? 2) with false. change (Z.of_nat 0 =? 2) with false. change (Z.of_nat 0 =? 1) with false. cbn [andb]. eexists. split; [apply add_component_ok|done].
  - change (Z.of_nat 1 >? 2) with false. rewrite Hat by (cbn; lia).
    change (Z.of_nat 1 =? 2) with false. change (Z.of_nat 1 =? 1) with true. change (byte_at [a] 0) with a. cbn [andb].
    destruct (a =? 46) eqn:Ea.
    + apply Z.eqb_eq in Ea. subst a. exists cs. split; [apply returns_ret|by rewrite E].
    + apply Z.eqb_neq in Ea. eexists. split; [apply add_component_ok|]. etrans; [exact Hpush|].
      rewrite !bool_decide_eq_false_2 by (intros [=]; done). done.
  - change (Z.of_nat 2 >? 2) with false. rewrite !Hat by (cbn; lia).
    change (Z.of_nat 2 =? 2) with true. change (Z.of_nat 2 =? 1) with false. change (byte_at [a; b] 0) with a.
    change (byte_at [a; b] 1) with b. cbn [andb].
    destruct ((a =? 46) && (b =? 46)) eqn:Ea.
    + apply andb_true_iff in Ea as [->%Z.eqb_eq ->%Z.eqb_eq]. exists (pop_component cs). split; [apply returns_ret|].
      by apply pop_texts.
    + eexists. split; [apply add_component_ok|]. etrans; [exact Hpush|].
      rewrite !bool_decide_eq_false_2; [done|by intros [=]|intros [= -> ->]; done].
  - rewrite Z.gtb_ltb, (proj2 (Z.ltb_lt 2 _)) by lia. eexists. split; [apply add_component_ok|].
    etrans; [exact Hpush|].
    rewrite !bool_decide_eq_false_2; [done|by intros [=]..].
Qed.

(** The loop runs to the end of a name. *)
Lemma path_components_scan name fuel ntpath i start cs pre post :
  ntpath = pre ++ name ++ post -> i = zlen pre -> plain_name name ->
  path_components (K := K) (length name + fuel) ntpath i start cs = path_components fuel ntpath (i + zlen name) start cs.
Proof.
  revert i pre. induction name as [|c name IH]; intros i pre E Hi Hn; cbn [length Nat.add].
  - by rewrite Z.add_0_r.
  - apply Forall_cons in Hn as [[Hc0 Hc1] Hn]. cbn [path_components].
    rewrite (proj2 (Z.ltb_ge _ _)) by (rewrite E, !length_app; cbn [length]; lia).
    assert (byte_at ntpath i = c) as -> by (rewrite E, Hi, byte_at_app_r, Z.sub_diag by lia; done).
    rewrite (proj2 (Z.eqb_neq _ _) Hc0), (proj2 (Z.eqb_neq _ _) Hc1). cbn [orb].
    rewrite (IH (i + 1) (pre ++ [c])); [f_equal; lia|by rewrite <- app_assoc|rewrite length_app; cbn [length]; lia|done].
Qed.

Lemma path_components_ok names pre fuel d acc cs :
  let ntpath := pre ++ join names in
  names <> [] -> Forall plain_name names -> texts ntpath cs = d :: acc -> (length (join names) < fuel)%nat ->
  exists cs', returns (path_components fuel ntpath (zlen pre) (zlen pre) cs) (Some cs') /\
    texts ntpath cs' = d :: foldl enter acc names.
Proof.
  revert pre fuel acc cs. induction names as [|n names IH]; intros pre fuel acc cs ntpath Hne Hn E Hfuel; [done|].
  apply Forall_cons in Hn as [Hn Hns]. set (post := match names with [] => [] | _ => 92 :: join names end).
  assert (join (n :: names) = n ++ post) as Ej by (unfold post; destruct names; cbn; by rewrite ?app_nil_r).
  assert (ntpath = pre ++ n ++ post) as Ent by (unfold ntpath; by rewrite Ej).
  rewrite Ej, length_app in Hfuel. replace fuel with (length n + (fuel - length n))%nat by lia.
  rewrite (path_components_scan n (fuel - length n) ntpath (zlen pre) _ cs pre post) by done.
  destruct (fuel - length n)%nat as [|f] eqn:Ef; [lia|]. cbn [path_components].
  rewrite (proj2 (Z.ltb_ge _ _)) by (rewrite Ent, !length_app; lia).
  destruct (path_step_ok pre n post d acc cs) as (cs1 & Hstep & Ecs1); [by rewrite <- Ent|]. rewrite <- Ent in *.
  assert (byte_at ntpath (zlen pre + zlen n) = byte_at post 0) as ->.
  { rewrite Ent, app_assoc, byte_at_app_r by (rewrite length_app; lia). f_equal. rewrite length_app. lia. }
  destruct names as [|n' names].
  - exists cs1. split; [|done]. change (byte_at post 0) with 0. cbn. eapply returns_bind; [exact Hstep|]. apply returns_ret.
  - change (byte_at post 0) with 92. change ((92 =? 92) || (92 =? 0)) with true. cbv iota.
    assert (ntpath = (pre ++ n ++ [92]) ++ join (n' :: names)) as Ent2
      by (rewrite Ent; unfold post; by rewrite <- !app_assoc).
    destruct (IH (pre ++ n ++ [92]) f (enter acc n) cs1) as (cs2 & Hrec & Ecs2); [done|done|by rewrite <- Ent2|unfold post in Hfuel; cbn [length] in *; lia|].
    rewrite <- Ent2 in *. exists cs2. split; [|done]. eapply returns_bind; [exact Hstep|]. change (92 =? 0) with false. cbv iota.
    replace (zlen pre + zlen n + 1) with (zlen (pre ++ n ++ [92])) by (rewrite !length_app; cbn [length]; lia). exact Hrec.
Qed.

Lemma join_texts ntpath cs : join_components ntpath cs = join (texts ntpath cs).
Proof.
  induction cs as [|c [|c' cs] IH]; [done..|].
  change (join_components ntpath (c :: c' :: cs)) with (component_text ntpath c ++ 92 :: join_components ntpath (c' :: cs)).
  by rewrite IH.
Qed.

(** The room a list of names takes. *)
Definition room (names : list (list Z)) : nat := sum_list ((fun n => S (length n)) <$> names).

Lemma room_nil : room [] = 0%nat.
Proof. done. Qed.

Lemma room_cons n names : room (n :: names) = (S (length n) + room names)%nat.
Proof. done. Qed.

Lemma length_join d names : length (join (d :: names)) = (length d + room names)%nat.
Proof.
  revert d. induction names as [|n names IH]; intros d; [rewrite room_nil; cbn [join]; lia|].
  change (join (d :: n :: names)) with (d ++ 92 :: join (n :: names)).
  rewrite length_app. cbn [length]. rewrite IH, room_cons. lia.
Qed.

Lemma room_app a b : room (a ++ b) = (room a + room b)%nat.
Proof. unfold room. rewrite fmap_app. by rewrite sum_list_with_app. Qed.

Lemma room_removelast l : (room (removelast l) <= room l)%nat.
Proof.
  destruct l as [|x l _] using rev_ind; [done|]. rewrite removelast_last, room_app. lia.
Qed.

Lemma room_enter acc n : (room (enter acc n) <= room acc + S (length n))%nat.
Proof.
  unfold enter. repeat case_bool_decide; [pose proof (room_removelast acc); lia|lia|]. rewrite room_app, room_cons, room_nil. lia.
Qed.

Lemma room_normalise acc names : (room (foldl enter acc names) <= room acc + room names)%nat.
Proof.
  revert acc. induction names as [|n names IH]; intros acc; [rewrite room_nil; cbn [foldl]; lia|]. cbn [foldl].
  pose proof (IH (enter acc n)). pose proof (room_enter acc n). rewrite room_cons. lia.
Qed.

Lemma length_normal_path d names : names <> [] -> (length (normal_path d names) <= length (join (d :: names)))%nat.
Proof.
  intros Hne. unfold normal_path. pose proof (room_normalise [] names) as Hr. fold (normalise names) in Hr. rewrite room_nil in Hr.
  destruct (normalise names) as [|x l]; rewrite ?length_join.
  - rewrite length_app. destruct names as [|n names]; [done|]. rewrite room_cons. cbn [length]. lia.
  - lia.
Qed.

(** The loop from the start of the buffer. *)
Lemma path_components_all d names :
  device_name d -> Forall plain_name names ->
  let ntpath := join (d :: names) in
  exists cs, returns (path_components (S (length ntpath)) ntpath 8 0 []) (Some cs) /\
    texts ntpath cs = d :: normalise names.
Proof.
  intros [Hlen Hd] Hn ntpath. set (post := match names with [] => [] | _ => 92 :: join names end).
  assert (ntpath = d ++ post) as Ent by (unfold ntpath, post; destruct names; cbn; by rewrite ?app_nil_r).
  assert (length ntpath = length d + length post)%nat as El by (by rewrite Ent, length_app).
  replace (S (length ntpath)) with (length (drop 8 d) + S (8 + length post))%nat by (rewrite length_drop; lia).
  rewrite (path_components_scan (drop 8 d) _ ntpath 8 0 [] (take 8 d) post);
    [|by rewrite app_assoc, take_drop|rewrite length_take; lia|done].
  rewrite length_drop. replace (8 + Z.of_nat (length d - 8)) with (zlen d) by lia. cbn [path_components Nat.add].
  rewrite (proj2 (Z.ltb_ge _ _)) by lia. assert (byte_at ntpath (zlen d) = byte_at post 0) as ->
    by (rewrite Ent, byte_at_app_r, Z.sub_diag by lia; done).
  assert (path_step ntpath 0 (zlen d) [] = add_component (K := K) [] 0 (2 * zlen d)) as ->.
  { unfold path_step. rewrite Z.sub_0_r, Z.gtb_ltb, (proj2 (Z.ltb_lt 2 _)) by lia. done. }
  assert (texts ntpath [Component 0 (2 * zlen d)] = [d]) as Et
    by (pose proof (slice_text [] d post) as E; cbn [app length] in E; rewrite <- Ent in E; exact (f_equal (fun x => [x]) E)).
  destruct names as [|n names].
  - eexists. split; [eapply returns_bind; [apply add_component_ok|]; apply returns_ret|]. exact Et.
  - change (byte_at post 0) with 92.
    assert (ntpath = (d ++ [92]) ++ join (n :: names)) as Ent2 by (rewrite Ent; unfold post; by rewrite <- app_assoc).
    destruct (path_components_ok (n :: names) (d ++ [92]) (8 + length post) d [] [Component 0 (2 * zlen d)])
      as (cs & Hr & Ecs); [done|done|by rewrite <- Ent2|unfold post; cbn [length]; lia|]. rewrite <- Ent2 in *.
    exists cs. split; [|done]. change ((92 =? 92) || (92 =? 0)) with true. cbv iota.
    eapply returns_bind; [apply add_component_ok|]. change (92 =? 0) with false. cbv iota.
    replace (zlen d + 1) with (zlen (d ++ [92])) by (rewrite length_app; cbn [length]; lia). exact Hr.
Qed.

Lemma path_coalesce_ok d names size :
  device_name d -> Forall plain_name names ->
  2 * zlen (join (d :: names)) + 2 + (match names with [] => 2 | _ => 0 end) <= size ->
  returns (path_coalesce (join (d :: names)) size) (Some (normal_path d names)).
Proof.
  intros Hd Hn Hsize. unfold path_coalesce.
  destruct (path_components_all d names Hd Hn) as (cs & Hrun & Ecs).
  eapply returns_bind; [exact Hrun|]. cbv beta iota. apply returns_allocate. rewrite join_texts, Ecs.
  assert (zlen cs = zlen (d :: normalise names)) as Hcs by (f_equal; by rewrite <- Ecs, length_fmap). rewrite Hcs.
  assert ((if zlen (d :: normalise names) =? 1 then join (d :: normalise names) ++ [92] else join (d :: normalise names)) =
    normal_path d names) as ->.
  { unfold normal_path. destruct (normalise names); [done|]. by rewrite (proj2 (Z.eqb_neq _ 1)) by (cbn [length]; lia). }
  assert (2 * zlen (normal_path d names) + 2 <= size) as Hfit.
  { destruct names as [|n names]; [unfold normal_path; cbn in *; rewrite length_app; cbn [length]; lia|].
    pose proof (length_normal_path d (n :: names) ltac:(done)). lia. }
  rewrite (proj2 (Z.ltb_ge _ _)) by lia. apply returns_ret.
Qed.

(** C4: path resolution normalises. For a device and any sequence of names
    (empty ones, [.] and [..] included), the loop over offsets in the buffer
    [\Device\X\name\...\name] gives the path a stack of names gives: [.] leaves
    it, [..] drops the last name but never the device, and the device alone is
    written as its root directory. The result fits in the space of its input. *)
Theorem coalesce_normalises d names size
    (Hd : device_name d) (Hn : Forall plain_name names)
    (Hsize : 2 * zlen (join (d :: names)) + 2 + (match names with [] => 2 | _ => 0 end) <= size) :
  returns (path_coalesce (join (d :: names)) size) (Some (normal_path d names)).
Proof. by apply path_coalesce_ok. Qed.

End Coalesce.
