(* ===== verification/PathSpec.v ===== *)
(** * What path resolution guarantees

    Paths on a drive, written the Windows or the Cygwin way, with either slash;
    the translation to DOS paths and back with its cache of drive letters; the
    cache of descriptor paths; and where the resolution departs from what its
    callers expect. *)

From stdpp Require Import strings.
From S2P Require Import Prelude Errno Buffer FdTable FdTableFacts FileIo Path PathFacts.

(** ** Paths on a drive *)

(** The names behind the device. *)
Definition tail_of (names : list (list Z)) : list Z := match names with [] => [] | _ => 92 :: join names end.

Lemma join_tail d names : join (d :: names) = d ++ tail_of names.
Proof. destruct names; cbn; by rewrite ?app_nil_r. Qed.

(** [C:] followed by anything, or [/c] followed by nothing or a slash. *)
Definition drive_prefix (l : Z) (tail prefix : list Z) : Prop :=
  prefix = [l; ch ":"] \/ prefix = [ch "/"; l] /\ (tail = [] \/ exists rest, tail = ch "/" :: rest).

(** What a volume's name is. *)
Definition volume_ok (d : nt_device) : Prop :=
  device_name (dev_name d) /\ dev_length d = 2 * zlen (dev_name d) /\ zlen (dev_name d) <= 26.

Section Drive.
Context {K : Type} {KN : Kernel K} {A : Allocator} {PK : PathKernel K}.
Context (alloc_ok : forall n, malloc_ok n = true).
Implicit Types s : state K.
Implicit Types p : path_state.

Lemma isalpha_range l : isalpha l = true -> 65 <= l <= 90 \/ 97 <= l <= 122.
Proof. unfold isalpha. lia. Qed.

(** A path on a drive is none of the special ones. *)
Lemma drive_path_plain l tail prefix :
  isalpha l = true -> drive_prefix l tail prefix ->
  let path := prefix ++ tail in
  IS_ROOT_PATH path = false /\ starts_with path (str "/dev/") = false /\
  istarts_with path (str "\\.\pipe\") = false /\ istarts_with path (str "/tmp") = false /\
  ((byte_at path 0 =? 92) && (byte_at path 1 =? 92)) || ((byte_at path 0 =? ch "/") && (byte_at path 1 =? ch "/")) = false.
Proof.
  intros Hl%isalpha_range Hp path.
  assert (IS_ROOT_PATH path = false) as Hroot.
  { unfold IS_ROOT_PATH, path. apply andb_false_iff. left. apply Z.eqb_neq.
    destruct Hp as [->|[-> _]]; [done|]. change (byte_at _ 1) with l. lia. }
  split; [done|]. unfold starts_with, istarts_with, path.
  destruct Hp as [->|[-> [->|[rest ->]]]]; (split_and!; [apply bool_decide_eq_false_2; intros [=]; lia| | |]);
    try (apply bool_decide_eq_false_2; unfold tolower; cbn; intros [=]; repeat case_match; lia);
    change (byte_at _ 0) with l || change (byte_at _ 1) with l; cbn [app byte_at]; lia.
Qed.

Lemma drive_path_no_device (t0 : handle_t) l tail prefix :
  isalpha l = true -> drive_prefix l tail prefix -> dos_device_name (K := K) t0 (prefix ++ tail) = None.
Proof.
  intros Hl%isalpha_range Hp. unfold dos_device_name, iequal.
  rewrite !bool_decide_eq_false_2; [done|..];
    (destruct Hp as [->|[-> _]]; unfold tolower; cbn; intros [=]; repeat case_match; lia).
Qed.

(** A path on a drive is resolved by its letter. *)
Lemma drive_path_absolute dirfd t0 l tail prefix p s :
  isalpha l = true -> drive_prefix l tail prefix ->
  get_absolute_ntpath2 dirfd (prefix ++ tail) t0 p s =
    (r ← absolute_path l (prefix ++ tail); mret (r, FILE_HANDLE)) p s.
Proof.
  intros Hl Hp. destruct (drive_path_plain l tail prefix Hl Hp) as (E1 & E2 & E3 & E4 & E5).
  unfold get_absolute_ntpath2. rewrite E1, E2, (drive_path_no_device t0 l tail prefix Hl Hp), E3, E5.
  unfold disk_path, expand_tmp. rewrite E4.
  assert (IS_ABSOLUTE_PATH (prefix ++ tail) = true) as Habs.
  { unfold IS_ABSOLUTE_PATH. destruct Hp as [->|[-> _]]; [|by rewrite orb_true_r].
    change (byte_at _ 0) with l. by rewrite Hl. }
  unfold mbind, SM_bind, mbind, M_bind. cbn [mret SM_ret M_ret]. rewrite Habs.
  apply isalpha_range in Hl as Hr. destruct Hp as [->|[-> Htail]].
  - change (byte_at ([l; 58] ++ tail) 0) with l. by rewrite (proj2 (Z.eqb_neq l 47)) by lia.
  - change (byte_at ([47; l] ++ tail) 0) with 47. change (byte_at ([47; l] ++ tail) 1) with l. rewrite Hl.
    replace ((byte_at ([47; l] ++ tail) 2 =? 47) || (byte_at ([47; l] ++ tail) 2 =? 0)) with true; [done|].
    by destruct Htail as [->|[rest ->]].
Qed.

(** paths on a drive. [C:...] and [/c...] with either kind of slash name the
    same thing: the volume of the letter, whatever its case, and the lexical
    normal form of the names behind it. *)
Theorem drive_path_resolves dirfd t0 l tail prefix names p s dev p1 s1
    (Hl : isalpha l = true) (Hp : drive_prefix l tail prefix)
    (Htail : backslashes tail = tail_of names) (Hn : Forall plain_name names) (Hlen : zlen tail < 30000)
    (Hconv : RtlUTF8StringToUnicodeString (prefix ++ tail) None = (STATUS_SUCCESS, prefix ++ tail))
    (Hdev : dos_device_to_nt_device (toupper l) p s = Some ((Some dev, p1), s1)) (Hvol : volume_ok dev) :
  exists n, get_absolute_ntpath2 dirfd (prefix ++ tail) t0 p s =
    Some (((Some (normal_path (dev_name dev) names), FILE_HANDLE), with_components_size p1 n), s1).
Proof.
  rewrite (drive_path_absolute dirfd t0 l) by done. destruct Hvol as (Hd & Hdl & Hd26).
  assert (length prefix = 2%nat) as Hpl by (by destruct Hp as [->|[-> _]]).
  unfold absolute_path, convert_path. rewrite Hconv, bool_decide_eq_true_2 by done. cbn [negb].
  set (u := backslashes (prefix ++ tail)). assert (zlen u = 2 + zlen tail) as Hu
    by (unfold u, backslashes; rewrite length_fmap, length_app; lia).
  assert (drop 2 u = tail_of names) as Hdrop.
  { unfold u, backslashes. rewrite fmap_app, drop_app_length' by (by rewrite length_fmap). exact Htail. }
  assert (2 * zlen u + 2 + 54 < 2 ^ 16) as H16 by lia.
  unfold mbind, SM_bind, mbind, M_bind. cbn [mret SM_ret M_ret]. rewrite (wrap_small 16) by lia. unfold allocate. rewrite alloc_ok, Hdev.
  rewrite (proj2 (Z.ltb_ge (zlen u) 2)), (proj2 (Z.ltb_ge _ (dev_length dev + 2 * zlen u - 2))) by lia. cbn [orb].
  rewrite Hdrop, <- join_tail.
  assert (length (join (dev_name dev :: names)) = length (dev_name dev) + length tail)%nat as Hj
    by (rewrite join_tail, length_app, <- Htail; unfold backslashes; by rewrite length_fmap).
  destruct (path_coalesce_ok (K := K) alloc_ok (dev_name dev) names (2 * zlen u + 2 + 54) Hd Hn ltac:(destruct names; lia) p1 s1) as [n Hc].
  rewrite Hc. by exists n.
Qed.

(** ** Paths relative to the current directory *)

Lemma join_app dirs names d : names <> [] -> join (d :: dirs ++ names) = d ++ tail_of dirs ++ 92 :: join names.
Proof.
  intros Hne. revert d. induction dirs as [|x dirs IH]; intros d; cbn [app].
  - by destruct names.
  - change (join (d :: x :: dirs ++ names)) with (d ++ 92 :: join (x :: dirs ++ names)). rewrite IH.
    change (tail_of (x :: dirs)) with (92 :: join (x :: dirs)). rewrite join_tail. cbn [app]. by rewrite <- !app_assoc.
Qed.

Lemma root_directory_cwd l dirs p s dev p1 s1 :
  CurrentDirectory (kernel s) = l :: ch ":" :: tail_of dirs ++ [92] -> 0 <= l < 128 ->
  dos_device_to_nt_device l p s = Some ((Some dev, p1), s1) ->
  root_directory AT_FDCWD p s =
    if 1024 <? dev_length dev + 2 * zlen (tail_of dirs ++ [92]) then None
    else Some ((Some (dev_name dev ++ tail_of dirs ++ [92], true), p1), s1).
Proof.
  intros Hcwd Hl Hdev. unfold root_directory, allocate. change (AT_FDCWD =? AT_FDCWD) with true. cbv iota. rewrite alloc_ok.
  rewrite (SM_bind_Some system _ p s (kernel s) p s eq_refl). cbv zeta. rewrite Hcwd.
  change (byte_at (l :: _) 0) with l. rewrite (swrap_small 8) by lia. rewrite (SM_bind_Some _ _ _ _ _ _ _ Hdev).
  replace (2 * zlen (l :: 58 :: tail_of dirs ++ [92]) - 4) with (2 * zlen (tail_of dirs ++ [92])) by (cbn [length]; lia).
  by destruct (1024 <? _).
Qed.

(** relative paths. A path that is neither absolute nor under [/tmp] is
    looked up from the current directory: with the directory [L:\dir\...\] and
    the names of the path, the result is the normal form of both, on the volume
    of the directory, as long as the directory fits in the 1024 bytes kept for
    it; beyond that the buffer is overrun. *)
Theorem relative_path_resolves path names dirs l p s dev p1 s1
    (Habs : IS_ABSOLUTE_PATH path = false) (Htmp : istarts_with path (str "/tmp") = false)
    (Hpath : backslashes path = join names) (Hne : names <> []) (Hn : Forall plain_name (dirs ++ names))
    (Hcwd : CurrentDirectory (kernel s) = l :: ch ":" :: tail_of dirs ++ [92]) (Hl : 0 <= l < 128)
    (Hconv : RtlUTF8StringToUnicodeString path None = (STATUS_SUCCESS, path)) (Hlen : zlen path < 30000)
    (Hdev : dos_device_to_nt_device l p s = Some ((Some dev, p1), s1)) (Hvol : volume_ok dev) :
  if 1024 <? dev_length dev + 2 * zlen (tail_of dirs ++ [92])
  then disk_path AT_FDCWD path p s = None
  else exists n, disk_path AT_FDCWD path p s =
    Some ((Some (normal_path (dev_name dev) (dirs ++ names)), with_components_size p1 n), s1).
Proof.
  destruct Hvol as (Hd & Hdl & Hd26).
  assert (expand_tmp (K := K) path p s = Some ((Some path, p), s)) as Htmp' by (unfold expand_tmp; by rewrite Htmp).
  pose proof (root_directory_cwd l dirs p s dev p1 s1 Hcwd Hl Hdev) as Hrd.
  assert (disk_path AT_FDCWD path p s = (root ← root_directory AT_FDCWD;
    match root with None => mret None | Some (root, trailing_slash) => relative_path root trailing_slash path end) p s) as ->
    by (unfold disk_path; by rewrite (SM_bind_Some _ _ _ _ _ _ _ Htmp'), Habs).
  destruct (1024 <? _) eqn:E.
  { unfold mbind, SM_bind, mbind, M_bind. by rewrite Hrd. }
  apply Z.ltb_ge in E. rewrite (SM_bind_Some _ _ _ _ _ _ _ Hrd). cbv beta iota.
  set (root := dev_name dev ++ tail_of dirs ++ [92]). assert (zlen root <= 512) as Hroot
    by (unfold root; rewrite length_app, Nat2Z.inj_add; lia).
  unfold relative_path, convert_path. rewrite Hconv, bool_decide_eq_true_2 by done. cbn [negb app].
  unfold mbind, SM_bind, mbind, M_bind. cbn [mret SM_ret M_ret]. rewrite Hpath.
  assert (length (join names) = length path) as Hjl by (rewrite <- Hpath; unfold backslashes; by rewrite length_fmap).
  rewrite (wrap_small 16) by lia. unfold allocate. rewrite alloc_ok.
  assert (root ++ join names = join (dev_name dev :: dirs ++ names)) as Ej
    by (rewrite join_app by done; unfold root; by rewrite <- !app_assoc).
  rewrite (proj2 (Z.ltb_ge _ _)) by (rewrite length_app; lia). rewrite Ej.
  assert (zlen (join (dev_name dev :: dirs ++ names)) = zlen root + zlen path) as Hz by (rewrite <- Ej, length_app; lia).
  destruct (path_coalesce_ok (K := K) alloc_ok (dev_name dev) (dirs ++ names) (2 * zlen (join names) + 2 + (2 * zlen root + 2)) Hd Hn
    ltac:(destruct (dirs ++ names); lia) p1 s1) as [n Hc].
  rewrite Hc. by exists n.
Qed.

(** ** The temporary directory *)

(** anything that begins with [/tmp], in any case, is taken into the
    temporary directory, also when the name only starts with these letters: the
    rest is put behind the directory without a separator. *)
Theorem tmp_prefix_captures rest tmp p s
    (Hinit : tmpdir_initialized p = true) (Htmp : tmpdir p = tmp) (Hlen : zlen tmp + zlen rest < 65000) :
  expand_tmp (K := K) (str "/tmp" ++ rest) p s = Some ((Some (tmp ++ rest), p), s) /\
  expand_tmp (K := K) (str "/TMP" ++ rest) p s = Some ((Some (tmp ++ rest), p), s).
Proof.
  assert (forall q, length q = 4%nat -> istarts_with (q ++ rest) (str "/tmp") = true ->
    expand_tmp (K := K) (q ++ rest) p s = Some ((Some (tmp ++ rest), p), s)) as Hgen.
  { intros q Hq Hpre. unfold expand_tmp. rewrite Hpre. unfold wlibc_tmpdir, mbind, SM_bind, mbind, M_bind.
    cbn [get_S mret SM_ret M_ret]. rewrite Hinit. cbn [mret SM_ret M_ret]. rewrite Htmp.
    replace (zlen (q ++ rest)) with (4 + zlen rest) by (rewrite length_app; lia).
    rewrite (wrap_small 16) by lia. unfold allocate. rewrite alloc_ok, (proj2 (Z.ltb_ge _ _)) by lia.
    rewrite drop_app_length' by done. done. }
  split; apply Hgen; try done; unfold istarts_with; apply bool_decide_eq_true_2; done.
Qed.

End Drive.

(** ** Drive letters *)

Definition digits (ds : list Z) : Prop := Forall (fun c => 48 <= c <= 57) ds.

(** [\Device\HarddiskVolume12]. *)
Definition volume_name (ds : list Z) : list Z := str "\Device\HarddiskVolume" ++ ds.
Definition volume_number (ds : list Z) : Z := (parse_device ds 22 0).1.

(** The mount manager knows the letter of every volume. *)
Class MountManager (K : Type) `{PathKernel K} (label_of : Z -> Z) : Prop := {
  mm_letter n : ch "A" <= label_of n <= ch "Z";
  mm_query ds k : digits ds -> exists rest, QueryDosVolumePaths (volume_name ds) k = (STATUS_SUCCESS, label_of (volume_number ds) :: rest)
}.

Section Labels.
Context {K : Type} {KN : Kernel K} {A : Allocator} {PK : PathKernel K} (label_of : Z -> Z) {MM : MountManager K label_of}.
Context (alloc_ok : forall n, malloc_ok n = true).
Implicit Types s : state K.
Implicit Types p : path_state.

(** A slot is empty or holds the letter of its volume. *)
Definition slot_ok (d : dos_device) : Prop := device_number d = 2 ^ 32 - 1 \/ label d = label_of (device_number d).

Definition labels_ok p : Prop := slot_ok (dos_device_cache p).1 /\ slot_ok (dos_device_cache p).2.

Definition cached p n : Prop := device_number (dos_device_cache p).1 = n \/ device_number (dos_device_cache p).2 = n.

Lemma letter_label ds k :
  digits ds -> zlen ds <= 9 ->
  exists rest, QueryDosVolumePaths (volume_name ds) k = (STATUS_SUCCESS, label_of (volume_number ds) :: rest) /\
    swrap 8 (label_of (volume_number ds)) = label_of (volume_number ds).
Proof.
  intros Hd Hl. destruct (mm_query ds k Hd) as [rest Hq]. exists rest. split; [done|].
  pose proof (mm_letter (volume_number ds)). apply swrap_small; lia.
Qed.

Lemma lookup_label_ok ds p s :
  labels_ok p -> digits ds -> zlen ds <= 9 -> volume_number ds <> 2 ^ 32 - 1 ->
  exists c, let p' := with_dos_cache p c in
    lookup_label (volume_number ds) (volume_name ds) p s = Some ((label_of (volume_number ds), p'), s) /\
    labels_ok p' /\ cached p' (volume_number ds).
Proof.
  intros Hok Hd Hl Hn. set (n := volume_number ds) in *. unfold lookup_label.
  rewrite (SM_bind_Some get_S _ p s p p s eq_refl). unfold labels_ok, cached in *.
  destruct (dos_device_cache p) as [slot1 slot2] eqn:Ec. cbn [fst snd] in Hok. destruct Hok as [H1 H2].
  destruct (device_number slot1 =? n) eqn:E1; [apply Z.eqb_eq in E1|].
  { exists (slot1, slot2). cbn. split; [|auto]. rewrite <- Ec. destruct H1 as [|H1]; [congruence|]. rewrite H1, E1. by destruct p. }
  destruct (device_number slot2 =? n) eqn:E2; [apply Z.eqb_eq in E2|].
  { exists (slot2, slot1). cbn. split; [|auto]. destruct H2 as [|H2]; [congruence|]. by rewrite H2, E2. }
  destruct (letter_label ds (kernel s) Hd Hl) as (rest & Hq & Hs). fold n in Hq, Hs. pose proof (mm_letter n) as Hletter.
  assert (nt_device_to_dos_device (volume_name ds) p s = Some ((label_of n, p), s)) as Hnt.
  { unfold nt_device_to_dos_device. rewrite (SM_bind_Some system _ p s (kernel s) p s eq_refl).
    rewrite (proj2 (Z.ltb_ge 62 _)) by (unfold volume_name; rewrite length_app; change (length (str "\Device\HarddiskVolume")) with 22%nat; lia).
    rewrite Hq. change (byte_at (label_of n :: rest) 0) with (label_of n). rewrite Hs, bool_decide_eq_true_2 by done.
    by replace ((label_of n >=? 65) && (label_of n <=? 90)) with true by lia. }
  rewrite (SM_bind_Some _ _ _ _ _ _ _ Hnt), (SM_bind_Some get_S _ p s p p s eq_refl).
  rewrite (proj2 (Z.eqb_neq (label_of n) 0)) by lia. cbn [negb].
  destruct (device_number slot1 =? 2 ^ 32 - 1); eexists; (split; [done|]); cbn; unfold slot_ok; auto.
Qed.

(** the cache of drive letters is coherent: whatever volumes were looked up
    before, the letter of a volume is the one the mount manager gives it, the
    cache stays coherent, and the volume is in it afterwards. *)
Theorem label_cache_coherent ds p s
    (Hok : labels_ok p) (Hd : digits ds) (Hl : zlen ds <= 9) (Hn : volume_number ds <> 2 ^ 32 - 1) :
  exists p', lookup_label (volume_number ds) (volume_name ds) p s = Some ((label_of (volume_number ds), p'), s) /\
    labels_ok p' /\ cached p' (volume_number ds).
Proof. destruct (lookup_label_ok ds p s Hok Hd Hl Hn) as (c & ? & ? & ?). by exists (with_dos_cache p c). Qed.

Lemma parse_device_slash ds rest i n :
  digits ds -> parse_device (ds ++ 92 :: rest) i n = ((parse_device ds i n).1, Some (i + zlen ds)).
Proof.
  revert i n. induction ds as [|c ds IH]; intros i n Hd; cbn [app parse_device length].
  - by rewrite Z.add_0_r.
  - apply Forall_cons in Hd as [Hc Hd]. rewrite (proj2 (Z.eqb_neq c 92)), IH by (done || lia).
    do 2 f_equal. lia.
Qed.

Lemma parse_device_end ds i n : digits ds -> parse_device ds i n = ((parse_device ds i n).1, None).
Proof.
  revert i n. induction ds as [|c ds IH]; intros i n Hd; cbn [parse_device]; [done|].
  apply Forall_cons in Hd as [Hc Hd]. rewrite (proj2 (Z.eqb_neq c 92)) by lia. by apply IH.
Qed.

(** A path on a disk volume gets the letter of the volume. *)
Lemma ntpath_dospath ds rest p s :
  digits ds -> zlen ds <= 9 -> volume_number ds <> 2 ^ 32 - 1 -> labels_ok p -> (rest = [] \/ exists rest', rest = 92 :: rest') ->
  exists c, let p' := with_dos_cache p c in
    ntpath_to_dospath (volume_name ds ++ rest) p s = Some ((Some (label_of (volume_number ds) :: ch ":" :: rest), p'), s) /\ labels_ok p'.
Proof.
  intros Hd Hl Hn Hok Hrest. pose proof (mm_letter (volume_number ds)) as Hletter. destruct (lookup_label_ok ds p s Hok Hd Hl Hn) as (c & Hlk & Hok2 & _).
  exists c. split; [|done].
  unfold ntpath_to_dospath, starts_with, volume_name. rewrite !bool_decide_eq_false_2 by (by intros [=]).
  rewrite <- app_assoc, (proj2 (Z.ltb_ge _ 22)) by (rewrite length_app; change (length (str "\Device\HarddiskVolume")) with 22%nat; lia).
  rewrite drop_app_length' by done. fold (volume_name ds) in *.
  assert (parse_device (ds ++ rest) 22 0 = (volume_number ds, match rest with [] => None | _ => Some (22 + zlen ds) end)) as ->.
  { destruct Hrest as [->|[rest' ->]]; [rewrite app_nil_r; by rewrite (parse_device_end ds) by done|by rewrite parse_device_slash]. }
  rewrite app_assoc. fold (volume_name ds).
  assert (match (match rest with [] => None | _ => Some (22 + zlen ds) end) with
          | Some i => take (Z.to_nat i) (volume_name ds ++ rest) | None => volume_name ds ++ rest end = volume_name ds) as ->.
  { destruct rest; [by rewrite app_nil_r|]. apply take_app_length'. unfold volume_name. rewrite length_app.
    change (length (str "\Device\HarddiskVolume")) with 22%nat. lia. }
  rewrite (SM_bind_Some _ _ _ _ _ _ _ Hlk). rewrite (proj2 (Z.eqb_neq _ 0)) by lia. cbn [negb].
  unfold allocate. rewrite alloc_ok. destruct rest; [done|]. rewrite drop_app_length'; [done|]. unfold volume_name. rewrite length_app.
  change (length (str "\Device\HarddiskVolume")) with 22%nat. lia.
Qed.

(** the way to an NT path and back. A DOS path of a drive whose volume is a
    disk volume becomes the path on that volume, and translating it back gives
    the path it was, with the letter from the cache or the mount manager. *)
Theorem dospath_roundtrip ds l rest p s dev p1 s1
    (Hd : digits ds) (Hl : zlen ds <= 9) (Hn : volume_number ds <> 2 ^ 32 - 1) (Hlabel : label_of (volume_number ds) = l)
    (Hdev : dos_device_to_nt_device l p s = Some ((Some dev, p1), s1)) (Hname : dev_name dev = volume_name ds)
    (Hok : labels_ok p1) (Hrest : rest = [] \/ exists rest', rest = 92 :: rest') :
  exists p2, dospath_to_ntpath (l :: ch ":" :: rest) p s = Some ((Some (volume_name ds ++ rest), p1), s1) /\
    ntpath_to_dospath (volume_name ds ++ rest) p1 s1 = Some ((Some (l :: ch ":" :: rest), p2), s1) /\ labels_ok p2.
Proof.
  pose proof (mm_letter (volume_number ds)) as Hletter. destruct (ntpath_dospath ds rest p1 s1 Hd Hl Hn Hok Hrest) as (c & Hdos & Hok2).
  exists (with_dos_cache p1 c). rewrite Hlabel in *. split; [|done].
  unfold dospath_to_ntpath. change (byte_at (l :: _) 0) with l. rewrite (swrap_small 8) by lia.
  rewrite (SM_bind_Some _ _ _ _ _ _ _ Hdev). rewrite (proj2 (Z.ltb_ge _ 2)) by (cbn [length]; lia).
  unfold allocate. rewrite alloc_ok, Hname. done.
Qed.

End Labels.

(** ** Paths of descriptors *)

Section FdPaths.
Context {K : Type} {KN : Kernel K} {A : Allocator} {PK : PathKernel K}.
Implicit Types s : state K.
Implicit Types p : path_state.

Lemma check_update fd q path p s :
  (cache_index q < length (fd_path_cache p))%nat ->
  exists p', update_fd_path_cache fd q path p s = Some (((), p'), s) /\
    forall s', check_fd_path_cache fd q p' s' = Some ((Some path, p'), s').
Proof.
  intros Hq. destruct (lookup_lt_is_Some_2 (fd_path_cache p) (cache_index q)) as [e He]; [lia|].
  eexists. split.
  - unfold update_fd_path_cache. rewrite (SM_bind_Some get_S _ p s p p s eq_refl), He. reflexivity.
  - intros s'. unfold check_fd_path_cache, mbind, SM_bind, mbind, M_bind. cbn [get_S mret SM_ret M_ret with_fd_cache fd_path_cache].
    rewrite list_lookup_insert_eq by lia. unfold run_M, mbind, M_bind. cbn [lift mret M_ret fp_sequence fp_fd nt_path]. by rewrite !Z.eqb_refl.
Qed.

Lemma check_pure fd q p :
  (cache_index q < length (fd_path_cache p))%nat ->
  exists r, forall s, check_fd_path_cache fd q p s = Some ((r, p), s).
Proof.
  intros Hq. destruct (lookup_lt_is_Some_2 (fd_path_cache p) (cache_index q)) as [e He]; [lia|].
  eexists. intros s. unfold check_fd_path_cache, mbind, SM_bind, mbind, M_bind. cbn [get_S mret SM_ret M_ret]. rewrite He. unfold run_M, mbind, M_bind. cbn [lift mret M_ret].
  instantiate (1 := if (q =? fp_sequence e) && (fd =? fp_fd e) then nt_path e else None). by destruct (_ && _).
Qed.

Lemma cache_index_lt q : (cache_index q < 128)%nat.
Proof.
  unfold cache_index, FD_PATH_CACHE_SLOTS. change (128 - 1) with (2 ^ 7 - 1). rewrite land_mask by lia.
  pose proof (Z.mod_pos_bound q (2 ^ 7)). lia.
Qed.

(** Asking the kernel for a name leaves the caches alone. *)
Lemma get_handle_ntpath_state h p s r p' s' : get_handle_ntpath h p s = Some ((r, p'), s') -> p' = p.
Proof.
  unfold get_handle_ntpath, allocate, null_status, null, system, run_M, mbind, SM_bind, mbind, M_bind, get, set_errno, mret, SM_ret, M_ret.
  intros E. repeat first [progress simplify_eq/= | case_match | injection E as _ <- _; done].
Qed.

Lemma get_fdinfo_same s1 s2 fd e :
  view (table s1) fd = Some e -> view (table s2) fd = Some e ->
  get_fdinfo fd (garbage 0) s1 = Some (e, s1) /\ get_fdinfo fd (garbage 0) s2 = Some (e, s2).
Proof. intros H1 H2. split; by apply get_fdinfo_view. Qed.

(** the path of a descriptor is looked up once. When the path of an open
    descriptor has been found, every later question about that descriptor, as
    long as it stays open, gives the same path without asking the kernel: also
    when the directory has been renamed since. *)
Theorem fd_path_is_remembered fd e path p s p1 s1 s'
    (Hv : view (table s) fd = Some e) (Hv' : view (table s') fd = Some e) (Ht : type e <> INVALID_HANDLE)
    (Hcache : length (fd_path_cache p) = 128%nat)
    (Hrun : get_fd_ntpath_internal fd p s = Some ((Some path, p1), s1)) :
  get_fd_ntpath_internal fd p1 s' = Some ((Some path, p1), s').
Proof.
  destruct (get_fdinfo_same s s' fd e Hv Hv') as [Hi Hi'].
  assert (forall p s, get_fdinfo fd (garbage 0) s = Some (e, s) ->
    get_fd_ntpath_internal fd p s = (path ← check_fd_path_cache fd (sequence e);
      match path with
      | Some path => mret (Some path)
      | None =>
          path ← get_handle_ntpath (handle e);
          match path with
          | Some path => _ ← update_fd_path_cache fd (sequence e) path; mret (Some path)
          | None => mret None
          end
      end) p s) as Hunf.
  { intros p0 s0 Hg. unfold get_fd_ntpath_internal.
    assert (run_M (get_fdinfo fd (garbage 0)) p0 s0 = Some ((e, p0), s0)) as Hg' by (unfold run_M, mbind, M_bind; by rewrite Hg).
    rewrite (SM_bind_Some _ _ _ _ _ _ _ Hg'), bool_decide_eq_false_2 by done. done. }
  rewrite (Hunf p s Hi) in Hrun. rewrite (Hunf p1 s' Hi'). clear Hunf Hi Hi' Hv Hv'.
  assert ((cache_index (sequence e) < length (fd_path_cache p))%nat) as Hq by (rewrite Hcache; apply cache_index_lt).
  destruct (check_pure fd (sequence e) p Hq) as [[path0|] Hc]; rewrite (SM_bind_Some _ _ _ _ _ _ _ (Hc s)) in Hrun.
  - injection Hrun as -> <- <-. by rewrite (SM_bind_Some _ _ _ _ _ _ _ (Hc s')).
  - unfold mbind at 1, SM_bind, mbind at 1, M_bind in Hrun.
    destruct (get_handle_ntpath (handle e) p s) as [[[[path0|] p2] s2]|] eqn:Eh; [|done..].
    apply get_handle_ntpath_state in Eh as ->.
    destruct (check_update fd (sequence e) path0 p s2 Hq) as (p3 & Hup & Hc3). rewrite (SM_bind_Some _ _ _ _ _ _ _ Hup) in Hrun.
    injection Hrun as -> <- <-. by rewrite (SM_bind_Some _ _ _ _ _ _ _ (Hc3 s')).
Qed.

End FdPaths.

(** ** A machine with one volume

    Drive [C:] is volume 3 and the current directory is [C:\Users\me\]; the
    descriptors are those of [Disk]. *)
Module Volume.

Definition cwd : list Z := str "C:\Users\me\".
Definition volume3 : list Z := str "\Device\HarddiskVolume3".

#[export] Instance volume_kernel : PathKernel Disk.disk := {
  RtlUTF8StringToUnicodeString l _ := (STATUS_SUCCESS, l);
  RtlUnicodeStringToUTF8String l _ := (STATUS_SUCCESS, l);
  CurrentDirectory _ := cwd;
  NtOpenSymbolicLinkObject v k := (if v =? ch "C" then STATUS_SUCCESS else STATUS_OBJECT_NAME_NOT_FOUND, v, k);
  NtQuerySymbolicLinkObject _ _ := (STATUS_SUCCESS, volume3);
  NtQueryObjectName _ _ _ := (STATUS_SUCCESS, 0, volume3 ++ str "\Users");
  QueryDosVolumePaths _ _ := (STATUS_SUCCESS, str "C:");
  NtOpenKeyEx _ _ := (STATUS_OBJECT_NAME_NOT_FOUND, 0);
  NtQueryValueKey _ _ _ _ := (STATUS_OBJECT_NAME_NOT_FOUND, 0, []);
  current_user_sid := []
}.

#[export] Instance ample : Allocator := fun _ => true.

#[export] Instance volume_letters : MountManager Disk.disk (fun _ => ch "C").
Proof. split; [done|]. intros. by eexists. Qed.

Definition device3 : nt_device := NtDevice 46 volume3.

Definition known : path_state := with_devices initial_paths (<[2%nat := device3]> (devices initial_paths)).

Lemma volume3_ok : volume_ok device3.
Proof. split; [|done]. split; [done|]. repeat constructor; discriminate. Qed.

End Volume.
Import Disk Volume.

Ltac plain_names := repeat (constructor || discriminate).

Lemma coalesce_normalises_witness :
  returns (K := disk) (path_coalesce (str "\Device\HarddiskVolume3\a\\.\..\b\..\..\..\c") 90) (Some (str "\Device\HarddiskVolume3\c")).
Proof.
  apply (coalesce_normalises (K := disk) (fun _ => eq_refl) volume3
    [str "a"; []; str "."; str ".."; str "b"; str ".."; str ".."; str ".."; str "c"] 90).
  - apply volume3_ok.
  - plain_names.
  - cbn. lia.
Defined.

Lemma drive_path_resolves_witness :
  exists n, get_absolute_ntpath2 AT_FDCWD (str "/c/Users/../Temp\x") INVALID_HANDLE initial_paths (process O_RDWR [] 0) =
    Some (((Some (str "\Device\HarddiskVolume3\Temp\x"), FILE_HANDLE), with_components_size known n), process O_RDWR [] 0).
Proof.
  apply (drive_path_resolves (fun _ => eq_refl) AT_FDCWD INVALID_HANDLE (ch "c") (str "/Users/../Temp\x") (str "/c")
    [str "Users"; str ".."; str "Temp"; str "x"] initial_paths (process O_RDWR [] 0) device3 known (process O_RDWR [] 0)).
  - reflexivity.
  - right. split; [reflexivity|]. right. eexists. reflexivity.
  - reflexivity.
  - plain_names.
  - cbn. lia.
  - reflexivity.
  - reflexivity.
  - apply volume3_ok.
Defined.

Lemma relative_path_resolves_witness :
  exists n, disk_path AT_FDCWD (str "../you/./file") initial_paths (process O_RDWR [] 0) =
    Some ((Some (str "\Device\HarddiskVolume3\Users\you\file"), with_components_size known n), process O_RDWR [] 0).
Proof.
  apply (relative_path_resolves (fun _ => eq_refl) (str "../you/./file") [str ".."; str "you"; str "."; str "file"] [str "Users"; str "me"]
    (ch "C") initial_paths (process O_RDWR [] 0) device3 known (process O_RDWR [] 0)); try reflexivity.
  - discriminate.
  - plain_names.
  - lia.
  - apply volume3_ok.
Defined.

Lemma tmp_prefix_captures_witness :
  expand_tmp (K := disk) (str "/tmpfile") (with_tmpdir initial_paths (str "C:\Temp")) (process O_RDWR [] 0) =
    Some ((Some (str "C:\Tempfile"), with_tmpdir initial_paths (str "C:\Temp")), process O_RDWR [] 0).
Proof.
  apply (tmp_prefix_captures (K := disk) (fun _ => eq_refl) (str "file") (str "C:\Temp") (with_tmpdir initial_paths (str "C:\Temp"))
    (process O_RDWR [] 0)).
  - reflexivity.
  - reflexivity.
  - cbn. lia.
Defined.

Lemma initial_labels : labels_ok (fun _ => ch "C") initial_paths.
Proof. split; by left. Qed.

Lemma label_cache_coherent_witness :
  exists p', lookup_label (volume_number (str "3")) (volume_name (str "3")) initial_paths (process O_RDWR [] 0) =
      Some ((ch "C", p'), process O_RDWR [] 0) /\ labels_ok (fun _ => ch "C") p' /\ cached p' 3.
Proof.
  apply (label_cache_coherent (fun _ => ch "C") (str "3") initial_paths (process O_RDWR [] 0)).
  - apply initial_labels.
  - by apply Forall_singleton.
  - cbn. lia.
  - discriminate.
Defined.

Lemma dospath_roundtrip_witness :
  exists p2, dospath_to_ntpath (str "C:\a\b") initial_paths (process O_RDWR [] 0) =
      Some ((Some (str "\Device\HarddiskVolume3\a\b"), known), process O_RDWR [] 0) /\
    ntpath_to_dospath (str "\Device\HarddiskVolume3\a\b") known (process O_RDWR [] 0) =
      Some ((Some (str "C:\a\b"), p2), process O_RDWR [] 0) /\ labels_ok (fun _ => ch "C") p2.
Proof.
  apply (dospath_roundtrip (fun _ => ch "C") (fun _ => eq_refl) (str "3") (ch "C") (str "\a\b") initial_paths (process O_RDWR [] 0)
    device3 known (process O_RDWR [] 0)).
  - by apply Forall_singleton.
  - cbn. lia.
  - discriminate.
  - reflexivity.
  - reflexivity.
  - reflexivity.
  - split; by left.
  - right. eexists. reflexivity.
Defined.

Lemma fd_path_is_remembered_witness :
  exists p1, get_fd_ntpath_internal 3 p1 (process O_RDWR [1; 2] 1) =
    Some ((Some (str "\Device\HarddiskVolume3\Users"), p1), process O_RDWR [1; 2] 1).
Proof.
  eexists. eapply (fd_path_is_remembered 3 (Fdinfo 1 FILE_HANDLE O_RDWR 1) _ initial_paths (process O_RDWR [] 0) _ _ (process O_RDWR [1; 2] 1)).
  - reflexivity.
  - reflexivity.
  - discriminate.
  - reflexivity.
  - vm_compute. reflexivity.
Defined.
