(* ===== verification/Open.v ===== *)
(** * Opening files

    src/fcntl/open.c: the translation of the flags of [open], the system call
    with the name [Path] resolves, the checks on what was opened, and the entry
    in the descriptor table. A security descriptor is known by the permissions
    it is made from. *)

From stdpp Require Import strings.
From S2P Require Import Prelude Errno Buffer FdTable FileIo Path.

(** ** NT constants *)

Definition SYNCHRONIZE : Z := 0x00100000.
Definition READ_CONTROL : Z := 0x00020000.
Definition DELETE : Z := 0x00010000.
Definition FILE_READ_EA : Z := 0x0008.
Definition FILE_WRITE_EA : Z := 0x0010.
Definition FILE_TRAVERSE : Z := 0x0020.
Definition FILE_READ_ATTRIBUTES : Z := 0x0080.
Definition FILE_WRITE_ATTRIBUTES : Z := 0x0100.
Definition FILE_GENERIC_READ : Z := 0x00120089.
Definition FILE_GENERIC_WRITE : Z := 0x00120116.

Inductive disposition_t := FILE_OPEN | FILE_CREATE | FILE_OPEN_IF | FILE_OVERWRITE | FILE_OVERWRITE_IF.

Definition FILE_DIRECTORY_FILE : Z := 0x00000001.
Definition FILE_WRITE_THROUGH : Z := 0x00000002.
Definition FILE_SEQUENTIAL_ONLY : Z := 0x00000004.
Definition FILE_NO_INTERMEDIATE_BUFFERING : Z := 0x00000008.
Definition FILE_SYNCHRONOUS_IO_NONALERT : Z := 0x00000020.
Definition FILE_NON_DIRECTORY_FILE : Z := 0x00000040.
Definition FILE_RANDOM_ACCESS : Z := 0x00000800.
Definition FILE_DELETE_ON_CLOSE : Z := 0x00001000.
Definition FILE_OPEN_REPARSE_POINT : Z := 0x00200000.

Definition FILE_ATTRIBUTE_READONLY : Z := 0x0001.
Definition FILE_ATTRIBUTE_HIDDEN : Z := 0x0002.
Definition FILE_ATTRIBUTE_SYSTEM : Z := 0x0004.
Definition FILE_ATTRIBUTE_ARCHIVE : Z := 0x0020.
Definition FILE_ATTRIBUTE_TEMPORARY : Z := 0x0100.
Definition FILE_ATTRIBUTE_REPARSE_POINT : Z := 0x0400.
Definition FILE_ATTRIBUTE_ENCRYPTED : Z := 0x4000.

(** ** Flags *)

(** [if (f & m) x |= v;] *)
Definition add_if (f m v x : Z) : Z := if has f m then Z.lor x v else x.

Definition determine_access_rights (oflags : Z) : Z :=
  let access_rights := Z.lor (Z.lor (Z.lor (Z.lor SYNCHRONIZE FILE_READ_ATTRIBUTES) FILE_READ_EA) READ_CONTROL) FILE_WRITE_ATTRIBUTES in
  let access_rights :=
    if has oflags O_WRONLY then Z.lor access_rights (Z.lor FILE_WRITE_DATA FILE_WRITE_EA)
    else if has oflags O_RDWR then Z.lor access_rights (Z.lor (Z.lor FILE_READ_DATA FILE_WRITE_DATA) FILE_WRITE_EA)
    else Z.lor access_rights FILE_READ_DATA in
  let access_rights := add_if oflags O_APPEND FILE_APPEND_DATA access_rights in
  let access_rights := add_if oflags O_DIRECTORY FILE_TRAVERSE access_rights in
  let access_rights := if has oflags O_TMPFILE || has oflags O_SHORT_LIVED then Z.lor access_rights DELETE else access_rights in
  if has oflags O_PATH then Z.lor (Z.lor SYNCHRONIZE FILE_READ_ATTRIBUTES) READ_CONTROL else access_rights.

(** The [switch] covers all combinations. *)
Definition determine_create_dispostion (oflags : Z) : disposition_t :=
  let main_flags := Z.land oflags (Z.lor (Z.lor O_CREAT O_EXCL) O_TRUNC) in
  if has oflags O_TMPFILE then FILE_CREATE
  else if (main_flags =? 0) || (main_flags =? O_EXCL) then FILE_OPEN
  else if main_flags =? O_CREAT then FILE_OPEN_IF
  else if (main_flags =? O_TRUNC) || (main_flags =? Z.lor O_TRUNC O_EXCL) then FILE_OVERWRITE
  else if (main_flags =? Z.lor O_CREAT O_EXCL) || (main_flags =? Z.lor (Z.lor O_CREAT O_TRUNC) O_EXCL) then FILE_CREATE
  else FILE_OVERWRITE_IF.

Definition determine_create_options (oflags : Z) : Z :=
  let options := FILE_SYNCHRONOUS_IO_NONALERT in
  let options := if has oflags O_TMPFILE || has oflags O_SHORT_LIVED
                 then Z.lor options (Z.lor FILE_DELETE_ON_CLOSE FILE_NON_DIRECTORY_FILE) else options in
  let options := add_if oflags O_DIRECT FILE_NO_INTERMEDIATE_BUFFERING options in
  let options := add_if oflags O_SYNC FILE_WRITE_THROUGH options in
  let options := add_if oflags O_RANDOM FILE_RANDOM_ACCESS options in
  let options := add_if oflags O_SEQUENTIAL FILE_SEQUENTIAL_ONLY options in
  let options := add_if oflags O_NOFOLLOW FILE_OPEN_REPARSE_POINT options in
  let options := add_if oflags O_DIRECTORY FILE_DIRECTORY_FILE options in
  add_if oflags O_NOTDIR FILE_NON_DIRECTORY_FILE options.

Definition determine_file_attributes (oflags : Z) : Z :=
  let attributes := add_if oflags O_TMPFILE FILE_ATTRIBUTE_TEMPORARY 0 in
  let attributes := add_if oflags O_READONLY FILE_ATTRIBUTE_READONLY attributes in
  let attributes := add_if oflags O_HIDDEN FILE_ATTRIBUTE_HIDDEN attributes in
  let attributes := add_if oflags O_SYSTEM FILE_ATTRIBUTE_SYSTEM attributes in
  let attributes := add_if oflags O_ARCHIVE FILE_ATTRIBUTE_ARCHIVE attributes in
  add_if oflags O_ENCRYPTED FILE_ATTRIBUTE_ENCRYPTED attributes.

Definition validate_oflags (oflags : Z) : bool :=
  if Z.land oflags (Z.lor O_CREAT O_DIRECTORY) =? Z.lor O_CREAT O_DIRECTORY then false
  else if has oflags O_TMPFILE && (Z.land oflags (Z.lor O_WRONLY O_RDWR) =? 0) then false
  else true.

(** ** The system *)

(** The arguments of [NtCreateFile] that vary: the directory the name is relative
    to, the name, whether children inherit the handle, the permissions of the
    security descriptor. *)
Record create_args := CreateArgs {
  ca_root : option Z;
  ca_name : list Z;
  ca_inherit : bool;
  ca_security : option Z;
  ca_access : Z;
  ca_attributes : Z;
  ca_disposition : disposition_t;
  ca_options : Z
}.

(** [NtQueryTagInformation] gives the attributes; the last access time is switched
    off in two calls. [rand_s] is a system call too. *)
Class OpenKernel (K : Type) := {
  NtCreateFile : create_args -> K -> NTSTATUS * Z * K;
  NtQueryTagInformation : Z -> K -> NTSTATUS * Z;
  NtQueryBasicInformation : Z -> K -> NTSTATUS;
  NtSetLastAccessTime : Z -> K -> NTSTATUS * K;
  rand_s : K -> Z * K
}.

Section Open.
Context {K : Type} {KN : Kernel K} {A : Allocator} {PK : PathKernel K} {OK : OpenKernel K}.

Abbreviation P := (SM path_state K).

Definition status_errno (status : NTSTATUS) : P unit :=
  s ← run_M get; run_M (set_errno (map_ntstatus_to_errno status (errno s))).

(** [NtCreateFile]: the handle, [NULL] when it fails. *)
Definition create_file (a : create_args) : P (NTSTATUS * Z) :=
  k ← system;
  let '(status, h, k) := NtCreateFile a k in
  _ ← set_system k;
  mret (status, if bool_decide (status = STATUS_SUCCESS) then h else 0).

Definition do_reopen (old_handle access attributes : Z) (disposition : disposition_t) (options : Z) : P Z :=
  '(status, h) ← create_file (CreateArgs (Some old_handle) [] false None access attributes disposition options);
  _ ← (if negb (bool_decide (status = STATUS_SUCCESS)) then status_errno status else mret ());
  mret h.

Definition just_reopen (h access options : Z) : P Z := do_reopen h access 0 FILE_OPEN options.

Definition reopen_handle (h flags : Z) : P Z :=
  do_reopen h (determine_access_rights flags) (determine_file_attributes flags)
    (determine_create_dispostion flags) (determine_create_options flags).

Definition bad_char (c : Z) : bool :=
  (c =? ch ":") || (c =? ch "<") || (c =? ch ">") || (c =? ch "*") || (c =? ch "|") || (c =? ch "?") || (c =? 34).

(** An invalid name is looked through from behind [\Device\HarddiskVolume]. *)
Definition really_do_open (a : create_args) : P Z :=
  '(status, h) ← create_file a;
  if bool_decide (status = STATUS_SUCCESS) then mret h
  else if bool_decide (status = STATUS_OBJECT_NAME_INVALID) then
    if zlen (ca_name a) <? 22 then run_M UB
    else if existsb bad_char (drop 22 (ca_name a)) then _ ← run_M (set_errno EINVAL); mret h
    else if bool_decide (last (ca_name a) = Some 92) then _ ← run_M (set_errno EISDIR); mret h
    else _ ← status_errno status; mret h
  else _ ← status_errno status; mret h.

Definition just_open2 (ntpath : list Z) (access options : Z) : P Z :=
  really_do_open (CreateArgs None ntpath false None access 0 FILE_OPEN options).

(** [handle_t type;] is uninitialised: [t0] is what it holds. *)
Definition just_open (t0 : handle_t) (dirfd : Z) (path : list Z) (access options : Z) : P Z :=
  '(u16_ntpath, type) ← get_absolute_ntpath2 dirfd path t0;
  match u16_ntpath with
  | None => mret 0
  | Some u16_ntpath =>
      if bool_decide (type = CONSOLE_HANDLE) then
        just_open2 u16_ntpath
          (if has access (Z.lor (Z.lor (Z.lor FILE_WRITE_DATA FILE_APPEND_DATA) FILE_WRITE_ATTRIBUTES) FILE_WRITE_EA)
           then FILE_GENERIC_WRITE else FILE_GENERIC_READ)
          FILE_SYNCHRONOUS_IO_NONALERT
      else just_open2 u16_ntpath access options
  end.

(** ** Temporary names *)

Definition digit36 (d : Z) : Z := if d <? 10 then 48 + d else 87 + d.

(** [_ultow_s(rn, rbuf, 8, 36)] of a 32-bit number: at most seven digits. *)
Fixpoint base36 (fuel : nat) (n : Z) (acc : list Z) : list Z :=
  match fuel with
  | O => acc
  | S fuel => let acc := digit36 (n mod 36) :: acc in if n / 36 =? 0 then acc else base36 fuel (n / 36) acc
  end.

(** The block has room for seven code units more: the separator, if the
    directory needs one, takes one of the digits. A predefined device name is
    not in the block that is grown. *)
Definition temporary_name (u16_ntpath : list Z) (type : handle_t) : P (option (list Z)) :=
  if malloc_ok (sizeof_UNICODE_STRING + 2 * zlen u16_ntpath + 14) then
    if bool_decide (type = NULL_HANDLE) || bool_decide (type = CONSOLE_HANDLE) then run_M UB
    else
      k ← system;
      let '(rn, k) := rand_s k in
      _ ← set_system k;
      let dir := if bool_decide (last u16_ntpath = Some 92) then u16_ntpath else u16_ntpath ++ [92] in
      mret (Some (dir ++ take (length u16_ntpath + 6 - length dir) (base36 7 (u32 rn) [])))
  else mret None.

(** ** open *)

(** The checks on a file that was opened: its handle, or [NULL] when it has been
    closed again, and its type. *)
Definition check_opened (h oflags access_rights : Z) : P (Z * handle_t) :=
  k ← system;
  let '(status, attributes) := NtQueryTagInformation h k in
  let refuse (m : P unit) : P (Z * handle_t) :=
    _ ← m; mret (0, FILE_HANDLE) in
  let close : P unit := k ← system; set_system (NtClose h k).2 in
  if negb (bool_decide (status = STATUS_SUCCESS)) then refuse (_ ← status_errno status; close)
  else if has attributes FILE_ATTRIBUTE_REPARSE_POINT && (has oflags O_NOFOLLOW && negb (has oflags O_PATH)) then
    refuse (_ ← close; run_M (set_errno ELOOP))
  else if has access_rights (Z.lor FILE_WRITE_DATA FILE_APPEND_DATA) && has attributes FILE_ATTRIBUTE_DIRECTORY then
    refuse (_ ← close; run_M (set_errno EISDIR))
  else
    let type := if has attributes FILE_ATTRIBUTE_DIRECTORY then DIRECTORY_HANDLE else FILE_HANDLE in
    _ ← (if has oflags O_NOATIME && negb (has oflags O_PATH) then
           k ← system;
           let status := NtQueryBasicInformation h k in
           if bool_decide (status = STATUS_SUCCESS) then
             let '(status, k) := NtSetLastAccessTime h k in
             _ ← set_system k;
             if negb (bool_decide (status = STATUS_SUCCESS)) then status_errno status else mret ()
           else status_errno status
         else mret ());
    mret (h, type).

(** The call with the name that was found. *)
Definition open_name (u16_ntpath : list Z) (type : handle_t) (oflags perm : Z) : P (Z * handle_t) :=
  let creating := has oflags (Z.lor O_CREAT O_TMPFILE) in
  let attributes := if creating then determine_file_attributes oflags else 0 in
  let security := if creating then Some (Z.land perm 511) else None in
  let create access attributes options :=
    CreateArgs None u16_ntpath (negb (has oflags O_NOINHERIT)) security access attributes
      (determine_create_dispostion oflags) options in
  let access_rights := determine_access_rights oflags in
  let options := determine_create_options oflags in
  match type with
  | NULL_HANDLE =>
      h ← really_do_open (create access_rights 0 FILE_SYNCHRONOUS_IO_NONALERT); mret (h, type)
  | CONSOLE_HANDLE =>
      if has oflags O_RDWR then _ ← run_M (set_errno EINVAL); mret (0, type)
      else
        h ← really_do_open (create (if has oflags O_WRONLY then FILE_GENERIC_WRITE else FILE_GENERIC_READ) 0
                              FILE_SYNCHRONOUS_IO_NONALERT);
        mret (h, type)
  | FILE_HANDLE =>
      h ← really_do_open (create access_rights attributes options);
      if h =? 0 then mret (0, type) else check_opened h oflags access_rights
  | INVALID_HANDLE | DIRECTORY_HANDLE | PIPE_HANDLE =>
      h ← really_do_open (create access_rights attributes options); mret (h, type)
  end.

(** The handle and the type. *)
Definition do_os_open (dirfd : Z) (name : list Z) (oflags perm : Z) (t0 : handle_t) : P (Z * handle_t) :=
  '(u16_ntpath, type) ← get_absolute_ntpath2 dirfd name t0;
  match u16_ntpath with
  | None => mret (0, type)
  | Some u16_ntpath =>
      path ← (if has oflags O_TMPFILE then temporary_name u16_ntpath type else mret (Some u16_ntpath));
      match path with
      | None => mret (0, type)
      | Some path => open_name path type oflags perm
      end
  end.

Definition do_open (dirfd : Z) (name : list Z) (oflags perm : Z) : P Z :=
  '(h, type) ← do_os_open dirfd name oflags perm INVALID_HANDLE;
  if negb (h =? 0) then run_M (register_to_fd_table h type oflags) else mret (-1).

(** [VALIDATE_PATH_AND_DIRFD]: the error, if any. [None] stands for a null pointer. *)
Definition validate_path_and_dirfd (name : option (list Z)) (dirfd : Z) : P (option Z) :=
  match name with
  | None | Some [] => mret (Some ENOENT)
  | Some name =>
      if negb (IS_ABSOLUTE_PATH name) && negb (dirfd =? AT_FDCWD) then
        t ← run_M (get_fd_type dirfd);
        mret (match t with
              | INVALID_HANDLE => Some EBADF
              | DIRECTORY_HANDLE => None
              | _ => Some ENOTDIR
              end)
      else mret None
  end.

(** [perm_arg] is the optional argument. *)
Definition wlibc_common_open (dirfd : Z) (name : option (list Z)) (oflags perm_arg : Z) : P Z :=
  e ← validate_path_and_dirfd name dirfd;
  match e with
  | Some e => _ ← run_M (set_errno e); mret (-1)
  | None =>
      if negb (validate_oflags oflags) then _ ← run_M (set_errno EINVAL); mret (-1)
      else do_open dirfd (default [] name) oflags (if has oflags (Z.lor O_CREAT O_TMPFILE) then perm_arg else 0)
  end.

End Open.
