(* ===== verification/OpenSpec.v ===== *)
(** * What open guarantees

    The flags of [open] as access rights and disposition, the outcomes of
    opening a file on disk composed from path resolution, the system call and
    the descriptor table, and opening a root path. *)

From stdpp Require Import strings.
From S2P Require Import Prelude Errno Buffer FdTable FdTableFacts FileIo Path PathFacts PathSpec Open.

(** ** Flags *)

(** Whether a disposition may make a file, fails when there is one, empties one. *)
Definition creates (d : disposition_t) : bool :=
  match d with FILE_CREATE | FILE_OPEN_IF | FILE_OVERWRITE_IF => true | _ => false end.
Definition exclusive (d : disposition_t) : bool := match d with FILE_CREATE => true | _ => false end.
Definition truncates (d : disposition_t) : bool := match d with FILE_OVERWRITE | FILE_OVERWRITE_IF => true | _ => false end.

Lemma land_pow2 f k : 0 <= k -> Z.land f (2 ^ k) = if has f (2 ^ k) then 2 ^ k else 0.
Proof.
  intros Hk. unfold has. assert (Z.land f (2 ^ k) = if Z.testbit f k then 2 ^ k else 0) as ->.
  { apply Z.bits_inj'. intros n Hn. rewrite Z.land_spec, Z.pow2_bits_eqb by lia.
    destruct (k =? n) eqn:E; [apply Z.eqb_eq in E; subst; destruct (Z.testbit f n); rewrite ?Z.pow2_bits_true, ?Z.bits_0 by lia; done|].
    rewrite andb_false_r. destruct (Z.testbit f k); [by rewrite Z.pow2_bits_eqb, E by lia|by rewrite Z.bits_0]. }
  pose proof (Z.pow_pos_nonneg 2 k). destruct (Z.testbit f k); [|done]. by rewrite (proj2 (Z.eqb_neq _ 0)) by lia.
Qed.

(** the disposition of [open]: without [O_TMPFILE], a file may be made exactly
    with [O_CREAT], it must not exist exactly with [O_CREAT] and [O_EXCL], and it
    is emptied exactly with [O_TRUNC] when it may exist. *)
Theorem disposition_table oflags (Htmp : has oflags O_TMPFILE = false) :
  let d := determine_create_dispostion oflags in
  creates d = has oflags O_CREAT /\ exclusive d = has oflags O_CREAT && has oflags O_EXCL /\
  truncates d = has oflags O_TRUNC && negb (exclusive d).
Proof.
  unfold determine_create_dispostion. rewrite Htmp, !Z.land_lor_distr_r.
  pose proof (land_pow2 oflags 8 ltac:(lia)) as E1. pose proof (land_pow2 oflags 9 ltac:(lia)) as E2.
  pose proof (land_pow2 oflags 10 ltac:(lia)) as E3. change (2 ^ 8) with O_CREAT in E1.
  change (2 ^ 9) with O_TRUNC in E2. change (2 ^ 10) with O_EXCL in E3. rewrite E1, E2, E3.
  by destruct (has oflags O_CREAT), (has oflags O_TRUNC), (has oflags O_EXCL).
Qed.

Lemma disposition_table_witness :
  creates (determine_create_dispostion 0x300) = true /\ exclusive (determine_create_dispostion 0x300) = false /\
  truncates (determine_create_dispostion 0x300) = true.
Proof. apply (disposition_table 0x300). reflexivity. Defined.

(** the access rights of [open]: data may be read unless the file is opened
    for writing only, written when it is opened for writing, appended with
    [O_APPEND] whatever the mode, and none of it with [O_PATH]; the handle can
    always be waited for and its attributes read. *)
Theorem access_rights_of_mode oflags :
  let a := determine_access_rights oflags in
  has a FILE_READ_DATA = negb (has oflags O_PATH) && negb (has oflags O_WRONLY) /\
  has a FILE_WRITE_DATA = negb (has oflags O_PATH) && (has oflags O_WRONLY || has oflags O_RDWR) /\
  has a FILE_APPEND_DATA = negb (has oflags O_PATH) && has oflags O_APPEND /\
  has a DELETE = negb (has oflags O_PATH) && (has oflags O_TMPFILE || has oflags O_SHORT_LIVED) /\
  has a SYNCHRONIZE = true /\ has a FILE_READ_ATTRIBUTES = true.
Proof.
  unfold determine_access_rights, add_if.
  by destruct (has oflags O_PATH), (has oflags O_WRONLY), (has oflags O_RDWR), (has oflags O_APPEND), (has oflags O_DIRECTORY),
    (has oflags O_TMPFILE), (has oflags O_SHORT_LIVED).
Qed.

(** ** Outcomes *)

Section Outcomes.
Context {K : Type} {KN : Kernel K} {A : Allocator} {PK : PathKernel K} {OK : OpenKernel K}.
Context (alloc_ok : forall n, malloc_ok n = true).
Implicit Types s : state K.
Implicit Types p : path_state.

(** The arguments of the call for a disk file. *)
Definition disk_args (nt : list Z) (oflags perm : Z) : create_args :=
  let creating := has oflags (Z.lor O_CREAT O_TMPFILE) in
  CreateArgs None nt (negb (has oflags O_NOINHERIT)) (if creating then Some (Z.land perm 511) else None)
    (determine_access_rights oflags) (if creating then determine_file_attributes oflags else 0)
    (determine_create_dispostion oflags) (determine_create_options oflags).

Lemma create_file_ok a p s h k :
  NtCreateFile a (kernel s) = (STATUS_SUCCESS, h, k) ->
  really_do_open a p s = Some ((h, p), with_kernel s k).
Proof.
  intros Hc. unfold really_do_open, create_file.
  assert ((k0 ← system; let '(status, h0, k1) := NtCreateFile a k0 in
     _ ← set_system k1; mret (status, if bool_decide (status = STATUS_SUCCESS) then h0 else 0)) p s =
     Some (((STATUS_SUCCESS, h), p), with_kernel s k)) as E
    by (rewrite (SM_bind_Some system _ p s (kernel s) p s eq_refl), Hc; by rewrite bool_decide_eq_true_2).
  rewrite (SM_bind_Some _ _ _ _ _ _ _ E). by rewrite bool_decide_eq_true_2.
Qed.

(** What the checks find. *)
Definition refused (oflags attributes : Z) : option Z :=
  if has attributes FILE_ATTRIBUTE_REPARSE_POINT && (has oflags O_NOFOLLOW && negb (has oflags O_PATH)) then Some ELOOP
  else if has (determine_access_rights oflags) (Z.lor FILE_WRITE_DATA FILE_APPEND_DATA) && has attributes FILE_ATTRIBUTE_DIRECTORY
  then Some EISDIR else None.

Lemma check_opened_ok h oflags attributes p s :
  NtQueryTagInformation h (kernel s) = (STATUS_SUCCESS, attributes) -> has oflags O_NOATIME = false ->
  check_opened h oflags (determine_access_rights oflags) p s =
    match refused oflags attributes with
    | Some e => Some (((0, FILE_HANDLE), p), with_errno (with_kernel s (NtClose h (kernel s)).2) e)
    | None => Some (((h, if has attributes FILE_ATTRIBUTE_DIRECTORY then DIRECTORY_HANDLE else FILE_HANDLE), p), s)
    end.
Proof.
  intros Hq Hat. unfold check_opened, refused. rewrite (SM_bind_Some system _ p s (kernel s) p s eq_refl), Hq.
  rewrite bool_decide_eq_true_2 by done. cbn [negb]. destruct (_ && _); [done|]. destruct (_ && has attributes _); [done|].
  rewrite Hat. done.
Qed.

(** C7: opening a file on disk. When the path resolves and the system opens the
    file, [open] returns the lowest free descriptor, bound to the handle with
    the flags given and the type of a directory or a file; a symbolic link
    opened with [O_NOFOLLOW] and a directory opened for writing are refused
    instead: the handle is closed again, the error is set, and the table is as
    it was. *)
Theorem open_on_disk dirfd name oflags perm nt attributes h k p s p1 s1
    (Hpath : get_absolute_ntpath2 dirfd name INVALID_HANDLE p s = Some (((Some nt, FILE_HANDLE), p1), s1))
    (Htmp : has oflags O_TMPFILE = false) (Hat : has oflags O_NOATIME = false)
    (Hcreate : NtCreateFile (disk_args nt oflags perm) (kernel s1) = (STATUS_SUCCESS, h, k)) (Hh : h <> 0)
    (Hquery : NtQueryTagInformation h k = (STATUS_SUCCESS, attributes)) :
  match refused oflags attributes with
  | Some e => do_open dirfd name oflags perm p s =
      Some ((-1, p1), with_errno (with_kernel (with_kernel s1 k) (NtClose h k).2) e)
  | None => exists fd s2, do_open dirfd name oflags perm p s = Some ((fd, p1), s2) /\
      lowest_from 0 (view (table s1)) fd /\
      bound (with_kernel s1 k) s2 fd h (if has attributes FILE_ATTRIBUTE_DIRECTORY then DIRECTORY_HANDLE else FILE_HANDLE) oflags
  end.
Proof.
  assert (do_os_open dirfd name oflags perm INVALID_HANDLE p s =
    check_opened h oflags (determine_access_rights oflags) p1 (with_kernel s1 k)) as Hos.
  { unfold do_os_open. rewrite (SM_bind_Some _ _ _ _ _ _ _ Hpath), Htmp.
    assert (forall X (m : option (list Z) -> SM path_state K X), (mret (Some nt) ≫= m) p1 s1 = m (Some nt) p1 s1) as -> by done.
    unfold open_name. fold (disk_args nt oflags perm).
    rewrite (SM_bind_Some _ _ _ _ _ _ _ (create_file_ok _ p1 s1 h k Hcreate)). by rewrite (proj2 (Z.eqb_neq h 0)). }
  pose proof (check_opened_ok h oflags attributes p1 (with_kernel s1 k) Hquery Hat) as Hck.
  rewrite Hck in Hos. unfold do_open. destruct (refused oflags attributes) as [e|].
  - rewrite (SM_bind_Some _ _ _ _ _ _ _ Hos). done.
  - rewrite (SM_bind_Some _ _ _ _ _ _ _ Hos), (proj2 (Z.eqb_neq h 0)) by done. cbn [negb].
    destruct (register_bound (with_kernel s1 k) h (if has attributes FILE_ATTRIBUTE_DIRECTORY then DIRECTORY_HANDLE else FILE_HANDLE) oflags
      (fun _ => alloc_ok _) Hh) as (fd & s2 & Hreg & Hlow & Hb).
    exists fd, s2. unfold run_M, mbind, M_bind. rewrite Hreg. done.
Qed.

(** opening a root path gives a descriptor nothing can be done with: the path
    is found and opened, but its type is never set, and every operation that
    looks the descriptor up then reports a bad descriptor. *)
Theorem open_root_unusable {FK : FileKernel K} dirfd c oflags perm p s dev p1 s1 h k
    (Hc : c = ch "/" \/ c = 92) (Htmp : has oflags O_TMPFILE = false)
    (Hdev : dos_device_to_nt_device (swrap 8 (byte_at (CurrentDirectory (kernel s)) 0)) p s = Some ((Some dev, p1), s1))
    (Hcreate : NtCreateFile (disk_args (dev_name dev ++ [92]) oflags perm) (kernel s1) = (STATUS_SUCCESS, h, k)) (Hh : h <> 0) :
  exists fd s2 s3, do_open dirfd [c] oflags perm p s = Some ((fd, p1), s2) /\
    option_map type (view (table s2) fd) = Some INVALID_HANDLE /\
    forall n, wlibc_lseek fd n SEEK_SET s2 = Some (-1, s3) /\ errno s3 = EBADF.
Proof.
  assert (get_absolute_ntpath2 dirfd [c] INVALID_HANDLE p s = Some (((Some (dev_name dev ++ [92]), INVALID_HANDLE), p1), s1)) as Hpath.
  { unfold get_absolute_ntpath2. assert (IS_ROOT_PATH [c] = true) as -> by (by destruct Hc as [-> | ->]).
    unfold root_path. rewrite (SM_bind_Some system _ p s (kernel s) p s eq_refl), (SM_bind_Some _ _ _ _ _ _ _ Hdev).
    by rewrite alloc_ok. }
  assert (do_os_open dirfd [c] oflags perm INVALID_HANDLE p s = Some (((h, INVALID_HANDLE), p1), with_kernel s1 k)) as Hos.
  { unfold do_os_open. rewrite (SM_bind_Some _ _ _ _ _ _ _ Hpath), Htmp.
    assert (forall X (m : option (list Z) -> SM path_state K X) x, (mret (Some x) ≫= m) p1 s1 = m (Some x) p1 s1) as -> by done.
    unfold open_name. fold (disk_args (dev_name dev ++ [92]) oflags perm).
    by rewrite (SM_bind_Some _ _ _ _ _ _ _ (create_file_ok _ p1 s1 h k Hcreate)). }
  destruct (register_bound (with_kernel s1 k) h INVALID_HANDLE oflags (fun _ => alloc_ok _) Hh) as (fd & s2 & Hreg & Hlow & Hb).
  assert (view (table s2) fd = Some (Fdinfo h INVALID_HANDLE oflags (u32 (fd_sequence (with_kernel s1 k) + 1)))) as Hv
    by (rewrite (bound_view _ _ _ _ _ _ Hb); unfold update; by rewrite Z.eqb_refl).
  exists fd, s2, (with_errno s2 EBADF). split_and!.
  - unfold do_open. rewrite (SM_bind_Some _ _ _ _ _ _ _ Hos), (proj2 (Z.eqb_neq h 0)) by done. cbn [negb].
    unfold run_M, mbind, M_bind. by rewrite Hreg.
  - by rewrite Hv.
  - intros n. split; [|done]. unfold wlibc_lseek. rewrite (M_bind_Some _ _ _ _ _ (get_fdinfo_view s2 fd _ (garbage 0) Hv)). done.
Qed.

End Outcomes.

(** ** A machine that opens everything *)
Module Willing.

(** Names that end in a backslash are directories. *)
#[export] Instance willing : OpenKernel Disk.disk := {
  NtCreateFile a k := (STATUS_SUCCESS, if bool_decide (last (ca_name a) = Some 92) then 200 else 100, k);
  NtQueryTagInformation h _ := (STATUS_SUCCESS, if h =? 200 then FILE_ATTRIBUTE_DIRECTORY else 0);
  NtQueryBasicInformation _ _ := STATUS_SUCCESS;
  NtSetLastAccessTime _ k := (STATUS_SUCCESS, k);
  rand_s k := (12345, k)
}.

End Willing.
Import Disk Volume Willing.

Lemma open_on_disk_witness :
  exists fd s2, do_open AT_FDCWD (str "C:/file") O_RDWR 0 known (process O_RDWR [] 0) = Some ((fd, known), s2) /\
    lowest_from 0 (view (table (process O_RDWR [] 0))) fd /\
    bound (with_kernel (process O_RDWR [] 0) ([], 0)) s2 fd 100 FILE_HANDLE O_RDWR.
Proof.
  apply (open_on_disk (fun _ => eq_refl) AT_FDCWD (str "C:/file") O_RDWR 0 (str "\Device\HarddiskVolume3\file") 0 100 ([], 0)
    known (process O_RDWR [] 0) known (process O_RDWR [] 0)).
  - vm_compute. reflexivity.
  - reflexivity.
  - reflexivity.
  - reflexivity.
  - discriminate.
  - reflexivity.
Defined.

Lemma open_root_unusable_witness :
  exists fd s2 s3, do_open AT_FDCWD (str "/") O_RDONLY 0 known (process O_RDWR [] 0) = Some ((fd, known), s2) /\
    option_map type (view (table s2) fd) = Some INVALID_HANDLE /\
    forall n, wlibc_lseek fd n SEEK_SET s2 = Some (-1, s3) /\ errno s3 = EBADF.
Proof.
  apply (open_root_unusable (fun _ => eq_refl) AT_FDCWD (ch "/") O_RDONLY 0 known (process O_RDWR [] 0) device3 known
    (process O_RDWR [] 0) 200 ([], 0)).
  - left. reflexivity.
  - reflexivity.
  - reflexivity.
  - reflexivity.
  - discriminate.
Defined.
