(* ===== verification/Stream.v ===== *)
(** * Standard I/O streams

    The buffered streams of src/stdio: fread.c, fwrite.c, fflush.c, fseek.c,
    ftell.c, fgetc.c, fputc.c, fgets.c, fputs.c, ungetc.c, getdelim.c,
    setvbuf.c and the queries. A stream operation takes the [FILE] it works on
    and returns it changed; the stream's locks are not visible to a single
    thread. The list of streams and the operations on pointers to them are in
    [StreamList]. *)

From S2P Require Import Prelude Errno Buffer FdTable FileIo.

(** ** Constants and data *)

Definition FILE_STREAM_MAGIC : Z := 0x1.
Definition _IOBUFFER_INTERNAL : Z := 0x1.
Definition _IOBUFFER_EXTERNAL : Z := 0x2.
Definition _IOBUFFER_ALLOCATED : Z := 0x8.
Definition _IOBUFFER_RDONLY : Z := 0x100.
Definition _IOBUFFER_WRONLY : Z := 0x200.
Definition _IOBUFFER_RDWR : Z := 0x400.
Definition _IOFBF : Z := 0x0010.
Definition _IOLBF : Z := 0x0020.
Definition _IONBF : Z := 0x0040.
Definition _IOEOF : Z := 0x1.
Definition _IOERROR : Z := 0x2.
Definition OP_READ : Z := 0x1.
Definition OP_WRITE : Z := 0x2.
Definition EOF : Z := -1.

(** [buffer] is the block the stream owns or was given, [None] for [NULL]; [prev]
    and [next] are addresses, 0 for [NULL]. *)
Record FILE := File {
  magic : Z;
  fd : Z;
  buf_mode : Z;
  error : Z;
  buffer : option (list Z);
  buf_size : Z;
  start : Z;
  fin : Z;
  pos : Z;
  prev_op : Z;
  prev : Z;
  next : Z
}.

Definition with_mode (f : FILE) (m : Z) : FILE :=
  File (magic f) (fd f) m (error f) (buffer f) (buf_size f) (start f) (fin f) (pos f) (prev_op f) (prev f) (next f).
Definition with_error (f : FILE) (e : Z) : FILE :=
  File (magic f) (fd f) (buf_mode f) e (buffer f) (buf_size f) (start f) (fin f) (pos f) (prev_op f) (prev f) (next f).
Definition with_buffer (f : FILE) (b : option (list Z)) : FILE :=
  File (magic f) (fd f) (buf_mode f) (error f) b (buf_size f) (start f) (fin f) (pos f) (prev_op f) (prev f) (next f).
Definition with_size (f : FILE) (n : Z) : FILE :=
  File (magic f) (fd f) (buf_mode f) (error f) (buffer f) n (start f) (fin f) (pos f) (prev_op f) (prev f) (next f).
Definition with_op (f : FILE) (op : Z) : FILE :=
  File (magic f) (fd f) (buf_mode f) (error f) (buffer f) (buf_size f) (start f) (fin f) (pos f) op (prev f) (next f).

(** [start], [end] and [pos]: the window of the file the buffer holds and the
    position of the stream. *)
Definition with_window (f : FILE) (s e p : Z) : FILE :=
  File (magic f) (fd f) (buf_mode f) (error f) (buffer f) (buf_size f) s e p (prev_op f) (prev f) (next f).

Definition with_pos (f : FILE) (p : Z) : FILE := with_window f (start f) (fin f) p.

(** [stream->start = stream->end = stream->pos = p]. *)
Definition empty_window (f : FILE) (p : Z) : FILE := with_window f p p p.

(** ** Blocks of memory *)

(** [n] bytes from offset [off], undefined when they are not all there. *)
Definition load_range (b : option (list Z)) (off n : Z) : option (list Z) :=
  bs ← b;
  if (0 <=? off) && (0 <=? n) && (off + n <=? zlen bs) then Some (segment bs off n) else None.

(** [memcpy(b + off, bs, length bs)]. *)
Definition store_range (b : option (list Z)) (off : Z) (bs : list Z) : option (option (list Z)) :=
  old ← b;
  if (0 <=? off) && (off + zlen bs <=? zlen old) then Some (Some (write_at old off bs)) else None.

(** What a fresh heap block holds, and whether [RtlFreeHeap] succeeds. *)
Class Heap := { heap_byte : nat -> Z; heap_free_ok : bool }.

Definition fresh_block `{Heap} (n : Z) : list Z := heap_byte <$> seq 0 (Z.to_nat n).

(** ** Modes *)

Definition mode_char (flags c : Z) : Z :=
  if c =? ch "r" then Z.lor flags O_RDONLY
  else if c =? ch "w" then Z.lor flags (Z.lor (Z.lor O_WRONLY O_CREAT) O_TRUNC)
  else if c =? ch "+" then Z.lor (Z.ldiff flags O_WRONLY) O_RDWR
  else if c =? ch "a" then Z.lor flags (Z.lor (Z.lor O_WRONLY O_APPEND) O_CREAT)
  else if c =? ch "x" then Z.lor flags O_EXCL
  else if c =? ch "m" then flags
  else if c =? ch "b" then Z.lor flags O_BINARY
  else if c =? ch "t" then Z.lor flags O_TEXT
  else if c =? ch "c" then Z.lor flags O_SYNC
  else if (c =? ch "N") || (c =? ch "e") then Z.lor flags O_NOINHERIT
  else if c =? ch "S" then Z.lor flags O_SEQUENTIAL
  else if c =? ch "R" then Z.lor flags O_RANDOM
  else if (c =? ch "T") || (c =? ch "D") then Z.lor flags O_SHORT_LIVED
  else flags.

(** The string without its terminator. *)
Definition parse_mode (mode : list Z) : Z := foldl mode_char 0 mode.

Definition get_buf_mode (flags : Z) : Z :=
  if has flags O_RDWR then _IOBUFFER_RDWR
  else if has flags O_WRONLY then _IOBUFFER_WRONLY
  else _IOBUFFER_RDONLY.

Section Stream.
Context {K : Type} {KN : Kernel K} {FK : FileKernel K} {A : Allocator} {H : Heap}.

(** ** Flushing *)

Definition common_fflush (f : FILE) : M K (Z * FILE) :=
  if has (buf_mode f) _IONBF then mret (0, f)
  else if has (buf_mode f) _IOBUFFER_RDONLY then mret (0, f)
  else if prev_op f =? OP_READ then mret (0, f)
  else if negb (start f =? pos f) then
    result ← wlibc_write (fd f) (buffer f) (u64 (pos f - start f));
    if result =? -1 then mret (-1, with_error f _IOERROR)
    else mret (0, with_window f (pos f) (fin f) (pos f))
  else mret (0, f).

(** The buffer of a stream is allocated at its first use; [false] when the heap
    is exhausted. *)
Definition allocate_buffer (f : FILE) : M K (bool * FILE) :=
  if has (buf_mode f) _IOBUFFER_INTERNAL && negb (has (buf_mode f) _IOBUFFER_ALLOCATED) then
    if malloc_ok (buf_size f) then
      mret (true, with_mode (with_buffer f (Some (fresh_block (buf_size f)))) (Z.lor (buf_mode f) _IOBUFFER_ALLOCATED))
    else _ ← set_errno ENOMEM; mret (false, with_buffer f None)
  else mret (true, f).

(** ** Reading *)

(** [ptr] tells whether the destination is not null. The result is never -1. *)
Definition read_wrapper (f : FILE) (ptr : bool) (n : Z) : M K (Z * list Z * FILE) :=
  '(result, bytes) ← wlibc_read (fd f) ptr n;
  let f := if result =? 0 then with_error f _IOEOF else f in
  if result =? -1 then mret (0, bytes, with_error f _IOERROR) else mret (result, bytes, f).

(** Whole blocks go straight to the caller's buffer; [acc] are the bytes stored
    there, [bytes_read] of them. A round reads at least a byte or is the last. *)
Fixpoint read_blocks (fuel : nat) (f : FILE) (data_size : Z) (acc : list Z) (read_result : Z)
    : M K (list Z * Z * FILE) :=
  match fuel with
  | O => UB
  | S fuel =>
      if u64 (zlen acc + buf_size f) <? data_size then
        '(read_result, bytes, f) ← read_wrapper f true (buf_size f);
        if read_result =? 0 then mret (acc, read_result, f)
        else read_blocks fuel f data_size (acc ++ bytes) read_result
      else mret (acc, read_result, f)
  end.

(** The last block goes through the stream's buffer until [need] bytes are in it. *)
Fixpoint fill_buffer (fuel : nat) (f : FILE) (need last_read_count : Z) : M K (Z * FILE) :=
  match fuel with
  | O => UB
  | S fuel =>
      if (last_read_count <? buf_size f) && (last_read_count <? need) then
        '(read_result, bytes, f) ← read_wrapper f (bool_decide (buffer f <> None)) (u64 (buf_size f - last_read_count));
        if read_result =? 0 then mret (last_read_count, f)
        else
          b ← lift (store_range (buffer f) last_read_count bytes);
          fill_buffer fuel (with_buffer f b) need (last_read_count + read_result)
      else mret (last_read_count, f)
  end.

(** The bytes of the last block that are wanted. *)
Definition read_last (f : FILE) (need : Z) : M K (list Z * FILE) :=
  '(last_read_count, f) ← fill_buffer (S (Z.to_nat need)) f need 0;
  if last_read_count >? 0 then
    let remaining_copy_size := Z.min need last_read_count in
    bytes ← lift (load_range (buffer f) 0 remaining_copy_size);
    mret (bytes, with_window f (pos f) (u64 (pos f + last_read_count)) (u64 (pos f + remaining_copy_size)))
  else mret ([], f).

(** The value returned, the bytes stored at the caller's buffer, the stream. *)
Definition read_more (f : FILE) (size data_size : Z) : M K (Z * list Z * FILE) :=
  acc ← (if pos f <? fin f
         then lift (load_range (buffer f) (u64 (pos f - start f)) (u64 (fin f - pos f))) else mret []);
  '(acc, read_result, f) ← read_blocks (S (Z.to_nat data_size)) f data_size acc 1;
  let bytes_read := zlen acc in
  let f := empty_window f (u64 (pos f + bytes_read)) in
  if read_result >? 0 then
    '(bytes, f) ← read_last f (u64 (data_size - bytes_read));
    mret ((bytes_read + zlen bytes) / size, acc ++ bytes, f)
  else mret (bytes_read / size, acc, f).

Definition common_fread (size count : Z) (f : FILE) : M K (Z * list Z * FILE) :=
  if (error f =? _IOEOF) || (error f =? _IOERROR) then mret (0, [], f)
  else if has (buf_mode f) _IOBUFFER_WRONLY then
    _ ← set_errno EACCES; mret (0, [], with_error f _IOERROR)
  else if has (buf_mode f) _IONBF then
    '(result, bytes, f) ← read_wrapper f true (u64 (size * count));
    let f := with_op f OP_READ in
    let f := if negb (result =? 0) then empty_window f (u64 (pos f + result)) else f in
    mret (result / size, bytes, f)
  else
    f ← (if prev_op f =? OP_WRITE
         then '(_, f) ← common_fflush f; mret (with_window f (start f) (start f) (pos f)) else mret f);
    let f := with_op f OP_READ in
    '(ok, f) ← allocate_buffer f;
    if negb ok then mret (0, [], f)
    else
      let data_size := u64 (size * count) in
      if data_size <=? u64 (fin f - pos f) then
        bytes ← lift (load_range (buffer f) (u64 (pos f - start f)) data_size);
        mret (count, bytes, with_pos f (u64 (pos f + data_size)))
      else read_more f size data_size.

(** ** Writing *)

(** [return result / size], an [ssize_t] divided by a [size_t]. *)
Definition write_result (result size : Z) (f : FILE) : Z * FILE :=
  (u64 result / size, if result =? -1 then with_error f _IOERROR else f).

(** What a stream does before its first write after something else. *)
Definition start_writing (f : FILE) : M K FILE :=
  if negb (prev_op f =? OP_WRITE) then
    fl ← get_fd_flags (fd f);
    f ← (if has fl O_APPEND then p ← wlibc_lseek (fd f) 0 SEEK_END; mret (with_pos f (u64 p))
         else if prev_op f =? OP_READ then _ ← wlibc_lseek (fd f) (swrap 64 (pos f)) SEEK_SET; mret f
         else mret f);
    mret (empty_window f (pos f))
  else mret f.

(** Whole blocks go straight to the file from the caller's buffer. *)
Fixpoint write_blocks (fuel : nat) (f : FILE) (data : list Z) (data_size bytes_written result : Z)
    : M K (Z * Z) :=
  match fuel with
  | O => UB
  | S fuel =>
      if u64 (bytes_written + buf_size f) <? data_size then
        result ← wlibc_write (fd f) (Some (drop (Z.to_nat bytes_written) data)) (buf_size f);
        if result =? -1 then mret (bytes_written, result)
        else write_blocks fuel f data data_size (bytes_written + result) result
      else mret (bytes_written, result)
  end.

(** The rest of the buffer is filled and written first, unless it is empty:
    [None] when the write fails. *)
Definition write_first (f : FILE) (data : list Z) : M K (option (Z * FILE)) :=
  let room := u64 (fin f - pos f) in
  if negb (room =? buf_size f) then
    bytes ← lift (load_range (Some data) 0 room);
    b ← lift (store_range (buffer f) (u64 (pos f - start f)) bytes);
    let f := with_buffer f b in
    r ← wlibc_write (fd f) (buffer f) (buf_size f);
    if r =? -1 then mret None else mret (Some (room, f))
  else mret (Some (0, f)).

Definition write_more (f : FILE) (data : list Z) (size data_size : Z) : M K (Z * FILE) :=
  first ← write_first f data;
  match first with
  | None => mret (0, with_error f _IOERROR)
  | Some (bytes_written, f) =>
      '(bytes_written, result) ← write_blocks (S (Z.to_nat data_size)) f data data_size bytes_written 1;
      let f := empty_window f (u64 (pos f + bytes_written)) in
      if result >? 0 then
        let remaining_copy_size := u64 (data_size - bytes_written) in
        bytes ← lift (load_range (Some data) bytes_written remaining_copy_size);
        b ← lift (store_range (buffer f) 0 bytes);
        let f := with_window (with_buffer f b) (pos f) (u64 (pos f + buf_size f)) (u64 (pos f + remaining_copy_size)) in
        mret (write_result (bytes_written + remaining_copy_size) size f)
      else mret (write_result bytes_written size f)
  end.

(** [data] is the caller's buffer. *)
Definition common_fwrite (data : list Z) (size count : Z) (f : FILE) : M K (Z * FILE) :=
  if error f =? _IOERROR then mret (0, f)
  else if has (buf_mode f) _IOBUFFER_RDONLY then
    _ ← set_errno EACCES; mret (0, with_error f _IOERROR)
  else if has (buf_mode f) _IONBF then
    result ← wlibc_write (fd f) (Some data) (u64 (size * count));
    let f := with_op f OP_WRITE in
    let f := if negb (result =? -1) then empty_window f (u64 (pos f + result)) else f in
    mret (write_result result size f)
  else
    f ← start_writing f;
    let f := with_op f OP_WRITE in
    '(ok, f) ← allocate_buffer f;
    if negb ok then mret (0, f)
    else
      let f :=
        if (start f =? fin f) && (has (buf_mode f) _IOBUFFER_ALLOCATED || has (buf_mode f) _IOBUFFER_EXTERNAL)
        then with_window f (pos f) (u64 (pos f + buf_size f)) (pos f) else f in
      let data_size := u64 (size * count) in
      if data_size <=? u64 (fin f - pos f) then
        bytes ← lift (load_range (Some data) 0 data_size);
        b ← lift (store_range (buffer f) (u64 (pos f - start f)) bytes);
        mret (count, with_pos (with_buffer f b) (u64 (pos f + data_size)))
      else write_more f data size data_size.

(** ** Positioning *)

Definition common_fseek (f : FILE) (offset whence : Z) : M K (Z * FILE) :=
  f ← (if prev_op f =? OP_WRITE then '(_, f) ← common_fflush f; mret f else mret f);
  let new_pos := u64 (pos f + offset) in
  if (whence =? SEEK_CUR) && (prev_op f =? OP_READ) &&
     ((new_pos >=? start f) && (new_pos <=? fin f) && negb (start f =? fin f))
  then mret (0, with_pos f new_pos)
  else
    result ← wlibc_lseek (fd f) offset whence;
    if negb (result =? -1) then
      let f := empty_window f result in
      let e := if (whence =? SEEK_SET) && (offset =? 0) then 0 else Z.ldiff (error f) _IOEOF in
      mret (0, with_error f e)
    else mret (-1, f).

(** ** Characters and lines *)

(** The value returned is a [char] that was promoted. A character that was never
    stored is indeterminate. *)
Definition common_fgetc (f : FILE) : M K (Z * FILE) :=
  if negb (has (buf_mode f) _IONBF) && (prev_op f =? OP_READ) &&
     (negb (start f =? fin f) && negb (pos f =? fin f)) then
    bytes ← lift (load_range (buffer f) (u64 (pos f - start f)) 1);
    mret (swrap 8 (byte_at bytes 0), with_pos f (u64 (pos f + 1)))
  else
    '(_, bytes, f) ← common_fread 1 1 f;
    if error f =? _IOEOF then mret (EOF, f)
    else match bytes with
         | c :: _ => mret (swrap 8 c, f)
         | [] => UB
         end.

Definition common_fputc (c : Z) (f : FILE) : M K (Z * FILE) :=
  if negb (has (buf_mode f) _IONBF) && (prev_op f =? OP_WRITE) &&
     (negb (start f =? fin f) && negb (pos f =? fin f)) then
    b ← lift (store_range (buffer f) (u64 (pos f - start f)) [u8 c]);
    mret (c, with_pos (with_buffer f b) (u64 (pos f + 1)))
  else
    '(res, f) ← common_fwrite [u8 c] 1 1 f;
    mret (if negb (res =? 1) then EOF else c, f).

(** The loop of [fgets]; [acc] are the bytes stored so far. *)
Fixpoint fgets_loop (fuel : nat) (f : FILE) (count c : Z) (acc : list Z) : M K (list Z * FILE) :=
  match fuel with
  | O => UB
  | S fuel =>
      if negb (c =? 10) && (zlen acc + 1 <? count) then
        '(c, f) ← common_fgetc f;
        let c := swrap 8 c in
        if c =? EOF then mret (acc, f) else fgets_loop fuel f count c (acc ++ [u8 c])
      else mret (acc, f)
  end.

(** The bytes stored at the caller's buffer. *)
Definition common_fgets (count : Z) (f : FILE) : M K (list Z * FILE) :=
  '(acc, f) ← fgets_loop (S (Z.to_nat count)) f count 0 []; mret (acc ++ [0], f).

(** [text] is the string without its terminator; the result is an [int]. *)
Definition common_fputs (text : list Z) (f : FILE) : M K (Z * FILE) :=
  '(n, f) ← common_fwrite text 1 (zlen text) f; mret (swrap 32 n, f).

Definition common_ungetc (c : Z) (f : FILE) : M K (Z * FILE) :=
  if negb (prev_op f =? OP_READ) then mret (EOF, f)
  else if pos f >? start f then
    let f := with_pos f (pos f - 1) in
    b ← lift (store_range (buffer f) (u64 (pos f - start f)) [u8 c]);
    mret (c, with_error (with_buffer f b) (Z.ldiff (error f) _IOEOF))
  else mret (EOF, f).

(** [*buffer] and [*size] are the block and its size; the loop ends when the
    stream does or at the delimiter, [rounds] bounds it. *)
Fixpoint getdelim_loop (rounds : nat) (f : FILE) (block : list Z) (size delimiter result : Z)
    : M K (Z * list Z * Z * FILE) :=
  match rounds with
  | O => UB
  | S rounds =>
      '(c, f) ← common_fgetc f;
      let c := swrap 8 c in
      if c =? EOF then mret (-1, block, size, f)
      else
        b ← lift (store_range (Some block) result [u8 c]);
        let block := default [] b in
        let result := result + 1 in
        if c =? delimiter then
          b ← lift (store_range (Some block) result [0]); mret (result, default [] b, size, f)
        else if result =? size then
          if malloc_ok (size * 2) then
            getdelim_loop rounds f (block ++ fresh_block size) (size * 2) delimiter result
          else _ ← set_errno ENOMEM; mret (-1, block, size, f)
        else getdelim_loop rounds f block size delimiter result
  end.

Definition common_getdelim (rounds : nat) (block : option (list Z)) (size delimiter : Z) (f : FILE)
    : M K (Z * option (list Z) * Z * FILE) :=
  match block with
  | Some block =>
      '(r, block, size, f) ← getdelim_loop rounds f block size delimiter 0; mret (r, Some block, size, f)
  | None =>
      if malloc_ok 512 then
        '(r, block, size, f) ← getdelim_loop rounds f (fresh_block 512) 512 delimiter 0;
        mret (r, Some block, size, f)
      else _ ← set_errno ENOMEM; mret (-1, None, size, f)
  end.

(** ** Buffers *)

(** [RtlReAllocateHeap]: the block with its bytes kept. *)
Definition resize_block (old : list Z) (n : Z) : list Z := take (Z.to_nat n) (old ++ drop (length old) (fresh_block n)).

(** [user] is the buffer of the caller, [None] for [NULL]. *)
Definition common_setvbuf (f : FILE) (user : option (list Z)) (mode size : Z) : M K (Z * FILE) :=
  let buf_type := Z.land (buf_mode f) (Z.lor (Z.lor _IOBUFFER_RDONLY _IOBUFFER_WRONLY) _IOBUFFER_RDWR) in
  _ ← wlibc_lseek (fd f) (swrap 64 (pos f)) SEEK_SET;
  let f := empty_window f (pos f) in
  let done_ f := mret (0, with_mode f (Z.lor (buf_mode f) buf_type)) in
  let take_block f b := with_mode (with_size (with_buffer f (Some b)) size)
                          (Z.lor (Z.lor mode _IOBUFFER_INTERNAL) _IOBUFFER_ALLOCATED) in
  let no_memory f : M K (Z * FILE) := _ ← set_errno ENOMEM; mret (-1, f) in
  if mode =? _IONBF then done_ (with_buffer (with_size (with_mode f _IONBF) 0) None)
  else
    match user with
    | None =>
        if negb (size =? 0) then
          if has (buf_mode f) _IOBUFFER_EXTERNAL then
            if malloc_ok size then done_ (take_block f (fresh_block size)) else no_memory (with_buffer f None)
          else if has (buf_mode f) _IOBUFFER_INTERNAL && negb (size =? buf_size f) then
            if has (buf_mode f) _IOBUFFER_ALLOCATED then
              old ← lift (buffer f);
              if malloc_ok size then done_ (take_block f (resize_block old size)) else no_memory f
            else if malloc_ok size then done_ (take_block f (fresh_block size)) else no_memory (with_buffer f None)
          else done_ f
        else _ ← set_errno EINVAL; mret (-1, f)
    | Some b =>
        if bool_decide (buffer f <> None) && has (buf_mode f) _IOBUFFER_INTERNAL && negb heap_free_ok
        then mret (-1, f)
        else done_ (with_mode (with_size (with_buffer f (Some b)) size) (Z.lor mode _IOBUFFER_EXTERNAL))
    end.

(** ** Status *)

Definition common_feof (f : FILE) : Z := if error f =? _IOEOF then _IOEOF else 0.
Definition common_ferror (f : FILE) : Z := if error f =? _IOERROR then _IOERROR else 0.
Definition common_clearerr (f : FILE) : FILE := with_error f 0.
Definition common_fileno (f : FILE) : Z := fd f.

End Stream.

(** An allocator that never fails, with zeroed blocks. *)
Module Plenty.

#[export] Instance allocator : Allocator := fun _ => true.
#[export] Instance heap : Heap := { heap_byte _ := 0; heap_free_ok := true }.

End Plenty.
