(* ===== verification/StreamFacts.v ===== *)
(** * A stream is a file with a position

    The buffered reads, writes and seeks of a stream over a regular file
    behave as reads, writes and seeks on a sequence of bytes; what has been
    written is in the file once the stream is flushed. *)

From S2P Require Import Prelude Errno Buffer FdTable FdTableFacts FileIo Stream.

(** ** Segments and splices *)

Lemma zlen_segment c p n : 0 <= p -> 0 <= n -> zlen (segment c p n) = Z.max 0 (Z.min n (zlen c - p)).
Proof. intros. unfold segment. rewrite length_take, length_drop. lia. Qed.

Lemma segment_app c p n m :
  0 <= p -> 0 <= n -> 0 <= m -> segment c p (n + m) = segment c p n ++ segment c (p + n) m.
Proof.
  intros. unfold segment. replace (Z.to_nat (p + n)) with (Z.to_nat p + Z.to_nat n)%nat by lia.
  rewrite <- drop_drop, take_take_drop. f_equal. lia.
Qed.

Lemma segment_0 c p n : n <= 0 -> segment c p n = [].
Proof. intros. unfold segment. by replace (Z.to_nat n) with 0%nat by lia. Qed.

(** A segment that is cut by the end of the file. *)
Lemma segment_short c p n m : 0 <= p -> 0 <= n <= m -> zlen c <= p + n -> segment c p m = segment c p n.
Proof. intros. unfold segment. rewrite !take_ge; [done|rewrite length_drop; lia..]. Qed.

Lemma segment_self c p n : segment c p (zlen (segment c p n)) = segment c p n.
Proof.
  unfold segment. rewrite Nat2Z.id, length_take.
  destruct (decide (Z.to_nat n <= length (drop (Z.to_nat p) c))%nat) as [Hn|Hn]; [by rewrite Nat.min_l|].
  rewrite Nat.min_r, !take_ge; (done || lia).
Qed.

Lemma segment_whole l : segment l 0 (zlen l) = l.
Proof. unfold segment. rewrite drop_0. apply take_ge. lia. Qed.

Lemma segment_segment c p n q m :
  0 <= p -> 0 <= q -> 0 <= m -> q + m <= n -> segment (segment c p n) q m = segment c (p + q) m.
Proof.
  intros. unfold segment. rewrite skipn_firstn_comm, drop_drop, take_take.
  f_equal; [|f_equal]; lia.
Qed.

Lemma drop_segment l k n : 0 <= k -> zlen l <= k + n -> drop (Z.to_nat k) l = segment l k n.
Proof. intros. unfold segment. rewrite take_ge; [done|]. rewrite length_drop. lia. Qed.

Lemma zlen_splice c p bs : 0 <= p -> zlen (splice c p bs) = Z.max (zlen c) (p + zlen bs).
Proof. intros. unfold splice. rewrite !length_app, length_take, length_replicate, length_drop. lia. Qed.

Lemma splice_app c p a b : 0 <= p -> splice (splice c p a) (p + zlen a) b = splice c p (a ++ b).
Proof.
  intros Hp. unfold splice at 1. set (l := splice c p a).
  assert (l = (take (Z.to_nat p) c ++ replicate (Z.to_nat p - length c) 0 ++ a) ++ drop (Z.to_nat p + length a) c) as El
    by (unfold l, splice; by rewrite <- !app_assoc).
  assert (length (take (Z.to_nat p) c ++ replicate (Z.to_nat p - length c) 0 ++ a) = Z.to_nat (p + zlen a)) as Hl
    by (rewrite !length_app, length_take, length_replicate; lia).
  replace (Z.to_nat (p + zlen a) - length l)%nat with 0%nat
    by (pose proof (zlen_splice c p a Hp) as E; fold l in E; lia).
  rewrite El. rewrite take_app_length' by done. rewrite drop_app, Hl, (drop_ge (_ ++ _)) by lia.
  replace (Z.to_nat (p + zlen a) + length b - Z.to_nat (p + zlen a))%nat with (length b) by lia.
  rewrite drop_drop. unfold splice. rewrite length_app, <- !app_assoc. cbn [replicate app].
  do 5 f_equal. lia.
Qed.

(** What is stored can be read. *)
Lemma segment_splice c p bs : 0 <= p -> segment (splice c p bs) p (zlen bs) = bs.
Proof.
  intros Hp. unfold segment, splice. rewrite app_assoc.
  rewrite drop_app_length' by (rewrite length_app, length_take, length_replicate; lia).
  by rewrite take_app_length' by lia.
Qed.

(** [bs] written at [p]; writing nothing changes nothing. *)
Definition over (c : list Z) (p : Z) (bs : list Z) : list Z :=
  match bs with [] => c | _ => splice c p bs end.

Lemma over_splice c p bs : bs <> [] -> over c p bs = splice c p bs.
Proof. by destruct bs. Qed.

Lemma over_app c p a b : 0 <= p -> over (over c p a) (p + zlen a) b = over c p (a ++ b).
Proof.
  intros Hp. destruct a as [|x a]; [cbn; f_equal; lia|]. destruct b as [|y b]; [by rewrite app_nil_r|].
  change (over c p (x :: a)) with (splice c p (x :: a)). rewrite !over_splice by done. by apply splice_app.
Qed.

(** ** Blocks *)

Lemma load_range_ok b off n : 0 <= off -> 0 <= n -> off + n <= zlen b -> load_range (Some b) off n = Some (segment b off n).
Proof. intros. unfold load_range, mbind, option_bind. replace (_ && _) with true by lia. done. Qed.

Lemma store_range_ok b off bs :
  0 <= off -> off + zlen bs <= zlen b -> store_range (Some b) off bs = Some (Some (write_at b off bs)).
Proof. intros. unfold store_range, mbind, option_bind. replace (_ && _) with true by lia. done. Qed.

Lemma zlen_write_at b off bs : 0 <= off -> off + zlen bs <= zlen b -> zlen (write_at b off bs) = zlen b.
Proof. intros. by rewrite length_write_at. Qed.

Lemma segment_write_at b off bs :
  0 <= off -> off + zlen bs <= zlen b -> segment (write_at b off bs) 0 (off + zlen bs) = segment b 0 off ++ bs.
Proof. intros. unfold segment. rewrite !drop_0. by apply take_write_at. Qed.


(** ** What a stream stands for *)

(** The bytes of the file as the program sees them, the position, and whether
    the end has been reported. *)
Record view_of := View { content : list Z; offset : Z; eof : bool }.

Definition view_read (v : view_of) (n : Z) : list Z * view_of :=
  if eof v then ([], v)
  else
    let bs := segment (content v) (offset v) n in
    (bs, View (content v) (offset v + zlen bs) ((zlen bs <? n))).

Definition view_write (v : view_of) (bs : list Z) : view_of :=
  View (splice (content v) (offset v) bs) (offset v + zlen bs) (eof v).

Definition view_seek (v : view_of) (o whence : Z) : view_of :=
  View (content v) (seek_target (content v) (offset v) o whence) false.

(** ** Representation *)

Section Refine.
Context {K : Type} {KN : Kernel K} {FK : FileKernel K} {A : Allocator} {H : Heap}.
Context (h : Z) (file_of : K -> list Z * Z) {RF : RegularFile h file_of}.
Context (alloc_ok : forall n, malloc_ok n = true).
Implicit Types s : state K.

Abbreviation file f s c p := (file_at h file_of (fd f) false s c p).

(** The buffer has not been allocated yet. *)
Definition unallocated (f : FILE) : bool :=
  has (buf_mode f) _IOBUFFER_INTERNAL && negb (has (buf_mode f) _IOBUFFER_ALLOCATED).

(** A buffered stream that may be read ([rd]) and written ([wr]). *)
Record buffered (rd wr : bool) (f : FILE) : Prop := {
  bu_mode : has (buf_mode f) _IONBF = false;
  bu_read : has (buf_mode f) _IOBUFFER_WRONLY = negb rd;
  bu_write : has (buf_mode f) _IOBUFFER_RDONLY = negb wr;
  bu_kind : has (buf_mode f) _IOBUFFER_INTERNAL || has (buf_mode f) _IOBUFFER_EXTERNAL = true;
  bu_size : 0 < buf_size f < 2 ^ 31;
  bu_block : unallocated f = false -> exists b, buffer f = Some b /\ zlen b = buf_size f
}.

(** The window lies in the buffer and around the position. *)
Definition window (f : FILE) (b : list Z) : Prop :=
  buffer f = Some b /\ zlen b = buf_size f /\ 0 <= start f <= pos f /\ pos f <= fin f < 2 ^ 62 /\
  fin f - start f <= buf_size f.

(** The buffer holds the bytes of the file in the window, the file pointer is
    behind them. *)
Definition clean (f : FILE) (b : list Z) (c : list Z) : Prop :=
  segment b 0 (fin f - start f) = segment c (start f) (fin f - start f) /\
  (fin f <= zlen c \/ start f = fin f).

(** The content of the program's file when the first bytes of the window are
    still to be written to [c]. *)
Definition pending (f : FILE) (b : list Z) (c : list Z) : list Z :=
  over c (start f) (segment b 0 (pos f - start f)).

Inductive holds (wr : bool) (f : FILE) (s : state K) (c : list Z) : Prop :=
  | holds_idle :
      prev_op f <> OP_READ -> start f = pos f -> fin f = pos f -> 0 <= pos f < 2 ^ 62 ->
      file f s c (pos f) -> holds wr f s c
  | holds_read b :
      prev_op f = OP_READ -> window f b -> clean f b c -> unallocated f = false ->
      file f s c (fin f) -> holds wr f s c
  | holds_write b c0 :
      prev_op f = OP_WRITE -> wr = true -> window f b -> unallocated f = false ->
      c = pending f b c0 -> file f s c0 (start f) -> holds wr f s c.

Record stream_rep (rd wr : bool) (f : FILE) (s : state K) (v : view_of) : Prop := {
  rep_buffered : buffered rd wr f;
  rep_offset : pos f = offset v;
  rep_error : error f = if eof v then _IOEOF else 0;
  rep_holds : holds wr f s (content v)
}.

(** ** Flushing *)

Lemma has_lor_other m a x : Z.land a x = 0 -> has (Z.lor m a) x = has m x.
Proof. intros E. unfold has. by rewrite Z.land_lor_distr_l, E, Z.lor_0_r. Qed.

Lemma has_lor_same m a : a <> 0 -> has (Z.lor m a) a = true.
Proof.
  intros Ha. unfold has. rewrite Z.land_lor_distr_l, Z.land_diag.
  destruct (Z.lor _ a =? 0) eqn:E; [|done]. apply Z.eqb_eq, Z.lor_eq_0_iff in E as [_ E]. done.
Qed.

Lemma u64_small x : 0 <= x < 2 ^ 64 -> u64 x = x.
Proof. apply wrap_small. Qed.

(** Flushing a stream with pending bytes writes them and moves [start]. *)
Lemma flush_write rd f s b c0 :
  buffered rd true f -> prev_op f = OP_WRITE -> window f b -> file f s c0 (start f) ->
  exists s', common_fflush f s = Some ((0, with_window f (pos f) (fin f) (pos f)), s') /\
    file f s' (pending f b c0) (pos f).
Proof.
  intros [Hm _ Hw _ Hz _] Hop (Hb & Hl & Hs & Hf & Hd) Hfile. unfold common_fflush, pending.
  rewrite Hm, Hw, Hop. change (OP_WRITE =? OP_READ) with false. cbn [negb]. rewrite (Z.eqb_sym (start f)).
  destruct (pos f =? start f) eqn:E; cbn [negb].
  - apply Z.eqb_eq in E. exists s. rewrite segment_0 by lia. split; [|by rewrite E]. destruct f; cbn in *; by subst.
  - rewrite u64_small by lia. set (n := pos f - start f).
    assert (zlen (segment b 0 n) = n) as Hn by (rewrite zlen_segment; lia).
    destruct (write_file h file_of (fd f) s c0 (start f) (segment b 0 n) (drop (Z.to_nat n) b))
      as (k & Hr & Hf'); [done|lia|].
    rewrite Hn in Hr. unfold segment in Hr. rewrite drop_0, take_drop in Hr.
    exists (with_kernel s k). run. rewrite Hb, Hr. replace (n =? -1) with false by lia.
    split; [done|]. rewrite over_splice by (intros E0; rewrite E0 in Hn; cbn in Hn; lia).
    rewrite Hn in Hf'. by replace (start f + n) with (pos f) in Hf' by lia.
Qed.

(** The buffer is there after [allocate_buffer]. *)
Lemma allocate_ok rd wr f s :
  buffered rd wr f ->
  exists b m, allocate_buffer f s = Some ((true, with_mode (with_buffer f (Some b)) m), s) /\
    buffered rd wr (with_mode (with_buffer f (Some b)) m) /\
    unallocated (with_mode (with_buffer f (Some b)) m) = false /\
    (unallocated f = false -> buffer f = Some b) /\ zlen b = buf_size f /\
    has m _IOBUFFER_ALLOCATED || has m _IOBUFFER_EXTERNAL = true.
Proof.
  intros [Hm Hr Hw Hk Hz Hb]. unfold allocate_buffer. fold (unallocated f).
  destruct (unallocated f) eqn:E.
  - rewrite alloc_ok. eexists _, _. split; [done|].
    unfold unallocated in *. apply andb_true_iff in E as [E1 E2]. split; [|split; [|split; [|split]]].
    + split; cbn -[has fresh_block]; rewrite ?has_lor_other by done; try done.
      intros _. eexists. split; [done|]. unfold fresh_block. rewrite length_fmap, length_seq. lia.
    + cbn -[has]. by rewrite has_lor_other, E1, has_lor_same by done.
    + done.
    + unfold fresh_block. rewrite length_fmap, length_seq. lia.
    + by rewrite has_lor_same by done.
  - destruct (Hb eq_refl) as (b & Eb & Hl). exists b, (buf_mode f).
    assert (with_mode (with_buffer f (Some b)) (buf_mode f) = f) as -> by (destruct f; cbn in *; by subst).
    split; [done|]. split; [split; eauto|]. split; [done|]. split; [done|]. split; [done|].
    unfold unallocated in E. destruct (has (buf_mode f) _IOBUFFER_INTERNAL); cbn in *; [|by rewrite Hk, orb_true_r].
    by apply negb_false_iff in E as ->.
Qed.

(** ** Reading *)

(** The end of the file is noted when nothing is read. *)
Definition note_end (f : FILE) (at_end : bool) : FILE := if at_end then with_error f _IOEOF else f.

Lemma read_wrapper_file f s c p n :
  file f s c p -> is_u32 n ->
  exists s', read_wrapper f true n s =
      Some ((zlen (segment c p n), segment c p n, note_end f (zlen (segment c p n) =? 0)), s') /\
    file f s' c (p + zlen (segment c p n)).
Proof.
  intros Hf Hn. destruct (read_file h file_of (fd f) false s c p n Hf Hn) as (k & Hr & Hf').
  exists (with_kernel s k). split; [|done]. unfold read_wrapper. run. rewrite Hr.
  rewrite (proj2 (Z.eqb_neq _ (-1))) by lia. by destruct (zlen _ =? 0).
Qed.

Lemma read_blocks_file fuel f s c p data acc r0 :
  file f s c p -> 0 <= p -> 0 < buf_size f < 2 ^ 31 -> zlen acc < data < 2 ^ 62 -> 0 < r0 ->
  (Z.to_nat (data - zlen acc) < fuel)%nat ->
  exists n r at_end s',
    read_blocks fuel f data acc r0 s = Some ((acc ++ segment c p n, r, note_end f at_end), s') /\
    0 <= n /\ zlen (segment c p n) = n /\ file f s' c (p + n) /\ zlen acc + n < data /\
    if at_end then r = 0 /\ zlen c <= p + n else 0 < r /\ data <= zlen acc + n + buf_size f.
Proof.
  revert s p acc r0. induction fuel as [|fuel IH]; intros s p acc r0 Hf Hp Hz Ha Hr0 Hfuel; [lia|].
  cbn [read_blocks]. rewrite (wrap_small 64) by lia. destruct (zlen acc + buf_size f <? data) eqn:E.
  2: { exists 0, r0, false, s. rewrite segment_0, app_nil_r, !Z.add_0_r by lia. cbn [length].
       split_and!; (done || lia). }
  destruct (read_wrapper_file f s c p (buf_size f) Hf) as (s1 & Hr & Hf1); [lia|].
  run. rewrite Hr. pose proof (zlen_segment c p (buf_size f) Hp ltac:(lia)) as Hl.
  set (bs := segment c p (buf_size f)) in *. destruct (zlen bs =? 0) eqn:E0.
  - exists 0, (zlen bs), true, s1. rewrite segment_0, app_nil_r by lia. apply Z.eqb_eq in E0.
    replace (p + zlen bs) with (p + 0) in Hf1 by lia. cbn [length].
    split_and!; (done || lia).
  - cbn [note_end]. apply Z.eqb_neq in E0. edestruct (IH s1 (p + zlen bs) (acc ++ bs) (zlen bs)) as (n & r & e & s2 & Hb & Hn & Hsl & Hf2 & Hd & Hres);
      rewrite ?length_app; [done|lia..|clear IH; lia|].
    rewrite length_app in *. exists (zlen bs + n), r, e, s2. rewrite Hb.
    assert (segment c p (zlen bs + n) = bs ++ segment c (p + zlen bs) n) as ->.
    { rewrite segment_app by lia. f_equal. apply segment_self. }
    rewrite app_assoc, length_app. replace (p + (zlen bs + n)) with (p + zlen bs + n) by lia.
    split_and!; try (done || lia). destruct e; lia.
Qed.

Lemma fill_buffer_file fuel f s c p b need :
  file f s c p -> 0 <= p -> buffer f = Some b -> zlen b = buf_size f ->
  0 < need <= buf_size f -> buf_size f < 2 ^ 31 -> (2 <= fuel)%nat ->
  let bs := segment c p (buf_size f) in
  exists s', fill_buffer fuel f need 0 s =
      Some ((zlen bs, with_buffer (note_end f (zlen bs <? need)) (Some (write_at b 0 bs))), s') /\
    file f s' c (p + zlen bs).
Proof.
  intros Hf Hp Hb Hl Hn Hz Hfuel bs. destruct fuel as [|[|fuel]]; [lia..|].
  pose proof (zlen_segment c p (buf_size f) Hp ltac:(lia)) as Hbs. fold bs in Hbs.
  destruct (read_wrapper_file f s c p (buf_size f) Hf) as (s1 & Hr & Hf1); [lia|]. fold bs in Hr, Hf1.
  cbn [fill_buffer]. replace ((0 <? buf_size f) && (0 <? need)) with true by lia.
  run. rewrite Hb, bool_decide_eq_true_2, Z.sub_0_r, u64_small by (done || lia). rewrite Hr.
  destruct (zlen bs =? 0) eqn:E0.
  { apply Z.eqb_eq in E0. exists s1. rewrite (proj2 (Z.ltb_lt (zlen bs) need)) by lia. split; [|done].
    assert (bs = []) as -> by (apply length_zero_iff_nil; lia).
    unfold write_at. cbn [app length note_end]. rewrite Nat.add_0_r, take_drop. by destruct f; cbn in *; subst. }
  cbn [note_end]. rewrite Hb, (store_range_ok b 0 bs) by lia. cbn [lift]. rewrite Z.add_0_l.
  destruct (zlen bs <? need) eqn:E1.
  - cbn [with_buffer buf_size]. replace ((zlen bs <? buf_size f) && true) with true by lia.
    set (f1 := with_buffer f (Some (write_at b 0 bs))).
    destruct (read_wrapper_file f1 s1 c (p + zlen bs) (buf_size f - zlen bs) Hf1) as (s2 & Hr2 & Hf2); [lia|].
    cbn [with_buffer buffer]. rewrite bool_decide_eq_true_2, u64_small by (done || lia). fold f1. rewrite Hr2.
    assert (segment c (p + zlen bs) (buf_size f - zlen bs) = []) as E2
      by (apply length_zero_iff_nil; pose proof (zlen_segment c (p + zlen bs) (buf_size f - zlen bs)); lia).
    rewrite E2 in *. exists s2. split; [done|]. cbn [length] in Hf2.
    by replace (p + zlen bs + Z.of_nat 0) with (p + zlen bs) in Hf2 by lia.
  - exists s1. cbn [with_buffer buf_size]. replace ((zlen bs <? buf_size f) && false) with false by (by rewrite andb_false_r).
    done.
Qed.

(** The bytes of the window that follow the position. *)
Lemma load_window f b c n :
  window f b -> clean f b c -> 0 <= n <= fin f - pos f ->
  load_range (buffer f) (u64 (pos f - start f)) n = Some (segment c (pos f) n).
Proof.
  intros (Hb & Hl & Hs & Hf & Hd) [Hc _] Hn. rewrite Hb, u64_small, load_range_ok by lia. f_equal.
  transitivity (segment (segment b 0 (fin f - start f)) (pos f - start f) n); [by rewrite segment_segment by lia|].
  rewrite Hc, segment_segment by lia. f_equal. lia.
Qed.

(** What a read leaves: [f'] is [f] at a new position of the file [c]. *)
Record read_to (f f' : FILE) (s' : state K) (c : list Z) (p : Z) (at_end : bool) : Prop := {
  rt_fd : fd f' = fd f;
  rt_mode : buf_mode f' = buf_mode f;
  rt_size : buf_size f' = buf_size f;
  rt_op : prev_op f' = prev_op f;
  rt_error : error f' = if at_end then _IOEOF else error f;
  rt_pos : pos f' = p;
  rt_back : at_end = false -> start f' < pos f';
  rt_window : exists b, window f' b /\ clean f' b c;
  rt_file : file f s' c (fin f')
}.

(** An empty window is always right. *)
Lemma empty_ok f b p c :
  buffer f = Some b -> zlen b = buf_size f -> 0 < buf_size f -> 0 <= p < 2 ^ 62 ->
  window (empty_window f p) b /\ clean (empty_window f p) b c.
Proof.
  intros Hb Hl Hz Hp. split; [|split]; cbn; [|by rewrite !segment_0 by lia|by right].
  split; [done|]. split; [done|]. cbn. lia.
Qed.

Lemma read_last_file f s c b need :
  buffer f = Some b -> zlen b = buf_size f -> start f = pos f -> fin f = pos f -> 0 <= pos f < 2 ^ 62 ->
  file f s c (pos f) -> 0 < need <= buf_size f -> buf_size f < 2 ^ 31 -> zlen c < 2 ^ 61 ->
  let bs := segment c (pos f) need in
  exists f' s', read_last f need s = Some ((bs, f'), s') /\
    read_to f f' s' c (pos f + zlen bs) (zlen bs <? need).
Proof.
  intros Hb Hl Hs Hfin Hp Hf Hn Hz Hc bs. set (last := segment c (pos f) (buf_size f)).
  pose proof (zlen_segment c (pos f) (buf_size f) ltac:(lia) ltac:(lia)) as Hlast. fold last in Hlast.
  pose proof (zlen_segment c (pos f) need ltac:(lia) ltac:(lia)) as Hbs. fold bs in Hbs.
  destruct (fill_buffer_file (S (Z.to_nat need)) f s c (pos f) b need) as (s1 & Hfill & Hf1); [done|lia|done|done|lia..|].
  fold last in Hfill, Hf1. unfold read_last. rewrite (M_bind_Some _ _ _ _ _ Hfill). cbv beta iota.
  replace (zlen last <? need) with (zlen bs <? need) in * by lia.
  set (b1 := write_at b 0 last). assert (zlen b1 = buf_size f) as Hl1 by (unfold b1; rewrite zlen_write_at; lia).
  set (g := with_buffer (note_end f (zlen bs <? need)) (Some b1)).
  assert (pos g = pos f /\ buf_size g = buf_size f /\ fd g = fd f /\ buf_mode g = buf_mode f /\ prev_op g = prev_op f /\
          error g = (if zlen bs <? need then _IOEOF else error f) /\ buffer g = Some b1 /\ start g = pos f /\ fin g = pos f)
    as (G1 & G2 & G3 & G4 & G5 & G6 & G7 & G8 & G9) by (unfold g; destruct (zlen bs <? need); split_and!; (done || cbn; lia)).
  clearbody g. rewrite Z.gtb_ltb. destruct (0 <? zlen last) eqn:E; [apply Z.ltb_lt in E|apply Z.ltb_ge in E].
  - rewrite G7, load_range_ok, G1 by lia.
    assert (segment b1 0 (zlen last) = last) as Eb1.
    { unfold b1. pose proof (segment_write_at b 0 last) as E1. rewrite Z.add_0_l in E1.
      rewrite E1, segment_0 by lia. done. }
    assert (segment b1 0 (Z.min need (zlen last)) = bs) as ->.
    { transitivity (segment (segment b1 0 (zlen last)) 0 (Z.min need (zlen last))); [by rewrite segment_segment by lia|].
      rewrite Eb1. unfold last at 1. rewrite segment_segment, Z.add_0_r by lia. unfold bs.
      destruct (decide (need <= zlen last)); [by rewrite Z.min_l by lia|].
      rewrite Z.min_r by lia. symmetry. apply segment_short; lia. }
    replace (Z.min need (zlen last)) with (zlen bs) by lia. rewrite !u64_small by lia.
    eexists _, s1. split; [reflexivity|]. split; cbn; rewrite ?G1; try done; [intros E2; apply Z.ltb_ge in E2; lia|].
    exists b1. split; [split; [done|]; cbn; lia|]. split; cbn; [|lia].
    replace (pos f + zlen last - pos f) with (zlen last) by lia. rewrite Eb1. unfold last. by rewrite segment_self.
  - assert (bs = []) as Ebs by (apply length_zero_iff_nil; lia).
    replace (pos f + zlen bs) with (pos f) by (rewrite Ebs; cbn; lia). replace (pos f + zlen last) with (pos f) in Hf1 by lia.
    exists g, s1. split; [by rewrite Ebs|]. split; try (done || by rewrite ?G9); [intros E2; apply Z.ltb_ge in E2; lia|].
    exists b1. split; [split; [done|]; lia|]. split; [|by right; rewrite G8, G9].
    rewrite G8, G9, Z.sub_diag. by rewrite !segment_0 by lia.
Qed.

Lemma read_more_file f s c b size data :
  window f b -> clean f b c -> file f s c (fin f) -> 0 < buf_size f < 2 ^ 31 ->
  fin f - pos f < data -> 0 < data < 2 ^ 31 -> 0 < size -> zlen c < 2 ^ 61 -> pos f < 2 ^ 61 ->
  let bs := segment c (pos f) data in
  exists f' s', read_more f size data s = Some ((zlen bs / size, bs, f'), s') /\
    read_to f f' s' c (pos f + zlen bs) (zlen bs <? data).
Proof.
  intros Hw Hcl Hfile Hz Hfin Hdata Hsize Hc61 Hp61 bs.
  pose proof Hw as (Hb & Hl & Hs & Hf & Hd). pose proof Hcl as [_ Hcf].
  unfold read_more. set (m0 := fin f - pos f).
  assert ((if pos f <? fin f then lift (load_range (buffer f) (u64 (pos f - start f)) (u64 (fin f - pos f)))
           else mret []) s = Some (segment c (pos f) m0, s)) as E0.
  { destruct (pos f <? fin f) eqn:E.
    - rewrite (u64_small (fin f - pos f)), (load_window f b c) by (done || lia). done.
    - rewrite segment_0 by lia. done. }
  rewrite (M_bind_Some _ _ _ _ _ E0). clear E0.
  assert (zlen (segment c (pos f) m0) = m0) as Hm0 by (rewrite zlen_segment; lia).
  destruct (read_blocks_file (S (Z.to_nat data)) f s c (fin f) data (segment c (pos f) m0) 1)
    as (n & r & at_end & s1 & Hrb & Hn & Hsn & Hf1 & Hnd & Hend); [done|lia..|].
  rewrite (M_bind_Some _ _ _ _ _ Hrb). clear Hrb. cbv beta iota.
  assert (segment c (pos f) m0 ++ segment c (fin f) n = segment c (pos f) (m0 + n)) as ->.
  { rewrite segment_app by lia. do 2 f_equal. lia. }
  set (m := m0 + n) in *. rewrite Hm0 in *.
  assert (zlen (segment c (pos f) m) = m) as Hm.
  { rewrite zlen_segment by lia. rewrite zlen_segment in Hm0, Hsn by lia. lia. }
  rewrite Hm. assert (pos (note_end f at_end) = pos f) as -> by (by destruct at_end).
  rewrite (u64_small (pos f + m)) by lia. replace (fin f + n) with (pos f + m) in * by lia.
  destruct at_end; cbn [note_end] in *.
  - destruct Hend as [-> Hend]. change (0 >? 0) with false. cbv iota.
    assert (bs = segment c (pos f) m) as -> by (apply segment_short; lia). rewrite Hm.
    eexists _, s1. split; [reflexivity|]. rewrite (proj2 (Z.ltb_lt m data)) by lia.
    destruct (empty_ok (with_error f _IOEOF) b (pos f + m) c) as [Hw' Hc']; [done|done|cbn; lia|lia|].
    split; try done. by exists b.
  - destruct Hend as [Hr Hend]. rewrite (Z.gtb_ltb r), (proj2 (Z.ltb_lt 0 r)) by lia. cbv iota.
    rewrite (u64_small (data - m)) by lia.
    destruct (read_last_file (empty_window f (pos f + m)) s1 c b (data - m)) as (f' & s2 & Hlast & Hrt);
      [done|done|done|done|cbn; lia|done|cbn; lia|cbn; lia|lia|].
    cbn [pos empty_window with_window] in *. rewrite (M_bind_Some _ _ _ _ _ Hlast). cbv beta iota.
    assert (bs = segment c (pos f) m ++ segment c (pos f + m) (data - m)) as Ebs
      by (rewrite <- segment_app by lia; unfold bs; f_equal; lia).
    assert (zlen bs = m + zlen (segment c (pos f + m) (data - m))) as Hbs by (rewrite Ebs, length_app; lia).
    rewrite <- Ebs, <- Hbs. eexists f', s2. split; [reflexivity|].
    destruct Hrt as [R1 R2 R3 R4 R5 R6 Rb R7 R8]. replace (zlen (segment c (pos f + m) (data - m)) <? data - m) with (zlen bs <? data) in * by lia.
    split; try done.
    rewrite R6. lia.
Qed.

(** A stream with nothing pending is flushed at once. *)
Lemma flush_idle f s : start f = pos f -> common_fflush f s = Some ((0, f), s).
Proof. intros E. unfold common_fflush. rewrite E, Z.eqb_refl. by repeat case_match. Qed.

Lemma buffered_same rd wr f g :
  buffered rd wr f -> buf_mode g = buf_mode f -> buf_size g = buf_size f ->
  (unallocated g = false -> exists b, buffer g = Some b /\ zlen b = buf_size g) -> buffered rd wr g.
Proof. intros [H1 H2 H3 H4 H5 H6] Em Es Hb. split; rewrite ?Em, ?Es; auto. by rewrite Es in Hb. Qed.

(** Whatever was done before, a read starts from a clean window. *)
Lemma prepare_read rd wr f s v :
  stream_rep rd wr f s v ->
  exists g s1 b m,
    (if prev_op f =? OP_WRITE
     then '(_, f) ← common_fflush f; mret (with_window f (start f) (start f) (pos f)) else mret f) s = Some (g, s1) /\
    let f1 := with_mode (with_buffer (with_op g OP_READ) (Some b)) m in
    allocate_buffer (with_op g OP_READ) s1 = Some ((true, f1), s1) /\
    buffered rd wr f1 /\ unallocated f1 = false /\ window f1 b /\ clean f1 b (content v) /\
    file f s1 (content v) (fin f1) /\ pos f1 = pos f /\ error f1 = error f /\ fd f1 = fd f /\ prev_op f1 = OP_READ.
Proof.
  intros [Hbu Hoff Herr Hh]. destruct Hh as [Hop Hs Hf Hp Hfile|b Hop Hw Hcl Hal Hfile|b c0 Hop Hwr Hw Hal Hc Hfile].
  - assert (with_window f (start f) (start f) (pos f) = f) as E by (destruct f; cbn in *; by subst).
    exists f, s. destruct (allocate_ok rd wr (with_op f OP_READ) s) as (b & m & Ha & Hb1 & Hu & _ & Hl & _);
      [by apply (buffered_same rd wr f); try done; apply Hbu|].
    exists b, m. split.
    { destruct (prev_op f =? OP_WRITE); [|done]. rewrite (M_bind_Some _ _ _ _ _ (flush_idle f s Hs)). by rewrite E. }
    split; [done|]. split_and!; try done; cbn in *; rewrite ?Hf; try done.
    + split; [done|]. cbn. lia.
    + split; cbn; [|right; lia]. by rewrite !segment_0 by lia.
  - exists f, s. rewrite Hop. change (OP_READ =? OP_WRITE) with false.
    assert (with_op f OP_READ = f) as E by (destruct f; cbn in *; by subst). rewrite E.
    destruct (allocate_ok rd wr f s Hbu) as (b' & m & Ha & Hb1 & Hu & Hbb & Hl & _).
    pose proof (Hbb Hal) as Hb'. assert (b' = b) as -> by (destruct Hw as [? _]; congruence).
    exists b, m. split; [done|]. split; [done|]. split_and!; try done.
    destruct Hw as (? & ? & ? & ?). split; [done|]. cbn. lia.
  - exists (with_window f (pos f) (pos f) (pos f)). rewrite Hop, Hwr in *. change (OP_WRITE =? OP_WRITE) with true.
    destruct (flush_write rd f s b c0 Hbu Hop Hw Hfile) as (s1 & Hfl & Hf1). exists s1.
    destruct Hw as (Hb & Hl & Hst & Hfi & Hd).
    destruct (allocate_ok rd true (with_op (with_window f (pos f) (pos f) (pos f)) OP_READ) s1)
      as (b' & m & Ha & Hb1 & Hu & Hbb & Hl' & _); [apply (buffered_same rd true f); try done; by exists b|].
    exists b', m. split; [rewrite (M_bind_Some _ _ _ _ _ Hfl); done|].
    split; [done|]. split_and!; try done; cbn in *.
    + split; [done|]. cbn. lia.
    + split; cbn; [|right; lia]. by rewrite !segment_0 by lia.
    + by rewrite Hc.
Qed.

Lemma fread_refines rd wr f s v size count :
  stream_rep rd wr f s v -> rd = true -> 0 < size -> 0 < count -> size * count < 2 ^ 31 ->
  zlen (content v) < 2 ^ 61 -> offset v < 2 ^ 61 ->
  let '(bs, v') := view_read v (size * count) in
  exists f' s', common_fread size count f s = Some ((zlen bs / size, bs, f'), s') /\ stream_rep rd wr f' s' v' /\
    fd f' = fd f /\ (eof v' = false -> start f' < pos f') /\ if eof v then f' = f else prev_op f' = OP_READ.
Proof.
  intros Hrep -> Hsize Hcount Hsc Hc61 Ho61. unfold view_read.
  pose proof Hrep as [Hbu Hoff Herr Hh]. unfold common_fread. rewrite Herr. destruct (eof v) eqn:Eeof.
  { exists f, s. change (_IOEOF =? _IOEOF) with true. cbn [orb length]. rewrite Z.div_0_l by lia.
    split; [done|]. split; [|split; [done|split; [congruence|done]]]. split; try done. by rewrite Eeof. }
  change ((0 =? _IOEOF) || (0 =? _IOERROR)) with false. cbv iota.
  rewrite (bu_read _ _ _ Hbu), (bu_mode _ _ _ Hbu). cbn [negb].
  destruct (prepare_read true wr f s v Hrep) as (g & s1 & b & m & Hprep & Halloc & Hbu1 & Hu1 & Hw1 & Hcl1 & Hf1 & Hp1 & He1 & Hfd1 & Hop1).
  rewrite (M_bind_Some _ _ _ _ _ Hprep). cbv zeta. rewrite (M_bind_Some _ _ _ _ _ Halloc). cbv iota. cbn [negb].
  set (f1 := with_mode (with_buffer (with_op g OP_READ) (Some b)) m) in *. clearbody f1.
  rewrite (u64_small (size * count)) by nia. set (n := size * count) in *. assert (0 < n) as Hn by (unfold n; nia).
  pose proof Hw1 as (Hb1 & Hl1 & Hs1 & Hfi1 & Hd1). rewrite u64_small by lia.
  set (bs := segment (content v) (offset v) n).
  pose proof (zlen_segment (content v) (offset v) n ltac:(lia) ltac:(lia)) as Hbs. fold bs in Hbs.
  destruct (n <=? fin f1 - pos f1) eqn:E; [apply Z.leb_le in E|apply Z.leb_gt in E].
  - rewrite (load_window f1 b (content v)) by (done || lia). rewrite Hp1, Hoff. fold bs.
    destruct Hcl1 as [Hcl1 Hcf1]. assert (zlen bs = n) as En by lia. rewrite En, Z.ltb_irrefl, u64_small by lia.
    eexists _, s1. split; [unfold n; rewrite Z.mul_comm, Z.div_mul by lia; reflexivity|].
    split; [|split; [done|split; [cbn; lia|done]]]. split; cbn; [by apply (buffered_same true wr f1); try done; apply Hbu1|lia|by rewrite He1, Herr|].
    eapply (holds_read _ _ _ _ b); try done.
    + split; [done|]. cbn. lia.
    + by rewrite <- Hfd1 in Hf1.
  - destruct (read_more_file f1 s1 (content v) b size n) as (f2 & s2 & Hrm & Hrt);
      [done|done|by rewrite <- Hfd1 in Hf1|apply Hbu1|lia|lia|lia|lia|lia|].
    rewrite Hp1, Hoff in *. fold bs in Hrm, Hrt. exists f2, s2. split; [exact Hrm|].
    destruct Hrt as [R1 R2 R3 R4 R5 R6 Rb (b2 & R7 & R7') R8].
    assert (unallocated f2 = false) as Hu2 by (unfold unallocated; rewrite R2; exact Hu1).
    split; [|split; [congruence|split; [exact Rb|by rewrite R4]]]. split; cbn; try done.
    + apply (buffered_same true wr f1); try done. intros _. exists b2. split; [apply R7|apply R7].
    + by rewrite R5, He1, Herr.
    + eapply (holds_read _ _ _ _ b2); try done; [by rewrite R4|by rewrite R1].
Qed.

(** ** Writing *)

Lemma segment_nonempty l k n : 0 <= k -> 0 < n -> k + n <= zlen l -> segment l k n <> [].
Proof.
  intros Hk Hn Hl E. pose proof (zlen_segment l k n Hk ltac:(lia)) as Hz. rewrite E in Hz. cbn in Hz. lia.
Qed.

Lemma write_blocks_file fuel f s c p data w r0 :
  file f s c p -> 0 <= p -> 0 < buf_size f < 2 ^ 31 -> 0 <= w < zlen data -> zlen data < 2 ^ 62 -> 0 < r0 ->
  (Z.to_nat (zlen data - w) < fuel)%nat ->
  exists n r s', write_blocks fuel f data (zlen data) w r0 s = Some ((w + n, r), s') /\
    0 <= n /\ 0 < r /\ w + n < zlen data <= w + n + buf_size f /\
    file f s' (over c p (segment data w n)) (p + n).
Proof.
  revert s c p w r0. induction fuel as [|fuel IH]; intros s c p w r0 Hf Hp Hz Hw Hd Hr0 Hfuel; [lia|].
  cbn [write_blocks]. rewrite u64_small by lia. destruct (w + buf_size f <? zlen data) eqn:E.
  2: { exists 0, r0, s. rewrite segment_0, !Z.add_0_r by lia. split_and!; (done || lia). }
  apply Z.ltb_lt in E. set (blk := segment data w (buf_size f)).
  assert (zlen blk = buf_size f) as Hl by (unfold blk; rewrite zlen_segment; lia).
  assert (drop (Z.to_nat w) data = blk ++ drop (Z.to_nat (buf_size f)) (drop (Z.to_nat w) data)) as Ed
    by (unfold blk, segment; by rewrite take_drop).
  destruct (write_file h file_of (fd f) s c p blk (drop (Z.to_nat (buf_size f)) (drop (Z.to_nat w) data)) Hf)
    as (k & Hr & Hf1); [lia|]. rewrite <- Ed, Hl in Hr.
  rewrite (M_bind_Some _ _ _ _ _ Hr). rewrite (proj2 (Z.eqb_neq (buf_size f) (-1))) by lia. rewrite Hl in Hf1.
  edestruct (IH (with_kernel s k) (splice c p blk) (p + buf_size f) (w + buf_size f) (buf_size f))
    as (n & r & s2 & Hb & Hn & Hr2 & Hn2 & Hf2); [done|lia..|clear IH; lia|].
  exists (buf_size f + n), r, s2. rewrite Hb. split_and!; [do 3 f_equal; lia|lia..|].
  rewrite segment_app by lia. fold blk. rewrite <- over_app by lia. rewrite Hl.
  rewrite (over_splice c p blk) by (apply segment_nonempty; lia).
  by replace (p + (buf_size f + n)) with (p + buf_size f + n) by lia.
Qed.

(** A stream about to write: the bytes of the window before the position are
    still to be written to [c0]. *)
Record write_ready (f f1 : FILE) (s1 : state K) (v : view_of) (b c0 : list Z) : Prop := {
  wy_fd : fd f1 = fd f;
  wy_pos : pos f1 = pos f;
  wy_error : error f1 = error f;
  wy_op : prev_op f1 = OP_WRITE;
  wy_alloc : unallocated f1 = false;
  wy_window : window f1 b;
  wy_content : content v = pending f1 b c0;
  wy_file : file f s1 c0 (start f1)
}.

Lemma write_first_file f f1 s1 v b c0 data :
  write_ready f f1 s1 v b c0 -> fin f1 - start f1 = buf_size f1 -> 0 < buf_size f1 < 2 ^ 31 ->
  fin f1 - pos f1 < zlen data < 2 ^ 62 ->
  exists w b1 s2, write_first f1 data s1 = Some (Some (w, with_buffer f1 (Some b1)), s2) /\
    zlen b1 = buf_size f1 /\ 0 <= w < zlen data /\
    file f s2 (over (content v) (pos f) (segment data 0 w)) (pos f + w).
Proof.
  intros [Efd Epos _ _ _ (Hb & Hl & Hs & Hfi & Hd) Hc Hfile] Hfull Hz Hdata. unfold write_first.
  rewrite u64_small by lia. set (room := fin f1 - pos f1) in *. unfold pending in Hc. destruct (room =? buf_size f1) eqn:E; cbn [negb].
  - apply Z.eqb_eq in E. exists 0, b, s1. rewrite segment_0 by lia. cbn [over]. rewrite Z.add_0_r.
    rewrite segment_0 in Hc by lia. cbn [over] in Hc.
    split_and!; try (done || lia); [destruct f1; cbn in *; by subst|].
    rewrite Hc, <- Epos. by replace (pos f1) with (start f1) by lia.
  - apply Z.eqb_neq in E. rewrite load_range_ok by lia. set (bytes := segment data 0 room).
    assert (zlen bytes = room) as Hroom by (unfold bytes; rewrite zlen_segment; lia).
    rewrite (u64_small (pos f1 - start f1)) by lia. rewrite Hb. run. cbn [lift]. rewrite store_range_ok by lia. cbn [lift].
    set (b1 := write_at b (pos f1 - start f1) bytes).
    assert (zlen b1 = buf_size f1) as Hl1 by (unfold b1; rewrite zlen_write_at; lia).
    assert (b1 = segment b 0 (pos f1 - start f1) ++ bytes) as Eb1.
    { rewrite <- (segment_whole b1). unfold b1 at 1. rewrite <- segment_write_at by lia. f_equal. lia. }
    assert (file f1 s1 c0 (start f1)) as Hfile1 by (by rewrite Efd).
    destruct (write_file h file_of (fd f1) s1 c0 (start f1) b1 [] Hfile1) as (k & Hr & Hf2); [lia|].
    rewrite app_nil_r, Hl1 in Hr. cbn [fd buffer with_buffer buf_size]. rewrite Hr.
    rewrite (proj2 (Z.eqb_neq (buf_size f1) (-1))) by lia.
    exists room, b1, (with_kernel s1 k). split_and!; try (done || lia).
    fold bytes. rewrite Hc. replace (pos f) with (start f1 + zlen (segment b 0 (pos f1 - start f1))) at 1
      by (rewrite zlen_segment; lia).
    rewrite over_app, <- Eb1, over_splice by (lia || (intros E1; rewrite E1 in Hl1; cbn in Hl1; lia)).
    rewrite Hl1 in Hf2. rewrite Efd in Hf2. by replace (pos f + room) with (start f1 + buf_size f1) by lia.
Qed.

Lemma get_fd_flags_file f s c p :
  file f s c p -> exists fl, get_fd_flags (fd f) s = Some (fl, s) /\ has fl O_APPEND = false.
Proof.
  intros [(e & Hv & _ & _ & Ha) _]. exists (flags e). split; [|done].
  apply view_Some in Hv as (Hf & He & _). unfold get_fd_flags. by rewrite (M_bind_Some _ _ _ _ _ (entry_lookup s _ _ Hf He)).
Qed.

(** The window a write may use: the whole buffer, unless the data fit in what is
    left of it. *)
Definition roomy (f : FILE) (n : Z) : Prop :=
  prev_op f = OP_WRITE -> start f = fin f \/ fin f - start f = buf_size f \/ n <= fin f - pos f.

(** The window is the whole buffer. *)
Definition full (f : FILE) : Prop :=
  prev_op f = OP_WRITE -> start f = fin f \/ fin f - start f = buf_size f.

Lemma full_roomy f n : full f -> roomy f n.
Proof. intros Hf Hop. destruct (Hf Hop); auto. Qed.

Lemma start_writing_file rd f s v :
  stream_rep rd true f s v ->
  exists g s1, start_writing f s = Some (g, s1) /\ buf_mode g = buf_mode f /\ buffer g = buffer f /\
    buf_size g = buf_size f /\ fd g = fd f /\ pos g = pos f /\ error g = error f /\ 0 <= pos g < 2 ^ 62 /\
    ((start g = pos g /\ fin g = pos g /\ file f s1 (content v) (pos g)) \/
     (exists b c0, buffer g = Some b /\ unallocated g = false /\ window g b /\ content v = pending g b c0 /\
        file f s1 c0 (start g) /\
        forall n, roomy f n -> start g = fin g \/ fin g - start g = buf_size g \/ n <= fin g - pos g)).
Proof.
  intros [Hbu Hoff Herr Hh]. unfold start_writing.
  destruct Hh as [Hop Hs Hf Hp Hfile|b Hop Hw Hcl Hal Hfile|b c0 Hop Hwr Hw Hal Hc Hfile].
  - destruct (prev_op f =? OP_WRITE) eqn:E; cbn [negb].
    { exists f, s. split_and!; try done; [lia..|]. by left. }
    destruct (get_fd_flags_file f s _ _ Hfile) as (fl & Hfl & Happ).
    rewrite (M_bind_Some _ _ _ _ _ Hfl), Happ. rewrite (proj2 (Z.eqb_neq _ _) Hop).
    eexists _, s. split; [reflexivity|]. cbn. split_and!; try done; [lia..|]. by left.
  - rewrite Hop. change (OP_READ =? OP_WRITE) with false. change (OP_READ =? OP_READ) with true. cbn [negb].
    destruct (get_fd_flags_file f s _ _ Hfile) as (fl & Hfl & Happ).
    rewrite (M_bind_Some _ _ _ _ _ Hfl), Happ. destruct Hw as (Hb & Hl & Hst & Hfi & Hd).
    rewrite (swrap_small 64) by lia.
    destruct (lseek_file h file_of (fd f) false s (content v) (fin f) (pos f) SEEK_SET Hfile) as (k & Hr & Hf1);
      [done|unfold seek_target; cbn; lia|].
    assert (seek_target (content v) (fin f) (pos f) SEEK_SET = pos f) as E by (unfold seek_target; cbn; lia).
    rewrite E in *. eexists _, (with_kernel s k). split; [run; by rewrite Hr|].
    cbn. split_and!; try done; [lia..|]. by left.
  - rewrite Hop. change (OP_WRITE =? OP_WRITE) with true. cbn [negb].
    exists f, s. pose proof Hw as (Hb & Hl & Hst & Hfi & Hd). split_and!; try done; [lia..|]. right.
    exists b, c0. split_and!; try done. intros n Hroom. by apply Hroom.
Qed.

Lemma prepare_write rd f s v :
  stream_rep rd true f s v -> offset v < 2 ^ 61 ->
  exists g s1 g1, start_writing f s = Some (g, s1) /\
    allocate_buffer (with_op g OP_WRITE) s1 = Some ((true, g1), s1) /\
    let f1 := if (start g1 =? fin g1) && (has (buf_mode g1) _IOBUFFER_ALLOCATED || has (buf_mode g1) _IOBUFFER_EXTERNAL)
              then with_window g1 (pos g1) (u64 (pos g1 + buf_size g1)) (pos g1) else g1 in
    buffered rd true f1 /\ (exists b c0, write_ready f f1 s1 v b c0) /\
    (forall n, roomy f n -> fin f1 - start f1 = buf_size f1 \/ n <= fin f1 - pos f1).
Proof.
  intros Hrep Ho61. pose proof Hrep as [Hbu Hoff _ _].
  destruct (start_writing_file rd f s v Hrep) as (g & s1 & Hsw & G1 & G2 & G3 & G4 & G5 & G6 & G7 & Hcase).
  assert (unallocated g = unallocated f) as Hun by (unfold unallocated; by rewrite G1).
  destruct (allocate_ok rd true (with_op g OP_WRITE) s1) as (b & m & Ha & Hb1 & Hu & Hbb & Hl & Hm).
  { apply (buffered_same rd true f); try done. unfold unallocated. cbn. rewrite G1, G2, G3. apply Hbu. }
  exists g, s1. eexists. split; [done|]. split; [exact Ha|]. cbv zeta.
  set (g1 := with_mode (with_buffer (with_op g OP_WRITE) (Some b)) m) in *.
  change (buf_mode g1) with m. rewrite Hm, andb_true_r. change (start g1) with (start g). change (fin g1) with (fin g).
  change (pos g1) with (pos g). change (buf_size g1) with (buf_size g). change (buf_size (with_op g OP_WRITE)) with (buf_size g) in Hl.
  pose proof (bu_size _ _ _ Hb1) as Hz. change (buf_size g1) with (buf_size g) in Hz.
  rewrite u64_small by lia. destruct (start g =? fin g) eqn:E; [apply Z.eqb_eq in E|apply Z.eqb_neq in E].
  - assert (start g = pos g) as Es.
    { destruct Hcase as [[? _]|(b' & c0 & _ & _ & (_ & _ & ? & ? & _) & _)]; lia. }
    split; [apply (buffered_same rd true g1); try done; apply Hb1|]. split; [|intros; left; cbn; lia].
    exists b, (content v). split; try done.
    + split; [done|]. cbn. lia.
    + unfold pending. cbn. by rewrite segment_0 by lia.
    + cbn. destruct Hcase as [(_ & _ & Hf1)|(b' & c0 & _ & _ & _ & Hc & Hf1 & _)]; [done|].
      rewrite Hc. unfold pending. rewrite segment_0 by lia. cbn. by rewrite <- Es.
  - destruct Hcase as [[? [? _]]|(b' & c0 & Eb & Hu' & Hw & Hc & Hf1 & Hr)]; [lia|].
    assert (b' = b) as -> by (specialize (Hbb Hu'); cbn in Hbb; congruence).
    split; [done|]. split; [|intros n Hn; specialize (Hr n Hn); cbn; lia]. exists b, c0. split; try done.
    destruct Hw as (_ & Hw). by split.
Qed.

Lemma write_more_file rd f f1 s1 v b c0 data size :
  buffered rd true f1 -> write_ready f f1 s1 v b c0 -> fin f1 - start f1 = buf_size f1 ->
  fin f1 - pos f1 < zlen data < 2 ^ 31 -> offset v = pos f -> offset v < 2 ^ 61 ->
  error f = (if eof v then _IOEOF else 0) ->
  exists f2 s2, write_more f1 data size (zlen data) s1 = Some ((zlen data / size, f2), s2) /\
    stream_rep rd true f2 s2 (view_write v data) /\ full f2 /\ prev_op f2 = OP_WRITE /\ fd f2 = fd f.
Proof.
  intros Hbu Hwy Hfull Hd Hoff Ho61 Herr. pose proof (bu_size _ _ _ Hbu) as Hz.
  destruct (write_first_file f f1 s1 v b c0 data Hwy Hfull Hz) as (w & b1 & s2 & Hfirst & Hl1 & Hw & Hf2); [lia|].
  destruct Hwy as [Efd Epos Eerr Eop Eal (Hb & Hl & Hs & Hfi & Hwd) Hc Hfile].
  unfold write_more. rewrite (M_bind_Some _ _ _ _ _ Hfirst). clear Hfirst.
  set (g := with_buffer f1 (Some b1)). assert (file g s2 (over (content v) (pos f) (segment data 0 w)) (pos f + w)) as Hfg
    by (unfold g; cbn; by rewrite Efd).
  destruct (write_blocks_file (S (Z.to_nat (zlen data))) g s2 _ (pos f + w) data w 1 Hfg)
    as (n & r & s3 & Hbl & Hn & Hr & Hwn & Hf3); [lia|done|lia..|].
  rewrite (M_bind_Some _ _ _ _ _ Hbl). clear Hbl. cbv beta iota.
  rewrite (Z.gtb_ltb r), (proj2 (Z.ltb_lt 0 r)) by lia. cbv iota. change (pos g) with (pos f1). rewrite Epos.
  change (buf_size g) with (buf_size f1) in *. cbn [pos empty_window with_window buffer buf_size g with_buffer].
  rewrite (u64_small (pos f + (w + n))) by lia. set (p2 := pos f + (w + n)). rewrite u64_small by lia.
  set (rem := zlen data - (w + n)) in *. rewrite load_range_ok by lia. cbn [lift].
  set (bytes := segment data (w + n) rem). assert (zlen bytes = rem) as Hrem by (unfold bytes; rewrite zlen_segment; lia).
  run. cbn [lift]. rewrite store_range_ok by lia. cbn [lift]. rewrite (u64_small (p2 + buf_size f1)), (u64_small (p2 + rem)) by lia.
  set (b2 := write_at b1 0 bytes). assert (zlen b2 = buf_size f1) as Hl2 by (unfold b2; rewrite zlen_write_at; lia).
  assert (segment b2 0 rem = bytes) as Eb2.
  { unfold b2. rewrite <- Hrem. pose proof (segment_write_at b1 0 bytes) as E. rewrite Z.add_0_l in E.
    rewrite E, segment_0 by lia. done. }
  unfold write_result. replace (w + n + rem) with (zlen data) by lia. rewrite u64_small by lia.
  rewrite (proj2 (Z.eqb_neq (zlen data) (-1))) by lia. eexists _, s3. split; [reflexivity|].
  split; [|split; [intros _; right; cbn; lia|by split]].
  split; cbn; [apply (buffered_same rd true f1); try done; by exists b2|lia|by rewrite Eerr|].
  apply (holds_write _ _ _ _ b2 (over (content v) (pos f) (segment data 0 (w + n)))); try done.
  - split; [done|]. cbn. lia.
  - unfold pending. cbn. replace (p2 + rem - p2) with rem by lia. rewrite Eb2. unfold bytes.
    replace p2 with (pos f + zlen (segment data 0 (w + n))) by (rewrite zlen_segment; lia).
    rewrite over_app by lia. change (w + n) with (0 + (w + n)) at 2. rewrite <- segment_app by lia.
    replace (w + n + rem) with (zlen data) by lia. rewrite segment_whole, Hoff.
    symmetry. apply over_splice. intros ->. cbn in *. lia.
  - cbn. rewrite Efd. unfold g in Hf3. cbn in Hf3. rewrite Efd in Hf3.
    replace (pos f + w) with (pos f + zlen (segment data 0 w)) in Hf3 by (rewrite zlen_segment; lia).
    rewrite over_app in Hf3 by lia. change (segment data w n) with (segment data (0 + w) n) in Hf3.
    rewrite <- segment_app in Hf3 by lia.
    rewrite zlen_segment in Hf3 by lia. unfold p2.
    by replace (pos f + Z.max 0 (Z.min w (zlen data - 0)) + n) with (pos f + (w + n)) in Hf3 by lia.
Qed.

Lemma fwrite_refines rd wr f s v data size count :
  stream_rep rd wr f s v -> wr = true -> 0 < size -> 0 < count -> zlen data = size * count -> size * count < 2 ^ 31 ->
  offset v < 2 ^ 61 -> roomy f (zlen data) ->
  exists f' s', common_fwrite data size count f s = Some ((count, f'), s') /\
    stream_rep rd wr f' s' (view_write v data) /\ (full f -> full f') /\ prev_op f' = OP_WRITE /\ fd f' = fd f.
Proof.
  intros Hrep -> Hsize Hcount Hlen Hsc Ho61 Hroom.
  pose proof Hrep as [Hbu Hoff Herr _]. unfold common_fwrite.
  assert ((error f =? _IOERROR) = false) as -> by (rewrite Herr; by destruct (eof v)).
  rewrite (bu_write _ _ _ Hbu), (bu_mode _ _ _ Hbu). cbn [negb].
  destruct (prepare_write rd f s v Hrep Ho61) as (g & s1 & g1 & Hsw & Ha & Hrest).
  rewrite (M_bind_Some _ _ _ _ _ Hsw). cbv zeta. rewrite (M_bind_Some _ _ _ _ _ Ha). cbv beta iota. cbn [negb].
  set (f1 := if _ : bool then with_window g1 _ _ _ else g1) in *. clearbody f1.
  destruct Hrest as (Hbu1 & (b & c0 & Hwy) & Hfull). rewrite <- Hlen, u64_small by lia.
  pose proof Hwy as [Efd Epos Eerr Eop Eal (Hb & Hl & Hs & Hfi & Hwd) Hc Hfile].
  rewrite u64_small by lia. pose proof (Hfull _ Hroom) as Hfull0.
  destruct (zlen data <=? fin f1 - pos f1) eqn:E; [apply Z.leb_le in E|apply Z.leb_gt in E].
  - rewrite load_range_ok, segment_whole by lia. run. cbn [lift]. rewrite Hb, u64_small, store_range_ok, u64_small by lia.
    cbn [lift]. eexists _, s1. split; [reflexivity|].
    set (b1 := write_at b (pos f1 - start f1) data). assert (zlen b1 = buf_size f1) as Hl1 by (unfold b1; rewrite zlen_write_at; lia).
    split; [|split; [intros Hf _; right; cbn; destruct (Hfull (2 ^ 63) (full_roomy f _ Hf)); lia|by split]].
    split; cbn; [apply (buffered_same rd true f1); try done; by exists b1|lia|by rewrite Eerr|].
    apply (holds_write _ _ _ _ b1 c0); try done; [split; [done|]; cbn; lia| |by rewrite <- Efd in Hfile].
    unfold pending. cbn. replace (pos f1 + zlen data - start f1) with (pos f1 - start f1 + zlen data) by lia.
    unfold b1. rewrite segment_write_at, <- over_app by lia. rewrite zlen_segment by lia.
    replace (start f1 + _) with (pos f1) by lia. fold (pending f1 b c0). rewrite <- Hc, Epos, Hoff.
    symmetry. apply over_splice. intros ->. cbn in *. nia.
  - destruct (write_more_file rd f f1 s1 v b c0 data size) as (f2 & s2 & Hwm & Hrep2 & Hf2 & Hop2 & Hfd2); try done; [lia..|].
    rewrite Hlen, (Z.mul_comm size count), Z.div_mul in Hwm by lia. rewrite <- (Z.mul_comm size count), <- Hlen in Hwm.
    by exists f2, s2.
Qed.

(** ** Flushing and positioning *)

(** A stream is flushed to the file it stands for, which is then the file on
    the disk. *)
Lemma fflush_refines rd wr f s v :
  stream_rep rd wr f s v ->
  exists f' s' p, common_fflush f s = Some ((0, f'), s') /\ stream_rep rd wr f' s' v /\
    file f s' (content v) p /\ fd f' = fd f /\ prev_op f' = prev_op f /\ (prev_op f <> OP_READ -> p = pos f) /\
    (prev_op f <> OP_WRITE -> f' = f).
Proof.
  intros [Hbu Hoff Herr Hh]. destruct Hh as [Hop Hs Hf Hp Hfile|b Hop Hw Hcl Hal Hfile|b c0 Hop Hwr Hw Hal Hc Hfile].
  - exists f, s, (pos f). rewrite flush_idle by done. split; [done|]. split; [|done]. split; try done. by apply holds_idle.
  - exists f, s, (fin f). split; [|split; [|done]].
    + unfold common_fflush. rewrite Hop. change (OP_READ =? OP_READ) with true. by repeat case_match.
    + split; try done. by apply (holds_read _ _ _ _ b).
  - subst wr. destruct (flush_write rd f s b c0 Hbu Hop Hw Hfile) as (s1 & Hfl & Hf1). rewrite <- Hc in Hf1.
    exists (with_window f (pos f) (fin f) (pos f)), s1, (pos f). split; [done|]. split; [|split_and!; done].
    destruct Hw as (Hb & Hl & Hst & Hfi & Hd).
    split; try done; [apply (buffered_same rd true f); try done; by exists b|].
    apply (holds_write _ _ _ _ b (content v)); try done; [split; [done|]; cbn; lia|].
    unfold pending. cbn. by rewrite segment_0 by lia.
Qed.

Lemma fseek_refines rd wr f s v o whence :
  stream_rep rd wr f s v -> 0 <= whence <= 2 -> (whence = SEEK_CUR -> prev_op f <> OP_READ) ->
  0 <= seek_target (content v) (offset v) o whence < 2 ^ 62 ->
  exists f' s', common_fseek f o whence s = Some ((0, f'), s') /\
    stream_rep rd wr f' s' (view_seek v o whence) /\ full f' /\ prev_op f' = prev_op f /\ fd f' = fd f.
Proof.
  intros Hrep Hwh Hcur Ht. pose proof Hrep as [_ Hoff Herr _]. unfold common_fseek, view_seek.
  set (t := seek_target (content v) (offset v) o whence) in *.
  assert (exists g s1 p, (if prev_op f =? OP_WRITE then '(_, f0) ← common_fflush f; mret f0 else mret f) s = Some (g, s1) /\
    stream_rep rd wr g s1 v /\ prev_op g = prev_op f /\ fd g = fd f /\ file g s1 (content v) p /\
    (prev_op f <> OP_READ -> p = offset v)) as (g & s1 & p & Hpre & Hg & Hop & Hgfd & Hf & Hp).
  { destruct (prev_op f =? OP_WRITE) eqn:E.
    - destruct (fflush_refines rd wr f s v Hrep) as (g & s1 & p & Hfl & Hg & Hf & Hfd & Hop & Hp & _).
      assert (p = pos f) as Hp' by (apply Hp; apply Z.eqb_eq in E; by rewrite E).
      exists g, s1, p. rewrite (M_bind_Some _ _ _ _ _ Hfl), Hfd. split_and!; try done. intros _. congruence.
    - exists f, s. pose proof Hrep as [_ _ _ [Hop Hs Hfi _ Hfile|b Hop Hw Hcl _ Hfile|b c0 Hop _ _ _ _ _]].
      + exists (pos f). split_and!; done.
      + exists (fin f). split_and!; try done.
      + by rewrite Hop in E. }
  clear Hrep. rewrite (M_bind_Some _ _ _ _ _ Hpre). cbv zeta. rewrite Hop. assert ((whence =? SEEK_CUR) && (prev_op f =? OP_READ) = false) as ->.
  { destruct (whence =? SEEK_CUR) eqn:E; [|done]. apply Z.eqb_eq, Hcur in E. by apply Z.eqb_neq. }
  cbn [andb]. assert (seek_target (content v) p o whence = t) as Et.
  { unfold t, seek_target. destruct (whence =? SEEK_SET); [done|]. destruct (whence =? SEEK_CUR) eqn:E; [|done].
    rewrite Hp; [done|]. by apply Hcur, Z.eqb_eq. }
  destruct (lseek_file h file_of (fd g) false s1 (content v) p o whence Hf Hwh) as (k & Hr & Hf2); [rewrite Et; lia|].
  rewrite Et in Hr, Hf2. rewrite (M_bind_Some _ _ _ _ _ Hr). rewrite (proj2 (Z.eqb_neq t (-1))) by lia. cbn [negb].
  eexists _, _. split; [reflexivity|]. split; [|split; [intros _; by left|by split]]. destruct Hg as [Hbu Hgo Hge Hh]. split; cbn.
  - apply (buffered_same rd wr g); try done. apply Hbu.
  - done.
  - rewrite Hge. by destruct (eof v), ((whence =? SEEK_SET) && (o =? 0)).
  - destruct Hh as [Hop' Hs Hfi Hpp Hfile|b Hop' Hw Hcl Hal Hfile|b c0 Hop' Hwr Hw Hal Hc Hfile].
    + apply holds_idle; try done.
    + destruct Hw as (Hb & Hl & _). apply (holds_read _ _ _ _ b); try done.
      * split; [done|]. cbn. pose proof (bu_size _ _ _ Hbu). lia.
      * split; cbn; [|by right]. by rewrite !segment_0 by lia.
    + apply holds_idle; cbn; [by rewrite Hop'|done..].
Qed.

End Refine.
