(* ===== verification/StreamChars.v ===== *)
(** * Characters and lines of a stream

    [fgetc], [fputc], [ungetc] and [fgets] in terms of the file a stream stands
    for. The quick paths of [fgetc] and [fputc] agree with [fread] and [fwrite]
    of one byte. *)

From S2P Require Import Prelude Errno Buffer FdTable FdTableFacts FileIo Stream StreamFacts.

Section Chars.
Context {K : Type} {KN : Kernel K} {FK : FileKernel K} {A : Allocator} {H : Heap}.
Context (h : Z) (file_of : K -> list Z * Z) {RF : RegularFile h file_of}.
Context (alloc_ok : forall n, malloc_ok n = true).
Implicit Types s : state K.

Abbreviation rep := (stream_rep h file_of).

(** ** One character *)

(** What [fgetc] returns for the bytes read. *)
Definition char_of (bs : list Z) : Z := match bs with c :: _ => swrap 8 c | [] => EOF end.

Definition small (v : view_of) : Prop := zlen (content v) < 2 ^ 61 /\ offset v < 2 ^ 61.

Lemma segment_one c p : 0 <= p < zlen c -> exists x, segment c p 1 = [x] /\ c !! Z.to_nat p = Some x.
Proof.
  intros Hp. destruct (lookup_lt_is_Some_2 c (Z.to_nat p)) as [x Hx]; [lia|]. exists x. split; [|done].
  unfold segment. by rewrite (drop_S _ x) by done.
Qed.

Lemma fgetc_refines wr f s v :
  rep true wr f s v -> eof v = false -> small v ->
  let '(bs, v') := view_read v 1 in
  exists f' s', common_fgetc f s = Some ((char_of bs, f'), s') /\ rep true wr f' s' v' /\
    fd f' = fd f /\ prev_op f' = OP_READ /\ (eof v' = false -> start f' < pos f').
Proof.
  intros Hrep Hv [Hc Ho]. pose proof Hrep as [Hbu Hoff Herr Hh]. unfold common_fgetc.
  rewrite (bu_mode _ _ _ Hbu). cbn [negb andb].
  destruct ((prev_op f =? OP_READ) && (negb (start f =? fin f) && negb (pos f =? fin f))) eqn:E.
  - apply andb_true_iff in E as [E1 [E2 E3]%andb_true_iff].
    apply Z.eqb_eq in E1. apply negb_true_iff, Z.eqb_neq in E2, E3.
    destruct Hh as [Hop|b Hop Hw Hcl Hal Hfile|b c0 Hop]; [done| |by rewrite E1 in Hop].
    pose proof Hw as (Hb & Hl & Hs & Hf & Hd). pose proof Hcl as [_ [Hlen|?]]; [|lia].
    rewrite (load_window f b (content v)) by (done || lia). unfold view_read. rewrite Hv, <- Hoff.
    destruct (segment_one (content v) (pos f)) as (x & -> & _); [lia|]. change (zlen [x]) with 1.
    rewrite (u64_small (pos f + 1)) by lia. eexists _, s. split; [run; reflexivity|].
    split; [|cbn; split_and!; (done || lia)].
    split; cbn; [by apply (buffered_same true wr f); try done; apply Hbu|done|by rewrite Herr, Hv|].
    apply (holds_read _ _ _ _ _ _ b); try done. split; [done|]. cbn. lia.
  - pose proof (fread_refines h file_of alloc_ok true wr f s v 1 1 Hrep) as Hfr. change (1 * 1) with 1 in Hfr.
    unfold view_read in *. rewrite Hv in *. set (bs := segment (content v) (offset v) 1) in *.
    destruct Hfr as (f' & s' & Hrun & Hrep' & Hfd & Hback & Hop); [lia..|].
    exists f', s'. rewrite (M_bind_Some _ _ _ _ _ Hrun). cbv beta iota. rewrite (rep_error _ _ _ _ _ _ _ Hrep'). cbn [eof].
    split; [|done]. assert (0 <= offset v) as Ho0 by (rewrite <- Hoff; destruct Hh as [| ? ? (? & ? & ? & ?)|? ? ? ? (? & ? & ? & ?)]; lia).
    pose proof (zlen_segment (content v) (offset v) 1 Ho0 ltac:(lia)) as Hbs. fold bs in Hbs.
    clearbody bs. clear Hrun Hrep'. destruct bs as [|x bs']; [reflexivity|]. cbn [length] in *. rewrite (proj2 (Z.ltb_ge (Z.of_nat (S (length bs'))) 1)) by lia. done.
Qed.

(** [fputc] is [fwrite] of one byte. *)
Lemma fputc_fwrite rd c f s v :
  rep rd true f s v ->
  common_fputc c f s = ('(res, f) ← common_fwrite [u8 c] 1 1 f; mret (if negb (res =? 1) then EOF else c, f)) s.
Proof.
  intros [Hbu Hoff Herr Hh]. unfold common_fputc. rewrite (bu_mode _ _ _ Hbu). cbn [negb andb].
  destruct ((prev_op f =? OP_WRITE) && (negb (start f =? fin f) && negb (pos f =? fin f))) eqn:E; [|done].
  apply andb_true_iff in E as [E1 [E2 E3]%andb_true_iff].
  apply Z.eqb_eq in E1. apply negb_true_iff in E2. apply negb_true_iff, Z.eqb_neq in E3. pose proof E2 as E2'. apply Z.eqb_neq in E2'.
  destruct Hh as [? ? ?|b Hop|b c0 Hop _ Hw Hal _ _]; [lia|by rewrite E1 in Hop|].
  pose proof Hw as (Hb & Hl & Hs & Hf & Hd). unfold common_fwrite.
  assert ((error f =? _IOERROR) = false) as -> by (rewrite Herr; by destruct (eof v)).
  rewrite (bu_write _ _ _ Hbu), (bu_mode _ _ _ Hbu). cbn [negb]. unfold start_writing.
  assert (with_op f OP_WRITE = f) as Ef by (destruct f; cbn in *; by subst).
  rewrite E1. change (OP_WRITE =? OP_WRITE) with true. cbn [negb]. run. rewrite Ef. unfold allocate_buffer. fold (unallocated f).
  rewrite Hal. run. rewrite E2. cbn [andb]. change (u64 (1 * 1)) with 1. rewrite (u64_small (fin f - pos f)) by lia.
  rewrite (proj2 (Z.leb_le _ _)) by lia. rewrite Hb, (u64_small (pos f - start f)) by lia.
  rewrite store_range_ok by (cbn [length]; lia). cbn [lift]. rewrite load_range_ok by (cbn [length]; lia). cbn [lift].
  change (segment [u8 c] 0 1) with [u8 c]. rewrite store_range_ok by (cbn [length]; lia). done.
Qed.

Lemma fputc_refines rd c f s v :
  rep rd true f s v -> offset v < 2 ^ 61 -> roomy f 1 ->
  exists f' s', common_fputc c f s = Some ((c, f'), s') /\ rep rd true f' s' (view_write v [u8 c]) /\
    (full f -> full f') /\ prev_op f' = OP_WRITE /\ fd f' = fd f.
Proof.
  intros Hrep Ho Hroom. rewrite (fputc_fwrite rd c f s v Hrep).
  destruct (fwrite_refines h file_of alloc_ok rd true f s v [u8 c] 1 1 Hrep) as (f' & s' & Hrun & Hrest);
    [done|lia|lia|done|lia|done|done|].
  exists f', s'. by rewrite (M_bind_Some _ _ _ _ _ Hrun).
Qed.

(** ** Pushing back *)

Lemma write_at_same (b : list Z) k x : b !! k = Some x -> write_at b (Z.of_nat k) [x] = b.
Proof.
  intros Hx. unfold write_at. rewrite Nat2Z.id. cbn [length app].
  rewrite <- (take_drop_middle b k x Hx) at 3. do 2 f_equal. f_equal. lia.
Qed.

(** The byte just read is put back: the stream is where it was. *)
Lemma ungetc_refines wr f s c p x :
  rep true wr f s (View c p false) -> prev_op f = OP_READ -> start f < pos f -> c !! Z.to_nat (p - 1) = Some x -> is_u8 x ->
  exists f', common_ungetc (swrap 8 x) f s = Some ((swrap 8 x, f'), s) /\ rep true wr f' s (View c (p - 1) false) /\
    fd f' = fd f.
Proof.
  intros [Hbu Hoff Herr Hh] Hop Hback Hx Hu. unfold common_ungetc. rewrite Hop. change (OP_READ =? OP_READ) with true.
  cbn [negb]. rewrite Z.gtb_ltb, (proj2 (Z.ltb_lt _ _)) by done.
  destruct Hh as [?|b _ Hw Hcl Hal Hfile|b c0 Hop']; [done| |by rewrite Hop in Hop']. cbn [content offset eof] in *.
  pose proof Hw as (Hb & Hl & Hs & Hf & Hd). destruct Hcl as [Hc Hcf].
  change (pos (with_pos f (pos f - 1))) with (pos f - 1). change (start (with_pos f (pos f - 1))) with (start f).
  change (buffer (with_pos f (pos f - 1))) with (buffer f). rewrite Hb, (u64_small (pos f - 1 - start f)) by lia.
  rewrite store_range_ok by (cbn [length]; lia). assert (u8 (swrap 8 x) = x) as -> by (by rewrite wrap_swrap, wrap_small).
  assert (b !! Z.to_nat (pos f - 1 - start f) = Some x) as Hbx.
  { pose proof (f_equal (fun l => l !! Z.to_nat (pos f - 1 - start f)) Hc) as E. unfold segment in E.
    rewrite !lookup_take_lt, !lookup_drop in E by lia. rewrite Nat.add_0_l in E. rewrite E, <- Hx. f_equal. lia. }
  replace (pos f - 1 - start f) with (Z.of_nat (Z.to_nat (pos f - 1 - start f))) by lia. rewrite write_at_same by done.
  eexists. split; [run; reflexivity|]. split; [|done].
  split; cbn; [|lia|by rewrite Herr|].
  - apply (buffered_same true wr f); try done. by exists b.
  - apply (holds_read _ _ _ _ _ _ b); try done. split; [done|]. cbn. lia.
Qed.

(** ** Lines *)

(** Up to the first newline, which is included. *)
Fixpoint first_line (l : list Z) : list Z :=
  match l with [] => [] | x :: l => if x =? 10 then [x] else x :: first_line l end.

(** [fgets] of a buffer of [n] bytes. *)
Definition view_line (v : view_of) (n : Z) : list Z * view_of :=
  let line := first_line (segment (content v) (offset v) (n - 1)) in
  (line, View (content v) (offset v + zlen line) ((zlen line <? n - 1) && negb (bool_decide (10 ∈ line)))).

(** [fgets] compares a [char] with [EOF]: byte 255 ends a line. *)
Definition plain (l : list Z) : Prop := Forall (fun x => is_u8 x /\ x <> 255) l.

Lemma plain_char x : is_u8 x -> x <> 255 ->
  swrap 8 (swrap 8 x) = swrap 8 x /\ u8 (swrap 8 x) = x /\ swrap 8 x <> EOF /\ (swrap 8 x =? 10) = (x =? 10).
Proof.
  intros Hx Hn. assert (u8 (swrap 8 x) = x) as Hu by (by rewrite wrap_swrap, wrap_small).
  split; [apply swrap_congr; by rewrite wrap_swrap|]. split; [done|]. split.
  - intros E. rewrite E in Hu. by subst.
  - destruct (Z.eqb_spec x 10) as [->|Hd]; [done|]. apply Z.eqb_neq. intros E. rewrite E in Hu. by subst.
Qed.

Lemma segment_cons c p m x :
  0 <= p -> 0 < m -> segment c p 1 = [x] -> segment c p m = x :: segment c (p + 1) (m - 1).
Proof. intros Hp Hm E. replace m with (1 + (m - 1)) at 1 by lia. rewrite segment_app, E by lia. done. Qed.

Lemma fgets_loop_file wr fuel n c acc f s v :
  rep true wr f s v -> eof v = false -> zlen (content v) < 2 ^ 61 -> 0 <= offset v -> offset v + (n - zlen acc) < 2 ^ 61 ->
  plain (content v) -> c <> 10 -> zlen acc + 1 <= n -> (Z.to_nat (n - 1 - zlen acc) < fuel)%nat ->
  let '(line, v') := view_line v (n - zlen acc) in
  exists f' s', fgets_loop fuel f n c acc s = Some ((acc ++ line, f'), s') /\ rep true wr f' s' v' /\ fd f' = fd f /\
    (0 < n - zlen acc - 1 -> prev_op f' = OP_READ).
Proof.
  revert c acc f s v. induction fuel as [|fuel IH]; intros c acc f s v Hrep Hv Hc Hp Ho Hpl Hnl Hn Hfuel; [lia|].
  cbn [fgets_loop]. rewrite (proj2 (Z.eqb_neq c 10)) by done. cbn [negb andb]. unfold view_line.
  set (m := n - zlen acc - 1) in *. destruct (zlen acc + 1 <? n) eqn:Em; [apply Z.ltb_lt in Em|apply Z.ltb_ge in Em].
  2: { rewrite segment_0 by lia. cbn [first_line length]. exists f, s. rewrite app_nil_r. split; [done|].
       split; [|split; [done|lia]]. rewrite (proj2 (Z.ltb_ge _ _)) by lia. cbn [andb]. rewrite Z.add_0_r. by destruct v; cbn in *; subst. }
  pose proof (fgetc_refines wr f s v Hrep Hv) as Hg. unfold view_read in Hg. rewrite Hv in Hg.
  destruct (decide (offset v < zlen (content v))) as [Hlt|Hge].
  - destruct (segment_one (content v) (offset v)) as (x & Ex & Hx); [lia|]. rewrite Ex in Hg. change (zlen [x]) with 1 in Hg.
    destruct Hg as (f1 & s1 & Hrun & Hrep1 & Hfd1 & Hop1 & _); [split; lia|]. change (1 <? 1) with false in Hrep1.
    rewrite (M_bind_Some _ _ _ _ _ Hrun). cbn [char_of].
    pose proof Hpl as Hpl'. unfold plain in Hpl'. rewrite Forall_lookup in Hpl'. destruct (Hpl' _ _ Hx) as [Hu H255].
    destruct (plain_char x Hu H255) as (E1 & E2 & E3 & E4). rewrite E1, (proj2 (Z.eqb_neq _ _) E3), E2.
    rewrite (segment_cons (content v) (offset v) m x) by (done || lia). cbn [first_line].
    destruct (x =? 10) eqn:E10.
    + apply Z.eqb_eq in E10. subst x. destruct fuel as [|fuel']; [lia|]. cbn [fgets_loop]. rewrite E4. cbn [negb andb].
      exists f1, s1. split; [done|]. split; [|done]. rewrite (bool_decide_eq_true_2 (10 ∈ [10])) by by constructor. by rewrite andb_false_r.
    + specialize (IH (swrap 8 x) (acc ++ [x]) f1 s1 _ Hrep1). unfold view_line in IH. cbn [content offset eof] in IH.
      replace (zlen (acc ++ [x])) with (zlen acc + 1) in IH by (rewrite length_app; cbn [length]; lia).
      replace (n - (zlen acc + 1) - 1) with (m - 1) in IH by (clear IH; unfold m; lia). set (line := first_line (segment (content v) (offset v + 1) (m - 1))) in *.
      destruct IH as (f2 & s2 & Hl & Hrep2 & Hfd2 & Hop2); [done|lia|lia|lia|done|by apply Z.eqb_neq; rewrite E4|lia|lia|].
      exists f2, s2. rewrite Hl, <- app_assoc. split; [done|]. cbn [length].
      replace (offset v + Z.of_nat (S (length line))) with (offset v + 1 + zlen line) by lia.
      replace (Z.of_nat (S (length line)) <? m) with (zlen line <? m - 1) by (apply eq_true_iff_eq; rewrite !Z.ltb_lt; lia).
      assert (bool_decide (10 ∈ x :: line) = bool_decide (10 ∈ line)) as ->.
      { apply bool_decide_ext. rewrite elem_of_cons. apply Z.eqb_neq in E10. split; [intros [|]; [lia|done]|auto]. }
      split; [done|]. split; [congruence|]. intros _. destruct (decide (0 < m - 1)); [by apply Hop2|].
      assert (m = 1) as Em1 by lia. destruct fuel as [|fuel']; [lia|]. cbn [fgets_loop] in Hl.
      replace (zlen (acc ++ [x]) + 1 <? n) with false in Hl by (symmetry; apply Z.ltb_ge; rewrite length_app; cbn [length]; lia).
      rewrite andb_false_r in Hl. injection Hl as _ <- _. done.
  - assert (segment (content v) (offset v) 1 = []) as Es
      by (apply length_zero_iff_nil; pose proof (zlen_segment (content v) (offset v) 1); lia).
    rewrite Es in Hg. destruct Hg as (f1 & s1 & Hrun & Hrep1 & Hfd1 & Hop1 & _); [split; lia|].
    rewrite (M_bind_Some _ _ _ _ _ Hrun). exists f1, s1. change (swrap 8 (char_of []) =? EOF) with true.
    rewrite (segment_short (content v) (offset v) 1 m), Es by lia. cbn [first_line length]. rewrite app_nil_r.
    split; [done|]. split; [|done]. rewrite (proj2 (Z.ltb_lt _ _)) by lia. done.
Qed.

Lemma fgets_refines wr n f s v :
  rep true wr f s v -> eof v = false -> zlen (content v) < 2 ^ 61 -> 0 <= offset v -> offset v + n < 2 ^ 61 -> plain (content v) -> 1 < n ->
  let '(line, v') := view_line v n in
  exists f' s', common_fgets n f s = Some ((line ++ [0], f'), s') /\ rep true wr f' s' v' /\ fd f' = fd f /\ prev_op f' = OP_READ.
Proof.
  intros Hrep Hv Hc Hp Ho Hpl Hn. pose proof (fgets_loop_file wr (S (Z.to_nat n)) n 0 [] f s v Hrep Hv Hc Hp) as Hl.
  change (zlen []) with 0 in Hl. rewrite Z.sub_0_r in Hl. destruct (view_line v n) as [line v'].
  destruct Hl as (f' & s' & Hrun & Hrep' & Hfd & Hop); [done|done|done|lia|lia|]. exists f', s'. unfold common_fgets.
  rewrite (M_bind_Some _ _ _ _ _ Hrun). split; [done|]. split; [done|]. split; [done|]. apply Hop. lia.
Qed.

End Chars.
