(* ===== verification/StreamSpec.v ===== *)
(** * What streams guarantee

    A program that reads, writes, seeks and flushes a stream sees the file as
    a sequence of bytes with a position; where the code departs from this, the
    departure is stated. *)

From S2P Require Import Prelude Errno Buffer FdTable FdTableFacts FileIo Stream StreamFacts StreamChars.

(** ** Programs on a stream *)

Inductive op :=
  | Fread (size count : Z)
  | Fwrite (data : list Z) (size count : Z)
  | Fgetc
  | Fgets (n : Z)
  | Fputc (c : Z)
  | Fseek (o whence : Z)
  | Ftell
  | Fflush.

(** The value an operation returns and the bytes it stores at its buffer. *)
Definition run_op {K} `{Kernel K} `{FileKernel K} `{Allocator} `{Heap} (o : op) (f : FILE)
    : M K (Z * list Z * FILE) :=
  match o with
  | Fread size count => common_fread size count f
  | Fwrite data size count => '(r, f) ← common_fwrite data size count f; mret (r, [], f)
  | Fgetc => '(r, f) ← common_fgetc f; mret (r, [], f)
  | Fgets n => '(bs, f) ← common_fgets n f; mret (0, bs, f)
  | Fputc c => '(r, f) ← common_fputc c f; mret (r, [], f)
  | Fseek o whence => '(r, f) ← common_fseek f o whence; mret (r, [], f)
  | Ftell => mret (pos f, [], f)
  | Fflush => '(r, f) ← common_fflush f; mret (r, [], f)
  end.

Fixpoint run_ops {K} `{Kernel K} `{FileKernel K} `{Allocator} `{Heap} (os : list op) (f : FILE)
    : M K (list (Z * list Z) * FILE) :=
  match os with
  | [] => mret ([], f)
  | o :: os => '(r, bs, f) ← run_op o f; '(rs, f) ← run_ops os f; mret ((r, bs) :: rs, f)
  end.

(** The same on a file. *)
Definition view_op (o : op) (v : view_of) : Z * list Z * view_of :=
  match o with
  | Fread size count => let '(bs, v) := view_read v (size * count) in (zlen bs / size, bs, v)
  | Fwrite data size count => (count, [], view_write v data)
  | Fgetc => let '(bs, v) := view_read v 1 in (char_of bs, [], v)
  | Fgets n => let '(line, v) := view_line v n in (0, line ++ [0], v)
  | Fputc c => (c, [], view_write v [u8 c])
  | Fseek o whence => (0, [], view_seek v o whence)
  | Ftell => (offset v, [], v)
  | Fflush => (0, [], v)
  end.

Fixpoint view_ops (os : list op) (v : view_of) : list (Z * list Z) * view_of :=
  match os with
  | [] => ([], v)
  | o :: os => let '(r, bs, v) := view_op o v in let '(rs, v) := view_ops os v in ((r, bs) :: rs, v)
  end.

(** ** The programs the code is right for *)

(** What the stream was last used for; [Flushed] is a flush after a write. *)
Inductive phase := Fresh | Reading | Writing | Flushed.

Definition next_phase (o : op) (v : view_of) (ph : phase) : phase :=
  match o with
  | Fread _ _ => if eof v then ph else Reading
  | Fgetc | Fgets _ => Reading
  | Fwrite _ _ _ | Fputc _ => Writing
  | Fseek _ _ => match ph with Flushed => Writing | _ => ph end
  | Ftell => ph
  | Fflush => match ph with Writing => Flushed | _ => ph end
  end.

(** No write directly after a flush, no relative seek while reading; sizes and
    positions in range. *)
Definition op_ok (rd wr : bool) (o : op) (v : view_of) (ph : phase) : Prop :=
  match o with
  | Fread size count =>
      rd = true /\ 0 < size /\ 0 < count /\ size * count < 2 ^ 31 /\ zlen (content v) < 2 ^ 61 /\ offset v < 2 ^ 61
  | Fwrite data size count =>
      wr = true /\ 0 < size /\ 0 < count /\ zlen data = size * count /\ size * count < 2 ^ 31 /\ offset v < 2 ^ 61 /\
      ph <> Flushed
  | Fgetc => rd = true /\ eof v = false /\ small v
  | Fgets n =>
      rd = true /\ eof v = false /\ 1 < n /\ zlen (content v) < 2 ^ 61 /\ 0 <= offset v /\ offset v + n < 2 ^ 61 /\ plain (content v)
  | Fputc c => wr = true /\ offset v < 2 ^ 61 /\ ph <> Flushed
  | Fseek o whence =>
      0 <= whence <= 2 /\ (whence = SEEK_CUR -> ph <> Reading) /\
      0 <= seek_target (content v) (offset v) o whence < 2 ^ 62
  | Ftell | Fflush => True
  end.

Fixpoint ops_ok (rd wr : bool) (os : list op) (v : view_of) (ph : phase) : Prop :=
  match os with
  | [] => True
  | o :: os => op_ok rd wr o v ph /\ ops_ok rd wr os (view_op o v).2 (next_phase o v ph)
  end.

Section Programs.
Context {K : Type} {KN : Kernel K} {FK : FileKernel K} {A : Allocator} {H : Heap}.
Context (h : Z) (file_of : K -> list Z * Z) {RF : RegularFile h file_of}.
Context (alloc_ok : forall n, malloc_ok n = true).
Implicit Types s : state K.

Abbreviation rep := (stream_rep h file_of).

Definition in_phase (ph : phase) (f : FILE) : Prop :=
  (prev_op f = OP_READ <-> ph = Reading) /\ (prev_op f = OP_WRITE <-> ph = Writing \/ ph = Flushed) /\
  (ph <> Flushed -> full f).

Lemma full_not_writing f : prev_op f <> OP_WRITE -> full f.
Proof. by intros Hop Hop'. Qed.

Lemma reading_phase f : prev_op f = OP_READ -> in_phase Reading f.
Proof.
  intros Hop. split_and!; rewrite ?Hop; try done; [by split; [|intros [|]]|].
  intros _. apply full_not_writing. by rewrite Hop.
Qed.

Lemma run_op_refines rd wr o f s v ph :
  rep rd wr f s v -> in_phase ph f -> op_ok rd wr o v ph ->
  let '(r, bs, v') := view_op o v in
  exists f' s', run_op o f s = Some ((r, bs, f'), s') /\ rep rd wr f' s' v' /\
    in_phase (next_phase o v ph) f' /\ fd f' = fd f.
Proof.
  intros Hrep (Hr & Hw & Hfull) Hok. destruct o as [size count|data size count| |n|c|o whence| |]; cbn [op_ok view_op run_op next_phase] in *.
  - destruct Hok as (? & ? & ? & ? & ? & ?).
    pose proof (fread_refines h file_of alloc_ok rd wr f s v size count) as Hfr. destruct (view_read v (size * count)) as [bs v'].
    destruct Hfr as (f' & s' & Hrun & Hrep' & Hfd & _ & Hop); try done. exists f', s'. split; [done|]. split; [done|]. split; [|done].
    destruct (eof v); [by subst f'|]. by apply reading_phase.
  - destruct Hok as (? & ? & ? & ? & ? & ? & Hph). specialize (Hfull Hph).
    destruct (fwrite_refines h file_of alloc_ok rd wr f s v data size count) as (f' & s' & Hrun & Hrep' & Hf' & Hop & Hfd); try done;
      [by apply full_roomy|].
    exists f', s'. rewrite (M_bind_Some _ _ _ _ _ Hrun). split; [done|]. split; [done|]. split; [|done].
    split_and!; rewrite ?Hop; [by split|by split; auto|auto].
  - destruct Hok as (-> & Hv & Hsm).
    pose proof (fgetc_refines h file_of alloc_ok wr f s v Hrep Hv Hsm) as Hg. destruct (view_read v 1) as [bs v'].
    destruct Hg as (f' & s' & Hrun & Hrep' & Hfd & Hop & _). exists f', s'. rewrite (M_bind_Some _ _ _ _ _ Hrun).
    split; [done|]. split; [done|]. split; [by apply reading_phase|done].
  - destruct Hok as (-> & Hv & Hn & ? & ? & ? & Hpl).
    pose proof (fgets_refines h file_of alloc_ok wr n f s v Hrep Hv) as Hg. destruct (view_line v n) as [line v'].
    destruct Hg as (f' & s' & Hrun & Hrep' & Hfd & Hop); [done..|]. exists f', s'. rewrite (M_bind_Some _ _ _ _ _ Hrun).
    split; [done|]. split; [done|]. split; [by apply reading_phase|done].
  - destruct Hok as (-> & ? & Hph). specialize (Hfull Hph).
    destruct (fputc_refines h file_of alloc_ok rd c f s v Hrep) as (f' & s' & Hrun & Hrep' & Hf' & Hop & Hfd); [done|by apply full_roomy|].
    exists f', s'. rewrite (M_bind_Some _ _ _ _ _ Hrun). split; [done|]. split; [done|]. split; [|done].
    split_and!; rewrite ?Hop; [by split|by split; auto|auto].
  - destruct Hok as (? & Hcur & ?).
    destruct (fseek_refines h file_of rd wr f s v o whence) as (f' & s' & Hrun & Hrep' & Hf' & Hop & Hfd); try done.
    { intros E Hop. by apply (Hcur E), Hr. }
    exists f', s'. rewrite (M_bind_Some _ _ _ _ _ Hrun). split; [done|]. split; [done|]. split; [|done].
    split_and!; rewrite ?Hop; [destruct ph; intuition congruence..|done].
  - exists f, s. rewrite (rep_offset _ _ _ _ _ _ _ Hrep). done.
  - destruct (fflush_refines h file_of rd wr f s v Hrep) as (f' & s' & p & Hrun & Hrep' & _ & Hfd & Hop & _ & Hsame).
    exists f', s'. rewrite (M_bind_Some _ _ _ _ _ Hrun). split; [done|]. split; [done|]. split; [|done].
    split_and!; rewrite ?Hop; [destruct ph; intuition congruence..|].
    intros Hph. destruct (decide (prev_op f = OP_WRITE)) as [E|E]; [|rewrite Hsame by done; by apply full_not_writing].
    destruct ph; intuition congruence.
Qed.

Lemma run_ops_refines rd wr os f s v ph :
  rep rd wr f s v -> in_phase ph f -> ops_ok rd wr os v ph ->
  let '(rs, v') := view_ops os v in
  exists f' s', run_ops os f s = Some ((rs, f'), s') /\ rep rd wr f' s' v' /\ fd f' = fd f.
Proof.
  revert f s v ph. induction os as [|o os IH]; intros f s v ph Hrep Hph Hok; cbn [view_ops run_ops ops_ok] in *.
  - by exists f, s.
  - destruct Hok as [Ho Hos]. pose proof (run_op_refines rd wr o f s v ph Hrep Hph Ho) as Hstep.
    destruct (view_op o v) as [[r bs] v1]. destruct Hstep as (f1 & s1 & Hrun & Hrep1 & Hph1 & Hfd1). cbn [snd] in Hos.
    specialize (IH f1 s1 v1 _ Hrep1 Hph1 Hos). destruct (view_ops os v1) as [rs v2].
    destruct IH as (f2 & s2 & Hruns & Hrep2 & Hfd2). exists f2, s2. rewrite (M_bind_Some _ _ _ _ _ Hrun). cbv beta iota.
    rewrite (M_bind_Some _ _ _ _ _ Hruns). split; [done|]. split; [done|congruence].
Qed.

(** A new stream on a file whose pointer is at the start, as [create_stream]
    makes it. *)
Definition new_stream (fd mode : Z) : FILE := File FILE_STREAM_MAGIC fd mode 0 None 512 0 0 0 0 0 0.

Lemma new_stream_rep fd mode s c :
  mode = Z.lor (Z.lor _IOBUFFER_INTERNAL _IOFBF) _IOBUFFER_RDWR ->
  file_at h file_of fd false s c 0 -> rep true true (new_stream fd mode) s (View c 0 false) /\ in_phase Fresh (new_stream fd mode).
Proof.
  intros -> Hf. split; [|split_and!; cbn; [by split|by split; [|intros [|]]|by intros _ ?]].
  split; cbn; try done. by apply holds_idle.
Qed.


(** [ungetc] undoes [fgetc]: after a character has been read from a
    stream, pushing it back returns it and leaves a stream that stands for the
    same file at the position it had before. *)
Theorem ungetc_undoes_fgetc wr f s v x
    (Hrep : rep true wr f s v) (Hv : eof v = false) (Hsm : small v) (Ho : 0 <= offset v)
    (Hx : content v !! Z.to_nat (offset v) = Some x) (Hu : is_u8 x) :
  exists f1 s1 f2, common_fgetc f s = Some ((swrap 8 x, f1), s1) /\
    common_ungetc (swrap 8 x) f1 s1 = Some ((swrap 8 x, f2), s1) /\ rep true wr f2 s1 v.
Proof.
  pose proof (fgetc_refines h file_of alloc_ok wr f s v Hrep Hv Hsm) as Hg. unfold view_read in Hg. rewrite Hv in Hg.
  destruct (segment_one (content v) (offset v)) as (y & Ey & Hy); [apply lookup_lt_Some in Hx; lia|].
  assert (y = x) as -> by congruence. rewrite Ey in Hg. change (zlen [x]) with 1 in Hg. change (1 <? 1) with false in Hg.
  destruct Hg as (f1 & s1 & Hrun & Hrep1 & _ & Hop & Hback).
  destruct (ungetc_refines h file_of wr f1 s1 (content v) (offset v + 1) x Hrep1 Hop (Hback eq_refl)) as (f2 & Hun & Hrep2 & _);
    [by replace (offset v + 1 - 1) with (offset v) by lia|done|].
  exists f1, s1, f2. split; [done|]. split; [done|]. replace (offset v + 1 - 1) with (offset v) in Hrep2 by lia.
  by destruct v; cbn in *; subst.
Qed.

End Programs.

Import Disk Plenty.

(** A stream for update on a file of ten bytes. *)
Definition demo : list op :=
  [Fgetc; Fgets 6; Fread 1 2; Fseek 1 SEEK_SET; Fputc 77; Fwrite [70; 71] 1 2; Ftell; Fflush; Fseek 0 SEEK_SET; Fread 2 3].

Definition demo_file : list Z := [65; 66; 67; 10; 68; 69; 70; 71; 72; 10].


Lemma ungetc_undoes_fgetc_witness :
  exists f1 s1 f2, common_fgetc (new_stream 3 0x411) (process O_RDWR demo_file 0) = Some ((65, f1), s1) /\
    common_ungetc 65 f1 s1 = Some ((65, f2), s1) /\ stream_rep 1 (fun d : disk => d) true true f2 s1 (View demo_file 0 false).
Proof.
  apply (ungetc_undoes_fgetc 1 (fun d : disk => d) (fun _ => eq_refl) true (new_stream 3 0x411) (process O_RDWR demo_file 0)
    (View demo_file 0 false) 65).
  - apply (new_stream_rep 1 (fun d : disk => d) 3 0x411 (process O_RDWR demo_file 0)); [reflexivity|apply (process_file O_RDWR)].
  - reflexivity.
  - unfold small. cbn. lia.
  - cbn. lia.
  - reflexivity.
  - lia.
Defined.

(** ** Where streams and files part

    The programs [StreamSpec] excludes: a write after a flush, a relative seek
    out of the buffer while reading, byte 255, and the lines of [getdelim]. *)
Section Faults.
Context {K : Type} {KN : Kernel K} {FK : FileKernel K} {A : Allocator} {H : Heap}.
Context (h : Z) (file_of : K -> list Z * Z) {RF : RegularFile h file_of}.
Context (alloc_ok : forall n, malloc_ok n = true).
Implicit Types s : state K.

Abbreviation rep := (stream_rep h file_of).
Abbreviation file f s c p := (file_at h file_of (fd f) false s c p).

(** ** Writing after a flush *)

(** A stream that is writing and has its buffer is used as it is. *)
Lemma fwrite_writing rd f s data :
  buffered rd true f -> error f <> _IOERROR -> prev_op f = OP_WRITE -> unallocated f = false -> start f <> fin f ->
  common_fwrite data 1 (zlen data) f s =
    (let data_size := u64 (1 * zlen data) in
     if data_size <=? u64 (fin f - pos f) then
       bytes ← lift (load_range (Some data) 0 data_size);
       b ← lift (store_range (buffer f) (u64 (pos f - start f)) bytes);
       mret (zlen data, with_pos (with_buffer f b) (u64 (pos f + data_size)))
     else write_more f data 1 data_size) s.
Proof.
  intros Hbu He Hop Hal Hne. unfold common_fwrite. rewrite (proj2 (Z.eqb_neq _ _) He).
  rewrite (bu_write _ _ _ Hbu), (bu_mode _ _ _ Hbu). cbn [negb]. unfold start_writing.
  assert (with_op f OP_WRITE = f) as Ef by (destruct f; cbn in *; by subst).
  rewrite Hop. change (OP_WRITE =? OP_WRITE) with true. cbn [negb]. run. rewrite Ef. unfold allocate_buffer. fold (unallocated f).
  rewrite Hal. run. by rewrite (proj2 (Z.eqb_neq _ _) Hne).
Qed.

(** a write after a flush puts bytes in the file that were never written.
    Let a stream have been flushed with [m] bytes of its buffer unused. A write
    of more than [m] bytes (and at most a buffer more) succeeds, and after the
    next flush the file holds the first [m] bytes of the data, then the bytes
    the buffer had from [m] on, then the rest of the data. *)
Theorem write_after_flush_inserts rd f s data b c m
    (Hbu : buffered rd true f) (He : error f <> _IOERROR) (Hop : prev_op f = OP_WRITE) (Hal : unallocated f = false)
    (Hw : window f b) (Hs : start f = pos f) (Hm : m = fin f - pos f) (Hm0 : 0 < m < buf_size f)
    (Hd : m < zlen data <= m + buf_size f) (Hp : pos f < 2 ^ 61) (Hf : file f s c (pos f)) :
  exists f1 s1 f2 s2 p, common_fwrite data 1 (zlen data) f s = Some ((zlen data, f1), s1) /\
    common_fflush f1 s1 = Some ((0, f2), s2) /\
    file f s2 (splice c (pos f) (segment data 0 m ++ drop (Z.to_nat m) b ++ drop (Z.to_nat m) data)) p.
Proof.
  pose proof Hw as (Hb & Hl & Hst & Hfi & Hwd). pose proof (bu_size _ _ _ Hbu) as Hz.
  rewrite (fwrite_writing rd) by (done || lia). rewrite Z.mul_1_l, !u64_small by lia. cbv zeta.
  rewrite (proj2 (Z.leb_gt _ _)) by lia. unfold write_more, write_first.
  rewrite (u64_small (fin f - pos f)), <- Hm by lia. rewrite (proj2 (Z.eqb_neq m (buf_size f))) by lia. cbn [negb].
  rewrite load_range_ok by lia. rewrite Hb, Hs, Z.sub_diag. change (u64 0) with 0. run. cbn [lift].
  set (bytes := segment data 0 m). assert (zlen bytes = m) as Hbytes by (unfold bytes; rewrite zlen_segment; lia).
  rewrite store_range_ok by lia. cbn [lift]. set (b1 := write_at b 0 bytes).
  assert (zlen b1 = buf_size f) as Hl1 by (unfold b1; rewrite zlen_write_at; lia).
  assert (b1 = bytes ++ drop (Z.to_nat m) b) as Eb1 by (unfold b1, write_at; change (Z.to_nat 0) with 0%nat; rewrite take_0; cbn [app]; do 2 f_equal; lia).
  destruct (write_file h file_of (fd f) s c (pos f) b1 [] Hf) as (k & Hr & Hf1); [lia|].
  rewrite app_nil_r, Hl1 in Hr. cbn [fd buffer with_buffer buf_size]. rewrite Hr.
  rewrite (proj2 (Z.eqb_neq (buf_size f) (-1))) by lia. cbn [write_blocks with_buffer buf_size].
  rewrite (u64_small (m + buf_size f)), (proj2 (Z.ltb_ge _ _)) by lia. run. change (1 >? 0) with true. cbv iota.
  cbn [pos empty_window with_window with_buffer buf_size buffer]. rewrite (u64_small (pos f + m)), (u64_small (zlen data - m)) by lia.
  rewrite load_range_ok by lia. cbn [lift]. set (rest := segment data m (zlen data - m)).
  assert (zlen rest = zlen data - m) as Hrest by (unfold rest; rewrite zlen_segment; lia).
  rewrite store_range_ok by lia. cbn [lift]. rewrite !u64_small by lia. unfold write_result.
  replace (m + (zlen data - m)) with (zlen data) by lia. rewrite u64_small, Z.div_1_r by lia.
  rewrite (proj2 (Z.eqb_neq (zlen data) (-1))) by lia. set (b2 := write_at b1 0 rest).
  assert (zlen b2 = buf_size f) as Hl2 by (unfold b2; rewrite zlen_write_at; lia).
  set (f1 := with_window _ _ _ _). rewrite Hl1 in Hf1.
  assert (file f1 (with_kernel s k) (splice c (pos f) b1) (pos f + buf_size f)) as Hf1' by done.
  destruct (write_file h file_of (fd f1) _ _ _ rest (drop (Z.to_nat (zlen data - m)) b2) Hf1') as (k2 & Hr2 & Hf2); [lia|].
  exists f1, (with_kernel s k), (with_window f1 (pos f1) (fin f1) (pos f1)), (with_kernel (with_kernel s k) k2).
  eexists. split; [reflexivity|].
  unfold common_fflush. change (buf_mode f1) with (buf_mode f). change (prev_op f1) with (prev_op f).
  rewrite (bu_mode _ _ _ Hbu), (bu_write _ _ _ Hbu), Hop. change (OP_WRITE =? OP_READ) with false. cbn [negb].
  change (start f1) with (pos f + m). change (pos f1) with (pos f + m + (zlen data - m)). change (buffer f1) with (Some b2).
  rewrite (proj2 (Z.eqb_neq _ _)) by lia. cbn [negb]. replace (pos f + m + (zlen data - m) - (pos f + m)) with (zlen rest) by lia.
  rewrite u64_small by lia. assert (rest ++ drop (Z.to_nat (zlen data - m)) b2 = b2) as Eb2.
  { unfold b2, write_at. change (Z.to_nat 0) with 0%nat. rewrite take_0. cbn [app]. rewrite drop_app_length' by lia. done. }
  rewrite Eb2 in Hr2. rewrite (M_bind_Some _ _ _ _ _ Hr2), (proj2 (Z.eqb_neq _ (-1))) by lia. split; [done|].
  replace (splice c (pos f) (bytes ++ _)) with (splice (splice c (pos f) b1) (pos f + buf_size f) rest); [exact Hf2|].
  rewrite <- Hl1, splice_app by lia. rewrite Eb1, <- app_assoc. do 3 f_equal. unfold rest. symmetry. apply drop_segment; lia.
Qed.

(** ** Seeking while reading *)

(** while a stream reads, a relative seek is relative to the position only
    if it stays in the buffer. A target in the window gives that position, and
    keeps the end-of-file indicator; a target outside it is reached from the
    end of the window, where the file pointer is, so the new position is off by
    the bytes not yet read. *)
Theorem relative_seek_while_reading wr f s v o
    (Hrep : rep true wr f s v) (Hop : prev_op f = OP_READ) (Hin : 0 <= pos f + o) (Hend : 0 <= fin f + o < 2 ^ 62) :
  exists f' s', common_fseek f o SEEK_CUR s = Some ((0, f'), s') /\ pos f <= fin f /\
    if (start f <=? pos f + o) && (pos f + o <=? fin f) && negb (start f =? fin f)
    then pos f' = offset v + o /\ error f' = error f
    else pos f' = fin f + o /\ error f' = 0.
Proof.
  destruct Hrep as [Hbu Hoff Herr [|b _ (Hb & Hl & Hs & Hf & Hd) Hcl Hal Hfile|b c0 Hop']]; [done| |by rewrite Hop in Hop'].
  unfold common_fseek. rewrite Hop. change (OP_READ =? OP_WRITE) with false.
  run. rewrite Hop. change ((SEEK_CUR =? SEEK_CUR) && (OP_READ =? OP_READ)) with true. cbn [andb].
  rewrite u64_small, Z.geb_leb by lia. match goal with |- context [if ?c && ?d && ?e then _ else _] => destruct (c && d && e) end.
  - eexists _, s. split; [done|]. cbn. split; [lia|]. split; [lia|done].
  - assert (seek_target (content v) (fin f) o SEEK_CUR = fin f + o) as Et by (unfold seek_target; cbn; lia).
    destruct (lseek_file h file_of (fd f) false s (content v) (fin f) o SEEK_CUR Hfile) as (k & Hr & _); [done|lia|].
    rewrite Hr, Et, (proj2 (Z.eqb_neq _ (-1))) by lia. eexists _, _. split; [done|]. split; [lia|]. split; [done|]. cbn.
    rewrite Herr. by destruct (eof v), (o =? 0).
Qed.

(** ** Byte 255 *)

(** [fgetc] returns [EOF] for the byte 255, though neither the end-of-file
    nor the error indicator is set. *)
Theorem fgetc_eof_in_file wr f s v
    (Hrep : rep true wr f s v) (Hv : eof v = false) (Hsm : small v) (Ho : 0 <= offset v)
    (Hx : content v !! Z.to_nat (offset v) = Some 255) :
  exists f' s', common_fgetc f s = Some ((EOF, f'), s') /\ common_feof f' = 0 /\ common_ferror f' = 0.
Proof.
  pose proof (fgetc_refines h file_of alloc_ok wr f s v Hrep Hv Hsm) as Hg. unfold view_read in Hg. rewrite Hv in Hg.
  destruct (segment_one (content v) (offset v)) as (y & Ey & Hy); [apply lookup_lt_Some in Hx; lia|].
  assert (y = 255) as -> by congruence. rewrite Ey in Hg. destruct Hg as (f' & s' & Hrun & Hrep' & _).
  exists f', s'. split; [done|]. unfold common_feof, common_ferror. by rewrite (rep_error _ _ _ _ _ _ _ Hrep').
Qed.

(** ** Lines of any length *)

(** [getdelim] stores the bytes before the delimiter. *)
Lemma getdelim_run wr l d :
  forall rounds f s v block size r,
  rep true wr f s v -> eof v = false -> zlen (content v) < 2 ^ 61 -> 0 <= offset v -> offset v + zlen l < 2 ^ 61 ->
  plain (content v) -> segment (content v) (offset v) (zlen l) = l -> Forall (fun x => swrap 8 x <> d) l ->
  0 <= r -> r + zlen l < size -> zlen block = size ->
  exists f' s', getdelim_loop (length l + rounds) f block size d r s =
      getdelim_loop rounds f' (write_at block r l) size d (r + zlen l) s' /\
    rep true wr f' s' (View (content v) (offset v + zlen l) false).
Proof.
  induction l as [|x l IH]; intros rounds f s v block size r Hrep Hv Hc Ho Hol Hpl Hl Hd Hr Hsz Hb.
  - exists f, s. cbn [length Nat.add]. rewrite !Z.add_0_r. split; [|by destruct v; cbn in *; subst].
    f_equal. unfold write_at. cbn [length app]. by rewrite Nat.add_0_r, take_drop.
  - cbn [length Nat.add getdelim_loop] in *. apply Forall_cons in Hd as [Hx Hd].
    assert (offset v < zlen (content v)) as Hlt.
    { pose proof (zlen_segment (content v) (offset v) (Z.of_nat (S (length l))) Ho ltac:(lia)) as E. rewrite Hl in E. cbn [length] in E. lia. }
    destruct (segment_one (content v) (offset v)) as (y & Ey & Hy); [lia|].
    rewrite (segment_cons (content v) (offset v) _ y) in Hl by (done || lia). injection Hl as -> Hl.
    replace (Z.of_nat (S (length l)) - 1) with (zlen l) in Hl by lia.
    pose proof (fgetc_refines h file_of alloc_ok wr f s v Hrep Hv) as Hg. unfold view_read in Hg. rewrite Hv, Ey in Hg.
    destruct Hg as (f1 & s1 & Hrun & Hrep1 & _); [split; lia|]. rewrite (M_bind_Some _ _ _ _ _ Hrun). cbn [char_of].
    pose proof Hpl as Hpl'. unfold plain in Hpl'. rewrite Forall_lookup in Hpl'. destruct (Hpl' _ _ Hy) as [Hu H255].
    destruct (plain_char x Hu H255) as (E1 & E2 & E3 & _). rewrite E1, (proj2 (Z.eqb_neq _ _) E3), E2.
    rewrite store_range_ok by (cbn [length]; lia). run. cbn [lift default]. rewrite (proj2 (Z.eqb_neq _ _) Hx), (proj2 (Z.eqb_neq _ size)) by lia.
    edestruct (IH rounds f1 s1 _ (write_at block r [x]) size (r + 1) Hrep1) as (f2 & s2 & Hl2 & Hrep2);
      cbn [content offset eof]; change (zlen [x]) with 1; try done; try lia; [by rewrite zlen_write_at by (cbn [length]; lia)|].
    exists f2, s2. cbn [content offset] in Hrep2. change (zlen [x]) with 1 in Hrep2.
    replace (offset v + Z.of_nat (S (length l))) with (offset v + 1 + zlen l) by lia. split; [|done].
    cbn [default] in *. unfold id in *. rewrite Hl2. f_equal; [|lia]. apply write_at_cons; cbn [length]; lia.
Qed.

(** The character after [l], stored or met at the end. *)
Lemma getdelim_next wr l d rounds f s v block size :
  rep true wr f s v -> eof v = false -> zlen (content v) < 2 ^ 61 -> 0 <= offset v -> offset v + zlen l < 2 ^ 61 ->
  plain (content v) -> segment (content v) (offset v) (zlen l) = l -> Forall (fun x => swrap 8 x <> d) l ->
  zlen l < size -> zlen block = size -> (length l < rounds)%nat ->
  let bs := segment (content v) (offset v + zlen l) 1 in
  exists rest f' s', rep true wr f' s' (View (content v) (offset v + zlen l + zlen bs) (zlen bs <? 1)) /\
    getdelim_loop rounds f block size d 0 s =
    match bs with
    | [] => Some ((-1, write_at block 0 l, size, f'), s')
    | x :: _ =>
        (let block := write_at (write_at block 0 l) (zlen l) [x] in
         if swrap 8 x =? d then
           b ← lift (store_range (Some block) (zlen l + 1) [0]); mret (zlen l + 1, default [] b, size, f')
         else if zlen l + 1 =? size then
           if malloc_ok (size * 2) then getdelim_loop rest f' (block ++ fresh_block size) (size * 2) d (zlen l + 1)
           else _ ← set_errno ENOMEM; mret (-1, block, size, f')
         else getdelim_loop rest f' block size d (zlen l + 1)) s'
    end.
Proof.
  intros Hrep Hv Hc Ho Hol Hpl Hl Hd Hsz Hb Hrounds bs.
  destruct (getdelim_run wr l d (rounds - length l) f s v block size 0 Hrep Hv Hc Ho Hol Hpl Hl Hd) as (f1 & s1 & Hrun & Hrep1); [lia..|].
  replace (length l + (rounds - length l))%nat with rounds in Hrun by lia. rewrite Hrun, Z.add_0_l.
  destruct (rounds - length l)%nat as [|rest] eqn:Er; [lia|]. exists rest. cbn [getdelim_loop].
  pose proof (fgetc_refines h file_of alloc_ok wr f1 s1 _ Hrep1 eq_refl) as Hg. unfold view_read in Hg. cbn [eof content offset] in Hg. fold bs in Hg.
  destruct Hg as (f2 & s2 & Hgc & Hrep2 & _); [split; cbn; lia|]. exists f2, s2. split; [done|].
  rewrite (M_bind_Some _ _ _ _ _ Hgc). destruct bs as [|x bs'] eqn:Ebs; [done|]. cbn [char_of].
  assert (content v !! Z.to_nat (offset v + zlen l) = Some x) as Hx.
  { pose proof (f_equal (fun k => k !! 0%nat) Ebs) as E. unfold bs, segment in E. rewrite lookup_take_lt, lookup_drop in E by lia.
    rewrite Nat.add_0_r in E. exact E. }
  pose proof Hpl as Hpl'. unfold plain in Hpl'. rewrite Forall_lookup in Hpl'. destruct (Hpl' _ _ Hx) as [Hu H255].
  destruct (plain_char x Hu H255) as (E1 & E2 & E3 & _). rewrite E1, (proj2 (Z.eqb_neq _ _) E3), E2.
  rewrite store_range_ok by (rewrite ?zlen_write_at by lia; cbn [length]; lia). done.
Qed.

(** [getdelim] and the block it is given. Let the line at the position be [l]
    and then the delimiter, without the byte 255. When the block has room for
    the line, the delimiter and the terminator, these are stored and the length
    is returned; when the delimiter fills the block, the terminator is written
    behind it; and at the end of the file a last line without delimiter is
    lost: -1 is returned although the bytes were consumed. *)
Theorem getdelim_line wr l d f s v block rounds
    (Hrep : rep true wr f s v) (Hv : eof v = false) (Hc : zlen (content v) < 2 ^ 61) (Ho : 0 <= offset v)
    (Hol : offset v + zlen l < 2 ^ 61) (Hpl : plain (content v)) (Hl : segment (content v) (offset v) (zlen l) = l)
    (Hd : Forall (fun x => swrap 8 x <> d) l) (Hb : zlen l < zlen block) (Hrounds : (length l < rounds)%nat) :
  match content v !! Z.to_nat (offset v + zlen l) with
  | None => exists f' s', common_getdelim rounds (Some block) (zlen block) d f s =
              Some ((-1, Some (write_at block 0 l), zlen block, f'), s') /\
            rep true wr f' s' (View (content v) (offset v + zlen l) true)
  | Some x => swrap 8 x = d ->
      if zlen l + 1 =? zlen block then common_getdelim rounds (Some block) (zlen block) d f s = None
      else exists f' s', common_getdelim rounds (Some block) (zlen block) d f s =
             Some ((zlen l + 1, Some (write_at block 0 (l ++ [x; 0])), zlen block, f'), s') /\
           rep true wr f' s' (View (content v) (offset v + zlen l + 1) false)
  end.
Proof.
  destruct (getdelim_next wr l d rounds f s v block (zlen block)) as (rest & f' & s' & Hrep' & Hrun); [done..|].
  unfold common_getdelim. destruct (content v !! Z.to_nat (offset v + zlen l)) as [x|] eqn:Ex.
  - destruct (segment_one (content v) (offset v + zlen l)) as (y & Ey & Hy); [apply lookup_lt_Some in Ex; lia|].
    assert (y = x) as -> by congruence. rewrite Ey in *. intros <-. cbv zeta in Hrun. rewrite Z.eqb_refl in Hrun. clear Hl Hd.
    assert (zlen (write_at (write_at block 0 l) (zlen l) [x]) = zlen block) as Hlen
      by (rewrite zlen_write_at; rewrite ?zlen_write_at; cbn [length]; lia).
    destruct (zlen l + 1 =? zlen block) eqn:E; [apply Z.eqb_eq in E|apply Z.eqb_neq in E].
    + unfold mbind at 1, M_bind. rewrite Hrun. unfold mbind, M_bind, store_range, mbind, option_bind.
      rewrite (proj2 (Z.leb_gt _ (zlen (write_at _ _ _)))) by (rewrite Hlen; cbn [length]; lia).
      by rewrite andb_false_r.
    + rewrite store_range_ok in Hrun by (rewrite ?Hlen; cbn [length]; lia).
      rewrite (write_at_cons (write_at block 0 l)) in Hrun by (rewrite ?zlen_write_at by lia; cbn [length]; lia).
      pose proof (write_at_app block 0 l [x; 0]) as E0. rewrite (Z.add_0_l (zlen l)) in E0. rewrite E0 in Hrun by (rewrite ?length_app; cbn [length]; lia).
      exists f', s'. by rewrite (M_bind_Some _ _ _ _ _ Hrun).
  - assert (segment (content v) (offset v + zlen l) 1 = []) as Es.
    { apply lookup_ge_None in Ex. apply length_zero_iff_nil. pose proof (zlen_segment (content v) (offset v + zlen l) 1). lia. }
    rewrite Es in *. exists f', s'. rewrite (M_bind_Some _ _ _ _ _ Hrun). split; [done|]. cbn [length] in Hrep'. by rewrite Z.add_0_r in Hrep'.
Qed.

End Faults.

Import Disk Plenty.

(** A stream whose buffer of eight bytes has been allocated. *)
Definition eight (b : list Z) (start_ fin_ pos_ op : Z) : FILE := File FILE_STREAM_MAGIC 3 0x419 0 (Some b) 8 start_ fin_ pos_ op 0 0.

Lemma eight_buffered b s e p op : zlen b = 8 -> buffered true true (eight b s e p op).
Proof. intros Hb. split; cbn; try done. by exists b. Qed.

Lemma write_after_flush_inserts_witness :
  exists f1 s1 f2 s2 p, common_fwrite [65; 66; 67; 68; 69; 70] 1 6 (eight (replicate 8 120) 3 8 3 OP_WRITE) (process O_RDWR [1; 2; 3] 3) =
      Some ((6, f1), s1) /\
    common_fflush f1 s1 = Some ((0, f2), s2) /\
    file_at 1 (fun d : disk => d) 3 false s2 [1; 2; 3; 65; 66; 67; 68; 69; 120; 120; 120; 70] p.
Proof.
  apply (write_after_flush_inserts 1 (fun d : disk => d) true (eight (replicate 8 120) 3 8 3 OP_WRITE) (process O_RDWR [1; 2; 3] 3)
    [65; 66; 67; 68; 69; 70] (replicate 8 120) [1; 2; 3] 5).
  - by apply eight_buffered.
  - discriminate.
  - reflexivity.
  - reflexivity.
  - split; [reflexivity|]. cbn. lia.
  - reflexivity.
  - reflexivity.
  - cbn. lia.
  - cbn. lia.
  - cbn. lia.
  - apply (process_file O_RDWR).
Defined.

Lemma relative_seek_while_reading_witness :
  exists f' s', common_fseek (eight [65; 66; 67; 68; 69; 70; 71; 72] 0 8 2 OP_READ) 7 SEEK_CUR
      (process O_RDWR [65; 66; 67; 68; 69; 70; 71; 72; 73; 74] 8) = Some ((0, f'), s') /\ 2 <= 8 /\ pos f' = 15 /\ error f' = 0.
Proof.
  apply (relative_seek_while_reading 1 (fun d : disk => d) true (eight [65; 66; 67; 68; 69; 70; 71; 72] 0 8 2 OP_READ)
    (process O_RDWR [65; 66; 67; 68; 69; 70; 71; 72; 73; 74] 8) (View [65; 66; 67; 68; 69; 70; 71; 72; 73; 74] 2 false) 7).
  - split; [by apply eight_buffered|reflexivity|reflexivity|].
    apply (holds_read _ _ _ _ _ _ [65; 66; 67; 68; 69; 70; 71; 72]); [reflexivity| | |reflexivity|apply (process_file O_RDWR)].
    + split; [reflexivity|]. cbn. lia.
    + split; [reflexivity|]. cbn. lia.
  - reflexivity.
  - cbn. lia.
  - cbn. lia.
Defined.

(** A stream on [c], nothing done yet. *)
Lemma eight_idle c : stream_rep 1 (fun d : disk => d) true true (eight (replicate 8 0) 0 0 0 0) (process O_RDWR c 0) (View c 0 false).
Proof. split; [by apply eight_buffered|done|done|]. apply holds_idle; try done. apply (process_file O_RDWR). Qed.

Lemma fgetc_eof_in_file_witness :
  exists f' s', common_fgetc (eight (replicate 8 0) 0 0 0 0) (process O_RDWR [255; 1] 0) = Some ((EOF, f'), s') /\
    common_feof f' = 0 /\ common_ferror f' = 0.
Proof.
  apply (fgetc_eof_in_file 1 (fun d : disk => d) (fun _ => eq_refl) true (eight (replicate 8 0) 0 0 0 0) (process O_RDWR [255; 1] 0)
    (View [255; 1] 0 false)).
  - apply eight_idle.
  - reflexivity.
  - unfold small. cbn. lia.
  - cbn. lia.
  - reflexivity.
Defined.

(** The line [AB] in a block of eight bytes and in one of three. *)
Lemma getdelim_line_witness :
  (exists f' s', common_getdelim 9 (Some (replicate 8 0)) 8 10 (eight (replicate 8 0) 0 0 0 0) (process O_RDWR [65; 66; 10; 67] 0) =
     Some ((3, Some [65; 66; 10; 0; 0; 0; 0; 0], 8, f'), s') /\
   stream_rep 1 (fun d : disk => d) true true f' s' (View [65; 66; 10; 67] 3 false)) /\
  common_getdelim 9 (Some (replicate 3 0)) 3 10 (eight (replicate 8 0) 0 0 0 0) (process O_RDWR [65; 66; 10; 67] 0) = None.
Proof.
  split.
  - apply (getdelim_line 1 (fun d : disk => d) (fun _ => eq_refl) true [65; 66] 10 (eight (replicate 8 0) 0 0 0 0)
      (process O_RDWR [65; 66; 10; 67] 0) (View [65; 66; 10; 67] 0 false) (replicate 8 0) 9); [apply eight_idle|..]; try reflexivity;
      try (cbn; lia); unfold plain; repeat (constructor || split || lia || discriminate).
  - apply (getdelim_line 1 (fun d : disk => d) (fun _ => eq_refl) true [65; 66] 10 (eight (replicate 8 0) 0 0 0 0)
      (process O_RDWR [65; 66; 10; 67] 0) (View [65; 66; 10; 67] 0 false) (replicate 3 0) 9); [apply eight_idle|..]; try reflexivity;
      try (cbn; lia); unfold plain; repeat (constructor || split || lia || discriminate).
Defined.
