(* ===== verification/StreamList.v ===== *)
(** * The streams of a process

    src/stdio/internal.c with fopen.c, fdopen.c, freopen.c, fclose.c, fflush.c,
    fileops.c and the public functions of the other files: streams live in the
    heap, linked in a list whose head is the newest one; a pointer is checked by
    the magic number of what it points to. A stream that has been freed is not
    in the store, and using a pointer to it is undefined behaviour. *)

From stdpp Require Import gmap strings.
From S2P Require Import Prelude Errno Buffer FdTable FileIo Path Open Stream.

(** ** State *)

(** The streams by their addresses, [_wlibc_stdio_head], the standard streams and
    the state of path resolution. *)
Record io_state := IoState {
  streams : gmap Z FILE;
  stdio_head : Z;
  stdin : Z;
  stdout : Z;
  stderr : Z;
  paths : path_state
}.

Definition with_streams (x : io_state) (m : gmap Z FILE) : io_state :=
  IoState m (stdio_head x) (stdin x) (stdout x) (stderr x) (paths x).
Definition with_head (x : io_state) (a : Z) : io_state :=
  IoState (streams x) a (stdin x) (stdout x) (stderr x) (paths x).
Definition with_std (x : io_state) (i o e : Z) : io_state :=
  IoState (streams x) (stdio_head x) i o e (paths x).
Definition with_paths (x : io_state) (p : path_state) : io_state :=
  IoState (streams x) (stdio_head x) (stdin x) (stdout x) (stderr x) p.

Definition with_links (f : FILE) (prev next : Z) : FILE :=
  File (magic f) (fd f) (buf_mode f) (error f) (buffer f) (buf_size f) (start f) (fin f) (pos f) (prev_op f) prev next.
Definition with_prev (f : FILE) (a : Z) : FILE := with_links f a (next f).
Definition with_next (f : FILE) (a : Z) : FILE := with_links f (prev f) a.

(** Where the heap puts the next stream: not at [NULL] and not on a live one. *)
Class StreamHeap := {
  new_address : gmap Z FILE -> Z;
  new_address_ok m : new_address m <> 0 /\ m !! new_address m = None
}.

(** [sizeof(FILE)]. *)
Definition sizeof_FILE : Z := 128.

Section Streams.
Context {K : Type} {KN : Kernel K} {FK : FileKernel K} {A : Allocator} {H : Heap} {PK : PathKernel K} {OK : OpenKernel K}.
Context {SH : StreamHeap}.

Abbreviation S := (SM io_state K).

Definition on_paths {X} (m : SM path_state K X) : S X := fun x =>
  '(r, p) ← m (paths x); mret (r, with_paths x p).

(** [*a] and [*a = f]. *)
Definition deref (a : Z) : S FILE := x ← get_S; run_M (lift (streams x !! a)).
Definition store (a : Z) (f : FILE) : S unit :=
  _ ← deref a; x ← get_S; put_S (with_streams x (<[a := f]> (streams x))).
Definition set_head (a : Z) : S unit := x ← get_S; put_S (with_head x a).
Definition free_stream (a : Z) : S unit := x ← get_S; put_S (with_streams x (delete a (streams x))).

(** ** The list *)

Definition insert_stream (a : Z) : S unit :=
  f ← deref a;
  x ← get_S;
  _ ← store a (with_links f (stdio_head x) 0);
  _ ← (if negb (stdio_head x =? 0) then h ← deref (stdio_head x); store (stdio_head x) (with_next h a) else mret ());
  set_head a.

Definition delete_stream (a : Z) : S unit :=
  f ← deref a;
  _ ← (if negb (prev f =? 0) && negb (next f =? 0) then
         p ← deref (prev f); _ ← store (prev f) (with_next p (next f));
         n ← deref (next f); store (next f) (with_prev n (prev f))
       else if negb (prev f =? 0) && (next f =? 0) then
         p ← deref (prev f); _ ← store (prev f) (with_next p 0); set_head (prev f)
       else if (prev f =? 0) && negb (next f =? 0) then
         n ← deref (next f); store (next f) (with_prev n 0)
       else set_head 0);
  free_stream a.

(** The address of the new stream, 0 when there is no memory. *)
Definition create_stream (fd buf_mode buf_size : Z) : S Z :=
  if malloc_ok sizeof_FILE then
    x ← get_S;
    let a := new_address (streams x) in
    _ ← put_S (with_streams x (<[a := File FILE_STREAM_MAGIC fd buf_mode 0 None buf_size 0 0 0 0 0 0]> (streams x)));
    _ ← insert_stream a;
    mret a
  else _ ← run_M (set_errno ENOMEM); mret 0.

Definition initialize_stdio : S unit :=
  i ← create_stream 0 (Z.lor (Z.lor _IOFBF _IOBUFFER_INTERNAL) _IOBUFFER_RDONLY) 512;
  o ← create_stream 1 (Z.lor (Z.lor _IOFBF _IOBUFFER_INTERNAL) _IOBUFFER_WRONLY) 512;
  e ← create_stream 2 (Z.lor _IONBF _IOBUFFER_WRONLY) 0;
  x ← get_S;
  put_S (with_std x i o e).

(** ** Operations on all streams *)

(** An operation on the stream at [a]. *)
Definition update_stream {X} (a : Z) (op : FILE -> M K (X * FILE)) : S X :=
  f ← deref a; '(r, f) ← run_M (op f); _ ← store a f; mret r.

(** The list has as many elements as the store at most. *)
Fixpoint flush_from (fuel : nat) (a status : Z) : S Z :=
  if a =? 0 then mret status
  else match fuel with
       | O => run_M UB
       | Datatypes.S fuel =>
           r ← update_stream a common_fflush;
           f ← deref a;
           flush_from fuel (prev f) (Z.lor status r)
       end.

Definition common_flushall : S Z := x ← get_S; flush_from (base.size (streams x)) (stdio_head x) 0.

(** The first loop of [close_all_streams]; the buffers are freed with the streams. *)
Fixpoint flush_all_from (fuel : nat) (a : Z) : S unit :=
  if a =? 0 then mret ()
  else match fuel with
       | O => run_M UB
       | Datatypes.S fuel => _ ← update_stream a common_fflush; f ← deref a; flush_all_from fuel (prev f)
       end.

Fixpoint close_from (fuel : nat) (a : Z) : S unit :=
  if a =? 0 then set_head 0
  else match fuel with
       | O => run_M UB
       | Datatypes.S fuel =>
           f ← deref a;
           _ ← run_M (close_fd (fd f));
           _ ← free_stream a;
           close_from fuel (prev f)
       end.

Definition close_all_streams : S unit :=
  x ← get_S;
  let fuel := base.size (streams x) in
  _ ← flush_all_from fuel (stdio_head x);
  close_from fuel (stdio_head x).

(** ** Checked access *)

(** [VALIDATE_FILE_STREAM(stream, ret)] and then [m]. *)
Definition validate_file_stream {X} (a : Z) (ret : X) (m : S X) : S X :=
  let bad : S X := _ ← run_M (set_errno EINVAL); mret ret in
  if a =? 0 then bad
  else
    f ← deref a;
    if negb (magic f =? FILE_STREAM_MAGIC) then bad else m.

(** [errno = EINVAL; return ret;] *)
Definition invalid {X} (ret : X) : S X := _ ← run_M (set_errno EINVAL); mret ret.

(** The bytes read are those stored at the buffer; [None] is a null buffer. *)
Definition wlibc_fread (buffer : bool) (size count a : Z) : S (Z * list Z) :=
  if negb buffer then invalid (0, [])
  else if u64 (size * count) =? 0 then mret (0, [])
  else validate_file_stream a (0, [])
         (update_stream a (fun f => '(r, bs, f) ← common_fread size count f; mret ((r, bs), f))).

Definition wlibc_fwrite (buffer : option (list Z)) (size count a : Z) : S Z :=
  match buffer with
  | None => invalid 0
  | Some data =>
      if u64 (size * count) =? 0 then mret 0
      else validate_file_stream a 0 (update_stream a (common_fwrite data size count))
  end.

Definition wlibc_fgetc (a : Z) : S Z := validate_file_stream a EOF (update_stream a common_fgetc).
Definition wlibc_fputc (c a : Z) : S Z := validate_file_stream a EOF (update_stream a (common_fputc c)).

(** The bytes stored, [None] for a null result. *)
Definition wlibc_fgets (buffer : bool) (count a : Z) : S (option (list Z)) :=
  if negb buffer || (count <? 1) then invalid None
  else if count =? 1 then mret (Some [0])
  else validate_file_stream a None (update_stream a (fun f => '(bs, f) ← common_fgets count f; mret (Some bs, f))).

Definition wlibc_fputs (text : option (list Z)) (a : Z) : S Z :=
  match text with
  | None => invalid EOF
  | Some text => validate_file_stream a EOF (update_stream a (common_fputs text))
  end.

Definition wlibc_ungetc (c a : Z) : S Z :=
  if c =? EOF then mret EOF else validate_file_stream a EOF (update_stream a (common_ungetc c)).

Definition wlibc_fseek (a offset whence : Z) : S Z :=
  validate_file_stream a EOF
    (if (whence <? 0) || (whence >? 2) then invalid EOF
     else update_stream a (fun f => common_fseek f offset whence)).

Definition wlibc_ftell (a : Z) : S Z := validate_file_stream a EOF (f ← deref a; mret (swrap 64 (pos f))).

(** [NULL] flushes all streams. *)
Definition wlibc_fflush (a : Z) : S Z :=
  if a =? 0 then common_flushall else validate_file_stream a EOF (update_stream a common_fflush).

Definition wlibc_setvbuf (a : Z) (user : option (list Z)) (mode size : Z) : S Z :=
  validate_file_stream a (-1)
    (if negb ((mode =? _IONBF) || (mode =? _IOFBF) || (mode =? _IOLBF)) then invalid (-1)
     else _ ← update_stream a common_fflush; update_stream a (fun f => common_setvbuf f user mode size)).

Definition wlibc_feof (a : Z) : S Z := validate_file_stream a 0 (f ← deref a; mret (common_feof f)).
Definition wlibc_ferror (a : Z) : S Z := validate_file_stream a 0 (f ← deref a; mret (common_ferror f)).
Definition wlibc_clearerr (a : Z) : S unit :=
  validate_file_stream a () (update_stream a (fun f => mret ((), common_clearerr f))).
Definition wlibc_fileno (a : Z) : S Z := validate_file_stream a (-1) (f ← deref a; mret (common_fileno f)).

(** [buffer] and [size] are the caller's variables; [null_args] tells that a
    pointer to one of them is null. *)
Definition wlibc_getdelim (rounds : nat) (null_args : bool) (block : option (list Z)) (size delimiter a : Z)
    : S (Z * option (list Z) * Z) :=
  if null_args || (bool_decide (block <> None) && (size =? 0)) then invalid (-1, block, size)
  else validate_file_stream a (-1, block, size)
         (update_stream a (fun f => '(r, block, size, f) ← common_getdelim rounds block size delimiter f; mret ((r, block, size), f))).

(** ** Queries of src/stdio/fileops.c *)

Definition wlibc_fbufsize (a : Z) : S Z := validate_file_stream a (2 ^ 64 - 1) (f ← deref a; mret (buf_size f)).
Definition wlibc_fbufmode (a : Z) : S Z :=
  validate_file_stream a (-1) (f ← deref a; mret (Z.land (buf_mode f) (Z.lor (Z.lor _IONBF _IOLBF) _IOFBF))).

(** The flags of the descriptor, whose entry must exist. *)
Definition stream_flags (a : Z) : S Z := f ← deref a; run_M (get_fd_flags (fd f)).

Definition of_bool (b : bool) : Z := if b then 1 else 0.

Definition wlibc_freading (a : Z) : S Z :=
  validate_file_stream a (-1)
    (f ← deref a; fl ← stream_flags a;
     mret (of_bool ((prev_op f =? OP_READ) || negb (has fl (Z.lor (Z.lor O_WRONLY O_RDWR) O_APPEND))))).
Definition wlibc_fwriting (a : Z) : S Z :=
  validate_file_stream a (-1)
    (f ← deref a; fl ← stream_flags a;
     mret (of_bool ((prev_op f =? OP_WRITE) || has fl (Z.lor O_WRONLY O_APPEND)))).
Definition wlibc_freadable (a : Z) : S Z :=
  validate_file_stream a (-1) (fl ← stream_flags a; mret (of_bool (negb (has fl O_WRONLY) || has fl O_RDWR))).
Definition wlibc_fwritable (a : Z) : S Z :=
  validate_file_stream a (-1)
    (fl ← stream_flags a; mret (of_bool (has fl (Z.lor (Z.lor O_WRONLY O_RDWR) O_APPEND)))).
Definition wlibc_freadahead (a : Z) : S Z :=
  validate_file_stream a (2 ^ 64 - 1)
    (f ← deref a; mret (if prev_op f =? OP_READ then u64 (fin f - pos f) else 0)).
Definition wlibc_fpending (a : Z) : S Z :=
  validate_file_stream a (2 ^ 64 - 1)
    (f ← deref a; mret (if prev_op f =? OP_WRITE then u64 (pos f - start f) else 0)).

Definition wlibc_fpurge (a : Z) : S unit :=
  validate_file_stream a ()
    (update_stream a (fun f =>
       mret ((), if negb (buf_mode f =? _IONBF) then
                   let f := if prev_op f =? OP_WRITE then with_window f (pos f) (fin f) (pos f) else f in
                   if prev_op f =? OP_READ then with_pos f (fin f) else f
                 else f))).

Definition wlibc_freadptrinc (a n : Z) : S unit :=
  validate_file_stream a ()
    (update_stream a (fun f =>
       mret ((), if negb (buf_mode f =? _IONBF) then
                   let f := with_pos f (u64 (pos f + n)) in
                   if pos f >? fin f then empty_window f (pos f) else f
                 else f))).

Definition wlibc_fseterr (a : Z) : S unit :=
  validate_file_stream a () (update_stream a (fun f => mret ((), with_error f (Z.lor (error f) _IOERROR)))).

(** ** Opening and closing *)

(** [name] and [mode] are [None] for null pointers. *)
Definition wlibc_fopen (name mode : option (list Z)) : S Z :=
  match name with
  | None | Some [] => _ ← run_M (set_errno ENOENT); mret 0
  | Some name =>
      match mode with
      | None => invalid 0
      | Some mode =>
          let flags := parse_mode mode in
          fd ← on_paths (do_open AT_FDCWD name (Z.lor flags O_NOTDIR) 448);
          if fd =? -1 then mret 0
          else create_stream fd (Z.lor (Z.lor _IOBUFFER_INTERNAL _IOFBF) (get_buf_mode flags)) 512
      end
  end.

(** [fdinfo info;] is uninitialised. *)
Definition wlibc_fdopen (fd : Z) (mode : list Z) : S Z :=
  info ← run_M (get_fdinfo fd (garbage 0));
  match type info with
  | INVALID_HANDLE => _ ← run_M (set_errno EBADF); mret 0
  | DIRECTORY_HANDLE => _ ← run_M (set_errno EISDIR); mret 0
  | _ =>
      let std_flags := Z.land (parse_mode mode) (Z.lor O_APPEND O_ACCMODE) in
      let fd_flags := Z.land (flags info) (Z.lor O_APPEND O_ACCMODE) in
      if negb (Z.land fd_flags O_APPEND =? Z.land std_flags O_APPEND) then invalid 0
      else if has std_flags O_ACCMODE && (Z.land fd_flags O_ACCMODE =? 0) then invalid 0
      else create_stream fd (Z.lor (Z.lor _IOBUFFER_INTERNAL _IOFBF) (get_buf_mode (flags info))) 512
  end.

Definition common_fclose (a : Z) : S Z :=
  f ← deref a;
  _ ← update_stream a common_fflush;
  _ ← delete_stream a;
  run_M (wlibc_close (fd f)).

Definition wlibc_fclose (a : Z) : S Z := validate_file_stream a (-1) (common_fclose a).

Definition wlibc_fcloseall : S Z := _ ← close_all_streams; mret 0.

(** The stream set up anew on [new_fd], or deleted. *)
Definition reopen_stream (a new_fd flags : Z) : S Z :=
  if new_fd =? -1 then _ ← delete_stream a; mret 0
  else
    f ← deref a;
    let mode := Z.lor (Z.ldiff (buf_mode f) (Z.lor (Z.lor _IOBUFFER_RDONLY _IOBUFFER_WRONLY) _IOBUFFER_RDWR)) (get_buf_mode flags) in
    _ ← store a (File (magic f) new_fd mode 0 (buffer f) (buf_size f) 0 0 0 0 (prev f) (next f));
    mret a.

Definition wlibc_freopen (name : option (list Z)) (mode : list Z) (a : Z) : S Z :=
  validate_file_stream a 0 (
    let flags := parse_mode mode in
    _ ← update_stream a common_fflush;
    f ← deref a;
    match name with
    | None =>
        info ← run_M (get_fdinfo (fd f) (garbage 0));
        let fail : S Z := _ ← run_M (close_fd (fd f)); mret 0 in
        if negb (bool_decide (type info = FILE_HANDLE)) then _ ← run_M (set_errno EBADF); fail
        else
          h ← on_paths (reopen_handle (handle info) (Z.ldiff (Z.lor flags O_NOTDIR) (Z.lor O_CREAT O_TMPFILE)));
          if h =? 0 then fail
          else
            _ ← run_M (close_fd (fd f));
            new_fd ← run_M (register_to_fd_table h FILE_HANDLE (Z.lor flags O_NOTDIR));
            reopen_stream a new_fd flags
    | Some name =>
        _ ← run_M (close_fd (fd f));
        new_fd ← on_paths (do_open AT_FDCWD name (Z.lor flags O_NOTDIR) 448);
        reopen_stream a new_fd flags
    end).

End Streams.
