(* ===== verification/StreamListFacts.v ===== *)
(** * The list of streams is well formed

    The links of the live streams form one doubly linked list that starts at the
    head and holds every stream once, newest first; creating, deleting and using
    streams keeps it so, and the walks over it end. *)

From stdpp Require Import gmap strings.
From S2P Require Import Prelude Errno Buffer FdTable FdTableFacts FileIo Path PathFacts Open Stream StreamList.

(** ** Linked segments *)

(** [l] are the addresses from the newer end to the older one: the first is
    preceded by [nxt], the last followed by [prv]. *)
Fixpoint seg (m : gmap Z FILE) (nxt : Z) (l : list Z) (prv : Z) : Prop :=
  match l with
  | [] => True
  | a :: l => (exists f, m !! a = Some f /\ next f = nxt /\ prev f = hd prv l) /\ a <> 0 /\ seg m a l prv
  end.

Lemma last_cons_default (a d : Z) l : List.last (a :: l) d = List.last l a.
Proof.
  revert a d. induction l as [|b l IH]; intros a d; [done|].
  change (List.last (b :: l) d = List.last (b :: l) a). by rewrite !IH.
Qed.

Lemma seg_app m nxt l1 l2 prv :
  seg m nxt (l1 ++ l2) prv <-> seg m nxt l1 (hd prv l2) /\ seg m (List.last l1 nxt) l2 prv.
Proof.
  revert nxt. induction l1 as [|a l1 IH]; intros nxt; [cbn; tauto|]. cbn [app seg]. rewrite IH.
  assert (hd prv (l1 ++ l2) = hd (hd prv l2) l1) as -> by (by destruct l1).
  rewrite last_cons_default. tauto.
Qed.

Lemma seg_frame m m' nxt l prv : (forall a, a ∈ l -> m' !! a = m !! a) -> seg m nxt l prv -> seg m' nxt l prv.
Proof.
  revert nxt. induction l as [|a l IH]; intros nxt Hm; [done|]. intros ((f & Hf & Hn & Hp) & Ha & Hs). cbn [seg].
  split; [exists f; by rewrite (Hm a) by set_solver|]. split; [done|]. apply IH; [|done]. intros b Hb. apply Hm. set_solver.
Qed.

Lemma seg_insert m nxt l prv a f : a ∉ l -> seg m nxt l prv -> seg (<[a := f]> m) nxt l prv.
Proof. intros Ha. apply seg_frame. intros b Hb. apply lookup_insert_ne. by intros ->. Qed.

Lemma seg_delete m nxt l prv a : a ∉ l -> seg m nxt l prv -> seg (delete a m) nxt l prv.
Proof. intros Ha. apply seg_frame. intros b Hb. apply lookup_delete_ne. by intros ->. Qed.

(** A change of a stream that keeps its links. *)
Lemma seg_same m nxt l prv a f f' :
  m !! a = Some f -> prev f' = prev f -> next f' = next f -> seg m nxt l prv -> seg (<[a := f']> m) nxt l prv.
Proof.
  intros Hf Hp Hn. revert nxt. induction l as [|b l IH]; intros nxt; [done|]. intros ((g & Hg & Hgn & Hgp) & Hb & Hs). cbn [seg].
  split; [|split; [done|by apply IH]]. destruct (decide (a = b)) as [->|Hab].
  - exists f'. rewrite lookup_insert_eq. simplify_eq. by rewrite Hp, Hn.
  - exists g. by rewrite lookup_insert_ne.
Qed.

Lemma seg_set_next m nxt nxt' a l prv f :
  a ∉ l -> m !! a = Some f -> seg m nxt (a :: l) prv -> seg (<[a := with_next f nxt']> m) nxt' (a :: l) prv.
Proof.
  intros Ha Hf ((g & Hg & _ & Hgp) & H0 & Hs). simplify_eq. cbn [seg]. split; [|split; [done|by apply seg_insert]].
  exists (with_next f nxt'). by rewrite lookup_insert_eq.
Qed.

Lemma seg_set_prev m nxt a l prv prv' f :
  a ∉ l -> m !! a = Some f -> seg m nxt (l ++ [a]) prv -> seg (<[a := with_prev f prv']> m) nxt (l ++ [a]) prv'.
Proof.
  intros Ha Hf [Hl ((g & Hg & Hgn & _) & H0 & _)]%seg_app. simplify_eq. apply seg_app. split; [by apply seg_insert|].
  cbn [seg]. split; [|done]. exists (with_prev f prv'). by rewrite lookup_insert_eq.
Qed.

(** ** The invariant *)

(** The streams are linked in the order [l] from the head on. *)
Record linked (x : io_state) (l : list Z) : Prop := {
  lk_head : stdio_head x = hd 0 l;
  lk_seg : seg (streams x) 0 l 0;
  lk_nodup : NoDup l;
  lk_dom : forall a, a ∈ l <-> is_Some (streams x !! a)
}.

Lemma seg_nonzero m nxt l prv a : seg m nxt l prv -> a ∈ l -> a <> 0.
Proof.
  revert nxt. induction l as [|b l IH]; intros nxt Hs Ha; [by apply elem_of_nil in Ha|].
  destruct Hs as (_ & Hb & Hs). apply elem_of_cons in Ha as [->|Ha]; [done|by apply (IH b)].
Qed.

Section Lists.
Context {K : Type} {KN : Kernel K} {FK : FileKernel K} {A : Allocator} {H : Heap} {PK : PathKernel K} {OK : OpenKernel K}.
Context {SH : StreamHeap}.
Implicit Types s : state K.
Implicit Types x : io_state.

Lemma deref_ok a f x s : streams x !! a = Some f -> deref (K := K) a x s = Some ((f, x), s).
Proof. intros Hf. unfold deref. rewrite (SM_bind_Some get_S _ x s x x s eq_refl), Hf. done. Qed.

Lemma store_ok a f f' x s :
  streams x !! a = Some f -> store (K := K) a f' x s = Some (((), with_streams x (<[a := f']> (streams x))), s).
Proof. intros Hf. unfold store. rewrite (SM_bind_Some _ _ _ _ _ _ _ (deref_ok a f x s Hf)). done. Qed.

(** The new stream. *)
Abbreviation fresh fd mode n := (File FILE_STREAM_MAGIC fd mode 0 None n 0 0 0 0 0 0).

(** The same stream but for its links. *)
Definition unlinked (f : FILE) : FILE := with_links f 0 0.

(** [x'] has the streams of [x] but perhaps [a], with other links. *)
Definition keeps (a : Z) (x x' : io_state) : Prop :=
  forall b, b <> a -> option_map unlinked (streams x' !! b) = option_map unlinked (streams x !! b).

Lemma keeps_dom a x x' b : keeps a x x' -> b <> a -> is_Some (streams x' !! b) <-> is_Some (streams x !! b).
Proof.
  intros Hk Hb. specialize (Hk b Hb). destruct (streams x' !! b), (streams x !! b); try done; split; intros [? [=]]; eauto.
Qed.

Lemma insert_stream_ok a f x s l :
  streams x !! a = Some f -> a <> 0 -> a ∉ l -> stdio_head x = hd 0 l -> seg (streams x) 0 l 0 -> NoDup l ->
  exists x', insert_stream (K := K) a x s = Some (((), x'), s) /\ stdio_head x' = a /\ seg (streams x') 0 (a :: l) 0 /\
    streams x' !! a = Some (with_links f (hd 0 l) 0) /\ paths x' = paths x /\ keeps a x x'.
Proof.
  intros Hf Ha0 Hal Hh Hs Hnd. set (x2 := with_streams x (<[a := with_links f (hd 0 l) 0]> (streams x))).
  assert (streams x2 !! a = Some (with_links f (hd 0 l) 0)) as Hx2 by apply lookup_insert_eq.
  assert (forall b, b <> a -> streams x2 !! b = streams x !! b) as Hother by (intros b Hb; unfold x2; cbn; by rewrite lookup_insert_ne).
  unfold insert_stream. rewrite (SM_bind_Some _ _ _ _ _ _ _ (deref_ok a f x s Hf)), (SM_bind_Some get_S _ x s x x s eq_refl).
  rewrite Hh, (SM_bind_Some _ _ _ _ _ _ _ (store_ok a f _ x s Hf)). fold x2. destruct l as [|b l]; cbn [hd] in *.
  - exists (with_head x2 a). split_and!; try done.
    + split; [|done]. by exists (with_links f 0 0).
    + intros b Hb. cbn [streams with_head]. by rewrite Hother.
  - pose proof Hs as ((g & Hg & Hgn & Hgp) & Hb0 & _). assert (b <> a) as Hba by (intros ->; set_solver).
    rewrite (proj2 (Z.eqb_neq b 0) Hb0). cbn [negb]. assert (streams x2 !! b = Some g) as Hg2 by (by rewrite Hother).
    assert ((h ← deref b; store b (with_next h a)) x2 s = Some (((), with_streams x2 (<[b := with_next g a]> (streams x2))), s)) as Hst
      by (rewrite (SM_bind_Some _ _ _ _ _ _ _ (deref_ok b g x2 s Hg2)); by apply (store_ok b g)).
    rewrite (SM_bind_Some _ _ _ _ _ _ _ Hst). eexists. split; [done|]. cbn [streams with_streams paths with_head stdio_head].
    apply NoDup_cons in Hnd as [Hbl Hnd]. split_and!; try done.
    + cbn [seg hd]. split_and!; try done.
      * exists (with_links f b 0). by rewrite lookup_insert_ne.
      * exists (with_next g a). by rewrite lookup_insert_eq.
      * apply seg_insert; [done|]. destruct Hs as (_ & _ & Hs). apply (seg_frame (streams x)); [|done].
        intros c Hc. apply Hother. intros ->. set_solver.
    + by rewrite lookup_insert_ne.
    + intros c Hc. cbn [streams with_streams with_head]. destruct (decide (c = b)) as [->|Hcb]; [by rewrite lookup_insert_eq, Hg|].
      by rewrite lookup_insert_ne, Hother.
Qed.

Lemma create_stream_ok fd mode n x s l :
  malloc_ok sizeof_FILE = true -> linked x l ->
  exists a x', create_stream fd mode n x s = Some ((a, x'), s) /\ a <> 0 /\ (a ∉ l) /\ linked x' (a :: l) /\
    streams x' !! a = Some (with_links (fresh fd mode n) (hd 0 l) 0) /\ paths x' = paths x /\ keeps a x x'.
Proof.
  intros Hal [Hh Hs Hnd Hdom]. unfold create_stream. rewrite Hal, (SM_bind_Some get_S _ x s x x s eq_refl). cbv zeta.
  destruct (new_address_ok (streams x)) as [Ha0 Hfree]. set (a := new_address (streams x)) in *. clearbody a.
  set (f := fresh fd mode n). set (x1 := with_streams x (<[a := f]> (streams x))).
  assert (a ∉ l) as Hal' by (rewrite Hdom, Hfree; by intros [? [=]]).
  rewrite (SM_bind_Some (put_S x1) _ x s tt x1 s eq_refl).
  destruct (insert_stream_ok a f x1 s l) as (x2 & Hins & Hh2 & Hs2 & Ha2 & Hp2 & Hk2);
    [apply lookup_insert_eq|done|done|done|by apply seg_insert|done|].
  assert (keeps a x x2) as Hk.
  { intros b Hb. rewrite (Hk2 b Hb). unfold x1. cbn. by rewrite lookup_insert_ne. }
  exists a, x2. rewrite (SM_bind_Some _ _ _ _ _ _ _ Hins). split_and!; try done.
  split; try done; [by constructor|]. intros b. rewrite elem_of_cons, Hdom. destruct (decide (b = a)) as [->|Hb].
  - rewrite Ha2. split; [eauto|auto].
  - rewrite (keeps_dom a x x2 b Hk Hb). split; [by intros [|]|auto].
Qed.

(** The halves of the list are linked in [x1], which differs from [x] by links:
    without [a] the rest is a list. *)
Lemma unlinked_ok a x x1 s l1 l2 :
  linked x (l1 ++ a :: l2) -> seg (streams x1) 0 l1 (hd 0 l2) -> seg (streams x1) (List.last l1 0) l2 0 ->
  keeps a x x1 -> paths x1 = paths x -> stdio_head x1 = hd 0 (l1 ++ l2) ->
  exists x', free_stream (K := K) a x1 s = Some (((), x'), s) /\ linked x' (l1 ++ l2) /\ keeps a x x' /\ paths x' = paths x.
Proof.
  intros [_ _ Hnd Hdom] Hs1 Hs2 Hk Hp Hh. exists (with_streams x1 (delete a (streams x1))). split; [done|].
  apply NoDup_app in Hnd as (Hnd1 & Hd12 & [Ha2 Hnd2]%NoDup_cons).
  assert (a ∉ l1) as Ha1 by (intros Ha; apply (Hd12 a Ha); set_solver).
  assert (keeps a x (with_streams x1 (delete a (streams x1)))) as Hk'.
  { intros b Hb. cbn [streams with_streams]. by rewrite lookup_delete_ne, Hk. }
  split; [|done]. split; cbn [streams with_streams stdio_head]; [done| | |].
  - apply seg_app. split; by apply seg_delete.
  - apply NoDup_app. split_and!; try done. intros b Hb Hb2. apply (Hd12 b Hb). set_solver.
  - intros b. destruct (decide (b = a)) as [->|Hb].
    + rewrite lookup_delete_eq, elem_of_app. split; [tauto|by intros [? [=]]].
    + pose proof (keeps_dom _ _ _ b Hk' Hb) as E. cbn [streams with_streams] in E. rewrite E, <- Hdom, !elem_of_app, elem_of_cons. tauto.
Qed.

Lemma keeps_next a b f n x : streams x !! b = Some f -> keeps a x (with_streams x (<[b := with_next f n]> (streams x))).
Proof. intros Hf c _. cbn. destruct (decide (c = b)) as [->|Hc]; [by rewrite lookup_insert_eq, Hf|by rewrite lookup_insert_ne]. Qed.

Lemma keeps_prev a b f n x : streams x !! b = Some f -> keeps a x (with_streams x (<[b := with_prev f n]> (streams x))).
Proof. intros Hf c _. cbn. destruct (decide (c = b)) as [->|Hc]; [by rewrite lookup_insert_eq, Hf|by rewrite lookup_insert_ne]. Qed.

Lemma keeps_trans a x y z : keeps a x y -> keeps a y z -> keeps a x z.
Proof. intros H1 H2 b Hb. by rewrite (H2 b Hb), (H1 b Hb). Qed.

(** Unlinking gives the two halves of the list to each other. *)
Lemma delete_stream_ok a x s l1 l2 :
  linked x (l1 ++ a :: l2) ->
  exists x', delete_stream (K := K) a x s = Some (((), x'), s) /\ linked x' (l1 ++ l2) /\ keeps a x x' /\ paths x' = paths x.
Proof.
  intros Hlk. pose proof Hlk as [Hh Hs Hnd Hdom]. pose proof Hs as Hs0.
  apply seg_app in Hs as [Hs1 ((f & Hf & Hfn & Hfp) & Ha0 & Hs2)]. cbn [hd] in Hs1.
  apply NoDup_app in Hnd as (Hnd1 & Hd12 & [Ha2 Hnd2]%NoDup_cons).
  unfold delete_stream. rewrite (SM_bind_Some _ _ _ _ _ _ _ (deref_ok a f x s Hf)), Hfn, Hfp.
  destruct l2 as [|p l2]; destruct l1 as [|n l1 _] using rev_ind.
  - cbn [hd List.last]. change (0 =? 0) with true. cbn [negb andb].
    rewrite (SM_bind_Some (set_head 0) _ x s tt (with_head x 0) s eq_refl).
    by apply (unlinked_ok a x (with_head x 0) s [] []).
  - rewrite List.last_last in *. apply seg_app in Hs1 as [Hs1 ((g & Hg & Hgn & Hgp) & Hn0 & _)]. cbn [hd] in *.
    change (0 =? 0) with true. rewrite (proj2 (Z.eqb_neq n 0) Hn0). cbn [negb andb].
    rewrite (SM_bind_Some (n0 ← deref n; store n (with_prev n0 0)) _ x s tt (with_streams x (<[n := with_prev g 0]> (streams x))) s)
      by (rewrite (SM_bind_Some _ _ _ _ _ _ _ (deref_ok n g x s Hg)); by apply (store_ok n g)).
    apply NoDup_app in Hnd1 as (Hnd1 & Hn1 & _). apply unlinked_ok; try done; [|by apply keeps_prev|].
    + cbn [streams with_streams hd]. apply seg_app in Hs0 as [Hs0 _]. eapply seg_set_prev; [|done|exact Hs0]. intros Hn. apply (Hn1 n Hn). set_solver.
    + cbn [stdio_head with_streams]. rewrite Hh. by destruct l1.
  - cbn [hd List.last]. destruct Hs2 as ((g & Hg & Hgn & Hgp) & Hp0 & Hs2). change (0 =? 0) with true.
    rewrite (proj2 (Z.eqb_neq p 0) Hp0). cbn [negb andb]. set (x1 := with_streams x (<[p := with_next g 0]> (streams x))).
    assert ((p0 ← deref p; _ ← store p (with_next p0 0); set_head p) x s = Some (((), with_head x1 p), s)) as Hrun
      by (rewrite (SM_bind_Some _ _ _ _ _ _ _ (deref_ok p g x s Hg)), (SM_bind_Some _ _ _ _ _ _ _ (store_ok p g _ x s Hg)); done).
    rewrite (SM_bind_Some _ _ _ _ _ _ _ Hrun). apply NoDup_cons in Hnd2 as [Hp2 Hnd2].
    apply (unlinked_ok a x (with_head x1 p) s [] (p :: l2)); try done; [|by apply (keeps_next a p)].
    cbn [List.last streams with_head]. apply (seg_set_next _ a); [done|done|]. split; [by exists g|done].
  - rewrite List.last_last in *. apply seg_app in Hs1 as [Hs1 ((h & Hn & Hhn & Hhp) & Hn0 & _)]. cbn [hd] in *.
    destruct Hs2 as ((g & Hg & Hgn & Hgp) & Hp0 & Hs2). rewrite (proj2 (Z.eqb_neq p 0) Hp0), (proj2 (Z.eqb_neq n 0) Hn0). cbn [negb andb].
    set (x1 := with_streams x (<[p := with_next g n]> (streams x))).
    apply NoDup_cons in Hnd2 as [Hp2 Hnd2]. apply NoDup_app in Hnd1 as (Hnd1 & Hn1 & _).
    assert (p <> n) as Hpn by (intros ->; apply (Hd12 n); set_solver).
    assert (streams x1 !! n = Some h) as Hn' by (unfold x1; cbn; by rewrite lookup_insert_ne).
    set (x2 := with_streams x1 (<[n := with_prev h p]> (streams x1))).
    assert ((p0 ← deref p; _ ← store p (with_next p0 n); n0 ← deref n; store n (with_prev n0 p)) x s = Some (((), x2), s)) as Hrun.
    { rewrite (SM_bind_Some _ _ _ _ _ _ _ (deref_ok p g x s Hg)), (SM_bind_Some _ _ _ _ _ _ _ (store_ok p g _ x s Hg)).
      rewrite (SM_bind_Some _ _ _ _ _ _ _ (deref_ok n h x1 s Hn')). by apply (store_ok n h). }
    rewrite (SM_bind_Some _ _ _ _ _ _ _ Hrun). apply unlinked_ok; try done.
    + unfold x2. cbn [streams with_streams hd]. eapply (seg_set_prev _ _ n l1 a);
        [intros Hin; apply (Hn1 n Hin); set_solver|done|]. apply seg_insert; [|by apply seg_app in Hs0 as [Hs0 _]].
      intros Hin. apply (Hd12 p Hin). set_solver.
    + rewrite List.last_last. unfold x2. cbn [streams with_streams]. apply seg_insert; [intros Hin; apply (Hd12 n); set_solver|].
      apply (seg_set_next _ a); [done|done|]. split; [by exists g|done].
    + apply (keeps_trans a x x1); [by apply keeps_next|by apply keeps_prev].
    + cbn. rewrite Hh. by destruct l1.
Qed.

(** ** Operations keep the links *)

(** Whatever [m] returns satisfies [P]. *)
Definition gives {X} (m : M K X) (P : X -> Prop) : Prop := forall s r s', m s = Some (r, s') -> P r.

Lemma gives_ret {X} (r : X) (P : X -> Prop) : P r -> gives (mret r) P.
Proof. by intros Hr s r' s' [= <- _]. Qed.

Lemma gives_bind {X Y} (m : M K X) (k : X -> M K Y) (P : Y -> Prop) : (forall r, gives (k r) P) -> gives (m ≫= k) P.
Proof. intros Hk s r s' E. unfold mbind, M_bind in E. destruct (m s) as [[r1 s1]|]; [|done]. by eapply Hk. Qed.

Lemma gives_bind_with {X Y} (m : M K X) (k : X -> M K Y) (Q : X -> Prop) (P : Y -> Prop) :
  gives m Q -> (forall r, Q r -> gives (k r) P) -> gives (m ≫= k) P.
Proof.
  intros Hm Hk s r s' E. unfold mbind, M_bind in E. destruct (m s) as [[r1 s1]|] eqn:Em; [|done].
  eapply Hk; [by eapply Hm|done].
Qed.

Lemma gives_UB {X} (P : X -> Prop) : gives UB P.
Proof. by intros s r s'. Qed.

Definition links (f : FILE) : Z * Z * Z := (magic f, prev f, next f).

(** The stream an operation returns has the links of [f]. *)
Abbreviation same_links f := (fun r => links r.2 = links f).

(** Branches, sequences and results. *)
Ltac same_links_step :=
  match goal with
  | |- gives (mret _) _ => apply gives_ret
  | |- gives UB _ => apply gives_UB
  | |- gives (let '_ := ?p in _) _ => destruct p
  | |- gives (if ?b then _ else _) _ => destruct b
  | |- gives (match ?o with _ => _ end) _ => destruct o
  | |- links _ = links _ => first [reflexivity | done | congruence]
  end.

Lemma fflush_links f : gives (common_fflush f) (same_links f).
Proof. unfold common_fflush. repeat first [same_links_step | apply gives_bind; intros ?]. Qed.

Lemma allocate_links f : gives (allocate_buffer f) (same_links f).
Proof. unfold allocate_buffer. repeat first [same_links_step | apply gives_bind; intros ?]. Qed.

Lemma read_wrapper_links f b n : gives (read_wrapper f b n) (same_links f).
Proof.
  unfold read_wrapper. apply gives_bind. intros [r bs]. cbv zeta.
  destruct (r =? -1), (r =? 0); by apply gives_ret.
Qed.

Lemma read_blocks_links fuel f n acc r0 : gives (read_blocks fuel f n acc r0) (same_links f).
Proof.
  revert f acc r0. induction fuel as [|fuel IH]; intros f acc r0; cbn [read_blocks]; [apply gives_UB|].
  destruct (_ <? _); [|by apply gives_ret]. eapply gives_bind_with; [apply read_wrapper_links|]. intros [[r bs] f1] E. cbn in E.
  destruct (r =? 0); [by apply gives_ret|]. intros s q s' Hq. rewrite <- E. by eapply IH.
Qed.

Lemma fill_buffer_links fuel f need n : gives (fill_buffer fuel f need n) (same_links f).
Proof.
  revert f n. induction fuel as [|fuel IH]; intros f n; cbn [fill_buffer]; [apply gives_UB|].
  destruct (_ && _); [|by apply gives_ret]. eapply gives_bind_with; [apply read_wrapper_links|]. intros [[r bs] f1] E. cbn in E.
  destruct (r =? 0); [by apply gives_ret|]. apply gives_bind. intros b s q s' Hq. rewrite <- E. by eapply (IH (with_buffer f1 b)).
Qed.

Lemma read_last_links f need : gives (read_last f need) (same_links f).
Proof.
  unfold read_last. eapply gives_bind_with; [apply fill_buffer_links|]. intros [n f1] E. cbn in E.
  destruct (_ >? _); [apply gives_bind; intros ?|]; by apply gives_ret.
Qed.

Lemma read_more_links f size n : gives (read_more f size n) (same_links f).
Proof.
  unfold read_more. apply gives_bind. intros acc. eapply gives_bind_with; [apply read_blocks_links|].
  intros [[bs r] f1] E. cbn in E. destruct (r >? 0); [|by apply gives_ret].
  eapply gives_bind_with; [apply read_last_links|]. intros [bs2 f2] E2. cbn in E2. apply gives_ret. cbn. by rewrite E2.
Qed.

Lemma fread_links size count f : gives (common_fread size count f) (same_links f).
Proof.
  unfold common_fread. destruct (_ || _); [by apply gives_ret|].
  destruct (has _ _); [apply gives_bind; intros ?; by apply gives_ret|]. destruct (has _ _).
  { eapply gives_bind_with; [apply read_wrapper_links|]. intros [[r bs] f1] E. cbn in E. apply gives_ret. by destruct (negb _). }
  apply (gives_bind_with _ _ (fun f1 => links f1 = links f)).
  { destruct (_ =? _); [|by apply gives_ret]. eapply gives_bind_with; [apply fflush_links|]. intros [r f1] E. by apply gives_ret. }
  intros f1 E1. eapply gives_bind_with; [apply allocate_links|]. intros [ok f2] E2. cbn in E2.
  assert (links f2 = links f) as E by (by rewrite E2). destruct (negb ok); [by apply gives_ret|]. destruct (_ <=? _).
  - apply gives_bind. intros bs. by apply gives_ret.
  - intros s r s' Hr. rewrite <- E. by eapply read_more_links.
Qed.

Lemma start_writing_links f : gives (start_writing f) (fun f1 => links f1 = links f).
Proof.
  unfold start_writing. destruct (negb _); [|by apply gives_ret]. apply gives_bind. intros fl.
  apply (gives_bind_with _ _ (fun f1 => links f1 = links f)); [|intros f1 E; by apply gives_ret].
  repeat first [same_links_step | apply gives_bind; intros ?].
Qed.

Lemma write_more_links f data size n : gives (write_more f data size n) (same_links f).
Proof.
  unfold write_more. apply (gives_bind_with _ _ (fun o => match o with None => True | Some r => links r.2 = links f end)).
  { unfold write_first. destruct (negb _); [|by apply gives_ret]. do 2 (apply gives_bind; intros ?). cbv zeta.
    apply gives_bind. intros rw. destruct (rw =? -1); by apply gives_ret. }
  intros [[w f1]|] E; [|by apply gives_ret]. cbn in E. apply gives_bind. intros [w' r]. unfold write_result.
  destruct (r >? 0); [do 2 (apply gives_bind; intros ?)|]; apply gives_ret; cbn; by destruct (_ =? -1).
Qed.

Lemma fwrite_links data size count f : gives (common_fwrite data size count f) (same_links f).
Proof.
  unfold common_fwrite. destruct (_ =? _); [by apply gives_ret|].
  destruct (has _ _); [apply gives_bind; intros ?; by apply gives_ret|]. destruct (has _ _).
  { apply gives_bind. intros r. apply gives_ret. unfold write_result. cbn. by destruct (negb _), (r =? -1). }
  eapply gives_bind_with; [apply start_writing_links|]. intros f1 E1.
  eapply gives_bind_with; [apply allocate_links|]. intros [ok f2] E2. cbn in E2.
  assert (links f2 = links f) as E by (by rewrite E2). destruct (negb ok); [by apply gives_ret|].
  cbv zeta. set (f3 := if _ && _ then with_window f2 _ _ _ else f2).
  assert (links f3 = links f) as E3 by (unfold f3; by destruct (_ && _)). clearbody f3. destruct (_ <=? _).
  - do 2 (apply gives_bind; intros ?). by apply gives_ret.
  - intros s r s' Hr. rewrite <- E3. by eapply write_more_links.
Qed.

Lemma fseek_links f o w : gives (common_fseek f o w) (same_links f).
Proof.
  unfold common_fseek. apply (gives_bind_with _ _ (fun f1 => links f1 = links f)).
  { destruct (_ =? _); [|by apply gives_ret]. eapply gives_bind_with; [apply fflush_links|]. intros [r f1] E. by apply gives_ret. }
  intros f1 E. cbv zeta. destruct (_ && _); [by apply gives_ret|]. apply gives_bind. intros r. destruct (negb _); by apply gives_ret.
Qed.

Lemma fgetc_links f : gives (common_fgetc f) (same_links f).
Proof.
  unfold common_fgetc. destruct (_ && _); [apply gives_bind; intros ?; by apply gives_ret|].
  eapply gives_bind_with; [apply fread_links|]. intros [[r bs] f1] E. cbn in E.
  destruct (_ =? _); [by apply gives_ret|]. destruct bs; [apply gives_UB|by apply gives_ret].
Qed.

Lemma fputc_links c f : gives (common_fputc c f) (same_links f).
Proof.
  unfold common_fputc. destruct (_ && _); [apply gives_bind; intros ?; by apply gives_ret|].
  eapply gives_bind_with; [apply fwrite_links|]. intros [r f1] E. by apply gives_ret.
Qed.

Lemma ungetc_links c f : gives (common_ungetc c f) (same_links f).
Proof. unfold common_ungetc. repeat first [same_links_step | apply gives_bind; intros ?]. Qed.

Lemma fputs_links text f : gives (common_fputs text f) (same_links f).
Proof. unfold common_fputs. eapply gives_bind_with; [apply fwrite_links|]. intros [r f1] E. by apply gives_ret. Qed.

Lemma fgets_links n f : gives (common_fgets n f) (same_links f).
Proof.
  unfold common_fgets. apply (gives_bind_with _ _ (same_links f)); [|intros [acc f1] E; by apply gives_ret].
  generalize (S (Z.to_nat n)) as fuel, 0 as c, (@nil Z) as acc. intros fuel. revert f.
  induction fuel as [|fuel IH]; intros f c acc; cbn [fgets_loop]; [apply gives_UB|]. destruct (_ && _); [|by apply gives_ret].
  eapply gives_bind_with; [apply fgetc_links|]. intros [c' f1] E. cbn in E. cbv zeta. destruct (_ =? EOF); [by apply gives_ret|].
  intros s r s' Hr. rewrite <- E. by eapply IH.
Qed.

Lemma getdelim_links rounds block size d f : gives (common_getdelim rounds block size d f) (same_links f).
Proof.
  assert (forall b n r g, gives (getdelim_loop rounds g b n d r) (same_links g)) as Hloop.
  { induction rounds as [|rounds IH]; intros b n r g; cbn [getdelim_loop]; [apply gives_UB|].
    eapply gives_bind_with; [apply fgetc_links|]. intros [c f1] E. cbn in E. cbv zeta. destruct (_ =? EOF); [by apply gives_ret|].
    apply gives_bind. intros b1. destruct (_ =? d); [apply gives_bind; intros ?; by apply gives_ret|].
    destruct (_ =? n); [destruct (malloc_ok _)|]; [|apply gives_bind; intros ?; by apply gives_ret|];
      intros s q s' Hq; rewrite <- E; by eapply IH. }
  unfold common_getdelim. destruct block as [b|]; [|destruct (malloc_ok 512)].
  - eapply gives_bind_with; [apply Hloop|]. intros [[[r b1] n1] f1] E. by apply gives_ret.
  - eapply gives_bind_with; [apply Hloop|]. intros [[[r b1] n1] f1] E. by apply gives_ret.
  - apply gives_bind. intros ?. by apply gives_ret.
Qed.

Lemma setvbuf_links f user mode n : gives (common_setvbuf f user mode n) (same_links f).
Proof.
  unfold common_setvbuf. apply gives_bind. intros _. cbv zeta. destruct (mode =? _IONBF); [by apply gives_ret|].
  destruct user as [b|]; [destruct (_ && _); by apply gives_ret|]. destruct (negb (n =? 0)); [|apply gives_bind; intros ?; by apply gives_ret].
  destruct (has _ _); [destruct (malloc_ok n); [|apply gives_bind; intros ?]; by apply gives_ret|].
  destruct (_ && _); [|by apply gives_ret]. destruct (has _ _); [apply gives_bind; intros old|];
    (destruct (malloc_ok n); [|apply gives_bind; intros ?]; by apply gives_ret).
Qed.

End Lists.
