(* ===== verification/StreamListSpec.v ===== *)
(** * What the list of streams guarantees

    Every call of the interface keeps the streams linked, a walk over all of
    them ends, and closing them all leaves none. *)

From stdpp Require Import gmap strings.
From S2P Require Import Prelude Errno Buffer FdTable FdTableFacts FileIo Path PathFacts PathSpec Open OpenSpec Stream StreamFacts StreamList StreamListFacts.

Section Calls.
Context {K : Type} {KN : Kernel K} {FK : FileKernel K} {A : Allocator} {HP : Heap} {PK : PathKernel K} {OK : OpenKernel K}.
Context {SH : StreamHeap}.
Implicit Types s : state K.
Implicit Types x : io_state.

Abbreviation S := (SM io_state K).

(** [m] keeps the streams linked. *)
Definition maintains {X} (m : S X) : Prop :=
  forall x s l r x' s', linked x l -> m x s = Some ((r, x'), s') -> exists l', linked x' l'.

Lemma maintains_ret {X} (r : X) : maintains (mret r).
Proof. intros x s l r' x' s' Hl [= _ <- _]. by exists l. Qed.

Lemma maintains_bind {X Y} (m : S X) (k : X -> S Y) : maintains m -> (forall r, maintains (k r)) -> maintains (m ≫= k).
Proof.
  intros Hm Hk x s l r x' s' Hl E. unfold mbind, SM_bind, mbind, M_bind in E.
  destruct (m x s) as [[[r1 x1] s1]|] eqn:Em; [|done]. destruct (Hm _ _ _ _ _ _ Hl Em) as [l1 Hl1]. by apply (Hk r1 _ _ _ _ _ _ Hl1 E).
Qed.

(** What does not touch the streams. *)
Lemma maintains_run {X} (m : M K X) : maintains (run_M m).
Proof.
  intros x s l r x' s' Hl E. unfold run_M, mbind, M_bind in E. destruct (m s) as [[r1 s1]|]; [|done]. injection E as _ <- _. by exists l.
Qed.

Lemma maintains_get : maintains get_S.
Proof. intros x s l r x' s' Hl [= _ <- _]. by exists l. Qed.

Lemma maintains_deref a : maintains (deref a).
Proof. apply maintains_bind; [apply maintains_get|]. intros x. apply maintains_run. Qed.

Lemma maintains_paths {X} (m : SM path_state K X) : maintains (on_paths m).
Proof.
  intros x s l r x' s' Hl E. unfold on_paths, mbind, M_bind in E. destruct (m (paths x) s) as [[[r1 p1] s1]|]; [|done].
  injection E as _ <- _. exists l. by destruct Hl.
Qed.

Lemma linked_same a f f' x l :
  streams x !! a = Some f -> links f' = links f -> linked x l -> linked (with_streams x (<[a := f']> (streams x))) l.
Proof.
  intros Hf [= Hp Hn] [Hh Hs Hnd Hdom]. split; cbn; try done; [by apply (seg_same _ _ _ _ a f)|].
  intros b. rewrite Hdom. destruct (decide (b = a)) as [->|Hb]; [rewrite lookup_insert_eq, Hf; split; eauto|by rewrite lookup_insert_ne].
Qed.

Lemma update_stream_run {X} a (op : FILE -> M K (X * FILE)) x s r x' s' :
  update_stream a op x s = Some ((r, x'), s') ->
  exists f f', streams x !! a = Some f /\ op f s = Some ((r, f'), s') /\ x' = with_streams x (<[a := f']> (streams x)).
Proof.
  unfold update_stream. destruct (streams x !! a) as [f|] eqn:Hf.
  2: { unfold deref, mbind, SM_bind, mbind, M_bind. cbn. by rewrite Hf. }
  rewrite (SM_bind_Some _ _ _ _ _ _ _ (deref_ok a f x s Hf)). unfold mbind at 1, SM_bind, mbind at 1, M_bind, run_M, mbind at 1, M_bind.
  destruct (op f s) as [[[r1 f1] s1]|] eqn:Eop; [|done]. cbn [mret M_ret].
  rewrite (SM_bind_Some _ _ _ _ _ _ _ (store_ok a f f1 x s1 Hf)). intros [= <- <- <-]. by exists f, f1.
Qed.

Lemma update_stream_ok {X} a (op : FILE -> M K (X * FILE)) x s f f' r s' :
  streams x !! a = Some f -> op f s = Some ((r, f'), s') ->
  update_stream a op x s = Some ((r, with_streams x (<[a := f']> (streams x))), s').
Proof.
  intros Hf Hop. unfold update_stream. rewrite (SM_bind_Some _ _ _ _ _ _ _ (deref_ok a f x s Hf)).
  assert (run_M (op f) x s = Some (((r, f'), x), s')) as Hr by (unfold run_M, mbind, M_bind; by rewrite Hop).
  rewrite (SM_bind_Some _ _ _ _ _ _ _ Hr). by rewrite (SM_bind_Some _ _ _ _ _ _ _ (store_ok a f f' x s' Hf)).
Qed.

Lemma maintains_update {X} a (op : FILE -> M K (X * FILE)) :
  (forall f, gives (op f) (fun r => links r.2 = links f)) -> maintains (update_stream a op).
Proof.
  intros Hop x s l r x' s' Hl (f & f' & Hf & Eop & ->)%update_stream_run. exists l. apply (linked_same a f); [done| |done].
  apply (Hop f _ _ _ Eop).
Qed.

Lemma maintains_create fd mode n : maintains (create_stream fd mode n).
Proof.
  intros x s l r x' s' Hl E. destruct (malloc_ok sizeof_FILE) eqn:Hm.
  - destruct (create_stream_ok fd mode n x s l Hm Hl) as (a & x1 & E1 & _ & _ & Hl1 & _). rewrite E1 in E. injection E as _ <- _. eauto.
  - unfold create_stream in E. rewrite Hm in E. by apply (maintains_bind _ _ (maintains_run _) (fun _ => maintains_ret _) _ _ _ _ _ _ Hl E).
Qed.

Lemma linked_split x l a f : linked x l -> streams x !! a = Some f -> exists l1 l2, l = l1 ++ a :: l2.
Proof. intros Hl Hf. apply list_elem_of_split, (lk_dom _ _ Hl). by eexists. Qed.

Lemma maintains_delete a : maintains (delete_stream a).
Proof.
  intros x s l r x' s' Hl E. destruct (streams x !! a) as [f|] eqn:Hf.
  - destruct (linked_split x l a f Hl Hf) as (l1 & l2 & ->).
    destruct (delete_stream_ok a x s l1 l2 Hl) as (x1 & E1 & Hl1 & _). rewrite E1 in E. injection E as _ <- _. eauto.
  - unfold delete_stream, deref, mbind, SM_bind, mbind, M_bind in E. cbn in E. by rewrite Hf in E.
Qed.

Lemma maintains_validate {X} a (ret : X) m : maintains m -> maintains (validate_file_stream a ret m).
Proof.
  intros Hm. unfold validate_file_stream. destruct (a =? 0); [apply maintains_bind; [apply maintains_run|intros _; apply maintains_ret]|].
  apply maintains_bind; [apply maintains_deref|]. intros f. destruct (negb _); [|done].
  apply maintains_bind; [apply maintains_run|intros _; apply maintains_ret].
Qed.

Lemma maintains_invalid {X} (r : X) : maintains (invalid r).
Proof. apply maintains_bind; [apply maintains_run|intros _; apply maintains_ret]. Qed.

End Calls.

Create HintDb stdio.
#[export] Hint Resolve maintains_ret maintains_run maintains_get maintains_deref maintains_paths maintains_create maintains_delete
  maintains_validate maintains_invalid maintains_update : stdio.
#[export] Hint Resolve fflush_links fread_links fwrite_links fseek_links fgetc_links fputc_links ungetc_links fputs_links fgets_links
  getdelim_links setvbuf_links : stdio.

(** Sequences and branches of calls. *)
Ltac maintain :=
  repeat match goal with
  | |- maintains (_ ≫= _) => apply maintains_bind; [|intros ?]
  | |- maintains (let '_ := ?p in _) => destruct p
  | |- maintains (if ?b then _ else _) => destruct b
  | |- maintains (match ?o with _ => _ end) => destruct o
  | |- maintains (validate_file_stream _ _ _) => apply maintains_validate
  | |- _ => solve [auto with stdio]
  end.

(** ** Calls *)

(** The functions of the interface that change streams or the list; a pointer is
    an address. *)
Inductive call :=
  | Cfopen (name mode : option (list Z))
  | Cfdopen (fd : Z) (mode : list Z)
  | Cfreopen (name : option (list Z)) (mode : list Z) (a : Z)
  | Cfclose (a : Z)
  | Cfread (buffer : bool) (size count a : Z)
  | Cfwrite (buffer : option (list Z)) (size count a : Z)
  | Cfgetc (a : Z)
  | Cfputc (c a : Z)
  | Cfgets (buffer : bool) (count a : Z)
  | Cfputs (text : option (list Z)) (a : Z)
  | Cungetc (c a : Z)
  | Cfseek (a offset whence : Z)
  | Cfflush (a : Z)
  | Csetvbuf (a : Z) (user : option (list Z)) (mode size : Z)
  | Cgetdelim (rounds : nat) (null_args : bool) (block : option (list Z)) (size delimiter a : Z)
  | Cclearerr (a : Z)
  | Cfpurge (a : Z)
  | Cfreadptrinc (a n : Z)
  | Cfseterr (a : Z).

Section Runs.
Context {K : Type} {KN : Kernel K} {FK : FileKernel K} {A : Allocator} {HP : Heap} {PK : PathKernel K} {OK : OpenKernel K}.
Context {SH : StreamHeap}.
Implicit Types s : state K.
Implicit Types x : io_state.

Abbreviation S := (SM io_state K).

(** A call with its result dropped. *)
Definition run_call (c : call) : S unit :=
  match c with
  | Cfopen name mode => _ ← wlibc_fopen name mode; mret ()
  | Cfdopen fd mode => _ ← wlibc_fdopen fd mode; mret ()
  | Cfreopen name mode a => _ ← wlibc_freopen name mode a; mret ()
  | Cfclose a => _ ← wlibc_fclose a; mret ()
  | Cfread buffer size count a => _ ← wlibc_fread buffer size count a; mret ()
  | Cfwrite buffer size count a => _ ← wlibc_fwrite buffer size count a; mret ()
  | Cfgetc a => _ ← wlibc_fgetc a; mret ()
  | Cfputc c a => _ ← wlibc_fputc c a; mret ()
  | Cfgets buffer count a => _ ← wlibc_fgets buffer count a; mret ()
  | Cfputs text a => _ ← wlibc_fputs text a; mret ()
  | Cungetc c a => _ ← wlibc_ungetc c a; mret ()
  | Cfseek a offset whence => _ ← wlibc_fseek a offset whence; mret ()
  | Cfflush a => _ ← wlibc_fflush a; mret ()
  | Csetvbuf a user mode size => _ ← wlibc_setvbuf a user mode size; mret ()
  | Cgetdelim rounds null_args block size delimiter a =>
      _ ← wlibc_getdelim rounds null_args block size delimiter a; mret ()
  | Cclearerr a => wlibc_clearerr a
  | Cfpurge a => wlibc_fpurge a
  | Cfreadptrinc a n => wlibc_freadptrinc a n
  | Cfseterr a => wlibc_fseterr a
  end.

Fixpoint run_calls (cs : list call) : S unit :=
  match cs with [] => mret () | c :: cs => _ ← run_call c; run_calls cs end.

Lemma maintains_flush_from fuel a status : maintains (flush_from fuel a status).
Proof. revert a status. induction fuel as [|fuel IH]; intros a status; cbn [flush_from]; maintain. Qed.

Lemma maintains_pure {X} a (r : X) (g : FILE -> FILE) : (forall f, links (g f) = links f) -> maintains (K := K) (update_stream a (fun f => mret (r, g f))).
Proof. intros Hg. apply maintains_update. intros f. apply gives_ret. apply Hg. Qed.

Lemma maintains_reopen a new_fd flags : maintains (K := K) (reopen_stream a new_fd flags).
Proof.
  unfold reopen_stream. destruct (new_fd =? -1); [maintain|].
  intros x s l r x' s' Hl E. destruct (streams x !! a) as [f|] eqn:Hf.
  - rewrite (SM_bind_Some _ _ _ _ _ _ _ (deref_ok a f x s Hf)) in E. cbv zeta in E.
    rewrite (SM_bind_Some _ _ _ _ _ _ _ (store_ok a f _ x s Hf)) in E. injection E as _ <- _. exists l. by apply (linked_same a f).
  - unfold deref, mbind, SM_bind, mbind, M_bind in E. cbn in E. by rewrite Hf in E.
Qed.

#[local] Hint Resolve maintains_flush_from maintains_reopen : stdio.

Lemma fread_pair_links size count f : gives (K := K) ('(r, bs, f) ← common_fread size count f; mret ((r, bs), f)) (fun r => links r.2 = links f).
Proof. eapply gives_bind_with; [apply fread_links|]. intros [[r bs] f1] E. by apply gives_ret. Qed.

Lemma fgets_some_links count f : gives (K := K) ('(bs, f) ← common_fgets count f; mret (Some bs, f)) (fun r => links r.2 = links f).
Proof. eapply gives_bind_with; [apply fgets_links|]. intros [bs f1] E. by apply gives_ret. Qed.

Lemma getdelim_triple_links rounds block size d f :
  gives (K := K) ('(r, block, size, f) ← common_getdelim rounds block size d f; mret ((r, block, size), f)) (fun r => links r.2 = links f).
Proof. eapply gives_bind_with; [apply getdelim_links|]. intros [[[r b1] n1] f1] E. by apply gives_ret. Qed.

#[local] Hint Resolve fread_pair_links fgets_some_links getdelim_triple_links : stdio.

Lemma maintains_call c : maintains (run_call c).
Proof.
  destruct c; cbn [run_call];
    unfold wlibc_fopen, wlibc_fdopen, wlibc_freopen, wlibc_fclose, common_fclose, wlibc_fread, wlibc_fwrite, wlibc_fgetc, wlibc_fputc,
      wlibc_fgets, wlibc_fputs, wlibc_ungetc, wlibc_fseek, wlibc_fflush, common_flushall, wlibc_setvbuf, wlibc_getdelim,
      wlibc_clearerr, wlibc_fpurge, wlibc_freadptrinc, wlibc_fseterr; maintain; apply maintains_pure; intros f; cbv zeta; repeat case_match; done.
Qed.

Lemma maintains_calls cs : maintains (run_calls cs).
Proof. induction cs as [|c cs IH]; cbn [run_calls]; [auto with stdio|]. apply maintains_bind; [apply maintains_call|]. by intros []. Qed.

(** C5: the streams stay linked. After any sequence of calls on streams that is
    defined, opening and closing included, the live streams form one doubly
    linked list from the head, each in it once and linked to its neighbours both
    ways. *)
Theorem streams_stay_linked cs x s x' s'
    (Hlinked : exists l, linked x l) (Hrun : run_calls cs x s = Some (((), x'), s')) : exists l, linked x' l.
Proof. destruct Hlinked as [l Hl]. by apply (maintains_calls cs x s l () x' s'). Qed.

(** ** Walks over the list *)

(** Flushing the stream at [a] is defined, whatever the state. *)
Definition flushable (m : gmap Z FILE) (a : Z) : Prop := forall f s, m !! a = Some f -> is_Some (common_fflush f s).

(** A walk from [hd 0 l] on. *)
Lemma flush_from_ends l : forall fuel x s status nxt,
  seg (streams x) nxt l 0 -> NoDup l -> Forall (flushable (streams x)) l -> (length l <= fuel)%nat ->
  exists r x' s', flush_from (K := K) fuel (hd 0 l) status x s = Some ((r, x'), s').
Proof.
  induction l as [|a l IH]; intros fuel x s status nxt Hs Hnd Hfl Hfuel.
  - exists status, x, s. by destruct fuel.
  - destruct Hs as ((f & Hf & Hfn & Hfp) & Ha0 & Hs). apply NoDup_cons in Hnd as [Hal Hnd]. apply Forall_cons in Hfl as [Ha Hfl].
    destruct fuel as [|fuel]; [cbn in Hfuel; lia|]. cbn [flush_from hd]. rewrite (proj2 (Z.eqb_neq a 0) Ha0).
    destruct (Ha f s Hf) as [[[r f1] s1] Hrun]. pose proof (fflush_links f _ _ _ Hrun) as Hlinks. cbn in Hlinks.
    rewrite (SM_bind_Some _ _ _ _ _ _ _ (update_stream_ok a _ x s f f1 r s1 Hf Hrun)). set (x1 := with_streams x (<[a := f1]> (streams x))).
    assert (streams x1 !! a = Some f1) as Hf1 by apply lookup_insert_eq.
    rewrite (SM_bind_Some _ _ _ _ _ _ _ (deref_ok a f1 x1 s1 Hf1)). injection Hlinks as _ Hp Hn. rewrite Hp, Hfp.
    apply (IH fuel x1 s1 _ a); [by apply seg_insert|done| |cbn in Hfuel; lia].
    apply Forall_forall. intros b Hb g s2 Hg. unfold x1 in Hg. cbn in Hg. rewrite lookup_insert_ne in Hg by (intros ->; done).
    rewrite Forall_forall in Hfl. by apply (Hfl b Hb).
Qed.

Lemma linked_size x l : linked x l -> length l = base.size (streams x).
Proof.
  intros [_ _ Hnd Hdom]. rewrite <- size_dom, <- (size_list_to_set (C := gset Z)) by done. f_equal.
  apply set_eq. intros a. rewrite elem_of_list_to_set, elem_of_dom. apply Hdom.
Qed.

(** flushing all streams ends: on a list that is linked, with as many steps
    as there are streams, when flushing each of them is defined. *)
Theorem flushall_ends x l s
    (Hlinked : linked x l) (Hfl : forall a, a ∈ l -> flushable (streams x) a) :
  exists r x' s', common_flushall (K := K) x s = Some ((r, x'), s') /\ exists l', linked x' l'.
Proof.
  destruct (flush_from_ends l (base.size (streams x)) x s 0 0) as (r & x' & s' & Hrun);
    [apply Hlinked|apply Hlinked|by apply Forall_forall|by rewrite (linked_size x l)|].
  rewrite <- (lk_head _ _ Hlinked) in Hrun. exists r, x', s'. split; [exact Hrun|]. by apply (maintains_flush_from _ _ _ _ _ _ _ _ _ Hlinked Hrun).
Qed.

(** a closed stream is gone and the others stay: closing a stream flushes it,
    takes it out of the list, and leaves every other stream in the store with
    its buffer, its position and its flags. *)
Theorem fclose_removes a f x s l1 l2 r f1 s1 r2 s2
    (Hlinked : linked x (l1 ++ a :: l2)) (Hf : streams x !! a = Some f)
    (Hflush : common_fflush f s = Some ((r, f1), s1)) (Hclose : wlibc_close (fd f) s1 = Some (r2, s2)) :
  exists x', common_fclose a x s = Some ((r2, x'), s2) /\ linked x' (l1 ++ l2) /\ streams x' !! a = None /\ keeps a x x'.
Proof.
  pose proof (fflush_links f _ _ _ Hflush) as Hlinks. cbn in Hlinks.
  pose proof (update_stream_ok a _ x s f f1 r s1 Hf Hflush) as Hup.
  set (x1 := with_streams x (<[a := f1]> (streams x))) in *.
  destruct (delete_stream_ok a x1 s1 l1 l2) as (x2 & Hdel & Hl2 & Hk & _); [by apply (linked_same a f)|].
  exists x2. split_and!; try done.
  - unfold common_fclose. rewrite (SM_bind_Some _ _ _ _ _ _ _ (deref_ok a f x s Hf)), (SM_bind_Some _ _ _ _ _ _ _ Hup).
    rewrite (SM_bind_Some _ _ _ _ _ _ _ Hdel). unfold run_M, mbind, M_bind. by rewrite Hclose.
  - destruct (streams x2 !! a) as [g|] eqn:Eg; [|done]. exfalso.
    assert (a ∈ l1 ++ l2) as Hin by (apply (lk_dom _ _ Hl2); by eexists).
    destruct Hlinked as [_ _ (_ & Hd & [Ha _]%NoDup_cons)%NoDup_app _]. apply elem_of_app in Hin as [Hin|]; [|done].
    apply (Hd a Hin). by left.
  - intros b Hb. rewrite (Hk b Hb). unfold x1. cbn. by rewrite lookup_insert_ne.
Qed.

(** ** From a name to a stream *)

(** The stream [fopen] makes stands for the file at its beginning. *)
Lemma opened_stream_rep (h : Z) (file_of : K -> list Z * Z) fd mode s c p n :
  mode = _IOBUFFER_RDONLY \/ mode = _IOBUFFER_WRONLY \/ mode = _IOBUFFER_RDWR -> file_at h file_of fd false s c 0 ->
  stream_rep h file_of (negb (mode =? _IOBUFFER_WRONLY)) (negb (mode =? _IOBUFFER_RDONLY))
    (File FILE_STREAM_MAGIC fd (Z.lor (Z.lor _IOBUFFER_INTERNAL _IOFBF) mode) 0 None 512 0 0 0 0 p n) s (View c 0 false).
Proof.
  intros Hmode Hf. split; [|done|done|by apply holds_idle].
  destruct Hmode as [->|[->| ->]]; split; cbn; try done.
Qed.

(** C24: [fopen] gives a stream on the file. When the file opens, as a regular file
    of content [c], [fopen] puts a new stream in front of the list that stands
    for [c] at position 0, to be read and written as the mode says. *)
Theorem fopen_gives_stream (h : Z) (file_of : K -> list Z * Z) name mode x s l fd p1 s1 c
    (alloc_ok : forall n, malloc_ok n = true) (Hname : name <> []) (Hlinked : linked x l)
    (Hopen : do_open AT_FDCWD name (Z.lor (parse_mode mode) O_NOTDIR) 448 (paths x) s = Some ((fd, p1), s1))
    (Hfd : fd <> -1) (Hfile : file_at h file_of fd false s1 c 0) :
  let bm := get_buf_mode (parse_mode mode) in
  exists a x' f, wlibc_fopen (Some name) (Some mode) x s = Some ((a, x'), s1) /\ linked x' (a :: l) /\ streams x' !! a = Some f /\
    stream_rep h file_of (negb (bm =? _IOBUFFER_WRONLY)) (negb (bm =? _IOBUFFER_RDONLY)) f s1 (View c 0 false).
Proof.
  intros bm. assert (on_paths (do_open AT_FDCWD name (Z.lor (parse_mode mode) O_NOTDIR) 448) x s = Some ((fd, with_paths x p1), s1)) as Hp
    by (unfold on_paths, mbind, M_bind; by rewrite Hopen).
  destruct (create_stream_ok fd (Z.lor (Z.lor _IOBUFFER_INTERNAL _IOFBF) bm) 512 (with_paths x p1) s1 l)
    as (a & x' & Hrun & _ & _ & Hl' & Ha & _); [apply alloc_ok|by destruct Hlinked|].
  exists a, x'. eexists. split_and!; [|done|exact Ha|].
  - unfold wlibc_fopen. destruct name; [done|]. cbv zeta. rewrite (SM_bind_Some _ _ _ _ _ _ _ Hp).
    by rewrite (proj2 (Z.eqb_neq fd (-1)) Hfd).
  - apply opened_stream_rep; [|done]. unfold bm, get_buf_mode. destruct (has _ _); [auto|]. destruct (has _ _); auto.
Qed.

End Runs.

(** ** A process with no streams *)

#[export] Instance first_fit : StreamHeap.
Proof.
  refine {| new_address m := fresh (dom m ∪ {[0]}) |}. intros m.
  pose proof (is_fresh (dom m ∪ {[0]})) as Hfr. split.
  - intros E. rewrite E in Hfr. apply Hfr. set_solver.
  - apply not_elem_of_dom. set_solver.
Defined.

Import Disk Volume Willing Stream.Plenty.

Definition no_streams : io_state := IoState ∅ 0 0 0 0 known.

Lemma no_streams_linked : linked no_streams [].
Proof. split; try done; [constructor|]. intros a. rewrite elem_of_nil. split; [done|by intros [? [=]]]. Qed.

Lemma streams_stay_linked_witness :
  exists x' s', run_calls [Cfopen (Some (str "C:/file")) (Some (str "w+")); Cfdopen 3 (str "r+")] no_streams (process O_RDWR [] 0) =
      Some (((), x'), s') /\ exists l, linked x' l.
Proof.
  eexists _, _. split; [vm_compute; reflexivity|].
  eapply (streams_stay_linked [Cfopen (Some (str "C:/file")) (Some (str "w+")); Cfdopen 3 (str "r+")] no_streams (process O_RDWR [] 0)).
  - exists []. apply no_streams_linked.
  - vm_compute. reflexivity.
Defined.

Lemma flushall_ends_witness :
  exists r x' s', common_flushall (K := disk) no_streams (process O_RDWR [] 0) = Some ((r, x'), s') /\ exists l', linked x' l'.
Proof.
  apply (flushall_ends (K := disk) no_streams [] (process O_RDWR [] 0)).
  - apply no_streams_linked.
  - intros a Ha. by apply elem_of_nil in Ha.
Defined.

Lemma fopen_gives_stream_witness :
  exists a x' f, exists s1, wlibc_fopen (Some (str "C:/file")) (Some (str "r+")) no_streams (process O_RDWR [65; 66] 0) = Some ((a, x'), s1) /\
    linked x' [a] /\ streams x' !! a = Some f /\ stream_rep 100 (fun d : disk => d) true true f s1 (View [65; 66] 0 false).
Proof.
  edestruct (fopen_gives_stream 100 (fun d : disk => d) (str "C:/file") (str "r+") no_streams (process O_RDWR [65; 66] 0) [])
    as (a & x' & f & Hrun & Hl & Hf & Hrep).
  - reflexivity.
  - discriminate.
  - apply no_streams_linked.
  - vm_compute. reflexivity.
  - discriminate.
  - split; [by eexists|reflexivity].
  - exists a, x', f. eexists. split; [exact Hrun|]. split; [exact Hl|]. split; [exact Hf|exact Hrep].
Defined.

(** One stream, at address 1, on descriptor 3. *)
Definition one_stream : io_state :=
  IoState {[1 := File FILE_STREAM_MAGIC 3 0x411 0 None 512 0 0 0 0 0 0]} 1 0 0 0 known.

Lemma one_stream_linked : linked one_stream [1].
Proof.
  split; try done.
  - split; [|done]. by eexists.
  - apply NoDup_singleton.
  - intros a. rewrite list_elem_of_singleton. cbn. split; [intros ->; by eexists|]. intros [f Hf].
    by apply lookup_singleton_Some in Hf as [-> _].
Qed.

Lemma fclose_removes_witness :
  exists x', common_fclose 1 one_stream (process O_RDWR [] 0) = Some ((0, x'), State
      [Fdinfo 0 INVALID_HANDLE 0 0; Fdinfo 0 INVALID_HANDLE 0 0; Fdinfo 0 INVALID_HANDLE 0 0; Fdinfo 0 INVALID_HANDLE O_RDWR 1] 1 0 0 0 0 ([], 0)) /\
    linked x' [] /\ streams x' !! 1 = None /\ keeps 1 one_stream x'.
Proof.
  eapply (fclose_removes 1 _ one_stream (process O_RDWR [] 0) [] []).
  - apply one_stream_linked.
  - reflexivity.
  - reflexivity.
  - vm_compute. reflexivity.
Defined.
