(* ===== verification/PrintfStream.v ===== *)
(** * Formatted output to streams and descriptors

    [wlibc_vfprintf] and [wlibc_vdprintf] of src/stdio/printf.c: the text is
    printed to a growing buffer first and then written at once. *)

From stdpp Require Import gmap strings.
From S2P Require Import Prelude Errno Buffer Varargs Printf PrintfFacts PrintfSpec.
From S2P Require Import FdTable FdTableFacts FileIo Path PathFacts PathSpec Open OpenSpec Stream StreamFacts StreamList StreamListFacts StreamListSpec.

Section Output.
Context {K : Type} {KN : Kernel K} {FK : FileKernel K} {A : Allocator} {HP : Heap} {PK : PathKernel K} {OK : OpenKernel K}.
Context {SH : StreamHeap}.
Implicit Types s : state K.
Implicit Types x : io_state.

(** What [out.data] points to: null when nothing was printed. *)
Definition printed_bytes (out : buffer_t) : option (list Z) :=
  if Buffer.size out =? 0 then None else Some (contents out).

(** The value returned and the memory [%n] may have changed. *)
Definition wlibc_vfprintf (m : mem) (a : Z) (format : option (list Z)) (args : list Z) : SM io_state K (Z * mem) :=
  match format with
  | None => invalid (-1, m)
  | Some format =>
      if a =? 0 then invalid (-1, m)
      else
        r ← run_M (lift (wlibc_printf_internal m empty_memory_buffer format args));
        fresult ← wlibc_fwrite (printed_bytes (p_out r)) 1 (Buffer.pos (p_out r)) a;
        mret (if fresult =? 0 then -1 else p_ret r, p_mem r)
  end.

(** [fdinfo info = {0}]. *)
Definition wlibc_vdprintf (m : mem) (fd : Z) (format : option (list Z)) (args : list Z) : M K (Z * mem) :=
  match format with
  | None => r ← fail EINVAL; mret (r, m)
  | Some format =>
      info ← get_fdinfo fd (Fdinfo 0 INVALID_HANDLE 0 0);
      if handle info =? 0 then r ← fail EBADF; mret (r, m)
      else
        r ← lift (wlibc_printf_internal m empty_memory_buffer format args);
        fresult ← wlibc_write fd (printed_bytes (p_out r)) (Buffer.pos (p_out r));
        mret (if fresult =? -1 then -1 else p_ret r, p_mem r)
  end.

(** The buffer a text was printed to. *)
Lemma printed_wf (alloc_ok : forall n, malloc_ok n = true) m format args r :
  wlibc_printf_internal m empty_memory_buffer format args = Some r ->
  wf (p_out r) /\ p_ret r = swrap 32 (zlen (contents (p_out r))) /\ Buffer.pos (p_out r) = zlen (contents (p_out r)).
Proof.
  intros Hr. destruct (printf_internal_Printfs alloc_ok m format args) as [[[m' cs]|] Ho];
    specialize (Ho _ wf_empty); rewrite Hr in Ho; simplify_eq/=.
  pose proof (put_all_Emits alloc_ok empty_memory_buffer cs wf_empty) as Hem. pose proof (emits_wf _ _ _ Hem) as Hwf.
  split; [done|]. split; [|symmetry; by apply length_contents].
  rewrite (emits_contents _ _ _ Hem). cbn. by rewrite emit_all_grow.
Qed.

(** C26: [fprintf] writes the text it prints, on a stream with room for it. The
    stream stands for a file and may be written; if its last operation was a write,
    the part of the file its buffer stands for ([start] to [fin]) is empty or the
    whole buffer, or the text fits in what is left of it ([roomy]). Then a call that
    prints a text that is not empty returns its length, and the stream stands for
    the file with the text at the position and still has a whole buffer if it had
    one; a call that prints nothing, such as one with an empty format, fails.

    The condition can fail after [fflush]: the buffer then begins at the position
    but does not end a whole buffer later, and a longer text takes bytes that were
    never written into the file ([StreamSpec.write_after_flush_inserts]). *)
Theorem vfprintf_writes (h : Z) (file_of : K -> list Z * Z) {RF : RegularFile h file_of} m a format args r rd x s f v
    (alloc_ok : forall n, malloc_ok n = true) (Ha : a <> 0) (Hf : streams x !! a = Some f) (Hmagic : magic f = FILE_STREAM_MAGIC)
    (Hrep : stream_rep h file_of rd true f s v) (Hoff : offset v < 2 ^ 61) (Hroom : roomy f (zlen (contents (p_out r))))
    (Hr : wlibc_printf_internal m empty_memory_buffer format args = Some r) (Hlen : zlen (contents (p_out r)) < 2 ^ 31) :
  let text := contents (p_out r) in
  exists x' s', 
    match text with
    | [] => wlibc_vfprintf m a (Some format) args x s = Some (((-1, p_mem r), x'), s') /\ errno s' = (if Buffer.size (p_out r) =? 0 then EINVAL else errno s)
    | _ => wlibc_vfprintf m a (Some format) args x s = Some (((zlen text, p_mem r), x'), s') /\
        exists f', streams x' !! a = Some f' /\ stream_rep h file_of rd true f' s' (view_write v text) /\ (full f -> full f')
    end.
Proof.
  intros text. destruct (printed_wf alloc_ok m format args r Hr) as (Hwf & Hret & Hpos). fold text in Hret, Hpos, Hlen, Hroom.
  assert (forall k, wlibc_vfprintf m a (Some format) args x s = k <->
    (fresult ← wlibc_fwrite (printed_bytes (p_out r)) 1 (zlen text) a; mret (if fresult =? 0 then -1 else p_ret r, p_mem r)) x s = k) as Hunf.
  { intros k. unfold wlibc_vfprintf. rewrite (proj2 (Z.eqb_neq a 0) Ha), Hr. rewrite <- Hpos. done. }
  destruct text as [|c text'] eqn:Etext.
  - destruct (Buffer.size (p_out r) =? 0) eqn:Esz.
    + exists x, (with_errno s EINVAL). split; [|done]. apply Hunf. unfold printed_bytes. by rewrite Esz.
    + exists x, s. split; [|done]. apply Hunf. unfold printed_bytes. by rewrite Esz.
  - rewrite <- Etext in *. assert (0 < zlen text) as Hpos0 by (rewrite Etext; cbn [length]; lia).
    destruct (fwrite_refines h file_of alloc_ok rd true f s v text 1 (zlen text) Hrep) as (f' & s' & Hrun & Hrep' & Hfull' & _);
      [done|lia|lia|lia|lia|done|done|].
    exists (with_streams x (<[a := f']> (streams x))), s'. split; [|exists f'; split; [apply lookup_insert_eq|by split]].
    apply Hunf. unfold printed_bytes. fold text. rewrite (proj2 (Z.eqb_neq (Buffer.size (p_out r)) 0)) by (destruct Hwf; lia).
    assert (wlibc_fwrite (Some text) 1 (zlen text) a x s = Some ((zlen text, with_streams x (<[a := f']> (streams x))), s')) as Hw.
    { unfold wlibc_fwrite. rewrite Z.mul_1_l, u64_small, (proj2 (Z.eqb_neq (zlen text) 0)) by lia.
      unfold validate_file_stream. rewrite (proj2 (Z.eqb_neq a 0) Ha), (SM_bind_Some _ _ _ _ _ _ _ (deref_ok a f x s Hf)), Hmagic.
      change (negb (FILE_STREAM_MAGIC =? FILE_STREAM_MAGIC)) with false. cbv iota. by apply (update_stream_ok a _ x s f). }
    rewrite (SM_bind_Some _ _ _ _ _ _ _ Hw), (proj2 (Z.eqb_neq (zlen text) 0)) by lia.
    rewrite Hret, (swrap_small 32) by lia. done.
Qed.

End Output.

Import Disk Volume Willing Stream.Plenty.

(** ["<%d>"] with 42 to the stream at address 1. *)
Lemma vfprintf_writes_witness :
  exists x' s', wlibc_vfprintf ∅ 1 (Some (str "<%d>")) [42] one_stream (process O_RDWR [65; 66; 67; 68; 69] 0) = Some (((4, ∅), x'), s') /\
    exists f', streams x' !! 1 = Some f' /\
      stream_rep 1 (fun d : disk => d) true true f' s' (View [ch "<"; ch "4"; ch "2"; ch ">"; 69] 4 false) /\
      (full (File FILE_STREAM_MAGIC 3 0x411 0 None 512 0 0 0 0 0 0) -> full f').
Proof.
  destruct (wlibc_printf_internal ∅ empty_memory_buffer (str "<%d>") [42]) as [r|] eqn:E; [|vm_compute in E; discriminate].
  pose proof (vfprintf_writes 1 (fun d : disk => d) ∅ 1 (str "<%d>") [42] r true one_stream (process O_RDWR [65; 66; 67; 68; 69] 0)
    (File FILE_STREAM_MAGIC 3 0x411 0 None 512 0 0 0 0 0 0) (View [65; 66; 67; 68; 69] 0 false) (fun _ => eq_refl)) as Hw.
  vm_compute in E. injection E as <-. apply Hw.
  - discriminate.
  - reflexivity.
  - reflexivity.
  - apply (opened_stream_rep 1 (fun d : disk => d) 3 _IOBUFFER_RDWR); [auto|apply (process_file O_RDWR)].
  - cbn. lia.
  - intros E. discriminate E.
  - vm_compute. reflexivity.
  - vm_compute. reflexivity.
Defined.
