(* ===== verification/Getopt.v ===== *)
(** * getopt

    src/getopt/getopt.c. The function keeps its progress in globals ([optind],
    [optarg], ...) and in static variables, and it permutes [argv]; all of them
    are fields of one state here, with the diagnostics it prints and its
    stores through [longindex] and the [flag] pointers. *)

From S2P Require Import Prelude Errno.

Record option_t := Option { name : list Z; has_arg : Z; flag : option Z; val : Z }.

Definition no_argument : Z := 0.
Definition required_argument : Z := 1.
Definition optional_argument : Z := 2.

(** The messages written to [stderr]. *)
Inductive diagnostic :=
  | does_not_allow_parameter (long_option : list Z)
  | requires_parameter (long_option : list Z)
  | unrecognized_long (long_option : list Z)
  | requires_argument (option : Z)
  | unrecognized_short (option : Z).

Record getopt_state := Getopt {
  optarg : option (list Z);
  optind : Z;
  opterr : Z;
  optopt : Z;
  index : Z;
  exchange : Z;
  error_return : Z;
  processing_short_option : bool;
  processing_long_option : bool;
  stop_at_first_nonoption : bool;
  assign_nonoption_to_one : bool;
  skip_first_char_option : bool;
  getopt_initialized : bool;
  argv : list (list Z);
  errno : Z;
  longindex : option Z;
  flag_stores : list (Z * Z);
  stderr : list diagnostic
}.

Definition with_optarg (s : getopt_state) (x : option (list Z)) : getopt_state :=
  Getopt x (optind s) (opterr s) (optopt s) (index s) (exchange s) (error_return s)
    (processing_short_option s) (processing_long_option s) (stop_at_first_nonoption s)
    (assign_nonoption_to_one s) (skip_first_char_option s) (getopt_initialized s) (argv s) (errno s)
    (longindex s) (flag_stores s) (stderr s).

Definition with_optind (s : getopt_state) (x : Z) : getopt_state :=
  Getopt (optarg s) x (opterr s) (optopt s) (index s) (exchange s) (error_return s)
    (processing_short_option s) (processing_long_option s) (stop_at_first_nonoption s)
    (assign_nonoption_to_one s) (skip_first_char_option s) (getopt_initialized s) (argv s) (errno s)
    (longindex s) (flag_stores s) (stderr s).

Definition with_optopt (s : getopt_state) (x : Z) : getopt_state :=
  Getopt (optarg s) (optind s) (opterr s) x (index s) (exchange s) (error_return s)
    (processing_short_option s) (processing_long_option s) (stop_at_first_nonoption s)
    (assign_nonoption_to_one s) (skip_first_char_option s) (getopt_initialized s) (argv s) (errno s)
    (longindex s) (flag_stores s) (stderr s).

Definition with_index (s : getopt_state) (x : Z) : getopt_state :=
  Getopt (optarg s) (optind s) (opterr s) (optopt s) x (exchange s) (error_return s)
    (processing_short_option s) (processing_long_option s) (stop_at_first_nonoption s)
    (assign_nonoption_to_one s) (skip_first_char_option s) (getopt_initialized s) (argv s) (errno s)
    (longindex s) (flag_stores s) (stderr s).

Definition with_processing (s : getopt_state) (short long : bool) : getopt_state :=
  Getopt (optarg s) (optind s) (opterr s) (optopt s) (index s) (exchange s) (error_return s)
    short long (stop_at_first_nonoption s)
    (assign_nonoption_to_one s) (skip_first_char_option s) (getopt_initialized s) (argv s) (errno s)
    (longindex s) (flag_stores s) (stderr s).

(** The variables set by the reset and the initialization. *)
Definition with_modes (s : getopt_state) (stop assign skip init : bool) (exch err : Z) : getopt_state :=
  Getopt (optarg s) (optind s) (opterr s) (optopt s) (index s) exch err
    (processing_short_option s) (processing_long_option s) stop assign skip init (argv s) (errno s)
    (longindex s) (flag_stores s) (stderr s).

Definition with_argv (s : getopt_state) (a : list (list Z)) (exch : Z) : getopt_state :=
  Getopt (optarg s) (optind s) (opterr s) (optopt s) (index s) exch (error_return s)
    (processing_short_option s) (processing_long_option s) (stop_at_first_nonoption s)
    (assign_nonoption_to_one s) (skip_first_char_option s) (getopt_initialized s) a (errno s)
    (longindex s) (flag_stores s) (stderr s).

Definition with_effects (s : getopt_state) (e : Z) (li : option Z) (fs : list (Z * Z)) (d : list diagnostic)
    : getopt_state :=
  Getopt (optarg s) (optind s) (opterr s) (optopt s) (index s) (exchange s) (error_return s)
    (processing_short_option s) (processing_long_option s) (stop_at_first_nonoption s)
    (assign_nonoption_to_one s) (skip_first_char_option s) (getopt_initialized s) (argv s) e li fs d.

(** [if (print_errors) fprintf(stderr, ...)]. *)
Definition report (s : getopt_state) (print_errors : bool) (d : diagnostic) : getopt_state :=
  if print_errors then with_effects s (errno s) (longindex s) (flag_stores s) (stderr s ++ [d]) else s.

(** [argv[i]]; [argv[argc]] is the null pointer. *)
Definition arg (s : getopt_state) (i : Z) : option (list Z) :=
  if 0 <=? i then argv s !! Z.to_nat i else None.

(** [strchr(str, c)] as the rest of the string from the byte found. *)
Fixpoint strchr (str : list Z) (c : Z) : option (list Z) :=
  match str with
  | [] => None
  | x :: str' => if x =? c then Some str else strchr str' c
  end.

(** [argv[j][0] == '-' && argv[j][1] != '\0']. *)
Definition looks_like_option (a : list Z) : bool := (byte_at a 0 =? ch "-") && negb (byte_at a 1 =? 0).

(** The arguments from [i] rotated by one: the one at [i] goes to the end. *)
Definition rotate_from (l : list (list Z)) (i : Z) : list (list Z) :=
  match drop (Z.to_nat i) l with
  | [] => l
  | a :: rest => take (Z.to_nat i) l ++ rest ++ [a]
  end.

(** ** Long options *)

(** [longopts[j].flag == NULL ? return val : ( *flag = val, return 0)]. *)
Definition return_long (s : getopt_state) (o : option_t) : Z * getopt_state :=
  match flag o with
  | None => (val o, s)
  | Some p => (0, with_effects s (errno s) (longindex s) (flag_stores s ++ [(p, val o)]) (stderr s))
  end.

(** The option found, at [j]; [value] is what follows the equal sign. *)
Definition found_long (s : getopt_state) (print_errors store_index : bool) (j : Z) (o : option_t)
    (long_option : list Z) (value : option (list Z)) : Z * getopt_state :=
  let s := if store_index then with_effects s (errno s) (Some j) (flag_stores s) (stderr s) else s in
  let s := with_optind (with_index s 0) (optind s + 1) in
  if has_arg o =? no_argument then
    match value with
    | Some _ => (error_return s, report s print_errors (does_not_allow_parameter long_option))
    | None => return_long (with_optarg s None) o
    end
  else if has_arg o =? required_argument then
    match value with
    | Some v => return_long (with_optarg s (Some v)) o
    | None =>
        match arg s (optind s) with
        | Some parameter =>
            if (optind s >=? exchange s) || (byte_at parameter 0 =? ch "-")
            then (error_return s, report s print_errors (requires_parameter long_option))
            else return_long (with_optind (with_optarg s (Some parameter)) (optind s + 1)) o
        | None => (error_return s, report s print_errors (requires_parameter long_option))
        end
    end
  else if has_arg o =? optional_argument then
    match value with
    | Some v => return_long (with_optarg s (Some v)) o
    | None =>
        match arg s (optind s) with
        | Some parameter =>
            if (optind s <? exchange s) && negb (byte_at parameter 0 =? ch "-")
            then return_long (with_optind (with_optarg s (Some parameter)) (optind s + 1)) o
            else return_long (with_optarg s None) o
        | None => return_long (with_optarg s None) o
        end
    end
  else return_long s o.

(** The index and the entry of the option called [nm]. *)
Fixpoint find_long (longopts : list option_t) (nm : list Z) (j : Z) : option (Z * option_t) :=
  match longopts with
  | [] => None
  | o :: longopts => if decide (name o = nm) then Some (j, o) else find_long longopts nm (j + 1)
  end.

(** The name before the equal sign and the value after it. *)
Definition split_equal (long_option : list Z) : list Z * option (list Z) :=
  match strchr long_option (ch "=") with
  | None => (long_option, None)
  | Some rest => (take (length long_option - length rest) long_option, Some (drop 1 rest))
  end.

Definition process_long (s : getopt_state) (print_errors store_index : bool)
    (longopts : option (list option_t)) (argument : list Z) : Z * getopt_state :=
  match longopts with
  | None => (error_return s, with_optind (with_index s 0) (optind s + 1))
  | Some longopts =>
      let long_option := drop (Z.to_nat (index s)) argument in
      let '(nm, value) := split_equal long_option in
      match find_long longopts nm 0 with
      | Some (j, o) => found_long s print_errors store_index j o long_option value
      | None => (-1, report s print_errors (unrecognized_long long_option))
      end
  end.

(** ** Short options *)

Definition process_short (s : getopt_state) (print_errors : bool) (optstring argument : list Z)
    : Z * getopt_state :=
  match optstring with
  | [] => (-1, s)
  | _ =>
      let option := byte_at argument (index s) in
      let start := if skip_first_char_option s then drop 1 optstring else optstring in
      let found := strchr start option in
      let s := with_index s (index s + 1) in
      let s := if byte_at argument (index s) =? 0 then with_index (with_optind s (optind s + 1)) 0 else s in
      match found with
      | Some f =>
          if (byte_at f 1 =? ch ":") && (byte_at f 2 =? ch ":") then
            if negb (index s =? 0) then
              (option, with_index (with_optind (with_optarg s (Some (drop (Z.to_nat (index s)) argument)))
                                     (optind s + 1)) 0)
            else
              match arg s (optind s) with
              | Some a =>
                  if optind s <? exchange s
                  then (option, with_optind (with_optarg s (Some a)) (optind s + 1))
                  else (option, with_optarg s None)
              | None => (option, with_optarg s None)
              end
          else if byte_at f 1 =? ch ":" then
            if negb (index s =? 0) then
              (option, with_index (with_optind (with_optarg s (Some (drop (Z.to_nat (index s)) argument)))
                                     (optind s + 1)) 0)
            else
              match arg s (optind s) with
              | Some a =>
                  if optind s <? exchange s
                  then (option, with_optind (with_optarg s (Some a)) (optind s + 1))
                  else (error_return s, with_optarg (report s print_errors (requires_argument option)) None)
              | None => (error_return s, with_optarg (report s print_errors (requires_argument option)) None)
              end
          else (option, with_optarg s None)
      | None =>
          (error_return s,
           with_optopt (with_optarg (report s print_errors (unrecognized_short option)) None) option)
      end
  end.

(** ** The scan of the arguments *)

(** At the start of an argument ([index == 0]): [true] when it is ["--"]. *)
Definition classify (s : getopt_state) (argument : list Z) : bool * getopt_state :=
  if index s =? 0 then
    let s := with_processing s false false in
    if (byte_at argument 0 =? ch "-") && (byte_at argument 1 =? ch "-") then
      if byte_at argument 2 =? 0 then (true, s)
      else (false, with_processing (with_index s 2) false true)
    else if (byte_at argument 0 =? ch "-") && negb (byte_at argument 1 =? 0) then
      (false, with_processing (with_index s 1) true false)
    else (false, s)
  else (false, s).

(** The [for] loop from [i]. An argument that is no option is passed over when no
    option follows it, and moved to the end otherwise. *)
Fixpoint scan (fuel : nat) (argc : Z) (print_errors store_index : bool) (optstring : list Z)
    (longopts : option (list option_t)) (i : Z) (s : getopt_state) : option (Z * getopt_state) :=
  match fuel with
  | O => None
  | S fuel =>
      if i <? argc then
        argument ← arg s i;
        let '(stop, s) := classify s argument in
        if stop : bool then Some (-1, with_optind s (optind s + 1))
        else if negb (processing_long_option s || processing_short_option s) then
          if stop_at_first_nonoption s then Some (-1, s)
          else if assign_nonoption_to_one s then
            Some (1, with_optarg (with_optind s (optind s + 1)) (Some argument))
          else if existsb looks_like_option (drop (Z.to_nat (i + 1)) (argv s)) then
            scan fuel argc print_errors store_index optstring longopts i
              (with_argv s (rotate_from (argv s) i) (exchange s - 1))
          else scan fuel argc print_errors store_index optstring longopts (i + 1) s
        else if processing_long_option s then
          Some (process_long s print_errors store_index longopts argument)
        else Some (process_short s print_errors optstring argument)
      else Some (-1, s)
  end.

Definition reset (s : getopt_state) : getopt_state :=
  if optind s =? 0 then
    with_modes (with_processing (with_optind (with_index s 0) 1) false false)
      false false false false (exchange s) (error_return s)
  else s.

Definition initialize (s : getopt_state) (posixly_correct : bool) (argc : Z) (optstring : list Z) : getopt_state :=
  if negb (getopt_initialized s) then
    let c := byte_at optstring 0 in
    with_modes s
      (if (c =? ch "+") || posixly_correct then true else stop_at_first_nonoption s)
      (if c =? ch "-" then true else assign_nonoption_to_one s)
      (if (c =? ch "+") || (c =? ch "-") || (c =? ch ":") then true else skip_first_char_option s)
      true argc (if c =? ch ":" then ch ":" else ch "?")
  else s.

(** [argc] is the length of [argv]; [posixly_correct] tells whether the
    environment variable is set. The loop needs at most a rotation per
    argument and a step per argument. *)
Definition wlibc_common_getopt (posixly_correct store_index : bool) (optstring : option (list Z))
    (longopts : option (list option_t)) (s : getopt_state) : option (Z * getopt_state) :=
  match optstring with
  | None => Some (-1, with_effects s EINVAL (longindex s) (flag_stores s) (stderr s))
  | Some optstring =>
      let argc := zlen (argv s) in
      let print_errors := negb (opterr s =? 0) in
      let s := reset s in
      let s := initialize s posixly_correct argc optstring in
      if optind s =? argc then Some (-1, with_index s 0)
      else scan (S (2 * length (argv s))) argc print_errors store_index optstring longopts (optind s) s
  end.

(** The values the variables have when the program starts. *)
Definition initial_state (arguments : list (list Z)) : getopt_state :=
  Getopt None 1 1 (ch "?") 0 0 0 false false false false false false arguments 0 None [] [].
