(* ===== verification/GetoptFacts.v ===== *)
(** * What getopt guarantees

    Every call returns, permutes the arguments it has not consumed and moves
    [optind] forward inside [argv]; a command line rendered from a list of
    short options is parsed back into that list. *)

From S2P Require Import Prelude Errno Getopt.

(** ** Rotations *)

Lemma rotate_from_split l i a rest :
  drop (Z.to_nat i) l = a :: rest -> rotate_from l i = take (Z.to_nat i) l ++ rest ++ [a].
Proof. intros H. unfold rotate_from. by rewrite H. Qed.

Lemma rotate_from_Permutation l i : rotate_from l i ≡ₚ l.
Proof.
  unfold rotate_from. destruct (drop (Z.to_nat i) l) as [|a rest] eqn:E; [done|].
  rewrite <- (take_drop (Z.to_nat i) l) at 2. rewrite E. f_equiv. by rewrite Permutation_app_comm.
Qed.

Lemma rotate_from_length l i : length (rotate_from l i) = length l.
Proof. apply Permutation_length, rotate_from_Permutation. Qed.

Lemma rotate_from_take l i n : (n <= Z.to_nat i)%nat -> take n (rotate_from l i) = take n l.
Proof.
  intros Hn. unfold rotate_from. destruct (drop (Z.to_nat i) l) as [|a rest] eqn:E; [done|].
  destruct (decide (Z.to_nat i <= length l)%nat) as [H|H].
  - rewrite take_app_le by (rewrite length_take; lia). rewrite take_take. f_equal. lia.
  - by rewrite drop_ge in E by lia.
Qed.

(** ** Classification *)

Lemma classify_argv s a : argv (classify s a).2 = argv s /\ optind (classify s a).2 = optind s /\
  exchange (classify s a).2 = exchange s.
Proof. unfold classify. tests; done. Qed.

(** An argument at which an option starts. *)
Lemma classify_option s a :
  index s = 0 -> looks_like_option a = true ->
  (classify s a).1 = true \/
  processing_long_option (classify s a).2 || processing_short_option (classify s a).2 = true.
Proof.
  intros Hi Ha. unfold classify, looks_like_option in *. rewrite Hi. simpl.
  destruct (byte_at a 0 =? ch "-"), (byte_at a 1 =? ch "-"), (byte_at a 1 =? 0); simpl in *; try done;
    destruct (byte_at a 2 =? 0); simpl; auto.
Qed.

(** What is left alone by processing an option: the arguments. *)
Lemma return_long_argv s o : argv (return_long s o).2 = argv s /\ optind (return_long s o).2 = optind s.
Proof. unfold return_long. by destruct (flag o). Qed.

Lemma report_argv s p d : argv (report s p d) = argv s /\ optind (report s p d) = optind s.
Proof. unfold report. by destruct p. Qed.

(** Consuming an option moves [optind] by at most two, and past the end of
    [argv] never. *)
Definition consumes (s s' : getopt_state) : Prop :=
  argv s' = argv s /\ optind s <= optind s' <= zlen (argv s).

Lemma arg_bound s i a : arg s i = Some a -> 0 <= i < zlen (argv s).
Proof. unfold arg. destruct (0 <=? i) eqn:E; [|done]. intros H%lookup_lt_Some. lia. Qed.

Lemma consumes_return_long s s1 o :
  argv s1 = argv s -> optind s <= optind s1 <= zlen (argv s) -> consumes s (return_long s1 o).2.
Proof. intros Ha Ho. unfold consumes. by rewrite (proj1 (return_long_argv s1 o)), (proj2 (return_long_argv s1 o)). Qed.

Lemma consumes_report s s1 p d :
  argv s1 = argv s -> optind s <= optind s1 <= zlen (argv s) -> consumes s (report s1 p d).
Proof. intros Ha Ho. unfold consumes. by rewrite (proj1 (report_argv s1 p d)), (proj2 (report_argv s1 p d)). Qed.

Lemma found_long_consumes s p st j o lo v :
  optind s < zlen (argv s) -> consumes s (found_long s p st j o lo v).2.
Proof.
  intros Ho. unfold found_long.
  set (s1 := if st then _ else s). assert (argv s1 = argv s /\ optind s1 = optind s) as [E1 E2] by (unfold s1; by destruct st).
  set (s2 := with_optind _ _).
  assert (argv s2 = argv s /\ optind s2 = optind s + 1) as [F1 F2] by (simpl; by rewrite E1, E2).
  assert (forall x o, consumes s (return_long (with_optarg s2 x) o).2) as R1
    by (intros; apply consumes_return_long; simpl; rewrite ?F1, ?F2; simpl in *; [done|lia]).
  assert (forall d, consumes s (report s2 p d)) as R2
    by (intros; apply consumes_report; rewrite ?F1, ?F2; [done|lia]).
  assert (forall a x o, arg s2 (optind s2) = Some a ->
    consumes s (return_long (with_optind (with_optarg s2 x) (optind s2 + 1)) o).2) as R3.
  { intros a x o' Hb%arg_bound. rewrite F1, F2 in Hb.
    apply consumes_return_long; simpl; rewrite ?F2, ?E2; [done|lia]. }
  destruct (has_arg o =? no_argument); [destruct v; [apply R2|apply R1]|].
  destruct (has_arg o =? required_argument).
  { destruct v; [apply R1|]. destruct (arg s2 (optind s2)) as [a|] eqn:E; [|apply R2].
    destruct (_ || _); [apply R2|by eapply R3]. }
  destruct (has_arg o =? optional_argument).
  { destruct v; [apply R1|]. destruct (arg s2 (optind s2)) as [a|] eqn:E; [|apply R1].
    destruct (_ && _); [by eapply R3|apply R1]. }
  apply consumes_return_long; rewrite ?F1, ?F2; [done|lia].
Qed.

Lemma process_long_consumes s p st lo a :
  optind s < zlen (argv s) -> consumes s (process_long s p st lo a).2.
Proof.
  intros Ho. unfold process_long. destruct lo as [lo|]; [|split; simpl; [done|lia]].
  destruct (split_equal _) as [nm v]. destruct (find_long lo nm 0) as [[j o]|].
  - by apply found_long_consumes.
  - apply consumes_report; [done|lia].
Qed.

Lemma process_short_consumes s p os a :
  optind s < zlen (argv s) -> consumes s (process_short s p os a).2.
Proof.
  intros Ho. unfold process_short. destruct os as [|c os]; [split; [done|simpl; lia]|].
  set (s1 := with_index s (index s + 1)).
  set (s2 := if byte_at a (index s1) =? 0 then _ else s1).
  assert (argv s2 = argv s /\ (index s2 = 0 \/ optind s2 = optind s) /\ optind s <= optind s2 <= optind s + 1)
    as (E1 & E2 & E3).
  { unfold s2. destruct (_ =? 0); simpl; split; try done; split; auto; lia. }
  assert (forall x, arg s2 (optind s2) = Some x -> optind s2 < zlen (argv s)) as Hb
    by (intros x H%arg_bound; rewrite E1 in H; lia).
  destruct (strchr _ _) as [f|].
  2: { unfold consumes. simpl. rewrite (proj1 (report_argv _ _ _)), (proj2 (report_argv _ _ _)), E1.
       split; [done|lia]. }
  assert (forall x d, consumes s (with_optarg (report s2 p d) x)) as R1.
  { intros x d. unfold consumes. simpl. rewrite (proj1 (report_argv _ _ _)), (proj2 (report_argv _ _ _)), E1.
    split; [done|lia]. }
  destruct (_ && _); [|destruct (byte_at f 1 =? ch ":")].
  all: try (destruct (index s2 =? 0) eqn:Ei; cbn [negb];
    [destruct (arg s2 (optind s2)) as [x|] eqn:Ea; [specialize (Hb x eq_refl); destruct (optind s2 <? exchange s2)|]|]).
  all: try apply R1; unfold consumes; simpl; rewrite ?E1; split; try done; lia.
Qed.

(** ** Every call returns *)

(** In the middle of an argument the kind of option is known. *)
Definition getopt_inv (s : getopt_state) : Prop :=
  index s = 0 \/ processing_long_option s || processing_short_option s = true.

Lemma classify_inv s a :
  getopt_inv s -> getopt_inv (classify s a).2 /\
  (processing_long_option (classify s a).2 || processing_short_option (classify s a).2 = false ->
   index (classify s a).2 = 0 /\ ((classify s a).1 = true \/ looks_like_option a = false)).
Proof.
  intros I. destruct (decide (index s = 0)) as [H0|H0].
  - pose proof (classify_option s a H0) as C. unfold classify, getopt_inv, looks_like_option in *.
    rewrite H0 in *. simpl in *.
    destruct (byte_at a 0 =? ch "-"), (byte_at a 1 =? ch "-"), (byte_at a 1 =? 0); simpl in *;
      try destruct (byte_at a 2 =? 0); simpl in *; split; auto; done.
  - assert (classify s a = (false, s)) as ->
      by (unfold classify; by replace (index s =? 0) with false by lia).
    simpl. split; [done|]. intros Hp. destruct I as [I|I]; [done|]. by rewrite I in Hp.
Qed.

(** What processing an option leaves of the position inside the argument. *)
Lemma return_long_position s o :
  index (return_long s o).2 = index s.
Proof. unfold return_long. by destruct (flag o). Qed.

Lemma report_position s p d :
  index (report s p d) = index s /\ processing_long_option (report s p d) = processing_long_option s /\
  processing_short_option (report s p d) = processing_short_option s.
Proof. unfold report. by destruct p. Qed.

Lemma found_long_position s p st j o lo v : index (found_long s p st j o lo v).2 = 0.
Proof.
  unfold found_long. set (s1 := if st then _ else s). set (s2 := with_optind _ _).
  assert (index s2 = 0) as E by done.
  assert (forall s3 o, index s3 = 0 -> index (return_long s3 o).2 = 0) as R
    by (intros; by rewrite return_long_position).
  assert (forall d, index (report s2 p d) = 0) as R2 by (intros; by rewrite (proj1 (report_position s2 p d))).
  repeat match goal with
  | |- context [if ?b then _ else _] => destruct b
  | |- context [match ?x with Some _ => _ | None => _ end] => destruct x
  end; simpl; rewrite ?R, ?R2; done.
Qed.

Lemma process_long_inv s p st lo a :
  processing_long_option s = true -> getopt_inv (process_long s p st lo a).2.
Proof.
  intros H. unfold process_long. destruct lo as [lo|]; [|by left].
  destruct (split_equal _) as [nm v]. destruct (find_long lo nm 0) as [[j o]|].
  - left. apply found_long_position.
  - right. destruct (report_position s p (unrecognized_long (drop (Z.to_nat (index s)) a))) as (_ & E1 & _).
    simpl. by rewrite E1, H.
Qed.

Lemma process_short_inv s p os a :
  processing_short_option s = true -> getopt_inv (process_short s p os a).2.
Proof.
  intros H. unfold process_short. destruct os as [|c os]; [right; simpl; by rewrite H, orb_true_r|].
  set (s1 := with_index s (index s + 1)). set (s2 := if byte_at a (index s1) =? 0 then _ else s1).
  assert (processing_short_option s2 = true) as E by (unfold s2; by destruct (_ =? 0)).
  unfold getopt_inv.
  destruct (strchr _ _) as [f|].
  2: { right. simpl. destruct (report_position s2 p (unrecognized_short (byte_at a (index s)))) as (_ & _ & E2).
       by rewrite E2, E, orb_true_r. }
  pose proof (report_position s2 p (requires_argument (byte_at a (index s)))) as (_ & _ & E2).
  repeat match goal with
  | |- context [if ?b then _ else _] =>
      lazymatch b with
      | context [if _ then _ else _] => fail
      | _ => destruct b
      end
  | |- context [match ?x with Some _ => _ | None => _ end] => destruct x
  end; simpl; rewrite ?E2, ?E, ?orb_true_r; auto.
Qed.

(** The number of arguments before the next one that looks like an option. *)
Fixpoint first_option (l : list (list Z)) : nat :=
  match l with
  | [] => 0
  | a :: l => if looks_like_option a then 0 else S (first_option l)
  end.

Lemma first_option_app l a : existsb looks_like_option l = true -> first_option (l ++ [a]) = first_option l.
Proof. induction l as [|x l IH]; simpl; [done|]. destruct (looks_like_option x); simpl; [done|]. intros H. by rewrite IH. Qed.

Lemma first_option_le l : (first_option l <= length l)%nat.
Proof. induction l as [|x l IH]; simpl; [lia|]. destruct (looks_like_option x); lia. Qed.

(** The result of a scan that started at [optind s]. *)
Record scanned (s : getopt_state) (res : option (Z * getopt_state)) : Prop := {
  sc_returns : exists r s', res = Some (r, s') /\ argv s' ≡ₚ argv s /\
    take (Z.to_nat (optind s)) (argv s') = take (Z.to_nat (optind s)) (argv s) /\
    optind s <= optind s' <= zlen (argv s) /\ getopt_inv s'
}.

Lemma scanned_consumes s1 s r s' :
  argv s1 = argv s -> optind s1 = optind s -> consumes s1 s' -> getopt_inv s' -> scanned s (Some (r, s')).
Proof.
  intros E1 E2 [C1 C2] I. rewrite E1, E2 in *. split. exists r, s'. split; [done|]. rewrite C1. done.
Qed.

(** Rotating at [i] brings the next option one step closer. *)
Lemma rotate_first_option l i a rest :
  drop (Z.to_nat i) l = a :: rest -> looks_like_option a = false -> existsb looks_like_option rest = true ->
  existsb looks_like_option (drop (Z.to_nat i) (rotate_from l i)) = true /\
  S (first_option (drop (Z.to_nat i) (rotate_from l i))) = first_option (drop (Z.to_nat i) l).
Proof.
  intros E Ha Hr. assert (Z.to_nat i <= length l)%nat as Hl.
  { destruct (decide (Z.to_nat i <= length l)%nat); [done|]. by rewrite drop_ge in E by lia. }
  rewrite (rotate_from_split _ _ _ _ E), E.
  assert (length (take (Z.to_nat i) l) = Z.to_nat i) as L by (rewrite length_take; lia).
  rewrite <- L at 1 3. rewrite !drop_app_length. simpl. rewrite Ha, first_option_app by done.
  split; [|done]. by rewrite existsb_app, Hr.
Qed.

Lemma scanned_same s1 s res :
  argv s1 = argv s -> optind s1 = optind s -> scanned s1 res -> scanned s res.
Proof. intros E1 E2 [H]. rewrite E1, E2 in H. by split. Qed.

Lemma scanned_rotate s i res e :
  optind s <= i -> scanned (with_argv s (rotate_from (argv s) i) e) res -> scanned s res.
Proof.
  intros Hi [(r & s' & -> & Hp & Ht & Ho & I)]. simpl in *. rewrite rotate_from_length in Ho.
  split. exists r, s'. split; [done|]. split; [by rewrite Hp, rotate_from_Permutation|]. split; [|done].
  rewrite Ht. apply rotate_from_take. lia.
Qed.

Lemma scan_scanned fuel p st os lo i s :
  getopt_inv s -> 0 <= optind s <= i -> i <= zlen (argv s) ->
  (zlen (argv s) - i < Z.of_nat fuel \/
   (existsb looks_like_option (drop (Z.to_nat i) (argv s)) = true /\
    (first_option (drop (Z.to_nat i) (argv s)) < fuel)%nat)) ->
  scanned s (scan fuel (zlen (argv s)) p st os lo i s).
Proof.
  revert i s. induction fuel as [|fuel IH]; intros i s I Ho Hz Hf; [lia|]. cbn [scan].
  destruct (i <? zlen (argv s)) eqn:Hi.
  2: { split. exists (-1), s. repeat split; (done || lia). }
  destruct (lookup_lt_is_Some_2 (argv s) (Z.to_nat i)) as [a Ha]; [lia|].
  assert (arg s i = Some a) as -> by (unfold arg; by replace (0 <=? i) with true by lia).
  cbn [mbind option_bind]. pose proof (drop_S _ _ _ Ha) as Hd.
  replace (S (Z.to_nat i)) with (Z.to_nat (i + 1)) in Hd by lia.
  destruct (classify_argv s a) as (Ea & Eo & _). destruct (classify_inv s a I) as [I1 C1].
  destruct (classify s a) as [stop s1]. simpl in *.
  destruct stop.
  { apply (scanned_consumes s1 s); [done|done|split; simpl; [done|rewrite Ea; lia]|]. by destruct I1; [left|right]. }
  destruct (processing_long_option s1 || processing_short_option s1) eqn:Ep; simpl.
  - destruct (processing_long_option s1) eqn:El.
    + pose proof (process_long_consumes s1 p st lo a ltac:(rewrite Ea; lia)) as C.
      pose proof (process_long_inv s1 p st lo a El). destruct (process_long _ _ _ _ _).
      by apply (scanned_consumes s1 s).
    + pose proof (process_short_consumes s1 p os a ltac:(rewrite Ea; lia)) as C.
      pose proof (process_short_inv s1 p os a Ep). destruct (process_short _ _ _ _).
      by apply (scanned_consumes s1 s).
  - destruct (C1 eq_refl) as [Hx [?|Hl]]; [done|].
    destruct (stop_at_first_nonoption s1).
    { apply (scanned_consumes s1 s); [done|done|split; [done|rewrite Ea; lia]|done]. }
    destruct (assign_nonoption_to_one s1).
    { apply (scanned_consumes s1 s); [done|done|split; simpl; [done|rewrite Ea; lia]|]. by left. }
    apply (scanned_same s1 s); [done|done|]. rewrite <- Ea in Hd, Hf, Hi, Hz |- *.
    destruct (existsb looks_like_option (drop (Z.to_nat (i + 1)) (argv s1))) eqn:Ex.
    + destruct (rotate_first_option _ _ _ _ Hd Hl Ex) as [R1 R2].
      apply (scanned_rotate s1 i _ (exchange s1 - 1)); [lia|].
      set (s2 := with_argv s1 _ _).
      replace (zlen (argv s1)) with (zlen (argv s2)) by (simpl; by rewrite rotate_from_length).
      apply IH; simpl; rewrite ?rotate_from_length; [by left|lia|lia|].
      right. split; [done|]. destruct Hf as [Hf|[_ Hf]]; [|lia].
      rewrite Hd in R2. simpl in R2. rewrite Hl in R2. injection R2 as R2. rewrite R2.
      pose proof (first_option_le (drop (Z.to_nat (i + 1)) (argv s1))) as L. rewrite length_drop in L. lia.
    + apply IH; [done|lia|lia|].
      left. destruct Hf as [Hf|[Hf _]]; [lia|]. rewrite Hd in Hf. simpl in Hf. by rewrite Hl, Ex in Hf.
Qed.

(** [optind] at the start of the scan: 0 asks for a restart. *)
Definition start_index (s : getopt_state) : Z := if optind s =? 0 then 1 else optind s.

(** every call of [getopt] returns, and keeps the command line intact: [argv] is
    permuted only from [optind] on, [optind] moves forward and never past
    the end, and the state is again one from which the next call returns. *)
Theorem getopt_returns (posix st : bool) (os : list Z) (lo : option (list option_t)) (s : getopt_state)
    (I : getopt_inv s) (Ho : 0 <= optind s) (Hs : start_index s <= zlen (argv s)) :
  exists r s', wlibc_common_getopt posix st (Some os) lo s = Some (r, s') /\
    argv s' ≡ₚ argv s /\
    take (Z.to_nat (start_index s)) (argv s') = take (Z.to_nat (start_index s)) (argv s) /\
    start_index s <= optind s' <= zlen (argv s) /\ getopt_inv s'.
Proof.
  unfold wlibc_common_getopt. cbv zeta.
  set (s1 := initialize (reset s) posix (zlen (argv s)) os).
  assert (argv s1 = argv s /\ optind s1 = start_index s /\ getopt_inv s1) as (Ea & Eo & I1).
  { unfold s1, initialize, reset, start_index. destruct (optind s =? 0), (getopt_initialized _);
      simpl; repeat split; try done; by left. }
  assert (0 <= start_index s) as Hp by (unfold start_index; destruct (optind s =? 0); lia).
  destruct (optind s1 =? zlen (argv s)) eqn:E.
  - exists (-1), (with_index s1 0). split; [done|]. simpl. rewrite Ea, Eo. repeat split; try (done || lia). by left.
  - pose proof (scan_scanned (S (2 * length (argv s1))) (negb (opterr s =? 0)) st os lo (optind s1) s1 I1) as [H];
      [lia|rewrite Ea; lia|left; lia|].
    rewrite Ea, Eo in *. exact H.
Qed.

(** ["prog" "file" "-v"] with the option string ["v"]. *)
Lemma getopt_returns_witness :
  exists r s', wlibc_common_getopt false false (Some [ch "v"]) None
      (initial_state [[ch "p"]; [ch "f"]; [ch "-"; ch "v"]]) = Some (r, s') /\
    argv s' ≡ₚ [[ch "p"]; [ch "f"]; [ch "-"; ch "v"]] /\ take 1 (argv s') = [[ch "p"]] /\
    1 <= optind s' <= 3 /\ getopt_inv s'.
Proof.
  apply (getopt_returns false false [ch "v"] None (initial_state [[ch "p"]; [ch "f"]; [ch "-"; ch "v"]]));
    [by left|simpl; lia|unfold start_index; simpl; lia].
Defined.

(** ** Parsing back a rendered command line *)

Inductive short_item :=
  | Flags (c : Z) (cs : list Z)
  | Joined (c : Z) (v : list Z)
  | Separate (c : Z) (v : list Z).

Definition render (it : short_item) : list (list Z) :=
  match it with
  | Flags c cs => [ch "-" :: c :: cs]
  | Joined c v => [ch "-" :: c :: v]
  | Separate c v => [[ch "-"; c]; v]
  end.

(** What the caller of [getopt] should see: the option and [optarg]. *)
Definition events (it : short_item) : list (Z * option (list Z)) :=
  match it with
  | Flags c cs => (fun c => (c, None)) <$> (c :: cs)
  | Joined c v | Separate c v => [(c, Some v)]
  end.

(** How the option string declares an option character. *)
Definition is_flag (os : list Z) (c : Z) : Prop :=
  0 < c /\ exists f, strchr os c = Some f /\ byte_at f 1 <> ch ":".
Definition takes_argument (os : list Z) (c : Z) : Prop :=
  0 < c /\ exists f, strchr os c = Some f /\ byte_at f 1 = ch ":".

Definition wf_item (os : list Z) (it : short_item) : Prop :=
  match it with
  | Flags c cs => c <> ch "-" /\ is_flag os c /\ Forall (is_flag os) cs
  | Joined c v => c <> ch "-" /\ takes_argument os c /\ byte_at v 0 <> 0
  | Separate c v => c <> ch "-" /\ takes_argument os c
  end.

(** Calling [getopt] until it returns -1. *)
Fixpoint getopt_all (fuel : nat) (os : list Z) (s : getopt_state)
    : option (list (Z * option (list Z)) * getopt_state) :=
  match fuel with
  | O => None
  | S fuel =>
      '(r, s) ← wlibc_common_getopt false false (Some os) None s;
      if r =? -1 then Some ([], s)
      else '(rs, s') ← getopt_all fuel os s; Some ((r, optarg s) :: rs, s')
  end.

(** The state between calls: at argument [i], byte [k] (0 at its start). *)
Record at_arg (os : list Z) (L : list (list Z)) (s : getopt_state) (i k : Z) : Prop := {
  at_argv : argv (initialize (reset s) false (zlen L) os) = L /\ argv s = L;
  at_optind : optind (initialize (reset s) false (zlen L) os) = i;
  at_index : index (initialize (reset s) false (zlen L) os) = k;
  at_exchange : exchange (initialize (reset s) false (zlen L) os) = zlen L;
  at_modes : let s := initialize (reset s) false (zlen L) os in
    stop_at_first_nonoption s = false /\ assign_nonoption_to_one s = false /\
    skip_first_char_option s = false /\ getopt_initialized s = true;
  at_short : let s := initialize (reset s) false (zlen L) os in
    k <> 0 -> processing_long_option s = false /\ processing_short_option s = true
}.

Lemma initialize_id s posix argc os :
  getopt_initialized s = true -> optind s <> 0 -> initialize (reset s) posix argc os = s.
Proof.
  intros Hi Ho. unfold reset. replace (optind s =? 0) with false by lia. unfold initialize. by rewrite Hi.
Qed.

(** A state that is initialized needs no initialization. *)
Lemma at_arg_intro os L s i k :
  argv s = L -> optind s = i -> index s = k -> exchange s = zlen L -> i <> 0 ->
  stop_at_first_nonoption s = false -> assign_nonoption_to_one s = false ->
  skip_first_char_option s = false -> getopt_initialized s = true ->
  (k <> 0 -> processing_long_option s = false /\ processing_short_option s = true) ->
  at_arg os L s i k.
Proof. intros. split; rewrite initialize_id by (done || lia); done. Qed.

(** One call at an argument that holds a short option. *)
Lemma getopt_call_short os L s i k a :
  at_arg os L s i k -> 0 < i < zlen L -> L !! Z.to_nat i = Some a -> os <> [] ->
  byte_at a 0 = ch "-" -> byte_at a 1 <> ch "-" -> byte_at a 1 <> 0 ->
  exists s1 p, wlibc_common_getopt false false (Some os) None s = Some (process_short s1 p os a) /\
    argv s1 = L /\ optind s1 = i /\ index s1 = (if k =? 0 then 1 else k) /\ exchange s1 = zlen L /\
    stop_at_first_nonoption s1 = false /\ assign_nonoption_to_one s1 = false /\
    skip_first_char_option s1 = false /\ getopt_initialized s1 = true /\
    processing_long_option s1 = false /\ processing_short_option s1 = true.
Proof.
  intros [[Ha Ha'] Ho Hk He (M1 & M2 & M3 & M4) Hp] Hi Hl Hos H0 H1 H2.
  unfold wlibc_common_getopt. rewrite Ha'. set (s0 := initialize (reset s) false (zlen L) os) in *.
  rewrite Ho. replace (i =? zlen L) with false by lia. cbn [scan].
  replace (i <? zlen L) with true by lia. unfold arg at 1. replace (0 <=? i) with true by lia.
  rewrite Ha, Hl. cbn [mbind option_bind].
  assert (exists s1, classify s0 a = (false, s1) /\
    argv s1 = L /\ optind s1 = i /\ index s1 = (if k =? 0 then 1 else k) /\ exchange s1 = zlen L /\
    stop_at_first_nonoption s1 = false /\ assign_nonoption_to_one s1 = false /\
    skip_first_char_option s1 = false /\ getopt_initialized s1 = true /\
    processing_long_option s1 = false /\ processing_short_option s1 = true) as (s1 & -> & P).
  { unfold classify. rewrite Hk. destruct (k =? 0) eqn:Ek.
    - rewrite H0. simpl. replace (byte_at a 1 =? ch "-") with false by lia.
      replace (byte_at a 1 =? 0) with false by lia. simpl. eexists. split; [done|]. simpl. by split_and!.
    - exists s0. split; [done|]. destruct Hp as [P1 P2]; [lia|]. by split_and!. }
  destruct P as (P1 & P2 & P3 & P4 & P5 & P6 & P7 & P8 & P9 & P10). rewrite P9, P10. simpl.
  exists s1, (negb (opterr s =? 0)). by split_and!.
Qed.

Lemma strchr_nonempty os c f : strchr os c = Some f -> os <> [].
Proof. by destruct os. Qed.

(** A flag inside a cluster, at byte [k] (or 1 at the start of the argument). *)
Lemma getopt_call_flag os L s i k a c :
  at_arg os L s i k -> 0 < i < zlen L -> L !! Z.to_nat i = Some a ->
  byte_at a 0 = ch "-" -> byte_at a 1 <> ch "-" -> byte_at a 1 <> 0 -> 0 <= k ->
  let k1 := if k =? 0 then 1 else k in
  byte_at a k1 = c -> is_flag os c ->
  exists s', wlibc_common_getopt false false (Some os) None s = Some (c, s') /\ optarg s' = None /\
    if byte_at a (k1 + 1) =? 0 then at_arg os L s' (i + 1) 0 else at_arg os L s' i (k1 + 1).
Proof.
  intros Hat Hi Hl H0 H1 H2 Hk k1 Hc (Hc0 & f & Hf & Hf1). pose proof (strchr_nonempty _ _ _ Hf) as Hos.
  destruct (getopt_call_short os L s i k a Hat Hi Hl Hos H0 H1 H2)
    as (s1 & p & -> & P1 & P2 & P3 & P4 & P5 & P6 & P7 & P8 & P9 & P10). fold k1 in P3.
  assert (0 < k1) by (unfold k1; destruct (k =? 0) eqn:?; lia).
  unfold process_short. destruct os as [|x os]; [done|]. rewrite P7, P3, Hc, Hf.
  simpl index. replace (byte_at f 1 =? ch ":") with false by lia. simpl andb. cbv iota.
  destruct (byte_at a (k1 + 1) =? 0); eexists; (split; [done|]; split; [done|]);
    apply at_arg_intro; simpl; try done; lia.
Qed.

(** An option with its argument in the same element of [argv]. *)
Lemma getopt_call_joined os L s i c v :
  at_arg os L s i 0 -> 0 < i < zlen L -> L !! Z.to_nat i = Some (ch "-" :: c :: v) ->
  c <> ch "-" -> takes_argument os c -> byte_at v 0 <> 0 ->
  exists s', wlibc_common_getopt false false (Some os) None s = Some (c, s') /\
    optarg s' = Some v /\ at_arg os L s' (i + 1) 0.
Proof.
  intros Hat Hi Hl Hc (Hc0 & f & Hf & Hf1) Hv. pose proof (strchr_nonempty _ _ _ Hf) as Hos.
  destruct (getopt_call_short os L s i 0 _ Hat Hi Hl Hos)
    as (s1 & p & -> & P1 & P2 & P3 & P4 & P5 & P6 & P7 & P8 & P9 & P10); simpl_bytes; [done|done|lia|].
  simpl in P3. unfold process_short. destruct os as [|x os]; [done|]. rewrite P7, P3. simpl_bytes. rewrite Hf.
  simpl index. change (1 + 1) with 2. simpl_bytes. replace (byte_at v 0 =? 0) with false by lia.
  rewrite Hf1. simpl. destruct (byte_at f 2 =? ch ":"); eexists; (split; [done|]; split; [done|]);
    apply at_arg_intro; simpl; try done; lia.
Qed.

(** The same with the argument in the next element. *)
Lemma getopt_call_separate os L s i c v :
  at_arg os L s i 0 -> 0 < i < zlen L -> L !! Z.to_nat i = Some [ch "-"; c] ->
  L !! Z.to_nat (i + 1) = Some v -> c <> ch "-" -> takes_argument os c ->
  exists s', wlibc_common_getopt false false (Some os) None s = Some (c, s') /\
    optarg s' = Some v /\ at_arg os L s' (i + 2) 0.
Proof.
  intros Hat Hi Hl Hv Hc (Hc0 & f & Hf & Hf1). pose proof (strchr_nonempty _ _ _ Hf) as Hos.
  destruct (getopt_call_short os L s i 0 _ Hat Hi Hl Hos)
    as (s1 & p & -> & P1 & P2 & P3 & P4 & P5 & P6 & P7 & P8 & P9 & P10); simpl_bytes; [done|done|lia|].
  simpl in P3. unfold process_short. destruct os as [|x os]; [done|]. rewrite P7, P3. simpl_bytes. rewrite Hf.
  simpl index. change (1 + 1) with 2. simpl_bytes. change (byte_at [] 0 =? 0) with true. rewrite Hf1. simpl.
  unfold arg. simpl. rewrite P1, P2, P4. replace (0 <=? i + 1) with true by lia. rewrite Hv.
  apply lookup_lt_Some in Hv as Hb. replace (i + 1 <? zlen L) with true by lia.
  destruct (byte_at f 2 =? ch ":"); eexists; (split; [done|]; split; [done|]);
    apply at_arg_intro; simpl; try (done || lia).
Qed.

(** At the operands, when no argument after them looks like an option. *)
Lemma getopt_call_end os L s i :
  at_arg os L s i 0 -> 0 < i <= zlen L -> os <> [] ->
  existsb looks_like_option (drop (Z.to_nat i) L) = false ->
  exists s', wlibc_common_getopt false false (Some os) None s = Some (-1, s') /\
    optind s' = i /\ argv s' = L.
Proof.
  intros [[Ha Ha'] Ho Hk He (M1 & M2 & M3 & M4) Hp] Hi Hos Hx.
  unfold wlibc_common_getopt. rewrite Ha'. set (s0 := initialize (reset s) false (zlen L) os) in *.
  rewrite Ho. destruct (i =? zlen L) eqn:E; [eexists; split; [done|]; simpl; by rewrite Ha, Ho|].
  set (pe := negb (opterr s =? 0)).
  assert (forall fuel j s, i <= j <= zlen L -> zlen L - j < Z.of_nat fuel ->
    argv s = L -> optind s = i -> index s = 0 -> stop_at_first_nonoption s = false ->
    assign_nonoption_to_one s = false ->
    exists s', scan fuel (zlen L) pe false os None j s = Some (-1, s') /\
      optind s' = i /\ argv s' = L) as Scan.
  { induction fuel as [|fuel IH]; intros j s2 Hj Hf A1 A2 A3 A4 A5; [lia|]. cbn [scan].
    destruct (j <? zlen L) eqn:Ej; [|by exists s2].
    destruct (lookup_lt_is_Some_2 L (Z.to_nat j)) as [a Hl]; [lia|].
    unfold arg. replace (0 <=? j) with true by lia. rewrite A1, Hl. cbn [mbind option_bind].
    assert (looks_like_option a = false) as Hn.
    { destruct (looks_like_option a) eqn:E2; [|done].
      assert (existsb looks_like_option (drop (Z.to_nat i) L) = true); [|congruence].
      apply existsb_exists. exists a. split; [|done]. apply list_elem_of_In.
      apply (list_elem_of_lookup_2 _ (Z.to_nat j - Z.to_nat i)). rewrite lookup_drop, <- Hl. f_equal. lia. }
    assert (classify s2 a = (false, with_processing s2 false false)) as ->.
    { unfold classify. rewrite A3. simpl. unfold looks_like_option in Hn.
      destruct (byte_at a 0 =? ch "-"); simpl in *; [|done].
      destruct (byte_at a 1 =? 0) eqn:E2; simpl in *; [|done].
      by replace (byte_at a 1 =? ch "-") with false by lia. }
    simpl. rewrite A4, A5, A1.
    assert (existsb looks_like_option (drop (Z.to_nat (j + 1)) L) = false) as ->.
    { destruct (existsb looks_like_option (drop (Z.to_nat (j + 1)) L)) eqn:E2; [|done].
      apply existsb_exists in E2 as (b & Hb & E2). exfalso.
      assert (existsb looks_like_option (drop (Z.to_nat i) L) = true); [|congruence].
      apply existsb_exists. exists b. split; [|done]. apply list_elem_of_In. apply list_elem_of_In in Hb.
      replace (Z.to_nat (j + 1)) with (Z.to_nat i + (Z.to_nat (j + 1) - Z.to_nat i))%nat in Hb by lia.
      rewrite <- drop_drop in Hb. by apply subseteq_drop in Hb. }
    apply IH; simpl; try done; lia. }
  destruct (Scan (S (2 * length L)) i s0) as (s' & H & H2 & H3); try (done || lia).
  rewrite Ha. exists s'. done.
Qed.

Lemma getopt_all_step fuel os s r s1 :
  wlibc_common_getopt false false (Some os) None s = Some (r, s1) -> r <> -1 ->
  getopt_all (S fuel) os s = ('(rs, s') ← getopt_all fuel os s1; Some ((r, optarg s1) :: rs, s')).
Proof. intros H Hr. cbn [getopt_all]. rewrite H. cbn [mbind option_bind]. by replace (r =? -1) with false by lia. Qed.

(** The calls of one item, and what is left to do after them. *)
Definition item_runs (os : list Z) (L : list (list Z)) (s : getopt_state) (evs : list (Z * option (list Z)))
    (i : Z) : Prop :=
  exists s', at_arg os L s' i 0 /\ forall fuel,
    getopt_all (length evs + fuel) os s = ('(rs, s2) ← getopt_all fuel os s'; Some (evs ++ rs, s2)).

Lemma item_runs_one os L s c o s' i :
  wlibc_common_getopt false false (Some os) None s = Some (c, s') -> 0 < c -> optarg s' = o ->
  at_arg os L s' i 0 -> item_runs os L s [(c, o)] i.
Proof.
  intros H Hc Ho Hat. exists s'. split; [done|]. intros fuel. cbn [length Nat.add].
  rewrite (getopt_all_step _ _ _ _ _ H) by lia. by rewrite Ho.
Qed.

Lemma item_runs_cons os L s c o s' evs i :
  wlibc_common_getopt false false (Some os) None s = Some (c, s') -> 0 < c -> optarg s' = o ->
  item_runs os L s' evs i -> item_runs os L s ((c, o) :: evs) i.
Proof.
  intros H Hc Ho (s2 & Hat & Hr). exists s2. split; [done|]. intros fuel. cbn [length Nat.add].
  rewrite (getopt_all_step _ _ _ _ _ H) by lia. rewrite Hr, Ho.
  destruct (getopt_all fuel os s2) as [[rs s3]|]; done.
Qed.

(** A cluster from byte [k] on; [done_] are the bytes before it. *)
Lemma flags_run os L i cs : forall s k done_ c,
  at_arg os L s i k -> 0 < i < zlen L -> L !! Z.to_nat i = Some (done_ ++ c :: cs) ->
  (if k =? 0 then 1 else k) = zlen done_ -> 0 <= k ->
  byte_at (done_ ++ c :: cs) 0 = ch "-" -> byte_at (done_ ++ c :: cs) 1 <> ch "-" ->
  byte_at (done_ ++ c :: cs) 1 <> 0 ->
  Forall (is_flag os) (c :: cs) ->
  item_runs os L s ((fun c => (c, None)) <$> (c :: cs)) (i + 1).
Proof.
  induction cs as [|c2 cs IH]; intros s k done_ c Hat Hi Hl Hk Hk0 H0 H1 H2 Hf.
  - apply Forall_cons in Hf as [Hc _].
    destruct (getopt_call_flag os L s i k (done_ ++ [c]) c) as (s' & Hs & Ho & Hn); try done.
    + rewrite Hk, byte_at_app_r by lia. by rewrite Z.sub_diag.
    + rewrite Hk, byte_at_ge in Hn by (rewrite length_app; simpl; lia).
      apply (item_runs_one os L s c None s'); [done|by destruct Hc|done|done].
  - apply Forall_cons in Hf as [Hc Hf].
    destruct (getopt_call_flag os L s i k (done_ ++ c :: c2 :: cs) c) as (s' & Hs & Ho & Hn); try done.
    + rewrite Hk, byte_at_app_r by lia. by rewrite Z.sub_diag.
    + rewrite Hk in Hn. replace (byte_at _ (zlen done_ + 1)) with c2 in Hn.
      2: { rewrite byte_at_app_r by lia. by replace (zlen done_ + 1 - zlen done_) with 1 by lia. }
      assert (0 < c2) as Hc2 by (apply Forall_cons in Hf as [[? _] _]; done).
      replace (c2 =? 0) with false in Hn by lia.
      apply (item_runs_cons os L s c None s'); [done|by destruct Hc|done|].
      assert (done_ ++ c :: c2 :: cs = (done_ ++ [c]) ++ c2 :: cs) as E by (by rewrite <- app_assoc).
      rewrite E in *. apply (IH s' (zlen done_ + 1) (done_ ++ [c]) c2); try done; [|lia].
      rewrite length_app. simpl. replace (zlen done_ + 1 =? 0) with false by lia. lia.
Qed.

Lemma item_run os L s it pre post :
  at_arg os L s (zlen pre) 0 -> pre <> [] -> L = pre ++ render it ++ post -> wf_item os it ->
  item_runs os L s (events it) (zlen pre + zlen (render it)).
Proof.
  intros Hat Hpre HL Hw. assert (0 < zlen pre) by (destruct pre; simpl in *; [done|lia]).
  assert (forall k a, render it !! k = Some a -> L !! Z.to_nat (zlen pre + Z.of_nat k) = Some a) as Look.
  { intros k a Hk. rewrite HL, lookup_app_r by lia. apply lookup_app_l_Some. rewrite <- Hk. f_equal. lia. }
  assert (zlen pre + zlen (render it) <= zlen L) as Hlen by (rewrite HL, !length_app; lia).
  destruct it as [c cs|c v|c v]; simpl in Hw |- *.
  - destruct Hw as (Hc & Hf & Hcs). specialize (Look 0%nat _ eq_refl). rewrite Z.add_0_r in Look.
    simpl in Hlen. apply (flags_run os L (zlen pre) cs s 0 [ch "-"] c); simpl; try done; try lia; simpl_bytes; try lia.
    + destruct Hf as [? _]. lia.
    + by constructor.
  - destruct Hw as (Hc & Ha & Hv). specialize (Look 0%nat _ eq_refl). rewrite Z.add_0_r in Look.
    simpl in Hlen. destruct (getopt_call_joined os L s (zlen pre) c v) as (s' & Hs & Ho & Hn); try (done || lia).
    apply (item_runs_one os L s c (Some v) s'); [done|by destruct Ha|done|done].
  - destruct Hw as (Hc & Ha). pose proof (Look 0%nat _ eq_refl) as L0. rewrite Z.add_0_r in L0.
    pose proof (Look 1%nat _ eq_refl) as L1. simpl in Hlen.
    destruct (getopt_call_separate os L s (zlen pre) c v) as (s' & Hs & Ho & Hn); try (done || lia).
    apply (item_runs_one os L s c (Some v) s'); [done|by destruct Ha|done|done].
Qed.

(** C20: parsing back a command line of short options. Any sequence of flag
    clusters and of options with joined or separate arguments, followed by
    operands that do not look like options, is reported by successive calls of
    [getopt] option by option with its argument, in order; the last call
    returns -1 with [optind] at the first operand and [argv] as it was. *)
Theorem getopt_roundtrip (os prog : list Z) (items : list short_item) (operands : list (list Z)) (fuel : nat)
    (Hos : os <> []) (Hplain : byte_at os 0 <> ch "+" /\ byte_at os 0 <> ch "-" /\ byte_at os 0 <> ch ":")
    (Hit : Forall (wf_item os) items) (Hop : existsb looks_like_option operands = false)
    (Hf : (length (concat (events <$> items)) < fuel)%nat) :
  let arguments := concat (render <$> items) in
  exists s', getopt_all fuel os (initial_state (prog :: arguments ++ operands)) =
      Some (concat (events <$> items), s') /\
    optind s' = 1 + zlen arguments /\ argv s' = prog :: arguments ++ operands.
Proof.
  cbv zeta. set (L := prog :: concat (render <$> items) ++ operands).
  assert (forall its pre s fuel, pre <> [] -> L = pre ++ concat (render <$> its) ++ operands ->
    Forall (wf_item os) its -> at_arg os L s (zlen pre) 0 -> (length (concat (events <$> its)) < fuel)%nat ->
    exists s', getopt_all fuel os s = Some (concat (events <$> its), s') /\
      optind s' = zlen pre + zlen (concat (render <$> its)) /\ argv s' = L) as Run.
  { induction its as [|it its IH]; intros pre s fu Hpre HL Hw Hat Hfu.
    - destruct fu as [|fu]; [simpl in Hfu; lia|]. simpl in HL.
      destruct (getopt_call_end os L s (zlen pre)) as (s' & Hs & Ho & Ha); try done.
      + rewrite HL, length_app. destruct pre; simpl in *; [done|lia].
      + rewrite HL, Nat2Z.id, drop_app_length. done.
      + exists s'. cbn [getopt_all]. rewrite Hs. simpl. split; [done|]. split; [lia|done].
    - apply Forall_cons in Hw as [Hw Hws].
      rewrite !fmap_cons in *. cbn [concat] in *.
      destruct (item_run os L s it pre (concat (render <$> its) ++ operands)) as (s1 & Hat1 & Hrun); try done.
      { by rewrite HL, <- !app_assoc. }
      rewrite length_app in Hfu.
      destruct (IH (pre ++ render it) s1 (fu - length (events it))%nat) as (s' & Hs & Ho & Ha); try done.
      { by destruct pre. } { by rewrite HL, <- !app_assoc. }
      { rewrite length_app, Nat2Z.inj_add. done. } { lia. }
      exists s'. replace fu with (length (events it) + (fu - length (events it)))%nat by lia.
      rewrite Hrun, Hs. simpl. split; [done|]. split; [|done].
      rewrite Ho, !length_app. lia. }
  destruct (Run items [prog] (initial_state L) fuel) as (s' & Hs & Ho & Ha); try done.
  - destruct Hplain as (H1 & H2 & H3). split; unfold reset, initialize; simpl; try done.
    split_and!; tests_lia; done.
  - exists s'. done.
Qed.

(** ["prog" "-ab" "-ofile" "-o" "-x" "in"] with ["abo:"]. *)
Lemma getopt_roundtrip_witness :
  exists s', getopt_all 5 [ch "a"; ch "b"; ch "o"; ch ":"]
      (initial_state [[ch "p"]; [ch "-"; ch "a"; ch "b"]; [ch "-"; ch "o"; ch "f"]; [ch "-"; ch "o"];
                      [ch "-"; ch "x"]; [ch "i"]]) =
      Some ([(ch "a", None); (ch "b", None); (ch "o", Some [ch "f"]); (ch "o", Some [ch "-"; ch "x"])], s') /\
    optind s' = 5 /\
    argv s' = [[ch "p"]; [ch "-"; ch "a"; ch "b"]; [ch "-"; ch "o"; ch "f"]; [ch "-"; ch "o"]; [ch "-"; ch "x"]; [ch "i"]].
Proof.
  apply (getopt_roundtrip [ch "a"; ch "b"; ch "o"; ch ":"] [ch "p"]
    [Flags (ch "a") [ch "b"]; Joined (ch "o") [ch "f"]; Separate (ch "o") [ch "-"; ch "x"]] [[ch "i"]] 5);
    [done|done| |reflexivity|simpl; lia].
  assert (forall c, c = ch "a" \/ c = ch "b" -> is_flag [ch "a"; ch "b"; ch "o"; ch ":"] c) as F.
  { intros c [-> | ->]; (split; [lia|]); eexists; (split; [reflexivity|]); discriminate. }
  assert (takes_argument [ch "a"; ch "b"; ch "o"; ch ":"] (ch "o")) as T
    by (split; [lia|]; eexists; split; reflexivity).
  repeat constructor; try apply F; try apply T; auto; discriminate.
Defined.

(** operands can change their order: with an operand before and one after an
    option, [getopt] leaves the later operand first. *)
Theorem getopt_reorders_operands :
  let x := [ch "x"] in let y := [ch "y"] in let a := [ch "-"; ch "a"] in
  exists s', getopt_all 3 [ch "a"] (initial_state [[ch "p"]; x; a; y]) = Some ([(ch "a", None)], s') /\
    argv s' = [[ch "p"]; a; y; x] /\ optind s' = 2.
Proof. eexists. split; [vm_compute; reflexivity|]. split; reflexivity. Qed.

(** an unknown long option ends the scan: the call returns -1, the value
    that means "no more options", and does not consume the argument. *)
Theorem getopt_unknown_long_ends (os : list Z) (lo : list option_t) (s : getopt_state) (a : list Z)
    (Hs : getopt_initialized s = true /\ index s = 0 /\ 0 < optind s < zlen (argv s))
    (Ha : argv s !! Z.to_nat (optind s) = Some (ch "-" :: ch "-" :: a)) (Hne : byte_at a 0 <> 0)
    (Hno : find_long lo (split_equal a).1 0 = None) :
  exists s', wlibc_common_getopt false false (Some os) (Some lo) s = Some (-1, s') /\ optind s' = optind s.
Proof.
  destruct Hs as (Hi & Hx & Ho). unfold wlibc_common_getopt. rewrite initialize_id by (done || lia).
  replace (optind s =? zlen (argv s)) with false by lia. cbn [scan].
  replace (optind s <? zlen (argv s)) with true by lia. unfold arg at 1.
  replace (0 <=? optind s) with true by lia. rewrite Ha. cbn [mbind option_bind].
  unfold classify. rewrite Hx. simpl. change (byte_at (ch "-" :: ch "-" :: a) 2) with (byte_at a 0).
  replace (byte_at a 0 =? 0) with false by lia. simpl. rewrite drop_0.
  destruct (split_equal a) as [nm v]. simpl in Hno. rewrite Hno.
  eexists. split; [done|]. by rewrite (proj2 (report_argv _ _ _)).
Qed.

Lemma getopt_unknown_long_ends_witness :
  exists s', wlibc_common_getopt false false (Some [ch "v"]) (Some [Option [ch "h"] 0 None 1])
      (with_modes (initial_state [[ch "p"]; [ch "-"; ch "-"; ch "z"]]) false false false true 2 (ch "?")) =
    Some (-1, s') /\ optind s' = 1.
Proof.
  apply (getopt_unknown_long_ends [ch "v"] [Option [ch "h"] 0 None 1]
    (with_modes (initial_state [[ch "p"]; [ch "-"; ch "-"; ch "z"]]) false false false true 2 (ch "?")) [ch "z"]);
    [simpl; split; [reflexivity|split; [reflexivity|lia]]|reflexivity|discriminate|reflexivity].
Defined.
