(* ===== verification/Cpuset.v ===== *)
(** * CPU sets

    src/sched/cpuset.c: sets of processors kept as an array of 64-bit masks. An
    operation returns its result, the changed set and the value it stores to
    [errno], if any; a null pointer is [None]. The operations implement finite
    sets. *)

From stdpp Require Import sets.
From S2P Require Import Prelude Errno Buffer.

Record cpu_set_t := CpuSet { num_groups : Z; num_cpus : Z; group_mask : list Z }.

(** [sizeof(cpu_set_t)]: two [int]s and one mask. *)
Definition sizeof_cpu_set_t : Z := 16.

Definition wlibc_cpu_alloc_size (n : Z) : Z * option Z :=
  if n <=? 0 then (0, Some EINVAL)
  else (sizeof_cpu_set_t + (n - 1) ÷ 64 * 8, None).

Definition wlibc_cpu_alloc {A : Allocator} (n : Z) : option cpu_set_t * option Z :=
  if n <=? 0 then (None, Some EINVAL)
  else if malloc_ok (sizeof_cpu_set_t + (n - 1) ÷ 64 * 8) then
    let groups := n ÷ 64 + (if Z.rem n 64 =? 0 then 0 else 1) in
    (Some (CpuSet groups n (replicate (Z.to_nat groups) 0)), None)
  else (None, None).

Definition with_mask (s : cpu_set_t) (m : list Z) : cpu_set_t := CpuSet (num_groups s) (num_cpus s) m.

(** [set->group_mask[i]] for [i] below [num_groups]. *)
Definition mask (s : cpu_set_t) (i : Z) : Z := default 0 (group_mask s !! Z.to_nat i).

Definition wlibc_cpu_zero (set : option cpu_set_t) : option cpu_set_t * option Z :=
  match set with
  | None => (None, Some EINVAL)
  | Some s => (Some (with_mask s (replicate (Z.to_nat (num_groups s)) 0)), None)
  end.

Definition wlibc_cpu_set (cpu : Z) (set : option cpu_set_t) : option cpu_set_t * option Z :=
  match set with
  | None => (None, Some EINVAL)
  | Some s =>
      if (cpu <? 0) || (cpu >=? num_cpus s) then (Some s, Some EINVAL)
      else (Some (with_mask s (<[Z.to_nat (cpu ÷ 64) :=
                    Z.lor (mask s (cpu ÷ 64)) (u64 (Z.shiftl 1 (Z.rem cpu 64)))]> (group_mask s))), None)
  end.

Definition wlibc_cpu_clr (cpu : Z) (set : option cpu_set_t) : option cpu_set_t * option Z :=
  match set with
  | None => (None, Some EINVAL)
  | Some s =>
      if (cpu <? 0) || (cpu >=? num_cpus s) then (Some s, Some EINVAL)
      else (Some (with_mask s (<[Z.to_nat (cpu ÷ 64) :=
                    Z.land (mask s (cpu ÷ 64)) (u64 (Z.lnot (u64 (Z.shiftl 1 (Z.rem cpu 64)))))]> (group_mask s))), None)
  end.

Definition wlibc_cpu_isset (cpu : Z) (set : option cpu_set_t) : Z * option Z :=
  match set with
  | None => (0, Some EINVAL)
  | Some s =>
      if (cpu <? 0) || (cpu >=? num_cpus s) then (0, Some EINVAL)
      else ((if negb (Z.land (mask s (cpu ÷ 64)) (u64 (Z.shiftl 1 (Z.rem cpu 64))) =? 0) then 1 else 0), None)
  end.

(** The [__popcnt64] instruction. *)
Definition popcnt64 (x : Z) : Z := zlen (filter (fun b => Z.testbit x b = true) (seqZ 0 64)).

Definition wlibc_cpu_count (set : option cpu_set_t) : Z * option Z :=
  match set with
  | None => (-1, Some EINVAL)
  | Some s => (foldl (fun count i => count + popcnt64 (mask s i)) 0 (seqZ 0 (num_groups s)), None)
  end.

(** The loop [for i: dest->group_mask[i] = f(src1->group_mask[i], src2->group_mask[i])]
    behind the guards the three operations share. *)
Definition cpu_combine (f : Z -> Z -> Z) (dest src1 src2 : option cpu_set_t) : option cpu_set_t * option Z :=
  match dest, src1, src2 with
  | Some d, Some s1, Some s2 =>
      if negb ((num_groups d =? num_groups s1) && (num_groups d =? num_groups s2)) then (Some d, Some EINVAL)
      else (Some (with_mask d ((fun i => f (mask s1 i) (mask s2 i)) <$> seqZ 0 (num_groups d))), None)
  | _, _, _ => (dest, Some EINVAL)
  end.

Definition wlibc_cpu_and := cpu_combine Z.land.
Definition wlibc_cpu_or := cpu_combine Z.lor.
Definition wlibc_cpu_xor := cpu_combine Z.lxor.

Definition wlibc_cpu_equal (set1 set2 : option cpu_set_t) : Z * option Z :=
  match set1, set2 with
  | Some s1, Some s2 =>
      if negb (num_groups s1 =? num_groups s2) then (0, None)
      else if negb (num_cpus s1 =? num_cpus s2) then (0, None)
      else ((if forallb (fun i => mask s1 i =? mask s2 i) (seqZ 0 (num_groups s1)) then 1 else 0), None)
  | _, _ => (0, Some EINVAL)
  end.

(** ** The set of processors *)

Definition has_cpu (s : cpu_set_t) (c : Z) : bool := Z.testbit (mask s (c / 64)) (c mod 64).

Definition cpus (s : cpu_set_t) : gset Z :=
  list_to_set (filter (fun c => has_cpu s c = true) (seqZ 0 (64 * num_groups s))).

Record cpu_wf (s : cpu_set_t) : Prop := {
  wf_cpus : 0 < num_cpus s;
  wf_groups : num_groups s = (num_cpus s + 63) / 64;
  wf_length : zlen (group_mask s) = num_groups s;
  wf_masks : Forall (fun m => is_u64 m) (group_mask s);
  wf_members : forall c, has_cpu s c = true -> 0 <= c < 64 * num_groups s -> c < num_cpus s
}.

Lemma elem_of_cpus s c : c ∈ cpus s <-> 0 <= c < 64 * num_groups s /\ has_cpu s c = true.
Proof.
  unfold cpus. rewrite elem_of_list_to_set, list_elem_of_filter, elem_of_seqZ. rewrite Z.add_0_l. tauto.
Qed.

Lemma bit_mask c : 0 <= c -> u64 (Z.shiftl 1 (Z.rem c 64)) = 2 ^ (c mod 64) /\ c ÷ 64 = c / 64.
Proof.
  intros Hc. rewrite Z.rem_mod_nonneg, Z.quot_div_nonneg by lia. split; [apply shiftl_bit|done].
Qed.

Lemma cpu_in_group s c : cpu_wf s -> 0 <= c < num_cpus s -> 0 <= c / 64 < zlen (group_mask s).
Proof. intros [? -> -> ? ?]. zlia. Qed.

(** Changing the mask of [c]'s group changes membership through its bits. *)
Lemma has_cpu_insert s c m d :
  0 <= c / 64 < zlen (group_mask s) -> 0 <= d ->
  has_cpu (with_mask s (<[Z.to_nat (c / 64) := m]> (group_mask s))) d =
  if d / 64 =? c / 64 then Z.testbit m (d mod 64) else has_cpu s d.
Proof.
  intros Hc Hd. unfold has_cpu, mask. simpl. assert (0 <= d / 64) by (apply Z.div_pos; lia).
  destruct (d / 64 =? c / 64) eqn:E.
  - apply Z.eqb_eq in E. rewrite E, list_lookup_insert_eq by lia. done.
  - by rewrite list_lookup_insert_ne by lia.
Qed.

Lemma has_cpu_set s c d :
  0 <= c / 64 < zlen (group_mask s) -> 0 <= c -> 0 <= d ->
  has_cpu (with_mask s (<[Z.to_nat (c / 64) := Z.lor (mask s (c / 64)) (2 ^ (c mod 64))]> (group_mask s))) d =
  has_cpu s d || (d =? c).
Proof.
  intros Hg Hc Hd. rewrite has_cpu_insert, <- (same_bit c d) by done. pose proof (Z.mod_pos_bound c 64). pose proof (Z.mod_pos_bound d 64).
  destruct (d / 64 =? c / 64) eqn:E; [|by rewrite orb_false_r].
  apply Z.eqb_eq in E. rewrite Z.lor_spec, testbit_pow2 by lia. unfold has_cpu. by rewrite E.
Qed.

Lemma has_cpu_clr s c d :
  0 <= c / 64 < zlen (group_mask s) -> 0 <= c -> 0 <= d ->
  has_cpu (with_mask s (<[Z.to_nat (c / 64) := Z.land (mask s (c / 64)) (u64 (Z.lnot (2 ^ (c mod 64))))]> (group_mask s))) d =
  has_cpu s d && negb (d =? c).
Proof.
  intros Hg Hc Hd. rewrite has_cpu_insert, <- (same_bit c d) by done. pose proof (Z.mod_pos_bound c 64). pose proof (Z.mod_pos_bound d 64).
  destruct (d / 64 =? c / 64) eqn:E; [|by rewrite andb_true_r].
  apply Z.eqb_eq in E. rewrite Z.land_spec, testbit_lnot_pow2 by lia. unfold has_cpu. by rewrite E.
Qed.

(** Sets with the same dimensions whose members are given by a predicate. *)
Lemma cpus_ext s t :
  num_groups s = num_groups t -> (forall c, 0 <= c < 64 * num_groups t -> has_cpu s c = has_cpu t c) -> cpus s = cpus t.
Proof.
  intros Hg H. apply set_eq. intros c. rewrite !elem_of_cpus, Hg.
  split; intros [H1 H2]; (split; [done|]); [by rewrite <- H|by rewrite H].
Qed.

Lemma empty_masks n g : cpus (CpuSet g n (replicate (Z.to_nat g) 0)) = ∅.
Proof.
  apply set_eq. intros c. rewrite elem_of_cpus. split; [|set_solver]. intros [Hc H].
  unfold has_cpu, mask in H. simpl in H.
  destruct (replicate _ _ !! _) as [x|] eqn:E; simpl in H.
  - apply lookup_replicate in E as [-> _]. by rewrite Z.bits_0 in H.
  - by rewrite Z.bits_0 in H.
Qed.

Lemma empty_masks_wf n g : 0 < n -> g = (n + 63) / 64 -> cpu_wf (CpuSet g n (replicate (Z.to_nat g) 0)).
Proof.
  intros Hn Hg. assert (0 <= g) by (subst; apply Z.div_pos; lia). split; simpl; try done.
  - rewrite length_replicate. lia.
  - apply Forall_replicate. lia.
  - intros c Hc Hr. assert (c ∈ cpus (CpuSet g n (replicate (Z.to_nat g) 0))) as Hin by by apply elem_of_cpus.
    by rewrite empty_masks in Hin.
Qed.

Lemma mask_u64 s i : cpu_wf s -> is_u64 (mask s i).
Proof.
  intros W. unfold mask. destruct (group_mask s !! Z.to_nat i) as [m|] eqn:E; simpl; [|lia].
  exact (Forall_lookup_1 _ _ _ _ (wf_masks _ W) E).
Qed.

(** Writing a new mask for [c]'s group keeps a set well formed. *)
Lemma insert_wf s c m :
  cpu_wf s -> 0 <= c < num_cpus s -> is_u64 m ->
  (forall b, 0 <= b < 64 -> Z.testbit m b = true -> Z.testbit (mask s (c / 64)) b = true \/ b = c mod 64) ->
  cpu_wf (with_mask s (<[Z.to_nat (c / 64) := m]> (group_mask s))).
Proof.
  intros W Hc Hm Hb. pose proof (cpu_in_group s c W Hc) as Hg. pose proof W as [W1 W2 W3 W4 W5].
  split; simpl; try done.
  - by rewrite length_insert.
  - by apply Forall_insert.
  - intros d Hd Hr. rewrite has_cpu_insert in Hd by lia. destruct (d / 64 =? c / 64) eqn:E; [|by apply W5].
    apply Z.eqb_eq in E. destruct (Hb (d mod 64)) as [H|H]; [zlia|done| |zlia].
    apply W5; [|done]. unfold has_cpu. by rewrite E.
Qed.

(** A 64-bit value is a nonnegative one without bits from 64 on. *)
Lemma u64_bits x : is_u64 x <-> 0 <= x /\ forall n, 64 <= n -> Z.testbit x n = false.
Proof.
  change 18446744073709551616 with (2 ^ 64). split.
  - intros Hx. split; [lia|]. intros n Hn. rewrite <- (Z.mod_small x (2 ^ 64)) by lia. apply Z.mod_pow2_bits_high. lia.
  - intros [H0 H]. assert (x = x mod 2 ^ 64) as ->; [|apply Z.mod_pos_bound; lia].
    apply Z.bits_inj'. intros n Hn. destruct (decide (n < 64)).
    + by rewrite Z.mod_pow2_bits_low by lia.
    + rewrite Z.mod_pow2_bits_high by lia. apply H. lia.
Qed.

Lemma lor_u64 x y : is_u64 x -> is_u64 y -> is_u64 (Z.lor x y).
Proof.
  rewrite !u64_bits. intros [? Hx] [? Hy]. split; [apply Z.lor_nonneg; lia|].
  intros n Hn. by rewrite Z.lor_spec, Hx, Hy.
Qed.

Lemma land_u64 x y : is_u64 x -> 0 <= y -> is_u64 (Z.land x y).
Proof.
  rewrite !u64_bits. intros [? Hx] ?. split; [apply Z.land_nonneg; lia|].
  intros n Hn. by rewrite Z.land_spec, Hx.
Qed.

Lemma lxor_u64 x y : is_u64 x -> is_u64 y -> is_u64 (Z.lxor x y).
Proof.
  rewrite !u64_bits. intros [? Hx] [? Hy]. split; [apply Z.lxor_nonneg; lia|].
  intros n Hn. by rewrite Z.lxor_spec, Hx, Hy.
Qed.

(** The masks that a loop over the groups writes. *)
Lemma mask_loop s (f : Z -> Z) i :
  0 <= i < num_groups s -> mask (with_mask s (f <$> seqZ 0 (num_groups s))) i = f i.
Proof.
  intros Hi. unfold mask. simpl. rewrite list_lookup_fmap, lookup_seqZ_lt by lia. simpl. f_equal. lia.
Qed.

Lemma group_range s c : 0 <= c < 64 * num_groups s -> 0 <= c / 64 < num_groups s.
Proof. zlia. Qed.

(** A bitwise operation on masks is the corresponding operation on members. *)
Lemma combine_members (f : Z -> Z -> Z) (g : bool -> bool -> bool) d s1 s2 :
  (forall x y n, Z.testbit (f x y) n = g (Z.testbit x n) (Z.testbit y n)) ->
  (forall x y, is_u64 x -> is_u64 y -> is_u64 (f x y)) -> g false false = false ->
  cpu_wf d -> cpu_wf s1 -> cpu_wf s2 -> num_cpus s1 = num_cpus d -> num_cpus s2 = num_cpus d ->
  exists d', cpu_combine f (Some d) (Some s1) (Some s2) = (Some d', None) /\ cpu_wf d' /\
    num_cpus d' = num_cpus d /\
    forall c, c ∈ cpus d' <-> g (bool_decide (c ∈ cpus s1)) (bool_decide (c ∈ cpus s2)) = true.
Proof.
  intros Hf Hu Hg Wd W1 W2 E1 E2.
  assert (num_groups s1 = num_groups d /\ num_groups s2 = num_groups d) as [G1 G2].
  { rewrite (wf_groups _ Wd), (wf_groups _ W1), (wf_groups _ W2), E1, E2. done. }
  unfold cpu_combine. rewrite G1, G2, Z.eqb_refl. simpl.
  set (d' := with_mask d _). eexists. split; [done|].
  assert (forall c, 0 <= c < 64 * num_groups d -> has_cpu d' c = g (has_cpu s1 c) (has_cpu s2 c)) as Hh.
  { intros c Hc. unfold has_cpu, d'. rewrite mask_loop by (by apply group_range). apply Hf. }
  pose proof (wf_cpus _ Wd). pose proof (wf_groups _ Wd).
  split; [split|split; [done|]]; simpl; try done.
  - rewrite length_fmap, length_seqZ. zlia.
  - apply Forall_fmap, Forall_forall. intros i _. simpl. apply Hu; by apply mask_u64.
  - intros c Hc Hr. rewrite Hh in Hc by done.
    destruct (has_cpu s1 c) eqn:H1; [rewrite <- E1; apply W1; [done|by rewrite G1]|].
    destruct (has_cpu s2 c) eqn:H2; [rewrite <- E2; apply W2; [done|by rewrite G2]|]. by rewrite Hg in Hc.
  - intros c. assert (forall s, num_groups s = num_groups d -> 0 <= c < 64 * num_groups d ->
      bool_decide (c ∈ cpus s) = has_cpu s c) as Hin.
    { intros s Hs Hr. apply eq_true_iff_eq. rewrite bool_decide_eq_true, elem_of_cpus, Hs. tauto. }
    rewrite elem_of_cpus. simpl num_groups. split.
    + intros [Hr Hc]. by rewrite !Hin, <- Hh by done.
    + intros Hc. destruct (decide (0 <= c < 64 * num_groups d)) as [Hr|Hr].
      * split; [done|]. by rewrite Hh, <- !Hin by done.
      * rewrite !bool_decide_eq_false_2 in Hc by (rewrite elem_of_cpus; rewrite ?G1, ?G2; tauto). by rewrite Hg in Hc.
Qed.

(** ** Counting *)

Lemma length_filter_fmap (p q : Z -> bool) (f : Z -> Z) l :
  (forall x, x ∈ l -> p (f x) = q x) ->
  length (filter (fun c => p c = true) (f <$> l)) = length (filter (fun c => q c = true) l).
Proof.
  induction l as [|x l IH]; intros H; [done|]. cbn [fmap list_fmap]. rewrite !filter_cons.
  rewrite (H x) by set_solver. destruct (decide (q x = true)); simpl; rewrite IH by set_solver; done.
Qed.

(** The members of the group [i] are the bits of its mask. *)
Lemma popcnt_group s i :
  0 <= i -> popcnt64 (mask s i) = zlen (filter (fun c => has_cpu s c = true) (seqZ (64 * i) 64)).
Proof.
  intros Hi. unfold popcnt64. rewrite <- (Z.add_0_r (64 * i)), <- fmap_add_seqZ.
  rewrite (length_filter_fmap (has_cpu s) (Z.testbit (mask s i))); [done|].
  intros b Hb%elem_of_seqZ. unfold has_cpu. replace ((64 * i + b) / 64) with i by zlia.
  by replace ((64 * i + b) mod 64) with b by zlia.
Qed.

Lemma count_groups s n :
  foldl (fun count i => count + popcnt64 (mask s i)) 0 (seqZ 0 (Z.of_nat n)) =
  zlen (filter (fun c => has_cpu s c = true) (seqZ 0 (64 * Z.of_nat n))).
Proof.
  induction n as [|n IH]; [done|].
  replace (64 * Z.of_nat (S n)) with (64 * Z.of_nat n + 64) by lia.
  rewrite (Nat2Z.inj_succ n), <- Z.add_1_r, !seqZ_app by lia.
  rewrite foldl_app, IH, filter_app, length_app. simpl. rewrite popcnt_group by lia. rewrite !Z.add_0_l. lia.
Qed.

(** ** Equality *)

Lemma masks_eq_iff s1 s2 :
  cpu_wf s1 -> cpu_wf s2 -> num_groups s1 = num_groups s2 ->
  (forall i, 0 <= i < 0 + num_groups s2 -> mask s1 i = mask s2 i) <-> cpus s1 = cpus s2.
Proof.
  intros W1 W2 G. split.
  - intros H. apply cpus_ext; [done|]. intros c Hc. unfold has_cpu. rewrite H; [done|]. zlia.
  - intros E i Hi. apply Z.bits_inj'. intros n Hn. destruct (decide (64 <= n)) as [Hb|Hb].
    { by rewrite (proj2 (proj1 (u64_bits _) (mask_u64 s1 i W1))), (proj2 (proj1 (u64_bits _) (mask_u64 s2 i W2))). }
    assert ((64 * i + n) ∈ cpus s1 <-> (64 * i + n) ∈ cpus s2) as H by by rewrite E.
    rewrite !elem_of_cpus, G in H. unfold has_cpu in H.
    replace ((64 * i + n) / 64) with i in H by zlia. replace ((64 * i + n) mod 64) with n in H by zlia.
    apply eq_true_iff_eq. assert (0 <= 64 * i + n < 64 * num_groups s2) by lia. tauto.
Qed.

(** ** Properties *)

(** A new set of [n] processors, and a cleared one, is well formed and empty. *)
Theorem cpu_alloc_zero_empty {A : Allocator} (n : Z) (s : cpu_set_t)
    (alloc_ok : forall k, malloc_ok k = true) (Hn : 0 < n) (W : cpu_wf s) :
  (exists s', wlibc_cpu_alloc n = (Some s', None) /\ cpu_wf s' /\ num_cpus s' = n /\ cpus s' = ∅) /\
  (exists s', wlibc_cpu_zero (Some s) = (Some s', None) /\ cpu_wf s' /\ num_cpus s' = num_cpus s /\ cpus s' = ∅).
Proof.
  split.
  - unfold wlibc_cpu_alloc. replace (n <=? 0) with false by lia. rewrite alloc_ok.
    rewrite Z.quot_div_nonneg, Z.rem_mod_nonneg by lia.
    set (g := n / 64 + _). assert (g = (n + 63) / 64) as Hg by (unfold g; destruct (n mod 64 =? 0) eqn:?; zlia).
    eexists. split; [done|]. split; [by apply empty_masks_wf|]. split; [done|]. apply empty_masks.
  - eexists. split; [done|]. split; [apply empty_masks_wf; apply W|]. split; [done|]. apply empty_masks.
Qed.

(** [CPU_SET], [CPU_CLR] and [CPU_ISSET] are insertion, deletion and membership
    on the set of processors; they keep a set well formed, and a processor
    outside the set's range is rejected with [EINVAL]. *)
Theorem cpu_set_clr_isset (s : cpu_set_t) (c : Z) (W : cpu_wf s) :
  (0 <= c < num_cpus s ->
   (exists s', wlibc_cpu_set c (Some s) = (Some s', None) /\ cpu_wf s' /\ cpus s' = {[c]} ∪ cpus s) /\
   (exists s', wlibc_cpu_clr c (Some s) = (Some s', None) /\ cpu_wf s' /\ cpus s' = cpus s ∖ {[c]}) /\
   wlibc_cpu_isset c (Some s) = ((if decide (c ∈ cpus s) then 1 else 0), None)) /\
  (~ 0 <= c < num_cpus s ->
   wlibc_cpu_set c (Some s) = (Some s, Some EINVAL) /\ wlibc_cpu_clr c (Some s) = (Some s, Some EINVAL) /\
   wlibc_cpu_isset c (Some s) = (0, Some EINVAL)).
Proof.
  unfold wlibc_cpu_set, wlibc_cpu_clr, wlibc_cpu_isset. split; intros Hc.
  - replace ((c <? 0) || (c >=? num_cpus s)) with false by lia.
    destruct (bit_mask c) as [-> ->]; [lia|]. pose proof (cpu_in_group s c W Hc) as Hg.
    pose proof (mask_u64 s (c / 64) W) as Hm. pose proof (Z.mod_pos_bound c 64 ltac:(lia)) as Hb.
    assert (is_u64 (2 ^ (c mod 64))) as H2.
    { split; [lia|]. change 18446744073709551616 with (2 ^ 64). apply Z.pow_lt_mono_r; lia. }
    assert (0 <= c < 64 * num_groups s) as Hcg by (rewrite (wf_groups _ W); zlia).
    split_and!.
    + eexists. split; [done|]. split.
      * apply insert_wf; [done|done|by apply lor_u64|]. intros b Hb'.
        rewrite Z.lor_spec, testbit_pow2 by lia. intros [?|?%Z.eqb_eq]%orb_prop; tauto.
      * apply set_eq. intros d. rewrite elem_of_union, elem_of_singleton, !elem_of_cpus. simpl num_groups.
        destruct (decide (0 <= d)); [|lia]. rewrite has_cpu_set, orb_true_iff, Z.eqb_eq by lia.
        destruct (decide (d = c)) as [->|]; tauto.
    + eexists. split; [done|]. split.
      * apply insert_wf; [done|done|apply land_u64; [done|apply wrap_range; lia]|].
        intros b Hb'. rewrite Z.land_spec. intros [? _]%andb_prop. by left.
      * apply set_eq. intros d. rewrite elem_of_difference, elem_of_singleton, !elem_of_cpus. simpl num_groups.
        destruct (decide (0 <= d)); [|lia]. rewrite has_cpu_clr, andb_true_iff, negb_true_iff, Z.eqb_neq by lia.
        destruct (decide (d = c)) as [->|]; tauto.
    + rewrite land_pow2_bit by lia. fold (has_cpu s c).
      destruct (decide (c ∈ cpus s)) as [H|H]; rewrite elem_of_cpus in H.
      * by destruct H as [_ ->].
      * destruct (has_cpu s c); [|done]. by destruct H.
  - replace ((c <? 0) || (c >=? num_cpus s)) with true by lia. done.
Qed.

Definition ample_heap : Allocator := fun _ => true.

Definition example_set : cpu_set_t := CpuSet 2 70 [5; 32].

Lemma example_set_wf : cpu_wf example_set.
Proof.
  split; [done|done|done|repeat constructor; lia|]. intros c Hc Hr. simpl in *.
  destruct (decide (c < 70)) as [|Hge]; [done|]. assert (c / 64 = 1) as Hd by zlia.
  unfold has_cpu, mask in Hc. rewrite Hd in Hc. simpl in Hc.
  change 32 with (2 ^ 5) in Hc. rewrite Z.pow2_bits_eqb in Hc by lia. apply Z.eqb_eq in Hc. zlia.
Qed.

Lemma cpu_alloc_zero_empty_witness :
  (forall k, @malloc_ok ample_heap k = true) /\ cpu_wf example_set /\
  exists s', wlibc_cpu_zero (Some example_set) = (Some s', None) /\ cpu_wf s' /\ num_cpus s' = 70 /\ cpus s' = ∅.
Proof.
  split; [done|]. split; [exact example_set_wf|].
  exact (proj2 (@cpu_alloc_zero_empty ample_heap 70 example_set (fun _ => eq_refl) ltac:(lia) example_set_wf)).
Defined.

Lemma cpu_set_clr_isset_witness :
  cpu_wf example_set /\ wlibc_cpu_isset 69 (Some example_set) = (1, None) /\
  wlibc_cpu_isset 70 (Some example_set) = (0, Some EINVAL).
Proof.
  split; [exact example_set_wf|]. split; [reflexivity|].
  exact (proj2 (proj2 (proj2 (cpu_set_clr_isset example_set 70 example_set_wf) ltac:(simpl; lia)))).
Defined.

(** [CPU_COUNT] is the number of processors in the set. *)
Theorem cpu_count_size (s : cpu_set_t) (W : cpu_wf s) :
  wlibc_cpu_count (Some s) = (Z.of_nat (base.size (cpus s)), None).
Proof.
  unfold wlibc_cpu_count, cpus. rewrite size_list_to_set by apply NoDup_filter, NoDup_seqZ.
  assert (0 <= num_groups s) as Hg by (rewrite <- (wf_length _ W); lia).
  rewrite <- (Z2Nat.id (num_groups s)) at 1 by lia. rewrite count_groups, Z2Nat.id by lia. done.
Qed.

Lemma cpu_count_size_witness : cpu_wf example_set /\ Z.of_nat (base.size (cpus example_set)) = 3.
Proof.
  split; [exact example_set_wf|].
  exact (eq_sym (f_equal fst (cpu_count_size example_set example_set_wf))).
Defined.

(** Membership in combinations of two sets, by cases on membership in each. *)
Ltac members :=
  rewrite ?elem_of_union, ?elem_of_intersection, ?elem_of_difference;
  repeat case_bool_decide; simpl; intuition congruence.

(** on sets of the same number of processors [CPU_AND], [CPU_OR] and
    [CPU_XOR] store the intersection, the union and the symmetric difference of
    their sources, and keep the destination well formed. *)
Theorem cpu_boolean_algebra (d s1 s2 : cpu_set_t) (Wd : cpu_wf d) (W1 : cpu_wf s1) (W2 : cpu_wf s2)
    (E1 : num_cpus s1 = num_cpus d) (E2 : num_cpus s2 = num_cpus d) :
  (exists d', wlibc_cpu_and (Some d) (Some s1) (Some s2) = (Some d', None) /\ cpu_wf d' /\
     num_cpus d' = num_cpus d /\ cpus d' = cpus s1 ∩ cpus s2) /\
  (exists d', wlibc_cpu_or (Some d) (Some s1) (Some s2) = (Some d', None) /\ cpu_wf d' /\
     num_cpus d' = num_cpus d /\ cpus d' = cpus s1 ∪ cpus s2) /\
  (exists d', wlibc_cpu_xor (Some d) (Some s1) (Some s2) = (Some d', None) /\ cpu_wf d' /\
     num_cpus d' = num_cpus d /\ cpus d' = (cpus s1 ∖ cpus s2) ∪ (cpus s2 ∖ cpus s1)).
Proof.
  split_and!.
  - destruct (combine_members Z.land andb d s1 s2) as (d' & Hd & ? & ? & Hc); try done.
    { apply Z.land_spec. } { intros. apply land_u64; lia. }
    exists d'. split; [exact Hd|]. split_and!; try done. apply set_eq. intros c. rewrite Hc. members.
  - destruct (combine_members Z.lor orb d s1 s2) as (d' & Hd & ? & ? & Hc); try done.
    { apply Z.lor_spec. } { apply lor_u64. }
    exists d'. split; [exact Hd|]. split_and!; try done. apply set_eq. intros c. rewrite Hc. members.
  - destruct (combine_members Z.lxor xorb d s1 s2) as (d' & Hd & ? & ? & Hc); try done.
    { apply Z.lxor_spec. } { apply lxor_u64. }
    exists d'. split; [exact Hd|]. split_and!; try done. apply set_eq. intros c. rewrite Hc. members.
Qed.

Lemma cpu_boolean_algebra_witness :
  cpu_wf example_set /\
  exists d', wlibc_cpu_xor (Some example_set) (Some example_set) (Some example_set) = (Some d', None) /\
    cpus d' = (cpus example_set ∖ cpus example_set) ∪ (cpus example_set ∖ cpus example_set).
Proof.
  split; [exact example_set_wf|].
  destruct (cpu_boolean_algebra example_set example_set example_set example_set_wf example_set_wf example_set_wf
              eq_refl eq_refl) as (_ & _ & d' & H & _ & _ & E).
  exact (ex_intro _ d' (conj H E)).
Defined.

(** [CPU_EQUAL] decides whether two sets of the same number of processors have
    the same members; sets of different sizes are never equal. *)
Theorem cpu_equal_decides (s1 s2 : cpu_set_t) (W1 : cpu_wf s1) (W2 : cpu_wf s2) :
  wlibc_cpu_equal (Some s1) (Some s2) =
  ((if decide (num_cpus s1 = num_cpus s2 /\ cpus s1 = cpus s2) then 1 else 0), None).
Proof.
  unfold wlibc_cpu_equal. pose proof (wf_groups _ W1) as G1. pose proof (wf_groups _ W2) as G2.
  destruct (Z.eqb_spec (num_cpus s1) (num_cpus s2)) as [E|E].
  2:{ rewrite decide_False by tauto. by destruct (num_groups s1 =? num_groups s2). }
  assert (num_groups s1 = num_groups s2) as G by (rewrite G1, G2, E; done).
  rewrite G, Z.eqb_refl. simpl.
  assert (forallb (fun i => mask s1 i =? mask s2 i) (seqZ 0 (num_groups s2)) = true <-> cpus s1 = cpus s2) as Hi.
  { rewrite <- masks_eq_iff by done. rewrite <- Is_true_true, forallb_True, Forall_forall. setoid_rewrite Is_true_true.
    setoid_rewrite Z.eqb_eq. setoid_rewrite elem_of_seqZ. done. }
  destruct (forallb _ _), (decide _); intuition congruence.
Qed.

Lemma cpu_equal_decides_witness :
  cpu_wf example_set /\ wlibc_cpu_equal (Some example_set) (Some example_set) =
  ((if decide (num_cpus example_set = num_cpus example_set /\ cpus example_set = cpus example_set) then 1 else 0), None).
Proof.
  split; [exact example_set_wf|]. exact (cpu_equal_decides example_set example_set example_set_wf example_set_wf).
Defined.

(** [CPU_OR] only compares the numbers of groups: a set of 64 processors is
    accepted as a source for a set of one, whose result then has processors
    [CPU_ISSET] rejects but [CPU_COUNT] counts. *)
Theorem cpu_or_size_mismatch :
  exists d', wlibc_cpu_or (Some (CpuSet 1 1 [0])) (Some (CpuSet 1 64 [2])) (Some (CpuSet 1 64 [2])) = (Some d', None) /\
    1 ∈ cpus d' /\ wlibc_cpu_isset 1 (Some d') = (0, Some EINVAL) /\ wlibc_cpu_count (Some d') = (1, None).
Proof. eexists. split; [reflexivity|]. split; [|split; reflexivity]. apply elem_of_cpus. split; [simpl; lia|reflexivity]. Qed.
