(* ===== verification/Sched.v ===== *)
(** * Scheduling parameters

    Priorities, policies and affinity of a process (src/sched/param.c,
    scheduler.c, affinity.c and open.c) over the process services of the system. *)

From S2P Require Import Prelude Errno Buffer FdTable FileIo Cpuset.

Definition SCHED_IDLE : Z := 1.
Definition SCHED_RR : Z := 2.
Definition SCHED_FIFO : Z := 3.
Definition SCHED_BATCH : Z := 5.
Definition SCHED_SPORADIC : Z := 6.
Definition SCHED_MAX_PRIORITY : Z := 2.
Definition SCHED_MIN_PRIORITY : Z := -2.

(** [NtCurrentProcess()]. *)
Definition NtCurrentProcess : Z := -1.

Definition PROCESS_SET_INFORMATION : Z := 0x0200.
Definition PROCESS_QUERY_INFORMATION : Z := 0x0400.
Definition PROCESS_QUERY_LIMITED_INFORMATION : Z := 0x1000.
Definition PROCESS_SET_LIMITED_INFORMATION : Z := 0x2000.

(** Process information by handle; the privilege is the one to increase base
    priorities. *)
Class SchedKernel (K : Type) := {
  NtOpenProcess : Z -> Z -> K -> NTSTATUS * Z * K;
  NtQueryPriorityClass : Z -> K -> NTSTATUS * Z;
  NtQueryBasePriority : Z -> K -> NTSTATUS * Z;
  NtSetPriorityClass : Z -> Z -> K -> NTSTATUS * K;
  NtSetBasePriority : Z -> Z -> K -> NTSTATUS * K;
  NtRaisePriority : Z -> Z -> K -> NTSTATUS * K;
  RtlAcquirePrivilege : K -> NTSTATUS * K;
  RtlReleasePrivilege : K -> K;
  NtQueryDefaultCpuSets : Z -> K -> NTSTATUS * Z;
  NtSetDefaultCpuSets : Z -> Z -> K -> NTSTATUS * K
}.

Section Sched.
Context {K : Type} {KN : Kernel K} {SK : SchedKernel K}.

Definition system_state : M K K := s ← get; mret (kernel s).

(** [m] when the status is success. *)
Definition on_success (status : NTSTATUS) (m : M K Z) : M K Z :=
  if bool_decide (status = STATUS_SUCCESS) then m else fail_status status.

Definition get_base_priority_of_class (priority_class : Z) : Z :=
  if priority_class =? SCHED_IDLE then 4
  else if priority_class =? SCHED_RR then 8
  else if priority_class =? SCHED_FIFO then 13
  else if priority_class =? 4 then 16
  else if priority_class =? SCHED_BATCH then 6
  else if priority_class =? SCHED_SPORADIC then 10
  else 0.

(** The handle of a process, [NULL] when it cannot be opened. *)
Definition open_process (pid access : Z) : M K Z :=
  if pid =? 0 then mret NtCurrentProcess
  else
    k ← system_state;
    let '(status, h, k) := NtOpenProcess pid access k in
    _ ← set_kernel k;
    if bool_decide (status = STATUS_SUCCESS) then mret h else _ ← fail_status status; mret 0.

Definition close_process (h : Z) : M K unit :=
  if negb (h =? NtCurrentProcess) then k ← system_state; set_kernel (NtClose h k).2 else mret ().

Definition adjust_priority_of_process (process new_priority : Z) : M K Z :=
  k ← system_state;
  let '(status, priority_class) := NtQueryPriorityClass process k in
  on_success status (
    let priority_of_class := get_base_priority_of_class priority_class in
    let '(status, base) := NtQueryBasePriority process k in
    on_success status (
      let new_base_priority := priority_of_class + new_priority in
      if new_base_priority =? base then mret 0
      else if new_base_priority >? base then
        let '(status, k) := RtlAcquirePrivilege k in
        _ ← set_kernel k;
        if bool_decide (status = STATUS_PRIVILEGE_NOT_HELD) then
          let '(status, k) := NtRaisePriority process (u32 (new_base_priority - base)) k in
          _ ← set_kernel k; on_success status (mret 0)
        else
          let '(status, k) := NtSetBasePriority process new_base_priority k in
          _ ← set_kernel (RtlReleasePrivilege k); on_success status (mret 0)
      else
        let '(status, k) := NtSetBasePriority process new_base_priority k in
        _ ← set_kernel k; on_success status (mret 0))).

(** The result and the priority, [param] saying whether there is a place for it. *)
Definition wlibc_sched_getparam (pid : Z) (param : bool) : M K (Z * option Z) :=
  if negb param then r ← fail EINVAL; mret (r, None)
  else
    h ← open_process pid PROCESS_QUERY_INFORMATION;
    if h =? 0 then mret (-1, None)
    else
      k ← system_state;
      r ← (let '(status, base) := NtQueryBasePriority h k in
           if negb (bool_decide (status = STATUS_SUCCESS)) then r ← fail_status status; mret (r, None)
           else
             let '(status, priority_class) := NtQueryPriorityClass h k in
             if negb (bool_decide (status = STATUS_SUCCESS)) then r ← fail_status status; mret (r, None)
             else
               let priority := base - get_base_priority_of_class priority_class in
               mret (0, Some (Z.min (Z.max priority SCHED_MIN_PRIORITY) SCHED_MAX_PRIORITY)));
      _ ← close_process h;
      mret r.

Definition valid_priority (priority : Z) : bool :=
  negb ((priority >? SCHED_MAX_PRIORITY) || (priority <? SCHED_MIN_PRIORITY)).

Definition wlibc_sched_setparam (pid : Z) (param : option Z) : M K Z :=
  match param with
  | None => fail EINVAL
  | Some priority =>
      if negb (valid_priority priority) then fail EINVAL
      else
        h ← open_process pid (Z.lor PROCESS_QUERY_INFORMATION PROCESS_SET_INFORMATION);
        if h =? 0 then mret (-1)
        else
          result ← adjust_priority_of_process h priority;
          _ ← close_process h;
          mret result
  end.

Definition wlibc_sched_getscheduler (pid : Z) : M K Z :=
  h ← open_process pid PROCESS_QUERY_INFORMATION;
  if h =? 0 then mret (-1)
  else
    k ← system_state;
    result ← (let '(status, priority_class) := NtQueryPriorityClass h k in on_success status (mret priority_class));
    _ ← close_process h;
    mret result.

Definition valid_policy (policy : Z) : bool :=
  (policy =? SCHED_IDLE) || ((policy =? SCHED_RR) || ((policy =? SCHED_FIFO) || ((policy =? SCHED_BATCH) || (policy =? SCHED_SPORADIC)))).

(** The result of the adjustment is overwritten. *)
Definition wlibc_sched_setscheduler (pid policy : Z) (param : option Z) : M K Z :=
  if negb (valid_policy policy) then fail EINVAL
  else if negb (from_option valid_priority true param) then fail EINVAL
  else
    h ← open_process pid PROCESS_SET_INFORMATION;
    if h =? 0 then mret (-1)
    else
      k ← system_state;
      result ← (let '(status, k) := NtSetPriorityClass h policy k in
                _ ← set_kernel k;
                on_success status (
                  _ ← (match param with
                       | Some priority => if negb (priority =? 0) then adjust_priority_of_process h priority else mret 0
                       | None => mret 0
                       end);
                  mret 0));
      _ ← close_process h;
      mret result.

(** ** Affinity *)

(** Only the first group is used; the query is about the calling process. *)
Definition wlibc_sched_getaffinity (pid : Z) (cpuset : option cpu_set_t) : M K (Z * option cpu_set_t) :=
  match cpuset with
  | None => r ← fail EINVAL; mret (r, None)
  | Some c =>
      if num_groups c =? 0 then r ← fail EINVAL; mret (r, Some c)
      else
        h ← open_process pid PROCESS_QUERY_LIMITED_INFORMATION;
        if h =? 0 then mret (-1, Some c)
        else
          k ← system_state;
          r ← (let '(status, m) := NtQueryDefaultCpuSets NtCurrentProcess k in
               if negb (bool_decide (status = STATUS_SUCCESS)) then r ← fail_status status; mret (r, Some c)
               else mret (0, Some (CpuSet (num_groups c) (num_cpus c) (<[0%nat := u64 m]> (group_mask c)))));
          _ ← close_process h;
          mret r
  end.

Definition wlibc_sched_setaffinity (pid : Z) (cpuset : option cpu_set_t) : M K Z :=
  match cpuset with
  | None => fail EINVAL
  | Some c =>
      if num_groups c =? 0 then fail EINVAL
      else
        m ← lift (group_mask c !! 0%nat);
        h ← open_process pid PROCESS_SET_LIMITED_INFORMATION;
        if h =? 0 then mret (-1)
        else
          k ← system_state;
          result ← (let '(status, k) := NtSetDefaultCpuSets h (swrap 64 m) k in _ ← set_kernel k; on_success status (mret 0));
          _ ← close_process h;
          mret result
  end.

End Sched.

(** ** The priority that is set is the one that is read *)

(** The process services: each process has a class and a base priority; only the
    setting of the base priority changes it, and it needs the privilege to be
    raised. *)
Class Scheduler {K : Type} `{SchedKernel K} (class_of base_of : K -> Z -> Z) (privileged : K -> bool) : Prop := {
  sch_class h k : NtQueryPriorityClass h k = (STATUS_SUCCESS, class_of k h);
  sch_base h k : NtQueryBasePriority h k = (STATUS_SUCCESS, base_of k h);
  sch_acquire k : exists k', RtlAcquirePrivilege k = (if privileged k then STATUS_SUCCESS else STATUS_PRIVILEGE_NOT_HELD, k') /\
    class_of k' = class_of k /\ base_of k' = base_of k;
  sch_release k : class_of (RtlReleasePrivilege k) = class_of k /\ base_of (RtlReleasePrivilege k) = base_of k;
  sch_raise h n k : exists k', NtRaisePriority h n k = (STATUS_SUCCESS, k') /\ class_of k' = class_of k /\ base_of k' = base_of k;
  sch_set h b k : exists k', NtSetBasePriority h b k = (STATUS_SUCCESS, k') /\ class_of k' = class_of k /\
    base_of k' h = b /\ forall h', h' <> h -> base_of k' h' = base_of k h'
}.

Section Priority.
Context {K : Type} {KN : Kernel K} {SK : SchedKernel K} (class_of base_of : K -> Z -> Z) (privileged : K -> bool).
Context {SC : Scheduler class_of base_of privileged}.

(** What [sched_getparam] reports in a state of the system. *)
Definition priority_in (k : K) : Z :=
  Z.min (Z.max (base_of k NtCurrentProcess - get_base_priority_of_class (class_of k NtCurrentProcess)) SCHED_MIN_PRIORITY) SCHED_MAX_PRIORITY.

Lemma getparam_self s : wlibc_sched_getparam 0 true s = Some ((0, Some (priority_in (kernel s))), s).
Proof.
  unfold wlibc_sched_getparam, open_process, system_state, mbind, M_bind. cbn [negb Z.eqb get mret M_ret].
  change (NtCurrentProcess =? 0) with false. cbn [get mret M_ret]. rewrite sch_base.
  rewrite bool_decide_eq_true_2 by done. cbn [negb]. rewrite sch_class, bool_decide_eq_true_2 by done. done.
Qed.

Lemma adjust_ok p s :
  exists k, adjust_priority_of_process NtCurrentProcess p s = Some (0, with_kernel s k) /\ class_of k = class_of (kernel s) /\
    base_of k NtCurrentProcess =
      let want := get_base_priority_of_class (class_of (kernel s) NtCurrentProcess) + p in
      if (want <=? base_of (kernel s) NtCurrentProcess) || privileged (kernel s) then want else base_of (kernel s) NtCurrentProcess.
Proof.
  unfold adjust_priority_of_process, system_state, mbind, M_bind. cbn [get mret M_ret]. rewrite sch_class. unfold on_success.
  rewrite !(bool_decide_eq_true_2 (STATUS_SUCCESS = STATUS_SUCCESS)) by done. rewrite sch_base.
  rewrite !(bool_decide_eq_true_2 (STATUS_SUCCESS = STATUS_SUCCESS)) by done.
  set (want := _ + p). set (base := base_of _ _). cbv zeta. destruct (Z.eqb_spec want base) as [E|E].
  { exists (kernel s). split_and!; [by destruct s|done|]. rewrite (proj2 (Z.leb_le _ _)) by lia. done. }
  destruct (Z.gtb_spec want base) as [G|G].
  - rewrite (proj2 (Z.leb_gt _ _)) by lia. destruct (sch_acquire (kernel s)) as (k1 & -> & Hc1 & Hb1). cbn [set_kernel orb].
    destruct (privileged (kernel s)).
    + rewrite bool_decide_eq_false_2 by done. destruct (sch_set NtCurrentProcess want k1) as (k2 & -> & Hc2 & Hb2 & _).
      exists (RtlReleasePrivilege k2). destruct (sch_release k2) as [-> ->]. rewrite bool_decide_eq_true_2 by done. by rewrite Hc2.
    + rewrite bool_decide_eq_true_2 by done. destruct (sch_raise NtCurrentProcess (u32 (want - base)) k1) as (k2 & -> & Hc2 & Hb2).
      exists k2. rewrite bool_decide_eq_true_2 by done. rewrite Hc2, Hb2, Hb1. done.
  - rewrite (proj2 (Z.leb_le _ _)) by lia. destruct (sch_set NtCurrentProcess want (kernel s)) as (k2 & -> & Hc2 & Hb2 & _).
    exists k2. cbn [set_kernel]. rewrite bool_decide_eq_true_2 by done. done.
Qed.

(** the priority a process gives itself is the one it reads, when it is not
    above the base priority it has or the process holds the privilege to raise
    it; without the privilege [sched_setparam] still reports success but
    [sched_getparam] gives the priority from before. Priorities out of range are
    refused with [EINVAL] and change nothing. *)
Theorem sched_param_roundtrip p s :
  if valid_priority p then
    exists k, wlibc_sched_setparam 0 (Some p) s = Some (0, with_kernel s k) /\
      wlibc_sched_getparam 0 true (with_kernel s k) =
        Some ((0, Some (if (get_base_priority_of_class (class_of (kernel s) NtCurrentProcess) + p <=? base_of (kernel s) NtCurrentProcess) ||
                           privileged (kernel s)
                        then p else priority_in (kernel s))), with_kernel s k)
  else wlibc_sched_setparam 0 (Some p) s = Some (-1, with_errno s EINVAL).
Proof.
  unfold wlibc_sched_setparam. destruct (valid_priority p) eqn:Hv; [|done]. destruct (adjust_ok p s) as (k & Ha & Hc & Hb).
  exists k. split.
  - unfold open_process, close_process, mbind, M_bind. cbn [negb Z.eqb get mret M_ret]. change (NtCurrentProcess =? 0) with false.
    cbn [get mret M_ret]. by rewrite Ha.
  - rewrite getparam_self. cbn [with_kernel kernel]. unfold priority_in at 1. rewrite Hc, Hb. do 4 f_equal. cbv zeta.
    destruct (_ || _); [|done]. unfold valid_priority, SCHED_MAX_PRIORITY, SCHED_MIN_PRIORITY in *.
    rewrite negb_true_iff, orb_false_iff in Hv. destruct Hv as [H1 H2]. apply Z.ltb_ge in H2. rewrite Z.gtb_ltb, Z.ltb_ge in H1. lia.
Qed.

End Priority.

(** ** An example *)

Module Office.

(** The class of the processes, their base priorities, and the privilege. *)
Definition office : Type := Z * (Z -> Z) * bool.

#[export] Instance office_kernel : Kernel office := {
  NtClose _ k := (STATUS_SUCCESS, k); NtDuplicateObject h _ k := (STATUS_SUCCESS, h, k); NtQueryDeviceType _ _ := None;
  NtQueryAttributes _ _ := None; NtQueryAccess _ _ := None; NtOpenConsole _ k := (0, k); garbage _ := Fdinfo 0 INVALID_HANDLE 0 0
}.

#[export] Instance office_sched : SchedKernel office := {
  NtOpenProcess pid _ k := (STATUS_SUCCESS, pid, k);
  NtQueryPriorityClass _ k := (STATUS_SUCCESS, k.1.1);
  NtQueryBasePriority h k := (STATUS_SUCCESS, k.1.2 h);
  NtSetPriorityClass _ c k := (STATUS_SUCCESS, (c, k.1.2, k.2));
  NtSetBasePriority h b k := (STATUS_SUCCESS, (k.1.1, fun h' => if h' =? h then b else k.1.2 h', k.2));
  NtRaisePriority _ _ k := (STATUS_SUCCESS, k);
  RtlAcquirePrivilege k := (if k.2 then STATUS_SUCCESS else STATUS_PRIVILEGE_NOT_HELD, k);
  RtlReleasePrivilege k := k;
  NtQueryDefaultCpuSets _ _ := (STATUS_SUCCESS, 255);
  NtSetDefaultCpuSets _ _ k := (STATUS_SUCCESS, k)
}.

Definition class_in (k : office) (_ : Z) : Z := k.1.1.
Definition base_in (k : office) (h : Z) : Z := k.1.2 h.

#[export] Instance office_scheduler : Scheduler class_in base_in snd.
Proof.
  split; intros; try done; try (by eexists). eexists. split_and!; [reflexivity|done| |].
  - unfold base_in. cbn. by rewrite Z.eqb_refl.
  - intros h' Hh. unfold base_in. cbn. by rewrite (proj2 (Z.eqb_neq _ _)).
Qed.

Definition working (privilege : bool) : state office := State [] 0 0 0 0 0 (SCHED_RR, fun _ => 8, privilege).

End Office.
Import Office.

(** With the privilege the priority 2 is read back, without it still 0. *)
Lemma sched_param_roundtrip_witness :
  (exists k, wlibc_sched_getparam 0 true (with_kernel (working true) k) = Some ((0, Some 2), with_kernel (working true) k)) /\
  (exists k, wlibc_sched_setparam 0 (Some 2) (working false) = Some (0, with_kernel (working false) k) /\
     wlibc_sched_getparam 0 true (with_kernel (working false) k) = Some ((0, Some 0), with_kernel (working false) k)).
Proof.
  split.
  - destruct (sched_param_roundtrip class_in base_in snd 2 (working true)) as (k & _ & H). by exists k.
  - destruct (sched_param_roundtrip class_in base_in snd 2 (working false)) as (k & H1 & H2). by exists k.
Defined.
