(* ===== verification/Signal.v ===== *)
(** * Signals

    The signal table, the masks of a thread and the delivery of signals
    (src/signal/). A handler is a function of the user: the model calls it
    through [Handlers] on the whole state. A call returns, ends the process, or
    is undefined, which is a value of [outcome]. *)

From stdpp Require Import gmap.
From S2P Require Import Prelude Errno.

(** ** Constants *)

Definition NSIG : Z := 32.
Definition SIGHUP : Z := 1.
Definition SIGINT : Z := 2.
Definition SIGKILL : Z := 9.
Definition SIGCHLD : Z := 17.
Definition SIGCONT : Z := 18.
Definition SIGTTIN : Z := 19.
Definition SIGTTOU : Z := 20.
Definition SIGTSTP : Z := 21.
Definition SIGSTOP : Z := 22.
Definition SIGURG : Z := 23.
Definition SIGWINCH : Z := 28.
Definition SIGSYS : Z := 31.
Definition SIGBREAK : Z := SIGTSTP.

Definition SIG_ERR : Z := 2 ^ 64 - 1.
Definition SIG_DFL : Z := 0.
Definition SIG_IGN : Z := 1.
Definition SIG_GET : Z := 2.

Definition SIG_BLOCK : Z := 0.
Definition SIG_UNBLOCK : Z := 1.
Definition SIG_SETMASK : Z := 2.

Definition SA_NOCLDSTOP : Z := 0x01.
Definition SA_NODEFER : Z := 0x04.
Definition SA_RESETHAND : Z := 0x10.

(** ** State *)

Record siginfo := Siginfo { action : Z; sig_flags : Z; mask : Z }.

(** The part of [threadinfo] that concerns signals. *)
Record sigthread := Sigthread { sigmask : Z; pending : Z }.

(** What a signal made happen to the process. *)
Inductive event := Invoked (handler sig : Z) | Suspended (sig : Z).

(** [_wlibc_signal_table], the value in the slot [_wlibc_threadinfo_index] of
    the current thread, [errno] and what has happened so far. *)
Record sig_state := SigState {
  sig_table : list siginfo;
  thread : option sigthread;
  sig_errno : Z;
  events : list event
}.

Definition with_sig_table (s : sig_state) (t : list siginfo) : sig_state := SigState t (thread s) (sig_errno s) (events s).
Definition with_thread (s : sig_state) (t : option sigthread) : sig_state := SigState (sig_table s) t (sig_errno s) (events s).
Definition with_sig_errno (s : sig_state) (e : Z) : sig_state := SigState (sig_table s) (thread s) e (events s).
Definition with_events (s : sig_state) (l : list event) : sig_state := SigState (sig_table s) (thread s) (sig_errno s) l.

(** ** Calls that may end the process *)

Inductive outcome (X : Type) :=
  | Done (x : X) (s : sig_state)
  | Exited (code : Z) (s : sig_state)
  | Undefined.
Arguments Done {X}.
Arguments Exited {X}.
Arguments Undefined {X}.

Definition Sig (X : Type) : Type := sig_state -> outcome X.

#[export] Instance Sig_ret : MRet Sig := fun _ x s => Done x s.
#[export] Instance Sig_bind : MBind Sig := fun _ _ k m s =>
  match m s with Done x s => k x s | Exited c s => Exited c s | Undefined => Undefined end.

Definition get_sig : Sig sig_state := fun s => Done s s.
Definition put_sig (s : sig_state) : Sig unit := fun _ => Done () s.
Definition terminate {X} (code : Z) : Sig X := fun s => Exited code s.
Definition undefined {X} : Sig X := fun _ => Undefined.

(** [errno = e; return r;] *)
Definition sig_fail {X} (e : Z) (r : X) : Sig X := s ← get_sig; _ ← put_sig (with_sig_errno s e); mret r.

Definition note (e : event) : Sig unit := s ← get_sig; put_sig (with_events s (events s ++ [e])).

(** The functions of the user, called with a signal. *)
Class Handlers := call : Z -> Z -> Sig unit.

(** [1u << sig]. *)
Definition sigbit (sig : Z) : Z := u32 (Z.shiftl 1 sig).

(** ** The table *)

(** An index outside of the table is undefined. *)
Definition get_siginfo (sig : Z) : Sig siginfo :=
  s ← get_sig;
  match (if 0 <=? sig then sig_table s !! Z.to_nat sig else None) with
  | Some i => mret i
  | None => undefined
  end.

Definition set_siginfo (sig : Z) (i : siginfo) : Sig unit :=
  _ ← get_siginfo sig;
  s ← get_sig;
  put_sig (with_sig_table s (<[Z.to_nat sig := i]> (sig_table s))).

(** [memset(_wlibc_signal_table, 0, ...)]. *)
Definition signal_init : Sig unit := s ← get_sig; put_sig (with_sig_table s (replicate 32 (Siginfo 0 0 0))).

Definition validate_signal {X} (sig : Z) (r : X) (m : Sig X) : Sig X :=
  if (sig <=? 0) || (sig >=? NSIG) then sig_fail EINVAL r else m.

(** ** Actions *)

Record sigaction_t := Sigaction { sa_handler : Z; sa_mask : Z; sa_flags : Z }.

(** [old] says whether the caller wants the old action. The mask is kept in an
    [int]. *)
Definition do_sigaction (sig : Z) (new_action : option sigaction_t) (old : bool) : Sig (Z * option sigaction_t) :=
  old_action ← (if old then i ← get_siginfo sig; mret (Some (Sigaction (action i) (u32 (mask i)) (sig_flags i))) else mret None);
  match new_action with
  | None => mret (0, old_action)
  | Some new =>
      if (sig =? SIGKILL) || (sig =? SIGSTOP) then sig_fail EINVAL (-1, old_action)
      else _ ← set_siginfo sig (Siginfo (sa_handler new) (sa_flags new) (swrap 32 (sa_mask new))); mret (0, old_action)
  end.

Definition wlibc_sigaction (sig : Z) (new_action : option sigaction_t) (old : bool) : Sig (Z * option sigaction_t) :=
  validate_signal sig (-1, None) (do_sigaction sig new_action old).

Definition wlibc_signal (sig handler : Z) : Sig Z :=
  if (sig <=? 0) || (sig >=? NSIG) then sig_fail EINVAL SIG_ERR
  else if handler =? SIG_ERR then sig_fail EINVAL SIG_ERR
  else
    let handler_of (o : option sigaction_t) : Z := default 0 (sa_handler <$> o) in
    if handler =? SIG_GET then '(_, old) ← do_sigaction sig None true; mret (handler_of old)
    else
      '(status, old) ← do_sigaction sig (Some (Sigaction handler (sigbit sig) 0)) true;
      if negb (status =? 0) then mret SIG_ERR else mret (handler_of old).

(** ** Signal sets *)

(** A set is the value behind the pointer, [None] for a null pointer. *)
Definition on_set (set : option Z) (m : Z -> Sig (Z * Z)) : Sig (Z * Z) :=
  match set with None => sig_fail EINVAL (-1, 0) | Some x => m x end.

(** [(2u << (NSIG - 1)) - 1]. *)
Definition all_signals : Z := u32 (u32 (Z.shiftl 2 (NSIG - 1)) - 1).

Definition wlibc_sigemptyset (set : option Z) : Sig (Z * Z) := on_set set (fun _ => mret (0, 0)).
Definition wlibc_sigfillset (set : option Z) : Sig (Z * Z) := on_set set (fun _ => mret (0, all_signals)).

Definition wlibc_sigaddset (set : option Z) (sig : Z) : Sig (Z * Z) :=
  on_set set (fun x => validate_signal sig (-1, x) (mret (0, Z.lor x (sigbit sig)))).

Definition wlibc_sigdelset (set : option Z) (sig : Z) : Sig (Z * Z) :=
  on_set set (fun x => validate_signal sig (-1, x) (mret (0, Z.land x (u32 (Z.lnot (sigbit sig)))))).

Definition wlibc_sigismember (set : option Z) (sig : Z) : Sig (Z * Z) :=
  on_set set (fun x => validate_signal sig (-1, x) (mret (if has x (sigbit sig) then 1 else 0, x))).

(** ** Raising *)

(** The default action of each signal. *)
Definition default_action (sig : Z) : Sig unit :=
  if (sig =? SIGCHLD) || ((sig =? SIGURG) || (sig =? SIGWINCH)) then mret ()
  else if sig =? SIGCONT then mret ()
  else if (sig =? SIGTTIN) || ((sig =? SIGTTOU) || ((sig =? SIGTSTP) || (sig =? SIGSTOP))) then note (Suspended sig)
  else if (1 <=? sig) && (sig <=? 31) then terminate (128 + sig)
  else mret ().

Section Raise.
Context {H : Handlers}.

Definition execute_signal_handler (i : siginfo) (sig : Z) : Sig unit :=
  if action i =? SIG_DFL then default_action sig
  else _ ← note (Invoked (action i) sig); call (action i) sig.

(** The thread's own structure; there is none in a thread that was injected. *)
Definition the_thread : Sig sigthread :=
  s ← get_sig; match thread s with Some t => mret t | None => undefined end.

Definition set_sigmask (m : Z) : Sig unit :=
  t ← the_thread; s ← get_sig; put_sig (with_thread s (Some (Sigthread m (pending t)))).

Definition set_pending (p : Z) : Sig unit :=
  t ← the_thread; s ← get_sig; put_sig (with_thread s (Some (Sigthread (sigmask t) p))).

Definition wlibc_raise (sig : Z) : Sig Z :=
  validate_signal sig (-1) (
    s ← get_sig;
    i ← get_siginfo sig;
    match thread s with
    | None => if action i =? SIG_IGN then mret 0 else _ ← execute_signal_handler i sig; mret 0
    | Some t =>
        let oldmask := sigmask t in
        if has oldmask (sigbit sig) then _ ← set_pending (Z.lor (pending t) (sigbit sig)); mret 0
        else if action i =? SIG_IGN then mret 0
        else
          let m := Z.lor oldmask (u32 (mask i)) in
          let m := if negb (has (sig_flags i) SA_NODEFER) then Z.lor m (sigbit sig) else m in
          _ ← set_sigmask m;
          _ ← (if has (sig_flags i) SA_RESETHAND
               then j ← get_siginfo sig; set_siginfo sig (Siginfo SIG_DFL (sig_flags j) (mask j)) else mret ());
          _ ← execute_signal_handler i sig;
          _ ← set_sigmask oldmask;
          mret 0
    end).

(** The loop over the signals [i], ..., [i + n - 1]. *)
Fixpoint raise_pending (n : nat) (i pending_signals : Z) : Sig unit :=
  match n with
  | O => mret ()
  | S n =>
      _ ← (if has pending_signals (sigbit i) then
             t ← the_thread;
             _ ← set_pending (Z.land (pending t) (u32 (Z.lnot (sigbit i))));
             _ ← wlibc_raise i; mret ()
           else mret ());
      raise_pending n (i + 1) pending_signals
  end.

(** The result and the old mask, which the caller may not want. *)
Definition wlibc_sigprocmask (how : Z) (newset : option Z) : Sig (Z * Z) :=
  t ← the_thread;
  let oldset := sigmask t in
  if negb (how =? SIG_BLOCK) && (negb (how =? SIG_UNBLOCK) && negb (how =? SIG_SETMASK)) then sig_fail EINVAL (-1, oldset)
  else
    match newset with
    | None => mret (0, oldset)
    | Some set =>
        if (set >? all_signals) || (has set (sigbit SIGKILL) || has set (sigbit SIGSTOP)) then sig_fail EINVAL (-1, oldset)
        else
          let m := if how =? SIG_BLOCK then Z.lor oldset set
                   else if how =? SIG_UNBLOCK then Z.land oldset (u32 (Z.lnot set)) else set in
          _ ← set_sigmask m;
          let unblocked_signals := Z.land oldset (u32 (Z.lnot m)) in
          let pending_signals := Z.land (pending t) unblocked_signals in
          _ ← (if negb (pending_signals =? 0) then raise_pending (Z.to_nat (NSIG - 1 - 1)) 1 pending_signals else mret ());
          mret (0, oldset)
    end.

Definition wlibc_sigpending (set : bool) : Sig (Z * Z) :=
  if set then t ← the_thread; mret (0, pending t) else sig_fail EINVAL (-1, 0).

(** ** The console *)

(** The handler runs in a thread of its own, when one can be made. *)
Definition console_raise (sig : Z) (thread_created : bool) : Sig unit :=
  i ← get_siginfo sig;
  if action i =? SIG_IGN then mret ()
  else if action i =? SIG_DFL then terminate (128 + sig)
  else if thread_created then
    s ← get_sig;
    _ ← put_sig (with_thread s (Some (Sigthread 0 0)));
    _ ← note (Invoked (action i) sig);
    _ ← call (action i) sig;
    s' ← get_sig;
    put_sig (with_thread s' (thread s))
  else mret ().

Definition CTRL_C_EVENT : Z := 0.
Definition CTRL_BREAK_EVENT : Z := 1.

Definition console_handler (ctrl : Z) (thread_created : bool) : Sig bool :=
  if ctrl =? CTRL_C_EVENT then _ ← console_raise SIGINT thread_created; mret true
  else if ctrl =? CTRL_BREAK_EVENT then _ ← console_raise SIGBREAK thread_created; mret true
  else mret false.

End Raise.
