(* ===== verification/SignalSpec.v ===== *)
(** * Signals: delivery and sets

    Blocked signals stay pending and are delivered once when they are unblocked,
    in the order of their numbers; the sets of signals are finite sets; the
    action of a signal is the last one that was set. *)

From stdpp Require Import gmap.
From S2P Require Import Prelude Errno Signal.

(** ** Bits *)

Lemma sigbit_pow i : 0 <= i < 32 -> sigbit i = 2 ^ i.
Proof.
  intros Hi. unfold sigbit. rewrite Z.shiftl_1_l. apply wrap_small. split; [lia|].
  change (2 ^ 32) with 4294967296. change 4294967296 with (2 ^ 32). apply Z.pow_lt_mono_r; lia.
Qed.

Lemma has_sigbit x i : 0 <= i < 32 -> has x (sigbit i) = Z.testbit x i.
Proof. intros Hi. by rewrite sigbit_pow, has_pow2 by lia. Qed.

Lemma testbit_u32_lnot x k : 0 <= k < 32 -> Z.testbit (u32 (Z.lnot x)) k = negb (Z.testbit x k).
Proof. intros Hk. unfold wrap. by rewrite Z.mod_pow2_bits_low, Z.lnot_spec by lia. Qed.

Lemma testbit_sigbit i k : 0 <= i < 32 -> 0 <= k -> Z.testbit (sigbit i) k = (k =? i).
Proof. intros. by rewrite sigbit_pow, testbit_pow2 by lia. Qed.

(** ** Raising *)

(** Handlers that return, and leave the table, the pending signals and the
    record of events alone; they may change the mask. *)
Class Polite (H : Handlers) : Prop :=
  polite : forall a sig s t, thread s = Some t ->
    exists m e, call a sig s = Done () (SigState (sig_table s) (Some (Sigthread m (pending t))) e (events s)).

Section Delivery.
Context {H : Handlers}.

(** The table after a signal with [SA_RESETHAND] was delivered. *)
Definition after_delivery (i : siginfo) (sig : Z) (t : list siginfo) : list siginfo :=
  if negb (action i =? SIG_IGN) && has (sig_flags i) SA_RESETHAND
  then <[Z.to_nat sig := Siginfo SIG_DFL (sig_flags i) (mask i)]> t else t.

Definition delivery (i : siginfo) (sig : Z) : list event := if action i =? SIG_IGN then [] else [Invoked (action i) sig].

Lemma validate_signal_ok {X} sig (r : X) m : 0 < sig < 32 -> validate_signal sig r m = m.
Proof.
  intros Hs. unfold validate_signal. rewrite (proj2 (Z.leb_gt _ _)) by lia.
  by assert ((sig >=? NSIG) = false) as -> by (unfold NSIG; lia).
Qed.

Lemma get_siginfo_ok sig i s : 0 <= sig -> sig_table s !! Z.to_nat sig = Some i -> get_siginfo sig s = Done i s.
Proof. intros H0 Hi. unfold get_siginfo, mbind, Sig_bind. cbn [get_sig]. rewrite (proj2 (Z.leb_le 0 sig)) by lia. by rewrite Hi. Qed.

Lemma raise_blocked sig i t s :
  0 < sig < 32 -> sig_table s !! Z.to_nat sig = Some i -> thread s = Some t -> Z.testbit (sigmask t) sig = true ->
  wlibc_raise sig s = Done 0 (with_thread s (Some (Sigthread (sigmask t) (Z.lor (pending t) (2 ^ sig))))).
Proof.
  intros Hs Hi Ht Hb. unfold wlibc_raise. rewrite validate_signal_ok by done. unfold mbind, Sig_bind. cbn [get_sig].
  rewrite (get_siginfo_ok _ i) by (done || lia). rewrite Ht, has_sigbit, Hb, sigbit_pow by lia.
  unfold set_pending, the_thread, mbind, Sig_bind. cbn [get_sig put_sig]. by rewrite Ht.
Qed.

Lemma raise_delivered {HP : Polite H} sig i t s :
  0 < sig < 32 -> sig_table s !! Z.to_nat sig = Some i -> thread s = Some t -> Z.testbit (sigmask t) sig = false ->
  action i <> SIG_DFL ->
  exists e, wlibc_raise sig s = Done 0 (SigState (after_delivery i sig (sig_table s)) (Some t) e (events s ++ delivery i sig)).
Proof.
  intros Hs Hi Ht Hb Ha. unfold wlibc_raise, after_delivery, delivery. rewrite validate_signal_ok by done.
  unfold mbind, Sig_bind. cbn [get_sig]. rewrite (get_siginfo_ok _ i) by (done || lia). rewrite Ht, has_sigbit, Hb by lia.
  destruct (action i =? SIG_IGN) eqn:Eg.
  { exists (sig_errno s). cbn [negb andb]. rewrite app_nil_r, <- Ht. by destruct s. }
  unfold set_sigmask, the_thread, execute_signal_handler, note, mbind, Sig_bind. cbn [get_sig put_sig negb andb].
  rewrite Ht. cbn [mret Sig_ret]. rewrite (proj2 (Z.eqb_neq _ _) Ha).
  set (m := if negb _ then _ else _). destruct (has (sig_flags i) SA_RESETHAND).
  - unfold set_siginfo, mbind, Sig_bind. cbn [get_sig put_sig with_thread].
    rewrite !(get_siginfo_ok _ i) by (done || lia). cbn.
    edestruct (polite (action i) sig) as (m' & e & ->); [reflexivity|]. cbn. exists e. by destruct t.
  - cbn. edestruct (polite (action i) sig) as (m' & e & ->); [reflexivity|]. cbn. exists e. by destruct t.
Qed.

(** ** The pending signals *)

(** [i], ..., [i + n - 1]. *)
Definition signals (n : nat) (i : Z) : list Z := (fun k => i + Z.of_nat k) <$> seq 0 n.

Lemma signals_S n i : signals (S n) i = i :: signals n (i + 1).
Proof.
  unfold signals. cbn [seq fmap list_fmap]. rewrite <- seq_shift, Z.add_0_r. f_equal.
  change list_fmap with (@fmap list _). rewrite <- list_fmap_compose. apply list_fmap_ext. intros j x _. cbn. lia.
Qed.

Lemma elem_of_signals n i k : k ∈ signals n i <-> i <= k < i + Z.of_nat n.
Proof.
  unfold signals. rewrite list_elem_of_fmap. split.
  - intros (j & -> & Hj). apply elem_of_seq in Hj. lia.
  - intros Hk. exists (Z.to_nat (k - i)). split; [lia|]. apply elem_of_seq. lia.
Qed.

Lemma signals_decide n i k : bool_decide (k ∈ signals n i) = (i <=? k) && (k <? i + Z.of_nat n).
Proof.
  destruct (_ && _) eqn:E; [apply bool_decide_eq_true_2|apply bool_decide_eq_false_2]; rewrite elem_of_signals.
  - apply andb_true_iff in E as [E1 E2]. by apply Z.leb_le in E1; apply Z.ltb_lt in E2.
  - apply andb_false_iff in E as [E|E]; [apply Z.leb_gt in E|apply Z.ltb_ge in E]; lia.
Qed.

(** What is delivered of the signals [P], given their actions. *)
Definition deliveries (t : list siginfo) (P : Z) (l : list Z) : list event :=
  l ≫= fun k => match t !! Z.to_nat k with
               | Some i => if Z.testbit P k then delivery i k else []
               | None => []
               end.

Definition handled (t : list siginfo) (k : Z) : Prop := exists i, t !! Z.to_nat k = Some i /\ action i <> SIG_DFL.

Lemma deliveries_after t P i k l :
  0 <= k -> Forall (fun j => k < j) l -> deliveries (after_delivery i k t) P l = deliveries t P l.
Proof.
  intros Hk Hl. unfold deliveries. induction Hl as [|j l Hj Hl IH]; [done|]. cbn [mbind list_bind].
  f_equal; [|apply IH]. unfold after_delivery. destruct (_ && _); [|done]. by rewrite list_lookup_insert_ne by lia.
Qed.

Lemma handled_after t i k j : 0 <= k < j -> handled (after_delivery i k t) j <-> handled t j.
Proof.
  intros Hk. unfold handled, after_delivery. destruct (_ && _); [|done]. by rewrite list_lookup_insert_ne by lia.
Qed.

Lemma range_S i k n : k <> i -> (i + 1 <=? k) && (k <? i + 1 + Z.of_nat n) = (i <=? k) && (k <? i + Z.of_nat (S n)).
Proof. intros Hk. rewrite Nat2Z.inj_succ. destruct (Z.leb_spec (i + 1) k), (Z.leb_spec i k), (Z.ltb_spec k (i + 1 + Z.of_nat n)),
  (Z.ltb_spec k (i + Z.succ (Z.of_nat n))); done || lia. Qed.

Lemma raise_pending_ok {HP : Polite H} n : forall i P s t,
  0 < i -> i + Z.of_nat n <= 32 -> thread s = Some t ->
  (forall k, i <= k < i + Z.of_nat n -> handled (sig_table s) k) ->
  (forall k, i <= k < i + Z.of_nat n -> Z.testbit P k = true -> Z.testbit (sigmask t) k = false) ->
  exists T p e, raise_pending n i P s =
      Done () (SigState T (Some (Sigthread (sigmask t) p)) e (events s ++ deliveries (sig_table s) P (signals n i))) /\
    (forall k, 0 <= k < 32 -> Z.testbit p k =
       Z.testbit (pending t) k && negb (Z.testbit P k && ((i <=? k) && (k <? i + Z.of_nat n)))).
Proof.
  induction n as [|n IH]; intros i P s t Hi Hn Ht Hh Hm.
  { exists (sig_table s), (pending t), (sig_errno s). split.
    - cbn. rewrite app_nil_r. destruct s, t. cbn in *. by subst.
    - intros k Hk. assert ((i <=? k) && (k <? i + Z.of_nat 0) = false) as -> by (apply andb_false_iff; rewrite Z.leb_gt, Z.ltb_ge; lia). by rewrite andb_false_r, andb_true_r. }
  destruct (Hh i) as (inf & Hinf & Ha); [lia|].
  rewrite signals_S. cbn [raise_pending]. unfold mbind at 1, Sig_bind at 1. rewrite has_sigbit by lia.
  cbn [deliveries mbind list_bind]. rewrite Hinf.
  destruct (Z.testbit P i) eqn:EP.
  - unfold mbind at 1, Sig_bind at 1. unfold the_thread at 1. unfold mbind at 1, Sig_bind at 1. cbn [get_sig]. rewrite Ht. cbn [mret Sig_ret].
    unfold mbind at 1, Sig_bind at 1. unfold set_pending, the_thread, mbind at 1, Sig_bind at 1, mbind at 1, Sig_bind at 1.
    cbn [get_sig]. rewrite Ht. cbn [mret Sig_ret]. unfold mbind at 1, Sig_bind at 1. cbn [get_sig put_sig].
    set (t1 := Sigthread (sigmask t) (Z.land (pending t) (u32 (Z.lnot (sigbit i))))).
    unfold mbind at 1, Sig_bind at 1.
    destruct (raise_delivered i inf t1 (with_thread s (Some t1))) as (e & ->); [lia|done|done|apply Hm; [lia|done]|done|].
    cbn [mret Sig_ret with_thread sig_table events].
    match goal with |- context [raise_pending n (i + 1) P ?s1] =>
      destruct (IH (i + 1) P s1 t1) as (T & p & e' & -> & Hp); [lia|lia|done| | |] end.
    { intros k Hk. cbn. rewrite handled_after by lia. apply Hh. lia. }
    { intros k Hk. apply Hm. lia. }
    cbn [sig_table events]. rewrite deliveries_after; [|lia|].
    2:{ apply Forall_forall. intros j Hj. apply elem_of_signals in Hj. lia. }
    exists T, p, e'. rewrite <- app_assoc. split; [done|]. intros k Hk. rewrite Hp by done. cbn [pending t1].
    rewrite Z.land_spec, testbit_u32_lnot, testbit_sigbit by lia.
    destruct (decide (k = i)) as [->|Hne].
    + rewrite EP, Z.eqb_refl, (proj2 (Z.leb_le i i)), (proj2 (Z.ltb_lt i (i + Z.of_nat (S n)))) by lia. by destruct (Z.testbit (pending t) i).
    + rewrite (proj2 (Z.eqb_neq k i)), andb_true_r by done. do 3 f_equal. by apply range_S.
  - cbn [mret Sig_ret app].
    destruct (IH (i + 1) P s t) as (T & p & e' & -> & Hp); [lia|lia|done|intros k Hk; apply Hh; lia|intros k Hk; apply Hm; lia|].
    exists T, p, e'. split; [done|]. intros k Hk. rewrite Hp by done.
    destruct (decide (k = i)) as [->|Hne]; [by rewrite EP|]. do 3 f_equal. by apply range_S.
Qed.

(** A program that raises the signals of a list. *)
Fixpoint raise_all (l : list Z) : Sig unit :=
  match l with [] => mret () | i :: l => _ ← wlibc_raise i; raise_all l end.

Definition raised (p : Z) (l : list Z) : Z := foldl (fun p i => Z.lor p (2 ^ i)) p l.

Lemma raised_spec l : forall p k, Forall (fun i => 0 < i < 32) l -> 0 <= k ->
  Z.testbit (raised p l) k = Z.testbit p k || bool_decide (k ∈ l).
Proof.
  induction l as [|i l IH]; intros p k Hl Hk; cbn [raised foldl].
  { rewrite bool_decide_eq_false_2 by apply not_elem_of_nil. by rewrite orb_false_r. }
  apply Forall_cons in Hl as [Hi Hl]. rewrite IH, Z.lor_spec, testbit_pow2, <- orb_assoc by (done || lia). f_equal.
  destruct (Z.eqb_spec k i) as [->|Hne]; [symmetry; apply bool_decide_eq_true_2, list_elem_of_here|].
  cbn [orb]. apply bool_decide_ext. rewrite elem_of_cons. clear IH. split; [by right|by intros [?|?]].
Qed.

Lemma raise_all_blocked l : forall s t,
  thread s = Some t -> (forall k, 0 < k < 32 -> is_Some (sig_table s !! Z.to_nat k)) ->
  Forall (fun i => 0 < i < 32 /\ Z.testbit (sigmask t) i = true) l ->
  raise_all l s = Done () (with_thread s (Some (Sigthread (sigmask t) (raised (pending t) l)))).
Proof.
  induction l as [|i l IH]; intros s t Ht Hs Hl; cbn [raise_all raised foldl].
  { destruct s, t. cbn in *. by subst. }
  apply Forall_cons in Hl as [[Hi Hb] Hl]. destruct (Hs i Hi) as [inf Hinf]. unfold mbind, Sig_bind.
  rewrite (raise_blocked i inf t) by done.
  by rewrite (IH _ (Sigthread (sigmask t) (Z.lor (pending t) (2 ^ i)))).
Qed.

Lemma raise_pending_0 n : forall i s, raise_pending n i 0 s = Done () s.
Proof. induction n as [|n IH]; intros i s; [done|]. cbn. apply IH. Qed.

Lemma deliveries_filter t P (due : Z -> bool) l :
  Forall (fun k => Z.testbit P k = due k) l ->
  deliveries t P l = filter (fun k => due k = true) l ≫= fun k => default [] ((fun i => delivery i k) <$> t !! Z.to_nat k).
Proof.
  unfold deliveries. induction 1 as [|k l Hk Hl IH]; [done|]. rewrite filter_cons. cbn [mbind list_bind]. rewrite Hk.
  destruct (due k); cbn [mbind list_bind].
  - rewrite decide_True by done. cbn [mbind list_bind]. rewrite <- IH. by destruct (t !! Z.to_nat k).
  - rewrite decide_False by done. rewrite <- IH. by destruct (t !! Z.to_nat k).
Qed.

(** C18: blocked signals are delivered once they are unblocked. Let every signal
    have a handler or be ignored, and let the handlers return without touching
    the table or the pending signals. After a program raised the blocked signals
    [l], in any order and any number of times, [sigprocmask] with [SIG_UNBLOCK]
    calls the handler of each pending signal of the set exactly once, in the
    order of the numbers, and takes it out of the pending signals; the last
    signal, [SIGSYS], is left out and stays pending. *)
Theorem pending_signals_delivered {HP : Polite H} set l s t
    (Ht : thread s = Some t) (Hhandled : forall k, 0 < k < 32 -> handled (sig_table s) k)
    (Hl : Forall (fun i => 0 < i < 32 /\ Z.testbit (sigmask t) i = true) l)
    (Hset : 0 <= set < 2 ^ 32) (Hkill : Z.testbit set SIGKILL = false) (Hstop : Z.testbit set SIGSTOP = false) :
  let due k := Z.testbit (sigmask t) k && Z.testbit set k && (Z.testbit (pending t) k || bool_decide (k ∈ l)) in
  exists T p e,
    (_ ← raise_all l; wlibc_sigprocmask SIG_UNBLOCK (Some set)) s =
      Done (0, sigmask t) (SigState T (Some (Sigthread (Z.land (sigmask t) (u32 (Z.lnot set))) p)) e
        (events s ++ (filter (fun k => due k = true) (signals 30 1) ≫= fun k => default [] ((fun i => delivery i k) <$> sig_table s !! Z.to_nat k)))) /\
    forall k, 0 <= k < 32 ->
      Z.testbit p k = (Z.testbit (pending t) k || bool_decide (k ∈ l)) && negb (due k && bool_decide (k ∈ signals 30 1)).
Proof.
  intros due. unfold mbind at 1, Sig_bind at 1.
  rewrite (raise_all_blocked l s t) by (done || intros k Hk; destruct (Hhandled k Hk) as (i & Hi & _); by eexists).
  set (t1 := Sigthread (sigmask t) (raised (pending t) l)). set (s1 := with_thread s (Some t1)).
  assert (Hl' : Forall (fun i => 0 < i < 32) l) by (eapply Forall_impl; [exact Hl|]; by intros i [? _]).
  set (P := Z.land (raised (pending t) l) (Z.land (sigmask t) (u32 (Z.lnot (Z.land (sigmask t) (u32 (Z.lnot set))))))).
  assert (HP' : forall k, 0 <= k < 32 -> Z.testbit P k = due k).
  { intros k Hk. unfold P, due. rewrite !Z.land_spec, testbit_u32_lnot, Z.land_spec, testbit_u32_lnot, raised_spec by (done || lia).
    destruct (Z.testbit (sigmask t) k), (Z.testbit set k); cbn; by rewrite ?andb_false_r, ?andb_true_r. }
  set (m := Z.land (sigmask t) (u32 (Z.lnot set))). set (s2 := with_thread s (Some (Sigthread m (raised (pending t) l)))).
  destruct (raise_pending_ok 30 1 P s2 (Sigthread m (raised (pending t) l))) as (T & p & e & Hrun & Hp); [lia|lia|done| | |].
  { intros k Hk. apply Hhandled. lia. }
  { intros k Hk. rewrite HP' by lia. unfold due. cbn [sigmask]. unfold m. rewrite Z.land_spec, testbit_u32_lnot by lia.
    by destruct (Z.testbit (sigmask t) k), (Z.testbit set k). }
  exists T, p, e. split.
  - unfold wlibc_sigprocmask, the_thread, set_sigmask, the_thread, mbind, Sig_bind. cbn [get_sig put_sig thread s1 with_thread mret Sig_ret].
    cbn [sigmask pending t1]. rewrite !has_sigbit, Hkill, Hstop by (unfold SIGKILL, SIGSTOP; lia).
    assert ((set >? all_signals) = false) as -> by (change all_signals with (2 ^ 32 - 1); lia).
    cbn -[raise_pending signals u32 Z.lnot]. fold P. fold m.
    change (with_thread _ _) with s2.
    change (Z.to_nat (NSIG - 1 - 1)) with 30%nat.
    assert ((if negb (P =? 0) then raise_pending 30 1 P else mret ()) s2 = raise_pending 30 1 P s2) as ->
      by (destruct (Z.eqb_spec P 0) as [->|E]; [by rewrite raise_pending_0|done]).
    rewrite Hrun. cbn [mret Sig_ret sigmask]. do 2 f_equal. cbn [s2 with_thread events sig_table]. f_equal. apply deliveries_filter.
    apply Forall_forall. intros k Hk. apply elem_of_signals in Hk. apply HP'. lia.
  - intros k Hk. rewrite Hp, HP' by done. cbn [pending]. rewrite raised_spec by (done || lia). do 3 f_equal.
    symmetry. apply signals_decide.
Qed.

End Delivery.

(** ** Sets *)

(** The signals of a set. *)
Definition members (x : Z) : gset Z := list_to_set (filter (fun k => Z.testbit x k = true) (signals 31 1)).

Lemma elem_of_members x k : k ∈ members x <-> 0 < k < 32 /\ Z.testbit x k = true.
Proof.
  unfold members. rewrite elem_of_list_to_set, list_elem_of_filter, elem_of_signals. change (Z.of_nat 31) with 31. intuition lia.
Qed.

(** a [sigset_t] is a set of signals. [sigemptyset], [sigfillset],
    [sigaddset] and [sigdelset] give the empty set, the set of all signals, the
    insertion and the deletion, [sigismember] decides membership, and a number
    that is no signal is refused with [EINVAL] leaving the set as it was. The
    full set contains [SIGKILL], which [sigprocmask] refuses: it cannot be used
    as a mask. *)
Theorem sigset_is_set {H : Handlers} x sig s t (Hx : 0 <= x < 2 ^ 32) (Ht : thread s = Some t) :
  (exists y, wlibc_sigemptyset (Some x) s = Done (0, y) s /\ members y = ∅) /\
  (exists y, wlibc_sigfillset (Some x) s = Done (0, y) s /\ members y = list_to_set (signals 31 1) /\
     forall how, exists s', wlibc_sigprocmask how (Some y) s = Done (-1, sigmask t) s' /\ thread s' = Some t) /\
  if bool_decide (0 < sig < NSIG) then
    (exists y, wlibc_sigaddset (Some x) sig s = Done (0, y) s /\ members y = {[sig]} ∪ members x) /\
    (exists y, wlibc_sigdelset (Some x) sig s = Done (0, y) s /\ members y = members x ∖ {[sig]}) /\
    wlibc_sigismember (Some x) sig s = Done (if bool_decide (sig ∈ members x) then 1 else 0, x) s
  else
    let refused := Done (-1, x) (with_sig_errno s EINVAL) in
    wlibc_sigaddset (Some x) sig s = refused /\ wlibc_sigdelset (Some x) sig s = refused /\
    wlibc_sigismember (Some x) sig s = refused.
Proof.
  split_and!.
  - exists 0. split; [done|]. apply set_eq. intros k. rewrite elem_of_members, Z.bits_0. set_solver.
  - exists all_signals. split_and!; [done| |].
    + apply set_eq. intros k. rewrite elem_of_members, elem_of_list_to_set, elem_of_signals. change all_signals with (Z.ones 32).
      destruct (decide (0 <= k < 32)); [rewrite Z.ones_spec_low by lia|]; lia.
    + intros how. unfold wlibc_sigprocmask, the_thread, mbind, Sig_bind. cbn [get_sig]. rewrite Ht. cbn [mret Sig_ret].
      destruct (_ && _); eexists; (split; [reflexivity|done]).
  - case_bool_decide as Hs; unfold NSIG in Hs.
    + unfold wlibc_sigaddset, wlibc_sigdelset, wlibc_sigismember, on_set. rewrite !validate_signal_ok by lia. split_and!.
      * eexists. split; [reflexivity|]. apply set_eq. intros k.
        rewrite elem_of_union, elem_of_singleton, !elem_of_members. destruct (decide (0 < k < 32)); [|naive_solver lia].
        rewrite Z.lor_spec, testbit_sigbit, orb_true_iff, Z.eqb_eq by lia. naive_solver.
      * eexists. split; [reflexivity|]. apply set_eq. intros k. rewrite elem_of_difference, elem_of_singleton, !elem_of_members.
        destruct (decide (0 < k < 32)); [|naive_solver].
        rewrite Z.land_spec, testbit_u32_lnot, testbit_sigbit, andb_true_iff, negb_true_iff, Z.eqb_neq by lia. naive_solver.
      * rewrite has_sigbit by lia. unfold mret, Sig_ret. do 2 f_equal.
        assert (bool_decide (sig ∈ members x) = Z.testbit x sig) as ->; [|done].
        destruct (Z.testbit x sig) eqn:E; [apply bool_decide_eq_true_2|apply bool_decide_eq_false_2]; rewrite elem_of_members, E; [lia|naive_solver].
    + cbn. unfold wlibc_sigaddset, wlibc_sigdelset, wlibc_sigismember, on_set, validate_signal.
      assert ((sig <=? 0) || (sig >=? NSIG) = true) as -> by (unfold NSIG; lia). done.
Qed.

(** ** Actions *)

(** the action of a signal is the last one set: after [sigaction] has set an
    action, [sigaction] and [signal] with [SIG_GET] report it, whatever the
    action of any other signal becomes; [SIGKILL] and [SIGSTOP] keep theirs. *)
Theorem sigaction_roundtrip sig new s i
    (Hs : 0 < sig < NSIG) (Hi : sig_table s !! Z.to_nat sig = Some i) (Hmask : 0 <= sa_mask new < 2 ^ 32) :
  if (sig =? SIGKILL) || (sig =? SIGSTOP) then
    wlibc_sigaction sig (Some new) false s = Done (-1, None) (with_sig_errno s EINVAL)
  else exists s1, wlibc_sigaction sig (Some new) false s = Done (0, None) s1 /\
    wlibc_sigaction sig None true s1 = Done (0, Some new) s1 /\
    wlibc_signal sig SIG_GET s1 = Done (sa_handler new) s1 /\
    forall sig' j, 0 < sig' -> sig' <> sig -> sig_table s !! Z.to_nat sig' = Some j -> sig_table s1 !! Z.to_nat sig' = Some j.
Proof.
  unfold NSIG in Hs. unfold wlibc_sigaction. rewrite !validate_signal_ok by lia. unfold do_sigaction.
  destruct ((sig =? SIGKILL) || (sig =? SIGSTOP)) eqn:E.
  { done. }
  set (j := Siginfo (sa_handler new) (sa_flags new) (swrap 32 (sa_mask new))).
  set (s1 := with_sig_table s (<[Z.to_nat sig := j]> (sig_table s))).
  assert (Hj : sig_table s1 !! Z.to_nat sig = Some j).
  { cbn [s1 with_sig_table sig_table]. apply list_lookup_insert_eq, lookup_lt_is_Some. by eexists. }
  assert (Hold : Sigaction (action j) (u32 (mask j)) (sig_flags j) = new).
  { destruct new as [a m f]. cbn in *. rewrite wrap_swrap, wrap_small by done. done. }
  exists s1. split_and!.
  - unfold mbind, Sig_bind. cbn [mret Sig_ret]. unfold set_siginfo, mbind, Sig_bind.
    by rewrite (get_siginfo_ok _ i) by (done || lia).
  - unfold mbind, Sig_bind. rewrite (get_siginfo_ok _ j) by (done || lia). cbn [mret Sig_ret]. by rewrite Hold.
  - unfold wlibc_signal. assert ((sig <=? 0) || (sig >=? NSIG) = false) as -> by (unfold NSIG; lia).
    cbn [orb]. change (SIG_GET =? SIG_ERR) with false. cbn [Z.eqb]. unfold do_sigaction, mbind, Sig_bind.
    rewrite Z.eqb_refl, (get_siginfo_ok _ j) by (done || lia). cbn [mret Sig_ret fmap option_fmap option_map default]. done.
  - intros sig' j' H0 Hne Hl. cbn [s1 with_sig_table sig_table]. by rewrite list_lookup_insert_ne by lia.
Qed.

(** ** An example *)

Module Quiet.

(** Handlers that do nothing. *)
#[export] Instance quiet : Handlers := fun _ _ => mret ().

#[export] Instance quiet_polite : Polite quiet.
Proof. intros a sig s t Ht. exists (sigmask t), (sig_errno s). destruct s, t. cbn in *. by subst. Qed.

(** Every signal has the handler 100. *)
Definition handled_all : list siginfo := replicate 32 (Siginfo 100 0 0).

Definition blocking (m : Z) : sig_state := SigState handled_all (Some (Sigthread m 0)) 0 [].

End Quiet.
Import Quiet.

(** [SIGUSR1], [SIGALRM] and [SIGSYS] are blocked and raised, the first twice. *)
Lemma pending_signals_delivered_witness : exists T p e,
  (_ ← raise_all [14; 10; 31; 10]; wlibc_sigprocmask SIG_UNBLOCK (Some (2 ^ 10 + 2 ^ 14 + 2 ^ 31))) (blocking (2 ^ 10 + 2 ^ 14 + 2 ^ 31)) =
    Done (0, 2 ^ 10 + 2 ^ 14 + 2 ^ 31) (SigState T (Some (Sigthread 0 p)) e [Invoked 100 10; Invoked 100 14]) /\ Z.testbit p 31 = true.
Proof.
  destruct (pending_signals_delivered (2 ^ 10 + 2 ^ 14 + 2 ^ 31) [14; 10; 31; 10] (blocking (2 ^ 10 + 2 ^ 14 + 2 ^ 31))
    (Sigthread (2 ^ 10 + 2 ^ 14 + 2 ^ 31) 0)) as (T & p & e & Hrun & Hp).
  - reflexivity.
  - intros k Hk. exists (Siginfo 100 0 0). split; [|done]. apply lookup_replicate_2. lia.
  - repeat constructor.
  - split; vm_compute; [discriminate|reflexivity].
  - reflexivity.
  - reflexivity.
  - exists T, p, e. split; [exact Hrun|]. by rewrite Hp.
Defined.

Lemma sigset_is_set_witness : wlibc_sigismember (Some 6) 2 (blocking 0) = Done (1, 6) (blocking 0).
Proof.
  destruct (sigset_is_set 6 2 (blocking 0) (Sigthread 0 0)) as (_ & _ & _ & _ & Hm); [split; vm_compute; [discriminate|reflexivity]|reflexivity|].
  rewrite Hm. reflexivity.
Defined.

Lemma sigaction_roundtrip_witness : exists s1,
  wlibc_sigaction SIGINT (Some (Sigaction 200 (2 ^ 31) SA_NODEFER)) false (blocking 0) = Done (0, None) s1 /\
  wlibc_sigaction SIGINT None true s1 = Done (0, Some (Sigaction 200 (2 ^ 31) SA_NODEFER)) s1.
Proof.
  destruct (sigaction_roundtrip SIGINT (Sigaction 200 (2 ^ 31) SA_NODEFER) (blocking 0) (Siginfo 100 0 0)) as (s1 & H1 & H2 & _).
  - split; reflexivity.
  - reflexivity.
  - split; vm_compute; [discriminate|reflexivity].
  - by exists s1.
Defined.
