(* ===== verification/Process.v ===== *)
(** * Child processes

    The table of the children of the process (src/spawn/internal.c) and waiting
    for them (src/sys/wait/waitpid.c). *)

From stdpp Require Import gmap.
From S2P Require Import Prelude Errno Buffer FdTable FileIo Path Signal.

(** ** The table *)

Record processinfo := Processinfo { p_handle : Z; p_id : Z }.

Definition no_process : processinfo := Processinfo 0 0.

(** [_wlibc_process_table] (its length is [_wlibc_process_table_size]),
    [_wlibc_child_process_count], whether [_wlibc_process_table_srwlock] is held,
    and the state of the signals. *)
Record proc_state := ProcState {
  processes : list processinfo;
  child_count : Z;
  table_locked : bool;
  signals_of : sig_state
}.

Definition with_processes (p : proc_state) (t : list processinfo) : proc_state :=
  ProcState t (child_count p) (table_locked p) (signals_of p).
Definition with_count (p : proc_state) (n : Z) : proc_state :=
  ProcState (processes p) n (table_locked p) (signals_of p).
Definition with_lock (p : proc_state) (b : bool) : proc_state :=
  ProcState (processes p) (child_count p) b (signals_of p).
Definition with_signals (p : proc_state) (s : sig_state) : proc_state :=
  ProcState (processes p) (child_count p) (table_locked p) s.

(** Waiting. The status of a wait for several objects is a number: the index of
    the object that was signalled, or a code. *)
Class WaitKernel (K : Type) := {
  NtWaitForSingleObject : Z -> bool -> K -> NTSTATUS * K;
  NtWaitForMultipleObjects : list Z -> bool -> K -> Z * K;
  NtQueryExitStatus : Z -> K -> NTSTATUS * Z
}.

(** [sizeof(processinfo)]. *)
Definition sizeof_processinfo : Z := 16.

Definition MAXIMUM_WAIT_OBJECTS : Z := 64.
Definition STATUS_TIMEOUT_code : Z := 258.

Section Children.
Context {K : Type} {KN : Kernel K} {A : Allocator} {WK : WaitKernel K}.

Abbreviation C := (SM proc_state K).

(** A thread that takes the lock while it is held waits forever. *)
Definition lock_table : C unit :=
  p ← get_S; if table_locked p then run_M UB else put_S (with_lock p true).
Definition unlock_table : C unit := p ← get_S; put_S (with_lock p false).

(** The table starts with four free entries; without memory the process ends. *)
Definition process_init : C bool :=
  if malloc_ok (sizeof_processinfo * 4) then
    p ← get_S; _ ← put_S (with_lock (with_count (with_processes p (replicate 4 no_process)) 0) false); mret true
  else mret false.

(** The first entry with the number, [no_process] when there is none. *)
Fixpoint find_process (id : Z) (t : list processinfo) : processinfo :=
  match t with
  | [] => no_process
  | e :: t => if u32 id =? p_id e then e else find_process id t
  end.

Definition get_processinfo (pid : Z) : C processinfo :=
  _ ← lock_table;
  p ← get_S;
  _ ← unlock_table;
  mret (find_process pid (processes p)).

(** The index of the first entry that is free, by its number. *)
Fixpoint free_process (t : list processinfo) (i : Z) : option Z :=
  match t with
  | [] => None
  | e :: t => if p_id e =? 0 then Some i else free_process t (i + 1)
  end.

(** When the table cannot grow the lock is not released. *)
Definition add_child (id child : Z) : C Z :=
  _ ← lock_table;
  p ← get_S;
  let t := processes p in
  let added (t : list processinfo) : C Z :=
    _ ← put_S (with_count (with_processes p t) (u64 (child_count p + 1)));
    _ ← unlock_table; mret 0 in
  match free_process t 0 with
  | Some i => added (<[Z.to_nat i := Processinfo child id]> t)
  | None =>
      if malloc_ok (sizeof_processinfo * zlen t * 2)
      then added (t ++ Processinfo child id :: replicate (length t - 1) no_process)
      else _ ← run_M (set_errno ENOMEM); mret (-1)
  end.

(** The first index from [j] on whose handle is [NULL], or where the search
    ended. *)
Fixpoint free_from (fuel : nat) (t : list processinfo) (j : Z) : Z :=
  match fuel with
  | O => j
  | S fuel =>
      match t !! Z.to_nat j with
      | Some e => if p_handle e =? 0 then j else free_from fuel t (j + 1)
      | None => j
      end
  end.

(** [_wlibc_process_table[i]] is freed and gets the entry before [j]. *)
Definition remove_process (t : list processinfo) (i : Z) : option (list processinfo) :=
  let t := <[Z.to_nat i := no_process]> t in
  let j := free_from (length t) t (i + 2) in
  e ← t !! Z.to_nat (j - 1);
  Some (<[Z.to_nat (j - 1) := no_process]> (<[Z.to_nat i := e]> t)).

(** The loop over the first [n] entries from [i] on: [None] for a read outside of
    the table, [Some None] when the number is not there. *)
Fixpoint child_index (n : nat) (t : list processinfo) (id i : Z) : option (option Z) :=
  match n with
  | O => Some None
  | S n => e ← t !! Z.to_nat i; if id =? p_id e then Some (Some i) else child_index n t id (i + 1)
  end.

Definition delete_child (id : Z) : C unit :=
  _ ← lock_table;
  p ← get_S;
  i ← run_M (lift (child_index (Z.to_nat (child_count p)) (processes p) id 0));
  t ← (match i with
       | Some i => run_M (lift (remove_process (processes p) i))
       | None => mret (processes p)
       end);
  _ ← put_S (with_count (with_processes p t) (u64 (child_count p - 1)));
  unlock_table.

(** ** Waiting *)

Definition WNOHANG : Z := 1.

(** [waited] is the exit code that is stored, if one is. *)
Definition wait_child (pid options : Z) : C (Z * option Z) :=
  pinfo ← get_processinfo pid;
  if p_handle pinfo =? 0 then _ ← run_M (set_errno ECHILD); mret (-1, None)
  else
    s ← run_M get;
    let '(status, k) := NtWaitForSingleObject (p_handle pinfo) (has options WNOHANG) (kernel s) in
    _ ← run_M (set_kernel k);
    if negb (bool_decide (status = STATUS_SUCCESS)) then
      if bool_decide (status = STATUS_TIMEOUT) then mret (0, Some (-1))
      else _ ← run_M (set_errno (map_ntstatus_to_errno status (errno s))); mret (-1, None)
    else
      let '(status, code) := NtQueryExitStatus (p_handle pinfo) k in
      let waited := if bool_decide (status = STATUS_SUCCESS) then Some code else None in
      _ ← delete_child (p_id pinfo);
      mret (pid, waited).

(** [child_handles[i]] and [child_pids[i]]: arrays of 64 entries, zero where no
    child is. *)
Definition slot (l : list Z) (i : Z) : option Z :=
  if (0 <=? i) && (i <? MAXIMUM_WAIT_OBJECTS) then Some (default 0 (l !! Z.to_nat i)) else None.

(** Exit codes are always asked for. After the query, the index of the child is
    the status of the query. *)
Definition wait_all_children (options : Z) : C (Z * option Z) :=
  _ ← lock_table;
  p ← get_S;
  let live := filter (fun e => p_handle e <> 0) (processes p) in
  let child_handles := p_handle <$> live in
  let child_pids := p_id <$> live in
  _ ← (if zlen live >? MAXIMUM_WAIT_OBJECTS then run_M UB else mret ());
  _ ← unlock_table;
  if zlen live =? 0 then mret (0, None)
  else
    s ← run_M get;
    let '(status, k) := NtWaitForMultipleObjects child_handles (has options WNOHANG) (kernel s) in
    _ ← run_M (set_kernel k);
    if status =? STATUS_TIMEOUT_code then mret (0, Some (-1))
    else if (status <? 0) && (status >? 63) then
      _ ← run_M (set_errno (map_ntstatus_to_errno (STATUS_other status) (errno s))); mret (-1, None)
    else
      h ← run_M (lift (slot child_handles status));
      let '(query, code) := NtQueryExitStatus h k in
      let waited := if bool_decide (query = STATUS_SUCCESS) then Some code else None in
      pid ← (if bool_decide (query = STATUS_SUCCESS) then run_M (lift (slot child_pids 0)) else run_M UB);
      _ ← delete_child pid;
      mret (pid, waited).

(** A stopped child raises [SIGCHLD]; the handler may end the process. *)
Definition notify_parent {H : Handlers} (exit_code : Z) : C (option Z) :=
  let sig := exit_code - 128 in
  if (sig =? SIGCONT) || ((sig =? SIGTTIN) || ((sig =? SIGTTOU) || ((sig =? SIGTSTP) || (sig =? SIGSTOP)))) then
    p ← get_S;
    let raise : Sig unit :=
      i ← get_siginfo SIGCHLD;
      if negb (has (sig_flags i) SA_NOCLDSTOP) then _ ← wlibc_raise SIGCHLD; mret () else mret () in
    match raise (signals_of p) with
    | Done _ s => _ ← put_S (with_signals p s); mret None
    | Exited code s => _ ← put_S (with_signals p s); mret (Some code)
    | Undefined => run_M UB
    end
  else mret None.

(** The child and the exit code that is stored, or the code with which the
    process itself has ended. *)
Definition wlibc_waitpid {H : Handlers} (pid options : Z) : C (Z * Z + Z) :=
  if pid <? -1 then _ ← run_M (set_errno ENOTSUP); mret (inl (-1, 0))
  else if options >? 3 then _ ← run_M (set_errno EINVAL); mret (inl (-1, 0))
  else
    '(child, waited) ← (if pid >? 0 then wait_child pid options else wait_all_children options);
    let exit_code := default 0 waited in
    ended ← (if child >? 0 then notify_parent exit_code else mret None);
    match ended with
    | None => mret (inl (child, exit_code))
    | Some code => mret (inr code)
    end.

End Children.
