(* ===== verification/ProcessSpec.v ===== *)
(** * Child processes: the table and waiting

    The table holds the live children in front and free entries behind them; a
    child that leaves is replaced by the last one. *)

From stdpp Require Import gmap.
From S2P Require Import Prelude Errno Buffer FdTable FileIo Path PathFacts Signal Process.

(** ** The table as a list *)

(** The children in the order of the table, and the number of its entries. *)
Record children := Children { live : list processinfo; capacity : nat }.

Definition is_child (e : processinfo) : Prop := p_handle e <> 0 /\ 0 < p_id e < 2 ^ 32.

Record table_of (p : proc_state) (c : children) : Prop := {
  to_processes : processes p = live c ++ replicate (capacity c - length (live c)) no_process;
  to_count : child_count p = zlen (live c);
  to_unlocked : table_locked p = false;
  to_live : Forall is_child (live c);
  to_ids : NoDup (p_id <$> live c);
  to_size : (length (live c) <= capacity c)%nat /\ (0 < capacity c)%nat /\ Z.of_nat (capacity c) < 2 ^ 60
}.

(** A new child comes last; the table doubles when it is full. *)
Definition enter_child (id h : Z) (c : children) : children :=
  Children (live c ++ [Processinfo h id]) (if decide (length (live c) < capacity c)%nat then capacity c else 2 * capacity c).

(** [r] with its last element in front. *)
Definition last_first (r : list processinfo) : list processinfo :=
  match reverse r with [] => [] | e :: r => e :: reverse r end.

Definition forget_child (id : Z) (c : children) : children :=
  match list_find (fun e => p_id e = id) (live c) with
  | Some (i, _) => Children (take i (live c) ++ last_first (drop (S i) (live c))) (capacity c)
  | None => c
  end.

(** The child is the last one of a full table. *)
Definition at_the_edge (id : Z) (c : children) : Prop :=
  length (live c) = capacity c /\ (p_id <$> last (live c)) = Some id.

#[export] Instance at_the_edge_dec id c : Decision (at_the_edge id c).
Proof. unfold at_the_edge. apply _. Defined.

Section Table.
Context {K : Type} {KN : Kernel K} {A : Allocator}.
Context (alloc_ok : forall n, malloc_ok n = true).

Lemma free_process_live l m i :
  Forall is_child l -> free_process (l ++ replicate m no_process) i = match m with O => None | S _ => Some (i + zlen l) end.
Proof.
  intros Hl. revert i. induction Hl as [|e l [_ He] Hl IH]; intros i; cbn [app free_process].
  - destruct m; [done|]. cbn. by rewrite Z.add_0_r.
  - rewrite (proj2 (Z.eqb_neq _ _)) by lia. rewrite IH. destruct m; [done|]. f_equal. cbn [length]. lia.
Qed.

Lemma insert_at (l r : list processinfo) x y : <[length l := y]> (l ++ x :: r) = l ++ y :: r.
Proof. rewrite <- (Nat.add_0_r (length l)). by rewrite insert_app_r. Qed.

Lemma lock_free p s : table_locked p = false -> lock_table (K := K) p s = Some (((), with_lock p true), s).
Proof. intros Hp. unfold lock_table. rewrite (SM_bind_Some _ _ _ _ p p s) by done. by rewrite Hp. Qed.

Lemma add_child_ok id h c p s :
  table_of p c -> 0 < id < 2 ^ 32 -> h <> 0 -> id ∉ p_id <$> live c -> Z.of_nat (capacity c) < 2 ^ 59 ->
  exists p', add_child (K := K) id h p s = Some ((0, p'), s) /\ table_of p' (enter_child id h c).
Proof.
  intros [Hp Hc Hu Hl Hn (Hs & H0 & H1)] Hid Hh Hnew Hcap. unfold add_child.
  rewrite (SM_bind_Some _ _ _ _ _ _ _ (lock_free p s Hu)). rewrite (SM_bind_Some _ _ _ _ _ _ _ eq_refl).
  cbn [processes with_lock child_count]. rewrite Hp, free_process_live by done.
  assert (Hcount : u64 (child_count p + 1) = zlen (live c ++ [Processinfo h id])).
  { rewrite wrap_small by lia. rewrite length_app. cbn [length]. lia. }
  assert (Hl' : Forall is_child (live c ++ [Processinfo h id])) by (apply Forall_app; split; [done|]; by apply Forall_singleton).
  assert (Hn' : NoDup (p_id <$> live c ++ [Processinfo h id])).
  { rewrite fmap_app. apply NoDup_app. split; [done|]. split; [|apply NoDup_singleton].
    intros x Hx. cbn. rewrite list_elem_of_singleton. by intros ->. }
  unfold enter_child. destruct (capacity c - length (live c))%nat as [|m] eqn:Em.
  - rewrite alloc_ok. eexists. split; [reflexivity|]. rewrite decide_False by lia. rewrite app_nil_r. split; cbn; try done.
    + rewrite <- app_assoc. cbn [app]. do 3 f_equal. rewrite length_app. cbn [length]. lia.
    + rewrite length_app. cbn [length]. lia.
  - eexists. split; [reflexivity|]. rewrite decide_True by lia. rewrite Z.add_0_l, Nat2Z.id. cbn [replicate]. rewrite insert_at. split; cbn; try done.
    + rewrite <- app_assoc. cbn [app]. do 3 f_equal. rewrite length_app. cbn [length]. lia.
    + rewrite length_app. cbn [length]. lia.
Qed.

Lemma find_process_live id c p : table_of p c -> 0 < id < 2 ^ 32 ->
  find_process id (processes p) = default no_process (snd <$> list_find (fun e => p_id e = id) (live c)).
Proof.
  intros [Hp _ _ _ _ _] Hid. rewrite Hp. clear Hp. generalize (capacity c - length (live c))%nat. intros m.
  induction (live c) as [|e l IH]; cbn [app find_process list_find].
  - induction m as [|m IH]; [done|]. cbn. rewrite wrap_small, (proj2 (Z.eqb_neq _ _)) by lia. exact IH.
  - rewrite wrap_small by lia. destruct (Z.eqb_spec id (p_id e)) as [->|Hne]; [by rewrite decide_True|].
    rewrite decide_False by done. rewrite IH. by destruct (list_find _ l) as [[]|].
Qed.

Lemma free_from_live l m : forall n j t, t = l ++ replicate m no_process -> Forall is_child (drop (Z.to_nat j) l) ->
  0 <= j <= zlen l -> (length l - Z.to_nat j < n)%nat -> free_from n t j = zlen l.
Proof.
  induction n as [|n IH]; intros j t Ht Hl Hj Hn; [lia|]. cbn [free_from]. subst t.
  destruct (decide (j = zlen l)) as [->|Hne].
  - rewrite Nat2Z.id, lookup_app_r, Nat.sub_diag by lia. by destruct m.
  - rewrite lookup_app_l by lia. destruct (l !! Z.to_nat j) as [e|] eqn:E; [|apply lookup_ge_None in E; lia].
    rewrite (drop_S _ _ _ E) in Hl. apply Forall_cons in Hl as [[He _] Hl].
    rewrite (proj2 (Z.eqb_neq _ _)) by done. eapply IH; [done| |lia|lia]. by replace (Z.to_nat (j + 1)) with (S (Z.to_nat j)) by lia.
Qed.

Lemma remove_last l x m :
  remove_process (l ++ x :: replicate m no_process) (zlen l) = match m with O => None | S _ => Some (l ++ replicate (S m) no_process) end.
Proof.
  unfold remove_process. rewrite Nat2Z.id, insert_at.
  assert (Hj : free_from (length (l ++ no_process :: replicate m no_process)) (l ++ no_process :: replicate m no_process) (zlen l + 2) = zlen l + 2).
  { rewrite length_app. cbn [length]. rewrite Nat.add_succ_r. cbn [free_from].
    rewrite lookup_app_r by lia. replace (Z.to_nat (zlen l + 2) - length l)%nat with 2%nat by lia. by destruct m as [|[|m]]. }
  rewrite Hj. replace (Z.to_nat (zlen l + 2 - 1)) with (length l + 1)%nat by lia.
  rewrite lookup_app_r by lia. replace (length l + 1 - length l)%nat with 1%nat by lia. destruct m as [|m]; [done|].
  cbn [lookup list_lookup replicate mbind option_bind]. f_equal. rewrite insert_at, insert_app_r. by cbn.
Qed.

Lemma remove_middle l x r e m :
  Forall is_child (r ++ [e]) ->
  remove_process (l ++ x :: r ++ e :: replicate m no_process) (zlen l) = Some (l ++ e :: r ++ replicate (S m) no_process).
Proof.
  intros Hr. unfold remove_process. rewrite Nat2Z.id, insert_at.
  set (t := l ++ no_process :: r ++ e :: replicate m no_process).
  assert (Ht : t = (l ++ no_process :: r ++ [e]) ++ replicate m no_process) by (unfold t; by rewrite <- !app_assoc; cbn [app]; rewrite <- app_assoc).
  rewrite (free_from_live (l ++ no_process :: r ++ [e]) m (length t) (zlen l + 2) t Ht).
  - rewrite !length_app. cbn [length]. rewrite length_app. cbn [length].
    replace (Z.to_nat (Z.of_nat (length l + S (length r + 1)) - 1)) with (length l + S (length r))%nat by lia.
    assert (t !! (length l + S (length r))%nat = Some e) as ->.
    { unfold t. change (no_process :: r ++ e :: replicate m no_process) with ((no_process :: r) ++ e :: replicate m no_process).
      rewrite app_assoc. apply list_lookup_middle. by rewrite length_app. }
    cbn [mbind option_bind]. f_equal. unfold t.
    rewrite insert_at, insert_app_r. f_equal. change (<[S (length r) := no_process]> (e :: r ++ e :: replicate m no_process)) with (e :: <[length r := no_process]> (r ++ e :: replicate m no_process)).
    by rewrite insert_at.
  - replace (Z.to_nat (zlen l + 2)) with (length l + 2)%nat by lia. rewrite drop_app_add. cbn [drop].
    by apply Forall_drop.
  - rewrite !length_app. cbn [length]. rewrite length_app. cbn [length]. lia.
  - rewrite Ht, !length_app. cbn [length]. lia.
Qed.

Lemma last_first_snoc r e : last_first (r ++ [e]) = e :: r.
Proof. unfold last_first. rewrite reverse_snoc. by rewrite reverse_involutive. Qed.

(** A child of the table with what is before and behind it. *)
Lemma child_split id c i e : list_find (fun e => p_id e = id) (live c) = Some (i, e) ->
  exists l r, live c = l ++ e :: r /\ i = length l /\ p_id e = id /\ forget_child id c = Children (l ++ last_first r) (capacity c).
Proof.
  intros Hf. pose proof Hf as (Hi & Hid & _)%list_find_Some. exists (take i (live c)), (drop (S i) (live c)).
  split_and!; [by rewrite take_drop_middle| |done|unfold forget_child; by rewrite Hf].
  rewrite length_take. apply lookup_lt_Some in Hi. lia.
Qed.

Lemma forget_Permutation id c i e : list_find (fun e => p_id e = id) (live c) = Some (i, e) ->
  live c ≡ₚ e :: live (forget_child id c).
Proof.
  intros Hf. destruct (child_split _ _ _ _ Hf) as (l & r & -> & _ & _ & ->). cbn [live].
  destruct r as [|x r _] using rev_ind; [cbn; rewrite app_nil_r; symmetry; apply Permutation_cons_append|].
  rewrite last_first_snoc, <- Permutation_middle. apply perm_skip. rewrite (Permutation_app_comm r [x]). done.
Qed.

Lemma child_index_live id rest l : forall pre,
  child_index (length l) (pre ++ l ++ rest) id (zlen pre) =
    Some ((fun '(i, _) => zlen pre + Z.of_nat i) <$> list_find (fun e => p_id e = id) l).
Proof.
  induction l as [|e l IH]; intros pre; [done|]. cbn [length child_index list_find].
  rewrite Nat2Z.id. change ((e :: l) ++ rest) with (e :: l ++ rest). rewrite list_lookup_middle by done. cbn [mbind option_bind].
  destruct (Z.eqb_spec id (p_id e)) as [->|Hne]; [rewrite decide_True by done; cbn; by rewrite Z.add_0_r|].
  rewrite decide_False by done. specialize (IH (pre ++ [e])). rewrite <- app_assoc, length_app in IH. cbn [app length] in IH.
  rewrite Nat2Z.inj_add in IH. change (Z.of_nat 1) with 1 in IH. rewrite IH. f_equal. destruct (list_find _ l) as [[j x]|]; [cbn; f_equal; lia|done].
Qed.

Lemma delete_child_ok id c i e p s :
  table_of p c -> list_find (fun e => p_id e = id) (live c) = Some (i, e) ->
  (at_the_edge id c -> delete_child (K := K) id p s = None) /\
  (~ at_the_edge id c -> exists p', delete_child (K := K) id p s = Some (((), p'), s) /\ table_of p' (forget_child id c)).
Proof.
  intros [Hp Hc Hu Hl Hn (Hs & H0 & H1)] Hf. pose proof (forget_Permutation _ _ _ _ Hf) as Hperm.
  destruct (child_split _ _ _ _ Hf) as (l & r & Hlr & Hi & Hid & Hforget).
  assert (Hdel : delete_child (K := K) id p s =
    (t ← run_M (lift (remove_process (processes p) (zlen l)));
     _ ← put_S (with_count (with_processes (with_lock p true) t) (u64 (child_count p - 1))); unlock_table) (with_lock p true) s).
  { unfold delete_child. rewrite (SM_bind_Some _ _ _ _ _ _ _ (lock_free p s Hu)). rewrite (SM_bind_Some _ _ _ _ _ _ _ eq_refl).
    cbn [processes with_lock child_count]. rewrite Hc, Nat2Z.id, Hp.
    pose proof (child_index_live id (replicate (capacity c - length (live c)) no_process) (live c) []) as E. cbn [app length] in E.
    rewrite (SM_bind_Some _ _ _ _ (Some (zlen l)) (with_lock p true) s); [done|]. change (Z.of_nat 0) with 0 in E. unfold run_M. rewrite E, Hf. subst i. reflexivity. }
  assert (Hcount : u64 (child_count p - 1) = zlen (live (forget_child id c))).
  { apply Permutation_length in Hperm. cbn [length] in Hperm. rewrite Hc, Hperm, Nat2Z.inj_succ, wrap_small; lia. }
  set (m := (capacity c - length (live c))%nat) in *.
  rewrite Hdel, Hp, Hlr, <- app_assoc. cbn [app]. clear Hdel.
  assert (Hgo : forall t, t = live (forget_child id c) ++ replicate (S m) no_process ->
    exists p', (t ← run_M (lift (Some t)); _ ← put_S (with_count (with_processes (with_lock p true) t) (u64 (child_count p - 1))); unlock_table) (with_lock p true) s
      = Some (((), p'), s) /\ table_of p' (forget_child id c)).
  { intros t ->. eexists. split; [reflexivity|]. pose proof (Permutation_length Hperm) as Hlen. cbn [length] in Hlen.
    rewrite Hperm in Hl, Hn. apply Forall_cons in Hl as [_ Hl]. cbn [fmap list_fmap] in Hn. apply NoDup_cons in Hn as [_ Hn].
    assert (capacity (forget_child id c) = capacity c) as Hcap by (by rewrite Hforget).
    split; cbn; try done; rewrite ?Hcap; try lia. f_equal. change (no_process :: replicate m no_process) with (replicate (S m) no_process). f_equal. unfold m. lia. }
  unfold at_the_edge. rewrite Hlr. destruct r as [|x r _] using rev_ind.
  - change (e :: [] ++ replicate m no_process) with (e :: replicate m no_process). rewrite remove_last, last_snoc. cbn [fmap option_fmap option_map].
    split.
    + intros [Hfull _]. assert (m = 0%nat) as -> by (unfold m; rewrite Hlr; lia). done.
    + intros Hedge. destruct m as [|m'] eqn:Em; [exfalso; apply Hedge; split; [unfold m in Em; rewrite Hlr in Em, Hs; lia|by rewrite Hid]|].
      apply Hgo. rewrite Hforget. cbn [live last_first]. by rewrite app_nil_r.
  - rewrite <- app_assoc. cbn [app]. rewrite remove_middle. 2:{ rewrite Hlr in Hl. apply Forall_app in Hl as [_ Hl]. by apply Forall_cons in Hl as [_ ?]. }
    split.
    + intros [_ Hlast]. rewrite app_comm_cons, app_assoc, last_snoc in Hlast. injection Hlast as Hlast. exfalso.
      rewrite Hlr, fmap_app in Hn. apply NoDup_app in Hn as (_ & _ & Hn). cbn in Hn. apply NoDup_cons in Hn as [Hn _]. apply Hn.
      rewrite fmap_app. apply elem_of_app. right. cbn. rewrite Hlast, Hid. apply list_elem_of_here.
    + intros _. apply Hgo. rewrite Hforget. cbn [live]. by rewrite last_first_snoc, <- app_assoc.
Qed.

(** ** Programs on the table *)

Inductive table_op := Add (id h : Z) | Get (id : Z) | Delete (id : Z).

Definition run_table_op (o : table_op) : SM proc_state K Z :=
  match o with
  | Add id h => add_child id h
  | Get id => e ← get_processinfo id; mret (p_handle e)
  | Delete id => _ ← delete_child id; mret 0
  end.

Fixpoint run_table_ops (os : list table_op) : SM proc_state K (list Z) :=
  match os with
  | [] => mret []
  | o :: os => r ← run_table_op o; rs ← run_table_ops os; mret (r :: rs)
  end.

(** What the operations do on the list. Removing the last child of a full table
    has no outcome: the code goes on to touch the memory behind the table. *)
Definition list_op (o : table_op) (c : children) : option (Z * children) :=
  match o with
  | Add id h => Some (0, enter_child id h c)
  | Get id => Some (default 0 ((fun '(_, e) => p_handle e) <$> list_find (fun e => p_id e = id) (live c)), c)
  | Delete id => if decide (at_the_edge id c) then None else Some (0, forget_child id c)
  end.

Fixpoint list_ops (os : list table_op) (c : children) : option (list Z * children) :=
  match os with
  | [] => Some ([], c)
  | o :: os => '(r, c) ← list_op o c; '(rs, c) ← list_ops os c; Some (r :: rs, c)
  end.

(** Numbers of new children are new, and the child removed is there. *)
Definition table_op_ok (o : table_op) (c : children) : Prop :=
  match o with
  | Add id h => 0 < id < 2 ^ 32 /\ h <> 0 /\ (id ∉ p_id <$> live c) /\ Z.of_nat (capacity c) < 2 ^ 59
  | Get id => 0 < id < 2 ^ 32
  | Delete id => id ∈ p_id <$> live c
  end.

Fixpoint table_ops_ok (os : list table_op) (c : children) : Prop :=
  match os with
  | [] => True
  | o :: os => table_op_ok o c /\ match list_op o c with Some (_, c) => table_ops_ok os c | None => True end
  end.

Lemma unlocked_same p : table_locked p = false -> with_lock (with_lock p true) false = p.
Proof. destruct p. cbn. by intros ->. Qed.

Lemma get_processinfo_ok id c p s : table_of p c -> 0 < id < 2 ^ 32 ->
  get_processinfo (K := K) id p s = Some ((default no_process (snd <$> list_find (fun e => p_id e = id) (live c)), p), s).
Proof.
  intros Hp Hid. unfold get_processinfo. rewrite (SM_bind_Some _ _ _ _ _ _ _ (lock_free p s (to_unlocked _ _ Hp))).
  rewrite (SM_bind_Some _ _ _ _ _ _ _ eq_refl), (SM_bind_Some _ _ _ _ _ _ _ eq_refl).
  cbn [processes with_lock]. rewrite (find_process_live id c) by done.
  change (ProcState (processes p) (child_count p) false (signals_of p)) with (with_lock (with_lock p true) false).
  by rewrite (unlocked_same p (to_unlocked _ _ Hp)).
Qed.

Lemma find_id id l : id ∈ p_id <$> l -> exists i e, list_find (fun e => p_id e = id) l = Some (i, e).
Proof.
  intros (e & -> & He)%list_elem_of_fmap. destruct (list_find_elem_of (fun x => p_id x = p_id e) l e) as [[i x] Hx]; [done|done|by exists i, x].
Qed.

Lemma run_table_op_ok o c p s : table_of p c -> table_op_ok o c ->
  match list_op o c with
  | Some (r, c') => exists p', run_table_op o p s = Some ((r, p'), s) /\ table_of p' c'
  | None => run_table_op o p s = None
  end.
Proof.
  intros Hp Ho. destruct o as [id h|id|id]; cbn [table_op_ok list_op run_table_op] in *.
  - destruct Ho as (H1 & H2 & H3 & H4). by apply add_child_ok.
  - exists p. rewrite (SM_bind_Some _ _ _ _ _ _ _ (get_processinfo_ok id c p s Hp Ho)). split; [|done].
    by destruct (list_find _ _) as [[]|].
  - destruct (find_id _ _ Ho) as (i & e & Hf). destruct (delete_child_ok id c i e p s Hp Hf) as [Hedge Hgo].
    destruct (decide (at_the_edge id c)) as [H|H].
    + unfold mbind at 1, SM_bind at 1, mbind at 1, M_bind at 1. by rewrite Hedge.
    + destruct (Hgo H) as (p' & Hrun & Hp'). exists p'. by rewrite (SM_bind_Some _ _ _ _ _ _ _ Hrun).
Qed.

(** C9: the table of the children behaves as a list. Any sequence of additions of
    children with new numbers, lookups, and removals of children that are in the
    table returns what it does on a list to which children are appended and from
    which a child is removed by putting the last one in its place, with any number
    of children: the table grows as needed. The exception is part of the
    statement: the removal of the child in the last entry of a table that is full
    reads and writes behind the table, so that the sequence is undefined exactly
    when it comes to that. Not covered are removals of numbers that are not in the
    table, which count the children down nevertheless; [waitpid] only removes
    children it has found. *)
Theorem process_table_refines os p c s (Hp : table_of p c) (Hos : table_ops_ok os c) :
  match list_ops os c with
  | Some (rs, c') => exists p', run_table_ops os p s = Some ((rs, p'), s) /\ table_of p' c'
  | None => run_table_ops os p s = None
  end.
Proof.
  revert p c s Hp Hos. induction os as [|o os IH]; intros p c s Hp Hos; [by exists p|]. destruct Hos as [Ho Hos].
  pose proof (run_table_op_ok o c p s Hp Ho) as H1. cbn [run_table_ops list_ops].
  destruct (list_op o c) as [[r c1]|]; cbn [mbind option_bind].
  2:{ unfold mbind at 1, SM_bind at 1, mbind at 1, M_bind at 1. by rewrite H1. }
  destruct H1 as (p1 & Hrun & Hp1). rewrite (SM_bind_Some _ _ _ _ _ _ _ Hrun).
  pose proof (IH p1 c1 s Hp1 Hos) as H2. destruct (list_ops os c1) as [[rs c2]|]; cbn [mbind option_bind].
  - destruct H2 as (p2 & Hrun2 & Hp2). exists p2. by rewrite (SM_bind_Some _ _ _ _ _ _ _ Hrun2).
  - unfold mbind at 1, SM_bind at 1, mbind at 1, M_bind at 1. by rewrite H2.
Qed.

(** ** Waiting *)

Context {WK : WaitKernel K} {H : Handlers}.

Lemma notify_exited code p s : code < 128 -> notify_parent (K := K) code p s = Some ((None, p), s).
Proof.
  intros Hc. unfold notify_parent, SIGCONT, SIGTTIN, SIGTTOU, SIGTSTP, SIGSTOP.
  rewrite !(proj2 (Z.eqb_neq _ _)) by lia. done.
Qed.

(** waiting for a child. When the child has ended with a code below 128,
    [waitpid] returns its number and the code and takes it out of the table, with
    the last child in its place; without such a child it fails with [ECHILD].
    When the child is the last one of a full table, its removal reads and writes
    behind the table. *)
Theorem waitpid_reaps_child pid options p c s k code
    (Hp : table_of p c) (Hpid : 0 < pid < 2 ^ 31) (Hopt : options <= 3) (Hcode : code < 128) :
  match list_find (fun e => p_id e = pid) (live c) with
  | None => wlibc_waitpid pid options p s = Some ((inl (-1, 0), p), with_errno s ECHILD)
  | Some (_, e) =>
      NtWaitForSingleObject (p_handle e) (has options WNOHANG) (kernel s) = (STATUS_SUCCESS, k) ->
      NtQueryExitStatus (p_handle e) k = (STATUS_SUCCESS, code) ->
      (at_the_edge pid c -> wlibc_waitpid pid options p s = None) /\
      (~ at_the_edge pid c -> exists p', wlibc_waitpid pid options p s = Some ((inl (pid, code), p'), with_kernel s k) /\
         table_of p' (forget_child pid c))
  end.
Proof.
  unfold wlibc_waitpid. rewrite (proj2 (Z.ltb_ge pid (-1))) by lia. assert ((options >? 3) = false) as -> by lia.
  assert ((pid >? 0) = true) as -> by lia. unfold wait_child.
  pose proof (get_processinfo_ok pid c p s Hp ltac:(lia)) as Hget.
  destruct (list_find _ (live c)) as [[i e]|] eqn:Hf.
  - intros Hw Hq. cbn [fmap option_fmap option_map snd default id] in Hget.
    pose proof Hf as (He & Hid & _)%list_find_Some.
    assert (p_handle e <> 0) as Hh by (eapply (Forall_lookup_1 _ _ _ _ (to_live _ _ Hp)) in He; by destruct He).
    assert (Hrun : forall r : SM proc_state K (Z * option Z), r = (_ ← delete_child (p_id e); mret (pid, Some code)) ->
      wait_child pid options p s = r p (with_kernel s k)).
    { intros r ->. unfold wait_child. rewrite (SM_bind_Some _ _ _ _ _ _ _ Hget), (proj2 (Z.eqb_neq _ _)) by done.
      rewrite (SM_bind_Some _ _ _ _ _ _ _ eq_refl). cbv beta. rewrite Hw, (SM_bind_Some _ _ _ _ _ _ _ eq_refl). cbv beta. rewrite Hq, !(bool_decide_eq_true_2 (STATUS_SUCCESS = STATUS_SUCCESS)) by done. done. }
    fold (wait_child (K := K) pid options). specialize (Hrun _ eq_refl).
    destruct (delete_child_ok pid c i e p (with_kernel s k) Hp) as [Hbad Hgood]; [done|]. rewrite Hid in Hrun. split; intros Hedge.
    + unfold mbind, SM_bind, mbind, M_bind in Hrun |- *. rewrite Hrun, (Hbad Hedge). done.
    + destruct (Hgood Hedge) as (p' & Hdel & Hp'). exists p'. split; [|done].
      rewrite (SM_bind_Some _ _ _ _ (pid, Some code) p' (with_kernel s k)).
      2:{ rewrite Hrun. by rewrite (SM_bind_Some _ _ _ _ _ _ _ Hdel). }
      cbn [default]. assert ((pid >? 0) = true) as -> by lia. by rewrite (SM_bind_Some _ _ _ _ _ _ _ (notify_exited code p' _ Hcode)).
  - rewrite (SM_bind_Some _ _ _ _ (-1, None) p (with_errno s ECHILD)); [done|].
    by rewrite (SM_bind_Some _ _ _ _ _ _ _ Hget).
Qed.

Lemma live_processes p c : table_of p c -> filter (fun e => p_handle e <> 0) (processes p) = live c.
Proof.
  intros Hp. rewrite (to_processes _ _ Hp), filter_app. pose proof (to_live _ _ Hp) as Hl.
  assert (filter (fun e => p_handle e <> 0) (replicate (capacity c - length (live c)) no_process) = []) as ->
    by (generalize (capacity c - length (live c))%nat; intros m; by induction m).
  rewrite app_nil_r. induction Hl as [|e l [He _] Hl IH]; [done|]. rewrite filter_cons, decide_True by done. f_equal.
  clear -Hl. induction Hl as [|e l [He _] Hl IH]; [done|]. by rewrite filter_cons, decide_True, IH by done.
Qed.

(** waiting for any child. Whatever child [i] the system reports, [waitpid]
    returns the number of the first child of the table, with the code of the
    child that ended, and takes the first child out of the table: the status of
    the query of the code has replaced the index. *)
Theorem waitpid_any_reports_first options p c s k i e0 e code
    (Hp : table_of p c) (Hopt : options <= 3) (Hcode : code < 128) (Hlen : zlen (live c) <= 64)
    (H0 : live c !! 0%nat = Some e0) (Hi : live c !! i = Some e) (Hid : p_id e0 < 2 ^ 31) (Hedge : ~ at_the_edge (p_id e0) c)
    (Hwait : NtWaitForMultipleObjects (p_handle <$> live c) (has options WNOHANG) (kernel s) = (Z.of_nat i, k))
    (Hquery : NtQueryExitStatus (p_handle e) k = (STATUS_SUCCESS, code)) :
  exists p', wlibc_waitpid (-1) options p s = Some ((inl (p_id e0, code), p'), with_kernel s k) /\
    table_of p' (forget_child (p_id e0) c).
Proof.
  assert (He0 : is_child e0) by (by eapply (Forall_lookup_1 _ _ _ _ (to_live _ _ Hp)) in H0). destruct He0 as [Hh0 Hid0].
  assert (Hf : list_find (fun x => p_id x = p_id e0) (live c) = Some (0%nat, e0)).
  { destruct (live c) as [|x l]; [done|]. injection H0 as ->. cbn. by rewrite decide_True. }
  destruct (delete_child_ok _ c _ _ p (with_kernel s k) Hp Hf) as [_ Hgood]. destruct (Hgood Hedge) as (p' & Hdel & Hp').
  exists p'. split; [|done]. pose proof (lookup_lt_Some _ _ _ Hi) as Hlt.
  unfold wlibc_waitpid. assert ((options >? 3) = false) as -> by lia. change (-1 <? -1) with false. change (-1 >? 0) with false. cbv iota.
  rewrite (SM_bind_Some _ _ _ _ (p_id e0, Some code) p' (with_kernel s k)).
  - cbn [default id]. assert ((p_id e0 >? 0) = true) as -> by lia. by rewrite (SM_bind_Some _ _ _ _ _ _ _ (notify_exited code p' _ Hcode)).
  - unfold wait_all_children. rewrite (SM_bind_Some _ _ _ _ _ _ _ (lock_free p s (to_unlocked _ _ Hp))).
    rewrite (SM_bind_Some _ _ _ _ _ _ _ eq_refl). cbn [processes with_lock]. rewrite (live_processes p c Hp).
    assert ((zlen (live c) >? MAXIMUM_WAIT_OBJECTS) = false) as -> by (unfold MAXIMUM_WAIT_OBJECTS; lia).
    rewrite (SM_bind_Some _ _ _ _ _ _ _ eq_refl), (SM_bind_Some _ _ _ _ _ _ _ eq_refl).
    change (ProcState (processes p) (child_count p) false (signals_of p)) with (with_lock (with_lock p true) false).
    rewrite (unlocked_same p (to_unlocked _ _ Hp)), (proj2 (Z.eqb_neq (zlen (live c)) 0)) by lia.
    rewrite (SM_bind_Some _ _ _ _ _ _ _ eq_refl). cbv beta. rewrite Hwait, (SM_bind_Some _ _ _ _ _ _ _ eq_refl). cbv beta.
    rewrite (proj2 (Z.eqb_neq (Z.of_nat i) STATUS_TIMEOUT_code)) by (unfold STATUS_TIMEOUT_code; lia).
    rewrite (proj2 (Z.ltb_ge (Z.of_nat i) 0)) by lia. cbn [andb].
    assert (slot (p_handle <$> live c) (Z.of_nat i) = Some (p_handle e)) as ->.
    { unfold slot, MAXIMUM_WAIT_OBJECTS. rewrite (proj2 (Z.leb_le _ _)), (proj2 (Z.ltb_lt _ _)) by lia. cbn [andb].
      by rewrite Nat2Z.id, list_lookup_fmap, Hi. }
    rewrite (SM_bind_Some _ _ _ _ _ _ _ eq_refl). cbv beta. rewrite Hquery, !(bool_decide_eq_true_2 (STATUS_SUCCESS = STATUS_SUCCESS)) by done.
    assert (slot (p_id <$> live c) 0 = Some (p_id e0)) as ->.
    { unfold slot. cbn [andb Z.leb Z.ltb Z.compare MAXIMUM_WAIT_OBJECTS]. change (Z.to_nat 0) with 0%nat. by rewrite list_lookup_fmap, H0. }
    rewrite (SM_bind_Some _ _ _ _ _ _ _ eq_refl). by rewrite (SM_bind_Some _ _ _ _ _ _ _ Hdel).
Qed.

End Table.

(** ** An example *)

Module Parent.
Import FileIo.Disk.

#[export] Instance plenty : Allocator := fun _ => true.
#[export] Instance no_handlers : Handlers := fun _ _ => mret ().

(** The last child has ended; a child with handle [h] ends with code [h]. *)
#[export] Instance waits : WaitKernel disk := {
  NtWaitForSingleObject _ _ k := (STATUS_SUCCESS, k);
  NtWaitForMultipleObjects hs _ k := (zlen hs - 1, k);
  NtQueryExitStatus h _ := (STATUS_SUCCESS, h)
}.

Definition two : children := Children [Processinfo 11 100; Processinfo 12 200] 4.

Definition parent (c : children) : proc_state :=
  ProcState (live c ++ replicate (capacity c - length (live c)) no_process) (zlen (live c)) false (SigState [] None 0 []).

Lemma two_ok : table_of (parent two) two.
Proof. split; [done|done|done| | |cbn; lia]; [repeat constructor; cbn; lia|apply (bool_decide_unpack _); vm_compute; done]. Qed.

Definition calm : state disk := process 0 [] 0.

End Parent.
Import FileIo.Disk Parent.

(** The table grows; a full table loses a child in the middle; and the last one. *)
Lemma process_table_refines_witness :
  (exists p', run_table_ops [Add 300 13; Get 300; Add 400 14; Delete 100; Add 500 15; Add 600 16; Get 100; Get 600] (parent two) calm =
    Some (([0; 13; 0; 0; 0; 0; 0; 16], p'), calm)) /\
  run_table_ops [Add 300 13; Add 400 14; Delete 400] (parent two) calm = None.
Proof.
  split.
  - destruct (process_table_refines (fun _ => eq_refl) [Add 300 13; Get 300; Add 400 14; Delete 100; Add 500 15; Add 600 16; Get 100; Get 600]
      (parent two) two calm two_ok) as (p' & Hrun & _); [|by exists p'].
    cbn. split_and!; try lia; try done; try (apply (bool_decide_unpack _); vm_compute; exact I).
  - apply (process_table_refines (fun _ => eq_refl) [Add 300 13; Add 400 14; Delete 400] (parent two) two calm two_ok).
    cbn. split_and!; try lia; try done; try (apply (bool_decide_unpack _); vm_compute; exact I).
Defined.

Lemma waitpid_reaps_child_witness : exists p',
  wlibc_waitpid 200 0 (parent two) calm = Some ((inl (200, 12), p'), calm).
Proof.
  destruct (waitpid_reaps_child (WK := waits) 200 0 (parent two) two calm (kernel calm) 12 two_ok ltac:(lia) ltac:(lia) ltac:(lia) eq_refl eq_refl)
    as [_ Hrun]. destruct Hrun as (p' & Hrun & _); [by intros [[=] _]|by exists p'].
Defined.

(** The second child has ended; the first is reported, with the code of the second. *)
Lemma waitpid_any_reports_first_witness : exists p',
  wlibc_waitpid (-1) 0 (parent two) calm = Some ((inl (100, 12), p'), calm).
Proof.
  destruct (waitpid_any_reports_first 0 (parent two) two calm (kernel calm) 1 (Processinfo 11 100) (Processinfo 12 200) 12 two_ok
    ltac:(lia) ltac:(lia) ltac:(cbn; lia) eq_refl eq_refl) as (p' & Hrun & _); [cbn; lia|by intros [[=] _]|reflexivity|reflexivity|].
  by exists p'.
Defined.
