(* ===== verification/CommandLine.v ===== *)
(** * Command lines and environments of a child

    The quoting of arguments (convert_argv_to_windows_cmd), the command line
    (convert_argv_to_wargv), the one of a script (prepend_shebang_to_wargv) and
    the environment block (convert_env_to_wenv) of src/spawn/spawn.c. Sizes are
    the ones the code computes: every array is checked against them. *)

From stdpp Require Import strings.
From S2P Require Import Prelude Errno Buffer FdTable FileIo Path.

Definition is_blank (c : Z) : bool := (c =? 32) || (c =? 9).

(** The number of backslashes in front of [l] and what follows. *)
Fixpoint backslash_run (l : list Z) : nat * list Z :=
  match l with
  | c :: r => if c =? 92 then let '(n, r) := backslash_run r in (S n, r) else (O, l)
  | [] => (O, [])
  end.

(** ** Quoting *)

(** The variables of the first pass over an argument. *)
Record measure := Measure {
  m_size : Z;
  has_whitespaces : bool;
  number_of_double_quotes : Z;
  number_of_backslashes_before_quote : Z;
  number_of_backslashes_at_the_end : Z
}.

Definition no_measure : measure := Measure 0 false 0 0 0.

(** [arg] is what is left of the argument, up to its terminator. A round takes a
    byte, or a run of backslashes with the quote that follows it. *)
Fixpoint measure_arg (fuel : nat) (arg : list Z) (m : measure) : measure :=
  match fuel, arg with
  | S fuel, c :: r =>
      let '(Measure size ws q b e) := m in
      if c =? 92 then
        let '(n, rest) := backslash_run arg in
        let count := Z.of_nat n in
        match rest with
        | d :: rest' =>
            if d =? 34 then measure_arg fuel rest' (Measure (size + count + 1) ws (q + 1) (b + count) e)
            else measure_arg fuel rest (Measure (size + count) ws q b e)
        | [] => Measure (size + count) ws q b count
        end
      else measure_arg fuel r (Measure (size + 1) (ws || is_blank c) (if c =? 34 then q + 1 else q) b e)
  | _, _ => m
  end.

(** The second pass: what is put between the quotes. *)
Fixpoint quote_body (fuel : nat) (arg : list Z) : list Z :=
  match fuel, arg with
  | S fuel, c :: r =>
      if c =? 34 then 92 :: 34 :: quote_body fuel r
      else if c =? 92 then
        let '(n, rest) := backslash_run arg in
        replicate n 92 ++
        match rest with
        | d :: rest' =>
            if d =? 34 then replicate n 92 ++ 92 :: 34 :: quote_body fuel rest' else quote_body fuel rest
        | [] => []
        end
      else c :: quote_body fuel r
  | _, _ => []
  end.

Definition total (f : list Z -> Z) (l : list (list Z)) : Z := foldr (fun a n => f a + n) 0 l.

Section Lines.
Context {K : Type} {KN : Kernel K} {A : Allocator} {PK : PathKernel K}.

Abbreviation P := (SM path_state K).

(** The new text, [None] when the argument can be used as it is, and its size
    without the terminator; nothing when there is no memory. *)
Definition convert_argv_to_windows_cmd (arg : list Z) : P (option (option (list Z) * Z)) :=
  let m := measure_arg (length arg) arg no_measure in
  if has_whitespaces m || (number_of_double_quotes m >? 0) then
    let size := m_size m + 2 + number_of_double_quotes m + number_of_backslashes_before_quote m
                + number_of_backslashes_at_the_end m in
    allocate (size + 1) (
      let new_arg := 34 :: quote_body (length arg) arg
                     ++ replicate (Z.to_nat (number_of_backslashes_at_the_end m)) 92 ++ [34; 0] in
      if size + 1 <? zlen new_arg then run_M UB
      else mret (Some (Some (c_string new_arg), size)))
  else mret (Some (None, m_size m)).

(** ** The command line *)

(** The first [Length] bytes of each argument, [Length] being a [USHORT]. *)
Fixpoint quote_args (argv : list (list Z)) : P (option (list (list Z))) :=
  match argv with
  | [] => mret (Some [])
  | arg :: argv =>
      r ← convert_argv_to_windows_cmd arg;
      match r with
      | None => mret None
      | Some (new_arg, size) =>
          rest ← quote_args argv;
          mret ((fun l => take (Z.to_nat (u16 size)) (default arg new_arg) :: l) <$> rest)
      end
  end.

(** The conversions into [wargv], which has [argv_size] bytes, each followed by a
    space. *)
Fixpoint convert_args (args : list (list Z)) (argv_size : Z) (wargv : list Z) : P (option (list Z)) :=
  match args with
  | [] => mret (Some wargv)
  | arg :: args =>
      let argv_used := 2 * zlen wargv in
      let '(status, text) := RtlUTF8StringToUnicodeString arg (Some (u16 (argv_size - argv_used))) in
      if negb (bool_decide (status = STATUS_SUCCESS)) then null_status status
      else if argv_size <? argv_used + 2 * zlen text + 2 then run_M UB
      else convert_args args argv_size (wargv ++ text ++ [32])
  end.

(** The command line without its terminator and the size of its block: [None] for
    no arguments at all. *)
Definition convert_argv_to_wargv (argv : list (list Z)) : P (option (option (list Z) * Z)) :=
  if zlen argv =? 0 then mret (Some (None, 0))
  else if malloc_ok (16 * zlen argv) && malloc_ok (8 * zlen argv) then
    args ← quote_args argv;
    match args with
    | None => mret None
    | Some args =>
        let argv_size := 2 * total (fun a => u16 (zlen a + 1)) args in
        allocate argv_size (
          wargv ← convert_args args argv_size [];
          match wargv with
          | None => mret None
          | Some wargv => mret (Some (Some (take (length wargv - 1) wargv), argv_size))
          end)
    end
  else null ENOMEM.

(** ** Scripts *)

Definition has_space (l : list Z) : bool := existsb (fun c => c =? 32) l.

(** Where the second argument of a command line starts: the loop from [i > 0] on;
    0 when it is not found. *)
Fixpoint find_arg1 (fuel : nat) (quoted : bool) (l : list Z) (i : Z) : Z :=
  match fuel, l with
  | S fuel, c :: r =>
      if quoted then
        if c =? 34 then i + 2
        else if (c =? 92) && (byte_at r 0 =? 34) then find_arg1 fuel quoted (drop 1 r) (i + 2)
        else find_arg1 fuel quoted r (i + 1)
      else if c =? 32 then i + 1 else find_arg1 fuel quoted r (i + 1)
  | _, _ => 0
  end.

(** [shebang_argv] is the interpreter, its argument and the file, each with its
    terminator, of [shebang_size] bytes. [old_argv] is the command line and
    [old_size] the size of its block; behind the terminator of [old_argv] the block
    was never written. *)
Definition prepend_shebang_to_wargv (old_argv : option (list Z)) (old_size : Z) (executable arg filename : list Z) (shebang_size : Z)
    : P (option (list Z * Z)) :=
  let quote_executable := has_space executable || has_space filename in
  let quote := if quote_executable then [34] else [] in
  let shebang_size := if quote_executable then shebang_size + 4 else shebang_size in
  let new_argv := quote ++ executable ++ quote ++ [32] ++ (if 0 <? zlen arg then arg ++ [32] else []) ++ filename ++ [32] in
  allocate shebang_size (
    if shebang_size <? 2 * zlen new_argv then run_M UB
    else
      let start_of_arg1 :=
        2 * match old_argv with
            | Some (c :: r) => find_arg1 (length r) (c =? 34) r 1
            | _ => 0
            end in
      let start_of_arg1 := if start_of_arg1 >? old_size then 0 else start_of_arg1 in
      let old_argv_needed := if old_size >? 0 then (if start_of_arg1 =? 0 then 0 else old_size - start_of_arg1) else old_size in
      allocate (2 * zlen new_argv + old_argv_needed + 2) (
        let old := default [] old_argv in
        if old_argv_needed >? 0 then
          if zlen old <? start_of_arg1 / 2 then run_M UB
          else mret (Some (new_argv ++ drop (Z.to_nat (start_of_arg1 / 2)) old, 2 * zlen new_argv + old_argv_needed))
        else mret (Some (new_argv, 2 * zlen new_argv + old_argv_needed)))).

(** ** The environment *)

Fixpoint convert_vars (env : list (list Z)) (env_size : Z) (wenv : list Z) : P (option (list Z)) :=
  match env with
  | [] => mret (Some wenv)
  | var :: env =>
      let env_used := 2 * zlen wenv in
      let '(status, text) := RtlUTF8StringToUnicodeString var (Some (u16 (env_size - env_used))) in
      if negb (bool_decide (status = STATUS_SUCCESS)) then null_status status
      else if env_size <? env_used + 2 * zlen text + 2 then run_M UB
      else convert_vars env env_size (wenv ++ text ++ [0])
  end.

(** The block with its terminators. *)
Definition convert_env_to_wenv (env : list (list Z)) : P (option (list Z * Z)) :=
  if malloc_ok (16 * zlen env) then
    let env_size := 2 * (total (fun v => zlen v + 1) env + 1) in
    allocate env_size (
      wenv ← convert_vars env env_size [];
      match wenv with
      | None => mret None
      | Some wenv => if env_size <? 2 * zlen wenv + 2 then run_M UB else mret (Some (wenv ++ [0], env_size))
      end)
  else null ENOMEM.

End Lines.
