(* ===== verification/CommandLineSpec.v ===== *)
(** * Command lines: what the child reads

    The rules by which a Windows program splits its command line, as documented
    for the C runtime, and the proof that they give back the arguments. *)

From stdpp Require Import strings.
From S2P Require Import Prelude Errno Buffer FdTable FileIo Path PathFacts PathSpec CommandLine.

(** ** The documented rules *)

Definition emit (p : list Z) (x : list Z * list Z) : list Z * list Z := (p ++ x.1, x.2).

(** One argument and what follows it; [q] inside a quoted part. Backslashes stand
    for themselves unless a quote follows: then two stand for one, and an odd one
    makes the quote a character. A quote starts or ends a quoted part; two inside
    of it are a character. A blank outside ends the argument. *)
Fixpoint read_arg (fuel : nat) (q : bool) (l : list Z) : list Z * list Z :=
  match fuel with
  | O => ([], l)
  | S fuel =>
      let '(n, r) := backslash_run l in
      match r with
      | [] => (replicate n 92, [])
      | c :: r' =>
          if c =? 34 then
            if Nat.odd n then emit (replicate (n / 2) 92 ++ [34]) (read_arg fuel q r')
            else if q && (byte_at r' 0 =? 34) then emit (replicate (n / 2) 92 ++ [34]) (read_arg fuel q (drop 1 r'))
            else emit (replicate (n / 2) 92) (read_arg fuel (negb q) r')
          else if negb q && is_blank c then (replicate n 92, r)
          else emit (replicate n 92 ++ [c]) (read_arg fuel q r')
      end
  end.

Fixpoint skip_blanks (l : list Z) : list Z :=
  match l with c :: r => if is_blank c then skip_blanks r else l | [] => [] end.

Fixpoint read_args (fuel : nat) (l : list Z) : list (list Z) :=
  match fuel with
  | O => []
  | S fuel =>
      match skip_blanks l with
      | [] => []
      | l => let '(a, r) := read_arg (S (length l)) false l in a :: read_args fuel r
      end
  end.

(** The name of the program: quotes only group. *)
Fixpoint read_program (q : bool) (l : list Z) : list Z * list Z :=
  match l with
  | [] => ([], [])
  | c :: r =>
      if c =? 34 then read_program (negb q) r
      else if negb q && is_blank c then ([], l) else emit [c] (read_program q r)
  end.

Definition windows_args (l : list Z) : list (list Z) :=
  let '(p, r) := read_program false l in p :: read_args (length r + 1) r.

(** ** Runs of backslashes *)

Lemma backslash_run_app n c r : c <> 92 -> backslash_run (replicate n 92 ++ c :: r) = (n, c :: r).
Proof. intros Hc. induction n as [|n IH]; cbn; [by rewrite (proj2 (Z.eqb_neq _ _)) by done|by rewrite IH]. Qed.

Lemma backslash_run_all n : backslash_run (replicate n 92) = (n, []).
Proof. induction n as [|n IH]; cbn; [done|by rewrite IH]. Qed.

(** An argument is a sequence of runs, each with a byte that is no backslash, and
    a last run. *)
Lemma runs_ind (Q : list Z -> Prop) :
  (forall n, Q (replicate n 92)) -> (forall n c r, c <> 92 -> Q r -> Q (replicate n 92 ++ c :: r)) -> forall a, Q a.
Proof.
  intros H0 H1 a. remember (length a) as k eqn:Hk. revert a Hk. induction k as [k IH] using lt_wf_ind. intros a ->.
  assert (Hs : exists n, a = replicate n 92 \/ exists c r, c <> 92 /\ a = replicate n 92 ++ c :: r).
  { clear. induction a as [|c a (n & Hn)]; [exists O; by left|]. destruct (decide (c = 92)) as [->|Hc]; [|exists O; right; by exists c, a].
    exists (S n). destruct Hn as [->|(d & r & Hd & ->)]; [by left|right; by exists d, r]. }
  destruct Hs as (n & [->|(c & r & Hc & ->)]); [apply H0|]. apply H1; [done|]. apply (IH (length r)); [|done].
  rewrite length_app. cbn. lia.
Qed.

(** ** The two passes *)

Lemma quote_body_run fuel n c r : c <> 92 -> (length (replicate n 92%Z ++ c :: r) <= fuel)%nat ->
  exists fuel', (length r <= fuel')%nat /\
    quote_body fuel (replicate n 92 ++ c :: r) =
      replicate n 92 ++ (if c =? 34 then replicate n 92 ++ [92; 34] else [c]) ++ quote_body fuel' r.
Proof.
  intros Hc. rewrite length_app, length_replicate. cbn [length]. intros Hf. destruct fuel as [|fuel]; [lia|].
  pose proof (proj2 (Z.eqb_neq c 92) Hc) as Ec. destruct n as [|n].
  - exists fuel. split; [lia|]. cbn [replicate app quote_body]. by rewrite Ec; destruct (c =? 34).
  - destruct (c =? 34) eqn:E34.
    + exists fuel. split; [lia|]. pose proof (backslash_run_app (S n) c r Hc) as Hr. cbn [replicate app] in *. cbn [quote_body].
      change (92 =? 34) with false. change (92 =? 92) with true. cbv iota. rewrite Hr. rewrite E34. cbn [replicate app]. by rewrite <- !app_assoc.
    + destruct fuel as [|fuel]; [lia|]. exists fuel. split; [lia|].
      pose proof (backslash_run_app (S n) c r Hc) as Hr. cbn [replicate app] in *. cbn [quote_body].
      change (92 =? 34) with false. change (92 =? 92) with true. cbv iota. rewrite Hr. rewrite E34. cbn [replicate app quote_body]. by rewrite ?E34, Ec.
Qed.

Lemma quote_body_all fuel n : (n <= fuel)%nat -> quote_body fuel (replicate n 92) = replicate n 92.
Proof.
  intros Hf. destruct n as [|n]; [by destruct fuel|]. destruct fuel as [|fuel]; [lia|].
  pose proof (backslash_run_all (S n)) as Hr. cbn [replicate] in *. cbn [quote_body].
  change (92 =? 34) with false. change (92 =? 92) with true. cbv iota. rewrite Hr. by rewrite app_nil_r.
Qed.

Lemma measure_run fuel n c r size ws q b e : c <> 92 -> (length (replicate n 92%Z ++ c :: r) <= fuel)%nat ->
  exists fuel', (length r <= fuel')%nat /\
    measure_arg fuel (replicate n 92 ++ c :: r) (Measure size ws q b e) =
      measure_arg fuel' r (Measure (size + Z.of_nat n + 1) (ws || is_blank c) (if c =? 34 then q + 1 else q)
                                   (if c =? 34 then b + Z.of_nat n else b) e).
Proof.
  intros Hc. rewrite length_app, length_replicate. cbn [length]. intros Hf. destruct fuel as [|fuel]; [lia|].
  pose proof (proj2 (Z.eqb_neq c 92) Hc) as Ec. destruct n as [|n].
  - exists fuel. split; [lia|]. cbn [replicate app measure_arg]. rewrite Ec, !Z.add_0_r. by destruct (c =? 34).
  - destruct (c =? 34) eqn:E34.
    + exists fuel. split; [lia|]. pose proof (backslash_run_app (S n) c r Hc) as Hr. cbn [replicate app] in *. cbn [measure_arg].
      change (92 =? 92) with true. cbv iota. rewrite Hr. rewrite E34. apply Z.eqb_eq in E34. subst. by rewrite orb_false_r.
    + destruct fuel as [|fuel]; [lia|]. exists fuel. split; [lia|].
      pose proof (backslash_run_app (S n) c r Hc) as Hr. cbn [replicate app] in *. cbn [measure_arg].
      change (92 =? 92) with true. cbv iota. rewrite Hr. rewrite E34. cbn [measure_arg]. by rewrite ?E34, Ec.
Qed.

Lemma measure_all fuel n size ws q b e : (n <= fuel)%nat ->
  measure_arg fuel (replicate n 92) (Measure size ws q b e) = Measure (size + Z.of_nat n) ws q b (if (n =? 0)%nat then e else Z.of_nat n).
Proof.
  intros Hf. destruct n as [|n]; [by destruct fuel; cbn; rewrite Z.add_0_r|]. destruct fuel as [|fuel]; [lia|].
  pose proof (backslash_run_all (S n)) as Hr. cbn [replicate] in *. cbn [measure_arg].
  change (92 =? 92) with true. cbv iota. by rewrite Hr.
Qed.

(** ** Quoted arguments *)

Definition body (a : list Z) : list Z := quote_body (length a) a.
Definition at_the_end (a : list Z) : Z := number_of_backslashes_at_the_end (measure_arg (length a) a no_measure).
Definition needs_quotes (a : list Z) : bool := existsb is_blank a || existsb (fun c => c =? 34) a.
Definition quoted (a : list Z) : list Z :=
  if needs_quotes a then 34 :: body a ++ replicate (Z.to_nat (at_the_end a)) 92 ++ [34] else a.

(** The two passes agree, whatever fuel is left. *)
Lemma passes a : forall fuel fuel2 size ws q b, (length a <= fuel)%nat -> (length a <= fuel2)%nat ->
  exists q' b', measure_arg fuel a (Measure size ws q b 0) =
      Measure (size + zlen a) (ws || existsb is_blank a) q' b' (at_the_end a) /\
    zlen a + (q' - q) + (b' - b) = zlen (quote_body fuel2 a) /\ quote_body fuel2 a = body a /\
    q <= q' /\ (q' >? q) = existsb (fun c => c =? 34) a /\ 0 <= at_the_end a /\ b <= b'.
Proof.
  induction a as [n|n c r Hc IH] using runs_ind.
  - intros fuel fuel2 size ws q b Hf Hf2. rewrite length_replicate in *. exists q, b.
    unfold body, at_the_end, no_measure. rewrite !length_replicate, !measure_all, !quote_body_all, length_replicate by lia.
    assert (existsb is_blank (replicate n 92) = false) as -> by (clear; induction n; done).
    assert (existsb (fun c => c =? 34) (replicate n 92) = false) as -> by (clear; induction n; done).
    rewrite orb_false_r. cbn [number_of_backslashes_at_the_end].
    assert ((if (n =? 0)%nat then 0 else Z.of_nat n) = Z.of_nat n) as -> by (destruct n; done).
    split_and!; try done; lia.
  - intros fuel fuel2 size ws q b Hf Hf2. set (a := replicate n 92 ++ c :: r) in *.
    destruct (measure_run fuel n c r size ws q b 0 Hc Hf) as (f1 & H1 & E1).
    destruct (quote_body_run fuel2 n c r Hc Hf2) as (f2 & H2 & E2).
    destruct (quote_body_run (length a) n c r Hc ltac:(done)) as (f3 & H3 & E3).
    destruct (measure_run (length a) n c r 0 false 0 0 0 Hc ltac:(done)) as (f4 & H4 & E4).
    fold a in E1, E2, E3, E4. rewrite E1.
    destruct (IH f1 f2 (size + Z.of_nat n + 1) (ws || is_blank c) (if c =? 34 then q + 1 else q) (if c =? 34 then b + Z.of_nat n else b) H1 H2)
      as (q' & b' & -> & Hlen & Hb & Hq & Hq34 & He & Hbb).
    destruct (IH f4 f3 (0 + Z.of_nat n + 1) (false || is_blank c) (if c =? 34 then 0 + 1 else 0) (if c =? 34 then 0 + Z.of_nat n else 0) H4 H3)
      as (q4 & b4 & E4' & _ & Hb3 & _).
    assert (Hend : at_the_end a = at_the_end r) by (unfold at_the_end at 1, no_measure; fold a; by rewrite E4, E4').
    assert (Hrep : forall f, f 92 = false -> existsb f a = f c || existsb f r).
    { intros f Hf92. unfold a. rewrite existsb_app. assert (existsb f (replicate n 92) = false) as ->; [|done].
      clear -Hf92. induction n as [|n IHn]; [done|]. cbn. by rewrite Hf92. }
    exists q', b'. rewrite Hend, !Hrep by done. unfold body at 1. fold a. rewrite E2, E3, Hb, Hb3.
    split_and!; try done.
    + f_equal; [unfold a; rewrite length_app, length_replicate; cbn [length]; lia|by rewrite orb_assoc].
    + rewrite <- Hb, !length_app, length_replicate. unfold a. rewrite length_app, length_replicate. cbn [length].
      destruct (c =? 34); rewrite ?length_app, ?length_replicate; cbn [length]; lia.
    + destruct (c =? 34); lia.
    + destruct (c =? 34); cbn [orb]; [apply Z.gtb_gt; lia|done].
    + destruct (c =? 34); lia.
Qed.

Lemma body_run n c r : c <> 92 ->
  body (replicate n 92 ++ c :: r) = replicate n 92 ++ (if c =? 34 then replicate n 92 ++ [92; 34] else [c]) ++ body r.
Proof.
  intros Hc. unfold body at 1. destruct (quote_body_run (length (replicate n 92 ++ c :: r)) n c r Hc) as (f & Hf & ->); [done|].
  by destruct (passes r f f 0 false 0 0) as (_ & _ & _ & _ & -> & _).
Qed.

Lemma body_all n : body (replicate n 92) = replicate n 92.
Proof. unfold body. by rewrite quote_body_all by (rewrite length_replicate; lia). Qed.

Lemma at_the_end_run n c r : c <> 92 -> at_the_end (replicate n 92 ++ c :: r) = at_the_end r.
Proof.
  intros Hc. unfold at_the_end at 1, no_measure.
  destruct (measure_run (length (replicate n 92 ++ c :: r)) n c r 0 false 0 0 0 Hc) as (f & Hf & ->); [done|].
  edestruct (passes r f f) as (q' & b' & -> & _); done.
Qed.

Lemma at_the_end_all n : at_the_end (replicate n 92) = Z.of_nat n.
Proof.
  unfold at_the_end, no_measure. rewrite measure_all by (rewrite length_replicate; lia). by destruct n.
Qed.

Lemma quoted_Forall (P : Z -> Prop) a : P 34 -> P 92 -> Forall P a -> Forall P (quoted a).
Proof.
  intros H34 H92 Ha. unfold quoted. destruct (needs_quotes a); [|done].
  assert (Hr : forall n, Forall P (replicate n 92)) by (intros n; by apply Forall_replicate).
  constructor; [done|]. apply Forall_app. split; [|apply Forall_app; split; [done|by constructor]].
  clear -Ha Hr H34 H92. induction a as [n|n c r Hc IH] using runs_ind; [rewrite body_all; done|].
  apply Forall_app in Ha as [_ Ha]. apply Forall_cons in Ha as [Hc' Ha]. rewrite body_run by done.
  apply Forall_app. split; [done|]. apply Forall_app. split; [|by apply IH].
  destruct (c =? 34); [|by constructor]. apply Forall_app. split; [done|]. by repeat constructor.
Qed.

Lemma body_length a : (length a <= length (body a))%nat.
Proof. destruct (passes a (length a) (length a) 0 false 0 0) as (q & b & _ & Hl & Hb & Hq & _ & _ & Hbb); [done|done|]. rewrite Hb in Hl. lia. Qed.

(** ** Reading the arguments back *)

(** What follows an argument of a command line. *)
Definition ends (rest : list Z) : Prop := rest = [] \/ exists r, rest = 32 :: r.

Lemma read_arg_end fuel rest : ends rest -> read_arg fuel false rest = ([], rest).
Proof. intros [->|[r ->]]; by destruct fuel. Qed.

Lemma half_double n : ((n + n) / 2)%nat = n /\ Nat.odd (n + n) = false /\ ((n + S n) / 2)%nat = n /\ Nat.odd (n + S n) = true.
Proof.
  replace (n + n)%nat with (n * 2)%nat by lia. replace (n + S n)%nat with (S (n * 2))%nat by lia.
  rewrite Nat.odd_succ, Nat.div_mul by lia. rewrite <- Nat.negb_even, (proj2 (Nat.even_spec (n * 2))) by (exists n; lia).
  split_and!; try done. replace (S (n * 2)) with (1 + n * 2)%nat by lia. by rewrite Nat.div_add by lia.
Qed.

Lemma read_quoted a : forall fuel rest, ends rest -> (length a < fuel)%nat ->
  read_arg fuel true (body a ++ replicate (Z.to_nat (at_the_end a)) 92 ++ 34 :: rest) = (a, rest).
Proof.
  induction a as [n|n c r Hc IH] using runs_ind; intros fuel rest Hrest Hf; (destruct fuel as [|fuel]; [lia|]).
  - rewrite body_all, at_the_end_all, Nat2Z.id, app_assoc, <- replicate_add. cbn [read_arg].
    destruct (half_double n) as (H1 & H2 & _). rewrite backslash_run_app, Z.eqb_refl, H2, H1 by done.
    assert ((byte_at rest 0 =? 34) = false) as -> by (by destruct Hrest as [->|[r ->]]).
    cbn [andb negb]. rewrite read_arg_end by done. unfold emit. cbn. by rewrite app_nil_r.
  - rewrite length_app in Hf. cbn [length] in Hf. rewrite body_run, at_the_end_run by done. rewrite <- !app_assoc. cbn [read_arg].
    destruct (Z.eqb_spec c 34) as [->|H34].
    + destruct (half_double n) as (_ & _ & H1 & H2).
      assert (replicate n 92 ++ (replicate n 92 ++ [92; 34]) ++ body r ++ replicate (Z.to_nat (at_the_end r)) 92 ++ 34 :: rest
        = replicate (n + S n) 92 ++ 34 :: body r ++ replicate (Z.to_nat (at_the_end r)) 92 ++ 34 :: rest) as ->.
      { rewrite replicate_add, <- app_assoc, (replicate_S_end n), <- !app_assoc. done. }
      rewrite backslash_run_app, Z.eqb_refl, H2, H1, IH by (done || lia). unfold emit. cbn. by rewrite <- app_assoc.
    + cbn [app]. rewrite backslash_run_app, (proj2 (Z.eqb_neq _ _)) by done. cbn [andb negb]. rewrite IH by (done || lia).
      unfold emit. cbn. by rewrite <- app_assoc.
Qed.

Lemma read_plain a : forall fuel rest, ends rest -> (length a < fuel)%nat -> needs_quotes a = false ->
  read_arg fuel false (a ++ rest) = (a, rest).
Proof.
  induction a as [n|n c r Hc IH] using runs_ind; intros fuel rest Hrest Hf Hq; (destruct fuel as [|fuel]; [lia|]); cbn [read_arg].
  - destruct Hrest as [->|[r ->]]; [by rewrite app_nil_r, backslash_run_all|by rewrite backslash_run_app].
  - rewrite length_app in Hf. cbn [length] in Hf. unfold needs_quotes in Hq. rewrite !existsb_app in Hq. cbn [existsb] in Hq.
    rewrite !orb_false_iff in Hq. destruct Hq as [[_ [H1 H2]] [_ [H3 H4]]].
    rewrite <- app_assoc. cbn [app]. rewrite backslash_run_app, H3, H1 by done. cbn [andb negb].
    rewrite IH; [|done|lia|unfold needs_quotes; by rewrite H2, H4]. unfold emit. cbn. by rewrite <- app_assoc.
Qed.

(** The arguments behind the program, each with the space in front of it. *)
Definition tail_text (args : list (list Z)) : list Z := args ≫= fun a => 32 :: quoted a.

Lemma tail_ends args : ends (tail_text args).
Proof. destruct args as [|a args]; [by left|right; by eexists]. Qed.

Lemma read_tail args : forall fuel, (length args < fuel)%nat -> read_args fuel (tail_text args) = filter (fun a => a <> []) args.
Proof.
  induction args as [|a args IH]; intros fuel Hf; (destruct fuel as [|fuel]; [lia|]); [done|]. cbn [length] in Hf.
  change (tail_text (a :: args)) with (32 :: quoted a ++ tail_text args). rewrite filter_cons. destruct (decide (a <> [])) as [Ha|Ha].
  - assert (Hhead : exists c l, quoted a ++ tail_text args = c :: l /\ is_blank c = false).
    { unfold quoted. destruct (needs_quotes a) eqn:E; [by exists 34; eexists|]. destruct a as [|c a]; [done|]. exists c. eexists. split; [done|].
      unfold needs_quotes in E. cbn [existsb] in E. rewrite !orb_false_iff in E. by destruct E as [[? _] _]. }
    destruct Hhead as (c & l & Hl & Hc). cbn [read_args skip_blanks]. change (is_blank 32) with true. cbv iota.
    rewrite Hl. cbn [skip_blanks]. rewrite Hc. rewrite <- Hl.
    assert (read_arg (S (length (quoted a ++ tail_text args))) false (quoted a ++ tail_text args) = (a, tail_text args)) as ->.
    { clear IH Hl. unfold quoted. destruct (needs_quotes a) eqn:E.
      - set (fuel' := length _). cbn [read_arg app]. change (backslash_run (34 :: ?x)) with (O, 34 :: x). cbv iota.
        cbn [Z.eqb Pos.eqb Nat.odd Nat.even negb andb]. rewrite <- !app_assoc. cbn [app]. rewrite read_quoted; [done|apply tail_ends|].
        unfold fuel'. cbn [app length]. pose proof (body_length a). rewrite !length_app. lia.
      - apply read_plain; [apply tail_ends| |done]. rewrite length_app. lia. }
    rewrite IH by lia. done.
  - destruct a as [|c a]; [|by destruct Ha]. by rewrite <- (IH (S fuel)) by lia.
Qed.

(** ** The program *)

Lemma at_the_end_last a : last a <> Some 92 -> at_the_end a = 0.
Proof.
  induction a as [n|n c r Hc IH] using runs_ind.
  - destruct n as [|n]; [done|]. by rewrite replicate_S_end, last_snoc.
  - rewrite at_the_end_run by done. intros Hl. apply IH. intros Hr. apply Hl. by rewrite last_app, last_cons, Hr.
Qed.

Lemma body_unquoted a : existsb (fun c => c =? 34) a = false -> body a = a.
Proof.
  induction a as [n|n c r Hc IH] using runs_ind; intros Hq; [apply body_all|].
  rewrite existsb_app in Hq. cbn [existsb] in Hq. rewrite !orb_false_iff in Hq. destruct Hq as (_ & H34 & Hq).
  rewrite body_run, H34, IH by done. done.
Qed.

Lemma read_program_quoted a rest : existsb (fun c => c =? 34) a = false -> ends rest -> read_program true (a ++ 34 :: rest) = (a, rest).
Proof.
  intros Hq Hr. induction a as [|c a IH]; cbn [app read_program].
  - cbn [Z.eqb Pos.eqb negb]. by destruct Hr as [->|[r ->]].
  - cbn [existsb] in Hq. rewrite orb_false_iff in Hq. destruct Hq as [H1 H2]. rewrite H1, IH by done. done.
Qed.

Lemma read_program_plain a rest : needs_quotes a = false -> ends rest -> read_program false (a ++ rest) = (a, rest).
Proof.
  unfold needs_quotes. intros [Hb Hq]%orb_false_iff Hr. induction a as [|c a IH]; cbn [app read_program].
  - by destruct Hr as [->|[r ->]].
  - cbn [existsb] in Hb, Hq. rewrite orb_false_iff in Hb, Hq. destruct Hb as [H1 H2], Hq as [H3 H4]. rewrite H3, H1. cbn [andb negb].
    by rewrite IH.
Qed.

Lemma windows_args_line a0 args :
  existsb (fun c => c =? 34) a0 = false -> last a0 <> Some 92 ->
  windows_args (quoted a0 ++ tail_text args) = a0 :: filter (fun a => a <> []) args.
Proof.
  intros Hq Hl. unfold windows_args.
  assert (read_program false (quoted a0 ++ tail_text args) = (a0, tail_text args)) as ->.
  { unfold quoted. destruct (needs_quotes a0) eqn:E; [|by apply read_program_plain; [|apply tail_ends]].
    rewrite body_unquoted, at_the_end_last by done. cbn [app]. rewrite <- app_assoc. apply read_program_quoted; [done|apply tail_ends]. }
  f_equal. apply read_tail. clear. induction args as [|a args IH]; [cbn; lia|].
  change (tail_text (a :: args)) with (32 :: quoted a ++ tail_text args). cbn [length]. rewrite length_app. lia.
Qed.

(** ** The command line of the child *)

Section Line.
Context {K : Type} {KN : Kernel K} {A : Allocator} {PK : PathKernel K}.
Context (alloc_ok : forall n, malloc_ok n = true).
(** ASCII text is converted to itself when it fits with its terminator. *)
Context (ascii_ok : forall text n, Forall (fun c => 0 < c < 128) text -> 2 * zlen text + 2 <= n ->
  RtlUTF8StringToUnicodeString text (Some n) = (STATUS_SUCCESS, text)).

Implicit Types p : path_state.
Implicit Types s : state K.

Lemma c_string_all l : Forall (fun c => c <> 0) l -> c_string (l ++ [0]) = l.
Proof. induction 1 as [|c l Hc Hl IH]; [done|]. cbn. by rewrite (proj2 (Z.eqb_neq _ _)), IH by done. Qed.

Lemma convert_one a p s : Forall (fun c => c <> 0) a ->
  convert_argv_to_windows_cmd (K := K) a p s = Some ((Some (if needs_quotes a then Some (quoted a) else None, zlen (quoted a)), p), s).
Proof.
  intros Ha. pose proof (quoted_Forall (fun c => c <> 0) a ltac:(done) ltac:(done) Ha) as Hz.
  unfold convert_argv_to_windows_cmd, quoted in *. unfold no_measure.
  destruct (passes a (length a) (length a) 0 false 0 0) as (q & b & -> & Hlen & Hb & Hq & Hq34 & He & Hbb); [done|done|].
  cbn [has_whitespaces number_of_double_quotes m_size number_of_backslashes_before_quote number_of_backslashes_at_the_end orb].
  rewrite Hq34. fold (needs_quotes a). rewrite Z.add_0_l. destruct (needs_quotes a); [|done].
  unfold allocate. rewrite alloc_ok. rewrite Hb. set (k := Z.to_nat (at_the_end a)) in *.
  assert (Hl : zlen (34 :: body a ++ replicate k 92 ++ [34]) = zlen a + 2 + q + b + at_the_end a).
  { rewrite Hb in Hlen. cbn [length]. rewrite !length_app, length_replicate. cbn [length]. lia. }
  assert ((zlen a + 2 + q + b + at_the_end a + 1 <? zlen (34 :: body a ++ replicate k 92 ++ [34; 0])) = false) as ->.
  { apply Z.ltb_ge. rewrite <- Hl. cbn [length]. rewrite !length_app. cbn [length]. lia. }
  rewrite <- Hl. replace (34 :: body a ++ replicate k 92 ++ [34; 0]) with ((34 :: body a ++ replicate k 92 ++ [34]) ++ [0])
    by (cbn [app]; by rewrite <- !app_assoc). by rewrite c_string_all.
Qed.

Lemma quote_args_ok argv p s : Forall (Forall (fun c => c <> 0)) argv -> Forall (fun a => zlen (quoted a) < 65536) argv ->
  quote_args (K := K) argv p s = Some ((Some (quoted <$> argv), p), s).
Proof.
  intros Hz Hs. induction argv as [|a argv IH]; [done|]. apply Forall_cons in Hz as [Ha Hz]. apply Forall_cons in Hs as [Hl Hs].
  cbn [quote_args]. rewrite (SM_bind_Some _ _ _ _ _ _ _ (convert_one a p s Ha)). cbv beta iota. rewrite (SM_bind_Some _ _ _ _ _ _ _ (IH Hz Hs)).
  cbn [fmap option_fmap option_map list_fmap]. unfold mret, SM_ret, mret, M_ret. do 5 f_equal.
  rewrite wrap_small, Nat2Z.id by lia. unfold quoted. destruct (needs_quotes a); by rewrite firstn_all.
Qed.

Lemma convert_args_ok args : forall argv_size wargv p s,
  Forall (Forall (fun c => 0 < c < 128)) args -> argv_size = 2 * zlen wargv + 2 * total (fun a => zlen a + 1) args -> argv_size < 65536 ->
  convert_args (K := K) args argv_size wargv p s = Some ((Some (wargv ++ (args ≫= fun a => a ++ [32])), p), s).
Proof.
  induction args as [|a args IH]; intros argv_size wargv p s Hz Hsize Hmax; [cbn; by rewrite app_nil_r|].
  apply Forall_cons in Hz as [Ha Hz]. cbn [convert_args total foldr] in *.
  assert (0 <= total (fun a => zlen a + 1) args) by (clear; unfold total; induction args as [|a l IHl]; cbn [foldr]; lia).
  unfold total in *. rewrite wrap_small by lia. rewrite ascii_ok by (done || lia). rewrite (bool_decide_eq_true_2 (STATUS_SUCCESS = STATUS_SUCCESS)) by done.
  cbn [negb]. rewrite (proj2 (Z.ltb_ge _ _)) by lia. rewrite IH; [|done| |done].
  - do 4 f_equal. cbn [mbind list_bind]. by rewrite <- !app_assoc.
  - rewrite !length_app. cbn [length]. lia.
Qed.

Lemma total_u16 args : Forall (fun a => zlen a + 1 < 65536) args -> total (fun a => u16 (zlen a + 1)) args = total (fun a => zlen a + 1) args.
Proof. induction 1 as [|a l Ha Hl IH]; [done|]. cbn [total foldr] in *. unfold total in *. by rewrite IH, wrap_small by lia. Qed.

(** C16: the child reads the arguments it was given. The command line of any
    arguments of ASCII text, whatever blanks, quotes and backslashes they
    contain, is split by the documented rules of the C runtime into these
    arguments again; empty arguments are lost. The program name must not contain
    a quote or end with a backslash, which its rules cannot express, and the
    line must be shorter than 64 kB. No array is overrun. *)
Theorem command_line_roundtrip a0 args p s
    (Hascii : Forall (Forall (fun c => 0 < c < 128)) (a0 :: args))
    (Hquote : existsb (fun c => c =? 34) a0 = false) (Hlast : last a0 <> Some 92)
    (Hsize : 2 * total (fun a => zlen (quoted a) + 1) (a0 :: args) < 65536) :
  exists line, convert_argv_to_wargv (K := K) (a0 :: args) p s = Some ((Some (Some line, 2 * (zlen line + 1)), p), s) /\
    windows_args line = a0 :: filter (fun a => a <> []) args.
Proof.
  exists (quoted a0 ++ tail_text args). split; [|by apply windows_args_line].
  assert (Hall : forall l, Forall (fun a => zlen (quoted a) + 1 <= total (fun a => zlen (quoted a) + 1) l) l /\ 0 <= total (fun a => zlen (quoted a) + 1) l).
  { induction l as [|a l [IH1 IH2]]; [done|]. cbn [total foldr] in *. unfold total in *. split; [|lia].
    constructor; [lia|]. eapply Forall_impl; [exact IH1|]. cbn. lia. }
  assert (Hsum : total (fun a => zlen a + 1) (quoted <$> a0 :: args) = total (fun a => zlen (quoted a) + 1) (a0 :: args)).
  { generalize (a0 :: args). intros l. induction l as [|a l IHl]; [done|]. cbn [total foldr fmap list_fmap] in *. unfold total in *. by rewrite IHl. }
  destruct (Hall (a0 :: args)) as [Hsmall _].
  unfold convert_argv_to_wargv. rewrite (proj2 (Z.eqb_neq _ _)) by done. rewrite !alloc_ok. cbn [andb].
  rewrite (SM_bind_Some _ _ _ _ _ _ _ (quote_args_ok (a0 :: args) p s ltac:(eapply Forall_impl; [exact Hascii|]; intros a Ha; eapply Forall_impl; [exact Ha|]; cbn; lia)
    ltac:(eapply Forall_impl; [exact Hsmall|]; intros a Ha; cbv beta in Ha; lia))).
  cbv beta iota. unfold allocate. rewrite alloc_ok. rewrite total_u16, Hsum.
  2:{ apply Forall_fmap. eapply Forall_impl; [exact Hsmall|]. intros a Ha. cbv beta in Ha. unfold compose. lia. }
  rewrite (SM_bind_Some _ _ _ _ _ _ _ (convert_args_ok (quoted <$> a0 :: args) _ [] p s
    ltac:(apply Forall_fmap; eapply Forall_impl; [exact Hascii|]; intros a Ha; by apply quoted_Forall) ltac:(by rewrite Hsum) ltac:(done))).
  assert (Hline : ((quoted <$> a0 :: args) ≫= fun a => a ++ [32]) = (quoted a0 ++ tail_text args) ++ [32]).
  { clear. cbn [fmap list_fmap mbind list_bind]. revert a0. induction args as [|a args IH]; intros a0; [cbn; by rewrite !app_nil_r|].
    cbn [fmap list_fmap mbind list_bind]. rewrite (IH a). change (tail_text (a :: args)) with (32 :: quoted a ++ tail_text args).
    rewrite <- !app_assoc. cbn [app]. by rewrite <- app_assoc. }
  cbn [app]. rewrite Hline. cbv beta iota. unfold mret, SM_ret, mret, M_ret. do 4 f_equal.
  rewrite length_app. cbn [length]. replace (length (quoted a0 ++ tail_text args) + 1 - 1)%nat with (length (quoted a0 ++ tail_text args)) by lia.
  rewrite take_app_length. do 3 f_equal. clear. revert a0. unfold total. induction args as [|a args IH]; intros a0; [cbn; rewrite app_nil_r; lia|].
  cbn [foldr] in *. rewrite (IH a). change (tail_text (a :: args)) with (32 :: quoted a ++ tail_text args). rewrite !length_app. cbn [length]. rewrite length_app. lia.
Qed.

End Line.

(** ** An example *)

Module Shell.

(** Arguments with a blank and a backslash at the end, with quotes, an empty one
    and one with backslashes before a quote. *)
Definition program : list Z := str "C:\prog".
Definition arguments : list (list Z) := [str "a b" ++ [92]; str "say " ++ [34] ++ str "hi" ++ [34]; []; [92; 92; 34]].

Definition idle : state FileIo.Disk.disk := FileIo.Disk.process 0 [] 0.

End Shell.
Import PathSpec.Volume Shell.

Lemma command_line_roundtrip_witness : exists line,
  convert_argv_to_wargv (program :: arguments) known idle = Some ((Some (Some line, 2 * (zlen line + 1)), known), idle) /\
  windows_args line = [program; str "a b" ++ [92]; str "say " ++ [34] ++ str "hi" ++ [34]; [92; 92; 34]].
Proof.
  destruct (command_line_roundtrip (PK := volume_kernel) (fun _ => eq_refl) (fun _ _ _ _ => eq_refl) program arguments known idle) as (line & Hrun & Hargs).
  - apply (bool_decide_unpack _). vm_compute. exact I.
  - reflexivity.
  - vm_compute. discriminate.
  - vm_compute. reflexivity.
  - exists line. split; [exact Hrun|]. rewrite Hargs. reflexivity.
Defined.
