(* ===== verification/SpawnActions.v ===== *)
(** * File actions and attributes of a spawn

    The list of actions a caller prepares for a child (src/spawn/actions.c) and
    its attributes (src/spawn/attributes.c). *)

From S2P Require Import Prelude Errno Buffer FdTable FileIo Sched.

(** ** Data *)

Inductive spawn_action :=
  | open_action (fd oflag mode : Z) (path : list Z)
  | close_action (fd : Z)
  | dup2_action (oldfd newfd : Z)
  | chdir_action (path : list Z)
  | fchdir_action (fd : Z)
  | vm_alloc_action (base size : Z)
  | vm_write_action (parent_va child_va size : Z).

(** [size] and [used] are [unsigned short]s. [entries] are the actions of the
    block in order, [used] of them when the counter has not wrapped, and
    [room] the number of actions the block has space for. *)
Record spawn_actions_t := SpawnActions {
  actions_size : Z;
  used : Z;
  room : Z;
  entries : list spawn_action
}.

(** [sizeof(struct spawn_action)]. *)
Definition sizeof_spawn_action : Z := 32.

Section Actions.
Context {K : Type} {KN : Kernel K} {A : Allocator}.

(** [VALIDATE_ACTIONS]: the structure behind the pointer. *)
Definition validate_actions (a : option spawn_actions_t) (m : spawn_actions_t -> M K (Z * option spawn_actions_t))
    : M K (Z * option spawn_actions_t) :=
  match a with None => r ← fail EINVAL; mret (r, None) | Some a => m a end.

Definition simple_validate_fd (fd : Z) (a : spawn_actions_t) (m : M K (Z * option spawn_actions_t)) : M K (Z * option spawn_actions_t) :=
  if fd <? 0 then r ← fail EINVAL; mret (r, Some a) else m.

(** [DOUBLE_ACTIONS_IF_NEEDED] and then [m]. *)
Definition double_actions_if_needed (a : spawn_actions_t) (m : spawn_actions_t -> M K (Z * option spawn_actions_t))
    : M K (Z * option spawn_actions_t) :=
  if used a =? actions_size a then
    if malloc_ok (sizeof_spawn_action * actions_size a * 2)
    then m (SpawnActions (u16 (actions_size a * 2)) (used a) (actions_size a * 2) (entries a))
    else r ← fail ENOMEM; mret (r, Some a)
  else m a.

(** [actions->actions[actions->used++] = x]. *)
Definition put_action (x : spawn_action) (a : spawn_actions_t) : M K (Z * option spawn_actions_t) :=
  if used a <? room a
  then mret (0, Some (SpawnActions (actions_size a) (u16 (used a + 1)) (room a) (take (Z.to_nat (used a)) (entries a) ++ x :: drop (S (Z.to_nat (used a))) (entries a))))
  else UB.

(** The action is written, then its path is allocated; without memory it is not
    counted. *)
Definition put_path_action (path : list Z) (x : spawn_action) (a : spawn_actions_t) : M K (Z * option spawn_actions_t) :=
  if malloc_ok (zlen path + 1) then put_action x a
  else if used a <? room a then r ← fail ENOMEM; mret (r, Some a) else UB.

Definition wlibc_spawn_file_actions_init (a : option spawn_actions_t) : M K (Z * option spawn_actions_t) :=
  validate_actions a (fun _ =>
    if malloc_ok (sizeof_spawn_action * 16) then mret (0, Some (SpawnActions 16 0 16 []))
    else r ← fail ENOMEM; mret (r, Some (SpawnActions 16 0 0 []))).

Definition wlibc_spawn_file_actions_destroy (a : option spawn_actions_t) : M K (Z * option spawn_actions_t) :=
  validate_actions a (fun _ => mret (0, Some (SpawnActions 0 0 0 []))).

(** [VALIDATE_PATH(path, EINVAL, -1)]. *)
Definition validate_action_path (path : option (list Z)) (a : spawn_actions_t) (m : list Z -> M K (Z * option spawn_actions_t))
    : M K (Z * option spawn_actions_t) :=
  match path with
  | None | Some [] => r ← fail EINVAL; mret (r, Some a)
  | Some path => m path
  end.

Definition wlibc_spawn_file_actions_addopen (a : option spawn_actions_t) (fd : Z) (path : option (list Z)) (oflag mode : Z) :=
  validate_actions a (fun a => simple_validate_fd fd a (validate_action_path path a (fun path =>
    double_actions_if_needed a (put_path_action path (open_action fd oflag mode path))))).

Definition wlibc_spawn_file_actions_addclose (a : option spawn_actions_t) (fd : Z) :=
  validate_actions a (fun a => simple_validate_fd fd a (double_actions_if_needed a (put_action (close_action fd)))).

Definition wlibc_spawn_file_actions_adddup2 (a : option spawn_actions_t) (oldfd newfd : Z) :=
  validate_actions a (fun a => simple_validate_fd oldfd a (simple_validate_fd newfd a
    (double_actions_if_needed a (put_action (dup2_action oldfd newfd))))).

Definition wlibc_spawn_file_actions_addchdir (a : option spawn_actions_t) (path : option (list Z)) :=
  validate_actions a (fun a => validate_action_path path a (fun path =>
    double_actions_if_needed a (put_path_action path (chdir_action path)))).

Definition wlibc_spawn_file_actions_addfchdir (a : option spawn_actions_t) (fd : Z) :=
  validate_actions a (fun a => simple_validate_fd fd a (double_actions_if_needed a (put_action (fchdir_action fd)))).

Definition wlibc_spawn_file_actions_addvm_alloc (a : option spawn_actions_t) (base size : Z) :=
  validate_actions a (fun a => double_actions_if_needed a (put_action (vm_alloc_action base size))).

Definition wlibc_spawn_file_actions_addvm_write (a : option spawn_actions_t) (parent_va child_va size : Z) :=
  validate_actions a (fun a => double_actions_if_needed a (put_action (vm_write_action parent_va child_va size))).

(** ** Attributes *)

Record spawnattr_t := Spawnattr {
  attr_flags : Z;
  pgroup : Z;
  sigdefault : Z;
  attr_sigmask : Z;
  schedpolicy : Z;
  schedpriority : Z
}.

Definition POSIX_SPAWN_SETPGROUP : Z := 0x01.
Definition POSIX_SPAWN_SETSIGDEF : Z := 0x02.
Definition POSIX_SPAWN_SETSIGMASK : Z := 0x04.
Definition POSIX_SPAWN_SETSCHEDPARAM : Z := 0x08.
Definition POSIX_SPAWN_SETSCHEDULER : Z := 0x10.
Definition POSIX_SPAWN_DETACH : Z := 0x20.

(** [VALIDATE_SPAWNATTR] of a setter: the result and the new attributes. *)
Definition set_attr (a : option spawnattr_t) (m : spawnattr_t -> M K (Z * option spawnattr_t)) : M K (Z * option spawnattr_t) :=
  match a with None => r ← fail EINVAL; mret (r, None) | Some a => m a end.

(** A getter: the result and the value stored, [place] saying whether there is a
    place for it. *)
Definition get_attr (a : option spawnattr_t) (place : bool) (field : spawnattr_t -> Z) : M K (Z * option Z) :=
  match a with
  | Some a => if place then mret (0, Some (field a)) else r ← fail EINVAL; mret (r, None)
  | None => r ← fail EINVAL; mret (r, None)
  end.

Definition wlibc_spawnattr_init (a : option spawnattr_t) := set_attr a (fun _ => mret (0, Some (Spawnattr 0 0 0 0 SCHED_RR 0))).

Definition wlibc_spawnattr_getsigdefault (a : option spawnattr_t) (place : bool) := get_attr a place sigdefault.
Definition wlibc_spawnattr_getsigmask (a : option spawnattr_t) (place : bool) := get_attr a place attr_sigmask.
Definition wlibc_spawnattr_getflags (a : option spawnattr_t) (place : bool) := get_attr a place attr_flags.
Definition wlibc_spawnattr_getpgroup (a : option spawnattr_t) (place : bool) := get_attr a place pgroup.
Definition wlibc_spawnattr_getschedpolicy (a : option spawnattr_t) (place : bool) := get_attr a place schedpolicy.
Definition wlibc_spawnattr_getschedparam (a : option spawnattr_t) (place : bool) := get_attr a place schedpriority.

(** The set behind the pointer, which is not checked. *)
Definition wlibc_spawnattr_setsigdefault (a : option spawnattr_t) (set : option Z) := set_attr a (fun a =>
  x ← lift set; mret (0, Some (Spawnattr (attr_flags a) (pgroup a) x (attr_sigmask a) (schedpolicy a) (schedpriority a)))).
Definition wlibc_spawnattr_setsigmask (a : option spawnattr_t) (set : option Z) := set_attr a (fun a =>
  x ← lift set; mret (0, Some (Spawnattr (attr_flags a) (pgroup a) (sigdefault a) x (schedpolicy a) (schedpriority a)))).

Definition all_spawn_flags : Z :=
  Z.lor POSIX_SPAWN_SETPGROUP (Z.lor POSIX_SPAWN_SETSIGDEF (Z.lor POSIX_SPAWN_SETSIGMASK
    (Z.lor POSIX_SPAWN_SETSCHEDPARAM (Z.lor POSIX_SPAWN_SETSCHEDULER POSIX_SPAWN_DETACH)))).

Definition wlibc_spawnattr_setflags (a : option spawnattr_t) (flags : Z) := set_attr a (fun a =>
  if flags >? all_spawn_flags then r ← fail EINVAL; mret (r, Some a)
  else mret (0, Some (Spawnattr flags (pgroup a) (sigdefault a) (attr_sigmask a) (schedpolicy a) (schedpriority a)))).

Definition wlibc_spawnattr_setpgroup (a : option spawnattr_t) (x : Z) := set_attr a (fun a =>
  mret (0, Some (Spawnattr (attr_flags a) x (sigdefault a) (attr_sigmask a) (schedpolicy a) (schedpriority a)))).

Definition wlibc_spawnattr_setschedpolicy (a : option spawnattr_t) (policy : Z) := set_attr a (fun a =>
  if negb (valid_policy policy) then r ← fail EINVAL; mret (r, Some a)
  else mret (0, Some (Spawnattr (attr_flags a) (pgroup a) (sigdefault a) (attr_sigmask a) policy (schedpriority a)))).

Definition wlibc_spawnattr_setschedparam (a : option spawnattr_t) (param : option Z) := set_attr a (fun a =>
  match param with
  | None => r ← fail EINVAL; mret (r, Some a)
  | Some priority =>
      if negb (valid_priority priority) then r ← fail EINVAL; mret (r, Some a)
      else mret (0, Some (Spawnattr (attr_flags a) (pgroup a) (sigdefault a) (attr_sigmask a) (schedpolicy a) priority))
  end).

End Actions.
