(* ===== verification/Spawn.v ===== *)
(** * Creating processes

    posix_spawn (src/spawn/spawn.c): the program is looked up, the descriptors the
    child gets are collected and passed in the form the C runtime of the child
    reads, the process is created, if need be with the interpreter its first line
    names, and entered in the table of children. *)

From stdpp Require Import strings.
From S2P Require Import Prelude Errno Buffer FdTable FileIo Path Open Process Sched SpawnActions CommandLine.

(** ** State *)

(** The state of path resolution and of the children. *)
Record world := World { w_paths : path_state; w_procs : proc_state }.

Definition FILE_EXECUTE : Z := 0x0020.

(** A handle of the child. *)
Record inherit_fdinfo := InheritFd { i_handle : Z; i_type : handle_t; i_flags : Z }.

Definition no_fd : inherit_fdinfo := InheritFd 0 INVALID_HANDLE 0.

(** What the child is told about its descriptors: [cbReserved2], [lpReserved2]
    and the standard handles. *)
Record startup_info := StartupInfo {
  cbReserved2 : Z;
  lpReserved2 : list Z;
  hStdInput : Z;
  hStdOutput : Z;
  hStdError : Z
}.

Definition FAPPEND_FLAG : Z := 0x20.
Definition FPIPE_FLAG : Z := 0x08.
Definition FDEV_FLAG : Z := 0x40.

(** The arguments of [CreateProcessW]: program, command line, flags, environment,
    directory and start-up information. *)
Record process_args := ProcessArgs {
  pa_path : list Z;
  pa_line : option (list Z);
  pa_flags : Z;
  pa_env : option (list Z);
  pa_cwd : option (list Z);
  pa_startup : startup_info
}.

(** [CreateProcessW] gives an error or the number and the handle of the process,
    which is suspended. [getenv_PATH] is the variable of the environment. *)
Class SpawnKernel (K : Type) := {
  CreateProcessW : process_args -> K -> (DOSERROR + Z * Z) * K;
  NtResumeProcess : Z -> K -> NTSTATUS * K;
  NtTerminateProcess : Z -> NTSTATUS -> K -> K;
  NtSetInherit : Z -> bool -> K -> NTSTATUS * K;
  NtAllocateVirtualMemory : Z -> Z -> Z -> K -> NTSTATUS * Z * Z * K;
  NtWriteVirtualMemory : Z -> Z -> Z -> Z -> K -> NTSTATUS * K;
  getenv_PATH : K -> option (list Z)
}.

(** ** The descriptors of the child *)

(** The flags of a descriptor for the C runtime. *)
Definition inherit_flag (e : inherit_fdinfo) : Z :=
  let flag := FOPEN_FLAG in
  let flag := if has (i_flags e) O_APPEND then Z.lor flag FAPPEND_FLAG else flag in
  if bool_decide (i_type e = PIPE_HANDLE) then Z.lor flag FPIPE_FLAG
  else if bool_decide (i_type e = CONSOLE_HANDLE) || bool_decide (i_type e = NULL_HANDLE) then Z.lor flag FDEV_FLAG else flag.

(** The last index with a handle, 0 when there is none. *)
Fixpoint real_max_fd (l : list inherit_fdinfo) (i m : Z) : Z :=
  match l with
  | [] => m
  | e :: l => real_max_fd l (i + 1) (if negb (i_handle e =? 0) then i else m)
  end.

(** The counters of the first pass over the actions. *)
Record action_counts := ActionCounts {
  max_fd_requested : Z;
  n_chdir : Z;
  n_fchdir : Z;
  n_vm_alloc : Z;
  n_vm_write : Z
}.

Definition no_counts : action_counts := ActionCounts 0 0 0 0 0.

Definition count_action (x : spawn_action) (c : action_counts) : action_counts :=
  let '(ActionCounts m d f a w) := c in
  match x with
  | open_action fd _ _ _ => ActionCounts (Z.max fd m) d f a w
  | close_action _ => c
  | dup2_action _ newfd => ActionCounts (Z.max newfd m) d f a w
  | chdir_action _ => ActionCounts m (d + 1) f a w
  | fchdir_action _ => ActionCounts m d (f + 1) a w
  | vm_alloc_action _ _ => ActionCounts m d f (a + 1) w
  | vm_write_action _ _ _ => ActionCounts m d f a (w + 1)
  end.

(** Nothing when there are too many directories, or memory is written that was
    not allocated. *)
Fixpoint count_actions (l : list spawn_action) (c : action_counts) : option action_counts :=
  match l with
  | [] => Some c
  | x :: l =>
      let c := count_action x c in
      if n_chdir c + n_fchdir c >? 2 then None
      else if (n_vm_write c >? 1) && (n_vm_alloc c =? 0) then None
      else count_actions l c
  end.

#[export] Instance DOSERROR_eq_dec : EqDecision DOSERROR.
Proof. solve_decision. Defined.

Definition ERROR_BAD_EXE_FORMAT : DOSERROR := ERROR_other 193.

(** Flags of [CreateProcessW]. *)
Definition CREATE_SUSPENDED : Z := 0x4.
Definition DETACHED_PROCESS : Z := 0x8.
Definition NORMAL_PRIORITY_CLASS : Z := 0x20.
Definition IDLE_PRIORITY_CLASS : Z := 0x40.
Definition HIGH_PRIORITY_CLASS : Z := 0x80.
Definition CREATE_NEW_PROCESS_GROUP : Z := 0x200.
Definition CREATE_UNICODE_ENVIRONMENT : Z := 0x400.
Definition BELOW_NORMAL_PRIORITY_CLASS : Z := 0x4000.
Definition ABOVE_NORMAL_PRIORITY_CLASS : Z := 0x8000.

Section Spawn.
Context {K : Type} {KN : Kernel K} {A : Allocator} {PK : PathKernel K} {OK : OpenKernel K} {FK : FileKernel K}.
Context {SK : SchedKernel K} {SP : SpawnKernel K}.

Abbreviation P := (SM path_state K).
Abbreviation W := (SM world K).

Definition in_paths {X} (m : P X) : W X := fun w => '(x, p) ← m (w_paths w); mret (x, World p (w_procs w)).
Definition in_procs {X} (m : SM proc_state K X) : W X := fun w => '(x, q) ← m (w_procs w); mret (x, World (w_paths w) q).

Definition sizeof_inherit_fdinfo : Z := 16.

Definition initialize_inherit_information (max_fd : Z) : P (option (list inherit_fdinfo)) :=
  allocate (sizeof_inherit_fdinfo * (max_fd + 1)) (
    s ← run_M get;
    mret (Some ((fun i => match table s !! i with
                          | Some e => InheritFd (handle e) (type e) (flags e)
                          | None => no_fd
                          end) <$> seq 0 (Z.to_nat (max_fd + 1))))).

(** The handle of every descriptor an action opens is closed, whatever it is by
    then. *)
Fixpoint cleanup_inherit_information (info : list inherit_fdinfo) (actions : list spawn_action) : P unit :=
  match actions with
  | [] => mret ()
  | open_action fd _ _ _ :: actions =>
      e ← run_M (lift (info !! Z.to_nat fd));
      k ← system;
      _ ← set_system (NtClose (i_handle e) k).2;
      cleanup_inherit_information info actions
  | _ :: actions => cleanup_inherit_information info actions
  end.

(** The size is a [WORD]: what does not fit in it is written behind the block. *)
Definition give_inherit_information_to_startupinfo (info : list inherit_fdinfo) : P (option startup_info) :=
  let n := real_max_fd info 0 0 + 1 in
  let size := u16 (4 + 9 * n) in
  let fds := take (Z.to_nat n) info in
  allocate size (
    if size <? 4 + 9 * n then run_M UB
    else
      let std (i : nat) : Z := default 0 (i_handle <$> fds !! i) in
      mret (Some (StartupInfo size
        (le_bytes 4 n ++ (inherit_flag <$> fds) ++
         (fds ≫= fun e => le_bytes 8 (if negb (i_handle e =? 0) then i_handle e else INVALID_HANDLE_VALUE)))
        (std 0%nat) (std 1%nat) (std 2%nat)))).

(** ** Looking for the program *)

Definition get_absolute_dospath_of_executable (path : list Z) : P (option (list Z)) :=
  ntpath ← get_absolute_ntpath AT_FDCWD path;
  match ntpath with
  | None => mret None
  | Some ntpath =>
      h ← just_open2 ntpath FILE_EXECUTE FILE_NON_DIRECTORY_FILE;
      if h =? 0 then mret None
      else
        k ← system;
        _ ← set_system (NtClose h k).2;
        ntpath_to_dospath ntpath
  end.

Definition executable_extension (path : list Z) : bool :=
  let e := drop (length path - 3) path in
  (4 <? zlen path) && ((byte_at path (zlen path - 4) =? ch ".") &&
    (iequal e (str "exe") || (iequal e (str "cmd") || iequal e (str "bat")))).

(** The first of these names that is an executable. *)
Fixpoint first_executable (names : list (list Z)) : P (option (list Z)) :=
  match names with
  | [] => mret None
  | name :: names =>
      dospath ← get_absolute_dospath_of_executable name;
      match dospath with Some d => mret (Some d) | None => first_executable names end
  end.

Definition search_for_program (path : list Z) : P (option (list Z)) :=
  if executable_extension path then get_absolute_dospath_of_executable path
  else allocate (zlen path + 5)
         (first_executable [path; path ++ str ".exe"; path ++ str ".cmd"; path ++ str ".bat"]).

(** [while (needed >= buffer_size) buffer_size *= 2;] *)
Fixpoint grow_until (fuel : nat) (needed buffer_size : Z) : Z :=
  match fuel with
  | O => buffer_size
  | S fuel => if needed >=? buffer_size then grow_until fuel needed (buffer_size * 2) else buffer_size
  end.

(** The parts of [PATH]: the directory before each separator and the last one. *)
Fixpoint split_path (l dir : list Z) : list (list Z) :=
  match l with
  | [] => [dir]
  | c :: l => if c =? ch ";" then dir :: split_path l [] else split_path l (dir ++ [c])
  end.

(** The byte in front of an empty first directory is not part of [PATH]. *)
Fixpoint search_dirs (first : bool) (dirs : list (list Z)) (path : list Z) (buffer_size : Z) : P (option (list Z)) :=
  match dirs with
  | [] => mret None
  | dir :: dirs =>
      let needed := zlen dir + zlen path in
      let search (buffer_size : Z) : P (option (list Z)) :=
        _ ← (if first && (zlen dir =? 0) then run_M UB else mret ());
        let slash := if bool_decide (last dir = Some 92) then [] else [92] in
        let program := dir ++ slash ++ path in
        if buffer_size <? zlen program + 1 then run_M UB
        else
          dospath ← search_for_program program;
          match dospath with
          | Some d => mret (Some d)
          | None => search_dirs false dirs path buffer_size
          end in
      if needed >=? buffer_size then
        let buffer_size := grow_until 64 needed buffer_size in allocate buffer_size (search buffer_size)
      else search buffer_size
  end.

Definition search_path_for_program (path : list Z) : P (option (list Z)) :=
  if IS_ABSOLUTE_PATH path then search_for_program path
  else
    k ← system;
    match getenv_PATH k with
    | None => null ENOENT
    | Some PATH => allocate 256 (search_dirs true (split_path PATH []) path 256)
    end.

Definition get_absolute_dospath_of_program (path : list Z) (use_path : bool) : P (option (list Z)) :=
  if use_path then search_path_for_program path else search_for_program path.

(** ** Scripts *)

Definition is_newline (c : Z) : bool := (c =? 10) || (c =? 13).

(** The index from [i] on of the first byte of [l] that satisfies [f]. *)
Fixpoint index_where (f : Z -> bool) (l : list Z) (i : Z) : option Z :=
  match l with [] => None | c :: l => if f c then Some i else index_where f l (i + 1) end.

(** The first line of the file, without [#!]'s check: the bytes read and the
    length of the line; [None] when the call fails. *)
Definition first_line_of (h : Z) (data : list Z) : P (option (list Z * Z)) :=
  match index_where is_newline (drop 2 data) 2 with
  | Some i => mret (Some (data, i))
  | None =>
      if zlen data =? 4096 then
        allocate 32768 (
          k ← system;
          let '(status, more, k) := NtReadFile h (32768 - 4096) FILE_USE_FILE_POINTER_POSITION k in
          _ ← set_system k;
          if negb (one_of status [STATUS_SUCCESS; STATUS_END_OF_FILE]) then mret None
          else
            match index_where is_newline more 4096 with
            | Some i => mret (Some (data ++ more, i))
            | None => if zlen more =? 0 then mret (Some (data, 4096)) else null E2BIG
            end)
      else mret (Some (data, zlen data))
  end.

(** Where the last component of the interpreter starts and ends, from [i] on. *)
Fixpoint exe_range (l : list Z) (i start : Z) (stop : Z) : Z * Z :=
  match l with
  | [] => (start, stop)
  | c :: l =>
      if is_blank c then (start, i - 1)
      else exe_range l (i + 1) (if c =? ch "/" then i + 1 else start) stop
  end.

(** The interpreter, its argument and the file, and the size of the block that
    holds them. *)
Definition shebang_get_executable_and_args (dospath : list Z) : P (option (list Z * list Z * list Z * Z)) :=
  ntpath ← dospath_to_ntpath dospath;
  match ntpath with
  | None => mret None
  | Some ntpath =>
      h ← just_open2 ntpath (Z.lor FILE_READ_DATA SYNCHRONIZE) FILE_SYNCHRONOUS_IO_NONALERT;
      if h =? 0 then mret None
      else allocate 4096 (
        k ← system;
        let '(status, data, k) := NtReadFile h 4096 FILE_USE_FILE_POINTER_POSITION k in
        _ ← set_system k;
        if negb (one_of status [STATUS_SUCCESS; STATUS_END_OF_FILE]) then null EACCES
        else if negb ((byte_at data 0 =? ch "#") && (byte_at data 1 =? ch "!")) then null ENOEXEC
        else
          line ← first_line_of h data;
          match line with
          | None => mret None
          | Some (buffer, length) =>
              let size := if zlen data <? zlen buffer then 32768 else if (length =? 4096) then (if zlen data =? 4096 then 32768 else 4096) else 4096 in
              let line := take (Z.to_nat (if length <? size then length else length - 1)) buffer in
              k ← system;
              _ ← set_system (NtClose h k).2;
              match index_where (fun c => negb (is_blank c)) (drop 2 (take (Z.to_nat length) (line ++ [0]))) 2 with
              | None => null ENOEXEC
              | Some first =>
                  let '(start, stop) := exe_range (drop (Z.to_nat first) (take (Z.to_nat length) (line ++ [0]))) first first (length - 1) in
                  let shebang_exe := c_string (take (Z.to_nat (stop - start + 1)) (drop (Z.to_nat start) line)) in
                  allocate (stop - start + 2) (
                    exe ← search_path_for_program shebang_exe;
                    exe ← (match exe with
                           | Some e => mret (Some e)
                           | None =>
                               s ← run_M get;
                               if negb (errno s =? ENOENT) then mret None
                               else _ ← run_M (set_errno 0); search_for_program shebang_exe
                           end);
                    match exe with
                    | None => mret None
                    | Some exe =>
                        let finish (arg : list Z) (arg_size : Z) : P (option (list Z * list Z * list Z * Z)) :=
                          let size := 2 * (zlen exe + 1) + arg_size + 2 * (zlen dospath + 1) in
                          allocate (sizeof_UNICODE_STRING + size + 2) (mret (Some (exe, arg, dospath, u16 size))) in
                        match index_where (fun c => negb (is_blank c)) (drop (Z.to_nat (stop + 2)) line) (stop + 2) with
                        | None => finish [] 2
                        | Some start_of_args =>
                            let text := c_string (drop (Z.to_nat start_of_args) line) in
                            r ← convert_argv_to_windows_cmd text;
                            match r with
                            | None => mret None
                            | Some (new_arg, n) =>
                                let '(status, arg) := RtlUTF8StringToUnicodeString (take (Z.to_nat (u16 n)) (default text new_arg)) None in
                                if negb (bool_decide (status = STATUS_SUCCESS)) then null_status status
                                else finish arg (2 * (zlen arg + 1))
                            end
                        end
                    end)
              end
          end)
  end.

(** ** The actions *)

Definition put_info (info : list inherit_fdinfo) (fd : Z) (e : inherit_fdinfo) : P (list inherit_fdinfo) :=
  if (0 <=? fd) && (fd <? zlen info) then mret (<[Z.to_nat fd := e]> info) else run_M UB.

(** [NtSetInformationObject] makes the handle inheritable or not; the error, if
    any, becomes [errno]. *)
Definition set_inherit (h : Z) (b : bool) : P bool :=
  k ← system;
  let '(status, k) := NtSetInherit h b k in
  _ ← set_system k;
  if bool_decide (status = STATUS_SUCCESS) then mret true
  else _ ← run_M (fail_status status); mret false.

(** An action on the descriptors of the child and its directory, and whether it
    succeeded. *)
Definition perform_action (x : spawn_action) (info : list inherit_fdinfo) (wcwd : option (list Z))
    : P (list inherit_fdinfo * option (list Z) * bool) :=
  let stop : P (list inherit_fdinfo * option (list Z) * bool) := mret (info, wcwd, false) in
  let next (info : list inherit_fdinfo) : P (list inherit_fdinfo * option (list Z) * bool) := mret (info, wcwd, true) in
  match x with
  | open_action fd oflag mode path =>
      '(h, t) ← do_os_open AT_FDCWD path oflag mode INVALID_HANDLE;
      if h =? 0 then stop else info ← put_info info fd (InheritFd h t oflag); next info
  | close_action fd =>
      e ← run_M (get_fdinfo fd (Fdinfo 0 INVALID_HANDLE 0 0));
      if bool_decide (type e = INVALID_HANDLE) then _ ← run_M (set_errno EBADF); stop
      else
        ok ← (if negb (has (flags e) O_NOINHERIT) then set_inherit (handle e) false else mret true);
        if ok : bool then info ← put_info info fd no_fd; next info else stop
  | dup2_action oldfd newfd =>
      e ← run_M (get_fdinfo oldfd (Fdinfo 0 INVALID_HANDLE 0 0));
      if bool_decide (type e = INVALID_HANDLE) then _ ← run_M (set_errno EBADF); stop
      else
        ok ← (if has (flags e) O_NOINHERIT then set_inherit (handle e) true else mret true);
        if ok : bool
        then info ← put_info info newfd (InheritFd (handle e) (type e) (Z.ldiff (flags e) O_NOINHERIT)); next info
        else stop
  | chdir_action path =>
      cwd ← get_absolute_dospath AT_FDCWD path;
      match cwd with Some cwd => mret (info, Some cwd, true) | None => stop end
  | fchdir_action fd =>
      cwd ← get_fd_dospath fd;
      match cwd with
      | Some cwd => mret (info, Some cwd, true)
      | None => _ ← run_M (set_errno EBADF); stop
      end
  | vm_alloc_action _ _ | vm_write_action _ _ _ => next info
  end.

Fixpoint perform_actions (actions : list spawn_action) (info : list inherit_fdinfo) (wcwd : option (list Z))
    : P (list inherit_fdinfo * option (list Z) * bool) :=
  match actions with
  | [] => mret (info, wcwd, true)
  | x :: actions =>
      '(info, wcwd, ok) ← perform_action x info wcwd;
      if ok : bool then perform_actions actions info wcwd else mret (info, wcwd, false)
  end.

(** ** Creating the process *)

Definition process_flags (attributes : option spawnattr_t) : Z :=
  let flags := Z.lor CREATE_UNICODE_ENVIRONMENT CREATE_SUSPENDED in
  match attributes with
  | None => flags
  | Some a =>
      let priority_class :=
        if has (attr_flags a) POSIX_SPAWN_SETSCHEDULER then
          if schedpolicy a =? SCHED_IDLE then IDLE_PRIORITY_CLASS
          else if schedpolicy a =? SCHED_RR then NORMAL_PRIORITY_CLASS
          else if schedpolicy a =? SCHED_FIFO then HIGH_PRIORITY_CLASS
          else if schedpolicy a =? SCHED_BATCH then BELOW_NORMAL_PRIORITY_CLASS
          else if schedpolicy a =? SCHED_SPORADIC then ABOVE_NORMAL_PRIORITY_CLASS
          else NORMAL_PRIORITY_CLASS
        else NORMAL_PRIORITY_CLASS in
      let flags := Z.lor flags priority_class in
      let flags := if has (attr_flags a) POSIX_SPAWN_DETACH then Z.lor flags DETACHED_PROCESS else flags in
      if has (attr_flags a) POSIX_SPAWN_SETPGROUP then Z.lor flags CREATE_NEW_PROCESS_GROUP else flags
  end.

Definition create_process (a : process_args) : P (DOSERROR + Z * Z) :=
  k ← system;
  let '(r, k) := CreateProcessW a k in
  _ ← set_system k; mret r.

Definition dos_failure {X} (error : DOSERROR) : P (option X) :=
  s ← run_M get; null (map_doserror_to_errno error (errno s)).

(** The process, or the interpreter of the script. Without memory for the command
    line of the interpreter it gets none. *)
Definition create_or_interpret (a : process_args) (wargv_size : Z) : P (option (Z * Z)) :=
  r ← create_process a;
  match r with
  | inr p => mret (Some p)
  | inl error =>
      if negb (bool_decide (error = ERROR_BAD_EXE_FORMAT)) then dos_failure error
      else
        interpreter ← shebang_get_executable_and_args (pa_path a);
        match interpreter with
        | None => mret None
        | Some (exe, arg, file, size) =>
            argv ← prepend_shebang_to_wargv (pa_line a) wargv_size exe arg file size;
            let wargv_size := default wargv_size (snd <$> argv) in
            if wargv_size >=? 65535 then null E2BIG
            else
              r ← create_process (ProcessArgs exe (fst <$> argv) (pa_flags a) (pa_env a) (pa_cwd a) (pa_startup a));
              match r with inr p => mret (Some p) | inl error => dos_failure error end
        end
  end.

(** The child is killed. *)
Definition kill_child (h : Z) (status : NTSTATUS) : P unit :=
  k ← system;
  _ ← set_system (NtTerminateProcess h status k);
  _ ← run_M (fail_status status); mret ().

(** The memory of the child: the actions with the addresses and sizes the system
    chose, and whether they succeeded. *)
Fixpoint vm_actions (h : Z) (actions : list spawn_action) : P (list spawn_action * bool) :=
  match actions with
  | [] => mret ([], true)
  | x :: actions =>
      '(x, ok) ←
        (match x with
         | vm_alloc_action base size =>
             k ← system;
             let '(status, base, size, k) := NtAllocateVirtualMemory h base size k in
             _ ← set_system k;
             if bool_decide (status = STATUS_SUCCESS) then mret (vm_alloc_action base size, true)
             else _ ← kill_child h status; mret (vm_alloc_action base size, false)
         | vm_write_action parent_va child_va size =>
             k ← system;
             let '(status, k) := NtWriteVirtualMemory h child_va parent_va size k in
             _ ← set_system k;
             if bool_decide (status = STATUS_SUCCESS) then mret (x, true)
             else _ ← kill_child h status; mret (x, false)
         | _ => mret (x, true)
         end);
      if ok : bool then '(rest, ok) ← vm_actions h actions; mret (x :: rest, ok) else mret (x :: actions, false)
  end.

(** The child [id] with the handle [h] gets its priority and its memory, is entered
    in the table and started. *)
Definition start_child (id h : Z) (attributes : option spawnattr_t) (c : action_counts) (actions : list spawn_action)
    : W (option Z * list spawn_action) :=
  _ ← (match attributes with
       | Some a =>
           if has (attr_flags a) POSIX_SPAWN_SETSCHEDPARAM && negb (schedpriority a =? 0)
           then _ ← run_M (adjust_priority_of_process h (schedpriority a)); mret () else mret ()
       | None => mret ()
       end);
  '(actions, ok) ← (if (n_vm_alloc c >? 0) || (n_vm_write c >? 0) then in_paths (vm_actions h actions) else mret (actions, true));
  if negb ok then mret (None, actions)
  else
    r ← in_procs (add_child id h);
    if negb (r =? 0) then mret (None, actions)
    else
      k ← in_paths system;
      let '(status, k) := NtResumeProcess h k in
      _ ← in_paths (set_system k);
      if bool_decide (status = STATUS_SUCCESS) then mret (Some id, actions)
      else _ ← in_paths (kill_child h status); mret (None, actions).

(** The part of the call between [initialize_inherit_information] and the cleanup:
    the descriptors, the number of the child and the actions. *)
Definition spawn_with (info : list inherit_fdinfo) (wpath : list Z) (wargv : option (list Z)) (wargv_size : Z) (wenv : option (list Z))
    (attributes : option spawnattr_t) (c : action_counts) (actions : list spawn_action)
    : W (list inherit_fdinfo * option Z * list spawn_action) :=
  '(info, wcwd, ok) ← in_paths (perform_actions actions info None);
  if negb ok then mret (info, None, actions)
  else
    startup ← in_paths (give_inherit_information_to_startupinfo info);
    match startup with
    | None => mret (info, None, actions)
    | Some startup =>
        child ← in_paths (create_or_interpret (ProcessArgs wpath wargv (process_flags attributes) wenv wcwd startup) wargv_size);
        match child with
        | None => mret (info, None, actions)
        | Some (id, h) => '(r, actions) ← start_child id h attributes c actions; mret (info, r, actions)
        end
    end.

(** The result, [*pid] and the actions. *)
Definition wlibc_common_spawn (path : option (list Z)) (actions : option spawn_actions_t) (attributes : option spawnattr_t)
    (use_path : bool) (argv : option (list (list Z))) (env : option (list (list Z))) : W (Z * option Z * list spawn_action) :=
  let list_of := match actions with Some a => take (Z.to_nat (used a)) (entries a) | None => [] end in
  let stop : W (Z * option Z * list spawn_action) := mret (-1, None, list_of) in
  let error (e : Z) : W (Z * option Z * list spawn_action) := _ ← run_M (set_errno e); stop in
  match path, argv with
  | None, _ | Some [], _ => error ENOENT
  | _, None => error EINVAL
  | Some path, Some argv =>
      wpath ← in_paths (get_absolute_dospath_of_program path use_path);
      match wpath with
      | None => stop
      | Some wpath =>
          line ← in_paths (convert_argv_to_wargv argv);
          match line with
          | None => stop
          | Some (wargv, wargv_size) =>
              if wargv_size >=? 65536 then error E2BIG
              else
                wenv ← (match env with
                        | None => mret (Some None)
                        | Some env => r ← in_paths (convert_env_to_wenv env); mret (Some ∘ fst <$> r)
                        end);
                match wenv with
                | None => stop
                | Some wenv =>
                    match count_actions list_of no_counts with
                    | None => error EINVAL
                    | Some c =>
                        s ← run_M get;
                        info ← in_paths (initialize_inherit_information (Z.max (max_fd_requested c) (zlen (table s) - 1)));
                        match info with
                        | None => stop
                        | Some info =>
                            '(info, r, actions) ← spawn_with info wpath wargv wargv_size wenv attributes c list_of;
                            _ ← in_paths (cleanup_inherit_information info actions);
                            mret (match r with Some id => 0 | None => -1 end, r, actions)
                        end
                    end
                end
          end
      end
  end.
End Spawn.
