(* ===== verification/SpawnSpec.v ===== *)
(** * What a spawn promises

    The descriptors a child finds are the ones the parent collected for it, as long
    as their description fits in the start-up information; a spawn that succeeds has
    entered the child in the table; the actions look at the descriptors of the
    parent, not at those an earlier action gave to the child. *)

From stdpp Require Import strings.
From S2P Require Import Prelude Errno Buffer FdTable FdTableFacts FileIo Path PathFacts PathSpec Open OpenSpec Process ProcessSpec Sched SpawnActions CommandLine Spawn.

(** ** The block of start-up information *)

Lemma length_words {X} (f : X -> Z) (l : list X) : length (l ≫= fun e => le_bytes 8 (f e)) = (8 * length l)%nat.
Proof.
  induction l as [|e l IH]; [done|].
  change ((e :: l) ≫= fun e => le_bytes 8 (f e)) with (le_bytes 8 (f e) ++ (l ≫= fun e => le_bytes 8 (f e))).
  rewrite length_app, length_le_bytes, IH. cbn. lia.
Qed.

Lemma read_word {X} (f : X -> Z) (l : list X) pre post i e :
  l !! i = Some e -> 0 <= f e < 2 ^ 64 ->
  read_le (pre ++ (l ≫= fun e => le_bytes 8 (f e)) ++ post) (zlen pre + 8 * Z.of_nat i) 8 = Some (f e).
Proof.
  intros Hi He. rewrite <- (take_drop_middle _ _ _ Hi), bind_app.
  change ((e :: drop (S i) l) ≫= fun e => le_bytes 8 (f e)) with (le_bytes 8 (f e) ++ (drop (S i) l ≫= fun e => le_bytes 8 (f e))).
  rewrite <- !app_assoc. rewrite app_assoc.
  replace (zlen pre + 8 * Z.of_nat i) with (zlen (pre ++ (take i l ≫= fun e => le_bytes 8 (f e)))).
  - apply read_le_app. exact He.
  - rewrite length_app, length_words, length_take.
    apply lookup_lt_Some in Hi. lia.
Qed.

(** The handle passed for an entry. *)
Definition passed (e : inherit_fdinfo) : Z := if negb (i_handle e =? 0) then i_handle e else INVALID_HANDLE_VALUE.

Definition block (fds : list inherit_fdinfo) : list Z :=
  le_bytes 4 (zlen fds) ++ (inherit_flag <$> fds) ++ (fds ≫= fun e => le_bytes 8 (passed e)).

Definition handle_ok (e : inherit_fdinfo) : Prop := 0 <= i_handle e < INVALID_HANDLE_VALUE.

Lemma passed_bounds e : handle_ok e -> 0 <= passed e < 2 ^ 64.
Proof. unfold handle_ok, passed, INVALID_HANDLE_VALUE. destruct (i_handle e =? 0); cbn [negb]; lia. Qed.

Lemma zlen_block fds : zlen (block fds) = 4 + 9 * zlen fds.
Proof. unfold block. rewrite !length_app, length_le_bytes, length_fmap, length_words. lia. Qed.

Lemma block_count fds : zlen fds < 2 ^ 32 -> read_le (block fds) 0 4 = Some (zlen fds).
Proof. intros H. apply (read_le_app 4 []). lia. Qed.

Lemma block_flag fds (i : nat) e : fds !! i = Some e -> read_le (block fds) (4 + Z.of_nat i) 1 = Some (inherit_flag e).
Proof.
  intros Hi. cbn [read_le]. unfold block.
  rewrite lookup_app_r by (rewrite length_le_bytes; lia). rewrite length_le_bytes.
  replace (Z.to_nat (4 + Z.of_nat i) - 4)%nat with i by lia.
  rewrite lookup_app_l by (rewrite length_fmap; eapply lookup_lt_Some; eauto).
  rewrite list_lookup_fmap, Hi. cbn. f_equal. lia.
Qed.

Lemma block_handle fds (i : nat) e : fds !! i = Some e -> handle_ok e ->
  read_le (block fds) (4 + zlen fds + Z.of_nat i * 8) 8 = Some (passed e).
Proof.
  intros Hi He. unfold block. rewrite app_assoc.
  rewrite <- (app_nil_r (fds ≫= _)).
  replace (4 + zlen fds + Z.of_nat i * 8) with (zlen (le_bytes 4 (zlen fds) ++ (inherit_flag <$> fds)) + 8 * Z.of_nat i).
  - apply read_word; [exact Hi|]. apply passed_bounds, He.
  - rewrite length_app, length_le_bytes, length_fmap. lia.
Qed.

Lemma inherit_flag_open e : has (inherit_flag e) FOPEN_FLAG = true.
Proof.
  unfold inherit_flag. destruct (has (i_flags e) O_APPEND), (bool_decide (i_type e = PIPE_HANDLE)),
    (bool_decide (i_type e = CONSOLE_HANDLE) || bool_decide (i_type e = NULL_HANDLE)); reflexivity.
Qed.

(** ** The child reads the block *)

Section Child.
Context {K : Type} {KN : Kernel K} {A : Allocator}.

(** What the child finds at a descriptor the parent described by [o]. *)
Definition inherited (k : K) (o : option inherit_fdinfo) : option (Z * handle_t * Z) :=
  e ← o;
  if i_handle e =? 0 then None
  else let t := determine_handle_type k (i_handle e) in
       if decide (t = INVALID_HANDLE) then None else Some (i_handle e, t, determine_handle_flags k (i_handle e)).

(** A table without the numbers of its entries. *)
Definition seen (t : list fdinfo) (fd : Z) : option (Z * handle_t * Z) :=
  (fun e => (handle e, type e, flags e)) <$> view t fd.

Lemma put_entry_in (s : state K) fd e : 0 <= fd < zlen (table s) ->
  exists s', put_entry fd e s = Some ((), s') /\ table s' = <[Z.to_nat fd := e]> (table s) /\ kernel s' = kernel s.
Proof.
  intros H. destruct (lookup_lt_is_Some_2 (table s) (Z.to_nat fd)) as [x Hx]; [lia|].
  unfold put_entry, mbind, M_bind. rewrite (entry_lookup s fd x) by (auto || lia). cbn. eauto.
Qed.

(** The body of the loop for the descriptor [i]. *)
Definition inherit_one (data : list Z) (n i : Z) : M K unit :=
  handle_flag ← lift (read_le data (4 + i) 1);
  inherited_handle ← lift (read_le data (4 + n + i * 8) 8);
  if negb (has handle_flag FOPEN_FLAG) || (inherited_handle =? INVALID_HANDLE_VALUE)
  then e ← entry i; put_entry i (with_handle e 0)
  else
    s ← get;
    let t := determine_handle_type (kernel s) inherited_handle in
    if decide (t = INVALID_HANDLE) then e ← entry i; put_entry i (with_handle e 0)
    else
      q ← next_sequence;
      put_entry i (Fdinfo inherited_handle t (determine_handle_flags (kernel s) inherited_handle) q).

Lemma inherit_step fuel data n i (s : state K) : i < n ->
  inherit (S fuel) data n i s = (_ ← inherit_one data n i; inherit fuel data n (i + 1)) s.
Proof.
  intros H. cbn [inherit]. rewrite (proj2 (Z.ltb_lt _ _) H). unfold inherit_one, mbind, M_bind, lift.
  destruct (read_le data (4 + i) 1); [|done]. destruct (read_le data (4 + n + i * 8) 8); done.
Qed.

Lemma entry_in (s : state K) fd : 0 <= fd < zlen (table s) -> exists e, entry fd s = Some (e, s).
Proof.
  intros H. destruct (lookup_lt_is_Some_2 (table s) (Z.to_nat fd)) as [x Hx]; [lia|].
  exists x. apply entry_lookup; [lia | exact Hx].
Qed.

(** The loop's state has the bindings [g] from [3] up to [i], and those of [s]
    elsewhere. *)
Lemma clear_entry (s : state K) i : 0 <= i < zlen (table s) ->
  exists s', (e ← entry i; put_entry i (with_handle e 0)) s = Some ((), s') /\ kernel s' = kernel s /\
    length (table s') = length (table s) /\
    (forall k, 0 <= k -> seen (table s') k = if k =? i then None else seen (table s) k).
Proof.
  intros H. destruct (entry_in s i H) as [e He]. destruct (put_entry_in s i (with_handle e 0) H) as (s' & E & T & Hk).
  exists s'. unfold mbind at 1, M_bind. rewrite He, E. repeat split; [exact Hk | rewrite T, length_insert; done |].
  intros k Hk0. unfold seen. rewrite T, view_insert by auto. unfold update. destruct (k =? i); reflexivity.
Qed.

Lemma inherit_one_seen fds (s : state K) (i : nat) e :
  fds !! i = Some e -> handle_ok e -> Z.of_nat i < zlen (table s) ->
  exists s', inherit_one (block fds) (zlen fds) (Z.of_nat i) s = Some ((), s') /\ kernel s' = kernel s /\
    length (table s') = length (table s) /\
    (forall k, 0 <= k -> seen (table s') k = if k =? Z.of_nat i then inherited (kernel s) (Some e) else seen (table s) k).
Proof.
  intros Hi He Hl. unfold inherit_one, mbind at 1, M_bind, lift at 1. rewrite (block_flag _ _ _ Hi).
  unfold mbind at 1, M_bind, lift. rewrite (block_handle _ _ _ Hi He), inherit_flag_open. cbn [negb orb].
  unfold inherited, passed. cbn [mbind option_bind].
  destruct (Z.eqb_spec (i_handle e) 0) as [Hz|Hz]; cbn [negb].
  - rewrite Z.eqb_refl. apply clear_entry. lia.
  - unfold handle_ok in He. rewrite (proj2 (Z.eqb_neq _ INVALID_HANDLE_VALUE)) by lia.
    unfold mbind at 1, M_bind, get. cbv beta iota.
    destruct (decide (determine_handle_type (kernel s) (i_handle e) = INVALID_HANDLE)); [apply clear_entry; lia|].
    unfold mbind at 1, M_bind, next_sequence.
    match goal with |- exists s', put_entry ?i ?e ?s = _ /\ _ => destruct (put_entry_in s i e) as (s' & E & T & Hk) end; [cbn; lia|].
    exists s'. rewrite E. repeat split; [exact Hk | rewrite T, length_insert; done |].
    intros k Hk0. unfold seen. rewrite T, view_insert by (cbn; lia). unfold update, FdTableFacts.live. cbn [handle type flags table].
    destruct (k =? Z.of_nat i); [|reflexivity]. rewrite (proj2 (Z.eqb_neq _ 0)) by lia. reflexivity.
Qed.

Lemma inherit_seen fds : Forall handle_ok fds -> forall fuel (i : nat) (s : state K),
  zlen fds <= zlen (table s) -> zlen fds <= Z.of_nat i + Z.of_nat fuel ->
  exists s', inherit fuel (block fds) (zlen fds) (Z.of_nat i) s = Some ((), s') /\ kernel s' = kernel s /\
    (forall k, 0 <= k -> seen (table s') k =
       if (Z.of_nat i <=? k) && (k <? zlen fds) then inherited (kernel s) (fds !! Z.to_nat k) else seen (table s) k).
Proof.
  intros Hok. induction fuel as [|fuel IH]; intros i s Hl Hf.
  - exists s. cbn [inherit]. repeat split. intros k Hk.
    destruct (Z.leb_spec (Z.of_nat i) k), (Z.ltb_spec k (zlen fds)); cbn [andb]; lia || done.
  - destruct (Z.ltb_spec (Z.of_nat i) (zlen fds)) as [Hi|Hi].
    + rewrite inherit_step by exact Hi. destruct (lookup_lt_is_Some_2 fds i) as [e He]; [lia|].
      assert (handle_ok e) as Ho by (eapply Forall_lookup_1; eauto).
      destruct (inherit_one_seen fds s i e He Ho) as (s1 & E1 & K1 & L1 & S1); [lia|].
      unfold mbind at 1, M_bind. rewrite E1.
      destruct (IH (S i) s1) as (s2 & E2 & K2 & S2); [lia..|].
      exists s2. replace (Z.of_nat i + 1) with (Z.of_nat (S i)) by lia. rewrite E2. repeat split; [congruence|].
      intros k Hk. rewrite S2, S1, K1 by exact Hk.
      destruct (Z.eqb_spec k (Z.of_nat i)) as [->|Hn].
      * rewrite (proj2 (Z.leb_gt _ _)), Z.leb_refl, (proj2 (Z.ltb_lt _ _) Hi), Nat2Z.id by lia. cbn [andb]. rewrite He. reflexivity.
      * replace (Z.of_nat (S i) <=? k) with (Z.of_nat i <=? k); [reflexivity|].
        destruct (Z.leb_spec (Z.of_nat i) k), (Z.leb_spec (Z.of_nat (S i)) k); lia || done.
    + exists s. cbn [inherit]. rewrite (proj2 (Z.ltb_ge _ _)) by lia. repeat split. intros k Hk.
      destruct (Z.leb_spec (Z.of_nat i) k), (Z.ltb_spec k (zlen fds)); cbn [andb]; lia || done.
Qed.

Lemma std_seen h i console output (s : state K) : 0 <= i < 3 -> 3 <= zlen (table s) ->
  exists s', initialize_std_handles h i console output s = Some ((), s') /\ length (table s') = length (table s) /\
    (forall k, 3 <= k -> seen (table s') k = seen (table s) k).
Proof.
  intros Hi Hl.
  assert (forall (s1 : state K) e, table s1 = table s -> exists s', put_entry i e s1 = Some ((), s') /\ length (table s') = length (table s) /\
    (forall k, 3 <= k -> seen (table s') k = seen (table s) k)) as P.
  { intros s1 e T1. destruct (put_entry_in s1 i e) as (s' & E & T & _); [rewrite T1; lia|].
    exists s'. rewrite T, T1, length_insert. repeat split; [exact E|].
    intros k Hk. unfold seen. rewrite view_insert by lia. unfold update. by rewrite (proj2 (Z.eqb_neq k i)) by lia. }
  unfold initialize_std_handles, mbind at 1, M_bind, get. cbv beta iota.
  destruct (negb _); [apply P; reflexivity|]. destruct console; [|exists s; done].
  destruct (NtOpenConsole output (kernel s)) as [h' k']. unfold mbind at 1, M_bind, set_kernel.
  unfold mbind at 1, M_bind.
  match goal with |- context [entry i ?s1] => destruct (entry_in s1 i) as [e He]; [cbn; lia|] end.
  rewrite He. destruct (negb (h' =? 0)); apply P; reflexivity.
Qed.

Lemma table_size_for_ge fuel : forall size n, 0 < size ->
  size <= table_size_for fuel size n /\ (n <= size * 2 ^ Z.of_nat fuel -> n <= table_size_for fuel size n).
Proof.
  induction fuel as [|fuel IH]; intros size n Hs; cbn [table_size_for]; [lia|].
  rewrite Nat2Z.inj_succ, Z.pow_succ_r by lia. destruct (Z.ltb_spec size n); [|lia].
  destruct (IH (size * 2) n); [lia|]. lia.
Qed.

Lemma length_free_entries from n : length (free_entries from n) = n.
Proof. unfold free_entries. rewrite length_fmap, length_seq. done. Qed.

Lemma init_inherits k console hin hout herr fds :
  (forall n, malloc_ok n = true) -> Forall handle_ok fds -> 0 < zlen fds <= 7281 ->
  exists c, init_fd_table k console hin hout herr (Some (block fds)) = Some c /\
    forall fd, 3 <= fd -> seen (table c) fd = inherited (kernel c) (fds !! Z.to_nat fd).
Proof.
  intros Hm Hok Hn. unfold init_fd_table. rewrite block_count by lia. cbn [mbind option_bind]. rewrite Hm.
  destruct (table_size_for_ge 30 4 (zlen fds)) as [H4 Hge]; [lia|]. specialize (Hge ltac:(lia)).
  set (size := table_size_for 30 4 (zlen fds)) in *.
  match goal with |- context [State ?t 0 hin hout herr 0 k] => set (s0 := State t 0 hin hout herr 0 k) end.
  assert (length (table s0) = Z.to_nat size) as L0 by apply length_free_entries.
  assert (forall fd, seen (table s0) fd = None) as S0.
  { intros fd. unfold seen. cbn [table s0]. rewrite <- (app_nil_l (free_entries _ _)), view_free by apply free_entries_free.
    unfold view. destruct (fd <? 0); [done|]. by rewrite lookup_nil. }
  set (cs := negb ((console =? 0) || (console =? INVALID_HANDLE_VALUE))).
  destruct (std_seen hin 0 cs false s0) as (s1 & E1 & L1 & S1); [lia..|].
  destruct (std_seen hout 1 cs true s1) as (s2 & E2 & L2 & S2); [lia..|].
  destruct (std_seen herr 2 cs true s2) as (s3 & E3 & L3 & S3); [lia..|].
  destruct (inherit_seen fds Hok (Z.to_nat (zlen fds)) 3 s3) as (c & E & Hk & S4); [lia..|].
  exists c. unfold mbind, M_bind, option_bind. rewrite E1, E2, E3. rewrite (proj2 (Z.eqb_neq _ 0)) by lia. cbn [negb default id].
  change (Z.of_nat 3) with 3 in E. rewrite E. cbn. split; [done|]. intros fd Hfd.
  rewrite S4, Hk by lia. change (Z.of_nat 3) with 3. rewrite (proj2 (Z.leb_le 3 fd) Hfd). cbn [andb].
  destruct (Z.ltb_spec fd (zlen fds)); [done|]. rewrite S3, S2, S1, S0 by lia.
  rewrite lookup_ge_None_2 by lia. done.
Qed.
End Child.

(** ** Giving the descriptors to the child *)

Lemma real_max_fd_spec l : forall i m, m <= i ->
  m <= real_max_fd l i m /\ (real_max_fd l i m = m \/ real_max_fd l i m < i + zlen l) /\
  (forall j e, l !! j = Some e -> i_handle e <> 0 -> i + Z.of_nat j <= real_max_fd l i m).
Proof.
  induction l as [|x l IH]; intros i m Hm; cbn [real_max_fd].
  - repeat split; [lia | left; done | intros j e H; by rewrite lookup_nil in H].
  - destruct (IH (i + 1) (if negb (i_handle x =? 0) then i else m)) as (A1 & A2 & A3); [destruct (negb _); lia|].
    cbn [length]. rewrite Nat2Z.inj_succ. split; [destruct (negb _); lia|]. split.
    + destruct (negb _); lia.
    + intros [|j] e He Hh; cbn in He.
      * injection He as ->. rewrite (proj2 (Z.eqb_neq _ 0) Hh) in *. cbn [negb] in *. lia.
      * specialize (A3 _ _ He Hh). lia.
Qed.

Section Give.
Context {K : Type} {KN : Kernel K} {A : Allocator} {PK : PathKernel K}.

Lemma give_block (info : list inherit_fdinfo) p (s : state K) :
  (forall n, malloc_ok n = true) ->
  let fds := take (Z.to_nat (real_max_fd info 0 0 + 1)) info in
  info <> [] ->
  zlen fds = real_max_fd info 0 0 + 1 /\
  (forall (k : K) fd, 3 <= fd -> inherited k (fds !! Z.to_nat fd) = inherited k (info !! Z.to_nat fd)) /\
  give_inherit_information_to_startupinfo info p s =
    if zlen fds <=? 7281 then
      Some ((Some (StartupInfo (4 + 9 * zlen fds) (block fds) (default 0 (i_handle <$> fds !! 0%nat))
                     (default 0 (i_handle <$> fds !! 1%nat)) (default 0 (i_handle <$> fds !! 2%nat))), p), s)
    else None.
Proof.
  intros Hm fds Hi. destruct (real_max_fd_spec info 0 0) as (R1 & R2 & R3); [lia|].
  assert (0 < zlen info) by (destruct info; [done | cbn; lia]).
  assert (zlen fds = real_max_fd info 0 0 + 1) as L by (unfold fds; rewrite length_take; lia).
  split; [exact L|]. split.
  - intros k fd Hfd. unfold fds. destruct (Z.ltb_spec fd (real_max_fd info 0 0 + 1)); [rewrite lookup_take_lt by lia; done|].
    rewrite lookup_take_ge by lia. unfold inherited. cbn [mbind option_bind].
    destruct (info !! Z.to_nat fd) as [e|] eqn:E; [|done]. cbn.
    destruct (Z.eqb_spec (i_handle e) 0) as [|Hz]; [done|]. specialize (R3 _ _ E Hz). lia.
  - unfold give_inherit_information_to_startupinfo. fold fds. rewrite <- L. unfold allocate. rewrite Hm.
    unfold u16. destruct (Z.leb_spec (zlen fds) 7281).
    + rewrite Z.mod_small by lia. rewrite Z.ltb_irrefl. reflexivity.
    + assert ((4 + 9 * zlen fds) mod 2 ^ 16 < 2 ^ 16) by (apply Z.mod_pos_bound; lia).
      rewrite (proj2 (Z.ltb_lt _ _)) by lia. reflexivity.
Qed.

(** C14: the child of a spawn has, at every descriptor from 3 on, the handle that
    was collected for it (with the kind and access mode the kernel reports), and
    nothing where none was collected or where the kernel does not know the handle.
    This is what [give_inherit_information_to_startupinfo] writes, read back by
    [init_fd_table] in the child. It holds for up to 7281 descriptors: from 7282 on
    the size does not fit in the 16 bits of [cbReserved2], the block is allocated
    with the truncated size and overrun. *)
Theorem descriptors_inherited (info : list inherit_fdinfo) (p : path_state) (s : state K) (k : K) (console : Z) :
  (forall n, malloc_ok n = true) -> info <> [] -> Forall handle_ok info ->
  (real_max_fd info 0 0 < 7281 ->
   exists st c,
     give_inherit_information_to_startupinfo info p s = Some ((Some st, p), s) /\
     cbReserved2 st = zlen (lpReserved2 st) /\
     init_fd_table k console (hStdInput st) (hStdOutput st) (hStdError st) (Some (lpReserved2 st)) = Some c /\
     forall fd, 3 <= fd -> seen (table c) fd = inherited (kernel c) (info !! Z.to_nat fd)) /\
  (7281 <= real_max_fd info 0 0 -> give_inherit_information_to_startupinfo info p s = None).
Proof.
  intros Hm Hi Hok. destruct (give_block info p s Hm Hi) as (L & I & G). rewrite G.
  destruct (real_max_fd_spec info 0 0) as (R1 & _); [lia|]. split; intros Hn.
  - rewrite (proj2 (Z.leb_le _ 7281)) by lia.
    match goal with |- exists st c, Some (Some ?x, _, _) = _ /\ _ =>
      destruct (init_inherits k console (hStdInput x) (hStdOutput x) (hStdError x) (take (Z.to_nat (real_max_fd info 0 0 + 1)) info))
        as (c & E & S); [auto | apply Forall_take, Hok | lia | exists x, c] end.
    split; [reflexivity|]. split; [symmetry; apply zlen_block|]. split; [exact E|].
    intros fd Hfd. rewrite S, I by exact Hfd. reflexivity.
  - rewrite (proj2 (Z.leb_gt _ 7281)) by lia. reflexivity.
Qed.
End Give.

(** ** A spawn and the table of children *)

Lemma SM_bind_inv {S K X Y} (m : SM S K X) (k : X -> SM S K Y) p s r :
  (x ← m; k x) p s = Some r -> exists x p' s', m p s = Some ((x, p'), s') /\ k x p' s' = Some r.
Proof.
  unfold mbind, SM_bind, mbind, M_bind. destruct (m p s) as [[[x p'] s']|]; [|done]. intros H. eauto.
Qed.

(** Splits a run of [x ← m; k x] into the run of [m] and that of [k]. *)
Ltac run_inv H :=
  let x := fresh "x" in let p := fresh "w" in let s := fresh "s" in let E := fresh "E" in
  apply SM_bind_inv in H; destruct H as (x & p & s & E & H); cbv beta in H.

Section Registers.
Context {K : Type} {KN : Kernel K} {A : Allocator} {PK : PathKernel K} {OK : OpenKernel K} {FK : FileKernel K}.
Context {SK : SchedKernel K} {SP : SpawnKernel K}.

Lemma in_paths_procs {X} (m : SM path_state K X) w (s : state K) x w' s' :
  in_paths m w s = Some ((x, w'), s') -> w_procs w' = w_procs w /\ m (w_paths w) s = Some ((x, w_paths w'), s').
Proof.
  unfold in_paths, mbind, M_bind. destruct (m (w_paths w) s) as [[[y p] s1]|]; [|done]. cbn. intros [= <- <- <-]. done.
Qed.

Lemma in_procs_paths {X} (m : SM proc_state K X) w (s : state K) x w' s' :
  in_procs m w s = Some ((x, w'), s') -> w_paths w' = w_paths w /\ m (w_procs w) s = Some ((x, w_procs w'), s').
Proof.
  unfold in_procs, mbind, M_bind. destruct (m (w_procs w) s) as [[[y p] s1]|]; [|done]. cbn. intros [= <- <- <-]. done.
Qed.

Lemma run_M_state {S X} (m : M K X) (w : S) (s : state K) x w' s' : run_M m w s = Some ((x, w'), s') -> w' = w.
Proof. unfold run_M, mbind, M_bind, mret, M_ret. destruct (m s) as [[y s1]|]; [|done]. by intros [= _ <- _]. Qed.

Lemma create_process_created a p (s : state K) r p' s' :
  create_process a p s = Some ((inr r, p'), s') -> exists k k', CreateProcessW a k = (inr r, k').
Proof.
  intros H. unfold create_process in H. run_inv H. destruct (CreateProcessW a x) as [r' k'] eqn:C. run_inv H.
  injection H as -> _ _. eauto.
Qed.

Lemma dos_failure_None {X} e p (s : state K) x p' s' : dos_failure (X := X) e p s = Some ((Some x, p'), s') -> False.
Proof. intros H. unfold dos_failure in H. run_inv H. unfold null in H. run_inv H. done. Qed.

(** The child is one that [CreateProcessW] made. *)
Lemma create_or_interpret_created a n p (s : state K) r p' s' :
  create_or_interpret a n p s = Some ((Some r, p'), s') -> exists a k k', CreateProcessW a k = (inr r, k').
Proof.
  intros H. unfold create_or_interpret in H. run_inv H. destruct x as [e|c].
  - destruct (negb _); [by apply dos_failure_None in H|]. run_inv H. destruct x as [[[[exe arg] file] size]|]; [|done].
    run_inv H. cbv zeta in H. destruct (_ >=? _); [unfold null in H; run_inv H; done|]. run_inv H. destruct x0 as [e'|c].
    + by apply dos_failure_None in H.
    + injection H as -> _ _. apply create_process_created in E2. destruct E2 as (k & k' & ?). eauto.
  - injection H as -> _ _. apply create_process_created in E. destruct E as (k & k' & ?). eauto.
Qed.

(** What the table is after a spawn: the child was entered, or nothing was. *)
Definition entered (w w' : world) (c : children) (pid : option Z) : Prop :=
  (exists id h, table_of (w_procs w') (enter_child id h c) /\ (pid = Some id \/ pid = None)) \/
  (w_procs w' = w_procs w /\ pid = None).

Context (alloc_ok : forall n, malloc_ok n = true).

Lemma start_child_entered id h attributes n actions w (s : state K) pid acts w' s' c :
  table_of (w_procs w) c -> 0 < id < 2 ^ 32 -> h <> 0 -> id ∉ p_id <$> live c -> Z.of_nat (capacity c) < 2 ^ 59 ->
  start_child id h attributes n actions w s = Some ((pid, acts, w'), s') -> entered w w' c pid.
Proof.
  intros Ht Hid Hh Hnew Hcap H. unfold start_child in H. run_inv H.
  assert (w_procs w0 = w_procs w) as W0.
  { destruct attributes as [a|]; [|by injection E as _ <- _]. destruct (_ && _); [|by injection E as _ <- _].
    run_inv E. apply run_M_state in E0. injection E as _ <- _. congruence. }
  run_inv H. destruct x0 as [acts1 ok].
  assert (w_procs w1 = w_procs w) as W1.
  { destruct (_ || _); [apply in_paths_procs in E0; destruct E0; congruence | injection E0 as _ _ <- _; done]. }
  destruct ok; cbn [negb] in H; [|right; injection H as <- _ <- _; done].
  run_inv H. apply in_procs_paths in E1. destruct E1 as [_ E1]. rewrite W1 in E1.
  destruct (add_child_ok alloc_ok id h c (w_procs w) s1 Ht Hid Hh Hnew Hcap) as (p' & Ea & Ta).
  rewrite Ea in E1. injection E1 as <- -> <-. cbn [Z.eqb negb] in H.
  left. exists id, h. run_inv H. apply in_paths_procs in E1. destruct E1 as [W2 _].
  destruct (NtResumeProcess h x0) as [status k]. run_inv H. apply in_paths_procs in E1. destruct E1 as [W3 _].
  destruct (bool_decide _).
  - injection H as <- _ <- _. rewrite W3, W2. auto.
  - run_inv H. apply in_paths_procs in E1. destruct E1 as [W4 _]. injection H as <- _ <- _. rewrite W4, W3, W2. auto.
Qed.

(** A process that is created has a number and a handle, and its number is not one
    of a child that was not waited for. *)
Definition new_numbers (c : children) : Prop :=
  forall a k id h k', CreateProcessW a k = (inr (id, h), k') -> 0 < id < 2 ^ 32 /\ h <> 0 /\ id ∉ p_id <$> live c.

Lemma spawn_with_entered info wpath wargv size wenv attributes n actions w (s : state K) info' pid acts w' s' c :
  table_of (w_procs w) c -> Z.of_nat (capacity c) < 2 ^ 59 -> new_numbers c ->
  spawn_with info wpath wargv size wenv attributes n actions w s = Some ((info', pid, acts, w'), s') -> entered w w' c pid.
Proof.
  intros Ht Hcap Hnew H. unfold spawn_with in H. run_inv H. destruct x as [[info1 cwd] ok].
  apply in_paths_procs in E. destruct E as [W0 _].
  destruct ok; cbn [negb] in H; [|right; injection H as _ <- _ <- _; auto].
  run_inv H. apply in_paths_procs in E. destruct E as [W1 _]. destruct x as [startup|]; [|right; injection H as _ <- _ <- _; split; congruence].
  run_inv H. apply in_paths_procs in E. destruct E as [W2 E]. destruct x as [[id h]|]; [|right; injection H as _ <- _ <- _; split; congruence].
  run_inv H. destruct x as [r acts1]. injection H as _ -> _ -> _.
  apply create_or_interpret_created in E. destruct E as (a & k & k' & E). destruct (Hnew _ _ _ _ _ E) as (Hid & Hh & Hn).
  assert (w_procs w2 = w_procs w) as W by congruence. rewrite <- W in Ht.
  pose proof (start_child_entered _ _ _ _ _ _ _ _ _ _ _ _ Ht Hid Hh Hn Hcap E0) as [?|[? ?]]; [left; auto | right; split; congruence].
Qed.

(** C15: spawning keeps the table of children well formed. A call that returns 0
    reports the number of a child that is entered in the table with a handle; a
    call that fails reports none, and the table is the one before or has the child
    that could not be resumed. *)
Theorem spawn_enters_child (path : option (list Z)) (actions : option spawn_actions_t) (attributes : option spawnattr_t)
    (use_path : bool) (argv env : option (list (list Z))) (w : world) (s : state K) (c : children)
    (r : Z) (pid : option Z) (acts : list spawn_action) (w' : world) (s' : state K) :
  table_of (w_procs w) c -> Z.of_nat (capacity c) < 2 ^ 59 -> new_numbers c ->
  wlibc_common_spawn path actions attributes use_path argv env w s = Some ((r, pid, acts, w'), s') ->
  (r = 0 /\ exists id h, pid = Some id /\ table_of (w_procs w') (enter_child id h c)) \/
  (r = -1 /\ pid = None /\
   (w_procs w' = w_procs w \/ exists id h, table_of (w_procs w') (enter_child id h c))).
Proof.
  intros Ht Hcap Hnew H. unfold wlibc_common_spawn in H.
  assert (forall e w1 s1 l, (_ ← run_M (set_errno e); mret (-1, None, l)) w1 s1 = Some ((r, pid, acts, w'), s') ->
    w_procs w1 = w_procs w -> r = -1 /\ pid = None /\ w_procs w' = w_procs w) as Err.
  { intros e w1 s1 l H1 H2. run_inv H1. apply run_M_state in E. injection H1 as <- <- _ <- _. subst. auto. }
  assert (forall w1 (s1 : state K) l, (mret (-1, None, l) : SM world K _) w1 s1 = Some ((r, pid, acts, w'), s') ->
    w_procs w1 = w_procs w -> r = -1 /\ pid = None /\ w_procs w' = w_procs w) as Stop.
  { intros w1 s1 l H1 H2. injection H1 as <- <- _ <- _. auto. }
  destruct path as [[|x0 path]|]; [right; apply Err in H; intuition | | right; apply Err in H; intuition].
  destruct argv as [argv|]; [|right; apply Err in H; intuition].
  run_inv H. apply in_paths_procs in E. destruct E as [W0 _]. destruct x as [wpath|]; [|right; apply Stop in H; intuition].
  run_inv H. apply in_paths_procs in E. destruct E as [W1 _]. destruct x as [[wargv size]|]; [|right; apply Stop in H; intuition congruence].
  destruct (_ >=? _); [right; apply Err in H; intuition congruence|].
  run_inv H.
  assert (w_procs w2 = w_procs w) as W2.
  { destruct env; [|injection E as _ <- _; congruence]. run_inv E. apply in_paths_procs in E0. destruct E0. injection E as _ <- _. congruence. }
  destruct x as [wenv|]; [|right; apply Stop in H; intuition congruence].
  destruct (count_actions _ _) as [n|]; [|right; apply Err in H; intuition congruence].
  run_inv H. apply run_M_state in E0. subst w3. run_inv H. apply in_paths_procs in E0. destruct E0 as [W3 _].
  destruct x1 as [info|]; [|right; apply Stop in H; intuition congruence].
  run_inv H. destruct x1 as [[info' pid'] acts']. run_inv H. apply in_paths_procs in E1. destruct E1 as [W5 _].
  assert (w_procs w3 = w_procs w) as W4 by congruence. rewrite <- W4 in Ht.
  pose proof (spawn_with_entered _ _ _ _ _ _ _ _ _ _ _ _ _ _ _ _ Ht Hcap Hnew E0) as E2. injection H as <- -> _ -> _.
  destruct E2 as [(id & h & T & P)|[P ->]].
  - destruct P as [->| ->]; [left | right]; rewrite W5; eauto 8.
  - right. repeat split. left. congruence.
Qed.
End Registers.

(** ** The actions *)

Section Actions.
Context {K : Type} {KN : Kernel K} {A : Allocator} {PK : PathKernel K} {OK : OpenKernel K} {FK : FileKernel K}.
Context {SK : SchedKernel K} {SP : SpawnKernel K}.

Lemma get_fdinfo_closed (s : state K) fd info : view (table s) fd = None ->
  get_fdinfo fd info s = Some (Fdinfo 0 INVALID_HANDLE (flags info) (sequence info), s).
Proof. intros H. unfold get_fdinfo, mbind, M_bind. rewrite validate_fd_M. apply validate_fd_false in H. by rewrite H. Qed.

Lemma run_M_Some {S X} (m : M K X) (p : S) (s : state K) x s' : m s = Some (x, s') -> run_M m p s = Some ((x, p), s').
Proof. intros H. unfold run_M, mbind, M_bind. by rewrite H. Qed.

(** An action on a descriptor the parent does not have. *)
Lemma action_closed x info cwd p (s : state K) fd :
  x = close_action fd \/ (exists newfd, x = dup2_action fd newfd) -> view (table s) fd = None ->
  perform_action x info cwd p s = Some ((info, cwd, false, p), with_errno s EBADF).
Proof.
  intros Hx Hv. destruct Hx as [->|[newfd ->]]; cbn [perform_action];
    rewrite (SM_bind_Some _ _ _ _ _ _ _ (run_M_Some _ _ _ _ _ (get_fdinfo_closed _ _ _ Hv))); reflexivity.
Qed.

(** the actions are performed on the descriptors of the parent, not on those
    of the child: closing or duplicating the descriptor that an earlier action has
    opened fails with [EBADF] unless the parent has it too, so that the usual
    sequence of opening a file and duplicating it cannot be used; and closing a
    descriptor does not keep a later action from duplicating it. *)
Theorem actions_use_parent_table (fd newfd oflag mode : Z) (path : list Z) (info : list inherit_fdinfo) (cwd : option (list Z))
    (p p1 : path_state) (s s1 : state K) (h : Z) (t : handle_t) :
  do_os_open AT_FDCWD path oflag mode INVALID_HANDLE p s = Some ((h, t, p1), s1) -> h <> 0 ->
  0 <= fd < zlen info -> 0 <= newfd < zlen info ->
  let info1 := <[Z.to_nat fd := InheritFd h t oflag]> info in
  (view (table s1) fd = None ->
   perform_actions [open_action fd oflag mode path; dup2_action fd newfd] info cwd p s
     = Some ((info1, cwd, false, p1), with_errno s1 EBADF) /\
   perform_actions [open_action fd oflag mode path; close_action fd] info cwd p s
     = Some ((info1, cwd, false, p1), with_errno s1 EBADF)) /\
  (forall e, view (table s1) fd = Some e -> type e <> INVALID_HANDLE -> has (flags e) O_NOINHERIT = false ->
   perform_actions [open_action fd oflag mode path; dup2_action fd newfd] info cwd p s
     = Some ((<[Z.to_nat newfd := InheritFd (handle e) (type e) (Z.ldiff (flags e) O_NOINHERIT)]> info1, cwd, true, p1), s1)).
Proof.
  intros Ho Hh Hfd Hnew info1.
  assert (forall l, perform_actions (open_action fd oflag mode path :: l) info cwd p s = perform_actions l info1 cwd p1 s1) as First.
  { intros l. cbn [perform_actions]. rewrite (SM_bind_Some _ _ p s (info1, cwd, true) p1 s1); [reflexivity|].
    cbn [perform_action]. rewrite (SM_bind_Some _ _ _ _ _ _ _ Ho). rewrite (proj2 (Z.eqb_neq h 0) Hh). unfold put_info.
    rewrite (proj2 (Z.leb_le 0 fd)), (proj2 (Z.ltb_lt fd _)) by lia. reflexivity. }
  rewrite !First. split.
  - intros Hv. cbn [perform_actions]. split.
    + rewrite (SM_bind_Some _ _ _ _ _ _ _ (action_closed (dup2_action fd newfd) _ _ _ _ fd ltac:(eauto) Hv)). reflexivity.
    + rewrite (SM_bind_Some _ _ _ _ _ _ _ (action_closed (close_action fd) _ _ _ _ fd ltac:(eauto) Hv)). reflexivity.
  - intros e Hv Ht Hf. cbn [perform_actions].
    rewrite (SM_bind_Some _ _ p1 s1 (<[Z.to_nat newfd := InheritFd (handle e) (type e) (Z.ldiff (flags e) O_NOINHERIT)]> info1, cwd, true) p1 s1);
      [reflexivity|]. cbn [perform_action].
    rewrite (SM_bind_Some _ _ _ _ _ _ _ (run_M_Some _ _ _ _ _ (get_fdinfo_view s1 fd e _ Hv))).
    rewrite bool_decide_eq_false_2 by exact Ht. rewrite Hf. rewrite (SM_bind_Some _ _ _ _ _ _ _ eq_refl). cbv beta iota.
    unfold put_info, info1. rewrite length_insert.
    rewrite (proj2 (Z.leb_le 0 newfd)), (proj2 (Z.ltb_lt newfd _)) by lia. reflexivity.
Qed.

(** when an action cannot open its file, the handle that the parent has at
    that descriptor is closed, while its table still has the descriptor. *)
Theorem failed_open_closes_parent (fd oflag mode : Z) (path : list Z) (max_fd : Z) (e : fdinfo)
    wpath wargv size wenv attributes n (w : world) (p1 : path_state) (s s1 : state K) (t : handle_t) :
  (forall n, malloc_ok n = true) -> table s !! Z.to_nat fd = Some e -> 0 <= fd <= max_fd -> table s1 = table s ->
  do_os_open AT_FDCWD path oflag mode INVALID_HANDLE (w_paths w) s = Some ((0, t, p1), s1) ->
  let actions := [open_action fd oflag mode path] in
  exists info,
    initialize_inherit_information max_fd (w_paths w) s = Some ((Some info, w_paths w), s) /\
    spawn_with info wpath wargv size wenv attributes n actions w s = Some ((info, None, actions, World p1 (w_procs w)), s1) /\
    cleanup_inherit_information info actions p1 s1 = Some (((), p1), with_kernel s1 (NtClose (handle e) (kernel s1)).2) /\
    table s1 !! Z.to_nat fd = Some e.
Proof.
  intros Hm He Hfd Ht Ho actions.
  set (f := fun i : nat => match table s !! i with Some e => InheritFd (handle e) (type e) (flags e) | None => no_fd end).
  exists (f <$> seq 0 (Z.to_nat (max_fd + 1))).
  split; [unfold initialize_inherit_information, allocate; by rewrite Hm|]. split; [|split; [|congruence]].
  - unfold spawn_with. rewrite (SM_bind_Some _ _ w s (f <$> seq 0 (Z.to_nat (max_fd + 1)), None, false) (World p1 (w_procs w)) s1); [reflexivity|].
    unfold in_paths, actions. cbn [perform_actions perform_action]. unfold mbind at 1, M_bind at 1.
    rewrite (SM_bind_Some _ _ (w_paths w) s (f <$> seq 0 (Z.to_nat (max_fd + 1)), None, false) p1 s1); [reflexivity|].
    rewrite (SM_bind_Some _ _ _ _ _ _ _ Ho). reflexivity.
  - unfold cleanup_inherit_information, actions.
    assert ((f <$> seq 0 (Z.to_nat (max_fd + 1))) !! Z.to_nat fd = Some (InheritFd (handle e) (type e) (flags e))) as ->.
    { rewrite list_lookup_fmap, lookup_seq_lt by lia. cbn. unfold f. by rewrite He. }
    reflexivity.
Qed.
End Actions.

(** ** The search in [PATH] *)

Section Search.
Context {K : Type} {KN : Kernel K} {A : Allocator} {PK : PathKernel K} {OK : OpenKernel K} {FK : FileKernel K}.
Context {SK : SchedKernel K} {SP : SpawnKernel K}.

Lemma split_path_one l acc : Forall (fun c => c <> ch ";") l -> split_path l acc = [acc ++ l].
Proof.
  intros H. revert acc. induction H as [|c l Hc Hl IH]; intros acc; cbn [split_path]; [by rewrite app_nil_r|].
  rewrite (proj2 (Z.eqb_neq _ _) Hc), IH, <- app_assoc. done.
Qed.

(** the program is looked for in the directory of [PATH], a backslash between
    the two, when they fit in the first buffer of 256 bytes with two bytes to
    spare; with one byte less, the backslash and the terminator do not both fit:
    the test that makes the buffer grow does not count the backslash, and the
    terminator is written behind the buffer. *)
Theorem path_search_buffer (dir path : list Z) (p : path_state) (s : state K) :
  (forall n, malloc_ok n = true) -> getenv_PATH (kernel s) = Some dir -> IS_ABSOLUTE_PATH path = false ->
  Forall (fun c => c <> ch ";") dir -> dir <> [] -> last dir <> Some 92 ->
  (zlen dir + zlen path < 255 -> search_path_for_program path p s = search_for_program (dir ++ [92] ++ path) p s) /\
  (zlen dir + zlen path = 255 -> search_path_for_program path p s = None).
Proof.
  intros Hm Henv Habs Hd Hne Hlast. unfold search_path_for_program. rewrite Habs.
  rewrite (SM_bind_Some _ _ p s (kernel s) p s) by reflexivity. rewrite Henv. unfold allocate. rewrite Hm.
  rewrite split_path_one by exact Hd. rewrite app_nil_l. cbn [search_dirs].
  assert (0 < zlen dir) by (destruct dir; [done | cbn [length]; lia]).
  rewrite (proj2 (Z.eqb_neq (zlen dir) 0)) by lia. rewrite bool_decide_eq_false_2 by exact Hlast. cbn [andb].
  assert (zlen (dir ++ [92] ++ path) = zlen dir + zlen path + 1) as L by (rewrite !length_app; cbn [length]; lia).
  split; intros Hl; rewrite Z.geb_leb, (proj2 (Z.leb_gt 256 _)) by lia;
    rewrite (SM_bind_Some _ _ _ _ _ _ _ eq_refl); cbv beta; rewrite L.
  - rewrite (proj2 (Z.ltb_ge 256 _)) by lia. unfold mbind, SM_bind, mbind, M_bind.
    destruct (search_for_program (dir ++ [92] ++ path) p s) as [[[[d|] p'] s']|]; done.
  - rewrite (proj2 (Z.ltb_lt 256 _)) by lia. done.
Qed.
End Search.

(** ** A machine that starts everything *)
Module Factory.

Definition shelf : list Z := str "C:\bin".

#[export] Instance factory_sched : SchedKernel Disk.disk := {
  NtOpenProcess pid _ k := (STATUS_SUCCESS, pid, k);
  NtQueryPriorityClass _ _ := (STATUS_SUCCESS, 2);
  NtQueryBasePriority _ _ := (STATUS_SUCCESS, 8);
  NtSetPriorityClass _ _ k := (STATUS_SUCCESS, k);
  NtSetBasePriority _ _ k := (STATUS_SUCCESS, k);
  NtRaisePriority _ _ k := (STATUS_SUCCESS, k);
  RtlAcquirePrivilege k := (STATUS_SUCCESS, k);
  RtlReleasePrivilege k := k;
  NtQueryDefaultCpuSets _ _ := (STATUS_SUCCESS, 255);
  NtSetDefaultCpuSets _ _ k := (STATUS_SUCCESS, k)
}.

(** Every process gets the number 77 and the handle 7. *)
#[export] Instance factory : SpawnKernel Disk.disk := {
  CreateProcessW _ k := (inr (77, 7), k);
  NtResumeProcess _ k := (STATUS_SUCCESS, k);
  NtTerminateProcess _ _ k := k;
  NtSetInherit _ _ k := (STATUS_SUCCESS, k);
  NtAllocateVirtualMemory _ base size k := (STATUS_SUCCESS, base, size, k);
  NtWriteVirtualMemory _ _ _ _ k := (STATUS_SUCCESS, k);
  getenv_PATH _ := Some shelf
}.

Definition start : world := World Volume.known (Parent.parent Parent.two).

Lemma two_new : new_numbers Parent.two.
Proof. intros a k id h k' [= <- <- _]. repeat split; [lia..|]. apply (bool_decide_unpack _); vm_compute; exact I. Qed.

(** The first four descriptors of [Disk], and descriptor 5. *)
Definition collected : list inherit_fdinfo :=
  [no_fd; no_fd; no_fd; InheritFd 1 FILE_HANDLE O_RDWR; no_fd; InheritFd 9 PIPE_HANDLE O_RDONLY].

End Factory.
Import Disk Volume Willing Parent Factory.

Lemma descriptors_inherited_witness : exists st c,
  give_inherit_information_to_startupinfo collected known (process O_RDWR [] 0) = Some ((Some st, known), process O_RDWR [] 0) /\
  init_fd_table ([], 0) 0 (hStdInput st) (hStdOutput st) (hStdError st) (Some (lpReserved2 st)) = Some c /\
  seen (table c) 4 = None /\ seen (table c) 5 = inherited (kernel c) (Some (InheritFd 9 PIPE_HANDLE O_RDONLY)).
Proof.
  destruct (descriptors_inherited collected known (process O_RDWR [] 0) ([], 0) 0 (fun _ => eq_refl)) as [[st [c (G & _ & I & S)]] _].
  - discriminate.
  - repeat constructor; cbn; lia.
  - vm_compute. reflexivity.
  - exists st, c. split; [exact G|]. split; [exact I|]. rewrite !S by lia. split; reflexivity.
Defined.

Lemma spawn_enters_child_witness : exists acts w s,
  wlibc_common_spawn (Some (str "C:/prog.exe")) None None false (Some [str "prog"]) None start (process O_RDWR [] 0) =
    Some ((0, Some 77, acts, w), s) /\
  exists id h, Some 77 = Some id /\ table_of (w_procs w) (enter_child id h two).
Proof.
  do 3 eexists. split; [vm_compute; reflexivity|].
  edestruct (spawn_enters_child (fun _ => eq_refl) (Some (str "C:/prog.exe")) None None false (Some [str "prog"]) None start
    (process O_RDWR [] 0) two 0 (Some 77)) as [[_ H]|[H _]].
  - apply two_ok.
  - cbn. lia.
  - apply two_new.
  - vm_compute. reflexivity.
  - exact H.
  - discriminate.
Defined.

Lemma actions_use_parent_table_witness :
  perform_actions [open_action 5 O_RDONLY 0 (str "C:/file"); dup2_action 5 4] collected None known (process O_RDWR [] 0)
    = Some ((<[5%nat := InheritFd 100 FILE_HANDLE O_RDONLY]> collected, None, false, known), with_errno (process O_RDWR [] 0) EBADF).
Proof.
  apply (actions_use_parent_table 5 4 O_RDONLY 0 (str "C:/file") collected None known known (process O_RDWR [] 0) (process O_RDWR [] 0)
    100 FILE_HANDLE).
  - vm_compute. reflexivity.
  - lia.
  - cbn. lia.
  - cbn. lia.
  - reflexivity.
Defined.

(** A name in a volume that does not exist. *)
Lemma failed_open_closes_parent_witness :
  let s1 := with_errno (process O_RDWR [] 0) ENOENT in
  let p1 := with_devices known (<[25%nat := NtDevice 65535 []]> (devices known)) in
  exists info,
    initialize_inherit_information 3 known (process O_RDWR [] 0) = Some ((Some info, known), process O_RDWR [] 0) /\
    cleanup_inherit_information info [open_action 3 O_RDONLY 0 (str "Z:/file")] p1 s1 =
      Some (((), p1), with_kernel s1 (NtClose 1 (kernel s1)).2).
Proof.
  intros s1 p1.
  destruct (failed_open_closes_parent 3 O_RDONLY 0 (str "Z:/file") 3 (Fdinfo 1 FILE_HANDLE O_RDWR 1) [] None 0 None None no_counts
    (World known (parent two)) p1 (process O_RDWR [] 0) s1 FILE_HANDLE) as (info & I & _ & C & _).
  - reflexivity.
  - reflexivity.
  - lia.
  - reflexivity.
  - vm_compute. reflexivity.
  - exists info. split; [exact I | exact C].
Defined.

Lemma path_search_buffer_witness :
  search_path_for_program (str "tool") known (process O_RDWR [] 0) =
    search_for_program (str "C:\bin\tool") known (process O_RDWR [] 0) /\
  search_path_for_program (replicate 249 (ch "x")) known (process O_RDWR [] 0) = None.
Proof.
  split.
  - apply (path_search_buffer shelf (str "tool") known (process O_RDWR [] 0)); [reflexivity..| |discriminate|discriminate|cbn; lia].
    repeat constructor; discriminate.
  - apply (path_search_buffer shelf (replicate 249 (ch "x")) known (process O_RDWR [] 0)); [reflexivity..| |discriminate|discriminate|reflexivity].
    repeat constructor; discriminate.
Defined.
