(* ===== verification/Time.v ===== *)
(** * Clocks and interval timers

    Time is counted in units of 100 nanoseconds: since 1601 in the kernel, since
    1970 in a timespec (src/internal/convert.c). The clocks
    (src/sys/time/clock.c, gettimeofday.c), the interval timers
    (src/sys/time/itimer.c), alarm and sleep, and the times of a process. *)

From S2P Require Import Prelude Errno Buffer FdTable FileIo Path PathFacts.

(** ** Times *)

Record timespec := Timespec { tv_sec : Z; tv_nsec : Z }.
Record timeval := Timeval { tval_sec : Z; tval_usec : Z }.

(** 100 nanosecond units per second, and from 1601 to 1970. *)
Definition ticks : Z := 10000000.
Definition epoch_1970 : Z := 116444736000000000.

(** A signed 64-bit value; the overflow of an operation is undefined. *)
Definition i64 (x : Z) : option Z := if (- 2 ^ 63 <=? x) && (x <? 2 ^ 63) then Some x else None.

Definition i32 (x : Z) : option Z := if (- 2 ^ 31 <=? x) && (x <? 2 ^ 31) then Some x else None.

Definition LARGE_INTEGER_to_timespec (LT : Z) : option timespec :=
  epoch ← i64 (LT - epoch_1970);
  Some (Timespec (epoch ÷ ticks) (Z.rem epoch ticks * 100)).

Definition timespec_to_LARGE_INTEGER (time : timespec) : option Z :=
  a ← i64 (tv_sec time * ticks);
  b ← i64 (a + tv_nsec time ÷ 100);
  i64 (b + epoch_1970).

(** ** The kernel *)

(** The system time, precise or in milliseconds, and the performance counter;
    timers; the kernel and user time of the process; the current time and that of
    the start of the system. *)
Class TimeKernel (K : Type) := {
  GetSystemTimePreciseAsFileTime : K -> Z;
  GetSystemTime : K -> Z;
  QueryPerformanceCounter : K -> Z;
  NtSetTimer2 : Z -> Z -> Z -> K -> NTSTATUS * K;
  NtCancelTimer2 : Z -> K -> NTSTATUS * K;
  NtDelayExecution : Z -> K -> NTSTATUS * K;
  NtQueryProcessTimes : K -> NTSTATUS * (Z * Z);
  NtQueryTimeOfDay : K -> NTSTATUS * (Z * Z)
}.

Definition CLOCK_REALTIME : Z := 0.
Definition CLOCK_MONOTONIC : Z := 1.

Definition ITIMER_REAL : Z := 0.
Definition ITIMER_VIRTUAL : Z := 1.
Definition ITIMER_PROF : Z := 2.

(** The fields of a [timerinfo] the interval timers use. *)
Record timerinfo := Timerinfo { t_handle : Z; period : Z }.

(** [real_itimer], [virtual_itimer] and [prof_itimer]. *)
Record itimers := Itimers { real_itimer : timerinfo; virtual_itimer : timerinfo; prof_itimer : timerinfo }.

Record itimerval := Itimerval { it_interval : timeval; it_value : timeval }.

Definition CLOCKS_PER_SEC : Z := 1000.

Section Clocks.
Context {K : Type} {KN : Kernel K} {A : Allocator} {TK : TimeKernel K}.

(** ** Clocks *)

Definition valid_clock (id : Z) : bool := (id =? CLOCK_REALTIME) || (id =? CLOCK_MONOTONIC).

(** The result and what is stored, if there is a place for it. *)
Definition wlibc_clock_getres (id : Z) (res : bool) : M K (Z * option timespec) :=
  if valid_clock id then mret (0, if res then Some (Timespec 0 100) else None)
  else r ← fail EINVAL; mret (r, None).

Definition wlibc_clock_gettime (id : Z) (ts : bool) : M K (Z * option timespec) :=
  if negb (valid_clock id) || negb ts then r ← fail EINVAL; mret (r, None)
  else
    s ← get;
    let epoch := if id =? CLOCK_REALTIME then GetSystemTimePreciseAsFileTime (kernel s) else QueryPerformanceCounter (kernel s) in
    mret (0, Some (Timespec (epoch ÷ ticks) (Z.rem epoch 10 * 100))).

Definition wlibc_clock_settime (id : Z) (ts : bool) : M K Z :=
  if negb (valid_clock id) || negb ts then fail EINVAL else fail ENOTSUP.

Definition wlibc_gettimeofday (tp : bool) : M K (Z * option timeval) :=
  if negb tp then r ← fail EINVAL; mret (r, None)
  else
    s ← get;
    epoch ← lift (i64 (GetSystemTime (kernel s) - epoch_1970));
    mret (0, Some (Timeval (epoch ÷ ticks) (Z.rem epoch ticks ÷ 10))).

(** ** Interval timers *)

Abbreviation I := (SM itimers K).

(** The timer of the number, which is valid. *)
Definition timer_of (which : Z) (t : itimers) : timerinfo :=
  if which =? ITIMER_REAL then real_itimer t else if which =? ITIMER_VIRTUAL then virtual_itimer t else prof_itimer t.

Definition set_timer (which : Z) (i : timerinfo) (t : itimers) : itimers :=
  if which =? ITIMER_REAL then Itimers i (virtual_itimer t) (prof_itimer t)
  else if which =? ITIMER_VIRTUAL then Itimers (real_itimer t) i (prof_itimer t)
  else Itimers (real_itimer t) (virtual_itimer t) i.

(** Only the period is filled in. *)
Definition current_value (i : timerinfo) : itimerval :=
  Itimerval (Timeval (period i ÷ ticks) (Z.rem (period i) ticks ÷ 10)) (Timeval 0 0).

Definition wlibc_getitimer (which : Z) (place : bool) : I (Z * option itimerval) :=
  if negb place || ((which <? ITIMER_REAL) || (which >? ITIMER_PROF)) then r ← run_M (fail EINVAL); mret (r, None)
  else t ← get_S; mret (0, Some (current_value (timer_of which t))).

(** [tv_sec * 10000000 + tv_usec * 10], the microseconds being a [long]. *)
Definition timeval_ticks (v : timeval) : option Z :=
  a ← i64 (tval_sec v * ticks); b ← i32 (tval_usec v * 10); i64 (a + b).

(** The result and the old value, if it is asked for. *)
Definition wlibc_setitimer (which : Z) (new_value : option itimerval) (old_value : bool) : I (Z * option itimerval) :=
  match new_value with
  | None => r ← run_M (fail EINVAL); mret (r, None)
  | Some v =>
      if (which <? ITIMER_REAL) || (which >? ITIMER_PROF) then r ← run_M (fail EINVAL); mret (r, None)
      else
        t ← get_S;
        let i := timer_of which t in
        let old := if old_value then Some (current_value i) else None in
        s ← run_M get;
        let set (status : NTSTATUS) (k : K) (p : Z) : I (Z * option itimerval) :=
          _ ← run_M (set_kernel k);
          if bool_decide (status = STATUS_SUCCESS)
          then _ ← put_S (set_timer which (Timerinfo (t_handle i) p) t); mret (0, old)
          else r ← run_M (fail_status status); mret (r, old) in
        if (tval_sec (it_value v) =? 0) && (tval_usec (it_value v) =? 0) then
          let '(status, k) := NtCancelTimer2 (t_handle i) (kernel s) in set status k 0
        else
          p ← run_M (lift (timeval_ticks (it_interval v)));
          due ← run_M (lift (timeval_ticks (it_value v)));
          due ← run_M (lift (i64 (- due)));
          let '(status, k) := NtSetTimer2 (t_handle i) due p (kernel s) in set status k p
  end.

(** The results of the calls are not looked at. *)
Definition wlibc_alarm (seconds : Z) : I Z :=
  '(_, old) ← wlibc_setitimer ITIMER_REAL (Some (Itimerval (Timeval 0 0) (Timeval 0 0))) true;
  _ ← wlibc_setitimer ITIMER_REAL (Some (Itimerval (Timeval 0 0) (Timeval seconds 0))) false;
  mret (u32 (match old with Some v => tval_sec (it_value v) | None => 0 end)).

Definition wlibc_common_sleep (nanoseconds_100 : Z) : M K Z :=
  interval ← lift (i64 (- nanoseconds_100));
  s ← get;
  _ ← set_kernel (NtDelayExecution interval (kernel s)).2;
  mret 0.

(** ** Times of the process *)

(** [clock_t] is a [long]. *)
Definition TO_CLOCK_T (number : Z) : Z := swrap 32 number ÷ (ticks ÷ CLOCKS_PER_SEC).

(** The kernel and the user time; those of the children are 0. *)
Definition wlibc_times (tmsbuf : bool) : M K (Z * option (Z * Z)) :=
  if negb tmsbuf then r ← fail EINVAL; mret (r, None)
  else
    s ← get;
    let '(status, (kt, ut)) := NtQueryProcessTimes (kernel s) in
    if negb (bool_decide (status = STATUS_SUCCESS)) then r ← fail_status status; mret (r, None)
    else
      let stored := Some (TO_CLOCK_T kt, TO_CLOCK_T ut) in
      let '(status, (current, boot)) := NtQueryTimeOfDay (kernel s) in
      if negb (bool_decide (status = STATUS_SUCCESS)) then r ← fail_status status; mret (r, stored)
      else mret (TO_CLOCK_T (current - boot), stored).

End Clocks.

(** ** Facts *)

Lemma i64_Some x : - 2 ^ 63 <= x < 2 ^ 63 -> i64 x = Some x.
Proof. intros H. unfold i64. rewrite (proj2 (Z.leb_le _ _)), (proj2 (Z.ltb_lt _ _)) by lia. reflexivity. Qed.

(** Seconds and nanoseconds of a normalised time whose count of units fits. *)
Definition normal (t : timespec) : Prop := 0 <= tv_nsec t < 1000000000 /\ - 2 ^ 39 <= tv_sec t < 2 ^ 39.

Lemma to_LARGE_INTEGER t : normal t ->
  timespec_to_LARGE_INTEGER t = Some (tv_sec t * ticks + tv_nsec t / 100 + epoch_1970).
Proof.
  intros [Hn Hs]. unfold timespec_to_LARGE_INTEGER, ticks, epoch_1970. rewrite i64_Some by lia. cbn [mbind option_bind].
  rewrite Z.quot_div_nonneg by lia.
  assert (0 <= tv_nsec t / 100 < ticks) by (unfold ticks; split; [apply Z.div_pos; lia | apply Z.div_lt_upper_bound; lia]).
  unfold ticks in *. rewrite i64_Some by lia. cbn [mbind option_bind]. apply i64_Some. lia.
Qed.

Lemma split_nonneg a b : 0 <= a -> 0 <= b < ticks -> (a * ticks + b) ÷ ticks = a /\ Z.rem (a * ticks + b) ticks = b.
Proof.
  unfold ticks. intros Ha Hb. rewrite Z.quot_div_nonneg, Z.rem_mod_nonneg by lia.
  assert ((a * 10000000 + b) / 10000000 = a) as E by (symmetry; apply Z.div_unique with b; lia).
  rewrite Z.mod_eq, E by lia. lia.
Qed.

(** a time since 1970 that is converted to kernel units and back is the time
    it was, with the nanoseconds rounded down to the 100 of a unit. A time before
    1970 comes back as the same instant, but with negative nanoseconds unless it is
    a whole number of seconds. *)
Theorem timespec_roundtrip (t : timespec) :
  normal t ->
  exists l, timespec_to_LARGE_INTEGER t = Some l /\
    (0 <= tv_sec t -> LARGE_INTEGER_to_timespec l = Some (Timespec (tv_sec t) (tv_nsec t / 100 * 100))) /\
    (tv_sec t < 0 -> 100 <= tv_nsec t ->
     LARGE_INTEGER_to_timespec l = Some (Timespec (tv_sec t + 1) (tv_nsec t / 100 * 100 - 1000000000))).
Proof.
  intros H. eexists. split; [by apply to_LARGE_INTEGER|]. destruct H as [Hn Hs].
  assert (0 <= tv_nsec t / 100 < ticks) as Hd by (unfold ticks; split; [apply Z.div_pos; lia | apply Z.div_lt_upper_bound; lia]).
  unfold LARGE_INTEGER_to_timespec, epoch_1970.
  match goal with |- context [i64 ?x] => replace x with (tv_sec t * ticks + tv_nsec t / 100) by lia end.
  unfold ticks in *. rewrite i64_Some by lia. cbn [mbind option_bind]. split; intros Hsec.
  - destruct (split_nonneg (tv_sec t) (tv_nsec t / 100)) as [Q R]; [lia | unfold ticks; lia|]. unfold ticks in Q, R. rewrite Q, R. reflexivity.
  - intros H100. assert (1 <= tv_nsec t / 100) by (apply Z.div_le_lower_bound; lia).
    replace (tv_sec t * 10000000 + tv_nsec t / 100)
      with (- ((- tv_sec t - 1) * 10000000 + (10000000 - tv_nsec t / 100))) by lia.
    rewrite Z.quot_opp_l, Z.rem_opp_l by lia.
    destruct (split_nonneg (- tv_sec t - 1) (10000000 - tv_nsec t / 100)) as [Q R]; [lia.. | unfold ticks; lia|].
    unfold ticks in Q, R. rewrite Q, R. do 2 f_equal; lia.
Qed.

Lemma timespec_roundtrip_witness : exists l,
  timespec_to_LARGE_INTEGER (Timespec 1 250) = Some l /\ LARGE_INTEGER_to_timespec l = Some (Timespec 1 200).
Proof.
  destruct (timespec_roundtrip (Timespec 1 250)) as (l & E & H & _); [split; cbn; lia|].
  exists l. split; [exact E | apply H; cbn; lia].
Defined.

(** ** Interval timers *)

(** A duration that fits. *)
Definition normal_timeval (v : timeval) : Prop := 0 <= tval_usec v < 1000000 /\ 0 <= tval_sec v < 2 ^ 39.

Lemma timeval_ticks_normal v : normal_timeval v -> timeval_ticks v = Some (tval_sec v * ticks + tval_usec v * 10).
Proof.
  intros [Hu Hs]. unfold timeval_ticks, ticks. rewrite i64_Some by lia. cbn [mbind option_bind].
  assert (i32 (tval_usec v * 10) = Some (tval_usec v * 10)) as ->.
  { unfold i32. rewrite (proj2 (Z.leb_le _ _)), (proj2 (Z.ltb_lt _ _)) by lia. reflexivity. }
  apply i64_Some. lia.
Qed.

Lemma current_value_ticks h v : normal_timeval v ->
  current_value (Timerinfo h (tval_sec v * ticks + tval_usec v * 10)) = Itimerval v (Timeval 0 0).
Proof.
  intros [Hu Hs]. unfold current_value. cbn [period]. destruct (split_nonneg (tval_sec v) (tval_usec v * 10)) as [Q R];
    [lia | unfold ticks; lia|]. rewrite Q, R, Z.quot_mul by lia. by destruct v.
Qed.


Section Itimers.
Context {K : Type} {KN : Kernel K} {A : Allocator} {TK : TimeKernel K}.

Definition valid_timer (which : Z) : Prop := ITIMER_REAL <= which <= ITIMER_PROF.

Lemma valid_timer_ok w : valid_timer w -> (w <? ITIMER_REAL) || (w >? ITIMER_PROF) = false.
Proof. unfold valid_timer, ITIMER_REAL, ITIMER_PROF. intros H. rewrite Z.gtb_ltb. apply orb_false_iff. lia. Qed.

Lemma timer_of_set w w' i t : valid_timer w -> valid_timer w' ->
  timer_of w (set_timer w' i t) = if w =? w' then i else timer_of w t.
Proof.
  unfold valid_timer, timer_of, set_timer, ITIMER_REAL, ITIMER_VIRTUAL, ITIMER_PROF. intros H H'.
  assert (w = 0 \/ w = 1 \/ w = 2) as [->|[->| ->]] by lia;
    assert (w' = 0 \/ w' = 1 \/ w' = 2) as [->|[->| ->]] by lia; reflexivity.
Qed.

(** a timer that is set reports the interval it was set with, to the
    microsecond, and the other timers what they reported before; the time left is
    always reported as 0. Setting a value of 0 stops the timer and clears its
    interval. *)
Theorem itimer_roundtrip (which w : Z) (v : itimerval) (old : bool) (t : itimers) (s : state K) (k : K) :
  valid_timer which -> valid_timer w -> normal_timeval (it_interval v) -> normal_timeval (it_value v) ->
  let stop := (tval_sec (it_value v) =? 0) && (tval_usec (it_value v) =? 0) in
  let due := - (tval_sec (it_value v) * ticks + tval_usec (it_value v) * 10) in
  (if stop then NtCancelTimer2 (t_handle (timer_of which t)) (kernel s)
   else NtSetTimer2 (t_handle (timer_of which t)) due (tval_sec (it_interval v) * ticks + tval_usec (it_interval v) * 10) (kernel s))
    = (STATUS_SUCCESS, k) ->
  exists t',
    wlibc_setitimer which (Some v) old t s
      = Some ((0, if old then Some (current_value (timer_of which t)) else None, t'), with_kernel s k) /\
    forall s' : state K, wlibc_getitimer w true t' s' =
      Some ((0, Some (if w =? which then Itimerval (if stop then Timeval 0 0 else it_interval v) (Timeval 0 0)
                      else current_value (timer_of w t)), t'), s').
Proof.
  intros Hw Hw' Hi Hv stop due Hk.
  set (p := if stop then 0 else tval_sec (it_interval v) * ticks + tval_usec (it_interval v) * 10).
  exists (set_timer which (Timerinfo (t_handle (timer_of which t)) p) t). split.
  - unfold wlibc_setitimer. rewrite valid_timer_ok by exact Hw. rewrite (SM_bind_Some _ _ _ _ _ _ _ eq_refl).
    rewrite (SM_bind_Some _ _ t s s t s) by reflexivity. fold stop. unfold p. destruct stop eqn:E.
    + rewrite Hk. reflexivity.
    + rewrite (timeval_ticks_normal _ Hi), (timeval_ticks_normal _ Hv). rewrite !(SM_bind_Some _ _ _ _ _ _ _ eq_refl). cbv beta. fold due.
      destruct Hv. rewrite (i64_Some due) by (unfold due, ticks; lia). rewrite (SM_bind_Some _ _ _ _ _ _ _ eq_refl). cbv beta.
      rewrite Hk. reflexivity.
  - intros s'. unfold wlibc_getitimer. rewrite valid_timer_ok by exact Hw'. cbn [negb orb].
    rewrite (SM_bind_Some _ _ _ _ _ _ _ eq_refl). rewrite timer_of_set by assumption.
    destruct (w =? which); [|reflexivity]. unfold p. destruct stop; [reflexivity|]. rewrite current_value_ticks by exact Hi. reflexivity.
Qed.

(** the clock stands still within a second: two readings in the same second
    whose counts of 100 nanoseconds end in the same digit are reported as the same
    time, and the nanoseconds are always less than 1000. *)
Theorem clock_gettime_coarse (s s' : state K) :
  let now := GetSystemTimePreciseAsFileTime (kernel s) in
  let later := GetSystemTimePreciseAsFileTime (kernel s') in
  0 <= now -> 0 <= later -> now / ticks = later / ticks -> now mod 10 = later mod 10 ->
  exists ts, wlibc_clock_gettime CLOCK_REALTIME true s = Some ((0, Some ts), s) /\
    wlibc_clock_gettime CLOCK_REALTIME true s' = Some ((0, Some ts), s') /\ 0 <= tv_nsec ts < 1000.
Proof.
  intros now later Hn Hl Hs Hd. exists (Timespec (now / ticks) (now mod 10 * 100)).
  unfold wlibc_clock_gettime, mbind, M_bind, get, mret, M_ret. cbn [valid_clock negb orb CLOCK_REALTIME Z.eqb]. fold now later.
  rewrite !Z.quot_div_nonneg, !Z.rem_mod_nonneg by (unfold ticks; lia). rewrite Hs, Hd. repeat split.
  all: pose proof (Z.mod_pos_bound now 10); cbn; lia.
Qed.
End Itimers.

(** A machine with a clock. *)
Module Clock.

#[export] Instance clock_time : TimeKernel Disk.disk := {
  GetSystemTimePreciseAsFileTime d := d.2;
  GetSystemTime d := d.2;
  QueryPerformanceCounter d := d.2;
  NtSetTimer2 _ _ _ k := (STATUS_SUCCESS, k);
  NtCancelTimer2 _ k := (STATUS_SUCCESS, k);
  NtDelayExecution _ k := (STATUS_SUCCESS, k);
  NtQueryProcessTimes d := (STATUS_SUCCESS, (d.2, d.2));
  NtQueryTimeOfDay d := (STATUS_SUCCESS, (d.2, 0))
}.

Definition idle : itimers := Itimers (Timerinfo 1 0) (Timerinfo 2 0) (Timerinfo 3 0).

End Clock.
Import Disk Clock.

Lemma itimer_roundtrip_witness : exists t',
  wlibc_setitimer ITIMER_PROF (Some (Itimerval (Timeval 1 500000) (Timeval 2 0))) false idle (process 0 [] 0)
    = Some ((0, None, t'), with_kernel (process 0 [] 0) ([], 0)) /\
  wlibc_getitimer ITIMER_PROF true t' (process 0 [] 0) = Some ((0, Some (Itimerval (Timeval 1 500000) (Timeval 0 0)), t'), process 0 [] 0).
Proof.
  destruct (itimer_roundtrip ITIMER_PROF ITIMER_PROF (Itimerval (Timeval 1 500000) (Timeval 2 0)) false idle (process 0 [] 0) ([], 0))
    as (t' & S & G); [split; discriminate | split; discriminate | split; cbn; lia | split; cbn; lia | reflexivity |].
  exists t'. split; [exact S | apply G].
Defined.

Lemma clock_gettime_coarse_witness : exists ts,
  wlibc_clock_gettime CLOCK_REALTIME true (process 0 [] 10000003) = Some ((0, Some ts), process 0 [] 10000003) /\
  wlibc_clock_gettime CLOCK_REALTIME true (process 0 [] 19999993) = Some ((0, Some ts), process 0 [] 19999993) /\
  0 <= tv_nsec ts < 1000.
Proof.
  apply (clock_gettime_coarse (process 0 [] 10000003) (process 0 [] 19999993)); [cbn; lia | cbn; lia | reflexivity | reflexivity].
Defined.
