(* ===== verification/Resource.v ===== *)
(** * Priorities, limits and usage of the process

    getpriority and setpriority (src/sys/resource/priority.c), nice
    (src/unistd/nice.c), the limits (rlimit.c) and the usage (rusage.c). A nice
    value is 16 less the base priority of the process. *)

From S2P Require Import Prelude Errno Buffer FdTable FileIo Sched Time.

Definition PRIO_MIN : Z := -15.
Definition PRIO_MAX : Z := 15.
Definition PRIO_PROCESS : Z := 0.
Definition PRIO_USER : Z := 2.

Definition RLIM_INFINITY : Z := 2 ^ 64 - 1.
Definition RLIMIT_CORE : Z := 0.
Definition RLIMIT_CPU : Z := 1.
Definition RLIMIT_DATA : Z := 2.
Definition RLIMIT_FSIZE : Z := 3.
Definition RLIMIT_NOFILE : Z := 4.
Definition RLIMIT_STACK : Z := 5.
Definition RLIMIT_AS : Z := 6.

Definition max_files : Z := 8192.
Definition max_file_size : Z := 17592186044416.
Definition max_as : Z := 140737488355328.

Definition RUSAGE_SELF : Z := 0.
Definition RUSAGE_CHILDREN : Z := 2.

Record rusage := Rusage {
  ru_utime : timeval;
  ru_stime : timeval;
  ru_maxrss : Z;
  ru_ixrss : Z;
  ru_idrss : Z;
  ru_isrss : Z;
  ru_minflt : Z;
  ru_majflt : Z;
  ru_nswap : Z;
  ru_inblock : Z;
  ru_oublock : Z
}.

Definition no_usage : rusage := Rusage (Timeval 0 0) (Timeval 0 0) 0 0 0 0 0 0 0 0 0.

(** [SharedCommitUsage], [PrivateWorkingSetSize], [PeakWorkingSetSize],
    [PageFaultCount] and [PeakPagefileUsage]. *)
Record vm_counters := VmCounters { shared_commit : Z; private_set : Z; peak_set : Z; page_faults : Z; peak_pagefile : Z }.

(** The stack of the thread, and the read and write operations and the memory of
    the process. *)
Class UsageKernel (K : Type) := {
  GetCurrentThreadStackLimits : K -> Z * Z;
  NtQueryIoCounters : K -> NTSTATUS * (Z * Z);
  NtQueryVmCounters : K -> NTSTATUS * vm_counters
}.

Section Resource.
Context {K : Type} {KN : Kernel K} {SK : SchedKernel K} {TK : TimeKernel K} {UK : UsageKernel K}.

(** ** Priorities *)

Definition wlibc_getpriority (which who : Z) : M K Z :=
  if (which <? PRIO_PROCESS) || (which >? PRIO_USER) then fail EINVAL
  else if who <? 0 then fail EINVAL
  else if which =? PRIO_USER then mret 0
  else
    process ← open_process who PROCESS_QUERY_INFORMATION;
    if process =? 0 then mret (-1)
    else
      k ← system_state;
      let '(status, base) := NtQueryBasePriority process k in
      result ← on_success status (mret (16 - base));
      _ ← close_process process;
      mret result.

Definition wlibc_setpriority (which who priority : Z) : M K Z :=
  if (which <? PRIO_PROCESS) || (which >? PRIO_USER) then fail EINVAL
  else if (priority <? PRIO_MIN) || (priority >? PRIO_MAX) then fail EINVAL
  else if who <? 0 then fail EINVAL
  else if which =? PRIO_USER then mret 0
  else
    let new_base_priority := if 16 - priority >? 15 then 15 else 16 - priority in
    process ← open_process who (Z.lor PROCESS_QUERY_INFORMATION PROCESS_SET_INFORMATION);
    if process =? 0 then mret (-1)
    else
      k ← system_state;
      let '(status, base) := NtQueryBasePriority process k in
      result ← on_success status (
        if base =? new_base_priority then mret 0
        else if base >? new_base_priority then
          let '(status, k) := NtSetBasePriority process new_base_priority k in
          _ ← set_kernel k; on_success status (mret 0)
        else
          let '(status, k) := RtlAcquirePrivilege k in
          _ ← set_kernel k;
          on_success status (
            let '(status, k) := NtSetBasePriority process new_base_priority k in
            _ ← set_kernel (RtlReleasePrivilege k); on_success status (mret 0)));
      _ ← close_process process;
      mret result.

Definition wlibc_nice (change : Z) : M K Z :=
  if change =? 0 then mret 0
  else
    k ← system_state;
    let '(status, base) := NtQueryBasePriority NtCurrentProcess k in
    on_success status (
      if change >? 0 then
        let '(status, k) := NtSetBasePriority NtCurrentProcess (Z.max (base - change) 1) k in
        _ ← set_kernel k; on_success status (mret 0)
      else
        let '(status, k) := RtlAcquirePrivilege k in
        _ ← set_kernel k;
        on_success status (
          let '(status, k) := NtSetBasePriority NtCurrentProcess (Z.min (base - change) 15) k in
          _ ← set_kernel (RtlReleasePrivilege k); on_success status (mret 0))).

(** ** Limits *)

(** The current and the maximal value. Nothing changes the soft limits. *)
Definition wlibc_getrlimit (resource : Z) : M K (Z * option (Z * Z)) :=
  if (resource =? RLIMIT_CORE) || ((resource =? RLIMIT_CPU) || (resource =? RLIMIT_DATA))
  then mret (0, Some (RLIM_INFINITY, RLIM_INFINITY))
  else if resource =? RLIMIT_STACK then
    s ← get;
    let '(low, high) := GetCurrentThreadStackLimits (kernel s) in
    mret (0, Some (u64 (high - low), u64 (high - low)))
  else if resource =? RLIMIT_AS then mret (0, Some (max_as, max_as))
  else if resource =? RLIMIT_FSIZE then mret (0, Some (max_file_size, max_file_size))
  else if resource =? RLIMIT_NOFILE then mret (0, Some (max_files, max_files))
  else r ← fail EINVAL; mret (r, None).

Definition wlibc_setrlimit (resource rlim_cur rlim_max : Z) : M K Z :=
  if (resource =? RLIMIT_CORE) || ((resource =? RLIMIT_CPU) || ((resource =? RLIMIT_DATA) ||
     ((resource =? RLIMIT_STACK) || ((resource =? RLIMIT_AS) || (resource =? RLIMIT_FSIZE)))))
  then mret 0
  else if resource =? RLIMIT_NOFILE then
    if (rlim_cur >? max_files) || (rlim_max >? max_files) then fail EINVAL else mret 0
  else fail EINVAL.

(** ** Usage *)

Definition to_timeval (x : Z) : timeval := Timeval (x ÷ ticks) (Z.rem x ticks ÷ 10).

(** The result and what is stored. *)
Definition wlibc_getrusage (who : Z) : M K (Z * option rusage) :=
  if (who <? RUSAGE_SELF) || (who >? RUSAGE_CHILDREN) then r ← fail EINVAL; mret (r, None)
  else if who =? RUSAGE_CHILDREN then mret (0, Some no_usage)
  else
    s ← get;
    let '(status, (kt, ut)) := NtQueryProcessTimes (kernel s) in
    if negb (bool_decide (status = STATUS_SUCCESS)) then r ← fail_status status; mret (r, Some no_usage)
    else
      let u := Rusage (to_timeval ut) (to_timeval kt) 0 0 0 0 0 0 0 0 0 in
      let '(status, (reads, writes)) := NtQueryIoCounters (kernel s) in
      if negb (bool_decide (status = STATUS_SUCCESS)) then r ← fail_status status; mret (r, Some u)
      else
        let u := Rusage (to_timeval ut) (to_timeval kt) 0 0 0 0 0 0 0 writes reads in
        let '(status, v) := NtQueryVmCounters (kernel s) in
        if negb (bool_decide (status = STATUS_SUCCESS)) then r ← fail_status status; mret (r, Some u)
        else mret (0, Some (Rusage (to_timeval ut) (to_timeval kt) (peak_set v) (shared_commit v) (private_set v) (private_set v)
                              (page_faults v) (page_faults v) (peak_pagefile v) writes reads)).

End Resource.

(** ** Nice values *)

Section Nice.
Context {K : Type} {KN : Kernel K} {SK : SchedKernel K}.
Context (class_of base_of : K -> Z -> Z) (privileged : K -> bool).
Context {SC : Scheduler class_of base_of privileged}.

Lemma getpriority_self (s : state K) : wlibc_getpriority PRIO_PROCESS 0 s = Some (16 - base_of (kernel s) NtCurrentProcess, s).
Proof.
  unfold wlibc_getpriority, open_process, close_process, system_state, mbind, M_bind. cbn [PRIO_PROCESS PRIO_USER Z.ltb Z.gtb Z.compare orb Z.eqb get mret M_ret].
  change (NtCurrentProcess =? 0) with false. cbn [get mret M_ret]. rewrite sch_base. unfold on_success. by rewrite bool_decide_eq_true_2.
Qed.

(** The base priority is set to [want]: always when it is lowered, with the
    privilege when it is raised. *)
Lemma raise_base want (s : state K) : privileged (kernel s) = true -> exists k,
  (let '(status, k) := RtlAcquirePrivilege (kernel s) in
   _ ← set_kernel k;
   on_success status (
     let '(status, k) := NtSetBasePriority NtCurrentProcess want k in
     _ ← set_kernel (RtlReleasePrivilege k); on_success status (mret 0))) s = Some (0, with_kernel s k) /\
  base_of k NtCurrentProcess = want.
Proof.
  intros Hp. destruct (sch_acquire (kernel s)) as (k1 & -> & _). rewrite Hp. unfold on_success, mbind, M_bind. cbn [set_kernel].
  rewrite bool_decide_eq_true_2 by done. destruct (sch_set NtCurrentProcess want k1) as (k2 & -> & _ & Hb & _).
  exists (RtlReleasePrivilege k2). rewrite bool_decide_eq_true_2 by done. destruct (sch_release k2) as [_ ->]. done.
Qed.

Lemma lower_base want (s : state K) : exists k,
  (let '(status, k) := NtSetBasePriority NtCurrentProcess want (kernel s) in
   _ ← set_kernel k; on_success status (mret 0)) s = Some (0, with_kernel s k) /\ base_of k NtCurrentProcess = want.
Proof.
  destruct (sch_set NtCurrentProcess want (kernel s)) as (k & -> & _ & Hb & _). exists k. unfold on_success, mbind, M_bind. cbn [set_kernel].
  by rewrite bool_decide_eq_true_2.
Qed.
Lemma setpriority_self p (s : state K) : privileged (kernel s) = true -> PRIO_MIN <= p <= PRIO_MAX -> exists k,
  wlibc_setpriority PRIO_PROCESS 0 p s = Some (0, with_kernel s k) /\ base_of k NtCurrentProcess = 16 - Z.max p 1.
Proof.
  unfold PRIO_MIN, PRIO_MAX. intros Hp Hr. unfold wlibc_setpriority, PRIO_MIN, PRIO_MAX.
  rewrite (Z.gtb_ltb p 15), (proj2 (Z.ltb_ge p (-15))), (proj2 (Z.ltb_ge 15 p)) by lia.
  cbn [PRIO_PROCESS PRIO_USER Z.ltb Z.gtb Z.compare orb Z.eqb]. set (want := if 16 - p >? 15 then 15 else 16 - p).
  assert (want = 16 - Z.max p 1) as <- by (unfold want; rewrite Z.gtb_ltb; destruct (Z.ltb_spec 15 (16 - p)); lia). clearbody want.
  rewrite (M_bind_Some _ _ s NtCurrentProcess s) by reflexivity. change (NtCurrentProcess =? 0) with false. cbv iota.
  rewrite (M_bind_Some _ _ s (kernel s) s) by reflexivity. rewrite sch_base. cbv iota beta.
  unfold on_success at 1. rewrite (bool_decide_eq_true_2 (STATUS_SUCCESS = STATUS_SUCCESS)) by done.
  match goal with |- exists k, (mbind _ ?m) s = _ /\ _ => assert (exists k, m s = Some (0, with_kernel s k) /\ base_of k NtCurrentProcess = want) as (k & E & Hk) end.
  { destruct (Z.eqb_spec (base_of (kernel s) NtCurrentProcess) want) as [E|E]; [exists (kernel s); split; [by destruct s | done]|].
    destruct (_ >? _); [apply lower_base | by apply raise_base]. }
  exists k. rewrite (M_bind_Some _ _ _ _ _ E). split; [reflexivity | exact Hk].
Qed.

Lemma nice_self change (s : state K) : privileged (kernel s) = true -> 1 <= base_of (kernel s) NtCurrentProcess <= 15 -> exists k,
  wlibc_nice change s = Some (0, with_kernel s k) /\
  base_of k NtCurrentProcess = Z.min (Z.max (base_of (kernel s) NtCurrentProcess - change) 1) 15.
Proof.
  intros Hp Hb. unfold wlibc_nice. destruct (Z.eqb_spec change 0) as [->|Hc].
  { exists (kernel s). split; [by destruct s | lia]. }
  rewrite (M_bind_Some _ _ s (kernel s) s) by reflexivity. rewrite sch_base. cbv iota beta.
  unfold on_success at 1. rewrite (bool_decide_eq_true_2 (STATUS_SUCCESS = STATUS_SUCCESS)) by done.
  destruct (Z.gtb_spec change 0).
  - destruct (lower_base (Z.max (base_of (kernel s) NtCurrentProcess - change) 1) s) as (k & E & Hk). exists k. split; [exact E | lia].
  - destruct (raise_base (Z.min (base_of (kernel s) NtCurrentProcess - change) 15) s Hp) as (k & E & Hk). exists k. split; [exact E | lia].
Qed.

(** a process that may raise its priority and sets a nice value reads it
    back, except that values below 1 are read as 1; and [nice] moves the value by
    the change it is given, within 1 and 15. *)
Theorem nice_values (p change : Z) (s : state K) :
  privileged (kernel s) = true -> PRIO_MIN <= p <= PRIO_MAX -> 1 <= base_of (kernel s) NtCurrentProcess <= 15 ->
  (exists k, wlibc_setpriority PRIO_PROCESS 0 p s = Some (0, with_kernel s k) /\
     wlibc_getpriority PRIO_PROCESS 0 (with_kernel s k) = Some (Z.max p 1, with_kernel s k)) /\
  (exists k old, wlibc_getpriority PRIO_PROCESS 0 s = Some (old, s) /\
     wlibc_nice change s = Some (0, with_kernel s k) /\
     wlibc_getpriority PRIO_PROCESS 0 (with_kernel s k) = Some (Z.min (Z.max (old + change) 1) 15, with_kernel s k)).
Proof.
  intros Hp Hr Hb. split.
  - destruct (setpriority_self p s Hp Hr) as (k & E & Hk). exists k. split; [exact E|].
    rewrite getpriority_self. cbn [kernel with_kernel]. rewrite Hk. do 2 f_equal. lia.
  - destruct (nice_self change s Hp Hb) as (k & E & Hk). exists k. eexists. rewrite getpriority_self. split; [done|]. split; [exact E|].
    rewrite getpriority_self. cbn [kernel with_kernel]. rewrite Hk. do 2 f_equal. lia.
Qed.
End Nice.

Import Office.

Lemma nice_values_witness :
  exists k, wlibc_setpriority PRIO_PROCESS 0 10 (working true) = Some (0, with_kernel (working true) k) /\
    wlibc_getpriority PRIO_PROCESS 0 (with_kernel (working true) k) = Some (10, with_kernel (working true) k).
Proof.
  destruct (nice_values class_in base_in snd 10 0 (working true)) as [(k & S & G) _];
    [reflexivity | unfold PRIO_MIN, PRIO_MAX; lia | cbn; lia | exists k; split; [exact S | exact G]].
Defined.
