(* ===== verification/Concurrent.v ===== *)
(** * Threads that share memory

    A function that runs beside other threads is a program of atomic operations:
    each reads or changes the shared state in one step, or cannot go on yet. The
    scheduler picks the thread that makes the next step. *)

From stdpp Require Import gmap relations.
From S2P Require Import Prelude.

(** ** Programs *)

(** An operation is done with a result, has to wait for another thread, or is
    undefined. *)
Inductive effect (S R : Type) :=
  | Done (r : R) (s : S)
  | Wait
  | Wrong.
Arguments Done {S R}.
Arguments Wait {S R}.
Arguments Wrong {S R}.

(** An atomic operation depends on the thread that makes it. *)
Definition atom (S R : Type) : Type := Z -> S -> effect S R.

Inductive prog (S X : Type) : Type :=
  | Ret (x : X)
  | Atom {R : Type} (a : atom S R) (k : R -> prog S X).
Arguments Ret {S X}.
Arguments Atom {S X R}.

Fixpoint prog_bind {S X Y} (f : X -> prog S Y) (p : prog S X) : prog S Y :=
  match p with Ret x => f x | Atom a k => Atom a (fun r => prog_bind f (k r)) end.

#[export] Instance prog_ret {S} : MRet (prog S) := fun _ x => Ret x.
#[export] Instance prog_mbind {S} : MBind (prog S) := fun _ _ f p => prog_bind f p.

Definition atomically {S R} (a : atom S R) : prog S R := Atom a (fun r => Ret r).

(** Every operation of the program satisfies [P]. *)
Fixpoint uses {S X} (P : forall R, atom S R -> Prop) (p : prog S X) : Prop :=
  match p with Ret _ => True | Atom a k => P _ a /\ forall r, uses P (k r) end.

(** The program runs in thread [t] and no other thread makes a step. *)
Fixpoint alone {S X} (t : Z) (p : prog S X) (s : S) : effect S X :=
  match p with
  | Ret x => Done x s
  | Atom a k => match a t s with Done r s => alone t (k r) s | Wait => Wait | Wrong => Wrong end
  end.

(** ** Interleavings *)

(** The shared state and what each thread still has to do. *)
Record config (S X : Type) := Config { shared : S; threads : gmap Z (prog S X) }.
Arguments Config {S X}.
Arguments shared {S X}.
Arguments threads {S X}.

(** Thread [t] makes its next step. *)
Definition advance {S X} (t : Z) (c : config S X) : option (config S X) :=
  match threads c !! t with
  | Some (Atom a k) =>
      match a t (shared c) with Done r s => Some (Config s (<[t := k r]> (threads c))) | _ => None end
  | _ => None
  end.

Inductive step {S X} : config S X -> config S X -> Prop :=
  | step_thread t c c' : advance t c = Some c' -> step c c'.

(** The threads of [l] make a step each, in this order. *)
Fixpoint schedule {S X} (l : list Z) (c : config S X) : option (config S X) :=
  match l with [] => Some c | t :: l => c ← advance t c; schedule l c end.

(** ** Facts *)

Lemma schedule_reaches {S X} l : forall (c c' : config S X), schedule l c = Some c' -> rtc step c c'.
Proof.
  induction l as [|t l IH]; intros c c' H; cbn in H.
  - injection H as ->. constructor.
  - destruct (advance t c) as [c1|] eqn:E; [|done]. eapply rtc_l; [econstructor; eauto | by apply IH].
Qed.

Lemma alone_bind {S X Y} t (p : prog S X) (f : X -> prog S Y) s :
  alone t (x ← p; f x) s = match alone t p s with Done x s => alone t (f x) s | Wait => Wait | Wrong => Wrong end.
Proof.
  unfold mbind, prog_mbind. revert s. induction p as [x|R a k IH]; intros s; cbn [prog_bind alone]; [done|].
  destruct (a t s); auto.
Qed.

Lemma alone_bind_inv {S X Y} t (p : prog S X) (f : X -> prog S Y) s y s' :
  alone t (x ← p; f x) s = Done y s' -> exists x s1, alone t p s = Done x s1 /\ alone t (f x) s1 = Done y s'.
Proof. rewrite alone_bind. destruct (alone t p s) as [x s1| |]; [eauto | done..]. Qed.

Lemma alone_bind_Done {S X Y} t (p : prog S X) (f : X -> prog S Y) s x s1 :
  alone t p s = Done x s1 -> alone t (x ← p; f x) s = alone t (f x) s1.
Proof. intros H. by rewrite alone_bind, H. Qed.

Lemma uses_bind {S X Y} (P : forall R, atom S R -> Prop) (p : prog S X) (f : X -> prog S Y) :
  uses P p -> (forall x, uses P (f x)) -> uses P (x ← p; f x).
Proof.
  unfold mbind, prog_mbind. induction p as [x|R a k IH]; cbn [prog_bind uses]; [auto|]. intros [Ha Hk] Hf. auto.
Qed.

Lemma uses_atomically {S R} (P : forall R, atom S R -> Prop) (a : atom S R) : P R a -> uses P (atomically a).
Proof. intros H. cbn. auto. Qed.

(** A relation between states that every operation of every thread but [t] keeps,
    and that [t] keeps as well, holds in every state that can be reached. *)
Lemma invariant_reachable {S X} (I : S -> Prop) (P : Z -> forall R, atom S R -> Prop) (c c' : config S X) :
  (forall t R (a : atom S R) s r s', P t R a -> I s -> a t s = Done r s' -> I s') ->
  map_Forall (fun t p => uses (P t) p) (threads c) -> I (shared c) -> rtc step c c' ->
  I (shared c') /\ map_Forall (fun t p => uses (P t) p) (threads c').
Proof.
  intros HP Hu Hi H. induction H as [|c c1 c2 H1 _ IH]; [done|].
  destruct H1 as [t c c1 Ha]. unfold advance in Ha.
  destruct (threads c !! t) as [[|R a k]|] eqn:E; [done| |done].
  destruct (a t (shared c)) as [r s| |] eqn:Er; [|done|done]. injection Ha as <-.
  pose proof (Hu _ _ E) as [Pa Pk].
  apply IH; cbn.
  - apply map_Forall_insert_2; auto.
  - eapply HP; eauto.
Qed.

(** Splits a run of [x ← p; f x] into the run of [p] and that of [f]. *)
Ltac alone_inv H :=
  let x := fresh "x" in let s := fresh "s" in let E := fresh "E" in
  apply alone_bind_inv in H; destruct H as (x & s & E & H); cbv beta in H.

(** ** Two threads *)

Definition pair_of {S X} (s : S) (t : Z) (p : prog S X) (u : Z) (q : prog S X) : config S X := Config s (<[t := p]> (<[u := q]> ∅)).

(** The next step of the program in thread [t]. *)
Definition next {S X} (t : Z) (p : prog S X) (s : S) : option (prog S X * S) :=
  match p with
  | Atom a k => match a t s with Done r s => Some (k r, s) | _ => None end
  | Ret _ => None
  end.

Section Pairs.
Context {S X : Type} (t u : Z) (different : t <> u).
Implicit Types p q : prog S X.

Lemma schedule_first l s p q p' s' : next t p s = Some (p', s') ->
  schedule (t :: l) (pair_of s t p u q) = schedule l (pair_of s' t p' u q).
Proof.
  intros H. cbn [schedule]. unfold advance, pair_of. cbn [threads shared]. rewrite lookup_insert_eq.
  destruct p as [|R a k]; [done|]. cbn in H. destruct (a t s); [|done..]. injection H as <- <-. cbn [mbind option_bind]. by rewrite insert_insert_eq.
Qed.

Lemma schedule_second l s p q q' s' : next u q s = Some (q', s') ->
  schedule (u :: l) (pair_of s t p u q) = schedule l (pair_of s' t p u q').
Proof.
  intros H. cbn [schedule]. unfold advance, pair_of. cbn [threads shared]. rewrite lookup_insert_ne, lookup_insert_eq by done.
  destruct q as [|R a k]; [done|]. cbn in H. destruct (a u s); [|done..]. injection H as <- <-. cbn [mbind option_bind].
  by rewrite (insert_insert_ne _ u t), insert_insert_eq by done.
Qed.
End Pairs.

(** The first or the second thread makes a step; [H] tells what it finds. *)
Ltac first_step := eapply eq_trans; [eapply schedule_first; cbn; reflexivity|]; cbv beta.
Ltac second_step := eapply eq_trans; [eapply schedule_second; [assumption|]; cbn; reflexivity|]; cbv beta.
Ltac first_finds H := eapply eq_trans; [eapply schedule_first; cbn; rewrite H; cbn; reflexivity|]; cbv beta.
Ltac second_finds H := eapply eq_trans; [eapply schedule_second; [assumption|]; cbn; rewrite H; cbn; reflexivity|]; cbv beta.
