(* ===== verification/Sync.v ===== *)
(** * Shared objects of threads

    The memory that holds mutexes, condition variables and read-write locks
    (src/include/thread.h), the errno of each thread, and the kernel. Objects are
    found by their address; an access to an address without an object is
    undefined. *)

From stdpp Require Import gmap.
From S2P Require Import Prelude Errno Time Concurrent.

Record mutex_t := Mutex { owner : Z; lock_count : Z; mutex_type : Z; mutex_handle : Z }.

(** [ptr] is the queue, [None] for [NULL]. *)
Record cond_t := Cond {
  queue : option (list Z);
  waiting_threads : Z;
  queue_size : Z;
  queue_begin : Z;
  queue_end : Z;
  queue_lock : Z
}.

Record rwlock_t := Rwlock { srw_ptr : Z; rw_lock : Z }.

Record sync (K : Type) := Sync {
  mutexes : gmap Z mutex_t;
  conds : gmap Z cond_t;
  rwlocks : gmap Z rwlock_t;
  errnos : gmap Z Z;
  sync_kernel : K
}.
Arguments Sync {K}.
Arguments mutexes {K}.
Arguments conds {K}.
Arguments rwlocks {K}.
Arguments errnos {K}.
Arguments sync_kernel {K}.

(** Mutants, alerts of threads, slim read-write locks (by the value of their
    pointer) and the clock. A wait without result goes on; releasing a slim lock
    that is not held is undefined. *)
Class SyncKernel (K : Type) := {
  NtCreateMutant : K -> NTSTATUS * Z * K;
  NtCloseMutant : Z -> K -> NTSTATUS * K;
  WaitForMutant : Z -> Z -> option Z -> K -> option (NTSTATUS * K);
  NtReleaseMutant : Z -> Z -> K -> NTSTATUS * K;
  NtAlertThreadByThreadId : Z -> K -> NTSTATUS * K;
  NtWaitForAlertByThreadId : Z -> option Z -> K -> option (NTSTATUS * K);
  RtlTryAcquireSRWLockShared : Z -> option Z;
  RtlTryAcquireSRWLockExclusive : Z -> option Z;
  RtlReleaseSRWLockShared : Z -> option Z;
  RtlReleaseSRWLockExclusive : Z -> option Z;
  GetSystemTimeAsFileTime : K -> Z * K
}.

Definition WLIBC_PROCESS_PRIVATE : Z := 0.
Definition WLIBC_PROCESS_SHARED : Z := 1.

(** A shared-memory attribute that is one of the two. *)
Definition valid_pshared (x : Z) : bool := (x =? WLIBC_PROCESS_PRIVATE) || (x =? WLIBC_PROCESS_SHARED).

Section Sync.
Context {K : Type} {SK : SyncKernel K}.

Abbreviation T := (prog (sync K)).

Definition with_mutexes (s : sync K) m := Sync m (conds s) (rwlocks s) (errnos s) (sync_kernel s).
Definition with_conds (s : sync K) c := Sync (mutexes s) c (rwlocks s) (errnos s) (sync_kernel s).
Definition with_rwlocks (s : sync K) l := Sync (mutexes s) (conds s) l (errnos s) (sync_kernel s).
Definition with_errnos (s : sync K) e := Sync (mutexes s) (conds s) (rwlocks s) e (sync_kernel s).
Definition with_system (s : sync K) (k : K) := Sync (mutexes s) (conds s) (rwlocks s) (errnos s) k.

(** The errno of thread [t]. *)
Definition errno_of (t : Z) (s : sync K) : Z := default 0 (errnos s !! t).

(** ** Operations on the memory *)

Definition NtCurrentThreadId : T Z := atomically (fun t s => Done t s).

Definition set_errno (e : Z) : T unit := atomically (fun t s => Done () (with_errnos s (<[t := e]> (errnos s)))).
Definition get_errno : T Z := atomically (fun t s => Done (errno_of t s) s).
Definition fail (e : Z) : T Z := _ ← set_errno e; mret (-1).
Definition set_status (status : NTSTATUS) : T unit := e ← get_errno; set_errno (map_ntstatus_to_errno status e).

(** A field of the mutex [m] is read; it is replaced by what [f] gives. *)
Definition read_mutex {R} (m : Z) (f : mutex_t -> R) : T R :=
  atomically (fun _ s => match mutexes s !! m with Some x => Done (f x) s | None => Wrong end).
Definition change_mutex (m : Z) (f : mutex_t -> mutex_t) : T mutex_t :=
  atomically (fun _ s => match mutexes s !! m with
                         | Some x => Done (f x) (with_mutexes s (<[m := f x]> (mutexes s)))
                         | None => Wrong
                         end).

Definition read_cond {R} (c : Z) (f : cond_t -> R) : T R :=
  atomically (fun _ s => match conds s !! c with Some x => Done (f x) s | None => Wrong end).
(** [f] gives a result and the new object, or nothing when it accesses memory
    outside of the queue. *)
Definition change_cond {R} (c : Z) (f : cond_t -> option (R * cond_t)) : T R :=
  atomically (fun _ s => match conds s !! c with
                         | Some x => match f x with
                                     | Some (r, y) => Done r (with_conds s (<[c := y]> (conds s)))
                                     | None => Wrong
                                     end
                         | None => Wrong
                         end).

Definition read_rwlock {R} (l : Z) (f : rwlock_t -> R) : T R :=
  atomically (fun _ s => match rwlocks s !! l with Some x => Done (f x) s | None => Wrong end).
Definition change_rwlock (l : Z) (f : rwlock_t -> rwlock_t) : T unit :=
  atomically (fun _ s => match rwlocks s !! l with
                         | Some x => Done () (with_rwlocks s (<[l := f x]> (rwlocks s)))
                         | None => Wrong
                         end).

(** A call of the kernel that may wait. *)
Definition system_call {R} (f : Z -> K -> option (R * K)) : T R :=
  atomically (fun t s => match f t (sync_kernel s) with Some (r, k) => Done r (with_system s k) | None => Wait end).

(** [VALIDATE_PTR(p, EINVAL, -1)] and then [m]. *)
Definition validate_ptr (p : Z) (m : T Z) : T Z := if p =? 0 then fail EINVAL else m.

End Sync.
