(* ===== verification/Mutex.v ===== *)
(** * Mutexes

    src/thread/mutex.c: a mutex is a mutant of the kernel with the thread that owns
    it and the number of its locks. *)

From stdpp Require Import gmap.
From S2P Require Import Prelude Errno Time Concurrent Sync.

Definition WLIBC_MUTEX_NORMAL : Z := 0x0.
Definition WLIBC_MUTEX_RECURSIVE : Z := 0x1.
Definition WLIBC_MUTEX_TIMED : Z := 0x2.

Record mutex_attr_t := MutexAttr { mattr_shared : Z; mattr_type : Z }.

Definition valid_mutex_type (t : Z) : bool :=
  (0 <=? t) && (t <=? Z.lor (Z.lor WLIBC_MUTEX_NORMAL WLIBC_MUTEX_RECURSIVE) WLIBC_MUTEX_TIMED).

Definition with_owner (o : Z) (m : mutex_t) : mutex_t := Mutex o (lock_count m) (mutex_type m) (mutex_handle m).
Definition with_lock_count (n : Z) (m : mutex_t) : mutex_t := Mutex (owner m) n (mutex_type m) (mutex_handle m).

Section Mutexes.
Context {K : Type} {SK : SyncKernel K}.

Abbreviation T := (prog (sync K)).

(** [VALIDATE_MUTEX] and then [f]. *)
Definition validate_mutex (m : Z) (f : T Z) : T Z :=
  validate_ptr m (h ← read_mutex m mutex_handle; if h =? 0 then fail EINVAL else f).

Definition wlibc_mutex_init (m : Z) (attributes : option mutex_attr_t) : T Z :=
  validate_ptr m (
    let ok := match attributes with
              | Some a => valid_pshared (mattr_shared a) && valid_mutex_type (mattr_type a)
              | None => true
              end in
    if negb ok then fail EINVAL
    else
      '(status, h) ← system_call (fun _ k => let '(status, h, k) := NtCreateMutant k in Some ((status, h), k));
      if negb (bool_decide (status = STATUS_SUCCESS)) then _ ← set_status status; mret (-1)
      else
        _ ← change_mutex m (fun _ => Mutex 0 0 (match attributes with Some a => mattr_type a | None => WLIBC_MUTEX_TIMED end) h);
        mret 0).

Definition wlibc_mutex_destroy (m : Z) : T Z :=
  validate_mutex m (
    h ← read_mutex m mutex_handle;
    status ← system_call (fun _ k => Some (NtCloseMutant h k));
    if negb (bool_decide (status = STATUS_SUCCESS)) then _ ← set_status status; mret (-1)
    else _ ← change_mutex m (fun x => Mutex 0 0 (mutex_type x) 0); mret 0).

(** How long a lock waits: not at all ([Some 0]), until a time, or forever. *)
Definition lock_timeout (type : Z) (abstime : option timespec) : option (option Z) :=
  if Z.land type WLIBC_MUTEX_TIMED =? 0 then Some None
  else
    match abstime with
    | None => Some None
    | Some a =>
        if negb (tv_sec a =? 0) && negb (tv_nsec a =? 0)
        then l ← timespec_to_LARGE_INTEGER a; Some (Some l)
        else Some (Some 0)
    end.

(** The conversion of the time may overflow. *)
Definition undefined {R} : T R := atomically (fun _ _ => Wrong).

Definition wlibc_mutex_common_lock (m : Z) (abstime : option timespec) : T Z :=
  type ← read_mutex m mutex_type;
  would_deadlock ← (if negb (Z.land type WLIBC_MUTEX_RECURSIVE =? WLIBC_MUTEX_RECURSIVE)
                    then thread_id ← NtCurrentThreadId; o ← read_mutex m owner; mret (o =? thread_id)
                    else mret false);
  if would_deadlock : bool then fail EDEADLK
  else
    type ← read_mutex m mutex_type;
    match lock_timeout type abstime with
    | None => undefined
    | Some timeout =>
        h ← read_mutex m mutex_handle;
        status ← system_call (fun t k => WaitForMutant h t timeout k);
        if negb (bool_decide (status = STATUS_SUCCESS)) then
          _ ← set_status status;
          e ← get_errno;
          _ ← (if bool_decide (default 0 timeout = 0) && (e =? ETIMEDOUT) then set_errno EBUSY else mret ());
          mret (-1)
        else
          thread_id ← NtCurrentThreadId;
          _ ← change_mutex m (with_owner thread_id);
          _ ← change_mutex m (fun x => with_lock_count (u32 (lock_count x + 1)) x);
          mret 0
    end.

Definition wlibc_mutex_lock (m : Z) : T Z := validate_mutex m (wlibc_mutex_common_lock m None).

Definition wlibc_mutex_trylock (m : Z) : T Z := validate_mutex m (wlibc_mutex_common_lock m (Some (Timespec 0 0))).

Definition wlibc_mutex_timedlock (m : Z) (abstime : option timespec) : T Z :=
  validate_mutex m (match abstime with None => fail EINVAL | Some _ => wlibc_mutex_common_lock m abstime end).

Definition wlibc_mutex_unlock (m : Z) : T Z :=
  validate_mutex m (
    h ← read_mutex m mutex_handle;
    status ← system_call (fun t k => Some (NtReleaseMutant h t k));
    if negb (bool_decide (status = STATUS_SUCCESS)) then _ ← set_status status; mret (-1)
    else
      x ← change_mutex m (fun x => with_lock_count (u32 (lock_count x - 1)) x);
      _ ← (if lock_count x =? 0 then _ ← change_mutex m (with_owner 0); mret () else mret ());
      mret 0).

(** ** Attributes *)

(** The result and the new attributes, or the value stored. *)
Definition wlibc_mutexattr_init (a : option mutex_attr_t) : T (Z * option mutex_attr_t) :=
  match a with
  | None => r ← fail EINVAL; mret (r, None)
  | Some _ => mret (0, Some (MutexAttr WLIBC_PROCESS_PRIVATE WLIBC_MUTEX_TIMED))
  end.

Definition get_mutexattr (a : option mutex_attr_t) (place : bool) (f : mutex_attr_t -> Z) : T (Z * option Z) :=
  match a with
  | Some a => if place then mret (0, Some (f a)) else r ← fail EINVAL; mret (r, None)
  | None => r ← fail EINVAL; mret (r, None)
  end.

Definition wlibc_mutexattr_getpshared (a : option mutex_attr_t) (place : bool) := get_mutexattr a place mattr_shared.
Definition wlibc_mutexattr_gettype (a : option mutex_attr_t) (place : bool) := get_mutexattr a place mattr_type.

Definition wlibc_mutexattr_setpshared (a : option mutex_attr_t) (pshared : Z) : T (Z * option mutex_attr_t) :=
  match a with
  | Some a => if valid_pshared pshared then mret (0, Some (MutexAttr pshared (mattr_type a))) else r ← fail EINVAL; mret (r, Some a)
  | None => r ← fail EINVAL; mret (r, None)
  end.

Definition wlibc_mutexattr_settype (a : option mutex_attr_t) (type : Z) : T (Z * option mutex_attr_t) :=
  match a with
  | Some a => if valid_mutex_type type then mret (0, Some (MutexAttr (mattr_shared a) type)) else r ← fail EINVAL; mret (r, Some a)
  | None => r ← fail EINVAL; mret (r, None)
  end.

End Mutexes.
