(* ===== verification/MutexSpec.v ===== *)
(** * What a mutex promises

    At most one thread at a time is inside a mutex, in every interleaving of the
    calls of any number of threads; for one thread a mutex is a counter of locks;
    the recorded owner, however, can be lost. *)

From stdpp Require Import gmap.
From S2P Require Import Prelude Errno Time Concurrent Sync Mutex.

(** The mutants of the kernel: the thread that holds one and how many times. A
    free mutant is taken at once, a held one again by its holder only; others wait,
    or not at all, or until a time. *)
Class Mutants {K : Type} `{SyncKernel K} (holder : K -> Z -> option (Z * Z)) : Prop := {
  mut_free h t o k : holder k h = None ->
    exists k', WaitForMutant h t o k = Some (STATUS_SUCCESS, k') /\
      forall h', holder k' h' = if h' =? h then Some (t, 1) else holder k h';
  mut_again h t o n k : holder k h = Some (t, n) ->
    exists k', WaitForMutant h t o k = Some (STATUS_SUCCESS, k') /\
      forall h', holder k' h' = if h' =? h then Some (t, n + 1) else holder k h';
  mut_wait h t u n k : holder k h = Some (u, n) -> u <> t -> WaitForMutant h t None k = None;
  mut_try h t u n k : holder k h = Some (u, n) -> u <> t -> WaitForMutant h t (Some 0) k = Some (STATUS_TIMEOUT, k);
  mut_timed h t u n l k : holder k h = Some (u, n) -> u <> t ->
    WaitForMutant h t (Some l) k = None \/ WaitForMutant h t (Some l) k = Some (STATUS_TIMEOUT, k);
  mut_release h t n k : holder k h = Some (t, n) ->
    exists k', NtReleaseMutant h t k = (STATUS_SUCCESS, k') /\
      forall h', holder k' h' = if h' =? h then (if n =? 1 then None else Some (t, n - 1)) else holder k h';
  mut_not_owned h t k : (forall n, holder k h <> Some (t, n)) -> NtReleaseMutant h t k = (STATUS_MUTANT_NOT_OWNED, k);
  mut_create k : forall h, holder k h <> None -> holder (NtCreateMutant k).2 h = holder k h
}.

(** ** Exclusion

    Threads call the functions of this file at any time, on any mutexes, and the
    steps of their calls interleave. One mutex [m] is followed: it has the mutant
    [h], which no other mutex has. *)

Section Exclusion.
Context {K : Type} {SK : SyncKernel K} (holder : K -> Z -> option (Z * Z)) {MT : Mutants holder}.
Context (m h : Z).

Abbreviation T := (prog (sync K)).

Inductive mutex_request :=
  | RInit (p : Z) (a : option mutex_attr_t)
  | RDestroy (p : Z)
  | RLock (p : Z)
  | RTryLock (p : Z)
  | RTimedLock (p : Z) (a : option timespec)
  | RUnlock (p : Z).

Definition request_program (q : mutex_request) : T Z :=
  match q with
  | RInit p a => wlibc_mutex_init p a
  | RDestroy p => wlibc_mutex_destroy p
  | RLock p => wlibc_mutex_lock p
  | RTryLock p => wlibc_mutex_trylock p
  | RTimedLock p a => wlibc_mutex_timedlock p a
  | RUnlock p => wlibc_mutex_unlock p
  end.

(** The mutex itself is neither initialised again nor destroyed. *)
Definition allowed (q : mutex_request) : Prop :=
  match q with RInit p _ | RDestroy p => p <> m | _ => True end.

Definition locks_it (q : mutex_request) : bool :=
  match q with RLock p | RTryLock p | RTimedLock p _ => p =? m | _ => false end.

Definition unlocks_it (q : mutex_request) : bool :=
  match q with RUnlock p => p =? m | _ => false end.

(** A thread: its successful locks of the mutex less its successful unlocks, and
    the call it is in with what is left of it. *)
Record client := Client { depth : Z; busy : option (mutex_request * T Z) }.

(** The depth once the call [q] has returned [r]. *)
Definition settle (q : mutex_request) (r d : Z) : Z :=
  if r =? 0 then (if locks_it q then d + 1 else if unlocks_it q then d - 1 else d) else d.

Record world := World { memory : sync K; clients : gmap Z client }.

Inductive client_step : world -> world -> Prop :=
  | client_calls t d q w :
      clients w !! t = Some (Client d None) -> allowed q ->
      client_step w (World (memory w) (<[t := Client d (Some (q, request_program q))]> (clients w)))
  | client_runs t d q p p' s' w :
      clients w !! t = Some (Client d (Some (q, p))) -> next t p (memory w) = Some (p', s') ->
      client_step w (World s' (<[t := Client d (Some (q, p'))]> (clients w)))
  | client_returns t d q r w :
      clients w !! t = Some (Client d (Some (q, Ret r))) ->
      client_step w (World (memory w) (<[t := Client (settle q r d) None]> (clients w))).

(** A schedule: which thread calls, makes a step of its call, or returns from it. *)
Inductive action := Call (t : Z) (q : mutex_request) | Run (t : Z) | Return (t : Z).

Definition act (a : action) (w : world) : option world :=
  match a with
  | Call t q =>
      match clients w !! t with
      | Some (Client d None) => Some (World (memory w) (<[t := Client d (Some (q, request_program q))]> (clients w)))
      | _ => None
      end
  | Run t =>
      match clients w !! t with
      | Some (Client d (Some (q, p))) =>
          '(p, s) ← next t p (memory w); Some (World s (<[t := Client d (Some (q, p))]> (clients w)))
      | _ => None
      end
  | Return t =>
      match clients w !! t with
      | Some (Client d (Some (q, Ret r))) => Some (World (memory w) (<[t := Client (settle q r d) None]> (clients w)))
      | _ => None
      end
  end.

Fixpoint act_all (l : list action) (w : world) : option world :=
  match l with [] => Some w | a :: l => w ← act a w; act_all l w end.

Definition action_allowed (a : action) : Prop := match a with Call _ q => allowed q | _ => True end.

Lemma act_step a w w' : action_allowed a -> act a w = Some w' -> client_step w w'.
Proof.
  intros Ha H. destruct a as [t q|t|t]; cbn [act] in H; destruct (clients w !! t) as [[d [[q' p]|]]|] eqn:E; try done.
  - injection H as <-. by apply client_calls.
  - destruct (next t p (memory w)) as [[p' s']|] eqn:En; [|done]. injection H as <-. by eapply client_runs.
  - destruct p; [|done]. injection H as <-. by eapply client_returns.
Qed.

Lemma act_all_steps l w w' : Forall action_allowed l -> act_all l w = Some w' -> rtc client_step w w'.
Proof.
  intros Hl. revert w. induction Hl as [|a l Ha _ IH]; intros w H; cbn [act_all] in H; [by injection H as ->|].
  destruct (act a w) as [w1|] eqn:E; [|done]. eapply rtc_l; [by eapply act_step|by apply IH].
Qed.

(** The thread is between a successful lock and the unlock that ends it. *)
Definition inside (w : world) (t : Z) : Prop :=
  exists d b, clients w !! t = Some (Client d b) /\ 0 < d /\
    match b with Some (q, _) => unlocks_it q = false | None => True end.

(** How often thread [u] holds the mutant. *)
Definition count (u : Z) (s : sync K) : Z :=
  match holder (sync_kernel s) h with Some (v, n) => if v =? u then n else 0 | None => 0 end.

Record followed (s : sync K) : Prop := {
  fo_mutex : exists x, mutexes s !! m = Some x /\ mutex_handle x = h;
  fo_others p x : mutexes s !! p = Some x -> p <> m -> mutex_handle x <> h;
  fo_count v n : holder (sync_kernel s) h = Some (v, n) -> 0 < n
}.

(** What the operation [a] of thread [u], which holds the mutant [n] times, does:
    the counts of the others stay, and the result and the new count satisfy [Q]. *)
Definition moves (u : Z) {R} (a : atom (sync K) R) (n : Z) (Q : R -> Z -> Prop) : Prop :=
  forall s r s', followed s -> count u s = n -> a u s = Done r s' ->
    followed s' /\ (forall v, v <> u -> count v s' = count v s) /\ Q r (count u s').

(** The count satisfies [I] throughout the program, whatever the other threads do
    in between, and [Q] with the result at its end. *)
Fixpoint tracks {X} (u : Z) (I : Z -> Prop) (Q : X -> Z -> Prop) (n : Z) (p : T X) : Prop :=
  I n /\ match p with
         | Ret r => Q r n
         | Atom a k => moves u a n (fun r n' => tracks u I Q n' (k r))
         end.

Lemma tracks_here {X} u I (Q : X -> Z -> Prop) n p : tracks u I Q n p -> I n.
Proof. destruct p; by intros [H _]. Qed.

Lemma tracks_bind {X Y} u I (Q : X -> Z -> Prop) (Q' : Y -> Z -> Prop) n p (f : X -> T Y) :
  tracks u I Q n p -> (forall r n', Q r n' -> I n' -> tracks u I Q' n' (f r)) -> tracks u I Q' n (x ← p; f x).
Proof.
  intros Hp Hf. unfold mbind, prog_mbind. revert n Hp.
  induction p as [x|R a k IH]; intros n [Hi Hp]; cbn [prog_bind]; [by apply Hf|].
  split; [done|]. intros s r s' Hs Hn Ha. destruct (Hp s r s' Hs Hn Ha) as (H1 & H2 & H3). auto.
Qed.

Lemma tracks_atom {R} u I (Q : R -> Z -> Prop) n (a : atom (sync K) R) :
  I n -> (forall s r s', followed s -> count u s = n -> a u s = Done r s' ->
    followed s' /\ (forall v, v <> u -> count v s' = count v s) /\ I (count u s') /\ Q r (count u s')) ->
  tracks u I Q n (atomically a).
Proof.
  intros Hi H. split; [done|]. intros s r s' Hs Hn Ha. destruct (H s r s' Hs Hn Ha) as (H1 & H2 & H3 & H4).
  split; [done|]. split; [done|]. by split.
Qed.

Lemma tracks_ret {X} u I (Q : X -> Z -> Prop) n r : I n -> Q r n -> tracks u I Q n (mret r).
Proof. intros Hi Hq. by split. Qed.

(** Operations on the memory that keep the mutants of the mutexes. *)
Lemma tracks_memory {R} u I (Q : R -> Z -> Prop) n (a : atom (sync K) R) :
  I n -> (forall s r s', followed s -> a u s = Done r s' ->
    sync_kernel s' = sync_kernel s /\ followed s' /\ Q r n) ->
  tracks u I Q n (atomically a).
Proof.
  intros Hi H. apply tracks_atom; [done|]. intros s r s' Hs Hn Ha. destruct (H s r s' Hs Ha) as (Hk & Hs' & Hq).
  assert (forall v, count v s' = count v s) as Hc by (intros v; unfold count; by rewrite Hk).
  rewrite Hc, Hn. auto.
Qed.

Lemma tracks_read {R} u I (Q : R -> Z -> Prop) n p (f : mutex_t -> R) :
  I n -> (forall x, (p = m -> mutex_handle x = h) -> (p <> m -> mutex_handle x <> h) -> Q (f x) n) ->
  tracks u I Q n (read_mutex p f).
Proof.
  intros Hi Hq. apply tracks_memory; [done|]. intros s r s' Hs Ha.
  destruct (mutexes s !! p) as [x|] eqn:E; [|done]. injection Ha as <- <-. split; [done|]. split; [done|].
  apply Hq; [|by apply (fo_others s Hs)]. intros ->. destruct (fo_mutex s Hs) as (y & Hy & Hh). congruence.
Qed.

Lemma followed_mutexes s p x y :
  followed s -> mutexes s !! p = Some x -> (p = m -> mutex_handle x = h -> mutex_handle y = h) ->
  (p <> m -> mutex_handle x <> h -> mutex_handle y <> h) -> followed (with_mutexes s (<[p := y]> (mutexes s))).
Proof.
  intros Hs Hx H1 H2. destruct (fo_mutex s Hs) as (z & Hz & Hh). split; cbn [mutexes with_mutexes sync_kernel].
  - destruct (decide (p = m)) as [->|Hp].
    + exists y. rewrite lookup_insert_eq. split; [done|]. apply H1; congruence.
    + exists z. by rewrite lookup_insert_ne.
  - intros q w Hw Hq. destruct (decide (p = q)) as [->|Hp].
    + rewrite lookup_insert_eq in Hw. injection Hw as <-. apply H2; [done|]. by apply (fo_others s Hs q).
    + rewrite lookup_insert_ne in Hw by done. by apply (fo_others s Hs q).
  - apply (fo_count s Hs).
Qed.

Lemma tracks_change u I (Q : mutex_t -> Z -> Prop) n p f :
  I n -> (forall x, p = m -> mutex_handle x = h -> mutex_handle (f x) = h) ->
  (forall x, p <> m -> mutex_handle x <> h -> mutex_handle (f x) <> h) -> (forall y, Q y n) ->
  tracks u I Q n (change_mutex p f).
Proof.
  intros Hi H1 H2 Hq. apply tracks_memory; [done|]. intros s r s' Hs Ha.
  destruct (mutexes s !! p) as [x|] eqn:E; [|done]. injection Ha as <- <-. split; [done|].
  split; [|done]. by apply (followed_mutexes s p x); auto.
Qed.

Lemma tracks_errno {R} u I (Q : R -> Z -> Prop) n (r : Z -> sync K -> R) (e : Z -> sync K -> gmap Z Z) :
  I n -> (forall x, Q x n) -> tracks u I Q n (atomically (fun t s => Done (r t s) (with_errnos s (e t s)))).
Proof.
  intros Hi Hq. apply tracks_memory; [done|]. intros s x s' Hs [= <- <-]. split; [done|]. split; [|done].
  destruct Hs as [Hs1 Hs2 Hs3]. by split.
Qed.

Lemma tracks_keep {R} u I (Q : R -> Z -> Prop) n (r : Z -> sync K -> R) :
  I n -> (forall x, Q x n) -> tracks u I Q n (atomically (fun t s => Done (r t s) s)).
Proof. intros Hi Hq. apply tracks_memory; [done|]. by intros s x s' Hs [= <- <-]. Qed.

Lemma followed_system s k :
  followed s -> (forall v n, holder k h = Some (v, n) -> 0 < n) -> followed (with_system s k).
Proof. intros [H1 H2 H3] Hk. by split. Qed.

(** Calls of the kernel that do not concern the mutant. *)
Lemma tracks_system {R} u I (Q : R -> Z -> Prop) n (f : Z -> K -> option (R * K)) :
  I n -> (forall k r k', f u k = Some (r, k') -> holder k' h = holder k h /\ Q r n) ->
  tracks u I Q n (system_call f).
Proof.
  intros Hi H. apply tracks_atom; [done|]. intros s r s' Hs Hn Ha.
  destruct (f u (sync_kernel s)) as [[x k]|] eqn:E; [|done]. injection Ha as <- <-.
  destruct (H _ _ _ E) as [Hk Hq].
  assert (forall v, count v (with_system s k) = count v s) as Hc by (intros v; unfold count; cbn; by rewrite Hk).
  rewrite Hc, Hn. split; [|auto]. apply followed_system; [done|]. rewrite Hk. apply (fo_count s Hs).
Qed.

Lemma wait_other hd u o k r k' :
  hd <> h -> WaitForMutant hd u o k = Some (r, k') -> holder k' h = holder k h.
Proof.
  intros Hd W. assert (forall n', (forall h', holder k' h' = if h' =? hd then n' else holder k h') ->
    holder k' h = holder k h) as Other by (intros n' ->; by rewrite (proj2 (Z.eqb_neq h hd))).
  destruct (holder k hd) as [[v n]|] eqn:E.
  - destruct (Z.eq_dec v u) as [->|Hv].
    + destruct (mut_again hd u o n k E) as (k1 & W1 & H1). rewrite W1 in W. injection W as <- <-. by eapply Other.
    + destruct o as [l|]; [|by rewrite (mut_wait hd u v n k E) in W].
      destruct (mut_timed hd u v n l k E Hv) as [W1|W1]; rewrite W1 in W; [done|]. by injection W as <- <-.
  - destruct (mut_free hd u o k E) as (k1 & W1 & H1). rewrite W1 in W. injection W as <- <-. by eapply Other.
Qed.

Lemma release_other hd u k : hd <> h -> holder (NtReleaseMutant hd u k).2 h = holder k h.
Proof.
  intros Hd. destruct (holder k hd) as [[v n]|] eqn:E.
  - destruct (Z.eq_dec v u) as [->|Hv].
    + destruct (mut_release hd u n k E) as (k1 & -> & H1). cbn [snd]. by rewrite H1, (proj2 (Z.eqb_neq h hd)).
    + rewrite mut_not_owned by congruence. done.
  - rewrite mut_not_owned by congruence. done.
Qed.

(** A wait for the mutant counts it for the thread, or fails and changes nothing. *)
Lemma tracks_wait u I (Q : NTSTATUS -> Z -> Prop) n o :
  I n -> I (n + 1) -> Q STATUS_SUCCESS (n + 1) -> (forall r, r <> STATUS_SUCCESS -> Q r n) ->
  tracks u I Q n (system_call (fun t k => WaitForMutant h t o k)).
Proof.
  intros Hi Hi1 Hq Hr. apply tracks_atom; [done|]. intros s r s' Hs Hn Ha.
  unfold count in *. destruct (holder (sync_kernel s) h) as [[v k]|] eqn:E.
  - destruct (Z.eqb_spec v u) as [->|Hv].
    + subst k. destruct (mut_again h u o n _ E) as (k' & W & Hk). rewrite W in Ha. injection Ha as <- <-.
      specialize (Hk h). rewrite Z.eqb_refl in Hk. cbn [with_system sync_kernel]. rewrite Hk, Z.eqb_refl.
      pose proof (fo_count s Hs _ _ E). split; [|split; [|done]].
      * apply followed_system; [done|]. rewrite Hk. intros ? ? [= <- <-]. lia.
      * intros w Hw. by rewrite (proj2 (Z.eqb_neq u w)) by auto.
    + assert (r <> STATUS_SUCCESS /\ s' = with_system s (sync_kernel s)) as [Hne ->].
      { destruct o as [l|]; [|by rewrite (mut_wait h u v k _ E) in Ha].
        destruct (mut_timed h u v k l _ E Hv) as [W|W]; rewrite W in Ha; [done|]. by injection Ha as <- <-. }
      cbn [with_system sync_kernel]. rewrite E. split; [apply followed_system; [done|apply (fo_count s Hs)]|].
      rewrite (proj2 (Z.eqb_neq v u)) by done. subst n. auto.
  - subst n. destruct (mut_free h u o _ E) as (k' & W & Hk). rewrite W in Ha. injection Ha as <- <-.
    specialize (Hk h). rewrite Z.eqb_refl in Hk. cbn [with_system sync_kernel]. rewrite Hk, Z.eqb_refl.
    split; [|split; [|done]].
    + apply followed_system; [done|]. rewrite Hk. intros ? ? [= <- <-]. lia.
    + intros w Hw. by rewrite (proj2 (Z.eqb_neq u w)) by auto.
Qed.

(** A release counts down what the thread holds, or fails and changes nothing. *)
Lemma tracks_release u I (Q : NTSTATUS -> Z -> Prop) n :
  I n -> (0 < n -> I (n - 1) /\ Q STATUS_SUCCESS (n - 1)) -> (forall r, r <> STATUS_SUCCESS -> Q r n) ->
  tracks u I Q n (system_call (fun t k => Some (NtReleaseMutant h t k))).
Proof.
  intros Hi Hq Hr. apply tracks_atom; [done|]. intros s r s' Hs Hn Ha. unfold count in *.
  assert ((forall k, holder (sync_kernel s) h <> Some (u, k)) ->
    followed s' /\ (forall v, v <> u -> match holder (sync_kernel s') h with Some (w, n) => if w =? v then n else 0 | None => 0 end =
      match holder (sync_kernel s) h with Some (w, n) => if w =? v then n else 0 | None => 0 end) /\
    sync_kernel s' = sync_kernel s /\ r <> STATUS_SUCCESS) as Fails.
  { intros Hno. rewrite (mut_not_owned h u _ Hno) in Ha. injection Ha as <- <-. cbn [with_system sync_kernel].
    split; [|done]. apply followed_system; [done|apply (fo_count s Hs)]. }
  destruct (holder (sync_kernel s) h) as [[v k]|] eqn:E.
  - destruct (Z.eqb_spec v u) as [->|Hv].
    + subst k. pose proof (fo_count s Hs _ _ E) as Hp. destruct (Hq Hp) as [Hi1 Hq1].
      destruct (mut_release h u n _ E) as (k' & W & Hk). rewrite W in Ha. injection Ha as <- <-.
      specialize (Hk h). rewrite Z.eqb_refl in Hk. cbn [with_system sync_kernel]. rewrite Hk.
      split; [|split].
      * apply followed_system; [done|]. rewrite Hk. intros ? ? Hx. destruct (Z.eqb_spec n 1); [done|].
        injection Hx as <- <-. lia.
      * intros w Hw. destruct (n =? 1); by rewrite ?(proj2 (Z.eqb_neq u w)) by auto.
      * destruct (Z.eqb_spec n 1) as [->|Hne]; [done|]. by rewrite Z.eqb_refl.
    + destruct Fails as (H1 & H2 & H3 & H4); [congruence|]. rewrite H3, E in *.
      rewrite (proj2 (Z.eqb_neq v u)) by done. subst n. auto.
  - destruct Fails as (H1 & H2 & H3 & H4); [done|]. rewrite H3, E in *. subst n. auto.
Qed.

(** *** The calls *)

Context (h_open : h <> 0).
(** The kernel gives new mutants other handles than that of the mutex, and
    closing another handle does not concern its mutant. *)
Context (create_other : forall k, (NtCreateMutant k).1.2 <> h /\ holder (NtCreateMutant k).2 h = holder k h).
Context (close_other : forall hd k, hd <> h -> holder (NtCloseMutant hd k).2 h = holder k h).

Lemma tracks_fail u I (Q : Z -> Z -> Prop) n e : I n -> Q (-1) n -> tracks u I Q n (fail e).
Proof.
  intros Hi Hq. unfold fail, set_errno. apply (tracks_bind _ _ (fun _ k => k = n)); [by apply tracks_errno|].
  intros _ k -> _. by apply tracks_ret.
Qed.

Lemma tracks_status u I n status : I n -> tracks u I (fun _ k => k = n) n (set_status status).
Proof.
  intros Hi. unfold set_status, get_errno, set_errno. apply (tracks_bind _ _ (fun _ k => k = n)); [by apply tracks_keep|].
  intros e k -> _. by apply tracks_errno.
Qed.

Lemma tracks_validate u I (Q : Z -> Z -> Prop) n p f :
  I n -> Q (-1) n -> tracks u I Q n f -> tracks u I Q n (validate_mutex p f).
Proof.
  intros Hi Hq Hf. unfold validate_mutex, validate_ptr. destruct (p =? 0); [by apply tracks_fail|].
  apply (tracks_bind _ _ (fun _ k => k = n)); [by apply tracks_read|].
  intros hd k -> _. destruct (hd =? 0); [by apply tracks_fail|done].
Qed.

(** A field that is read decides nothing by itself. *)
Lemma tracks_after_read {R X} u I (Q : X -> Z -> Prop) n p (f : mutex_t -> R) g :
  I n -> (forall r, tracks u I Q n (g r)) -> tracks u I Q n (r ← read_mutex p f; g r).
Proof.
  intros Hi Hg. apply (tracks_bind _ _ (fun _ k => k = n)); [by apply tracks_read|]. intros r k -> _. auto.
Qed.

Lemma tracks_after_handle {X} u I (Q : X -> Z -> Prop) n p g :
  I n -> (forall hd, (p = m -> hd = h) -> (p <> m -> hd <> h) -> tracks u I Q n (g hd)) ->
  tracks u I Q n (hd ← read_mutex p mutex_handle; g hd).
Proof.
  intros Hi Hg. apply (tracks_bind _ _ (fun hd k => ((p = m -> hd = h) /\ (p <> m -> hd <> h)) /\ k = n)).
  - by apply tracks_read.
  - intros hd k [[H1 H2] ->] _. auto.
Qed.

Lemma tracks_common_lock u n p a :
  0 <= n ->
  tracks u (fun k => n <= k) (fun r k => k = if (r =? 0) && (p =? m) then n + 1 else n) n
    (wlibc_mutex_common_lock p a).
Proof.
  intros Hn. unfold wlibc_mutex_common_lock. apply tracks_after_read; [lia|]. intros ty.
  apply (tracks_bind _ _ (fun _ k => k = n)).
  { destruct (negb _); [|apply tracks_ret; [lia|done]].
    apply (tracks_bind _ _ (fun _ k => k = n)); [apply tracks_keep; [lia|done]|]. intros id k -> _.
    apply tracks_after_read; [lia|]. intros o. apply tracks_ret; [lia|done]. }
  intros dead k -> _. destruct dead; [apply tracks_fail; [lia|done]|].
  apply tracks_after_read; [lia|]. intros ty'. destruct (lock_timeout ty' a) as [timeout|].
  2:{ unfold undefined. apply tracks_memory; [lia|]. done. }
  apply tracks_after_handle; [lia|]. intros hd Hm Ho.
  apply (tracks_bind _ _ (fun r k => k = if bool_decide (r = STATUS_SUCCESS) && (p =? m) then n + 1 else n)).
  { destruct (Z.eqb_spec p m) as [Hp|Hp].
    - rewrite Hm by done. apply tracks_wait; [lia|lia|done|]. intros r Hr. by rewrite bool_decide_eq_false_2.
    - apply tracks_system; [lia|]. intros k r k' W. rewrite andb_false_r. split; [|done].
      apply (wait_other hd u timeout _ r); auto. }
  intros status k -> Hk. destruct (bool_decide (status = STATUS_SUCCESS)) eqn:E; cbn [negb andb].
  - unfold NtCurrentThreadId. set (n' := if p =? m then n + 1 else n) in *.
    assert (n <= n') as Hn' by (unfold n'; destruct (p =? m); lia).
    apply (tracks_bind _ _ (fun _ k => k = n')); [by apply tracks_keep|]. intros id k -> _.
    apply (tracks_bind _ _ (fun _ k => k = n')); [by apply tracks_change|]. intros x k -> _.
    apply (tracks_bind _ _ (fun _ k => k = n')); [by apply tracks_change|]. intros y k -> _.
    by apply tracks_ret.
  - apply (tracks_bind _ _ (fun _ k => k = n)); [apply tracks_status; lia|]. intros _ k -> _.
    apply (tracks_bind _ _ (fun _ k => k = n)); [apply tracks_keep; [lia|done]|]. intros e k -> _.
    apply (tracks_bind _ _ (fun _ k => k = n)).
    + destruct (bool_decide (default 0 timeout = 0) && _); [unfold set_errno; apply tracks_errno; [lia|done]|apply tracks_ret; [lia|done]].
    + intros _ k -> _. apply tracks_ret; [lia|done].
Qed.

Lemma tracks_unlock u n p :
  0 <= n ->
  tracks u (fun k => if p =? m then True else n <= k)
    (fun r k => 0 <= k /\ k = if (r =? 0) && (p =? m) then n - 1 else n) n (wlibc_mutex_unlock p).
Proof.
  intros Hn. unfold wlibc_mutex_unlock.
  assert (if p =? m then True else n <= n) as Hi by (destruct (p =? m); [done|lia]).
  apply tracks_validate; [done|done|]. apply tracks_after_handle; [done|]. intros hd Hm Ho.
  set (n' r := if bool_decide (r = STATUS_SUCCESS) && (p =? m) then n - 1 else n).
  apply (tracks_bind _ _ (fun r k => 0 <= k /\ k = n' r)).
  { unfold n'. destruct (Z.eqb_spec p m) as [Hp|Hp].
    - rewrite Hm by done. apply tracks_release; [done|..].
      + intros Hp0. split; [done|]. split; [lia|done].
      + intros r Hr. by rewrite bool_decide_eq_false_2.
    - apply tracks_system; [done|]. intros k r k' [= E]. rewrite andb_false_r. split; [|lia].
      pose proof (release_other hd u k (Ho Hp)) as H. by rewrite E in H. }
  intros status k [Hk ->] Hi'. unfold n' in *.
  destruct (bool_decide (status = STATUS_SUCCESS)) eqn:E; cbn [negb andb] in *.
  - set (n1 := if p =? m then n - 1 else n) in *.
    apply (tracks_bind _ _ (fun _ k => k = n1)); [by apply tracks_change|]. intros x k -> _.
    apply (tracks_bind _ _ (fun _ k => k = n1)).
    + destruct (lock_count x =? 0); [|by apply tracks_ret].
      apply (tracks_bind _ _ (fun _ k => k = n1)); [by apply tracks_change|]. intros y k -> _. by apply tracks_ret.
    + intros _ k -> _. by apply tracks_ret.
  - apply (tracks_bind _ _ (fun _ k => k = n)); [by apply tracks_status|]. intros _ k -> _. by apply tracks_ret.
Qed.

Lemma tracks_init u n p a : p <> m -> tracks u (fun k => k = n) (fun _ k => k = n) n (wlibc_mutex_init p a).
Proof.
  intros Hp. unfold wlibc_mutex_init, validate_ptr. destruct (p =? 0); [by apply tracks_fail|].
  destruct (negb _); [by apply tracks_fail|].
  apply (tracks_bind _ _ (fun r k => r.2 <> h /\ k = n)).
  { apply tracks_system; [done|]. intros k r k' E. pose proof (create_other k) as [H1 H2].
    destruct (NtCreateMutant k) as [[st hd] k1]. injection E as <- <-. done. }
  intros [status hd] k [Hh ->] _. cbn [snd] in Hh. destruct (negb _).
  - apply (tracks_bind _ _ (fun _ k => k = n)); [by apply tracks_status|]. intros _ k -> _. by apply tracks_ret.
  - apply (tracks_bind _ _ (fun _ k => k = n)); [by apply tracks_change|]. intros y k -> _. by apply tracks_ret.
Qed.

Lemma tracks_destroy u n p : p <> m -> tracks u (fun k => k = n) (fun _ k => k = n) n (wlibc_mutex_destroy p).
Proof.
  intros Hp. unfold wlibc_mutex_destroy. apply tracks_validate; [done|done|].
  apply tracks_after_handle; [done|]. intros hd _ Ho.
  apply (tracks_bind _ _ (fun _ k => k = n)).
  { apply tracks_system; [done|]. intros k r k' [= E]. pose proof (close_other hd k (Ho Hp)) as H. by rewrite E in H. }
  intros status k -> _. destruct (negb _).
  - apply (tracks_bind _ _ (fun _ k => k = n)); [by apply tracks_status|]. intros _ k -> _. by apply tracks_ret.
  - apply (tracks_bind _ _ (fun _ k => k = n)); [|intros y k -> _; by apply tracks_ret].
    apply tracks_change; [done|done| |done]. cbn. auto.
Qed.

Lemma tracks_mono {X} u (I J : Z -> Prop) (Q Q' : X -> Z -> Prop) n p :
  (forall k, I k -> J k) -> (forall r k, I k -> Q r k -> Q' r k) -> tracks u I Q n p -> tracks u J Q' n p.
Proof.
  intros HI HQ. revert n. induction p as [x|R a k IH]; intros n [Hi Hp].
  - split; auto.
  - split; [auto|]. intros s r s' Hs Hn Ha. destruct (Hp s r s' Hs Hn Ha) as (H1 & H2 & H3). auto.
Qed.

(** While the call runs the count does not fall below the depth, unless the call
    is an unlock of the mutex; it ends as the result says. *)
Definition bound (q : mutex_request) (d k : Z) : Prop := if unlocks_it q then True else d <= k.

Lemma request_tracks u q d :
  allowed q -> 0 <= d ->
  tracks u (bound q d) (fun r k => 0 <= k /\ k = settle q r d) d (request_program q).
Proof.
  intros Ha Hd. destruct q as [p a|p|p|p|p a|p]; cbn [request_program allowed] in *; unfold bound, settle; cbn [locks_it unlocks_it].
  1,2: eapply tracks_mono; [| |(by apply tracks_init) || (by apply tracks_destroy)];
    [intros k ->; cbn; lia|intros r k _ ->; destruct (r =? 0); lia].
  1,2,3: eapply tracks_mono;
    [| |apply (tracks_validate u (fun k => d <= k) (fun r k => k = if (r =? 0) && (p =? m) then d + 1 else d));
        [lia|done|]];
    [done|intros r k Hk ->; destruct (r =? 0), (p =? m); cbn [andb]; lia|].
  - by apply tracks_common_lock.
  - by apply tracks_common_lock.
  - destruct a; [by apply tracks_common_lock|apply tracks_fail; [lia|done]].
  - eapply tracks_mono; [| |by apply tracks_unlock].
    + done.
    + intros r k _ [Hk ->]. destruct (r =? 0), (p =? m); cbn [andb] in *; done.
Qed.

(** *** The invariant *)

Record accounted (w : world) : Prop := {
  ac_followed : followed (memory w);
  ac_others t : clients w !! t = None -> count t (memory w) = 0;
  ac_clients t d b : clients w !! t = Some (Client d b) ->
    0 <= d /\
    match b with
    | None => count t (memory w) = d
    | Some (q, p) => tracks t (bound q d) (fun r k => 0 <= k /\ k = settle q r d) (count t (memory w)) p
    end
}.

(** A client changes and the counts do not. *)
Lemma accounted_client w t c :
  accounted w -> clients w !! t <> None ->
  (forall d b, c = Client d b -> 0 <= d /\
    match b with
    | None => count t (memory w) = d
    | Some (q, p) => tracks t (bound q d) (fun r k => 0 <= k /\ k = settle q r d) (count t (memory w)) p
    end) ->
  accounted (World (memory w) (<[t := c]> (clients w))).
Proof.
  intros [H1 H2 H3] Ht Hc. split; cbn [memory clients]; [done|..].
  - intros u Hu. apply H2. destruct (decide (t = u)) as [->|Hne]; [by rewrite lookup_insert_eq in Hu|].
    by rewrite lookup_insert_ne in Hu.
  - intros u d b Hu. destruct (decide (t = u)) as [->|Hne].
    + rewrite lookup_insert_eq in Hu. injection Hu as Hu. by apply Hc.
    + rewrite lookup_insert_ne in Hu by done. by apply H3.
Qed.

Lemma client_step_accounted w w' : client_step w w' -> accounted w -> accounted w'.
Proof.
  intros Hs Hw. destruct Hs as [t d q w E Ha|t d q p p' s' w E Hn|t d q r w E]; pose proof (ac_clients w Hw t _ _ E) as [Hd Hc].
  - apply accounted_client; [done|by rewrite E|]. intros d' b [= <- <-]. split; [done|]. rewrite Hc. by apply request_tracks.
  - destruct p as [x|R a k]; [done|]. cbn in Hn. destruct (a t (memory w)) as [r s1| |] eqn:Ea; [|done..].
    injection Hn as <- <-. destruct Hc as [_ Hc].
    destruct (Hc _ _ _ (ac_followed w Hw) eq_refl Ea) as (H1 & H2 & H3). split; cbn [memory clients]; [done|..].
    + intros u Hu. destruct (decide (t = u)) as [->|Hne]; [by rewrite lookup_insert_eq in Hu|].
      rewrite lookup_insert_ne in Hu by done. rewrite H2 by auto. by apply (ac_others w Hw).
    + intros u d' b Hu. destruct (decide (t = u)) as [->|Hne].
      * rewrite lookup_insert_eq in Hu. injection Hu as <- <-. done.
      * rewrite lookup_insert_ne in Hu by done. rewrite H2 by auto. by apply (ac_clients w Hw).
  - apply accounted_client; [done|by rewrite E|]. intros d' b [= <- <-]. destruct Hc as [_ [H0 Hc]]. rewrite <- Hc. done.
Qed.

(** A thread inside holds the mutant. *)
Lemma inside_holds w t : accounted w -> inside w t -> exists n, holder (sync_kernel (memory w)) h = Some (t, n).
Proof.
  intros Hw (d & b & E & Hd & Hb). destruct (ac_clients w Hw t d b E) as [_ Hc].
  assert (0 < count t (memory w)) as Hp.
  { destruct b as [[q p]|]; [|lia]. apply tracks_here in Hc. unfold bound in Hc. rewrite Hb in Hc. lia. }
  unfold count in Hp. destruct (holder (sync_kernel (memory w)) h) as [[v n]|]; [|lia].
  destruct (Z.eqb_spec v t) as [->|]; [eauto|lia].
Qed.

(** C3: mutual exclusion, over all interleavings. Any number of threads make any
    calls of [wlibc_mutex_init], [_destroy], [_lock], [_trylock], [_timedlock] and
    [_unlock] at any time on any mutexes, the steps of the calls interleaving; only
    a mutex [m] that is free at the start is not initialised again or destroyed,
    and no other mutex shares its mutant [h]. At every point at most one thread is
    inside [m]: has got more zeros from lock, trylock and timedlock of [m] than from
    unlocks and is not in an unlock of it. Whoever is in no call holds the mutant of
    the kernel exactly as many times as that, so that a call that failed took or
    released nothing; a thread that is not a client never holds it. *)
Theorem mutex_excludes (w w' : world)
    (Hf : followed (memory w)) (Hfree : holder (sync_kernel (memory w)) h = None)
    (Hidle : map_Forall (fun _ c => c = Client 0 None) (clients w)) (Hr : rtc client_step w w') :
  (forall t u, inside w' t -> inside w' u -> t = u) /\
  (forall t d, clients w' !! t = Some (Client d None) -> 0 <= d /\ count t (memory w') = d) /\
  (forall t, clients w' !! t = None -> count t (memory w') = 0).
Proof.
  assert (accounted w') as Hw'.
  { assert (accounted w) as Hw.
    { assert (forall t, count t (memory w) = 0) as Hc by (intros t; unfold count; by rewrite Hfree).
      split; [done|intros t _; apply Hc|]. intros t d b E. pose proof (Hidle t _ E) as [= -> ->]. by split. }
    clear -Hr Hw h_open create_other close_other MT. induction Hr; [done|]. by eauto using client_step_accounted. }
  split; [|split].
  - intros t u Ht Hu. destruct (inside_holds w' t Hw' Ht) as [n E], (inside_holds w' u Hw' Hu) as [k E']. congruence.
  - intros t d E. exact (ac_clients w' Hw' t d None E).
  - apply (ac_others w' Hw').
Qed.
End Exclusion.

(** ** One thread *)

Inductive mutex_op := Lock | TryLock | Unlock.

Section Counter.
Context {K : Type} {SK : SyncKernel K} (holder : K -> Z -> option (Z * Z)) {MT : Mutants holder}.
Context (m t type h : Z).

Definition perform (o : mutex_op) : prog (sync K) Z :=
  match o with Lock => wlibc_mutex_lock m | TryLock => wlibc_mutex_trylock m | Unlock => wlibc_mutex_unlock m end.

Fixpoint perform_all (l : list mutex_op) : prog (sync K) (list Z) :=
  match l with [] => mret [] | o :: l => r ← perform o; rs ← perform_all l; mret (r :: rs) end.

Definition recursive : bool := Z.land type WLIBC_MUTEX_RECURSIVE =? WLIBC_MUTEX_RECURSIVE.

(** What a call does to the number of locks. *)
Definition counts (o : mutex_op) (n : Z) : Z * Z :=
  match o with
  | Lock | TryLock => if recursive || (n =? 0) then (0, n + 1) else (-1, n)
  | Unlock => if n >? 0 then (0, n - 1) else (-1, n)
  end.

Fixpoint counts_all (l : list mutex_op) (n : Z) : list Z * Z :=
  match l with [] => ([], n) | o :: l => let '(r, n) := counts o n in let '(rs, n) := counts_all l n in (r :: rs, n) end.

(** Thread [t] has locked the mutex [n] times and nobody else has. *)
Definition locked (n : Z) (s : sync K) : Prop :=
  mutexes s !! m = Some (Mutex (if n =? 0 then 0 else t) n type h) /\
  holder (sync_kernel s) h = (if n =? 0 then None else Some (t, n)).

Context (m_ok : m <> 0) (t_ok : t <> 0) (h_ok : h <> 0).

Lemma validate_alone f n s : locked n s -> alone t (validate_mutex m f) s = alone t f s.
Proof.
  intros [Hm _]. unfold validate_mutex, validate_ptr. rewrite (proj2 (Z.eqb_neq m 0) m_ok). cbn. rewrite Hm. cbn.
  by rewrite (proj2 (Z.eqb_neq h 0) h_ok).
Qed.

Lemma read_alone {R} (f : mutex_t -> R) n s : locked n s ->
  alone t (read_mutex m f) s = Done (f (Mutex (if n =? 0 then 0 else t) n type h)) s.
Proof. intros [Hm _]. cbn. by rewrite Hm. Qed.

(** The part of a lock that is reached when the thread may lock. *)
Lemma wait_alone o n s : locked n s -> 0 <= n -> exists k,
  WaitForMutant h t o (sync_kernel s) = Some (STATUS_SUCCESS, k) /\ holder k h = Some (t, n + 1).
Proof.
  intros [_ Hh] Hn. destruct (Z.eqb_spec n 0) as [->|Hz].
  - destruct (mut_free h t o _ Hh) as (k & W & Hk). exists k. rewrite Hk, Z.eqb_refl. done.
  - destruct (mut_again h t o n _ Hh) as (k & W & Hk). exists k. rewrite Hk, Z.eqb_refl. done.
Qed.

Lemma lock_alone a n s : locked n s -> 0 <= n < 2 ^ 32 - 1 -> (a = None \/ a = Some (Timespec 0 0)) ->
  exists s', alone t (wlibc_mutex_common_lock m a) s = Done (counts Lock n).1 s' /\ locked (counts Lock n).2 s'.
Proof.
  intros Hl Hn Ha. unfold wlibc_mutex_common_lock, counts, recursive.
  rewrite (alone_bind_Done _ _ _ _ _ _ (read_alone _ _ _ Hl)). cbn [mutex_type].
  set (rec := Z.land type WLIBC_MUTEX_RECURSIVE =? WLIBC_MUTEX_RECURSIVE).
  rewrite (alone_bind_Done _ _ _ s (negb rec && negb (n =? 0)) s).
  2:{ destruct rec; cbn [negb andb]; [done|]. rewrite (alone_bind_Done _ _ _ s t s) by done.
      rewrite (alone_bind_Done _ _ _ _ _ _ (read_alone _ _ _ Hl)). cbn [owner].
      destruct (n =? 0); [rewrite (proj2 (Z.eqb_neq 0 t)) by auto | rewrite Z.eqb_refl]; reflexivity. }
  destruct (negb rec && negb (n =? 0)) eqn:Hd.
  - exists (with_errnos s (<[t := EDEADLK]> (errnos s))). apply andb_true_iff in Hd. destruct Hd as [H1 H2].
    apply negb_true_iff in H1, H2. rewrite H1, H2. split; [done | exact Hl].
  - assert (rec || (n =? 0) = true) as -> by (destruct rec, (n =? 0); done).
    rewrite (alone_bind_Done _ _ _ _ _ _ (read_alone _ _ _ Hl)). cbn [mutex_type].
    assert (exists o, lock_timeout type a = Some o) as [o ->].
    { unfold lock_timeout. destruct Ha as [->| ->]; destruct (Z.land _ _ =? 0); eexists; reflexivity. }
    rewrite (alone_bind_Done _ _ _ _ _ _ (read_alone _ _ _ Hl)). cbn [mutex_handle].
    destruct (wait_alone o n s Hl) as (k & W & Hk); [lia|]. destruct Hl as [Hm Hh].
    rewrite (alone_bind_Done _ _ _ s STATUS_SUCCESS (with_system s k)) by (cbn; by rewrite W).
    rewrite bool_decide_eq_true_2 by done. cbn. rewrite Hm. cbn. rewrite lookup_insert_eq. cbn.
    eexists. split; [reflexivity|]. split; cbn.
    + rewrite lookup_insert_eq. rewrite (proj2 (Z.eqb_neq (n + 1) 0)) by lia. unfold with_lock_count, with_owner. cbn.
      rewrite wrap_small by lia. done.
    + rewrite (proj2 (Z.eqb_neq (n + 1) 0)) by lia. exact Hk.
Qed.

Lemma unlock_alone n s : locked n s -> 0 <= n < 2 ^ 32 ->
  exists s', alone t (wlibc_mutex_unlock m) s = Done (counts Unlock n).1 s' /\ locked (counts Unlock n).2 s'.
Proof.
  intros Hl Hn. unfold wlibc_mutex_unlock, counts. rewrite (validate_alone _ _ _ Hl).
  rewrite (alone_bind_Done _ _ _ _ _ _ (read_alone _ _ _ Hl)). cbn [mutex_handle].
  pose proof Hl as [Hm Hh]. destruct (Z.gtb_spec n 0) as [Hp|Hp].
  - rewrite (proj2 (Z.eqb_neq n 0)) in * by lia. destruct (mut_release h t n _ Hh) as (k & W & Hk).
    rewrite (alone_bind_Done _ _ _ s STATUS_SUCCESS (with_system s k)) by (cbn; by rewrite W).
    rewrite bool_decide_eq_true_2 by done. cbn. rewrite Hm. cbn. rewrite wrap_small by lia.
    specialize (Hk h). rewrite Z.eqb_refl in Hk.
    destruct (Z.eqb_spec (n - 1) 0) as [Hz|Hz].
    + cbn. rewrite lookup_insert_eq. eexists. split; [reflexivity|]. split; cbn.
      * rewrite lookup_insert_eq. unfold with_owner, with_lock_count. cbn. rewrite Hz. done.
      * rewrite Hk. rewrite (proj2 (Z.eqb_eq n 1)) by lia. rewrite (proj2 (Z.eqb_eq (n - 1) 0)) by lia. done.
    + cbn. eexists. split; [reflexivity|]. split; cbn.
      * rewrite lookup_insert_eq. unfold with_lock_count. cbn. rewrite (proj2 (Z.eqb_neq (n - 1) 0)) by lia. done.
      * rewrite Hk. rewrite (proj2 (Z.eqb_neq n 1)) by lia. rewrite (proj2 (Z.eqb_neq (n - 1) 0)) by lia. done.
  - assert (n = 0) as -> by lia. cbn in Hh.
    rewrite (alone_bind_Done _ _ _ s STATUS_MUTANT_NOT_OWNED s).
    2:{ cbn. rewrite mut_not_owned by (intros; congruence). cbn. by destruct s. }
    rewrite bool_decide_eq_false_2 by done. cbn. eexists. split; [reflexivity|]. exact Hl.
Qed.

(** C13: for the thread that uses it, a mutex is a counter of locks: a lock or a
    trylock succeeds and counts when the mutex is recursive or free, and fails
    otherwise; an unlock succeeds and counts down when it is locked, and fails
    otherwise. The recorded owner and count, and the mutant of the kernel, agree
    after every sequence of calls. *)
Theorem mutex_refines_counter (ops : list mutex_op) (n : Z) (s : sync K) :
  locked n s -> 0 <= n -> n + zlen ops < 2 ^ 32 ->
  exists s', alone t (perform_all ops) s = Done (counts_all ops n).1 s' /\ locked (counts_all ops n).2 s'.
Proof.
  revert n s. induction ops as [|o ops IH]; intros n s Hl Hn Hb; cbn [perform_all counts_all]; [eauto|].
  cbn [length] in Hb. rewrite Nat2Z.inj_succ in Hb.
  assert (exists s', alone t (perform o) s = Done (counts o n).1 s' /\ locked (counts o n).2 s') as (s1 & E & Hl1).
  { destruct o; cbn [perform]; unfold wlibc_mutex_lock, wlibc_mutex_trylock.
    - rewrite (validate_alone _ _ _ Hl). apply lock_alone; auto; lia.
    - rewrite (validate_alone _ _ _ Hl). apply lock_alone; auto; lia.
    - apply unlock_alone; auto; lia. }
  assert (0 <= (counts o n).2 <= n + 1).
  { destruct o; cbn; [destruct (_ || _) | destruct (_ || _) | destruct (Z.gtb_spec n 0)]; cbn; lia. }
  rewrite (alone_bind_Done _ _ _ _ _ _ E). destruct (counts o n) as [r n1]. cbn [fst snd] in *.
  destruct (IH n1 s1 Hl1) as (s2 & E2 & Hl2); [lia..|].
  rewrite (alone_bind_Done _ _ _ _ _ _ E2). destruct (counts_all ops n1) as [rs n2]. exists s2. auto.
Qed.
End Counter.

(** ** The owner that is lost *)

Section Race.
Context {K : Type} {SK : SyncKernel K} (holder : K -> Z -> option (Z * Z)) {MT : Mutants holder}.

(** A mutex whose owner is not recorded can be locked by a thread that holds it. *)
Lemma lock_unrecorded m u n type h k (s : sync K) : m <> 0 -> h <> 0 -> u <> 0 ->
  mutexes s !! m = Some (Mutex 0 n type h) -> WaitForMutant h u None (sync_kernel s) = Some (STATUS_SUCCESS, k) ->
  exists s', alone u (wlibc_mutex_lock m) s = Done 0 s'.
Proof.
  intros Hm Hh Hu Hx W. unfold wlibc_mutex_lock, validate_mutex, validate_ptr, wlibc_mutex_common_lock. rewrite (proj2 (Z.eqb_neq m 0) Hm).
  assert (forall R (f : mutex_t -> R), alone u (read_mutex m f) s = Done (f (Mutex 0 n type h)) s) as Rd by (intros; cbn; by rewrite Hx).
  rewrite (alone_bind_Done _ _ _ _ _ _ (Rd _ _)). cbn [mutex_handle]. rewrite (proj2 (Z.eqb_neq h 0) Hh).
  rewrite (alone_bind_Done _ _ _ _ _ _ (Rd _ _)). rewrite (alone_bind_Done _ _ _ s false s).
  2:{ destruct (negb _); [|done]. rewrite (alone_bind_Done _ _ _ s u s) by done. rewrite (alone_bind_Done _ _ _ _ _ _ (Rd _ _)).
      cbn [owner]. by rewrite (proj2 (Z.eqb_neq 0 u)) by auto. }
  rewrite (alone_bind_Done _ _ _ _ _ _ (Rd _ _)). cbn [mutex_type].
  assert (lock_timeout type None = Some None) as -> by (unfold lock_timeout; by destruct (_ =? 0)).
  rewrite (alone_bind_Done _ _ _ _ _ _ (Rd _ _)). cbn [mutex_handle].
  rewrite (alone_bind_Done _ _ _ s STATUS_SUCCESS (with_system s k)) by (cbn; by rewrite W).
  rewrite bool_decide_eq_true_2 by done. cbn. rewrite Hx. cbn. rewrite lookup_insert_eq. eauto.
Qed.

(** the recorded owner can be lost: between the two steps in which an unlock
    counts down to zero and clears the owner, another thread may lock the mutex.
    That thread then holds the mutex without being recorded, and its next lock of
    the mutex, which is not recursive, is not refused. *)
Theorem unlock_forgets_owner (m t u type h : Z) (s : sync K) :
  m <> 0 -> h <> 0 -> u <> 0 -> t <> u -> Z.land type WLIBC_MUTEX_RECURSIVE = 0 ->
  mutexes s !! m = Some (Mutex t 1 type h) -> holder (sync_kernel s) h = Some (t, 1) ->
  exists l s',
    schedule l (pair_of s t (wlibc_mutex_unlock m) u (wlibc_mutex_lock m)) = Some (pair_of s' t (Ret 0) u (Ret 0)) /\
    holder (sync_kernel s') h = Some (u, 1) /\ mutexes s' !! m = Some (Mutex 0 1 type h) /\
    exists s'', alone u (wlibc_mutex_lock m) s' = Done 0 s''.
Proof.
  intros Hm Hh Hu Htu Hr Hx Hl. exists [u; u; u; u; u; u; t; t; t; t; u; u; u; u; t].
  destruct (mut_release h t 1 _ Hl) as (k1 & R1 & H1). specialize (H1 h). rewrite Z.eqb_refl in H1. cbn in H1.
  assert (lock_timeout type None = Some None) as Ho by (unfold lock_timeout; by destruct (_ =? 0)).
  destruct (mut_free h u None _ H1) as (k2 & W2 & H2). specialize (H2 h). rewrite Z.eqb_refl in H2.
  destruct (mut_again h u None 1 _ H2) as (k3 & W3 & _).
  pose proof (bool_decide_eq_true_2 (STATUS_SUCCESS = STATUS_SUCCESS) eq_refl) as success.
  eexists. split; [|split; [|split]].
  { unfold wlibc_mutex_unlock, wlibc_mutex_lock, validate_mutex, validate_ptr, wlibc_mutex_common_lock. rewrite (proj2 (Z.eqb_neq m 0) Hm).
    second_finds Hx. rewrite (proj2 (Z.eqb_neq h 0) Hh). second_finds Hx. rewrite Hr. change (negb (0 =? WLIBC_MUTEX_RECURSIVE)) with true. cbv iota.
    second_step. second_finds Hx. rewrite (proj2 (Z.eqb_neq t u) Htu). second_finds Hx. rewrite Ho. second_finds Hx.
    first_finds Hx. rewrite (proj2 (Z.eqb_neq h 0) Hh). first_finds Hx. first_finds R1. rewrite success. first_finds Hx.
    second_finds W2. rewrite success. second_step. second_finds (@lookup_insert_eq Z (gmap Z) _ _ _ _ _ _ _ _ _ mutex_t). second_finds (@lookup_insert_eq Z (gmap Z) _ _ _ _ _ _ _ _ _ mutex_t).
    change (u32 (1 - 1) =? 0) with true. cbv iota. first_finds (@lookup_insert_eq Z (gmap Z) _ _ _ _ _ _ _ _ _ mutex_t). reflexivity. }
  - exact H2.
  - cbn. rewrite lookup_insert_eq. reflexivity.
  - apply (lock_unrecorded m u 1 type h k3); auto. cbn. rewrite lookup_insert_eq. reflexivity.
Qed.
End Race.

(** ** The trylock that waits *)

Section TryLock.
Context {K : Type} {SK : SyncKernel K} (holder : K -> Z -> option (Z * Z)) {MT : Mutants holder}.

(** the trylock of a mutex that another thread has locked fails with
    [EBUSY], but only if the mutex was made with the flag for timed waits; otherwise
    it waits until the mutex is unlocked. *)
Theorem trylock_waits (m t u n type h : Z) (s : sync K) :
  m <> 0 -> h <> 0 -> u <> t -> mutexes s !! m = Some (Mutex t n type h) -> holder (sync_kernel s) h = Some (t, n) ->
  if Z.land type WLIBC_MUTEX_TIMED =? 0 then alone u (wlibc_mutex_trylock m) s = Wait
  else exists s', alone u (wlibc_mutex_trylock m) s = Done (-1) s' /\ errno_of u s' = EBUSY /\
         mutexes s' = mutexes s /\ sync_kernel s' = sync_kernel s.
Proof.
  intros Hm Hh Hu Hx Hl. unfold wlibc_mutex_trylock, validate_mutex, validate_ptr, wlibc_mutex_common_lock. rewrite (proj2 (Z.eqb_neq m 0) Hm).
  assert (forall R (f : mutex_t -> R), alone u (read_mutex m f) s = Done (f (Mutex t n type h)) s) as Rd by (intros; cbn; by rewrite Hx).
  rewrite (alone_bind_Done _ _ _ _ _ _ (Rd _ _)). cbn [mutex_handle]. rewrite (proj2 (Z.eqb_neq h 0) Hh).
  rewrite (alone_bind_Done _ _ _ _ _ _ (Rd _ _)). rewrite (alone_bind_Done _ _ _ s false s).
  2:{ destruct (negb _); [|done]. rewrite (alone_bind_Done _ _ _ s u s) by done. rewrite (alone_bind_Done _ _ _ _ _ _ (Rd _ _)).
      cbn [owner]. by rewrite (proj2 (Z.eqb_neq t u)) by auto. }
  rewrite (alone_bind_Done _ _ _ _ _ _ (Rd _ _)). cbn [mutex_type]. unfold lock_timeout.
  destruct (Z.land type WLIBC_MUTEX_TIMED =? 0); cbn [tv_sec tv_nsec Z.eqb negb andb];
    rewrite (alone_bind_Done _ _ _ _ _ _ (Rd _ _)); cbn [mutex_handle]; rewrite alone_bind.
  - cbn [alone system_call atomically]. by rewrite (mut_wait h u t n _ Hl) by auto.
  - cbn [alone system_call atomically]. rewrite (mut_try h u t n _ Hl) by auto. rewrite bool_decide_eq_false_2 by done. cbn.
    unfold errno_of at 1. cbn [with_errnos errnos]. rewrite lookup_insert_eq. rewrite bool_decide_eq_true_2 by done. cbn.
    eexists. split; [reflexivity|]. unfold errno_of. cbn. by rewrite lookup_insert_eq.
Qed.
End TryLock.

(** ** A kernel with mutants *)

Module Locks.

(** The holders of the mutants. *)
Definition locks : Type := Z -> option (Z * Z).

Definition update_lock (k : locks) (h : Z) (o : option (Z * Z)) : locks := fun h' => if h' =? h then o else k h'.

#[export] Instance locks_kernel : SyncKernel locks := {
  NtCreateMutant k := (STATUS_SUCCESS, 1, k);
  NtCloseMutant _ k := (STATUS_SUCCESS, k);
  WaitForMutant h t o k :=
    match k h with
    | None => Some (STATUS_SUCCESS, update_lock k h (Some (t, 1)))
    | Some (u, n) =>
        if u =? t then Some (STATUS_SUCCESS, update_lock k h (Some (t, n + 1)))
        else match o with None => None | Some _ => Some (STATUS_TIMEOUT, k) end
    end;
  NtReleaseMutant h t k :=
    match k h with
    | Some (u, n) =>
        if u =? t then (STATUS_SUCCESS, update_lock k h (if n =? 1 then None else Some (t, n - 1)))
        else (STATUS_MUTANT_NOT_OWNED, k)
    | None => (STATUS_MUTANT_NOT_OWNED, k)
    end;
  NtAlertThreadByThreadId _ k := (STATUS_SUCCESS, k);
  NtWaitForAlertByThreadId _ _ k := Some (STATUS_SUCCESS, k);
  RtlTryAcquireSRWLockShared p := Some (p + 1);
  RtlTryAcquireSRWLockExclusive p := if p =? 0 then Some (-1) else None;
  RtlReleaseSRWLockShared p := Some (p - 1);
  RtlReleaseSRWLockExclusive p := Some 0;
  GetSystemTimeAsFileTime k := (0, k)
}.

#[export] Instance locks_mutants : Mutants (fun k : locks => k).
Proof.
  split; intros; cbn.
  - rewrite H. by eexists.
  - rewrite H, Z.eqb_refl. by eexists.
  - rewrite H. by rewrite (proj2 (Z.eqb_neq _ _)).
  - rewrite H. by rewrite (proj2 (Z.eqb_neq _ _)).
  - rewrite H. rewrite (proj2 (Z.eqb_neq _ _)) by done. by right.
  - rewrite H, Z.eqb_refl. by eexists.
  - destruct (k h) as [[u n]|] eqn:E; [|done]. destruct (Z.eqb_spec u t) as [->|]; [by destruct (H n) | done].
  - done.
Qed.

(** One mutex at address 100, held by thread 1. *)
Definition taken (type : Z) : sync locks :=
  Sync {[100 := Mutex 1 1 type 5]} ∅ ∅ ∅ (fun h => if h =? 5 then Some (1, 1) else None).

End Locks.
Import Locks.

(** Two threads and the same mutex, free. *)
Definition two_clients : world (K := locks) :=
  World (Sync {[100 := Mutex 0 0 WLIBC_MUTEX_TIMED 5]} ∅ ∅ ∅ (fun _ => None))
    (<[1 := Client 0 None]> (<[2 := Client 0 None]> ∅)).

(** Thread 1 locks and thread 2 tries to at the same time. *)
Definition contention : list action :=
  [Call 1 (RLock 100); Call 2 (RTryLock 100)] ++ concat (replicate 10 [Run 1; Run 2]) ++ [Run 2; Return 1; Return 2].

(** One of them gets in, the other does not. *)
Lemma mutex_excludes_witness : exists w',
  rtc (client_step 100) two_clients w' /\
  clients w' = <[2 := Client 0 None]> (<[1 := Client 1 None]> (<[2 := Client 0 None]> ∅)) /\
  inside 100 w' 1 /\ (forall u, inside 100 w' u -> 1 = u) /\
  count (fun k : locks => k) 5 1 (memory w') = 1 /\ count (fun k : locks => k) 5 3 (memory w') = 0.
Proof.
  destruct (act_all 100 contention two_clients) as [w'|] eqn:E.
  2:{ assert (is_Some (act_all 100 contention two_clients)) as [w' Ew] by (vm_compute; eauto). by rewrite E in Ew. }
  exists w'.
  assert (rtc (client_step 100) two_clients w') as Hr by (apply (act_all_steps 100 contention); [repeat constructor|done]).
  destruct (mutex_excludes (fun k : locks => k) 100 5) with (w := two_clients) (w' := w') as (H1 & H2 & H3).
  - done.
  - intros k. by split.
  - done.
  - split.
    + exists (Mutex 0 0 WLIBC_MUTEX_TIMED 5). split; reflexivity.
    + intros p x Hp Hne. cbn in Hp. rewrite lookup_singleton_ne in Hp by auto. discriminate.
    + intros v n Hn. discriminate.
  - reflexivity.
  - cbn [two_clients clients]. apply map_Forall_insert_2; [done|]. apply map_Forall_insert_2; [done|]. apply map_Forall_empty.
  - exact Hr.
  - assert (clients w' !! 1 = Some (Client 1 None) /\ clients w' !! 3 = None /\
      clients w' = <[2 := Client 0 None]> (<[1 := Client 1 None]> (<[2 := Client 0 None]> ∅))) as (C1 & C3 & C).
    { assert (clients <$> act_all 100 contention two_clients =
        Some (<[2 := Client 0 None]> (<[1 := Client 1 None]> (<[2 := Client 0 None]> ∅)))) as Ec by (vm_compute; reflexivity).
      rewrite E in Ec. injection Ec as Ec. rewrite Ec. clear. split; [|split]; reflexivity. }
    clear E.
    assert (inside 100 w' 1) as In1 by (exists 1, None; split; [exact C1|split; [lia|exact I]]).
    split; [exact Hr|]. split; [exact C|]. split; [exact In1|]. split; [intros u Hu; apply H1; assumption|].
    split; [apply (H2 1 1); exact C1|apply H3; exact C3].
Defined.

Lemma mutex_refines_counter_witness : exists s',
  alone 1 (perform_all 100 [Lock; Unlock; Unlock; TryLock; Lock]) (taken WLIBC_MUTEX_RECURSIVE) = Done [0; 0; 0; 0; 0] s'.
Proof.
  destruct (mutex_refines_counter (fun k : locks => k) 100 1 WLIBC_MUTEX_RECURSIVE 5 ltac:(lia) ltac:(lia) ltac:(lia)
    [Lock; Unlock; Unlock; TryLock; Lock] 1 (taken WLIBC_MUTEX_RECURSIVE)) as (s' & H & _).
  - split; reflexivity.
  - lia.
  - cbn. lia.
  - exists s'. exact H.
Defined.

Lemma unlock_forgets_owner_witness : exists l s',
  schedule l (pair_of (taken WLIBC_MUTEX_TIMED) 1 (wlibc_mutex_unlock 100) 2 (wlibc_mutex_lock 100)) = Some (pair_of s' 1 (Ret 0) 2 (Ret 0)) /\
  sync_kernel s' 5 = Some (2, 1).
Proof.
  destruct (unlock_forgets_owner (fun k : locks => k) 100 1 2 WLIBC_MUTEX_TIMED 5 (taken WLIBC_MUTEX_TIMED)) as (l & s' & H & Hh & _);
    [lia.. | reflexivity | reflexivity | reflexivity | exists l, s'; auto].
Defined.

Lemma trylock_waits_witness :
  alone 2 (wlibc_mutex_trylock 100) (taken WLIBC_MUTEX_RECURSIVE) = Wait.
Proof.
  apply (trylock_waits (fun k : locks => k) 100 1 2 1 WLIBC_MUTEX_RECURSIVE 5 (taken WLIBC_MUTEX_RECURSIVE)); (lia || reflexivity).
Defined.
