(* ===== verification/Rwlock.v ===== *)
(** * Read-write locks

    src/thread/rwlock.c: a slim lock of the runtime, whose pointer is 0 while it is
    free, and a field that tells in which way it was locked. *)

From stdpp Require Import gmap.
From S2P Require Import Prelude Errno Time Concurrent Sync Mutex.

Definition RWLOCK_NOT_LOCKED : Z := 0.
Definition RWLOCK_SHARED_LOCK : Z := 1.
Definition RWLOCK_EXCLUSIVE_LOCK : Z := 2.
Definition RWLOCK_DESTROYED : Z := -1.

Record rwlock_attr_t := RwlockAttr { rattr_shared : Z }.

Definition with_srw_ptr (p : Z) (l : rwlock_t) : rwlock_t := Rwlock p (rw_lock l).
Definition with_rw_lock (v : Z) (l : rwlock_t) : rwlock_t := Rwlock (srw_ptr l) v.

Section Rwlocks.
Context {K : Type} {SK : SyncKernel K}.

Abbreviation T := (prog (sync K)).

(** ** The slim lock *)

(** The pointer becomes what [f] gives; without it the thread waits. *)
Definition acquire (l : Z) (f : Z -> option Z) : T unit :=
  atomically (fun _ s => match rwlocks s !! l with
                         | Some x => match f (srw_ptr x) with
                                     | Some p => Done () (with_rwlocks s (<[l := with_srw_ptr p x]> (rwlocks s)))
                                     | None => Wait
                                     end
                         | None => Wrong
                         end).

(** The same without waiting. *)
Definition try_acquire (l : Z) (f : Z -> option Z) : T bool :=
  atomically (fun _ s => match rwlocks s !! l with
                         | Some x => match f (srw_ptr x) with
                                     | Some p => Done true (with_rwlocks s (<[l := with_srw_ptr p x]> (rwlocks s)))
                                     | None => Done false s
                                     end
                         | None => Wrong
                         end).

(** A release that is not allowed is a fault. *)
Definition release (l : Z) (f : Z -> option Z) : T unit :=
  atomically (fun _ s => match rwlocks s !! l with
                         | Some x => match f (srw_ptr x) with
                                     | Some p => Done () (with_rwlocks s (<[l := with_srw_ptr p x]> (rwlocks s)))
                                     | None => Wrong
                                     end
                         | None => Wrong
                         end).

(** ** Operations *)

(** [VALIDATE_RWLOCK] and then [f]. *)
Definition validate_rwlock {X} (l : Z) (error : T X) (f : T X) : T X :=
  if l =? 0 then error
  else v ← read_rwlock l rw_lock; if v =? RWLOCK_DESTROYED then error else f.

Definition wlibc_rwlock_init (l : Z) : T Z :=
  validate_ptr l (_ ← change_rwlock l (fun _ => Rwlock 0 RWLOCK_NOT_LOCKED); mret 0).

Definition wlibc_rwlock_destroy (l : Z) : T Z :=
  validate_rwlock l (fail EINVAL) (_ ← change_rwlock l (with_rw_lock RWLOCK_DESTROYED); mret 0).

Definition wlibc_rwlock_rdlock (l : Z) : T Z :=
  validate_rwlock l (fail EINVAL) (
    _ ← acquire l RtlTryAcquireSRWLockShared; _ ← change_rwlock l (with_rw_lock RWLOCK_SHARED_LOCK); mret 0).

Definition wlibc_rwlock_tryrdlock (l : Z) : T Z :=
  validate_rwlock l (fail EINVAL) (
    ok ← try_acquire l RtlTryAcquireSRWLockShared;
    if ok : bool then _ ← change_rwlock l (with_rw_lock RWLOCK_SHARED_LOCK); mret 0 else fail EBUSY).

Definition wlibc_rwlock_wrlock (l : Z) : T Z :=
  validate_rwlock l (fail EINVAL) (
    _ ← acquire l RtlTryAcquireSRWLockExclusive; _ ← change_rwlock l (with_rw_lock RWLOCK_EXCLUSIVE_LOCK); mret 0).

Definition wlibc_rwlock_trywrlock (l : Z) : T Z :=
  validate_rwlock l (fail EINVAL) (
    ok ← try_acquire l RtlTryAcquireSRWLockExclusive;
    if ok : bool then _ ← change_rwlock l (with_rw_lock RWLOCK_EXCLUSIVE_LOCK); mret 0 else fail EBUSY).

(** The spin until the lock is acquired or the time has come, at most [fuel]
    rounds; [None] when they were not enough. *)
Fixpoint spin (fuel : nat) (l : Z) (f : Z -> option Z) (kind duetime : Z) : T (option Z) :=
  match fuel with
  | O => mret None
  | S fuel =>
      ok ← try_acquire l f;
      if ok : bool then _ ← change_rwlock l (with_rw_lock kind); mret (Some 0)
      else
        current ← system_call (fun _ k => Some (GetSystemTimeAsFileTime k));
        if current <=? duetime then spin fuel l f kind duetime
        else r ← fail ETIMEDOUT; mret (Some r)
  end.

Definition timed_lock (fuel : nat) (l : Z) (f : Z -> option Z) (kind : Z) (abstime : option timespec) : T (option Z) :=
  let error : T (option Z) := r ← fail EINVAL; mret (Some r) in
  validate_rwlock l error (
    match abstime with
    | None => error
    | Some a => match timespec_to_LARGE_INTEGER a with Some duetime => spin fuel l f kind duetime | None => undefined end
    end).

Definition wlibc_rwlock_timedrdlock (fuel : nat) (l : Z) (abstime : option timespec) : T (option Z) :=
  timed_lock fuel l RtlTryAcquireSRWLockShared RWLOCK_SHARED_LOCK abstime.

Definition wlibc_rwlock_timedwrlock (fuel : nat) (l : Z) (abstime : option timespec) : T (option Z) :=
  timed_lock fuel l RtlTryAcquireSRWLockExclusive RWLOCK_EXCLUSIVE_LOCK abstime.

Definition wlibc_rwlock_unlock (l : Z) : T Z :=
  validate_rwlock l (fail EINVAL) (
    p ← read_rwlock l srw_ptr;
    if p =? 0 then _ ← set_errno EPERM; _ ← change_rwlock l (with_rw_lock RWLOCK_NOT_LOCKED); mret (-1)
    else
      v ← read_rwlock l rw_lock;
      let released (m : T unit) : T Z :=
        _ ← m;
        p ← read_rwlock l srw_ptr;
        _ ← (if p =? 0 then change_rwlock l (with_rw_lock RWLOCK_NOT_LOCKED) else mret ());
        mret 0 in
      if v =? RWLOCK_SHARED_LOCK then released (release l RtlReleaseSRWLockShared)
      else if v =? RWLOCK_EXCLUSIVE_LOCK then released (release l RtlReleaseSRWLockExclusive)
      else fail EPERM).

(** ** Attributes *)

Definition wlibc_rwlockattr_init (a : option rwlock_attr_t) : T (Z * option rwlock_attr_t) :=
  match a with None => r ← fail EINVAL; mret (r, None) | Some _ => mret (0, Some (RwlockAttr WLIBC_PROCESS_PRIVATE)) end.

Definition wlibc_rwlockattr_getpshared (a : option rwlock_attr_t) (place : bool) : T (Z * option Z) :=
  match a with
  | Some a => if place then mret (0, Some (rattr_shared a)) else r ← fail EINVAL; mret (r, None)
  | None => r ← fail EINVAL; mret (r, None)
  end.

(** Nothing is stored. *)
Definition wlibc_rwlockattr_setpshared (a : option rwlock_attr_t) (pshared : Z) : T Z :=
  match a with None => fail EINVAL | Some _ => if valid_pshared pshared then mret 0 else fail EINVAL end.

End Rwlocks.

(** ** What a read-write lock promises

    Calls that do not overlap see one writer or several readers; a timed lock ends;
    and an unlock that overlaps a lock can leave the lock locked forever. *)
(** The ways a slim lock can be held. *)
Inductive slim := Free | Readers (n : Z) | Writer.

(** The slim locks of the runtime: [view] is what the pointer says; it is 0 just when
    the lock is free. Releasing a lock that is not held in this way is a fault. *)
Class SlimLocks {K : Type} `{SyncKernel K} (view : Z -> slim) : Prop := {
  slim_free p : view p = Free <-> p = 0;
  slim_readers p n : view p = Readers n -> 0 < n;
  slim_shared p :
    match view p with
    | Free => exists q, RtlTryAcquireSRWLockShared p = Some q /\ view q = Readers 1
    | Readers n => exists q, RtlTryAcquireSRWLockShared p = Some q /\ view q = Readers (n + 1)
    | Writer => RtlTryAcquireSRWLockShared p = None
    end;
  slim_exclusive p :
    match view p with
    | Free => exists q, RtlTryAcquireSRWLockExclusive p = Some q /\ view q = Writer
    | _ => RtlTryAcquireSRWLockExclusive p = None
    end;
  slim_release_shared p n : view p = Readers n ->
    exists q, RtlReleaseSRWLockShared p = Some q /\ view q = if n =? 1 then Free else Readers (n - 1);
  slim_release_exclusive p : view p = Writer -> exists q, RtlReleaseSRWLockExclusive p = Some q /\ view q = Free
}.

(** ** Calls that do not overlap *)

Inductive rw_op := TryRead | TryWrite | Release.

Section Sequential.
Context {K : Type} {SK : SyncKernel K} (view : Z -> slim) {SL : SlimLocks view}.
Context (l : Z) (l_ok : l <> 0).
Implicit Types s : sync K.

Definition rw_perform (o : rw_op) : prog (sync K) Z :=
  match o with TryRead => wlibc_rwlock_tryrdlock l | TryWrite => wlibc_rwlock_trywrlock l | Release => wlibc_rwlock_unlock l end.

(** The calls of the threads one after the other; [None] when one of them waits or
    is undefined. *)
Fixpoint rw_run (ops : list (Z * rw_op)) (s : sync K) : option (list Z * sync K) :=
  match ops with
  | [] => Some ([], s)
  | (t, o) :: ops =>
      match alone t (rw_perform o) s with
      | Done r s => '(rs, s) ← rw_run ops s; Some (r :: rs, s)
      | _ => None
      end
  end.

(** The contract: any number of readers, or one writer. *)
Definition rw_spec (o : rw_op) (w : slim) : Z * slim :=
  match o, w with
  | TryRead, Free => (0, Readers 1)
  | TryRead, Readers n => (0, Readers (n + 1))
  | TryRead, Writer => (-1, Writer)
  | TryWrite, Free => (0, Writer)
  | TryWrite, w => (-1, w)
  | Release, Free => (-1, Free)
  | Release, Readers n => (0, if n =? 1 then Free else Readers (n - 1))
  | Release, Writer => (0, Free)
  end.

Fixpoint rw_spec_all (ops : list (Z * rw_op)) (w : slim) : list Z * slim :=
  match ops with
  | [] => ([], w)
  | (_, o) :: ops => let '(r, w) := rw_spec o w in let '(rs, w) := rw_spec_all ops w in (r :: rs, w)
  end.

Definition kind_of (w : slim) : Z :=
  match w with Free => RWLOCK_NOT_LOCKED | Readers _ => RWLOCK_SHARED_LOCK | Writer => RWLOCK_EXCLUSIVE_LOCK end.

(** The lock is in the state [w], and its field says so. *)
Definition is_lock (w : slim) (s : sync K) : Prop :=
  exists p, rwlocks s !! l = Some (Rwlock p (kind_of w)) /\ view p = w.

Lemma validate_rw {X} (e f : prog (sync K) X) t w s : is_lock w s -> alone t (validate_rwlock l e f) s = alone t f s.
Proof.
  intros (p & Hp & _). unfold validate_rwlock. rewrite (proj2 (Z.eqb_neq l 0) l_ok). rewrite alone_bind. cbn [alone read_rwlock atomically].
  rewrite Hp. cbn [rw_lock]. by destruct w.
Qed.

Lemma try_acquire_alone t f p v q s : rwlocks s !! l = Some (Rwlock p v) -> f p = Some q ->
  alone t (try_acquire l f) s = Done true (with_rwlocks s (<[l := Rwlock q v]> (rwlocks s))).
Proof. intros H E. cbn. rewrite H. cbn. by rewrite E. Qed.

Lemma try_acquire_fails t f p v s : rwlocks s !! l = Some (Rwlock p v) -> f p = None -> alone t (try_acquire l f) s = Done false s.
Proof. intros H E. cbn. rewrite H. cbn. by rewrite E. Qed.

(** A try that succeeds leaves the lock in the state [w]. *)
Lemma try_ok t f p v q w s : rwlocks s !! l = Some (Rwlock p v) -> f p = Some q -> view q = w -> exists s',
  alone t (ok ← try_acquire l f; if ok : bool then _ ← change_rwlock l (with_rw_lock (kind_of w)); mret 0 else fail EBUSY) s = Done 0 s' /\
  is_lock w s'.
Proof.
  intros H E V. rewrite (alone_bind_Done _ _ _ _ _ _ (try_acquire_alone t f p v q s H E)). cbn. rewrite lookup_insert_eq. cbn.
  eexists. split; [reflexivity|]. exists q. cbn. by rewrite lookup_insert_eq.
Qed.

Lemma try_busy t f p w k s : rwlocks s !! l = Some (Rwlock p (kind_of w)) -> view p = w -> f p = None -> exists s',
  alone t (ok ← try_acquire l f; if ok : bool then _ ← change_rwlock l (with_rw_lock k); mret 0 else fail EBUSY) s = Done (-1) s' /\
  is_lock w s'.
Proof.
  intros H V E. rewrite (alone_bind_Done _ _ _ _ _ _ (try_acquire_fails t f p _ s H E)). cbn. eexists. split; [reflexivity|]. exists p. auto.
Qed.

Lemma unlock_ok t f p v q w s : rwlocks s !! l = Some (Rwlock p v) -> f p = Some q -> view q = w -> (w <> Free -> kind_of w = v) -> exists s',
  alone t (_ ← release l f; p ← read_rwlock l srw_ptr;
           _ ← (if p =? 0 then change_rwlock l (with_rw_lock RWLOCK_NOT_LOCKED) else mret ()); mret 0) s = Done 0 s' /\
  is_lock w s'.
Proof.
  intros H E V Hv. rewrite (alone_bind_Done _ _ _ s () (with_rwlocks s (<[l := Rwlock q v]> (rwlocks s)))) by (cbn; rewrite H; cbn; by rewrite E).
  set (s1 := with_rwlocks _ _). assert (rwlocks s1 !! l = Some (Rwlock q v)) as H1 by (cbn; apply lookup_insert_eq).
  rewrite (alone_bind_Done _ _ _ s1 q s1) by (cbn [alone read_rwlock atomically]; by rewrite H1).
  destruct (Z.eqb_spec q 0) as [Hq|Hq].
  - assert (w = Free) as Hw by (rewrite <- V; by apply slim_free).
    eexists. split; [cbn [mbind]; rewrite alone_bind; cbn [alone change_rwlock atomically]; rewrite H1; reflexivity|].
    exists q. cbn [rwlocks with_rwlocks]. rewrite lookup_insert_eq, Hw. split; [done | congruence].
  - eexists. split; [reflexivity|]. exists q. split; [|exact V].
    rewrite Hv; [exact H1|]. intros ->. apply slim_free in V. done.
Qed.

Lemma rw_perform_ok t o w s : is_lock w s ->
  exists s', alone t (rw_perform o) s = Done (rw_spec o w).1 s' /\ is_lock (rw_spec o w).2 s'.
Proof.
  intros Hl. pose proof Hl as (p & Hp & Hv). destruct o; cbn [rw_perform]; unfold wlibc_rwlock_tryrdlock, wlibc_rwlock_trywrlock, wlibc_rwlock_unlock;
    rewrite (validate_rw _ _ _ _ _ Hl).
  - pose proof (slim_shared p) as Hs. rewrite Hv in Hs. destruct w; cbn [rw_spec fst snd].
    + destruct Hs as (q & E & V). eapply (try_ok t _ p _ q (Readers 1)); eauto.
    + destruct Hs as (q & E & V). eapply (try_ok t _ p _ q (Readers (n + 1))); eauto.
    + eapply try_busy; eauto.
  - pose proof (slim_exclusive p) as Hs. rewrite Hv in Hs. destruct w; cbn [rw_spec fst snd].
    + destruct Hs as (q & E & V). eapply (try_ok t _ p _ q Writer); eauto.
    + eapply try_busy; eauto.
    + eapply try_busy; eauto.
  - rewrite (alone_bind_Done _ _ _ s p s) by (cbn [alone read_rwlock atomically]; by rewrite Hp).
    assert (w <> Free -> p <> 0) as Hn by (intros H E; apply H; rewrite <- Hv; by apply slim_free).
    assert (alone t (read_rwlock l rw_lock) s = Done (kind_of w) s) as Hk by (cbn [alone read_rwlock atomically]; by rewrite Hp).
    destruct w; cbn [rw_spec fst snd].
    + assert (p = 0) as Hz by (by apply slim_free). rewrite (proj2 (Z.eqb_eq p 0) Hz).
      eexists. split; [cbn; rewrite Hp; reflexivity|]. exists p. cbn [rwlocks with_rwlocks with_errnos]. rewrite lookup_insert_eq. done.
    + rewrite (proj2 (Z.eqb_neq p 0)) by auto. rewrite (alone_bind_Done _ _ _ _ _ _ Hk). cbn [kind_of]. rewrite Z.eqb_refl.
      destruct (slim_release_shared p n Hv) as (q & E & V). eapply unlock_ok; eauto. by destruct (n =? 1).
    + rewrite (proj2 (Z.eqb_neq p 0)) by auto. rewrite (alone_bind_Done _ _ _ _ _ _ Hk). cbn [kind_of].
      change (RWLOCK_EXCLUSIVE_LOCK =? RWLOCK_SHARED_LOCK) with false. rewrite Z.eqb_refl.
      destruct (slim_release_exclusive p Hv) as (q & E & V). eapply unlock_ok; eauto. done.
Qed.

(** C10: for calls that do not overlap, whichever threads make them, the lock is a
    read-write lock: a tryrdlock succeeds unless there is a writer, a trywrlock
    succeeds when the lock is free, an unlock takes away the writer or one reader
    and fails on a free lock. *)
Theorem rwlock_refines (ops : list (Z * rw_op)) (w : slim) (s : sync K) :
  is_lock w s -> exists s', rw_run ops s = Some ((rw_spec_all ops w).1, s') /\ is_lock (rw_spec_all ops w).2 s'.
Proof.
  revert w s. induction ops as [|[t o] ops IH]; intros w s Hl; cbn [rw_run rw_spec_all]; [eauto|].
  destruct (rw_perform_ok t o w s Hl) as (s1 & E & H1). rewrite E. destruct (rw_spec o w) as [r w1]. cbn [fst snd] in *.
  destruct (IH w1 s1 H1) as (s2 & E2 & H2). rewrite E2. destruct (rw_spec_all ops w1) as [rs w2]. cbn. eauto.
Qed.
End Sequential.

(** ** The unlock that overlaps a lock *)

Section Overlap.
Context {K : Type} {SK : SyncKernel K} (view : Z -> slim) {SL : SlimLocks view}.
Context (l : Z) (l_ok : l <> 0).
Implicit Types s : sync K.

(** A writer holds the slim lock and the field says that nobody does. *)
Definition stuck (s : sync K) : Prop := exists p, rwlocks s !! l = Some (Rwlock p RWLOCK_NOT_LOCKED) /\ view p = Writer.

(** Nothing succeeds on such a lock, and it stays as it is. *)
Lemma stuck_perform t o s : stuck s -> exists s', alone t (rw_perform l o) s = Done (-1) s' /\ stuck s'.
Proof.
  intros (p & Hp & Hv).
  assert (forall R (f : rwlock_t -> R), alone t (read_rwlock l f) s = Done (f (Rwlock p RWLOCK_NOT_LOCKED)) s) as Rd by (intros; cbn; by rewrite Hp).
  pose proof (slim_shared p) as H1. pose proof (slim_exclusive p) as H2. rewrite Hv in H1, H2.
  assert (p <> 0) as Hz by (intros E; apply slim_free in E; congruence).
  destruct o; cbn [rw_perform]; unfold wlibc_rwlock_tryrdlock, wlibc_rwlock_trywrlock, wlibc_rwlock_unlock, validate_rwlock;
    rewrite (proj2 (Z.eqb_neq l 0) l_ok); rewrite (alone_bind_Done _ _ _ _ _ _ (Rd _ _)); cbn [rw_lock]; cbn [Z.eqb RWLOCK_NOT_LOCKED RWLOCK_DESTROYED].
  - rewrite (alone_bind_Done _ _ _ _ _ _ (try_acquire_fails l t _ p _ s Hp H1)). eexists. split; [reflexivity|]. exists p. auto.
  - rewrite (alone_bind_Done _ _ _ _ _ _ (try_acquire_fails l t _ p _ s Hp H2)). eexists. split; [reflexivity|]. exists p. auto.
  - rewrite (alone_bind_Done _ _ _ _ _ _ (Rd _ _)). cbn [srw_ptr]. rewrite (proj2 (Z.eqb_neq p 0) Hz).
    rewrite (alone_bind_Done _ _ _ _ _ _ (Rd _ _)). eexists. split; [reflexivity|]. exists p. auto.
Qed.

Lemma stuck_run ops s : stuck s -> exists s', rw_run l ops s = Some (map (fun _ => -1) ops, s') /\ stuck s'.
Proof.
  revert s. induction ops as [|[t o] ops IH]; intros s Hs; cbn [rw_run map]; [eauto|].
  destruct (stuck_perform t o s Hs) as (s1 & E & H1). rewrite E. destruct (IH s1 H1) as (s2 & E2 & H2). rewrite E2. cbn. eauto.
Qed.

(** C25: an unlock by the writer that overlaps a trywrlock of another thread can
    lock the lock forever: the unlock finds the lock free, the other thread acquires
    it and records so, and the unlock then records that nobody has it. Both calls
    return 0; from then on every lock and every unlock fails, whichever thread makes
    it, the new writer's included. *)
Theorem unlock_overlap_locks_forever (t u p : Z) (s : sync K) :
  t <> u -> rwlocks s !! l = Some (Rwlock p RWLOCK_EXCLUSIVE_LOCK) -> view p = Writer ->
  exists w s',
    schedule w (pair_of s t (wlibc_rwlock_unlock l) u (wlibc_rwlock_trywrlock l)) = Some (pair_of s' t (Ret 0) u (Ret 0)) /\
    forall ops, exists s'', rw_run l ops s' = Some (map (fun _ => -1) ops, s'') /\ stuck s''.
Proof.
  intros Htu Hx Hv. exists [t; t; t; t; t; u; u; u; t].
  destruct (slim_release_exclusive p Hv) as (q & R & Hq). assert (p <> 0) as Hz by (intros E; apply slim_free in E; congruence).
  assert (q = 0) as Hq0 by (by apply slim_free).
  pose proof (slim_exclusive q) as He. rewrite Hq in He. destruct He as (r & A & Hr).
  eexists. split.
  { unfold wlibc_rwlock_unlock, wlibc_rwlock_trywrlock, validate_rwlock. rewrite (proj2 (Z.eqb_neq l 0) l_ok).
    first_finds Hx. change (RWLOCK_EXCLUSIVE_LOCK =? RWLOCK_DESTROYED) with false. cbv iota.
    first_finds Hx. rewrite (proj2 (Z.eqb_neq p 0) Hz). first_finds Hx.
    eapply eq_trans; [eapply schedule_first; cbn; rewrite Hx; cbn; rewrite R; cbn; reflexivity|]; cbv beta.
    first_finds (@lookup_insert_eq Z (gmap Z) _ _ _ _ _ _ _ _ _ rwlock_t). rewrite (proj2 (Z.eqb_eq q 0) Hq0).
    second_finds (@lookup_insert_eq Z (gmap Z) _ _ _ _ _ _ _ _ _ rwlock_t). cbn [Z.eqb RWLOCK_EXCLUSIVE_LOCK RWLOCK_DESTROYED].
    eapply eq_trans; [eapply schedule_second; [assumption|]; cbn; rewrite lookup_insert_eq; cbn; rewrite A; cbn; reflexivity|]; cbv beta.
    second_finds (@lookup_insert_eq Z (gmap Z) _ _ _ _ _ _ _ _ _ rwlock_t).
    first_finds (@lookup_insert_eq Z (gmap Z) _ _ _ _ _ _ _ _ _ rwlock_t). reflexivity. }
  intros ops. apply stuck_run. exists r. cbn. by rewrite lookup_insert_eq.
Qed.
End Overlap.

(** ** The spin of a timed lock *)

Section Spin.
Context {K : Type} {SK : SyncKernel K}.
Implicit Types s : sync K.

(** The [n]th reading of the clock from [k] on. *)
Fixpoint reading (n : nat) (k : K) : Z :=
  match n with O => (GetSystemTimeAsFileTime k).1 | S n => reading n (GetSystemTimeAsFileTime k).2 end.

(** The clock goes on: whoever reads it often enough sees a time after [d]. *)
Context (clock_passes : forall d k, exists n, d < reading n k).
Context (l : Z) (f : Z -> option Z) (kind : Z).

Lemma spin_step fuel d t p v s : rwlocks s !! l = Some (Rwlock p v) -> f p = None ->
  alone t (spin (S fuel) l f kind d) s =
  (let '(now, k) := GetSystemTimeAsFileTime (sync_kernel s) in
   if now <=? d then alone t (spin fuel l f kind d) (with_system s k)
   else Done (Some (-1)) (with_errnos (with_system s k) (<[t := ETIMEDOUT]> (errnos s)))).
Proof.
  intros H E. cbn [spin]. rewrite alone_bind. cbn [alone try_acquire atomically]. rewrite H. cbn [srw_ptr]. rewrite E.
  rewrite alone_bind. cbn [alone system_call atomically]. destruct (GetSystemTimeAsFileTime (sync_kernel s)) as [now k].
  by destruct (now <=? d).
Qed.

Lemma spin_ends d t p v n : forall s, rwlocks s !! l = Some (Rwlock p v) -> f p = None -> d < reading n (sync_kernel s) ->
  forall fuel, (n < fuel)%nat -> exists s',
    alone t (spin fuel l f kind d) s = Done (Some (-1)) s' /\ errno_of t s' = ETIMEDOUT /\ rwlocks s' = rwlocks s.
Proof.
  induction n as [|n IH]; intros s H E Hn [|fuel] Hf; [lia| |lia|]; rewrite (spin_step _ _ _ p v) by done; cbn [reading] in Hn;
    destruct (GetSystemTimeAsFileTime (sync_kernel s)) as [now k]; cbn [fst snd] in Hn; destruct (Z.leb_spec now d) as [Hl|Hl].
  - lia.
  - eexists. split; [reflexivity|]. unfold errno_of. cbn. by rewrite lookup_insert_eq.
  - apply (IH (with_system s k)); [done | done | done | lia].
  - eexists. split; [reflexivity|]. unfold errno_of. cbn. by rewrite lookup_insert_eq.
Qed.

(** C35: a timed lock ends. When the lock can be acquired it is, in the first round
    already; when other threads keep it, the spin stops at the given time: from some
    number of rounds on the call returns -1 with [ETIMEDOUT] and the lock as it was. *)
Theorem timed_lock_ends (t p v d : Z) (a : timespec) (s : sync K) :
  l <> 0 -> rwlocks s !! l = Some (Rwlock p v) -> v <> RWLOCK_DESTROYED -> timespec_to_LARGE_INTEGER a = Some d ->
  match f p with
  | Some q => forall fuel, alone t (timed_lock (S fuel) l f kind (Some a)) s =
                Done (Some 0) (with_rwlocks s (<[l := Rwlock q kind]> (rwlocks s)))
  | None => exists n, forall fuel, (n < fuel)%nat -> exists s',
      alone t (timed_lock fuel l f kind (Some a)) s = Done (Some (-1)) s' /\ errno_of t s' = ETIMEDOUT /\ rwlocks s' = rwlocks s
  end.
Proof.
  intros Hl H Hd Ha.
  assert (forall fuel, alone t (timed_lock fuel l f kind (Some a)) s = alone t (spin fuel l f kind d) s) as V.
  { intros fuel. unfold timed_lock, validate_rwlock. rewrite (proj2 (Z.eqb_neq l 0) Hl), alone_bind. cbn [alone read_rwlock atomically].
    rewrite H. cbn [rw_lock]. by rewrite (proj2 (Z.eqb_neq _ _) Hd), Ha. }
  destruct (f p) as [q|] eqn:E.
  - intros fuel. rewrite V. cbn [spin]. rewrite (alone_bind_Done _ _ _ _ _ _ (try_acquire_alone l t f p v q s H E)).
    rewrite alone_bind. cbn [alone change_rwlock atomically with_rwlocks rwlocks]. rewrite lookup_insert_eq. cbn. by rewrite insert_insert_eq.
  - destruct (clock_passes d (sync_kernel s)) as [n Hn]. exists n. intros fuel Hf. rewrite V. by apply (spin_ends d t p v n).
Qed.
End Spin.

(** ** A runtime with slim locks *)

Module Slim.

(** The kernel is the time; a reading of the clock takes one tick. *)
Definition count_view (p : Z) : slim := if p =? 0 then Free else if 0 <? p then Readers p else Writer.

#[export] Instance slim_kernel : SyncKernel Z := {
  NtCreateMutant k := (STATUS_SUCCESS, 1, k);
  NtCloseMutant _ k := (STATUS_SUCCESS, k);
  WaitForMutant _ _ _ k := Some (STATUS_SUCCESS, k);
  NtReleaseMutant _ _ k := (STATUS_SUCCESS, k);
  NtAlertThreadByThreadId _ k := (STATUS_SUCCESS, k);
  NtWaitForAlertByThreadId _ _ k := Some (STATUS_SUCCESS, k);
  RtlTryAcquireSRWLockShared p := if 0 <=? p then Some (p + 1) else None;
  RtlTryAcquireSRWLockExclusive p := if p =? 0 then Some (-1) else None;
  RtlReleaseSRWLockShared p := if 0 <? p then Some (p - 1) else None;
  RtlReleaseSRWLockExclusive p := if p <? 0 then Some 0 else None;
  GetSystemTimeAsFileTime k := (k, k + 1)
}.

#[export] Instance count_slim_locks : SlimLocks count_view.
Proof.
  unfold count_view. split; intros p; cbn.
  - destruct (Z.eqb_spec p 0), (Z.ltb_spec 0 p); split; (done || lia).
  - intros n. destruct (Z.eqb_spec p 0), (Z.ltb_spec 0 p); intros [=]; lia.
  - destruct (Z.eqb_spec p 0), (Z.ltb_spec 0 p), (Z.leb_spec 0 p); try lia; try done; eexists; (split; [reflexivity|]); cbn.
    + by replace p with 0 by lia.
    + rewrite (proj2 (Z.eqb_neq (p + 1) 0)) by lia. by rewrite (proj2 (Z.ltb_lt 0 (p + 1))) by lia.
  - destruct (Z.eqb_spec p 0), (Z.ltb_spec 0 p); try done; try lia. by eexists.
  - intros n. destruct (Z.eqb_spec p 0), (Z.ltb_spec 0 p); try done. intros [= <-]. eexists. split; [reflexivity|]. cbn.
    destruct (Z.eqb_spec p 1), (Z.eqb_spec (p - 1) 0); try lia; [done|]. by rewrite (proj2 (Z.ltb_lt 0 (p - 1))) by lia.
  - destruct (Z.eqb_spec p 0), (Z.ltb_spec 0 p), (Z.ltb_spec p 0); try done; try lia. by eexists.
Qed.

Lemma slim_clock d (k : Z) : exists n, d < reading n k.
Proof.
  exists (Z.to_nat (d + 1 - k)). assert (forall n (k : Z), reading n k = k + Z.of_nat n) as H.
  { induction n as [|n IH]; intros k'; [cbn; lia|]. cbn [reading GetSystemTimeAsFileTime slim_kernel snd]. rewrite IH. lia. }
  rewrite H. lia.
Qed.

(** A lock at address 200 that is held by a writer, or by nobody. *)
Definition written : sync Z := Sync ∅ ∅ {[200 := Rwlock (-1) RWLOCK_EXCLUSIVE_LOCK]} ∅ 0.
Definition unlocked : sync Z := Sync ∅ ∅ {[200 := Rwlock 0 RWLOCK_NOT_LOCKED]} ∅ 0.

End Slim.
Import Slim.

Lemma rwlock_refines_witness : exists s',
  rw_run 200 [(1, TryRead); (2, TryRead); (3, TryWrite); (1, Release); (2, Release); (3, TryWrite); (1, TryRead)] unlocked =
  Some ([0; 0; -1; 0; 0; 0; -1], s') /\ is_lock count_view 200 Writer s'.
Proof.
  apply (rwlock_refines count_view 200 ltac:(lia)
    [(1, TryRead); (2, TryRead); (3, TryWrite); (1, Release); (2, Release); (3, TryWrite); (1, TryRead)] Free unlocked).
  exists 0. split; reflexivity.
Defined.

Lemma unlock_overlap_locks_forever_witness : exists w s',
  schedule w (pair_of written 1 (wlibc_rwlock_unlock 200) 2 (wlibc_rwlock_trywrlock 200)) = Some (pair_of s' 1 (Ret 0) 2 (Ret 0)) /\
  exists s'', rw_run 200 [(2, Release); (1, TryRead)] s' = Some ([-1; -1], s'').
Proof.
  destruct (unlock_overlap_locks_forever count_view 200 ltac:(lia) 1 2 (-1) written) as (w & s' & H & Hs); [lia | reflexivity | reflexivity|].
  exists w, s'. split; [exact H|]. destruct (Hs [(2, Release); (1, TryRead)]) as (s'' & E & _). exists s''. exact E.
Defined.

Lemma timed_lock_ends_witness : exists n, forall fuel, (n < fuel)%nat -> exists s',
  alone 1 (wlibc_rwlock_timedrdlock fuel 200 (Some (Timespec 0 0))) written = Done (Some (-1)) s' /\ errno_of 1 s' = ETIMEDOUT /\
  rwlocks s' = rwlocks written.
Proof.
  exact (timed_lock_ends slim_clock 200 RtlTryAcquireSRWLockShared RWLOCK_SHARED_LOCK 1 (-1) RWLOCK_EXCLUSIVE_LOCK 116444736000000000
    (Timespec 0 0) written ltac:(lia) eq_refl ltac:(discriminate) eq_refl).
Defined.
