(* ===== verification/Cond.v ===== *)
(** * Condition variables

    src/thread/cond.c: the threads that wait are kept in a queue of thread ids that is
    guarded by a spin lock; a signal takes one out of it and alerts it. *)

From stdpp Require Import gmap.
From S2P Require Import Prelude Errno Time Concurrent Sync Mutex.

Record cond_attr_t := CondAttr { cattr_shared : Z }.

Definition with_queue (q : option (list Z)) (x : cond_t) : cond_t :=
  Cond q (waiting_threads x) (queue_size x) (queue_begin x) (queue_end x) (queue_lock x).
Definition with_waiting (n : Z) (x : cond_t) : cond_t :=
  Cond (queue x) n (queue_size x) (queue_begin x) (queue_end x) (queue_lock x).
Definition with_bounds (b e : Z) (x : cond_t) : cond_t :=
  Cond (queue x) (waiting_threads x) (queue_size x) b e (queue_lock x).
Definition with_queue_lock (l : Z) (x : cond_t) : cond_t :=
  Cond (queue x) (waiting_threads x) (queue_size x) (queue_begin x) (queue_end x) l.

(** [cond->ptr[i]], read and written; nothing outside of the queue. *)
Definition slot (i : Z) (x : cond_t) : option Z := q ← queue x; if i <? 0 then None else q !! Z.to_nat i.
Definition set_slot (i v : Z) (x : cond_t) : option cond_t :=
  q ← queue x; if (0 <=? i) && (i <? zlen q) then Some (with_queue (Some (<[Z.to_nat i := v]> q)) x) else None.

(** ** What is done while the queue is locked *)

(** The thread a signal takes from the queue, 0 when nobody waits. *)
Definition take_one (x : cond_t) : option (Z * cond_t) :=
  if waiting_threads x >? 0 then
    thread_id ← slot (queue_begin x) x;
    x ← set_slot (queue_begin x) 0 x;
    let x := if queue_begin x + 1 =? queue_end x then with_bounds 0 0 x else x in
    Some (thread_id, with_waiting (waiting_threads x - 1) x)
  else Some (0, x).

(** One round of the loop of a broadcast. *)
Definition take_next (x : cond_t) : option (Z * cond_t) :=
  thread_id ← slot (queue_begin x) x;
  x ← set_slot (queue_begin x) 0 x;
  let x := with_bounds (queue_begin x + 1) (queue_end x) x in
  n ← i32 (waiting_threads x - 1);
  let x := with_waiting n x in
  let x := if queue_begin x =? queue_size x then with_bounds 0 (queue_end x) x else x in
  Some (thread_id, x).

(** A thread enters the queue; the result is its place. *)
Definition enter (thread_id : Z) (x : cond_t) : option (Z * cond_t) :=
  let x := if queue_end x =? queue_size x then with_bounds (queue_begin x) 0 x else x in
  let index := queue_end x in
  x ← set_slot (queue_end x) thread_id x;
  e ← i32 (queue_end x + 1);
  n ← i32 (waiting_threads x + 1);
  Some (index, with_waiting n (with_bounds (queue_begin x) e x)).

(** A thread whose wait has timed out leaves it. *)
Definition leave (index : Z) (x : cond_t) : option (unit * cond_t) :=
  x ← set_slot index 0 x;
  n ← i32 (waiting_threads x - 1);
  Some ((), with_waiting n x).

Section Conds.
Context {K : Type} {SK : SyncKernel K}.

Abbreviation T := (prog (sync K)).

(** Spins until the lock was 0 and is 1. *)
Definition LOCK_QUEUE (c : Z) : T unit :=
  atomically (fun _ s => match conds s !! c with
                         | Some x => if queue_lock x =? 0
                                     then Done () (with_conds s (<[c := with_queue_lock 1 x]> (conds s)))
                                     else Wait
                         | None => Wrong
                         end).

Definition UNLOCK_QUEUE (c : Z) : T unit :=
  change_cond c (fun x => Some ((), if queue_lock x =? 1 then with_queue_lock 0 x else x)).

(** [VALIDATE_COND] and then [f]. *)
Definition validate_cond {X} (c : Z) (error f : T X) : T X :=
  if c =? 0 then error else q ← read_cond c queue; match q with None => error | Some _ => f end.

(** ** Operations *)

(** [block] is the memory the heap gave, if it did. *)
Definition wlibc_cond_init (block : option (list Z)) (c : Z) : T Z :=
  validate_ptr c (
    _ ← change_cond c (fun _ => Some ((), Cond block 0 64 0 0 0));
    match block with None => fail ENOMEM | Some _ => mret 0 end).

Definition wlibc_cond_destroy (c : Z) : T Z :=
  validate_cond c (fail EINVAL) (_ ← change_cond c (fun x => Some ((), Cond None 0 0 0 0 (queue_lock x))); mret 0).

Definition wlibc_cond_signal (c : Z) : T Z :=
  validate_cond c (fail EINVAL) (
    _ ← LOCK_QUEUE c;
    thread_id ← change_cond c take_one;
    _ ← UNLOCK_QUEUE c;
    if negb (thread_id =? 0) then
      status ← system_call (fun _ k => Some (NtAlertThreadByThreadId thread_id k));
      if negb (bool_decide (status = STATUS_SUCCESS)) then _ ← set_status status; mret (-1) else mret 0
    else mret 0).

(** The loop of a broadcast, at most [fuel] rounds; [false] when they were not
    enough. *)
Fixpoint alert_all (fuel : nat) (c : Z) : T bool :=
  match fuel with
  | O => mret false
  | S fuel =>
      n ← read_cond c waiting_threads;
      if n =? 0 then mret true
      else
        thread_id ← change_cond c take_next;
        _ ← (if negb (thread_id =? 0)
             then _ ← system_call (fun _ k => Some (NtAlertThreadByThreadId thread_id k)); mret ()
             else mret ());
        alert_all fuel c
  end.

Definition wlibc_cond_broadcast (fuel : nat) (c : Z) : T (option Z) :=
  validate_cond c (r ← fail EINVAL; mret (Some r)) (
    _ ← LOCK_QUEUE c;
    ok ← alert_all fuel c;
    if ok : bool then
      _ ← change_cond c (fun x => Some ((), with_bounds 0 0 x));
      _ ← UNLOCK_QUEUE c;
      mret (Some 0)
    else mret None).

(** The thread inserts itself in the queue. *)
Definition enter_queue (c thread_id : Z) : T Z :=
  _ ← LOCK_QUEUE c; index ← change_cond c (enter thread_id); _ ← UNLOCK_QUEUE c; mret index.

(** It removes itself. *)
Definition leave_queue (c index : Z) : T unit := _ ← LOCK_QUEUE c; _ ← change_cond c (leave index); UNLOCK_QUEUE c.

Definition wlibc_cond_common_wait (c m : Z) (abstime : option timespec) : T Z :=
  thread_id ← NtCurrentThreadId;
  r ← wlibc_mutex_unlock m;
  if r =? -1 then mret (-1)
  else
    match (match abstime with None => Some None | Some a => t ← timespec_to_LARGE_INTEGER a; Some (Some t) end) with
    | None => undefined
    | Some timeout =>
        index ← enter_queue c thread_id;
        status ← system_call (fun t k => NtWaitForAlertByThreadId t timeout k);
        if negb (bool_decide (status = STATUS_SUCCESS)) then
          _ ← (if bool_decide (status = STATUS_TIMEOUT) then leave_queue c index else mret ());
          _ ← set_status status;
          mret (-1)
        else
          r ← wlibc_mutex_lock m;
          if r =? -1 then mret (-1) else mret 0
    end.

Definition wlibc_cond_wait (c m : Z) : T Z :=
  validate_cond c (fail EINVAL) (validate_mutex m (wlibc_cond_common_wait c m None)).

Definition wlibc_cond_timedwait (c m : Z) (abstime : option timespec) : T Z :=
  validate_cond c (fail EINVAL) (validate_mutex m (
    match abstime with None => fail EINVAL | Some _ => wlibc_cond_common_wait c m abstime end)).

(** ** Attributes *)

Definition wlibc_condattr_init (a : option cond_attr_t) : T (Z * option cond_attr_t) :=
  match a with None => r ← fail EINVAL; mret (r, None) | Some _ => mret (0, Some (CondAttr WLIBC_PROCESS_PRIVATE)) end.

Definition wlibc_condattr_getpshared (a : option cond_attr_t) (place : bool) : T (Z * option Z) :=
  match a with
  | Some a => if place then mret (0, Some (cattr_shared a)) else r ← fail EINVAL; mret (r, None)
  | None => r ← fail EINVAL; mret (r, None)
  end.

(** Nothing is stored. *)
Definition wlibc_condattr_setpshared (a : option cond_attr_t) (pshared : Z) : T Z :=
  match a with None => fail EINVAL | Some _ => if valid_pshared pshared then mret 0 else fail EINVAL end.

End Conds.
