(* ===== verification/CondSpec.v ===== *)
(** * What a condition variable promises

    A broadcast alerts every thread of a queue without holes. A signal or a wait
    that timed out, however, leaves a hole at the front of the queue, and the threads behind it are
    lost. *)

From stdpp Require Import gmap.
From S2P Require Import Prelude Errno Time Concurrent Sync Mutex MutexSpec Cond.

(** ** The queue as a list *)

(** The queue holds [ids] from [queue_begin] on, 0 where there is a hole, and counts
    [n] of them as waiting. *)
Record window (ids : list Z) (n : nat) (x : cond_t) (q : list Z) : Prop := Window {
  win_queue : queue x = Some q;
  win_size : queue_size x = zlen q;
  win_range : 0 < zlen q < 2 ^ 31 - 1;
  win_begin : 0 <= queue_begin x < zlen q;
  win_fits : zlen ids <= zlen q;
  win_waiting : waiting_threads x = Z.of_nat n;
  win_count : (n <= length ids)%nat;
  win_ids i v : ids !! i = Some v -> q !! Z.to_nat ((queue_begin x + Z.of_nat i) mod zlen q) = Some v;
  win_end : 0 <= queue_end x <= zlen q;
  win_end_pos : ids <> [] -> 1 <= queue_end x;
  win_end_mod : queue_end x mod zlen q = (queue_begin x + zlen ids) mod zlen q
}.

(** What no operation on the queue changes. *)
Definition fixed (x : cond_t) : Z * Z := (queue_lock x, queue_size x).

Section Queue.

Lemma slot_ok x q i v : queue x = Some q -> 0 <= i -> q !! Z.to_nat i = Some v -> slot i x = Some v.
Proof. intros H Hi Hv. unfold slot. rewrite H. cbn. by rewrite (proj2 (Z.ltb_ge i 0)). Qed.

Lemma set_slot_ok x q i v : queue x = Some q -> 0 <= i < zlen q -> set_slot i v x = Some (with_queue (Some (<[Z.to_nat i := v]> q)) x).
Proof.
  intros H Hi. unfold set_slot. rewrite H. cbn. by rewrite (proj2 (Z.leb_le 0 i)), (proj2 (Z.ltb_lt i (zlen q))) by lia.
Qed.

Lemma i32_ok x : - 2 ^ 31 <= x < 2 ^ 31 -> i32 x = Some x.
Proof. intros H. unfold i32. by rewrite (proj2 (Z.leb_le _ _)), (proj2 (Z.ltb_lt _ _)) by lia. Qed.

(** Two different places of a queue. *)
Lemma place_ne b i j N : 0 < N -> 0 <= i < N -> 0 <= j < N -> i <> j -> (b + i) mod N <> (b + j) mod N.
Proof.
  intros HN Hi Hj Hne E.
  assert ((i - j) mod N = 0) as Hm by (replace (i - j) with ((b + i) - (b + j)) by lia; rewrite Zminus_mod, E, Z.sub_diag; apply Zmod_0_l).
  apply Z.mod_divide in Hm; [|lia]. destruct Hm as [k Hk].
  assert (k = 0) by nia. lia.
Qed.

Lemma window_first v ids n x q : window (v :: ids) n x q -> q !! Z.to_nat (queue_begin x) = Some v.
Proof.
  intros W. pose proof (win_ids _ _ _ _ W 0 v eq_refl) as H. rewrite Z.add_0_r, Z.mod_small in H by apply W. exact H.
Qed.

(** A round of a broadcast takes the first of the queue. *)
Lemma take_next_window v ids n x q : window (v :: ids) (S n) x q ->
  exists x' q', take_next x = Some (v, x') /\ window ids n x' q' /\ fixed x' = fixed x.
Proof.
  intros W. pose proof (window_first _ _ _ _ _ W) as Hv. pose proof W as [Hq Hs Hr Hb Hf Hw Hc Hi He Hp Hm].
  cbn [length] in *. rewrite ?Nat2Z.inj_succ in *.
  unfold take_next. rewrite (slot_ok x q _ v) by (auto; lia). cbn [mbind option_bind]. rewrite (set_slot_ok x q) by (auto; lia).
  cbn [mbind option_bind with_bounds with_queue waiting_threads queue_begin queue_end queue_size queue]. rewrite Hw, i32_ok by lia.
  cbn [mbind option_bind with_waiting queue_begin queue_size with_bounds with_queue].
  set (q' := <[Z.to_nat (queue_begin x) := 0]> q). assert (zlen q' = zlen q) as Hl by (unfold q'; by rewrite length_insert).
  assert (forall b, b = (queue_begin x + 1) mod zlen q -> forall i w, ids !! i = Some w -> q' !! Z.to_nat ((b + Z.of_nat i) mod zlen q) = Some w) as Hi'.
  { intros b -> i w Hw'. rewrite Zplus_mod_idemp_l. replace (queue_begin x + 1 + Z.of_nat i) with (queue_begin x + Z.of_nat (S i)) by lia.
    apply lookup_lt_Some in Hw' as Hlt. unfold q'. rewrite list_lookup_insert_ne; [by apply Hi|].
    assert ((queue_begin x + Z.of_nat (S i)) mod zlen q <> (queue_begin x + 0) mod zlen q) as Hne by (apply place_ne; lia).
    rewrite Z.add_0_r, (Z.mod_small (queue_begin x)) in Hne by lia.
    pose proof (Z.mod_pos_bound (queue_begin x + Z.of_nat (S i)) (zlen q)). lia. }
  assert (forall b, b = (queue_begin x + 1) mod zlen q -> queue_end x mod zlen q = (b + zlen ids) mod zlen q) as Hm'.
  { intros b ->. rewrite Zplus_mod_idemp_l, Hm. f_equal. lia. }
  destruct (Z.eqb_spec (queue_begin x + 1) (queue_size x)) as [E|E]; eexists _, q'; (split; [reflexivity|]);
    (split; [|done]); constructor; cbn [with_bounds with_waiting with_queue queue queue_size queue_begin queue_end waiting_threads];
    rewrite ?Hl; auto; try lia.
  all: try (apply Hi'; rewrite ?Hs in E; first [by rewrite E, Z.mod_same by lia | by rewrite Z.mod_small by lia]).
  all: try (apply Hm'; rewrite ?Hs in E; first [by rewrite E, Z.mod_same by lia | by rewrite Z.mod_small by lia]).
Qed.

(** A signal takes the first of the queue, but if there are more the queue does not
    move on. *)
Lemma take_one_window v ids n x q : window (v :: ids) (S n) x q ->
  exists x' q', take_one x = Some (v, x') /\ window (match ids with [] => [] | _ => 0 :: ids end) n x' q' /\ fixed x' = fixed x.
Proof.
  intros W. pose proof (window_first _ _ _ _ _ W) as Hv. pose proof W as [Hq Hs Hr Hb Hf Hw Hc Hi He Hp Hm].
  cbn [length] in *. rewrite ?Nat2Z.inj_succ in *.
  unfold take_one. rewrite Hw, (proj2 (Z.gtb_lt _ _)) by lia. rewrite (slot_ok x q _ v) by (auto; lia). cbn [mbind option_bind]. rewrite (set_slot_ok x q) by (auto; lia).
  cbn [mbind option_bind with_queue queue_begin queue_end].
  set (q' := <[Z.to_nat (queue_begin x) := 0]> q). assert (zlen q' = zlen q) as Hl by (unfold q'; by rewrite length_insert).
  assert (1 <= queue_end x) as He1 by (apply Hp; done).
  destruct (Z.eqb_spec (queue_begin x + 1) (queue_end x)) as [E|E].
  - assert (ids = []) as ->.
    { destruct ids as [|w ids]; [done|]. exfalso. cbn [length] in *. rewrite ?Nat2Z.inj_succ in *. rewrite <- E in Hm.
      assert ((queue_begin x + 1) mod zlen q <> (queue_begin x + Z.succ (Z.succ (zlen ids))) mod zlen q); [|done].
      destruct (Z.eq_dec (Z.succ (Z.succ (zlen ids))) (zlen q)) as [Ez|Ez].
      - rewrite Ez. replace (queue_begin x + zlen q) with (queue_begin x + 0 + 1 * zlen q) by lia. rewrite Z.mod_add by lia. apply place_ne; lia.
      - apply place_ne; lia. }
    eexists _, q'. split; [reflexivity|]. split; [|done].
    constructor; cbn [with_bounds with_waiting with_queue queue queue_size queue_begin queue_end waiting_threads length];
      rewrite ?Hl; auto; try lia; try done. cbn in Hc. lia.
  - destruct ids as [|w ids].
    { exfalso. cbn [length] in *. destruct (Z.eq_dec (queue_begin x + 1) (zlen q)) as [Eq|Eq].
      - replace (queue_begin x + Z.succ (Z.of_nat 0)) with (zlen q) in Hm by lia. rewrite Z.mod_same in Hm by lia.
        destruct (Z.eq_dec (queue_end x) (zlen q)); [lia|]. rewrite Z.mod_small in Hm by lia. lia.
      - rewrite (Z.mod_small (_ + _)) in Hm by lia. destruct (Z.eq_dec (queue_end x) (zlen q)) as [Ee|Ee]; [rewrite Ee, Z.mod_same in Hm by lia; lia|].
        rewrite Z.mod_small in Hm by lia. lia. }
    eexists _, q'. split; [reflexivity|]. split; [|done].
    constructor; cbn [with_bounds with_waiting with_queue queue queue_size queue_begin queue_end waiting_threads length] in *;
      rewrite ?Hl; rewrite ?Nat2Z.inj_succ in *; auto; try lia; try done.
    intros [|i] u Hu; cbn in Hu.
    + injection Hu as <-. rewrite Z.add_0_r, Z.mod_small by lia. unfold q'. apply list_lookup_insert_eq. lia.
    + apply lookup_lt_Some in Hu as Hlt. cbn [length] in Hlt. unfold q'. rewrite list_lookup_insert_ne; [by apply (Hi (S i))|].
      assert ((queue_begin x + Z.of_nat (S i)) mod zlen q <> (queue_begin x + 0) mod zlen q) as Hne by (apply place_ne; lia).
      rewrite Z.add_0_r, (Z.mod_small (queue_begin x)) in Hne by lia.
      pose proof (Z.mod_pos_bound (queue_begin x + Z.of_nat (S i)) (zlen q)). lia.
Qed.

(** A thread enters at the end and is told its place. *)
Lemma enter_window t ids n x q : window ids n x q -> zlen ids < zlen q ->
  exists i x' q', enter t x = Some (i, x') /\ window (ids ++ [t]) (S n) x' q' /\ fixed x' = fixed x /\
    i = (queue_begin x' + zlen ids) mod zlen q'.
Proof.
  intros [Hq Hs Hr Hb Hf Hw Hc Hi He Hp Hm] Hlt. unfold enter.
  set (y := if queue_end x =? queue_size x then _ else x).
  assert (queue y = Some q /\ queue_size y = zlen q /\ queue_begin y = queue_begin x /\ waiting_threads y = Z.of_nat n /\
          fixed y = fixed x /\ queue_end y = (queue_begin x + zlen ids) mod zlen q /\ 0 <= queue_end y < zlen q) as (Yq & Ys & Yb & Yw & Yl & Ye & Yr).
  { unfold y. destruct (Z.eqb_spec (queue_end x) (queue_size x)) as [E|E]; cbn [with_bounds queue queue_size queue_begin waiting_threads queue_end];
      (repeat split; auto; try lia); rewrite <- Hm.
    - rewrite E, Hs, Z.mod_same by lia. done.
    - rewrite Z.mod_small by lia. done. }
  clearbody y. rewrite (set_slot_ok y q) by (auto; lia). cbn [mbind option_bind with_queue queue_end waiting_threads queue_begin].
  rewrite Yw, !i32_ok by lia. cbn [mbind option_bind].
  set (q' := <[Z.to_nat (queue_end y) := t]> q). assert (zlen q' = zlen q) as Hl by (unfold q'; by rewrite length_insert).
  eexists _, _, q'. split; [reflexivity|]. cbn [with_bounds with_waiting with_queue queue_begin]. rewrite Hl, Yb.
  split; [|by rewrite Ye].
  constructor; cbn [with_bounds with_waiting with_queue queue queue_size queue_begin queue_end waiting_threads];
    rewrite ?Hl, ?length_app, ?Yb; cbn [length]; auto; try lia.
  - intros i v Hv. destruct (decide (i = length ids)) as [->|Hne].
    + rewrite lookup_app_r, Nat.sub_diag in Hv by lia. injection Hv as <-. rewrite <- Ye. apply list_lookup_insert_eq. lia.
    + apply lookup_lt_Some in Hv as Hil. rewrite length_app in Hil. cbn in Hil. rewrite lookup_app_l in Hv by lia.
      unfold q'. rewrite list_lookup_insert_ne; [by apply Hi|]. rewrite Ye.
      assert ((queue_begin x + zlen ids) mod zlen q <> (queue_begin x + Z.of_nat i) mod zlen q) by (apply place_ne; lia).
      pose proof (Z.mod_pos_bound (queue_begin x + zlen ids) (zlen q)). pose proof (Z.mod_pos_bound (queue_begin x + Z.of_nat i) (zlen q)). lia.
  - rewrite Ye, Zplus_mod_idemp_l. f_equal. lia.
Qed.

(** A thread that leaves makes a hole. *)
Lemma leave_window k ids n x q : window ids (S n) x q -> (k < length ids)%nat -> (n < length ids)%nat ->
  exists x' q', leave ((queue_begin x + Z.of_nat k) mod zlen q) x = Some ((), x') /\ window (<[k := 0]> ids) n x' q' /\ fixed x' = fixed x.
Proof.
  intros [Hq Hs Hr Hb Hf Hw Hc Hi He Hp Hm] Hk Hn. unfold leave.
  pose proof (Z.mod_pos_bound (queue_begin x + Z.of_nat k) (zlen q)).
  rewrite (set_slot_ok x q) by (auto; lia). cbn [mbind option_bind with_queue waiting_threads]. rewrite Hw, i32_ok by lia. cbn [mbind option_bind].
  set (q' := <[_ := 0]> q). assert (zlen q' = zlen q) as Hl by (unfold q'; by rewrite length_insert).
  eexists _, q'. split; [reflexivity|]. split; [|done].
  constructor; cbn [with_bounds with_waiting with_queue queue queue_size queue_begin queue_end waiting_threads];
    rewrite ?Hl, ?length_insert; auto; try lia.
  - intros i v Hv. destruct (decide (i = k)) as [->|Hne].
    + rewrite list_lookup_insert_eq in Hv by lia. injection Hv as <-. apply list_lookup_insert_eq. lia.
    + rewrite list_lookup_insert_ne in Hv by auto. apply lookup_lt_Some in Hv as Hil.
      unfold q'. rewrite list_lookup_insert_ne; [by apply Hi|].
      assert ((queue_begin x + Z.of_nat k) mod zlen q <> (queue_begin x + Z.of_nat i) mod zlen q) by (apply place_ne; lia).
      pose proof (Z.mod_pos_bound (queue_begin x + Z.of_nat i) (zlen q)). lia.
  - intros _. apply Hp. destruct ids; [cbn in Hk; lia | done].
Qed.

Lemma window_lock l ids n x q : window ids n x q -> window ids n (with_queue_lock l x) q.
Proof. intros []. by constructor. Qed.

Lemma window_reset ids x q : window ids 0 x q -> window [] 0 (with_bounds 0 0 x) q.
Proof. intros []. constructor; cbn [with_bounds queue queue_size queue_begin queue_end waiting_threads length]; auto; try lia; try done. Qed.
End Queue.

(** ** The calls *)

Section Calls.
Context {K : Type} {SK : SyncKernel K} (c N : Z) (c_ok : c <> 0).
Implicit Types s : sync K.

(** The condition variable has this queue, of the size [N], and its lock is [l]. *)
Definition cond_is (l : Z) (ids : list Z) (n : nat) (s : sync K) : Prop :=
  exists x q, conds s !! c = Some x /\ fixed x = (l, N) /\ window ids n x q.

(** [s] with another condition variable and another kernel. *)
Definition same_but (s s' : sync K) : Prop := mutexes s' = mutexes s /\ rwlocks s' = rwlocks s /\ errnos s' = errnos s.

Lemma change_cond_alone {R} t (f : cond_t -> option (R * cond_t)) x r y s : conds s !! c = Some x -> f x = Some (r, y) ->
  alone t (change_cond c f) s = Done r (with_conds s (<[c := y]> (conds s))).
Proof. intros H E. cbn. by rewrite H, E. Qed.

Lemma validate_cond_alone {X} t (e f : prog (sync K) X) l ids n s : cond_is l ids n s -> alone t (validate_cond c e f) s = alone t f s.
Proof.
  intros (x & q & H & _ & W). unfold validate_cond. rewrite (proj2 (Z.eqb_neq c 0) c_ok), alone_bind. cbn [alone read_cond atomically].
  rewrite H. by rewrite (win_queue _ _ _ _ W).
Qed.

Lemma lock_queue_alone t ids n s : cond_is 0 ids n s -> exists s',
  alone t (LOCK_QUEUE c) s = Done () s' /\ cond_is 1 ids n s' /\ same_but s s' /\ sync_kernel s' = sync_kernel s.
Proof.
  intros (x & q & H & Hl & W). cbn. rewrite H. injection Hl as Hl HN. rewrite (proj2 (Z.eqb_eq _ _) Hl). eexists. split; [reflexivity|]. split; [|done].
  exists (with_queue_lock 1 x), q. cbn. rewrite lookup_insert_eq. split; [done|]. split; [by rewrite <- HN | by apply window_lock].
Qed.

Lemma unlock_queue_alone t ids n s : cond_is 1 ids n s -> exists s',
  alone t (UNLOCK_QUEUE c) s = Done () s' /\ cond_is 0 ids n s' /\ same_but s s' /\ sync_kernel s' = sync_kernel s.
Proof.
  intros (x & q & H & Hl & W). cbn. rewrite H. injection Hl as Hl HN. rewrite (proj2 (Z.eqb_eq _ _) Hl). eexists. split; [reflexivity|]. split; [|done].
  exists (with_queue_lock 0 x), q. cbn. rewrite lookup_insert_eq. split; [done|]. split; [by rewrite <- HN | by apply window_lock].
Qed.

(** The thread [v] of the queue is alerted. *)
Definition alert (k : K) (v : Z) : K := if v =? 0 then k else (NtAlertThreadByThreadId v k).2.

Lemma signal_alone t v ids n s : cond_is 0 (v :: ids) (S n) s ->
  exists s', alone t (wlibc_cond_signal c) s =
      Done (if (v =? 0) || bool_decide ((NtAlertThreadByThreadId v (sync_kernel s)).1 = STATUS_SUCCESS) then 0 else -1) s' /\
    cond_is 0 (match ids with [] => [] | _ => 0 :: ids end) n s' /\ sync_kernel s' = alert (sync_kernel s) v.
Proof.
  intros H. unfold wlibc_cond_signal. rewrite (validate_cond_alone _ _ _ _ _ _ _ H).
  destruct (lock_queue_alone t _ _ _ H) as (s1 & E1 & (x & q & H1 & Hl & W) & _ & K1). rewrite (alone_bind_Done _ _ _ _ _ _ E1).
  destruct (take_one_window _ _ _ _ _ W) as (y & q' & E & W' & Hl').
  rewrite (alone_bind_Done _ _ _ _ _ _ (change_cond_alone t _ _ _ _ _ H1 E)).
  assert (cond_is 1 (match ids with [] => [] | _ => 0 :: ids end) n (with_conds s1 (<[c := y]> (conds s1)))) as H2
    by (exists y, q'; cbn; rewrite lookup_insert_eq; split; [done|]; split; [congruence | done]).
  destruct (unlock_queue_alone t _ _ _ H2) as (s3 & E3 & H3 & _ & K3). rewrite (alone_bind_Done _ _ _ _ _ _ E3).
  cbn [sync_kernel with_conds] in K3. rewrite K1 in K3. unfold alert. destruct (Z.eqb_spec v 0) as [->|Hv]; cbn [negb orb].
  - exists s3. done.
  - rewrite alone_bind. cbn [alone system_call atomically]. rewrite K3. destruct (NtAlertThreadByThreadId v (sync_kernel s)) as [st k]. cbn [fst snd].
    destruct (bool_decide_reflect (st = STATUS_SUCCESS)); cbn [negb].
    + eexists. split; [reflexivity|]. done.
    + eexists. split; [cbn; reflexivity|]. done.
Qed.

Lemma signal_nobody t ids s : cond_is 0 ids 0 s ->
  exists s', alone t (wlibc_cond_signal c) s = Done 0 s' /\ cond_is 0 ids 0 s' /\ sync_kernel s' = sync_kernel s.
Proof.
  intros H. unfold wlibc_cond_signal. rewrite (validate_cond_alone _ _ _ _ _ _ _ H).
  destruct (lock_queue_alone t _ _ _ H) as (s1 & E1 & (x & q & H1 & Hl & W) & _ & K1). rewrite (alone_bind_Done _ _ _ _ _ _ E1).
  assert (take_one x = Some (0, x)) as E by (unfold take_one; by rewrite (win_waiting _ _ _ _ W)).
  rewrite (alone_bind_Done _ _ _ _ _ _ (change_cond_alone t _ _ _ _ _ H1 E)).
  assert (cond_is 1 ids 0 (with_conds s1 (<[c := x]> (conds s1)))) as H2 by (exists x, q; cbn; by rewrite lookup_insert_eq).
  destruct (unlock_queue_alone t _ _ _ H2) as (s3 & E3 & H3 & _ & K3). rewrite (alone_bind_Done _ _ _ _ _ _ E3).
  exists s3. split; [done|]. split; [done|]. rewrite K3. exact K1.
Qed.

(** The loop of a broadcast goes through the threads that are counted. *)
Lemma alert_all_alone t n : forall fuel ids s, cond_is 1 ids n s -> (n < fuel)%nat ->
  exists s', alone t (alert_all fuel c) s = Done true s' /\ cond_is 1 (drop n ids) 0 s' /\
    sync_kernel s' = fold_left alert (take n ids) (sync_kernel s).
Proof.
  induction n as [|n IH]; intros [|fuel] ids s H Hf; [lia| |lia|]; cbn [alert_all];
    pose proof H as (x & q & H1 & Hl & W); rewrite alone_bind; cbn [alone read_cond atomically]; rewrite H1, (win_waiting _ _ _ _ W).
  - exists s. by rewrite drop_0.
  - rewrite (proj2 (Z.eqb_neq (Z.of_nat (S n)) 0)) by lia.
    destruct ids as [|v ids]; [pose proof (win_count _ _ _ _ W) as Hc; cbn in Hc; lia|].
    destruct (take_next_window _ _ _ _ _ W) as (y & q' & E & W' & Hl').
    rewrite (alone_bind_Done _ _ _ _ _ _ (change_cond_alone t _ _ _ _ _ H1 E)).
    set (s1 := with_conds s _). assert (cond_is 1 ids n s1) as H2
      by (exists y, q'; cbn; rewrite lookup_insert_eq; split; [done|]; split; [congruence | done]).
    set (k := alert (sync_kernel s) v). rewrite (alone_bind_Done _ _ _ s1 () (with_system s1 k)).
    2:{ unfold k, alert. destruct (Z.eqb_spec v 0); cbn [negb]; [reflexivity|].
        rewrite alone_bind. cbn [alone system_call atomically]. change (sync_kernel s1) with (sync_kernel s). by destruct (NtAlertThreadByThreadId v (sync_kernel s)). }
    destruct (IH fuel ids (with_system s1 k)) as (s' & E' & H' & K'); [exact H2 | lia|].
    exists s'. split; [exact E'|]. split; [exact H' | exact K'].
Qed.

Lemma broadcast_alone t fuel ids n s : cond_is 0 ids n s -> (n < fuel)%nat ->
  exists s', alone t (wlibc_cond_broadcast fuel c) s = Done (Some 0) s' /\ cond_is 0 [] 0 s' /\
    sync_kernel s' = fold_left alert (take n ids) (sync_kernel s).
Proof.
  intros H Hf. unfold wlibc_cond_broadcast. rewrite (validate_cond_alone _ _ _ _ _ _ _ H).
  destruct (lock_queue_alone t _ _ _ H) as (s1 & E1 & H1 & _ & K1). rewrite (alone_bind_Done _ _ _ _ _ _ E1).
  destruct (alert_all_alone t n fuel ids s1 H1 Hf) as (s2 & E2 & (x & q & H2 & Hl & W) & K2). rewrite (alone_bind_Done _ _ _ _ _ _ E2).
  rewrite (alone_bind_Done _ _ _ _ _ _ (change_cond_alone t (fun x => Some ((), with_bounds 0 0 x)) x () (with_bounds 0 0 x) s2 H2 eq_refl)).
  assert (cond_is 1 [] 0 (with_conds s2 (<[c := with_bounds 0 0 x]> (conds s2)))) as H3
    by (exists (with_bounds 0 0 x), q; cbn; rewrite lookup_insert_eq; split; [done|]; split; [done | by eapply window_reset]).
  destruct (unlock_queue_alone t _ _ _ H3) as (s4 & E4 & H4 & _ & K4). rewrite (alone_bind_Done _ _ _ _ _ _ E4).
  exists s4. split; [done|]. split; [done|]. rewrite K4. cbn [sync_kernel with_conds]. by rewrite K2, K1.
Qed.

Lemma enter_queue_alone t ids n s : cond_is 0 ids n s -> zlen ids < N ->
  exists i s', alone t (enter_queue c t) s = Done i s' /\ cond_is 0 (ids ++ [t]) (S n) s' /\ same_but s s' /\ sync_kernel s' = sync_kernel s /\
    forall x q, conds s' !! c = Some x -> queue x = Some q -> i = (queue_begin x + zlen ids) mod zlen q.
Proof.
  intros H Hn. unfold enter_queue.
  destruct (lock_queue_alone t _ _ _ H) as (s1 & E1 & (x & q & H1 & Hl & W) & B1 & K1). rewrite (alone_bind_Done _ _ _ _ _ _ E1).
  assert (zlen q = N) as HN by (injection Hl as _ HN; rewrite <- HN; symmetry; apply W).
  destruct (enter_window t _ _ _ _ W) as (i & y & q' & E & W' & Hl' & Hi); [lia|].
  rewrite (alone_bind_Done _ _ _ _ _ _ (change_cond_alone t _ _ _ _ _ H1 E)).
  rewrite Hl in Hl'. injection Hl' as Hy HyN. rewrite alone_bind. cbn [alone UNLOCK_QUEUE change_cond atomically conds with_conds].
  rewrite lookup_insert_eq, (proj2 (Z.eqb_eq _ _) Hy). eexists i, _. split; [reflexivity|]. cbn [with_conds conds].
  split; [|split; [done|split; [done|]]].
  - exists (with_queue_lock 0 y), q'. cbn. rewrite lookup_insert_eq. split; [done|]. split; [by rewrite <- HyN | by apply window_lock].
  - intros x' r. rewrite lookup_insert_eq. intros [= <-]. cbn. rewrite (win_queue _ _ _ _ W'). by intros [= <-].
Qed.
End Calls.

(** ** Broadcasts *)

(** The threads of the kernel: one that is alerted goes on when it waits. *)
Class Alerts {K : Type} `{SyncKernel K} (thread : Z -> Prop) (alerted : K -> Z -> Prop) : Prop := {
  alert_sets t k : thread t -> alerted (NtAlertThreadByThreadId t k).2 t;
  alert_keeps t u k : alerted k u -> alerted (NtAlertThreadByThreadId t k).2 u;
  alert_wakes t o k : alerted k t -> exists k', NtWaitForAlertByThreadId t o k = Some (STATUS_SUCCESS, k')
}.

Section Broadcast.
Context {K : Type} {SK : SyncKernel K} {thread : Z -> Prop} {alerted : K -> Z -> Prop} {AL : Alerts thread alerted}.
Context (c N : Z) (c_ok : c <> 0).
Implicit Types s : sync K.

(** What happens to the queue, one thing after the other: a thread enters it, and
    another one ([u]) sends a signal or a broadcast. *)
Inductive queue_op := Enters (t : Z) | Signals | Broadcasts.

Fixpoint queue_run (u : Z) (ops : list queue_op) (s : sync K) : option (sync K) :=
  match ops with
  | [] => Some s
  | Enters t :: ops => match alone t (enter_queue c t) s with Done _ s => queue_run u ops s | _ => None end
  | Signals :: ops => match alone u (wlibc_cond_signal c) s with Done _ s => queue_run u ops s | _ => None end
  | Broadcasts :: ops =>
      match alone u (wlibc_cond_broadcast (S (Z.to_nat N)) c) s with Done (Some _) s => queue_run u ops s | _ => None end
  end.

(** The same on a list of threads, with 0 for a hole, of which the first [n] count:
    a signal takes the first one, and leaves a hole when there are others. *)
Definition queue_after (o : queue_op) (st : list Z * nat) : list Z * nat :=
  let '(ids, n) := st in
  match o with
  | Enters t => (ids ++ [t], S n)
  | Signals => match n with
               | O => (ids, O)
               | S n => (match ids with [] | [_] => [] | _ :: rest => 0 :: rest end, n)
               end
  | Broadcasts => ([], O)
  end.

(** There is room for every thread that enters. *)
Fixpoint queue_fits (ops : list queue_op) (st : list Z * nat) : Prop :=
  match ops with
  | [] => True
  | o :: ops => match o with Enters _ => zlen st.1 < N | _ => True end /\ queue_fits ops (queue_after o st)
  end.

Definition queue_afterwards (ops : list queue_op) (st : list Z * nat) : list Z * nat :=
  foldl (fun st o => queue_after o st) st ops.

Lemma queue_run_is u ops : forall st s, cond_is c N 0 st.1 st.2 s -> queue_fits ops st ->
  exists s', queue_run u ops s = Some s' /\ cond_is c N 0 (queue_afterwards ops st).1 (queue_afterwards ops st).2 s'.
Proof.
  induction ops as [|o ops IH]; intros [ids n] s H Hf; cbn [queue_run queue_fits] in *; [by exists s|].
  destruct Hf as [Ho Hf]. cbn [fst snd] in *.
  change (queue_afterwards (o :: ops) (ids, n)) with (queue_afterwards ops (queue_after o (ids, n))).
  destruct o as [t| |]; cbn [queue_after] in *.
  - destruct (enter_queue_alone c N t ids n s H Ho) as (i & s1 & -> & H1 & _). by apply IH.
  - destruct n as [|n]; [destruct (signal_nobody c N c_ok u ids s H) as (s1 & -> & H1 & _); by apply IH|].
    destruct ids as [|v ids]; [destruct H as (x & q & _ & _ & W); pose proof (win_count _ _ _ _ W) as Hc; cbn in Hc; lia|].
    destruct (signal_alone c N c_ok u v ids n s H) as (s1 & -> & H1 & _). apply IH; [|done]. by destruct ids.
  - assert (n <= Z.to_nat N)%nat as Hn.
    { destruct H as (x & q & _ & Hl & W). injection Hl as _ HN. pose proof (win_count _ _ _ _ W). pose proof (win_fits _ _ _ _ W).
      pose proof (win_size _ _ _ _ W). lia. }
    destruct (broadcast_alone c N c_ok u (S (Z.to_nat N)) ids n s H) as (s1 & -> & H1 & _); [lia|]. by apply IH.
Qed.

(** Without a hole every thread counts. *)
Definition hole_free (st : list Z * nat) : Prop :=
  (st.2 <= length st.1)%nat /\ (0 ∉ st.1 -> st.2 = length st.1).

Lemma queue_after_hole_free o st : hole_free st -> hole_free (queue_after o st).
Proof.
  destruct st as [ids n]. intros [Hn H]. cbn [fst snd] in *. unfold hole_free.
  destruct o as [t| |]; cbn [queue_after fst snd]; [| |done].
  - rewrite length_app. cbn [length]. split; [lia|]. rewrite elem_of_app. intros Hz. rewrite H by tauto. lia.
  - destruct n as [|n]; [done|]. destruct ids as [|v [|w ids]]; cbn [fst snd length] in *; [lia|split; [lia|intros _; lia]|].
    split; [lia|]. intros Hz. exfalso. apply Hz. apply elem_of_cons. by left.
Qed.

Lemma queue_afterwards_hole_free ops st : hole_free st -> hole_free (queue_afterwards ops st).
Proof.
  revert st. induction ops as [|o ops IH]; intros st H; [done|]. apply (IH (queue_after o st)), queue_after_hole_free, H.
Qed.

Lemma fold_alert_keeps ids k u : alerted k u -> alerted (fold_left alert ids k) u.
Proof.
  revert k. induction ids as [|v ids IH]; intros k H; cbn [fold_left]; [done|]. apply IH. unfold alert. destruct (v =? 0); [done | by apply alert_keeps].
Qed.

Lemma fold_alert_sets ids k t : t ∈ ids -> t <> 0 -> thread t -> alerted (fold_left alert ids k) t.
Proof.
  revert k. induction ids as [|v ids IH]; intros k H Hz Ht; cbn [fold_left]; [by apply elem_of_nil in H|].
  apply elem_of_cons in H. destruct H as [<-|H]; [|by apply IH].
  apply fold_alert_keeps. unfold alert. rewrite (proj2 (Z.eqb_neq t 0) Hz). by apply alert_sets.
Qed.

End Broadcast.

(** ** Waiters that are lost *)

Inductive cond_op := Signal | Broadcast (fuel : nat).

Section Lost.
Context {K : Type} {SK : SyncKernel K} (c N : Z) (c_ok : c <> 0).
Implicit Types s : sync K.

(** Signals and broadcasts of a thread, one after the other; [None] when one of them
    does not end. *)
Fixpoint cond_run (u : Z) (ops : list cond_op) (s : sync K) : option (sync K) :=
  match ops with
  | [] => Some s
  | Signal :: ops => match alone u (wlibc_cond_signal c) s with Done _ s => cond_run u ops s | _ => None end
  | Broadcast fuel :: ops => match alone u (wlibc_cond_broadcast (S fuel) c) s with Done (Some _) s => cond_run u ops s | _ => None end
  end.

Lemma cond_run_empty u ops : forall s, cond_is c N 0 [] 0 s -> exists s', cond_run u ops s = Some s' /\ sync_kernel s' = sync_kernel s.
Proof.
  induction ops as [|o ops IH]; intros s H; cbn [cond_run]; [eauto|]. destruct o as [|fuel].
  - destruct (signal_nobody c N c_ok u [] s H) as (s1 & E & H1 & K1). rewrite E. destruct (IH s1 H1) as (s2 & E2 & K2). exists s2. split; [done | by rewrite K2].
  - destruct (broadcast_alone c N c_ok u (S fuel) [] 0 s H) as (s1 & E & H1 & K1); [lia|]. rewrite E.
    destruct (IH s1 H1) as (s2 & E2 & K2). exists s2. split; [done | by rewrite K2].
Qed.

(** A queue with a hole at its front forgets the last thread in the next broadcast. *)
Lemma hole_broadcast u fuel ids b ops s : cond_is c N 0 (0 :: ids ++ [b]) (S (length ids)) s -> (S (length ids) < fuel)%nat ->
  exists s1, alone u (wlibc_cond_broadcast fuel c) s = Done (Some 0) s1 /\
    exists s2, cond_run u ops s1 = Some s2 /\ sync_kernel s2 = fold_left alert ids (sync_kernel s).
Proof.
  intros H Hf. destruct (broadcast_alone c N c_ok u fuel _ _ s H Hf) as (s1 & E & H1 & K1). exists s1. split; [exact E|].
  destruct (cond_run_empty u ops s1 H1) as (s2 & E2 & K2). exists s2. split; [exact E2|].
  rewrite K2, K1. cbn [take fold_left]. unfold alert at 2. cbn. by rewrite take_app_length.
Qed.

Lemma leave_queue_alone t k ids n x q s : conds s !! c = Some x -> fixed x = (0, N) -> window ids (S n) x q -> (k < length ids)%nat ->
  exists s', alone t (leave_queue c ((queue_begin x + Z.of_nat k) mod zlen q)) s = Done () s' /\ cond_is c N 0 (<[k := 0]> ids) n s' /\
    mutexes s' = mutexes s /\ errnos s' = errnos s /\ sync_kernel s' = sync_kernel s.
Proof.
  intros H Hl W Hk. unfold leave_queue. injection Hl as Hl HN. pose proof (win_count _ _ _ _ W).
  rewrite alone_bind. cbn [alone LOCK_QUEUE atomically]. rewrite H, Hl. cbn [Z.eqb].
  destruct (leave_window k ids n (with_queue_lock 1 x) q (window_lock 1 _ _ _ _ W) Hk) as (y & q' & E & W' & Hy); [lia|].
  rewrite alone_bind. cbn [alone change_cond atomically with_conds conds]. rewrite lookup_insert_eq. cbn [with_queue_lock queue_begin] in E |- *.
  rewrite E. injection Hy as Hy HyN. cbn. rewrite lookup_insert_eq, (proj2 (Z.eqb_eq _ _) Hy). eexists. split; [reflexivity|]. split; [|done].
  exists (with_queue_lock 0 y), q'. cbn. rewrite lookup_insert_eq. split; [done|]. split; [|by apply window_lock].
  unfold fixed. cbn. by rewrite HyN, <- HN.
Qed.

(** C12: a waiter that is lost. When more than one thread waits, a signal that wakes
    the first, or a wait of the first that times out, leaves its place in the queue
    empty and counts one thread less. The next broadcast goes through as many places
    as are counted and does not reach the last thread; after it the queue is empty,
    so that no signal or broadcast alerts this thread any more. *)
Theorem waiter_lost (a b u t : Z) (ids : list Z) (fuel : nat) (ops : list cond_op) (s : sync K) (x : cond_t) (q : list Z) :
  conds s !! c = Some x -> fixed x = (0, N) -> window (a :: ids ++ [b]) (S (S (length ids))) x q -> (S (length ids) < fuel)%nat ->
  (exists r s1 s2, alone u (wlibc_cond_signal c) s = Done r s1 /\ alone u (wlibc_cond_broadcast fuel c) s1 = Done (Some 0) s2 /\
    exists s3, cond_run u ops s2 = Some s3 /\ sync_kernel s3 = fold_left alert (a :: ids) (sync_kernel s)) /\
  (exists s1 s2, alone t (leave_queue c (queue_begin x)) s = Done () s1 /\ alone u (wlibc_cond_broadcast fuel c) s1 = Done (Some 0) s2 /\
    exists s3, cond_run u ops s2 = Some s3 /\ sync_kernel s3 = fold_left alert ids (sync_kernel s)).
Proof.
  intros H Hl W Hf. split.
  - destruct (signal_alone c N c_ok u a (ids ++ [b]) (S (length ids)) s) as (s1 & E & H1 & K1); [by exists x, q|].
    assert (cond_is c N 0 (0 :: ids ++ [b]) (S (length ids)) s1) as H1' by (by destruct ids).
    destruct (hole_broadcast u fuel ids b ops s1 H1' Hf) as (s2 & E2 & s3 & E3 & K3).
    eexists _, s1, s2. split; [exact E|]. split; [exact E2|]. exists s3. split; [exact E3|]. by rewrite K3, K1.
  - destruct (leave_queue_alone t 0 _ _ x q s H Hl W) as (s1 & E & H1 & _ & _ & K1); [cbn; lia|].
    rewrite Z.add_0_r, Z.mod_small in E by apply W.
    destruct (hole_broadcast u fuel ids b ops s1 H1 Hf) as (s2 & E2 & s3 & E3 & K3).
    exists s1, s2. split; [exact E|]. split; [exact E2|]. exists s3. split; [exact E3|]. by rewrite K3, K1.
Qed.
End Lost.

(** ** Waits *)

Section Waits.
Context {K : Type} {SK : SyncKernel K} (holder : K -> Z -> option (Z * Z)) {MT : Mutants holder}.
(** A wait for an alert leaves the mutants alone. *)
Context (wait_keeps : forall t o k st k', NtWaitForAlertByThreadId t o k = Some (st, k') -> forall h, holder k' h = holder k h).
Context (c N m t type h : Z) (c_ok : c <> 0) (m_ok : m <> 0) (t_ok : t <> 0) (h_ok : h <> 0).
Implicit Types s : sync K.

(** The state in which a thread that held the mutex once has released it. *)
Definition unlocked_state (s : sync K) : sync K :=
  with_mutexes (with_system s (NtReleaseMutant h t (sync_kernel s)).2) (<[m := Mutex 0 0 type h]> (mutexes s)).

Lemma unlock_once s : locked holder m t type h 1 s ->
  alone t (wlibc_mutex_unlock m) s = Done 0 (unlocked_state s) /\ locked holder m t type h 0 (unlocked_state s).
Proof.
  intros Hl. unfold wlibc_mutex_unlock. rewrite (validate_alone holder m t type h m_ok h_ok _ 1 s Hl).
  rewrite (alone_bind_Done _ _ _ _ _ _ (read_alone holder m t type h _ 1 s Hl)). cbn [mutex_handle].
  destruct Hl as [Hm Hh]. cbn in Hm, Hh. destruct (mut_release h t 1 _ Hh) as (k & R & Hk).
  rewrite (alone_bind_Done _ _ _ s STATUS_SUCCESS (with_system s k)) by (cbn; by rewrite R).
  rewrite (bool_decide_eq_true_2 (STATUS_SUCCESS = STATUS_SUCCESS)) by done. cbn. rewrite Hm. cbn. change (u32 (1 - 1)) with 0. cbn. rewrite lookup_insert_eq.
  unfold unlocked_state. rewrite R. cbn. rewrite insert_insert_eq. split; [done|]. split; cbn; [by rewrite lookup_insert_eq|].
  by rewrite Hk, Z.eqb_refl.
Qed.

Definition wait_time (abstime : option timespec) : option (option Z) :=
  match abstime with None => Some None | Some a => l ← timespec_to_LARGE_INTEGER a; Some (Some l) end.

(** a wait of a thread that has the mutex unlocks it, enters the queue and
    waits for an alert. Once alerted it returns 0 and has the mutex again. If the
    wait fails it returns -1 with the mutex left unlocked; after a timeout the errno
    is [ETIMEDOUT] and the thread has left the queue. *)
Theorem wait_and_relock (abstime : option timespec) (o : option Z) (ids : list Z) (n : nat) (s : sync K) :
  locked holder m t type h 1 s -> cond_is c N 0 ids n s -> zlen ids < N -> wait_time abstime = Some o ->
  match NtWaitForAlertByThreadId t o (NtReleaseMutant h t (sync_kernel s)).2 with
  | None => alone t (wlibc_cond_common_wait c m abstime) s = Wait
  | Some (status, _) =>
      exists s', alone t (wlibc_cond_common_wait c m abstime) s = Done (if bool_decide (status = STATUS_SUCCESS) then 0 else -1) s' /\
        locked holder m t type h (if bool_decide (status = STATUS_SUCCESS) then 1 else 0) s' /\
        (status = STATUS_TIMEOUT -> errno_of t s' = ETIMEDOUT /\ cond_is c N 0 (ids ++ [0]) n s')
  end.
Proof.
  intros Hl Hc Hn Ho. unfold wlibc_cond_common_wait. rewrite (alone_bind_Done _ _ _ s t s) by done.
  destruct (unlock_once s Hl) as [U Hu]. rewrite (alone_bind_Done _ _ _ _ _ _ U). cbn [Z.eqb].
  assert (cond_is c N 0 ids n (unlocked_state s)) as H1 by exact Hc. fold (wait_time abstime). rewrite Ho.
  destruct (enter_queue_alone c N t ids n _ H1 Hn) as (i & s2 & E2 & H2 & (M2 & _ & _) & K2 & I2). rewrite (alone_bind_Done _ _ _ _ _ _ E2).
  assert (locked holder m t type h 0 s2) as L2 by (destruct Hu as [Hu1 Hu2]; split; [by rewrite M2 | by rewrite K2]).
  rewrite alone_bind. cbn [alone system_call atomically]. rewrite K2. change (sync_kernel (unlocked_state s)) with (NtReleaseMutant h t (sync_kernel s)).2.
  destruct (NtWaitForAlertByThreadId t o _) as [[status k]|] eqn:W; [|done].
  assert (locked holder m t type h 0 (with_system s2 k)) as L3.
  { destruct L2 as [A B]. split; [exact A|]. cbn [sync_kernel with_system]. rewrite (wait_keeps _ _ _ _ _ W). rewrite K2 in B. exact B. }
  destruct (bool_decide_reflect (status = STATUS_SUCCESS)) as [->|Hs]; cbn [negb].
  - destruct (lock_alone holder m t type h t_ok None 0 _ L3) as (s4 & E4 & L4); [lia | auto|].
    assert (counts type Lock 0 = (0, 1)) as Ec by (unfold counts; by rewrite orb_true_r). rewrite Ec in E4, L4. cbn [fst snd] in E4, L4.
    unfold wlibc_mutex_lock. rewrite alone_bind, (validate_alone holder m t type h m_ok h_ok _ 0 _ L3), E4. exists s4. split; [done|]. split; [done|]. intros [=].
  - destruct (bool_decide_reflect (status = STATUS_TIMEOUT)) as [->|Ht].
    + destruct H2 as (x & q & Hx & Hf & Wx). rewrite (I2 x q Hx (win_queue _ _ _ _ Wx)) in *.
      destruct (leave_queue_alone c N t (length ids) (ids ++ [t]) n x q (with_system s2 k) Hx Hf Wx) as (s4 & E4 & H4 & M4 & _ & K4); [rewrite length_app; cbn; lia|].
      rewrite (alone_bind_Done _ _ _ _ _ _ E4). cbn. eexists. split; [reflexivity|]. split.
      * destruct L3 as [A B]. split; cbn [mutexes with_errnos sync_kernel]; [by rewrite M4 | by rewrite K4].
      * intros _. split; [unfold errno_of; cbn; by rewrite lookup_insert_eq|].
        rewrite insert_app_r_alt, Nat.sub_diag in H4 by lia. exact H4.
    + cbn. eexists. split; [reflexivity|]. split; [exact L3 | done].
Qed.
End Waits.

(** ** A kernel with alerts *)

Module Alarms.
Import Locks.

(** The holders of the mutants and the threads that were alerted. *)
Definition alarms : Type := locks * list Z.

#[export] Instance alarms_kernel : SyncKernel alarms := {
  NtCreateMutant k := (STATUS_SUCCESS, 1, k);
  NtCloseMutant _ k := (STATUS_SUCCESS, k);
  WaitForMutant h t o k := '(st, l) ← WaitForMutant h t o k.1; Some (st, (l, k.2));
  NtReleaseMutant h t k := let '(st, l) := NtReleaseMutant h t k.1 in (st, (l, k.2));
  NtAlertThreadByThreadId t k := (STATUS_SUCCESS, (k.1, t :: k.2));
  NtWaitForAlertByThreadId t o k :=
    if bool_decide (t ∈ k.2) then Some (STATUS_SUCCESS, (k.1, filter (fun u => u <> t) k.2))
    else match o with None => None | Some _ => Some (STATUS_TIMEOUT, k) end;
  RtlTryAcquireSRWLockShared p := Some p;
  RtlTryAcquireSRWLockExclusive p := Some p;
  RtlReleaseSRWLockShared p := Some p;
  RtlReleaseSRWLockExclusive p := Some p;
  GetSystemTimeAsFileTime k := (0, k)
}.

#[export] Instance alarms_alerts : Alerts (fun _ => True) (fun (k : alarms) t => t ∈ k.2).
Proof.
  split; intros; cbn.
  - apply elem_of_cons. auto.
  - apply elem_of_cons. auto.
  - rewrite bool_decide_eq_true_2 by done. eauto.
Qed.

#[export] Instance alarms_mutants : Mutants (fun k : alarms => k.1).
Proof.
  pose proof Locks.locks_mutants as L.
  split; cbn -[WaitForMutant NtReleaseMutant]; intros h; intros.
  - destruct (mut_free h t o k.1 H) as (l & W & Hl). exists (l, k.2). cbn in W |- *. by rewrite W.
  - destruct (mut_again h t o n k.1 H) as (l & W & Hl). exists (l, k.2). cbn in W |- *. by rewrite W.
  - pose proof (mut_wait h t u n k.1 H H0) as W. cbn in W |- *. by rewrite W.
  - pose proof (mut_try h t u n k.1 H H0) as W. cbn in W |- *. rewrite W. by destruct k.
  - destruct (mut_timed h t u n l k.1 H H0) as [W|W]; cbn in W |- *; rewrite W; [by left | right]. by destruct k.
  - destruct (mut_release h t n k.1 H) as (l & W & Hl). exists (l, k.2). cbn in W |- *. by rewrite W.
  - pose proof (mut_not_owned h t k.1 H) as W. cbn in W |- *. rewrite W. by destruct k.
  - done.
Qed.

Lemma alarms_keep t o (k : alarms) st k' : NtWaitForAlertByThreadId t o k = Some (st, k') -> forall h, k'.1 h = k.1 h.
Proof. cbn. destruct (bool_decide _); [by intros [= _ <-]|]. destruct o; [by intros [= _ <-] | done]. Qed.

(** A condition variable at address 300 with a queue for four threads, and a mutex at
    address 100 that thread 1 holds. *)
Definition idle : sync alarms :=
  Sync {[100 := Mutex 1 1 WLIBC_MUTEX_TIMED 5]} {[300 := Cond (Some [0; 0; 0; 0]) 0 4 0 0 0]} ∅ ∅ (fun h => if h =? 5 then Some (1, 1) else None, []).

Definition crowd : cond_t := Cond (Some [7; 8; 9; 0]) 3 4 0 3 0.
Definition crowded : sync alarms := Sync ∅ {[300 := crowd]} ∅ ∅ (fun _ => None, []).

Lemma idle_is : cond_is 300 4 0 [] 0 idle.
Proof. exists (Cond (Some [0; 0; 0; 0]) 0 4 0 0 0), [0; 0; 0; 0]. split; [done|]. split; [done|]. constructor; cbn; try lia; try done. Qed.

Lemma crowd_is : window [7; 8; 9] 3 crowd [7; 8; 9; 0].
Proof.
  constructor; cbn; try lia; try done. intros [|[|[|i]]] v; cbn; try (intros [= <-]; reflexivity).
Qed.

End Alarms.
Import Alarms.


Lemma waiter_lost_witness : exists r s1 s2 s3,
  alone 1 (wlibc_cond_signal 300) crowded = Done r s1 /\ alone 1 (wlibc_cond_broadcast 5 300) s1 = Done (Some 0) s2 /\
  cond_run 300 1 [Signal; Broadcast 5; Signal] s2 = Some s3 /\ (sync_kernel s3).2 = [8; 7] /\ 9 ∉ (sync_kernel s3).2.
Proof.
  destruct (waiter_lost 300 4 ltac:(lia) 7 9 1 7 [8] 5 [Signal; Broadcast 5; Signal] crowded crowd [7; 8; 9; 0] eq_refl eq_refl crowd_is
    ltac:(cbn; lia)) as [(r & s1 & s2 & E1 & E2 & s3 & E3 & K3) _].
  exists r, s1, s2, s3. rewrite K3. repeat split; auto. intros Hin. apply list_elem_of_In in Hin. vm_compute in Hin. intuition discriminate.
Defined.

Lemma wait_and_relock_witness : exists s',
  alone 1 (wlibc_cond_timedwait 300 100 (Some (Timespec 5 5))) idle = Done (-1) s' /\ errno_of 1 s' = ETIMEDOUT /\
  (sync_kernel s').1 5 = None.
Proof.
  destruct (wait_and_relock (fun k : alarms => k.1) alarms_keep 300 4 100 1 WLIBC_MUTEX_TIMED 5 ltac:(lia) ltac:(lia) ltac:(lia)
    (Some (Timespec 5 5)) (Some 116444736050000000) [] 0 idle) as (s' & E & [_ L] & T).
  - split; reflexivity.
  - exact idle_is.
  - cbn. lia.
  - reflexivity.
  - exists s'. split; [exact E|]. split; [by apply T | exact L].
Defined.
