(* ===== verification/Tss.v ===== *)
(** * Thread specific storage and clean-up

    src/thread/internal.c and key.c with the structures of src/include/internal/
    thread.h: what the library keeps for each thread, the keys, and what is run when
    a thread ends. *)

From stdpp Require Import gmap.
From S2P Require Import Prelude Errno Buffer FdTable FileIo Cpuset Path.

Record cleanup_entry := CleanupEntry { cleanup_routine : Z; cleanup_arg : Z }.

(** The fields that concern signals are in Signal.v. [cleanup_entries] is the array
    the pointer leads to, [None] when there is none or it was freed. *)
Record threadinfo := Threadinfo {
  thread_handle : Z;
  id : Z;
  cancelstate : Z;
  canceltype : Z;
  routine : Z;
  args : Z;
  result : Z;
  cleanup_slots_allocated : Z;
  cleanup_slots_used : Z;
  cleanup_entries : option (list cleanup_entry);
  slots : list Z
}.

(** What [HEAP_ZERO_MEMORY] gives. *)
Definition zero_threadinfo : threadinfo := Threadinfo 0 0 0 0 0 0 0 0 0 None (replicate 64 0).

Definition with_handle_id (h i : Z) (t : threadinfo) : threadinfo :=
  Threadinfo h i (cancelstate t) (canceltype t) (routine t) (args t) (result t)
    (cleanup_slots_allocated t) (cleanup_slots_used t) (cleanup_entries t) (slots t).
Definition with_cancelstate (c : Z) (t : threadinfo) : threadinfo :=
  Threadinfo (thread_handle t) (id t) c (canceltype t) (routine t) (args t) (result t)
    (cleanup_slots_allocated t) (cleanup_slots_used t) (cleanup_entries t) (slots t).
Definition with_start (r a : Z) (t : threadinfo) : threadinfo :=
  Threadinfo (thread_handle t) (id t) (cancelstate t) (canceltype t) r a (result t)
    (cleanup_slots_allocated t) (cleanup_slots_used t) (cleanup_entries t) (slots t).
Definition with_result (r : Z) (t : threadinfo) : threadinfo :=
  Threadinfo (thread_handle t) (id t) (cancelstate t) (canceltype t) (routine t) (args t) r
    (cleanup_slots_allocated t) (cleanup_slots_used t) (cleanup_entries t) (slots t).
Definition with_cleanup (n u : Z) (e : option (list cleanup_entry)) (t : threadinfo) : threadinfo :=
  Threadinfo (thread_handle t) (id t) (cancelstate t) (canceltype t) (routine t) (args t) (result t) n u e (slots t).
Definition with_slots (l : list Z) (t : threadinfo) : threadinfo :=
  Threadinfo (thread_handle t) (id t) (cancelstate t) (canceltype t) (routine t) (args t) (result t)
    (cleanup_slots_allocated t) (cleanup_slots_used t) (cleanup_entries t) l.

(** The structures by their addresses, the one in the slot [_wlibc_threadinfo_index]
    of the running thread, [_wlibc_tls_bitmap] and [_wlibc_tls_destructors], and the
    sets of processors the caller has in memory. *)
Record threads_state := Threads {
  infos : gmap Z threadinfo;
  self : Z;
  _wlibc_tls_bitmap : Z;
  _wlibc_tls_destructors : list Z;
  cpu_sets : gmap Z cpu_set_t
}.

Definition with_infos (s : threads_state) m := Threads m (self s) (_wlibc_tls_bitmap s) (_wlibc_tls_destructors s) (cpu_sets s).
Definition with_self (s : threads_state) a := Threads (infos s) a (_wlibc_tls_bitmap s) (_wlibc_tls_destructors s) (cpu_sets s).
Definition with_tls (s : threads_state) b d := Threads (infos s) (self s) b d (cpu_sets s).

(** The functions of the program: start routines, clean-up routines and
    destructors. They may call the library. *)
Class Routines (K : Type) := call_routine : Z -> Z -> SM threads_state K Z.

(** The address of a new block, what an uninitialised clean-up entry holds, and the
    identity of the running thread. *)
Class ThreadHeap (K : Type) := {
  new_address : gmap Z threadinfo -> Z;
  old_entry : cleanup_entry;
  NtCurrentThread : Z;
  CurrentThreadId : K -> Z
}.

Definition sizeof_threadinfo : Z := 584.
Definition sizeof_cleanup_entry : Z := 16.

Section Tss.
Context {K : Type} {KN : Kernel K} {A : Allocator} {RT : Routines K} {TH : ThreadHeap K}.

Abbreviation Th := (SM threads_state K).

Definition undefined_behaviour {X} : Th X := run_M UB.

(** The structure at an address. *)
Definition info (a : Z) : Th threadinfo :=
  s ← get_S; match infos s !! a with Some t => mret t | None => undefined_behaviour end.
Definition change_info (a : Z) (f : threadinfo -> threadinfo) : Th unit :=
  t ← info a; s ← get_S; put_S (with_infos s (<[a := f t]> (infos s))).

(** [TlsGetValue(_wlibc_threadinfo_index)]. *)
Definition current : Th Z := s ← get_S; mret (self s).

(** ** Keys *)

(** The first bit that is 0, of 64. *)
Definition first_zero (bitmap : Z) : option nat :=
  List.find (fun i => negb (Z.testbit bitmap (Z.of_nat i))) (seq 0 64).

(** [1ull << index]: undefined from 64 on. *)
Definition key_bit (index : Z) : Th Z := if index <? 64 then mret (u64 (Z.shiftl 1 index)) else undefined_behaviour.

(** [VALIDATE_TLS_ENTRY] and then [f]. *)
Definition validate_tls_entry {X} (index : Z) (e : X) (f : Th X) : Th X :=
  b ← key_bit index; s ← get_S; if Z.land (_wlibc_tls_bitmap s) b =? 0 then mret e else f.

(** The result and the key, if there is one. *)
Definition wlibc_tss_create (destructor : Z) : Th (Z * option Z) :=
  s ← get_S;
  match first_zero (_wlibc_tls_bitmap s) with
  | Some i =>
      b ← key_bit (Z.of_nat i);
      _ ← put_S (with_tls s (Z.lor (_wlibc_tls_bitmap s) b) (<[i := destructor]> (_wlibc_tls_destructors s)));
      mret (0, Some (Z.of_nat i))
  | None => mret (-1, None)
  end.

Definition wlibc_tss_get (index : Z) : Th Z :=
  validate_tls_entry index 0 (
    a ← current; t ← info a;
    match slots t !! Z.to_nat index with Some v => mret v | None => undefined_behaviour end).

Definition wlibc_tss_set (index data : Z) : Th Z :=
  validate_tls_entry index (-1) (
    a ← current; _ ← change_info a (fun t => with_slots (<[Z.to_nat index := data]> (slots t)) t); mret 0).

Definition wlibc_tss_delete (index : Z) : Th Z :=
  validate_tls_entry index (-1) (
    b ← key_bit index;
    s ← get_S;
    _ ← put_S (with_tls s (Z.land (_wlibc_tls_bitmap s) (u64 (Z.lnot b))) (<[Z.to_nat index := 0]> (_wlibc_tls_destructors s)));
    mret 0).

(** ** The end of a thread *)

(** The destructor of the slot [i] is called. *)
Definition cleanup_slot (a : Z) (i : nat) : Th unit :=
  s ← get_S;
  b ← key_bit (Z.of_nat i);
  if negb (Z.land (_wlibc_tls_bitmap s) b =? 0) then
    t ← info a;
    let value := default 0 (slots t !! i) in
    let destructor := default 0 (_wlibc_tls_destructors s !! i) in
    if negb (value =? 0) && negb (destructor =? 0) then
      _ ← change_info a (fun t => with_slots (<[i := 0]> (slots t)) t);
      _ ← call_routine destructor value;
      mret ()
    else mret ()
  else mret ().

Fixpoint cleanup_slots (a : Z) (l : list nat) : Th unit :=
  match l with [] => mret () | i :: l => _ ← cleanup_slot a i; cleanup_slots a l end.

Definition cleanup_tls (a : Z) : Th unit :=
  s ← get_S; if _wlibc_tls_bitmap s =? 0 then mret () else cleanup_slots a (seq 0 64).

(** The last entry of the clean-up list. *)
Definition last_entry (t : threadinfo) : Th cleanup_entry :=
  match cleanup_entries t ≫= (fun l => l !! Z.to_nat (cleanup_slots_used t - 1)) with
  | Some e => mret e
  | None => undefined_behaviour
  end.

Definition pop_entry (a : Z) : Th unit :=
  change_info a (fun t => with_cleanup (cleanup_slots_allocated t) (u32 (cleanup_slots_used t - 1)) (cleanup_entries t) t).

(** The loop runs the clean-up routines, at most [fuel] of them; [false] when there
    are more. *)
Fixpoint run_cleanup (fuel : nat) (a : Z) : Th bool :=
  match fuel with
  | O => mret false
  | S fuel =>
      t ← info a;
      if cleanup_slots_used t =? 0 then mret true
      else
        e ← last_entry t;
        _ ← (if negb (cleanup_routine e =? 0) then _ ← call_routine (cleanup_routine e) (cleanup_arg e); mret () else mret ());
        _ ← pop_entry a;
        run_cleanup fuel a
  end.

Definition execute_cleanup (fuel : nat) (a : Z) : Th bool :=
  ok ← run_cleanup fuel a;
  if ok : bool then
    _ ← change_info a (fun t => with_cleanup (cleanup_slots_allocated t) (cleanup_slots_used t) None t); mret true
  else mret false.

(** ** The main thread *)

(** [None] when the process exits for want of memory. *)
Definition threads_init : Th (option unit) :=
  s ← get_S;
  _ ← put_S (with_tls s 0 (replicate 64 0));
  if malloc_ok sizeof_threadinfo then
    s ← get_S;
    k ← run_M get;
    let a := new_address (infos s) in
    _ ← put_S (with_self (with_infos s (<[a := with_handle_id NtCurrentThread (CurrentThreadId (kernel k)) zero_threadinfo]> (infos s))) a);
    mret (Some ())
  else mret None.

Definition threads_cleanup (fuel : nat) : Th bool :=
  a ← current;
  ok ← execute_cleanup fuel a;
  if ok : bool then
    _ ← cleanup_tls a;
    s ← get_S;
    _ ← put_S (with_infos s (delete a (infos s)));
    mret true
  else mret false.

End Tss.
