(* ===== verification/Thread.v ===== *)
(** * Threads

    src/thread/thread.c: threads of the kernel with the structure the library keeps
    for each; their results, cancellation, clean-up routines, attributes and
    scheduling. *)

From stdpp Require Import gmap.
From S2P Require Import Prelude Errno Buffer FdTable FileIo Cpuset Path Time Sched Tss.

Definition WLIBC_THREAD_INHERIT_SCHED : Z := 0.
Definition WLIBC_THREAD_EXPLICIT_SCHED : Z := 1.
Definition WLIBC_THREAD_SCOPE_SYSTEM : Z := 0.
Definition WLIBC_THREAD_SCOPE_PROCESS : Z := 1.
Definition WLIBC_THREAD_CANCEL_ENABLE : Z := 0.
Definition WLIBC_THREAD_CANCEL_DISABLE : Z := 1.
Definition WLIBC_THREAD_CANCEL_ASYNCHRONOUS : Z := 0.
Definition WLIBC_THREAD_CANCEL_DEFERRED : Z := 1.
Definition WLIBC_THREAD_CANCELED : Z := 2 ^ 64 - 1.
Definition WLIBC_THREAD_JOINABLE : Z := 0.
Definition WLIBC_THREAD_DETACHED : Z := 1.
Definition WLIBC_THREAD_RUNNING : Z := 0.
Definition WLIBC_THREAD_SUSPENDED : Z := 1.

(** [set] is the address of a set, 0 for none. *)
Record thread_attr_t := ThreadAttr {
  detachstate : Z;
  suspendstate : Z;
  inherit : Z;
  policy : Z;
  priority : Z;
  stacksize : Z;
  set : Z
}.

(** A procedure that is queued to a thread. *)
Inductive apc := CancelApc (tinfo : Z) | KillApc (sig : Z).

(** Threads by their handles. While a thread waits for another one, other threads
    may run and change their structures. *)
Class ThreadKernel (K : Type) := {
  CreateRemoteThreadEx : Z -> Z -> K -> (DOSERROR + Z * Z) * K;
  NtResumeThread : Z -> K -> NTSTATUS * K;
  NtSuspendThread : Z -> K -> NTSTATUS * K;
  WaitForThread : Z -> option Z -> gmap Z threadinfo -> K -> NTSTATUS * gmap Z threadinfo * K;
  RtlExitUserThread : Z -> K -> K;
  NtQueueApcThread : Z -> apc -> K -> NTSTATUS * K;
  NtQueryThreadPriority : Z -> K -> NTSTATUS * Z;
  NtSetThreadPriority : Z -> Z -> K -> NTSTATUS * K;
  NtChangeThreadPriority : Z -> Z -> K -> NTSTATUS * K;
  NtQueryThreadName : Z -> K -> NTSTATUS * list Z;
  NtSetThreadName : Z -> list Z -> K -> NTSTATUS * K;
  NtQuerySelectedCpuSets : Z -> K -> NTSTATUS * Z;
  NtSetSelectedCpuSets : Z -> Z -> K -> NTSTATUS * K;
  QueryProcessorGroups : K -> NTSTATUS * list Z
}.

Section Threads.
Context {K : Type} {KN : Kernel K} {A : Allocator} {RT : Routines K} {TH : ThreadHeap K}.
Context {PK : PathKernel K} {TK : TimeKernel K} {TDK : ThreadKernel K}.

Abbreviation Th := (SM threads_state K).

Definition th_fail (e : Z) : Th Z := run_M (fail e).
Definition th_fail_status (status : NTSTATUS) : Th Z := run_M (fail_status status).

(** A call of the kernel. *)
Definition system_service {X} (f : K -> X * K) : Th X :=
  s ← run_M get; let '(x, k) := f (kernel s) in _ ← run_M (set_kernel k); mret x.

(** A call that only gives a status, and then [m] when it is success. *)
Definition checked (f : K -> NTSTATUS * K) (m : Th Z) : Th Z :=
  status ← system_service f; if bool_decide (status = STATUS_SUCCESS) then m else th_fail_status status.

Definition validate (p : Z) (m : Th Z) : Th Z := if p =? 0 then th_fail EINVAL else m.

(** ** Scheduling *)

(** The policy and the priority for an absolute priority. *)
Definition policy_and_priority (priority : Z) : Z * Z :=
  let '(policy, sched_priority) :=
    if priority <=? 4 then (SCHED_IDLE, priority - 4)
    else if priority <=? 6 then (SCHED_BATCH, priority - 6)
    else if priority <=? 8 then (SCHED_RR, priority - 8)
    else if priority <=? 10 then (SCHED_SPORADIC, priority - 10)
    else (SCHED_FIFO, priority - 13) in
  let sched_priority := if sched_priority >? 2 then 2 else sched_priority in
  if sched_priority <? -2 then
    if policy =? SCHED_IDLE then (policy, -2)
    else if policy =? SCHED_BATCH then (SCHED_IDLE, priority - 4)
    else if policy =? SCHED_RR then (SCHED_BATCH, priority - 6)
    else if policy =? SCHED_SPORADIC then (SCHED_RR, priority - 8)
    else if policy =? SCHED_FIFO then (SCHED_SPORADIC, priority - 10)
    else (policy, sched_priority)
  else (policy, sched_priority).

(** The result, the policy and the priority. *)
Definition wlibc_thread_getschedparam (thread : Z) : Th (Z * option (Z * Z)) :=
  if thread =? 0 then r ← th_fail EINVAL; mret (r, None)
  else
    t ← info thread;
    s ← run_M get;
    let '(status, priority) := NtQueryThreadPriority (thread_handle t) (kernel s) in
    if negb (bool_decide (status = STATUS_SUCCESS)) then r ← th_fail_status status; mret (r, None)
    else mret (0, Some (policy_and_priority priority)).

Definition policy_base (policy : Z) : Z :=
  if policy =? SCHED_IDLE then 4
  else if policy =? SCHED_RR then 8
  else if policy =? SCHED_FIFO then 13
  else if policy =? SCHED_BATCH then 6
  else if policy =? SCHED_SPORADIC then 10
  else SCHED_RR.

Definition wlibc_thread_setschedparam (thread policy : Z) (param : option Z) : Th Z :=
  validate thread (
    match param with
    | None => th_fail EINVAL
    | Some sched_priority =>
        if negb (valid_priority sched_priority) then th_fail EINVAL
        else if negb (valid_policy policy) then th_fail EINVAL
        else
          t ← info thread;
          checked (NtSetThreadPriority (thread_handle t) (policy_base policy + sched_priority)) (mret 0)
    end).

(** When there is no result the priority stored is not initialised. *)
Definition wlibc_thread_getschedpriority (thread : Z) (place : bool) : Th (Z * option Z) :=
  if (thread =? 0) || negb place then r ← th_fail EINVAL; mret (r, None)
  else
    '(status, param) ← wlibc_thread_getschedparam thread;
    mret (status, snd <$> param).

Definition wlibc_thread_setschedpriority (thread priority : Z) : Th Z :=
  validate thread (
    if negb (valid_priority priority) then th_fail EINVAL
    else t ← info thread; checked (NtChangeThreadPriority (thread_handle t) priority) (mret 0)).

(** [cpuset] is the address of a set. *)
Definition wlibc_thread_getaffinity (thread cpuset : Z) : Th Z :=
  validate thread (
    s ← get_S;
    if cpuset =? 0 then th_fail EINVAL
    else
      match cpu_sets s !! cpuset with
      | None => undefined_behaviour
      | Some c =>
          if num_groups c =? 0 then th_fail EINVAL
          else
            t ← info thread;
            k ← run_M get;
            let '(status, mask) := NtQuerySelectedCpuSets (thread_handle t) (kernel k) in
            if negb (bool_decide (status = STATUS_SUCCESS)) then th_fail_status status
            else
              _ ← put_S (Threads (infos s) (self s) (_wlibc_tls_bitmap s) (_wlibc_tls_destructors s)
                     (<[cpuset := CpuSet (num_groups c) (num_cpus c) (<[0%nat := mask]> (group_mask c))]> (cpu_sets s)));
              mret 0
      end).

Definition wlibc_thread_setaffinity (thread cpuset : Z) : Th Z :=
  validate thread (
    s ← get_S;
    if cpuset =? 0 then th_fail EINVAL
    else
      match cpu_sets s !! cpuset with
      | None => undefined_behaviour
      | Some c =>
          if num_groups c =? 0 then th_fail EINVAL
          else t ← info thread; checked (NtSetSelectedCpuSets (thread_handle t) (mask c 0)) (mret 0)
      end).

(** ** The life of a thread *)

Definition wlibc_thread_entry (fuel : nat) (a : Z) : Th bool :=
  s ← get_S;
  _ ← put_S (with_self s a);
  t ← info a;
  result ← call_routine (routine t) (args t);
  _ ← change_info a (with_result result);
  ok ← execute_cleanup fuel a;
  if ok : bool then
    _ ← cleanup_tls a;
    _ ← system_service (fun k => ((), RtlExitUserThread (swrap 32 result) k));
    mret true
  else mret false.

(** The explicit scheduling and the affinity of the attributes; errors are ignored. *)
Definition apply_attributes (a : Z) (attributes : thread_attr_t) : Th unit :=
  _ ← (if inherit attributes =? WLIBC_THREAD_EXPLICIT_SCHED
       then _ ← wlibc_thread_setschedparam a (policy attributes) (Some (priority attributes)); mret ()
       else mret ());
  if negb (set attributes =? 0) then _ ← wlibc_thread_setaffinity a (set attributes); mret () else mret ().

(** [place] tells whether there is a place for the thread; the result and what is
    stored in it. After an error it can be the address of memory that was freed. *)
Definition wlibc_thread_create (place : bool) (attributes : option thread_attr_t) (routine arg : Z) : Th (Z * option Z) :=
  if negb place then r ← th_fail EINVAL; mret (r, None)
  else if negb (malloc_ok sizeof_threadinfo) then r ← th_fail ENOMEM; mret (r, Some 0)
  else
    let stack := match attributes with Some x => stacksize x | None => 0 end in
    s ← get_S;
    let a := new_address (infos s) in
    _ ← put_S (with_infos s (<[a := with_start routine arg zero_threadinfo]> (infos s)));
    created ← system_service (CreateRemoteThreadEx stack a);
    match created with
    | inl error =>
        k ← run_M get;
        _ ← run_M (set_errno (map_doserror_to_errno error (errno k)));
        s ← get_S;
        _ ← put_S (with_infos s (delete a (infos s)));
        mret (-1, Some a)
    | inr (h, thread_id) =>
        _ ← change_info a (with_handle_id h thread_id);
        _ ← match attributes with Some x => apply_attributes a x | None => mret () end;
        _ ← (if match attributes with Some x => suspendstate x =? WLIBC_THREAD_SUSPENDED | None => false end then mret ()
             else _ ← system_service (NtResumeThread h); mret ());
        _ ← (if match attributes with Some x => detachstate x =? WLIBC_THREAD_DETACHED | None => false end
             then _ ← system_service (NtClose h); change_info a (fun t => with_handle_id 0 (id t) t)
             else mret ());
        mret (0, Some a)
    end.

Definition wlibc_thread_detach (thread : Z) : Th Z :=
  validate thread (
    t ← info thread;
    if negb (thread_handle t =? 0)
    then checked (NtClose (thread_handle t)) (_ ← change_info thread (fun t => with_handle_id 0 (id t) t); mret 0)
    else th_fail EINVAL).

(** [place] tells whether there is a place for the result. *)
Definition wlibc_common_thread_join (thread : Z) (place : bool) (abstime : option timespec) : Th (Z * option Z) :=
  if thread =? 0 then r ← th_fail EINVAL; mret (r, None)
  else
    timeout ← match abstime with
              | Some x => if negb (tv_sec x =? 0) && negb (tv_nsec x =? 0)
                          then run_M (lift (timespec_to_LARGE_INTEGER x)) else mret 0
              | None => mret 0
              end;
    t ← info thread;
    s ← get_S;
    k ← run_M get;
    let '(status, m, k) := WaitForThread (thread_handle t) (match abstime with None => None | Some _ => Some timeout end) (infos s) (kernel k) in
    _ ← run_M (set_kernel k);
    _ ← put_S (with_infos s m);
    if negb (bool_decide (status = STATUS_SUCCESS)) then
      r ← th_fail_status status;
      k ← run_M get;
      _ ← (if (timeout =? 0) && (errno k =? ETIMEDOUT) then run_M (set_errno EBUSY) else mret ());
      mret (r, None)
    else
      t ← info thread;
      status ← system_service (NtClose (thread_handle t));
      if negb (bool_decide (status = STATUS_SUCCESS)) then r ← th_fail_status status; mret (r, None)
      else
        t ← info thread;
        s ← get_S;
        _ ← put_S (with_infos s (delete thread (infos s)));
        mret (0, if place then Some (result t) else None).

Definition wlibc_thread_join (thread : Z) (place : bool) := wlibc_common_thread_join thread place None.
Definition wlibc_thread_tryjoin (thread : Z) (place : bool) := wlibc_common_thread_join thread place (Some (Timespec 0 0)).
Definition wlibc_thread_timedjoin (thread : Z) (place : bool) (abstime : option timespec) : Th (Z * option Z) :=
  match abstime with None => r ← th_fail EINVAL; mret (r, None) | Some _ => wlibc_common_thread_join thread place abstime end.

Definition wlibc_thread_equal (a b : Z) : Th bool := t ← info a; u ← info b; mret (id t =? id u).

Definition wlibc_thread_self : Th Z := current.

Definition wlibc_thread_sleep (duration : option timespec) : Th Z :=
  match duration with
  | None => th_fail EINVAL
  | Some d =>
      interval ← run_M (lift (x ← i64 (tv_sec d * 10000000); y ← i64 (x + tv_nsec d ÷ 100); i64 (- y)));
      checked (NtDelayExecution interval) (mret 0)
  end.

Definition wlibc_thread_exit (fuel : nat) (retval : Z) : Th bool :=
  a ← current;
  _ ← change_info a (with_result retval);
  ok ← execute_cleanup fuel a;
  if ok : bool then
    _ ← cleanup_tls a;
    _ ← system_service (fun k => ((), RtlExitUserThread (swrap 32 retval) k));
    mret true
  else mret false.

(** ** Cancellation *)

(** The result and the old value. *)
Definition wlibc_thread_setcancelstate (state : Z) (place : bool) : Th (Z * option Z) :=
  if negb (state =? WLIBC_THREAD_CANCEL_ENABLE) && negb (state =? WLIBC_THREAD_CANCEL_DISABLE) then r ← th_fail EINVAL; mret (r, None)
  else
    a ← current;
    t ← info a;
    _ ← change_info a (with_cancelstate state);
    mret (0, if place then Some (cancelstate t) else None).

Definition wlibc_thread_setcanceltype (type : Z) (place : bool) : Th (Z * option Z) :=
  if negb (type =? WLIBC_THREAD_CANCEL_ASYNCHRONOUS) && negb (type =? WLIBC_THREAD_CANCEL_DEFERRED) then r ← th_fail EINVAL; mret (r, None)
  else
    a ← current;
    t ← info a;
    _ ← change_info a (with_cancelstate type);
    mret (0, if place then Some (canceltype t) else None).

(** Whether the thread has exited; [None] when there was not enough fuel. *)
Definition execute_thread_cancellation (fuel : nat) (a : Z) : Th (option bool) :=
  t ← info a;
  if cancelstate t =? WLIBC_THREAD_CANCEL_DISABLE then mret (Some false)
  else
    ok ← execute_cleanup fuel a;
    if ok : bool then
      _ ← cleanup_tls a;
      _ ← change_info a (with_result WLIBC_THREAD_CANCELED);
      _ ← system_service (fun k => ((), RtlExitUserThread (swrap 32 WLIBC_THREAD_CANCELED) k));
      mret (Some true)
    else mret None.

Definition cancel_apc (fuel : nat) (a : Z) : Th (option bool) := execute_thread_cancellation fuel a.

Definition wlibc_thread_cancel (thread : Z) : Th Z :=
  validate thread (t ← info thread; checked (NtQueueApcThread (thread_handle t) (CancelApc thread)) (mret 0)).

Definition wlibc_thread_testcancel (fuel : nat) : Th (option bool) := a ← current; execute_thread_cancellation fuel a.

Definition wlibc_thread_kill (thread sig : Z) : Th Z :=
  validate thread (t ← info thread; checked (NtQueueApcThread (thread_handle t) (KillApc sig)) (mret 0)).

(** ** Clean-up routines *)

Definition wlibc_thread_cleanup_push (routine arg : Z) : Th unit :=
  a ← current;
  t ← info a;
  allocated ← (if cleanup_slots_allocated t =? 0 then
                 if malloc_ok (sizeof_cleanup_entry * 8)
                 then _ ← change_info a (fun t => with_cleanup 8 (cleanup_slots_used t) (Some (replicate 8 old_entry)) t); mret true
                 else _ ← change_info a (fun t => with_cleanup 0 (cleanup_slots_used t) None t); _ ← run_M (set_errno ENOMEM); mret false
               else mret true);
  if negb allocated then mret ()
  else
    t ← info a;
    doubled ← (if cleanup_slots_allocated t =? cleanup_slots_used t then
                 match cleanup_entries t with
                 | None => undefined_behaviour
                 | Some l =>
                     let n := cleanup_slots_allocated t in
                     if malloc_ok (sizeof_cleanup_entry * n * 2)
                     then _ ← change_info a (fun t => with_cleanup (u32 (n * 2)) (cleanup_slots_used t)
                                                     (Some (l ++ replicate (Z.to_nat (n * 2) - length l) old_entry)) t); mret true
                     else _ ← run_M (set_errno ENOMEM); mret false
                 end
               else mret true);
    if negb doubled then mret ()
    else
      t ← info a;
      match cleanup_entries t with
      | None => undefined_behaviour
      | Some l =>
          if cleanup_slots_used t <? zlen l then
            change_info a (fun t => with_cleanup (cleanup_slots_allocated t) (u32 (cleanup_slots_used t + 1))
                                      (Some (<[Z.to_nat (cleanup_slots_used t) := CleanupEntry routine arg]> l)) t)
          else undefined_behaviour
      end.

Definition wlibc_thread_cleanup_pop (execute : Z) : Th unit :=
  a ← current;
  t ← info a;
  if cleanup_slots_used t =? 0 then mret ()
  else
    _ ← (if negb (execute =? 0) then
           e ← last_entry t;
           if negb (cleanup_routine e =? 0) then _ ← call_routine (cleanup_routine e) (cleanup_arg e); mret () else mret ()
         else mret ());
    pop_entry a.

(** ** Other operations *)

Definition wlibc_thread_resume (thread : Z) : Th Z :=
  validate thread (t ← info thread; checked (NtResumeThread (thread_handle t)) (mret 0)).

Definition wlibc_thread_suspend (thread : Z) : Th Z :=
  validate thread (t ← info thread; checked (NtSuspendThread (thread_handle t)) (mret 0)).

(** The sum is kept in a byte. *)
Definition wlibc_thread_getconcurrency : Th Z :=
  s ← run_M get;
  let '(status, counts) := QueryProcessorGroups (kernel s) in
  if negb (bool_decide (status = STATUS_SUCCESS)) then _ ← th_fail_status status; mret 0
  else mret (fold_left (fun count c => u8 (count + c)) counts 0).

Definition wlibc_thread_setconcurrency (level : Z) : Th Z := if level <? 0 then th_fail EINVAL else mret 0.

Definition wlibc_threadid (thread : Z) : Th (Z * option Z) :=
  if thread =? 0 then r ← th_fail EINVAL; mret (r, None) else t ← info thread; mret (0, Some (swrap 32 (id t))).

Definition wlibc_thread_getname (thread : Z) (buffer : bool) (length : Z) : Th (Z * list Z) :=
  if (thread =? 0) || negb buffer then r ← th_fail EINVAL; mret (r, [])
  else if length >? 65536 then r ← th_fail ERANGE; mret (r, [])
  else
    t ← info thread;
    s ← run_M get;
    let '(status, name) := NtQueryThreadName (thread_handle t) (kernel s) in
    if negb (bool_decide (status = STATUS_SUCCESS)) then r ← th_fail_status status; mret (r, [])
    else
      let '(status, text) := RtlUnicodeStringToUTF8String name (Some (u16 length)) in
      if negb (bool_decide (status = STATUS_SUCCESS)) then r ← th_fail_status status; mret (r, [])
      else mret (0, text).

(** [MaximumLength] counts the terminating null. *)
Definition wlibc_thread_setname (thread : Z) (name : option (list Z)) : Th Z :=
  validate thread (
    t ← info thread;
    match name with
    | None => checked (NtSetThreadName (thread_handle t) []) (mret 0)
    | Some u8_name =>
        if u16 (zlen u8_name + 1) >? 32 then th_fail E2BIG
        else
          let '(status, u16_name) := RtlUTF8StringToUnicodeString u8_name None in
          if negb (bool_decide (status = STATUS_SUCCESS)) then th_fail_status status
          else checked (NtSetThreadName (thread_handle t) u16_name) (mret 0)
    end).

End Threads.

(** ** Attributes *)

Section Attributes.
Context {K : Type} {KN : Kernel K}.

Abbreviation Th := (SM threads_state K).

Definition wlibc_threadattr_init : Th (Z * thread_attr_t) :=
  mret (0, ThreadAttr WLIBC_THREAD_JOINABLE WLIBC_THREAD_RUNNING WLIBC_THREAD_INHERIT_SCHED SCHED_RR 0 0 0).

(** The result and the value stored, [place] telling whether there is a place. *)
Definition get_attr (attributes : option thread_attr_t) (place : bool) (f : thread_attr_t -> Z) : Th (Z * option Z) :=
  match attributes with
  | Some x => if place then mret (0, Some (f x)) else r ← run_M (fail EINVAL); mret (r, None)
  | None => r ← run_M (fail EINVAL); mret (r, None)
  end.

(** The result and the new attributes, which are changed when [ok]. *)
Definition set_attr (attributes : option thread_attr_t) (ok : bool) (f : thread_attr_t -> thread_attr_t) : Th (Z * option thread_attr_t) :=
  match attributes with
  | Some x => if ok then mret (0, Some (f x)) else r ← run_M (fail EINVAL); mret (r, Some x)
  | None => r ← run_M (fail EINVAL); mret (r, None)
  end.

Definition wlibc_threadattr_getdetachstate a place := get_attr a place detachstate.
Definition wlibc_threadattr_setdetachstate a d := set_attr a ((d =? WLIBC_THREAD_JOINABLE) || (d =? WLIBC_THREAD_DETACHED))
  (fun x => ThreadAttr d (suspendstate x) (inherit x) (policy x) (priority x) (stacksize x) (set x)).

Definition wlibc_threadattr_getsuspendstate a place := get_attr a place suspendstate.
Definition wlibc_threadattr_setsuspendstate a v := set_attr a ((v =? WLIBC_THREAD_RUNNING) || (v =? WLIBC_THREAD_SUSPENDED))
  (fun x => ThreadAttr (detachstate x) v (inherit x) (policy x) (priority x) (stacksize x) (set x)).

Definition wlibc_threadattr_getstacksize a place := get_attr a place stacksize.
Definition wlibc_threadattr_setstacksize a v := set_attr a true
  (fun x => ThreadAttr (detachstate x) (suspendstate x) (inherit x) (policy x) (priority x) v (set x)).

Definition wlibc_threadattr_getscope a place := get_attr a place (fun _ => WLIBC_THREAD_SCOPE_SYSTEM).
(** Nothing is stored. *)
Definition wlibc_threadattr_setscope a v := set_attr a ((v =? WLIBC_THREAD_SCOPE_SYSTEM) || (v =? WLIBC_THREAD_SCOPE_PROCESS)) (fun x => x).

Definition wlibc_threadattr_getinheritsched a place := get_attr a place inherit.
Definition wlibc_threadattr_setinheritsched a v :=
  set_attr a ((v =? WLIBC_THREAD_INHERIT_SCHED) || (v =? WLIBC_THREAD_EXPLICIT_SCHED))
  (fun x => ThreadAttr (detachstate x) (suspendstate x) v (policy x) (priority x) (stacksize x) (set x)).

Definition wlibc_threadattr_getschedparam a place := get_attr a place priority.
(** [param] is the priority in the structure, if there is one. *)
Definition wlibc_threadattr_setschedparam a (param : option Z) :=
  set_attr a (match param with Some v => valid_priority v | None => false end)
  (fun x => ThreadAttr (detachstate x) (suspendstate x) (inherit x) (policy x) (default 0 param) (stacksize x) (set x)).

Definition wlibc_threadattr_getschedpolicy a place := get_attr a place policy.
Definition wlibc_threadattr_setschedpolicy a v := set_attr a (valid_policy v)
  (fun x => ThreadAttr (detachstate x) (suspendstate x) (inherit x) v (priority x) (stacksize x) (set x)).

(** The set at the address [cpuset] becomes the one of the attributes. *)
Definition wlibc_threadattr_getaffinity (attributes : option thread_attr_t) (cpuset : Z) : Th Z :=
  match attributes with
  | None => run_M (fail EINVAL)
  | Some x =>
      if cpuset =? 0 then run_M (fail EINVAL)
      else
        s ← get_S;
        match cpu_sets s !! cpuset with
        | None => undefined_behaviour
        | Some c =>
            let store (g : list Z) : Th Z :=
              _ ← put_S (Threads (infos s) (self s) (_wlibc_tls_bitmap s) (_wlibc_tls_destructors s)
                     (<[cpuset := CpuSet (num_groups c) (num_cpus c) g]> (cpu_sets s)));
              mret 0 in
            if set x =? 0 then store (replicate (Z.to_nat (num_groups c)) 0)
            else
              match cpu_sets s !! set x with
              | None => undefined_behaviour
              | Some d =>
                  if negb (num_cpus d =? num_cpus c) then run_M (fail ERANGE)
                  else store (take (Z.to_nat (num_groups d)) (group_mask d) ++ drop (Z.to_nat (num_groups d)) (group_mask c))
              end
        end
  end.

(** The address is stored, not the set. *)
Definition wlibc_threadattr_setaffinity (attributes : option thread_attr_t) (cpuset : Z) : Th (Z * option thread_attr_t) :=
  match attributes with
  | None => r ← run_M (fail EINVAL); mret (r, None)
  | Some x =>
      if cpuset =? 0 then r ← run_M (fail EINVAL); mret (r, Some x)
      else
        s ← get_S;
        match cpu_sets s !! cpuset with
        | None => undefined_behaviour
        | Some c =>
            if num_cpus c <=? 0 then r ← run_M (fail EINVAL); mret (r, Some x)
            else mret (0, Some (ThreadAttr (detachstate x) (suspendstate x) (inherit x) (policy x) (priority x) (stacksize x) cpuset))
        end
  end.

End Attributes.
