(* ===== verification/ThreadSpec.v ===== *)
(** * What threads promise

    Keys are a set with a value for each; the routines a thread has pushed run in
    reverse when it ends, and then the destructors of its keys; a scheduling policy
    is found again only as a sum; deferred cancellation switches it off. *)

From stdpp Require Import gmap.
From S2P Require Import Prelude Errno Buffer FdTable FileIo Cpuset Path PathFacts Time Sched Tss Thread.

(** ** Steps *)

Section Steps.
Context {K : Type} {KN : Kernel K} {A : Allocator} {RT : Routines K} {TH : ThreadHeap K}.
Implicit Types (ts : threads_state) (st : state K).

Lemma key_bit_ok (k : nat) ts st : (k < 64)%nat -> key_bit (Z.of_nat k) ts st = Some ((2 ^ Z.of_nat k, ts), st).
Proof.
  intros Hk. unfold key_bit. rewrite (proj2 (Z.ltb_lt _ _)) by lia. rewrite Z.shiftl_1_l, wrap_small; [done|].
  split; [lia | apply Z.pow_lt_mono_r; lia].
Qed.

Lemma get_S_ok (ts : threads_state) (st : state K) : get_S ts st = Some ((ts, ts), st).
Proof. done. Qed.

Lemma info_ok a t (ts : threads_state) (st : state K) : infos ts !! a = Some t -> info a ts st = Some ((t, ts), st).
Proof. intros H. unfold info. rewrite (SM_bind_Some _ _ _ _ _ _ _ (get_S_ok ts st)). by rewrite H. Qed.

Lemma change_info_ok a f t (ts : threads_state) (st : state K) : infos ts !! a = Some t ->
  change_info a f ts st = Some (((), with_infos ts (<[a := f t]> (infos ts))), st).
Proof.
  intros H. unfold change_info. rewrite (SM_bind_Some _ _ _ _ _ _ _ (info_ok _ _ _ _ H)). by rewrite (SM_bind_Some _ _ _ _ _ _ _ (get_S_ok ts st)).
Qed.
End Steps.

(** Runs the steps whose outcome is known. *)
Ltac th_run :=
  repeat (erewrite SM_bind_Some;
          [|first [ apply key_bit_ok; lia | apply get_S_ok | apply info_ok; eassumption | apply change_info_ok; eassumption | reflexivity ] ]; cbv beta iota).

(** ** Keys *)

Inductive tss_op := Create (destructor : Z) | Get (k : nat) | Set_ (k : nat) (v : Z) | Delete (k : nat).

Definition op_key (o : tss_op) : nat := match o with Create _ => 0 | Get k | Set_ k _ | Delete k => k end.

(** The keys that are live and the value the thread has under each number. *)
Definition keys : Type := gset nat * (nat -> Z).

Definition lowest (l : gset nat) : option nat := List.find (fun i => bool_decide (i ∉ l)) (seq 0 64).

Definition tss_spec (o : tss_op) (s : keys) : Z * keys :=
  let '(l, v) := s in
  match o with
  | Create _ => match lowest l with Some i => (Z.of_nat i, (l ∪ {[i]}, v)) | None => (-1, s) end
  | Get k => (if bool_decide (k ∈ l) then v k else 0, s)
  | Set_ k x => if bool_decide (k ∈ l) then (0, (l, fun i => if decide (i = k) then x else v i)) else (-1, s)
  | Delete k => if bool_decide (k ∈ l) then (0, (l ∖ {[k]}, v)) else (-1, s)
  end.

Fixpoint tss_spec_all (ops : list tss_op) (s : keys) : list Z * keys :=
  match ops with [] => ([], s) | o :: ops => let '(r, s) := tss_spec o s in let '(rs, s) := tss_spec_all ops s in (r :: rs, s) end.

Section Keys.
Context {K : Type} {KN : Kernel K} {A : Allocator} {RT : Routines K} {TH : ThreadHeap K}.

Abbreviation Th := (SM threads_state K).
Implicit Types (ts : threads_state) (st : state K).

(** The key of a create, -1 without one. *)
Definition tss_perform (o : tss_op) : Th Z :=
  match o with
  | Create d => '(r, k) ← wlibc_tss_create d; mret (default r k)
  | Get k => wlibc_tss_get (Z.of_nat k)
  | Set_ k v => wlibc_tss_set (Z.of_nat k) v
  | Delete k => wlibc_tss_delete (Z.of_nat k)
  end.

Fixpoint tss_perform_all (ops : list tss_op) : Th (list Z) :=
  match ops with [] => mret [] | o :: ops => r ← tss_perform o; rs ← tss_perform_all ops; mret (r :: rs) end.

(** The bitmap and the slots of the running thread say so. *)
Definition has_keys (s : keys) (ts : threads_state) : Prop :=
  (forall i, (i < 64)%nat -> Z.testbit (_wlibc_tls_bitmap ts) (Z.of_nat i) = bool_decide (i ∈ s.1)) /\
  exists t, infos ts !! self ts = Some t /\ forall i, (i < 64)%nat -> slots t !! i = Some (s.2 i).

Lemma lowest_bits b l : (forall i, (i < 64)%nat -> Z.testbit b (Z.of_nat i) = bool_decide (i ∈ l)) -> first_zero b = lowest l.
Proof.
  intros H. unfold first_zero, lowest. assert (forall i, i ∈ seq 0 64 -> (i < 64)%nat) as Hs by (intros i Hi; apply elem_of_seq in Hi; lia).
  induction (seq 0 64) as [|i s IH]; [done|]. cbn [find]. rewrite H by (apply Hs; left).
  rewrite bool_decide_not. destruct (negb _); [done|]. apply IH. intros j Hj. apply Hs. by right.
Qed.

Lemma lowest_spec l i : lowest l = Some i -> (i < 64)%nat /\ i ∉ l /\ forall j, (j < i)%nat -> j ∈ l.
Proof.
  unfold lowest. assert (forall n m, find (fun i => bool_decide (i ∉ l)) (seq n m) = Some i -> (n <= i < n + m)%nat /\ i ∉ l /\ forall j, (n <= j < i)%nat -> j ∈ l) as H.
  { intros n m. revert n. induction m as [|m IH]; intros n H; cbn [seq find] in H; [done|].
    destruct (bool_decide_reflect (n ∉ l)) as [Hn|Hn].
    - injection H as ->. split; [lia|]. split; [done|]. lia.
    - apply IH in H as (H1 & H2 & H3). split; [lia|]. split; [done|]. intros j Hj. destruct (decide (j = n)) as [->|]; [by apply dec_stable | apply H3; lia]. }
  intros Hf. apply H in Hf as (H1 & H2 & H3). split; [lia|]. split; [done|]. intros j Hj. apply H3. lia.
Qed.

Lemma validate_tls {X} k e (f : Th X) s ts st : has_keys s ts -> (k < 64)%nat ->
  validate_tls_entry (Z.of_nat k) e f ts st = if bool_decide (k ∈ s.1) then f ts st else Some ((e, ts), st).
Proof.
  intros (Hb & _) Hk. unfold validate_tls_entry. rewrite (SM_bind_Some _ _ _ _ _ _ _ (key_bit_ok k ts st Hk)).
  rewrite (SM_bind_Some _ _ _ _ _ _ _ (get_S_ok ts st)). pose proof (land_pow2_bit (_wlibc_tls_bitmap ts) (Z.of_nat k)) as L.
  rewrite Hb in L by done. destruct (Z.land _ _ =? 0); cbn in L; rewrite <- L by lia; done.
Qed.

Lemma tss_perform_ok o s ts st : has_keys s ts -> (op_key o < 64)%nat ->
  exists ts', tss_perform o ts st = Some (((tss_spec o s).1, ts'), st) /\ has_keys (tss_spec o s).2 ts'.
Proof.
  destruct s as [l v]. intros H Hk. pose proof H as (Hb & t & Ht & Hs). cbn [fst snd] in *. destruct o as [d|k|k x|k]; cbn [tss_perform tss_spec op_key] in *.
  - unfold wlibc_tss_create. pose proof (lowest_bits _ l Hb) as L. destruct (lowest l) as [i|] eqn:E.
    + apply lowest_spec in E as (Hi & Hn & _).
      eexists. split.
      { erewrite SM_bind_Some; [|th_run; rewrite L; th_run; reflexivity]. reflexivity. }
      split; cbn [with_tls _wlibc_tls_bitmap infos self fst snd].
      * intros j Hj. rewrite Z.lor_spec, Hb, testbit_pow2 by lia. destruct (Z.eqb_spec (Z.of_nat j) (Z.of_nat i)) as [Ej|Ej].
        -- rewrite orb_true_r. symmetry. apply bool_decide_eq_true_2. set_solver by lia.
        -- rewrite orb_false_r. apply bool_decide_ext. assert (j <> i) by lia. set_solver.
      * exists t. auto.
    + eexists. split; [|exact H]. erewrite SM_bind_Some; [|th_run; rewrite L; reflexivity]. reflexivity.
  - unfold wlibc_tss_get. eexists. split; [|exact H]. rewrite (validate_tls _ _ _ _ _ _ H Hk). cbn [fst]. destruct (bool_decide _); [|done].
    unfold current. th_run. by rewrite Nat2Z.id, Hs.
  - unfold wlibc_tss_set. rewrite (validate_tls _ _ _ _ _ _ H Hk). cbn [fst]. destruct (bool_decide _); [|eauto].
    eexists. split; [unfold current; th_run; reflexivity|]. split; [exact Hb|]. cbn [with_infos infos self snd].
    rewrite lookup_insert_eq. eexists. split; [reflexivity|]. intros i Hi. cbn [with_slots slots]. rewrite Nat2Z.id.
    destruct (decide (i = k)) as [->|Hne]; [apply list_lookup_insert_eq; apply lookup_lt_is_Some; by rewrite Hs | rewrite list_lookup_insert_ne by auto; by apply Hs].
  - unfold wlibc_tss_delete. rewrite (validate_tls _ _ _ _ _ _ H Hk). cbn [fst]. destruct (bool_decide _); [|eauto].
    eexists. split; [th_run; reflexivity|]. split; cbn [with_tls _wlibc_tls_bitmap infos self fst snd].
    + intros i Hi. rewrite Z.land_spec, Hb, testbit_lnot_pow2 by lia. destruct (Z.eqb_spec (Z.of_nat i) (Z.of_nat k)) as [Ei|Ei]; cbn [negb].
      * rewrite andb_false_r. symmetry. apply bool_decide_eq_false_2. assert (i = k) by lia. set_solver.
      * rewrite andb_true_r. apply bool_decide_ext. assert (i <> k) by lia. set_solver.
    + exists t. auto.
Qed.

(** C28: thread specific storage refines a set of keys with a value for each: a
    create gives the lowest number that is not a live key, or fails when all 64 are;
    a get, a set or a delete of a key that is not live fails; a get gives the value
    that was set last. A key that is created again still has the value it had before
    its deletion. *)
Theorem tss_refines (ops : list tss_op) (s : keys) ts st :
  has_keys s ts -> Forall (fun o => (op_key o < 64)%nat) ops ->
  exists ts', tss_perform_all ops ts st = Some (((tss_spec_all ops s).1, ts'), st) /\ has_keys (tss_spec_all ops s).2 ts'.
Proof.
  revert s ts. induction ops as [|o ops IH]; intros s ts H Hk; cbn [tss_perform_all tss_spec_all]; [eauto|].
  apply Forall_cons in Hk as [Ho Hk]. destruct (tss_perform_ok o s ts st H Ho) as (ts1 & E1 & H1). destruct (tss_spec o s) as [r s1]. cbn [fst snd] in *.
  destruct (IH s1 ts1 H1 Hk) as (ts2 & E2 & H2). destruct (tss_spec_all ops s1) as [rs s2].
  exists ts2. split; [|exact H2]. by rewrite (SM_bind_Some _ _ _ _ _ _ _ E1), (SM_bind_Some _ _ _ _ _ _ _ E2).
Qed.
End Keys.

(** ** The end of a thread *)

Section Exit.
Context {K : Type} {KN : Kernel K} {A : Allocator} {RT : Routines K} {TH : ThreadHeap K}.
Context {PK : PathKernel K} {TK : TimeKernel K} {TDK : ThreadKernel K}.
(** The routines of the program leave the structures of the library alone. *)
Context (value : Z -> Z -> Z) (note : Z -> Z -> state K -> state K).
Context (quiet : forall r x ts st, call_routine r x ts st = Some ((value r x, ts), note r x st)).
Context (alloc_ok : forall n, malloc_ok n = true).

Abbreviation Th := (SM threads_state K).
Implicit Types (ts : threads_state) (st : state K) (t : threadinfo).

Definition run_entry (st : state K) (e : cleanup_entry) : state K :=
  if cleanup_routine e =? 0 then st else note (cleanup_routine e) (cleanup_arg e) st.

(** What the routines do, one after the other. *)
Definition calls (l : list cleanup_entry) (st : state K) : state K := fold_left run_entry l st.

(** The clean-up list of the thread is [l]. *)
Definition pushed (l : list cleanup_entry) (t : threadinfo) : Prop :=
  cleanup_slots_used t = zlen l /\
  match cleanup_entries t with
  | Some m => cleanup_slots_allocated t = zlen m /\ 0 < zlen m /\ zlen m <= Z.max 8 (2 * zlen l) /\ take (length l) m = l
  | None => cleanup_slots_allocated t = 0 /\ l = []
  end.

(** [t] with another clean-up list. *)
Definition same_rest (t u : threadinfo) : Prop := with_cleanup 0 0 None t = with_cleanup 0 0 None u.

Lemma pushed_room (l m : list cleanup_entry) : take (length l) m = l -> zlen l <= zlen m.
Proof. intros H. rewrite <- H. rewrite length_take. lia. Qed.

(** There is room for one more entry. *)
Definition roomy (l : list cleanup_entry) (t : threadinfo) : Prop :=
  exists m, cleanup_entries t = Some m /\ cleanup_slots_used t = zlen l /\ cleanup_slots_allocated t = zlen m /\
    zlen l < zlen m /\ zlen m <= Z.max 8 (2 * zlen l) /\ take (length l) m = l.

Lemma push_store l t r x ts st : infos ts !! self ts = Some t -> roomy l t -> zlen l < 2 ^ 30 ->
  exists t', (u ← info (self ts);
    match cleanup_entries u with
    | None => undefined_behaviour
    | Some l =>
        if cleanup_slots_used u <? zlen l then
          change_info (self ts) (fun t => with_cleanup (cleanup_slots_allocated t) (u32 (cleanup_slots_used t + 1))
                                    (Some (<[Z.to_nat (cleanup_slots_used t) := CleanupEntry r x]> l)) t)
        else undefined_behaviour
    end) ts st = Some (((), with_infos ts (<[self ts := t']> (infos ts))), st) /\ pushed (l ++ [CleanupEntry r x]) t' /\ same_rest t t'.
Proof.
  intros Ht (m & Hm & Hu & Ha & Hl & Hb & Hp) Hn. erewrite SM_bind_Some by (by apply info_ok). rewrite Hm, Hu, (proj2 (Z.ltb_lt _ _)) by lia.
  eexists. split; [by apply change_info_ok|]. split; [|done]. unfold pushed. cbn [with_cleanup cleanup_slots_used cleanup_entries cleanup_slots_allocated].
  rewrite Hu, length_app, length_insert, Nat2Z.id, wrap_small by lia. cbn [length]. split; [lia|]. repeat split; [done | lia | lia|].
  replace (length l + 1)%nat with (S (length l)) by lia.
  rewrite (take_S_r _ _ (CleanupEntry r x)) by (apply list_lookup_insert_eq; lia). by rewrite take_insert_ge, Hp by lia.
Qed.

Lemma cleanup_push_ok l t r x ts st : infos ts !! self ts = Some t -> pushed l t -> zlen l < 2 ^ 30 ->
  exists t', wlibc_thread_cleanup_push r x ts st = Some (((), with_infos ts (<[self ts := t']> (infos ts))), st) /\
    pushed (l ++ [CleanupEntry r x]) t' /\ same_rest t t'.
Proof.
  intros Ht [Hu Hp] Hn. unfold wlibc_thread_cleanup_push, current. th_run.
  destruct (cleanup_entries t) as [m|] eqn:Em.
  - destruct Hp as (Ha & Hm & Hb & Hl). pose proof (pushed_room l m Hl) as Hr.
    rewrite (proj2 (Z.eqb_neq _ _)) by lia. erewrite SM_bind_Some by reflexivity. cbn [negb]. th_run. rewrite Em, Ha, Hu.
    destruct (Z.eqb_spec (zlen m) (zlen l)) as [E|E].
    + rewrite alloc_ok. set (t1 := with_cleanup (u32 (zlen m * 2)) (cleanup_slots_used t) (Some (m ++ replicate (Z.to_nat (zlen m * 2) - length m) old_entry)) t).
      set (ts1 := with_infos ts (<[self ts := t1]> (infos ts))). assert (infos ts1 !! self ts1 = Some t1) as H1 by (cbn; apply lookup_insert_eq).
      rewrite (SM_bind_Some _ _ ts st true ts1 st) by (erewrite SM_bind_Some by (apply change_info_ok; exact Ht); reflexivity). cbn [negb].
      destruct (push_store l t1 r x ts1 st H1) as (t2 & E2 & P2 & R2); [|done|].
      { eexists. split; [reflexivity|]. cbn [with_cleanup cleanup_slots_used cleanup_slots_allocated t1].
        rewrite length_app, length_replicate, wrap_small by lia. repeat split; [done | lia | lia | lia|]. by rewrite take_app_le, Hl by lia. }
      exists t2. split; [|split; [done | unfold same_rest in *; rewrite <- R2; done]]. change (self ts1) with (self ts) in E2. rewrite E2. cbn. by rewrite insert_insert_eq.
    + erewrite SM_bind_Some by reflexivity. cbn [negb]. apply (push_store l t r x ts st Ht); [|done].
      exists m. repeat split; auto; lia.
  - destruct Hp as [Ha ->]. rewrite Ha, alloc_ok. cbn [Z.eqb].
    set (t1 := with_cleanup 8 (cleanup_slots_used t) (Some (replicate 8 old_entry)) t).
    set (ts1 := with_infos ts (<[self ts := t1]> (infos ts))). assert (infos ts1 !! self ts1 = Some t1) as H1 by (cbn; apply lookup_insert_eq).
    rewrite (SM_bind_Some _ _ ts st true ts1 st) by (erewrite SM_bind_Some by (apply change_info_ok; exact Ht); reflexivity). cbn [negb].
    erewrite SM_bind_Some by (apply info_ok; exact H1). cbn [t1 with_cleanup cleanup_slots_allocated cleanup_slots_used cleanup_entries]. rewrite Hu. cbn [Z.eqb length Z.of_nat].
    erewrite SM_bind_Some by reflexivity. cbn [negb].
    destruct (push_store [] t1 r x ts1 st H1) as (t2 & E2 & P2 & R2); [|done|].
    { eexists. split; [reflexivity|]. cbn. rewrite Hu. repeat split; lia. }
    exists t2. split; [|split; [done | unfold same_rest in *; rewrite <- R2; done]]. change (self ts1) with (self ts) in E2. rewrite E2. cbn. by rewrite insert_insert_eq.
Qed.

Fixpoint push_all (l : list cleanup_entry) : Th unit :=
  match l with [] => mret () | e :: l => _ ← wlibc_thread_cleanup_push (cleanup_routine e) (cleanup_arg e); push_all l end.

Lemma push_all_ok ps : forall l t ts st, infos ts !! self ts = Some t -> pushed l t -> zlen l + zlen ps < 2 ^ 30 ->
  exists ts' t', push_all ps ts st = Some (((), ts'), st) /\ infos ts' !! self ts = Some t' /\ pushed (l ++ ps) t' /\ same_rest t t' /\
    self ts' = self ts /\ _wlibc_tls_bitmap ts' = _wlibc_tls_bitmap ts /\ _wlibc_tls_destructors ts' = _wlibc_tls_destructors ts.
Proof.
  induction ps as [|[r x] ps IH]; intros l t ts st Ht Hp Hn; cbn [push_all length] in *.
  - exists ts, t. rewrite app_nil_r. done.
  - rewrite Nat2Z.inj_succ in Hn. destruct (cleanup_push_ok l t r x ts st Ht Hp) as (t1 & E1 & P1 & R1); [lia|].
    cbn [cleanup_routine cleanup_arg]. rewrite (SM_bind_Some _ _ _ _ _ _ _ E1).
    destruct (IH (l ++ [CleanupEntry r x]) t1 (with_infos ts (<[self ts := t1]> (infos ts))) st) as (ts2 & t2 & E2 & H2 & P2 & R2 & S2);
      [cbn; apply lookup_insert_eq | done | rewrite length_app; cbn [length]; lia|].
    exists ts2, t2. rewrite <- app_assoc in P2. split; [exact E2|]. split; [exact H2|]. split; [exact P2|]. split; [|exact S2].
    unfold same_rest in *. congruence.
Qed.

(** The entries in use are [l]. *)
Definition in_use (l : list cleanup_entry) (t : threadinfo) : Prop :=
  cleanup_slots_used t = zlen l /\ match cleanup_entries t with Some m => take (length l) m = l | None => l = [] end.

Lemma pushed_in_use l t : pushed l t -> in_use l t.
Proof. intros [Hu Hp]. split; [done|]. destruct (cleanup_entries t); tauto. Qed.

(** The loop runs the list from its end. *)
Lemma run_cleanup_ok a l : forall fuel t ts st, infos ts !! a = Some t -> in_use l t -> (length l < fuel)%nat -> zlen l < 2 ^ 30 ->
  exists ts' t', run_cleanup fuel a ts st = Some ((true, ts'), calls (rev l) st) /\ infos ts' !! a = Some t' /\ same_rest t t' /\
    cleanup_slots_used t' = 0 /\
    self ts' = self ts /\ _wlibc_tls_bitmap ts' = _wlibc_tls_bitmap ts /\ _wlibc_tls_destructors ts' = _wlibc_tls_destructors ts.
Proof.
  induction l as [|e l IH] using rev_ind; intros [|fuel] t ts st Ht [Hu Hp] Hf Hn; [lia| |lia|]; cbn [run_cleanup]; th_run; rewrite Hu.
  - exists ts, t. done.
  - rewrite length_app in *. cbn [length] in *. rewrite (proj2 (Z.eqb_neq _ _)) by lia.
    destruct (cleanup_entries t) as [m|] eqn:Em; [|by destruct l].
    assert (m !! length l = Some e) as He.
    { rewrite <- (lookup_take_lt m (length l + 1)) by lia. rewrite Hp. by rewrite lookup_app_r, Nat.sub_diag by lia. }
    unfold last_entry. rewrite Em, Hu. cbn [mbind option_bind]. replace (Z.to_nat (Z.of_nat (length l + 1) - 1)) with (length l) by lia. rewrite He.
    erewrite SM_bind_Some by reflexivity. rewrite (SM_bind_Some _ _ ts st () ts (run_entry st e)).
    2:{ unfold run_entry. destruct (Z.eqb_spec (cleanup_routine e) 0); cbn [negb]; [done|]. by rewrite (SM_bind_Some _ _ _ _ _ _ _ (quiet _ _ _ _)). }
    unfold pop_entry. erewrite SM_bind_Some by (apply change_info_ok; exact Ht).
    set (t1 := with_cleanup (cleanup_slots_allocated t) (u32 (cleanup_slots_used t - 1)) (cleanup_entries t) t).
    set (ts1 := with_infos ts (<[a := t1]> (infos ts))).
    destruct (IH fuel t1 ts1 (run_entry st e)) as (ts' & t' & E' & H' & R' & U' & S'); [cbn; apply lookup_insert_eq | | lia | lia |].
    { split; cbn [t1 with_cleanup cleanup_slots_used cleanup_entries cleanup_slots_allocated]; [rewrite Hu, wrap_small by lia; lia|].
      rewrite Em. transitivity (take (length l) (take (length l + 1) m)); [by rewrite take_take, Nat.min_l by lia | by rewrite Hp, take_app_length]. }
    exists ts', t'. split; [by rewrite rev_app_distr | done].
Qed.

(** ** Destructors *)

(** The destructor of the key [i] with the value it is called with. *)
Definition dtor (b : Z) (ds sl : list Z) (i : nat) : option cleanup_entry :=
  let v := default 0 (sl !! i) in let d := default 0 (ds !! i) in
  if Z.testbit b (Z.of_nat i) && (negb (v =? 0) && negb (d =? 0)) then Some (CleanupEntry d v) else None.

Definition clear_slots (b : Z) (ds : list Z) (l : list nat) (sl : list Z) : list Z :=
  fold_left (fun sl i => match dtor b ds sl i with Some _ => <[i := 0]> sl | None => sl end) l sl.

Lemma dtor_other b ds sl i j : i <> j -> dtor b ds (<[i := 0]> sl) j = dtor b ds sl j.
Proof. intros H. unfold dtor. by rewrite list_lookup_insert_ne. Qed.

Lemma cleanup_slot_ok a i t ts st : infos ts !! a = Some t -> (i < 64)%nat ->
  cleanup_slot a i ts st =
    match dtor (_wlibc_tls_bitmap ts) (_wlibc_tls_destructors ts) (slots t) i with
    | Some e => Some (((), with_infos ts (<[a := with_slots (<[i := 0]> (slots t)) t]> (infos ts))), run_entry st e)
    | None => Some (((), ts), st)
    end.
Proof.
  intros Ht Hi. unfold cleanup_slot, dtor. th_run. rewrite land_pow2_bit by lia. destruct (Z.testbit _ _); cbn [andb]; [|done].
  th_run. destruct (negb _ && negb _) eqn:E; [|done]. apply andb_true_iff in E as [_ Ed].
  erewrite SM_bind_Some by (apply change_info_ok; exact Ht). rewrite (SM_bind_Some _ _ _ _ _ _ _ (quiet _ _ _ _)).
  unfold run_entry. cbn [cleanup_routine cleanup_arg]. apply negb_true_iff in Ed. by rewrite Ed.
Qed.

Lemma omap_same b ds sl i (l : list nat) : i ∉ l -> omap (dtor b ds (<[i := 0]> sl)) l = omap (dtor b ds sl) l.
Proof.
  induction l as [|j l IH]; intros H; [done|]. cbn. rewrite dtor_other by set_solver. rewrite IH by set_solver. done.
Qed.

Lemma cleanup_slots_ok a l : forall t ts st, infos ts !! a = Some t -> NoDup l -> Forall (fun i => (i < 64)%nat) l ->
  exists ts', cleanup_slots a l ts st = Some (((), ts'), calls (omap (dtor (_wlibc_tls_bitmap ts) (_wlibc_tls_destructors ts) (slots t)) l) st) /\
    infos ts' !! a = Some (with_slots (clear_slots (_wlibc_tls_bitmap ts) (_wlibc_tls_destructors ts) l (slots t)) t).
Proof.
  induction l as [|i l IH]; intros t ts st Ht Hd Hl; cbn [cleanup_slots omap list_omap clear_slots fold_left].
  - exists ts. split; [done|]. rewrite Ht. by destruct t.
  - apply NoDup_cons in Hd as [Hi Hd]. apply Forall_cons in Hl as [H64 Hl]. pose proof (cleanup_slot_ok a i t ts st Ht H64) as E.
    destruct (dtor _ _ _ i) as [e|] eqn:Ed; rewrite (SM_bind_Some _ _ _ _ _ _ _ E).
    + set (ts1 := with_infos ts _). destruct (IH (with_slots (<[i := 0]> (slots t)) t) ts1 (run_entry st e)) as (ts' & E' & H'); [cbn; apply lookup_insert_eq | done | done|].
      exists ts'. cbn [with_slots slots ts1 with_infos _wlibc_tls_bitmap _wlibc_tls_destructors] in *. rewrite omap_same in E' by done. done.
    + destruct (IH t ts st Ht Hd Hl) as (ts' & E' & H'). by exists ts'.
Qed.

Lemma dtors_none ds sl (l : list nat) : omap (dtor 0 ds sl) l = [] /\ clear_slots 0 ds l sl = sl.
Proof. induction l as [|i l [IH1 IH2]]; [done|]. unfold clear_slots in *. cbn. unfold dtor in *. rewrite Z.bits_0. cbn. auto. Qed.

Lemma cleanup_tls_ok a t ts st : infos ts !! a = Some t ->
  exists ts', cleanup_tls a ts st = Some (((), ts'), calls (omap (dtor (_wlibc_tls_bitmap ts) (_wlibc_tls_destructors ts) (slots t)) (seq 0 64)) st) /\
    infos ts' !! a = Some (with_slots (clear_slots (_wlibc_tls_bitmap ts) (_wlibc_tls_destructors ts) (seq 0 64) (slots t)) t).
Proof.
  intros Ht. unfold cleanup_tls. th_run. destruct (Z.eqb_spec (_wlibc_tls_bitmap ts) 0) as [->|Hb].
  - destruct (dtors_none (_wlibc_tls_destructors ts) (slots t) (seq 0 64)) as [-> ->]. exists ts. split; [done|]. rewrite Ht. by destruct t.
  - apply cleanup_slots_ok; [done | apply NoDup_seq | apply Forall_seq; lia].
Qed.

(** The thread leaves the kernel. *)
Definition leave_kernel (v : Z) (st : state K) : state K :=
  State (table st) (fd_sequence st) (StandardInput st) (StandardOutput st) (StandardError st) (errno st) (RtlExitUserThread (swrap 32 v) (kernel st)).

(** C17: when a thread that has pushed clean-up routines exits, they run once each,
    the last one first, and then the destructors of the live keys under which the
    thread has a value, in the order of the keys; the result of the thread is
    recorded and the values that were destroyed are gone. The loop ends after one
    round for each routine. *)
Theorem exit_runs_cleanups (ps : list cleanup_entry) (v : Z) (fuel : nat) t ts st :
  infos ts !! self ts = Some t -> pushed [] t -> zlen ps < 2 ^ 30 -> (length ps < fuel)%nat ->
  let ds := _wlibc_tls_destructors ts in let b := _wlibc_tls_bitmap ts in
  exists ts', (_ ← push_all ps; wlibc_thread_exit fuel v) ts st =
      Some ((true, ts'), leave_kernel v (calls (rev ps ++ omap (dtor b ds (slots t)) (seq 0 64)) st)) /\
    exists t', infos ts' !! self ts = Some t' /\ result t' = v /\ slots t' = clear_slots b ds (seq 0 64) (slots t).
Proof.
  intros Ht Hp Hn Hf ds b. destruct (push_all_ok ps [] t ts st Ht Hp) as (ts1 & t1 & E1 & H1 & P1 & R1 & S1 & B1 & D1); [cbn; lia|].
  rewrite (SM_bind_Some _ _ _ _ _ _ _ E1). unfold wlibc_thread_exit, current. rewrite <- S1 in H1. th_run.
  set (t2 := with_result v t1). set (ts2 := with_infos ts1 _). assert (infos ts2 !! self ts1 = Some t2) as H2 by (cbn; apply lookup_insert_eq).
  destruct (run_cleanup_ok (self ts1) ps fuel t2 ts2 st H2 (pushed_in_use _ _ P1) Hf Hn) as (ts3 & t3 & E3 & H3 & R3 & U3 & S3 & B3 & D3).
  set (t4 := with_cleanup (cleanup_slots_allocated t3) (cleanup_slots_used t3) None t3). set (ts4 := with_infos ts3 (<[self ts1 := t4]> (infos ts3))).
  rewrite (SM_bind_Some _ _ ts2 st true ts4 (calls (rev ps) st)).
  2:{ unfold execute_cleanup. rewrite (SM_bind_Some _ _ _ _ _ _ _ E3). by erewrite SM_bind_Some by (apply change_info_ok; exact H3). }
  assert (infos ts4 !! self ts1 = Some t4) as H4 by (cbn; apply lookup_insert_eq).
  destruct (cleanup_tls_ok (self ts1) t4 ts4 (calls (rev ps) st) H4) as (ts5 & E5 & H5). rewrite (SM_bind_Some _ _ _ _ _ _ _ E5).
  assert (slots t4 = slots t /\ result t3 = v) as [Hs Hv].
  { unfold same_rest in *. cbn [t4 with_cleanup slots]. injection R1 as R1. injection R3 as R3. split; congruence. }
  assert (_wlibc_tls_bitmap ts4 = b /\ _wlibc_tls_destructors ts4 = ds) as [Hb Hd] by (split; [exact (eq_trans B3 B1) | exact (eq_trans D3 D1)]).
  rewrite Hb, Hd, Hs in *. generalize dependent (omap (dtor b ds (slots t)) (seq 0 64)). intros os E5.
  exists ts5. split; [unfold calls; rewrite fold_left_app; reflexivity|].
  eexists. rewrite <- S1. split; [exact H5|]. split; [exact Hv | reflexivity].
Qed.
End Exit.

(** ** A clean-up routine that pushes another one *)

Section Pushing.
Context {K : Type} {KN : Kernel K} {A : Allocator} {RT : Routines K} {TH : ThreadHeap K}.
Context {PK : PathKernel K} {TK : TimeKernel K} {TDK : ThreadKernel K}.
Context (alloc_ok : forall n, malloc_ok n = true).
Implicit Types (ts : threads_state) (st : state K) (t : threadinfo).

(** a clean-up routine that itself pushes a clean-up routine is never done: the
    loop takes the entry away after the call, so that what it takes away is the new
    entry, and it calls the old one again. No number of rounds is enough. *)
Theorem pushing_cleanup_never_ends (r x : Z) (fuel : nat) t ts st :
  r <> 0 -> (forall ts st, call_routine r x ts st = (_ ← wlibc_thread_cleanup_push r x; mret 0) ts st) ->
  infos ts !! self ts = Some t -> pushed [CleanupEntry r x] t ->
  exists ts', execute_cleanup fuel (self ts) ts st = Some ((false, ts'), st).
Proof.
  intros Hr Hc. revert t ts. assert (forall t ts, infos ts !! self ts = Some t -> pushed [CleanupEntry r x] t ->
    exists ts', run_cleanup fuel (self ts) ts st = Some ((false, ts'), st)) as H.
  2:{ intros t ts Ht Hp. destruct (H t ts Ht Hp) as (ts' & E). exists ts'. unfold execute_cleanup. by rewrite (SM_bind_Some _ _ _ _ _ _ _ E). }
  induction fuel as [|fuel IH]; intros t ts Ht Hp; cbn [run_cleanup]; [eauto|]. th_run.
  pose proof Hp as [Hu Hm]. destruct (cleanup_entries t) as [m|] eqn:Em; [|by destruct Hm]. destruct Hm as (Ha & H0 & Hb & Hl).
  rewrite Hu. change (zlen [CleanupEntry r x] =? 0) with false. cbv iota. unfold last_entry. rewrite Em, Hu. destruct m as [|e m]; [done|]. cbn in Hl. injection Hl as ->.
  erewrite SM_bind_Some by reflexivity. cbn [cleanup_routine cleanup_arg]. rewrite (proj2 (Z.eqb_neq r 0) Hr). cbn [negb].
  destruct (cleanup_push_ok alloc_ok _ t r x ts st Ht Hp) as (t1 & E1 & [U1 P1] & _); [cbn; lia|].
  set (ts1 := with_infos ts (<[self ts := t1]> (infos ts))) in E1.
  rewrite (SM_bind_Some _ _ ts st () ts1 st).
  2:{ erewrite SM_bind_Some; [reflexivity|]. rewrite Hc. rewrite (SM_bind_Some _ _ _ _ _ _ _ E1). reflexivity. }
  unfold pop_entry. assert (infos ts1 !! self ts = Some t1) as H1 by (cbn; apply lookup_insert_eq). erewrite SM_bind_Some by (apply change_info_ok; exact H1).
  set (t2 := with_cleanup (cleanup_slots_allocated t1) (u32 (cleanup_slots_used t1 - 1)) (cleanup_entries t1) t1).
  set (ts2 := with_infos ts1 (<[self ts := t2]> (infos ts1))). apply (IH t2 ts2); [cbn; apply lookup_insert_eq|].
  split; cbn [t2 with_cleanup cleanup_slots_used cleanup_entries cleanup_slots_allocated].
  - rewrite U1. reflexivity.
  - destruct (cleanup_entries t1) as [m1|]; [|by destruct P1]. destruct P1 as (A1 & B1 & C1 & D1). cbn in C1, D1 |- *. split; [done|]. split; [done|]. split; [lia|].
    destruct m1; [done|]. cbn in D1 |- *. injection D1 as -> _. done.
Qed.
End Pushing.

(** ** Scheduling *)

Section Scheduling.
Context {K : Type} {KN : Kernel K} {A : Allocator} {RT : Routines K} {TH : ThreadHeap K}.
Context {PK : PathKernel K} {TK : TimeKernel K} {TDK : ThreadKernel K}.
(** The kernel gives back a priority that was set. *)
Context (set_query : forall h p k, 1 <= p <= 15 ->
  exists k', NtSetThreadPriority h p k = (STATUS_SUCCESS, k') /\ NtQueryThreadPriority h k' = (STATUS_SUCCESS, p)).
Implicit Types (ts : threads_state) (st : state K) (t : threadinfo).

Lemma policy_cases p : valid_policy p = true -> p = SCHED_IDLE \/ p = SCHED_RR \/ p = SCHED_FIFO \/ p = SCHED_BATCH \/ p = SCHED_SPORADIC.
Proof. unfold valid_policy. rewrite !orb_true_iff, !Z.eqb_eq. tauto. Qed.

Lemma priority_cases p : valid_priority p = true -> p = -2 \/ p = -1 \/ p = 0 \/ p = 1 \/ p = 2.
Proof.
  unfold valid_priority. rewrite negb_true_iff, orb_false_iff, Z.gtb_ltb, !Z.ltb_ge. unfold SCHED_MAX_PRIORITY, SCHED_MIN_PRIORITY. lia.
Qed.

(** a policy and a priority that were set for a thread are found again as
    another pair with the same absolute priority: the pair itself comes back for
    FIFO, for the priorities -1 and 0, and for IDLE with -2, and for no other. *)
Theorem thread_sched_roundtrip (policy priority thread : Z) t ts st :
  thread <> 0 -> infos ts !! thread = Some t -> valid_policy policy = true -> valid_priority priority = true ->
  exists st' policy' priority',
    (r ← wlibc_thread_setschedparam thread policy (Some priority); p ← wlibc_thread_getschedparam thread; mret (r, p)) ts st =
      Some (((0, (0, Some (policy', priority'))), ts), st') /\
    valid_policy policy' = true /\ valid_priority priority' = true /\ policy_base policy' + priority' = policy_base policy + priority /\
    ((policy', priority') = (policy, priority) <-> policy = SCHED_FIFO \/ priority = -1 \/ priority = 0 \/ (policy = SCHED_IDLE /\ priority = -2)).
Proof.
  intros Hz Ht Hp Hr. apply policy_cases in Hp as Hc. apply priority_cases in Hr as Hd.
  assert (1 <= policy_base policy + priority <= 15) as Hb.
  { destruct Hc as [->|[->|[->|[->| ->]]]], Hd as [->|[->|[->|[->| ->]]]]; vm_compute; split; discriminate. }
  destruct (set_query (thread_handle t) _ (kernel st) Hb) as (k & S & Q).
  exists (State (table st) (fd_sequence st) (StandardInput st) (StandardOutput st) (StandardError st) (errno st) k).
  exists (policy_and_priority (policy_base policy + priority)).1, (policy_and_priority (policy_base policy + priority)).2. split.
  - set (st1 := State _ _ _ _ _ _ k). unfold wlibc_thread_setschedparam, validate, checked. rewrite (proj2 (Z.eqb_neq thread 0) Hz), Hp, Hr. cbn [negb].
    rewrite (SM_bind_Some _ _ ts st 0 ts st1).
    2:{ th_run. unfold system_service. rewrite (SM_bind_Some _ _ ts st STATUS_SUCCESS ts st1); [by rewrite bool_decide_eq_true_2|].
        erewrite SM_bind_Some by reflexivity. rewrite S. reflexivity. }
    rewrite (SM_bind_Some _ _ ts st1 (0, Some (policy_and_priority (policy_base policy + priority))) ts st1).
    2:{ unfold wlibc_thread_getschedparam. rewrite (proj2 (Z.eqb_neq thread 0) Hz). th_run. cbn [kernel st1]. rewrite Q.
        by rewrite bool_decide_eq_true_2. }
    by destruct (policy_and_priority _).
  - clear - Hc Hd. destruct Hc as [->|[->|[->|[->| ->]]]], Hd as [->|[->|[->|[->| ->]]]]; vm_compute; (split; [done|]); (split; [done|]); (split; [done|]);
      (split; [intros [=]; tauto | intros [?|[?|[?|[? ?]]]]; done]).
Qed.
End Scheduling.

(** ** Deferred cancellation *)

Section Cancellation.
Context {K : Type} {KN : Kernel K} {A : Allocator} {RT : Routines K} {TH : ThreadHeap K}.
Context {PK : PathKernel K} {TK : TimeKernel K} {TDK : ThreadKernel K}.
Implicit Types (ts : threads_state) (st : state K) (t : threadinfo).

(** asking for deferred cancellation disables it: the call stores the type where
    the state of cancellation is kept. A thread that could be cancelled then ignores
    every cancellation, and the type it reports has not changed. *)
Theorem deferred_disables_cancellation (fuel : nat) t ts st :
  infos ts !! self ts = Some t -> cancelstate t = WLIBC_THREAD_CANCEL_ENABLE ->
  exists ts', wlibc_thread_setcanceltype WLIBC_THREAD_CANCEL_DEFERRED true ts st = Some (((0, Some (canceltype t)), ts'), st) /\
    cancel_apc fuel (self ts) ts' st = Some ((Some false, ts'), st) /\
    wlibc_thread_testcancel fuel ts' st = Some ((Some false, ts'), st) /\
    exists ts'', wlibc_thread_setcanceltype WLIBC_THREAD_CANCEL_DEFERRED true ts' st = Some (((0, Some (canceltype t)), ts''), st).
Proof.
  intros Ht Hc. eexists. split; [|split; [|split]].
  - unfold wlibc_thread_setcanceltype, current. change (negb (WLIBC_THREAD_CANCEL_DEFERRED =? WLIBC_THREAD_CANCEL_ASYNCHRONOUS) && negb (WLIBC_THREAD_CANCEL_DEFERRED =? WLIBC_THREAD_CANCEL_DEFERRED)) with false.
    cbv iota. th_run. reflexivity.
  - unfold cancel_apc, execute_thread_cancellation. erewrite SM_bind_Some by (apply info_ok; cbn; apply lookup_insert_eq). reflexivity.
  - unfold wlibc_thread_testcancel, current, execute_thread_cancellation. th_run. erewrite SM_bind_Some by (apply info_ok; cbn; apply lookup_insert_eq). reflexivity.
  - unfold wlibc_thread_setcanceltype, current. change (negb (WLIBC_THREAD_CANCEL_DEFERRED =? WLIBC_THREAD_CANCEL_ASYNCHRONOUS) && negb (WLIBC_THREAD_CANCEL_DEFERRED =? WLIBC_THREAD_CANCEL_DEFERRED)) with false.
    cbv iota. th_run.
    erewrite SM_bind_Some by (apply info_ok; cbn; apply lookup_insert_eq). erewrite SM_bind_Some by (apply change_info_ok; cbn; apply lookup_insert_eq).
    eexists. reflexivity.
Qed.
End Cancellation.

(** ** A kernel with one thread *)

Module Desk.

(** The priority of the threads and what was called. *)
Definition desk : Type := Z * list (Z * Z).

#[export] Instance desk_heap : ThreadHeap desk := {
  new_address m := 1 + fold_right Z.max 0 (map_to_list m).*1;
  old_entry := CleanupEntry 77 77;
  NtCurrentThread := -2;
  CurrentThreadId _ := 4
}.

#[export] Instance desk_threads : ThreadKernel desk := {
  CreateRemoteThreadEx _ _ k := (inr (8, 12), k);
  NtResumeThread _ k := (STATUS_SUCCESS, k);
  NtSuspendThread _ k := (STATUS_SUCCESS, k);
  WaitForThread _ _ m k := (STATUS_SUCCESS, m, k);
  RtlExitUserThread v k := (k.1, k.2 ++ [(0, v)]);
  NtQueueApcThread _ _ k := (STATUS_SUCCESS, k);
  NtQueryThreadPriority _ k := (STATUS_SUCCESS, k.1);
  NtSetThreadPriority _ p k := (STATUS_SUCCESS, (p, k.2));
  NtChangeThreadPriority _ p k := (STATUS_SUCCESS, (k.1 + p, k.2));
  NtQueryThreadName _ _ := (STATUS_SUCCESS, []);
  NtSetThreadName _ _ k := (STATUS_SUCCESS, k);
  NtQuerySelectedCpuSets _ _ := (STATUS_SUCCESS, 1);
  NtSetSelectedCpuSets _ _ k := (STATUS_SUCCESS, k);
  QueryProcessorGroups _ := (STATUS_SUCCESS, [8])
}.

Definition write_down (r x : Z) (st : state desk) : state desk :=
  State (table st) (fd_sequence st) (StandardInput st) (StandardOutput st) (StandardError st) (errno st)
    ((kernel st).1, (kernel st).2 ++ [(r, x)]).

(** Routines that are only written down; one that pushes itself. *)
Definition writers : Routines desk := fun r x ts st => Some ((0, ts), write_down r x st).
Definition pushers {A : Allocator} : Routines desk := fun r x => _ ← wlibc_thread_cleanup_push r x; mret 0.

Definition at_desk : state desk := State [] 0 0 0 0 0 (8, []).

(** The thread at address 1000 has a value under the keys 0 and 2; the keys 0, 1 and 2
    are live and have destructors. *)
Definition worker : threadinfo := Threadinfo 8 12 0 0 0 0 0 0 0 None (<[2%nat := 6]> (<[0%nat := 5]> (replicate 64 0))).
Definition working : threads_state := Threads {[1000 := worker]} 1000 7 (<[2%nat := 92]> (<[1%nat := 91]> (<[0%nat := 90]> (replicate 64 0)))) ∅.

(** The thread has pushed one routine. *)
Definition pusher : threadinfo := Threadinfo 8 12 0 0 0 0 0 8 1 (Some (CleanupEntry 50 1 :: replicate 7 (CleanupEntry 77 77))) (replicate 64 0).

End Desk.
Import Desk.

Lemma tss_refines_witness : exists ts',
  tss_perform_all [Create 9; Set_ 0 5; Delete 0; Get 0; Create 9; Get 0; Create 9] (Threads {[1 := zero_threadinfo]} 1 0 (replicate 64 0) ∅) at_desk =
  Some (([0; 0; 0; 0; 0; 5; 1], ts'), at_desk).
Proof.
  destruct (tss_refines [Create 9; Set_ 0 5; Delete 0; Get 0; Create 9; Get 0; Create 9] (∅, fun _ => 0)
    (Threads {[1 := zero_threadinfo]} 1 0 (replicate 64 0) ∅) at_desk) as (ts' & E & _).
  - split; [intros i _; cbn [_wlibc_tls_bitmap fst]; rewrite Z.bits_0; symmetry; apply bool_decide_eq_false_2, not_elem_of_empty|].
    exists zero_threadinfo. split; [reflexivity|]. intros i Hi. cbn [slots zero_threadinfo snd]. by apply lookup_replicate_2.
  - repeat constructor; cbn; lia.
  - exists ts'. exact E.
Defined.

Lemma exit_runs_cleanups_witness : exists ts' st',
  (_ ← @push_all desk (fun _ => true) desk_heap [CleanupEntry 50 1; CleanupEntry 0 2; CleanupEntry 51 3]; @wlibc_thread_exit desk writers desk_threads 9 33) working at_desk =
    Some ((true, ts'), st') /\ (kernel st').2 = [(51, 3); (50, 1); (90, 5); (92, 6); (0, 33)].
Proof.
  destruct (@exit_runs_cleanups desk (fun _ => true) writers desk_heap desk_threads (fun _ _ => 0) write_down (fun _ _ _ _ => eq_refl) (fun _ => eq_refl)
    [CleanupEntry 50 1; CleanupEntry 0 2; CleanupEntry 51 3] 33 9 worker working at_desk) as (ts' & E & _);
    [reflexivity | split; [reflexivity | split; reflexivity] | cbn; lia | cbn; lia |].
  exists ts'. eexists. split; [exact E | vm_compute; reflexivity].
Defined.

Lemma pushing_cleanup_never_ends_witness : exists ts',
  @execute_cleanup desk (@pushers (fun _ => true)) 100 1000 (Threads {[1000 := pusher]} 1000 0 (replicate 64 0) ∅) at_desk = Some ((false, ts'), at_desk).
Proof.
  apply (@pushing_cleanup_never_ends desk (fun _ => true) (@pushers (fun _ => true)) desk_heap (fun _ => eq_refl) 50 1 100 pusher
    (Threads {[1000 := pusher]} 1000 0 (replicate 64 0) ∅) at_desk); [lia | reflexivity | reflexivity|].
  split; [reflexivity|]. cbn. split; [reflexivity|]. split; [lia|]. split; [lia | reflexivity].
Defined.

Lemma thread_sched_roundtrip_witness : exists st' policy' priority',
  (r ← wlibc_thread_setschedparam 1000 SCHED_RR (Some 1); p ← wlibc_thread_getschedparam 1000; mret (r, p)) working at_desk =
    Some (((0, (0, Some (policy', priority'))), working), st') /\ policy_base policy' + priority' = 9 /\ (policy', priority') <> (SCHED_RR, 1).
Proof.
  destruct (@thread_sched_roundtrip desk desk_threads ltac:(intros h p k _; exists (p, k.2); split; reflexivity) SCHED_RR 1 1000 worker working at_desk)
    as (st' & policy' & priority' & E & _ & _ & S & R); [lia | reflexivity | reflexivity | reflexivity|].
  exists st', policy', priority'. split; [exact E|]. split; [exact S|]. intros H. apply R in H. destruct H as [?|[?|[?|[? ?]]]]; discriminate.
Defined.

Lemma deferred_disables_cancellation_witness : exists ts',
  wlibc_thread_setcanceltype WLIBC_THREAD_CANCEL_DEFERRED true working at_desk = Some (((0, Some 0), ts'), at_desk) /\
  @wlibc_thread_testcancel desk writers desk_threads 9 ts' at_desk = Some ((Some false, ts'), at_desk).
Proof.
  destruct (@deferred_disables_cancellation desk writers desk_threads 9 worker working at_desk) as (ts' & E & _ & T & _); [reflexivity | reflexivity|].
  exists ts'. split; [exact E | exact T].
Defined.
