(* ===== verification/Timer.v ===== *)
(** * Timers with a thread

    timer_create and its companions (src/sys/time/timer.c), the interval timers'
    start and end and the threads that serve both (src/sys/time/internal.c). *)

From stdpp Require Import gmap.
From S2P Require Import Signal.
From S2P Require Import Prelude Errno Buffer FdTable FileIo Cpuset Path PathFacts Time Sched Tss Thread ThreadSpec.

Definition TIMER_ABSTIME : Z := 1.
Definition SIGEV_NONE : Z := 0.
Definition SIGEV_SIGNAL : Z := 1.
Definition SIGEV_THREAD : Z := 2.
Definition SIGALRM : Z := 14.
Definition SIGVTALRM : Z := 26.
Definition SIGPROF : Z := 27.

(** The attributes are those the pointer leads to, if it is not null. *)
Record sigevent := Sigevent {
  sigev_notify : Z;
  sigev_signo : Z;
  sigev_value : Z;
  sigev_notify_function : Z;
  sigev_notify_attributes : option thread_attr_t
}.

Record ptimer := Ptimer { ptimer_handle : Z; ptimer_period : Z; ptimer_thread : Z; ptimer_event : sigevent }.

Definition zero_event : sigevent := Sigevent 0 0 0 0 None.

Record itimerspec := Itimerspec { its_interval : timespec; its_value : timespec }.

(** The timers by their addresses, beside the threads. *)
Record timers_state := Timers { timers : gmap Z ptimer; thread_part : threads_state; itimer_thread : Z }.

(** The timers of the kernel, the end of a thread, and the address of a new block. *)
Class TimerKernel (K : Type) := {
  NtCreateTimer2 : K -> NTSTATUS * Z * K;
  NtTerminateThread : Z -> Z -> K -> NTSTATUS * K;
  timer_address : gmap Z ptimer -> Z
}.

Definition sizeof_timerinfo : Z := 64.

(** The start routines, as numbers. *)
Definition timer_proc_routine : Z := 1.
Definition itimer_proc_routine : Z := 2.

Section Timers.
Context {K : Type} {KN : Kernel K} {A : Allocator} {TH : ThreadHeap K}.
Context {TK : TimeKernel K} {TDK : ThreadKernel K} {TMK : TimerKernel K}.

Abbreviation Tm := (SM timers_state K).

(** A computation on the threads. *)
Definition on_threads {X} (m : SM threads_state K X) : Tm X :=
  fun p => '(x, ts) ← m (thread_part p); mret (x, Timers (timers p) ts (itimer_thread p)).

Definition tm_fail (e : Z) : Tm Z := run_M (fail e).
Definition tm_fail_status (status : NTSTATUS) : Tm Z := run_M (fail_status status).

Definition tm_service {X} (f : K -> X * K) : Tm X :=
  s ← run_M get; let '(x, k) := f (kernel s) in _ ← run_M (set_kernel k); mret x.

Definition set_timers (m : gmap Z ptimer) : Tm unit := s ← get_S; put_S (Timers m (thread_part s) (itimer_thread s)).

Definition timer_at (a : Z) : Tm ptimer :=
  s ← get_S; match timers s !! a with Some t => mret t | None => run_M UB end.

Definition change_timer (a : Z) (f : ptimer -> ptimer) : Tm unit :=
  t ← timer_at a; s ← get_S; set_timers (<[a := f t]> (timers s)).

(** The memory is freed; the timer of the kernel, if there is one, is not closed. *)
Definition free_timer (a : Z) : Tm (Z * option Z) := s ← get_S; _ ← set_timers (delete a (timers s)); mret (-1, Some a).

(** The result and what is stored as the timer. *)
Definition wlibc_timer_create (clock : Z) (event : option sigevent) (place : bool) : Tm (Z * option Z) :=
  let error (e : Z) : Tm (Z * option Z) := r ← tm_fail e; mret (r, None) in
  if negb (valid_clock clock) then error EINVAL
  else
    match event with
    | None => error EINVAL
    | Some e =>
        if negb place then error EINVAL
        else if (sigev_notify e <? SIGEV_NONE) || (sigev_notify e >? SIGEV_THREAD) then error EINVAL
        else if negb (malloc_ok sizeof_timerinfo) then r ← tm_fail ENOMEM; mret (r, Some 0)
        else
          s ← get_S;
          let a := timer_address (timers s) in
          _ ← set_timers (<[a := Ptimer 0 0 0 zero_event]> (timers s));
          '(status, h) ← tm_service NtCreateTimer2;
          if negb (bool_decide (status = STATUS_SUCCESS)) then _ ← tm_fail_status status; free_timer a
          else
            _ ← change_timer a (fun t => Ptimer h (ptimer_period t) (ptimer_thread t) (ptimer_event t));
            let attributes := if sigev_notify e =? SIGEV_THREAD then sigev_notify_attributes e else None in
            '(r, thread) ← on_threads (wlibc_thread_create true attributes timer_proc_routine a);
            _ ← change_timer a (fun t => Ptimer (ptimer_handle t) (ptimer_period t) (default 0 thread) (ptimer_event t));
            if negb (r =? 0) then free_timer a
            else _ ← change_timer a (fun t => Ptimer (ptimer_handle t) (ptimer_period t) (ptimer_thread t) e); mret (0, Some a)
    end.

Definition wlibc_timer_delete (timer : Z) : Tm Z :=
  if timer =? 0 then tm_fail EINVAL
  else
    t ← timer_at timer;
    let thread := ptimer_thread t in
    status ← tm_service (NtClose (ptimer_handle t));
    if negb (bool_decide (status = STATUS_SUCCESS)) then tm_fail_status status
    else
      i ← on_threads (info thread);
      status ← tm_service (NtTerminateThread (thread_handle i) (swrap 32 WLIBC_THREAD_CANCELED));
      if negb (bool_decide (status = STATUS_SUCCESS)) then tm_fail_status status
      else
        s ← get_S;
        _ ← put_S (Timers (delete timer (timers s)) (with_infos (thread_part s) (delete thread (infos (thread_part s)))) (itimer_thread s));
        mret 0.

Definition wlibc_timer_getoverrun (timer : Z) : Tm Z := if timer =? 0 then tm_fail EINVAL else mret 0.

(** Only the period is filled in. *)
Definition timer_value (t : ptimer) : itimerspec :=
  Itimerspec (Timespec (ptimer_period t ÷ ticks) (Z.rem (ptimer_period t) ticks * 100)) (Timespec 0 0).

Definition wlibc_timer_gettime (timer : Z) : Tm (Z * option itimerspec) :=
  if timer =? 0 then r ← tm_fail EINVAL; mret (r, None) else t ← timer_at timer; mret (0, Some (timer_value t)).

(** [tv_sec * 10000000 + tv_nsec / 100]. *)
Definition timespec_ticks (v : timespec) : option Z := a ← i64 (tv_sec v * ticks); i64 (a + tv_nsec v ÷ 100).

(** The result and the old value, if it is asked for. *)
Definition wlibc_timer_settime (timer flags : Z) (v : itimerspec) (old_value : bool) : Tm (Z * option itimerspec) :=
  if timer =? 0 then r ← tm_fail EINVAL; mret (r, None)
  else if negb (flags =? 0) && negb (flags =? TIMER_ABSTIME) then r ← tm_fail EINVAL; mret (r, None)
  else
    t ← timer_at timer;
    let old := if old_value then Some (timer_value t) else None in
    let store (status : NTSTATUS) (p : Z) : Tm (Z * option itimerspec) :=
      if negb (bool_decide (status = STATUS_SUCCESS)) then r ← tm_fail_status status; mret (r, old)
      else _ ← change_timer timer (fun t => Ptimer (ptimer_handle t) p (ptimer_thread t) (ptimer_event t)); mret (0, old) in
    if (tv_sec (its_value v) =? 0) && (tv_nsec (its_value v) =? 0) then
      status ← tm_service (NtCancelTimer2 (ptimer_handle t)); store status 0
    else
      p ← run_M (lift (timespec_ticks (its_interval v)));
      due ← run_M (lift (timespec_ticks (its_value v)));
      due ← (if negb (flags =? TIMER_ABSTIME) then run_M (lift (i64 (- due))) else mret due);
      status ← tm_service (NtSetTimer2 (ptimer_handle t) due p);
      store status p.

(** ** The interval timers *)

(** The statuses are not looked at. *)
Definition initialize_itimers : Tm itimers :=
  '(_, real) ← tm_service NtCreateTimer2;
  '(_, virtual) ← tm_service NtCreateTimer2;
  '(_, prof) ← tm_service NtCreateTimer2;
  '(_, thread) ← on_threads (wlibc_thread_create true None itimer_proc_routine 0);
  s ← get_S;
  _ ← put_S (Timers (timers s) (thread_part s) (default 0 thread));
  mret (Itimers (Timerinfo real 0) (Timerinfo virtual 0) (Timerinfo prof 0)).

Definition cleanup_itimers (t : itimers) : Tm unit :=
  _ ← tm_service (NtClose (t_handle (real_itimer t)));
  _ ← tm_service (NtClose (t_handle (virtual_itimer t)));
  _ ← tm_service (NtClose (t_handle (prof_itimer t)));
  mret ().

End Timers.

(** ** The threads *)

Section Procs.
Context {HD : Handlers}.

(** What the thread of a timer does after one of its waits. *)
Definition timer_round (e : sigevent) (status : NTSTATUS) : Sig unit :=
  if bool_decide (status = STATUS_SUCCESS) then
    if sigev_notify e =? SIGEV_SIGNAL then _ ← wlibc_raise (sigev_signo e); mret ()
    else if sigev_notify e =? SIGEV_THREAD then
      if negb (sigev_notify_function e =? 0) then call (sigev_notify_function e) (sigev_value e) else mret ()
    else mret ()
  else mret ().

(** The endless loop, for the waits that end with the given statuses. *)
Fixpoint timer_proc (e : sigevent) (statuses : list NTSTATUS) : Sig unit :=
  match statuses with [] => mret () | status :: l => _ ← timer_round e status; timer_proc e l end.

(** The number of the timer that ended the wait. *)
Definition itimer_round (which : Z) : Sig unit :=
  if which =? 0 then _ ← wlibc_raise SIGALRM; mret ()
  else if which =? 1 then _ ← wlibc_raise SIGVTALRM; mret ()
  else if which =? 2 then _ ← wlibc_raise SIGPROF; mret ()
  else mret ().

Fixpoint itimer_proc (waits : list Z) : Sig unit :=
  match waits with [] => mret () | w :: l => _ ← itimer_round w; itimer_proc l end.

End Procs.

(** ** The life of a timer *)

Section Life.
Context {K : Type} {KN : Kernel K} {A : Allocator} {TH : ThreadHeap K}.
Context {TK : TimeKernel K} {TDK : ThreadKernel K} {TMK : TimerKernel K}.
(** The heap gives memory that is not in use, and the services succeed. *)
Context (alloc_ok : forall n, malloc_ok n = true).
Context (timer_fresh : forall m, timer_address m <> 0 /\ m !! timer_address m = None).
Context (thread_fresh : forall m, new_address m <> 0 /\ m !! new_address m = None).
Context (create_ok : forall k, exists h k', NtCreateTimer2 k = (STATUS_SUCCESS, h, k')).
Context (spawn_ok : forall n a k, exists h i k', CreateRemoteThreadEx n a k = (inr (h, i), k')).
Context (set_ok : forall h d p k, exists k', NtSetTimer2 h d p k = (STATUS_SUCCESS, k')).
Context (close_ok : forall h k, exists k', NtClose h k = (STATUS_SUCCESS, k')).
Context (terminate_ok : forall h c k, exists k', NtTerminateThread h c k = (STATUS_SUCCESS, k')).
Implicit Types (p : timers_state) (s : state K).

Definition normal_timespec (v : timespec) : Prop := 0 <= tv_sec v < 2 ^ 32 /\ 0 <= tv_nsec v < 1000000000.

Lemma timespec_ticks_normal v : normal_timespec v -> timespec_ticks v = Some (tv_sec v * ticks + tv_nsec v ÷ 100).
Proof.
  intros [Hs Hn]. unfold timespec_ticks, ticks. rewrite Z.quot_div_nonneg by lia.
  assert (0 <= tv_nsec v / 100 < 10000000) by (split; [apply Z.div_pos; lia | apply Z.div_lt_upper_bound; lia]).
  rewrite i64_Some by lia. cbn [mbind option_bind]. by rewrite i64_Some by lia.
Qed.

Lemma timer_value_ticks h v t e : normal_timespec v ->
  timer_value (Ptimer h (tv_sec v * ticks + tv_nsec v ÷ 100) t e) = Itimerspec (Timespec (tv_sec v) (tv_nsec v ÷ 100 * 100)) (Timespec 0 0).
Proof.
  intros [Hs Hn]. unfold timer_value, ticks. cbn [ptimer_period]. rewrite (Z.quot_div_nonneg (tv_nsec v)) by lia.
  assert (0 <= tv_nsec v / 100 < 10000000) by (split; [apply Z.div_pos; lia | apply Z.div_lt_upper_bound; lia]).
  rewrite Z.quot_div_nonneg, Z.rem_mod_nonneg by lia. rewrite Z.div_add_l, Z.div_small by lia.
  rewrite (Z.add_comm (tv_sec v * 10000000)), Z.mod_add, Z.mod_small by lia. do 2 f_equal. lia.
Qed.

(** [s] with another kernel. *)
Definition in_kernel s (k : K) : state K := State (table s) (fd_sequence s) (StandardInput s) (StandardOutput s) (StandardError s) (errno s) k.

Lemma tm_service_ok {X} (f : K -> X * K) x k p s : f (kernel s) = (x, k) -> tm_service f p s = Some ((x, p), in_kernel s k).
Proof. intros H. unfold tm_service. rewrite (SM_bind_Some _ _ p s s p s) by reflexivity. by rewrite H. Qed.

Lemma th_service_ok {X} (f : K -> X * K) x k (ts : threads_state) s : f (kernel s) = (x, k) -> system_service f ts s = Some ((x, ts), in_kernel s k).
Proof. intros H. unfold system_service. rewrite (SM_bind_Some _ _ ts s s ts s) by reflexivity. by rewrite H. Qed.

Lemma timer_at_ok a t p s : timers p !! a = Some t -> timer_at a p s = Some ((t, p), s).
Proof. intros H. unfold timer_at. rewrite (SM_bind_Some _ _ p s p p s) by reflexivity. by rewrite H. Qed.

Lemma change_timer_ok a f t p s : timers p !! a = Some t ->
  change_timer a f p s = Some (((), Timers (<[a := f t]> (timers p)) (thread_part p) (itimer_thread p)), s).
Proof.
  intros H. unfold change_timer, set_timers. rewrite (SM_bind_Some _ _ _ _ _ _ _ (timer_at_ok _ _ _ _ H)).
  by rewrite (SM_bind_Some _ _ p s p p s) by reflexivity.
Qed.

Lemma on_threads_ok {X} (m : SM threads_state K X) x ts p s s' : m (thread_part p) s = Some ((x, ts), s') ->
  on_threads m p s = Some ((x, Timers (timers p) ts (itimer_thread p)), s').
Proof. intros H. unfold on_threads. by rewrite (M_bind_Some _ _ _ _ _ H). Qed.

Lemma thread_create_ok r x (ts : threads_state) s : exists t s',
  wlibc_thread_create true None r x ts s =
    Some (((0, Some (new_address (infos ts))), with_infos ts (<[new_address (infos ts) := t]> (infos ts))), s').
Proof.
  unfold wlibc_thread_create. cbn [negb]. rewrite alloc_ok. cbn [negb]. rewrite (SM_bind_Some _ _ _ _ _ _ _ (get_S_ok ts s)).
  set (a := new_address (infos ts)). rewrite (SM_bind_Some _ _ _ _ _ _ _ eq_refl). set (ts1 := with_infos ts _).
  destruct (spawn_ok 0 a (kernel s)) as (h & i & k & E). rewrite (SM_bind_Some _ _ _ _ _ _ _ (th_service_ok _ _ _ ts1 s E)).
  assert (infos ts1 !! a = Some (with_start r x zero_threadinfo)) as H1 by (cbn; apply lookup_insert_eq).
  rewrite (SM_bind_Some _ _ _ _ _ _ _ (change_info_ok _ _ _ _ _ H1)). set (ts2 := with_infos ts1 _). set (s1 := in_kernel s k).
  rewrite (SM_bind_Some _ _ ts2 s1 () ts2 s1) by reflexivity. destruct (NtResumeThread h (kernel s1)) as [st k1] eqn:R.
  rewrite (SM_bind_Some _ _ ts2 s1 () ts2 (in_kernel s1 k1)) by (by rewrite (SM_bind_Some _ _ _ _ _ _ _ (th_service_ok _ _ _ ts2 s1 R))).
  rewrite (SM_bind_Some _ _ ts2 (in_kernel s1 k1) () ts2 (in_kernel s1 k1)) by reflexivity.
  eexists _, _. unfold ts2, ts1. cbn. rewrite insert_insert_eq. reflexivity.
Qed.

(** A timer that signals has been created. *)
Lemma timer_create_ok clock e p s : valid_clock clock = true -> sigev_notify e = SIGEV_SIGNAL ->
  let a := timer_address (timers p) in let b := new_address (infos (thread_part p)) in exists h t s',
  wlibc_timer_create clock (Some e) true p s = Some (((0, Some a),
    Timers (<[a := Ptimer h 0 b e]> (timers p)) (with_infos (thread_part p) (<[b := t]> (infos (thread_part p)))) (itimer_thread p)), s').
Proof.
  intros Hc He a b. unfold wlibc_timer_create. rewrite Hc, He, alloc_ok. cbn [negb SIGEV_SIGNAL SIGEV_NONE SIGEV_THREAD Z.ltb Z.gtb Z.compare orb Pos.compare Pos.compare_cont Z.eqb Pos.eqb].
  rewrite (SM_bind_Some _ _ p s p p s) by reflexivity. fold a. rewrite (SM_bind_Some _ _ _ _ _ _ _ eq_refl). cbn [fst snd].
  set (p1 := Timers (<[a := _]> (timers p)) _ _). destruct (create_ok (kernel s)) as (h & k & E).
  rewrite (SM_bind_Some _ _ _ _ _ _ _ (tm_service_ok _ _ _ p1 s E)). rewrite (bool_decide_eq_true_2 (STATUS_SUCCESS = STATUS_SUCCESS)) by done. cbn [negb].
  assert (timers p1 !! a = Some (Ptimer 0 0 0 zero_event)) as H1 by (cbn; apply lookup_insert_eq).
  rewrite (SM_bind_Some _ _ _ _ _ _ _ (change_timer_ok _ _ _ _ _ H1)). set (p2 := Timers _ _ _).
  destruct (thread_create_ok timer_proc_routine a (thread_part p2) (in_kernel s k)) as (t & s' & T).
  rewrite (SM_bind_Some _ _ _ _ _ _ _ (on_threads_ok _ _ _ p2 _ _ T)). cbn [default]. set (p3 := Timers (timers p2) _ _).
  assert (timers p3 !! a = Some (Ptimer h 0 0 zero_event)) as H3 by (cbn; apply lookup_insert_eq).
  rewrite (SM_bind_Some _ _ _ _ _ _ _ (change_timer_ok _ _ _ _ _ H3)). set (p4 := Timers _ _ _). cbn [Z.eqb negb].
  assert (timers p4 !! a = Some (Ptimer h 0 b zero_event)) as H4 by (cbn; apply lookup_insert_eq).
  rewrite (SM_bind_Some _ _ _ _ _ _ _ (change_timer_ok _ _ _ _ _ H4)). exists h, t, s'. unfold p4, p3, p2, p1. cbn. by rewrite !insert_insert_eq.
Qed.

Lemma ticks_negated v : normal_timespec v -> i64 (- (tv_sec v * ticks + tv_nsec v ÷ 100)) = Some (- (tv_sec v * ticks + tv_nsec v ÷ 100)).
Proof.
  intros [Hs Hn]. apply i64_Some. unfold ticks. rewrite Z.quot_div_nonneg by lia.
  assert (0 <= tv_nsec v / 100 < 10000000) by (split; [apply Z.div_pos; lia | apply Z.div_lt_upper_bound; lia]). lia.
Qed.

Lemma timer_settime_ok a flags v h q b e p s : a <> 0 -> timers p !! a = Some (Ptimer h q b e) -> (flags = 0 \/ flags = TIMER_ABSTIME) ->
  normal_timespec (its_interval v) -> normal_timespec (its_value v) -> tv_sec (its_value v) <> 0 ->
  let t := Ptimer h (tv_sec (its_interval v) * ticks + tv_nsec (its_interval v) ÷ 100) b e in exists s',
  wlibc_timer_settime a flags v true p s =
    Some (((0, Some (timer_value (Ptimer h q b e))), Timers (<[a := t]> (timers p)) (thread_part p) (itimer_thread p)), s').
Proof.
  intros Ha H Hf Hi Hv Hz t. unfold wlibc_timer_settime. rewrite (proj2 (Z.eqb_neq a 0) Ha).
  assert (negb (flags =? 0) && negb (flags =? TIMER_ABSTIME) = false) as -> by (destruct Hf as [->| ->]; done).
  rewrite (SM_bind_Some _ _ _ _ _ _ _ (timer_at_ok _ _ _ s H)). rewrite (proj2 (Z.eqb_neq _ _) Hz). cbn [andb]. rewrite !timespec_ticks_normal by done.
  do 2 rewrite (SM_bind_Some _ _ _ _ _ _ _ eq_refl). cbv beta. rewrite ticks_negated by done.
  set (d := tv_sec (its_value v) * ticks + tv_nsec (its_value v) ÷ 100).
  rewrite (SM_bind_Some _ _ p s (if negb (flags =? TIMER_ABSTIME) then - d else d) p s) by (by destruct (negb _)).
  set (d' := if negb _ then _ else _). cbn [ptimer_handle].
  destruct (set_ok h d' (tv_sec (its_interval v) * ticks + tv_nsec (its_interval v) ÷ 100) (kernel s)) as (k & S).
  rewrite (SM_bind_Some _ _ _ _ _ _ _ (tm_service_ok _ _ _ p s S)). rewrite (bool_decide_eq_true_2 (STATUS_SUCCESS = STATUS_SUCCESS)) by done. cbn [negb].
  rewrite (SM_bind_Some _ _ _ _ _ _ _ (change_timer_ok _ _ _ _ _ H)). eexists. reflexivity.
Qed.

Lemma timer_delete_ok a h q b e t p s : a <> 0 -> timers p !! a = Some (Ptimer h q b e) -> infos (thread_part p) !! b = Some t -> exists s',
  wlibc_timer_delete a p s =
    Some ((0, Timers (delete a (timers p)) (with_infos (thread_part p) (delete b (infos (thread_part p)))) (itimer_thread p)), s').
Proof.
  intros Ha H Ht. unfold wlibc_timer_delete. rewrite (proj2 (Z.eqb_neq a 0) Ha).
  rewrite (SM_bind_Some _ _ _ _ _ _ _ (timer_at_ok _ _ _ s H)). cbn [ptimer_thread ptimer_handle]. destruct (close_ok h (kernel s)) as (k & C).
  rewrite (SM_bind_Some _ _ _ _ _ _ _ (tm_service_ok _ _ _ p s C)). rewrite (bool_decide_eq_true_2 (STATUS_SUCCESS = STATUS_SUCCESS)) by done. cbn [negb].
  rewrite (SM_bind_Some _ _ _ _ _ _ _ (on_threads_ok _ _ _ p _ _ (info_ok b t (thread_part p) (in_kernel s k) Ht))).
  destruct (terminate_ok (thread_handle t) (swrap 32 WLIBC_THREAD_CANCELED) (kernel (in_kernel s k))) as (k' & D).
  rewrite (SM_bind_Some _ _ _ _ _ _ _ (tm_service_ok _ _ _ _ _ D)). rewrite (bool_decide_eq_true_2 (STATUS_SUCCESS = STATUS_SUCCESS)) by done. cbn [negb].
  eexists. reflexivity.
Qed.

(** the life of a timer that signals: it is created; set; reports the interval
    it was set with, to 100 nanoseconds, and nothing of the time left; and is
    deleted, after which the memory of the timer and of its thread is free again and
    no other timer or thread has changed. *)
Theorem timer_life (clock flags : Z) (e : sigevent) (v : itimerspec) p s :
  valid_clock clock = true -> sigev_notify e = SIGEV_SIGNAL -> (flags = 0 \/ flags = TIMER_ABSTIME) ->
  normal_timespec (its_interval v) -> normal_timespec (its_value v) -> tv_sec (its_value v) <> 0 ->
  exists a s' p',
    (created ← wlibc_timer_create clock (Some e) true;
     let timer := default 0 created.2 in
     set ← wlibc_timer_settime timer flags v true;
     value ← wlibc_timer_gettime timer;
     deleted ← wlibc_timer_delete timer;
     mret (created, set, value, deleted)) p s =
    Some ((((0, Some a), (0, Some (Itimerspec (Timespec 0 0) (Timespec 0 0))),
           (0, Some (Itimerspec (Timespec (tv_sec (its_interval v)) (tv_nsec (its_interval v) ÷ 100 * 100)) (Timespec 0 0))), 0), p'), s') /\
    timers p' = timers p /\ infos (thread_part p') = infos (thread_part p).
Proof.
  intros Hc He Hf Hi Hv Hz. destruct (timer_create_ok clock e p s Hc He) as (h & t & s1 & E1).
  set (a := timer_address (timers p)) in *. set (b := new_address (infos (thread_part p))) in *.
  destruct (timer_fresh (timers p)) as [Ha0 Ha]. destruct (thread_fresh (infos (thread_part p))) as [_ Hb]. fold a in Ha0, Ha. fold b in Hb.
  rewrite (SM_bind_Some _ _ _ _ _ _ _ E1). cbv beta zeta. change (default 0 (0, Some a).2) with a. set (p1 := Timers _ _ _) in *.
  assert (timers p1 !! a = Some (Ptimer h 0 b e)) as H1 by (cbn; apply lookup_insert_eq).
  destruct (timer_settime_ok a flags v h 0 b e p1 s1 Ha0 H1 Hf Hi Hv Hz) as (s2 & E2). rewrite (SM_bind_Some _ _ _ _ _ _ _ E2).
  set (t1 := Ptimer h (tv_sec (its_interval v) * ticks + tv_nsec (its_interval v) ÷ 100) b e) in *.
  set (p2 := Timers (<[a := t1]> (timers p1)) (thread_part p1) (itimer_thread p1)) in *. assert (timers p2 !! a = Some t1) as H2 by (cbn; apply lookup_insert_eq).
  rewrite (SM_bind_Some _ _ p2 s2 (0, Some (timer_value t1)) p2 s2).
  2:{ unfold wlibc_timer_gettime. rewrite (proj2 (Z.eqb_neq a 0) Ha0). by rewrite (SM_bind_Some _ _ _ _ _ _ _ (timer_at_ok _ _ _ s2 H2)). }
  assert (infos (thread_part p2) !! b = Some t) as H3 by (cbn; apply lookup_insert_eq).
  destruct (timer_delete_ok a _ _ b e t p2 s2 Ha0 H2 H3) as (s3 & E3). rewrite (SM_bind_Some _ _ _ _ _ _ _ E3).
  eexists a, s3, _. split; [|split].
  - unfold t1. rewrite timer_value_ticks by done. reflexivity.
  - cbn. rewrite insert_insert_eq. by apply delete_insert_id.
  - cbn. by apply delete_insert_id.
Qed.
End Life.

(** ** A kernel for the timers *)

Module Bench.

(** An address that is not in use. *)
Definition unused {X} (m : gmap Z X) : Z := fresh ({[0]} ∪ dom m : gset Z).

Lemma unused_fresh {X} (m : gmap Z X) : unused m <> 0 /\ m !! unused m = None.
Proof.
  pose proof (is_fresh ({[0]} ∪ dom m : gset Z)) as H. fold (unused m) in H. split; [set_solver|].
  apply not_elem_of_dom. set_solver.
Qed.

#[export] Instance bench_alloc : Allocator := fun _ => true.

#[export] Instance bench_heap : ThreadHeap Disk.disk := {
  new_address := unused;
  old_entry := CleanupEntry 0 0;
  NtCurrentThread := -2;
  CurrentThreadId _ := 4
}.

#[export] Instance bench_threads : ThreadKernel Disk.disk := {
  CreateRemoteThreadEx _ _ k := (inr (8, 12), k);
  NtResumeThread _ k := (STATUS_SUCCESS, k);
  NtSuspendThread _ k := (STATUS_SUCCESS, k);
  WaitForThread _ _ m k := (STATUS_SUCCESS, m, k);
  RtlExitUserThread _ k := k;
  NtQueueApcThread _ _ k := (STATUS_SUCCESS, k);
  NtQueryThreadPriority _ _ := (STATUS_SUCCESS, 8);
  NtSetThreadPriority _ _ k := (STATUS_SUCCESS, k);
  NtChangeThreadPriority _ _ k := (STATUS_SUCCESS, k);
  NtQueryThreadName _ _ := (STATUS_SUCCESS, []);
  NtSetThreadName _ _ k := (STATUS_SUCCESS, k);
  NtQuerySelectedCpuSets _ _ := (STATUS_SUCCESS, 1);
  NtSetSelectedCpuSets _ _ k := (STATUS_SUCCESS, k);
  QueryProcessorGroups _ := (STATUS_SUCCESS, [8])
}.

#[export] Instance bench_timers : TimerKernel Disk.disk := {
  NtCreateTimer2 k := (STATUS_SUCCESS, 16, k);
  NtTerminateThread _ _ k := (STATUS_SUCCESS, k);
  timer_address := unused
}.

Definition bench : state Disk.disk := State [] 0 0 0 0 0 ([], 0).
Definition no_timers : timers_state := Timers ∅ (Threads ∅ 0 0 [] ∅) 0.

End Bench.
Import Bench Disk Clock.

Lemma timer_life_witness : exists a s' p',
  (created ← wlibc_timer_create CLOCK_REALTIME (Some (Sigevent SIGEV_SIGNAL SIGALRM 0 0 None)) true;
   let timer := default 0 created.2 in
   set ← wlibc_timer_settime timer 0 (Itimerspec (Timespec 3 1234567) (Timespec 1 0)) true;
   value ← wlibc_timer_gettime timer;
   deleted ← wlibc_timer_delete timer;
   mret (created, set, value, deleted)) no_timers bench =
  Some ((((0, Some a), (0, Some (Itimerspec (Timespec 0 0) (Timespec 0 0))), (0, Some (Itimerspec (Timespec 3 1234500) (Timespec 0 0))), 0), p'), s') /\
  timers p' = ∅ /\ infos (thread_part p') = ∅.
Proof.
  exact (timer_life (fun _ => eq_refl) unused_fresh unused_fresh
    ltac:(intros; do 2 eexists; reflexivity) ltac:(intros; do 3 eexists; reflexivity) ltac:(intros; eexists; reflexivity) ltac:(intros; eexists; reflexivity)
    ltac:(intros; eexists; reflexivity) CLOCK_REALTIME 0 (Sigevent SIGEV_SIGNAL SIGALRM 0 0 None) (Itimerspec (Timespec 3 1234567) (Timespec 1 0)) no_timers bench
    eq_refl eq_refl (or_introl eq_refl) ltac:(split; cbn; lia) ltac:(split; cbn; lia) ltac:(discriminate)).
Defined.
