(* ===== verification/Barrier.v ===== *)
(** * Barriers and one-time initialisation

    src/thread/barrier.c and once.c: both are objects of the system, named by their
    addresses. *)

From S2P Require Import Prelude Errno Buffer FdTable FileIo Sync.

Record barrier_attr_t := BarrierAttr { battr_shared : Z }.

(** Barriers and one-time initialisation by address. An entered barrier gives 1 to
    one of the threads; the initialisation gives 0 when it has been done. *)
Class BarrierKernel (K : Type) := {
  InitializeSynchronizationBarrier : Z -> Z -> K -> option DOSERROR * K;
  DeleteSynchronizationBarrier : Z -> K -> K;
  EnterSynchronizationBarrier : Z -> K -> Z * K;
  RtlRunOnceExecuteOnce : Z -> Z -> K -> Z * K
}.

Section Barriers.
Context {K : Type} {BK : BarrierKernel K}.

Definition wlibc_barrier_init (barrier count : Z) : M K Z :=
  if barrier =? 0 then FileIo.fail EINVAL
  else
    s ← get;
    let '(error, k) := InitializeSynchronizationBarrier barrier count (kernel s) in
    _ ← set_kernel k;
    match error with
    | Some e => _ ← FdTable.set_errno (map_doserror_to_errno e (errno s)); mret (-1)
    | None => mret 0
    end.

Definition wlibc_barrier_destroy (barrier : Z) : M K Z :=
  if barrier =? 0 then FileIo.fail EINVAL
  else s ← get; _ ← set_kernel (DeleteSynchronizationBarrier barrier (kernel s)); mret 0.

Definition wlibc_barrier_wait (barrier : Z) : M K Z :=
  if barrier =? 0 then FileIo.fail EINVAL
  else s ← get; let '(r, k) := EnterSynchronizationBarrier barrier (kernel s) in _ ← set_kernel k; mret r.

Definition pthread_barrierattr_init (a : option barrier_attr_t) : M K (Z * option barrier_attr_t) :=
  match a with None => r ← FileIo.fail EINVAL; mret (r, None) | Some _ => mret (0, Some (BarrierAttr WLIBC_PROCESS_PRIVATE)) end.

Definition pthread_barrierattr_getpshared (a : option barrier_attr_t) (place : bool) : M K (Z * option Z) :=
  match a with
  | Some a => if place then mret (0, Some (battr_shared a)) else r ← FileIo.fail EINVAL; mret (r, None)
  | None => r ← FileIo.fail EINVAL; mret (r, None)
  end.

(** Nothing is stored. *)
Definition pthread_barrierattr_setpshared (a : option barrier_attr_t) (pshared : Z) : M K Z :=
  match a with None => FileIo.fail EINVAL | Some _ => if valid_pshared pshared then mret 0 else FileIo.fail EINVAL end.

(** [control] and [init] are addresses. *)
Definition wlibc_thread_once (control init : Z) : M K Z :=
  if (control =? 0) || (init =? 0) then FileIo.fail EINVAL
  else
    s ← get;
    let '(result, k) := RtlRunOnceExecuteOnce control init (kernel s) in
    _ ← set_kernel k;
    if negb (result =? 0) then mret (-1) else mret result.

End Barriers.
