(* ===== verification/Dirent.v ===== *)
(** * Directories

    src/dirent: a directory stream keeps a buffer of records the kernel filled and
    hands them out one by one. *)

From stdpp Require Import gmap.
From S2P Require Import Prelude Errno Buffer FdTable FileIo Path Open.

Definition DT_UNKNOWN : Z := 0.
Definition DT_DIR : Z := 4.
Definition DT_REG : Z := 8.
Definition DT_LNK : Z := 10.

Definition STATUS_NO_MORE_FILES : NTSTATUS := STATUS_other 0x80000006.

Definition DIR_STREAM_MAGIC : Z := 0x1.
Definition DIRENT_DIR_BUFFER_SIZE : Z := 131072.
(** [offsetof(FILE_ID_EXTD_BOTH_DIR_INFORMATION, FileName)]. *)
Definition offset_of_name : Z := 114.

(** The fields of a record that are read; the name in UTF-16. *)
Record dir_record := DirRecord { NextEntryOffset : Z; FileAttributes : Z; FileId : Z; FileName : list Z }.

(** What the kernel wrote: the records by their offsets, and how many bytes. *)
Record dir_block := DirBlock { records : gmap Z dir_record; Information : Z }.

Record dirent := Dirent { d_ino : Z; d_off : Z; d_reclen : Z; d_type : Z; d_namlen : Z; d_name : list Z }.

(** [DIR]; the critical section is entered and left within each call. *)
Record dirstream := Dirstream {
  magic : Z;
  dir_fd : Z;
  dir_buffer : gmap Z dir_record;
  offset : Z;
  read_data : Z;
  received_data : Z
}.

(** The streams by their addresses, beside the state of the paths. *)
Record dirs_state := Dirs { dirs : gmap Z dirstream; dir_paths : path_state }.

(** A query of the next records of a directory, or of the first ones; the address of
    a new block; and the sort of the library. *)
Class DirKernel (K : Type) := {
  NtQueryDirectoryFileEx : Z -> bool -> K -> NTSTATUS * dir_block * K;
  dir_address : gmap Z dirstream -> Z;
  qsort : (dirent -> dirent -> Z) -> list dirent -> list dirent
}.

Definition sizeof_DIR : Z := 80.
Definition sizeof_dirent : Z := 280.

(** The attributes of a regular file. *)
Definition regular_attributes : Z :=
  Z.lor FILE_ATTRIBUTE_READONLY (Z.lor FILE_ATTRIBUTE_HIDDEN (Z.lor FILE_ATTRIBUTE_SYSTEM (Z.lor FILE_ATTRIBUTE_ARCHIVE
    (Z.lor 0x0080 (Z.lor FILE_ATTRIBUTE_TEMPORARY (Z.lor 0x0200 (Z.lor 0x0800 (Z.lor 0x2000 FILE_ATTRIBUTE_ENCRYPTED)))))))).

Definition dirent_type (attributes : Z) : Z :=
  if has attributes FILE_ATTRIBUTE_REPARSE_POINT then DT_LNK
  else if has attributes FILE_ATTRIBUTE_DIRECTORY then DT_DIR
  else if Z.land attributes (u32 (Z.lnot regular_attributes)) =? 0 then DT_REG
  else DT_UNKNOWN.

(** The record at an offset. The buffer is cleared before it is filled: behind the
    data there are zeros; an offset inside a record is undefined. *)
Definition record_at (x : dirstream) : option dir_record :=
  match dir_buffer x !! offset x with
  | Some r => Some r
  | None => if (received_data x <=? offset x) && (offset x + offset_of_name <=? DIRENT_DIR_BUFFER_SIZE) then Some (DirRecord 0 0 0 []) else None
  end.

Section Dirs.
Context {K : Type} {KN : Kernel K} {A : Allocator} {PK : PathKernel K} {OK : OpenKernel K} {DK : DirKernel K}.

Abbreviation D := (SM dirs_state K).

Definition on_paths {X} (m : SM path_state K X) : D X :=
  fun s => '(x, p) ← m (dir_paths s); mret (x, Dirs (dirs s) p).

Definition dir_at (a : Z) : D dirstream := s ← get_S; match dirs s !! a with Some x => mret x | None => run_M UB end.
Definition put_dir (a : Z) (x : dirstream) : D unit := s ← get_S; put_S (Dirs (<[a := x]> (dirs s)) (dir_paths s)).

(** [VALIDATE_DIR_STREAM]: [e] without a stream, and [f] with the one there is. *)
Definition validate_dir {X} (a : Z) (e : X) (f : dirstream -> D X) : D X :=
  if a =? 0 then _ ← run_M (set_errno EBADF); mret e
  else
    x ← dir_at a;
    if negb (magic x =? DIR_STREAM_MAGIC) then _ ← run_M (set_errno EBADF); mret e else f x.

Definition query (x : dirstream) (restart : bool) : D (NTSTATUS * dir_block) :=
  h ← run_M (get_fd_handle (dir_fd x));
  s ← run_M get;
  let '(status, b, k) := NtQueryDirectoryFileEx h restart (kernel s) in
  _ ← run_M (set_kernel k);
  mret (status, b).

(** The entry for a record at an offset. A name that cannot be converted leaves what
    the entry of the caller held, of length 0: [[]]. *)
Definition entry_of (r : dir_record) (o : Z) : dirent :=
  let reclen := u16 (offset_of_name + 2 * zlen (FileName r)) in
  let '(status, name) := RtlUnicodeStringToUTF8String (FileName r) (Some 260) in
  if bool_decide (status = STATUS_SUCCESS)
  then Dirent (u64 (FileId r)) o reclen (dirent_type (FileAttributes r)) (u8 (zlen name)) name
  else Dirent (u64 (FileId r)) o reclen (dirent_type (FileAttributes r)) 0 [].

(** The bytes a record takes in the buffer. *)
Definition record_bytes (r : dir_record) (reclen : Z) : Z :=
  reclen + (if negb (NextEntryOffset r =? 0) then (if reclen mod 8 =? 0 then 0 else 8 - reclen mod 8) else 0).

(** The record at the offset is handed out. *)
Definition hand_out (x : dirstream) : option (dirent * dirstream) :=
  r ← record_at x;
  let e := entry_of r (offset x) in
  Some (e, Dirstream (magic x) (dir_fd x) (dir_buffer x) (u64 (offset x + NextEntryOffset r))
             (u64 (read_data x + record_bytes r (d_reclen e))) (received_data x)).

Definition do_readdir (a : Z) : D (option dirent) :=
  x ← dir_at a;
  filled ← (if read_data x =? received_data x then
              '(status, b) ← query x false;
              if negb (bool_decide (status = STATUS_SUCCESS)) then
                _ ← put_dir a (Dirstream (magic x) (dir_fd x) ∅ (offset x) (read_data x) (received_data x));
                _ ← (if negb (bool_decide (status = STATUS_NO_MORE_FILES))
                     then s ← run_M get; run_M (set_errno (map_ntstatus_to_errno status (errno s))) else mret ());
                mret None
              else mret (Some (Dirstream (magic x) (dir_fd x) (records b) 0 (read_data x) (Information b)))
            else mret (Some x));
  match filled with
  | None => mret None
  | Some x => match hand_out x with Some (e, x) => _ ← put_dir a x; mret (Some e) | None => run_M UB end
  end.

Definition wlibc_readdir (a : Z) : D (option dirent) := validate_dir a None (fun _ => do_readdir a).

(** The result, and what is stored through the pointers. *)
Definition wlibc_readdir_r (a : Z) : D (Z * option dirent) :=
  s ← run_M get;
  let failed : D (Z * option dirent) := _ ← run_M (set_errno EBADF); mret (EBADF, None) in
  if a =? 0 then failed
  else
    x ← dir_at a;
    if negb (magic x =? DIR_STREAM_MAGIC) then failed
    else
      _ ← run_M (set_errno 0);
      e ← do_readdir a;
      n ← run_M get;
      match e with
      | None => if negb (errno n =? 0) then mret (errno n, None) else _ ← run_M (set_errno (errno s)); mret (0, None)
      | Some _ => _ ← run_M (set_errno (errno s)); mret (0, e)
      end.

(** [NULL] is 0. *)
Definition initialize_dirstream (fd : Z) : D Z :=
  if malloc_ok (sizeof_DIR + DIRENT_DIR_BUFFER_SIZE) then
    s ← get_S;
    let a := dir_address (dirs s) in
    _ ← put_dir a (Dirstream DIR_STREAM_MAGIC fd ∅ 0 0 0);
    mret a
  else _ ← run_M (set_errno ENOMEM); mret 0.

Definition directory_access : Z := Z.lor FILE_READ_ATTRIBUTES (Z.lor FILE_TRAVERSE (Z.lor FILE_READ_DATA SYNCHRONIZE)).
Definition directory_options : Z := Z.lor FILE_DIRECTORY_FILE FILE_SYNCHRONOUS_IO_NONALERT.

(** [path] without a path is a null pointer or an empty string; [t0] is what the type
    holds that [just_open] does not initialise. *)
Definition wlibc_opendir (t0 : handle_t) (path : option (list Z)) : D Z :=
  match path with
  | None | Some [] => _ ← run_M (set_errno ENOENT); mret 0
  | Some path =>
      h ← on_paths (just_open t0 AT_FDCWD path directory_access directory_options);
      if h =? 0 then mret 0
      else
        fd ← run_M (register_to_fd_table h DIRECTORY_HANDLE (Z.lor O_RDONLY (Z.lor O_CLOEXEC O_DIRECTORY)));
        a ← initialize_dirstream fd;
        _ ← (if a =? 0 then _ ← run_M (close_fd fd); mret () else mret ());
        mret a
  end.

Definition wlibc_fdopendir (fd : Z) : D Z :=
  t ← run_M (get_fd_type fd);
  if negb (bool_decide (t = DIRECTORY_HANDLE)) || bool_decide (t = INVALID_HANDLE)
  then _ ← run_M (set_errno (if bool_decide (t = INVALID_HANDLE) then EBADF else ENOTDIR)); mret 0
  else initialize_dirstream fd.

Definition wlibc_closedir (a : Z) : D Z :=
  validate_dir a (-1) (fun x =>
    r ← run_M (close_fd (dir_fd x));
    if r =? 0 then s ← get_S; _ ← put_S (Dirs (delete a (dirs s)) (dir_paths s)); mret 0 else mret (-1)).

(** What [Information] is after an error is what the kernel left there. *)
Definition wlibc_rewinddir (a : Z) : D unit :=
  validate_dir a () (fun x =>
    '(status, b) ← query x true;
    _ ← (if negb (bool_decide (status = STATUS_SUCCESS))
         then s ← run_M get; run_M (set_errno (map_ntstatus_to_errno status (errno s))) else mret ());
    put_dir a (Dirstream (magic x) (dir_fd x) (if bool_decide (status = STATUS_SUCCESS) then records b else ∅) 0 0 (Information b))).

Definition wlibc_telldir (a : Z) : D Z := validate_dir a (-1) (fun x => mret (offset x)).

Definition wlibc_seekdir (a pos : Z) : D unit :=
  validate_dir a () (fun x => put_dir a (Dirstream (magic x) (dir_fd x) (dir_buffer x) (u64 pos) (read_data x) (received_data x))).

Definition wlibc_dirfd (a : Z) : D Z := validate_dir a (-1) (fun x => mret (dir_fd x)).

(** ** scandir *)

(** The loop over the entries, at most [fuel] rounds; [None] when there are more. The
    list has room for [room] pointers, [allocated] as the code counts. *)
Fixpoint collect (fuel : nat) (a : Z) (selector : dirent -> bool) (room allocated : Z) (l : list dirent) : D (option (list dirent)) :=
  match fuel with
  | O => mret None
  | S fuel =>
      e ← do_readdir a;
      match e with
      | None => mret (Some l)
      | Some e =>
          if negb (selector e) then collect fuel a selector room allocated l
          else
            let full := zlen l =? allocated in
            let room := if full then (if malloc_ok (8 * 32) then 32 else 0) else room in
            let allocated := if full then allocated * 2 else allocated in
            if (zlen l <? room) && malloc_ok sizeof_dirent then collect fuel a selector room allocated (l ++ [e])
            else run_M UB
      end
  end.

(** The count and the entries; [None] when there was not enough fuel. *)
Definition wlibc_common_scandir (fuel : nat) (t0 : handle_t) (dfd : Z) (path : option (list Z)) (selector : option (dirent -> bool))
    (cmp : option (dirent -> dirent -> Z)) : D (option (Z * list dirent)) :=
  match path with
  | None | Some [] => _ ← run_M (set_errno ENOENT); mret (Some (-1, []))
  | Some path =>
      h ← on_paths (just_open t0 dfd path directory_access directory_options);
      if h =? 0 then mret (Some (-1, []))
      else
        fd ← run_M (register_to_fd_table h DIRECTORY_HANDLE (Z.lor O_RDONLY (Z.lor O_CLOEXEC O_DIRECTORY)));
        a ← wlibc_fdopendir fd;
        if a =? 0 then mret (Some (-1, []))
        else
          l ← collect fuel a (default (fun _ => true) selector) (if malloc_ok (8 * 16) then 16 else 0) 16 [];
          match l with
          | None => mret None
          | Some l =>
              let l := match cmp with Some cmp => qsort cmp l | None => l end in
              _ ← wlibc_closedir a;
              mret (Some (zlen l, l))
          end
  end.

End Dirs.
