(* ===== verification/DirentSpec.v ===== *)
(** * What a directory stream promises

    A directory whose records fit in the buffer is read completely; one that needs a
    second buffer is not; and a scan of more than 32 entries leaves its memory. *)

From stdpp Require Import gmap.
From S2P Require Import Prelude Errno Buffer FdTable FileIo Path PathFacts Open Dirent.

(** ** Records in a buffer *)

Record file := File { f_attributes : Z; f_id : Z; f_name : list Z }.

Definition size_of (f : file) : Z := offset_of_name + 2 * zlen (f_name f).
Definition padded (n : Z) : Z := n + (if n mod 8 =? 0 then 0 else 8 - n mod 8).

Definition record_of (f : file) (next : Z) : dir_record := DirRecord next (f_attributes f) (f_id f) (f_name f).

(** The records of the files from an offset on: each but the last leads to the next. *)
Fixpoint place (o : Z) (l : list file) : gmap Z dir_record :=
  match l with
  | [] => ∅
  | [f] => {[o := record_of f 0]}
  | f :: l => <[o := record_of f (padded (size_of f))]> (place (o + padded (size_of f)) l)
  end.

Fixpoint bytes (l : list file) : Z :=
  match l with [] => 0 | [f] => size_of f | f :: l => padded (size_of f) + bytes l end.

Definition block_of (l : list file) : dir_block := DirBlock (place 0 l) (bytes l).

(** Files whose records fit. *)
Definition fits (l : list file) : Prop :=
  l <> [] /\ bytes l <= DIRENT_DIR_BUFFER_SIZE /\ Forall (fun f => zlen (f_name f) <= 255) l.

(** Where the stream is after a file: at the next one, if there is one. *)
Definition next_of (f : file) (l : list file) : Z := match l with [] => 0 | _ => padded (size_of f) end.
Definition step_of (f : file) (l : list file) : Z := match l with [] => size_of f | _ => padded (size_of f) end.

Section Layout.
Lemma padded_le n : n <= padded n.
Proof. unfold padded. pose proof (Z.mod_pos_bound n 8). destruct (n mod 8 =? 0); lia. Qed.

Lemma size_pos f : 0 < size_of f.
Proof. unfold size_of, offset_of_name. lia. Qed.

Lemma bytes_cons f l : bytes (f :: l) = step_of f l + bytes l.
Proof. destruct l; cbn [bytes step_of]; lia. Qed.

Lemma step_pos f l : 0 < step_of f l.
Proof. pose proof (size_pos f). pose proof (padded_le (size_of f)). destruct l; cbn [step_of]; lia. Qed.

Lemma next_range f l : 0 <= next_of f l <= step_of f l.
Proof. pose proof (size_pos f). pose proof (padded_le (size_of f)). destruct l; cbn [next_of step_of]; lia. Qed.

Lemma bytes_pos l : 0 <= bytes l.
Proof. induction l as [|f l IH]; [cbn; lia|]. rewrite bytes_cons. pose proof (step_pos f l). lia. Qed.

Lemma place_below o l k : k < o -> place o l !! k = None.
Proof.
  revert o. induction l as [|f l IH]; intros o H; [apply lookup_empty|].
  pose proof (size_pos f). pose proof (padded_le (size_of f)).
  destruct l as [|g l]; [apply lookup_singleton_ne; lia|]. cbn [place]. rewrite lookup_insert_ne by lia. apply IH. lia.
Qed.

Lemma place_first o f l : place o (f :: l) !! o = Some (record_of f (next_of f l)).
Proof. destruct l; cbn [place next_of]; [apply lookup_singleton_eq | apply lookup_insert_eq]. Qed.

Lemma place_rest o f l : l <> [] -> place (o + next_of f l) l ⊆ place o (f :: l).
Proof.
  destruct l as [|g l]; [done|]. intros _. cbn [next_of]. change (place o (f :: g :: l)) with (<[o := record_of f (padded (size_of f))]> (place (o + padded (size_of f)) (g :: l))).
  apply insert_subseteq. apply place_below. pose proof (size_pos f). pose proof (padded_le (size_of f)). lia.
Qed.
End Layout.

(** ** Reading *)

(** The directories of the kernel: what is left to read from a handle, as blocks. *)
Class Directories {K : Type} `{DirKernel K} (listing : K -> Z -> list (list file)) : Prop := {
  dir_next h l rest k : listing k h = l :: rest ->
    exists k', NtQueryDirectoryFileEx h false k = (STATUS_SUCCESS, block_of l, k') /\ listing k' h = rest;
  dir_done h k : listing k h = [] -> exists b, NtQueryDirectoryFileEx h false k = (STATUS_NO_MORE_FILES, b, k)
}.

Section Reading.
Context {K : Type} {KN : Kernel K} {A : Allocator} {PK : PathKernel K} {OK : OpenKernel K} {DK : DirKernel K}.
Context (listing : K -> Z -> list (list file)) {DL : Directories listing}.
Implicit Types (p : dirs_state) (s : state K).

Abbreviation D := (SM dirs_state K).

(** The entries that are handed out for the files. *)
Fixpoint entries (o : Z) (l : list file) : list dirent :=
  match l with [] => [] | f :: l => entry_of (record_of f (next_of f l)) o :: entries (o + next_of f l) l end.

(** [n] calls. *)
Fixpoint readdirs (n : nat) (a : Z) : D (list (option dirent)) :=
  match n with O => mret [] | S n => e ← wlibc_readdir a; es ← readdirs n a; mret (e :: es) end.

(** The files [l] are in the buffer from the offset of the stream on. *)
Definition reading (l : list file) (x : dirstream) : Prop :=
  magic x = DIR_STREAM_MAGIC /\ place (offset x) l ⊆ dir_buffer x /\ 0 <= offset x /\ offset x + bytes l <= DIRENT_DIR_BUFFER_SIZE /\
  Forall (fun f => zlen (f_name f) <= 255) l.

(** The stream after the first of the files. *)
Definition after_file (f : file) (l : list file) (x : dirstream) : dirstream :=
  Dirstream (magic x) (dir_fd x) (dir_buffer x) (offset x + next_of f l) (read_data x + step_of f l) (received_data x).

Lemma reclen_ok f o n : zlen (f_name f) <= 255 -> d_reclen (entry_of (record_of f n) o) = size_of f.
Proof.
  intros H. unfold entry_of, record_of, size_of, offset_of_name. cbn [FileName].
  destruct (RtlUnicodeStringToUTF8String (f_name f) (Some 260)) as [st nm]. destruct (bool_decide _); cbn [d_reclen]; apply wrap_small; lia.
Qed.

Lemma hand_out_ok f l x : reading (f :: l) x -> 0 <= read_data x < 2 ^ 63 ->
  hand_out x = Some (entry_of (record_of f (next_of f l)) (offset x), after_file f l x).
Proof.
  intros (_ & Hp & Ho & Hb & Hn) Hr. apply Forall_cons in Hn as [Hf _]. rewrite bytes_cons in Hb. unfold DIRENT_DIR_BUFFER_SIZE in Hb.
  pose proof (next_range f l). pose proof (step_pos f l). pose proof (bytes_pos l).
  assert (dir_buffer x !! offset x = Some (record_of f (next_of f l))) as E by (eapply lookup_weaken; [apply place_first | exact Hp]).
  unfold hand_out, record_at. rewrite E. cbn [mbind option_bind]. rewrite reclen_ok by done. do 2 f_equal. unfold after_file.
  cbn [record_of NextEntryOffset]. rewrite !wrap_small; [| |lia].
  - f_equal. unfold record_bytes. cbn [record_of NextEntryOffset]. destruct l as [|g l]; cbn [next_of step_of]; [cbn; lia|].
    pose proof (size_pos f). pose proof (padded_le (size_of f)). rewrite (proj2 (Z.eqb_neq _ _)) by lia. done.
  - assert (record_bytes (record_of f (next_of f l)) (size_of f) = step_of f l) as ->; [|lia].
    unfold record_bytes. cbn [record_of NextEntryOffset]. destruct l as [|g l]; cbn [next_of step_of]; [cbn; lia|].
    pose proof (size_pos f). pose proof (padded_le (size_of f)). rewrite (proj2 (Z.eqb_neq _ _)) by lia. done.
Qed.

Lemma reading_after f l x : reading (f :: l) x -> l <> [] -> reading l (after_file f l x).
Proof.
  intros (Hm & Hp & Ho & Hb & Hn) Hl. rewrite bytes_cons in Hb. pose proof (next_range f l). apply Forall_cons in Hn as [_ Hn].
  split; [done|]. split; [|split; [|split; [|done]]]; cbn [after_file offset dir_buffer].
  - etransitivity; [by apply place_rest | exact Hp].
  - lia.
  - destruct l; [done|]. cbn [next_of step_of] in *. lia.
Qed.

Lemma put_dir_ok a x p s : put_dir a x p s = Some (((), Dirs (<[a := x]> (dirs p)) (dir_paths p)), s).
Proof. done. Qed.

(** A call that takes the next record from the buffer. *)
Lemma readdir_step a f l x p s : a <> 0 -> dirs p !! a = Some x -> reading (f :: l) x -> read_data x <> received_data x -> 0 <= read_data x < 2 ^ 63 ->
  wlibc_readdir a p s = Some ((Some (entry_of (record_of f (next_of f l)) (offset x)), Dirs (<[a := after_file f l x]> (dirs p)) (dir_paths p)), s).
Proof.
  intros Ha Hx Hr Hne Hb. assert (dir_at a p s = Some ((x, p), s)) as E.
  { unfold dir_at. rewrite (SM_bind_Some _ _ p s p p s) by reflexivity. by rewrite Hx. }
  unfold wlibc_readdir, validate_dir. rewrite (proj2 (Z.eqb_neq a 0) Ha). rewrite (SM_bind_Some _ _ _ _ _ _ _ E).
  destruct Hr as (Hm & Hr'). rewrite Hm. cbn [Z.eqb Pos.eqb negb DIR_STREAM_MAGIC].
  unfold do_readdir. rewrite (SM_bind_Some _ _ _ _ _ _ _ E). rewrite (proj2 (Z.eqb_neq _ _) Hne).
  rewrite (SM_bind_Some _ _ p s (Some x) p s) by reflexivity. rewrite (hand_out_ok f l x) by (try done; by split).
  by rewrite (SM_bind_Some _ _ _ _ _ _ _ (put_dir_ok a _ p s)).
Qed.

(** The stream after a query. *)
Definition filled (l : list file) (x : dirstream) : dirstream :=
  Dirstream (magic x) (dir_fd x) (place 0 l) 0 (read_data x) (bytes l).

(** A call that first fills the buffer. *)
Lemma readdir_fill a h l f rest x e k p s : a <> 0 -> dirs p !! a = Some x -> magic x = DIR_STREAM_MAGIC -> read_data x = received_data x ->
  0 <= dir_fd x -> table s !! Z.to_nat (dir_fd x) = Some e -> handle e = h -> fits (f :: l) -> 0 <= read_data x < 2 ^ 63 ->
  NtQueryDirectoryFileEx h false (kernel s) = (STATUS_SUCCESS, block_of (f :: l), k) -> listing k h = rest ->
  wlibc_readdir a p s = Some ((Some (entry_of (record_of f (next_of f l)) 0), Dirs (<[a := after_file f l (filled (f :: l) x)]> (dirs p)) (dir_paths p)), with_kernel s k).
Proof.
  intros Ha Hx Hm He Hd Ht Hh (_ & Hb & Hn) Hr Q _. assert (dir_at a p s = Some ((x, p), s)) as E.
  { unfold dir_at. rewrite (SM_bind_Some _ _ p s p p s) by reflexivity. by rewrite Hx. }
  unfold wlibc_readdir, validate_dir. rewrite (proj2 (Z.eqb_neq a 0) Ha). rewrite (SM_bind_Some _ _ _ _ _ _ _ E). rewrite Hm. cbn [Z.eqb Pos.eqb negb DIR_STREAM_MAGIC].
  unfold do_readdir. rewrite (SM_bind_Some _ _ _ _ _ _ _ E). rewrite (proj2 (Z.eqb_eq _ _) He).
  rewrite (SM_bind_Some _ _ p s (Some (filled (f :: l) x)) p (with_kernel s k)).
  2:{ unfold query. rewrite (SM_bind_Some _ _ p s (STATUS_SUCCESS, block_of (f :: l)) p (with_kernel s k)).
      - rewrite (bool_decide_eq_true_2 (STATUS_SUCCESS = STATUS_SUCCESS)) by done. done.
      - rewrite (SM_bind_Some _ _ p s h p s).
        2:{ unfold run_M, get_fd_handle, entry. unfold mbind, M_bind. cbn. rewrite (proj2 (Z.leb_le 0 (dir_fd x)) Hd), Ht. by rewrite Hh. }
        rewrite (SM_bind_Some _ _ p s s p s) by reflexivity. rewrite Q. reflexivity. }
  rewrite (hand_out_ok f l (filled (f :: l) x)) by (try done; repeat split; cbn; auto; lia).
  by rewrite (SM_bind_Some _ _ _ _ _ _ _ (put_dir_ok a _ p _)).
Qed.

(** Where the stream is after the files, and the stream then. *)
Fixpoint end_offset (o : Z) (l : list file) : Z := match l with [] => o | f :: l => end_offset (o + next_of f l) l end.
Definition after_files (l : list file) (x : dirstream) : dirstream :=
  Dirstream (magic x) (dir_fd x) (dir_buffer x) (end_offset (offset x) l) (read_data x + bytes l) (received_data x).

(** The files that are left in the buffer are read while the stream does not take
    itself for empty. *)
Lemma readdirs_rest a l : forall x p s, a <> 0 -> dirs p !! a = Some x -> (l <> [] -> reading l x) ->
  (read_data x + bytes l = received_data x \/ received_data x < read_data x) -> 0 <= read_data x -> read_data x + bytes l < 2 ^ 63 ->
  readdirs (length l) a p s = Some ((Some <$> entries (offset x) l, Dirs (<[a := after_files l x]> (dirs p)) (dir_paths p)), s).
Proof.
  induction l as [|f l IH]; intros x p s Ha Hx Hl He H0 Hb; cbn [readdirs length entries].
  - unfold after_files. cbn [bytes end_offset]. rewrite Z.add_0_r. rewrite insert_id by (rewrite Hx; by destruct x). by destruct p.
  - specialize (Hl ltac:(done)). rewrite bytes_cons in He, Hb. pose proof (step_pos f l). pose proof (bytes_pos l).
    rewrite (SM_bind_Some _ _ _ _ _ _ _ (readdir_step a f l x p s Ha Hx Hl ltac:(lia) ltac:(lia))).
    set (p1 := Dirs _ _). pose proof (IH (after_file f l x) p1 s Ha) as E.
    specialize (E ltac:(cbn; apply lookup_insert_eq) (reading_after f l x Hl) ltac:(cbn; lia) ltac:(cbn; lia) ltac:(cbn; lia)).
    rewrite (SM_bind_Some _ _ _ _ _ _ _ E). cbn [p1 dirs dir_paths]. rewrite insert_insert_eq. unfold after_files. rewrite bytes_cons.
    cbn [after_file offset received_data read_data magic dir_buffer dir_fd end_offset]. rewrite Z.add_assoc. done.
Qed.

Lemma end_last o l f : last l = Some f ->
  place (end_offset o l) [f] ⊆ place o l /\ last (entries o l) = Some (entry_of (record_of f 0) (end_offset o l)) /\
  o <= end_offset o l /\ end_offset o l + size_of f = o + bytes l.
Proof.
  revert o. induction l as [|g l IH]; intros o H; [done|]. destruct l as [|g' l].
  - injection H as ->. cbn [end_offset next_of entries last bytes]. rewrite Z.add_0_r. split; [reflexivity|]. split; [reflexivity|]. lia.
  - change (last (g :: g' :: l)) with (last (g' :: l)) in H. destruct (IH (o + next_of g (g' :: l)) H) as (H1 & H2 & H3 & H4).
    pose proof (next_range g (g' :: l)). rewrite bytes_cons. change (end_offset o (g :: g' :: l)) with (end_offset (o + next_of g (g' :: l)) (g' :: l)).
    split; [etransitivity; [exact H1 | by apply place_rest]|]. split; [exact H2|]. split; [lia|]. rewrite H4. cbn [next_of step_of]. lia.
Qed.

Lemma readdirs_app n m a es es' p p1 p2 s s1 s2 : readdirs n a p s = Some ((es, p1), s1) -> readdirs m a p1 s1 = Some ((es', p2), s2) ->
  readdirs (n + m) a p s = Some ((es ++ es', p2), s2).
Proof.
  revert es p s. induction n as [|n IH]; intros es p s H1 H2; cbn [readdirs Nat.add] in *; [by injection H1 as <- <- <-|].
  unfold mbind, SM_bind, mbind, M_bind in H1 |- *. destruct (wlibc_readdir a p s) as [[[e q] t]|]; [|done].
  destruct (readdirs n a q t) as [[[es0 q0] t0]|] eqn:E; [|done]. injection H1 as <- <- <-. by rewrite (IH es0 q t E H2).
Qed.

(** A stream on the descriptor [fd] of the handle [h], between two buffers. *)
Definition between (a h r : Z) (blocks : list (list file)) p s : Prop :=
  exists x e, dirs p !! a = Some x /\ magic x = DIR_STREAM_MAGIC /\ read_data x = r /\ received_data x = r /\ 0 <= dir_fd x /\
    table s !! Z.to_nat (dir_fd x) = Some e /\ handle e = h /\ listing (kernel s) h = blocks.

(** The next block is read. *)
Lemma read_block a h r l rest p s : a <> 0 -> between a h r (l :: rest) p s -> fits l -> 0 <= r < 2 ^ 62 -> (r = 0 \/ bytes l <= r) ->
  exists x k, readdirs (length l) a p s = Some ((Some <$> entries 0 l, Dirs (<[a := after_files l (filled l x)]> (dirs p)) (dir_paths p)), with_kernel s k) /\
    listing k h = rest /\ read_data x = r /\ magic x = DIR_STREAM_MAGIC /\ 0 <= dir_fd x /\
    (exists e, table s !! Z.to_nat (dir_fd x) = Some e /\ handle e = h).
Proof.
  intros Ha (x & e & Hx & Hm & Hr & Hr' & Hd & Ht & Hh & Hl) Hf H0 Hc. destruct (dir_next h l rest _ Hl) as (k & Q & Hk).
  pose proof Hf as (Hn & Hb & Hz). destruct l as [|f l]; [done|]. exists x, k. split; [|by repeat split; eauto].
  unfold DIRENT_DIR_BUFFER_SIZE in Hb. pose proof (bytes_pos l). pose proof (step_pos f l).
  cbn [readdirs length entries]. rewrite (SM_bind_Some _ _ _ _ _ _ _ (readdir_fill a h l f rest x e k p s Ha Hx Hm ltac:(congruence) Hd Ht Hh Hf ltac:(lia) Q Hk)).
  set (p1 := Dirs _ _). assert (reading (f :: l) (filled (f :: l) x)) as R by (repeat split; cbn [filled magic offset dir_buffer]; auto; lia).
  rewrite bytes_cons in Hb, Hc.
  pose proof (readdirs_rest a l (after_file f l (filled (f :: l) x)) p1 (with_kernel s k) Ha ltac:(cbn; apply lookup_insert_eq) (reading_after f l _ R)) as E.
  cbn [after_file filled read_data received_data offset] in E. rewrite bytes_cons in E. specialize (E ltac:(lia) ltac:(lia) ltac:(lia)).
  rewrite (SM_bind_Some _ _ _ _ _ _ _ E). cbn [p1 dirs dir_paths]. rewrite insert_insert_eq. unfold after_files.
  cbn [after_file filled magic dir_fd dir_buffer offset read_data received_data end_offset]. rewrite bytes_cons, Z.add_assoc. done.
Qed.

(** Behind the last block there is nothing more. *)
Lemma read_nothing a h r n p s : a <> 0 -> between a h r [] p s -> exists p', readdirs n a p s = Some ((replicate n None, p'), s).
Proof.
  revert p. induction n as [|n IH]; intros p Ha (x & e & Hx & Hm & Hr & Hr' & Hd & Ht & Hh & Hl); cbn [readdirs replicate]; [eauto|].
  destruct (dir_done h _ Hl) as (b & Q). assert (dir_at a p s = Some ((x, p), s)) as E.
  { unfold dir_at. rewrite (SM_bind_Some _ _ p s p p s) by reflexivity. by rewrite Hx. }
  set (x1 := Dirstream (magic x) (dir_fd x) ∅ (offset x) (read_data x) (received_data x)). set (p1 := Dirs (<[a := x1]> (dirs p)) (dir_paths p)).
  assert (wlibc_readdir a p s = Some ((None, p1), s)) as E1.
  { unfold wlibc_readdir, validate_dir. rewrite (proj2 (Z.eqb_neq a 0) Ha). rewrite (SM_bind_Some _ _ _ _ _ _ _ E). rewrite Hm. cbn [Z.eqb Pos.eqb negb DIR_STREAM_MAGIC].
    unfold do_readdir. rewrite (SM_bind_Some _ _ _ _ _ _ _ E). rewrite (proj2 (Z.eqb_eq (read_data x) (received_data x))) by congruence.
    rewrite (SM_bind_Some _ _ p s None p1 s); [done|]. rewrite (SM_bind_Some _ _ p s (STATUS_NO_MORE_FILES, b) p s).
    - rewrite bool_decide_eq_false_2 by done. cbn [negb]. rewrite (SM_bind_Some _ _ _ _ _ _ _ (put_dir_ok a _ p s)). by rewrite bool_decide_eq_true_2.
    - unfold query. rewrite (SM_bind_Some _ _ p s h p s).
      2:{ unfold run_M, get_fd_handle, entry. unfold mbind, M_bind. cbn. rewrite (proj2 (Z.leb_le 0 (dir_fd x)) Hd), Ht. by rewrite Hh. }
      rewrite (SM_bind_Some _ _ p s s p s) by reflexivity. rewrite Q. cbn. by destruct s. }
  rewrite (SM_bind_Some _ _ _ _ _ _ _ E1). destruct (IH p1 Ha) as (p' & E2).
  { exists x1, e. cbn [p1 dirs]. rewrite lookup_insert_eq. by repeat split. }
  rewrite (SM_bind_Some _ _ _ _ _ _ _ E2). by exists p'.
Qed.

(** The last file of the buffer is handed out again and again. *)
Lemma read_again a f n : forall x p s, a <> 0 -> dirs p !! a = Some x -> reading [f] x -> received_data x < read_data x ->
  read_data x + Z.of_nat n * size_of f < 2 ^ 63 -> 0 <= received_data x ->
  exists p', readdirs n a p s = Some ((replicate n (Some (entry_of (record_of f 0) (offset x))), p'), s).
Proof.
  induction n as [|n IH]; intros x p s Ha Hx Hr Hlt Hb H0; cbn [readdirs replicate]; [eauto|]. rewrite Nat2Z.inj_succ in Hb. pose proof (size_pos f).
  rewrite (SM_bind_Some _ _ _ _ _ _ _ (readdir_step a f [] x p s Ha Hx Hr ltac:(lia) ltac:(lia))). cbn [next_of].
  set (p1 := Dirs _ _). destruct (IH (after_file f [] x) p1 s Ha) as (p' & E).
  - cbn. apply lookup_insert_eq.
  - destruct Hr as (Hm & Hp & Ho & Hs & Hn). unfold reading. cbn [after_file next_of magic offset dir_buffer]. rewrite Z.add_0_r. done.
  - cbn. lia.
  - cbn [after_file read_data step_of]. lia.
  - done.
  - rewrite (SM_bind_Some _ _ _ _ _ _ _ E). cbn [after_file offset next_of]. rewrite Z.add_0_r. by exists p'.
Qed.

(** C36: a directory whose records fit in the buffer is read completely: the calls
    give an entry for every file, in the order of the directory, and then nothing,
    however often they are made. *)
Theorem readdir_lists (a h : Z) (l : list file) (n : nat) p s :
  a <> 0 -> between a h 0 [l] p s -> fits l ->
  exists p' s', readdirs (length l + n) a p s = Some (((Some <$> entries 0 l) ++ replicate n None, p'), s') /\ errno s' = errno s.
Proof.
  intros Ha Hb Hf. destruct (read_block a h 0 l [] p s Ha Hb Hf ltac:(lia) ltac:(auto)) as (x & k & E & Hk & Hr & Hm & Hd & e & Ht & Hh).
  set (p1 := Dirs _ _) in E. destruct (read_nothing a h (bytes l) n p1 (with_kernel s k) Ha) as (p2 & E2).
  { exists (after_files l (filled l x)), e. cbn [p1 dirs after_files filled magic dir_fd read_data received_data]. rewrite lookup_insert_eq, Hr. by repeat split. }
  exists p2, (with_kernel s k). split; [|done]. by apply (readdirs_app _ _ _ _ _ _ _ _ _ _ _ E E2).
Qed.

(** a directory that needs two buffers, the second no longer than the first, is
    read without end: the count of the bytes read is not reset when the buffer is
    filled again, so that the stream never takes itself for empty, and the calls
    give the last file of the second buffer again and again. *)
Theorem large_directory_never_ends (a h : Z) (l1 l2 : list file) (f : file) (rest : list (list file)) (n : nat) p s :
  a <> 0 -> between a h 0 (l1 :: l2 :: rest) p s -> fits l1 -> fits l2 -> bytes l2 <= bytes l1 -> last l2 = Some f -> Z.of_nat n < 2 ^ 32 ->
  exists p' s', readdirs (length l1 + (length l2 + n)) a p s =
    Some (((Some <$> entries 0 l1) ++ (Some <$> entries 0 l2) ++ replicate n (last (entries 0 l2)), p'), s').
Proof.
  intros Ha Hb Hf1 Hf2 Hle Hlast Hn. destruct (read_block a h 0 l1 _ p s Ha Hb Hf1 ltac:(lia) ltac:(auto)) as (x & k & E & Hk & Hr & Hm & Hd & e & Ht & Hh).
  set (p1 := Dirs _ _) in E. assert (between a h (bytes l1) (l2 :: rest) p1 (with_kernel s k)) as Hb1.
  { exists (after_files l1 (filled l1 x)), e. cbn [p1 dirs after_files filled magic dir_fd read_data received_data]. rewrite lookup_insert_eq, Hr. by repeat split. }
  destruct Hf1 as (_ & B1 & _). unfold DIRENT_DIR_BUFFER_SIZE in B1. pose proof (bytes_pos l2). pose proof Hf2 as (N2 & B2 & Z2). unfold DIRENT_DIR_BUFFER_SIZE in B2.
  destruct (read_block a h (bytes l1) l2 rest p1 _ Ha Hb1 Hf2 ltac:(lia) ltac:(auto)) as (x2 & k2 & E2 & _ & Hr2 & Hm2 & _).
  set (p2 := Dirs _ _) in E2. destruct (end_last 0 l2 f Hlast) as (L1 & L2 & L3 & L4). pose proof (size_pos f) as Hs.
  assert (zlen (f_name f) <= 255) as Hz by (rewrite Forall_forall in Z2; apply Z2; by apply last_Some_elem_of).
  assert (size_of f <= 624) by (unfold size_of, offset_of_name; lia).
  destruct (read_again a f n (after_files l2 (filled l2 x2)) p2 (with_kernel (with_kernel s k) k2) Ha) as (p3 & E3).
  - cbn. apply lookup_insert_eq.
  - unfold reading. cbn [after_files filled magic offset dir_buffer bytes]. repeat split; auto; unfold DIRENT_DIR_BUFFER_SIZE; lia.
  - cbn [after_files filled received_data read_data]. lia.
  - cbn [after_files filled received_data read_data]. nia.
  - cbn [after_files filled received_data]. lia.
  - rewrite L2. cbn [after_files filled offset] in E3. eexists p3, _. by apply (readdirs_app _ _ _ _ _ _ _ _ _ _ _ E (readdirs_app _ _ _ _ _ _ _ _ _ _ _ E2 E3)).
Qed.

(** ** Scanning *)

Definition valid_dir (a : Z) p : Prop := a <> 0 /\ exists x, dirs p !! a = Some x /\ magic x = DIR_STREAM_MAGIC.

Lemma readdir_do a p s : valid_dir a p -> wlibc_readdir a p s = do_readdir a p s.
Proof.
  intros (Ha & x & Hx & Hm). unfold wlibc_readdir, validate_dir. rewrite (proj2 (Z.eqb_neq a 0) Ha).
  rewrite (SM_bind_Some _ _ p s x p s) by (unfold dir_at; rewrite (SM_bind_Some _ _ p s p p s) by reflexivity; by rewrite Hx).
  by rewrite Hm.
Qed.

Lemma hand_out_magic x e y : hand_out x = Some (e, y) -> magic y = magic x.
Proof. unfold hand_out. destruct (record_at x); [|done]. by intros [= _ <-]. Qed.

Lemma query_keeps x restart r p p' s s' : query x restart p s = Some ((r, p'), s') -> p' = p.
Proof.
  unfold query, mbind, SM_bind, run_M, mbind, M_bind. destruct (get_fd_handle (dir_fd x) s) as [[h s1]|]; [|done]. cbn.
  destruct (NtQueryDirectoryFileEx h restart (kernel s1)) as [[st b] k]. by intros [= _ <- _].
Qed.

Lemma do_readdir_valid a e p p' s s' : valid_dir a p -> do_readdir a p s = Some ((e, p'), s') -> valid_dir a p'.
Proof.
  intros (Ha & x & Hx & Hm). unfold do_readdir. rewrite (SM_bind_Some _ _ p s x p s) by (unfold dir_at; rewrite (SM_bind_Some _ _ p s p p s) by reflexivity; by rewrite Hx).
  assert (forall y q t, magic y = DIR_STREAM_MAGIC -> match hand_out y with Some (e, x) => _ ← put_dir a x; mret (Some e) | None => run_M UB end q t = Some ((e, p'), s') -> valid_dir a p') as V.
  { intros y q t Hy. destruct (hand_out y) as [[e0 z]|] eqn:E; [|done]. intros [= _ <- _]. split; [done|]. exists z. cbn. rewrite lookup_insert_eq.
    split; [done|]. by rewrite (hand_out_magic _ _ _ E). }
  destruct (read_data x =? received_data x).
  - unfold mbind at 1. unfold SM_bind at 1. unfold mbind at 1. unfold M_bind at 1.
    match goal with |- context [match ?m p s with None => None | Some _ => _ end] => destruct (m p s) as [[[fl q] t]|] eqn:E end; [|done].
    unfold mbind at 1 in E. unfold SM_bind at 1 in E. unfold mbind at 1 in E. unfold M_bind at 1 in E.
    destruct (query x false p s) as [[[[st b] q1] t1]|] eqn:Q; [|done]. apply query_keeps in Q as ->.
    destruct (bool_decide (st = STATUS_SUCCESS)); cbn [negb] in E.
    + injection E as <- <- <-. by apply V.
    + assert (fl = None /\ valid_dir a q) as [-> Hq].
      { rewrite (SM_bind_Some _ _ _ _ _ _ _ (put_dir_ok a _ p t1)) in E. set (p1 := Dirs _ _) in E.
        assert (valid_dir a p1) as H1 by (split; [done|]; eexists; cbn; rewrite lookup_insert_eq; split; [done | exact Hm]).
        destruct (negb _); cbn in E; injection E as <- <- _; done. }
      by intros [= _ <- _].
  - rewrite (SM_bind_Some _ _ p s (Some x) p s) by reflexivity. by apply V.
Qed.

(** The room for pointers and what the loop takes it for. *)
Definition room_of (n : Z) : Z := if n <=? 16 then 16 else 32.

Context (alloc_ok : forall n, malloc_ok n = true).

Lemma collect_run a es : forall fuel l p p1 s s1, valid_dir a p -> readdirs (length es) a p s = Some ((Some <$> es, p1), s1) -> zlen l + zlen es <= 32 ->
  collect (length es + fuel) a (fun _ => true) (room_of (zlen l)) (room_of (zlen l)) l p s =
  collect fuel a (fun _ => true) (room_of (zlen l + zlen es)) (room_of (zlen l + zlen es)) (l ++ es) p1 s1 /\ valid_dir a p1.
Proof.
  induction es as [|e es IH]; intros fuel l p p1 s s1 Hv H Hn; cbn [length readdirs Nat.add] in *.
  - injection H as <- <-. by rewrite app_nil_r, Z.add_0_r.
  - rewrite Nat2Z.inj_succ in *. unfold mbind in H at 1. unfold SM_bind in H at 1. unfold mbind in H at 1. unfold M_bind in H at 1.
    destruct (wlibc_readdir a p s) as [[[e0 q] t]|] eqn:E; [|done]. unfold mbind, SM_bind, mbind, M_bind in H.
    destruct (readdirs (length es) a q t) as [[[es0 q0] t0]|] eqn:R; [|done]. injection H as -> -> <- <-.
    rewrite readdir_do in E by done. pose proof (do_readdir_valid _ _ _ _ _ _ Hv E) as Hq. cbn [collect]. rewrite (SM_bind_Some _ _ _ _ _ _ _ E). cbn [negb].
    rewrite !alloc_ok, andb_true_r. destruct (IH fuel (l ++ [e]) q q0 t t0 Hq R) as [E' H']; [rewrite length_app; cbn [length]; lia|].
    rewrite length_app in E'. cbn [length] in E'. replace (Z.of_nat (length l + 1)) with (zlen l + 1) in E' by lia.
    replace (zlen l + Z.succ (zlen es)) with (zlen l + 1 + zlen es) by lia. rewrite <- app_assoc in E'. cbn [app] in E'. rewrite <- E'. split; [|done].
    unfold room_of in *. destruct (Z.leb_spec (zlen l) 16), (Z.leb_spec (zlen l + 1) 16), (Z.eqb_spec (zlen l) 16); try lia; cbn [fst].
    + rewrite (proj2 (Z.ltb_lt _ _)) by lia. done.
    + rewrite (proj2 (Z.ltb_lt _ _)) by lia. done.
    + destruct (Z.eqb_spec (zlen l) 32); [lia|]. rewrite (proj2 (Z.ltb_lt _ _)) by lia. done.
Qed.

Lemma readdirs_split n m a es p p2 s s2 : readdirs (n + m) a p s = Some ((es, p2), s2) ->
  exists p1 s1, readdirs n a p s = Some ((take n es, p1), s1) /\ readdirs m a p1 s1 = Some ((drop n es, p2), s2).
Proof.
  revert es p s. induction n as [|n IH]; intros es p s H; cbn [readdirs Nat.add] in *; [by exists p, s|].
  unfold mbind, SM_bind, mbind, M_bind in H |- *. destruct (wlibc_readdir a p s) as [[[e q] t]|]; [|done].
  destruct (readdirs (n + m) a q t) as [[[es0 q0] t0]|] eqn:E; [|done]. injection H as <- <- <-. destruct (IH es0 q t E) as (p1 & s1 & E1 & E2).
  rewrite E1. by exists p1, s1.
Qed.

Lemma length_entries l : forall o, length (entries o l) = length l.
Proof. induction l as [|f l IH]; intros o; cbn; auto. Qed.

(** C33: a scan gives the entries of a directory of up to 32 files; with more of
    them it stores pointers behind the block, which is never made larger than for
    32. *)
Theorem scandir_limit (a h : Z) (l : list file) (fuel : nat) p s :
  a <> 0 -> between a h 0 [l] p s -> fits l -> (length l < fuel)%nat ->
  if (length l <=? 32)%nat then exists p' s', collect fuel a (fun _ => true) 16 16 [] p s = Some ((Some (entries 0 l), p'), s')
  else collect fuel a (fun _ => true) 16 16 [] p s = None.
Proof.
  intros Ha Hb Hf Hl. destruct (read_block a h 0 l [] p s Ha Hb Hf ltac:(lia) ltac:(auto)) as (x & k & E & Hk & Hr & Hm & Hd & e & Ht & Hh).
  assert (valid_dir a p) as Hv by (destruct Hb as (y & _ & Hy & My & _); split; [done|]; by exists y).
  destruct (Nat.leb_spec (length l) 32) as [H32|H32].
  - set (p1 := Dirs _ _) in E. destruct (read_nothing a h (bytes l) 1 p1 (with_kernel s k) Ha) as (p2 & E2).
    { exists (after_files l (filled l x)), e. cbn [p1 dirs after_files filled magic dir_fd read_data received_data]. rewrite lookup_insert_eq, Hr. by repeat split. }
    rewrite <- (length_entries l 0) in E. destruct (collect_run a (entries 0 l) (S (fuel - length l - 1)) [] p p1 s _ Hv E) as [C Hv1]; [rewrite length_entries; cbn; lia|].
    rewrite length_entries in C. replace (length l + S (fuel - length l - 1))%nat with fuel in C by lia. change (room_of (zlen [])) with 16 in C. rewrite C.
    cbn [collect readdirs] in E2 |- *. unfold mbind, SM_bind, mbind, M_bind in E2 |- *. rewrite readdir_do in E2 by done.
    destruct (do_readdir a p1 (with_kernel s k)) as [[[r q] t]|]; [|done]. injection E2 as -> -> ->. by exists p2, (with_kernel s k).
  - replace (length l) with (32 + S (length l - 33))%nat in E by lia. destruct (readdirs_split _ _ _ _ _ _ _ _ E) as (p1 & s1 & E1 & E2).
    rewrite <- fmap_take in E1. rewrite <- fmap_drop in E2.
    assert (length (take 32 (entries 0 l)) = 32%nat) as L1 by (rewrite length_take, length_entries; lia).
    rewrite <- L1 in E1 at 1. destruct (collect_run a _ (S (fuel - 33)) [] p p1 s s1 Hv E1) as [C Hv1]; [rewrite L1; cbn; lia|]. rewrite L1 in C.
    replace (32 + S (fuel - 33))%nat with fuel in C by lia. change (room_of (zlen [])) with 16 in C. rewrite C.
    destruct (drop 32 (entries 0 l)) as [|e0 es] eqn:D; [apply (f_equal length) in D; rewrite length_drop, length_entries in D; cbn in D; lia|].
    cbn [readdirs] in E2. unfold mbind in E2 at 1. unfold SM_bind in E2 at 1. unfold mbind in E2 at 1. unfold M_bind in E2 at 1. rewrite readdir_do in E2 by done.
    cbn [collect app]. unfold mbind at 1. unfold SM_bind at 1. unfold mbind at 1. unfold M_bind at 1.
    destruct (do_readdir a p1 s1) as [[[r q] t]|]; [|done]. destruct r as [e1|].
    2:{ unfold mbind, SM_bind, mbind, M_bind in E2. by destruct (readdirs (length l - 33) a q t) as [[[es0 q0] t0]|]. }
    cbn [negb].
    rewrite L1. rewrite !alloc_ok. reflexivity.
Qed.
End Reading.

(** ** A machine with one directory

    What is left to read of it, whatever the handle. *)
Module Listings.

Definition K : Type := list (list file).

#[export] Instance listing_paths : PathKernel K := {
  RtlUTF8StringToUnicodeString l _ := (STATUS_SUCCESS, l);
  RtlUnicodeStringToUTF8String l _ := (STATUS_SUCCESS, l);
  CurrentDirectory _ := [];
  NtOpenSymbolicLinkObject v k := (STATUS_OBJECT_NAME_NOT_FOUND, v, k);
  NtQuerySymbolicLinkObject _ _ := (STATUS_OBJECT_NAME_NOT_FOUND, []);
  NtQueryObjectName _ _ _ := (STATUS_OBJECT_NAME_NOT_FOUND, 0, []);
  QueryDosVolumePaths _ _ := (STATUS_OBJECT_NAME_NOT_FOUND, []);
  NtOpenKeyEx _ _ := (STATUS_OBJECT_NAME_NOT_FOUND, 0);
  NtQueryValueKey _ _ _ _ := (STATUS_OBJECT_NAME_NOT_FOUND, 0, []);
  current_user_sid := []
}.

#[export] Instance listing_dirs : DirKernel K := {
  NtQueryDirectoryFileEx _ _ k := match k with [] => (STATUS_NO_MORE_FILES, DirBlock ∅ 0, k) | l :: k => (STATUS_SUCCESS, block_of l, k) end;
  dir_address _ := 4096;
  qsort _ l := l
}.

#[export] Instance listing_directories : Directories (fun (k : K) _ => k).
Proof. split; intros h *; cbn; [intros ->; eauto | intros ->; eauto]. Qed.

#[export] Instance ample : Allocator := fun _ => true.

(** The stream at 4096 is new, on descriptor 0, whose handle is 1. *)
Definition opened : dirs_state := Dirs {[4096 := Dirstream DIR_STREAM_MAGIC 0 ∅ 0 0 0]} initial_paths.
Definition process (k : K) : state K := State [Fdinfo 1 DIRECTORY_HANDLE O_RDONLY 1] 1 0 0 0 0 k.

Lemma opened_between k : between (fun k _ => k) 4096 1 0 k opened (process k).
Proof. exists (Dirstream DIR_STREAM_MAGIC 0 ∅ 0 0 0), (Fdinfo 1 DIRECTORY_HANDLE O_RDONLY 1). by repeat split. Qed.

Definition dot : file := File FILE_ATTRIBUTE_DIRECTORY 7 [46].
Definition plain : file := File FILE_ATTRIBUTE_ARCHIVE 9 [97; 46; 99].

Lemma fits_two : fits [dot; plain].
Proof. repeat split; [done | done |]. repeat constructor; cbn; lia. Qed.

Lemma fits_many : fits (replicate 33 plain).
Proof. repeat split; [done | done |]. apply Forall_forall. intros f Hf. apply elem_of_replicate in Hf as [-> _]. cbn. lia. Qed.

End Listings.
Import Listings.

Lemma readdir_lists_witness : exists p' s', readdirs 4 4096 opened (process [[dot; plain]]) =
  Some (([Some (Dirent 7 0 116 DT_DIR 1 [46]); Some (Dirent 9 120 120 DT_REG 3 [97; 46; 99]); None; None], p'), s') /\ errno s' = 0.
Proof. exact (readdir_lists (fun k _ => k) 4096 1 [dot; plain] 2 opened (process [[dot; plain]]) ltac:(discriminate) (opened_between _) fits_two). Defined.

Lemma large_directory_never_ends_witness : exists p' s', readdirs 5 4096 opened (process [[dot; plain]; [plain]]) =
  Some (([Some (Dirent 7 0 116 DT_DIR 1 [46]); Some (Dirent 9 120 120 DT_REG 3 [97; 46; 99]); Some (Dirent 9 0 120 DT_REG 3 [97; 46; 99]);
          Some (Dirent 9 0 120 DT_REG 3 [97; 46; 99]); Some (Dirent 9 0 120 DT_REG 3 [97; 46; 99])], p'), s').
Proof.
  refine (large_directory_never_ends (fun k _ => k) 4096 1 [dot; plain] [plain] plain [] 2 opened (process [[dot; plain]; [plain]])
    ltac:(discriminate) (opened_between _) fits_two _ _ eq_refl _); [|done|done].
  repeat split; [done | done |]. repeat constructor; cbn; lia.
Defined.

Lemma scandir_limit_witness :
  (exists p' s', collect 3 4096 (fun _ => true) 16 16 [] opened (process [[dot; plain]]) =
     Some ((Some [Dirent 7 0 116 DT_DIR 1 [46]; Dirent 9 120 120 DT_REG 3 [97; 46; 99]], p'), s')) /\
  collect 34 4096 (fun _ => true) 16 16 [] opened (process [replicate 33 plain]) = None.
Proof.
  split.
  - exact (scandir_limit (fun k _ => k) (fun _ => eq_refl) 4096 1 [dot; plain] 3 opened (process [[dot; plain]]) ltac:(discriminate) (opened_between _) fits_two ltac:(cbn; lia)).
  - exact (scandir_limit (fun k _ => k) (fun _ => eq_refl) 4096 1 (replicate 33 plain) 34 opened (process [replicate 33 plain]) ltac:(discriminate) (opened_between _) fits_many ltac:(cbn; lia)).
Defined.
