(* ===== verification/Security.v ===== *)
(** * Security descriptors

    src/internal/security.c: the identifiers of the process, and the descriptors that
    give a file the permissions of a mode, kept in a cache. A descriptor is built in
    a block of 256 bytes. *)

From stdpp Require Import gmap.
From S2P Require Import Prelude Errno Buffer FdTable FileIo Path Open.

(** ** Identifiers *)

(** [SID]; [SubAuthorityCount] is the length. *)
Record sid := Sid { Revision : Z; IdentifierAuthority : Z; SubAuthority : list Z }.

#[export] Instance sid_eq_dec : EqDecision sid.
Proof. solve_decision. Defined.

Definition SID_MAX_SUB_AUTHORITIES : Z := 15.
Definition SECURITY_WORLD_SID_AUTHORITY : Z := 1.
Definition SECURITY_NT_AUTHORITY : Z := 5.
Definition SECURITY_WORLD_RID : Z := 0.
Definition SECURITY_LOCAL_SYSTEM_RID : Z := 18.
Definition SECURITY_BUILTIN_DOMAIN_RID : Z := 32.
Definition DOMAIN_ALIAS_RID_ADMINS : Z := 544.
Definition DOMAIN_ALIAS_RID_USERS : Z := 545.

Definition RtlInitializeSidEx (authority : Z) (rids : list Z) : sid := Sid 1 authority rids.

Definition SECURITY_SID_SIZE (n : Z) : Z := 8 + 4 * n.

(** The last [SubAuthority], as the [int] it is stored in; there is one. *)
Definition last_authority (s : sid) : option Z := swrap 32 <$> last (SubAuthority s).

(** ** Permissions *)

Definition FILE_EXECUTE : Z := 0x0020.
Definition FILE_DELETE_CHILD : Z := 0x0040.
Definition WRITE_DAC : Z := 0x00040000.
Definition WRITE_OWNER : Z := 0x00080000.

Definition WLIBC_ACCEPTABLE_READ_PERMISSIONS : Z := Z.lor FILE_READ_DATA FILE_READ_EA.
Definition WLIBC_ACCEPTABLE_WRITE_PERMISSIONS : Z := Z.lor FILE_WRITE_DATA (Z.lor FILE_APPEND_DATA FILE_WRITE_EA).
Definition WLIBC_ACCEPTABLE_EXECUTE_PERMISSIONS : Z := FILE_EXECUTE.

Definition WLIBC_BASIC_PERMISSIONS : Z :=
  Z.lor FILE_READ_ATTRIBUTES (Z.lor FILE_WRITE_ATTRIBUTES (Z.lor READ_CONTROL (Z.lor SYNCHRONIZE DELETE))).
Definition WLIBC_READ_PERMISSIONS : Z := Z.lor FILE_READ_DATA (Z.lor FILE_READ_EA WLIBC_BASIC_PERMISSIONS).
Definition WLIBC_WRITE_PERMISSIONS : Z :=
  Z.lor FILE_WRITE_DATA (Z.lor FILE_APPEND_DATA (Z.lor FILE_WRITE_EA (Z.lor FILE_DELETE_CHILD WLIBC_BASIC_PERMISSIONS))).
Definition WLIBC_EXECUTE_PERMISSIONS : Z := Z.lor FILE_EXECUTE WLIBC_BASIC_PERMISSIONS.
Definition WLIBC_EXTRA_PERMISSIONS : Z := Z.lor WRITE_DAC WRITE_OWNER.
Definition WLIBC_ALL_PERMISSIONS : Z :=
  Z.lor WLIBC_READ_PERMISSIONS (Z.lor WLIBC_WRITE_PERMISSIONS (Z.lor WLIBC_EXECUTE_PERMISSIONS WLIBC_EXTRA_PERMISSIONS)).

Definition determine_access_mask (mode : Z) : Z :=
  add_if mode 4 WLIBC_READ_PERMISSIONS (add_if mode 2 WLIBC_WRITE_PERMISSIONS (add_if mode 1 WLIBC_EXECUTE_PERMISSIONS 0)).

(** ** Access control lists *)

Definition ACCESS_ALLOWED_ACE_TYPE : Z := 0.
Definition ACCESS_DENIED_ACE_TYPE : Z := 1.
Definition OBJECT_INHERIT_ACE : Z := 1.
Definition CONTAINER_INHERIT_ACE : Z := 2.

Record ace := Ace { AceType : Z; AceFlags : Z; Mask : Z; AceSid : sid }.

(** What a descriptor says about the owner, the group and the list. *)
Record descriptor := Descriptor { sd_owner : option sid; sd_group : option sid; sd_dacl : option (list ace) }.

Definition sizeof_ACL : Z := 8.
Definition sizeof_SECURITY_DESCRIPTOR_RELATIVE : Z := 20.
Definition AceSize (a : ace) : Z := 8 + SECURITY_SID_SIZE (zlen (SubAuthority (AceSid a))).
Definition acl_bytes (l : list ace) : Z := fold_right (fun a n => AceSize a + n) sizeof_ACL l.

(** An entry is added to a list in a block of [size] bytes when there is room; the
    status is not looked at. *)
Definition RtlAddAccessAllowedAceEx (size ace_flags mask : Z) (s : sid) (l : list ace) : list ace :=
  let a := Ace ACCESS_ALLOWED_ACE_TYPE ace_flags mask s in
  if acl_bytes l + AceSize a <=? size then l ++ [a] else l.

(** ** The state *)

Record security := Security {
  ntsystem_sid : sid;
  adminstrators_sid : sid;
  users_sid : sid;
  everyone_sid : sid;
  user_sid : sid;
  group_sid : sid;
  computer_sid : sid;
  current_uid : Z;
  current_gid : Z;
  all_security_descriptors : gmap Z descriptor
}.

Definition NTSYSTEM : sid := RtlInitializeSidEx SECURITY_NT_AUTHORITY [SECURITY_LOCAL_SYSTEM_RID].
Definition ADMINISTRATORS : sid := RtlInitializeSidEx SECURITY_NT_AUTHORITY [SECURITY_BUILTIN_DOMAIN_RID; DOMAIN_ALIAS_RID_ADMINS].
Definition USERS : sid := RtlInitializeSidEx SECURITY_NT_AUTHORITY [SECURITY_BUILTIN_DOMAIN_RID; DOMAIN_ALIAS_RID_USERS].
Definition EVERYONE : sid := RtlInitializeSidEx SECURITY_WORLD_SID_AUTHORITY [SECURITY_WORLD_RID].

(** [user], [group] and [elevated] are what the token of the process says; the
    descriptors are none yet. *)
Definition initialize_sids (user group : sid) (elevated : bool) : option security :=
  uid ← (if elevated then Some 0 else last_authority user);
  gid ← last_authority group;
  Some (Security NTSYSTEM ADMINISTRATORS USERS EVERYONE user group
          (Sid (Revision user) (IdentifierAuthority user) (removelast (SubAuthority user))) uid gid ∅).

Definition with_descriptors (x : security) (c : gmap Z descriptor) : security :=
  Security (ntsystem_sid x) (adminstrators_sid x) (users_sid x) (everyone_sid x) (user_sid x) (group_sid x) (computer_sid x)
    (current_uid x) (current_gid x) c.

(** ** Descriptors *)

Definition cache_index (mode : Z) (is_directory : bool) : Z := Z.lor (Z.land mode 511) (if is_directory then 512 else 0).

Definition lookup_cache (x : security) (mode : Z) (is_directory : bool) : option descriptor :=
  all_security_descriptors x !! cache_index mode is_directory.

Definition insert_cache (x : security) (d : descriptor) (mode : Z) (is_directory : bool) : security :=
  with_descriptors x (<[cache_index mode is_directory := d]> (all_security_descriptors x)).

Definition size_of_sd_buffer : Z := 256.

(** The entries for a mode. *)
Definition acl_of_mode (x : security) (mode : Z) (is_directory : bool) : list ace :=
  let ace_flags := if is_directory then Z.lor OBJECT_INHERIT_ACE CONTAINER_INHERIT_ACE else 0 in
  let add := RtlAddAccessAllowedAceEx (size_of_sd_buffer - sizeof_SECURITY_DESCRIPTOR_RELATIVE) ace_flags in
  let acl := add WLIBC_ALL_PERMISSIONS (adminstrators_sid x) (add WLIBC_ALL_PERMISSIONS (ntsystem_sid x) []) in
  let acl := if negb (current_uid x =? 0)
    then add (Z.lor (determine_access_mask (Z.shiftr (Z.land mode 448) 6)) (Z.lor WLIBC_EXTRA_PERMISSIONS WLIBC_BASIC_PERMISSIONS)) (user_sid x) acl
    else acl in
  let acl := if negb (Z.land mode 56 =? 0) then add (determine_access_mask (Z.shiftr (Z.land mode 56) 3)) (users_sid x) acl else acl in
  if negb (Z.land mode 7 =? 0) then add (determine_access_mask (Z.land mode 7)) (everyone_sid x) acl else acl.

Section Descriptors.
Context {K : Type} {A : Allocator}.

Abbreviation S := (SM security K).

(** [None] is [NULL]. *)
Definition create_security_descriptor (mode : Z) (is_directory : bool) : S (option descriptor) :=
  if malloc_ok size_of_sd_buffer then
    x ← get_S;
    let d := Descriptor None None (Some (acl_of_mode x mode is_directory)) in
    _ ← put_S (insert_cache x d mode is_directory);
    mret (Some d)
  else _ ← run_M (set_errno ENOMEM); mret None.

Definition get_security_descriptor (mode : Z) (is_directory : bool) : S (option descriptor) :=
  x ← get_S;
  match lookup_cache x mode is_directory with
  | Some d => mret (Some d)
  | None => create_security_descriptor mode is_directory
  end.

(** At the end of the process. *)
Definition cleanup_security_decsriptors : S unit := x ← get_S; put_S (with_descriptors x ∅).

End Descriptors.

(** ** The cache *)

Section Facts.
Lemma low_bits mode m : Z.land m 511 = m -> Z.land (Z.land mode 511) m = Z.land mode m.
Proof. intros H. rewrite <- Z.land_assoc. f_equal. by rewrite Z.land_comm. Qed.

(** Only the nine bits of the permissions matter. *)
Lemma acl_of_mode_low x mode d : acl_of_mode x mode d = acl_of_mode x (Z.land mode 511) d.
Proof. unfold acl_of_mode. by rewrite !low_bits. Qed.

(** The cached descriptors are those of their modes. *)
Definition coherent (x : security) : Prop :=
  forall mode is_directory d, lookup_cache x mode is_directory = Some d -> d = Descriptor None None (Some (acl_of_mode x mode is_directory)).

Lemma acl_of_mode_cache x c mode d : acl_of_mode (with_descriptors x c) mode d = acl_of_mode x mode d.
Proof. done. Qed.

Lemma index_mode mode d : Z.land (cache_index mode d) 511 = Z.land mode 511.
Proof. unfold cache_index. rewrite Z.land_lor_distr_l, <- Z.land_assoc. by destruct d; rewrite Z.lor_0_r. Qed.

Lemma index_directory mode d : Z.land (cache_index mode d) 512 = if d then 512 else 0.
Proof. unfold cache_index. rewrite Z.land_lor_distr_l, <- Z.land_assoc. change (Z.land 511 512) with 0. rewrite Z.land_0_r. by destruct d. Qed.

Lemma index_inj mode d mode' d' : cache_index mode d = cache_index mode' d' -> Z.land mode 511 = Z.land mode' 511 /\ d = d'.
Proof.
  intros H. split; [by rewrite <- (index_mode mode d), <- (index_mode mode' d'), H|].
  pose proof (index_directory mode d) as E. rewrite H, index_directory in E. by destruct d, d'.
Qed.

(** An index of the array of 1024. *)
Lemma index_range mode d : 0 <= cache_index mode d < 1024.
Proof.
  assert (Z.land (cache_index mode d) 1023 = cache_index mode d) as <-.
  { unfold cache_index. rewrite Z.land_lor_distr_l, <- Z.land_assoc. by destruct d. }
  change 1023 with (Z.ones 10). rewrite Z.land_ones by lia. apply (Z.mod_pos_bound _ (2 ^ 10)). lia.
Qed.

Lemma coherent_insert x mode d : coherent x -> coherent (insert_cache x (Descriptor None None (Some (acl_of_mode x mode d))) mode d).
Proof.
  intros H mode' d' r. unfold lookup_cache, insert_cache. cbn [with_descriptors all_security_descriptors].
  destruct (decide (cache_index mode d = cache_index mode' d')) as [E|E].
  - rewrite E, lookup_insert_eq. intros [= <-]. apply index_inj in E as [E ->].
    change (acl_of_mode (with_descriptors x _) mode' d') with (acl_of_mode x mode' d'). by rewrite acl_of_mode_low, E, <- acl_of_mode_low.
  - rewrite lookup_insert_ne by done. apply H.
Qed.

(** What a call gives and leaves. *)
Lemma get_descriptor {K} {A : Allocator} x mode d (s : state K) : coherent x -> malloc_ok size_of_sd_buffer = true ->
  exists x', get_security_descriptor mode d x s = Some ((Some (Descriptor None None (Some (acl_of_mode x mode d))), x'), s) /\
    coherent x' /\ x' = with_descriptors x (all_security_descriptors x').
Proof.
  intros H Hm. unfold get_security_descriptor, mbind, SM_bind, mbind, M_bind, get_S, mret, M_ret. destruct (lookup_cache x mode d) as [r|] eqn:E.
  - exists x. rewrite (H _ _ _ E). split; [done|]. split; [done|]. by destruct x.
  - unfold create_security_descriptor. rewrite Hm. eexists. split; [reflexivity|]. split; [by apply coherent_insert | done].
Qed.

(** ** The process *)

(** The state after the start: the token is that of an account of at most fifteen
    sub-authorities, none of those every machine has. *)
Definition known_sids (x : security) : Prop :=
  ntsystem_sid x = NTSYSTEM /\ adminstrators_sid x = ADMINISTRATORS /\ users_sid x = USERS /\ everyone_sid x = EVERYONE /\
  zlen (SubAuthority (user_sid x)) <= SID_MAX_SUB_AUTHORITIES /\ user_sid x ∉ [NTSYSTEM; ADMINISTRATORS; USERS; EVERYONE].

Lemma initialize_known user group elevated x : initialize_sids user group elevated = Some x ->
  zlen (SubAuthority user) <= SID_MAX_SUB_AUTHORITIES -> user ∉ [NTSYSTEM; ADMINISTRATORS; USERS; EVERYONE] -> known_sids x /\ coherent x.
Proof.
  unfold initialize_sids. destruct (if elevated then _ else _); [|done]. destruct (last_authority group); [|done]. intros [= <-] Hl Hn.
  split; [done|]. intros mode d r. unfold lookup_cache. cbn. by rewrite lookup_empty.
Qed.

(** The entries always fit. *)
Definition entries_of_mode (x : security) (mode : Z) (is_directory : bool) : list ace :=
  let f := if is_directory then 3 else 0 in
  [Ace 0 f WLIBC_ALL_PERMISSIONS (ntsystem_sid x); Ace 0 f WLIBC_ALL_PERMISSIONS (adminstrators_sid x)] ++
  (if current_uid x =? 0 then []
   else [Ace 0 f (Z.lor (determine_access_mask (Z.shiftr (Z.land mode 448) 6)) (Z.lor WLIBC_EXTRA_PERMISSIONS WLIBC_BASIC_PERMISSIONS)) (user_sid x)]) ++
  (if Z.land mode 56 =? 0 then [] else [Ace 0 f (determine_access_mask (Z.shiftr (Z.land mode 56) 3)) (users_sid x)]) ++
  (if Z.land mode 7 =? 0 then [] else [Ace 0 f (determine_access_mask (Z.land mode 7)) (everyone_sid x)]).

Lemma acl_bytes_app l a : acl_bytes (l ++ [a]) = acl_bytes l + AceSize a.
Proof. induction l as [|b l IH]; cbn [app acl_bytes fold_right] in *; [lia|]. unfold acl_bytes in IH. rewrite IH. lia. Qed.

Lemma add_fits size f mask s l : acl_bytes l + AceSize (Ace 0 f mask s) <= size -> RtlAddAccessAllowedAceEx size f mask s l = l ++ [Ace 0 f mask s].
Proof. intros H. unfold RtlAddAccessAllowedAceEx. change ACCESS_ALLOWED_ACE_TYPE with 0. by rewrite (proj2 (Z.leb_le _ _) H). Qed.

Ltac count_bytes :=
  unfold acl_bytes, sizeof_ACL; cbn [fold_right];
  repeat match goal with
  | |- context [AceSize (Ace 0 ?f ?m NTSYSTEM)] => change (AceSize (Ace 0 f m NTSYSTEM)) with 20
  | |- context [AceSize (Ace 0 ?f ?m EVERYONE)] => change (AceSize (Ace 0 f m EVERYONE)) with 20
  | |- context [AceSize (Ace 0 ?f ?m ADMINISTRATORS)] => change (AceSize (Ace 0 f m ADMINISTRATORS)) with 24
  | |- context [AceSize (Ace 0 ?f ?m USERS)] => change (AceSize (Ace 0 f m USERS)) with 24
  | |- context [AceSize (Ace 0 ?f ?m (user_sid ?x))] => progress change (AceSize (Ace 0 f m (user_sid x))) with (AceSize (Ace 0 0 0 (user_sid x)))
  end; lia.

Ltac add_entries size :=
  repeat match goal with
  | |- context [RtlAddAccessAllowedAceEx size ?f ?m ?s ?l] =>
      lazymatch l with context [RtlAddAccessAllowedAceEx] => fail | _ => idtac end;
      rewrite (add_fits size f m s l) by count_bytes; cbn [app]
  end.

Lemma acl_of_mode_entries x mode d : known_sids x -> acl_of_mode x mode d = entries_of_mode x mode d /\ acl_bytes (entries_of_mode x mode d) <= 172.
Proof.
  intros (H1 & H2 & H3 & H4 & Hl & _). unfold acl_of_mode, entries_of_mode. rewrite H1, H2, H3, H4. unfold SID_MAX_SUB_AUTHORITIES in Hl.
  set (size := size_of_sd_buffer - _). assert (size = 236) as Hs by done. clearbody size.
  assert (AceSize (Ace 0 0 0 (user_sid x)) <= 76) as Hu by (unfold AceSize, SECURITY_SID_SIZE; cbn -[Z.mul Z.add]; lia).
  assert (0 <= AceSize (Ace 0 0 0 (user_sid x))) as Hu' by (unfold AceSize, SECURITY_SID_SIZE; cbn -[Z.mul Z.add]; lia).
  destruct d, (current_uid x =? 0), (Z.land mode 56 =? 0), (Z.land mode 7 =? 0); cbn [negb app]; add_entries size;
    (split; [reflexivity|]); count_bytes.
Qed.
End Facts.
