(* ===== verification/Stat.v ===== *)
(** * Metadata of files

    stat and statx, chmod, chflags, mkdir, utimens and utimes (src/sys/stat,
    src/sys/time/utimes.c), access and chown (src/unistd): what the kernel knows of a
    file, in the terms of POSIX. *)

From stdpp Require Import gmap.
From S2P Require Import Prelude Errno Buffer FdTable FileIo Path PathFacts Open Dirent Security Time.

Definition S_IFMT : Z := 0xF000.
Definition S_IFIFO : Z := 0x1000.
Definition S_IFCHR : Z := 0x2000.
Definition S_IFDIR : Z := 0x4000.
Definition S_IFREG : Z := 0x8000.
Definition S_IFLNK : Z := 0xA000.
Definition S_IFSOCK : Z := 0xC000.
Definition S_IA_MASK : Z := 0x5e27.
Definition S_IA_SETTABLE : Z := 0x0027.
Definition S_IREAD : Z := 256.
Definition S_IWRITE : Z := 128.
Definition S_IEXEC : Z := 64.
Definition UTIME_NOW : Z := -1.
Definition UTIME_OMIT : Z := -2.
Definition STATX_ALL : Z := 0x0fff.
Definition AT_STATX_SYNC_AS_STAT : Z := 0x20.
Definition AT_SYMLINK_NOFOLLOW : Z := 0x02.
Definition AT_EMPTY_PATH : Z := 0x10.

Definition R_OK : Z := 4.
Definition W_OK : Z := 2.
Definition X_OK : Z := 1.

Definition IO_REPARSE_TAG_SYMLINK : Z := 0xA000000C.
Definition IO_REPARSE_TAG_MOUNT_POINT : Z := 0xA0000003.
Definition IO_REPARSE_TAG_AF_UNIX : Z := 0x80000023.
Definition MAXIMUM_REPARSE_DATA_BUFFER_SIZE : Z := 16384.

Definition OWNER_SECURITY_INFORMATION : Z := 1.
Definition GROUP_SECURITY_INFORMATION : Z := 2.
Definition DACL_SECURITY_INFORMATION : Z := 4.

(** ** What the kernel knows *)

(** [FILE_STAT_INFORMATION]. *)
Record stat_information := StatInformation {
  si_id : Z;
  CreationTime : Z; LastAccessTime : Z; LastWriteTime : Z; ChangeTime : Z;
  EndOfFile : Z;
  si_attributes : Z;
  ReparseTag : Z;
  NumberOfLinks : Z;
  EffectiveAccess : Z
}.

(** [FILE_BASIC_INFORMATION]. *)
Record basic_information := BasicInformation { bi_creation : Z; bi_access : Z; bi_write : Z; bi_change : Z; bi_attributes : Z }.

(** A reparse point: the tag and the names of a link, in UTF-16. *)
Record reparse_point := ReparsePoint { rp_tag : Z; PrintName : list Z; SubstituteName : list Z }.

(** The device behind a handle; the information about a file; its security
    descriptor, which must fit in a block, and its length; its reparse point; the
    bytes of a sector and the sectors of a unit; the serial number of the volume;
    accounts and privileges. *)
Class StatKernel (K : Type) := {
  NtQueryFsDevice : Z -> K -> NTSTATUS * device_type;
  NtQueryStatInformation : Z -> K -> NTSTATUS * stat_information;
  NtQuerySecurityObject : Z -> Z -> Z -> K -> NTSTATUS * descriptor * Z;
  NtSetSecurityObject : Z -> Z -> descriptor -> K -> NTSTATUS * K;
  NtGetReparsePoint : Z -> K -> NTSTATUS * reparse_point;
  NtQueryFsSize : Z -> K -> NTSTATUS * (Z * Z);
  NtQueryFsVolume : Z -> K -> NTSTATUS * Z;
  NtQueryBasic : Z -> K -> NTSTATUS * basic_information;
  NtSetBasic : Z -> basic_information -> K -> NTSTATUS * K;
  GetSystemTimeAsFileTime : K -> Z;
  LookupAccountSidW : sid -> K -> bool;
  RtlAcquirePrivilege : K -> NTSTATUS * K;
  RtlReleasePrivilege : K -> K
}.

Record stat := Stat {
  st_dev : Z; st_ino : Z; st_mode : Z; st_attributes : Z; st_nlink : Z; st_uid : Z; st_gid : Z; st_rdev : Z; st_size : Z;
  st_atim : timespec; st_mtim : timespec; st_ctim : timespec; st_birthtim : timespec; st_blksize : Z; st_blocks : Z
}.

Definition no_time : timespec := Timespec 0 0.
Definition zero_stat : stat := Stat 0 0 0 0 0 0 0 0 0 no_time no_time no_time no_time 0 0.

(** ** Permissions *)

Definition permits (access mask : Z) : bool := Z.land access mask =? mask.

Definition get_permissions (access : Z) : Z :=
  let perms := 0 in
  let perms := if permits access WLIBC_ACCEPTABLE_READ_PERMISSIONS then Z.lor perms S_IREAD else perms in
  let perms := if permits access WLIBC_ACCEPTABLE_WRITE_PERMISSIONS then Z.lor perms S_IWRITE else perms in
  if permits access WLIBC_ACCEPTABLE_EXECUTE_PERMISSIONS then Z.lor perms S_IEXEC else perms.

(** How far the bits of an identifier are from those of the user. *)
Definition class_of (x : security) (s : sid) : option Z :=
  if decide (s = user_sid x) then Some 0
  else if decide (s = users_sid x) then Some 3
  else if decide (s = everyone_sid x) then Some 6
  else None.

(** What the entries allow and deny, and whether there is one for the user. *)
Fixpoint scan_acl (x : security) (l : list ace) (allowed denied : Z) (user_ace_present : bool) : Z * Z * bool :=
  match l with
  | [] => (allowed, denied, user_ace_present)
  | a :: l =>
      match class_of x (AceSid a) with
      | None => scan_acl x l allowed denied user_ace_present
      | Some n =>
          let bits := Z.shiftr (get_permissions (Mask a)) n in
          if AceType a =? ACCESS_ALLOWED_ACE_TYPE then scan_acl x l (Z.lor allowed bits) denied (user_ace_present || (n =? 0))
          else if AceType a =? ACCESS_DENIED_ACE_TYPE then scan_acl x l allowed (Z.lor denied bits) (user_ace_present || (n =? 0))
          else scan_acl x l allowed denied user_ace_present
      end
  end.

Definition access_bits (x : security) (l : list ace) (effective : Z) : Z :=
  let '(allowed, denied, present) := scan_acl x l 0 0 false in
  let allowed := if present then allowed else Z.lor allowed (get_permissions effective) in
  Z.ldiff allowed denied.

Definition type_bits (attributes tag : Z) : Z :=
  if has attributes FILE_ATTRIBUTE_REPARSE_POINT then
    if (tag =? IO_REPARSE_TAG_SYMLINK) || (tag =? IO_REPARSE_TAG_MOUNT_POINT) then S_IFLNK
    else if tag =? IO_REPARSE_TAG_AF_UNIX then S_IFSOCK else 0
  else if has attributes FILE_ATTRIBUTE_DIRECTORY then S_IFDIR
  else if Z.land attributes (u32 (Z.lnot regular_attributes)) =? 0 then S_IFREG
  else 0.

(** An identifier as a number: that of root for the system and its administrators. *)
Definition id_of (x : security) (s : sid) : option Z :=
  n ← last_authority s;
  Some (if bool_decide (s = adminstrators_sid x) || bool_decide (s = ntsystem_sid x) then 0 else n).

(** The length of what a link says, -1 when it says nothing. *)
Definition link_size (r : reparse_point) : Z :=
  if (rp_tag r =? IO_REPARSE_TAG_SYMLINK) || (rp_tag r =? IO_REPARSE_TAG_MOUNT_POINT) then
    match PrintName r, SubstituteName r with [], [] => -1 | [], n => zlen n | n, _ => zlen n end
  else -1.

Section Stat.
Context {K : Type} {KN : Kernel K} {A : Allocator} {PK : PathKernel K} {OK : OpenKernel K} {SK : StatKernel K}.

Abbreviation S := (SM security K).

Definition kernel_S {T} : SM T K K := s ← run_M get; mret (kernel s).
Definition fail_with {T} (status : NTSTATUS) : SM T K unit := s ← run_M get; run_M (set_errno (map_ntstatus_to_errno status (errno s))).
Definition defined {T X} (o : option X) : SM T K X := match o with Some x => mret x | None => run_M UB end.
Definition ok (status : NTSTATUS) : bool := bool_decide (status = STATUS_SUCCESS).

(** The size of a link; errors only set [errno]. *)
Definition read_link_size (h : Z) : S Z :=
  if malloc_ok MAXIMUM_REPARSE_DATA_BUFFER_SIZE then
    k ← kernel_S;
    let '(status, r) := NtGetReparsePoint h k in
    if ok status then mret (link_size r) else _ ← fail_with status; mret (-1)
  else _ ← run_M (set_errno ENOMEM); mret (-1).

(** The sizes of a block, of the file and of the blocks of it. [blksize_t] has 16
    bits; a division by 0 is undefined. *)
Definition sizes (bytes_per_sector sectors mode size : Z) : option (Z * Z * Z) :=
  let blksize := u16 (u32 (bytes_per_sector * sectors)) in
  let size := if has mode S_IFDIR then blksize else size in
  if blksize =? 0 then None
  else Some (blksize, size, u32 (size ÷ blksize + (if Z.rem size blksize =? 0 then 0 else 1))).

(** A file on a disk: the result, and what is stored. *)
Definition stat_disk (h : Z) : S (Z * stat) :=
  x ← get_S;
  k ← kernel_S;
  let '(status, i) := NtQueryStatInformation h k in
  if negb (ok status) then _ ← fail_with status; mret (-1, zero_stat)
  else
    let '(status, sd, _) := NtQuerySecurityObject h (Z.lor OWNER_SECURITY_INFORMATION (Z.lor GROUP_SECURITY_INFORMATION DACL_SECURITY_INFORMATION)) 512 k in
    if negb (ok status) then _ ← fail_with status; mret (-1, zero_stat)
    else
      uid ← defined (sd_owner sd ≫= id_of x);
      gid ← defined (sd_group sd ≫= id_of x);
      acl ← defined (sd_dacl sd);
      let mode := Z.lor (access_bits x acl (EffectiveAccess i)) (type_bits (si_attributes i) (ReparseTag i)) in
      atim ← defined (LARGE_INTEGER_to_timespec (LastAccessTime i));
      mtim ← defined (LARGE_INTEGER_to_timespec (LastWriteTime i));
      ctim ← defined (LARGE_INTEGER_to_timespec (ChangeTime i));
      birthtim ← defined (LARGE_INTEGER_to_timespec (CreationTime i));
      size ← (if Z.land mode S_IFMT =? S_IFLNK then read_link_size h else mret (EndOfFile i));
      '(blksize, size, blocks) ←
        (let '(status, (bytes_per_sector, sectors)) := NtQueryFsSize h k in
         if ok status then defined (sizes bytes_per_sector sectors mode size)
         else _ ← fail_with status; mret (0, size, 0));
      dev ← (let '(status, serial) := NtQueryFsVolume h k in
             if ok status then mret serial else _ ← fail_with status; mret 0);
      mret (0, Stat dev (u64 (si_id i)) mode (Z.land (si_attributes i) S_IA_MASK) (NumberOfLinks i) uid gid 0 size atim mtim ctim birthtim blksize blocks).

(** What is stored is nothing when the device is not known. *)
Definition do_stat (h : Z) : S (Z * option stat) :=
  k ← kernel_S;
  let '(status, type) := NtQueryFsDevice h k in
  if negb (ok status) then _ ← fail_with status; mret (-1, None)
  else
    match type with
    | FILE_DEVICE_DISK => '(r, st) ← stat_disk h; mret (r, Some st)
    | FILE_DEVICE_NULL => mret (0, Some (Stat 1 0 (Z.lor S_IFCHR 438) 0 1 0 0 1 0 no_time no_time no_time no_time 0 0))
    | FILE_DEVICE_CONSOLE => mret (0, Some (Stat 2 0 (Z.lor S_IFCHR 438) 0 1 0 0 2 0 no_time no_time no_time no_time 0 0))
    | FILE_DEVICE_NAMED_PIPE => mret (0, Some (Stat 3 0 S_IFIFO 0 1 0 0 0 0 no_time no_time no_time no_time 0 0))
    | FILE_DEVICE_other _ => mret (0, Some zero_stat)
    end.

(** ** Changes *)

Definition do_chmod (h mode : Z) : S Z :=
  k ← kernel_S;
  let '(status, attributes) := NtQueryTagInformation h k in
  _ ← (if ok status then mret () else fail_with status);
  d ← get_security_descriptor mode (ok status && has attributes FILE_ATTRIBUTE_DIRECTORY);
  match d with
  | None => mret (-1)
  | Some d =>
      k ← kernel_S;
      let '(status, k) := NtSetSecurityObject h DACL_SECURITY_INFORMATION d k in
      _ ← run_M (set_kernel k);
      if negb (ok status) then _ ← fail_with status; mret (-1) else mret 0
  end.

Definition set_basic (h : Z) (f : basic_information -> S basic_information) : S Z :=
  k ← kernel_S;
  let '(status, i) := NtQueryBasic h k in
  if negb (ok status) then _ ← fail_with status; mret (-1)
  else
    i ← f i;
    k ← kernel_S;
    let '(status, k) := NtSetBasic h i k in
    _ ← run_M (set_kernel k);
    if negb (ok status) then _ ← fail_with status; mret (-1) else mret 0.

Definition do_chflags (h attributes : Z) : S Z :=
  set_basic h (fun i => mret (BasicInformation (bi_creation i) (bi_access i) (bi_write i) (bi_change i) attributes)).

(** The time that is set for an argument, and the one there was. *)
Definition new_time (now : Z) (t : timespec) (old : Z) : option Z :=
  if tv_nsec t =? UTIME_NOW then Some now
  else if negb (tv_nsec t =? UTIME_OMIT) then timespec_to_LARGE_INTEGER t
  else Some old.

Definition do_utimens (h : Z) (times : option (timespec * timespec)) : S Z :=
  set_basic h (fun i =>
    k ← kernel_S;
    let now := GetSystemTimeAsFileTime k in
    match times with
    | None => mret (BasicInformation (bi_creation i) now now (bi_change i) (bi_attributes i))
    | Some (t0, t1) =>
        a ← defined (new_time now t0 (bi_access i));
        w ← defined (new_time now t1 (bi_write i));
        mret (BasicInformation (bi_creation i) a w (bi_change i) (bi_attributes i))
    end).

(** ** Access *)

Definition required_access (mode : Z) : Z :=
  add_if mode R_OK S_IREAD (add_if mode W_OK S_IWRITE (add_if mode X_OK S_IEXEC 0)).

Definition have_required_access (given_access mode : Z) : Z :=
  if negb (Z.ldiff (required_access mode) given_access =? 0) then -1 else 0.

Definition do_access (h mode : Z) : S Z :=
  k ← kernel_S;
  let '(status, i) := NtQueryStatInformation h k in
  if negb (ok status) then _ ← fail_with status; mret (-1)
  else mret (have_required_access (get_permissions (EffectiveAccess i)) mode).

(** ** Owners *)

(** The identifier of a number: of the computer, of its groups, of the system. One
    authority is stored behind those of the computer, which must have room. *)
Definition lookup_id (id : Z) : S (option sid) :=
  x ← get_S;
  if id =? 0 then mret (Some (adminstrators_sid x))
  else
    let c := computer_sid x in
    if SID_MAX_SUB_AUTHORITIES <=? zlen (SubAuthority c) then run_M UB
    else
      k ← kernel_S;
      let local := Sid (Revision c) (IdentifierAuthority c) (SubAuthority c ++ [u32 id]) in
      let builtin := RtlInitializeSidEx SECURITY_NT_AUTHORITY [SECURITY_BUILTIN_DOMAIN_RID; u32 id] in
      let system := RtlInitializeSidEx SECURITY_NT_AUTHORITY [u32 id] in
      mret (if LookupAccountSidW local k then Some local
            else if LookupAccountSidW builtin k then Some builtin
            else if LookupAccountSidW system k then Some system
            else None).

Definition do_chown (h owner group : Z) : S Z :=
  o ← (if owner =? -1 then mret (Some None) else s ← lookup_id owner; mret (Some <$> s));
  match o with
  | None => _ ← run_M (set_errno ESRCH); mret (-1)
  | Some o =>
      g ← (if group =? -1 then mret (Some None) else s ← lookup_id group; mret (Some <$> s));
      match g with
      | None => _ ← run_M (set_errno ESRCH); mret (-1)
      | Some g =>
          k ← kernel_S;
          let information := Z.lor (if owner =? -1 then 0 else OWNER_SECURITY_INFORMATION) (if group =? -1 then 0 else GROUP_SECURITY_INFORMATION) in
          let '(status, k) := NtSetSecurityObject h information (Descriptor o g None) k in
          _ ← run_M (set_kernel k);
          if negb (ok status) then _ ← fail_with status; mret (-1) else mret 0
      end
  end.

(** ** By path or by descriptor *)

Abbreviation F := (SM (security * path_state) K).

Definition with_security {X} (m : S X) : F X := fun '(x, p) => '(r, x) ← m x; mret (r, (x, p)).
Definition with_paths {X} (m : SM path_state K X) : F X := fun '(x, p) => '(r, p) ← m p; mret (r, (x, p)).

Definition close_handle (h : Z) : F unit := k ← kernel_S; run_M (set_kernel (NtClose h k).2).

(** [t0] is what the type holds that [just_open] does not initialise; [e] is the
    result when the file cannot be opened. *)
Definition at_path {X} (t0 : handle_t) (dirfd : Z) (path : list Z) (access flags : Z) (e : X) (f : Z -> S X) : F X :=
  h ← with_paths (just_open t0 dirfd path access (if flags =? AT_SYMLINK_NOFOLLOW then FILE_OPEN_REPARSE_POINT else 0));
  if h =? 0 then mret e
  else r ← with_security (f h); _ ← close_handle h; mret r.

(** [VALIDATE_PATH_AND_DIRFD], and then [f]. *)
Definition validated {X} (path : option (list Z)) (dirfd : Z) (e : X) (f : list Z -> F X) : F X :=
  r ← with_paths (validate_path_and_dirfd path dirfd);
  match r with
  | Some n => _ ← run_M (set_errno n); mret e
  | None => f (default [] path)
  end.

Definition error {X} (n : Z) (e : X) : F X := _ ← run_M (set_errno n); mret e.

(** The flags that most calls know. *)
Definition known_flags (flags : Z) : bool := (flags =? 0) || (flags =? AT_EMPTY_PATH) || (flags =? AT_SYMLINK_NOFOLLOW).

(** A call on any open descriptor. *)
Definition at_fd {X} (fd : Z) (e : X) (f : Z -> S X) : F X :=
  valid ← run_M (validate_fd fd);
  if negb valid then error EBADF e else h ← run_M (get_fd_handle fd); with_security (f h).

(** The handle of a descriptor on a file or a directory; [info] is not initialised. *)
Definition file_or_directory (fd : Z) (info : fdinfo) : F (option Z) :=
  i ← run_M (get_fdinfo fd info);
  if negb (bool_decide (type i = FILE_HANDLE)) && negb (bool_decide (type i = DIRECTORY_HANDLE)) then error EBADF None else mret (Some (handle i)).

(** A call on a file that is opened again with more rights. *)
Definition reopened {X} (fd : Z) (info : fdinfo) (access : Z) (e : X) (f : Z -> S X) : F X :=
  i ← file_or_directory fd info;
  match i with
  | None => mret e
  | Some h =>
      h ← with_paths (just_reopen h access 0);
      if h =? 0 then mret e else r ← with_security (f h); _ ← close_handle h; mret r
  end.

Definition common_stat (t0 : handle_t) (dirfd : Z) (path : list Z) (flags : Z) : F (Z * option stat) :=
  at_path t0 dirfd path (Z.lor FILE_READ_ATTRIBUTES READ_CONTROL) flags (-1, None) do_stat.

(** [statbuf] says whether there is a buffer. *)
Definition wlibc_common_stat (t0 : handle_t) (dirfd : Z) (path : option (list Z)) (statbuf : bool) (flags : Z) : F (Z * option stat) :=
  if negb statbuf then error EINVAL (-1, None)
  else if negb (known_flags flags) then error EINVAL (-1, None)
  else if negb (flags =? AT_EMPTY_PATH) then validated path dirfd (-1, None) (fun path => common_stat t0 dirfd path flags)
  else at_fd dirfd (-1, None) do_stat.

Definition common_chmod (t0 : handle_t) (dirfd : Z) (path : list Z) (mode flags : Z) : F Z :=
  at_path t0 dirfd path (Z.lor FILE_READ_ATTRIBUTES (Z.lor READ_CONTROL WRITE_DAC)) flags (-1) (fun h => do_chmod h mode).

Definition wlibc_common_chmod (t0 : handle_t) (info : fdinfo) (dirfd : Z) (path : option (list Z)) (mode flags : Z) : F Z :=
  if negb (known_flags flags) then error EINVAL (-1)
  else if negb (flags =? AT_EMPTY_PATH) then validated path dirfd (-1) (fun path => common_chmod t0 dirfd path mode flags)
  else reopened dirfd info (Z.lor FILE_READ_ATTRIBUTES (Z.lor READ_CONTROL WRITE_DAC)) (-1) (fun h => do_chmod h mode).

Definition common_chflags (t0 : handle_t) (dirfd : Z) (path : list Z) (attributes flags : Z) : F Z :=
  at_path t0 dirfd path (Z.lor FILE_READ_ATTRIBUTES FILE_WRITE_ATTRIBUTES) flags (-1) (fun h => do_chflags h attributes).

Definition wlibc_common_chflags (t0 : handle_t) (dirfd : Z) (path : option (list Z)) (attributes flags : Z) : F Z :=
  if negb (known_flags flags) then error EINVAL (-1)
  else if S_IA_SETTABLE <? attributes then error EINVAL (-1)
  else if negb (flags =? AT_EMPTY_PATH) then validated path dirfd (-1) (fun path => common_chflags t0 dirfd path attributes flags)
  else
    t ← run_M (get_fd_type dirfd);
    if negb (bool_decide (t = FILE_HANDLE)) && negb (bool_decide (t = DIRECTORY_HANDLE)) then error EBADF (-1)
    else h ← run_M (get_fd_handle dirfd); with_security (do_chflags h attributes).

Definition common_utimens (t0 : handle_t) (dirfd : Z) (path : list Z) (times : option (timespec * timespec)) (flags : Z) : F Z :=
  at_path t0 dirfd path (Z.lor FILE_READ_ATTRIBUTES FILE_WRITE_ATTRIBUTES) flags (-1) (fun h => do_utimens h times).

Definition wlibc_common_utimens (t0 : handle_t) (dirfd : Z) (path : option (list Z)) (times : option (timespec * timespec)) (flags : Z) : F Z :=
  if negb (known_flags flags) then error EINVAL (-1)
  else if negb (flags =? AT_EMPTY_PATH) then validated path dirfd (-1) (fun path => common_utimens t0 dirfd path times flags)
  else at_fd dirfd (-1) (fun h => do_utimens h times).

(** The times that are handed on: [nsec] is what the second one holds, which is not
    initialised. [tv_usec] is a [long] of 32 bits. *)
Definition utimes_times (nsec : Z) (t0 t1 : timeval) : option (timespec * timespec) :=
  n0 ← i32 (tval_usec t0 * 1000);
  n1 ← i32 (tval_usec t1 * 1000);
  Some (Timespec (tval_sec t0) n0, Timespec n1 nsec).

Definition wlibc_common_utimes (t0 : handle_t) (nsec dirfd : Z) (path : option (list Z)) (times : option (timeval * timeval)) (flags : Z) : F Z :=
  match times with
  | None => wlibc_common_utimens t0 dirfd path None flags
  | Some (a, w) => t ← defined (utimes_times nsec a w); wlibc_common_utimens t0 dirfd path (Some t) flags
  end.

Definition common_access (t0 : handle_t) (dirfd : Z) (path : list Z) (mode flags : Z) : F Z :=
  at_path t0 dirfd path (Z.lor FILE_READ_ATTRIBUTES READ_CONTROL) flags (-1) (fun h => if mode =? 0 then mret 0 else do_access h mode).

Definition wlibc_common_access (t0 : handle_t) (dirfd : Z) (path : option (list Z)) (mode flags : Z) : F Z :=
  if negb (flags =? 0) && negb (flags =? AT_SYMLINK_NOFOLLOW) then error EINVAL (-1)
  else if (mode <? 0) || (7 <? mode) then error EINVAL (-1)
  else validated path dirfd (-1) (fun path => common_access t0 dirfd path mode flags).

(** A file that may only be opened with the privilege to take it; [open] opens it. *)
Definition with_ownership (open : SM path_state K Z) (owner group : Z) : F Z :=
  let change h := r ← with_security (do_chown h owner group); _ ← close_handle h; mret r in
  h ← with_paths open;
  if negb (h =? 0) then change h
  else
    s ← run_M get;
    if negb (errno s =? EACCES) then mret (-1)
    else
      let '(status, k) := RtlAcquirePrivilege (kernel s) in
      _ ← run_M (set_kernel k);
      if negb (ok status) then _ ← fail_with status; mret (-1)
      else
        _ ← run_M (set_errno 0);
        h ← with_paths open;
        r ← (if h =? 0 then mret (-1) else change h);
        k ← kernel_S;
        _ ← run_M (set_kernel (RtlReleasePrivilege k));
        mret r.

Definition common_chown (t0 : handle_t) (dirfd : Z) (path : list Z) (owner group flags : Z) : F Z :=
  with_ownership (just_open t0 dirfd path WRITE_OWNER (if flags =? AT_SYMLINK_NOFOLLOW then FILE_OPEN_REPARSE_POINT else 0)) owner group.

Definition wlibc_common_chown (t0 : handle_t) (info : fdinfo) (dirfd : Z) (path : option (list Z)) (owner group flags : Z) : F Z :=
  if (owner <? -1) || (group <? -1) then error EINVAL (-1)
  else if negb (known_flags flags) then error EINVAL (-1)
  else if negb (flags =? AT_EMPTY_PATH) then validated path dirfd (-1) (fun path => common_chown t0 dirfd path owner group flags)
  else
    i ← file_or_directory dirfd info;
    match i with
    | None => mret (-1)
    | Some h => with_ownership (just_reopen h WRITE_OWNER 0) owner group
    end.

(** The new directory; without memory for a descriptor it gets the default one. *)
Definition wlibc_common_mkdir (dirfd : Z) (path : option (list Z)) (mode : Z) : F Z :=
  if 511 <? mode then error EINVAL (-1)
  else
    validated path dirfd (-1) (fun path =>
      d ← with_security (get_security_descriptor (Z.land mode 511) true);
      ntpath ← with_paths (get_absolute_ntpath dirfd path);
      match ntpath with
      | None => mret (-1)
      | Some ntpath =>
          '(status, h) ← with_paths (create_file (CreateArgs None ntpath false (match d with Some _ => Some (cache_index mode true) | None => None end)
            FILE_READ_ATTRIBUTES 0 FILE_CREATE FILE_DIRECTORY_FILE));
          if negb (ok status) then _ ← fail_with status; mret (-1)
          else _ ← close_handle h; mret 0
      end).

(** ** statx *)

Record statx := Statx {
  stx_mask : Z; stx_blksize : Z; stx_attributes : Z; stx_nlink : Z; stx_uid : Z; stx_gid : Z; stx_mode : Z; stx_ino : Z; stx_size : Z;
  stx_blocks : Z; stx_atime : timespec; stx_btime : timespec; stx_ctime : timespec; stx_mtime : timespec; stx_rdev_minor : Z; stx_dev_minor : Z
}.

Definition timespec_to_timestamp (t : timespec) : timespec := Timespec (tv_sec t) (u32 (tv_nsec t)).

Definition statx_of (st : stat) : statx :=
  Statx STATX_ALL (st_blksize st) (st_attributes st) (st_nlink st) (u32 (st_uid st)) (u32 (st_gid st)) (u16 (st_mode st)) (st_ino st)
    (u64 (st_size st)) (st_blocks st) (timespec_to_timestamp (st_atim st)) (timespec_to_timestamp (st_birthtim st))
    (timespec_to_timestamp (st_ctim st)) (timespec_to_timestamp (st_mtim st)) (st_rdev st) (st_dev st).

(** On failure the buffer is all zeros: [None]. *)
Definition do_statx (h : Z) : S (Z * option statx) :=
  '(r, st) ← do_stat h;
  mret (r, if r =? 0 then statx_of <$> st else None).

Definition common_statx (t0 : handle_t) (dirfd : Z) (path : list Z) (flags : Z) : F (Z * option statx) :=
  at_path t0 dirfd path (Z.lor FILE_READ_ATTRIBUTES READ_CONTROL) flags (-1, None) do_statx.

Definition wlibc_statx (t0 : handle_t) (dirfd : Z) (path : option (list Z)) (flags mask : Z) (statxbuf : bool) : F (Z * option statx) :=
  if negb statxbuf then error EINVAL (-1, None)
  else if negb (known_flags flags || (flags =? AT_STATX_SYNC_AS_STAT)) then error EINVAL (-1, None)
  else if STATX_ALL <? mask then error EINVAL (-1, None)
  else if negb (flags =? AT_EMPTY_PATH) then validated path dirfd (-1, None) (fun path => common_statx t0 dirfd path flags)
  else at_fd dirfd (-1, None) do_statx.

End Stat.
