(* ===== verification/StatSpec.v ===== *)
(** * What the metadata calls promise

    The permissions chmod sets and the owners chown sets are those stat reports;
    access tells what the kernel allows; the times utimens sets are read back. *)

From stdpp Require Import gmap.
From S2P Require Import Prelude Errno Buffer FdTable FileIo Path PathFacts Open Dirent Security Time Stat.

(** ** The laws of a file *)

(** The bytes of a descriptor in one block. *)
Definition sid_bytes (s : option sid) : Z := match s with Some s => SECURITY_SID_SIZE (zlen (SubAuthority s)) | None => 0 end.
Definition sd_bytes (d : descriptor) : Z :=
  sizeof_SECURITY_DESCRIPTOR_RELATIVE + sid_bytes (sd_owner d) + sid_bytes (sd_group d) + match sd_dacl d with Some l => acl_bytes l | None => 0 end.

Definition updated (information : Z) (d old : descriptor) : descriptor :=
  Descriptor (if has information OWNER_SECURITY_INFORMATION then sd_owner d else sd_owner old)
    (if has information GROUP_SECURITY_INFORMATION then sd_group d else sd_group old)
    (if has information DACL_SECURITY_INFORMATION then sd_dacl d else sd_dacl old).

Definition all_information : Z := Z.lor OWNER_SECURITY_INFORMATION (Z.lor GROUP_SECURITY_INFORMATION DACL_SECURITY_INFORMATION).

(** The kernel can tell this time as a timespec. *)
Definition time_ok (t : Z) : Prop := 0 <= t < 2 ^ 63.

(** A file or a directory on a disk: what is set is read back, as long as it fits in
    the block, and the rest of what is known of it can be read. A time of 0 leaves the
    one there is. *)
Class PlainFile {K : Type} `{OpenKernel K} `{StatKernel K} (h : Z) (sd : K -> descriptor) (info : K -> stat_information) : Prop := {
  plain_query n k : sd_bytes (sd k) <= n -> NtQuerySecurityObject h all_information n k = (STATUS_SUCCESS, sd k, sd_bytes (sd k));
  plain_set i d k : exists k', NtSetSecurityObject h i d k = (STATUS_SUCCESS, k') /\ sd k' = updated i d (sd k) /\ si_attributes (info k') = si_attributes (info k);
  plain_basic k : exists c, NtQueryBasic h k = (STATUS_SUCCESS, BasicInformation (CreationTime (info k)) (LastAccessTime (info k)) (LastWriteTime (info k)) c (si_attributes (info k)));
  plain_touch k a w c : time_ok a -> time_ok w -> exists k', NtSetBasic h (BasicInformation (CreationTime (info k)) a w c (si_attributes (info k))) k = (STATUS_SUCCESS, k') /\
    sd k' = sd k /\ LastAccessTime (info k') = (if a =? 0 then LastAccessTime (info k) else a) /\
    LastWriteTime (info k') = (if w =? 0 then LastWriteTime (info k) else w);
  plain_info k : NtQueryStatInformation h k = (STATUS_SUCCESS, info k);
  plain_tag k : NtQueryTagInformation h k = (STATUS_SUCCESS, si_attributes (info k));
  plain_device k : NtQueryFsDevice h k = (STATUS_SUCCESS, FILE_DEVICE_DISK);
  plain_volume k : exists v, NtQueryFsVolume h k = (STATUS_SUCCESS, v);
  plain_times k : time_ok (CreationTime (info k)) /\ time_ok (LastAccessTime (info k)) /\ time_ok (LastWriteTime (info k)) /\ time_ok (ChangeTime (info k));
  plain_type k : has (si_attributes (info k)) FILE_ATTRIBUTE_REPARSE_POINT = false
}.

(** The volume of the file has units of less than 64 kilobytes. *)
Class SmallUnits {K : Type} `{StatKernel K} (h : Z) : Prop := {
  small_units k : exists b n, NtQueryFsSize h k = (STATUS_SUCCESS, (b, n)) /\ 0 < b * n < 65536
}.

(** ** Permissions *)

Section Permissions.
(** What the mask of a class of permissions reads as. *)
Lemma permissions_of_mask b : 0 <= b < 8 -> get_permissions (determine_access_mask b) = 64 * b /\
  get_permissions (Z.lor (determine_access_mask b) (Z.lor WLIBC_EXTRA_PERMISSIONS WLIBC_BASIC_PERMISSIONS)) = 64 * b.
Proof. intros H. assert (b = 0 \/ b = 1 \/ b = 2 \/ b = 3 \/ b = 4 \/ b = 5 \/ b = 6 \/ b = 7) as C by lia.
  repeat destruct C as [->|C]; [by split..|]. by subst b. Qed.

(** A mode is its three classes. *)
Lemma mode_digits mode : exists u g o, 0 <= u < 8 /\ 0 <= g < 8 /\ 0 <= o < 8 /\ Z.land mode 511 = 64 * u + 8 * g + o /\
  Z.shiftr (Z.land mode 448) 6 = u /\ Z.shiftr (Z.land mode 56) 3 = g /\ Z.land mode 7 = o.
Proof.
  exists (Z.shiftr mode 6 mod 8), (Z.shiftr mode 3 mod 8), (mode mod 8).
  assert (forall k m, Z.shiftr (Z.land mode (Z.shiftl m k)) k = Z.land (Z.shiftr mode k) m \/ k < 0) as E.
  { intros k m. destruct (Z.neg_nonneg_cases k) as [|Hk]; [by right|]. left. rewrite Z.shiftr_land. f_equal. rewrite Z.shiftr_shiftl_l by lia.
    by rewrite Z.sub_diag. }
  pose proof (Z.mod_pos_bound (Z.shiftr mode 6) 8). pose proof (Z.mod_pos_bound (Z.shiftr mode 3) 8). pose proof (Z.mod_pos_bound mode 8).
  assert (forall x, Z.land x 7 = x mod 8) as L by (intros x; exact (Z.land_ones x 3 ltac:(lia))).
  destruct (E 6 7) as [E6|]; [|lia]. destruct (E 3 7) as [E3|]; [|lia]. rewrite L in E6, E3.
  split; [lia|]. split; [lia|]. split; [lia|]. split; [|split; [exact E6 | split; [exact E3 | apply L]]].
  change 511 with (Z.ones 9). rewrite Z.land_ones, !Z.shiftr_div_pow2 by lia. change (2 ^ 9) with 512. change (2 ^ 6) with 64. change (2 ^ 3) with 8.
  Z.to_euclidean_division_equations. lia.
Qed.

Lemma classes_join u g o : 0 <= u < 8 -> 0 <= g < 8 -> 0 <= o < 8 ->
  Z.ldiff (Z.lor (Z.lor (Z.lor 0 (Z.shiftr (64 * u) 0)) (Z.shiftr (64 * g) 3)) (Z.shiftr (64 * o) 6)) 0 = 64 * u + 8 * g + o.
Proof.
  intros Hu Hg Ho. rewrite Z.ldiff_0_r, Z.lor_0_l, Z.shiftr_0_r.
  assert (forall n, 0 <= n < 8 -> n ∈ seqZ 0 8) as S by (intros n Hn; apply elem_of_seqZ; lia).
  apply Z.eqb_eq. revert u g o Hu Hg Ho. cut (forallb (fun u => forallb (fun g => forallb (fun o =>
    Z.lor (Z.lor (64 * u) (Z.shiftr (64 * g) 3)) (Z.shiftr (64 * o) 6) =? 64 * u + 8 * g + o) (seqZ 0 8)) (seqZ 0 8)) (seqZ 0 8) = true); [|by vm_compute].
  intros H u g o Hu Hg Ho. rewrite forallb_forall in H. specialize (H u (proj1 (list_elem_of_In _ _) (S u Hu))).
  rewrite forallb_forall in H. specialize (H g (proj1 (list_elem_of_In _ _) (S g Hg))).
  rewrite forallb_forall in H. exact (H o (proj1 (list_elem_of_In _ _) (S o Ho))).
Qed.

(** The bits of a list that was made for a mode are the mode. *)
Lemma entries_read_back x mode d effective : known_sids x -> current_uid x <> 0 -> access_bits x (entries_of_mode x mode d) effective = Z.land mode 511.
Proof.
  intros (H1 & H2 & H3 & H4 & _ & Hu) Hn. unfold access_bits, entries_of_mode.
  destruct (mode_digits mode) as (u & g & o & Hu8 & Hg8 & Ho8 & -> & Eu & Eg & Eo). rewrite Eu, Eg, Eo, H1, H2, H3, H4, (proj2 (Z.eqb_neq _ _) Hn).
  assert (class_of x (user_sid x) = Some 0) as C0 by (unfold class_of; by rewrite decide_True).
  assert (forall s, s <> user_sid x -> class_of x s = if decide (s = USERS) then Some 3 else if decide (s = EVERYONE) then Some 6 else None) as C.
  { intros s Hs. unfold class_of. by rewrite decide_False, H3, H4. }
  rewrite !not_elem_of_cons in Hu. destruct Hu as (U1 & U2 & U3 & U4 & _).
  assert (class_of x NTSYSTEM = None) as C1 by (rewrite C by congruence; by rewrite !decide_False).
  assert (class_of x ADMINISTRATORS = None) as C2 by (rewrite C by congruence; by rewrite !decide_False).
  assert (class_of x USERS = Some 3) as C3 by (rewrite C by congruence; by rewrite decide_True).
  assert (class_of x EVERYONE = Some 6) as C4 by (rewrite C by congruence; by rewrite decide_False, decide_True).
  destruct (permissions_of_mask u Hu8) as [_ Pu]. destruct (permissions_of_mask g Hg8) as [Pg _]. destruct (permissions_of_mask o Ho8) as [Po _].
  assert ((Z.land mode 56 =? 0) = (g =? 0)) as ->.
  { rewrite <- Eg. destruct (Z.eqb_spec (Z.land mode 56) 0) as [->|N]; [done|]. symmetry. apply Z.eqb_neq. intros G. apply N.
    rewrite Z.shiftr_div_pow2 in G by lia. assert (Z.land mode 56 mod 2 ^ 3 = 0) by (rewrite <- Z.land_ones, <- Z.land_assoc by lia; apply Z.land_0_r).
    rewrite (Z.div_mod (Z.land mode 56) (2 ^ 3)) by lia. lia. }
  cbn [app scan_acl AceSid AceType Mask]. rewrite C1, C2, C0. cbn [Z.eqb ACCESS_ALLOWED_ACE_TYPE orb]. rewrite Pu.
  destruct (Z.eqb_spec g 0) as [G|G], (Z.eqb_spec o 0) as [O|O]; cbn [app scan_acl AceSid AceType Mask]; rewrite ?C3, ?C4; cbn [Z.eqb ACCESS_ALLOWED_ACE_TYPE orb];
    rewrite ?C4, ?Pg, ?Po; cbn [Z.eqb ACCESS_ALLOWED_ACE_TYPE orb];
    rewrite <- (classes_join u g o) by done; try rewrite G; try rewrite O; change (Z.shiftr (64 * 0) 3) with 0; change (Z.shiftr (64 * 0) 6) with 0; rewrite ?Z.lor_0_r; done.
Qed.

(** No entry reaches the bits of the type. *)
Lemma class_bits x s n mask : class_of x s = Some n -> Z.land (Z.shiftr (get_permissions mask) n) S_IFMT = 0.
Proof.
  unfold class_of, get_permissions. intros H. assert (n = 0 \/ n = 3 \/ n = 6) as C by (repeat destruct (decide _); naive_solver).
  destruct (permits mask _), (permits mask _), (permits mask _), C as [->|[->| ->]]; reflexivity.
Qed.

Lemma scan_bits x l : forall a d p, Z.land a S_IFMT = 0 -> Z.land (scan_acl x l a d p).1.1 S_IFMT = 0.
Proof.
  induction l as [|e l IH]; intros a d p H; cbn [scan_acl]; [done|]. destruct (class_of x (AceSid e)) as [n|] eqn:E; [|auto].
  destruct (AceType e =? ACCESS_ALLOWED_ACE_TYPE); [|destruct (AceType e =? ACCESS_DENIED_ACE_TYPE); auto]. apply IH.
  by rewrite Z.land_lor_distr_l, H, (class_bits x (AceSid e)).
Qed.

Lemma access_no_type x l e : Z.land (access_bits x l e) S_IFMT = 0.
Proof.
  unfold access_bits. pose proof (scan_bits x l 0 0 false eq_refl) as H. destruct (scan_acl x l 0 0 false) as [[a d] p]. cbn in H.
  assert (Z.land (get_permissions e) S_IFMT = 0) as G by (unfold get_permissions; by destruct (permits e _), (permits e _), (permits e _)).
  assert (Z.land (if p then a else Z.lor a (get_permissions e)) S_IFMT = 0) as E by (destruct p; [done|]; by rewrite Z.land_lor_distr_l, H, G).
  rewrite Z.ldiff_land, <- Z.land_assoc, (Z.land_comm (Z.lnot d)), Z.land_assoc, E. apply Z.land_0_l.
Qed.

Lemma scan_acl_cache x c l : forall a d p, scan_acl (with_descriptors x c) l a d p = scan_acl x l a d p.
Proof.
  induction l as [|e l IH]; intros a d p; cbn [scan_acl]; [done|]. change (class_of (with_descriptors x c) (AceSid e)) with (class_of x (AceSid e)).
  destruct (class_of x (AceSid e)); [|apply IH]. by rewrite !IH.
Qed.

Lemma access_bits_cache x c l e : access_bits (with_descriptors x c) l e = access_bits x l e.
Proof. unfold access_bits. by rewrite scan_acl_cache. Qed.

Lemma type_low a t : Z.land (type_bits a t) 511 = 0.
Proof. unfold type_bits. by repeat case_match. Qed.

Lemma type_not_link x l e a t : has a FILE_ATTRIBUTE_REPARSE_POINT = false -> (Z.land (Z.lor (access_bits x l e) (type_bits a t)) S_IFMT =? S_IFLNK) = false.
Proof. intros H. rewrite Z.land_lor_distr_l, access_no_type, Z.lor_0_l. unfold type_bits. rewrite H. by repeat case_match. Qed.
End Permissions.

(** ** A file *)

Section Files.
Context {K : Type} {KN : Kernel K} {A : Allocator} {PK : PathKernel K} {OK : OpenKernel K} {SK : StatKernel K}.
Context (h : Z) (sd : K -> descriptor) (info : K -> stat_information) {PF : PlainFile h sd info}.
Implicit Types (x : security) (s : state K).

Ltac succeeded := cbv beta iota; change (ok STATUS_SUCCESS) with true; cbn [negb andb].

Lemma time_told t : time_ok t -> exists ts, LARGE_INTEGER_to_timespec t = Some ts.
Proof. intros H. unfold time_ok in H. unfold LARGE_INTEGER_to_timespec, epoch_1970. rewrite i64_Some by lia. by eexists. Qed.

Lemma kernel_S_ok {T} (x : T) s : kernel_S x s = Some ((kernel s, x), s).
Proof. done. Qed.

Lemma sizes_ok b n mode size : 0 < b * n < 65536 -> exists r, sizes b n mode size = Some r.
Proof.
  intros H. unfold sizes. rewrite (wrap_small 32), (wrap_small 16) by lia. rewrite (proj2 (Z.eqb_neq _ _)) by lia. by eexists.
Qed.

(** What stat tells of the file. *)
Lemma do_stat_file x s o g l uid gid b n : sd (kernel s) = Descriptor (Some o) (Some g) (Some l) -> sd_bytes (sd (kernel s)) <= 512 ->
  id_of x o = Some uid -> id_of x g = Some gid -> NtQueryFsSize h (kernel s) = (STATUS_SUCCESS, (b, n)) ->
  let i := info (kernel s) in
  let mode := Z.lor (access_bits x l (EffectiveAccess i)) (type_bits (si_attributes i) (ReparseTag i)) in
  exists dev atim mtim ctim birthtim, LARGE_INTEGER_to_timespec (LastAccessTime i) = Some atim /\ LARGE_INTEGER_to_timespec (LastWriteTime i) = Some mtim /\
    do_stat h x s =
      match sizes b n mode (EndOfFile i) with
      | None => None
      | Some (bs, sz, bl) => Some (((0, Some (Stat dev (u64 (si_id i)) mode (Z.land (si_attributes i) S_IA_MASK) (NumberOfLinks i) uid gid 0 sz atim mtim ctim birthtim bs bl)), x), s)
      end.
Proof.
  intros Hd Hb Ho Hg Q1 i mode. unfold i in *. set (k := kernel s) in *. destruct (plain_times k) as (T1 & T2 & T3 & T4). destruct (plain_volume k) as (v & Q2).
  destruct (time_told _ T1) as (t1 & E1), (time_told _ T2) as (t2 & E2), (time_told _ T3) as (t3 & E3), (time_told _ T4) as (t4 & E4).
  exists v, t2, t3, t4, t1. split; [done|]. split; [done|].
  unfold do_stat. rewrite (SM_bind_Some _ _ _ _ _ _ _ (kernel_S_ok x s)). fold k. rewrite plain_device. succeeded. unfold mbind at 1, SM_bind at 1, mbind at 1, M_bind at 1.
  unfold stat_disk. rewrite (SM_bind_Some _ _ x s x x s) by reflexivity. rewrite (SM_bind_Some _ _ _ _ _ _ _ (kernel_S_ok x s)). fold k. rewrite plain_info.
  succeeded. fold all_information. rewrite plain_query by done. succeeded.
  rewrite (SM_bind_Some _ _ x s uid x s) by (rewrite Hd; cbn [sd_owner mbind option_bind]; by rewrite Ho).
  rewrite (SM_bind_Some _ _ x s gid x s) by (rewrite Hd; cbn [sd_group mbind option_bind]; by rewrite Hg).
  rewrite (SM_bind_Some _ _ x s l x s) by by rewrite Hd.
  rewrite (SM_bind_Some _ _ x s t2 x s) by by rewrite E2. rewrite (SM_bind_Some _ _ x s t3 x s) by by rewrite E3.
  rewrite (SM_bind_Some _ _ x s t4 x s) by by rewrite E4. rewrite (SM_bind_Some _ _ x s t1 x s) by by rewrite E1.
  rewrite type_not_link by apply plain_type. rewrite (SM_bind_Some _ _ x s (EndOfFile (info k)) x s) by done. fold mode.
  rewrite Q1. succeeded. destruct (sizes b n mode (EndOfFile (info k))) as [[[bs sz] bl]|]; [|done].
  rewrite (SM_bind_Some _ _ x s (bs, sz, bl) x s) by done. rewrite (SM_bind_Some _ _ x s v x s) by by rewrite Q2. done.
Qed.

Lemma do_stat_plain {SU : SmallUnits h} x s o g l uid gid : sd (kernel s) = Descriptor (Some o) (Some g) (Some l) -> sd_bytes (sd (kernel s)) <= 512 ->
  id_of x o = Some uid -> id_of x g = Some gid ->
  exists st, do_stat h x s = Some (((0, Some st), x), s) /\ st_uid st = uid /\ st_gid st = gid /\
    st_mode st = Z.lor (access_bits x l (EffectiveAccess (info (kernel s)))) (type_bits (si_attributes (info (kernel s))) (ReparseTag (info (kernel s)))) /\
    LARGE_INTEGER_to_timespec (LastAccessTime (info (kernel s))) = Some (st_atim st) /\
    LARGE_INTEGER_to_timespec (LastWriteTime (info (kernel s))) = Some (st_mtim st).
Proof.
  intros Hd Hb Ho Hg. destruct (small_units (kernel s)) as (b & n & Q & Hbn).
  destruct (do_stat_file x s o g l uid gid b n Hd Hb Ho Hg Q) as (v & t1 & t2 & t3 & t4 & E1 & E2 & E).
  edestruct (sizes_ok b n) as ([[bs sz] bl] & E5); [exact Hbn|]. rewrite E5 in E. eexists. split; [exact E|]. by repeat split.
Qed.

(** on a volume whose units are a multiple of 64 kilobytes there is no result:
    the size of a unit is stored in 16 bits, and the size of the file is divided by
    the 0 that is left of it. *)
Theorem stat_large_units x s o g l uid gid b n :
  sd (kernel s) = Descriptor (Some o) (Some g) (Some l) -> sd_bytes (sd (kernel s)) <= 512 -> id_of x o = Some uid -> id_of x g = Some gid ->
  NtQueryFsSize h (kernel s) = (STATUS_SUCCESS, (b, n)) -> 0 <= b * n < 2 ^ 32 -> (b * n) mod 65536 = 0 ->
  do_stat h x s = None.
Proof.
  intros Hd Hb Ho Hg Q Hr Hm. destruct (do_stat_file x s o g l uid gid b n Hd Hb Ho Hg Q) as (v & t1 & t2 & t3 & t4 & _ & _ & E).
  rewrite E. unfold sizes. rewrite (wrap_small 32) by lia. unfold wrap. change (2 ^ 16) with 65536. by rewrite Hm.
Qed.

(** ** chmod *)

(** An owner or a group whose number is known. *)
Definition account (s : option sid) : Prop := exists a, s = Some a /\ zlen (SubAuthority a) <= SID_MAX_SUB_AUTHORITIES /\ SubAuthority a <> [].

Lemma account_id x (i : option sid) : account i -> exists a n, i = Some a /\ id_of x a = Some n /\ sid_bytes i <= 68.
Proof.
  intros (a & -> & Hl & Hn). unfold id_of, last_authority. destruct (last (SubAuthority a)) as [n|] eqn:E; [|by apply last_None in E].
  exists a. eexists. split; [done|]. split; [rewrite E; reflexivity|]. cbn. unfold SECURITY_SID_SIZE, SID_MAX_SUB_AUTHORITIES in *. lia.
Qed.

Context {SU : SmallUnits h} (alloc_ok : forall n, malloc_ok n = true).

(** The list of the file is that of the mode. *)
Lemma do_chmod_plain x s mode : known_sids x -> coherent x ->
  exists x' s', do_chmod h mode x s = Some ((0, x'), s') /\ coherent x' /\ x' = with_descriptors x (all_security_descriptors x') /\
    errno s' = errno s /\ table s' = table s /\ exists d, sd (kernel s') = Descriptor (sd_owner (sd (kernel s))) (sd_group (sd (kernel s))) (Some (entries_of_mode x mode d)).
Proof.
  intros Hx Hc. set (d := has (si_attributes (info (kernel s))) FILE_ATTRIBUTE_DIRECTORY).
  destruct (get_descriptor x mode d s Hc (alloc_ok _)) as (x' & E & Hc' & Hx'). destruct (acl_of_mode_entries x mode d Hx) as [El _].
  destruct (plain_set DACL_SECURITY_INFORMATION (Descriptor None None (Some (acl_of_mode x mode d))) (kernel s)) as (k & Q & Hk & _).
  exists x', (with_kernel s k). split; [|split; [done|]; split; [done|]; split; [done|]; split; [done|]; exists d; by rewrite <- El].
  unfold do_chmod. rewrite (SM_bind_Some _ _ _ _ _ _ _ (kernel_S_ok x s)). rewrite plain_tag. succeeded.
  rewrite (SM_bind_Some _ _ x s () x s) by done. fold d. rewrite (SM_bind_Some _ _ _ _ _ _ _ E). rewrite (SM_bind_Some _ _ _ _ _ _ _ (kernel_S_ok x' s)).
  rewrite Q. reflexivity.
Qed.

(** C40: the permissions that chmod gives to a file, from whatever state of the cache
    of descriptors, are those that stat reports to a user who is not root. *)
Theorem chmod_stat_roundtrip x s mode :
  known_sids x -> coherent x -> current_uid x <> 0 -> account (sd_owner (sd (kernel s))) -> account (sd_group (sd (kernel s))) ->
  exists x' s' st, do_chmod h mode x s = Some ((0, x'), s') /\ coherent x' /\ do_stat h x' s' = Some (((0, Some st), x'), s') /\
    Z.land (st_mode st) 511 = Z.land mode 511.
Proof.
  intros Hx Hc Hu Ho Hg. destruct (do_chmod_plain x s mode Hx Hc) as (x' & s' & E & Hc' & Hx' & He & _ & d & Hd).
  destruct (account_id x _ Ho) as (o & uid & Eo & Io & Bo), (account_id x _ Hg) as (g & gid & Eg & Ig & Bg).
  destruct (acl_of_mode_entries x mode d Hx) as [_ Hb]. rewrite Eo, Eg in Hd. rewrite Eo in Bo. rewrite Eg in Bg.
  destruct (do_stat_plain x' s' o g (entries_of_mode x mode d) uid gid Hd) as (st & Es & _ & _ & Em & _).
  - rewrite Hd. unfold sd_bytes, sizeof_SECURITY_DESCRIPTOR_RELATIVE. cbn [sd_owner sd_group sd_dacl]. lia.
  - by rewrite Hx'.
  - by rewrite Hx'.
  - exists x', s', st. split; [done|]. split; [done|]. split; [done|]. rewrite Em. rewrite Hx'.
    rewrite access_bits_cache, entries_read_back by done.
    rewrite Z.land_lor_distr_l, type_low, Z.lor_0_r, <- Z.land_assoc. done.
Qed.

(** ** chown *)

Lemma lookup_last owner a x s : 0 <= owner < 2 ^ 31 -> known_sids x -> lookup_id owner x s = Some ((Some a, x), s) ->
  (a = ADMINISTRATORS /\ owner = 0) \/ last_authority a = Some owner.
Proof.
  intros Ho (_ & Ha & _). unfold lookup_id. rewrite (SM_bind_Some _ _ x s x x s) by reflexivity. destruct (Z.eqb_spec owner 0) as [->|H0].
  - intros [= <-]. auto.
  - intros H. right. destruct (_ <=? _); [done|]. rewrite (SM_bind_Some _ _ _ _ _ _ _ (kernel_S_ok x s)) in H. revert H.
    assert (forall r i, last_authority (Sid r i (SubAuthority (computer_sid x) ++ [u32 owner])) = Some owner) as L.
    { intros r i. unfold last_authority. cbn [SubAuthority]. rewrite last_snoc. cbn. by rewrite wrap_small, swrap_small by lia. }
    unfold RtlInitializeSidEx. repeat case_match; intros [= <-]; [apply L | ..]; unfold last_authority; cbn; by rewrite wrap_small, swrap_small by lia.
Qed.

(** the owner that chown gives to a file is the one stat reports, unless it is
    one of the accounts that stand for root, the administrators (544) and the system
    (18), which are reported as 0. *)
Theorem chown_stat_roundtrip x s owner a l :
  known_sids x -> 0 <= owner < 2 ^ 31 -> lookup_id owner x s = Some ((Some a, x), s) -> zlen (SubAuthority a) <= SID_MAX_SUB_AUTHORITIES ->
  account (sd_group (sd (kernel s))) -> sd_dacl (sd (kernel s)) = Some l -> acl_bytes l <= 356 ->
  exists s' st, do_chown h owner (-1) x s = Some ((0, x), s') /\ do_stat h x s' = Some (((0, Some st), x), s') /\
    (st_uid st = owner \/ (st_uid st = 0 /\ (owner = 544 \/ owner = 18))).
Proof.
  intros Hx Ho Hl Ha Hg Hd Hb. destruct (account_id x _ Hg) as (g & gid & Eg & Ig & Bg).
  destruct (plain_set OWNER_SECURITY_INFORMATION (Descriptor (Some a) None None) (kernel s)) as (k & Q & Hk & _).
  assert (do_chown h owner (-1) x s = Some ((0, x), with_kernel s k)) as E.
  { unfold do_chown. rewrite (proj2 (Z.eqb_neq owner (-1))) by lia. rewrite (SM_bind_Some _ _ x s (Some (Some a)) x s) by by rewrite (SM_bind_Some _ _ _ _ _ _ _ Hl).
    rewrite (SM_bind_Some _ _ x s (Some None) x s) by done. rewrite (SM_bind_Some _ _ _ _ _ _ _ (kernel_S_ok x s)). cbn [Z.eqb Pos.eqb]. rewrite Z.lor_0_r, Q. done. }
  assert (exists uid, id_of x a = Some uid /\ (uid = owner \/ (uid = 0 /\ (owner = 544 \/ owner = 18)))) as (uid & Iu & Hu).
  { pose proof Hx as (Hn & Hadm & _). unfold id_of. rewrite Hn, Hadm. destruct (lookup_last owner a x s Ho Hx Hl) as [[-> ->]|L].
    - rewrite bool_decide_eq_true_2 by done. exists 0. auto.
    - rewrite L. eexists. split; [reflexivity|]. destruct (decide (a = ADMINISTRATORS)) as [->|NA]; [injection L as <-; auto|].
      destruct (decide (a = NTSYSTEM)) as [->|NS]; [injection L as <-; auto|]. rewrite !bool_decide_eq_false_2 by done. auto. }
  assert (sd (kernel (with_kernel s k)) = Descriptor (Some a) (Some g) (Some l)) as Hd'.
  { cbn. rewrite Hk. unfold updated. cbn. by rewrite Eg, Hd. }
  destruct (do_stat_plain x (with_kernel s k) a g l uid gid Hd') as (st & Es & Eu & _); [|done|done|].
  - rewrite Hd'. rewrite Eg in Bg. unfold sd_bytes, sizeof_SECURITY_DESCRIPTOR_RELATIVE. cbn [sd_owner sd_group sd_dacl].
    change (sid_bytes (Some a)) with (8 + 4 * zlen (SubAuthority a)). unfold SID_MAX_SUB_AUTHORITIES in Ha. lia.
  - exists (with_kernel s k), st. rewrite Eu. done.
Qed.

(** ** access *)

(** The rights that stand for the bits of a request. *)
Definition allows (access mode : Z) : Prop :=
  (has mode R_OK = true -> permits access WLIBC_ACCEPTABLE_READ_PERMISSIONS = true) /\
  (has mode W_OK = true -> permits access WLIBC_ACCEPTABLE_WRITE_PERMISSIONS = true) /\
  (has mode X_OK = true -> permits access WLIBC_ACCEPTABLE_EXECUTE_PERMISSIONS = true).

(** access succeeds exactly when the kernel allows all that is asked for; when it
    does not, [errno] is left as it was. *)
Theorem access_tells x s mode :
  exists r, do_access h mode x s = Some ((r, x), s) /\ (r = 0 \/ r = -1) /\ (r = 0 <-> allows (EffectiveAccess (info (kernel s))) mode).
Proof.
  exists (have_required_access (get_permissions (EffectiveAccess (info (kernel s)))) mode).
  split; [unfold do_access; rewrite (SM_bind_Some _ _ _ _ _ _ _ (kernel_S_ok x s)); by rewrite plain_info|].
  unfold have_required_access, required_access, get_permissions, allows, add_if.
  destruct (has mode R_OK), (has mode W_OK), (has mode X_OK), (permits _ _), (permits _ _), (permits _ _); vm_compute; intuition congruence.
Qed.

(** ** utimens *)

(** What is seen of an argument: the time to the unit of 100 nanoseconds. *)
Definition seen (now old : Z) (t : timespec) : option timespec :=
  if tv_nsec t =? UTIME_NOW then LARGE_INTEGER_to_timespec now
  else if tv_nsec t =? UTIME_OMIT then LARGE_INTEGER_to_timespec old
  else Some (Timespec (tv_sec t) (tv_nsec t / 100 * 100)).

Definition settable (t : timespec) : Prop := tv_nsec t = UTIME_NOW \/ tv_nsec t = UTIME_OMIT \/ (normal t /\ 0 <= tv_sec t).

Lemma new_time_seen now old t : settable t -> 0 < now < 2 ^ 63 -> time_ok old ->
  exists l, new_time now t old = Some l /\ time_ok l /\ LARGE_INTEGER_to_timespec (if l =? 0 then old else l) = seen now old t.
Proof.
  intros H Hn Ho. unfold new_time, seen, time_ok in *. destruct (Z.eqb_spec (tv_nsec t) UTIME_NOW).
  { exists now. rewrite (proj2 (Z.eqb_neq now 0)) by lia. repeat split; lia. }
  destruct (Z.eqb_spec (tv_nsec t) UTIME_OMIT); cbn [negb].
  { exists old. split; [done|]. split; [lia|]. by destruct (Z.eqb_spec old 0) as [->|]. }
  destruct H as [|[|[N Hs]]]; [done.. |]. rewrite to_LARGE_INTEGER by done. destruct N as [Hns Hsec].
  assert (0 <= tv_nsec t / 100 < ticks) as Hd by (unfold ticks; split; [apply Z.div_pos; lia | apply Z.div_lt_upper_bound; lia]).
  eexists. split; [reflexivity|]. unfold ticks, epoch_1970 in *. split; [lia|]. rewrite (proj2 (Z.eqb_neq _ 0)) by lia.
  unfold LARGE_INTEGER_to_timespec, epoch_1970. rewrite i64_Some by lia. cbn [mbind option_bind].
  match goal with |- context [?x ÷ ticks] => replace x with (tv_sec t * ticks + tv_nsec t / 100) by (unfold ticks; lia) end.
  destruct (split_nonneg (tv_sec t) (tv_nsec t / 100)) as [-> ->]; [lia | unfold ticks; lia | reflexivity].
Qed.

(** the times utimens sets are those stat reports, to the unit of 100
    nanoseconds; [UTIME_OMIT] leaves a time as it was, and [UTIME_NOW] sets the
    current one. *)
Theorem utimens_stat_roundtrip x s t0 t1 l :
  settable t0 -> settable t1 -> 0 < GetSystemTimeAsFileTime (kernel s) < 2 ^ 63 -> account (sd_owner (sd (kernel s))) -> account (sd_group (sd (kernel s))) ->
  sd_dacl (sd (kernel s)) = Some l -> acl_bytes l <= 356 ->
  let now := GetSystemTimeAsFileTime (kernel s) in
  exists s' st, do_utimens h (Some (t0, t1)) x s = Some ((0, x), s') /\ do_stat h x s' = Some (((0, Some st), x), s') /\
    seen now (LastAccessTime (info (kernel s))) t0 = Some (st_atim st) /\ seen now (LastWriteTime (info (kernel s))) t1 = Some (st_mtim st).
Proof.
  intros H0 H1 Hn Ho Hg Hd Hb now. destruct (account_id x _ Ho) as (o & uid & Eo & Io & Bo), (account_id x _ Hg) as (g & gid & Eg & Ig & Bg).
  destruct (plain_times (kernel s)) as (_ & T1 & T2 & _). destruct (new_time_seen now _ t0 H0 Hn T1) as (a & Ea & Ta & Sa), (new_time_seen now _ t1 H1 Hn T2) as (w & Ew & Tw & Sw).
  destruct (plain_basic (kernel s)) as (c & Q). destruct (plain_touch (kernel s) a w c Ta Tw) as (k & Q' & Hk & Ka & Kw).
  assert (do_utimens h (Some (t0, t1)) x s = Some ((0, x), with_kernel s k)) as E.
  { unfold do_utimens, set_basic. rewrite (SM_bind_Some _ _ _ _ _ _ _ (kernel_S_ok x s)). rewrite Q. succeeded.
    rewrite (SM_bind_Some _ _ x s (BasicInformation (CreationTime (info (kernel s))) a w c (si_attributes (info (kernel s)))) x s).
    - rewrite (SM_bind_Some _ _ _ _ _ _ _ (kernel_S_ok x s)). by rewrite Q'.
    - rewrite (SM_bind_Some _ _ _ _ _ _ _ (kernel_S_ok x s)). rewrite (SM_bind_Some _ _ x s a x s) by (change (new_time _ t0 _) with (new_time now t0 (LastAccessTime (info (kernel s)))); by rewrite Ea).
      by rewrite (SM_bind_Some _ _ x s w x s) by (change (new_time _ t1 _) with (new_time now t1 (LastWriteTime (info (kernel s)))); by rewrite Ew). }
  assert (sd (kernel (with_kernel s k)) = Descriptor (Some o) (Some g) (Some l)) as Hd' by (cbn; rewrite Hk; destruct (sd (kernel s)); cbn in *; congruence).
  destruct (do_stat_plain x (with_kernel s k) o g l uid gid Hd') as (st & Es & _ & _ & _ & Sa' & Sw'); [|done|done|].
  - rewrite Hd'. rewrite Eo in Bo. rewrite Eg in Bg. unfold sd_bytes, sizeof_SECURITY_DESCRIPTOR_RELATIVE. cbn [sd_owner sd_group sd_dacl]. lia.
  - exists (with_kernel s k), st. cbn [with_kernel kernel] in Sa', Sw'. rewrite Ka in Sa'. rewrite Kw in Sw'. by rewrite <- Sa, <- Sw.
Qed.
End Files.

(** utimes does not use the seconds of the time of the last change: the
    microseconds are handed on in their place, and the nanoseconds are what was on
    the stack. *)
Theorem utimes_ignores_seconds {K} {KN : Kernel K} {A : Allocator} {PK : PathKernel K} {OK : OpenKernel K} {SK : StatKernel K}
    (t0 : handle_t) (nsec dirfd : Z) (path : option (list Z)) (a : timeval) (sec sec' usec flags : Z) (st : security * path_state) (s : state K) :
  wlibc_common_utimes t0 nsec dirfd path (Some (a, Timeval sec usec)) flags st s =
  wlibc_common_utimes t0 nsec dirfd path (Some (a, Timeval sec' usec)) flags st s.
Proof. done. Qed.

(** ** A machine with one file *)
Module Machine.

(** Its descriptor, and the times of the last access and of the last change. *)
Definition K : Type := descriptor * (Z * Z).

(** The times of the file can always be told. *)
Definition clamp (t : Z) : Z := if (0 <=? t) && (t <? 2 ^ 63) then t else 0.

Lemma clamp_id t : 0 <= t < 2 ^ 63 -> clamp t = t.
Proof. intros H. unfold clamp. by rewrite (proj2 (Z.leb_le _ _)), (proj2 (Z.ltb_lt _ _)) by lia. Qed.

Lemma clamp_ok t : time_ok (clamp t).
Proof. unfold time_ok, clamp. destruct (Z.leb_spec 0 t), (Z.ltb_spec t (2 ^ 63)); cbn; lia. Qed.

(** A file of 1000 bytes whose user may read it. *)
Definition info (k : K) : stat_information := StatInformation 7 epoch_1970 (clamp k.2.1) (clamp k.2.2) epoch_1970 1000 FILE_ATTRIBUTE_ARCHIVE 0 1 (Z.lor FILE_READ_DATA FILE_READ_EA).

#[export] Instance machine_open : OpenKernel K := {
  NtCreateFile _ k := (STATUS_SUCCESS, 1, k);
  NtQueryTagInformation _ k := (STATUS_SUCCESS, FILE_ATTRIBUTE_ARCHIVE);
  NtQueryBasicInformation _ _ := STATUS_SUCCESS;
  NtSetLastAccessTime _ k := (STATUS_SUCCESS, k);
  rand_s k := (0, k)
}.

(** The volume has units of [unit] bytes. *)
Definition machine (unit : Z) : StatKernel K := {|
  NtQueryFsDevice _ _ := (STATUS_SUCCESS, FILE_DEVICE_DISK);
  NtQueryStatInformation _ k := (STATUS_SUCCESS, info k);
  NtQuerySecurityObject _ _ n k := (if sd_bytes k.1 <=? n then STATUS_SUCCESS else STATUS_BUFFER_TOO_SMALL, k.1, sd_bytes k.1);
  NtSetSecurityObject _ i d k := (STATUS_SUCCESS, (updated i d k.1, k.2));
  NtGetReparsePoint _ _ := (STATUS_OBJECT_NAME_NOT_FOUND, ReparsePoint 0 [] []);
  NtQueryFsSize _ _ := (STATUS_SUCCESS, (512, unit / 512));
  NtQueryFsVolume _ _ := (STATUS_SUCCESS, 99);
  NtQueryBasic _ k := (STATUS_SUCCESS, BasicInformation epoch_1970 (clamp k.2.1) (clamp k.2.2) epoch_1970 FILE_ATTRIBUTE_ARCHIVE);
  NtSetBasic _ i k := (STATUS_SUCCESS, (k.1, (if bi_access i =? 0 then k.2.1 else bi_access i, if bi_write i =? 0 then k.2.2 else bi_write i)));
  GetSystemTimeAsFileTime _ := epoch_1970 + 70;
  LookupAccountSidW s _ := bool_decide (s = Sid 1 5 [21; 1; 2; 3; 1002]);
  RtlAcquirePrivilege k := (STATUS_SUCCESS, k);
  RtlReleasePrivilege k := k
|}.

#[export] Instance machine_file unit : PlainFile (H0 := machine unit) 1 fst info.
Proof.
  split; intros; cbn.
  - by rewrite (proj2 (Z.leb_le _ _)).
  - by eexists.
  - by eexists.
  - eexists. split; [reflexivity|]. cbn. split; [done|]. unfold time_ok in *. split; [destruct (Z.eqb_spec a 0) | destruct (Z.eqb_spec w 0)]; try done; by apply clamp_id.
  - done.
  - done.
  - done.
  - by eexists.
  - assert (time_ok epoch_1970) by (unfold time_ok, epoch_1970; lia). split; [done|]. split; [apply clamp_ok|]. split; [apply clamp_ok | done].
  - done.
Qed.

#[export] Instance machine_units : SmallUnits (H := machine 4096) 1.
Proof. split. intros k. exists 512, 8. by split. Qed.

Definition me : sid := Sid 1 5 [21; 1; 2; 3; 1001].
Definition my_group : sid := Sid 1 5 [21; 1; 2; 3; 513].

(** The process of an ordinary user. *)
Definition process : security := Security NTSYSTEM ADMINISTRATORS USERS EVERYONE me my_group (Sid 1 5 [21; 1; 2; 3]) 1001 513 ∅.

Lemma process_start : initialize_sids me my_group false = Some process.
Proof. done. Qed.

Lemma process_known : known_sids process /\ coherent process.
Proof. apply (initialize_known me my_group false process process_start); [done|]. rewrite !not_elem_of_cons. repeat split; [done..|]. apply not_elem_of_nil. Qed.

Definition start : state K := State [] 0 0 0 0 0 (Descriptor (Some me) (Some my_group) (Some []), (epoch_1970, epoch_1970)).

#[export] Instance ample : Allocator := fun _ => true.

Lemma me_account : account (Some me).
Proof. by exists me. Qed.
Lemma group_account : account (Some my_group).
Proof. by exists my_group. Qed.
End Machine.
Import Machine.

Lemma chmod_stat_roundtrip_witness : exists x' s' st, do_chmod (SK := machine 4096) 1 416 process start = Some ((0, x'), s') /\ coherent x' /\
  do_stat (SK := machine 4096) 1 x' s' = Some (((0, Some st), x'), s') /\ Z.land (st_mode st) 511 = 416.
Proof.
  destruct process_known as [Hk Hc].
  exact (chmod_stat_roundtrip (SK := machine 4096) 1 fst info (fun _ => eq_refl) process start 416 Hk Hc ltac:(discriminate) me_account group_account).
Defined.

Lemma stat_large_units_witness : do_stat (SK := machine 65536) 1 process start = None.
Proof. exact (stat_large_units (SK := machine 65536) 1 fst info process start me my_group [] 1001 513 512 128 eq_refl ltac:(done) eq_refl eq_refl eq_refl ltac:(done) eq_refl). Defined.

Lemma chown_stat_roundtrip_witness : exists s' st, do_chown (SK := machine 4096) 1 1002 (-1) process start = Some ((0, process), s') /\
  do_stat (SK := machine 4096) 1 process s' = Some (((0, Some st), process), s') /\ (st_uid st = 1002 \/ (st_uid st = 0 /\ (1002 = 544 \/ 1002 = 18))).
Proof.
  destruct process_known as [Hk _].
  exact (chown_stat_roundtrip (SK := machine 4096) 1 fst info process start 1002 (Sid 1 5 [21; 1; 2; 3; 1002]) [] Hk ltac:(lia) eq_refl ltac:(done) group_account eq_refl ltac:(done)).
Defined.

Lemma access_tells_witness : exists r, do_access (SK := machine 4096) 1 W_OK process start = Some ((r, process), start) /\ (r = 0 \/ r = -1) /\
  (r = 0 <-> allows (Z.lor FILE_READ_DATA FILE_READ_EA) W_OK).
Proof. exact (access_tells (SK := machine 4096) 1 fst info process start W_OK). Defined.

Lemma utimens_stat_roundtrip_witness : exists s' st,
  do_utimens (SK := machine 4096) 1 (Some (Timespec 5 250, Timespec 0 UTIME_NOW)) process start = Some ((0, process), s') /\
  do_stat (SK := machine 4096) 1 process s' = Some (((0, Some st), process), s') /\ st_atim st = Timespec 5 200 /\ st_mtim st = Timespec 0 7000.
Proof.
  destruct (utimens_stat_roundtrip (SK := machine 4096) 1 fst info process start (Timespec 5 250) (Timespec 0 UTIME_NOW) []) as (s' & st & E1 & E2 & E3 & E4).
  - right. right. split; [split|]; cbn; lia.
  - by left.
  - by split.
  - exact me_account.
  - exact group_account.
  - done.
  - done.
  - exists s', st. split; [exact E1|]. split; [exact E2|]. cbn in E3, E4. injection E3 as <-. injection E4 as <-. by split.
Defined.
