(* ===== verification/Acl.v ===== *)
(** * Access control lists

    src/sys/acl: a list is one block, a header of 8 bytes and entries of 76 bytes
    each, that can be handed to the kernel as it is. *)

From stdpp Require Import gmap.
From S2P Require Import Prelude Errno Buffer FdTable FileIo Path PathFacts Open Security Stat.

Definition ACL_VALID_PERMS : Z := 0x1F01FF.
Definition ACL_VALID_FLAGS : Z := 0x1F.
Definition ACL_UNDEFINED_TAG : Z := -1.
Definition ACL_EXTENDED_ALLOW : Z := 0.
Definition ACL_EXTENDED_DENY : Z := 1.
Definition ACL_FIRST_ENTRY : Z := 0.
Definition ACL_NEXT_ENTRY : Z := 1.
Definition ACL_LAST_ENTRY : Z := 2.

(** winnt.h. *)
Definition ACL_REVISION : Z := 2.
Definition MIN_ACL_REVISION : Z := 2.
Definition MAX_ACL_REVISION : Z := 4.
Definition ACCESS_MAX_MS_V5_ACE_TYPE : Z := 0x15.
Definition VALID_INHERIT_FLAGS : Z := 0x1F.

Record acl_entry := AclEntry { e_type : Z; e_flags : Z; e_size : Z; e_mask : Z; e_sid : sid }.

Definition zero_entry : acl_entry := AclEntry 0 0 0 0 (Sid 0 0 []).

Definition sizeof_entry : Z := 76.
Definition offset_of_entries : Z := 8.

(** A list in a block of [a_room] bytes; an entry that was not stored is zeros. *)
Record acl := Acl {
  a_room : Z;
  a_revision : Z; a_zero1 : Z; a_size : Z; a_count : Z; a_zero2 : Z;
  a_entries : gmap Z acl_entry
}.

(** The blocks by their addresses. *)
Record acl_state := Acls { acls : gmap Z acl; acl_paths : path_state }.

(** The address of a new block. *)
Class AclHeap := acl_address : gmap Z acl -> Z.

(** A pointer to an entry: the block and the index; [None] is [NULL]. *)
Definition entry_ptr : Type := option (Z * Z).

Definition with_acls (s : acl_state) (m : gmap Z acl) : acl_state := Acls m (acl_paths s).
Definition with_entries (x : acl) (count : Z) (m : gmap Z acl_entry) : acl :=
  Acl (a_room x) (a_revision x) (a_zero1 x) (a_size x) count (a_zero2 x) m.

(** Entry [i] lies in the block; its first [n] bytes do. *)
Definition in_room (x : acl) (i n : Z) : bool := (0 <=? i) && (offset_of_entries + sizeof_entry * i + n <=? a_room x).
Definition entry_at (x : acl) (i : Z) : acl_entry := default zero_entry (a_entries x !! i).

Section Acl.
Context {K : Type} {KN : Kernel K} {A : Allocator} {PK : PathKernel K} {OK : OpenKernel K} {SK : StatKernel K} {AH : AclHeap}.

Abbreviation L := (SM acl_state K).

Definition acl_at (a : Z) : L acl := s ← get_S; match acls s !! a with Some x => mret x | None => run_M UB end.
Definition put_acl (a : Z) (x : acl) : L unit := s ← get_S; put_S (with_acls s (<[a := x]> (acls s))).
Definition bad {X} (n : Z) (e : X) : L X := _ ← run_M (set_errno n); mret e.

(** The entry behind a pointer; all of it must be in the block. *)
Definition read_entry (p : Z * Z) : L acl_entry :=
  x ← acl_at p.1; if in_room x p.2 sizeof_entry then mret (entry_at x p.2) else run_M UB.
Definition write_entry (p : Z * Z) (e : acl_entry) : L unit :=
  x ← acl_at p.1;
  if in_room x p.2 sizeof_entry then put_acl p.1 (with_entries x (a_count x) (<[p.2 := e]> (a_entries x))) else run_M UB.

(** [VALIDATE_ACL_ENTRY]. *)
Definition with_entry {X} (p : entry_ptr) (e : X) (f : Z * Z -> L X) : L X := match p with None => bad EINVAL e | Some p => f p end.

(** ** Lists *)

(** [RtlCreateAcl] on a block of zeros: it fails when the size does not fit in 16
    bits. *)
Definition RtlCreateAcl (size : Z) : acl :=
  if size <=? 65535 then Acl size ACL_REVISION 0 size 0 0 ∅ else Acl size 0 0 0 0 0 ∅.

(** [NULL] is 0. *)
Definition wlibc_acl_init (count : Z) : L Z :=
  if count <? 0 then bad EINVAL 0
  else
    let size := u32 (offset_of_entries + (if negb (count =? 0) then count else 1) * sizeof_entry) in
    if malloc_ok size then
      s ← get_S;
      let a := acl_address (acls s) in
      _ ← put_acl a (RtlCreateAcl size);
      mret a
    else bad ENOMEM 0.

Definition wlibc_acl_dup (a : Z) : L Z :=
  if a =? 0 then bad EINVAL 0
  else
    x ← acl_at a;
    if malloc_ok (a_size x) then
      if a_room x <? a_size x then run_M UB
      else
        s ← get_S;
        let b := acl_address (acls s) in
        _ ← put_acl b (Acl (a_size x) (a_revision x) (a_zero1 x) (a_size x) (a_count x) (a_zero2 x) (a_entries x));
        mret b
    else bad ENOMEM 0.

Definition wlibc_acl_free (a : Z) : L Z :=
  if a =? 0 then bad EINVAL (-1)
  else _ ← acl_at a; s ← get_S; _ ← put_S (with_acls s (delete a (acls s))); mret 0.

(** The entries one after the other: an offset that is not that of an entry is not
    covered. *)
Fixpoint entries_valid (n : nat) (x : acl) (acl_read : Z) : option bool :=
  match n with
  | O => Some true
  | S n =>
      if negb (acl_read mod sizeof_entry =? 0) || negb (in_room x (acl_read / sizeof_entry) sizeof_entry) then None
      else
        let e := entry_at x (acl_read / sizeof_entry) in
        if (ACCESS_MAX_MS_V5_ACE_TYPE <? e_type e) || (VALID_INHERIT_FLAGS <? e_flags e) then Some false
        else entries_valid n x (u16 (acl_read + e_size e))
  end.

Definition wlibc_acl_valid (a : Z) : L Z :=
  if a =? 0 then bad EINVAL (-1)
  else
    x ← acl_at a;
    if (a_revision x <? MIN_ACL_REVISION) || (MAX_ACL_REVISION <? a_revision x) then mret (-1)
    else if negb (a_zero1 x =? 0) || negb (a_zero2 x =? 0) then mret (-1)
    else b ← defined (entries_valid (Z.to_nat (a_count x)) x 0); mret (if b : bool then 0 else -1).

(** ** Entries *)

Definition wlibc_acl_copy_entry (destination source : entry_ptr) : L Z :=
  with_entry destination (-1) (fun d => with_entry source (-1) (fun p => e ← read_entry p; _ ← write_entry d e; mret 0)).

(** The list, which may have moved, and the new entry. *)
Definition create_entry (a : Z) : L (Z * (Z * entry_ptr)) :=
  x ← acl_at a;
  let used_size := u16 (offset_of_entries + a_count x * sizeof_entry) in
  if negb (used_size =? offset_of_entries + a_count x * sizeof_entry) then run_M UB
  else
    moved ← (if u64 (a_size x - used_size) <? sizeof_entry then
               let allocated_size := u16 (sizeof_entry * a_count x * 2) in
               if malloc_ok allocated_size then
                 s ← get_S;
                 let others := delete a (acls s) in
                 let b := acl_address others in
                 _ ← put_S (with_acls s (<[b := Acl allocated_size (a_revision x) (a_zero1 x) allocated_size (a_count x) (a_zero2 x) (a_entries x)]> others));
                 mret (Some b)
               else bad ENOMEM None
             else mret (Some a));
    match moved with
    | None => mret (-1, (a, None))
    | Some b =>
        x ← acl_at b;
        if negb (in_room x (a_count x) 4) then run_M UB
        else
          let e := entry_at x (a_count x) in
          _ ← put_acl b (with_entries x (u16 (a_count x + 1)) (<[a_count x := AclEntry (e_type e) (e_flags e) sizeof_entry (e_mask e) (e_sid e)]> (a_entries x)));
          mret (0, (b, Some (b, a_count x)))
    end.

(** [acl] is what the first pointer leads to; [entry] says whether there is the second
    one. *)
Definition wlibc_acl_create_entry (acl : option Z) (entry : bool) : L (Z * (Z * entry_ptr)) :=
  match acl with
  | None => bad EINVAL (-1, (0, None))
  | Some a => if negb entry then bad EINVAL (-1, (a, None)) else create_entry a
  end.

(** The entries after one was moved over, and the last one cleared. *)
Definition without_entry (x : acl) (i : Z) : gmap Z acl_entry :=
  let moved := fold_right (fun j m => <[j := entry_at x (j + 1)]> m) (a_entries x) (seqZ i (a_count x - 1 - i)) in
  <[a_count x - 1 := zero_entry]> moved.

Definition wlibc_acl_delete_entry (a : Z) (entry : entry_ptr) : L Z :=
  if a =? 0 then bad EINVAL (-1)
  else with_entry entry (-1) (fun '(b, i) =>
    x ← acl_at a;
    if a_count x =? 0 then bad ESRCH (-1)
    else if negb ((b =? a) && (0 <=? i) && (i <? a_count x)) then bad ESRCH (-1)
    else if negb (in_room x (a_count x - 1) sizeof_entry) then run_M UB
    else _ ← put_acl a (with_entries x (a_count x - 1) (without_entry x i)); mret 0).

(** [entry] says whether there is a pointer; it holds [p]: the result and what it holds
    then. *)
Definition wlibc_acl_get_entry (a entry_id : Z) (entry : bool) (p : entry_ptr) : L (Z * entry_ptr) :=
  if a =? 0 then bad EINVAL (-1, p)
  else if negb entry then bad EINVAL (-1, p)
  else if negb (entry_id =? ACL_FIRST_ENTRY) && negb (entry_id =? ACL_NEXT_ENTRY) && negb (entry_id =? ACL_LAST_ENTRY) then bad EINVAL (-1, p)
  else
    x ← acl_at a;
    if entry_id =? ACL_FIRST_ENTRY then mret (0, Some (a, 0))
    else if entry_id =? ACL_LAST_ENTRY then mret (0, Some (a, a_count x - 1))
    else
      match p with
      | None => bad EINVAL (-1, p)
      | Some (b, i) =>
          let found := (b =? a) && (1 <=? i) && (i <? a_count x) in
          if (1 <? a_count x) && negb found then bad ESRCH (-1, p)
          else
            let index := if found then i else 0 in
            mret (0, if index =? a_count x - 1 then None else Some (a, index))
      end.

(** ** Flags and permissions

    Of a set, the value the pointer leads to; [None] is a null pointer. *)

Definition on_set (valid : Z) (set : option Z) (v : option Z) (f : Z -> Z * Z) : L (Z * option Z) :=
  match set with
  | None => bad EINVAL (-1, set)
  | Some n =>
      if match v with Some v => negb (Z.ldiff v valid =? 0) | None => false end then bad EINVAL (-1, set)
      else mret ((f n).1, Some (f n).2)
  end.

Definition wlibc_acl_add_flag (flagset : option Z) (flag : Z) : L (Z * option Z) :=
  on_set ACL_VALID_FLAGS flagset (Some flag) (fun n => (0, Z.lor n flag)).
Definition wlibc_acl_clear_flags (flagset : option Z) : L (Z * option Z) := on_set ACL_VALID_FLAGS flagset None (fun _ => (0, 0)).
Definition wlibc_acl_delete_flag (flagset : option Z) (flag : Z) : L (Z * option Z) :=
  on_set ACL_VALID_FLAGS flagset (Some flag) (fun n => (0, Z.ldiff n flag)).
Definition wlibc_acl_get_flag (flagset : option Z) (flag : Z) : L (Z * option Z) :=
  on_set ACL_VALID_FLAGS flagset (Some flag) (fun n => (if Z.land n flag =? flag then 1 else 0, n)).

Definition wlibc_acl_add_perm (permset : option Z) (perm : Z) : L (Z * option Z) :=
  on_set ACL_VALID_PERMS permset (Some perm) (fun n => (0, Z.lor n perm)).
Definition wlibc_acl_clear_perms (permset : option Z) : L (Z * option Z) := on_set ACL_VALID_PERMS permset None (fun _ => (0, 0)).
Definition wlibc_acl_delete_perm (permset : option Z) (perm : Z) : L (Z * option Z) :=
  on_set ACL_VALID_PERMS permset (Some perm) (fun n => (0, Z.ldiff n perm)).
Definition wlibc_acl_get_perm (permset : option Z) (perm : Z) : L (Z * option Z) :=
  on_set ACL_VALID_PERMS permset (Some perm) (fun n => (if Z.land n perm =? perm then 1 else 0, n)).

(** The value a set of the entry has now; whether there is somewhere to store it. *)
Definition wlibc_acl_get_flagset (entry : entry_ptr) (flagset : bool) : L (Z * option Z) :=
  with_entry entry (-1, None) (fun p => if negb flagset then bad EINVAL (-1, None) else e ← read_entry p; mret (0, Some (e_flags e))).

Definition wlibc_acl_set_flagset (entry : entry_ptr) (flagset : option Z) : L Z :=
  with_entry entry (-1) (fun p =>
    match flagset with
    | None => bad EINVAL (-1)
    | Some n =>
        if negb (Z.ldiff n ACL_VALID_FLAGS =? 0) then bad EINVAL (-1)
        else e ← read_entry p; _ ← write_entry p (AclEntry (e_type e) n (e_size e) (e_mask e) (e_sid e)); mret 0
    end).

Definition wlibc_acl_get_permset (entry : entry_ptr) (permset : bool) : L (Z * option Z) :=
  with_entry entry (-1, None) (fun p =>
    if negb permset then bad EINVAL (-1, None) else e ← read_entry p;
    if negb (e_type e =? ACL_EXTENDED_ALLOW) && negb (e_type e =? ACL_EXTENDED_DENY) then bad ENOTSUP (-1, None)
    else mret (0, Some (e_mask e))).

Definition wlibc_acl_set_permset (entry : entry_ptr) (permset : option Z) : L Z :=
  with_entry entry (-1) (fun p =>
    match permset with
    | None => bad EINVAL (-1)
    | Some n =>
        if negb (Z.ldiff n ACL_VALID_PERMS =? 0) then bad EINVAL (-1)
        else e ← read_entry p; _ ← write_entry p (AclEntry (e_type e) (e_flags e) (e_size e) n (e_sid e)); mret 0
    end).

(** ** Tags and qualifiers *)

Definition wlibc_acl_get_tag_type (entry : entry_ptr) (tag : bool) : L (Z * option Z) :=
  with_entry entry (-1, None) (fun p =>
    if negb tag then bad EINVAL (-1, None)
    else
      e ← read_entry p;
      mret (0, Some (if (e_type e =? ACL_EXTENDED_ALLOW) || (e_type e =? ACL_EXTENDED_DENY) then e_type e else ACL_UNDEFINED_TAG))).

Definition wlibc_acl_set_tag_type (entry : entry_ptr) (tag : Z) : L Z :=
  with_entry entry (-1) (fun p =>
    if negb (tag =? ACL_EXTENDED_ALLOW) && negb (tag =? ACL_EXTENDED_DENY) then bad EINVAL (-1)
    else e ← read_entry p; _ ← write_entry p (AclEntry tag (e_flags e) (e_size e) (e_mask e) (e_sid e)); mret 0).

(** The identifier itself; the pointer leads to it. *)
Definition wlibc_acl_get_qualifier (entry : entry_ptr) : L (option sid) :=
  with_entry entry None (fun p => e ← read_entry p; mret (Some (e_sid e))).

(** [RtlCopySid] fails when there is not enough room for the identifier. *)
Definition wlibc_acl_set_qualifier (entry : entry_ptr) (qualifier : sid) : L Z :=
  with_entry entry (-1) (fun p =>
    e ← read_entry p;
    if SID_MAX_SUB_AUTHORITIES <? zlen (SubAuthority qualifier) then _ ← fail_with STATUS_BUFFER_TOO_SMALL; mret (-1)
    else _ ← write_entry p (AclEntry (e_type e) (e_flags e) (e_size e) (e_mask e) qualifier); mret 0).

(** ** The list of a file *)

(** The supported entries, copied one after the other. *)
Fixpoint copy_aces (l : list ace) (x : acl) : acl :=
  match l with
  | [] => x
  | c :: l =>
      copy_aces l
        (if (AceType c =? ACCESS_ALLOWED_ACE_TYPE) || (AceType c =? ACCESS_DENIED_ACE_TYPE)
         then with_entries x (u16 (a_count x + 1)) (<[a_count x := AclEntry (AceType c) (AceFlags c) sizeof_entry (Mask c) (AceSid c)]> (a_entries x))
         else x)
  end.

(** The block for the descriptor has 512 bytes, and the second query is told so too. *)
Definition get_acl (h : Z) : L Z :=
  if negb (malloc_ok 512) then bad ENOMEM 0
  else
    k ← kernel_S;
    let '(status, sd, length) := NtQuerySecurityObject h DACL_SECURITY_INFORMATION 512 k in
    read ← (if ok status then mret (Some sd)
            else if bool_decide (status = STATUS_BUFFER_TOO_SMALL) then
              if negb (malloc_ok length) then bad ENOMEM None
              else
                let '(status, sd, _) := NtQuerySecurityObject h DACL_SECURITY_INFORMATION 512 k in
                if ok status then mret (Some sd) else _ ← fail_with status; mret None
            else _ ← fail_with status; mret None);
    match read with
    | None => mret 0
    | Some sd =>
        l ← defined (sd_dacl sd);
        a ← wlibc_acl_init (zlen l);
        x ← acl_at a;
        _ ← put_acl a (copy_aces l x);
        mret a
    end.

(** The list as the kernel sees it, all of which must be in the block; without one
    everybody has access. *)
Definition aces_of (x : acl) : list ace :=
  (fun i => let e := entry_at x i in Ace (e_type e) (e_flags e) (e_mask e) (e_sid e)) <$> seqZ 0 (a_count x).

Definition set_acl (h a : Z) : L Z :=
  d ← (if a =? 0 then mret None else x ← acl_at a; if (a_count x =? 0) || in_room x (a_count x - 1) sizeof_entry then mret (Some (aces_of x)) else run_M UB);
  k ← kernel_S;
  let '(status, k) := NtSetSecurityObject h DACL_SECURITY_INFORMATION (Descriptor None None d) k in
  _ ← run_M (set_kernel k);
  if negb (ok status) then _ ← fail_with status; mret (-1) else mret 0.

Definition acl_with_paths {X} (m : SM path_state K X) : L X := fun s => '(r, p) ← m (acl_paths s); mret (r, Acls (acls s) p).

Definition acl_close (h : Z) : L unit := k ← kernel_S; run_M (set_kernel (NtClose h k).2).

Definition acl_descriptor (fd : Z) (info : fdinfo) : L (option Z) :=
  i ← run_M (get_fdinfo fd info);
  if negb (bool_decide (type i = FILE_HANDLE)) && negb (bool_decide (type i = DIRECTORY_HANDLE)) then bad EBADF None else mret (Some (handle i)).

(** [VALIDATE_PATH], and then [f] on the file. *)
Definition acl_at_path (t0 : handle_t) (path : option (list Z)) (access flags e : Z) (f : Z -> L Z) : L Z :=
  match path with
  | None | Some [] => bad ENOENT e
  | Some path =>
      h ← acl_with_paths (just_open t0 AT_FDCWD path access (if flags =? AT_SYMLINK_NOFOLLOW then FILE_OPEN_REPARSE_POINT else 0));
      if h =? 0 then mret e else r ← f h; _ ← acl_close h; mret r
  end.

Definition wlibc_acl_get (t0 : handle_t) (info : fdinfo) (fd : Z) (path : option (list Z)) (flags : Z) : L Z :=
  if negb (known_flags flags) then bad EINVAL 0
  else if flags =? AT_EMPTY_PATH then
    i ← acl_descriptor fd info;
    match i with None => mret 0 | Some h => get_acl h end
  else acl_at_path t0 path READ_CONTROL flags 0 get_acl.

Definition wlibc_acl_set (t0 : handle_t) (info : fdinfo) (fd : Z) (path : option (list Z)) (a flags : Z) : L Z :=
  if negb (known_flags flags) then bad EINVAL (-1)
  else if flags =? AT_EMPTY_PATH then
    i ← acl_descriptor fd info;
    match i with
    | None => mret (-1)
    | Some h =>
        h ← acl_with_paths (just_reopen h WRITE_DAC 0);
        if h =? 0 then mret (-1) else r ← set_acl h a; _ ← acl_close h; mret r
    end
  else acl_at_path t0 path WRITE_DAC flags (-1) (fun h => set_acl h a).

End Acl.
