(* ===== verification/AclSpec.v ===== *)
(** * What access control lists promise

    A list with room for its entries is a sequence; growing it from one entry, and
    going through it, fail. *)

From stdpp Require Import gmap.
From S2P Require Import Prelude Errno Buffer FdTable FileIo Path PathFacts Open Security Stat Acl.

Section Lists.
Context {K : Type} {A : Allocator} {AH : AclHeap}.
Implicit Types (x : acl) (l : list acl_entry) (p : acl_state) (s : state K).

Abbreviation L := (SM acl_state K).

(** A new entry. *)
Definition blank : acl_entry := AclEntry 0 0 sizeof_entry 0 (Sid 0 0 []).

(** The block holds the entries [l], and zeros behind them. *)
Definition holds l x : Prop :=
  a_count x = zlen l /\ a_size x = a_room x /\ offset_of_entries + sizeof_entry * zlen l <= a_room x <= 65535 /\
  a_revision x = ACL_REVISION /\ a_zero1 x = 0 /\ a_zero2 x = 0 /\ forall i : nat, entry_at x (Z.of_nat i) = default zero_entry (l !! i).

Lemma holds_new n : 0 <= n <= 862 -> holds [] (RtlCreateAcl (offset_of_entries + (if negb (n =? 0) then n else 1) * sizeof_entry)).
Proof.
  intros H. unfold holds, RtlCreateAcl, offset_of_entries, sizeof_entry. rewrite (proj2 (Z.leb_le _ _)) by (destruct (Z.eqb_spec n 0); cbn; lia).
  set (m := if negb (n =? 0) then n else 1). assert (1 <= m <= 862) by (unfold m; destruct (Z.eqb_spec n 0); cbn; lia).
  repeat split; cbn -[Z.mul Z.add]; try done; lia.
Qed.

Lemma acl_at_ok a x p s : acls p !! a = Some x -> acl_at a p s = Some ((x, p), s).
Proof. intros H. unfold acl_at. rewrite (SM_bind_Some _ _ p s p p s) by reflexivity. by rewrite H. Qed.

Lemma put_acl_ok a x p s : put_acl a x p s = Some (((), with_acls p (<[a := x]> (acls p))), s).
Proof. done. Qed.

Lemma room_ok x i n : 0 <= i -> offset_of_entries + sizeof_entry * i + n <= a_room x -> in_room x i n = true.
Proof. intros H1 H2. unfold in_room. by rewrite (proj2 (Z.leb_le _ _) H1), (proj2 (Z.leb_le _ _) H2). Qed.

Lemma entry_with_insert x c (i : nat) (j : nat) e : entry_at (with_entries x c (<[Z.of_nat j := e]> (a_entries x))) (Z.of_nat i) = if decide (i = j) then e else entry_at x (Z.of_nat i).
Proof.
  unfold entry_at. cbn [with_entries a_entries]. destruct (decide (i = j)) as [->|N]; [by rewrite lookup_insert_eq|]. by rewrite lookup_insert_ne by lia.
Qed.

Lemma holds_snoc l x e c : holds l x -> c = zlen l + 1 -> offset_of_entries + sizeof_entry * (zlen l + 1) <= a_room x ->
  holds (l ++ [e]) (with_entries x c (<[zlen l := e]> (a_entries x))).
Proof.
  intros (Hc & Hz & Hr & R1 & R2 & R3 & He) -> Hf. unfold holds. cbn [with_entries a_count a_size a_room a_revision a_zero1 a_zero2].
  rewrite length_app. cbn [length]. rewrite Nat2Z.inj_add. split; [done|]. split; [done|]. split; [lia|]. do 3 (split; [done|]).
  intros i. rewrite entry_with_insert. destruct (decide (i = length l)) as [->|N]; [by rewrite list_lookup_middle|].
  rewrite He. destruct (decide (i < length l)%nat); [by rewrite lookup_app_l|]. rewrite !lookup_ge_None_2; [done | rewrite length_app; cbn; lia | lia].
Qed.

(** ** Changes *)

Lemma create_fits a x l p s : acls p !! a = Some x -> holds l x -> offset_of_entries + sizeof_entry * (zlen l + 1) <= a_room x ->
  exists x', create_entry a p s = Some (((0, (a, Some (a, zlen l))), with_acls p (<[a := x']> (acls p))), s) /\ holds (l ++ [blank]) x' /\ a_room x' = a_room x.
Proof.
  intros Ha Hh Hf. pose proof Hh as (Hc & Hz & Hr & R1 & R2 & R3 & He). unfold offset_of_entries, sizeof_entry in Hr, Hf.
  assert (u16 (8 + zlen l * 76) = 8 + zlen l * 76) as U by (apply wrap_small; lia).
  eexists. split; [|split].
  - unfold create_entry. rewrite (SM_bind_Some _ _ _ _ _ _ _ (acl_at_ok a x p s Ha)). unfold offset_of_entries, sizeof_entry.
    rewrite Hc, U, Z.eqb_refl, Hz. cbn [negb]. rewrite (wrap_small 64) by lia. rewrite (proj2 (Z.ltb_ge _ _)) by lia.
    rewrite (SM_bind_Some _ _ p s (Some a) p s) by done. rewrite (SM_bind_Some _ _ _ _ _ _ _ (acl_at_ok a x p s Ha)).
    rewrite Hc. rewrite room_ok by (unfold offset_of_entries, sizeof_entry; lia). cbn [negb]. rewrite (SM_bind_Some _ _ _ _ _ _ _ (put_acl_ok _ _ _ _)). reflexivity.
  - rewrite He, lookup_ge_None_2 by done. apply holds_snoc; [done | apply wrap_small; lia | done].
  - done.
Qed.

Lemma moved_entries x (i n : nat) : forall j : nat,
  default zero_entry (fold_right (fun j m => <[j := entry_at x (j + 1)]> m) (a_entries x) (seqZ (Z.of_nat i) (Z.of_nat n)) !! Z.of_nat j) =
  if decide (i <= j < i + n)%nat then entry_at x (Z.of_nat (S j)) else entry_at x (Z.of_nat j).
Proof.
  revert i. induction n as [|n IH]; intros i j.
  - cbn. rewrite decide_False by lia. done.
  - rewrite seqZ_cons by lia. cbn [fold_right]. replace (Z.succ (Z.of_nat i)) with (Z.of_nat (S i)) by lia. replace (Z.pred (Z.of_nat (S n))) with (Z.of_nat n) by lia.
    destruct (decide (i = j)) as [->|N].
    + rewrite lookup_insert_eq, decide_True by lia. cbn. f_equal. lia.
    + rewrite lookup_insert_ne by lia. rewrite IH. destruct (decide (S i <= j < S i + n)%nat); [rewrite decide_True by lia | rewrite decide_False by lia]; done.
Qed.

Lemma delete_ok a x l (i : nat) p s : a <> 0 -> acls p !! a = Some x -> holds l x -> (i < length l)%nat ->
  exists x', wlibc_acl_delete_entry a (Some (a, Z.of_nat i)) p s = Some ((0, with_acls p (<[a := x']> (acls p))), s) /\ holds (delete i l) x' /\ a_room x' = a_room x.
Proof.
  intros Ha Hx (Hc & Hz & Hr & R1 & R2 & R3 & He) Hi. unfold offset_of_entries, sizeof_entry in *.
  eexists. split; [|split].
  - unfold wlibc_acl_delete_entry, with_entry. rewrite (proj2 (Z.eqb_neq a 0) Ha). rewrite (SM_bind_Some _ _ _ _ _ _ _ (acl_at_ok a x p s Hx)).
    rewrite (proj2 (Z.eqb_neq (a_count x) 0)) by lia. rewrite Z.eqb_refl, (proj2 (Z.leb_le 0 _)), (proj2 (Z.ltb_lt _ _)) by lia. cbn [andb negb].
    rewrite room_ok by (unfold offset_of_entries, sizeof_entry; lia). cbn [negb]. rewrite (SM_bind_Some _ _ _ _ _ _ _ (put_acl_ok _ _ _ _)). reflexivity.
  - assert (S (length (delete i l)) = length l) as Ld by (rewrite length_delete by (apply lookup_lt_is_Some_2; lia); lia).
    repeat split; try done; [cbn; lia | cbn; unfold offset_of_entries, sizeof_entry; lia | cbn; lia |].
    intros j. unfold entry_at. cbn [with_entries a_entries]. unfold without_entry. rewrite Hc. replace (zlen l - 1) with (Z.of_nat (length l - 1)) by lia.
    replace (Z.of_nat (length l - 1) - Z.of_nat i) with (Z.of_nat (length l - 1 - i)) by lia.
    destruct (decide (j = length l - 1)%nat) as [->|N].
    + rewrite lookup_insert_eq. rewrite lookup_ge_None_2; [done | lia].
    + rewrite lookup_insert_ne by lia. rewrite moved_entries. destruct (decide (i <= j < i + (length l - 1 - i))%nat).
      * rewrite He, list_lookup_delete_ge by lia. done.
      * rewrite He. destruct (decide (j < i)%nat); [by rewrite list_lookup_delete_lt|]. rewrite !lookup_ge_None_2; [done | lia | lia].
  - done.
Qed.

Lemma write_ok a x l (i : nat) e p s : acls p !! a = Some x -> holds l x -> (i < length l)%nat ->
  exists x', write_entry (a, Z.of_nat i) e p s = Some (((), with_acls p (<[a := x']> (acls p))), s) /\ holds (<[i := e]> l) x' /\ a_room x' = a_room x.
Proof.
  intros Hx (Hc & Hz & Hr & R1 & R2 & R3 & He) Hi. unfold offset_of_entries, sizeof_entry in *.
  exists (with_entries x (a_count x) (<[Z.of_nat i := e]> (a_entries x))). split; [|split].
  - unfold write_entry. cbn [fst snd]. rewrite (SM_bind_Some _ _ _ _ _ _ _ (acl_at_ok a x p s Hx)). rewrite room_ok by (unfold offset_of_entries, sizeof_entry; lia). reflexivity.
  - repeat split; try done; rewrite ?length_insert; try (cbn; unfold offset_of_entries, sizeof_entry; lia). intros j. cbn [fst snd]. rewrite entry_with_insert, He.
    destruct (decide (j = i)) as [->|N]; [by rewrite list_lookup_insert_eq | by rewrite list_lookup_insert_ne].
  - done.
Qed.

Lemma read_ok a x l (i : nat) e p s : acls p !! a = Some x -> holds l x -> l !! i = Some e -> read_entry (a, Z.of_nat i) p s = Some ((e, p), s).
Proof.
  intros Hx (Hc & Hz & Hr & R1 & R2 & R3 & He) Hi. pose proof (lookup_lt_Some _ _ _ Hi). unfold offset_of_entries, sizeof_entry in *. unfold read_entry. cbn [fst snd].
  rewrite (SM_bind_Some _ _ _ _ _ _ _ (acl_at_ok a x p s Hx)). rewrite room_ok by (unfold offset_of_entries, sizeof_entry; lia). by rewrite He, Hi.
Qed.

(** ** A list of entries *)

(** What a program does with the list and its entries, by their places. *)
Inductive acl_op := Create | Delete (i : nat) | SetTag (i : nat) (tag : Z) | SetFlags (i : nat) (flags : Z) | SetPerms (i : nat) (perms : Z)
  | SetQualifier (i : nat) (q : sid) | Copy (i j : nat).

Definition run_op (a : Z) (o : acl_op) : L Z :=
  match o with
  | Create => '(r, _) ← wlibc_acl_create_entry (Some a) true; mret r
  | Delete i => wlibc_acl_delete_entry a (Some (a, Z.of_nat i))
  | SetTag i t => wlibc_acl_set_tag_type (Some (a, Z.of_nat i)) t
  | SetFlags i n => wlibc_acl_set_flagset (Some (a, Z.of_nat i)) (Some n)
  | SetPerms i n => wlibc_acl_set_permset (Some (a, Z.of_nat i)) (Some n)
  | SetQualifier i q => wlibc_acl_set_qualifier (Some (a, Z.of_nat i)) q
  | Copy i j => wlibc_acl_copy_entry (Some (a, Z.of_nat i)) (Some (a, Z.of_nat j))
  end.

(** An entry is changed when the argument is valid. *)
Definition change l (i : nat) (valid : bool) (f : acl_entry -> acl_entry) : option (Z * list acl_entry) :=
  e ← l !! i; Some (if valid then (0, <[i := f e]> l) else (-1, l)).

(** The same on a list with room for [cap] entries; [None] when there is no room or no
    such entry. *)
Definition list_op (cap : Z) l (o : acl_op) : option (Z * list acl_entry) :=
  match o with
  | Create => if zlen l <? cap then Some (0, l ++ [blank]) else None
  | Delete i => Some (if (i <? length l)%nat then (0, delete i l) else (-1, l))
  | SetTag i t => change l i ((t =? ACL_EXTENDED_ALLOW) || (t =? ACL_EXTENDED_DENY)) (fun e => AclEntry t (e_flags e) (e_size e) (e_mask e) (e_sid e))
  | SetFlags i n => change l i (Z.ldiff n ACL_VALID_FLAGS =? 0) (fun e => AclEntry (e_type e) n (e_size e) (e_mask e) (e_sid e))
  | SetPerms i n => change l i (Z.ldiff n ACL_VALID_PERMS =? 0) (fun e => AclEntry (e_type e) (e_flags e) (e_size e) n (e_sid e))
  | SetQualifier i q => change l i (zlen (SubAuthority q) <=? SID_MAX_SUB_AUTHORITIES) (fun e => AclEntry (e_type e) (e_flags e) (e_size e) (e_mask e) q)
  | Copy i j => e ← l !! j; change l i true (fun _ => e)
  end.

Fixpoint run_ops (a : Z) (os : list acl_op) : L (list Z) :=
  match os with [] => mret [] | o :: os => r ← run_op a o; rs ← run_ops a os; mret (r :: rs) end.

Fixpoint list_ops (cap : Z) l (os : list acl_op) : option (list Z * list acl_entry) :=
  match os with [] => Some ([], l) | o :: os => '(r, l) ← list_op cap l o; '(rs, l) ← list_ops cap l os; Some (r :: rs, l) end.

(** The list at [a] holds [l] and has room for [cap] entries. *)
Definition acl_is (a cap : Z) l p : Prop := a <> 0 /\ exists x, acls p !! a = Some x /\ holds l x /\ a_room x = offset_of_entries + sizeof_entry * cap.

Lemma acl_is_put a cap l x p : a <> 0 -> holds l x -> a_room x = offset_of_entries + sizeof_entry * cap -> acl_is a cap l (with_acls p (<[a := x]> (acls p))).
Proof. intros Ha Hx Hr. split; [done|]. exists x. cbn. by rewrite lookup_insert_eq. Qed.

(** One entry is read, checked and written. *)
Lemma change_ok a cap l i valid f r l' p s (m : L Z) : acl_is a cap l p -> change l i valid f = Some (r, l') ->
  (valid = false -> exists s', m p s = Some ((-1, p), s')) ->
  (forall e, valid = true -> l !! i = Some e -> m p s = (_ ← write_entry (a, Z.of_nat i) (f e); mret 0) p s) ->
  exists p' s', m p s = Some ((r, p'), s') /\ acl_is a cap l' p'.
Proof.
  intros (Ha & x & Hx & Hh & Hr) Hc H0 H1. unfold change in Hc. destruct (l !! i) as [e|] eqn:E; [|done]. destruct valid; cbn in Hc; injection Hc as <- <-.
  - rewrite (H1 e eq_refl eq_refl). destruct (write_ok a x l i (f e) p s Hx Hh (lookup_lt_Some _ _ _ E)) as (x' & W & Hh' & Hr').
    rewrite (SM_bind_Some _ _ _ _ _ _ _ W). eexists _, s. split; [reflexivity|]. apply acl_is_put; [done..|congruence].
  - destruct (H0 eq_refl) as (s' & W). exists p, s'. split; [done|]. split; [done|]. by exists x.
Qed.

Lemma run_op_ok a cap l o r l' p s : acl_is a cap l p -> list_op cap l o = Some (r, l') ->
  exists p' s', run_op a o p s = Some ((r, p'), s') /\ acl_is a cap l' p'.
Proof.
  intros Hp H. pose proof Hp as (Ha & x & Hx & Hh & Hr).
  assert (forall i e, l !! i = Some e -> read_entry (a, Z.of_nat i) p s = Some ((e, p), s)) as R by (intros i e; by apply (read_ok a x)).
  destruct o as [|i|i t|i n|i n|i q|i j]; cbn [run_op list_op] in *.
  - destruct (Z.ltb_spec (zlen l) cap) as [Hl|]; [|done]. injection H as <- <-.
    destruct (create_fits a x l p s Hx Hh) as (x' & E & Hh' & Hr'); [unfold offset_of_entries, sizeof_entry in *; lia|].
    change (wlibc_acl_create_entry (Some a) true) with (create_entry (K := K) a). rewrite (SM_bind_Some _ _ _ _ _ _ _ E). eexists _, s. split; [reflexivity|]. apply acl_is_put; [done..|congruence].
  - destruct (Nat.ltb_spec i (length l)) as [Hl|Hl]; injection H as <- <-.
    + destruct (delete_ok a x l i p s Ha Hx Hh Hl) as (x' & E & Hh' & Hr'). eexists _, s. split; [exact E|]. apply acl_is_put; [done..|congruence].
    + pose proof Hh as (Hc & _). unfold wlibc_acl_delete_entry, with_entry. rewrite (proj2 (Z.eqb_neq a 0) Ha). rewrite (SM_bind_Some _ _ _ _ _ _ _ (acl_at_ok a x p s Hx)).
      rewrite (proj2 (Z.ltb_ge (Z.of_nat i) (a_count x))) by lia. rewrite andb_false_r. cbn [negb]. destruct (a_count x =? 0); eexists _, _; (split; [reflexivity | done]).
  - eapply change_ok; [exact Hp | exact H | ..].
    + intros V. apply orb_false_iff in V as [V1 V2]. unfold wlibc_acl_set_tag_type, with_entry. rewrite V1, V2. eexists. reflexivity.
    + intros e V E. unfold wlibc_acl_set_tag_type, with_entry. rewrite <- negb_orb, V. cbn [negb]. by rewrite (SM_bind_Some _ _ _ _ _ _ _ (R i e E)).
  - eapply change_ok; [exact Hp | exact H | ..].
    + intros V. unfold wlibc_acl_set_flagset, with_entry. rewrite V. eexists. reflexivity.
    + intros e V E. unfold wlibc_acl_set_flagset, with_entry. rewrite V. cbn [negb]. by rewrite (SM_bind_Some _ _ _ _ _ _ _ (R i e E)).
  - eapply change_ok; [exact Hp | exact H | ..].
    + intros V. unfold wlibc_acl_set_permset, with_entry. rewrite V. eexists. reflexivity.
    + intros e V E. unfold wlibc_acl_set_permset, with_entry. rewrite V. cbn [negb]. by rewrite (SM_bind_Some _ _ _ _ _ _ _ (R i e E)).
  - unfold wlibc_acl_set_qualifier, with_entry. eapply change_ok; [exact Hp | exact H | ..].
    + intros V. unfold change in H. destruct (l !! i) as [e|] eqn:E; [|done]. rewrite (SM_bind_Some _ _ _ _ _ _ _ (R i e E)). rewrite Z.ltb_antisym, V. eexists. reflexivity.
    + intros e V E. rewrite (SM_bind_Some _ _ _ _ _ _ _ (R i e E)). by rewrite Z.ltb_antisym, V.
  - destruct (l !! j) as [c|] eqn:E; [|done]. cbn [mbind option_bind] in H. eapply change_ok; [exact Hp | exact H | done |].
    intros e _ _. unfold wlibc_acl_copy_entry, with_entry. by rewrite (SM_bind_Some _ _ _ _ _ _ _ (R j c E)).
Qed.

Lemma run_ops_ok a cap os : forall l rs l' p s, acl_is a cap l p -> list_ops cap l os = Some (rs, l') ->
  exists p' s', run_ops a os p s = Some ((rs, p'), s') /\ acl_is a cap l' p'.
Proof.
  induction os as [|o os IH]; intros l rs l' p s Hi H; cbn [run_ops list_ops] in *; [injection H as <- <-; by exists p, s|].
  destruct (list_op cap l o) as [[r l1]|] eqn:E; [|done]. cbn [mbind option_bind] in H. destruct (list_ops cap l1 os) as [[rs1 l2]|] eqn:E1; [|done]. injection H as <- <-.
  destruct (run_op_ok a cap l o r l1 p s Hi E) as (p2 & s2 & R & Hi2). destruct (IH l1 rs1 l2 p2 s2 Hi2 E1) as (p3 & s3 & R2 & Hi3).
  exists p3, s3. split; [|done]. rewrite (SM_bind_Some _ _ _ _ _ _ _ R). by rewrite (SM_bind_Some _ _ _ _ _ _ _ R2).
Qed.

(** A new list. *)
Lemma init_ok n p s : 1 <= n <= 862 -> acl_address (acls p) <> 0 -> malloc_ok (offset_of_entries + n * sizeof_entry) = true ->
  exists p', wlibc_acl_init n p s = Some ((acl_address (acls p), p'), s) /\ acl_is (acl_address (acls p)) n [] p'.
Proof.
  intros Hn Ha Hm. eexists. split.
  - unfold wlibc_acl_init. rewrite (proj2 (Z.ltb_ge n 0)) by lia. rewrite (proj2 (Z.eqb_neq n 0)) by lia. cbn [negb].
    rewrite wrap_small by (unfold offset_of_entries, sizeof_entry; lia). rewrite Hm. rewrite (SM_bind_Some _ _ p s p p s) by reflexivity.
    rewrite (SM_bind_Some _ _ _ _ _ _ _ (put_acl_ok _ _ _ _)). reflexivity.
  - apply acl_is_put; [done | |].
    + pose proof (holds_new n ltac:(lia)) as N. by rewrite (proj2 (Z.eqb_neq n 0)) in N by lia.
    + unfold RtlCreateAcl, offset_of_entries, sizeof_entry. rewrite (proj2 (Z.leb_le _ _)) by lia. cbn -[Z.add Z.mul]. lia.
Qed.

(** C21: a list refines a sequence of entries: from a new list with room for [n]
    entries, every sequence of creating, deleting, copying and changing entries that
    stays within the room gives the results, and leaves the entries, of the same
    operations on a sequence, errors included. *)
Theorem acl_refines (n : Z) (os : list acl_op) rs l p s :
  1 <= n <= 862 -> acl_address (acls p) <> 0 -> malloc_ok (offset_of_entries + n * sizeof_entry) = true -> list_ops n [] os = Some (rs, l) ->
  exists a p' p'' s', wlibc_acl_init n p s = Some ((a, p'), s) /\ run_ops a os p' s = Some ((rs, p''), s') /\ acl_is a n l p''.
Proof.
  intros Hn Ha Hm H. destruct (init_ok n p s Hn Ha Hm) as (p' & E & Hi). destruct (run_ops_ok _ _ _ _ _ _ p' s Hi H) as (p'' & s' & R & F).
  by exists (acl_address (acls p)), p', p'', s'.
Qed.

(** ** Growing *)

(** a list that is full is grown to twice the size of its entries, which
    leaves out its header: from two entries on there is room for the new one, but the
    second entry of a list for one reaches behind the block, so that it cannot be
    filled in. *)
Theorem acl_growth (a : Z) l x p s (q : sid) :
  acls p !! a = Some x -> holds l x -> a_room x = offset_of_entries + sizeof_entry * zlen l -> 1 <= zlen l <= 431 ->
  malloc_ok (152 * zlen l) = true -> acl_address (delete a (acls p)) <> 0 ->
  exists b p', wlibc_acl_create_entry (Some a) true p s = Some (((0, (b, Some (b, zlen l))), p'), s) /\
    (2 <= zlen l -> exists x', acls p' !! b = Some x' /\ holds (l ++ [blank]) x') /\
    (zlen l = 1 -> wlibc_acl_set_qualifier (Some (b, zlen l)) q p' s = None).
Proof.
  intros Ha Hh Hr Hl Hm Hb. destruct Hh as (Hc & Hz & _ & R1 & R2 & R3 & He). unfold offset_of_entries, sizeof_entry in *. set (b := acl_address (delete a (acls p))) in *.
  set (y := Acl (152 * zlen l) (a_revision x) (a_zero1 x) (152 * zlen l) (zlen l) (a_zero2 x) (a_entries x)).
  set (p1 := with_acls p (<[b := y]> (delete a (acls p)))). assert (acls p1 !! b = Some y) as Hy by apply lookup_insert_eq.
  set (y' := with_entries y (zlen l + 1) (<[zlen l := blank]> (a_entries y))).
  assert (entry_at y (zlen l) = zero_entry) as Z0 by (change (entry_at y) with (entry_at x); by rewrite He, lookup_ge_None_2).
  assert (create_entry a p s = Some (((0, (b, Some (b, zlen l))), with_acls p1 (<[b := y']> (acls p1))), s)) as E.
  { unfold create_entry. rewrite (SM_bind_Some _ _ _ _ _ _ _ (acl_at_ok a x p s Ha)). unfold offset_of_entries, sizeof_entry. rewrite Hc.
    rewrite (wrap_small 16) by lia. rewrite Z.eqb_refl. cbn [negb]. rewrite (wrap_small 64), (proj2 (Z.ltb_lt _ _)) by lia.
    rewrite (SM_bind_Some _ _ p s (Some b) p1 s).
    - rewrite (SM_bind_Some _ _ _ _ _ _ _ (acl_at_ok b y p1 s Hy)). cbn [y a_count]. rewrite Z0. rewrite room_ok by (cbn [y a_room]; unfold offset_of_entries, sizeof_entry; lia). cbn [negb].
      rewrite (SM_bind_Some _ _ _ _ _ _ _ (put_acl_ok _ _ _ _)). rewrite wrap_small by lia. reflexivity.
    - rewrite wrap_small by lia. replace (76 * zlen l * 2) with (152 * zlen l) by lia. rewrite Hm. rewrite (SM_bind_Some _ _ p s p p s) by reflexivity. reflexivity. }
  eexists b, _. split; [exact E|]. split.
  - intros H2. exists y'. split; [apply lookup_insert_eq|]. apply holds_snoc; [|done|cbn [y a_room]; unfold offset_of_entries, sizeof_entry; lia].
    unfold holds. cbn [y a_count a_size a_room a_revision a_zero1 a_zero2]. unfold offset_of_entries, sizeof_entry. repeat split; try done; lia.
  - intros H1. unfold wlibc_acl_set_qualifier, with_entry. unfold mbind at 1, SM_bind at 1, mbind at 1, M_bind at 1. unfold read_entry. cbn [fst snd].
    rewrite (SM_bind_Some _ _ _ _ y' (with_acls p1 (<[b := y']> (acls p1))) s) by (apply acl_at_ok, lookup_insert_eq).
    unfold in_room, offset_of_entries, sizeof_entry. cbn [y' y with_entries a_room]. by rewrite H1.
Qed.

(** ** Going through a list *)

(** an entry is never followed by another one: in a list of at least one entry,
    a pointer that asks for the next entry and is not at the end stays where it is. *)
Theorem next_never_advances (a : Z) x (i : Z) p s : acls p !! a = Some x -> a <> 0 -> 1 <= a_count x -> 0 <= i < a_count x ->
  exists r q s', wlibc_acl_get_entry a ACL_NEXT_ENTRY true (Some (a, i)) p s = Some (((r, q), p), s') /\
    ((r = 0 /\ q = None /\ i = a_count x - 1) \/ (q = Some (a, i) /\ i < a_count x - 1 /\ (r = -1 /\ errno s' = ESRCH <-> i = 0))).
Proof.
  intros Ha H0 Hc Hi. unfold wlibc_acl_get_entry. rewrite (proj2 (Z.eqb_neq a 0) H0). cbn [Z.eqb Pos.eqb ACL_NEXT_ENTRY ACL_FIRST_ENTRY ACL_LAST_ENTRY negb andb].
  rewrite (SM_bind_Some _ _ _ _ _ _ _ (acl_at_ok a x p s Ha)). rewrite Z.eqb_refl. cbn [andb].
  destruct (Z.leb_spec 1 i), (Z.ltb_spec i (a_count x)), (Z.ltb_spec 1 (a_count x)); cbn [andb negb]; try lia.
  - eexists _, _, s. split; [reflexivity|]. destruct (Z.eqb_spec i (a_count x - 1)); [by left | right]. split; [done|]. split; [lia|]. split; [by intros [? _] | lia].
  - assert (i = 0) as -> by lia. eexists _, _, _. split; [reflexivity|]. right. split; [done|]. split; [lia|]. done.
  - assert (i = 0) as -> by lia. eexists _, _, s. split; [reflexivity|]. rewrite (proj2 (Z.eqb_eq _ _)) by lia. left. split; [done|]. split; [done | lia].
Qed.
End Lists.

(** ** The list of a file *)

(** The list of a file is read back as it was set, as long as the descriptor fits in
    the block; an entry of a program takes 76 bytes. *)
Class ListedFile {K : Type} `{StatKernel K} (h : Z) (dacl : K -> list ace) : Prop := {
  list_set l k : exists k', NtSetSecurityObject h DACL_SECURITY_INFORMATION (Descriptor None None (Some l)) k = (STATUS_SUCCESS, k') /\ dacl k' = l;
  list_query n k : Forall (fun a => zlen (SubAuthority (AceSid a)) <= SID_MAX_SUB_AUTHORITIES) (dacl k) -> sizeof_SECURITY_DESCRIPTOR_RELATIVE + offset_of_entries + sizeof_entry * zlen (dacl k) <= n ->
    exists len, NtQuerySecurityObject h DACL_SECURITY_INFORMATION n k = (STATUS_SUCCESS, Descriptor None None (Some (dacl k)), len);
  list_large n k : n < sizeof_SECURITY_DESCRIPTOR_RELATIVE + acl_bytes (dacl k) ->
    exists d len, NtQuerySecurityObject h DACL_SECURITY_INFORMATION n k = (STATUS_BUFFER_TOO_SMALL, d, len)
}.

Section Files.
Context {K : Type} {A : Allocator} {AH : AclHeap} {SK : StatKernel K}.
Context (h : Z) (dacl : K -> list ace) {LF : ListedFile h dacl} (alloc_ok : forall n, malloc_ok n = true).
Implicit Types (x : acl) (l : list acl_entry) (p : acl_state) (s : state K).

(** An entry that the program made. *)
Definition proper (e : acl_entry) : Prop := (e_type e = ACL_EXTENDED_ALLOW \/ e_type e = ACL_EXTENDED_DENY) /\ e_size e = sizeof_entry /\
  zlen (SubAuthority (e_sid e)) <= SID_MAX_SUB_AUTHORITIES.

Definition to_ace (e : acl_entry) : ace := Ace (e_type e) (e_flags e) (e_mask e) (e_sid e).

Lemma aces_of_holds l x : holds l x -> aces_of x = to_ace <$> l.
Proof.
  intros (Hc & _ & _ & _ & _ & _ & He). unfold aces_of. rewrite Hc. apply list_eq. intros i. rewrite !list_lookup_fmap.
  destruct (l !! i) as [e|] eqn:E.
  - rewrite (lookup_seqZ_lt 0) by (pose proof (lookup_lt_Some _ _ _ E); lia). cbn. replace (0 + Z.of_nat i) with (Z.of_nat i) by lia. by rewrite He, E.
  - rewrite lookup_seqZ_ge by (apply lookup_ge_None in E; lia). done.
Qed.

Lemma copy_holds l : forall l0 x, holds l0 x -> Forall proper l -> offset_of_entries + sizeof_entry * (zlen l0 + zlen l) <= a_room x ->
  holds (l0 ++ l) (copy_aces (to_ace <$> l) x) /\ a_room (copy_aces (to_ace <$> l) x) = a_room x.
Proof.
  induction l as [|e l IH]; intros l0 x Hh Hp Hr; cbn [fmap list_fmap copy_aces]; [by rewrite app_nil_r|]. apply Forall_cons in Hp as [(Ht & Hs & _) Hp].
  pose proof Hh as (Hc & _ & Hb & _). cbn [length] in Hr. rewrite Nat2Z.inj_succ in Hr. unfold offset_of_entries, sizeof_entry in *. cbn [to_ace AceType AceFlags Mask AceSid].
  assert ((e_type e =? ACCESS_ALLOWED_ACE_TYPE) || (e_type e =? ACCESS_DENIED_ACE_TYPE) = true) as -> by (by destruct Ht as [-> | ->]).
  rewrite Hc. replace (AclEntry (e_type e) (e_flags e) 76 (e_mask e) (e_sid e)) with e by (destruct e; cbn in *; congruence).
  rewrite (app_assoc l0 [e] l : l0 ++ e :: l = _). apply (IH (l0 ++ [e]) (with_entries x (u16 (zlen l0 + 1)) (<[zlen l0 := e]> (a_entries x)))); [|done|].
  - apply holds_snoc; [done | apply wrap_small; lia | unfold offset_of_entries, sizeof_entry; lia].
  - cbn [with_entries a_room]. rewrite length_app. cbn [length]. lia.
Qed.

Lemma set_acl_ok a cap l p s : acl_is a cap l p -> exists s', set_acl h a p s = Some ((0, p), s') /\ dacl (kernel s') = to_ace <$> l.
Proof.
  intros (Ha & x & Hx & Hh & Hr). destruct (list_set (to_ace <$> l) (kernel s)) as (k & Q & Hk). exists (with_kernel s k). split; [|done].
  pose proof Hh as (Hc & _ & Hb & _). unfold offset_of_entries, sizeof_entry in Hb.
  unfold set_acl. rewrite (proj2 (Z.eqb_neq a 0) Ha). rewrite (SM_bind_Some _ _ p s (Some (to_ace <$> l)) p s).
  - rewrite (SM_bind_Some _ _ p s (kernel s) p s) by reflexivity. by rewrite Q.
  - rewrite (SM_bind_Some _ _ _ _ _ _ _ (acl_at_ok a x p s Hx)). rewrite <- (aces_of_holds l x Hh).
    destruct (Z.eqb_spec (a_count x) 0); cbn [orb]; [done|]. by rewrite room_ok by (unfold offset_of_entries, sizeof_entry; lia).
Qed.

(** a list of up to six entries that is set for a file is the list that is read
    from it. *)
Theorem acl_set_get a cap l p s :
  acl_is a cap l p -> Forall proper l -> 1 <= zlen l <= 6 -> acl_address (acls p) <> 0 ->
  exists s' b p', set_acl h a p s = Some ((0, p), s') /\ get_acl h p s' = Some ((b, p'), s') /\ acl_is b (zlen l) l p'.
Proof.
  intros Hi Hp Hl Hb. destruct (set_acl_ok a cap l p s Hi) as (s' & E & Hd). destruct (init_ok (zlen l) p s' ltac:(lia) Hb (alloc_ok _)) as (p1 & E1 & Hn & y & Hy & Hh & Hr).
  destruct (list_query 512 (kernel s')) as (len & Q).
  { rewrite Hd. apply Forall_fmap. eapply Forall_impl; [exact Hp|]. by intros e (_ & _ & H). }
  { rewrite Hd, length_fmap. unfold sizeof_SECURITY_DESCRIPTOR_RELATIVE, offset_of_entries, sizeof_entry. lia. }
  exists s', (acl_address (acls p)). eexists. split; [done|]. split.
  - unfold get_acl. rewrite alloc_ok. cbn [negb]. rewrite (SM_bind_Some _ _ p s' (kernel s') p s') by reflexivity. rewrite Q. change (ok STATUS_SUCCESS) with true.
    rewrite (SM_bind_Some _ _ p s' (Some (Descriptor None None (Some (dacl (kernel s'))))) p s') by done.
    rewrite (SM_bind_Some _ _ p s' (dacl (kernel s')) p s') by done. rewrite Hd, length_fmap. rewrite (SM_bind_Some _ _ _ _ _ _ _ E1).
    rewrite (SM_bind_Some _ _ _ _ _ _ _ (acl_at_ok _ y p1 s' Hy)). rewrite (SM_bind_Some _ _ _ _ _ _ _ (put_acl_ok _ _ _ _)). reflexivity.
  - destruct (copy_holds l [] y Hh Hp) as [C1 C2]; [rewrite Hr; cbn [length]; lia|]. apply acl_is_put; [done | exact C1 | congruence].
Qed.

(** the list of a file whose descriptor does not fit in 512 bytes cannot be
    read: the query is repeated with the size of the first block. *)
Theorem acl_large_unreadable p s : 492 < acl_bytes (dacl (kernel s)) -> exists s', get_acl h p s = Some ((0, p), s') /\ errno s' = ERANGE.
Proof.
  intros H. destruct (list_large 512 (kernel s)) as (d & len & Q); [unfold sizeof_SECURITY_DESCRIPTOR_RELATIVE; lia|].
  eexists. split.
  - unfold get_acl. rewrite alloc_ok. cbn [negb]. rewrite (SM_bind_Some _ _ p s (kernel s) p s) by reflexivity. rewrite Q, alloc_ok. reflexivity.
  - reflexivity.
Qed.
End Files.

(** ** A machine with one file *)
Module AclMachine.

(** Its list. *)
Definition K : Type := list ace.

#[export] Instance machine : StatKernel K := {
  NtQueryFsDevice _ _ := (STATUS_SUCCESS, FILE_DEVICE_DISK);
  NtQueryStatInformation _ _ := (STATUS_SUCCESS, StatInformation 0 0 0 0 0 0 0 0 0 0);
  NtQuerySecurityObject _ _ n k :=
    if sizeof_SECURITY_DESCRIPTOR_RELATIVE + acl_bytes k <=? n
    then (STATUS_SUCCESS, Descriptor None None (Some k), 0) else (STATUS_BUFFER_TOO_SMALL, Descriptor None None None, 1024);
  NtSetSecurityObject _ _ d _ := (STATUS_SUCCESS, default [] (sd_dacl d));
  NtGetReparsePoint _ _ := (STATUS_OBJECT_NAME_NOT_FOUND, ReparsePoint 0 [] []);
  NtQueryFsSize _ _ := (STATUS_SUCCESS, (512, 8));
  NtQueryFsVolume _ _ := (STATUS_SUCCESS, 99);
  NtQueryBasic _ _ := (STATUS_SUCCESS, BasicInformation 0 0 0 0 0);
  NtSetBasic _ _ k := (STATUS_SUCCESS, k);
  GetSystemTimeAsFileTime _ := 0;
  LookupAccountSidW _ _ := false;
  RtlAcquirePrivilege k := (STATUS_SUCCESS, k);
  RtlReleasePrivilege k := k
}.

Lemma bytes_bound (l : list ace) : Forall (fun a => zlen (SubAuthority (AceSid a)) <= SID_MAX_SUB_AUTHORITIES) l -> acl_bytes l <= 8 + 76 * zlen l.
Proof.
  induction 1 as [|a l Ha _ IH]; [done|]. cbn [acl_bytes fold_right length]. unfold acl_bytes in IH. unfold AceSize, SECURITY_SID_SIZE, SID_MAX_SUB_AUTHORITIES in *. lia.
Qed.

#[export] Instance machine_file : ListedFile 1 (fun k : K => k).
Proof.
  split.
  - intros l k. by eexists.
  - intros n k Hs Hn. pose proof (bytes_bound k Hs). cbn. rewrite (proj2 (Z.leb_le _ _)); [by eexists|]. unfold offset_of_entries, sizeof_entry in *. lia.
  - intros n k Hn. cbn. rewrite (proj2 (Z.leb_gt _ _)) by lia. by eexists _, _.
Qed.

#[export] Instance addresses : AclHeap := fun m => 4096 * Z.of_nat (S (stdpp.base.size m)).
Lemma address_ok m : acl_address m <> 0.
Proof. unfold acl_address, addresses. lia. Qed.

#[export] Instance ample : Allocator := fun _ => true.

Definition nothing : acl_state := Acls ∅ initial_paths.
Definition start (k : K) : state K := State [] 0 0 0 0 0 k.

(** The first entry of a list for one entry is made. *)
Definition one : acl_state := Acls {[4096 := Acl 84 ACL_REVISION 0 84 1 0 {[0 := blank]}]} initial_paths.

Lemma one_is : acl_is 4096 1 [blank] one.
Proof. split; [done|]. eexists. split; [apply lookup_singleton_eq|]. split; [|done]. unfold holds. repeat split; try done. by intros [|i]. Qed.
End AclMachine.
Import AclMachine.

Lemma acl_refines_witness : exists a p' p'' s', wlibc_acl_init 2 nothing (start []) = Some ((a, p'), start []) /\
  run_ops a [Create; SetTag 0 1; SetPerms 0 3; SetFlags 0 32; Create; Copy 1 0; Delete 0] p' (start []) = Some (([0; 0; 0; -1; 0; 0; 0], p''), s') /\
  acl_is a 2 [AclEntry 1 0 76 3 (Sid 0 0 [])] p''.
Proof. exact (acl_refines 2 [Create; SetTag 0 1; SetPerms 0 3; SetFlags 0 32; Create; Copy 1 0; Delete 0] [0; 0; 0; -1; 0; 0; 0] [AclEntry 1 0 76 3 (Sid 0 0 [])] nothing (start []) ltac:(lia) (address_ok _) eq_refl eq_refl). Defined.

Lemma acl_growth_witness : exists b p', wlibc_acl_create_entry (Some 4096) true one (start []) = Some (((0, (b, Some (b, 1))), p'), start []) /\
  wlibc_acl_set_qualifier (Some (b, 1)) USERS p' (start []) = None.
Proof.
  destruct one_is as (_ & x & Hx & Hh & Hr).
  destruct (acl_growth 4096 [blank] x one (start []) USERS Hx Hh Hr ltac:(cbn; lia) eq_refl (address_ok _)) as (b & p' & E & _ & H).
  exists b, p'. split; [exact E | apply H; reflexivity].
Defined.

Lemma next_never_advances_witness : exists r q s', wlibc_acl_get_entry 4096 ACL_NEXT_ENTRY true (Some (4096, 0)) (Acls {[4096 := Acl 160 2 0 160 2 0 ∅]} initial_paths) (start []) =
  Some (((r, q), Acls {[4096 := Acl 160 2 0 160 2 0 ∅]} initial_paths), s') /\
  ((r = 0 /\ q = None /\ 0 = 2 - 1) \/ (q = Some (4096, 0) /\ 0 < 2 - 1 /\ (r = -1 /\ errno s' = ESRCH <-> 0 = 0))).
Proof.
  exact (next_never_advances 4096 (Acl 160 2 0 160 2 0 ∅) 0 (Acls {[4096 := Acl 160 2 0 160 2 0 ∅]} initial_paths) (start []) eq_refl ltac:(discriminate) ltac:(cbn; lia) ltac:(cbn; lia)).
Defined.

Lemma acl_set_get_witness : exists s' b p', set_acl 1 4096 one (start []) = Some ((0, one), s') /\ get_acl 1 one s' = Some ((b, p'), s') /\ acl_is b 1 [blank] p'.
Proof.
  refine (acl_set_get 1 (fun k => k) (fun _ => eq_refl) 4096 1 [blank] one (start []) one_is _ _ _); [|cbn; lia|apply address_ok].
  constructor; [|constructor]. split; [by left | done].
Defined.

Lemma acl_large_unreadable_witness : exists s', get_acl 1 nothing (start (replicate 21 (Ace 0 0 3 USERS))) = Some ((0, nothing), s') /\ errno s' = ERANGE.
Proof. exact (acl_large_unreadable 1 (fun k => k) (fun _ => eq_refl) nothing (start (replicate 21 (Ace 0 0 3 USERS))) eq_refl). Defined.
