(* ===== verification/Poll.v ===== *)
(** * poll and select

    src/poll: descriptors are looked at again and again until one is ready or the
    time has passed; select is poll on sets of descriptors. *)

From S2P Require Import Signal.
From S2P Require Import Prelude Errno Buffer FdTable FileIo Path PathFacts Time.

(** ** Sets of descriptors *)

Definition FD_SETSIZE : Z := 1024.

(** [fd_set]: 128 masks of 64 bits. *)
Abbreviation fd_set := (list Z).

Definition fd_bit (fd : Z) : Z := u64 (Z.shiftl 1 (Z.rem fd 64)).
Definition mask_of (set : fd_set) (fd : Z) : Z := default 0 (set !! Z.to_nat (fd ÷ 64)).

Definition FAST_FDISSET (fd : Z) (set : fd_set) : bool := negb (Z.land (mask_of set fd) (fd_bit fd) =? 0).
Definition FAST_FDSET (fd : Z) (set : fd_set) : fd_set := <[Z.to_nat (fd ÷ 64) := Z.lor (mask_of set fd) (fd_bit fd)]> set.
Definition FAST_FDZERO : fd_set := replicate 128 0.

Definition fd_out (fd : Z) : bool := (fd >=? FD_SETSIZE) || (fd <? 0).

(** The set, [None] for a null pointer, and [errno] when it is set. *)
Definition wlibc_fd_clr (fd : Z) (set : option fd_set) : option fd_set * option Z :=
  match set with
  | None => (None, Some EINVAL)
  | Some s =>
      if fd_out fd then (Some s, Some EINVAL)
      else (Some (<[Z.to_nat (fd ÷ 64) := Z.land (mask_of s fd) (u64 (Z.lnot (fd_bit fd)))]> s), None)
  end.

Definition wlibc_fd_set (fd : Z) (set : option fd_set) : option fd_set * option Z :=
  match set with
  | None => (None, Some EINVAL)
  | Some s => if fd_out fd then (Some s, Some EINVAL) else (Some (FAST_FDSET fd s), None)
  end.

Definition wlibc_fd_zero (set : option fd_set) : option fd_set * option Z :=
  match set with None => (None, Some EINVAL) | Some _ => (Some FAST_FDZERO, None) end.

Definition wlibc_fd_isset (fd : Z) (set : option fd_set) : Z * option Z :=
  match set with
  | None => (0, Some EINVAL)
  | Some s => if fd_out fd then (0, Some EINVAL) else (if FAST_FDISSET fd s then 1 else 0, None)
  end.

(** ** poll *)

Definition POLLIN : Z := 0x001.
Definition POLLPRI : Z := 0x002.
Definition POLLOUT : Z := 0x004.
Definition POLLERR : Z := 0x008.
Definition POLLHUP : Z := 0x010.
Definition POLLNVAL : Z := 0x020.
Definition POLLRDNORM : Z := 0x040.
Definition POLLWRNORM : Z := 0x100.

Record pollfd := Pollfd { p_fd : Z; p_events : Z; p_revents : Z }.

Inductive pipe_state := FILE_PIPE_CONNECTED_STATE | FILE_PIPE_DISCONNECTED_STATE | FILE_PIPE_CLOSING_STATE | FILE_PIPE_other_STATE.
Record pipe_information := PipeInformation { WriteQuotaAvailable : Z; ReadDataAvailable : Z; NamedPipeState : pipe_state }.

(** The events that wait on a console, unless the call fails; what is known of a pipe;
    the clock; and what happens meanwhile. *)
Class PollKernel (K : Type) := {
  PeekConsoleInputW : Z -> K -> option Z;
  NtQueryPipe : Z -> K -> NTSTATUS * pipe_information;
  poll_clock : K -> Z;
  mm_pause : K -> K
}.

Definition READABLE : Z := Z.lor POLLIN POLLRDNORM.
Definition WRITABLE : Z := Z.lor POLLOUT POLLWRNORM.

Definition hung_up (i : pipe_information) : bool :=
  match NamedPipeState i with FILE_PIPE_DISCONNECTED_STATE | FILE_PIPE_CLOSING_STATE => true | _ => false end.

(** What a call ends with: the process may end in a handler. *)
Inductive ended (X : Type) := Returned (x : X) | Ended (code : Z).
Arguments Returned {X}.
Arguments Ended {X}.

Section Poll.
Context {K : Type} {KN : Kernel K} {A : Allocator} {PL : PollKernel K} {HD : Handlers}.

(** The events of one descriptor. *)
Definition console_revents (k : K) (i : fdinfo) (events revents : Z) : Z :=
  match PeekConsoleInputW (handle i) k with
  | None => POLLNVAL
  | Some n =>
      if has (flags i) O_RDWR then (if n >? 0 then Z.land events READABLE else Z.land events WRITABLE)
      else if has (flags i) O_WRONLY then Z.land events WRITABLE
      else if n >? 0 then Z.land events READABLE else revents
  end.

Definition file_revents (i : fdinfo) (events : Z) : Z :=
  if has (flags i) O_RDWR then Z.land events (Z.lor READABLE WRITABLE)
  else if has (flags i) O_WRONLY then Z.land events WRITABLE
  else Z.land events READABLE.

Definition pipe_revents (k : K) (i : fdinfo) (events revents : Z) : Z :=
  let '(status, p) := NtQueryPipe (handle i) k in
  if negb (bool_decide (status = STATUS_SUCCESS)) then POLLNVAL
  else if has (flags i) O_RDWR then
    let r := if WriteQuotaAvailable p >? 0 then Z.land events WRITABLE else revents in
    if ReadDataAvailable p >? 0 then Z.land events READABLE else r
  else if has (flags i) O_WRONLY then
    let r := if WriteQuotaAvailable p >? 0 then Z.land events WRITABLE else revents in
    if hung_up p then Z.lor r POLLERR else r
  else
    let r := if ReadDataAvailable p >? 0 then Z.land events READABLE else revents in
    if hung_up p then Z.lor r POLLHUP else r.

Definition revents_of (k : K) (i : fdinfo) (events revents : Z) : Z :=
  match type i with
  | INVALID_HANDLE => POLLNVAL
  | CONSOLE_HANDLE => console_revents k i events revents
  | NULL_HANDLE | FILE_HANDLE | DIRECTORY_HANDLE => file_revents i events
  | PIPE_HANDLE => pipe_revents k i events revents
  end.

Definition poll_one (k : K) (i : fdinfo) (p : pollfd) : pollfd := Pollfd (p_fd p) (p_events p) (revents_of k i (p_events p) (p_revents p)).

Definition ready (p : pollfd) : bool := negb (p_revents p =? 0).
Definition poll_all (k : K) (pinfo : list fdinfo) (fds : list pollfd) : list pollfd := zip_with (poll_one k) pinfo fds.
Definition count_ready (fds : list pollfd) : Z := zlen (filter (fun p => ready p = true) fds).

(** At most [fuel] rounds; [None] when there are more. [duetime] is 0 without a
    timeout. *)
Fixpoint poll_rounds (fuel : nat) (pinfo : list fdinfo) (fds : list pollfd) (timeout : bool) (duetime : Z) : M K (option (Z * list pollfd)) :=
  match fuel with
  | O => mret None
  | S fuel =>
      s ← get;
      let fds := poll_all (kernel s) pinfo fds in
      let result := count_ready fds in
      let current := if timeout then poll_clock (kernel s) else 0 in
      if (result =? 0) && (current <=? duetime) then
        _ ← set_kernel (mm_pause (kernel s));
        poll_rounds fuel pinfo fds timeout duetime
      else mret (Some (result, fds))
  end.

Definition do_poll (fuel : nat) (pinfo : list fdinfo) (fds : list pollfd) (timeout : option timespec) : M K (option (Z * list pollfd)) :=
  s ← get;
  match timeout with
  | None => poll_rounds fuel pinfo fds false 0
  | Some t =>
      match (a ← i64 (tv_sec t * ticks); b ← i64 (poll_clock (kernel s) + a); i64 (b + tv_nsec t ÷ 100)) with
      | None => UB
      | Some duetime => poll_rounds fuel pinfo fds true duetime
      end
  end.

Fixpoint get_fdinfos (garbage : list fdinfo) (fds : list pollfd) : M K (list fdinfo) :=
  match fds, garbage with
  | p :: fds, g :: garbage => i ← get_fdinfo (p_fd p) g; l ← get_fdinfos garbage fds; mret (i :: l)
  | _, _ => mret []
  end.

(** ** With a signal mask *)

Abbreviation PS := (SM sig_state K).

Definition run_sig {X} (m : Sig X) : PS (ended X) := fun t s =>
  match m (SigState (sig_table t) (thread t) (errno s) (events t)) with
  | Done x t => (_ ← set_errno (sig_errno t); mret (Returned x, t)) s
  | Exited c t => (_ ← set_errno (sig_errno t); mret (Ended c, t)) s
  | Undefined => None
  end.

Definition sizeof_fdinfo : Z := 24.

(** [garbage] is what the block of the table entries holds; [fds] without a list is a
    null pointer. [None] when there was not enough fuel. *)
Definition wlibc_common_poll (fuel : nat) (garbage : list fdinfo) (fds : option (list pollfd)) (timeout : option timespec) (sigmask : option Z) :
    PS (option (ended (Z * list pollfd))) :=
  match fds with
  | None => _ ← run_M (set_errno EINVAL); mret (Some (Returned (-1, [])))
  | Some fds =>
      if negb (malloc_ok (sizeof_fdinfo * zlen fds)) then _ ← run_M (set_errno ENOMEM); mret (Some (Returned (-1, fds)))
      else
        let fds := (fun p => Pollfd (p_fd p) (p_events p) 0) <$> fds in
        pinfo ← run_M (get_fdinfos garbage fds);
        old ← match sigmask with
              | Some m => run_sig ('(_, old) ← wlibc_sigprocmask SIG_SETMASK (Some m); mret old)
              | None => mret (Returned 0)
              end;
        match old with
        | Ended c => mret (Some (Ended c))
        | Returned old =>
            r ← run_M (do_poll fuel pinfo fds timeout);
            match r with
            | None => mret None
            | Some r =>
                back ← match sigmask with
                       | Some _ => run_sig (_ ← wlibc_sigprocmask SIG_SETMASK (Some old); mret ())
                       | None => mret (Returned ())
                       end;
                mret (Some (match back with Ended c => Ended c | Returned _ => Returned r end))
            end
        end
  end.

(** ** select *)

Definition sizeof_pollfd : Z := 8.

(** The descriptors that are asked about, in order. *)
Definition asked (nfds : Z) (r w e : fd_set) : list Z :=
  filter (fun i => FAST_FDISSET i r || FAST_FDISSET i w || FAST_FDISSET i e = true) (seqZ 0 nfds).

Definition events_of (r w e : fd_set) (fd : Z) : Z :=
  let n := 0 in
  let n := if FAST_FDISSET fd r then Z.lor n POLLIN else n in
  let n := if FAST_FDISSET fd w then Z.lor n POLLOUT else n in
  if FAST_FDISSET fd e then Z.lor n POLLPRI else n.

Record selected := Selected { sel_r : fd_set; sel_w : fd_set; sel_e : fd_set; sel_count : Z; sel_error : bool }.

(** One entry is put in the sets. *)
Definition select_one (x : selected) (p : pollfd) : selected :=
  let n := p_revents p in
  if (n =? 0) || has n (Z.lor POLLERR POLLHUP) then x
  else
    let x := if has n POLLNVAL then Selected (sel_r x) (sel_w x) (sel_e x) (sel_count x) true else x in
    let x := if has n POLLIN then Selected (FAST_FDSET (p_fd p) (sel_r x)) (sel_w x) (sel_e x) (sel_count x + 1) (sel_error x) else x in
    let x := if has n POLLOUT then Selected (sel_r x) (FAST_FDSET (p_fd p) (sel_w x)) (sel_e x) (sel_count x + 1) (sel_error x) else x in
    if has n POLLPRI then Selected (sel_r x) (sel_w x) (FAST_FDSET (p_fd p) (sel_e x)) (sel_count x + 1) (sel_error x) else x.

Definition fill_sets (fds : list pollfd) : selected := foldl select_one (Selected FAST_FDZERO FAST_FDZERO FAST_FDZERO 0 false) fds.

(** The result and the sets; a null pointer stands for an empty set and stays one. *)
Definition wlibc_common_select (fuel : nat) (garbage : list fdinfo) (nfds : Z) (r w e : option fd_set) (timeout : option timespec) (sigmask : option Z) :
    PS (option (ended (Z * (option fd_set * option fd_set * option fd_set)))) :=
  let same := (r, w, e) in
  if (nfds <? 0) || (nfds >? FD_SETSIZE) then _ ← run_M (set_errno EINVAL); mret (Some (Returned (-1, same)))
  else
    match r, w, e with
    | None, None, None => mret (Some (Returned (0, same)))
    | _, _, _ =>
        let rs := default FAST_FDZERO r in
        let ws := default FAST_FDZERO w in
        let es := default FAST_FDZERO e in
        let l := asked nfds rs ws es in
        if zlen l =? 0 then mret (Some (Returned (0, same)))
        else if negb (malloc_ok (sizeof_pollfd * zlen l)) then _ ← run_M (set_errno ENOMEM); mret (Some (Returned (-1, same)))
        else
          p ← wlibc_common_poll fuel garbage (Some ((fun i => Pollfd i (events_of rs ws es i) 0) <$> l)) timeout sigmask;
          match p with
          | None => mret None
          | Some (Ended c) => mret (Some (Ended c))
          | Some (Returned (n, fds)) =>
              if n =? -1 then mret (Some (Returned (-1, same)))
              else
                let x := fill_sets fds in
                let sets := (match r with Some _ => Some (sel_r x) | None => None end, match w with Some _ => Some (sel_w x) | None => None end,
                             match e with Some _ => Some (sel_e x) | None => None end) in
                if sel_error x then _ ← run_M (set_errno EBADF); mret (Some (Returned (-1, sets)))
                else mret (Some (Returned (sel_count x, sets)))
          end
    end.

End Poll.

(** ** What poll and select promise

    The sets of descriptors are sets; poll tells what is ready, and ends; select tells
    the same, except for pipes whose other end is closed. *)
(** ** Sets *)

Section Sets.
Implicit Types s : fd_set.

Definition set_wf s : Prop := length s = 128%nat.

Lemma fd_bit_pow fd : 0 <= fd -> fd_bit fd = 2 ^ (fd mod 64) /\ fd ÷ 64 = fd / 64.
Proof.
  intros H. split; [|by apply Z.quot_div_nonneg]. unfold fd_bit. rewrite Z.rem_mod_nonneg by lia. rewrite Z.shiftl_1_l. pose proof (Z.mod_pos_bound fd 64).
  apply wrap_small. split; [lia|]. apply Z.pow_lt_mono_r; lia.
Qed.

Definition member fd s : bool := Z.testbit (mask_of s fd) (fd mod 64).

Lemma isset_member fd s : 0 <= fd -> FAST_FDISSET fd s = member fd s.
Proof.
  intros H. unfold FAST_FDISSET, member. destruct (fd_bit_pow fd H) as [-> _]. pose proof (Z.mod_pos_bound fd 64).
  destruct (Z.testbit _ _) eqn:E; [apply negb_true_iff, Z.eqb_neq | apply negb_false_iff, Z.eqb_eq].
  - intros Z0. apply (f_equal (fun z => Z.testbit z (fd mod 64))) in Z0. rewrite Z.land_spec, E, Z.pow2_bits_true, Z.bits_0 in Z0 by lia. done.
  - apply Z.bits_inj. intros n. rewrite Z.land_spec, Z.bits_0, Z.pow2_bits_eqb by lia. destruct (Z.eqb_spec (fd mod 64) n) as [<-|]; [by rewrite E | apply andb_false_r].
Qed.

Lemma mask_insert fd fd' m s : set_wf s -> 0 <= fd < 1024 -> 0 <= fd' ->
  mask_of (<[Z.to_nat (fd ÷ 64) := m]> s) fd' = if fd / 64 =? fd' / 64 then m else mask_of s fd'.
Proof.
  intros W H H'. unfold mask_of. destruct (fd_bit_pow fd), (fd_bit_pow fd'); [lia..|]. assert (0 <= fd / 64 < 16) by (split; [apply Z.div_pos; lia | apply Z.div_lt_upper_bound; lia]).
  assert (0 <= fd' / 64) by (apply Z.div_pos; lia). replace (fd ÷ 64) with (fd / 64) by done. replace (fd' ÷ 64) with (fd' / 64) by done.
  destruct (Z.eqb_spec (fd / 64) (fd' / 64)) as [D|N].
  - rewrite <- D, list_lookup_insert_eq; [done|]. unfold set_wf in W. lia.
  - rewrite list_lookup_insert_ne by lia. done.
Qed.

Lemma div_mod_eq fd fd' : fd / 64 = fd' / 64 -> fd mod 64 = fd' mod 64 -> fd = fd'.
Proof. intros H1 H2. rewrite (Z.div_mod fd 64), (Z.div_mod fd' 64) by lia. by rewrite H1, H2. Qed.

Lemma member_set fd fd' s : set_wf s -> 0 <= fd < 1024 -> 0 <= fd' -> member fd' (FAST_FDSET fd s) = (fd =? fd') || member fd' s.
Proof.
  intros W H H'. unfold member, FAST_FDSET. rewrite mask_insert by done. destruct (fd_bit_pow fd) as [-> Q]; [lia|].
  pose proof (Z.mod_pos_bound fd 64). pose proof (Z.mod_pos_bound fd' 64). destruct (Z.eqb_spec (fd / 64) (fd' / 64)) as [D|D].
  - rewrite Z.lor_spec, Z.pow2_bits_eqb by lia. assert (mask_of s fd = mask_of s fd') as ->.
    { unfold mask_of. rewrite Q. destruct (fd_bit_pow fd' H') as [_ ->]. by rewrite D. }
    rewrite orb_comm. f_equal. destruct (Z.eqb_spec fd fd') as [->|N]; [apply Z.eqb_refl|]. apply Z.eqb_neq. intros E. by apply N, div_mod_eq.
  - destruct (Z.eqb_spec fd fd') as [->|]; done.
Qed.

Lemma member_clr fd fd' s : set_wf s -> 0 <= fd < 1024 -> 0 <= fd' ->
  member fd' (<[Z.to_nat (fd ÷ 64) := Z.land (mask_of s fd) (u64 (Z.lnot (fd_bit fd)))]> s) = negb (fd =? fd') && member fd' s.
Proof.
  intros W H H'. unfold member. rewrite mask_insert by done. destruct (fd_bit_pow fd) as [-> Q]; [lia|].
  pose proof (Z.mod_pos_bound fd 64). pose proof (Z.mod_pos_bound fd' 64). destruct (Z.eqb_spec (fd / 64) (fd' / 64)) as [D|D].
  - rewrite Z.land_spec. unfold wrap. rewrite Z.mod_pow2_bits_low, Z.lnot_spec, Z.pow2_bits_eqb by lia. assert (mask_of s fd = mask_of s fd') as ->.
    { unfold mask_of. rewrite Q. destruct (fd_bit_pow fd' H') as [_ ->]. by rewrite D. }
    rewrite andb_comm. f_equal. f_equal. destruct (Z.eqb_spec fd fd') as [->|N]; [apply Z.eqb_refl|]. apply Z.eqb_neq. intros E. by apply N, div_mod_eq.
  - destruct (Z.eqb_spec fd fd') as [->|]; done.
Qed.

Lemma member_zero fd : member fd FAST_FDZERO = false.
Proof.
  unfold member, mask_of, FAST_FDZERO. destruct (replicate 128 0 !! Z.to_nat (fd ÷ 64)) as [m|] eqn:E; [|apply Z.bits_0].
  apply lookup_replicate in E as [-> _]. apply Z.bits_0.
Qed.

(** the sets of descriptors are sets: zero gives the empty one, set adds and clr
    removes exactly one descriptor, and isset tells whether one is there; outside of
    the range they set [errno] and change nothing. *)
Theorem fd_sets (fd fd' : Z) s :
  set_wf s -> 0 <= fd' < FD_SETSIZE ->
  let isset s := (wlibc_fd_isset fd' (Some s)).1 in
  let bit (b : bool) := if b then 1 else 0 in
  (if (0 <=? fd) && (fd <? FD_SETSIZE) then
     (exists s', wlibc_fd_set fd (Some s) = (Some s', None) /\ set_wf s' /\ isset s' = bit ((fd =? fd') || (isset s =? 1))) /\
     (exists s', wlibc_fd_clr fd (Some s) = (Some s', None) /\ set_wf s' /\ isset s' = bit (negb (fd =? fd') && (isset s =? 1)))
   else wlibc_fd_set fd (Some s) = (Some s, Some EINVAL) /\ wlibc_fd_clr fd (Some s) = (Some s, Some EINVAL)) /\
  (exists s', wlibc_fd_zero (Some s) = (Some s', None) /\ set_wf s' /\ isset s' = 0).
Proof.
  intros W H isset bit. unfold FD_SETSIZE in H. assert (forall t, isset t = bit (member fd' t)) as E.
  { intros t. unfold isset, wlibc_fd_isset, fd_out, FD_SETSIZE. rewrite Z.geb_leb, (proj2 (Z.leb_gt _ _)), (proj2 (Z.ltb_ge _ _)) by lia. cbn [orb]. by rewrite isset_member by lia. }
  rewrite !E. assert (forall b, (bit b =? 1) = b) as B by (by intros []). rewrite !B. split.
  - unfold wlibc_fd_set, wlibc_fd_clr, fd_out. rewrite Z.geb_leb. destruct (Z.leb_spec 0 fd) as [L|L]; cbn [andb].
    + destruct (Z.ltb_spec fd FD_SETSIZE) as [U|U]; unfold FD_SETSIZE in *.
      * rewrite (proj2 (Z.leb_gt _ _)), (proj2 (Z.ltb_ge _ _)) by lia. cbn [orb]. split; eexists; (split; [reflexivity|]).
        -- split; [unfold set_wf, FAST_FDSET; by rewrite length_insert|]. by rewrite E, member_set by (done || lia).
        -- split; [unfold set_wf; by rewrite length_insert|]. by rewrite E, member_clr by (done || lia).
      * by rewrite (proj2 (Z.leb_le _ _)) by lia.
    + by rewrite (proj2 (Z.ltb_lt _ _)), orb_true_r by lia.
  - eexists. split; [reflexivity|]. split; [done|]. by rewrite E, member_zero.
Qed.
End Sets.

(** ** poll *)

Section PollFacts.
Context {K : Type} {KN : Kernel K} {A : Allocator} {PL : PollKernel K} {HD : Handlers}.
Implicit Types (t : sig_state) (s : state K).

(** What the table says of a descriptor. *)
Definition info_at s (fd : Z) : fdinfo :=
  if validate_fd_in (table s) fd then default (Fdinfo 0 INVALID_HANDLE 0 0) (table s !! Z.to_nat fd) else Fdinfo 0 INVALID_HANDLE 0 0.

(** What is reported of a descriptor. *)
Definition status_of s (fd events : Z) : Z := revents_of (kernel s) (info_at s fd) events 0.
Definition polled s (p : pollfd) : pollfd := Pollfd (p_fd p) (p_events p) (status_of s (p_fd p) (p_events p)).

Definition fresh (p : pollfd) : pollfd := Pollfd (p_fd p) (p_events p) 0.

Lemma valid_entry s fd : validate_fd_in (table s) fd = true -> exists e, table s !! Z.to_nat fd = Some e /\ 0 <= fd.
Proof.
  unfold validate_fd_in. destruct ((fd <? 0) || (fd >=? zlen (table s))) eqn:E; [done|]. apply orb_false_iff in E as [E _]. apply Z.ltb_ge in E.
  destruct (table s !! Z.to_nat fd) as [e|]; [|done]. by exists e.
Qed.

Lemma get_fdinfo_info s fd g : exists i, get_fdinfo fd g s = Some (i, s) /\ forall k n, revents_of k i n 0 = revents_of k (info_at s fd) n 0.
Proof.
  unfold get_fdinfo, info_at. rewrite (M_bind_Some _ _ _ (validate_fd_in (table s) fd) s) by done. destruct (validate_fd_in (table s) fd) eqn:E.
  - destruct (valid_entry s fd E) as (e & He & H0). exists e. split; [|by rewrite He]. unfold entry. by rewrite (proj2 (Z.leb_le 0 fd) H0), He.
  - eexists. split; [reflexivity|]. done.
Qed.

Lemma get_fdinfos_ok fds : forall g s, (length fds <= length g)%nat -> Forall (fun p => p_revents p = 0) fds ->
  exists l, get_fdinfos g fds s = Some (l, s) /\ forall k, poll_all k l fds = polled (with_kernel s k) <$> fds.
Proof.
  induction fds as [|p fds IH]; intros [|g gs] s Hl Hz; cbn [length] in Hl; try lia; [by exists [] | by exists []|].
  apply Forall_cons in Hz as [H0 Hz]. destruct (get_fdinfo_info s (p_fd p) g) as (i & E & Hi). destruct (IH gs s ltac:(lia) Hz) as (l & E2 & Hp).
  exists (i :: l). cbn [get_fdinfos]. rewrite (M_bind_Some _ _ _ _ _ E), (M_bind_Some _ _ _ _ _ E2). split; [done|]. intros k.
  unfold poll_all in *. cbn [zip_with fmap list_fmap]. rewrite Hp. f_equal. unfold poll_one, polled, status_of. by rewrite H0, Hi.
Qed.

Context (alloc_ok : forall n, malloc_ok n = true).

(** A call without a mask is the rounds from the fresh entries. *)
Lemma poll_starts fuel g fds timeout t s : (length fds <= length g)%nat ->
  exists l, (forall k, poll_all k l (fresh <$> fds) = polled (with_kernel s k) <$> fds) /\
    wlibc_common_poll fuel g (Some fds) timeout None t s =
    match do_poll fuel l (fresh <$> fds) timeout s with
    | Some (Some r, s') => Some ((Some (Returned r), t), s')
    | Some (None, s') => Some ((None, t), s')
    | None => None
    end.
Proof.
  intros Hl. destruct (get_fdinfos_ok (fresh <$> fds) g s) as (l & E & Hp).
  - by rewrite length_fmap.
  - apply Forall_fmap, Forall_forall. done.
  - exists l. split; [intros k; by rewrite Hp, <- list_fmap_compose|]. unfold wlibc_common_poll. rewrite alloc_ok. cbn [negb].
    change ((fun p => Pollfd (p_fd p) (p_events p) 0) <$> fds) with (fresh <$> fds).
    rewrite (SM_bind_Some _ _ t s l t s) by (unfold run_M; by rewrite (M_bind_Some _ _ _ _ _ E)).
    rewrite (SM_bind_Some _ _ t s (Returned 0) t s) by done. unfold mbind at 1, SM_bind at 1, mbind at 1, M_bind at 1. unfold run_M, mbind, M_bind.
    destruct (do_poll fuel l (fresh <$> fds) timeout s) as [[[r|] s']|]; reflexivity.
Qed.

(** The end of the time, if it can be told. *)
Definition deadline s (timeout : option timespec) (d : Z) : Prop :=
  match timeout with
  | None => d = 0
  | Some ts => (a ← i64 (tv_sec ts * ticks); b ← i64 (poll_clock (kernel s) + a); i64 (b + tv_nsec ts ÷ 100)) = Some d
  end.

Lemma do_poll_rounds fuel l fds timeout d s : deadline s timeout d ->
  do_poll fuel l fds timeout s = poll_rounds fuel l fds (match timeout with Some _ => true | None => false end) d s.
Proof. unfold deadline, do_poll. rewrite (M_bind_Some _ _ _ s s) by done. destruct timeout; [by intros -> | by intros ->]. Qed.

(** when a descriptor is ready poll tells so at once: it reports the events of
    every descriptor and returns how many have any. *)
Theorem poll_reports g fds timeout d t s :
  (length fds <= length g)%nat -> deadline s timeout d -> count_ready (polled s <$> fds) <> 0 ->
  wlibc_common_poll 1 g (Some fds) timeout None t s = Some ((Some (Returned (count_ready (polled s <$> fds), polled s <$> fds)), t), s).
Proof.
  intros Hl Hd Hr. destruct (poll_starts 1 g fds timeout t s Hl) as (l & Hp & ->). rewrite (do_poll_rounds _ _ _ _ d) by done. cbn [poll_rounds].
  rewrite (M_bind_Some _ _ _ s s) by done. rewrite Hp. replace (with_kernel s (kernel s)) with s by by destruct s. rewrite (proj2 (Z.eqb_neq _ _) Hr). reflexivity.
Qed.

(** The kernel after some pauses. *)
Fixpoint later (n : nat) (k : K) : K := match n with O => k | S n => later n (mm_pause k) end.

Lemma later_S n : forall k, later (S n) k = mm_pause (later n k).
Proof. induction n as [|n IH]; intros k; [done|]. apply (IH (mm_pause k)). Qed.

(** While nothing is ready the entries stay fresh. *)
Lemma not_ready_fresh s fds : count_ready (polled s <$> fds) = 0 -> polled s <$> fds = fresh <$> fds.
Proof.
  unfold count_ready. intros H. assert (filter (fun p => ready p = true) (polled s <$> fds) = []) as F by (destruct (filter _ _); [done | cbn in H; lia]).
  clear H. induction fds as [|p fds IH]; [done|]. cbn [fmap list_fmap] in *. rewrite filter_cons in F. destruct (decide _) as [|N]; [done|]. rewrite IH by done. f_equal.
  apply not_true_iff_false in N. unfold ready in N. apply negb_false_iff, Z.eqb_eq in N. unfold polled in *. cbn in N. by rewrite N.
Qed.

(** when nothing gets ready poll ends once the time has passed: with [n] pauses
    until the clock is past the deadline, [n + 1] rounds are enough, and they give 0
    and no events. *)
Theorem poll_times_out (n : nat) g fds ts d t s :
  (length fds <= length g)%nat -> deadline s (Some ts) d ->
  (forall i : nat, (i <= n)%nat -> count_ready (polled (with_kernel s (later i (kernel s))) <$> fds) = 0) ->
  (forall i : nat, (i < n)%nat -> poll_clock (later i (kernel s)) <= d) -> d < poll_clock (later n (kernel s)) ->
  wlibc_common_poll (S n) g (Some fds) (Some ts) None t s = Some ((Some (Returned (0, fresh <$> fds)), t), with_kernel s (later n (kernel s))).
Proof.
  intros Hl Hd Hq Hb Ha. destruct (poll_starts (S n) g fds (Some ts) t s Hl) as (l & Hp & ->).
  assert (forall m k i, (i + m = n)%nat -> k = later i (kernel s) -> poll_rounds (S m) l (fresh <$> fds) true d (with_kernel s k) =
    Some (Some (0, fresh <$> fds), with_kernel s (later n (kernel s)))) as R.
  { induction m as [|m IH]; intros k i Hi ->; cbn [poll_rounds]; rewrite (M_bind_Some _ _ _ _ _ eq_refl); cbn [with_kernel kernel]; rewrite Hp, Hq by lia; cbn [Z.eqb].
    - replace i with n by lia. rewrite (proj2 (Z.leb_gt _ _)) by lia. cbn [andb]. by rewrite not_ready_fresh by (apply Hq; lia).
    - rewrite (proj2 (Z.leb_le _ _)) by (apply Hb; lia). cbn [andb]. rewrite (M_bind_Some _ _ _ _ _ eq_refl). rewrite not_ready_fresh by (apply Hq; lia).
      apply (IH _ (S i)); [lia | symmetry; apply later_S]. }
  rewrite (do_poll_rounds _ _ _ _ d) by done. pose proof (R n (kernel s) 0%nat ltac:(lia) eq_refl) as R0. replace (with_kernel s (kernel s)) with s in R0 by by destruct s.
  rewrite R0. reflexivity.
Qed.

(** ** select *)

(** Select takes an event from what poll reports, unless there was an error or the
    other end is closed. *)
Definition tells (n ev : Z) : bool := negb ((n =? 0) || has n (Z.lor POLLERR POLLHUP)) && has n ev.

Definition told (ev : Z) (fds : list pollfd) (fd : Z) : bool := existsb (fun p => (p_fd p =? fd) && tells (p_revents p) ev) fds.

Definition bits (p : pollfd) : Z :=
  (if tells (p_revents p) POLLIN then 1 else 0) + (if tells (p_revents p) POLLOUT then 1 else 0) + (if tells (p_revents p) POLLPRI then 1 else 0).

Definition sets_ok (x : selected) : Prop := set_wf (sel_r x) /\ set_wf (sel_w x) /\ set_wf (sel_e x).

Lemma set_wf_set fd x : set_wf x -> set_wf (FAST_FDSET fd x).
Proof. intros H. unfold set_wf, FAST_FDSET. by rewrite length_insert. Qed.

Lemma select_one_ok x p : sets_ok x -> 0 <= p_fd p < 1024 ->
  sets_ok (select_one x p) /\ sel_count (select_one x p) = sel_count x + bits p /\ sel_error (select_one x p) = sel_error x || tells (p_revents p) POLLNVAL /\
  forall fd, 0 <= fd ->
    member fd (sel_r (select_one x p)) = (p_fd p =? fd) && tells (p_revents p) POLLIN || member fd (sel_r x) /\
    member fd (sel_w (select_one x p)) = (p_fd p =? fd) && tells (p_revents p) POLLOUT || member fd (sel_w x) /\
    member fd (sel_e (select_one x p)) = (p_fd p =? fd) && tells (p_revents p) POLLPRI || member fd (sel_e x).
Proof.
  intros (W1 & W2 & W3) Hp. unfold select_one, bits, tells. destruct ((p_revents p =? 0) || has (p_revents p) (Z.lor POLLERR POLLHUP)); cbn [negb andb].
  - split; [done|]. split; [lia|]. split; [by rewrite orb_false_r|]. intros fd _. by rewrite !andb_false_r.
  - destruct (has (p_revents p) POLLNVAL), (has (p_revents p) POLLIN), (has (p_revents p) POLLOUT), (has (p_revents p) POLLPRI);
      cbn [sel_r sel_w sel_e sel_count sel_error]; rewrite ?orb_true_r, ?orb_false_r;
      (split; [repeat split; cbn [sel_r sel_w sel_e]; auto using set_wf_set|]; split; [lia|]; split; [done|]; intros fd Hfd;
       rewrite ?andb_true_r, ?andb_false_r, ?orb_false_l, ?member_set by (done || lia); done).
Qed.

Lemma fill_sets_ok fds : Forall (fun p => 0 <= p_fd p < 1024) fds ->
  sets_ok (fill_sets fds) /\ sel_count (fill_sets fds) = fold_right (fun p n => bits p + n) 0 fds /\
  sel_error (fill_sets fds) = existsb (fun p => tells (p_revents p) POLLNVAL) fds /\
  forall fd, 0 <= fd -> member fd (sel_r (fill_sets fds)) = told POLLIN fds fd /\ member fd (sel_w (fill_sets fds)) = told POLLOUT fds fd /\
    member fd (sel_e (fill_sets fds)) = told POLLPRI fds fd.
Proof.
  unfold fill_sets, told. assert (forall x, sets_ok x -> Forall (fun p => 0 <= p_fd p < 1024) fds ->
    sets_ok (foldl select_one x fds) /\ sel_count (foldl select_one x fds) = sel_count x + fold_right (fun p n => bits p + n) 0 fds /\
    sel_error (foldl select_one x fds) = sel_error x || existsb (fun p => tells (p_revents p) POLLNVAL) fds /\
    forall fd, 0 <= fd ->
      member fd (sel_r (foldl select_one x fds)) = existsb (fun p => (p_fd p =? fd) && tells (p_revents p) POLLIN) fds || member fd (sel_r x) /\
      member fd (sel_w (foldl select_one x fds)) = existsb (fun p => (p_fd p =? fd) && tells (p_revents p) POLLOUT) fds || member fd (sel_w x) /\
      member fd (sel_e (foldl select_one x fds)) = existsb (fun p => (p_fd p =? fd) && tells (p_revents p) POLLPRI) fds || member fd (sel_e x)) as G.
  { induction fds as [|p fds IH]; intros x Hx Hf; cbn [foldl fold_right existsb].
    - split; [done|]. split; [lia|]. by rewrite orb_false_r.
    - apply Forall_cons in Hf as [Hp Hf]. destruct (select_one_ok x p Hx Hp) as (S1 & S2 & S3 & S4). destruct (IH _ S1 Hf) as (I1 & I2 & I3 & I4).
      split; [done|]. split; [rewrite I2, S2; lia|]. split; [by rewrite I3, S3, orb_assoc|]. intros fd H. destruct (I4 fd H) as (-> & -> & ->), (S4 fd H) as (-> & -> & ->).
      rewrite !orb_assoc, !(orb_comm (existsb _ _)). done. }
  intros Hf. destruct (G (Selected FAST_FDZERO FAST_FDZERO FAST_FDZERO 0 false)) as (G1 & G2 & G3 & G4); [done|done|].
  split; [done|]. split; [done|]. split; [done|]. intros fd H. destruct (G4 fd H) as (-> & -> & ->). cbn [sel_r sel_w sel_e]. rewrite !member_zero, !orb_false_r. done.
Qed.

(** The entries of a call. *)
Definition entries_for (nfds : Z) (r w e : fd_set) : list pollfd := (fun i => Pollfd i (events_of r w e i) 0) <$> asked nfds r w e.

Definition asks (r w e : fd_set) (fd : Z) : bool := member fd r || member fd w || member fd e.

Lemma elem_asked nfds r w e fd : fd ∈ asked nfds r w e <-> 0 <= fd < nfds /\ asks r w e fd = true.
Proof.
  unfold asked, asks. rewrite list_elem_of_filter, elem_of_seqZ. split.
  - intros [H1 H2]. rewrite !isset_member in H1 by lia. split; [lia | done].
  - intros [H1 H2]. rewrite !isset_member by lia. split; [done | lia].
Qed.

Lemma told_polled ev nfds r w e s fd :
  told ev (polled s <$> entries_for nfds r w e) fd = (0 <=? fd) && (fd <? nfds) && asks r w e fd && tells (status_of s fd (events_of r w e fd)) ev.
Proof.
  unfold told, entries_for. rewrite <- list_fmap_compose. apply eq_true_iff_eq. rewrite existsb_exists, !andb_true_iff, Z.leb_le, Z.ltb_lt. split.
  - intros (p & Hp & H). apply list_elem_of_In, list_elem_of_fmap in Hp as (i & -> & Hi). cbn in H. apply andb_true_iff in H as [H1 H2]. apply Z.eqb_eq in H1 as ->.
    apply elem_asked in Hi as [Hi1 Hi2]. repeat split; try done; lia.
  - intros [[[H1 H2] H3] H4]. eexists. split; [apply list_elem_of_In, list_elem_of_fmap; exists fd; split; [done|]; apply elem_asked; split; [lia | done]|].
    cbn. by rewrite Z.eqb_refl, H4.
Qed.

(** C37: when a descriptor is ready and none is invalid, select keeps in each set the
    descriptors below the bound that poll reports for it, without an error and
    without a closed end, and returns how many it keeps. *)
Theorem select_reports (nfds : Z) (r w e : fd_set) g timeout d t s :
  0 <= nfds <= FD_SETSIZE -> (length (asked nfds r w e) <= length g)%nat -> deadline s timeout d ->
  let fds := entries_for nfds r w e in
  count_ready (polled s <$> fds) <> 0 -> existsb (fun p => tells (p_revents p) POLLNVAL) (polled s <$> fds) = false ->
  exists r' w' e', wlibc_common_select 1 g nfds (Some r) (Some w) (Some e) timeout None t s =
      Some ((Some (Returned (fold_right (fun p n => bits p + n) 0 (polled s <$> fds), (Some r', Some w', Some e'))), t), s) /\
    forall fd, 0 <= fd ->
      let n := status_of s fd (events_of r w e fd) in
      member fd r' = (fd <? nfds) && asks r w e fd && tells n POLLIN /\
      member fd w' = (fd <? nfds) && asks r w e fd && tells n POLLOUT /\
      member fd e' = (fd <? nfds) && asks r w e fd && tells n POLLPRI.
Proof.
  intros Hn Hg Hd fds Hr Hv. unfold FD_SETSIZE in Hn.
  assert (Forall (fun p => 0 <= p_fd p < 1024) (polled s <$> fds)) as Hf.
  { unfold fds, entries_for. rewrite <- list_fmap_compose. apply Forall_fmap, Forall_forall. intros i Hi. apply elem_asked in Hi. cbn. lia. }
  destruct (fill_sets_ok _ Hf) as (_ & F2 & F3 & F4). rewrite Hv in F3.
  assert (zlen (asked nfds r w e) <> 0) as H0.
  { intros H0. apply Hr. unfold fds, entries_for. destruct (asked nfds r w e); [done | cbn in H0; lia]. }
  assert (wlibc_common_poll 1 g (Some fds) timeout None t s = Some ((Some (Returned (count_ready (polled s <$> fds), polled s <$> fds)), t), s)) as E.
  { destruct (poll_starts 1 g fds timeout t s) as (l & Hp & ->); [unfold fds, entries_for; by rewrite length_fmap|]. rewrite (do_poll_rounds _ _ _ _ d) by done. cbn [poll_rounds].
    rewrite (M_bind_Some _ _ _ s s) by done. rewrite Hp. replace (with_kernel s (kernel s)) with s by by destruct s. rewrite (proj2 (Z.eqb_neq _ _) Hr). reflexivity. }
  eexists _, _, _. split.
  - unfold wlibc_common_select. unfold FD_SETSIZE. rewrite (proj2 (Z.ltb_ge _ _)), Z.gtb_ltb, (proj2 (Z.ltb_ge _ _)) by lia. cbn [orb].
    change (default FAST_FDZERO (Some r)) with r. change (default FAST_FDZERO (Some w)) with w. change (default FAST_FDZERO (Some e)) with e.
    rewrite (proj2 (Z.eqb_neq _ _) H0), alloc_ok. cbn [negb]. fold (entries_for nfds r w e). fold fds. rewrite (SM_bind_Some _ _ _ _ _ _ _ E).
    rewrite (proj2 (Z.eqb_neq (count_ready _) (-1))) by (unfold count_ready; lia). rewrite F3, F2. reflexivity.
  - intros fd Hfd n. destruct (F4 fd Hfd) as (-> & -> & ->). unfold fds. rewrite !told_polled, (proj2 (Z.leb_le 0 fd) Hfd). cbn [andb]. done.
Qed.

(** the end of a pipe whose other end is closed is never told by select, be there
    data in it or not, although a read would not wait: poll reports it, with the data,
    and select takes nothing of the report. *)
Theorem select_misses_hangup (fd : Z) i p s events :
  info_at s fd = i -> type i = PIPE_HANDLE -> has (flags i) O_RDWR = false -> has (flags i) O_WRONLY = false ->
  NtQueryPipe (handle i) (kernel s) = (STATUS_SUCCESS, p) -> hung_up p = true ->
  let n := status_of s fd events in
  has n POLLHUP = true /\ (ReadDataAvailable p > 0 -> has events POLLIN = true -> has n POLLIN = true) /\
  forall x, select_one x (Pollfd fd events n) = x.
Proof.
  intros Hi Ht H1 H2 Q Hh n. unfold n, status_of, revents_of. rewrite Hi, Ht. unfold pipe_revents. rewrite Q, H1, H2, Hh. rewrite (bool_decide_eq_true_2 (STATUS_SUCCESS = STATUS_SUCCESS)) by done. cbn [negb].
  set (m := if ReadDataAvailable p >? 0 then _ else _).
  assert (has (Z.lor m POLLHUP) POLLHUP = true) as E1 by (unfold has; rewrite Z.land_lor_distr_l; destruct (Z.eqb_spec (Z.lor (Z.land m POLLHUP) (Z.land POLLHUP POLLHUP)) 0) as [Z0|]; [apply Z.lor_eq_0_iff in Z0 as [_ Z0]; done | done]).
  assert (has (Z.lor m POLLHUP) (Z.lor POLLERR POLLHUP) = true) as E2.
  { unfold has in *. apply negb_true_iff, Z.eqb_neq. apply negb_true_iff, Z.eqb_neq in E1. intros Z0. apply E1. rewrite Z.land_lor_distr_r in Z0. by apply Z.lor_eq_0_iff in Z0 as [_ Z0]. }
  split; [done|]. split.
  - intros Hd He. unfold m. rewrite Z.gtb_ltb, (proj2 (Z.ltb_lt _ _)) by lia. unfold has in *. apply negb_true_iff, Z.eqb_neq. apply negb_true_iff, Z.eqb_neq in He.
    intros Z0. apply He. rewrite Z.land_lor_distr_l in Z0. apply Z.lor_eq_0_iff in Z0 as [Z0 _]. by rewrite <- Z.land_assoc in Z0.
  - intros x. unfold select_one. cbn [p_revents]. by rewrite E2, orb_true_r.
Qed.
End PollFacts.

(** ** A machine with a file and two pipes *)
Module PollMachine.

(** The clock. *)
Definition K : Type := Z.

(** The pipe of handle 5 is closed at the other end, that of handle 6 is empty. *)
#[export] Instance machine : PollKernel K := {
  PeekConsoleInputW _ _ := None;
  NtQueryPipe h _ := (STATUS_SUCCESS, if h =? 5 then PipeInformation 0 3 FILE_PIPE_CLOSING_STATE else PipeInformation 0 0 FILE_PIPE_CONNECTED_STATE);
  poll_clock k := k;
  mm_pause k := k + 1
}.

#[export] Instance no_handlers : Handlers := fun _ _ => mret ().
#[export] Instance ample : Allocator := fun _ => true.

(** Descriptor 0 is the file, 1 and 2 are the ends of the pipes. *)
Definition start : state K := State [Fdinfo 1 FILE_HANDLE O_RDWR 1; Fdinfo 5 PIPE_HANDLE O_RDONLY 2; Fdinfo 6 PIPE_HANDLE O_RDONLY 3] 3 0 0 0 0 1000.
Definition signals : sig_state := SigState [] None 0 [].
Definition junk : list fdinfo := replicate 4 (Fdinfo 0 INVALID_HANDLE 0 0).

Definition all3 : fd_set := FAST_FDSET 2 (FAST_FDSET 1 (FAST_FDSET 0 FAST_FDZERO)).
End PollMachine.
Import PollMachine.

Lemma fd_sets_witness :
  (wlibc_fd_isset 65 (Some (default [] (wlibc_fd_set 65 (Some FAST_FDZERO)).1))).1 = 1 /\ (wlibc_fd_isset 65 (Some (default [] (wlibc_fd_clr 65 (Some FAST_FDZERO)).1))).1 = 0.
Proof.
  destruct (fd_sets 65 65 FAST_FDZERO eq_refl ltac:(unfold FD_SETSIZE; lia)) as [[(s1 & E1 & _ & I1) (s2 & E2 & _ & I2)] _]. rewrite E1, E2. split; [exact I1 | exact I2].
Defined.

Lemma poll_reports_witness : wlibc_common_poll 1 junk (Some [Pollfd 0 POLLIN 7; Pollfd 1 POLLIN 7; Pollfd 2 POLLIN 7; Pollfd 9 POLLIN 7]) None None signals start =
  Some ((Some (Returned (3, [Pollfd 0 POLLIN POLLIN; Pollfd 1 POLLIN (Z.lor POLLIN POLLHUP); Pollfd 2 POLLIN 0; Pollfd 9 POLLIN POLLNVAL])), signals), start).
Proof.
  exact (poll_reports (fun _ => eq_refl) junk [Pollfd 0 POLLIN 7; Pollfd 1 POLLIN 7; Pollfd 2 POLLIN 7; Pollfd 9 POLLIN 7] None 0 signals start ltac:(cbn; lia) eq_refl ltac:(done)).
Defined.

Lemma poll_times_out_witness : wlibc_common_poll 5 junk (Some [Pollfd 2 POLLIN 7]) (Some (Timespec 0 300)) None signals start =
  Some ((Some (Returned (0, [Pollfd 2 POLLIN 0])), signals), with_kernel start 1004).
Proof.
  refine (poll_times_out (fun _ => eq_refl) 4 junk [Pollfd 2 POLLIN 7] (Timespec 0 300) 1003 signals start ltac:(cbn; lia) eq_refl _ _ _).
  - intros i Hi. do 5 (destruct i as [|i]; [reflexivity|]). lia.
  - intros i Hi. do 4 (destruct i as [|i]; [cbn; lia|]). lia.
  - cbn. lia.
Defined.

Lemma select_reports_witness : exists r' w' e', wlibc_common_select 1 junk 3 (Some all3) (Some (FAST_FDSET 0 FAST_FDZERO)) (Some FAST_FDZERO) None None signals start =
    Some ((Some (Returned (2, (Some r', Some w', Some e'))), signals), start) /\ member 0 r' = true /\ member 1 r' = false /\ member 0 w' = true.
Proof.
  destruct (select_reports (fun _ => eq_refl) 3 all3 (FAST_FDSET 0 FAST_FDZERO) FAST_FDZERO junk None 0 signals start) as (r' & w' & e' & E & H).
  - unfold FD_SETSIZE. lia.
  - vm_compute. lia.
  - reflexivity.
  - done.
  - reflexivity.
  - exists r', w', e'. split; [exact E|]. destruct (H 0 ltac:(lia)) as (H0 & H0' & _). destruct (H 1 ltac:(lia)) as (H1 & _). split; [|split]; [exact H0 | exact H1 | exact H0'].
Defined.

Lemma select_misses_hangup_witness : has (status_of start 1 POLLIN) POLLHUP = true /\ has (status_of start 1 POLLIN) POLLIN = true /\
  sel_r (select_one (Selected FAST_FDZERO FAST_FDZERO FAST_FDZERO 0 false) (Pollfd 1 POLLIN (status_of start 1 POLLIN))) = FAST_FDZERO.
Proof.
  destruct (select_misses_hangup 1 (Fdinfo 5 PIPE_HANDLE O_RDONLY 2) (PipeInformation 0 3 FILE_PIPE_CLOSING_STATE) start POLLIN) as (H1 & H2 & H3); [reflexivity..|].
  split; [exact H1|]. split; [apply H2; [done | reflexivity] | by rewrite H3].
Defined.
