(* ===== verification/Accounts.v ===== *)
(** * Users and groups

    src/grp and src/pwd: entries for the groups and users of the machine, by name, by
    number and one after the other. The texts of an entry are stored in a block of the
    caller. *)

From stdpp Require Import strings.
From S2P Require Import Prelude Errno Buffer FdTable FileIo Path PathFacts Open Security.

(** An entry, and how many bytes of the block it has used. *)
Record group := Group { gr_name : list Z; gr_gid : Z; gr_mem : list (list Z); gr_used : Z }.

(** [NULL] for a directory is [None]. *)
Record passwd := Passwd { pw_name : list Z; pw_uid : Z; pw_gid : Z; pw_gecos : list Z; pw_dir : option (list Z); pw_used : Z }.

(** [GROUP_INFO_2] and [USER_INFO_3], the fields that are read. *)
Record group_info := GroupInfo { grpi2_name : list Z; grpi2_group_id : Z }.
Record user_info := UserInfo { usri3_name : list Z; usri3_comment : list Z; usri3_user_id : Z; usri3_primary_group_id : Z }.

(** What a query for one account gives. *)
Inductive found (X : Type) := NERR_Success (x : X) | NERR_NotFound | NERR_other.
Arguments NERR_Success {X}.
Arguments NERR_NotFound {X}.
Arguments NERR_other {X}.

(** The accounts of the machine, by names in UTF-16. *)
Class AccountKernel (K : Type) := {
  LookupAccountNameW : list Z -> K -> option sid;
  LookupAccountSidName : sid -> K -> option (list Z);
  ConvertSidToStringSidW : sid -> option (list Z);
  NetLocalGroupGetInfo : list Z -> K -> option (list Z);
  NetGroupGetInfo : list Z -> K -> found group_info;
  NetLocalGroupGetMembers : list Z -> K -> option (list (list Z));
  NetGroupGetUsers : list Z -> K -> option (list (list Z));
  NetLocalGroupEnum : K -> option (list (list Z));
  NetGroupEnum : K -> option (list group_info);
  NetUserGetInfo : list Z -> K -> found user_info;
  NetUserEnum : K -> option (list user_info)
}.

(** The state of the enumerations, the identifiers of the process and the paths. A
    buffer that was freed is [None]. *)
Record accounts := Accounts {
  gr_index : Z; gr_started : bool; local_enum : option (list (list Z)); global_enum : option (list group_info);
  local_total_entries : Z; global_total_entries : Z;
  pw_index : Z; pw_started : bool; user_enum : option (list user_info); entries_read : Z;
  acc_security : security;
  acc_paths : path_state
}.

Definition with_groups (x : accounts) (index : Z) (started : bool) (l : option (list (list Z))) (g : option (list group_info)) (lt gt : Z) : accounts :=
  Accounts index started l g lt gt (pw_index x) (pw_started x) (user_enum x) (entries_read x) (acc_security x) (acc_paths x).
Definition with_users (x : accounts) (index : Z) (started : bool) (u : option (list user_info)) (n : Z) : accounts :=
  Accounts (gr_index x) (gr_started x) (local_enum x) (global_enum x) (local_total_entries x) (global_total_entries x) index started u n
    (acc_security x) (acc_paths x).

(** The groups of [NT AUTHORITY], in the order of the enumeration. *)
Definition nt_authority : list (list Z * Z) :=
  [(str "DIALUP", 1); (str "NETWORK", 2); (str "BATCH", 3); (str "INTERACTIVE", 4); (str "SERVICE", 6); (str "ANONYMOUS LOGON", 7); (str "PROXY", 8);
   (str "ENTERPRISE DOMAIN CONTROLLERS", 9); (str "SELF", 10); (str "Authenticated Users", 11); (str "RESTRICTED", 12); (str "TERMINAL SERVER USER", 13);
   (str "REMOTE INTERACTIVE LOGON", 14); (str "This Organization", 15); (str "IUSR", 17); (str "SYSTEM", 18); (str "LOCAL SERVICE", 19); (str "NETWORK SERVICE", 20)].

Definition nt_authority_entries : Z := 18.

Definition fixed_group (g : list Z * Z) : group := Group g.1 g.2 [] 0.
Definition root_group : group := Group (str "Administrators") 0 [] 0.
Definition root_user : passwd := Passwd (str "Administrator") 0 0 (str "Local Administrator") (Some (str "C:\Windows\System32")) 0.

Section Accounts.
Context {K : Type} {KN : Kernel K} {A : Allocator} {PK : PathKernel K} {AK : AccountKernel K}.

Abbreviation G := (SM accounts K).

Definition gr_kernel : G K := s ← run_M get; mret (kernel s).
Definition gr_status {X} (status : NTSTATUS) : G (option X) := s ← run_M get; _ ← run_M (set_errno (map_ntstatus_to_errno status (errno s))); mret None.
Definition gr_error {X} (e : Z) : G (option X) := _ ← run_M (set_errno e); mret None.

(** A text of at most [max] bytes with its NUL; the maximum has 16 bits. *)
Definition to_utf8 (l : list Z) (max : Z) : NTSTATUS * list Z := RtlUnicodeStringToUTF8String l (Some (u16 max)).

(** ** Groups *)

(** The members behind what is used of the block. *)
Fixpoint place_members (size used : Z) (l : list (list Z)) : G (option (list (list Z) * Z)) :=
  match l with
  | [] => mret (Some ([], used))
  | m :: l =>
      if u16 (size - used) =? 0 then gr_error ERANGE
      else
        let '(status, text) := to_utf8 m (size - used) in
        if negb (bool_decide (status = STATUS_SUCCESS)) then gr_status status
        else
          r ← place_members size (used + zlen text + 1) l;
          mret (match r with Some (ts, used) => Some (text :: ts, used) | None => None end)
  end.

(** The name, the number and the members; without members the list is empty. *)
Definition fill_group (size : Z) (name : list Z) (gid : Z) (members : option (list (list Z))) : G (option group) :=
  let '(status, text) := to_utf8 name size in
  if negb (bool_decide (status = STATUS_SUCCESS)) then gr_status status
  else
    let used := zlen text + 1 in
    match members with
    | None | Some [] => mret (Some (Group text gid [] used))
    | Some l =>
        let used := used + (zlen l + 1) * 8 in
        if size <=? used then gr_error ERANGE
        else
          r ← place_members size used l;
          mret (match r with Some (ts, used) => Some (Group text gid ts used) | None => None end)
    end.

(** The number of a local group is that of its account, or -1. *)
Definition LOCALGROUP_INFO_0_to_group (name : list Z) (size : Z) : G (option group) :=
  k ← gr_kernel;
  gid ← match LookupAccountNameW name k with
        | Some s => match last_authority s with Some n => mret n | None => run_M UB end
        | None => mret (-1)
        end;
  fill_group size name gid (NetLocalGroupGetMembers name k).

Definition GROUP_INFO_2_to_group (i : group_info) (size : Z) : G (option group) :=
  k ← gr_kernel;
  fill_group size (grpi2_name i) (swrap 32 (grpi2_group_id i)) (NetGroupGetUsers (grpi2_name i) k).

(** A group by its name in UTF-16: a local one, or a global one. *)
Definition fetch_group (name : list Z) (size : Z) : G (option group) :=
  k ← gr_kernel;
  match NetLocalGroupGetInfo name k with
  | Some n => LOCALGROUP_INFO_0_to_group n size
  | None =>
      match NetGroupGetInfo name k with
      | NERR_Success i => GROUP_INFO_2_to_group i size
      | NERR_NotFound => gr_error ENOENT
      | NERR_other => mret None
      end
  end.

Definition common_getgrnam (name : list Z) (size : Z) : G (option group) :=
  if iequal name (str "root") then mret (Some root_group)
  else
    match list_find (fun g => iequal name g.1 = true) nt_authority with
    | Some (_, g) => mret (Some (fixed_group g))
    | None =>
        let '(status, wname) := RtlUTF8StringToUnicodeString name None in
        if negb (bool_decide (status = STATUS_SUCCESS)) then gr_status status else fetch_group wname size
    end.

(** The account of a number: of the groups of every machine, or of this computer,
    whose identifier must have room for it. *)
Definition common_getgrgid (gid size : Z) : G (option group) :=
  x ← get_S;
  k ← gr_kernel;
  if gid =? 0 then mret (Some root_group)
  else
    match (if gid <? 500 then list_find (fun g => g.2 = gid) nt_authority else None) with
    | Some (_, g) => mret (Some (fixed_group g))
    | None =>
        match LookupAccountSidName (RtlInitializeSidEx SECURITY_NT_AUTHORITY [SECURITY_BUILTIN_DOMAIN_RID; u32 gid]) k with
        | Some name => fetch_group name size
        | None =>
            let c := computer_sid (acc_security x) in
            if SID_MAX_SUB_AUTHORITIES <=? zlen (SubAuthority c) then run_M UB
            else
              match LookupAccountSidName (Sid (Revision c) (IdentifierAuthority c) (SubAuthority c ++ [u32 gid])) k with
              | Some name => fetch_group name size
              | None => gr_error ENOENT
              end
        end
    end.

(** Both enumerations are begun; the total counts the entries of the last time too. *)
Definition start_groups : G Z :=
  x ← get_S;
  k ← gr_kernel;
  let total := nt_authority_entries + local_total_entries x + global_total_entries x in
  if gr_started x then mret (u32 total)
  else
    let '(x, total) := match NetLocalGroupEnum k with
                       | Some l => (with_groups x 0 true (Some l) (global_enum x) (zlen l) (global_total_entries x), total + zlen l)
                       | None => (x, total)
                       end in
    let '(x, total) := match NetGroupEnum k with
                       | Some g => (with_groups x (gr_index x) (gr_started x) (local_enum x) (Some g) (local_total_entries x) (zlen g), total + zlen g)
                       | None => (x, total)
                       end in
    _ ← put_S x;
    mret (u32 total).

Definition advance_groups : G unit :=
  x ← get_S; put_S (with_groups x (u32 (gr_index x + 1)) (gr_started x) (local_enum x) (global_enum x) (local_total_entries x) (global_total_entries x)).

(** An entry outside of the buffers is undefined. *)
Definition common_getgrent (size : Z) : G (option group) :=
  total ← start_groups;
  x ← get_S;
  if total <=? gr_index x then mret None
  else
    g ← match nt_authority !! Z.to_nat (gr_index x) with
        | Some g => mret (Some (fixed_group g))
        | None =>
            let i := gr_index x - nt_authority_entries in
            if i <? local_total_entries x then
              match local_enum x ≫= (.!! Z.to_nat i) with Some name => LOCALGROUP_INFO_0_to_group name size | None => run_M UB end
            else
              match global_enum x ≫= (.!! Z.to_nat (i - local_total_entries x)) with Some info => GROUP_INFO_2_to_group info size | None => run_M UB end
        end;
    match g with
    | None => mret None
    | Some g => _ ← advance_groups; mret (Some g)
    end.

Definition wlibc_getgrent : G (option group) := common_getgrent 1024.

Definition wlibc_endgrent : G unit :=
  x ← get_S;
  put_S (with_groups x 0 false (if gr_started x then None else local_enum x) (if gr_started x then None else global_enum x)
           (local_total_entries x) (global_total_entries x)).

Definition wlibc_setgrent : G unit :=
  x ← get_S; put_S (with_groups x 0 (gr_started x) (local_enum x) (global_enum x) (local_total_entries x) (global_total_entries x)).

Definition wlibc_getgrgid (gid : Z) : G (option group) := if gid <? 0 then gr_error EINVAL else common_getgrgid gid 1024.

Definition wlibc_getgrnam (name : option (list Z)) : G (option group) :=
  match name with None | Some [] => gr_error EINVAL | Some name => common_getgrnam name 1024 end.

(** The calls with a result: the error that was set, and [errno] as it was otherwise. *)
Definition reentrant {X} (valid : bool) (m : G (option X)) : G (Z * option X) :=
  if negb valid then _ ← run_M (set_errno EINVAL); mret (EINVAL, None)
  else
    s ← run_M get;
    _ ← run_M (set_errno 0);
    r ← m;
    s' ← run_M get;
    if match r with None => negb (errno s' =? 0) | Some _ => false end then mret (errno s', r)
    else _ ← run_M (set_errno (errno s)); mret (0, r).

(** [valid]: none of the pointers is null. *)
Definition wlibc_getgrent_r (valid : bool) (size : Z) : G (Z * option group) := reentrant valid (common_getgrent size).
Definition wlibc_getgrgid_r (gid : Z) (valid : bool) (size : Z) : G (Z * option group) := reentrant (valid && negb (gid <? 0)) (common_getgrgid gid size).
Definition wlibc_getgrnam_r (name : option (list Z)) (valid : bool) (size : Z) : G (Z * option group) :=
  reentrant (valid && match name with None | Some [] => false | _ => true end) (common_getgrnam (default [] name) size).

(** ** Users *)

Definition on_acc_paths {X} (m : SM path_state K X) : G X := fun x =>
  '(r, p) ← m (acc_paths x);
  mret (r, Accounts (gr_index x) (gr_started x) (local_enum x) (global_enum x) (local_total_entries x) (global_total_entries x)
             (pw_index x) (pw_started x) (user_enum x) (entries_read x) (acc_security x) p).

Definition volatile_key (sid : list Z) : list Z := str "\Registry\User\" ++ sid ++ str "\Volatile Environment".

(** The directory of a user, in UTF-16; an outer [None] when there is no memory. *)
Definition home_of (name : list Z) : G (option (option (list Z))) :=
  k ← gr_kernel;
  match LookupAccountNameW name k ≫= ConvertSidToStringSidW with
  | None => mret (Some None)
  | Some sid =>
      if malloc_ok ((15 + zlen sid + 20 + 2) * 2) then h ← on_acc_paths (get_registry_value (volatile_key sid) (str "USERPROFILE")); mret (Some h)
      else gr_error ENOMEM
  end.

(** The room for the directory is [size] less the name and more the comment. *)
Definition USER_INFO_3_to_passwd (i : user_info) (size : Z) : G (option passwd) :=
  let '(status, name) := to_utf8 (usri3_name i) size in
  if negb (bool_decide (status = STATUS_SUCCESS)) then gr_status status
  else
    let n := zlen name + 1 in
    if size <=? n then gr_error ERANGE
    else
      let '(status, gecos) := to_utf8 (usri3_comment i) (size - n) in
      if negb (bool_decide (status = STATUS_SUCCESS)) then gr_status status
      else
        let c := zlen gecos + 1 in
        if size <=? n + c then gr_error ERANGE
        else
          let entry dir used := Passwd name (swrap 32 (usri3_user_id i)) (swrap 32 (usri3_primary_group_id i)) gecos dir used in
          h ← home_of (usri3_name i);
          match h with
          | None => mret None
          | Some None => mret (Some (entry None (n + c)))
          | Some (Some home) =>
              let '(status, dir) := to_utf8 home (size - n + c) in
              if negb (bool_decide (status = STATUS_SUCCESS)) then gr_status status
              else mret (Some (entry (Some dir) (n + c + zlen dir + 1)))
          end.

Definition fetch_user (name : list Z) (size : Z) : G (option passwd) :=
  k ← gr_kernel;
  match NetUserGetInfo name k with
  | NERR_Success i => USER_INFO_3_to_passwd i size
  | NERR_NotFound => gr_error ENOENT
  | NERR_other => mret None
  end.

Definition common_getpwnam (name : list Z) (size : Z) : G (option passwd) :=
  if iequal name (str "root") then mret (Some root_user)
  else
    let '(status, wname) := RtlUTF8StringToUnicodeString name None in
    if negb (bool_decide (status = STATUS_SUCCESS)) then gr_status status else fetch_user wname size.

Definition common_getpwuid (uid size : Z) : G (option passwd) :=
  x ← get_S;
  k ← gr_kernel;
  if uid =? 0 then mret (Some root_user)
  else
    let c := computer_sid (acc_security x) in
    if SID_MAX_SUB_AUTHORITIES <=? zlen (SubAuthority c) then run_M UB
    else
      match LookupAccountSidName (Sid (Revision c) (IdentifierAuthority c) (SubAuthority c ++ [u32 uid])) k with
      | Some name => fetch_user name size
      | None => gr_error ENOENT
      end.

Definition start_users : G unit :=
  x ← get_S;
  k ← gr_kernel;
  if pw_started x then mret ()
  else match NetUserEnum k with Some u => put_S (with_users x 0 true (Some u) (zlen u)) | None => mret () end.

Definition common_getpwent (size : Z) : G (option passwd) :=
  _ ← start_users;
  x ← get_S;
  if entries_read x <=? pw_index x then mret None
  else
    match user_enum x ≫= (.!! Z.to_nat (pw_index x)) with
    | None => run_M UB
    | Some i =>
        p ← USER_INFO_3_to_passwd i size;
        match p with
        | None => mret None
        | Some p => x ← get_S; _ ← put_S (with_users x (u32 (pw_index x + 1)) (pw_started x) (user_enum x) (entries_read x)); mret (Some p)
        end
    end.

Definition wlibc_getpwent : G (option passwd) := common_getpwent 512.

Definition wlibc_endpwent : G unit :=
  x ← get_S; put_S (with_users x 0 false (if pw_started x then None else user_enum x) (entries_read x)).

Definition wlibc_setpwent : G unit := x ← get_S; put_S (with_users x 0 (pw_started x) (user_enum x) (entries_read x)).

Definition wlibc_getpwuid (uid : Z) : G (option passwd) := if uid <? 0 then gr_error EINVAL else common_getpwuid uid 512.

Definition wlibc_getpwnam (name : option (list Z)) : G (option passwd) :=
  match name with None | Some [] => gr_error EINVAL | Some name => common_getpwnam name 512 end.

Definition wlibc_getpwent_r (valid : bool) (size : Z) : G (Z * option passwd) := reentrant valid (common_getpwent size).
Definition wlibc_getpwuid_r (uid : Z) (valid : bool) (size : Z) : G (Z * option passwd) := reentrant (valid && negb (uid <? 0)) (common_getpwuid uid size).
Definition wlibc_getpwnam_r (name : option (list Z)) (valid : bool) (size : Z) : G (Z * option passwd) :=
  reentrant (valid && match name with None | Some [] => false | _ => true end) (common_getpwnam (default [] name) size).

End Accounts.

(** ** What the user and group calls promise

    The groups are enumerated once each; the fixed ones are found by name and by
    number; the texts of a group stay in the block, those of a user need not. *)
Section AccountFacts.
Context {K : Type} {KN : Kernel K} {A : Allocator} {PK : PathKernel K} {AK : AccountKernel K}.
Implicit Types (x : accounts) (s : state K).

Abbreviation G := (SM accounts K).

Lemma gr_kernel_ok x s : gr_kernel x s = Some ((kernel s, x), s).
Proof. done. Qed.

(** ** One after the other *)

(** [n] calls. *)
Fixpoint getgrents (n : nat) : G (list (option group)) :=
  match n with O => mret [] | S n => g ← wlibc_getgrent; gs ← getgrents n; mret (g :: gs) end.

(** The enumeration of [l] and [g] is at [i]. *)
Definition at_group (l : list (list Z)) (g : list group_info) (i : Z) x : Prop :=
  gr_started x = true /\ gr_index x = i /\ local_enum x = Some l /\ global_enum x = Some g /\ local_total_entries x = zlen l /\ global_total_entries x = zlen g.

(** What a group needs of the block: its name and, if it has members, a pointer to each
    and a null, and their names. *)
Definition text_room (t : list Z) : Z := zlen t + 1.

Definition members_room (ms : list (list Z)) : Z := foldr (fun m n => text_room m + n) 0 ms.

Definition group_room (name : list Z) (ms : list (list Z)) : Z :=
  text_room name + match ms with [] => 0 | _ => 8 * (zlen ms + 1) + members_room ms end.

(** The entry of a group, if the block of 1024 bytes holds it. *)
Definition group_entry (utf8 : list Z -> list Z) (name : list Z) (gid : Z) (ms : list (list Z)) : option group :=
  let room := group_room (utf8 name) (utf8 <$> ms) in
  if room <=? 1024 then Some (Group (utf8 name) gid (utf8 <$> ms) room) else None.

(** The number of a local group: the last one of its identifier. *)
Definition group_number (k : K) (name : list Z) : Z := default (-1) (LookupAccountNameW name k ≫= last_authority).

(** The groups of the machine in the order of the enumeration. *)
Definition machine_groups (utf8 : list Z -> list Z) (k : K) (l : list (list Z)) (g : list group_info) : list (option group) :=
  ((fun f => Some (Group f.1 f.2 [] 0)) <$> nt_authority) ++
  ((fun name => group_entry utf8 name (group_number k name) (default [] (NetLocalGroupGetMembers name k))) <$> l) ++
  ((fun i => group_entry utf8 (grpi2_name i) (swrap 32 (grpi2_group_id i)) (default [] (NetGroupGetUsers (grpi2_name i) k))) <$> g).

(** The entries before the first one that is missing. *)
Fixpoint until_missing {X} (l : list (option X)) : list X :=
  match l with Some x :: l => x :: until_missing l | _ => [] end.

(** The conversion gives the text in UTF-8 if it and a NUL fit, and fails otherwise. *)
Definition converts (utf8 : list Z -> list Z) : Prop :=
  forall l max, 0 <= max <= 65535 ->
    if zlen (utf8 l) + 1 <=? max then RtlUnicodeStringToUTF8String l (Some max) = (STATUS_SUCCESS, utf8 l)
    else (RtlUnicodeStringToUTF8String l (Some max)).1 <> STATUS_SUCCESS.

(** A call that fails sets errno and nothing else. *)
Definition only_errno {X} (x : accounts) s (r : option ((option X * accounts) * state K)) : Prop :=
  exists e, r = Some ((None, x), with_errno s e).

Lemma members_room_nonneg ms : 0 <= members_room ms.
Proof. induction ms as [|m ms IH]; [done|]. change (0 <= text_room m + members_room ms). unfold text_room. lia. Qed.

Lemma place_members_ok utf8 ms : forall used x s, converts utf8 -> 0 <= used <= 1024 ->
  let n := used + members_room (utf8 <$> ms) in
  if n <=? 1024 then place_members 1024 used ms x s = Some ((Some (utf8 <$> ms, n), x), s)
  else only_errno x s (place_members 1024 used ms x s).
Proof.
  induction ms as [|m ms IH]; intros used x s Hc Hu n; unfold n; cbn [fmap list_fmap members_room foldr place_members].
  { rewrite Z.add_0_r, (proj2 (Z.leb_le _ _)) by lia. done. }
  fold (members_room (utf8 <$> ms)). pose proof (members_room_nonneg (utf8 <$> ms)) as Hp. unfold text_room.
  rewrite (wrap_small 16) by lia. destruct (Z.eqb_spec (1024 - used) 0) as [E|E].
  { rewrite (proj2 (Z.leb_gt _ _)) by lia. by eexists. }
  pose proof (Hc m (1024 - used) ltac:(lia)) as Hm. unfold to_utf8. rewrite (wrap_small 16) by lia.
  destruct (Z.leb_spec (zlen (utf8 m) + 1) (1024 - used)) as [Hf|Hf].
  - rewrite Hm, bool_decide_eq_true_2 by done. cbn [negb]. specialize (IH (used + zlen (utf8 m) + 1) x s Hc ltac:(lia)). cbv zeta in IH.
    replace (used + (zlen (utf8 m) + 1 + members_room (utf8 <$> ms))) with (used + zlen (utf8 m) + 1 + members_room (utf8 <$> ms)) by lia.
    destruct (_ <=? 1024).
    + by rewrite (SM_bind_Some _ _ _ _ _ _ _ IH).
    + destruct IH as [e IH]. exists e. by rewrite (SM_bind_Some _ _ _ _ _ _ _ IH).
  - rewrite (proj2 (Z.leb_gt (used + _) 1024)) by lia. destruct (RtlUnicodeStringToUTF8String m _) as [st t]. cbn [fst] in Hm.
    rewrite bool_decide_eq_false_2 by done. by eexists.
Qed.

Lemma fill_group_ok utf8 name gid members x s : converts utf8 ->
  match group_entry utf8 name gid (default [] members) with
  | Some e => fill_group 1024 name gid members x s = Some ((Some e, x), s)
  | None => only_errno x s (fill_group 1024 name gid members x s)
  end.
Proof.
  intros Hc. unfold group_entry, fill_group, group_room, to_utf8, text_room. rewrite (wrap_small 16) by lia.
  pose proof (Hc name 1024 ltac:(lia)) as Hn.
  assert (0 <= match utf8 <$> default [] members with [] => 0 | _ => 8 * (zlen (utf8 <$> default [] members) + 1) + members_room (utf8 <$> default [] members) end) as Hp.
  { pose proof (members_room_nonneg (utf8 <$> default [] members)). destruct (utf8 <$> default [] members); lia. }
  destruct (Z.leb_spec (zlen (utf8 name) + 1) 1024) as [Hf|Hf].
  2:{ rewrite (proj2 (Z.leb_gt (_ + _) 1024)) by lia. destruct (RtlUnicodeStringToUTF8String name _) as [st t]. cbn [fst] in Hn.
      rewrite bool_decide_eq_false_2 by done. by eexists. }
  rewrite Hn, bool_decide_eq_true_2 by done. cbn [negb]. clear Hp.
  destruct members as [[|m ms]|]; cbn [default id fmap list_fmap]; [rewrite Z.add_0_r, (proj2 (Z.leb_le _ _)) by lia; done| |
    rewrite Z.add_0_r, (proj2 (Z.leb_le _ _)) by lia; done].
  change (utf8 m :: (utf8 <$> ms)) with (utf8 <$> m :: ms). rewrite (length_fmap utf8 (m :: ms)).
  assert (0 < members_room (utf8 <$> m :: ms)) as Hp by (pose proof (members_room_nonneg (utf8 <$> ms)); change (0 < text_room (utf8 m) + members_room (utf8 <$> ms)); unfold text_room; lia).
  destruct (Z.leb_spec 1024 (zlen (utf8 name) + 1 + (zlen (m :: ms) + 1) * 8)) as [Hb|Hb].
  { rewrite (proj2 (Z.leb_gt (_ + _) 1024)) by lia. by eexists. }
  pose proof (place_members_ok utf8 (m :: ms) (zlen (utf8 name) + 1 + (zlen (m :: ms) + 1) * 8) x s Hc ltac:(lia)) as Hm. cbv zeta in Hm.
  replace (zlen (utf8 name) + 1 + (8 * (zlen (m :: ms) + 1) + members_room (utf8 <$> m :: ms)))
    with (zlen (utf8 name) + 1 + (zlen (m :: ms) + 1) * 8 + members_room (utf8 <$> m :: ms)) by lia.
  destruct (_ <=? 1024).
  - by rewrite (SM_bind_Some _ _ _ _ _ _ _ Hm).
  - destruct Hm as [e Hm]. exists e. by rewrite (SM_bind_Some _ _ _ _ _ _ _ Hm).
Qed.

Lemma start_groups_ok l g i x s : at_group l g i x -> nt_authority_entries + zlen l + zlen g < 2 ^ 32 ->
  start_groups x s = Some ((nt_authority_entries + zlen l + zlen g, x), s).
Proof.
  intros (H1 & _ & _ & _ & H5 & H6) Hb. unfold start_groups. rewrite (SM_bind_Some _ _ x s x x s) by reflexivity. rewrite (SM_bind_Some _ _ _ _ _ _ _ (gr_kernel_ok x s)).
  rewrite H1, H5, H6, wrap_small; [done|]. unfold nt_authority_entries in *. lia.
Qed.

Lemma advance_ok l g i x s : at_group l g i x -> 0 <= i < 2 ^ 32 - 1 -> exists x', advance_groups x s = Some (((), x'), s) /\ at_group l g (i + 1) x'.
Proof.
  intros (H1 & H2 & H3 & H4 & H5 & H6) Hi. eexists. split; [reflexivity|]. unfold at_group. cbn. rewrite H2, wrap_small by lia. done.
Qed.

(** The identifiers of local groups are not empty. *)
Definition numbered (k : K) (l : list (list Z)) : Prop :=
  forall name i, name ∈ l -> LookupAccountNameW name k = Some i -> is_Some (last_authority i).

Lemma local_entry_ok utf8 name x s : converts utf8 -> numbered (kernel s) [name] ->
  match group_entry utf8 name (group_number (kernel s) name) (default [] (NetLocalGroupGetMembers name (kernel s))) with
  | Some e => LOCALGROUP_INFO_0_to_group name 1024 x s = Some ((Some e, x), s)
  | None => only_errno x s (LOCALGROUP_INFO_0_to_group name 1024 x s)
  end.
Proof.
  intros Hc Hn. unfold LOCALGROUP_INFO_0_to_group. rewrite (SM_bind_Some _ _ _ _ _ _ _ (gr_kernel_ok x s)).
  rewrite (SM_bind_Some _ _ x s (group_number (kernel s) name) x s); [by apply fill_group_ok|].
  unfold group_number. destruct (LookupAccountNameW name (kernel s)) as [i|] eqn:E; [|done]. cbn [mbind option_bind].
  destruct (Hn name i) as [n ->]; [by apply list_elem_of_singleton|done|done].
Qed.

Lemma global_entry_ok utf8 i x s : converts utf8 ->
  match group_entry utf8 (grpi2_name i) (swrap 32 (grpi2_group_id i)) (default [] (NetGroupGetUsers (grpi2_name i) (kernel s))) with
  | Some e => GROUP_INFO_2_to_group i 1024 x s = Some ((Some e, x), s)
  | None => only_errno x s (GROUP_INFO_2_to_group i 1024 x s)
  end.
Proof.
  intros Hc. unfold GROUP_INFO_2_to_group. rewrite (SM_bind_Some _ _ _ _ _ _ _ (gr_kernel_ok x s)). by apply fill_group_ok.
Qed.

(** The next entry, a failure at one that does not fit, or the end. *)
Lemma getgrent_next utf8 l g (i : nat) x s : at_group l g (Z.of_nat i) x -> converts utf8 -> numbered (kernel s) l ->
  nt_authority_entries + zlen l + zlen g < 2 ^ 32 ->
  match machine_groups utf8 (kernel s) l g !! i with
  | Some (Some e) => exists x', wlibc_getgrent x s = Some ((Some e, x'), s) /\ at_group l g (Z.of_nat (S i)) x'
  | Some None => only_errno x s (wlibc_getgrent x s)
  | None => wlibc_getgrent x s = Some ((None, x), s)
  end.
Proof.
  intros Hx Hc Hnum Hb. pose proof Hx as (H1 & H2 & H3 & H4 & H5 & H6). unfold nt_authority_entries in Hb.
  unfold wlibc_getgrent, common_getgrent. rewrite (SM_bind_Some _ _ _ _ _ _ _ (start_groups_ok l g _ x s Hx Hb)). rewrite (SM_bind_Some _ _ x s x x s) by reflexivity.
  rewrite H2, H3, H4, H5, Nat2Z.id. unfold nt_authority_entries, machine_groups. assert (length nt_authority = 18%nat) as L18 by done.
  assert (forall e : group, (i < 18 + length l + length g)%nat -> exists x', (_ ← advance_groups; mret (Some e)) x s = Some ((Some e, x'), s) /\ at_group l g (Z.of_nat (S i)) x') as Adv.
  { intros e Hi. destruct (advance_ok l g (Z.of_nat i) x s Hx ltac:(lia)) as (x' & E & Hx'). exists x'. rewrite (SM_bind_Some _ _ _ _ _ _ _ E).
    replace (Z.of_nat (S i)) with (Z.of_nat i + 1) by lia. done. }
  assert (forall (o : option group) (m : G (option group)), (i < 18 + length l + length g)%nat ->
    match o with Some e => m x s = Some ((Some e, x), s) | None => only_errno x s (m x s) end ->
    match o with
    | Some e => exists x', (g ← m; match g with None => mret None | Some g => _ ← advance_groups; mret (Some g) end) x s = Some ((Some e, x'), s) /\ at_group l g (Z.of_nat (S i)) x'
    | None => only_errno x s ((g ← m; match g with None => mret None | Some g => _ ← advance_groups; mret (Some g) end) x s)
    end) as Entry.
  { intros [e|] m Hi Hm; [rewrite (SM_bind_Some _ _ _ _ _ _ _ Hm); by apply Adv|]. destruct Hm as [e Hm]. exists e. by rewrite (SM_bind_Some _ _ _ _ _ _ _ Hm). }
  destruct (decide (i < 18)%nat) as [Hi|Hi].
  - rewrite (proj2 (Z.leb_gt _ _)) by lia. rewrite lookup_app_l, list_lookup_fmap by (rewrite length_fmap; lia).
    destruct (nt_authority !! i) as [e|] eqn:E; [|apply lookup_ge_None in E; lia]. cbn [fmap option_fmap option_map].
    rewrite (SM_bind_Some _ _ x s (Some (fixed_group e)) x s) by done. apply Adv. lia.
  - rewrite lookup_app_r by (rewrite length_fmap; lia). rewrite length_fmap, L18. rewrite (lookup_ge_None_2 nt_authority) by lia.
    destruct (decide (i - 18 < length l)%nat) as [Hj|Hj].
    + rewrite (proj2 (Z.leb_gt _ _)), (proj2 (Z.ltb_lt _ _)) by lia. rewrite lookup_app_l, list_lookup_fmap by (rewrite length_fmap; lia). cbn [mbind option_bind].
      replace (Z.to_nat (Z.of_nat i - 18)) with (i - 18)%nat by lia. destruct (l !! (i - 18)%nat) as [name|] eqn:E; [|apply lookup_ge_None in E; lia].
      cbn [fmap option_fmap option_map]. apply Entry; [lia|]. apply local_entry_ok; [done|]. intros n j Hn. apply Hnum.
      apply list_elem_of_singleton in Hn as ->. by apply list_elem_of_lookup_2 in E.
    + rewrite lookup_app_r, length_fmap by (rewrite length_fmap; lia). rewrite list_lookup_fmap. destruct (g !! (i - 18 - length l)%nat) as [e|] eqn:E.
      * pose proof (lookup_lt_Some _ _ _ E). rewrite (proj2 (Z.leb_gt _ _)), (proj2 (Z.ltb_ge _ _)) by lia. cbn [mbind option_bind].
        replace (Z.to_nat (Z.of_nat i - 18 - zlen l)) with (i - 18 - length l)%nat by lia. rewrite E. cbn [fmap option_fmap option_map].
        apply Entry; [lia|]. by apply global_entry_ok.
      * apply lookup_ge_None in E. rewrite (proj2 (Z.leb_le _ _)) by lia. done.
Qed.

Lemma until_missing_lookup {X} (l : list (option X)) (i : nat) :
  (i <= length (until_missing l))%nat -> until_missing l !! i = l !! i ≫= id.
Proof.
  revert i. induction l as [|[y|] l IH]; intros i Hi; [done| |cbn in *; by replace i with 0%nat by lia].
  destruct i as [|i]; [done|]. cbn [until_missing length] in *. apply IH. lia.
Qed.

Lemma until_missing_all {X} (l : list (option X)) : Forall is_Some l -> length (until_missing l) = length l.
Proof. induction 1 as [|x l [y ->] _ IH]; [done|]. cbn. by rewrite IH. Qed.

(** The calls from an entry on that is there or is the first one missing. *)
Lemma getgrents_from utf8 l g n : forall (i : nat) x s, at_group l g (Z.of_nat i) x -> converts utf8 -> numbered (kernel s) l ->
  nt_authority_entries + zlen l + zlen g < 2 ^ 32 -> (i <= length (until_missing (machine_groups utf8 (kernel s) l g)))%nat ->
  exists x' s', getgrents n x s = Some (((fun j => until_missing (machine_groups utf8 (kernel s) l g) !! j) <$> seq i n, x'), s') /\
    (exists j, at_group l g j x') /\ (exists e, s' = with_errno s e) /\ (Forall is_Some (machine_groups utf8 (kernel s) l g) -> s' = s).
Proof.
  induction n as [|n IH]; intros i x s Hx Hc Hnum Hb Hi.
  { exists x, s. split; [done|]. split; [by eexists|]. split; [exists (errno s); by destruct s|done]. }
  cbn [getgrents seq fmap list_fmap]. pose proof (getgrent_next utf8 l g i x s Hx Hc Hnum Hb) as H.
  pose proof (until_missing_lookup _ _ Hi) as Hl. set (es := machine_groups utf8 (kernel s) l g) in *.
  assert (until_missing es !! i = None -> forall m j, (i <= j)%nat -> (fun k => until_missing es !! k) <$> seq j m = replicate m None) as R.
  { intros E m. induction m as [|m IHm]; intros j Hj; [done|]. cbn [seq fmap list_fmap replicate]. rewrite IHm by lia. f_equal.
    apply lookup_ge_None in E. apply lookup_ge_None_2. lia. }
  destruct (es !! i) as [[e|]|] eqn:E; cbn [mbind option_bind id] in Hl; rewrite Hl.
  - destruct H as (x1 & E1 & Hx1). destruct (IH (S i) x1 s Hx1 Hc Hnum Hb) as (x2 & s2 & E2 & Hx2 & He2).
    { apply lookup_lt_Some in Hl. fold es. lia. }
    exists x2, s2. rewrite (SM_bind_Some _ _ _ _ _ _ _ E1), (SM_bind_Some _ _ _ _ _ _ _ E2). done.
  - destruct H as [e He]. destruct (IH i x (with_errno s e) Hx Hc Hnum Hb Hi) as (x2 & s2 & E2 & Hx2 & [e2 ->] & _).
    exists x2, (with_errno (with_errno s e) e2). cbn [kernel with_errno] in E2. fold es in E2. rewrite (R Hl) in E2 by lia.
    rewrite (SM_bind_Some _ _ _ _ _ _ _ He), (SM_bind_Some _ _ _ _ _ _ _ E2), (R Hl) by lia.
    split; [done|]. split; [done|]. split; [by exists e2|]. intros Hall. apply (Forall_lookup_1 _ _ _ _ Hall) in E. by destruct E.
  - destruct (IH i x s Hx Hc Hnum Hb Hi) as (x2 & s2 & E2 & Hx2 & He2). fold es in E2. rewrite (R Hl) in E2 by lia.
    exists x2, s2. rewrite (SM_bind_Some _ _ _ _ _ _ _ H), (SM_bind_Some _ _ _ _ _ _ _ E2), (R Hl) by lia. done.
Qed.

(** The first call begins the enumeration. *)
Lemma first_call l g n x s : gr_started x = false -> NetLocalGroupEnum (kernel s) = Some l -> NetGroupEnum (kernel s) = Some g ->
  0 <= local_total_entries x -> 0 <= global_total_entries x -> nt_authority_entries + local_total_entries x + global_total_entries x + zlen l + zlen g < 2 ^ 32 ->
  exists x', at_group l g 0 x' /\ getgrents (S n) x s = getgrents (S n) x' s.
Proof.
  intros H0 H1 H2 P1 P2 Hb. unfold nt_authority_entries in Hb. exists (with_groups x 0 true (Some l) (Some g) (zlen l) (zlen g)). split; [done|].
  cbn [getgrents]. set (x' := with_groups x 0 true (Some l) (Some g) (zlen l) (zlen g)).
  assert (wlibc_getgrent x s = wlibc_getgrent x' s) as Eq; [|unfold mbind, SM_bind, mbind, M_bind; by rewrite Eq].
  unfold wlibc_getgrent, common_getgrent. rewrite (SM_bind_Some _ _ x' s (nt_authority_entries + zlen l + zlen g) x' s) by (apply (start_groups_ok l g 0); [done | unfold nt_authority_entries; lia]).
  rewrite (SM_bind_Some _ _ x s (nt_authority_entries + local_total_entries x + global_total_entries x + zlen l + zlen g) x' s).
  - rewrite !(SM_bind_Some _ _ x' s x' x' s) by reflexivity. cbn [x' with_groups gr_index]. unfold nt_authority_entries. rewrite !(proj2 (Z.leb_gt _ _)) by lia. done.
  - unfold start_groups. rewrite (SM_bind_Some _ _ x s x x s) by reflexivity. rewrite (SM_bind_Some _ _ _ _ _ _ _ (gr_kernel_ok x s)). rewrite H0, H1, H2.
    unfold nt_authority_entries. rewrite wrap_small by lia. done.
Qed.


(** ** By name and by number *)

Lemma iequal_trans a b c : iequal a b = true -> iequal a c = iequal b c.
Proof. unfold iequal. intros H. apply bool_decide_eq_true in H. by rewrite H. Qed.

(** the groups of [NT AUTHORITY] are found by their number and by their name in
    any spelling of the case, with the same entry. *)
Theorem fixed_groups_found (g : list Z * Z) (name : list Z) (size : Z) x s :
  g ∈ nt_authority -> iequal name g.1 = true ->
  common_getgrgid g.2 size x s = Some ((Some (fixed_group g), x), s) /\ common_getgrnam name size x s = Some ((Some (fixed_group g), x), s).
Proof.
  intros Hg Hn. unfold common_getgrnam. rewrite (iequal_trans _ _ (str "root") Hn).
  assert (list_find (fun h => iequal name h.1 = true) nt_authority = list_find (fun h => iequal g.1 h.1 = true) nt_authority) as ->.
  { generalize nt_authority as l. intros l. induction l as [|h l IH]; [done|]. cbn [list_find]. rewrite !(decide_ext (iequal name h.1 = true) (iequal g.1 h.1 = true)) by (by rewrite (iequal_trans _ _ h.1 Hn)). by rewrite IH. }
  clear Hn. revert g Hg. apply Forall_forall. unfold nt_authority at 1. repeat (constructor; [split; reflexivity|]). constructor.
Qed.

(** ** The block of an entry *)

(** A conversion that succeeds stays within the maximum, its NUL included. *)
Definition bounded_conversion : Prop :=
  forall l max text, RtlUnicodeStringToUTF8String l (Some max) = (STATUS_SUCCESS, text) -> zlen text + 1 <= max.

Lemma place_members_used size l : forall used x x' s s' ts n, bounded_conversion -> size <= 65535 -> 0 <= used <= size ->
  place_members size used l x s = Some ((Some (ts, n), x'), s') -> used <= n <= size.
Proof.
  induction l as [|m l IH]; intros used x x' s s' ts n Hc Hs Hu; cbn [place_members]; [intros [= _ <- _ _]; lia|].
  rewrite (wrap_small 16) by lia. destruct (Z.eqb_spec (size - used) 0); [done|]. unfold to_utf8. rewrite (wrap_small 16) by lia.
  destruct (RtlUnicodeStringToUTF8String m (Some (size - used))) as [st text] eqn:E. destruct (bool_decide (st = STATUS_SUCCESS)) eqn:B; cbn [negb]; [|done].
  apply bool_decide_eq_true in B as ->. pose proof (Hc _ _ _ E). unfold mbind at 1, SM_bind at 1, mbind at 1, M_bind at 1.
  destruct (place_members size (used + zlen text + 1) l x s) as [[[[[ts1 n1]|] x1] s1]|] eqn:P; [|done..]. intros [= _ <- _ _].
  apply IH in P; [lia | done | done | lia].
Qed.

(** everything that is stored of a group lies in the block of the caller, whose
    size fits in 16 bits: the name, the pointers to the members and the members. *)
Theorem group_in_block (size : Z) (name : list Z) (gid : Z) (members : option (list (list Z))) x x' s s' (e : group) :
  bounded_conversion -> 0 <= size <= 65535 -> fill_group size name gid members x s = Some ((Some e, x'), s') -> 1 <= gr_used e <= size.
Proof.
  intros Hc Hs. unfold fill_group, to_utf8. rewrite (wrap_small 16) by lia. destruct (RtlUnicodeStringToUTF8String name (Some size)) as [st text] eqn:E.
  destruct (bool_decide (st = STATUS_SUCCESS)) eqn:B; cbn [negb]; [|done]. apply bool_decide_eq_true in B as ->. pose proof (Hc _ _ _ E).
  destruct members as [[|m l]|]; [intros [= <- _ _]; cbn; lia | | intros [= <- _ _]; cbn; lia].
  destruct (Z.leb_spec size (zlen text + 1 + (zlen (m :: l) + 1) * 8)); [done|]. unfold mbind at 1, SM_bind at 1, mbind at 1, M_bind at 1.
  destruct (place_members size _ (m :: l) x s) as [[[[[ts n]|] x1] s1]|] eqn:P; [|done..]. intros [= <- _ _]. apply place_members_used in P; [cbn [gr_used]; lia | done | lia | lia].
Qed.

(** Plain texts are converted as they are when there is room for the NUL too. *)
Definition plain_conversion : Prop :=
  forall l max, zlen l + 1 <= max -> RtlUnicodeStringToUTF8String l (Some max) = (STATUS_SUCCESS, l).

(** the directory of a user is stored behind the name and the comment, in a room
    that is too large by twice the comment: an entry whose directory fits in that
    room is made, and it lies in the block only if the directory fits in what is
    really left. *)
Theorem passwd_home_overflows (size : Z) (i : user_info) (home : list Z) x s :
  plain_conversion -> 0 <= size < 32768 ->
  let n := zlen (usri3_name i) + 1 in
  let c := zlen (usri3_comment i) + 1 in
  n + c < size -> home_of (usri3_name i) x s = Some ((Some (Some home), x), s) -> zlen home + 1 <= size - n + c ->
  exists e, USER_INFO_3_to_passwd i size x s = Some ((Some e, x), s) /\ pw_dir e = Some home /\ (pw_used e <= size <-> zlen home + 1 <= size - (n + c)).
Proof.
  intros Hc Hs n c Hn Hh Hl. unfold n, c in *. eexists. split.
  - unfold USER_INFO_3_to_passwd, to_utf8. rewrite (wrap_small 16 size) by lia. rewrite Hc by lia. rewrite (bool_decide_eq_true_2 (STATUS_SUCCESS = STATUS_SUCCESS)) by done. cbn [negb].
    rewrite (proj2 (Z.leb_gt _ _)) by lia. rewrite (wrap_small 16) by lia. rewrite Hc by lia. rewrite (bool_decide_eq_true_2 (STATUS_SUCCESS = STATUS_SUCCESS)) by done. cbn [negb].
    rewrite (proj2 (Z.leb_gt _ _)) by lia. rewrite (SM_bind_Some _ _ _ _ _ _ _ Hh). rewrite (wrap_small 16) by lia. rewrite Hc by lia.
    rewrite (bool_decide_eq_true_2 (STATUS_SUCCESS = STATUS_SUCCESS)) by done. reflexivity.
  - cbn [pw_dir pw_used]. split; [done|]. lia.
Qed.

(** ** errno *)

(** the calls that return the error leave [errno] as it was when they return 0,
    and return what they set it to otherwise; a null pointer is [EINVAL]. *)
Theorem reentrant_errno {X} (valid : bool) (m : G (option X)) x s r e x' s' :
  reentrant valid m x s = Some (((e, r), x'), s') ->
  (e = 0 /\ errno s' = errno s) \/ (e <> 0 /\ r = None /\ errno s' = e).
Proof.
  unfold reentrant. destruct valid; cbn [negb].
  - rewrite (SM_bind_Some _ _ x s s x s) by reflexivity. rewrite (SM_bind_Some _ _ _ _ () x _ eq_refl).
    unfold mbind at 1, SM_bind at 1, mbind at 1, M_bind at 1. destruct (m x _) as [[[r1 x1] s1]|]; [|done]. rewrite (SM_bind_Some _ _ _ _ s1 x1 s1 eq_refl).
    destruct r1 as [v|]; [intros [= <- _ _ <-]; by left|]. destruct (Z.eqb_spec (errno s1) 0); cbn [negb]; intros [= <- <- _ <-]; [by left | by right].
  - intros [= <- <- _ <-]. by right.
Qed.
End AccountFacts.

(** ** A machine with one user and two groups *)
Module Office.

Definition K : Type := unit.

(** Plain texts, with room for the NUL. *)
#[export] Instance plain_paths : PathKernel K := {
  RtlUTF8StringToUnicodeString l _ := (STATUS_SUCCESS, l);
  RtlUnicodeStringToUTF8String l max := (if zlen l + 1 <=? default 65535 max then STATUS_SUCCESS else STATUS_BUFFER_OVERFLOW, l);
  CurrentDirectory _ := [];
  NtOpenSymbolicLinkObject v k := (STATUS_OBJECT_NAME_NOT_FOUND, v, k);
  NtQuerySymbolicLinkObject _ _ := (STATUS_OBJECT_NAME_NOT_FOUND, []);
  NtQueryObjectName _ _ _ := (STATUS_OBJECT_NAME_NOT_FOUND, 0, []);
  QueryDosVolumePaths _ _ := (STATUS_OBJECT_NAME_NOT_FOUND, []);
  NtOpenKeyEx _ _ := (STATUS_SUCCESS, 3);
  NtQueryValueKey _ _ _ _ := (STATUS_SUCCESS, 40, str "C:\Users\me.of.this.office");
  current_user_sid := []
}.

#[export] Instance office : AccountKernel K := {
  LookupAccountNameW n _ := Some (Sid 1 5 [21; 1; 2; 3; zlen n]);
  LookupAccountSidName _ _ := None;
  ConvertSidToStringSidW _ := Some (str "S-1-5-21");
  NetLocalGroupGetInfo n _ := if iequal n (str "users") then Some (str "Users") else None;
  NetGroupGetInfo _ _ := NERR_NotFound;
  NetLocalGroupGetMembers _ _ := Some [str "me"];
  NetGroupGetUsers _ _ := Some [];
  NetLocalGroupEnum _ := Some [str "Users"];
  NetGroupEnum _ := Some [GroupInfo (str "None") 513];
  NetUserGetInfo _ _ := NERR_NotFound;
  NetUserEnum _ := Some []
}.

#[export] Instance ample : Allocator := fun _ => true.

Lemma conversions : plain_conversion /\ bounded_conversion.
Proof.
  split.
  - intros l max H. cbn. by rewrite (proj2 (Z.leb_le _ _)).
  - intros l max text. cbn. destruct (Z.leb_spec (zlen l + 1) max); [|done]. intros [= <-]. done.
Qed.

Definition before : accounts :=
  Accounts 0 false None None 0 0 0 false None 0 (Security NTSYSTEM ADMINISTRATORS USERS EVERYONE NTSYSTEM NTSYSTEM NTSYSTEM 0 0 ∅) initial_paths.
Definition start : state K := State [] 0 0 0 0 7 ().

(** Texts are plain already. *)
Lemma plain_converts : converts (K := K) (fun l => l).
Proof.
  intros l max Hm. cbn. destruct (zlen l + 1 <=? max) eqn:E; [done|]. cbn. done.
Qed.
End Office.
Import Office.


Lemma fixed_groups_found_witness : common_getgrgid 18 1024 before start = Some ((Some (fixed_group (str "SYSTEM", 18)), before), start) /\
  common_getgrnam (str "sysTEM") 1024 before start = Some ((Some (fixed_group (str "SYSTEM", 18)), before), start).
Proof. refine (fixed_groups_found (str "SYSTEM", 18) (str "sysTEM") 1024 before start _ eq_refl). apply (bool_decide_unpack _). vm_compute. exact I. Defined.

Lemma group_in_block_witness : 1 <= gr_used (Group (str "Users") 5 [str "me"] 25) <= 64.
Proof. exact (group_in_block 64 (str "Users") 5 (Some [str "me"]) before before start start _ (proj2 conversions) ltac:(lia) eq_refl). Defined.

Lemma passwd_home_overflows_witness : exists e, USER_INFO_3_to_passwd (UserInfo (str "me") (str "the only one in this office") 1001 513) 40 before start = Some ((Some e, before), start) /\
  ~ pw_used e <= 40.
Proof.
  destruct (passwd_home_overflows 40 (UserInfo (str "me") (str "the only one in this office") 1001 513) (str "C:\Users\me.of.this.office") before start (proj1 conversions) ltac:(lia)) as (e & E & _ & H).
  - done.
  - reflexivity.
  - done.
  - exists e. split; [exact E|]. rewrite H. cbn. lia.
Defined.

Lemma reentrant_errno_witness : wlibc_getgrgid_r 77 true 1024 before start = Some (((2, None), before), State [] 0 0 0 0 2 ()) /\ ((2 = 0 /\ 2 = 7) \/ (2 <> 0 /\ @None group = None /\ 2 = 2)).
Proof. split; [reflexivity|]. exact (reentrant_errno true (common_getgrgid 77 1024) before start None 2 before (State [] 0 0 0 0 2 ()) eq_refl). Defined.
