(* ===== verification/Names.v ===== *)
(** * Names of files

    Symbolic and hard links, removal and renaming (src/unistd/symlink.c, readlink.c,
    link.c, remove.c, src/stdio/rename.c), the current directory (chdir.c, getcwd.c) and
    the length of files (truncate.c). *)

From stdpp Require Import strings gmap.
From S2P Require Import Prelude Errno Buffer FdTable FileIo Path PathFacts Open Dirent Security Time Stat.

Definition AT_SYMLINK_FOLLOW : Z := 0x01.
Definition AT_REMOVEDIR : Z := 0x04.
Definition AT_REMOVEANY : Z := 0x08.
Definition RENAME_NOREPLACE : Z := 0x1.
Definition RENAME_EXCHANGE : Z := 0x2.

Definition SYMLINK_FLAG_RELATIVE : Z := 0x00000001.
Definition REPARSE_DATA_BUFFER_HEADER_SIZE : Z := 8.
Definition FILE_LINK_POSIX_SEMANTICS : Z := 0x00000002.
Definition FILE_RENAME_REPLACE_IF_EXISTS : Z := 0x00000001.
Definition FILE_RENAME_POSIX_SEMANTICS : Z := 0x00000002.
Definition FILE_RENAME_IGNORE_READONLY_ATTRIBUTE : Z := 0x00000040.
Definition FILE_DISPOSITION_DELETE : Z := 0x00000001.
Definition FILE_DISPOSITION_POSIX_SEMANTICS : Z := 0x00000002.
Definition FILE_DISPOSITION_IGNORE_READONLY_ATTRIBUTE : Z := 0x00000010.

(** The data of a symbolic link, as they are handed to the kernel: offsets and lengths
    are in bytes, the names are code units of [PathBuffer]. *)
Record reparse_data := ReparseData {
  rd_length : Z;
  SubstituteNameOffset : Z; SubstituteNameLength : Z; PrintNameOffset : Z; PrintNameLength : Z;
  rd_flags : Z;
  PathBuffer : list Z
}.

Definition name_at (l : list Z) (offset length : Z) : list Z := take (Z.to_nat (length / 2)) (drop (Z.to_nat (offset / 2)) l).

(** What the data say. *)
Definition names_in (d : reparse_data) : reparse_point :=
  ReparsePoint IO_REPARSE_TAG_SYMLINK (name_at (PathBuffer d) (PrintNameOffset d) (PrintNameLength d))
    (name_at (PathBuffer d) (SubstituteNameOffset d) (SubstituteNameLength d)).

(** The attributes and the tag of a file; a symbolic link, a hard link, the removal and
    the new name of a file; the serial number and the low 8 bytes of the identifier of a
    file; the current directory; the length of a file. *)
Class NameKernel (K : Type) := {
  NtQueryAttributeTag : Z -> K -> NTSTATUS * (Z * Z);
  NtSetReparsePoint : Z -> reparse_data -> K -> NTSTATUS * K;
  NtSetLink : Z -> Z -> list Z -> K -> NTSTATUS * K;
  NtSetDisposition : Z -> Z -> K -> NTSTATUS * K;
  NtSetRename : Z -> Z -> list Z -> K -> NTSTATUS * K;
  NtQueryFileId : Z -> K -> NTSTATUS * (Z * Z);
  SetCurrentDirectoryW : list Z -> K -> option DOSERROR * K;
  NtSetEndOfFile : Z -> Z -> K -> NTSTATUS * K
}.

Section Names.
Context {K : Type} {KN : Kernel K} {A : Allocator} {PK : PathKernel K} {OK : OpenKernel K} {SK : StatKernel K} {FK : FileKernel K} {NK : NameKernel K}.

Abbreviation F := (SM (security * path_state) K).
Abbreviation P := (SM path_state K).

(** The result of a call that changes the kernel. *)
Definition kernel_call {T} (f : K -> NTSTATUS * K) : SM T K Z :=
  k ← kernel_S;
  let '(status, k) := f k in
  _ ← run_M (set_kernel k);
  if negb (ok status) then _ ← fail_with status; mret (-1) else mret 0.

Definition close_P (h : Z) : P unit := k ← kernel_S; run_M (set_kernel (NtClose h k).2).

(** ** Symbolic links *)

(** [/c] is the drive [C:] for the text of a link; drive letters are upper case. The
    buffer ends in a NUL. *)
Definition cygwin_drive (w : list Z) : list Z :=
  if (byte_at w 0 =? ch "/") && isalpha (swrap 8 (byte_at w 1)) then toupper (byte_at w 1) :: ch ":" :: drop 2 w else w.

Definition backslashed (w : list Z) : list Z := (fun c => if c =? ch "/" then 92 else c) <$> w.

Definition upper_drive (w : list Z) : list Z := match w with c :: w => toupper c :: w | [] => [] end.

(** The text that is stored: of two code units and absolute, it is a drive and gets a
    backslash in the place of its NUL. *)
Definition link_text (is_absolute : bool) (w : list Z) : list Z :=
  let w := backslashed (cygwin_drive w) in
  if is_absolute then let w := upper_drive w in if zlen w =? 2 then w ++ [92] else w else w.

Definition NT_PREFIX : list Z := str "\??\".

(** The data of the link; the size of the block has 16 bits, and what is copied must lie
    in the block: [None] otherwise. *)
Definition link_block (is_absolute : bool) (text : list Z) : Z :=
  u16 (REPARSE_DATA_BUFFER_HEADER_SIZE + 12 + 2 * (2 * zlen text) + (if is_absolute then 8 else 0)).

Definition link_data (is_absolute : bool) (text : list Z) : option reparse_data :=
  let length := 2 * zlen text in
  let extra := if is_absolute then 8 else 0 in
  let total := link_block is_absolute text in
  if total <? REPARSE_DATA_BUFFER_HEADER_SIZE + 12 + 2 * length + extra then None
  else Some (ReparseData (total - REPARSE_DATA_BUFFER_HEADER_SIZE) length (u16 (length + extra)) 0 length
               (if is_absolute then 0 else SYMLINK_FLAG_RELATIVE) (text ++ (if is_absolute then NT_PREFIX else []) ++ text)).

(** From the opened file on; [source] is cut to a length of 16 bits. A file that cannot
    be made a link stays, and stays open when there is no memory. *)
Definition write_link (h : Z) (source : list Z) (is_absolute : bool) : F Z :=
  let '(status, w) := RtlUTF8StringToUnicodeString (take (Z.to_nat (u16 (zlen source))) source) None in
  if negb (ok status) then _ ← fail_with status; mret (-1)
  else
    let text := link_text is_absolute w in
    if malloc_ok (link_block is_absolute text) then
      d ← defined (link_data is_absolute text);
      k ← kernel_S;
      let '(status, k) := NtSetReparsePoint h d k in
      _ ← run_M (set_kernel k);
      _ ← close_handle h;
      if negb (ok status) then _ ← fail_with status; mret (-1) else mret 0
    else error ENOMEM (-1).

(** The path that is looked at to see whether the source is a directory. *)
Definition normalized_source (target source : list Z) : list Z :=
  target ++ (match last target with Some c => if (c =? ch "/") || (c =? 92) then [] else str "/" | None => [] end) ++ str "../" ++ source.

(** A directory is made a link to a directory. *)
Definition source_options (ntsource : list Z) : P Z :=
  h ← just_open2 ntsource FILE_READ_ATTRIBUTES (Z.lor FILE_OPEN_REPARSE_POINT FILE_NON_DIRECTORY_FILE);
  if h =? 0 then
    s ← run_M get;
    let isdir := errno s =? EISDIR in
    _ ← (if isdir || (errno s =? ENOENT) then run_M (set_errno 0) else mret ());
    mret (if isdir then FILE_DIRECTORY_FILE else FILE_NON_DIRECTORY_FILE)
  else _ ← close_P h; mret FILE_NON_DIRECTORY_FILE.

Definition link_access : Z := Z.lor FILE_READ_ATTRIBUTES (Z.lor FILE_WRITE_ATTRIBUTES SYNCHRONIZE).

(** The file that becomes the link: it must not exist. *)
Definition create_link (nttarget : list Z) (mode options : Z) : F (NTSTATUS * Z) :=
  let isdir := options =? FILE_DIRECTORY_FILE in
  d ← with_security (get_security_descriptor (Z.land mode 511) isdir);
  with_paths (create_file (CreateArgs None nttarget false (match d with Some _ => Some (cache_index (Z.land mode 511) isdir) | None => None end)
    link_access 0 FILE_CREATE (Z.lor options FILE_SYNCHRONOUS_IO_NONALERT))).

(** A link to the root of the current drive. *)
Definition root_data (letter : Z) : reparse_data :=
  ReparseData 32 6 14 0 6 0 ([letter; ch ":"; 92] ++ NT_PREFIX ++ [letter; ch ":"; 92]).

Definition symlink_root (dirfd : Z) (target : list Z) (mode : Z) : F Z :=
  nttarget ← with_paths (get_absolute_ntpath dirfd target);
  match nttarget with
  | None => mret (-1)
  | Some nttarget =>
      k ← kernel_S;
      let letter := byte_at (CurrentDirectory k) 0 in
      '(status, h) ← create_link nttarget mode FILE_DIRECTORY_FILE;
      if negb (ok status) then _ ← fail_with status; mret (-1)
      else if malloc_ok 40 then
        k ← kernel_S;
        let '(status, k) := NtSetReparsePoint h (root_data letter) k in
        _ ← run_M (set_kernel k);
        _ ← close_handle h;
        if negb (ok status) then _ ← fail_with status; mret (-1) else mret 0
      else error ENOMEM (-1)
  end.

Definition common_symlink (source : list Z) (dirfd : Z) (target : list Z) (mode : Z) : F Z :=
  if IS_ROOT_PATH source then symlink_root dirfd target mode
  else
    nttarget ← with_paths (get_absolute_ntpath dirfd target);
    match nttarget with
    | None => mret (-1)
    | Some nttarget =>
        let is_absolute := IS_ABSOLUTE_PATH source in
        ntsource ←
          (if is_absolute then with_paths (get_absolute_ntpath dirfd source)
           else if malloc_ok (zlen target + zlen source + 5) then with_paths (get_absolute_ntpath dirfd (normalized_source target source))
           else error ENOMEM None);
        match ntsource with
        | None => mret (-1)
        | Some ntsource =>
            options ← with_paths (source_options ntsource);
            '(status, h) ← create_link nttarget mode options;
            if negb (ok status) then _ ← fail_with status; mret (-1) else write_link h source is_absolute
        end
    end.

Definition wlibc_common_symlink (source : option (list Z)) (dirfd : Z) (target : option (list Z)) (mode : Z) : F Z :=
  match source with
  | None | Some [] => error EINVAL (-1)
  | Some source => validated target dirfd (-1) (fun target => common_symlink source dirfd target mode)
  end.

(** ** The text of a link *)

Definition convert_bs_to_fs (l : list Z) (length : Z) : list Z :=
  ((fun c => if c =? 92 then ch "/" else c) <$> take (Z.to_nat length) l) ++ drop (Z.to_nat length) l.

(** The name a link shows: [None] for another tag, which leaves it undefined; an inner
    [None] when there is none. *)
Definition link_name (r : reparse_point) : option (option (list Z)) :=
  if (rp_tag r =? IO_REPARSE_TAG_SYMLINK) || (rp_tag r =? IO_REPARSE_TAG_MOUNT_POINT) then
    Some (match PrintName r, SubstituteName r with [], [] => None | [], n => Some n | n, _ => Some n end)
  else None.

(** The bytes that are stored. The size is cut to 16 bits; when it is too small a block
    is allocated and [bufsiz] bytes are copied from it, which must be there. Other
    errors of the conversion leave [errno]. *)
Definition store_text (w : list Z) (bufsiz : Z) : F (Z * list Z) :=
  let '(status, text) := RtlUnicodeStringToUTF8String w (Some (u16 bufsiz)) in
  if ok status then mret (zlen text, convert_bs_to_fs (text ++ [0]) (zlen text))
  else if bool_decide (status = STATUS_BUFFER_TOO_SMALL) then
    let '(status, text) := RtlUnicodeStringToUTF8String w None in
    if negb (ok status) then _ ← fail_with status; mret (-1, [])
    else if zlen text + 1 <? bufsiz then run_M UB
    else mret (bufsiz, convert_bs_to_fs (take (Z.to_nat bufsiz) (text ++ [0])) bufsiz)
  else mret (-1, []).

Definition do_readlink (h bufsiz : Z) : F (Z * list Z) :=
  k ← kernel_S;
  let '(status, (attributes, tag)) := NtQueryAttributeTag h k in
  if negb (ok status) then _ ← fail_with status; mret (-1, [])
  else if negb (has attributes FILE_ATTRIBUTE_REPARSE_POINT) then error EINVAL (-1, [])
  else if negb (tag =? IO_REPARSE_TAG_SYMLINK) && negb (tag =? IO_REPARSE_TAG_MOUNT_POINT) then error EINVAL (-1, [])
  else if malloc_ok MAXIMUM_REPARSE_DATA_BUFFER_SIZE then
    let '(status, r) := NtGetReparsePoint h k in
    if negb (ok status) then _ ← fail_with status; mret (-1, [])
    else
      n ← defined (link_name r);
      match n with
      | None => error EBADF (-1, [])
      | Some w => store_text w bufsiz
      end
  else error ENOMEM (-1, []).

Definition common_readlink (t0 : handle_t) (dirfd : Z) (path : list Z) (bufsiz : Z) : F (Z * list Z) :=
  h ← with_paths (just_open t0 dirfd path FILE_READ_ATTRIBUTES FILE_OPEN_REPARSE_POINT);
  if h =? 0 then mret (-1, []) else r ← do_readlink h bufsiz; _ ← close_handle h; mret r.

(** [VALIDATE_DIRFD]. *)
Definition validate_dirfd (dirfd : Z) : F (option Z) :=
  if dirfd =? AT_FDCWD then mret None
  else
    t ← run_M (get_fd_type dirfd);
    mret (match t with INVALID_HANDLE => Some EBADF | DIRECTORY_HANDLE => None | _ => Some ENOTDIR end).

(** An empty path is that of a descriptor for a link itself. *)
Definition wlibc_common_readlink (t0 : handle_t) (dirfd : Z) (path : option (list Z)) (buffer : bool) (bufsiz : Z) : F (Z * list Z) :=
  if negb buffer then error EINVAL (-1, [])
  else
    match path with
    | None | Some [] =>
        valid ← run_M (validate_fd dirfd);
        if negb valid then error ENOENT (-1, [])
        else
          f ← run_M (get_fd_flags dirfd);
          if negb (Z.land f (Z.lor O_NOFOLLOW O_PATH) =? Z.lor O_NOFOLLOW O_PATH) then error ENOENT (-1, [])
          else h ← run_M (get_fd_handle dirfd); do_readlink h bufsiz
    | Some path =>
        e ← validate_dirfd dirfd;
        match e with
        | Some e => error e (-1, [])
        | None => common_readlink t0 dirfd path bufsiz
        end
    end.

(** ** Hard links *)

Definition do_link (h dirfd : Z) (target : list Z) : F Z :=
  nttarget ← with_paths (get_absolute_ntpath dirfd target);
  match nttarget with
  | None => mret (-1)
  | Some nttarget =>
      if malloc_ok (22 + 2 * zlen nttarget) then kernel_call (NtSetLink h FILE_LINK_POSIX_SEMANTICS nttarget)
      else error ENOMEM (-1)
  end.

Definition common_link (t0 : handle_t) (olddirfd : Z) (source : list Z) (newdirfd : Z) (target : list Z) (flags : Z) : F Z :=
  let options := if negb (flags =? AT_SYMLINK_FOLLOW) then Z.lor FILE_NON_DIRECTORY_FILE FILE_OPEN_REPARSE_POINT else FILE_NON_DIRECTORY_FILE in
  h ← with_paths (just_open t0 olddirfd source link_access options);
  if h =? 0 then mret (-1) else r ← do_link h newdirfd target; _ ← close_handle h; mret r.

Definition wlibc_common_link (t0 : handle_t) (olddirfd : Z) (source : option (list Z)) (newdirfd : Z) (target : option (list Z)) (flags : Z) : F Z :=
  if negb (flags =? 0) && negb (flags =? AT_EMPTY_PATH) && negb (flags =? AT_SYMLINK_FOLLOW) then error EINVAL (-1)
  else
    validated target newdirfd (-1) (fun target =>
      if negb (flags =? AT_EMPTY_PATH) then
        validated source olddirfd (-1) (fun source => common_link t0 olddirfd source newdirfd target flags)
      else
        t ← run_M (get_fd_type olddirfd);
        f ← (if bool_decide (t = FILE_HANDLE) then run_M (get_fd_flags olddirfd) else mret O_EXCL);
        if has f O_EXCL then error EBADF (-1)
        else h ← run_M (get_fd_handle olddirfd); do_link h newdirfd target).

(** ** Removal *)

Definition remove_options (flags : Z) : Z :=
  if flags =? 0 then Z.lor FILE_OPEN_REPARSE_POINT FILE_NON_DIRECTORY_FILE
  else if flags =? AT_REMOVEDIR then Z.lor FILE_OPEN_REPARSE_POINT FILE_DIRECTORY_FILE
  else FILE_OPEN_REPARSE_POINT.

Definition remove_disposition : Z := Z.lor FILE_DISPOSITION_DELETE (Z.lor FILE_DISPOSITION_POSIX_SEMANTICS FILE_DISPOSITION_IGNORE_READONLY_ATTRIBUTE).

(** The handle is closed before the status is looked at. *)
Definition common_remove (t0 : handle_t) (dirfd : Z) (path : list Z) (flags : Z) : F Z :=
  h ← with_paths (just_open t0 dirfd path DELETE (remove_options flags));
  if h =? 0 then mret (-1)
  else
    k ← kernel_S;
    let '(status, k) := NtSetDisposition h remove_disposition k in
    _ ← run_M (set_kernel k);
    _ ← close_handle h;
    if negb (ok status) then _ ← fail_with status; mret (-1) else mret 0.

Definition wlibc_common_remove (t0 : handle_t) (dirfd : Z) (path : option (list Z)) (flags : Z) : F Z :=
  if negb (flags =? 0) && negb (flags =? AT_REMOVEDIR) && negb (flags =? AT_REMOVEANY) then error EINVAL (-1)
  else validated path dirfd (-1) (fun path => common_remove t0 dirfd path flags).

(** ** Renaming *)

Definition are_they_hardlinks (a b : Z) (k : K) : bool :=
  let '(sa, (va, ia)) := NtQueryFileId a k in
  if negb (ok sa) then false
  else
    let '(sb, (vb, ib)) := NtQueryFileId b k in
    if negb (ok sb) then false else if negb (va =? vb) then false else u64 ia =? u64 ib.

Definition rename_flags (flags : Z) : Z :=
  Z.lor FILE_RENAME_POSIX_SEMANTICS (Z.lor FILE_RENAME_IGNORE_READONLY_ATTRIBUTE (if flags =? RENAME_NOREPLACE then 0 else FILE_RENAME_REPLACE_IF_EXISTS)).

Definition do_rename (h : Z) (path : list Z) (flags : Z) : F Z :=
  if malloc_ok (22 + 2 * zlen path) then kernel_call (NtSetRename h (rename_flags flags) path) else error ENOMEM (-1).

(** Whether the new name is the same file; what opening it sets is cleared. *)
Definition same_file (old : Z) (ntnew : list Z) : F bool :=
  h ← with_paths (just_open2 ntnew FILE_READ_ATTRIBUTES FILE_OPEN_REPARSE_POINT);
  if h =? 0 then _ ← run_M (set_errno 0); mret false
  else k ← kernel_S; _ ← close_handle h; mret (are_they_hardlinks old h k).

Definition common_rename (t0 : handle_t) (olddirfd : Z) (oldpath : list Z) (newdirfd : Z) (newpath : list Z) (flags : Z) : F Z :=
  old ← with_paths (just_open t0 olddirfd oldpath (Z.lor FILE_READ_ATTRIBUTES DELETE) FILE_OPEN_REPARSE_POINT);
  if old =? 0 then mret (-1)
  else
    ntnew ← with_paths (get_absolute_ntpath newdirfd newpath);
    match ntnew with
    | None => _ ← close_handle old; mret (-1)
    | Some ntnew =>
        same ← same_file old ntnew;
        r ← (if same : bool then mret 0 else do_rename old ntnew flags);
        _ ← close_handle old;
        mret r
    end.

(** The first file is given a random name of the current directory. *)
Definition common_exchange (t0 : handle_t) (olddirfd : Z) (oldpath : list Z) (newdirfd : Z) (newpath : list Z) : F Z :=
  k ← kernel_S;
  let '(rn, k) := rand_s k in
  _ ← run_M (set_kernel k);
  let temp := base36 7 (u32 rn) [] in
  status ← common_rename t0 olddirfd oldpath AT_FDCWD temp 0;
  if status =? -1 then mret (-1)
  else
    status ← common_rename t0 newdirfd newpath olddirfd oldpath 0;
    if status =? -1 then _ ← common_rename t0 AT_FDCWD temp olddirfd oldpath 0; mret (-1)
    else
      status ← common_rename t0 AT_FDCWD temp newdirfd newpath 0;
      if status =? -1 then
        _ ← common_rename t0 olddirfd oldpath newdirfd newpath 0;
        _ ← common_rename t0 AT_FDCWD temp olddirfd oldpath 0;
        mret (-1)
      else mret 0.

Definition wlibc_common_rename (t0 : handle_t) (olddirfd : Z) (oldpath : option (list Z)) (newdirfd : Z) (newpath : option (list Z)) (flags : Z) : F Z :=
  if negb (flags =? 0) && negb (flags =? RENAME_EXCHANGE) && negb (flags =? RENAME_NOREPLACE) then error EINVAL (-1)
  else
    validated oldpath olddirfd (-1) (fun oldpath =>
      validated newpath newdirfd (-1) (fun newpath =>
        if flags =? RENAME_EXCHANGE then common_exchange t0 olddirfd oldpath newdirfd newpath
        else common_rename t0 olddirfd oldpath newdirfd newpath flags)).

(** ** The current directory *)

Definition common_chdir (wname : list Z) : P Z :=
  k ← kernel_S;
  let '(e, k) := SetCurrentDirectoryW wname k in
  _ ← run_M (set_kernel k);
  match e with
  | Some e => s ← run_M get; _ ← run_M (set_errno (map_doserror_to_errno e (errno s))); mret (-1)
  | None => mret 0
  end.

Definition wlibc_chdir (name : option (list Z)) : P Z :=
  match name with
  | None | Some [] => _ ← run_M (set_errno ENOENT); mret (-1)
  | Some name =>
      let '(status, wname) := RtlUTF8StringToUnicodeString name None in
      if negb (ok status) then _ ← fail_with status; mret (-1) else common_chdir wname
  end.

Definition wlibc_fchdir (fd : Z) : P Z :=
  t ← run_M (get_fd_type fd);
  if negb (bool_decide (t = DIRECTORY_HANDLE)) then _ ← run_M (set_errno ENOTDIR); mret (-1)
  else
    dirpath ← get_fd_dospath fd;
    match dirpath with
    | None => mret (-1)
    | Some dirpath => common_chdir dirpath
    end.

(** The block for the result: the caller's, or one that is allocated. *)
Definition cwd_block (buffer : bool) (size allocated : Z) : P bool :=
  if buffer then (if size =? 0 then _ ← run_M (set_errno ERANGE); mret false else mret true)
  else if malloc_ok allocated then mret true
  else _ ← run_M (set_errno ENOMEM); mret false.

Definition slashed (l : list Z) : list Z := (fun c => if c =? 92 then ch "/" else c) <$> l.

(** The bytes that are stored: the last backslash is a NUL, except for the root of a
    volume. An empty directory has no last byte. *)
Definition wlibc_getcwd (buffer : bool) (size : Z) : P (option (list Z)) :=
  k ← kernel_S;
  let '(status, cwd) := RtlUnicodeStringToUTF8String (CurrentDirectory k) None in
  if negb (ok status) then _ ← fail_with status; mret None
  else
    let maximum := zlen cwd + 1 in
    if zlen cwd =? 0 then run_M UB
    else
      let stored := if zlen cwd =? 3 then cwd else take (length cwd - 1) cwd ++ [0] in
      if negb (size =? 0) && (size <? maximum) then _ ← run_M (set_errno ERANGE); mret None
      else
        b ← cwd_block buffer size (if size =? 0 then maximum else size);
        mret (if b : bool then Some (slashed stored ++ [0]) else None).

(** Sizes are in code units; the bytes of the directory and its NUL have 16 bits. *)
Definition wlibc_wgetcwd (buffer : bool) (length : Z) : P (option (list Z)) :=
  k ← kernel_S;
  let cwd := CurrentDirectory k in
  let cwd_length := u16 (2 * zlen cwd + 2) in
  if negb (length =? 0) && (u64 (length * 2) <? cwd_length) then _ ← run_M (set_errno ERANGE); mret None
  else
    b ← cwd_block buffer length (if length =? 0 then cwd_length else u64 (2 * length));
    if b : bool then
      if zlen cwd =? 0 then run_M UB
      else mret (Some (slashed (if zlen cwd =? 3 then cwd else take (List.length cwd - 1) cwd ++ [0]) ++ [0]))
    else mret None.

(** ** The length of a file *)

Definition common_truncate {T} (h length : Z) : SM T K Z := kernel_call (NtSetEndOfFile h length).

(** The position is set again. *)
Definition do_ftruncate {T} (h length : Z) : SM T K Z :=
  k ← kernel_S;
  let '(status, pos) := NtQueryPosition h k in
  if negb (ok status) then _ ← fail_with status; mret (-1)
  else
    r ← common_truncate h length;
    if negb (r =? 0) then mret (-1) else kernel_call (NtSetPosition h pos).

Definition wlibc_truncate (t0 : handle_t) (path : option (list Z)) (length : Z) : F Z :=
  match path with
  | None | Some [] => error ENOENT (-1)
  | Some path =>
      h ← with_paths (just_open t0 AT_FDCWD path (Z.lor FILE_WRITE_DATA (Z.lor FILE_APPEND_DATA SYNCHRONIZE))
            (Z.lor FILE_NON_DIRECTORY_FILE FILE_SYNCHRONOUS_IO_NONALERT));
      if h =? 0 then mret (-1) else r ← common_truncate h length; _ ← close_handle h; mret r
  end.

Definition wlibc_ftruncate (fd : Z) (info : fdinfo) (length : Z) : F Z :=
  i ← run_M (get_fdinfo fd info);
  if negb (bool_decide (type i = FILE_HANDLE)) then error EBADF (-1)
  else if Z.land (flags i) (Z.lor O_WRONLY O_RDWR) =? 0 then error EACCES (-1)
  else do_ftruncate (handle i) length.

End Names.
