(* ===== verification/NamesSpec.v ===== *)
(** * What the calls on names promise

    A symbolic link shows the text it was made with, up to the spelling of a drive; the
    names of files refine a map from paths to files under renaming, linking and removal;
    an exchange swaps two names; the current directory is told as it is; truncation leaves
    the position. *)

From stdpp Require Import strings gmap.
From S2P Require Import Prelude Errno Buffer FdTable FileIo Path PathFacts PathSpec FdTableFacts Open OpenSpec Dirent Security Time Stat Names.

(** ** Symbolic links *)

(** Texts of ASCII are converted as they are, with room for the NUL. *)
Definition ascii (l : list Z) : Prop := Forall (fun c => 0 < c < 128) l.

Class AsciiText {K : Type} `{PathKernel K} : Prop := {
  to_unicode l : ascii l -> zlen l < 32767 -> RtlUTF8StringToUnicodeString l None = (STATUS_SUCCESS, l);
  to_bytes l : ascii l -> zlen l < 32767 -> RtlUnicodeStringToUTF8String l None = (STATUS_SUCCESS, l);
  to_bytes_in l max : ascii l -> zlen l < 32767 ->
    if zlen l + 1 <=? max then RtlUnicodeStringToUTF8String l (Some max) = (STATUS_SUCCESS, l)
    else exists t, RtlUnicodeStringToUTF8String l (Some max) = (STATUS_BUFFER_TOO_SMALL, t)
}.

(** The file of [h] is made a link, as long as the data have at most 16384 bytes, and
    what is read through [h'] is what they say. *)
Class LinkFile {K : Type} `{Kernel K} `{StatKernel K} `{NameKernel K} (h h' : Z) : Prop := {
  link_set d k : rd_length d <= 16376 -> exists k', NtSetReparsePoint h d k = (STATUS_SUCCESS, k') /\
    NtQueryAttributeTag h' (NtClose h k').2 = (STATUS_SUCCESS, (FILE_ATTRIBUTE_REPARSE_POINT, IO_REPARSE_TAG_SYMLINK)) /\
    NtGetReparsePoint h' (NtClose h k').2 = (STATUS_SUCCESS, names_in d)
}.

(** The text a link shows. A letter behind a slash is taken for a drive, whatever
    follows it, and an absolute text of two characters gets a slash. *)
Definition closed (rest : list Z) : list Z := match rest with [] => str "/" | _ => rest end.
Definition drive_text (l : Z) (rest : list Z) : list Z := toupper l :: ch ":" :: closed rest.

Definition shown (source : list Z) : list Z :=
  match source with
  | a :: b :: rest =>
      if a =? ch "/" then if isalpha b then drive_text b rest else a :: b :: closed rest
      else if isalpha a && (b =? ch ":") then drive_text a rest
      else source
  | _ => source
  end.

Definition fits_link (source : list Z) : Prop := ascii source /\ ~ In 92 source /\ zlen source <= 4000.

Section Links.
Lemma slashed_backslashed l : ~ In 92 l -> slashed (backslashed l) = l.
Proof.
  intros H. induction l as [|c l IH]; [done|]. unfold slashed, backslashed in *. cbn [fmap list_fmap]. rewrite IH by (intros ?; apply H; by right). f_equal.
  destruct (Z.eqb_spec c (ch "/")) as [->|]; [done|]. rewrite (proj2 (Z.eqb_neq c 92)); [done|]. intros ->. apply H. by left.
Qed.

Lemma letter_range c : isalpha c = true -> 65 <= c <= 122 /\ c <> 92 /\ 65 <= toupper c <= 90.
Proof. unfold isalpha, toupper. intros H. destruct ((97 <=? c) && (c <=? 122)) eqn:E; lia. Qed.

Lemma absolute_text_drive l rest : isalpha l = true -> ~ In 92 rest ->
  slashed (let w := upper_drive (backslashed (l :: ch ":" :: rest)) in if zlen w =? 2 then w ++ [92] else w) = drive_text l rest.
Proof.
  intros Hl%letter_range Hr. unfold backslashed. cbn [fmap list_fmap upper_drive]. rewrite (proj2 (Z.eqb_neq l (ch "/"))) by (change (ch "/") with 47; lia).
  assert (slashed (toupper l :: 58 :: backslashed rest) = toupper l :: 58 :: rest) as E.
  { unfold slashed. cbn [fmap list_fmap]. rewrite (proj2 (Z.eqb_neq (toupper l) 92)) by lia. do 2 f_equal. by apply slashed_backslashed. }
  unfold drive_text. destruct rest as [|r rest]; [exact (f_equal (fun l => l ++ str "/") E)|].
  change (zlen (toupper l :: _) =? 2) with (zlen (toupper l :: 58 :: backslashed (r :: rest)) =? 2). rewrite (proj2 (Z.eqb_neq _ _)); [exact E|].
  unfold backslashed. cbn [length fmap list_fmap]. lia.
Qed.

(** The stored text, with slashes, is the one shown. *)
Lemma link_text_shown source : source <> [] -> IS_ROOT_PATH source = false -> fits_link source ->
  slashed (link_text (IS_ABSOLUTE_PATH source) source) = shown source.
Proof.
  intros Hne Hroot (Ha & Hb & _). unfold link_text. destruct source as [|a [|b rest]]; [done| |].
  - unfold IS_ABSOLUTE_PATH, IS_ROOT_PATH in *. change (byte_at [a] 1) with 0 in *. change (byte_at [a] 0) with a in *.
    apply orb_false_elim in Hroot as [Hs H92]. unfold cygwin_drive. change (byte_at [a] 0) with a. rewrite Hs, andb_false_r. cbn. rewrite Hs, H92. done.
  - unfold IS_ABSOLUTE_PATH, cygwin_drive, shown. change (byte_at (a :: b :: rest) 0) with a. change (byte_at (a :: b :: rest) 1) with b.
    apply Forall_cons in Ha as [Ha1 [Ha2 _]%Forall_cons]. rewrite (swrap_small 8) by lia. cbn [drop].
    assert (~ In 92 rest) as Hr by (intros ?; apply Hb; by do 2 right).
    pose proof (slashed_backslashed _ Hb) as Hb92. destruct (Z.eqb_spec a (ch "/")) as [->|N]; cbn [andb].
    + rewrite orb_true_r. destruct (isalpha b) eqn:Hl.
      * pose proof (letter_range b Hl). assert (isalpha (toupper b) = true) as Hu by (unfold isalpha; lia).
        assert (drive_text (toupper b) rest = drive_text b rest) as <- by (unfold drive_text, toupper at 1; rewrite (proj2 (andb_false_iff _ _)); [done | lia]).
        exact (absolute_text_drive _ rest Hu Hr).
      * change (isalpha (ch "/")) with false. cbn [andb]. set (l := ch "/" :: b :: rest) in *.
        assert (upper_drive (backslashed l) = backslashed l) as -> by done.
        unfold closed. destruct rest as [|r rest].
        { apply (f_equal (fun l => l ++ str "/")) in Hb92. exact Hb92. }
        rewrite (proj2 (Z.eqb_neq _ _)); [by apply slashed_backslashed|]. unfold l, backslashed. cbn [length fmap list_fmap]. lia.
    + rewrite orb_false_r. destruct (isalpha a && (b =? ch ":")) eqn:E; [|by apply slashed_backslashed].
      apply andb_true_iff in E as [Hl ->%Z.eqb_eq]. exact (absolute_text_drive _ rest Hl Hr).
Qed.

Lemma ascii_text is_absolute w : ascii w -> ascii (link_text is_absolute w).
Proof.
  intros H. assert (ascii (backslashed (cygwin_drive w))) as H1.
  { unfold backslashed. apply Forall_fmap. assert (ascii (cygwin_drive w)) as H0.
    - unfold cygwin_drive. destruct (_ && _) eqn:E; [|done]. apply andb_true_iff in E as [_ E]. destruct w as [|a [|b w]]; [done | done |].
      change (byte_at (a :: b :: w) 1) with b in *. apply Forall_cons in H as [_ [Hb Hw]%Forall_cons]. rewrite (swrap_small 8) in E by lia.
      apply letter_range in E. constructor; [cbn; lia|]. constructor; [done|]. done.
    - eapply Forall_impl; [exact H0|]. intros c [H2 H3]. change (0 < (if c =? 47 then 92 else c) < 128). destruct (c =? 47); lia. }
  unfold link_text. destruct is_absolute; [|done].
  assert (ascii (upper_drive (backslashed (cygwin_drive w)))) as H2.
  { destruct (backslashed _) as [|c l]; [done|]. apply Forall_cons in H1 as [Hc Hl]. constructor; [|done]. unfold toupper. destruct (_ && _) eqn:E; lia. }
  destruct (_ =? 2); [|done]. apply Forall_app. split; [done|]. repeat constructor.
Qed.

Lemma length_text is_absolute w : zlen w <= zlen (link_text is_absolute w) <= zlen w + 1.
Proof.
  assert (length (backslashed (cygwin_drive w)) = length w) as E.
  { unfold backslashed, cygwin_drive. rewrite length_fmap. destruct (_ && _) eqn:E; [|done]. destruct w as [|a [|b w]]; [done | | done].
    apply andb_true_iff in E as [_ E]. by destruct (letter_range _ E). }
  unfold link_text. destruct is_absolute; [|lia]. assert (length (upper_drive (backslashed (cygwin_drive w))) = length w) as E2 by (rewrite <- E; by destruct (backslashed _)).
  destruct (Z.eqb_spec (zlen (upper_drive (backslashed (cygwin_drive w)))) 2); [rewrite length_app; cbn [length]|]; lia.
Qed.

Lemma name_at_app a b c : name_at (a ++ b ++ c) (2 * zlen a) (2 * zlen b) = b.
Proof.
  unfold name_at. rewrite !(Z.mul_comm 2), !Z.div_mul, !Nat2Z.id by lia. rewrite drop_app_length. by rewrite take_app_length.
Qed.

(** The block is large enough, and the data are what they should be. *)
Lemma link_data_ok is_absolute text : 20 + 4 * zlen text + 8 < 65536 -> exists d, link_data is_absolute text = Some d /\
  link_block is_absolute text = rd_length d + 8 /\ rd_length d <= 20 + 4 * zlen text /\
  names_in d = ReparsePoint IO_REPARSE_TAG_SYMLINK text ((if is_absolute then NT_PREFIX else []) ++ text).
Proof.
  intros H. assert (link_block is_absolute text = 20 + 4 * zlen text + (if is_absolute then 8 else 0)) as E
    by (unfold link_block, REPARSE_DATA_BUFFER_HEADER_SIZE; rewrite wrap_small; destruct is_absolute; lia).
  unfold link_data. rewrite E. unfold REPARSE_DATA_BUFFER_HEADER_SIZE. rewrite (proj2 (Z.ltb_ge _ _)) by (destruct is_absolute; lia).
  eexists. split; [done|]. cbn [rd_length]. split; [lia|]. split; [destruct is_absolute; lia|]. unfold names_in.
  cbn [PathBuffer PrintNameOffset PrintNameLength SubstituteNameOffset SubstituteNameLength]. rewrite wrap_small by (destruct is_absolute; lia). f_equal.
  - exact (name_at_app [] text _).
  - replace (2 * zlen text + (if is_absolute then 8 else 0)) with (2 * zlen ((if is_absolute then NT_PREFIX else []) ++ text))
      by (rewrite length_app; destruct is_absolute; cbn [length]; change (length NT_PREFIX) with 4%nat; lia).
    pose proof (name_at_app text ((if is_absolute then NT_PREFIX else []) ++ text) []) as N. by rewrite app_nil_r in N.
Qed.

Context {K : Type} {KN : Kernel K} {A : Allocator} {PK : PathKernel K} {OK : OpenKernel K} {SK : StatKernel K} {FK : FileKernel K} {NK : NameKernel K}.
Context (alloc_ok : forall n, malloc_ok n = true) {AT : AsciiText}.
Implicit Types (x : security * path_state) (s : state K).

Lemma bs_to_fs_all l : convert_bs_to_fs (l ++ [0]) (zlen l) = slashed l ++ [0].
Proof. unfold convert_bs_to_fs. rewrite Nat2Z.id, take_app_length, drop_app_length. done. Qed.

Lemma bs_to_fs_prefix l n : 0 <= n <= zlen l -> convert_bs_to_fs (take (Z.to_nat n) (l ++ [0])) n = take (Z.to_nat n) (slashed l).
Proof.
  intros H. unfold convert_bs_to_fs. rewrite take_take, Nat.min_id, take_app_le by lia. rewrite drop_ge by (rewrite length_take; lia).
  rewrite app_nil_r. unfold slashed. by rewrite <- fmap_take.
Qed.

(** A text is stored with its NUL if there is room, and cut otherwise. *)
Lemma store_text_ok text n x s : ascii text -> zlen text < 32767 -> 0 <= n < 65536 ->
  store_text text n x s = Some ((if zlen text + 1 <=? n then (zlen text, slashed text ++ [0]) else (n, take (Z.to_nat n) (slashed text)), x), s).
Proof.
  intros Ha Hl Hn. unfold store_text. rewrite (wrap_small 16) by lia. pose proof (to_bytes_in text n Ha Hl) as C.
  destruct (Z.leb_spec (zlen text + 1) n).
  - rewrite C. change (ok STATUS_SUCCESS) with true. cbv iota. by rewrite bs_to_fs_all.
  - destruct C as [t ->]. change (ok STATUS_BUFFER_TOO_SMALL) with false. rewrite bool_decide_eq_true_2 by done. cbv iota.
    rewrite (to_bytes text Ha Hl). change (ok STATUS_SUCCESS) with true. cbn [negb]. rewrite (proj2 (Z.ltb_ge _ _)) by lia. by rewrite bs_to_fs_prefix by lia.
Qed.

Lemma do_readlink_ok h text sub n x s : ascii text -> text <> [] -> zlen text < 32767 -> 0 <= n < 65536 ->
  NtQueryAttributeTag h (kernel s) = (STATUS_SUCCESS, (FILE_ATTRIBUTE_REPARSE_POINT, IO_REPARSE_TAG_SYMLINK)) ->
  NtGetReparsePoint h (kernel s) = (STATUS_SUCCESS, ReparsePoint IO_REPARSE_TAG_SYMLINK text sub) ->
  do_readlink h n x s = Some ((if zlen text + 1 <=? n then (zlen text, slashed text ++ [0]) else (n, take (Z.to_nat n) (slashed text)), x), s).
Proof.
  intros Ha Hne Hl Hn Ht Hg. unfold do_readlink. rewrite (SM_bind_Some kernel_S _ x s (kernel s) x s eq_refl), Ht. change (ok STATUS_SUCCESS) with true. cbn [negb].
  change (has FILE_ATTRIBUTE_REPARSE_POINT FILE_ATTRIBUTE_REPARSE_POINT) with true. change (IO_REPARSE_TAG_SYMLINK =? IO_REPARSE_TAG_SYMLINK) with true. cbn [negb andb].
  rewrite alloc_ok, Hg. change (ok STATUS_SUCCESS) with true. cbn [negb]. unfold link_name. cbn [rp_tag PrintName].
  change (IO_REPARSE_TAG_SYMLINK =? IO_REPARSE_TAG_SYMLINK) with true. cbn [orb]. destruct text as [|c text]; [done|].
  rewrite (SM_bind_Some _ _ x s (Some (c :: text)) x s) by done. by apply store_text_ok.
Qed.

Lemma write_link_ok h h' source x s {LF : LinkFile h h'} : source <> [] -> IS_ROOT_PATH source = false -> fits_link source ->
  exists k, write_link h source (IS_ABSOLUTE_PATH source) x s = Some ((0, x), with_kernel s k) /\
    forall n y s', kernel s' = k -> 0 <= n < 65536 -> do_readlink h' n y s' =
      Some ((if zlen (shown source) + 1 <=? n then (zlen (shown source), shown source ++ [0]) else (n, take (Z.to_nat n) (shown source)), y), s').
Proof.
  intros Hne Hroot Hf. pose proof Hf as (Ha & Hb & Hl). set (abs := IS_ABSOLUTE_PATH source). set (text := link_text abs source).
  pose proof (length_text abs source) as Hlen. fold text in Hlen. pose proof (link_text_shown source Hne Hroot Hf) as Hs. fold abs text in Hs.
  destruct (link_data_ok abs text) as (d & Hd & Hblock & Hrl & Hnames); [lia|]. destruct (link_set d (kernel s)) as (k' & Hk & Hq & Hg); [lia|].
  exists (NtClose h k').2. split.
  - unfold write_link. rewrite (wrap_small 16) by lia. rewrite Nat2Z.id, firstn_all. rewrite (to_unicode source Ha) by lia. change (ok STATUS_SUCCESS) with true. cbn [negb].
    fold text. rewrite alloc_ok, Hd. rewrite (SM_bind_Some _ _ x s d x s eq_refl). rewrite (SM_bind_Some kernel_S _ x s (kernel s) x s eq_refl), Hk.
    rewrite (SM_bind_Some _ _ x s () x (with_kernel s k') eq_refl). done.
  - intros n y s' Hk' Hn. assert (zlen (shown source) = zlen text) as El by (rewrite <- Hs; unfold slashed; by rewrite length_fmap).
    rewrite El, <- Hs. apply (do_readlink_ok h' text ((if abs then NT_PREFIX else []) ++ text)); [by apply ascii_text | | lia | lia | by rewrite Hk' | by rewrite Hk', Hg, Hnames].
    intros E. rewrite E in Hlen. destruct source; [done | cbn [length] in Hlen; lia].
Qed.

(** C32: a symbolic link shows what it was made with. When the paths resolve and the
    file is created, symlink returns 0, and readlink gives the text of the source: a
    relative one as it is, a drive with an upper-case letter, a path that starts with a
    slash and a letter as if the letter were a drive; cut to the buffer, or with a NUL. *)
Theorem symlink_readlink h h' source dirfd target mode nt ntsource o (sec : security) p p1 p2 p3 s s1 s2 s3 (y : security * path_state) s4 {LF : LinkFile h h'}
    (Hne : source <> []) (Hroot : IS_ROOT_PATH source = false) (Hf : fits_link source)
    (Hnt : get_absolute_ntpath dirfd target p s = Some ((Some nt, p1), s1))
    (Hsrc : get_absolute_ntpath dirfd (if IS_ABSOLUTE_PATH source then source else normalized_source target source) p1 s1 = Some ((Some ntsource, p2), s2))
    (Hopt : source_options ntsource p2 s2 = Some ((o, p3), s3))
    (Hcreate : create_link nt mode o (sec, p3) s3 = Some (((STATUS_SUCCESS, h), y), s4)) :
  exists k, common_symlink source dirfd target mode (sec, p) s = Some ((0, y), with_kernel s4 k) /\
    forall n z s', kernel s' = k -> 0 <= n < 65536 -> do_readlink h' n z s' =
      Some ((if zlen (shown source) + 1 <=? n then (zlen (shown source), shown source ++ [0]) else (n, take (Z.to_nat n) (shown source)), z), s').
Proof.
  destruct (write_link_ok h h' source y s4 Hne Hroot Hf) as (k & Hw & Hr). exists k. split; [|exact Hr].
  unfold common_symlink. rewrite Hroot.
  rewrite (SM_bind_Some _ _ (sec, p) s (Some nt) (sec, p1) s1) by (unfold with_paths; by rewrite (M_bind_Some _ _ _ _ _ Hnt)).
  rewrite (SM_bind_Some _ _ (sec, p1) s1 (Some ntsource) (sec, p2) s2)
    by (rewrite alloc_ok; destruct (IS_ABSOLUTE_PATH source); unfold with_paths; by rewrite (M_bind_Some _ _ _ _ _ Hsrc)).
  rewrite (SM_bind_Some _ _ (sec, p2) s2 o (sec, p3) s3) by (unfold with_paths; by rewrite (M_bind_Some _ _ _ _ _ Hopt)).
  rewrite (SM_bind_Some _ _ _ _ _ _ _ Hcreate). exact Hw.
Qed.

(** the size of the block of a link has 16 bits: with a relative source of 16379
    characters or more the block is smaller than what is written to it. *)
Theorem link_block_limit h source x s :
  ascii source -> zlen source < 32767 -> 16379 <= zlen source -> IS_ABSOLUTE_PATH source = false -> write_link h source false x s = None.
Proof.
  intros Ha Hl Hb Habs. unfold write_link. rewrite (wrap_small 16) by lia. rewrite Nat2Z.id, firstn_all, (to_unicode source Ha) by lia.
  change (ok STATUS_SUCCESS) with true. cbn [negb]. rewrite alloc_ok. pose proof (length_text false source) as H.
  assert (link_data false (link_text false source) = None) as E; [|by rewrite E].
  unfold link_data. rewrite (proj2 (Z.ltb_lt _ _)); [done|]. unfold link_block, REPARSE_DATA_BUFFER_HEADER_SIZE. unfold wrap.
  pose proof (Z.mod_pos_bound (8 + 12 + 2 * (2 * zlen (link_text false source)) + 0) (2 ^ 16)). lia.
Qed.

(** a buffer of 65536 bytes is taken for one of none: bytes are copied from behind
    the text. *)
Theorem readlink_size_wraps text x s : ascii text -> zlen text < 32767 -> store_text text 65536 x s = None.
Proof.
  intros Ha Hl. unfold store_text. change (u16 65536) with 0. pose proof (to_bytes_in text 0 Ha Hl) as C. rewrite (proj2 (Z.leb_gt _ _)) in C by lia.
  destruct C as [t ->]. change (ok STATUS_BUFFER_TOO_SMALL) with false. rewrite bool_decide_eq_true_2 by done. cbv iota.
  rewrite (to_bytes text Ha Hl). change (ok STATUS_SUCCESS) with true. cbn [negb]. by rewrite (proj2 (Z.ltb_lt _ _)) by lia.
Qed.
End Links.

(** ** The names of files *)

Abbreviation files := (gmap (list Z) Z).

(** Paths as names of the system: in the states [J] a known path below a descriptor is
    valid and resolves to its name. *)
Class Resolver {K : Type} `{Kernel K} `{Allocator} `{PathKernel K} (J : path_state -> state K -> Prop) (known : Z * list Z -> Prop) (nt_of : Z * list Z -> list Z) : Prop := {
  rs_valid d n p s : known (d, n) -> J p s -> validate_path_and_dirfd (Some n) d p s = Some ((None, p), s);
  rs_path d n t0 p s : known (d, n) -> J p s -> exists p', get_absolute_ntpath2 d n t0 p s = Some (((Some (nt_of (d, n)), FILE_HANDLE), p'), s) /\ J p' s;
  rs_errno p s e : J p s -> J p (with_errno s e);
  rs_kernel p s k : J p s -> CurrentDirectory k = CurrentDirectory (kernel s) -> J p (with_kernel s k)
}.

(** A volume of plain files: the names and what they name, and for every open handle the
    name it was opened by and its file. A handle is opened by name; the new name replaces
    another if it may; a removed name is gone at once. *)
Class Volume {K : Type} `{Kernel K} `{PathKernel K} `{OpenKernel K} `{NameKernel K} (names : K -> files) (handles : K -> gmap Z (list Z * Z)) : Prop := {
  vol_open a k : ca_root a = None -> ca_disposition a = FILE_OPEN -> has (ca_options a) FILE_DIRECTORY_FILE = false -> exists status h k',
    NtCreateFile a k = (status, h, k') /\ CurrentDirectory k' = CurrentDirectory k /\ names k' = names k /\
    match names k !! ca_name a with
    | Some i => status = STATUS_SUCCESS /\ h <> 0 /\ handles k !! h = None /\ handles k' = <[h := (ca_name a, i)]> (handles k)
    | None => status = STATUS_OBJECT_NAME_NOT_FOUND /\ handles k' = handles k
    end;
  vol_close h k : let k' := (NtClose h k).2 in CurrentDirectory k' = CurrentDirectory k /\ names k' = names k /\ handles k' = delete h (handles k);
  vol_id h n i k : handles k !! h = Some (n, i) -> exists v, NtQueryFileId h k = (STATUS_SUCCESS, (v, i)) /\ 0 <= i < 2 ^ 64;
  vol_serial h h' k x y : handles k !! h = Some x -> handles k !! h' = Some y -> (NtQueryFileId h k).2.1 = (NtQueryFileId h' k).2.1;
  vol_rename h n i new flags k : handles k !! h = Some (n, i) -> exists status k',
    NtSetRename h flags new k = (status, k') /\ CurrentDirectory k' = CurrentDirectory k /\ handles k' = handles k /\
    if negb (has flags FILE_RENAME_REPLACE_IF_EXISTS) && bool_decide (is_Some (names k !! new))
    then status = STATUS_OBJECT_NAME_COLLISION /\ names k' = names k
    else status = STATUS_SUCCESS /\ names k' = <[new := i]> (delete n (names k));
  vol_link h n i new flags k : handles k !! h = Some (n, i) -> has flags 1 = false -> exists status k',
    NtSetLink h flags new k = (status, k') /\ CurrentDirectory k' = CurrentDirectory k /\ handles k' = handles k /\
    match names k !! new with
    | Some _ => status = STATUS_OBJECT_NAME_COLLISION /\ names k' = names k
    | None => status = STATUS_SUCCESS /\ names k' = <[new := i]> (names k)
    end;
  vol_remove h n i k : handles k !! h = Some (n, i) -> exists k',
    NtSetDisposition h remove_disposition k = (STATUS_SUCCESS, k') /\ CurrentDirectory k' = CurrentDirectory k /\ handles k' = handles k /\
    names k' = delete n (names k);
  vol_random k : let k' := (rand_s k).2 in CurrentDirectory k' = CurrentDirectory k /\ names k' = names k /\ handles k' = handles k
}.

(** The abstract calls: what they return, the value of [errno] afterwards if they set it,
    the new map. A rename to a new name clears [errno]. *)
Inductive name_call :=
  | Rename (noreplace : bool) (old new : Z * list Z)
  | Link (old new : Z * list Z)
  | Remove (old : Z * list Z).

Definition failed (e : Z) (m : files) : Z * option Z * files := (-1, Some e, m).

Definition abstract_call (nt_of : Z * list Z -> list Z) (c : name_call) (m : files) : Z * option Z * files :=
  match c with
  | Rename noreplace old new =>
      match m !! nt_of old with
      | None => failed ENOENT m
      | Some i =>
          match m !! nt_of new with
          | Some j => if i =? j then (0, None, m) else if noreplace then failed EEXIST m else (0, None, <[nt_of new := i]> (delete (nt_of old) m))
          | None => (0, Some 0, <[nt_of new := i]> (delete (nt_of old) m))
          end
      end
  | Link old new =>
      match m !! nt_of old with
      | None => failed ENOENT m
      | Some i => match m !! nt_of new with Some _ => failed EEXIST m | None => (0, None, <[nt_of new := i]> m) end
      end
  | Remove old =>
      match m !! nt_of old with
      | None => failed ENOENT m
      | Some _ => (0, None, delete (nt_of old) m)
      end
  end.

Section Namespace.
Context {K : Type} {KN : Kernel K} {A : Allocator} {PK : PathKernel K} {OK : OpenKernel K} {SK : StatKernel K} {FK : FileKernel K} {NK : NameKernel K}.
Context (alloc_ok : forall n, malloc_ok n = true).
Context (J : path_state -> state K -> Prop) (known : Z * list Z -> Prop) (nt_of : Z * list Z -> list Z) {R : Resolver J known nt_of}.
Context (names : K -> files) (handles : K -> gmap Z (list Z * Z)) {V : Volume names handles}.
Implicit Types (sec : security) (p : path_state) (s : state K) (m : files) (o : gmap Z (list Z * Z)).

(** The state of the volume in a state of the program. *)
Definition holds (m : files) (o : gmap Z (list Z * Z)) p s : Prop := J p s /\ names (kernel s) = m /\ handles (kernel s) = o.

Lemma holds_errno m o p s e : holds m o p s -> holds m o p (with_errno s e).
Proof. intros (? & ? & ?). split; [by apply rs_errno | done]. Qed.

Lemma holds_kernel m o m' o' p s k : holds m o p s -> CurrentDirectory k = CurrentDirectory (kernel s) -> names k = m' -> handles k = o' -> holds m' o' p (with_kernel s k).
Proof. intros (? & ? & ?) ? ? ?. split; [by apply rs_kernel | done]. Qed.

Lemma kernel_step {X} (f : K -> SM (security * path_state) K X) x s : (k ← kernel_S; f k) x s = f (kernel s) x s.
Proof. done. Qed.

(** Opening an NT path. *)
Lemma open2_spec nt access options m o p s : holds m o p s -> has options FILE_DIRECTORY_FILE = false -> exists h s',
  just_open2 nt access options p s = Some ((h, p), s') /\
  match m !! nt with
  | Some i => h <> 0 /\ o !! h = None /\ holds m (<[h := (nt, i)]> o) p s'
  | None => h = 0 /\ errno s' = ENOENT /\ holds m o p s'
  end.
Proof.
  intros (HJ & Hm & Ho) Hopt. set (a := CreateArgs None nt false None access 0 FILE_OPEN options).
  destruct (vol_open a (kernel s) eq_refl eq_refl Hopt) as (status & h & k' & Hc & Hcwd & Hn & Hcase). rewrite Hm in Hcase. cbn [ca_name a] in Hcase.
  unfold just_open2. fold a. destruct (m !! nt) as [i|].
  - destruct Hcase as (-> & Hh & Hf & Hk). exists h, (with_kernel s k'). split; [by apply create_file_ok|]. subst o. split; [done|]. split; [done|].
    eapply holds_kernel; [by split | done | congruence | done].
  - destruct Hcase as (-> & Hk). exists 0, (with_errno (with_kernel s k') ENOENT). split.
    + assert (create_file a p s = Some (((STATUS_OBJECT_NAME_NOT_FOUND, 0), p), with_kernel s k')) as E
        by (unfold create_file; by rewrite (SM_bind_Some system _ p s (kernel s) p s eq_refl), Hc).
      unfold really_do_open. by rewrite (SM_bind_Some _ _ _ _ _ _ _ E).
    + do 2 (split; [done|]). apply holds_errno. eapply holds_kernel; [by split | done | congruence | congruence].
Qed.

(** Opening a known path. *)
Lemma open_spec (t0 : handle_t) d n access options m o p s : known (d, n) -> holds m o p s -> has options FILE_DIRECTORY_FILE = false -> exists h p' s',
  just_open t0 d n access options p s = Some ((h, p'), s') /\
  match m !! nt_of (d, n) with
  | Some i => h <> 0 /\ o !! h = None /\ holds m (<[h := (nt_of (d, n), i)]> o) p' s'
  | None => h = 0 /\ errno s' = ENOENT /\ holds m o p' s'
  end.
Proof.
  intros Hk (HJ & Hm & Ho) Hopt. destruct (rs_path d n t0 p s Hk HJ) as (p' & E & HJ').
  destruct (open2_spec (nt_of (d, n)) access options m o p' s (conj HJ' (conj Hm Ho)) Hopt) as (h & s' & E' & C).
  exists h, p', s'. split; [|done]. unfold just_open. rewrite (SM_bind_Some _ _ _ _ _ _ _ E). rewrite bool_decide_eq_false_2 by done. exact E'.
Qed.

Lemma ntpath_spec d n m o p s : known (d, n) -> holds m o p s -> exists p', get_absolute_ntpath d n p s = Some ((Some (nt_of (d, n)), p'), s) /\ holds m o p' s.
Proof.
  intros Hk (HJ & Hm & Ho). destruct (rs_path d n INVALID_HANDLE p s Hk HJ) as (p' & E & HJ'). exists p'. split; [|done].
  unfold get_absolute_ntpath. by rewrite (SM_bind_Some _ _ _ _ _ _ _ E).
Qed.

Lemma close_spec h m o sec p s : holds m o p s -> exists s', close_handle h (sec, p) s = Some (((), (sec, p)), s') /\ errno s' = errno s /\ holds m (delete h o) p s'.
Proof.
  intros (HJ & Hm & Ho). destruct (vol_close h (kernel s)) as (H1 & H2 & H3). exists (with_kernel s (NtClose h (kernel s)).2). split; [done|]. split; [done|].
  eapply holds_kernel; [by split | done | congruence | congruence].
Qed.

Lemma with_paths_Some {X} (f : SM path_state K X) sec p s x p' s' : f p s = Some ((x, p'), s') -> with_paths f (sec, p) s = Some ((x, (sec, p')), s').
Proof. intros E. unfold with_paths. by rewrite (M_bind_Some _ _ _ _ _ E). Qed.

(** A call returns the result and leaves the map, and no handle open. *)
Definition yields (call : SM (security * path_state) K Z) sec o p s (r : Z * option Z * files) : Prop :=
  exists p' s', call (sec, p) s = Some ((r.1.1, (sec, p')), s') /\ holds r.2 o p' s' /\ forall e, r.1.2 = Some e -> errno s' = e.

Lemma same_file_spec h ntnew n i m o sec p s : holds m o p s -> o !! h = Some (n, i) -> exists s',
  same_file h ntnew (sec, p) s = Some ((bool_decide (m !! ntnew = Some i), (sec, p)), s') /\ holds m o p s' /\ (m !! ntnew = None -> errno s' = 0).
Proof.
  intros H Hh. destruct (open2_spec ntnew FILE_READ_ATTRIBUTES FILE_OPEN_REPARSE_POINT m o p s H eq_refl) as (h2 & s2 & E & C).
  unfold same_file. rewrite (SM_bind_Some _ _ _ _ _ _ _ (with_paths_Some _ sec _ _ _ _ _ E)). destruct (m !! ntnew) as [j|] eqn:Hj.
  - destruct C as (Hne & Hf & H2). rewrite (proj2 (Z.eqb_neq _ _) Hne), kernel_step. destruct (close_spec h2 _ _ sec p s2 H2) as (s3 & E3 & _ & H3).
    rewrite (SM_bind_Some _ _ _ _ _ _ _ E3). rewrite delete_insert_id in H3 by done. exists s3. split; [|done]. destruct H2 as (_ & _ & Ho2).
    assert (h <> h2) as Nh by congruence.
    assert (handles (kernel s2) !! h = Some (n, i)) as L1 by (by rewrite Ho2, lookup_insert_ne by done).
    assert (handles (kernel s2) !! h2 = Some (ntnew, j)) as L2 by (by rewrite Ho2, lookup_insert_eq).
    pose proof (vol_serial _ _ _ _ _ L1 L2) as Hv. destruct (vol_id _ _ _ _ L1) as (v1 & Q1 & R1), (vol_id _ _ _ _ L2) as (v2 & Q2 & R2).
    unfold are_they_hardlinks. rewrite Q1, Q2 in *. cbn in Hv. subst v2. change (ok STATUS_SUCCESS) with true. rewrite Z.eqb_refl. cbn [negb].
    rewrite !(wrap_small 64) by lia. rewrite (bool_decide_ext (Some j = Some i) (i = j)) by (split; congruence). destruct (Z.eqb_spec i j); [by rewrite bool_decide_eq_true_2 | by rewrite bool_decide_eq_false_2].
  - destruct C as (-> & _ & H2). exists (with_errno s2 0). split; [by rewrite bool_decide_eq_false_2|]. split; [by apply holds_errno | done].
Qed.

(** A system call whose outcome is known. *)
Lemma call_spec (f : K -> NTSTATUS * K) status m m' o sec p s : holds m o p s ->
  (exists k', f (kernel s) = (status, k') /\ CurrentDirectory k' = CurrentDirectory (kernel s) /\ handles k' = o /\ names k' = m') -> exists s',
  kernel_call f (sec, p) s = Some ((if ok status then 0 else -1, (sec, p)), s') /\ holds m' o p s' /\
    errno s' = if ok status then errno s else map_ntstatus_to_errno status (errno s).
Proof.
  intros H (k' & E & Hc & Ho & Hn). unfold kernel_call. rewrite kernel_step, E. destruct (ok status); cbn [negb].
  - exists (with_kernel s k'). split; [done|]. split; [by eapply holds_kernel | done].
  - eexists. split; [done|]. split; [|done]. apply holds_errno. by eapply holds_kernel.
Qed.

(** Closing a handle behind a call. *)
Lemma then_close (call : SM (security * path_state) K Z) h x o sec p s r : o !! h = None ->
  yields call sec (<[h := x]> o) p s r -> yields (v ← call; _ ← close_handle h; mret v) sec o p s r.
Proof.
  intros Hf (p' & s' & E & H & He). destruct (close_spec h _ _ sec p' s' H) as (s2 & E2 & Hs2 & H2). rewrite delete_insert_id in H2 by done.
  exists p', s2. split; [|split; [done | by rewrite Hs2]]. by rewrite (SM_bind_Some _ _ _ _ _ _ _ E), (SM_bind_Some _ _ _ _ _ _ _ E2).
Qed.

Lemma bind_yields {X} (f : SM (security * path_state) K X) (g : X -> SM (security * path_state) K Z) sec o p s v p' s' r :
  f (sec, p) s = Some ((v, (sec, p')), s') -> yields (g v) sec o p' s' r -> yields (f ≫= g) sec o p s r.
Proof. intros E (p2 & s2 & E2 & H). exists p2, s2. by rewrite (SM_bind_Some _ _ _ _ _ _ _ E). Qed.

Lemma returns_at o sec p s (r : Z * option Z * files) : holds r.2 o p s -> (forall e, r.1.2 = Some e -> errno s = e) -> yields (mret r.1.1) sec o p s r.
Proof. intros H He. by exists p, s. Qed.

Lemma do_rename_spec h n i new flags m o sec p s : holds m o p s -> o !! h = Some (n, i) -> m !! new <> Some i -> (m !! new = None -> errno s = 0) ->
  yields (do_rename h new flags) sec o p s
    (match m !! new with
     | Some _ => if flags =? RENAME_NOREPLACE then failed EEXIST m else (0, None, <[new := i]> (delete n m))
     | None => (0, Some 0, <[new := i]> (delete n m))
     end).
Proof.
  intros H Hh Hne He. unfold do_rename. rewrite alloc_ok. pose proof H as (HJ & Hm & Ho). rewrite <- Ho in Hh.
  destruct (vol_rename h n i new (rename_flags flags) (kernel s) Hh) as (st & k' & E & Hc & Hk & C). rewrite Hm in C.
  assert (has (rename_flags flags) FILE_RENAME_REPLACE_IF_EXISTS = negb (flags =? RENAME_NOREPLACE)) as F by (unfold rename_flags; by destruct (flags =? RENAME_NOREPLACE)).
  rewrite F in C. destruct (m !! new) as [j|] eqn:Hj.
  - rewrite (bool_decide_eq_true_2 (is_Some (Some j))) in C by done. destruct (flags =? RENAME_NOREPLACE); cbn [negb andb] in C; destruct C as [-> Hn];
      destruct (call_spec (NtSetRename h (rename_flags flags) new) _ m _ o sec p s H (ex_intro _ k' (conj E (conj Hc (conj (eq_trans Hk Ho) Hn))))) as (s' & E' & H' & He');
      exists p, s'; (split; [exact E' | split; [exact H' | by intros ? [= <-]]]).
  - rewrite (bool_decide_eq_false_2 (is_Some None)), andb_false_r in C by (by intros []). destruct C as [-> Hn].
    destruct (call_spec (NtSetRename h (rename_flags flags) new) _ m _ o sec p s H (ex_intro _ k' (conj E (conj Hc (conj (eq_trans Hk Ho) Hn))))) as (s' & E' & H' & He').
    exists p, s'. split; [exact E'|]. split; [exact H'|]. intros ? [= <-]. rewrite He'. by apply He.
Qed.

Lemma rename_spec t0 old new flags m o sec p s : known old -> known new -> holds m o p s ->
  yields (common_rename t0 old.1 old.2 new.1 new.2 flags) sec o p s (abstract_call nt_of (Rename (flags =? RENAME_NOREPLACE) old new) m).
Proof.
  intros Ko Kn H. destruct old as [d n], new as [d' n']. cbn [fst snd]. unfold abstract_call.
  destruct (open_spec t0 d n (Z.lor FILE_READ_ATTRIBUTES DELETE) FILE_OPEN_REPARSE_POINT m o p s Ko H eq_refl) as (h & p1 & s1 & E1 & C).
  eapply bind_yields; [exact (with_paths_Some _ sec _ _ _ _ _ E1)|]. destruct (m !! nt_of (d, n)) as [i|] eqn:Hi.
  - destruct C as (Hne & Hf & H1). rewrite (proj2 (Z.eqb_neq _ _) Hne). destruct (ntpath_spec d' n' _ _ p1 s1 Kn H1) as (p2 & E2 & H2).
    eapply bind_yields; [exact (with_paths_Some _ sec _ _ _ _ _ E2)|]. cbv iota.
    destruct (same_file_spec h (nt_of (d', n')) (nt_of (d, n)) i _ _ sec p2 s1 H2 (lookup_insert_eq _ _ _)) as (s2 & E3 & H3 & He).
    eapply bind_yields; [exact E3|]. eapply then_close; [exact Hf|]. destruct (bool_decide (m !! nt_of (d', n') = Some i)) eqn:Hb.
    + apply bool_decide_eq_true in Hb. rewrite Hb, Z.eqb_refl. by apply (returns_at _ _ _ _ (0, None, m)).
    + apply bool_decide_eq_false in Hb. pose proof (do_rename_spec h (nt_of (d, n)) i (nt_of (d', n')) flags _ _ sec p2 s2 H3 (lookup_insert_eq _ _ _) Hb He) as Y.
      destruct (m !! nt_of (d', n')) as [j|]; [|done]. rewrite (proj2 (Z.eqb_neq i j)) by congruence. done.
  - destruct C as (-> & He & H1). apply (returns_at _ _ _ _ (failed ENOENT m)); [done | by intros ? [= <-]].
Qed.

Lemma link_spec t0 old new m o sec p s : known old -> known new -> holds m o p s ->
  yields (common_link t0 old.1 old.2 new.1 new.2 0) sec o p s (abstract_call nt_of (Link old new) m).
Proof.
  intros Ko Kn H. destruct old as [d n], new as [d' n']. cbn [fst snd]. unfold abstract_call.
  destruct (open_spec t0 d n link_access (Z.lor FILE_NON_DIRECTORY_FILE FILE_OPEN_REPARSE_POINT) m o p s Ko H eq_refl) as (h & p1 & s1 & E1 & C).
  eapply bind_yields; [exact (with_paths_Some _ sec _ _ _ _ _ E1)|]. destruct (m !! nt_of (d, n)) as [i|] eqn:Hi.
  - destruct C as (Hne & Hf & H1). rewrite (proj2 (Z.eqb_neq _ _) Hne). eapply then_close; [exact Hf|].
    destruct (ntpath_spec d' n' _ _ p1 s1 Kn H1) as (p2 & E2 & H2). eapply bind_yields; [exact (with_paths_Some _ sec _ _ _ _ _ E2)|]. cbv iota. rewrite alloc_ok.
    pose proof H2 as (HJ & Hm & Ho). assert (handles (kernel s1) !! h = Some (nt_of (d, n), i)) as Hh by (by rewrite Ho, lookup_insert_eq).
    destruct (vol_link h _ _ (nt_of (d', n')) FILE_LINK_POSIX_SEMANTICS (kernel s1) Hh eq_refl) as (st & k' & E & Hc & Hk & C). rewrite Hm in C.
    destruct (m !! nt_of (d', n')) as [j|]; destruct C as [-> Hn];
      destruct (call_spec _ _ m _ _ sec p2 s1 H2 (ex_intro _ k' (conj E (conj Hc (conj (eq_trans Hk Ho) Hn))))) as (s' & E' & H' & He');
      exists p2, s'; (split; [exact E' | split; [exact H' | by intros ? [= <-]]]).
  - destruct C as (-> & He & H1). apply (returns_at _ _ _ _ (failed ENOENT m)); [done | by intros ? [= <-]].
Qed.

Lemma remove_spec t0 old m o sec p s : known old -> holds m o p s ->
  yields (common_remove t0 old.1 old.2 0) sec o p s (abstract_call nt_of (Remove old) m).
Proof.
  intros Ko H. destruct old as [d n]. cbn [fst snd]. unfold abstract_call.
  destruct (open_spec t0 d n DELETE (remove_options 0) m o p s Ko H eq_refl) as (h & p1 & s1 & E1 & C).
  eapply bind_yields; [exact (with_paths_Some _ sec _ _ _ _ _ E1)|]. destruct (m !! nt_of (d, n)) as [i|] eqn:Hi.
  - destruct C as (Hne & Hf & H1). rewrite (proj2 (Z.eqb_neq _ _) Hne). pose proof H1 as (HJ & Hm & Ho).
    assert (handles (kernel s1) !! h = Some (nt_of (d, n), i)) as Hh by (by rewrite Ho, lookup_insert_eq).
    destruct (vol_remove h _ _ (kernel s1) Hh) as (k' & E & Hc & Hk & Hn). rewrite Hm in Hn. rewrite Ho in Hk.
    pose proof (holds_kernel _ _ _ _ p1 s1 k' H1 Hc Hn Hk) as H2. destruct (close_spec h _ _ sec p1 _ H2) as (s3 & E3 & _ & H3). rewrite delete_insert_id in H3 by done.
    exists p1, s3. split; [|by split]. rewrite kernel_step, E. rewrite (SM_bind_Some _ _ _ _ () (sec, p1) (with_kernel s1 k') eq_refl).
    by rewrite (SM_bind_Some _ _ _ _ _ _ _ E3).
  - destruct C as (-> & He & H1). apply (returns_at _ _ _ _ (failed ENOENT m)); [done | by intros ? [= <-]].
Qed.

Lemma validated_yields d n (f : list Z -> SM (security * path_state) K Z) m o sec p s r : known (d, n) -> holds m o p s ->
  yields (f n) sec o p s r -> yields (validated (Some n) d (-1) f) sec o p s r.
Proof.
  intros Kn H Y. destruct H as (HJ & _). pose proof (rs_valid d n p s Kn HJ) as E. unfold validated.
  eapply bind_yields; [exact (with_paths_Some _ sec _ _ _ _ _ E) | exact Y].
Qed.

Definition call_of t0 (c : name_call) : SM (security * path_state) K Z :=
  match c with
  | Rename noreplace old new => wlibc_common_rename t0 old.1 (Some old.2) new.1 (Some new.2) (if noreplace then RENAME_NOREPLACE else 0)
  | Link old new => wlibc_common_link t0 old.1 (Some old.2) new.1 (Some new.2) 0
  | Remove old => wlibc_common_remove t0 old.1 (Some old.2) 0
  end.

Definition places (c : name_call) : list (Z * list Z) := match c with Rename _ old new | Link old new => [old; new] | Remove old => [old] end.

Lemma call_refines t0 c m o sec p s : Forall known (places c) -> holds m o p s -> yields (call_of t0 c) sec o p s (abstract_call nt_of c m).
Proof.
  intros Hk H. destruct c as [noreplace [d n] [d' n']|[d n] [d' n']|[d n]]; cbn [places] in Hk; rewrite ?Forall_cons in Hk; destruct_and?; cbn [call_of].
  - unfold wlibc_common_rename. replace (negb _ && negb _ && negb _) with false by (by destruct noreplace).
    eapply validated_yields; [done | exact H|]. eapply validated_yields; [done | exact H|].
    replace (_ =? RENAME_EXCHANGE) with false by (by destruct noreplace).
    pose proof (rename_spec t0 (d, n) (d', n') (if noreplace then RENAME_NOREPLACE else 0) m o sec p s) as Y. by destruct noreplace; apply Y.
  - unfold wlibc_common_link. cbn [negb andb]. eapply validated_yields; [done | exact H|]. cbn. eapply validated_yields; [done | exact H|]. by apply (link_spec t0 (d, n) (d', n')).
  - eapply validated_yields; [done | exact H|]. by apply (remove_spec t0 (d, n)).
Qed.

(** What the calls return and the values of [errno] behind them. *)
Fixpoint run_calls t0 (cs : list name_call) : SM (security * path_state) K (list (Z * Z)) :=
  match cs with
  | [] => mret []
  | c :: cs => r ← call_of t0 c; s ← run_M get; rs ← run_calls t0 cs; mret ((r, errno s) :: rs)
  end.

Fixpoint run_abstract (cs : list name_call) (m : files) : list (Z * option Z) * files :=
  match cs with
  | [] => ([], m)
  | c :: cs => let '(r, e, m) := abstract_call nt_of c m in let '(rs, m) := run_abstract cs m in ((r, e) :: rs, m)
  end.

Definition agrees (c : Z * Z) (a : Z * option Z) : Prop := c.1 = a.1 /\ forall e, a.2 = Some e -> c.2 = e.

(** C30: the names of a volume refine a map from paths to files. For every sequence of
    renaming (with or without replacement), linking and removing known paths the calls
    return what the map says, with the errors [ENOENT] and [EEXIST], the names are those
    of the map, and no handle stays open. *)
Theorem names_refine t0 (cs : list name_call) m sec p s :
  Forall (fun c => Forall known (places c)) cs -> holds m ∅ p s -> exists rs p' s',
    run_calls t0 cs (sec, p) s = Some ((rs, (sec, p')), s') /\ Forall2 agrees rs (run_abstract cs m).1 /\ holds (run_abstract cs m).2 ∅ p' s'.
Proof.
  intros Hk. revert m p s. induction Hk as [|c cs Hc Hk IH]; intros m p s H.
  - exists [], p, s. split; [done|]. by split; [constructor|].
  - destruct (call_refines t0 c m ∅ sec p s Hc H) as (p1 & s1 & E1 & H1 & He). cbn [run_calls run_abstract].
    destruct (abstract_call nt_of c m) as [[r e] m1]. cbn [fst snd] in *. destruct (IH m1 p1 s1 H1) as (rs & p2 & s2 & E2 & Hrs & H2).
    destruct (run_abstract cs m1) as [ars m2]. exists ((r, errno s1) :: rs), p2, s2. split; [|split; [constructor; [by split | done] | done]].
    rewrite (SM_bind_Some _ _ _ _ _ _ _ E1). rewrite (SM_bind_Some _ _ _ _ s1 (sec, p1) s1 eq_refl). by rewrite (SM_bind_Some _ _ _ _ _ _ _ E2).
Qed.

(** ** Exchanging *)

Lemma yields_bind (f : SM (security * path_state) K Z) (g : Z -> SM (security * path_state) K Z) sec o p s r r' :
  yields f sec o p s r -> (forall p' s', holds r.2 o p' s' -> (forall e, r.1.2 = Some e -> errno s' = e) -> yields (g r.1.1) sec o p' s' r') ->
  yields (f ≫= g) sec o p s r'.
Proof. intros (p1 & s1 & E & H & He) Y. eapply bind_yields; [exact E | by apply Y]. Qed.

Lemma move_spec t0 old new i m o sec p s : known old -> known new -> holds m o p s -> m !! nt_of old = Some i -> m !! nt_of new <> Some i ->
  yields (common_rename t0 old.1 old.2 new.1 new.2 0) sec o p s
    (0, match m !! nt_of new with None => Some 0 | Some _ => None end, <[nt_of new := i]> (delete (nt_of old) m)).
Proof.
  intros Ko Kn H Hi Hne. pose proof (rename_spec t0 old new 0 m o sec p s Ko Kn H) as Y. unfold abstract_call in Y. rewrite Hi in Y.
  destruct (m !! nt_of new) as [j|]; [|done]. rewrite (proj2 (Z.eqb_neq i j)) in Y by congruence. done.
Qed.

(** C27: an exchange swaps the files of two names, by way of a random name of the
    current directory, which it replaces if there is a file of that name. When the
    second name does not exist the first one is put back and the call returns -1, with
    [errno] 0. *)
Theorem exchange_swaps t0 old new m o sec p s a :
  let temp := (AT_FDCWD, base36 7 (u32 (rand_s (kernel s)).1) []) in
  let on := nt_of old in let nn := nt_of new in let tn := nt_of temp in
  known old -> known new -> known temp -> on <> nn -> tn <> on -> tn <> nn -> holds m o p s ->
  m !! on = Some a -> m !! tn <> Some a ->
  yields (common_exchange t0 old.1 old.2 new.1 new.2) sec o p s
    (match m !! nn with
     | Some b => (0, None, <[nn := a]> (<[on := b]> (delete tn m)))
     | None => (-1, Some 0, delete tn m)
     end).
Proof.
  intros temp on nn tn Ko Kn Kt N1 N2 N3 H Ha Ht. unfold common_exchange. destruct (rand_s (kernel s)) as [rn k] eqn:Er.
  pose proof (vol_random (kernel s)) as Hr. rewrite Er in Hr. destruct Hr as (Hc & Hn & Hh). destruct H as (HJ & Hm & Ho).
  assert (holds m o p (with_kernel s k)) as H1 by (eapply holds_kernel; [by split | done | cbn in *; congruence | cbn in *; congruence]).
  eapply bind_yields; [reflexivity|]. rewrite Er. eapply (bind_yields _ _ _ _ _ _ () p (with_kernel s k)); [reflexivity|]. cbv zeta.
  eapply yields_bind; [exact (move_spec t0 old temp a m o sec p _ Ko Kt H1 Ha Ht)|]. fold on tn. cbn [fst snd]. intros p2 s2 H2 _. cbn.
  set (m1 := <[tn := a]> (delete on m)) in *. assert (m1 !! on = None) as L1 by (unfold m1; by rewrite lookup_insert_ne, lookup_delete_eq by done).
  assert (m1 !! nn = m !! nn) as L2 by (unfold m1; by rewrite lookup_insert_ne, lookup_delete_ne by done).
  assert (m1 !! tn = Some a) as L3 by (unfold m1; apply lookup_insert_eq). destruct (m !! nn) as [b|] eqn:Hb.
  - eapply yields_bind; [apply (move_spec t0 new old b m1 o sec p2 s2 Kn Ko H2 L2); fold on; by rewrite L1|]. fold on nn. rewrite L1. cbn [fst snd]. intros p3 s3 H3 _. cbn.
    set (m2 := <[on := b]> (delete nn m1)) in *. assert (m2 !! tn = Some a) as L4 by (unfold m2; by rewrite lookup_insert_ne, lookup_delete_ne by done).
    assert (m2 !! nn = None) as L5 by (unfold m2; by rewrite lookup_insert_ne, lookup_delete_eq by done).
    eapply yields_bind; [apply (move_spec t0 temp new a m2 o sec p3 s3 Kt Kn H3 L4); fold nn; by rewrite L5|]. fold nn tn. rewrite L5. cbn [fst snd]. intros p4 s4 H4 _. cbn.
    apply (returns_at _ _ _ _ (0, None, _)); [|done]. cbn [snd]. replace (<[nn := a]> (<[on := b]> (delete tn m))) with (<[nn := a]> (delete tn m2)); [done|].
    apply map_eq. intros q. unfold m2, m1. destruct (decide (q = nn)) as [->|]; [by rewrite !lookup_insert_eq|]. rewrite !(lookup_insert_ne _ nn) by done.
    destruct (decide (q = tn)) as [->|]; [by rewrite lookup_delete_eq, lookup_insert_ne, lookup_delete_eq by done|]. rewrite lookup_delete_ne by done.
    destruct (decide (q = on)) as [->|]; [by rewrite !lookup_insert_eq|]. by rewrite !lookup_insert_ne, !lookup_delete_ne, lookup_insert_ne, lookup_delete_ne by done.
  - pose proof (rename_spec t0 new old 0 m1 o sec p2 s2 Kn Ko H2) as Y. unfold abstract_call in Y. fold nn in Y. rewrite L2 in Y.
    eapply yields_bind; [exact Y|]. cbn [fst snd failed]. intros p3 s3 H3 _. cbn.
    eapply yields_bind; [apply (move_spec t0 temp old a m1 o sec p3 s3 Kt Ko H3 L3); fold on; by rewrite L1|]. fold on tn. rewrite L1. cbn [fst snd]. intros p4 s4 H4 He.
    apply (returns_at _ _ _ _ (-1, Some 0, _)); [|by intros ? [= <-]; apply He]. cbn [snd]. replace (delete tn m) with (<[on := a]> (delete tn m1)); [done|].
    apply map_eq. intros q. unfold m1. destruct (decide (q = on)) as [->|]; [by rewrite lookup_insert_eq, lookup_delete_ne|]. rewrite lookup_insert_ne by done.
    destruct (decide (q = tn)) as [->|]; [by rewrite !lookup_delete_eq|]. by rewrite !lookup_delete_ne, lookup_insert_ne, lookup_delete_ne by done.
Qed.
End Namespace.

(** ** The current directory *)

Section Cwd.
Context {K : Type} {KN : Kernel K} {A : Allocator} {PK : PathKernel K} {OK : OpenKernel K} {SK : StatKernel K} {FK : FileKernel K} {NK : NameKernel K}.
Context (alloc_ok : forall n, malloc_ok n = true) {AT : AsciiText}.
Implicit Types (p : path_state) (s : state K).

(** The directory without its last backslash, except for the root of a volume. *)
Definition directory_text (body : list Z) : list Z := if zlen body =? 2 then slashed (body ++ [92]) else slashed body.

Lemma cwd_stored body : exists tail, slashed (if zlen (body ++ [92]) =? 3 then body ++ [92] else take (length (body ++ [92]) - 1) (body ++ [92]) ++ [0]) ++ [0] =
  directory_text body ++ 0 :: tail.
Proof.
  unfold directory_text. rewrite length_app. cbn [length]. rewrite Nat.add_sub, take_app_length. destruct (Z.eqb_spec (zlen body) 2) as [E|N].
  - rewrite (proj2 (Z.eqb_eq (Z.of_nat (length body + 1)) 3)) by lia. by exists [].
  - rewrite (proj2 (Z.eqb_neq (Z.of_nat (length body + 1)) 3)) by lia. exists [0]. unfold slashed. rewrite fmap_app, <- app_assoc. done.
Qed.

Lemma cwd_block_ok buffer size n p s : cwd_block buffer size n p s =
  Some ((negb (buffer && (size =? 0)), p), if buffer && (size =? 0) then with_errno s ERANGE else s).
Proof. unfold cwd_block. rewrite alloc_ok. by destruct buffer, (size =? 0). Qed.

(** getcwd stores the current directory with slashes, without the last one, and a
    NUL; a null pointer gets a block; a buffer without room for the last backslash too is
    [ERANGE], even if the text would fit. *)
Theorem getcwd_tells buffer size body p s :
  CurrentDirectory (kernel s) = body ++ [92] -> ascii body -> zlen body < 32000 -> 0 <= size ->
  if buffer && (size =? 0) || (0 <? size) && (size <? zlen body + 2)
  then wlibc_getcwd buffer size p s = Some ((None, p), with_errno s ERANGE)
  else exists tail, wlibc_getcwd buffer size p s = Some ((Some (directory_text body ++ 0 :: tail), p), s).
Proof.
  intros Hcwd Ha Hl Hs. unfold wlibc_getcwd. rewrite (SM_bind_Some kernel_S _ p s (kernel s) p s eq_refl), Hcwd.
  assert (zlen (body ++ [92]) = zlen body + 1) as El by (rewrite length_app; cbn [length]; lia).
  rewrite to_bytes; [|apply Forall_app; split; [done | by repeat constructor] | lia]. change (ok STATUS_SUCCESS) with true. cbn [negb].
  rewrite (proj2 (Z.eqb_neq (zlen (body ++ [92])) 0)) by lia. destruct (cwd_stored body) as [tail ->].
  replace (negb (size =? 0) && (size <? zlen (body ++ [92]) + 1)) with ((0 <? size) && (size <? zlen body + 2)) by lia.
  destruct ((0 <? size) && (size <? zlen body + 2)); [by rewrite orb_true_r|]. rewrite orb_false_r.
  rewrite (SM_bind_Some _ _ _ _ _ _ _ (cwd_block_ok _ _ _ _ _)). destruct (buffer && (size =? 0)); [done | by exists tail].
Qed.

(** the call for wide characters gives the same text under the same conditions. *)
Theorem wgetcwd_agrees buffer size body p s :
  CurrentDirectory (kernel s) = body ++ [92] -> ascii body -> zlen body < 32000 -> 0 <= size < 2 ^ 62 ->
  wlibc_wgetcwd buffer size p s = wlibc_getcwd buffer size p s.
Proof.
  intros Hcwd Ha Hl Hs. unfold wlibc_wgetcwd, wlibc_getcwd. rewrite !(SM_bind_Some kernel_S _ p s (kernel s) p s eq_refl), Hcwd.
  assert (zlen (body ++ [92]) = zlen body + 1) as El by (rewrite length_app; cbn [length]; lia).
  rewrite to_bytes; [|apply Forall_app; split; [done | by repeat constructor] | lia]. change (ok STATUS_SUCCESS) with true. cbn [negb].
  rewrite (proj2 (Z.eqb_neq (zlen (body ++ [92])) 0)) by lia. rewrite (wrap_small 16), (wrap_small 64) by lia.
  replace (size * 2 <? 2 * zlen (body ++ [92]) + 2) with (size <? zlen (body ++ [92]) + 1) by lia. destruct (_ && _); [done|].
  rewrite !(SM_bind_Some _ _ _ _ _ _ _ (cwd_block_ok _ _ _ _ _)). by destruct (negb (buffer && (size =? 0))).
Qed.
End Cwd.

(** ** The length of a file *)

(** The file cut or filled with zeros. *)
Definition resized (n : Z) (c : list Z) : list Z := take (Z.to_nat n) c ++ replicate (Z.to_nat n - length c) 0.

(** A new end leaves the first bytes; the position may be any. *)
Class ResizableFile {K : Type} `{NameKernel K} (h : Z) (file_of : K -> list Z * Z) : Prop := {
  end_set n k : 0 <= n -> exists k', NtSetEndOfFile h n k = (STATUS_SUCCESS, k') /\ (file_of k').1 = resized n (file_of k).1
}.

Section Truncate.
Context {K : Type} {KN : Kernel K} {A : Allocator} {PK : PathKernel K} {OK : OpenKernel K} {SK : StatKernel K} {FK : FileKernel K} {NK : NameKernel K}.
Context (h : Z) (file_of : K -> list Z * Z) {RF : RegularFile h file_of} {RZ : ResizableFile h file_of}.
Implicit Types (s : state K).

(** ftruncate gives a file the length, with zeros behind what there was, and leaves
    the position, wherever it is; a descriptor that cannot be written is [EACCES]. *)
Theorem ftruncate_resizes fd info n c pos e x s :
  view (table s) fd = Some e -> type e = FILE_HANDLE -> handle e = h -> file_of (kernel s) = (c, pos) -> 0 <= n -> 0 <= pos ->
  if Z.land (flags e) (Z.lor O_WRONLY O_RDWR) =? 0 then wlibc_ftruncate fd info n x s = Some ((-1, x), with_errno s EACCES)
  else exists k, wlibc_ftruncate fd info n x s = Some ((0, x), with_kernel s k) /\ file_of k = (resized n c, pos).
Proof.
  intros Hv Ht Hh Hf Hn Hp. unfold wlibc_ftruncate.
  rewrite (SM_bind_Some _ _ x s e x s) by (unfold run_M; by rewrite (M_bind_Some _ _ _ _ _ (get_fdinfo_view s fd e info Hv))).
  rewrite bool_decide_eq_true_2 by done. cbn [negb]. destruct (_ =? 0); [done|]. rewrite Hh.
  destruct (end_set n (kernel s) Hn) as (k1 & E1 & F1). destruct (rf_seek k1 pos Hp) as (k2 & E2 & F2). rewrite Hf in F1. cbn [fst] in F1.
  exists k2. split; [|by rewrite F2, F1]. unfold do_ftruncate. rewrite (SM_bind_Some kernel_S _ x s (kernel s) x s eq_refl), rf_position, Hf. change (ok STATUS_SUCCESS) with true. cbn [negb snd].
  rewrite (SM_bind_Some _ _ x s 0 x (with_kernel s k1)) by (unfold common_truncate, kernel_call; by rewrite (SM_bind_Some kernel_S _ x s (kernel s) x s eq_refl), E1).
  change (negb (0 =? 0)) with false. cbv iota. unfold kernel_call. rewrite (SM_bind_Some kernel_S _ x (with_kernel s k1) k1 x (with_kernel s k1) eq_refl), E2. done.
Qed.
End Truncate.

(** ** A machine with one volume

    Files are numbers, handles are the lowest free numbers of a fresh supply; drive [C:]
    is volume 3 and the current directory is [C:\Users\me\]. There is one file whose
    contents can be changed and one link. *)
Module OneVolume.

Record K := Files { fs_names : files; fs_handles : gmap Z (list Z * Z); fs_file : list Z * Z; fs_link : reparse_point }.

Definition with_names (k : K) (m : files) : K := Files m (fs_handles k) (fs_file k) (fs_link k).
Definition with_handles (k : K) (o : gmap Z (list Z * Z)) : K := Files (fs_names k) o (fs_file k) (fs_link k).
Definition with_file (k : K) (f : list Z * Z) : K := Files (fs_names k) (fs_handles k) f (fs_link k).
Definition with_link (k : K) (r : reparse_point) : K := Files (fs_names k) (fs_handles k) (fs_file k) r.

Definition cwd : list Z := str "C:\Users\me\".

#[export] Instance machine_kernel : Kernel K := {
  NtClose h k := (STATUS_SUCCESS, with_handles k (delete h (fs_handles k)));
  NtDuplicateObject _ _ k := (STATUS_SUCCESS, 1, k);
  NtQueryDeviceType _ _ := Some FILE_DEVICE_DISK;
  NtQueryAttributes _ _ := Some 0;
  NtQueryAccess _ _ := None;
  NtOpenConsole _ k := (0, k);
  garbage _ := Fdinfo 0 INVALID_HANDLE 0 0
}.

#[export] Instance machine_paths : PathKernel K := {
  RtlUTF8StringToUnicodeString l _ := (STATUS_SUCCESS, l);
  RtlUnicodeStringToUTF8String l max :=
    match max with Some n => (if zlen l + 1 <=? n then STATUS_SUCCESS else STATUS_BUFFER_TOO_SMALL, l) | None => (STATUS_SUCCESS, l) end;
  CurrentDirectory _ := cwd;
  NtOpenSymbolicLinkObject v k := (if v =? ch "C" then STATUS_SUCCESS else STATUS_OBJECT_NAME_NOT_FOUND, v, k);
  NtQuerySymbolicLinkObject _ _ := (STATUS_SUCCESS, Volume.volume3);
  NtQueryObjectName _ _ _ := (STATUS_SUCCESS, 0, Volume.volume3);
  QueryDosVolumePaths _ _ := (STATUS_SUCCESS, str "C:");
  NtOpenKeyEx _ _ := (STATUS_OBJECT_NAME_NOT_FOUND, 0);
  NtQueryValueKey _ _ _ _ := (STATUS_OBJECT_NAME_NOT_FOUND, 0, []);
  current_user_sid := []
}.

#[export] Instance ample : Allocator := fun _ => true.

(** A handle that is not 0 and not in use. *)
Definition new_handle (k : K) : Z := fresh ({[0]} ∪ dom (fs_handles k) : gset Z).

(** New files have the number of their handle. *)
#[export] Instance machine_open : OpenKernel K := {
  NtCreateFile a k :=
    let h := new_handle k in
    match ca_disposition a, fs_names k !! ca_name a with
    | FILE_OPEN, Some i => (STATUS_SUCCESS, h, with_handles k (<[h := (ca_name a, i)]> (fs_handles k)))
    | FILE_OPEN, None => (STATUS_OBJECT_NAME_NOT_FOUND, 0, k)
    | _, Some _ => (STATUS_OBJECT_NAME_COLLISION, 0, k)
    | _, None => (STATUS_SUCCESS, h, with_names (with_handles k (<[h := (ca_name a, h)]> (fs_handles k))) (<[ca_name a := h]> (fs_names k)))
    end;
  NtQueryTagInformation _ _ := (STATUS_SUCCESS, 0);
  NtQueryBasicInformation _ _ := STATUS_SUCCESS;
  NtSetLastAccessTime _ k := (STATUS_SUCCESS, k);
  rand_s k := (7, k)
}.

#[export] Instance machine_stat : StatKernel K := {
  NtQueryFsDevice _ _ := (STATUS_SUCCESS, FILE_DEVICE_DISK);
  NtQueryStatInformation _ _ := (STATUS_SUCCESS, StatInformation 7 0 0 0 0 0 0 0 1 0);
  NtQuerySecurityObject _ _ _ _ := (STATUS_SUCCESS, Descriptor None None None, 0);
  NtSetSecurityObject _ _ _ k := (STATUS_SUCCESS, k);
  NtGetReparsePoint _ k := (STATUS_SUCCESS, fs_link k);
  NtQueryFsSize _ _ := (STATUS_SUCCESS, (512, 8));
  NtQueryFsVolume _ _ := (STATUS_SUCCESS, 99);
  NtQueryBasic _ _ := (STATUS_SUCCESS, BasicInformation 0 0 0 0 0);
  NtSetBasic _ _ k := (STATUS_SUCCESS, k);
  GetSystemTimeAsFileTime _ := 0;
  LookupAccountSidW _ _ := false;
  RtlAcquirePrivilege k := (STATUS_SUCCESS, k);
  RtlReleasePrivilege k := k
}.

#[export] Instance machine_files : FileKernel K := {
  NtReadFile _ n o k := let '(status, bs, d) := @NtReadFile _ Disk.disk_files 1 n o (fs_file k) in (status, bs, with_file k d);
  NtWriteFile _ bs o k := let '(status, n, d) := @NtWriteFile _ Disk.disk_files 1 bs o (fs_file k) in (status, n, with_file k d);
  NtQueryPosition _ k := (STATUS_SUCCESS, (fs_file k).2);
  NtQueryEndOfFile _ k := (STATUS_SUCCESS, zlen (fs_file k).1);
  NtSetPosition _ o k := (STATUS_SUCCESS, with_file k ((fs_file k).1, o))
}.

#[export] Instance machine_names : NameKernel K := {
  NtQueryAttributeTag _ _ := (STATUS_SUCCESS, (FILE_ATTRIBUTE_REPARSE_POINT, IO_REPARSE_TAG_SYMLINK));
  NtSetReparsePoint _ d k := (STATUS_SUCCESS, with_link k (names_in d));
  NtSetLink h _ new k :=
    match fs_handles k !! h, fs_names k !! new with
    | Some (_, i), None => (STATUS_SUCCESS, with_names k (<[new := i]> (fs_names k)))
    | Some _, Some _ => (STATUS_OBJECT_NAME_COLLISION, k)
    | None, _ => (STATUS_INVALID_HANDLE, k)
    end;
  NtSetDisposition h _ k :=
    match fs_handles k !! h with Some (n, _) => (STATUS_SUCCESS, with_names k (delete n (fs_names k))) | None => (STATUS_INVALID_HANDLE, k) end;
  NtSetRename h flags new k :=
    match fs_handles k !! h with
    | Some (n, i) =>
        if negb (has flags FILE_RENAME_REPLACE_IF_EXISTS) && bool_decide (is_Some (fs_names k !! new)) then (STATUS_OBJECT_NAME_COLLISION, k)
        else (STATUS_SUCCESS, with_names k (<[new := i]> (delete n (fs_names k))))
    | None => (STATUS_INVALID_HANDLE, k)
    end;
  NtQueryFileId h k := match fs_handles k !! h with Some (_, i) => (STATUS_SUCCESS, (99, u64 i)) | None => (STATUS_INVALID_HANDLE, (99, 0)) end;
  SetCurrentDirectoryW _ k := (None, k);
  NtSetEndOfFile _ n k := (STATUS_SUCCESS, with_file k (resized n (fs_file k).1, 0))
}.

#[export] Instance machine_text : AsciiText (K := K).
Proof. split; intros; cbn; [done | done|]. destruct (zlen l + 1 <=? max); [done | by eexists]. Qed.

#[export] Instance machine_link h h' : LinkFile (K := K) h h'.
Proof. split. intros d k _. by eexists. Qed.

#[export] Instance machine_resizable h : ResizableFile (K := K) h fs_file.
Proof. split. intros n k _. by eexists. Qed.

#[export] Instance machine_regular h : RegularFile (K := K) h fs_file.
Proof.
  split; intros; cbn; pose proof (Disk.disk_regular h) as D.
  - destruct (@rf_read _ _ _ _ D (fs_file k) n) as (st & d & E & Hs & Hd); [done|]. cbn in E. injection E as <- <-. by eexists _, _.
  - destruct (@rf_read_at _ _ _ _ D (fs_file k) n o) as (st & d & E & Hs & Hd); [done | done|]. cbn in E. injection E as <- <-. by eexists _, _.
  - by eexists.
  - destruct (@rf_append _ _ _ _ D (fs_file k) bs) as (d & E & Hd); [done|]. cbn in E. injection E as <-. by eexists.
  - by eexists.
  - done.
  - done.
  - by eexists.
Qed.

(** Numbers of files have 64 bits. *)
Definition names (k : K) : files := wrap 64 <$> fs_names k.
Definition handles (k : K) : gmap Z (list Z * Z) := prod_map id (wrap 64) <$> fs_handles k.

Lemma handles_lookup k h n i : handles k !! h = Some (n, i) -> exists j, fs_handles k !! h = Some (n, j) /\ i = u64 j.
Proof. unfold handles. rewrite lookup_fmap. destruct (fs_handles k !! h) as [[n' j]|]; [|done]. intros [= <- <-]. by exists j. Qed.

Lemma new_handle_ok k : new_handle k <> 0 /\ fs_handles k !! new_handle k = None.
Proof.
  pose proof (is_fresh ({[0]} ∪ dom (fs_handles k) : gset Z)) as H. apply not_elem_of_union in H as [H1 H2]. split; [set_solver | by apply not_elem_of_dom].
Qed.

#[export] Instance machine_volume : Volume names handles.
Proof.
  split; intros; cbn; unfold names, handles.
  - rewrite H0, lookup_fmap. destruct (new_handle_ok k) as [N1 N2]. destruct (fs_names k !! ca_name a) as [i|]; cbn; (eexists _, _, _; split; [done|]; do 2 (split; [done|])).
    + split; [done|]. split; [done|]. split; [by rewrite lookup_fmap, N2 | cbn [fs_handles with_handles]; by rewrite fmap_insert].
    + done.
  - do 2 (split; [done|]). apply fmap_delete.
  - apply handles_lookup in H as (j & -> & ->). exists 99. split; [done|]. unfold wrap. by apply Z.mod_pos_bound.
  - by destruct (fs_handles k !! h) as [[]|], (fs_handles k !! h') as [[]|].
  - apply handles_lookup in H as (j & -> & ->). rewrite lookup_fmap.
    rewrite (bool_decide_ext (is_Some (wrap 64 <$> fs_names k !! new)) (is_Some (fs_names k !! new))) by apply fmap_is_Some.
    destruct (_ && _); (eexists _, _; split; [done|]); [done|]. do 2 (split; [done|]). split; [done|]. cbn. by rewrite fmap_insert, fmap_delete.
  - apply handles_lookup in H as (j & -> & ->). rewrite lookup_fmap. destruct (fs_names k !! new); cbn; (eexists _, _; split; [done|]); [done|].
    do 2 (split; [done|]). split; [done|]. cbn. by rewrite fmap_insert.
  - apply handles_lookup in H as (j & -> & ->). eexists. split; [done|]. do 2 (split; [done|]). cbn. by rewrite fmap_delete.
  - done.
Qed.

(** The volume of the drive is known; files in its root, and one of the current
    directory. *)
Definition J (p : path_state) (s : state K) : Prop := devices p = devices Volume.known.

Definition at_root (c : Z) : Z * list Z := (AT_FDCWD, [ch "C"; ch ":"; ch "/"; c]).
Definition here (c : Z) : Z * list Z := (AT_FDCWD, [c]).
Definition letter (c : Z) : Prop := c = ch "a" \/ c = ch "b" \/ c = ch "c".
Definition known (x : Z * list Z) : Prop := (exists c, letter c /\ x = at_root c) \/ x = here (ch "7").
Definition nt_of (x : Z * list Z) : list Z :=
  match x.2 with [_; _; _; c] => Volume.volume3 ++ [92; c] | _ => Volume.volume3 ++ str "\Users\me\" ++ x.2 end.

Lemma drive_known p (s : state K) : J p s -> dos_device_to_nt_device (ch "C") p s = Some ((Some Volume.device3, p), s).
Proof.
  intros H. unfold dos_device_to_nt_device. change ((ch "C" <? ch "A") || (ch "C" >? ch "Z")) with false. cbv iota.
  rewrite (SM_bind_Some get_S _ p s p p s eq_refl). rewrite H. done.
Qed.

#[export] Instance machine_resolver : Resolver J known nt_of.
Proof.
  split.
  - by intros d n p s [(c & [-> | [-> | ->]] & [= -> ->])|[= -> ->]] _.
  - intros d n t0 p s Hk HJ. pose proof (drive_known p s HJ) as Hd. destruct Hk as [(c & Hc & [= -> ->])|[= -> ->]].
    + destruct (drive_path_resolves (K := K) (fun _ => eq_refl) AT_FDCWD t0 (ch "C") [ch "/"; c] [ch "C"; ch ":"] [[c]] p s Volume.device3 p s) as [m E];
        try done; [by left | by destruct Hc as [-> | [-> | ->]] | destruct Hc as [-> | [-> | ->]]; plain_names | apply Volume.volume3_ok|].
      exists (with_components_size p m). split; [|exact HJ]. etransitivity; [exact E|]. destruct Hc as [-> | [-> | ->]]; reflexivity.
    + pose proof (relative_path_resolves (K := K) (fun _ => eq_refl) [ch "7"] [[ch "7"]] [str "Users"; str "me"] (ch "C") p s Volume.device3 p s
        eq_refl eq_refl eq_refl ltac:(discriminate) ltac:(plain_names) eq_refl ltac:(lia) eq_refl ltac:(cbn; lia) Hd Volume.volume3_ok) as E.
      change (1024 <? _) with false in E. cbv iota in E. destruct E as [m E]. exists (with_components_size p m). split; [|exact HJ].
      unfold get_absolute_ntpath2. change (IS_ROOT_PATH [ch "7"]) with false. cbv iota. change (starts_with [ch "7"] (str "/dev/")) with false.
      change (dos_device_name (K := K) t0 [ch "7"]) with (@None (SM path_state K (option (list Z) * handle_t))). cbv iota.
      change (istarts_with [ch "7"] _) with false. cbv iota. by rewrite (SM_bind_Some _ _ _ _ _ _ _ E).
  - done.
  - done.
Qed.

Definition security0 : security := Security NTSYSTEM ADMINISTRATORS USERS EVERYONE (Sid 1 5 [21; 1; 2; 3; 1001]) (Sid 1 5 [21; 1; 2; 3; 513]) (Sid 1 5 [21; 1; 2; 3]) 1001 513 ∅.
Definition a_and_b : files := <[nt_of (at_root (ch "a")) := 11]> {[nt_of (at_root (ch "b")) := 12]}.
Definition start : state K := State [Fdinfo 0 INVALID_HANDLE 0 0; Fdinfo 0 INVALID_HANDLE 0 0; Fdinfo 0 INVALID_HANDLE 0 0;
  Fdinfo 1 FILE_HANDLE O_RDWR 1] 1 0 0 0 0 (Files a_and_b ∅ ([10; 11; 12], 2) (ReparsePoint 0 [] [])).

Lemma start_holds : holds J names handles a_and_b ∅ Volume.known start.
Proof. split; [done|]. split; [|done]. apply (bool_decide_unpack _). vm_compute. exact I. Qed.
End OneVolume.
Import OneVolume.

(** The state in which the file of the link has been created. *)
Definition created : (security * path_state) * state K :=
  match create_link (nt_of (at_root (ch "c"))) 511 FILE_NON_DIRECTORY_FILE (security0, Volume.known) start with
  | Some ((_, y), s) => (y, s)
  | None => ((security0, Volume.known), start)
  end.

Lemma symlink_readlink_witness : exists k,
  common_symlink (str "/dev/null") AT_FDCWD (at_root (ch "c")).2 511 (security0, Volume.known) start = Some ((0, created.1), with_kernel created.2 k) /\
  do_readlink 9 100 created.1 (with_kernel created.2 k) = Some (((9, str "D:ev/null" ++ [0]), created.1), with_kernel created.2 k).
Proof.
  destruct (symlink_readlink (K := K) (fun _ => eq_refl) (new_handle (kernel start)) 9 (str "/dev/null") AT_FDCWD (at_root (ch "c")).2 511
    (nt_of (at_root (ch "c"))) (str "\Device\Null") FILE_NON_DIRECTORY_FILE security0 Volume.known Volume.known Volume.known Volume.known
    start start start start created.1 created.2) as (k & E & Hr).
  - discriminate.
  - reflexivity.
  - split; [by repeat constructor|]. split; [|by vm_compute]. vm_compute. intuition discriminate.
  - vm_compute. reflexivity.
  - vm_compute. reflexivity.
  - vm_compute. reflexivity.
  - vm_compute. reflexivity.
  - exists k. split; [exact E|]. apply (Hr 100 created.1 (with_kernel created.2 k) eq_refl). lia.
Defined.

Lemma link_block_limit_witness : write_link 1 (replicate (Z.to_nat 16379) (ch "a")) false (security0, Volume.known) start = None.
Proof.
  apply (link_block_limit (fun _ => eq_refl)); [|rewrite length_replicate, Z2Nat.id; lia..|done].
  apply Forall_forall. intros c Hc. apply elem_of_replicate in Hc as [-> _]. done.
Defined.

Lemma readlink_size_wraps_witness : store_text (str "a/b") 65536 (security0, Volume.known) start = None.
Proof. apply readlink_size_wraps; [by repeat constructor | cbn; lia]. Defined.

Definition some_calls : list name_call :=
  [Rename true (at_root (ch "a")) (at_root (ch "b")); Rename false (at_root (ch "a")) (at_root (ch "c")); Link (at_root (ch "c")) (at_root (ch "a"));
   Rename false (at_root (ch "a")) (at_root (ch "c")); Remove (at_root (ch "b")); Remove (at_root (ch "b"))].

Lemma names_refine_witness : exists rs p' s',
  run_calls INVALID_HANDLE some_calls (security0, Volume.known) start = Some ((rs, (security0, p')), s') /\
  Forall2 agrees rs [(-1, Some EEXIST); (0, Some 0); (0, None); (0, None); (0, None); (-1, Some ENOENT)] /\
  OneVolume.names (kernel s') = <[nt_of (at_root (ch "a")) := 11]> {[nt_of (at_root (ch "c")) := 11]}.
Proof.
  destruct (names_refine (K := K) (fun _ => eq_refl) J known nt_of OneVolume.names handles INVALID_HANDLE some_calls a_and_b security0 Volume.known start) as (rs & p' & s' & E & Hr & (_ & Hm & _)).
  - unfold some_calls, places. repeat first [apply Forall_nil_2 | apply Forall_cons_2 | (left; eexists; split; [|reflexivity]; unfold letter; tauto)].
  - exact start_holds.
  - exists rs, p', s'. split; [exact E|]. split; [exact Hr|]. rewrite Hm. apply (bool_decide_unpack _). vm_compute. exact I.
Defined.

Lemma exchange_swaps_witness : exists p' s', common_exchange INVALID_HANDLE AT_FDCWD (at_root (ch "a")).2 AT_FDCWD (at_root (ch "b")).2 (security0, Volume.known) start =
  Some ((0, (security0, p')), s') /\ OneVolume.names (kernel s') = <[nt_of (at_root (ch "b")) := 11]> {[nt_of (at_root (ch "a")) := 12]}.
Proof.
  destruct (exchange_swaps (K := K) (fun _ => eq_refl) J known nt_of OneVolume.names handles INVALID_HANDLE (at_root (ch "a")) (at_root (ch "b")) a_and_b ∅ security0 Volume.known start 11)
    as (p' & s' & E & (_ & Hm & _) & _).
  - left. eexists. split; [|reflexivity]. unfold letter. auto.
  - left. eexists. split; [|reflexivity]. unfold letter. auto.
  - right. reflexivity.
  - discriminate.
  - discriminate.
  - discriminate.
  - exact start_holds.
  - reflexivity.
  - discriminate.
  - exists p', s'. split; [exact E|]. rewrite Hm. apply (bool_decide_unpack _). vm_compute. exact I.
Defined.

Lemma getcwd_tells_witness : wlibc_getcwd true 12 Volume.known start = Some ((None, Volume.known), with_errno start ERANGE) /\
  exists tail, wlibc_getcwd true 13 Volume.known start = Some ((Some (str "C:/Users/me" ++ 0 :: tail), Volume.known), start).
Proof.
  split.
  - apply (getcwd_tells (K := K) (fun _ => eq_refl) true 12 (str "C:\Users\me")); [reflexivity | by repeat constructor | cbn; lia | lia].
  - apply (getcwd_tells (K := K) (fun _ => eq_refl) true 13 (str "C:\Users\me")); [reflexivity | by repeat constructor | cbn; lia | lia].
Defined.

Lemma wgetcwd_agrees_witness : wlibc_wgetcwd true 13 Volume.known start = wlibc_getcwd true 13 Volume.known start.
Proof. apply (wgetcwd_agrees (K := K) (fun _ => eq_refl) true 13 (str "C:\Users\me")); [reflexivity | by repeat constructor | cbn; lia | lia]. Defined.

Lemma ftruncate_resizes_witness : exists k, wlibc_ftruncate 3 (Fdinfo 0 INVALID_HANDLE 0 0) 5 (security0, Volume.known) start =
  Some ((0, (security0, Volume.known)), with_kernel start k) /\ fs_file k = ([10; 11; 12; 0; 0], 2).
Proof.
  apply (ftruncate_resizes (K := K) 1 fs_file 3 _ 5 [10; 11; 12] 2 (Fdinfo 1 FILE_HANDLE O_RDWR 1)); [reflexivity | reflexivity | reflexivity | reflexivity | lia | lia].
Defined.
