(* ===== verification/Text.v ===== *)
(** * Texts, messages and the environment

    The messages of errors and signals (src/string/strerror.c, strsignal.c,
    src/stdio/perror.c), the functions of src/string and src/wchar, and the variables of
    the environment (src/stdlib/setenv.c, unsetenv.c). *)

From stdpp Require Import strings gmap.
From S2P Require Import Prelude Errno Buffer FdTable FdTableFacts FileIo Path PathFacts PathSpec Open OpenSpec Stream StreamFacts StreamList StreamListFacts StreamListSpec.

(** ** Messages *)

(** The cases of the switch. *)
Definition strerror_cases_1 : list (Z * list Z) :=
  [(0, str "No errno"); (1, str "Operation not permitted"); (2, str "No such file or directory"); (3, str "No such process");
   (4, str "Interrupted function call"); (5, str "Input/output error"); (6, str "No such device or address"); (7, str "Argument list too long");
   (8, str "Exec format error"); (9, str "Bad file descriptor"); (10, str "No child processes"); (11, str "Operation would block");
   (12, str "Out of memory"); (13, str "Permission denied"); (14, str "Bad address"); (16, str "Device or resource busy"); (17, str "File exists");
   (18, str "Invalid cross-device link"); (19, str "No such device"); (20, str "Not a directory"); (21, str "Is a directory");
   (22, str "Invalid argument"); (23, str "Too many open files in system"); (24, str "Too many open files"); (25, str "Not a terminal device");
   (27, str "File too large"); (28, str "No space left on device"); (29, str "Invalid seek"); (30, str "Read-only file system");
   (31, str "Too many links"); (32, str "Broken pipe"); (33, str "Domain error"); (34, str "Numerical result out of range");
   (36, str "Resource deadlock avoided"); (38, str "Filename too long"); (39, str "No locks available"); (40, str "Function not implemented");
   (41, str "Directory not empty"); (42, str "Invalid byte sequence"); (56, str "Invalid request code"); (57, str "Invalid slot");
   (59, str "Bad font file format"); (64, str "Machine is not on the network"); (65, str "Package not installed"); (66, str "Object is remote");
   (68, str "Advertise error"); (69, str "Srmount error"); (70, str "Communication error"); (72, str "Multihop attempted");
   (73, str "RFS specific error"); (74, str "Name not unique on network"); (75, str "File descriptor in bad state");
   (76, str "File descriptor is stale"); (77, str "Remote address changed"); (82, str "Can not access required DLL"); (83, str "DLL is corrupt");
   (84, str "Corrupted sections"); (85, str "Too many DLLs"); (86, str "Cannot exec DLL"); (87, str "Interrupted system call")].

Definition strerror_cases_2 : list (Z * list Z) :=
  [(88, str "Streams pipe error"); (89, str "Too many users"); (90, str "Is a named type file"); (91, str "Remote I/O error");
   (92, str " Quota exceeded"); (93, str "Host is down"); (94, str "Connection is down"); (95, str "Socket type not supported");
   (96, str "Protocol family not supported"); (97, str "Too many references"); (98, str "No medium found"); (99, str "Wrong medium type");
   (80, str "String truncated"); (100, str "Address in use"); (101, str "Address not available"); (102, str "Address family not supported");
   (103, str "Connection already in progress"); (104, str "Bad message"); (105, str "Operation cancelled"); (106, str "Connection aborted");
   (107, str "Connection refused"); (108, str "Connection reset"); (109, str "Destination address required"); (110, str "Host unreachable");
   (111, str "Identifier removed"); (112, str "Operation in progress"); (113, str "Already connected"); (114, str "Too many symbolic link levels");
   (115, str "Message size"); (116, str "Network down"); (117, str "Network reset"); (118, str "Network unreachable"); (119, str "No buffer space");
   (120, str "No message available"); (121, str "Link has been severed"); (122, str "No message"); (123, str "No protocol option");
   (124, str "No stream resources"); (125, str "Not a stream"); (126, str "Not connected"); (127, str "State not recoverable");
   (128, str "Not a socket"); (129, str "Not supported"); (130, str "Operation not supported"); (131, str "Unknown error");
   (132, str "Value too large for defined data type"); (133, str "Owner dead"); (134, str "Protocol error"); (135, str "Protocol not supported");
   (136, str "Wrong protocol type"); (137, str "Stream timeout"); (138, str "Timed out"); (139, str "Text file busy");
   (140, str "Operation would block")].

Definition strerror_cases : list (Z * list Z) := strerror_cases_1 ++ strerror_cases_2.

Definition UNKNOWN_ERROR : list Z := str "Unknown error".

(** The case of a number, the default otherwise. *)
Definition switch_message (cases : list (Z * list Z)) (n : Z) : list Z :=
  match list_find (fun c => c.1 = n) cases with Some (_, c) => c.2 | None => UNKNOWN_ERROR end.

Definition wlibc_common_strerror (errnum : Z) : list Z := switch_message strerror_cases errnum.

(** [perror] has a switch of its own. *)
Definition perror_cases_1 : list (Z * list Z) :=
  [(0, str "No errno"); (1, str "Operation not permitted"); (2, str "No such file or directory"); (3, str "No such process");
   (4, str "Interrupted function call"); (5, str "Input/output error"); (6, str "No such device or address"); (7, str "Argument list too long");
   (8, str "Exec format error"); (9, str "Bad file descriptor"); (10, str "No child processes"); (11, str "Operation would block");
   (12, str "Out of memory"); (13, str "Permission denied"); (14, str "Bad address"); (16, str "Device or resource busy"); (17, str "File exists");
   (18, str "Invalid cross-device link"); (19, str "No such device"); (20, str "Not a directory"); (21, str "Is a directory");
   (22, str "Invalid argument"); (23, str "Too many open files in system"); (24, str "Too many open files"); (25, str "Not a terminal device");
   (27, str "File too large"); (28, str "No space left on device"); (29, str "Invalid seek"); (30, str "Read-only file system");
   (31, str "Too many links"); (32, str "Broken pipe"); (33, str "Domain error"); (34, str "Numerical result out of range");
   (36, str "Resource deadlock avoided"); (38, str "Filename too long"); (39, str "No locks available"); (40, str "Function not implemented");
   (41, str "Directory not empty"); (42, str "Invalid byte sequence"); (56, str "Invalid request code"); (57, str "Invalid slot");
   (59, str "Bad font file format"); (64, str "Machine is not on the network"); (65, str "Package not installed"); (66, str "Object is remote");
   (68, str "Advertise error"); (69, str "Srmount error"); (70, str "Communication error"); (72, str "Multihop attempted");
   (73, str "RFS specific error"); (74, str "Name not unique on network"); (75, str "File descriptor in bad state");
   (76, str "File descriptor is stale"); (77, str "Remote address changed"); (82, str "Can not access required DLL"); (83, str "DLL is corrupt");
   (84, str "Corrupted sections"); (85, str "Too many DLLs"); (86, str "Cannot exec DLL"); (87, str "Interrupted system call")].

Definition perror_cases_2 : list (Z * list Z) :=
  [(88, str "Streams pipe error"); (89, str "Too many users"); (90, str "Is a named type file"); (91, str "Remote I/O error");
   (92, str " Quota exceeded"); (93, str "Host is down"); (94, str "Connection is down"); (95, str "Socket type not supported");
   (96, str "Protocol family not supported"); (97, str "Too many references"); (98, str "No medium found"); (99, str "Wrong medium type");
   (80, str "String truncated"); (100, str "Address in use"); (101, str "Address not available"); (102, str "Address family not supported");
   (103, str "Connection already in progress"); (104, str "Bad message"); (105, str "Operation cancelled"); (106, str "Connection aborted");
   (107, str "Connection refused"); (108, str "Connection reset"); (109, str "Destination address required"); (110, str "Host unreachable");
   (111, str "Identifier removed"); (112, str "Operation in progress"); (113, str "Already connected"); (114, str "Too many symbolic link levels");
   (115, str "Message size"); (116, str "Network down"); (117, str "Network reset"); (118, str "Network unreachable"); (119, str "No buffer space");
   (120, str "No message available"); (121, str "Link has been severed"); (122, str "No message"); (123, str "No protocol option");
   (124, str "No stream resources"); (125, str "Not a stream"); (126, str "Not connected"); (127, str "State not recoverable");
   (128, str "Not a socket"); (129, str "Not supported"); (130, str "Operation not supported"); (131, str "Unknown error");
   (132, str "Value too large for defined data type"); (133, str "Owner dead"); (134, str "Protocol error"); (135, str "Protocol not supported");
   (136, str "Wrong protocol type"); (137, str "Stream timeout"); (138, str "Timed out"); (139, str "Text file busy");
   (140, str "Operation would block")].

Definition perror_cases : list (Z * list Z) := perror_cases_1 ++ perror_cases_2.

Definition get_message (errno : Z) : list Z := switch_message perror_cases errno.

Definition sys_siglist : list (list Z) :=
  [str "Hangup"; str "Interrupt"; str "Quit"; str "Illegal instruction"; str "Trap"; str "Abnormal termination"; str "Bus error"; str "Floating point exception"; str "Kill"; str "User defined signal 1"; str "Segment violation"; str "User defined signal 2"; str "Broken pipe"; str "Alarm clock"; str "Terminate"; str "Stack fault "; str "Child terminated or stopped"; str "Continue"; 
   str "Background read from control terminal"; str "Background write to control terminal"; str "Keyboard stop"; str "Stop"; str "Urgent data is available at a socket"; str "CPU time limit exceeded"; str "File size limit exceeded"; str "Virtual timer expired"; str "Profiling timer expired"; str "Window size change"; str "Pollable event"; str "Power failure imminent"; str "Bad syscall"].

Definition NSIG : Z := 32.

(** The message, [NULL] for an entry that is not initialised; a negative index is
    undefined. *)
Definition wlibc_strsignal (sig : Z) : option (option (list Z)) :=
  if NSIG <=? sig then Some (Some (str "Unkown signal"))
  else if sig <? 0 then None
  else Some (sys_siglist !! Z.to_nat sig).

(** ** Strings *)

(** The index of the last byte of [size] that equals the character, compared as a signed
    [char] with an [int]; bytes outside of the object are not read. *)
Fixpoint memrchr_from (str : list Z) (character : Z) (n : nat) : option Z :=
  match n with
  | O => None
  | S n => if swrap 8 (byte_at str (Z.of_nat n)) =? character then Some (Z.of_nat n) else memrchr_from str character n
  end.

Definition wlibc_memrchr (str : list Z) (character size : Z) : option (option Z) :=
  if zlen str <? size then None else Some (memrchr_from str character (Z.to_nat size)).

(** [_BitScanForward]: the lowest bit that is set. *)
Fixpoint bit_scan (bits : nat) (i x : Z) : option Z :=
  match bits with
  | O => None
  | S bits => if Z.testbit x i then Some i else bit_scan bits (i + 1) x
  end.

Definition wlibc_ffs32 (x : Z) : Z := match bit_scan 32 0 (u32 x) with Some i => i + 1 | None => 0 end.
Definition wlibc_ffs64 (x : Z) : Z := match bit_scan 64 0 (u64 x) with Some i => i + 1 | None => 0 end.

Definition wlibc_wcwidth (wc : Z) : Z :=
  if wc =? 0 then 0
  else if (0x20 <=? wc) && (wc <? 0x7f) then 1
  else if wc <? 0xa0 then -1
  else if (0xd800 <=? wc) && (wc <=? 0xdfff) then -1
  else if (0x0300 <=? wc) && (wc <=? 0x036f) then 0
  else 1.

(** The character is looked at before the count: behind the array it is undefined. The
    sum is an [int]. *)
Fixpoint wcswidth_from (wstr : list Z) (size : nat) (width : Z) : option Z :=
  match wstr with
  | [] => None
  | c :: wstr =>
      if c =? 0 then Some width
      else
        match size with
        | O => Some width
        | S size =>
            let n := wlibc_wcwidth c in
            if n =? -1 then Some (-1)
            else if width + n <? 2 ^ 31 then wcswidth_from wstr size (width + n) else None
        end
  end.

Definition wlibc_wcswidth (wstr : list Z) (size : Z) : option Z := wcswidth_from wstr (Z.to_nat size) 0.

Section Strings.
Context {A : Allocator}.

(** The length up to a NUL or [n]; behind the object it is undefined. *)
Fixpoint strnlen_from (s : list Z) (n : nat) : option nat :=
  match n, s with
  | O, _ => Some O
  | S _, [] => None
  | S n, c :: s => if c =? 0 then Some O else S <$> strnlen_from s n
  end.

(** The block and the error, if any. *)
Definition wlibc_strndup (s : list Z) (size : Z) : option (option (list Z) * option Z) :=
  length ← strnlen_from s (Z.to_nat size);
  if malloc_ok (Z.of_nat length + 1) then Some (Some (take length s ++ [0]), None) else Some (None, Some ENOMEM).
End Strings.

(** ** The environment *)

(** The variables are those of the run-time library: [getenv], and [_putenv_s], which
    gives an error. *)
Class Environment (E : Type) := {
  getenv : list Z -> E -> option (list Z);
  putenv_s : list Z -> list Z -> E -> Z * E
}.

Section Environ.
Context {E : Type} {EN : Environment E}.

Definition put_variable (name value : list Z) (e : E) : Z * E := let '(err, e) := putenv_s name value e in (if err =? 0 then 0 else -1, e).

Definition wlibc_setenv (name value : list Z) (overwrite : bool) (e : E) : Z * E :=
  match getenv name e with
  | None => put_variable name value e
  | Some _ => if overwrite then put_variable name value e else (0, e)
  end.

(** The wide calls are the same over [_wgetenv] and [_wputenv_s]. *)
Definition wlibc_wsetenv := wlibc_setenv.

Definition wlibc_unsetenv (name : list Z) (e : E) : Z * E := put_variable name [] e.
Definition wlibc_wunsetenv := wlibc_unsetenv.
End Environ.

(** ** perror *)

Section Perror.
Context {K : Type} {KN : Kernel K} {FK : FileKernel K} {A : Allocator} {H : Heap} {PK : PathKernel K} {OK : OpenKernel K} {SH : StreamHeap}.

(** The number is read behind the writes. *)
Definition wlibc_perror (message : option (list Z)) : SM io_state K unit :=
  x ← get_S;
  let a := stderr x in
  let invalid : SM io_state K unit := run_M (set_errno EINVAL) in
  if a =? 0 then invalid
  else
    f ← deref a;
    if negb (magic f =? 0x1) then invalid
    else
      _ ← match message with Some m => wlibc_fwrite (Some m) 1 (zlen m) a | None => mret 0 end;
      _ ← wlibc_fwrite (Some (str ": ")) 1 2 a;
      s ← run_M get;
      let m := get_message (errno s) in
      _ ← wlibc_fwrite (Some m) 1 (zlen m) a;
      mret ().
End Perror.

(** ** What texts and messages promise

    The two tables of messages agree, and every error the library maps a status to has a
    message; the name of a signal is that of the next one; searches find the last byte and
    the lowest bit; the environment is a map in which an empty value is none. *)
(** ** Messages *)

(** [perror] and [strerror] have the same message for every number. *)
Theorem perror_strerror_agree (n : Z) : get_message n = wlibc_common_strerror n.
Proof. unfold get_message, wlibc_common_strerror. f_equal. Qed.

Lemma switch_message_case cases n m : list_find (fun c : Z * list Z => c.1 = n) cases = Some m -> switch_message cases n = m.2.2.
Proof. intros H. unfold switch_message. rewrite H. by destruct m. Qed.

(** a status or an error of Windows that is mapped to a number is mapped to one that
    has a message. *)
Theorem errors_have_messages (old : Z) :
  (forall status, let n := map_ntstatus_to_errno status old in n = old \/ wlibc_common_strerror n <> UNKNOWN_ERROR) /\
  (forall error, let n := map_doserror_to_errno error old in n = old \/ wlibc_common_strerror n <> UNKNOWN_ERROR).
Proof.
  split; [intros status; destruct status | intros error; destruct error]; cbn [map_ntstatus_to_errno map_doserror_to_errno]; (by left) || (by right; vm_compute).
Qed.

(** What signal.h says of a signal, from 1 on: the table has the same texts in the same
    order. *)
Definition meaning (sig : Z) : option (list Z) := sys_siglist !! Z.to_nat (sig - 1).

(** the message of a signal is that of the next one, which is another; the last one
    has none, and a negative number is read in front of the table. *)
Theorem strsignal_is_off_by_one (sig : Z) :
  (1 <= sig <= 30 -> wlibc_strsignal sig = Some (meaning (sig + 1)) /\ meaning (sig + 1) <> meaning sig) /\
  wlibc_strsignal 31 = Some None /\ (sig < 0 -> wlibc_strsignal sig = None).
Proof.
  split; [|split; [done|]].
  - intros H. unfold meaning. split; [unfold wlibc_strsignal; rewrite (proj2 (Z.leb_gt _ _)), (proj2 (Z.ltb_ge _ _)) by (unfold NSIG; lia); do 3 f_equal; lia|].
    assert (forallb (fun i => negb (bool_decide (sys_siglist !! S i = sys_siglist !! i))) (seq 0 30) = true) as T by (vm_compute; reflexivity).
    rewrite forallb_forall in T. specialize (T (Z.to_nat (sig - 1))). rewrite negb_true_iff, bool_decide_eq_false in T.
    replace (Z.to_nat (sig + 1 - 1)) with (S (Z.to_nat (sig - 1))) by lia. apply T, in_seq. lia.
  - intros H. unfold wlibc_strsignal. by rewrite (proj2 (Z.leb_gt _ _)), (proj2 (Z.ltb_lt _ _)) by (unfold NSIG; lia).
Qed.

(** ** Strings *)

Lemma memrchr_from_spec s c n : (n <= length s)%nat ->
  match memrchr_from s c n with
  | Some i => 0 <= i < Z.of_nat n /\ swrap 8 (byte_at s i) = c /\ forall j, i < j < Z.of_nat n -> swrap 8 (byte_at s j) <> c
  | None => forall j, 0 <= j < Z.of_nat n -> swrap 8 (byte_at s j) <> c
  end.
Proof.
  induction n as [|n IH]; intros Hn; cbn [memrchr_from]; [lia|]. destruct (Z.eqb_spec (swrap 8 (byte_at s (Z.of_nat n))) c) as [E|N].
  - split; [lia|]. split; [done|]. lia.
  - specialize (IH ltac:(lia)). destruct (memrchr_from s c n) as [i|].
    + destruct IH as (Hi & He & Hl). split; [lia|]. split; [done|]. intros j Hj. destruct (decide (j = Z.of_nat n)) as [->|]; [done | apply Hl; lia].
    + intros j Hj. destruct (decide (j = Z.of_nat n)) as [->|]; [done | apply IH; lia].
Qed.

(** memrchr finds the last of [size] bytes that is the character, for a character of
    7 bits; one of the upper half is never found. *)
Theorem memrchr_finds_last (s : list Z) (c size : Z) : Forall (fun b => 0 <= b < 256) s -> 0 <= size <= zlen s -> 0 <= c < 256 ->
  exists r, wlibc_memrchr s c size = Some r /\
    match r with
    | Some i => c < 128 /\ 0 <= i < size /\ byte_at s i = c /\ forall j, i < j < size -> byte_at s j <> c
    | None => c < 128 -> forall j, 0 <= j < size -> byte_at s j <> c
    end.
Proof.
  intros Hb Hs Hc. unfold wlibc_memrchr. rewrite (proj2 (Z.ltb_ge _ _)) by lia. eexists. split; [done|].
  assert (forall j, 0 <= j < size -> 0 <= byte_at s j < 256) as Hbyte.
  { intros j Hj. destruct (lookup_lt_is_Some_2 s (Z.to_nat j)) as [b Eb]; [lia|]. rewrite Forall_lookup in Hb. pose proof (Hb _ _ Eb).
    unfold byte_at. by rewrite Eb. }
  assert (forall j, 0 <= j < size -> swrap 8 (byte_at s j) = if byte_at s j <? 128 then byte_at s j else byte_at s j - 256) as Hsw.
  { intros j Hj. specialize (Hbyte j Hj). unfold swrap, wrap. destruct (Z.ltb_spec (byte_at s j) 128).
    - rewrite Z.mod_small by lia. cbv zeta. by rewrite (proj2 (Z.ltb_lt _ _)) by lia.
    - rewrite Z.mod_small by lia. cbv zeta. by rewrite (proj2 (Z.ltb_ge _ _)) by lia. }
  pose proof (memrchr_from_spec s c (Z.to_nat size) ltac:(lia)) as Hm. rewrite Z2Nat.id in Hm by lia. destruct (memrchr_from _ _ _) as [i|].
  - destruct Hm as (Hi & He & Hl). rewrite (Hsw i Hi) in He. pose proof (Hbyte i Hi). destruct (Z.ltb_spec (byte_at s i) 128); [|lia].
    split; [lia|]. split; [done|]. split; [done|]. intros j Hj E. apply (Hl j Hj). rewrite Hsw by lia. destruct (Z.ltb_spec (byte_at s j) 128); lia.
  - intros Hc7 j Hj E. apply (Hm j Hj). rewrite Hsw by done. destruct (Z.ltb_spec (byte_at s j) 128); lia.
Qed.

Lemma bit_scan_spec bits : forall i x, 0 <= i ->
  match bit_scan bits i x with
  | Some j => i <= j < i + Z.of_nat bits /\ Z.testbit x j = true /\ forall k, i <= k < j -> Z.testbit x k = false
  | None => forall k, i <= k < i + Z.of_nat bits -> Z.testbit x k = false
  end.
Proof.
  induction bits as [|bits IH]; intros i x Hi; cbn [bit_scan]; [lia|]. destruct (Z.testbit x i) eqn:E; [split; [lia|]; split; [done | lia]|].
  specialize (IH (i + 1) x ltac:(lia)). destruct (bit_scan bits (i + 1) x) as [j|].
  - destruct IH as (Hj & Ht & Hl). split; [lia|]. split; [done|]. intros k Hk. destruct (decide (k = i)) as [->|]; [done | apply Hl; lia].
  - intros k Hk. destruct (decide (k = i)) as [->|]; [done | apply IH; lia].
Qed.

(** ffs gives the position of the lowest bit that is set, from 1 on, and 0 for 0,
    for numbers of 32 and of 64 bits of either sign. *)
Theorem ffs_lowest_bit (w x : Z) : w = 32 \/ w = 64 -> - 2 ^ (w - 1) <= x < 2 ^ (w - 1) ->
  let r := if w =? 32 then wlibc_ffs32 x else wlibc_ffs64 x in
  (x = 0 -> r = 0) /\ (x <> 0 -> 1 <= r <= w /\ Z.testbit x (r - 1) = true /\ forall k, 0 <= k < r - 1 -> Z.testbit x k = false).
Proof.
  intros Hw Hx. assert (forall k, 0 <= k < w -> Z.testbit (wrap w x) k = Z.testbit x k) as Ht
    by (intros k Hk; unfold wrap; by rewrite Z.mod_pow2_bits_low by lia).
  assert ((if w =? 32 then wlibc_ffs32 x else wlibc_ffs64 x) = match bit_scan (Z.to_nat w) 0 (wrap w x) with Some i => i + 1 | None => 0 end) as E by (by destruct Hw as [-> | ->]).
  rewrite E. clear E. pose proof (bit_scan_spec (Z.to_nat w) 0 (wrap w x) ltac:(lia)) as Hs. destruct (bit_scan _ _ _) as [j|].
  - destruct Hs as (Hj & H1 & Hl). rewrite Ht in H1 by lia. split; [intros ->; by rewrite Z.bits_0 in H1|]. intros _. split; [lia|].
    replace (j + 1 - 1) with j by lia. split; [done|]. intros k Hk. rewrite <- Ht by lia. apply Hl. lia.
  - split; [done|]. intros Hne. exfalso. apply Hne. assert (wrap w x = 0) as W.
    { apply Z.bits_inj'. intros k Hk. rewrite Z.bits_0. destruct (decide (k < w)); [apply Hs; lia|]. unfold wrap. by rewrite Z.mod_pow2_bits_high by lia. }
    unfold wrap in W. pose proof (Z.div_mod x (2 ^ w) ltac:(lia)) as D. rewrite W in D. destruct Hw as [-> | ->]; cbn in *; lia.
Qed.

Definition width_sum (l : list Z) : Z := fold_right (fun c n => wlibc_wcwidth c + n) 0 l.

Lemma wcwidth_range c : -1 <= wlibc_wcwidth c <= 1.
Proof. unfold wlibc_wcwidth. repeat case_match; lia. Qed.

Lemma wcswidth_from_ok l : forall size w, Forall (fun c => c <> 0 /\ wlibc_wcwidth c <> -1) l -> 0 <= w -> w + zlen l < 2 ^ 31 ->
  (forall rest, wcswidth_from (l ++ 0 :: rest) size w = Some (w + width_sum (take size l))) /\
  ((length l <= size)%nat -> wcswidth_from l size w = None).
Proof.
  induction l as [|c l IH]; intros size w Hl Hw Hb.
  - split; [|done]. intros rest. cbn. rewrite take_nil. f_equal. cbn. lia.
  - apply Forall_cons in Hl as [[Hc Hm] Hl]. cbn [app wcswidth_from]. rewrite (proj2 (Z.eqb_neq c 0) Hc). destruct size as [|size].
    + split; [intros rest; f_equal; cbn; lia | cbn; lia].
    + pose proof (wcwidth_range c). cbn [length] in Hb. rewrite (proj2 (Z.eqb_neq _ _) Hm), (proj2 (Z.ltb_lt _ _)) by lia.
      destruct (IH size (w + wlibc_wcwidth c) Hl ltac:(lia) ltac:(lia)) as [H1 H2]. split.
      * intros rest. rewrite H1. f_equal. cbn [take width_sum fold_right]. fold (width_sum (take size l)). lia.
      * intros Hs. apply H2. cbn [length] in Hs. lia.
Qed.

(** wcswidth of a text is the sum of the widths of its first [size] characters; an
    array of [size] characters without a NUL is read past its end. *)
Theorem wcswidth_sums (l rest : list Z) (size : Z) :
  Forall (fun c => c <> 0 /\ wlibc_wcwidth c <> -1) l -> zlen l < 2 ^ 31 ->
  wlibc_wcswidth (l ++ 0 :: rest) size = Some (width_sum (take (Z.to_nat size) l)) /\ wlibc_wcswidth l (zlen l) = None.
Proof.
  intros Hl Hb. unfold wlibc_wcswidth. rewrite Nat2Z.id. split.
  - destruct (wcswidth_from_ok l (Z.to_nat size) 0 Hl ltac:(lia) ltac:(lia)) as [-> _]. done.
  - apply (wcswidth_from_ok l (length l) 0 Hl); lia.
Qed.

Lemma strnlen_prefix l rest n : Forall (fun c => c <> 0) l -> (length l <= n)%nat -> strnlen_from (l ++ 0 :: rest) n = Some (length l).
Proof.
  revert n. induction l as [|c l IH]; intros n Hl Hn; [by destruct n|]. apply Forall_cons in Hl as [Hc Hl]. destruct n as [|n]; [cbn in Hn; lia|].
  cbn [app strnlen_from]. rewrite (proj2 (Z.eqb_neq c 0) Hc), IH by (done || cbn in Hn; lia). done.
Qed.

(** strndup copies a text, or its first [size] bytes, with a NUL behind it. *)
Theorem strndup_copies {A : Allocator} (l rest : list Z) (size : Z) : (forall n, malloc_ok n = true) -> Forall (fun c => c <> 0) l -> 0 <= size ->
  wlibc_strndup (l ++ 0 :: rest) size = Some (Some (take (Z.to_nat size) l ++ [0]), None).
Proof.
  intros Ha Hl Hs. assert (strnlen_from (l ++ 0 :: rest) (Z.to_nat size) = Some (length (take (Z.to_nat size) l))) as E.
  { destruct (decide (length l <= Z.to_nat size)%nat) as [H|H]; [by rewrite strnlen_prefix, take_ge|]. rewrite length_take_le by lia.
    clear Hs. assert (Z.to_nat size <= length l)%nat as H1 by lia. clear H. revert H1. generalize (Z.to_nat size) as n. clear size. induction Hl as [|c l Hc Hl IH]; intros n Hn; destruct n as [|n]; try done; [cbn in Hn; lia|].
    cbn [app strnlen_from]. rewrite (proj2 (Z.eqb_neq c 0) Hc), IH by (cbn in Hn; lia). done. }
  unfold wlibc_strndup. rewrite E. cbn [mbind option_bind]. rewrite Ha. do 4 f_equal.
  rewrite length_take, take_app_le by lia. destruct (decide (Z.to_nat size <= length l)%nat); [by rewrite Nat.min_l | rewrite Nat.min_r, !take_ge by lia; done].
Qed.

(** ** The environment *)

(** The variables of the run-time library: a name is not empty and has no [=]; an empty
    value removes the variable. *)
Definition proper_name (n : list Z) : Prop := n <> [] /\ ~ In (ch "=") n.
Definition put (n v : list Z) (m : gmap (list Z) (list Z)) : gmap (list Z) (list Z) := match v with [] => delete n m | _ => <[n := v]> m end.

Class Variables {E : Type} `{Environment E} (env : E -> gmap (list Z) (list Z)) : Prop := {
  var_get n e : getenv n e = env e !! n;
  var_put n v e : proper_name n -> exists e', putenv_s n v e = (0, e') /\ env e' = put n v (env e)
}.

Inductive env_call := Set_ (name value : list Z) (overwrite : bool) | Unset (name : list Z).

Section EnvironFacts.
Context {E : Type} {EN : Environment E} (env : E -> gmap (list Z) (list Z)) {VR : Variables env}.

Definition env_name (c : env_call) : list Z := match c with Set_ n _ _ | Unset n => n end.
Definition env_run (c : env_call) (e : E) : Z * E := match c with Set_ n v o => wlibc_setenv n v o e | Unset n => wlibc_unsetenv n e end.
Definition env_abstract (c : env_call) (m : gmap (list Z) (list Z)) : gmap (list Z) (list Z) :=
  match c with Set_ n v o => if o || negb (bool_decide (is_Some (m !! n))) then put n v m else m | Unset n => delete n m end.

Lemma put_variable_ok n v e : proper_name n -> exists e', put_variable n v e = (0, e') /\ env e' = put n v (env e).
Proof. intros H. destruct (var_put n v e H) as (e' & E' & Hm). exists e'. split; [|done]. unfold put_variable. by rewrite E'. Qed.

Lemma env_run_ok c e : proper_name (env_name c) -> exists e', env_run c e = (0, e') /\ env e' = env_abstract c (env e).
Proof.
  intros H. destruct c as [n v o|n]; cbn [env_run env_abstract env_name] in *; [|by apply (put_variable_ok n [])].
  unfold wlibc_setenv. rewrite var_get. destruct (env e !! n) as [w|].
  - rewrite bool_decide_eq_true_2 by done. rewrite orb_false_r. destruct o; [by apply put_variable_ok | by exists e].
  - rewrite bool_decide_eq_false_2 by (by intros []). rewrite orb_true_r. by apply put_variable_ok.
Qed.

(** setenv and unsetenv refine a map of variables: each call returns 0, a variable
    that exists is only replaced if asked to, and an empty value removes it. *)
Theorem environment_refines (cs : list env_call) e : Forall (fun c => proper_name (env_name c)) cs ->
  exists e', foldl (fun '(l, e) c => let '(r, e) := env_run c e in (l ++ [r], e)) ([], e) cs = (replicate (length cs) 0, e') /\
    env e' = foldl (fun m c => env_abstract c m) (env e) cs.
Proof.
  intros H. assert (forall l, exists e', foldl (fun '(l, e) c => let '(r, e) := env_run c e in (l ++ [r], e)) (l, e) cs = (l ++ replicate (length cs) 0, e') /\
    env e' = foldl (fun m c => env_abstract c m) (env e) cs) as G; [|exact (G [])].
  revert e. induction H as [|c cs Hc Hcs IH]; intros e l; [exists e; cbn; by rewrite app_nil_r|]. destruct (env_run_ok c e Hc) as (e1 & E1 & M1).
  cbn [foldl]. rewrite E1. destruct (IH e1 (l ++ [0])) as (e2 & E2 & M2). exists e2. rewrite E2, M2, M1. cbn [length replicate]. by rewrite <- app_assoc.
Qed.
End EnvironFacts.

(** ** perror *)

Section PerrorFacts.
Context {K : Type} {KN : Kernel K} {FK : FileKernel K} {A : Allocator} {H : Heap} {PK : PathKernel K} {OK : OpenKernel K} {SH : StreamHeap}.
Context (h : Z) (file_of : K -> list Z * Z) {RF : RegularFile h file_of} (alloc_ok : forall n, malloc_ok n = true).
Implicit Types (x : io_state) (s : state K).

(** A stream that is written to. *)
Definition written (a : Z) (rd : bool) x s (v : view_of) : Prop :=
  exists f, streams x !! a = Some f /\ magic f = FILE_STREAM_MAGIC /\ full f /\ stream_rep h file_of rd true f s v.

Lemma fwrite_text a rd x s v text : a <> 0 -> written a rd x s v -> text <> [] -> zlen text < 2 ^ 31 -> offset v < 2 ^ 61 ->
  exists x' s', wlibc_fwrite (Some text) 1 (zlen text) a x s = Some ((zlen text, x'), s') /\ written a rd x' s' (view_write v text).
Proof.
  intros Ha (f & Hf & Hm & Hfull & Hrep) Hne Hl Ho. assert (0 < zlen text) as H0 by (destruct text; [done | cbn [length]; lia]).
  destruct (fwrite_refines h file_of alloc_ok rd true f s v text 1 (zlen text) Hrep) as (f' & s' & Hrun & Hrep' & Hfull' & _);
    [done|lia|lia|lia|lia|done|by apply full_roomy|].
  exists (with_streams x (<[a := f']> (streams x))), s'. split.
  - unfold wlibc_fwrite. rewrite Z.mul_1_l, u64_small, (proj2 (Z.eqb_neq (zlen text) 0)) by lia.
    unfold validate_file_stream. rewrite (proj2 (Z.eqb_neq a 0) Ha), (SM_bind_Some _ _ _ _ _ _ _ (deref_ok a f x s Hf)), Hm.
    change (negb (FILE_STREAM_MAGIC =? FILE_STREAM_MAGIC)) with false. cbv iota. by apply (update_stream_ok a _ x s f).
  - exists f'. split; [apply lookup_insert_eq|]. pose proof (fwrite_links text 1 (zlen text) f s _ s' Hrun) as Hlinks.
    injection Hlinks as Hmagic _ _. split; [by rewrite Hmagic|]. split; [by apply Hfull' | done].
Qed.

Lemma view_write_app v a b : 0 <= offset v -> view_write (view_write v a) b = view_write v (a ++ b).
Proof. intros Ho. unfold view_write. cbn [content offset eof]. rewrite splice_app, length_app by done. f_equal. lia. Qed.

Lemma strerror_length n : 0 < zlen (wlibc_common_strerror n) < 100.
Proof.
  unfold wlibc_common_strerror, switch_message. destruct (list_find _ _) as [[i c]|] eqn:E; [|by vm_compute].
  apply list_find_Some in E as (E & _). assert (Forall (fun c : Z * list Z => 0 < zlen c.2 < 100) strerror_cases) as F.
  { apply Forall_forall. intros d Hd. assert (forallb (fun c : Z * list Z => (0 <? zlen c.2) && (zlen c.2 <? 100)) strerror_cases = true) as T by (vm_compute; reflexivity).
    rewrite forallb_forall in T. apply list_elem_of_In, T in Hd. lia. }
  rewrite Forall_lookup in F. exact (F _ _ E).
Qed.

(** perror writes the message, a colon, a blank and the message of the error to
    the stream; the number is the one there is behind the first two writes. *)
Theorem perror_writes message rd x s v :
  let a := stderr x in
  a <> 0 -> written a rd x s v -> message <> [] -> zlen message < 2 ^ 30 -> 0 <= offset v < 2 ^ 60 ->
  exists x2 s2 x' s', (_ ← wlibc_fwrite (Some message) 1 (zlen message) a; wlibc_fwrite (Some (str ": ")) 1 2 a) x s = Some ((2, x2), s2) /\
    wlibc_perror (Some message) x s = Some (((), x'), s') /\
    written a rd x' s' (view_write v (message ++ str ": " ++ wlibc_common_strerror (errno s2))).
Proof.
  intros a Ha Hw Hne Hl Ho. pose proof Hw as (f & Hf & Hm & _).
  destruct (fwrite_text a rd x s v message Ha Hw Hne ltac:(lia) ltac:(lia)) as (x1 & s1 & E1 & W1).
  destruct (fwrite_text a rd x1 s1 _ (str ": ") Ha W1 ltac:(discriminate) ltac:(cbn; lia) ltac:(cbn; lia)) as (x2 & s2 & E2 & W2).
  pose proof (strerror_length (errno s2)) as Hlen.
  destruct (fwrite_text a rd x2 s2 _ (wlibc_common_strerror (errno s2)) Ha W2) as (x3 & s3 & E3 & W3); [intros E; rewrite E in Hlen; cbn in Hlen; lia | lia | cbn [view_write offset]; cbn [length str]; change (zlen (str ": ")) with 2; lia|].
  exists x2, s2, x3, s3. split; [by rewrite (SM_bind_Some _ _ _ _ _ _ _ E1)|]. split.
  - unfold wlibc_perror. rewrite (SM_bind_Some get_S _ x s x x s eq_refl). fold a. rewrite (proj2 (Z.eqb_neq a 0) Ha).
    rewrite (SM_bind_Some _ _ _ _ _ _ _ (deref_ok a f x s Hf)), Hm. change (negb (FILE_STREAM_MAGIC =? 1)) with false. cbv iota.
    rewrite (SM_bind_Some _ _ _ _ _ _ _ E1). change 2 with (zlen (str ": ")). rewrite (SM_bind_Some _ _ _ _ _ _ _ E2).
    rewrite (SM_bind_Some (run_M get) _ x2 s2 s2 x2 s2 eq_refl). change (get_message (errno s2)) with (wlibc_common_strerror (errno s2)). by rewrite (SM_bind_Some _ _ _ _ _ _ _ E3).
  - by rewrite !view_write_app in W3 by (cbn; lia).
Qed.
End PerrorFacts.

(** ** Instances *)

Module Plain.
Definition E : Type := gmap (list Z) (list Z).

#[export] Instance plain_environment : Environment E := { getenv n e := e !! n; putenv_s n v e := (0, put n v e) }.
#[export] Instance plain_variables : Variables (fun e : E => e).
Proof. split; [done|]. intros n v e _. by exists (put n v e). Qed.
End Plain.
Import Plain.

Lemma memrchr_finds_last_witness : exists r, wlibc_memrchr [97; 200; 97; 98] 97 4 = Some r /\
  match r with
  | Some i => 97 < 128 /\ 0 <= i < 4 /\ byte_at [97; 200; 97; 98] i = 97 /\ forall j, i < j < 4 -> byte_at [97; 200; 97; 98] j <> 97
  | None => 97 < 128 -> forall j, 0 <= j < 4 -> byte_at [97; 200; 97; 98] j <> 97
  end.
Proof. apply (memrchr_finds_last [97; 200; 97; 98] 97 4); [repeat constructor; lia | cbn; lia | lia]. Defined.

Lemma ffs_lowest_bit_witness : (-8 <> 0 -> 1 <= wlibc_ffs32 (-8) <= 32 /\ Z.testbit (-8) (wlibc_ffs32 (-8) - 1) = true /\ forall k, 0 <= k < wlibc_ffs32 (-8) - 1 -> Z.testbit (-8) k = false) /\
  wlibc_ffs32 (-8) = 4.
Proof. split; [|reflexivity]. apply (ffs_lowest_bit 32 (-8)); [by left | lia]. Defined.

Lemma wcswidth_sums_witness : wlibc_wcswidth ([97; 0x300; 98] ++ 0 :: [7]) 3 = Some (width_sum [97; 0x300; 98]) /\ wlibc_wcswidth [97; 0x300; 98] 3 = None.
Proof. apply (wcswidth_sums [97; 0x300; 98] [7] 3); [repeat constructor; discriminate | cbn; lia]. Defined.

Lemma strndup_copies_witness : wlibc_strndup (A := fun _ => true) (str "abc" ++ 0 :: [7]) 2 = Some (Some (str "ab" ++ [0]), None).
Proof. apply (strndup_copies (A := fun _ => true) (str "abc") [7] 2); [done | repeat constructor; discriminate | lia]. Defined.

Lemma environment_refines_witness : exists e', foldl (fun '(l, e) c => let '(r, e) := env_run c e in (l ++ [r], e)) ([], ∅)
    [Set_ (str "A") (str "x") false; Set_ (str "A") (str "y") false; Set_ (str "B") (str "z") true; Set_ (str "B") [] true] = ([0; 0; 0; 0], e') /\
  e' = {[str "A" := str "x"]}.
Proof.
  destruct (environment_refines (fun e : E => e) [Set_ (str "A") (str "x") false; Set_ (str "A") (str "y") false; Set_ (str "B") (str "z") true; Set_ (str "B") [] true] ∅) as (e' & H & M).
  - repeat constructor; try discriminate; (intros [Hx|[]]; discriminate Hx).
  - exists e'. split; [exact H|]. rewrite M. vm_compute. reflexivity.
Defined.

Import Disk Volume Willing Stream.Plenty.

Lemma perror_writes_witness : exists x2 s2 x' s',
  (_ ← wlibc_fwrite (Some (str "ls")) 1 2 1; wlibc_fwrite (Some (str ": ")) 1 2 1) (with_std one_stream 0 0 1) (process O_RDWR [65] 0) = Some ((2, x2), s2) /\
  wlibc_perror (Some (str "ls")) (with_std one_stream 0 0 1) (process O_RDWR [65] 0) = Some (((), x'), s') /\
  written 1 (fun d : disk => d) 1 true x' s' (View (splice [65] 0 (str "ls: " ++ wlibc_common_strerror (errno s2))) (0 + zlen (str "ls: " ++ wlibc_common_strerror (errno s2))) false).
Proof.
  apply (perror_writes 1 (fun d : disk => d) (fun _ => eq_refl) (str "ls") true (with_std one_stream 0 0 1) (process O_RDWR [65] 0) (View [65] 0 false)).
  - discriminate.
  - exists (File FILE_STREAM_MAGIC 3 0x411 0 None 512 0 0 0 0 0 0). split; [reflexivity|]. split; [reflexivity|]. split; [intros E; discriminate E|].
    apply (opened_stream_rep 1 (fun d : disk => d) 3 _IOBUFFER_RDWR); [auto | apply (process_file O_RDWR)].
  - discriminate.
  - cbn. lia.
  - cbn. lia.
Defined.
