(* ===== verification/Idle.v ===== *)
(** * An idle machine

    A kernel over any state whose calls succeed and change nothing: what the witnesses of
    a component take for the parts of the system it does not depend on. *)

From stdpp Require Import strings gmap.
From S2P Require Import Prelude Errno Buffer FdTable FileIo Path Open Dirent Security Time Stat.

Module Idle.
Section Idle.
Context {K : Type}.

#[export] Instance idle_kernel : Kernel K := {
  NtClose _ k := (STATUS_SUCCESS, k);
  NtDuplicateObject _ _ k := (STATUS_SUCCESS, 1, k);
  NtQueryDeviceType _ _ := Some FILE_DEVICE_DISK;
  NtQueryAttributes _ _ := Some 0;
  NtQueryAccess _ _ := None;
  NtOpenConsole _ k := (0, k);
  garbage _ := Fdinfo 0 INVALID_HANDLE 0 0
}.

#[export] Instance idle_paths : PathKernel K := {
  RtlUTF8StringToUnicodeString l _ := (STATUS_SUCCESS, l);
  RtlUnicodeStringToUTF8String l max :=
    match max with Some n => (if zlen l + 1 <=? n then STATUS_SUCCESS else STATUS_BUFFER_TOO_SMALL, l) | None => (STATUS_SUCCESS, l) end;
  CurrentDirectory _ := str "C:\Users\me\";
  NtOpenSymbolicLinkObject v k := (STATUS_SUCCESS, v, k);
  NtQuerySymbolicLinkObject _ _ := (STATUS_SUCCESS, str "\Device\HarddiskVolume3");
  NtQueryObjectName _ _ _ := (STATUS_SUCCESS, 0, str "\Device\HarddiskVolume3");
  QueryDosVolumePaths _ _ := (STATUS_SUCCESS, str "C:");
  NtOpenKeyEx _ _ := (STATUS_OBJECT_NAME_NOT_FOUND, 0);
  NtQueryValueKey _ _ _ _ := (STATUS_OBJECT_NAME_NOT_FOUND, 0, []);
  current_user_sid := []
}.

#[export] Instance idle_open : OpenKernel K := {
  NtCreateFile _ k := (STATUS_SUCCESS, 1, k);
  NtQueryTagInformation _ _ := (STATUS_SUCCESS, 0);
  NtQueryBasicInformation _ _ := STATUS_SUCCESS;
  NtSetLastAccessTime _ k := (STATUS_SUCCESS, k);
  rand_s k := (7, k)
}.

#[export] Instance idle_stat : StatKernel K := {
  NtQueryFsDevice _ _ := (STATUS_SUCCESS, FILE_DEVICE_DISK);
  NtQueryStatInformation _ _ := (STATUS_SUCCESS, StatInformation 7 0 0 0 0 0 0 0 1 0);
  NtQuerySecurityObject _ _ _ _ := (STATUS_SUCCESS, Descriptor (Some (Sid 1 5 [1001])) (Some (Sid 1 5 [513])) (Some []), 0);
  NtSetSecurityObject _ _ _ k := (STATUS_SUCCESS, k);
  NtGetReparsePoint _ _ := (STATUS_SUCCESS, ReparsePoint 0 [] []);
  NtQueryFsSize _ _ := (STATUS_SUCCESS, (512, 8));
  NtQueryFsVolume _ _ := (STATUS_SUCCESS, 99);
  NtQueryBasic _ _ := (STATUS_SUCCESS, BasicInformation 0 0 0 0 0);
  NtSetBasic _ _ k := (STATUS_SUCCESS, k);
  GetSystemTimeAsFileTime _ := 0;
  LookupAccountSidW _ _ := false;
  RtlAcquirePrivilege k := (STATUS_SUCCESS, k);
  RtlReleasePrivilege k := k
}.

#[export] Instance idle_files : FileKernel K := {
  NtReadFile _ _ _ k := (STATUS_SUCCESS, [], k);
  NtWriteFile _ bs _ k := (STATUS_SUCCESS, zlen bs, k);
  NtQueryPosition _ _ := (STATUS_SUCCESS, 0);
  NtQueryEndOfFile _ _ := (STATUS_SUCCESS, 0);
  NtSetPosition _ _ k := (STATUS_SUCCESS, k)
}.
End Idle.

#[export] Instance ample : Allocator := fun _ => true.

(** A process with the handle 1 under the descriptor 3. *)
Definition process {K : Type} (t : handle_t) (k : K) : state K :=
  State [Fdinfo 0 INVALID_HANDLE 0 0; Fdinfo 0 INVALID_HANDLE 0 0; Fdinfo 0 INVALID_HANDLE 0 0; Fdinfo 1 t O_RDWR 1] 2 0 0 0 0 k.

Definition user : security := Security NTSYSTEM ADMINISTRATORS USERS EVERYONE (Sid 1 5 [21; 1; 2; 3; 1001]) (Sid 1 5 [21; 1; 2; 3; 513]) (Sid 1 5 [21; 1; 2; 3]) 1001 513 ∅.

(** What the process knows of users and paths when it starts. *)
Definition start : security * path_state := (user, initial_paths).
End Idle.
