(* ===== verification/Statfs.v ===== *)
(** * File systems

    statfs (src/sys/statfs/statfs.c), statvfs (src/sys/statvfs/statvfs.c) and getmntinfo
    (src/sys/mount/getmntinfo.c), and what they promise: statfs and statvfs tell the same
    of a file system, a disk volume is named by its device and its letter, and getmntinfo
    lists the drives that can be opened. *)

From stdpp Require Import strings gmap.
From S2P Require Import Prelude Errno Buffer FdTable FdTableFacts FileIo Path PathFacts PathSpec Open OpenSpec Dirent Security Time Stat Idle.

Definition MFSTYPENAMELEN : Z := 16.
Definition VFSTYPENAMELEN : Z := 16.
Definition MNAMELEN : Z := 256.
Definition MAXPATHLEN : Z := 32768.

Definition MNT_RDONLY : Z := 0x00000001.
Definition MNT_NOSUID : Z := 0x00000002.
Definition MNT_SYNCHRONOUS : Z := 0x00000010.
Definition MNT_STRICTTIME : Z := 0x00000200.
Definition MNT_ASYNC : Z := 0x00000800.
Definition MNT_QUOTA : Z := 0x00001000.
Definition MNT_JOURNALED : Z := 0x00002000.

Definition ST_RDONLY : Z := 0x0001.
Definition ST_NOSUID : Z := 0x0002.
Definition ST_SYNCHRONOUS : Z := 0x0010.
Definition ST_MANDLOCK : Z := 0x4000.

Definition UNKNOWN_FS : Z := 0.
Definition FAT32_FS : Z := 1.
Definition EXFAT_FS : Z := 2.
Definition NTFS_FS : Z := 3.
Definition HPFS_FS : Z := 4.
Definition REFS_FS : Z := 5.

(** Attributes of file systems (winnt.h). *)
Definition FILE_VOLUME_QUOTAS : Z := 0x00000020.
Definition FILE_READ_ONLY_VOLUME : Z := 0x00080000.
Definition FILE_SUPPORTS_USN_JOURNAL : Z := 0x02000000.

(** [FILE_FS_FULL_SIZE_INFORMATION] and [FILE_FS_ATTRIBUTE_INFORMATION]. *)
Record full_size := FullSize { TotalAllocationUnits : Z; CallerAvailableAllocationUnits : Z; ActualAvailableAllocationUnits : Z; SectorsPerAllocationUnit : Z; BytesPerSector : Z }.
Record fs_attributes := FsAttributes { FileSystemAttributes : Z; FileSystemName : list Z }.

(** [MOUNTMGR_MOUNT_POINT]: offsets and lengths are in bytes, from the start of the block. *)
Record mount_point := MountPoint { SymbolicLinkNameOffset : Z; DeviceNameOffset : Z; DeviceNameLength : Z }.

(** [MOUNTMGR_MOUNT_POINTS]: the size it needs, the points and the block as code units. *)
Record mount_points := MountPoints { mp_Size : Z; mp_points : list mount_point; mp_block : list Z }.

(** What is known of the file system of a handle; the mount manager fills a block of the
    given size. *)
Class FsKernel (K : Type) := {
  NtQueryFsFullSize : Z -> K -> NTSTATUS * full_size;
  NtQueryFsSectorSize : Z -> K -> NTSTATUS * Z;
  NtQueryFsAttribute : Z -> K -> NTSTATUS * fs_attributes;
  NtQueryMountPoints : Z -> Z -> K -> NTSTATUS * mount_points
}.

(** [struct statfs]. The arrays of characters are given up to where they are filled; the
    rest is zero. *)
Record statfs := Statfs {
  f_type : Z; f_fssubtype : Z; f_bsize : Z; f_iosize : Z;
  f_blocks : Z; f_bfree : Z; f_bavail : Z; f_files : Z; f_ffree : Z; f_favail : Z;
  f_owner : Z; f_fsid : Z * Z; f_flag : Z; f_namemax : Z;
  f_fstypename : list Z; f_mntfromname : list Z; f_mntonname : list Z
}.

(** [struct statvfs]; the name of the type is an array of 16 bytes that need not be zero. *)
Record statvfs := Statvfs {
  v_type : Z; v_bsize : Z; v_frsize : Z;
  v_blocks : Z; v_bfree : Z; v_bavail : Z; v_files : Z; v_ffree : Z; v_favail : Z;
  v_fsid : Z; v_flag : Z; v_namemax : Z; v_fstypename : list Z
}.

(** ** Flags and types *)

(** The bit of a journal is set in the attributes, which are not used any more. *)
Definition get_fs_flags (attributes : Z) : Z :=
  let flags := Z.lor MNT_NOSUID (Z.lor MNT_STRICTTIME (Z.lor MNT_ASYNC MNT_SYNCHRONOUS)) in
  let flags := if has attributes FILE_READ_ONLY_VOLUME then Z.lor flags MNT_RDONLY else flags in
  let flags := if has attributes FILE_VOLUME_QUOTAS then Z.lor flags MNT_QUOTA else flags in
  let attributes := if has attributes FILE_SUPPORTS_USN_JOURNAL then Z.lor attributes MNT_JOURNALED else attributes in
  flags.

Definition get_vfs_flags (attributes : Z) : Z :=
  let flags := Z.lor ST_NOSUID (Z.lor ST_SYNCHRONOUS ST_MANDLOCK) in
  if has attributes FILE_READ_ONLY_VOLUME then Z.lor flags ST_RDONLY else flags.

(** [name] is an array: the text ends at its first NUL. A comparison stops at the first
    difference, at the latest at the end of the shorter text. *)
Definition get_fs_type (name : list Z) : Z :=
  let name := c_string name in
  if iequal name (str "NTFS") then NTFS_FS
  else if iequal name (str "FAT32") then FAT32_FS
  else if iequal name (str "EXFAT") then EXFAT_FS
  else if iequal name (str "HPFS") then HPFS_FS
  else if iequal name (str "REFS") then REFS_FS
  else UNKNOWN_FS.

(** What a conversion leaves in an array of [n] bytes: the text and, if there is room, a
    NUL; behind it the array is as it was. *)
Definition store_name (n : Z) (text old : list Z) : list Z :=
  let t := take (Z.to_nat n) text in
  take (Z.to_nat n) (t ++ 0 :: drop (length t + 1) old).

(** The device up to the second slash, from behind [\Device\HarddiskVolume]. *)
Fixpoint device_rest (l : list Z) : list Z :=
  match l with [] => [] | c :: l => if (c =? 0) || (c =? 92) then [] else u8 c :: device_rest l end.

Section Statfs.
Context {K : Type} {KN : Kernel K} {A : Allocator} {PK : PathKernel K} {OK : OpenKernel K} {SK : StatKernel K} {FS : FsKernel K}.

Abbreviation P := (SM path_state K).

(** [memset], and the fields that do not depend on the file system. *)
Definition empty_statfs : statfs :=
  Statfs 0 0 0 0 0 0 0 (u64 (-1)) (u64 (-1)) (u64 (-1)) 0 (0, 0) 0 MAXPATHLEN [] [] [].

Definition with_sizes (i : full_size) (b : statfs) : statfs :=
  Statfs (f_type b) (f_fssubtype b) (u32 (BytesPerSector i * SectorsPerAllocationUnit i)) (f_iosize b)
    (u64 (TotalAllocationUnits i)) (u64 (ActualAvailableAllocationUnits i)) (u64 (CallerAvailableAllocationUnits i))
    (f_files b) (f_ffree b) (f_favail b) (f_owner b) (f_fsid b) (f_flag b) (f_namemax b) (f_fstypename b) (f_mntfromname b) (f_mntonname b).
Definition with_iosize (n : Z) (b : statfs) : statfs :=
  Statfs (f_type b) (f_fssubtype b) (f_bsize b) n (f_blocks b) (f_bfree b) (f_bavail b) (f_files b) (f_ffree b) (f_favail b)
    (f_owner b) (f_fsid b) (f_flag b) (f_namemax b) (f_fstypename b) (f_mntfromname b) (f_mntonname b).
Definition with_kind (type flag : Z) (name : list Z) (b : statfs) : statfs :=
  Statfs type 0 (f_bsize b) (f_iosize b) (f_blocks b) (f_bfree b) (f_bavail b) (f_files b) (f_ffree b) (f_favail b)
    (f_owner b) (f_fsid b) flag (f_namemax b) name (f_mntfromname b) (f_mntonname b).
Definition with_fsid (id : Z * Z) (b : statfs) : statfs :=
  Statfs (f_type b) (f_fssubtype b) (f_bsize b) (f_iosize b) (f_blocks b) (f_bfree b) (f_bavail b) (f_files b) (f_ffree b) (f_favail b)
    (f_owner b) id (f_flag b) (f_namemax b) (f_fstypename b) (f_mntfromname b) (f_mntonname b).
Definition with_mount (from on : list Z) (b : statfs) : statfs :=
  Statfs (f_type b) (f_fssubtype b) (f_bsize b) (f_iosize b) (f_blocks b) (f_bfree b) (f_bavail b) (f_files b) (f_ffree b) (f_favail b)
    (f_owner b) (f_fsid b) (f_flag b) (f_namemax b) (f_fstypename b) from on.

(** [map_ntstatus_to_errno(status); return -1;] *)
Definition fs_fail {X} (status : NTSTATUS) (b : X) : P (Z * X) := _ ← fail_with status; mret (-1, b).

(** The array of the type, which is zero. *)
Definition type_name (i : fs_attributes) : list Z :=
  if 0 <? zlen (FileSystemName i) then
    store_name MFSTYPENAMELEN (RtlUnicodeStringToUTF8String (FileSystemName i) (Some MFSTYPENAMELEN)).2 (replicate 16 0)
  else replicate 16 0.

(** The names of a volume: the path of the handle is read from its 22nd unit on. The
    loop has no bound: it must end in the array. *)
Definition mount_names (h : Z) (b : statfs) : P (Z * statfs) :=
  ntpath ← get_handle_ntpath h;
  match ntpath with
  | None => mret (-1, b)
  | Some ntpath =>
      if zlen ntpath <? 22 then run_M UB
      else
        let from := str "\Device\HarddiskVolume" ++ device_rest (drop 22 ntpath) in
        if MNAMELEN <? zlen from then run_M UB
        else
          dospath ← ntpath_to_dospath ntpath;
          match dospath with
          | None => mret (-1, with_mount from [] b)
          | Some dospath => mret (0, with_mount from [u8 (byte_at dospath 0); ch ":"] b)
          end
  end.

(** The result, and what is stored. *)
Definition do_statfs (h : Z) : P (Z * statfs) :=
  let b := empty_statfs in
  k ← kernel_S;
  let '(status, fs_info) := NtQueryFsFullSize h k in
  if negb (ok status) then fs_fail status b
  else
    let b := with_sizes fs_info b in
    let '(status, sector) := NtQueryFsSectorSize h k in
    if negb (ok status) then fs_fail status b
    else
      let b := with_iosize sector b in
      let '(status, i) := NtQueryFsAttribute h k in
      if negb (ok status) then fs_fail status b
      else
        let b := with_kind (get_fs_type (type_name i)) (get_fs_flags (FileSystemAttributes i)) (c_string (type_name i)) b in
        let '(status, serial) := NtQueryFsVolume h k in
        if negb (ok status) then fs_fail status b
        else mount_names h (with_fsid (u16 (Z.shiftr serial 16), u16 serial) b).

(** By descriptor or by path. [t0] and [info] are what variables hold that are not
    initialised; a null pointer to a path is followed if the descriptor is below -1. *)
Definition at_fs {X} (t0 : handle_t) (info : fdinfo) (fd : Z) (path : option (list Z)) (f : Z -> P (Z * X)) : P (Z * option X) :=
  let fail e := _ ← run_M (set_errno e); mret (-1, None) in
  if ((fd =? -1) && bool_decide (path = None)) || ((fd >? -1) && bool_decide (default [] path <> [])) then fail EINVAL
  else if fd >? -1 then
    i ← run_M (get_fdinfo fd info);
    if negb (bool_decide (type i = FILE_HANDLE)) && negb (bool_decide (type i = DIRECTORY_HANDLE)) then fail EBADF
    else '(r, b) ← f (handle i); mret (r, Some b)
  else
    match path with
    | None => run_M UB
    | Some path =>
        h ← just_open t0 AT_FDCWD path FILE_READ_ATTRIBUTES 0;
        if h =? 0 then mret (-1, None)
        else
          '(r, b) ← f h;
          k ← kernel_S;
          _ ← run_M (set_kernel (NtClose h k).2);
          mret (r, Some b)
    end.

(** [statfsbuf] says whether there is a buffer. *)
Definition wlibc_common_statfs (t0 : handle_t) (info : fdinfo) (fd : Z) (path : option (list Z)) (statfsbuf : bool) : P (Z * option statfs) :=
  if negb statfsbuf then _ ← run_M (set_errno EINVAL); mret (-1, None)
  else at_fs t0 info fd path do_statfs.

(** ** statvfs *)

(** [old] is what the caller's structure holds: the name of the type is not cleared. *)
Definition do_statvfs (old : statvfs) (h : Z) : P (Z * statvfs) :=
  let none := u64 (-1) in
  k ← kernel_S;
  let '(status, i) := NtQueryFsFullSize h k in
  if negb (ok status) then
    fs_fail status (Statvfs (v_type old) (v_bsize old) (v_frsize old) (v_blocks old) (v_bfree old) (v_bavail old) none none none
                      (v_fsid old) (v_flag old) 32768 (v_fstypename old))
  else
    let bsize := u32 (BytesPerSector i * SectorsPerAllocationUnit i) in
    let blocks := u64 (TotalAllocationUnits i) in
    let bfree := u64 (ActualAvailableAllocationUnits i) in
    let bavail := u64 (CallerAvailableAllocationUnits i) in
    let '(status, i) := NtQueryFsAttribute h k in
    if negb (ok status) then
      fs_fail status (Statvfs (v_type old) bsize bsize blocks bfree bavail none none none (v_fsid old) (v_flag old) 32768 (v_fstypename old))
    else
      let name := if 0 <? zlen (FileSystemName i) then
                    store_name VFSTYPENAMELEN (RtlUnicodeStringToUTF8String (FileSystemName i) (Some VFSTYPENAMELEN)).2 (v_fstypename old)
                  else v_fstypename old in
      let flag := get_vfs_flags (FileSystemAttributes i) in
      let '(status, serial) := NtQueryFsVolume h k in
      if negb (ok status) then fs_fail status (Statvfs (get_fs_type name) bsize bsize blocks bfree bavail none none none (v_fsid old) flag 32768 name)
      else mret (0, Statvfs (get_fs_type name) bsize bsize blocks bfree bavail none none none serial flag 32768 name).

Definition wlibc_common_statvfs (t0 : handle_t) (info : fdinfo) (fd : Z) (path : option (list Z)) (statvfsbuf : option statvfs) : P (Z * option statvfs) :=
  match statvfsbuf with
  | None => _ ← run_M (set_errno EINVAL); mret (-1, None)
  | Some old => at_fs t0 info fd path (do_statvfs old)
  end.

(** ** Mount points *)

Definition open_mountmgr : P Z :=
  '(_, h) ← create_file (CreateArgs None (str "\Device\MountPointManager") false None SYNCHRONIZE 0 FILE_OPEN 0); mret h.

(** The units of a block from a byte on; at least [n] of them. *)
Definition block_at (block : list Z) (offset n : Z) : option (list Z) :=
  let l := drop (Z.to_nat (offset / 2)) block in
  if zlen l <? n then None else Some l.

(** The points that stand for drives. *)
Fixpoint find_drives (block : list Z) (l : list mount_point) : option (list bool) :=
  match l with
  | [] => Some []
  | m :: l =>
      name ← block_at block (SymbolicLinkNameOffset m) 12;
      rest ← find_drives block l;
      Some (starts_with name (str "\DosDevices\") :: rest)
  end.

(** The name of a device with the unit behind it. [Length] has 16 bits. *)
Definition drive_path (block : list Z) (m : mount_point) : option (list Z) :=
  let length := u16 (DeviceNameLength m + 2) / 2 in
  l ← block_at block (DeviceNameOffset m) length;
  Some (take (Z.to_nat length) l).

(** What is stored for the drives, in order; errors are ignored. *)
Fixpoint stat_drives (block : list Z) (l : list (mount_point * bool)) : P (list statfs) :=
  match l with
  | [] => mret []
  | (m, true) :: l =>
      path ← defined (drive_path block m);
      h ← just_open2 path FILE_READ_ATTRIBUTES 0;
      if negb (h =? 0) then
        '(_, b) ← do_statfs h;
        k ← kernel_S;
        _ ← run_M (set_kernel (NtClose h k).2);
        bs ← stat_drives block l;
        mret (b :: bs)
      else stat_drives block l
  | (_, false) :: l => stat_drives block l
  end.

Definition sizeof_statfs : Z := 616.

(** [roundup(x, 4096)] on 32 bits. *)
Definition roundup_4096 (x : Z) : Z := u32 (u32 (x + 4095) / 4096 * 4096).

(** The points, or [None] for an error. *)
Definition query_points (mountmgr : Z) : P (option (NTSTATUS * mount_points)) :=
  if malloc_ok 4096 then
    k ← kernel_S;
    let '(status, m) := NtQueryMountPoints mountmgr 4096 k in
    if bool_decide (status = STATUS_BUFFER_OVERFLOW) then
      let required_size := roundup_4096 (mp_Size m) in
      if malloc_ok required_size then mret (Some (NtQueryMountPoints mountmgr required_size k))
      else _ ← run_M (set_errno ENOMEM); mret None
    else mret (Some (status, m))
  else _ ← run_M (set_errno ENOMEM); mret None.

Definition close_mountmgr (h : Z) : P unit := k ← kernel_S; run_M (set_kernel (NtClose h k).2).

(** The count, and the list when one is stored. The structure is that of the labels: an
    error after the manager is opened gives 0, a lack of memory leaves it open. *)
Definition wlibc_getmntinfo (mounts : bool) : P (Z * option (list statfs)) :=
  if negb mounts then _ ← run_M (set_errno EINVAL); mret (-1, None)
  else
    mountmgr ← open_mountmgr;
    if mountmgr =? 0 then mret (-1, None)
    else
      q ← query_points mountmgr;
      match q with
      | None => mret (-1, None)
      | Some (status, m) =>
          if negb (ok status) then _ ← fail_with status; _ ← close_mountmgr mountmgr; mret (0, None)
          else
            drives ← defined (find_drives (mp_block m) (mp_points m));
            let drive_count := zlen (filter (eq true) drives) in
            if malloc_ok (sizeof_statfs * drive_count) then
              bs ← stat_drives (mp_block m) (zip (mp_points m) drives);
              _ ← close_mountmgr mountmgr;
              mret (zlen bs, Some bs)
            else _ ← run_M (set_errno ENOMEM); mret (-1, None)
      end.
End Statfs.

(** ** What they promise *)

(** no file system is reported to have a journal. *)
Theorem journal_never_reported (attributes : Z) : has (get_fs_flags attributes) MNT_JOURNALED = false.
Proof. unfold get_fs_flags. by destruct (has attributes FILE_READ_ONLY_VOLUME), (has attributes FILE_VOLUME_QUOTAS). Qed.

Lemma c_string_nul a b : c_string (a ++ 0 :: b) = c_string a.
Proof. induction a as [|c a IH]; [done|]. cbn [app c_string]. destruct (c =? 0); [done|]. by rewrite IH. Qed.

(** The text does not depend on what the array held. *)
Lemma c_string_stored n text old : c_string (store_name n text old) = c_string (take (Z.to_nat n) text).
Proof.
  unfold store_name. set (t := take (Z.to_nat n) text). assert (length t <= Z.to_nat n)%nat by (unfold t; rewrite length_take; lia).
  destruct (decide (length t = Z.to_nat n)) as [E|]; [by rewrite take_app_length' by done|].
  rewrite take_app_ge by lia. destruct (Z.to_nat n - length t)%nat as [|m] eqn:Em; [lia|]. cbn [take]. apply c_string_nul.
Qed.

Lemma fs_type_text a b : c_string a = c_string b -> get_fs_type a = get_fs_type b.
Proof. unfold get_fs_type. by intros ->. Qed.

Lemma device_rest_digits ds rest : digits ds -> (rest = [] \/ exists r, rest = 92 :: r) -> device_rest (ds ++ rest) = ds.
Proof.
  intros Hd Hr. induction ds as [|c ds IH]; [by destruct Hr as [->|[r ->]]|]. apply Forall_cons in Hd as [Hc Hd]. cbn [app device_rest].
  rewrite (proj2 (Z.eqb_neq c 0)), (proj2 (Z.eqb_neq c 92)), IH by (done || lia). cbn [orb]. by rewrite (wrap_small 8) by lia.
Qed.

Ltac queried := rewrite (SM_bind_Some kernel_S _ _ _ _ _ _ eq_refl).
Ltac succeeded := change (ok STATUS_SUCCESS) with true; cbn [negb].

Section Facts.
Context {K : Type} {KN : Kernel K} {A : Allocator} {PK : PathKernel K} {OK : OpenKernel K} {SK : StatKernel K} {FS : FsKernel K}.
Context (alloc_ok : forall n, malloc_ok n = true).
Implicit Types (p : path_state) (s : state K).

(** What the kernel tells of the file system of a handle. *)
Record fs_facts := FsFacts { fact_size : full_size; fact_sector : Z; fact_attributes : fs_attributes; fact_serial : Z }.

Definition known_fs (h : Z) (x : fs_facts) (k : K) : Prop :=
  NtQueryFsFullSize h k = (STATUS_SUCCESS, fact_size x) /\ NtQueryFsSectorSize h k = (STATUS_SUCCESS, fact_sector x) /\
  NtQueryFsAttribute h k = (STATUS_SUCCESS, fact_attributes x) /\ NtQueryFsVolume h k = (STATUS_SUCCESS, fact_serial x).

(** The structure before the names of the volume are entered. *)
Definition unnamed (x : fs_facts) : statfs :=
  with_fsid (u16 (Z.shiftr (fact_serial x) 16), u16 (fact_serial x))
    (with_kind (get_fs_type (type_name (K := K) (fact_attributes x))) (get_fs_flags (FileSystemAttributes (fact_attributes x))) (c_string (type_name (K := K) (fact_attributes x)))
       (with_iosize (fact_sector x) (with_sizes (fact_size x) empty_statfs))).

Lemma do_statfs_known h x p s : known_fs h x (kernel s) -> do_statfs h p s = mount_names h (unnamed x) p s.
Proof. intros (E1 & E2 & E3 & E4). unfold do_statfs. queried. rewrite E1. succeeded. rewrite E2. succeeded. rewrite E3. succeeded. rewrite E4. by succeeded. Qed.

(** The names only change themselves. *)
Lemma mount_names_rest h b p s r b' p' s' : mount_names h b p s = Some (((r, b'), p'), s') -> b' = with_mount (f_mntfromname b') (f_mntonname b') b.
Proof.
  unfold mount_names, mbind at 1, SM_bind at 1, mbind at 1, M_bind at 1. destruct (get_handle_ntpath h p s) as [[[[nt|] p1] s1]|]; [| |done].
  - destruct (zlen nt <? 22); [done|]. cbv zeta. destruct (MNAMELEN <? _); [done|]. unfold mbind at 1, SM_bind at 1, mbind at 1, M_bind at 1.
    destruct (ntpath_to_dospath nt p1 s1) as [[[[d|] p2] s2]|]; [| |done]; by intros [= <- <- <- <-].
  - intros [= <- <- <- <-]. by destruct b.
Qed.

(** statfs and statvfs, whatever the structure held, tell the same: the sizes, the
    identifier, whether it is read only, and the type if it has a name. *)
Theorem statfs_statvfs_agree (old : statvfs) (h : Z) (x : fs_facts) p s b p' s'
    (Hx : known_fs h x (kernel s)) (Hserial : 0 <= fact_serial x < 2 ^ 32) (Hb : do_statfs h p s = Some (((0, b), p'), s')) :
  exists v, do_statvfs old h p s = Some (((0, v), p), s) /\
    (v_bsize v = f_bsize b /\ v_frsize v = f_bsize b) /\
    (v_blocks v, v_bfree v, v_bavail v) = (f_blocks b, f_bfree b, f_bavail b) /\
    (v_files v, v_ffree v, v_favail v) = (f_files b, f_ffree b, f_favail b) /\
    v_namemax v = f_namemax b /\ v_fsid v = (f_fsid b).1 * 65536 + (f_fsid b).2 /\
    has (v_flag v) ST_RDONLY = has (f_flag b) MNT_RDONLY /\
    (FileSystemName (fact_attributes x) <> [] -> v_type v = f_type b /\ c_string (v_fstypename v) = f_fstypename b).
Proof.
  rewrite (do_statfs_known h x p s Hx) in Hb. apply mount_names_rest in Hb. rewrite Hb. clear Hb. destruct Hx as (E1 & E2 & E3 & E4).
  eexists. split. { unfold do_statvfs. queried. rewrite E1. succeeded. rewrite E3. succeeded. rewrite E4. succeeded. reflexivity. }
  cbn. do 4 (split; [done|]). split.
  { rewrite Z.shiftr_div_pow2 by lia. rewrite (wrap_small 16) by (split; [apply Z.div_pos | apply Z.div_lt_upper_bound]; lia). unfold wrap.
    pose proof (Z.div_mod (fact_serial x) (2 ^ 16)). change (2 ^ 16) with 65536 in *. lia. }
  split. { unfold get_vfs_flags, get_fs_flags. by destruct (has _ FILE_READ_ONLY_VOLUME), (has _ FILE_VOLUME_QUOTAS). }
  intros Hn. unfold type_name. destruct (FileSystemName (fact_attributes x)) as [|c l]; [done|].
  change (0 <? zlen (c :: l)) with true. cbv iota. split; [apply fs_type_text|]; by rewrite !c_string_stored.
Qed.

(** ** Volumes *)

Context (label_of : Z -> Z) {MM : MountManager K label_of}.

(** What is told of a volume. *)
Definition volume_stat (ds : list Z) (x : fs_facts) : statfs := with_mount (volume_name ds) [label_of (volume_number ds); ch ":"] (unnamed x).

Definition disk_volume (ds : list Z) : Prop := digits ds /\ zlen ds <= 9 /\ volume_number ds <> 2 ^ 32 - 1.

(** a file on a disk volume is told to be on its device and its letter, from whatever
    coherent state of the cache of letters. *)
Theorem statfs_volume (h n : Z) (ds rest : list Z) (x : fs_facts) p s
    (Hds : disk_volume ds) (Hrest : rest = [] \/ exists r, rest = 92 :: r) (Hx : known_fs h x (kernel s))
    (Hname : NtQueryObjectName h 1024 (kernel s) = (STATUS_SUCCESS, n, volume_name ds ++ rest)) (Hp : labels_ok label_of p) :
  exists c, let p' := with_dos_cache p c in do_statfs h p s = Some (((0, volume_stat ds x), p'), s) /\ labels_ok label_of p'.
Proof.
  rewrite (do_statfs_known h x p s Hx). destruct Hds as (Hd & Hl & Hn). destruct (ntpath_dospath label_of alloc_ok ds rest p s Hd Hl Hn Hp Hrest) as (c & Hdos & Hok).
  exists c. split; [|done]. unfold mount_names.
  assert (get_handle_ntpath h p s = Some ((Some (volume_name ds ++ rest), p), s)) as E.
  { unfold get_handle_ntpath, allocate. rewrite alloc_ok, (SM_bind_Some system _ p s (kernel s) p s eq_refl), Hname. by rewrite !bool_decide_eq_false_2 by done. }
  rewrite (SM_bind_Some _ _ _ _ _ _ _ E). assert (zlen (volume_name ds) = 22 + zlen ds) as Hz by (unfold volume_name; rewrite length_app; change (length (str "\Device\HarddiskVolume")) with 22%nat; lia).
  rewrite (proj2 (Z.ltb_ge _ 22)) by (rewrite length_app; lia).
  replace (device_rest (drop 22 (volume_name ds ++ rest))) with ds by (unfold volume_name; rewrite <- app_assoc, drop_app_length' by done; by rewrite device_rest_digits).
  fold (volume_name ds). cbv zeta. unfold MNAMELEN. rewrite (proj2 (Z.ltb_ge 256 _)) by lia. rewrite (SM_bind_Some _ _ _ _ _ _ _ Hdos).
  change (byte_at (label_of (volume_number ds) :: ch ":" :: rest) 0) with (label_of (volume_number ds)). pose proof (mm_letter (volume_number ds)). by rewrite (wrap_small 8) by lia.
Qed.
(** ** Drives *)

(** The handle each volume is opened with, if it can be opened, and what is known of it;
    [J] holds of the kernel throughout. *)
Class Drives (J : K -> Prop) (handle_of : list Z -> option Z) (facts_of : list Z -> fs_facts) : Prop := {
  drive_open ds k : J k ->
    match handle_of ds with
    | Some h => h <> 0 /\ exists k', NtCreateFile (CreateArgs None (volume_name ds ++ [92]) false None FILE_READ_ATTRIBUTES 0 FILE_OPEN 0) k = (STATUS_SUCCESS, h, k') /\ J k'
    | None => exists status h k', NtCreateFile (CreateArgs None (volume_name ds ++ [92]) false None FILE_READ_ATTRIBUTES 0 FILE_OPEN 0) k = (status, h, k') /\
                status <> STATUS_SUCCESS /\ status <> STATUS_OBJECT_NAME_INVALID /\ J k'
    end;
  drive_facts ds h k : J k -> handle_of ds = Some h ->
    known_fs h (facts_of ds) k /\ exists n, NtQueryObjectName h 1024 k = (STATUS_SUCCESS, n, volume_name ds ++ [92]);
  drive_close h k : J k -> J (NtClose h k).2
}.

(** The points of a block: each has the name of a device, a slash behind it, and a link. *)
Definition laid_out (block : list Z) (m : mount_point) (d : list Z * list Z) : Prop :=
  (exists rest, drop (Z.to_nat (DeviceNameOffset m / 2)) block = volume_name d.1 ++ 92 :: rest) /\
  DeviceNameLength m = 2 * zlen (volume_name d.1) /\
  (exists rest, drop (Z.to_nat (SymbolicLinkNameOffset m / 2)) block = d.2 ++ rest) /\ 12 <= zlen d.2 /\ disk_volume d.1.

Definition is_drive (d : list Z * list Z) : bool := starts_with d.2 (str "\DosDevices\").

(** What is told of the drives among the points that can be opened. *)
Definition drive_stats (handle_of : list Z -> option Z) (facts_of : list Z -> fs_facts) (l : list (list Z * list Z)) : list statfs :=
  (fun d => volume_stat d.1 (facts_of d.1)) <$> filter (fun d => is_drive d = true /\ is_Some (handle_of d.1)) l.

Lemma find_drives_ok block ms l : Forall2 (laid_out block) ms l -> find_drives block ms = Some (is_drive <$> l).
Proof.
  induction 1 as [|m d ms l (_ & _ & (r & Hr) & H12 & _) _ IH]; [done|]. cbn [find_drives fmap list_fmap]. unfold block_at. rewrite Hr.
  rewrite (proj2 (Z.ltb_ge _ 12)) by (rewrite length_app; lia). cbn [mbind option_bind]. rewrite IH. cbn [mbind option_bind].
  unfold is_drive, starts_with. change (length (str "\DosDevices\")) with 12%nat. by rewrite take_app_le by lia.
Qed.

Lemma drive_path_ok block m d : laid_out block m d -> drive_path block m = Some (volume_name d.1 ++ [92]).
Proof.
  intros ((r & Hr) & Hl & _ & _ & _ & Hd & _). unfold drive_path, block_at. rewrite Hr, Hl.
  assert (zlen (volume_name d.1) = 22 + zlen d.1) as Hz by (unfold volume_name; rewrite length_app; change (length (str "\Device\HarddiskVolume")) with 22%nat; lia).
  rewrite (wrap_small 16) by lia. replace ((2 * zlen (volume_name d.1) + 2) / 2) with (zlen (volume_name d.1) + 1) by (Z.to_euclidean_division_equations; lia).
  cbv zeta. rewrite (proj2 (Z.ltb_ge _ _)) by (rewrite length_app; cbn [length]; lia). cbn [mbind option_bind]. f_equal.
  change (92 :: r) with ([92] ++ r). rewrite app_assoc. apply take_app_length'. rewrite length_app. cbn [length]. lia.
Qed.

Section Drives.
Context (J : K -> Prop) (handle_of : list Z -> option Z) (facts_of : list Z -> fs_facts) {DR : Drives J handle_of facts_of}.

Lemma open_refused a p s status h k : NtCreateFile a (kernel s) = (status, h, k) -> status <> STATUS_SUCCESS -> status <> STATUS_OBJECT_NAME_INVALID ->
  really_do_open a p s = Some ((0, p), with_kernel (with_errno s (map_ntstatus_to_errno status (errno s))) k).
Proof.
  intros E H1 H2. unfold really_do_open.
  assert (create_file a p s = Some (((status, 0), p), with_kernel s k)) as Ec.
  { unfold create_file. rewrite (SM_bind_Some system _ p s (kernel s) p s eq_refl), E. by rewrite bool_decide_eq_false_2. }
  rewrite (SM_bind_Some _ _ _ _ _ _ _ Ec). by rewrite !bool_decide_eq_false_2.
Qed.

Lemma stat_drives_ok block ms l : Forall2 (laid_out block) ms l -> forall p s, J (kernel s) -> labels_ok label_of p ->
  exists p' s', stat_drives block (zip ms (is_drive <$> l)) p s = Some ((drive_stats handle_of facts_of l, p'), s') /\ J (kernel s') /\ labels_ok label_of p'.
Proof.
  induction 1 as [|m d ms l Hm _ IH]; intros p s HJ Hp; [by exists p, s|]. cbn [zip zip_with fmap list_fmap stat_drives]. unfold drive_stats.
  destruct (is_drive d) eqn:Ed; cycle 1.
  { rewrite filter_cons_False by (by intros [? _]; congruence). by apply IH. }
  rewrite (drive_path_ok block m d Hm), (SM_bind_Some (defined (Some (volume_name d.1 ++ [92]))) _ p s _ p s eq_refl).
  pose proof (drive_open (J := J) d.1 (kernel s) HJ) as Ho. destruct (handle_of d.1) as [h|] eqn:Eh.
  - destruct Ho as (Hh & k & Ho & HJ'). unfold just_open2. rewrite (SM_bind_Some _ _ _ _ _ _ _ (create_file_ok _ p s h k Ho)).
    rewrite (proj2 (Z.eqb_neq h 0)) by done. cbn [negb]. rewrite filter_cons_True by (by rewrite Eh; eauto).
    destruct (drive_facts (J := J) d.1 h k HJ' Eh) as (Hx & n & Hn). destruct Hm as (_ & _ & _ & _ & Hds).
    destruct (statfs_volume h n d.1 [92] (facts_of d.1) p (with_kernel s k) Hds) as (c & Hs & Hc); [by eauto | done | done | done |].
    rewrite (SM_bind_Some _ _ _ _ _ _ _ Hs). cbv beta iota. queried. cbv beta. rewrite (SM_bind_Some (run_M (set_kernel (NtClose h k).2)) _ (with_dos_cache p c) (with_kernel s k) () (with_dos_cache p c) (with_kernel s (NtClose h k).2) eq_refl).
    destruct (IH (with_dos_cache p c) (with_kernel s (NtClose h k).2)) as (p' & s' & E & ? & ?); [by apply (drive_close (J := J)) | done |].
    exists p', s'. rewrite (SM_bind_Some _ _ _ _ _ _ _ E). by cbn [fmap list_fmap].
  - destruct Ho as (status & h & k & Ho & H1 & H2 & HJ'). unfold just_open2. rewrite (SM_bind_Some _ _ _ _ _ _ _ (open_refused _ p s status h k Ho H1 H2)).
    cbn [Z.eqb negb]. rewrite filter_cons_False by (rewrite Eh; by intros [_ [? ?]]). by apply IH.
Qed.

Lemma open_mountmgr_ok p s mgr k : NtCreateFile (CreateArgs None (str "\Device\MountPointManager") false None SYNCHRONIZE 0 FILE_OPEN 0) (kernel s) = (STATUS_SUCCESS, mgr, k) -> open_mountmgr p s = Some ((mgr, p), with_kernel s k).
Proof. intros E. unfold open_mountmgr, create_file. unfold mbind at 1, SM_bind at 1, mbind at 1, M_bind at 1. rewrite (SM_bind_Some system _ p s (kernel s) p s eq_refl), E. by rewrite bool_decide_eq_true_2. Qed.

(** getmntinfo stores, in order, what statfs tells of every drive among the mount
    points that can be opened, and returns how many there are; the points fit in the
    first block or in the second one. *)
Theorem getmntinfo_lists (mgr : Z) (m : mount_points) (l : list (list Z * list Z)) p s k
    (Hmgr : NtCreateFile (CreateArgs None (str "\Device\MountPointManager") false None SYNCHRONIZE 0 FILE_OPEN 0) (kernel s) = (STATUS_SUCCESS, mgr, k))
    (H0 : mgr <> 0) (HJ : J k)
    (Hq : NtQueryMountPoints mgr 4096 k = (STATUS_SUCCESS, m) \/
          exists m0, NtQueryMountPoints mgr 4096 k = (STATUS_BUFFER_OVERFLOW, m0) /\ NtQueryMountPoints mgr (roundup_4096 (mp_Size m0)) k = (STATUS_SUCCESS, m))
    (Hl : Forall2 (laid_out (mp_block m)) (mp_points m) l) (Hp : labels_ok label_of p) :
  exists p' s', let bs := drive_stats handle_of facts_of l in
    wlibc_getmntinfo true p s = Some (((zlen bs, Some bs), p'), s') /\ J (kernel s') /\ labels_ok label_of p'.
Proof.
  unfold wlibc_getmntinfo. cbn [negb]. set (s1 := with_kernel s k).
  assert (query_points mgr p s1 = Some ((Some (STATUS_SUCCESS, m), p), s1)) as E2.
  { unfold query_points. rewrite alloc_ok. queried. change (kernel s1) with k. destruct Hq as [->|(m0 & -> & Hq)]; [by rewrite bool_decide_eq_false_2|]. rewrite bool_decide_eq_true_2 by done. cbv zeta. by rewrite alloc_ok, Hq. }
  rewrite (SM_bind_Some _ _ _ _ _ _ _ (open_mountmgr_ok p s mgr k Hmgr)). rewrite (proj2 (Z.eqb_neq mgr 0)) by done. rewrite (SM_bind_Some _ _ _ _ _ _ _ E2). succeeded.
  rewrite (find_drives_ok _ _ _ Hl), (SM_bind_Some (defined (Some (is_drive <$> l))) _ p s1 _ p s1 eq_refl), alloc_ok.
  destruct (stat_drives_ok _ _ _ Hl p s1 HJ Hp) as (p' & s' & E & HJ' & Hp'). rewrite (SM_bind_Some _ _ _ _ _ _ _ E).
  exists p', (with_kernel s' (NtClose mgr (kernel s')).2). split; [done|]. split; [by apply (drive_close (J := J)) | done].
Qed.
End Drives.

(** when the mount points cannot be read the result is 0, as if there were none, and
    nothing is stored. *)
Theorem getmntinfo_failure_is_none (mgr : Z) (status : NTSTATUS) (m : mount_points) p s k
    (Hmgr : NtCreateFile (CreateArgs None (str "\Device\MountPointManager") false None SYNCHRONIZE 0 FILE_OPEN 0) (kernel s) = (STATUS_SUCCESS, mgr, k))
    (H0 : mgr <> 0) (Hq : NtQueryMountPoints mgr 4096 k = (status, m)) (H1 : status <> STATUS_SUCCESS) (H2 : status <> STATUS_BUFFER_OVERFLOW) :
  wlibc_getmntinfo true p s = Some (((0, None), p), with_kernel (with_errno s (map_ntstatus_to_errno status (errno s))) (NtClose mgr k).2).
Proof.
  unfold wlibc_getmntinfo. cbn [negb]. rewrite (SM_bind_Some _ _ _ _ _ _ _ (open_mountmgr_ok p s mgr k Hmgr)). rewrite (proj2 (Z.eqb_neq mgr 0)) by done.
  assert (query_points mgr p (with_kernel s k) = Some ((Some (status, m), p), with_kernel s k)) as E.
  { unfold query_points. rewrite alloc_ok. queried. cbn [kernel with_kernel]. by rewrite Hq, bool_decide_eq_false_2. }
  rewrite (SM_bind_Some _ _ _ _ _ _ _ E). unfold ok. by rewrite bool_decide_eq_false_2.
Qed.
End Facts.

(** ** Witnesses *)

(** A machine with the volumes 3 and 4 as the drives C and D, and a drive E that cannot
    be opened; the handle of a volume is its number. *)
Module Drive.
Export Idle.
Definition K : Type := unit.

Definition letter (n : Z) : Z := if n =? 3 then ch "C" else if n =? 4 then ch "D" else ch "E".

#[export] Instance drive_paths : PathKernel K := {
  RtlUTF8StringToUnicodeString l _ := (STATUS_SUCCESS, l);
  RtlUnicodeStringToUTF8String l _ := (STATUS_SUCCESS, l);
  CurrentDirectory _ := str "C:\";
  NtOpenSymbolicLinkObject v k := (STATUS_SUCCESS, v, k);
  NtQuerySymbolicLinkObject _ _ := (STATUS_SUCCESS, str "\Device\HarddiskVolume3");
  NtQueryObjectName h _ _ := (STATUS_SUCCESS, 0, volume_name [48 + h] ++ [92]);
  QueryDosVolumePaths l _ := (STATUS_SUCCESS, [letter (volume_number (drop 22 l))]);
  NtOpenKeyEx _ _ := (STATUS_OBJECT_NAME_NOT_FOUND, 0);
  NtQueryValueKey _ _ _ _ := (STATUS_OBJECT_NAME_NOT_FOUND, 0, []);
  current_user_sid := []
}.

Definition handle_of (ds : list Z) : option Z := if bool_decide (ds = str "3") then Some 3 else if bool_decide (ds = str "4") then Some 4 else None.

#[export] Instance drive_handles : OpenKernel K := {
  NtCreateFile a k :=
    if bool_decide (ca_name a = str "\Device\MountPointManager") then (STATUS_SUCCESS, 9, k)
    else match handle_of (removelast (drop 22 (ca_name a))) with Some h => (STATUS_SUCCESS, h, k) | None => (STATUS_ACCESS_DENIED, 0, k) end;
  NtQueryTagInformation _ _ := (STATUS_SUCCESS, 0);
  NtQueryBasicInformation _ _ := STATUS_SUCCESS;
  NtSetLastAccessTime _ k := (STATUS_SUCCESS, k);
  rand_s k := (7, k)
}.

Definition block : list Z :=
  str "\Device\HarddiskVolume3\DosDevices\C:\Device\HarddiskVolume4\??\Volume{4}" ++ str "\Device\HarddiskVolume4\DosDevices\D:\Device\HarddiskVolume5\DosDevices\E:".

Definition points : list mount_point := [MountPoint 46 0 46; MountPoint 120 74 46; MountPoint 192 146 46; MountPoint 266 220 46].

Definition ntfs : fs_facts := FsFacts (FullSize 1000 400 500 8 512) 4096 (FsAttributes 0x02000000 (str "NTFS")) 0x12345678.

#[export] Instance drive_fs : FsKernel K := {
  NtQueryFsFullSize _ _ := (STATUS_SUCCESS, fact_size ntfs);
  NtQueryFsSectorSize _ _ := (STATUS_SUCCESS, fact_sector ntfs);
  NtQueryFsAttribute _ _ := (STATUS_SUCCESS, fact_attributes ntfs);
  NtQueryMountPoints _ n _ := if n =? 4096 then (STATUS_BUFFER_OVERFLOW, MountPoints 5000 [] []) else (STATUS_SUCCESS, MountPoints 5000 points block)
}.

#[export] Instance drive_serial : StatKernel K := {
  NtQueryFsDevice _ _ := (STATUS_SUCCESS, FILE_DEVICE_DISK);
  NtQueryStatInformation _ _ := (STATUS_SUCCESS, StatInformation 7 0 0 0 0 0 0 0 1 0);
  NtQuerySecurityObject _ _ _ _ := (STATUS_SUCCESS, Descriptor None None None, 0);
  NtSetSecurityObject _ _ _ k := (STATUS_SUCCESS, k);
  NtGetReparsePoint _ _ := (STATUS_SUCCESS, ReparsePoint 0 [] []);
  NtQueryFsSize _ _ := (STATUS_SUCCESS, (512, 8));
  NtQueryFsVolume _ _ := (STATUS_SUCCESS, fact_serial ntfs);
  NtQueryBasic _ _ := (STATUS_SUCCESS, BasicInformation 0 0 0 0 0);
  NtSetBasic _ _ k := (STATUS_SUCCESS, k);
  GetSystemTimeAsFileTime _ := 0;
  LookupAccountSidW _ _ := false;
  RtlAcquirePrivilege k := (STATUS_SUCCESS, k);
  RtlReleasePrivilege k := k
}.

#[export] Instance letters : MountManager K letter.
Proof.
  split.
  - intros n. unfold letter. destruct (n =? 3), (n =? 4); cbn; lia.
  - intros ds k _. exists []. cbn [QueryDosVolumePaths drive_paths]. unfold volume_name. by rewrite drop_app_length' by done.
Qed.

#[export] Instance drives : Drives (K := K) (fun _ => True) handle_of (fun _ => ntfs).
Proof.
  assert (forall ds, removelast (drop 22 (volume_name ds ++ [92])) = ds) as Hn.
  { intros ds. unfold volume_name. rewrite <- app_assoc, drop_app_length' by done. by rewrite removelast_last. }
  split; [intros ds k _ | intros ds h k _ Hh | done].
  - assert (bool_decide (volume_name ds ++ [92] = str "\Device\MountPointManager") = false) as Hm by (by apply bool_decide_eq_false_2; intros [=]).
    cbn [NtCreateFile drive_handles ca_name]. rewrite Hm, Hn. destruct (handle_of ds) as [h|] eqn:E.
    + split; [|by eauto]. unfold handle_of in E. repeat case_bool_decide; by simplify_eq.
    + by eexists _, _, _.
  - split; [done|]. exists 0. unfold handle_of in Hh. repeat case_bool_decide; by simplify_eq.
Qed.

Definition known : list (list Z * list Z) :=
  [(str "3", str "\DosDevices\C:"); (str "4", str "\??\Volume{4}"); (str "4", str "\DosDevices\D:"); (str "5", str "\DosDevices\E:")].

Definition machine : state K := process FILE_HANDLE tt.

Lemma one_digit c : 48 <= c <= 57 -> volume_number [c] <> 2 ^ 32 - 1 -> disk_volume [c].
Proof. intros H Hn. split; [by apply Forall_singleton | done]. Qed.
End Drive.

Import Drive.

Lemma no_labels : labels_ok letter initial_paths.
Proof. split; by left. Qed.

Lemma statfs_volume_witness : exists c, do_statfs 3 initial_paths machine = Some (((0, volume_stat (K := Drive.K) letter (str "3") ntfs), with_dos_cache initial_paths c), machine).
Proof.
  destruct (statfs_volume (K := Drive.K) (fun _ => eq_refl) letter 3 0 (str "3") [92] ntfs initial_paths machine) as (c & E & _);
    [by apply one_digit | right; by exists [] | done | done | exact no_labels |]. by exists c.
Defined.

Lemma statfs_statvfs_agree_witness : exists v, do_statvfs (Statvfs 0 0 0 0 0 0 0 0 0 0 0 0 (replicate 16 7)) 3 initial_paths machine = Some (((0, v), initial_paths), machine) /\
  v_type v = NTFS_FS /\ v_bsize v = 4096 /\ v_fsid v = 0x1234 * 65536 + 0x5678.
Proof.
  destruct (do_statfs 3 initial_paths machine) as [[[[r b] p'] s']|] eqn:E; [|by vm_compute in E].
  assert (r = 0) as -> by (vm_compute in E; congruence).
  destruct (statfs_statvfs_agree (K := Drive.K) (Statvfs 0 0 0 0 0 0 0 0 0 0 0 0 (replicate 16 7)) 3 ntfs initial_paths machine b p' s') as (v & Hv & (Hb & _) & _ & _ & _ & Hid & _ & Ht);
    [done | by cbn | exact E |]. vm_compute in E. injection E as <- _ _. exists v. split; [exact Hv|]. destruct Ht as [Ht _]; [done|]. by rewrite Ht, Hb, Hid.
Defined.

Lemma laid : Forall2 (laid_out block) points known.
Proof.
  repeat apply Forall2_cons_2; [..|constructor]; (split; [by eexists|]); (split; [done|]); (split; [by eexists|]); (split; [done|]); by apply one_digit.
Qed.

Lemma getmntinfo_lists_witness : exists p' s' c d, wlibc_getmntinfo true initial_paths machine = Some (((2, Some [c; d]), p'), s') /\
  f_mntonname c = str "C:" /\ f_mntonname d = str "D:" /\ f_mntfromname d = str "\Device\HarddiskVolume4".
Proof.
  destruct (getmntinfo_lists (K := Drive.K) (fun _ => eq_refl) letter (fun _ => True) handle_of (fun _ => ntfs) 9 (MountPoints 5000 points block) known initial_paths machine tt) as (p' & s' & E & _);
    [done | done | done | right; by eexists | | exact no_labels |].
  { exact laid. }
  exists p', s', (volume_stat (K := Drive.K) letter (str "3") ntfs), (volume_stat (K := Drive.K) letter (str "4") ntfs). split; [exact E | done].
Defined.

#[local] Instance no_points : FsKernel Drive.K := {
  NtQueryFsFullSize _ _ := (STATUS_SUCCESS, fact_size ntfs);
  NtQueryFsSectorSize _ _ := (STATUS_SUCCESS, 0);
  NtQueryFsAttribute _ _ := (STATUS_SUCCESS, fact_attributes ntfs);
  NtQueryMountPoints _ _ _ := (STATUS_ACCESS_DENIED, MountPoints 0 [] [])
}.

Lemma getmntinfo_failure_is_none_witness : wlibc_getmntinfo true initial_paths machine = Some (((0, None), initial_paths), with_kernel (with_errno machine EACCES) tt).
Proof. exact (getmntinfo_failure_is_none (K := Drive.K) (fun _ => eq_refl) 9 STATUS_ACCESS_DENIED (MountPoints 0 [] []) initial_paths machine tt eq_refl ltac:(done) eq_refl ltac:(done) ltac:(done)). Defined.
