(* ===== verification/Memory.v ===== *)
(** * Mapped memory and file locks

    mmap and its relatives (src/sys/mman), flock (src/sys/file/flock.c) and fsync
    (src/unistd/fsync.c), and what they promise: the views of a process refine a map from
    addresses to parts of files, except that a part is always the start of a file; the
    locks of a file are one exclusive lock or shared ones. *)

From stdpp Require Import gmap.
From S2P Require Import Prelude Errno Buffer FdTable FdTableFacts FileIo Path PathFacts Open Dirent Security Time Stat Idle.

Definition MAP_FAILED : Z := 2 ^ 64 - 1.
Definition PROT_NONE : Z := 0x0.
Definition PROT_READ : Z := 0x1.
Definition PROT_WRITE : Z := 0x2.
Definition PROT_EXEC : Z := 0x4.
Definition MAP_HUGETLB : Z := 0x10.
Definition MAP_ANONYMOUS : Z := 0x20.
Definition MS_SYNC : Z := 1.
Definition LOCK_SH : Z := 1.
Definition LOCK_EX : Z := 2.
Definition LOCK_UN : Z := 4.
Definition LOCK_NB : Z := 8.
Definition EWOULDBLOCK : Z := EAGAIN.

(** Protections and attributes of memory (winnt.h). *)
Definition PAGE_NOACCESS : Z := 0x01.
Definition PAGE_READONLY : Z := 0x02.
Definition PAGE_READWRITE : Z := 0x04.
Definition PAGE_WRITECOPY : Z := 0x08.
Definition PAGE_EXECUTE : Z := 0x10.
Definition PAGE_EXECUTE_READ : Z := 0x20.
Definition PAGE_EXECUTE_READWRITE : Z := 0x40.
Definition PAGE_EXECUTE_WRITECOPY : Z := 0x80.
Definition SEC_COMMIT : Z := 0x08000000.
Definition FLUSH_FLAGS_FILE_DATA_SYNC_ONLY : Z := 0x00000004.

(** A section for a file (0 for none) and its views; protection, flushing and locking of
    memory; locks on whole files, [None] while the caller has to wait; the flushing of
    a file. *)
Class MemoryKernel (K : Type) := {
  NtCreateSectionEx : Z -> Z -> Z -> Z -> K -> NTSTATUS * Z * K;
  NtMapViewOfSectionEx : Z -> Z -> Z -> Z -> Z -> K -> NTSTATUS * Z * K;
  NtUnmapViewOfSectionEx : Z -> K -> NTSTATUS * K;
  NtProtectVirtualMemory : Z -> Z -> Z -> K -> NTSTATUS * K;
  NtFlushVirtualMemory : Z -> Z -> K -> NTSTATUS * K;
  NtLockVirtualMemory : Z -> Z -> K -> NTSTATUS * K;
  NtUnlockVirtualMemory : Z -> Z -> K -> NTSTATUS * K;
  NtLockFile : Z -> bool -> bool -> K -> option (NTSTATUS * K);
  NtUnlockFile : Z -> K -> NTSTATUS * K;
  NtFlushBuffersFileEx : Z -> Z -> K -> NTSTATUS * K
}.

(** 0 stands for what is not a protection. *)
Definition determine_protection (protection : Z) : Z :=
  if protection =? PROT_NONE then PAGE_NOACCESS
  else if protection =? PROT_READ then PAGE_READONLY
  else if protection =? PROT_WRITE then PAGE_WRITECOPY
  else if protection =? PROT_EXEC then PAGE_EXECUTE
  else if protection =? Z.lor PROT_READ PROT_WRITE then PAGE_READWRITE
  else if protection =? Z.lor PROT_EXEC PROT_READ then PAGE_EXECUTE_READ
  else if protection =? Z.lor PROT_EXEC PROT_WRITE then PAGE_EXECUTE_WRITECOPY
  else if protection =? Z.lor PROT_EXEC (Z.lor PROT_READ PROT_WRITE) then PAGE_EXECUTE_READWRITE
  else 0.

(** Large pages are switched off. *)
Definition determine_attibutes (flags : Z) : Z :=
  let attributes := SEC_COMMIT in if has flags MAP_HUGETLB then attributes else attributes.

Section Memory.
Context {K : Type} {KN : Kernel K} {MK : MemoryKernel K}.

Definition map_failed (m : M K Z) : M K Z := _ ← m; mret MAP_FAILED.

(** A call of the kernel; an error gives -1. *)
Definition memory_call (f : K -> NTSTATUS * K) : M K Z :=
  s ← get;
  let '(status, k) := f (kernel s) in
  _ ← set_kernel k;
  if bool_decide (status = STATUS_SUCCESS) then mret 0 else fail_status status.

(** [info] is what the structure holds that is not initialised. *)
Definition wlibc_mmap (info : fdinfo) (address size protection flags fd offset : Z) : M K Z :=
  info ← get_fdinfo fd info;
  if negb (has flags MAP_ANONYMOUS) && negb (bool_decide (type info = FILE_HANDLE)) then map_failed (fail EBADF)
  else if protection >? Z.lor PROT_READ (Z.lor PROT_WRITE PROT_EXEC) then map_failed (fail EINVAL)
  else
    let file_handle := if has flags MAP_ANONYMOUS then 0 else handle info in
    let page_protection := determine_protection protection in
    s ← get;
    let '(status, section_handle, k) := NtCreateSectionEx size page_protection (determine_attibutes flags) file_handle (kernel s) in
    _ ← set_kernel k;
    if negb (bool_decide (status = STATUS_SUCCESS)) then map_failed (fail_status status)
    else
      let '(status, address, k) := NtMapViewOfSectionEx section_handle address offset size page_protection k in
      _ ← set_kernel k;
      if negb (bool_decide (status = STATUS_SUCCESS)) then map_failed (fail_status status)
      else _ ← set_kernel (NtClose section_handle k).2; mret address.

(** The size is not used. *)
Definition wlibc_munmap (address size : Z) : M K Z := memory_call (NtUnmapViewOfSectionEx address).

Definition wlibc_mprotect (address size protection : Z) : M K Z :=
  if protection >? Z.lor PROT_READ (Z.lor PROT_WRITE PROT_EXEC) then fail EINVAL
  else memory_call (NtProtectVirtualMemory address size (determine_protection protection)).

Definition wlibc_msync (address size flags : Z) : M K Z :=
  if flags >? MS_SYNC then fail EINVAL else memory_call (NtFlushVirtualMemory address size).

Definition wlibc_mlock (address size : Z) : M K Z := memory_call (NtLockVirtualMemory address size).
Definition wlibc_munlock (address size : Z) : M K Z := memory_call (NtUnlockVirtualMemory address size).

(** ** Locks and flushes of files *)

Definition returned (m : M K Z) : M K (option Z) := r ← m; mret (Some r).

(** The result, [None] if the caller has to wait. *)
Definition wlibc_flock (info : fdinfo) (fd operation : Z) : M K (option Z) :=
  info ← get_fdinfo fd info;
  if negb (bool_decide (type info = FILE_HANDLE)) then returned (fail EBADF)
  else
    let nonblock := has operation LOCK_NB in
    let operation := Z.ldiff operation LOCK_NB in
    if negb (operation =? LOCK_SH) && negb (operation =? LOCK_EX) && negb (operation =? LOCK_UN) then returned (fail EINVAL)
    else
      s ← get;
      let r := if operation =? LOCK_SH then NtLockFile (handle info) nonblock false (kernel s)
               else if operation =? LOCK_EX then NtLockFile (handle info) nonblock true (kernel s)
               else Some (NtUnlockFile (handle info) (kernel s)) in
      match r with
      | None => mret None
      | Some (status, k) =>
          _ ← set_kernel k;
          if bool_decide (status = STATUS_SUCCESS) then mret (Some 0)
          else if bool_decide (status = STATUS_LOCK_NOT_GRANTED) && nonblock then returned (fail EWOULDBLOCK)
          else returned (fail_status status)
      end.

Definition common_sync (info : fdinfo) (fd sync_all : Z) : M K Z :=
  info ← get_fdinfo fd info;
  if negb (bool_decide (type info = FILE_HANDLE)) then fail EROFS
  else memory_call (NtFlushBuffersFileEx (handle info) (if sync_all =? 1 then 0 else FLUSH_FLAGS_FILE_DATA_SYNC_ONLY)).

Definition wlibc_fdatasync (info : fdinfo) (fd : Z) : M K Z := common_sync info fd 0.
Definition wlibc_fsync (info : fdinfo) (fd : Z) : M K Z := common_sync info fd 1.
End Memory.

(** ** Views *)

Definition page : Z := 4096.

(** The number of pages that hold [n] bytes. *)
Definition pages_of (n : Z) : Z := (n + page - 1) / page.

(** A view of a file (0 for memory) from an offset on: the protections of its pages. *)
Record mview := View { view_file : Z; view_offset : Z; view_pages : list Z }.
Record msection := Section_ { section_file : Z; section_max : Z }.

(** The bytes of a view: it consists of whole pages. *)
Definition view_size (v : mview) : Z := page * zlen (view_pages v).

(** An address lies in the view that starts at [b]. *)
Definition inside (views : gmap Z mview) (a b : Z) : Prop := exists v, views !! b = Some v /\ b <= a < b + view_size v.

(** The addresses from [a] on lie in the view [v] that starts at [b]. *)
Definition covers (b : Z) (v : mview) (a size : Z) : Prop := 0 < size /\ b <= a /\ a + size <= b + view_size v.

#[export] Instance covers_dec b v a size : Decision (covers b v a size).
Proof. unfold covers. apply _. Defined.

(** The pages these addresses touch get a protection. *)
Definition protect_view (b a size protection : Z) (v : mview) : mview :=
  View (view_file v) (view_offset v)
    (imap (fun i old => if decide ((a - b) / page <= Z.of_nat i <= (a + size - 1 - b) / page) then protection else old) (view_pages v)).

(** What is documented of sections and views: a section has the size asked for, in whole
    pages; a view is rounded up to whole pages of the protection asked for, starts at a
    multiple of 64 kilobytes of its section and lies within it; 0 is not a protection. Any
    address of a view stands for it when it is unmapped. A range of addresses can be
    protected only if it lies in a view, and flushed only from an address of one. *)
Class AddressSpace {K : Type} `{Kernel K} `{MemoryKernel K} (views : K -> gmap Z mview) (sections : K -> gmap Z msection) : Prop := {
  as_create size protection attributes file k : let '(status, h, k') := NtCreateSectionEx size protection attributes file k in
    views k' = views k /\
    (if bool_decide (status = STATUS_SUCCESS) then sections k !! h = None /\ sections k' = <[h := Section_ file size]> (sections k) else sections k' = sections k);
  as_map h address offset size protection k x : sections k !! h = Some x -> 0 < size ->
    let '(status, a, k') := NtMapViewOfSectionEx h address offset size protection k in
    sections k' = sections k /\
    (if bool_decide (status = STATUS_SUCCESS)
     then 0 <= offset /\ offset mod 65536 = 0 /\ offset + size <= page * pages_of (section_max x) /\ protection <> 0 /\ views k !! a = None /\
       views k' = <[a := View (section_file x) offset (replicate (Z.to_nat (pages_of size)) protection)]> (views k)
     else views k' = views k);
  as_unmap a k : let '(status, k') := NtUnmapViewOfSectionEx a k in
    sections k' = sections k /\
    ((exists b, inside (views k) a b /\ status = STATUS_SUCCESS /\ views k' = delete b (views k)) \/ ((forall b, ~ inside (views k) a b) /\ status <> STATUS_SUCCESS /\ views k' = views k));
  as_protect a size protection k : let '(status, k') := NtProtectVirtualMemory a size protection k in
    sections k' = sections k /\
    (if bool_decide (status = STATUS_SUCCESS)
     then exists b v, views k !! b = Some v /\ covers b v a size /\ protection <> 0 /\ views k' = <[b := protect_view b a size protection v]> (views k)
     else views k' = views k);
  as_flush a size k : let '(status, k') := NtFlushVirtualMemory a size k in
    views k' = views k /\ sections k' = sections k /\ (status = STATUS_SUCCESS -> exists b, inside (views k) a b);
  as_close h k : is_Some (sections k !! h) -> views (NtClose h k).2 = views k /\ sections (NtClose h k).2 = delete h (sections k)
}.

Inductive memory_op :=
  | Map (address size protection flags fd offset : Z)
  | Unmap (address size : Z)
  | Protect (address size protection : Z)
  | Sync (address size flags : Z).

Definition run_memory {K : Type} `{Kernel K} `{MemoryKernel K} (o : memory_op) : M K Z :=
  match o with
  | Map address size protection flags fd offset => wlibc_mmap (garbage 0) address size protection flags fd offset
  | Unmap address size => wlibc_munmap address size
  | Protect address size protection => wlibc_mprotect address size protection
  | Sync address size flags => wlibc_msync address size flags
  end.

(** What a process sees: its views, the sections it has open, and errno. *)
Record mspace := Mspace { mapped : gmap Z mview; opened : gmap Z msection; merrno : Z }.

(** The page protection for each of [PROT_NONE] to [PROT_READ | PROT_WRITE | PROT_EXEC];
    memory that can be written only is a private copy. *)
Definition page_rights : list Z :=
  [PAGE_NOACCESS; PAGE_READONLY; PAGE_WRITECOPY; PAGE_READWRITE;
   PAGE_EXECUTE; PAGE_EXECUTE_READ; PAGE_EXECUTE_WRITECOPY; PAGE_EXECUTE_READWRITE].

(** A protection of mmap and mprotect stands for a page protection. *)
Definition stands_for (protection right : Z) : Prop := 0 <= protection /\ page_rights !! Z.to_nat protection = Some right.

(** A call that fails: with a number of its own, or that of a failure of the kernel. *)
Definition refused (e : Z) (x y : mspace) : Prop := y = Mspace (mapped x) (opened x) e.
Definition kernel_error (x y : mspace) : Prop :=
  exists status, status <> STATUS_SUCCESS /\ merrno y = map_ntstatus_to_errno status (merrno x).

(** What a call does, given the files of the descriptors. *)
Definition memory_step (file_of : Z -> option Z) (x : mspace) (o : memory_op) (r : Z) (y : mspace) : Prop :=
  match o with
  | Map _ size protection flags fd offset =>
      match (if has flags MAP_ANONYMOUS then Some 0 else file_of fd) with
      | None => r = MAP_FAILED /\ refused EBADF x y
      | Some f =>
          if protection >? 7 then r = MAP_FAILED /\ refused EINVAL x y
          else
            (exists right, stands_for protection right /\ offset = 0 /\ mapped x !! r = None /\
               y = Mspace (<[r := View f 0 (replicate (Z.to_nat (pages_of size)) right)]> (mapped x)) (opened x) (merrno x)) \/
            (r = MAP_FAILED /\ mapped y = mapped x /\ kernel_error x y /\
               (opened y = opened x \/ exists h, opened x !! h = None /\ opened y = <[h := Section_ f size]> (opened x)))
      end
  | Unmap a _ =>
      (r = 0 /\ exists b, inside (mapped x) a b /\ y = Mspace (delete b (mapped x)) (opened x) (merrno x)) \/
      (r = -1 /\ (forall b, ~ inside (mapped x) a b) /\ mapped y = mapped x /\ opened y = opened x /\ kernel_error x y)
  | Protect a size protection =>
      if protection >? 7 then r = -1 /\ refused EINVAL x y
      else
        (r = 0 /\ exists b v right, mapped x !! b = Some v /\ covers b v a size /\ stands_for protection right /\
           y = Mspace (<[b := protect_view b a size right v]> (mapped x)) (opened x) (merrno x)) \/
        (r = -1 /\ mapped y = mapped x /\ opened y = opened x /\ kernel_error x y)
  | Sync a _ flags =>
      if flags >? 1 then r = -1 /\ refused EINVAL x y
      else
        (r = 0 /\ (exists b, inside (mapped x) a b) /\ y = x) \/
        (r = -1 /\ mapped y = mapped x /\ opened y = opened x /\ kernel_error x y)
  end.

Fixpoint memory_trace (file_of : Z -> option Z) (x : mspace) (l : list memory_op) (rs : list Z) (y : mspace) : Prop :=
  match l, rs with
  | [], [] => y = x
  | o :: l, r :: rs => exists x1, memory_step file_of x o r x1 /\ memory_trace file_of x1 l rs y
  | _, _ => False
  end.

Fixpoint run_memory_ops {K : Type} `{Kernel K} `{MemoryKernel K} (l : list memory_op) : M K (list Z) :=
  match l with [] => mret [] | o :: l => r ← run_memory o; rs ← run_memory_ops l; mret (r :: rs) end.

(** Mappings have a size. *)
Definition memory_ok (o : memory_op) : Prop := match o with Map _ size _ _ _ _ => 0 < size | _ => True end.

Lemma protection_stands_for protection :
  protection <= 7 -> determine_protection protection <> 0 -> stands_for protection (determine_protection protection).
Proof.
  intros H7 Hne. destruct (decide (0 <= protection)) as [H0|Hneg].
  - assert (protection = 0 \/ protection = 1 \/ protection = 2 \/ protection = 3 \/ protection = 4 \/ protection = 5 \/ protection = 6 \/ protection = 7)
      as [->|[->|[->|[->|[->|[->|[->| ->]]]]]]] by lia; split; (lia || reflexivity).
  - exfalso. apply Hne. by destruct protection as [|p|p]; [lia|lia|].
Qed.

Lemma pages_of_bounds n : 0 < n -> n <= page * pages_of n < n + page.
Proof. intros Hn. unfold pages_of, page. Z.div_mod_to_equations. lia. Qed.

Section Views.
Context {K : Type} {KN : Kernel K} {MK : MemoryKernel K} (views : K -> gmap Z mview) (sections : K -> gmap Z msection) {AS : AddressSpace views sections}.
Implicit Types s : state K.

Definition space (s : state K) : mspace := Mspace (views (kernel s)) (sections (kernel s)) (errno s).

(** The file of a descriptor. *)
Definition file_of_fd (t : list fdinfo) (fd : Z) : option Z :=
  match view t fd with Some e => if bool_decide (type e = FILE_HANDLE) then Some (handle e) else None | None => None end.

(** A call of the kernel either keeps errno or sets it after the status. *)
Lemma memory_call_cases f s : let '(status, k) := f (kernel s) in exists s', table s' = table s /\ kernel s' = k /\
  ((status = STATUS_SUCCESS /\ memory_call f s = Some (0, s') /\ errno s' = errno s) \/
   (status <> STATUS_SUCCESS /\ memory_call f s = Some (-1, s') /\ errno s' = map_ntstatus_to_errno status (errno s))).
Proof.
  unfold memory_call. rewrite (M_bind_Some _ _ _ _ _ eq_refl). destruct (f (kernel s)) as [status k].
  rewrite (M_bind_Some (set_kernel k) _ s () (with_kernel s k) eq_refl). case_bool_decide as E.
  - exists (with_kernel s k). split; [done|]. split; [done|]. by left.
  - eexists. split; [|split; [|right; split; [done|split; [reflexivity|]]]]; done.
Qed.

(** What the descriptor of a mapping is. *)
Lemma get_fdinfo_cases fd s : exists i, get_fdinfo fd (garbage 0) s = Some (i, s) /\ file_of_fd (table s) fd = if bool_decide (type i = FILE_HANDLE) then Some (handle i) else None.
Proof.
  destruct (view (table s) fd) as [e|] eqn:E.
  - exists e. split; [by apply get_fdinfo_view|]. unfold file_of_fd. by rewrite E.
  - eexists. split; [unfold get_fdinfo, mbind, M_bind; by rewrite validate_fd_M, (proj2 (validate_fd_false _ _) E)|]. unfold file_of_fd. by rewrite E.
Qed.

Lemma mmap_steps address size protection flags fd offset s : 0 < size ->
  exists r s', wlibc_mmap (garbage 0) address size protection flags fd offset s = Some (r, s') /\
    memory_step (file_of_fd (table s)) (space s) (Map address size protection flags fd offset) r (space s') /\ table s' = table s.
Proof.
  intros Hsize. destruct (get_fdinfo_cases fd s) as (i & Ei & Hi). unfold wlibc_mmap. rewrite (M_bind_Some _ _ _ _ _ Ei). cbn [memory_step]. rewrite Hi.
  set (f := if has flags MAP_ANONYMOUS then 0 else handle i).
  replace (if has flags MAP_ANONYMOUS then Some 0 else if bool_decide (type i = FILE_HANDLE) then Some (handle i) else None)
    with (if negb (has flags MAP_ANONYMOUS) && negb (bool_decide (type i = FILE_HANDLE)) then None else Some f)
    by (unfold f; destruct (has flags MAP_ANONYMOUS), (bool_decide (type i = FILE_HANDLE)); done).
  destruct (negb (has flags MAP_ANONYMOUS) && _); [by eexists _, _; split; [reflexivity|]|].
  change (Z.lor PROT_READ (Z.lor PROT_WRITE PROT_EXEC)) with 7.
  destruct (protection >? 7) eqn:Ep; [by eexists _, _; split; [reflexivity|]|]. rewrite Z.gtb_ltb in Ep. apply Z.ltb_ge in Ep.
  cbv zeta. rewrite (M_bind_Some _ _ _ _ _ eq_refl). set (p := determine_protection protection).
  pose proof (as_create size p (determine_attibutes flags) f (kernel s)) as Hc.
  destruct (NtCreateSectionEx _ _ _ _ _) as [[status h] k1]. destruct Hc as [Hv1 Hs1]. rewrite (M_bind_Some (set_kernel k1) _ s () (with_kernel s k1) eq_refl).
  case_bool_decide as Est; cbn [negb]; cycle 1.
  { eexists _, _. split; [reflexivity|]. split; [|done]. right. split; [done|]. split; [exact Hv1|]. split; [by exists status|]. by left. }
  destruct Hs1 as [Hh Hs1]. pose proof (as_map h address offset size p k1 (Section_ f size)) as Hm. rewrite Hs1, lookup_insert_eq in Hm. specialize (Hm eq_refl Hsize).
  destruct (NtMapViewOfSectionEx _ _ _ _ _ _) as [[status' a] k2]. destruct Hm as [Hs2 Hv2]. rewrite (M_bind_Some (set_kernel k2) _ (with_kernel s k1) () (with_kernel s k2) eq_refl).
  case_bool_decide as Est'; cbn [negb]; cycle 1.
  { eexists _, _. split; [reflexivity|]. split; [|done]. right. split; [done|]. cbn [space mapped opened].
    split; [change (views k2 = views (kernel s)); by rewrite Hv2|]. split; [by exists status'|]. right. exists h. split; [done|].
    change (sections k2 = <[h := Section_ f size]> (sections (kernel s))). by rewrite Hs2. }
  destruct Hv2 as (H0 & Hmod & Hle & Hp0 & Ha & Hv2). cbn [section_max section_file] in Hle, Hv2.
  pose proof (pages_of_bounds size Hsize) as Hpg. unfold page in Hpg, Hle. assert (offset = 0) as -> by (rewrite Z.mod_small in Hmod; lia).
  destruct (as_close h k2) as [Hv3 Hs3]; [rewrite Hs2, lookup_insert_eq; by eexists|].
  eexists _, _. split; [reflexivity|]. split; [|done]. left. exists p. split; [by apply protection_stands_for|]. split; [done|].
  split; [change (views (kernel s) !! a = None); by rewrite <- Hv1|].
  unfold space. cbn [kernel with_kernel errno mapped opened merrno].
  f_equal; [by rewrite Hv3, Hv2, Hv1 | by rewrite Hs3, Hs2, delete_insert_id].
Qed.

Lemma memory_op_steps o s : memory_ok o ->
  exists r s', run_memory o s = Some (r, s') /\ memory_step (file_of_fd (table s)) (space s) o r (space s') /\ table s' = table s.
Proof.
  intros Ho. destruct o as [address size protection flags fd offset | a size | a size protection | a size flags]; cbn [run_memory memory_ok memory_step] in *;
    [by apply mmap_steps | ..].
  - unfold wlibc_munmap. pose proof (memory_call_cases (NtUnmapViewOfSectionEx a) s) as Hc. pose proof (as_unmap a (kernel s)) as Hu.
    destruct (NtUnmapViewOfSectionEx a (kernel s)) as [status k]. destruct Hc as (s' & Ht & Hk & Hc), Hu as [Hs Hu].
    destruct Hu as [(b & Hb & -> & Hv)|(Hb & Hne & Hv)]; destruct Hc as [(Est & E & He)|(Est & E & He)]; try done;
      eexists _, s'; (split; [exact E|]); (split; [|done]).
    + left. split; [done|]. exists b. split; [done|]. unfold space. by rewrite Hk, He, Hv, Hs.
    + right. unfold space. cbn [mapped opened]. rewrite Hk. do 4 (split; [done|]). by exists status.
  - unfold wlibc_mprotect. change (Z.lor PROT_READ (Z.lor PROT_WRITE PROT_EXEC)) with 7.
    destruct (protection >? 7) eqn:Ep; [by eexists _, _; split; [reflexivity|]|]. rewrite Z.gtb_ltb in Ep. apply Z.ltb_ge in Ep.
    set (p := determine_protection protection). pose proof (memory_call_cases (NtProtectVirtualMemory a size p) s) as Hc. pose proof (as_protect a size p (kernel s)) as Hu.
    destruct (NtProtectVirtualMemory a size p (kernel s)) as [status k]. destruct Hc as (s' & Ht & Hk & Hc), Hu as [Hs Hu].
    destruct Hc as [(Est & E & He)|(Est & E & He)]; eexists _, s'; (split; [exact E|]); (split; [|done]).
    + rewrite bool_decide_eq_true_2 in Hu by done. destruct Hu as (b & v & Hb & Hcv & Hp & Hv). left. split; [done|]. exists b, v, p.
      split; [done|]. split; [done|]. split; [by apply protection_stands_for|]. unfold space. by rewrite Hk, He, Hv, Hs.
    + rewrite bool_decide_eq_false_2 in Hu by done. right. unfold space. cbn [mapped opened]. rewrite Hk. do 3 (split; [done|]). by exists status.
  - unfold wlibc_msync. change MS_SYNC with 1. destruct (flags >? 1); [by eexists _, _; split; [reflexivity|]|].
    pose proof (memory_call_cases (NtFlushVirtualMemory a size) s) as Hc. pose proof (as_flush a size (kernel s)) as Hu.
    destruct (NtFlushVirtualMemory a size (kernel s)) as [status k]. destruct Hc as (s' & Ht & Hk & Hc), Hu as (Hv & Hs & Hb).
    destruct Hc as [(Est & E & He)|(Est & E & He)]; eexists _, s'; (split; [exact E|]); (split; [|done]).
    + left. split; [done|]. split; [by apply Hb|]. unfold space. by rewrite Hk, He, Hv, Hs.
    + right. unfold space. cbn [mapped opened]. rewrite Hk. do 3 (split; [done|]). by exists status.
Qed.


(** a mapping from an offset on always fails, since its section ends where the file part
    is meant to begin; the section is created and never closed. *)
Theorem mmap_offset_leaks (address size protection flags fd offset : Z) (e : fdinfo) s h k
    (Hfd : view (table s) fd = Some e) (Hfile : type e = FILE_HANDLE) (Hflags : has flags MAP_ANONYMOUS = false) (Hprot : protection <= 7) (Hsize : 0 < size) (Hoff : 0 < offset)
    (Hcreate : NtCreateSectionEx size (determine_protection protection) (determine_attibutes flags) (handle e) (kernel s) = (STATUS_SUCCESS, h, k)) :
  exists s', wlibc_mmap (garbage 0) address size protection flags fd offset s = Some (MAP_FAILED, s') /\
    views (kernel s') = views (kernel s) /\ sections (kernel s') = <[h := Section_ (handle e) size]> (sections (kernel s)).
Proof.
  unfold wlibc_mmap. rewrite (M_bind_Some _ _ _ _ _ (get_fdinfo_view s fd e (garbage 0) Hfd)), Hflags, bool_decide_eq_true_2 by done. cbn [negb andb].
  change (Z.lor PROT_READ (Z.lor PROT_WRITE PROT_EXEC)) with 7. rewrite Z.gtb_ltb, (proj2 (Z.ltb_ge _ _)) by lia. cbv zeta. rewrite (M_bind_Some _ _ _ _ _ eq_refl), Hcreate.
  rewrite (M_bind_Some (set_kernel k) _ s () (with_kernel s k) eq_refl), bool_decide_eq_true_2 by done. cbn [negb].
  pose proof (as_create size (determine_protection protection) (determine_attibutes flags) (handle e) (kernel s)) as Hc. rewrite Hcreate, bool_decide_eq_true_2 in Hc by done. destruct Hc as [Hv1 [Hh Hs1]].
  pose proof (as_map h address offset size (determine_protection protection) k (Section_ (handle e) size)) as Hm. rewrite Hs1, lookup_insert_eq in Hm. specialize (Hm eq_refl Hsize).
  destruct (NtMapViewOfSectionEx _ _ _ _ _ _) as [[status' a] k2]. destruct Hm as [Hs2 Hv2]. rewrite (M_bind_Some (set_kernel k2) _ (with_kernel s k) () (with_kernel s k2) eq_refl).
  destruct (bool_decide (status' = STATUS_SUCCESS)). { destruct Hv2 as (_ & Hmod & Hle & _). cbn [section_max] in Hle.
    pose proof (pages_of_bounds size Hsize) as Hpg. unfold page in Hpg, Hle. rewrite Z.mod_small in Hmod; lia. }
  cbn [negb]. eexists. split; [done|]. change (views k2 = views (kernel s) /\ sections k2 = <[h := Section_ (handle e) size]> (sections (kernel s))). by rewrite Hs2, Hv2.
Qed.
End Views.

(** ** Locks *)

(** What is documented of locks on the whole of a file, by handles: shared locks go
    together; an exclusive lock needs a file without locks, and excludes the locks of
    others; an unlock removes a lock of the handle. *)
Class FileLocks {K : Type} `{MemoryKernel K} (locks : K -> list (Z * bool)) : Prop := {
  lock_result h nowait excl k :
    (exists k', NtLockFile h nowait excl k = Some (STATUS_SUCCESS, k') /\ locks k' = (h, excl) :: locks k) \/
    NtLockFile h nowait excl k = if nowait then Some (STATUS_LOCK_NOT_GRANTED, k) else None;
  lock_exclusive h nowait k : (locks k <> [] <-> NtLockFile h nowait true k = if nowait then Some (STATUS_LOCK_NOT_GRANTED, k) else None);
  lock_shared h nowait k : Forall (fun l => l.2 = false) (locks k) -> exists k', NtLockFile h nowait false k = Some (STATUS_SUCCESS, k') /\ locks k' = (h, false) :: locks k;
  lock_refused h h' nowait k : h <> h' -> (h', true) ∈ locks k -> NtLockFile h nowait false k = if nowait then Some (STATUS_LOCK_NOT_GRANTED, k) else None;
  unlock_result h k :
    (exists l1 e l2 k', NtUnlockFile h k = (STATUS_SUCCESS, k') /\ locks k = l1 ++ (h, e) :: l2 /\ locks k' = l1 ++ l2) \/
    ((forall e, (h, e) ∉ locks k) /\ NtUnlockFile h k = (STATUS_RANGE_NOT_LOCKED, k))
}.

Section Locks.
Context {K : Type} {KN : Kernel K} {MK : MemoryKernel K} (locks : K -> list (Z * bool)) {FL : FileLocks locks}.
Implicit Types s : state K.

(** Nobody else has a lock on a file that is locked exclusively. *)
Definition exclusive (l : list (Z * bool)) : Prop := forall h h' e, (h, true) ∈ l -> (h', e) ∈ l -> h' = h.

(** What a call of flock by the handle [h] does; -1 stands for an error with its number,
    [None] for a caller that waits. *)
Definition flock_step (h operation : Z) (l : list (Z * bool)) (r : option Z) (e : Z) (l' : list (Z * bool)) : Prop :=
  let nonblock := has operation LOCK_NB in
  let refused := l' = l /\ if nonblock then r = Some (-1) /\ e = EWOULDBLOCK else r = None in
  let o := Z.ldiff operation LOCK_NB in
  if o =? LOCK_SH then (r = Some 0 /\ l' = (h, false) :: l /\ (forall h', (h', true) ∈ l -> h' = h)) \/ (refused /\ exists h', (h', true) ∈ l)
  else if o =? LOCK_EX then (r = Some 0 /\ l = [] /\ l' = [(h, true)]) \/ (refused /\ l <> [])
  else if o =? LOCK_UN then (r = Some 0 /\ exists l1 e l2, l = l1 ++ (h, e) :: l2 /\ l' = l1 ++ l2) \/ (r = Some (-1) /\ e = ENOLCK /\ l' = l /\ forall e, (h, e) ∉ l)
  else r = Some (-1) /\ e = EINVAL /\ l' = l.

Lemma exclusive_step h operation l r e l' : exclusive l -> flock_step h operation l r e l' -> exclusive l'.
Proof.
  intros Hl. unfold flock_step. destruct (_ =? LOCK_SH); [|destruct (_ =? LOCK_EX); [|destruct (_ =? LOCK_UN)]].
  - intros [(_ & -> & Ho)|((-> & _) & _)]; [|done]. intros a b e' Ha Hb. apply elem_of_cons in Ha as [[=]|Ha]. apply elem_of_cons in Hb as [[= -> ->]|Hb]; [symmetry; by apply Ho | by eapply Hl].
  - intros [(_ & -> & ->)|((-> & _) & _)]; [|done]. intros a b e' Ha Hb. apply list_elem_of_singleton in Ha, Hb. congruence.
  - intros [(_ & l1 & e' & l2 & -> & ->)|(_ & _ & -> & _)]; [|done]. intros a b x Ha Hb. apply (Hl a b x); apply elem_of_app; rewrite elem_of_cons; apply elem_of_app in Ha, Hb; tauto.
  - by intros (_ & _ & ->).
Qed.

Lemma exclusive_cases l : Forall (fun x : Z * bool => x.2 = false) l \/ exists h, (h, true) ∈ l.
Proof.
  destruct (decide (Exists (fun x : Z * bool => x.2 = true) l)) as [E|E]; [right|left].
  - apply Exists_exists in E as ([h e] & Hin & He). cbn in He. subst e. by exists h.
  - apply Forall_forall. intros x Hx. destruct x as [h []]; [|done]. destruct E. apply Exists_exists. by exists (h, true).
Qed.

(** flock on a file descriptor does what the locks of the file allow: shared locks go
    together, an exclusive one needs a file without locks, a refused lock makes the caller
    wait, or fails with EWOULDBLOCK; every step keeps an exclusive lock alone. *)
Theorem flock_steps (fd operation : Z) (e : fdinfo) s
    (Hfd : view (table s) fd = Some e) (Hfile : type e = FILE_HANDLE) (Hl : exclusive (locks (kernel s))) :
  exists r s', wlibc_flock (garbage 0) fd operation s = Some (r, s') /\ table s' = table s /\
    flock_step (handle e) operation (locks (kernel s)) r (errno s') (locks (kernel s')) /\ exclusive (locks (kernel s')).
Proof.
  assert (exists r s', wlibc_flock (garbage 0) fd operation s = Some (r, s') /\ table s' = table s /\ flock_step (handle e) operation (locks (kernel s)) r (errno s') (locks (kernel s'))) as (r & s' & E & Ht & Hs);
    [|exists r, s'; eauto using exclusive_step].
  unfold wlibc_flock, flock_step. rewrite (M_bind_Some _ _ _ _ _ (get_fdinfo_view s fd e (garbage 0) Hfd)), bool_decide_eq_true_2 by done. cbn [negb]. cbv zeta.
  set (o := Z.ldiff operation LOCK_NB). set (nb := has operation LOCK_NB). set (h := handle e). set (k := kernel s).
  destruct (o =? LOCK_SH) eqn:E1; [|destruct (o =? LOCK_EX) eqn:E2; [|destruct (o =? LOCK_UN) eqn:E3]]; cbn [negb andb]; [| | |by eexists _, _]; rewrite (M_bind_Some _ _ _ _ _ eq_refl); fold k.
  - destruct (lock_result (locks := locks) h nb false k) as [(k' & Hlk & Hk)|Hr].
    + rewrite Hlk. exists (Some 0), (with_kernel s k'). split; [done|]. split; [done|]. left. split; [done|]. split; [exact Hk|]. intros h' Hin.
      destruct (decide (h' = h)) as [|Hne]; [done|]. pose proof (lock_refused (locks := locks) h h' nb k) as Hn. rewrite Hn in Hlk by done. by destruct nb.
    + rewrite Hr. assert (exists h', (h', true) ∈ locks k) as He.
      { destruct (exclusive_cases (locks k)) as [Hf|?]; [|done]. destruct (lock_shared (locks := locks) h nb k Hf) as (k' & Hg & _). rewrite Hr in Hg. by destruct nb. }
      destruct nb; by eexists _, _; (split; [done|]); (split; [done|]); right.
  - destruct (decide (locks k = [])) as [Hnil|Hne].
    + destruct (lock_result (locks := locks) h nb true k) as [(k' & -> & Hk)|Hr]; [|by apply (lock_exclusive (locks := locks)) in Hr].
      exists (Some 0), (with_kernel s k'). split; [done|]. split; [done|]. left. split; [done|]. split; [done|]. change (locks k' = [(h, true)]). by rewrite Hk, Hnil.
    + rewrite (proj1 (lock_exclusive (locks := locks) h nb k) Hne). destruct nb; by eexists _, _; (split; [done|]); (split; [done|]); right.
  - destruct (unlock_result (locks := locks) h k) as [(l1 & x & l2 & k' & -> & Hk & Hk')|(Hn & ->)].
    + exists (Some 0), (with_kernel s k'). split; [done|]. split; [done|]. left. split; [done|]. by exists l1, x, l2.
    + eexists _, _. split; [done|]. split; [done|]. by right.
Qed.

(** A caller with a shared lock who asks for an exclusive one is refused by its own lock:
    it waits forever, or gets EWOULDBLOCK, although nobody else has a lock. *)
Theorem flock_never_converts (fd operation : Z) (e : fdinfo) s
    (Hfd : view (table s) fd = Some e) (Hfile : type e = FILE_HANDLE) (Hop : Z.ldiff operation LOCK_NB = LOCK_EX) (Hl : locks (kernel s) = [(handle e, false)]) :
  wlibc_flock (garbage 0) fd operation s = if has operation LOCK_NB then Some (Some (-1), with_errno s EWOULDBLOCK) else Some (None, s).
Proof.
  unfold wlibc_flock. rewrite (M_bind_Some _ _ _ _ _ (get_fdinfo_view s fd e (garbage 0) Hfd)), bool_decide_eq_true_2 by done. cbn [negb]. cbv zeta. rewrite Hop. change (LOCK_EX =? LOCK_SH) with false. change (LOCK_EX =? LOCK_EX) with true. cbn [negb andb].
  rewrite (M_bind_Some _ _ _ _ _ eq_refl). cbv iota. rewrite (proj1 (lock_exclusive (locks := locks) (handle e) (has operation LOCK_NB) (kernel s))) by (by rewrite Hl).
  destruct (has operation LOCK_NB); [|done]. by destruct s.
Qed.
End Locks.

(** ** Witnesses *)

(** A machine with at most one view, at 65536, one section, and the locks of a file. *)
Module Mapper.
Export Idle.
Record K := Machine { m_views : gmap Z mview; m_sections : gmap Z msection; m_locks : list (Z * bool) }.

Definition refuse (nowait : bool) (k : K) : option (NTSTATUS * K) := if nowait then Some (STATUS_LOCK_NOT_GRANTED, k) else None.
Definition push (h : Z) (e : bool) (k : K) : K := Machine (m_views k) (m_sections k) ((h, e) :: m_locks k).

(** The locks without the first one of a handle. *)
Fixpoint without (h : Z) (l : list (Z * bool)) : option (list (Z * bool)) :=
  match l with [] => None | x :: l => if x.1 =? h then Some l else l ← without h l; Some (x :: l) end.

#[export] Instance mapper_close : Kernel K := {
  NtClose h k := (STATUS_SUCCESS, Machine (m_views k) (delete h (m_sections k)) (m_locks k));
  NtDuplicateObject _ _ k := (STATUS_SUCCESS, 1, k);
  NtQueryDeviceType _ _ := Some FILE_DEVICE_DISK;
  NtQueryAttributes _ _ := Some 0;
  NtQueryAccess _ _ := None;
  NtOpenConsole _ k := (0, k);
  garbage _ := Fdinfo 0 INVALID_HANDLE 0 0
}.

#[export] Instance mapper : MemoryKernel K := {
  NtCreateSectionEx size _ _ file k := match m_sections k !! 7 with None => (STATUS_SUCCESS, 7, Machine (m_views k) (<[7 := Section_ file size]> (m_sections k)) (m_locks k)) | Some _ => (STATUS_NO_MEMORY, 0, k) end;
  NtMapViewOfSectionEx h _ offset size protection k :=
    match m_sections k !! h, m_views k !! 65536 with
    | Some x, None =>
        if (offset =? 0) && (size <=? page * pages_of (section_max x)) && negb (protection =? 0)
        then (STATUS_SUCCESS, 65536, Machine (<[65536 := View (section_file x) 0 (replicate (Z.to_nat (pages_of size)) protection)]> (m_views k)) (m_sections k) (m_locks k))
        else (STATUS_INVALID_PARAMETER, 0, k)
    | _, _ => (STATUS_NO_MEMORY, 0, k)
    end;
  NtUnmapViewOfSectionEx a k :=
    match list_find (fun x : Z * mview => x.1 <= a < x.1 + view_size x.2) (map_to_list (m_views k)) with
    | Some (_, x) => (STATUS_SUCCESS, Machine (delete x.1 (m_views k)) (m_sections k) (m_locks k))
    | None => (STATUS_INVALID_PARAMETER, k)
    end;
  NtProtectVirtualMemory a size protection k :=
    match m_views k !! 65536 with
    | Some v =>
        if bool_decide (covers 65536 v a size) && negb (protection =? 0)
        then (STATUS_SUCCESS, Machine (<[65536 := protect_view 65536 a size protection v]> (m_views k)) (m_sections k) (m_locks k))
        else (STATUS_INVALID_PARAMETER, k)
    | None => (STATUS_INVALID_PARAMETER, k)
    end;
  NtFlushVirtualMemory a size k :=
    match m_views k !! 65536 with
    | Some v => if bool_decide (65536 <= a < 65536 + view_size v) then (STATUS_SUCCESS, k) else (STATUS_INVALID_PARAMETER, k)
    | None => (STATUS_INVALID_PARAMETER, k)
    end;
  NtLockVirtualMemory _ _ k := (STATUS_SUCCESS, k);
  NtUnlockVirtualMemory _ _ k := (STATUS_SUCCESS, k);
  NtLockFile h nowait e k := if bool_decide (m_locks k = []) || (negb e && bool_decide (Forall (fun x => x.2 = false) (m_locks k))) then Some (STATUS_SUCCESS, push h e k) else refuse nowait k;
  NtUnlockFile h k := match without h (m_locks k) with Some l => (STATUS_SUCCESS, Machine (m_views k) (m_sections k) l) | None => (STATUS_RANGE_NOT_LOCKED, k) end;
  NtFlushBuffersFileEx _ _ k := (STATUS_SUCCESS, k)
}.

#[export] Instance mapper_space : AddressSpace m_views m_sections.
Proof.
  split.
  - intros size prot attr file k. cbn. destruct (m_sections k !! 7) eqn:E; [done|]. by rewrite bool_decide_eq_true_2.
  - intros h address offset size prot k x Hx Hsize. cbn -[page pages_of]. rewrite Hx. destruct (m_views k !! 65536) eqn:E; [done|].
    destruct ((offset =? 0) && (size <=? _) && negb (prot =? 0)) eqn:Eo; [|done].
    apply andb_prop in Eo as [[->%Z.eqb_eq Hle%Z.leb_le]%andb_prop Hp%negb_true_iff%Z.eqb_neq]. rewrite bool_decide_eq_true_2 by done.
    split; [done|]. split; [done|]. split; [done|]. split; [lia|]. done.
  - intros a k. cbn. destruct (list_find _ _) as [[i x]|] eqn:E.
    + apply list_find_Some in E as (Hi & Hx & _). split; [done|]. left. exists x.1. apply list_elem_of_lookup_2 in Hi. destruct x as [b v]. apply elem_of_map_to_list in Hi. split; [by exists v | done].
    + apply list_find_None in E. split; [done|]. right. split; [|done]. intros b (v & Hv & Hr). rewrite Forall_forall in E. apply (E (b, v)); [by apply elem_of_map_to_list | done].
  - intros a size prot k. cbn -[protect_view]. destruct (m_views k !! 65536) as [v|] eqn:E; [|done].
    destruct (bool_decide (covers 65536 v a size) && negb (prot =? 0)) eqn:Eo; [|done].
    apply andb_prop in Eo as [Hc%bool_decide_eq_true Hp%negb_true_iff%Z.eqb_neq]. rewrite bool_decide_eq_true_2 by done. split; [done|]. by exists 65536, v.
  - intros a size k. cbn. destruct (m_views k !! 65536) as [v|] eqn:E; [|done]. case_bool_decide as Ha; [|done].
    split; [done|]. split; [done|]. intros _. exists 65536, v. done.
  - done.
Qed.

Lemma without_Some h l l' : without h l = Some l' -> exists l1 e l2, l = l1 ++ (h, e) :: l2 /\ l' = l1 ++ l2.
Proof.
  revert l'. induction l as [|[a e] l IH]; intros l' H; [done|]. cbn in H. destruct (a =? h) eqn:E.
  - apply Z.eqb_eq in E as ->. injection H as <-. by exists [], e, l.
  - destruct (without h l) as [l0|]; [|done]. injection H as <-. destruct (IH _ eq_refl) as (l1 & e' & l2 & -> & ->). by exists ((a, e) :: l1), e', l2.
Qed.

Lemma without_None h l e : without h l = None -> (h, e) ∉ l.
Proof.
  induction l as [|[a e'] l IH]; intros H; [by intros ?%elem_of_nil|]. cbn in H. destruct (a =? h) eqn:E; [done|]. apply Z.eqb_neq in E. destruct (without h l); [done|].
  intros [[= ]|Hin]%elem_of_cons; [done|]. by apply IH.
Qed.

#[export] Instance mapper_locks : FileLocks m_locks.
Proof.
  split.
  - intros h nowait e k. cbn. destruct (_ || _); [left; by eexists | by right].
  - intros h nowait k. cbn. case_bool_decide as E; cbn [orb negb andb]; split; [done | by destruct nowait | done | done].
  - intros h nowait k Hf. cbn. rewrite (bool_decide_eq_true_2 _ Hf). cbn [negb andb]. rewrite orb_true_r. by eexists.
  - intros h h' nowait k Hne Hin. cbn. rewrite bool_decide_eq_false_2 by (intros E; rewrite E in Hin; by apply elem_of_nil in Hin). cbn [orb negb andb].
    rewrite bool_decide_eq_false_2; [done|]. intros Hf. rewrite Forall_forall in Hf. by apply Hf in Hin.
  - intros h k. cbn. destruct (without h (m_locks k)) as [l|] eqn:E; [left | right].
    + destruct (without_Some _ _ _ E) as (l1 & e & l2 & Hl & ->). by eexists l1, e, l2, _.
    + split; [|done]. intros e. by apply without_None.
Qed.

Definition machine : state K := process FILE_HANDLE (Machine ∅ ∅ []).
End Mapper.

Import Mapper.


Lemma mmap_offset_leaks_witness : exists s', wlibc_mmap (garbage 0) 0 100 PROT_READ 0 3 65536 machine = Some (MAP_FAILED, s') /\ m_sections (kernel s') !! 7 = Some (Section_ 1 100).
Proof.
  destruct (mmap_offset_leaks m_views m_sections 0 100 PROT_READ 0 3 65536 (Fdinfo 1 FILE_HANDLE O_RDWR 1) machine 7 (Machine ∅ {[7 := Section_ 1 100]} [])) as (s' & E & _ & Hs); [done..|].
  exists s'. split; [exact E|]. by rewrite Hs, lookup_insert_eq.
Defined.

Lemma flock_steps_witness : exists r s', wlibc_flock (garbage 0) 3 (Z.lor LOCK_EX LOCK_NB) machine = Some (r, s') /\ r = Some 0 /\ m_locks (kernel s') = [(1, true)].
Proof.
  destruct (flock_steps m_locks 3 (Z.lor LOCK_EX LOCK_NB) (Fdinfo 1 FILE_HANDLE O_RDWR 1) machine) as (r & s' & E & _); [done | done | by intros ? ? ? ?%elem_of_nil |].
  exists r, s'. split; [exact E|]. vm_compute in E. injection E as <- <-. done.
Defined.

Lemma flock_never_converts_witness : wlibc_flock (garbage 0) 3 LOCK_EX (process FILE_HANDLE (Machine ∅ ∅ [(1, false)])) = Some (None, process FILE_HANDLE (Machine ∅ ∅ [(1, false)])).
Proof. exact (flock_never_converts m_locks 3 LOCK_EX (Fdinfo 1 FILE_HANDLE O_RDWR 1) (process FILE_HANDLE (Machine ∅ ∅ [(1, false)])) eq_refl eq_refl eq_refl eq_refl). Defined.
