(* ===== verification/Terminal.v ===== *)
(** * Terminals

    termios (src/termios, src/include/termios.h), ioctl (src/sys/ioctl/ioctl.c), isatty and
    ttyname (src/unistd/isatty.c, ttyname.c), and what they promise: the attributes that are
    set are read back, except that two of them share a bit of the console; the size of the
    window is read back. *)

From stdpp Require Import strings gmap.
From S2P Require Import Prelude Errno Buffer FdTable FdTableFacts FileIo Path PathFacts Open Dirent Security Time Stat Idle.

Definition ENOTTY : Z := 25.

Definition IGNBRK : Z := 0x1.
Definition OPOST : Z := 0x1.
Definition ECHO : Z := 0x8.
Definition ICANON : Z := 0x100.
Definition IEXTEN : Z := 0x400.
Definition TCSANOW : Z := 0.
Definition TCSAFLUSH : Z := 2.
Definition TCOOFF : Z := 0.
Definition TCION : Z := 3.
Definition TCIFLUSH : Z := 0.
Definition TCIOFLUSH : Z := 2.
Definition B38400 : Z := 38400.

Definition TIOCGWINSZ : Z := 1.
Definition TIOCSWINSZ : Z := 2.
Definition FIONREAD : Z := 3.
Definition FIONWRITE : Z := 4.

(** Modes of consoles and speeds (wincon.h, winbase.h). *)
Definition ENABLE_PROCESSED_INPUT : Z := 0x0001.
Definition ENABLE_LINE_INPUT : Z := 0x0002.
Definition ENABLE_ECHO_INPUT : Z := 0x0004.
Definition ENABLE_VIRTUAL_TERMINAL_INPUT : Z := 0x0200.
Definition ENABLE_PROCESSED_OUTPUT : Z := 0x0001.
Definition BAUD_38400 : Z := 0x00004000.

(** [struct termios]; the control characters are not looked at. *)
Record termios := Termios { c_iflag : Z; c_oflag : Z; c_cflag : Z; c_lflag : Z; c_ispeed : Z; c_ospeed : Z; c_cc : list Z }.

Record winsize := Winsize { ws_row : Z; ws_col : Z; ws_xpixel : Z; ws_ypixel : Z }.

(** Calls on consoles give an error or a result: the mode, the size in columns and rows,
    which of the waiting events (of at most 16) are keys, the title and the length that is
    stored. [NtQueryPipeLocal] tells the bytes to read, the quota and what is left of it. *)
Class ConsoleKernel (K : Type) := {
  GetConsoleMode : Z -> K -> DOSERROR + Z;
  SetConsoleMode : Z -> Z -> K -> option DOSERROR * K;
  GetConsoleScreenBufferInfoEx : Z -> K -> DOSERROR + Z * Z;
  SetConsoleScreenBufferSize : Z -> Z * Z -> K -> option DOSERROR * K;
  PeekConsoleKeys : Z -> Z -> K -> DOSERROR + list bool;
  GetConsoleOriginalTitleA : Z -> K -> list Z;
  NtQueryPipeLocal : Z -> K -> NTSTATUS * (Z * Z * Z)
}.

(** ** Attributes *)

(** A bit for a bit. *)
Definition given (mode bit flag : Z) (flags : Z) : Z := if has mode bit then Z.lor flags flag else flags.

Definition read_mode (mode : Z) (cc : list Z) : termios :=
  let c_iflag := given mode ENABLE_PROCESSED_INPUT IGNBRK 0 in
  let c_oflag := given mode ENABLE_PROCESSED_OUTPUT OPOST 0 in
  let c_lflag := given mode ENABLE_ECHO_INPUT ECHO 0 in
  let c_lflag := given mode ENABLE_LINE_INPUT ICANON c_lflag in
  let c_lflag := given mode ENABLE_VIRTUAL_TERMINAL_INPUT IEXTEN c_lflag in
  Termios c_iflag c_oflag 0 c_lflag BAUD_38400 BAUD_38400 cc.

Definition put (flags flag bit mode : Z) : Z := if has flags flag then Z.lor mode bit else Z.land mode (u32 (Z.lnot bit)).

Definition write_mode (t : termios) (mode : Z) : Z :=
  let mode := put (c_iflag t) IGNBRK ENABLE_PROCESSED_INPUT mode in
  let mode := put (c_oflag t) OPOST ENABLE_PROCESSED_OUTPUT mode in
  let mode := put (c_lflag t) ECHO ENABLE_ECHO_INPUT mode in
  let mode := put (c_lflag t) ICANON ENABLE_LINE_INPUT mode in
  put (c_lflag t) IEXTEN ENABLE_VIRTUAL_TERMINAL_INPUT mode.

Section Terminal.
Context {K : Type} {KN : Kernel K} {CK : ConsoleKernel K}.

Definition fail_dos (error : DOSERROR) : M K Z := s ← get; _ ← set_errno (map_doserror_to_errno error (errno s)); mret (-1).

(** A descriptor that is not a console gives [e]. *)
Definition on_console (info : fdinfo) (fd e : Z) (m : Z -> M K Z) : M K Z :=
  info ← get_fdinfo fd info;
  if negb (bool_decide (type info = CONSOLE_HANDLE)) then fail e else m (handle info).

(** [termio] is what the structure of the caller holds; what is stored is returned. *)
Definition wlibc_tcgetattr (info : fdinfo) (fd : Z) (termio : option termios) : M K (Z * option termios) :=
  match termio with
  | None => r ← fail EINVAL; mret (r, None)
  | Some old =>
      info ← get_fdinfo fd info;
      if negb (bool_decide (type info = CONSOLE_HANDLE)) then r ← fail EBADF; mret (r, Some old)
      else
        s ← get;
        match GetConsoleMode (handle info) (kernel s) with
        | inl error => r ← fail_dos error; mret (r, Some old)
        | inr mode => mret (0, Some (read_mode mode (c_cc old)))
        end
  end.

Definition wlibc_tcsetattr (info : fdinfo) (fd action : Z) (termio : option termios) : M K Z :=
  match termio with
  | None => fail EINVAL
  | Some t =>
      if (action <? TCSANOW) || (action >? TCSAFLUSH) then fail EINVAL
      else
        on_console info fd EBADF (fun h =>
          s ← get;
          match GetConsoleMode h (kernel s) with
          | inl error => fail_dos error
          | inr mode =>
              let '(r, k) := SetConsoleMode h (write_mode t mode) (kernel s) in
              _ ← set_kernel k;
              match r with Some error => fail_dos error | None => mret 0 end
          end)
  end.

(** ** Calls that only check their arguments *)

Definition wlibc_tcsendbreak (info : fdinfo) (fd duration : Z) : M K Z := on_console info fd EBADF (fun _ => if duration <? 0 then fail EINVAL else mret 0).
Definition wlibc_tcdrain (info : fdinfo) (fd : Z) : M K Z := on_console info fd EBADF (fun _ => mret 0).
Definition wlibc_tcflow (info : fdinfo) (fd action : Z) : M K Z := on_console info fd EBADF (fun _ => if (action <? TCOOFF) || (action >? TCION) then fail EINVAL else mret 0).
Definition wlibc_tcflush (info : fdinfo) (fd queue : Z) : M K Z := if (queue <? TCIFLUSH) || (queue >? TCIOFLUSH) then fail EINVAL else wlibc_tcdrain info fd.

(** The speeds are kept in the structure. *)
Definition cfgetispeed (termio : option termios) : M K Z := match termio with None => r ← fail EINVAL; mret (u32 r) | Some t => mret (c_ispeed t) end.
Definition cfgetospeed (termio : option termios) : M K Z := match termio with None => r ← fail EINVAL; mret (u32 r) | Some t => mret (c_ospeed t) end.
Definition cfsetispeed (termio : option termios) (speed : Z) : M K (Z * option termios) :=
  match termio with
  | None => r ← fail EINVAL; mret (r, None)
  | Some t => mret (0, Some (Termios (c_iflag t) (c_oflag t) (c_cflag t) (c_lflag t) speed (c_ospeed t) (c_cc t)))
  end.
Definition cfsetospeed (termio : option termios) (speed : Z) : M K (Z * option termios) :=
  match termio with
  | None => r ← fail EINVAL; mret (r, None)
  | Some t => mret (0, Some (Termios (c_iflag t) (c_oflag t) (c_cflag t) (c_lflag t) (c_ispeed t) speed (c_cc t)))
  end.

(** ** ioctl *)

(** The argument of a request: a window, a number, or a null pointer. *)
Inductive ioctl_arg := ArgWindow (w : winsize) | ArgInt (n : Z) | ArgNull.

(** [int] that is incremented; too many overflow. *)
Fixpoint count_keys (l : list bool) (n : Z) : option Z :=
  match l with [] => Some n | key :: l => n ← (if key : bool then i32 (n + 1) else Some n); count_keys l n end.

(** The result and the argument afterwards. A request that gets the wrong kind of
    pointer is undefined. *)
Definition wlibc_ioctl (info : fdinfo) (fd request : Z) (arg : ioctl_arg) : M K (Z * ioctl_arg) :=
  let failed (m : M K Z) : M K (Z * ioctl_arg) := r ← m; mret (r, arg) in
  info ← get_fdinfo fd info;
  let h := handle info in
  let console := bool_decide (type info = CONSOLE_HANDLE) in
  s ← get;
  if bool_decide (type info = INVALID_HANDLE) then failed (fail EBADF)
  else if request =? TIOCGWINSZ then
    if negb console then failed (fail ENOTTY)
    else
      match arg with
      | ArgNull => failed (fail EINVAL)
      | ArgWindow _ =>
          match GetConsoleScreenBufferInfoEx h (kernel s) with
          | inl error => failed (fail_dos error)
          | inr (x, y) => mret (0, ArgWindow (Winsize (u16 y) (u16 x) 0 0))
          end
      | ArgInt _ => UB
      end
  else if request =? TIOCSWINSZ then
    if negb console then failed (fail ENOTTY)
    else
      match arg with
      | ArgNull => failed (fail EINVAL)
      | ArgWindow w =>
          let '(r, k) := SetConsoleScreenBufferSize h (swrap 16 (ws_col w), swrap 16 (ws_row w)) (kernel s) in
          _ ← set_kernel k;
          match r with Some error => failed (fail_dos error) | None => mret (0, arg) end
      | ArgInt _ => UB
      end
  else if request =? FIONREAD then
    match arg with
    | ArgNull => failed (fail EINVAL)
    | ArgWindow _ => UB
    | ArgInt n =>
        if bool_decide (type info = PIPE_HANDLE) then
          let '(status, (available, _, _)) := NtQueryPipeLocal h (kernel s) in
          if negb (bool_decide (status = STATUS_SUCCESS)) then failed (fail_status status) else mret (0, ArgInt (swrap 32 available))
        else if console then
          match PeekConsoleKeys h 16 (kernel s) with
          | inl error => failed (fail_dos error)
          | inr keys => n ← lift (count_keys keys n); mret (0, ArgInt n)
          end
        else mret (0, ArgInt 0)
    end
  else if request =? FIONWRITE then
    match arg with
    | ArgNull => failed (fail EINVAL)
    | ArgWindow _ => UB
    | ArgInt _ =>
        if bool_decide (type info = PIPE_HANDLE) then
          let '(status, (_, quota, rest)) := NtQueryPipeLocal h (kernel s) in
          if negb (bool_decide (status = STATUS_SUCCESS)) then failed (fail_status status) else mret (0, ArgInt (swrap 32 (u32 (quota - rest))))
        else mret (0, ArgInt 0)
    end
  else failed (fail EINVAL).

(** ** Names of terminals *)

Definition wlibc_isatty (fd : Z) : M K Z :=
  type ← get_fd_type fd;
  if bool_decide (type = INVALID_HANDLE) then _ ← set_errno EBADF; mret 0
  else if bool_decide (type = CONSOLE_HANDLE) then mret 1
  else _ ← set_errno ENOTTY; mret 0.

(** The title; [None] is a null pointer. An error of the console is ignored. *)
Definition wlibc_ttyname (fd : Z) : M K (option (list Z)) :=
  r ← wlibc_isatty fd;
  s ← get;
  mret (if negb (r =? 0) then Some (GetConsoleOriginalTitleA 256 (kernel s)) else None).

(** The error, and what is stored; an empty title is an error. *)
Definition wlibc_ttyname_r (fd : Z) (buffer : bool) (bufsiz : Z) : M K (Z * option (list Z)) :=
  if negb buffer then _ ← set_errno EINVAL; mret (EINVAL, None)
  else
    r ← wlibc_isatty fd;
    s ← get;
    if negb (r =? 0) then
      match GetConsoleOriginalTitleA (u32 bufsiz) (kernel s) with
      | [] => _ ← set_errno ERANGE; mret (ERANGE, None)
      | title => mret (0, Some title)
      end
    else mret (errno s, None).
End Terminal.

(** ** What they promise *)

(** A bit of a mode after a bit was put there. *)
Lemma put_testbit flags flag n mode j : 0 <= n < 32 -> 0 <= j < 32 ->
  Z.testbit (put flags flag (2 ^ n) mode) j = if j =? n then has flags flag else Z.testbit mode j.
Proof.
  intros Hn Hj. unfold put, wrap. destruct (has flags flag).
  - rewrite Z.lor_spec, Z.pow2_bits_eqb, Z.eqb_sym by lia. destruct (j =? n); [apply orb_true_r | apply orb_false_r].
  - rewrite Z.land_spec, Z.mod_pow2_bits_low, Z.lnot_spec, Z.pow2_bits_eqb, Z.eqb_sym by lia. destruct (j =? n); [apply andb_false_r | apply andb_true_r].
Qed.

(** The bits of a mode that is written: the output flag decides over bit 0. *)
Lemma write_mode_bits t mode j : 0 <= j < 32 ->
  Z.testbit (write_mode t mode) j =
    if j =? 9 then has (c_lflag t) IEXTEN else if j =? 1 then has (c_lflag t) ICANON else if j =? 2 then has (c_lflag t) ECHO
    else if j =? 0 then has (c_oflag t) OPOST else Z.testbit mode j.
Proof.
  intros Hj. unfold write_mode. change ENABLE_VIRTUAL_TERMINAL_INPUT with (2 ^ 9). change ENABLE_LINE_INPUT with (2 ^ 1). change ENABLE_ECHO_INPUT with (2 ^ 2).
  change ENABLE_PROCESSED_OUTPUT with (2 ^ 0). change ENABLE_PROCESSED_INPUT with (2 ^ 0). rewrite !put_testbit by lia. by destruct (j =? 9), (j =? 1), (j =? 2), (j =? 0).
Qed.

Lemma given_bit mode n flag flags : 0 <= n -> given mode (2 ^ n) flag flags = if Z.testbit mode n then Z.lor flags flag else flags.
Proof. intros Hn. unfold given. by rewrite has_pow2. Qed.

Lemma read_mode_bits mode cc :
  read_mode mode cc = Termios (if Z.testbit mode 0 then IGNBRK else 0) (if Z.testbit mode 0 then OPOST else 0) 0
    (Z.lor (if Z.testbit mode 2 then ECHO else 0) (Z.lor (if Z.testbit mode 1 then ICANON else 0) (if Z.testbit mode 9 then IEXTEN else 0))) BAUD_38400 BAUD_38400 cc.
Proof.
  unfold read_mode. change ENABLE_VIRTUAL_TERMINAL_INPUT with (2 ^ 9). change ENABLE_LINE_INPUT with (2 ^ 1). change ENABLE_ECHO_INPUT with (2 ^ 2).
  change ENABLE_PROCESSED_OUTPUT with (2 ^ 0). change ENABLE_PROCESSED_INPUT with (2 ^ 0). cbv zeta. rewrite !given_bit by lia. by destruct (Z.testbit mode 0), (Z.testbit mode 1), (Z.testbit mode 2), (Z.testbit mode 9).
Qed.

(** What a structure becomes by being set and read: the input flag is the output flag, and
    only the flags that the console knows are left. *)
Definition normal (t : termios) (cc : list Z) : termios :=
  Termios (if has (c_oflag t) OPOST then IGNBRK else 0) (if has (c_oflag t) OPOST then OPOST else 0) 0
    (Z.lor (if has (c_lflag t) ECHO then ECHO else 0) (Z.lor (if has (c_lflag t) ICANON then ICANON else 0) (if has (c_lflag t) IEXTEN then IEXTEN else 0))) BAUD_38400 BAUD_38400 cc.

(** A console keeps the mode and the size that are set. *)
Class Console {K : Type} `{ConsoleKernel K} (h : Z) (mode : K -> Z) (size : K -> Z * Z) : Prop := {
  console_mode k : GetConsoleMode h k = inr (mode k);
  console_set m k : 0 <= m < 2 ^ 32 -> exists k', SetConsoleMode h m k = (None, k') /\ mode k' = m /\ size k' = size k;
  console_size k : GetConsoleScreenBufferInfoEx h k = inr (size k);
  console_resize x k : 0 < x.1 < 2 ^ 15 -> 0 < x.2 < 2 ^ 15 -> exists k', SetConsoleScreenBufferSize h x k = (None, k') /\ size k' = x /\ mode k' = mode k
}.

Lemma wrap32_bits m : (forall j, 32 <= j -> Z.testbit m j = false) -> 0 <= m -> m < 2 ^ 32.
Proof.
  intros Hb Hm. destruct (Z.eq_dec m 0) as [->|Hne]; [lia|]. apply Z.log2_lt_pow2; [lia|]. destruct (Z.lt_ge_cases (Z.log2 m) 32) as [|Hge]; [done|].
  specialize (Hb _ Hge). rewrite Z.bit_log2 in Hb by lia. done.
Qed.

Lemma put_range flags flag n mode : 0 <= n < 32 -> 0 <= mode < 2 ^ 32 -> 0 <= put flags flag (2 ^ n) mode < 2 ^ 32.
Proof.
  intros Hn Hm. unfold put. destruct (has flags flag).
  - assert (0 <= Z.lor mode (2 ^ n)) by (apply Z.lor_nonneg; lia). split; [done|]. apply wrap32_bits; [|done]. intros j Hj. rewrite Z.lor_spec, Z.pow2_bits_false, orb_false_r by lia.
    rewrite <- (Z.mod_small mode (2 ^ 32)) by lia. by apply Z.mod_pow2_bits_high.
  - assert (0 <= Z.land mode (u32 (Z.lnot (2 ^ n)))) by (apply Z.land_nonneg; lia). split; [done|]. apply wrap32_bits; [|done]. intros j Hj. rewrite Z.land_spec, <- (Z.mod_small mode (2 ^ 32)), Z.mod_pow2_bits_high by lia. done.
Qed.

Lemma write_mode_range t mode : 0 <= mode < 2 ^ 32 -> 0 <= write_mode t mode < 2 ^ 32.
Proof.
  intros Hm. unfold write_mode. change ENABLE_VIRTUAL_TERMINAL_INPUT with (2 ^ 9). change ENABLE_LINE_INPUT with (2 ^ 1). change ENABLE_ECHO_INPUT with (2 ^ 2).
  change ENABLE_PROCESSED_OUTPUT with (2 ^ 0). change ENABLE_PROCESSED_INPUT with (2 ^ 0). by repeat apply put_range.
Qed.

Section Facts.
Context {K : Type} {KN : Kernel K} {CK : ConsoleKernel K} (h : Z) (mode : K -> Z) (size : K -> Z * Z) {CO : Console h mode size}.
Implicit Types s : state K.

(** A descriptor on the console. *)
Definition console_fd s fd : Prop := exists e, view (table s) fd = Some e /\ type e = CONSOLE_HANDLE /\ handle e = h.

Lemma console_info info s fd : console_fd s fd -> exists e, get_fdinfo fd info s = Some (e, s) /\ type e = CONSOLE_HANDLE /\ handle e = h.
Proof. intros (e & Hv & Ht & Hh). exists e. split; [by apply get_fdinfo_view | done]. Qed.

Lemma tcgetattr_ok info s fd old : console_fd s fd -> wlibc_tcgetattr info fd (Some old) s = Some ((0, Some (read_mode (mode (kernel s)) (c_cc old))), s).
Proof.
  intros Hfd. destruct (console_info info s fd Hfd) as (e & E & Ht & Hh). unfold wlibc_tcgetattr. rewrite (M_bind_Some _ _ _ _ _ E), bool_decide_eq_true_2 by done. cbn [negb].
  rewrite (M_bind_Some _ _ _ _ _ eq_refl), Hh, (console_mode (mode := mode)). done.
Qed.

Lemma tcsetattr_ok info s fd action t : console_fd s fd -> TCSANOW <= action <= TCSAFLUSH -> 0 <= mode (kernel s) < 2 ^ 32 ->
  exists k, wlibc_tcsetattr info fd action (Some t) s = Some (0, with_kernel s k) /\ mode k = write_mode t (mode (kernel s)) /\ size k = size (kernel s).
Proof.
  intros Hfd Ha Hm. destruct (console_info info s fd Hfd) as (e & E & Ht & Hh). unfold wlibc_tcsetattr, on_console. unfold TCSANOW, TCSAFLUSH in *.
  rewrite Z.gtb_ltb, (proj2 (Z.ltb_ge action 0)), (proj2 (Z.ltb_ge 2 action)) by lia. cbn [orb]. rewrite (M_bind_Some _ _ _ _ _ E), bool_decide_eq_true_2 by done. cbn [negb].
  rewrite (M_bind_Some _ _ _ _ _ eq_refl), Hh, (console_mode (mode := mode)).
  destruct (console_set (mode := mode) (size := size) (write_mode t (mode (kernel s))) (kernel s)) as (k & -> & Hk & Hs); [by apply write_mode_range|]. by exists k.
Qed.

(** the attributes that are set are read back up to their normal form, in which the
    input flag IGNBRK is what OPOST was set to; every other bit of the mode is as before. *)
Theorem termios_roundtrip (info : fdinfo) (fd action : Z) (t old : termios) s
    (Hfd : console_fd s fd) (Ha : TCSANOW <= action <= TCSAFLUSH) (Hm : 0 <= mode (kernel s) < 2 ^ 32) :
  exists k, wlibc_tcsetattr info fd action (Some t) s = Some (0, with_kernel s k) /\
    wlibc_tcgetattr info fd (Some old) (with_kernel s k) = Some ((0, Some (normal t (c_cc old))), with_kernel s k) /\
    (forall j, 0 <= j < 32 -> j ∉ [0; 1; 2; 9] -> Z.testbit (mode k) j = Z.testbit (mode (kernel s)) j).
Proof.
  destruct (tcsetattr_ok info s fd action t Hfd Ha Hm) as (k & E & Hk & _). exists k. split; [exact E|]. split.
  - rewrite tcgetattr_ok by done. do 4 f_equal. change (kernel (with_kernel s k)) with k. rewrite Hk, read_mode_bits, !write_mode_bits by lia. done.
  - intros j Hj Hn. rewrite Hk, write_mode_bits by done. rewrite !not_elem_of_cons in Hn. destruct Hn as (H0 & H1 & H2 & H9 & _). by rewrite !(proj2 (Z.eqb_neq _ _)).
Qed.

(** setting the attributes that were read changes nothing. *)
Theorem termios_restore (info : fdinfo) (fd action : Z) (old : termios) s
    (Hfd : console_fd s fd) (Ha : TCSANOW <= action <= TCSAFLUSH) (Hm : 0 <= mode (kernel s) < 2 ^ 32) :
  exists t k, wlibc_tcgetattr info fd (Some old) s = Some ((0, Some t), s) /\
    wlibc_tcsetattr info fd action (Some t) s = Some (0, with_kernel s k) /\ mode k = mode (kernel s).
Proof.
  set (t := read_mode (mode (kernel s)) (c_cc old)). destruct (tcsetattr_ok info s fd action t Hfd Ha Hm) as (k & E & Hk & _). exists t, k.
  split; [by apply tcgetattr_ok|]. split; [exact E|]. rewrite Hk. apply Z.bits_inj'. intros j Hj. destruct (Z.lt_ge_cases j 32) as [Hlt|Hge].
  - rewrite write_mode_bits by lia. unfold t. rewrite read_mode_bits. cbn [c_lflag c_oflag].
    destruct (Z.eqb_spec j 9) as [->|]; [|destruct (Z.eqb_spec j 1) as [->|]; [|destruct (Z.eqb_spec j 2) as [->|]; [|destruct (Z.eqb_spec j 0) as [->|]; [|done]]]];
      by destruct (Z.testbit (mode (kernel s)) 0), (Z.testbit (mode (kernel s)) 1), (Z.testbit (mode (kernel s)) 2), (Z.testbit (mode (kernel s)) 9).
  - pose proof (write_mode_range t _ Hm) as Hw. rewrite <- (Z.mod_small (write_mode _ _) (2 ^ 32)), <- (Z.mod_small (mode (kernel s)) (2 ^ 32)) by lia. by rewrite !Z.mod_pow2_bits_high by lia.
Qed.

(** the size of the window that is set is the one that is read. *)
Theorem window_roundtrip (info : fdinfo) (fd : Z) (w w0 : winsize) s
    (Hfd : console_fd s fd) (Hr : 0 < ws_row w < 2 ^ 15) (Hc : 0 < ws_col w < 2 ^ 15) :
  exists k, wlibc_ioctl info fd TIOCSWINSZ (ArgWindow w) s = Some ((0, ArgWindow w), with_kernel s k) /\
    wlibc_ioctl info fd TIOCGWINSZ (ArgWindow w0) (with_kernel s k) = Some ((0, ArgWindow (Winsize (ws_row w) (ws_col w) 0 0)), with_kernel s k) /\ mode k = mode (kernel s).
Proof.
  destruct (console_resize (mode := mode) (size := size) (ws_col w, ws_row w) (kernel s) Hc Hr) as (k & E & Hs & Hm). exists k. split; [|split; [|done]].
  - destruct (console_info info s fd Hfd) as (e & Ei & Ht & Hh). unfold wlibc_ioctl. rewrite (M_bind_Some _ _ _ _ _ Ei), (M_bind_Some _ _ _ _ _ eq_refl), Ht, Hh. cbn.
    rewrite !(swrap_small 16) by lia. by rewrite E.
  - destruct (console_info info (with_kernel s k) fd Hfd) as (e & Ei & Ht & Hh). unfold wlibc_ioctl. rewrite (M_bind_Some _ _ _ _ _ Ei), (M_bind_Some _ _ _ _ _ eq_refl), Ht, Hh. cbn.
    rewrite (console_size (mode := mode) (size := size)), Hs. cbn. by rewrite !(wrap_small 16) by lia.
Qed.

(** the keys that wait at a console are added to what the variable held. *)
Theorem fionread_adds_keys (info : fdinfo) (fd n : Z) (keys : list bool) s
    (Hfd : console_fd s fd) (Hk : PeekConsoleKeys h 16 (kernel s) = inr keys) (Hn : - 2 ^ 31 <= n < 2 ^ 31 - zlen keys) :
  wlibc_ioctl info fd FIONREAD (ArgInt n) s = Some ((0, ArgInt (n + zlen (filter (eq true) keys))), s).
Proof.
  destruct (console_info info s fd Hfd) as (e & Ei & Ht & Hh). unfold wlibc_ioctl. rewrite (M_bind_Some _ _ _ _ _ Ei), (M_bind_Some _ _ _ _ _ eq_refl), Ht, Hh. cbn. rewrite Hk.
  assert (count_keys keys n = Some (n + zlen (filter (eq true) keys))) as ->; [|done]. clear Hk. revert n Hn. induction keys as [|b keys IH]; intros n Hn; cbn [count_keys]; [cbn; f_equal; lia|].
  cbn [length] in Hn. destruct b.
  - unfold i32. replace ((- 2 ^ 31 <=? n + 1) && (n + 1 <? 2 ^ 31)) with true by lia. cbn [mbind option_bind]. rewrite IH by lia. rewrite filter_cons_True by done. cbn [length]. f_equal. lia.
  - cbn [mbind option_bind]. rewrite IH by lia. by rewrite filter_cons_False.
Qed.
End Facts.

(** ** Witnesses *)

(** A console that keeps its mode and its size, with two keys among three events. *)
Module Tty.
Export Idle.
Record K := Tty { tty_mode : Z; tty_size : Z * Z }.

#[export] Instance tty : ConsoleKernel K := {
  GetConsoleMode _ k := inr (tty_mode k);
  SetConsoleMode _ m k := (None, Tty m (tty_size k));
  GetConsoleScreenBufferInfoEx _ k := inr (tty_size k);
  SetConsoleScreenBufferSize _ x k := (None, Tty (tty_mode k) x);
  PeekConsoleKeys _ _ _ := inr [true; false; true];
  GetConsoleOriginalTitleA n _ := take (Z.to_nat n) (str "tty");
  NtQueryPipeLocal _ _ := (STATUS_SUCCESS, (0, 0, 0))
}.

#[export] Instance tty_console : Console 1 tty_mode tty_size.
Proof. split; intros; cbn; by eauto. Qed.

Definition machine : state K := process CONSOLE_HANDLE (Tty 0x1F7 (80, 25)).

(** What a structure holds before it is initialised. *)
Definition junk : fdinfo := Fdinfo 9 FILE_HANDLE 9 9.

Definition raw : termios := Termios IGNBRK 0 0 IEXTEN 0 0 [].

Lemma machine_fd : console_fd 1 machine 3.
Proof. by exists (Fdinfo 1 CONSOLE_HANDLE O_RDWR 1). Qed.
End Tty.

Import Tty.

Lemma termios_roundtrip_witness : exists k, wlibc_tcsetattr junk 3 TCSANOW (Some raw) machine = Some (0, with_kernel machine k) /\
  wlibc_tcgetattr junk 3 (Some raw) (with_kernel machine k) = Some ((0, Some (Termios 0 0 0 IEXTEN BAUD_38400 BAUD_38400 [])), with_kernel machine k).
Proof.
  destruct (termios_roundtrip 1 tty_mode tty_size junk 3 TCSANOW raw raw machine machine_fd) as (k & E & E' & _); [by unfold TCSANOW, TCSAFLUSH | by cbn |].
  exists k. split; [exact E | exact E'].
Defined.

Lemma termios_restore_witness : exists t k, wlibc_tcgetattr junk 3 (Some raw) machine = Some ((0, Some t), machine) /\
  wlibc_tcsetattr junk 3 TCSAFLUSH (Some t) machine = Some (0, with_kernel machine k) /\ tty_mode k = 0x1F7.
Proof. exact (termios_restore 1 tty_mode tty_size junk 3 TCSAFLUSH raw machine machine_fd ltac:(by unfold TCSANOW, TCSAFLUSH) ltac:(by cbn)). Defined.

Lemma window_roundtrip_witness : exists k, wlibc_ioctl junk 3 TIOCSWINSZ (ArgWindow (Winsize 50 132 7 7)) machine = Some ((0, ArgWindow (Winsize 50 132 7 7)), with_kernel machine k) /\
  wlibc_ioctl junk 3 TIOCGWINSZ (ArgWindow (Winsize 0 0 0 0)) (with_kernel machine k) = Some ((0, ArgWindow (Winsize 50 132 0 0)), with_kernel machine k) /\ tty_mode k = tty_mode (kernel machine).
Proof. exact (window_roundtrip 1 tty_mode tty_size junk 3 (Winsize 50 132 7 7) (Winsize 0 0 0 0) machine machine_fd ltac:(by cbn) ltac:(by cbn)). Defined.

Lemma fionread_adds_keys_witness : wlibc_ioctl junk 3 FIONREAD (ArgInt 40) machine = Some ((0, ArgInt (40 + 2)), machine).
Proof. exact (fionread_adds_keys 1 junk 3 40 [true; false; true] machine machine_fd eq_refl ltac:(cbn; lia)). Defined.
