(* ===== verification/System.v ===== *)
(** * The process and the system

    The start of the process (src/internal/wmain.c, src/errno/program.c, the name in
    src/error/error.c), random bytes (src/sys/random/random.c), the names of the machine
    (src/unistd/hostname.c, domainname.c, src/sys/utsname/uname.c), limits
    (src/unistd/conf.c, getpagesize.c, getdtablesize.c), identifiers (pid.c, uid.c, gid.c),
    handles as descriptors (src/fcntl/osfhandle.c), loaded libraries (src/dlfcn) and the
    texts of the locale (src/langinfo/langinfo.c); and what they promise. *)

From stdpp Require Import strings gmap.
From S2P Require Import Prelude Errno Buffer FdTable FdTableFacts FileIo Path PathFacts Open Dirent Security Time Stat Idle.

(** ** Start-up *)

(** The options of the build. *)
Record options := Options { WLIBC_IO : bool; WLIBC_SIGNALS : bool; WLIBC_SPAWN : bool; WLIBC_THREADS : bool; WLIBC_ACLS : bool; WLIBC_TIMERS : bool; WLIBC_ERRNO : bool }.

Inductive routine :=
  | init_fd_table | initialize_stdio | cleanup_fd_table | cleanup_stdio | signal_init | signal_cleanup | process_init | process_cleanup
  | threads_init | threads_cleanup | initialize_sids | cleanup_security_decsriptors | initialize_itimers | cleanup_itimers | init_program_name_routine.

#[export] Instance routine_eq_dec : EqDecision routine.
Proof. solve_decision. Defined.

Inductive startup_step := Call (r : routine) | Atexit (r : routine).

Definition startup (o : options) : list startup_step :=
  (if WLIBC_IO o then [Call init_fd_table; Call initialize_stdio; Atexit cleanup_fd_table; Atexit cleanup_stdio] else []) ++
  (if WLIBC_SIGNALS o then [Call signal_init; Atexit signal_cleanup] else []) ++
  (if WLIBC_SPAWN o then [Call process_init; Atexit process_cleanup] else []) ++
  (if WLIBC_THREADS o then [Call threads_init; Atexit threads_cleanup] else []) ++
  (if WLIBC_ACLS o then [Call initialize_sids; Atexit cleanup_security_decsriptors] else []) ++
  (if WLIBC_TIMERS o then [Call initialize_itimers; Atexit cleanup_itimers] else []) ++
  (if WLIBC_ERRNO o then [Call init_program_name_routine] else []).

(** The routines that were called, and those that will be: [atexit] runs the last one
    first. *)
Fixpoint called (l : list startup_step) : list routine :=
  match l with [] => [] | Call r :: l => r :: called l | Atexit _ :: l => called l end.
Fixpoint at_exit (l : list startup_step) (after : list routine) : list routine :=
  match l with [] => after | Call _ :: l => at_exit l after | Atexit r :: l => at_exit l (r :: after) end.

(** Faults by the signals they raise; the program goes on where it was. *)
Inductive exception :=
  | EXCEPTION_ACCESS_VIOLATION | EXCEPTION_DATATYPE_MISALIGNMENT | EXCEPTION_ARRAY_BOUNDS_EXCEEDED | EXCEPTION_GUARD_PAGE_VIOLATION | EXCEPTION_IN_PAGE_ERROR
  | EXCEPTION_FLT_DENORMAL_OPERAND | EXCEPTION_FLT_DIVIDE_BY_ZERO | EXCEPTION_FLT_INEXACT_RESULT | EXCEPTION_FLT_INVALID_OPERATION | EXCEPTION_FLT_OVERFLOW
  | EXCEPTION_FLT_STACK_CHECK | EXCEPTION_FLT_UNDERFLOW | EXCEPTION_INT_DIVIDE_BY_ZERO | EXCEPTION_INT_OVERFLOW
  | EXCEPTION_ILLEGAL_INSTRUCTION | EXCEPTION_PRIVILEGED_INSTRUCTION | EXCEPTION_STACK_OVERFLOW
  | EXCEPTION_other.

Inductive raised := Raise_SIGSEGV | Raise_SIGFPE | Raise_SIGILL.
Inductive disposition := EXCEPTION_CONTINUE_EXECUTION | EXCEPTION_CONTINUE_SEARCH.

Definition exception_handler (code : exception) : option raised * disposition :=
  match code with
  | EXCEPTION_ACCESS_VIOLATION | EXCEPTION_DATATYPE_MISALIGNMENT | EXCEPTION_ARRAY_BOUNDS_EXCEEDED | EXCEPTION_GUARD_PAGE_VIOLATION | EXCEPTION_IN_PAGE_ERROR =>
      (Some Raise_SIGSEGV, EXCEPTION_CONTINUE_EXECUTION)
  | EXCEPTION_FLT_DENORMAL_OPERAND | EXCEPTION_FLT_DIVIDE_BY_ZERO | EXCEPTION_FLT_INEXACT_RESULT | EXCEPTION_FLT_INVALID_OPERATION | EXCEPTION_FLT_OVERFLOW
  | EXCEPTION_FLT_STACK_CHECK | EXCEPTION_FLT_UNDERFLOW | EXCEPTION_INT_DIVIDE_BY_ZERO | EXCEPTION_INT_OVERFLOW => (Some Raise_SIGFPE, EXCEPTION_CONTINUE_EXECUTION)
  | EXCEPTION_ILLEGAL_INSTRUCTION | EXCEPTION_PRIVILEGED_INSTRUCTION | EXCEPTION_STACK_OVERFLOW => (Some Raise_SIGILL, EXCEPTION_CONTINUE_EXECUTION)
  | EXCEPTION_other => (None, EXCEPTION_CONTINUE_SEARCH)
  end.

(** ** The name of the program *)

(** The last slash and the text with slashes turned: the loop from [i] on. *)
Fixpoint turn_slashes (l : list Z) (i last_slash : Z) : list Z * Z :=
  match l with
  | [] => ([], last_slash)
  | c :: l => let '(t, last_slash) := turn_slashes l (i + 1) (if c =? 92 then i + 1 else last_slash) in ((if c =? 92 then ch "/" else c) :: t, last_slash)
  end.

(** [program_invocation_name] and [program_invocation_short_name]. *)
Definition init_program_name (image : list Z) : list Z * list Z :=
  let '(name, last_slash) := turn_slashes image 0 0 in (name, drop (Z.to_nat last_slash) name).

(** From the end to the last backslash: where the name starts; without one the text is
    read in front of its start. *)
Fixpoint name_start (l : list Z) (i : nat) : option nat :=
  match i with
  | O => None
  | S j => if byte_at l (Z.of_nat j) =? 92 then Some i else name_start l j
  end.

(** The buffer of 260 bytes is zero at first; a name of less than four characters copies a
    negative number of bytes. *)
Definition get_program_name (image : list Z) : option (list Z) :=
  start ← name_start image (length image);
  let n := zlen image - Z.of_nat start in
  if (n <? 4) || (260 <? n - 4) then None else Some (take (Z.to_nat (n - 4)) (drop start image)).

Section Startup.
Context {K : Type} {A : Allocator} {PK : PathKernel K}.

(** Texts to UTF-8: the first that cannot be converted ends the process. *)
Fixpoint convert_all (l : list (list Z)) : NTSTATUS + list (list Z) :=
  match l with
  | [] => inr []
  | t :: l =>
      let '(status, u8) := RtlUnicodeStringToUTF8String t None in
      if negb (bool_decide (status = STATUS_SUCCESS)) then inl status
      else match convert_all l with inl e => inl e | inr us => inr (u8 :: us) end
  end.

(** The arguments of [main]; [None] is a null pointer. *)
Definition main_argv (wargv : list (list Z)) : NTSTATUS + option (list (list Z)) :=
  match wargv with
  | [] => inr None
  | _ => if malloc_ok (8 * (zlen wargv + 1)) && malloc_ok (16 * zlen wargv) then match convert_all wargv with inl e => inl e | inr l => inr (Some l) end else inl STATUS_NO_MEMORY
  end.

(** The environment of [main]: [envc] is one less than the number of variables. Without
    variables it is -1, and a pointer is stored in front of the block. *)
Definition main_env (wenv : option (list (list Z))) : option (NTSTATUS + option (list (list Z))) :=
  match wenv with
  | None => Some (inr None)
  | Some wenv =>
      let envc := zlen wenv - 1 in
      if malloc_ok (u64 (8 * (envc + 1))) && malloc_ok (u64 (16 * envc)) then
        match convert_all (take (Z.to_nat envc) wenv) with
        | inl e => Some (inl e)
        | inr l => if envc <? 0 then None else Some (inr (Some l))
        end
      else Some (inl STATUS_NO_MEMORY)
  end.
End Startup.

(** ** Random bytes *)

Definition RD_RAND : Z := 1.
Definition RD_SEED : Z := 2.
Definition MAX_LENGTH : Z := 1048576.

(** A step of the processor stores 8, 4 or 2 bytes. *)
Class RandomSource (K : Type) := {
  rdrand_step : nat -> K -> list Z * K;
  rdseed_step : nat -> K -> list Z * K
}.

(** The steps for the last bytes. *)
Definition tail_steps (n : Z) : list nat :=
  if n =? 7 then [4; 2]%nat else if n =? 6 then [4; 2]%nat else if n =? 5 then [4]%nat else if n =? 4 then [4]%nat
  else if n =? 3 then [2]%nat else if n =? 2 then [2]%nat else [].

Section Random.
Context {K : Type}.

Fixpoint run_steps (step : nat -> K -> list Z * K) (l : list nat) (k : K) : list Z * K :=
  match l with [] => ([], k) | n :: l => let '(bs, k) := step n k in let '(r, k) := run_steps step l k in (bs ++ r, k) end.

(** The bytes that are stored, and how many are counted: the loop, 8 bytes in a round. *)
Fixpoint fill_buffer (fuel : nat) (step : nat -> K -> list Z * K) (length bytes_filled : Z) (k : K) : option (list Z * Z * K) :=
  match fuel with
  | O => None
  | S fuel =>
      if bytes_filled =? length then Some ([], bytes_filled, k)
      else if length - bytes_filled >=? 8 then
        let '(bs, k) := step 8%nat k in
        '(r, n, k) ← fill_buffer fuel step length (bytes_filled + 8) k;
        Some (bs ++ r, n, k)
      else
        let l := tail_steps (length - bytes_filled) in
        let '(bs, k) := run_steps step l k in
        Some (bs, bytes_filled + fold_right (fun n m => Z.of_nat n + m) 0 l, k)
  end.

Context {KN : Kernel K} {RS : RandomSource K}.

Definition fill_buffer_using_rdrand (length : Z) (k : K) : option (list Z * Z * K) := fill_buffer (Z.to_nat length + 1) rdrand_step length 0 k.
Definition fill_buffer_using_rdseed (length : Z) (k : K) : option (list Z * Z * K) := fill_buffer (Z.to_nat length + 1) rdseed_step length 0 k.

(** [buffer] tells whether there is one; the result, and the bytes that are stored. *)
Definition wlibc_generate_random_bytes (buffer : bool) (length source : Z) : M K (Z * list Z) :=
  let invalid := r ← fail EINVAL; mret (r, []) in
  if negb buffer || (length >? MAX_LENGTH) then invalid
  else if negb (source =? RD_RAND) && negb (source =? RD_SEED) then invalid
  else
    s ← get;
    '(bs, n, k) ← lift (if source =? RD_RAND then fill_buffer_using_rdrand length (kernel s) else fill_buffer_using_rdseed length (kernel s));
    _ ← set_kernel k;
    mret (n, bs).

Definition getrandom (buffer : bool) (length flags : Z) : M K (Z * list Z) := wlibc_generate_random_bytes buffer length 1.
Definition getentropy (buffer : bool) (length : Z) : M K (Z * list Z) := '(r, bs) ← wlibc_generate_random_bytes buffer length 2; mret (swrap 32 r, bs).
End Random.

(** ** Names of the machine *)

Definition WLIBC_UTSNAME_LENGTH : Z := 64.

(** The architecture of the processor (winnt.h); the environment and the locale. *)
Inductive architecture :=
  | PROCESSOR_ARCHITECTURE_INTEL | PROCESSOR_ARCHITECTURE_MIPS | PROCESSOR_ARCHITECTURE_ALPHA | PROCESSOR_ARCHITECTURE_PPC | PROCESSOR_ARCHITECTURE_SHX
  | PROCESSOR_ARCHITECTURE_ARM | PROCESSOR_ARCHITECTURE_IA64 | PROCESSOR_ARCHITECTURE_ALPHA64 | PROCESSOR_ARCHITECTURE_AMD64 | PROCESSOR_ARCHITECTURE_ARM64
  | PROCESSOR_ARCHITECTURE_other.

Class SystemKernel (K : Type) := {
  NtQueryProcessor : K -> NTSTATUS * architecture;
  NtQueryPageSize : K -> Z;
  CurrentProcessId : K -> Z;
  CurrentThreadId : K -> Z;
  InheritedFromUniqueProcessId : K -> Z;
  getenv_PATH : K -> option (list Z);
  NtQueryFsDeviceType : Z -> K -> NTSTATUS * device_type;
  NtQueryFileAttributes : Z -> K -> NTSTATUS * Z
}.

(** [struct utsname]: the arrays, as far as they are filled. *)
Record utsname := Utsname { sysname : list Z; nodename : list Z; release : list Z; version : list Z; machine : list Z; domainname : list Z }.

Definition machine_name (a : architecture) : list Z :=
  match a with
  | PROCESSOR_ARCHITECTURE_MIPS => str "mips"
  | PROCESSOR_ARCHITECTURE_ALPHA | PROCESSOR_ARCHITECTURE_ALPHA64 => str "alpha"
  | PROCESSOR_ARCHITECTURE_PPC => str "powerpc"
  | PROCESSOR_ARCHITECTURE_SHX => str "sh"
  | PROCESSOR_ARCHITECTURE_IA64 => str "ia64"
  | PROCESSOR_ARCHITECTURE_INTEL => str "x86"
  | PROCESSOR_ARCHITECTURE_AMD64 => str "x86_64"
  | PROCESSOR_ARCHITECTURE_ARM => str "arm"
  | PROCESSOR_ARCHITECTURE_ARM64 => str "arm64"
  | PROCESSOR_ARCHITECTURE_other => str "Unknown"
  end.

Definition tcpip_key : list Z := str "\Registry\Machine\SYSTEM\CurrentControlSet\Services\Tcpip\Parameters".
Definition computer_key : list Z := str "\Registry\Machine\SYSTEM\CurrentControlSet\Control\ComputerName\ActiveComputerName".
Definition version_key : list Z := str "\Registry\Machine\SOFTWARE\Microsoft\Windows NT\CurrentVersion".

Section Names.
Context {K : Type} {KN : Kernel K} {A : Allocator} {PK : PathKernel K} {YK : SystemKernel K}.

Abbreviation P := (SM path_state K).

Definition fail_P {X} (e : Z) (x : X) : P (Z * X) := _ ← run_M (set_errno e); mret (-1, x).

(** The text of a value in the block of the caller; the size of the block has 16 bits. *)
Definition store_value (data : list Z) (length : Z) : P (Z * option (list Z)) :=
  let '(status, text) := RtlUnicodeStringToUTF8String data (Some (u16 length)) in
  if negb (ok status) then _ ← fail_with status; mret (-1, None) else mret (0, Some text).

(** [name] tells whether there is a block; what is stored is returned. *)
Definition wlibc_gethostname (name : bool) (length : Z) : P (Z * option (list Z)) :=
  if negb name || (length <=? 0) then fail_P EINVAL None
  else
    data ← get_registry_value tcpip_key (str "HostName");
    data ← match data with Some d => mret (Some d) | None => get_registry_value computer_key (str "ComputerName") end;
    match data with
    | None => mret (-1, None)
    | Some data => store_value data length
    end.

Definition wlibc_getdomainname (name : bool) (length : Z) : P (Z * option (list Z)) :=
  if negb name || (length <=? 0) then fail_P EINVAL None
  else
    data ← get_registry_value tcpip_key (str "Domain");
    match data with
    | None => if length <? 12 then fail_P EINVAL None else mret (0, Some (str "localdomain"))
    | Some data => store_value data length
    end.

(** An error of the conversion only sets [errno]; the array is as it was. *)
Definition u16_value_to_u8_value (source old : list Z) : P (list Z) :=
  let '(status, text) := RtlUnicodeStringToUTF8String source (Some WLIBC_UTSNAME_LENGTH) in
  if negb (ok status) then _ ← fail_with status; mret old else mret text.

(** [b] is what the structure of the caller holds. *)
Definition wlibc_uname (name : option utsname) : P (Z * option utsname) :=
  match name with
  | None => fail_P EINVAL None
  | Some b =>
      v ← get_registry_value version_key (str "ProductName");
      match v with
      | None => mret (-1, Some b)
      | Some v =>
          t ← u16_value_to_u8_value v (sysname b);
          let b := Utsname t (nodename b) (release b) (version b) (machine b) (domainname b) in
          v ← get_registry_value version_key (str "DisplayVersion");
          match v with
          | None => mret (-1, Some b)
          | Some v =>
              t ← u16_value_to_u8_value v (version b);
              let b := Utsname (sysname b) (nodename b) (release b) t (machine b) (domainname b) in
              v ← get_registry_value version_key (str "BuildLabEx");
              match v with
              | None => mret (-1, Some b)
              | Some v =>
                  t ← u16_value_to_u8_value v (release b);
                  let b := Utsname (sysname b) (nodename b) t (version b) (machine b) (domainname b) in
                  k ← kernel_S;
                  let '(status, a) := NtQueryProcessor k in
                  if negb (ok status) then _ ← fail_with status; mret (-1, Some b)
                  else
                    let b := Utsname (sysname b) (nodename b) (release b) (version b) (machine_name a) (domainname b) in
                    '(r, t) ← wlibc_gethostname true WLIBC_UTSNAME_LENGTH;
                    if r =? -1 then mret (-1, Some b)
                    else
                      let b := Utsname (sysname b) (default [] t) (release b) (version b) (machine b) (domainname b) in
                      '(r, t) ← wlibc_getdomainname true WLIBC_UTSNAME_LENGTH;
                      if r =? -1 then mret (-1, Some b)
                      else mret (0, Some (Utsname (sysname b) (nodename b) (release b) (version b) (machine b) (default [] t)))
              end
          end
      end
  end.

(** ** Limits and identifiers *)

Definition MAXPATHLEN : Z := 32768.
Definition NOGROUP : Z := 65535.
Definition NOFILE : Z := 1048576.
Definition MAXSYMLINKS : Z := 20.
Definition MAXHOSTNAMELEN : Z := 256.

Definition wlibc_getpagesize : M K Z := s ← get; mret (NtQueryPageSize (kernel s)).
Definition wlibc_getdtablesize : Z := 8192.
Definition wlibc_getpid : M K Z := s ← get; mret (swrap 32 (CurrentProcessId (kernel s))).
Definition wlibc_getppid : M K Z := s ← get; mret (swrap 32 (InheritedFromUniqueProcessId (kernel s))).
Definition wlibc_gettid : M K Z := s ← get; mret (swrap 32 (CurrentThreadId (kernel s))).
Definition wlibc_getuid (x : security) : Z := current_uid x.
Definition wlibc_getgid (x : security) : Z := current_gid x.
Definition wlibc_setuid (uid : Z) : Z := 0.
Definition wlibc_setgid (gid : Z) : Z := 0.

(** The values by the numbers of the names, from 0 on. *)
Definition pathconf_values : list Z := [1024; 255; 255; 255; MAXPATHLEN; 16384; 1; 1; 1].

Definition wlibc_common_pathconf (name : Z) : M K Z :=
  if (name <? 0) || (zlen pathconf_values <=? name) then fail EINVAL else mret (byte_at pathconf_values name).

Definition wlibc_sysconf (name : Z) : M K Z :=
  if name =? 0 then mret 32768
  else if name =? 1 then mret 1024
  else if name =? 2 then mret 1000
  else if name =? 3 then mret NOGROUP
  else if name =? 4 then mret NOFILE
  else if name =? 5 then mret 8192
  else if name =? 6 then wlibc_getpagesize
  else if name =? 7 then mret MAXSYMLINKS
  else if name =? 8 then mret MAXHOSTNAMELEN
  else fail EINVAL.

(** [strncpy] of [n] bytes: the text, cut or filled with NULs. *)
Definition strncpy (text : list Z) (n : Z) : list Z := take (Z.to_nat n) text ++ replicate (Z.to_nat n - length text) 0.

(** The length with the NUL, and the block of the caller; without a PATH a null pointer is
    followed. *)
Definition wlibc_confstr (name : Z) (buffer : bool) (size : Z) : M K (Z * option (list Z)) :=
  s ← get;
  let store value := mret (zlen value + 1, if buffer && negb (size =? 0) then Some (<[Z.to_nat (size - 1) := 0]> (strncpy value size)) else None) in
  if name =? 0 then store (str "1.0")
  else if name =? 1 then match getenv_PATH (kernel s) with Some path => store path | None => UB end
  else _ ← set_errno EINVAL; mret (0, None).

(** ** Handles as descriptors *)

Definition wlibc_get_osfhandle (fd : Z) : M K Z :=
  valid ← validate_fd fd;
  if negb valid then _ ← set_errno EBADF; mret INVALID_HANDLE_VALUE else get_fd_handle fd.

(** A handle of another device is refused without an error number. *)
Definition wlibc_open_osfhandle (h flags : Z) : M K Z :=
  if (h =? INVALID_HANDLE_VALUE) || (h =? 0) then fail EINVAL
  else
    s ← get;
    let '(status, device) := NtQueryFsDeviceType h (kernel s) in
    if negb (ok status) then fail_status status
    else
      match device with
      | FILE_DEVICE_DISK =>
          let '(status, attributes) := NtQueryFileAttributes h (kernel s) in
          if negb (ok status) then fail_status status
          else register_to_fd_table h (if has attributes FILE_ATTRIBUTE_DIRECTORY then DIRECTORY_HANDLE else FILE_HANDLE) flags
      | FILE_DEVICE_NAMED_PIPE => register_to_fd_table h PIPE_HANDLE flags
      | FILE_DEVICE_CONSOLE => register_to_fd_table h CONSOLE_HANDLE flags
      | FILE_DEVICE_NULL => register_to_fd_table h NULL_HANDLE flags
      | FILE_DEVICE_other _ => mret (-1)
      end.
End Names.

(** ** Loaded libraries *)

(** The statuses [dlerror] knows. *)
Inductive dl_status := DL_SUCCESS | DL_INVALID_FILE_FOR_SECTION | DL_DLL_NOT_FOUND | DL_ENTRYPOINT_NOT_FOUND | DL_ORDINAL_NOT_FOUND | DL_other (code : Z).

#[export] Instance dl_status_eq_dec : EqDecision dl_status.
Proof. solve_decision. Defined.

(** The loader: libraries by name, procedures by library and name. *)
Class LoaderKernel (K : Type) := {
  LdrLoadDll : list Z -> K -> dl_status * Z * K;
  LdrGetProcedureAddressForCaller : Z -> list Z -> K -> dl_status * Z;
  LdrUnloadDll : Z -> K -> dl_status * K
}.

Definition dl_success (status : dl_status) : bool := bool_decide (status = DL_SUCCESS).

(** The message of a status; [None] is a null pointer. *)
Definition dl_message (e : dl_status) : option (list Z) :=
  match e with
  | DL_INVALID_FILE_FOR_SECTION => Some (str "This file is not a valid Win32 application.")
  | DL_DLL_NOT_FOUND => Some (str "The specified module could not be found.")
  | DL_ENTRYPOINT_NOT_FOUND | DL_ORDINAL_NOT_FOUND => Some (str "The specified procedure could not be found.")
  | DL_SUCCESS | DL_other _ => None
  end.

Section Loader.
Context {K : Type} {KN : Kernel K} {PK : PathKernel K} {LK : LoaderKernel K}.

(** The state is [_wlibc_last_dlfcn_error]. *)
Abbreviation D := (SM dl_status K).

Definition wlibc_dlerror : D (option (list Z)) := e ← get_S; mret (dl_message e).

(** The handle, 0 for an error. *)
Definition wlibc_dlopen (filename : option (list Z)) (flags : Z) : D Z :=
  match filename with
  | None | Some [] => _ ← run_M (set_errno ENOENT); mret 0
  | Some filename =>
      let '(status, image) := RtlUTF8StringToUnicodeString filename None in
      if negb (ok status) then _ ← fail_with status; mret 0
      else
        k ← kernel_S;
        let '(status, handle, k) := LdrLoadDll image k in
        _ ← run_M (set_kernel k);
        if negb (dl_success status) then _ ← put_S status; mret 0 else mret handle
  end.

Definition wlibc_dlsym (handle : Z) (symbol : option (list Z)) : D Z :=
  if handle =? 0 then _ ← run_M (set_errno EINVAL); mret 0
  else
    match symbol with
    | None | Some [] => _ ← run_M (set_errno EINVAL); mret 0
    | Some symbol =>
        k ← kernel_S;
        let '(status, procedure) := LdrGetProcedureAddressForCaller handle symbol k in
        if negb (dl_success status) then _ ← put_S status; mret 0 else mret procedure
    end.

Definition wlibc_dlclose (handle : Z) : D Z :=
  k ← kernel_S;
  let '(status, k) := LdrUnloadDll handle k in
  _ ← run_M (set_kernel k);
  if negb (dl_success status) then _ ← put_S status; mret (-1) else mret 0.
End Loader.

(** ** The locale *)

(** The name of the locale, the texts of strftime for one field, and the signs of
    localeconv. *)
Class Locale := {
  setlocale_ctype : list Z;
  strftime_p : Z -> list Z;
  strftime_A : Z -> list Z;
  strftime_a : Z -> list Z;
  strftime_B : Z -> list Z;
  strftime_b : Z -> list Z;
  decimal_point : list Z;
  thousands_sep : list Z;
  currency_symbol : list Z
}.

Definition MAX_LANGINFO_LENGTH : Z := 32.
Definition DAY_1 : Z := 7.
Definition ABDAY_1 : Z := 14.
Definition MON_1 : Z := 21.
Definition ABMON_1 : Z := 33.
Definition ERA : Z := 45.
Definition NOEXPR : Z := 54.

(** [strstr(s, t) != NULL]. *)
Fixpoint contains (s t : list Z) : bool :=
  starts_with s t || match s with [] => false | _ :: s => contains s t end.

Section Langinfo.
Context {K : Type} {KN : Kernel K} {L : Locale}.

(** A text of strftime that does not fit leaves the buffer undefined; one of localeconv
    that does not fit has no NUL. *)
Definition in_buffer (text : list Z) : M K (option (list Z)) := if zlen text <? MAX_LANGINFO_LENGTH then mret (Some text) else UB.

Definition wlibc_nl_langinfo (item : Z) : M K (option (list Z)) :=
  let between a b := (a <=? item) && (item <=? b) in
  if item =? 0 then mret (Some (if contains setlocale_ctype (str "utf8") then str "UTF-8" else setlocale_ctype))
  else if item =? 1 then mret (Some (str "%a %b %e %H:%M:%S %Y"))
  else if item =? 2 then mret (Some (str "%m/%d/%y"))
  else if item =? 3 then mret (Some (str "%H:%M:%S"))
  else if item =? 4 then mret (Some (str "%I:%M:%S %p"))
  else if item =? 5 then in_buffer (strftime_p 6)
  else if item =? 6 then in_buffer (strftime_p 18)
  else if between DAY_1 13 then in_buffer (strftime_A (item - DAY_1))
  else if between ABDAY_1 20 then in_buffer (strftime_a (item - ABDAY_1))
  else if between MON_1 32 then in_buffer (strftime_B (item - MON_1))
  else if between ABMON_1 44 then in_buffer (strftime_b (item - ABMON_1))
  else if between ERA 49 then mret (Some [])
  else if item =? 50 then in_buffer decimal_point
  else if item =? 51 then in_buffer thousands_sep
  else if item =? 52 then in_buffer currency_symbol
  else if item =? 53 then mret (Some (str "^[yY]"))
  else if item =? NOEXPR then mret (Some (str "^[nN]"))
  else _ ← set_errno EINVAL; mret None.
End Langinfo.

(** ** What they promise *)

(** the routines that clean up run in the reverse order of the parts they clean up, so
    that the streams are flushed while their descriptors are still open. *)
Theorem streams_closed_first (o : options) :
  WLIBC_IO o = true ->
  exists before, at_exit (startup o) [] = before ++ [cleanup_stdio; cleanup_fd_table] /\ cleanup_stdio ∉ before /\ cleanup_fd_table ∉ before /\
    exists rest, called (startup o) = [init_fd_table; initialize_stdio] ++ rest.
Proof.
  intros E. unfold startup. rewrite E. destruct (WLIBC_SIGNALS o), (WLIBC_SPAWN o), (WLIBC_THREADS o), (WLIBC_ACLS o), (WLIBC_TIMERS o), (WLIBC_ERRNO o); cbn;
    match goal with |- exists before, ?l = _ /\ _ => exists (take (length l - 2) l) end; cbn; (split; [done|]); (split; [by apply (bool_decide_unpack _)|]); (split; [by apply (bool_decide_unpack _)|]); by eexists.
Qed.

(** [main] gets every argument, but the last variable of the environment is left out. *)
Theorem main_loses_variable {K : Type} {A : Allocator} {PK : PathKernel K} (wargv wenv : list (list Z)) (v : list Z)
    (alloc_ok : forall n, malloc_ok n = true) (Ha : wargv <> [])
    (Hc : forall t, t ∈ wargv ++ wenv -> (RtlUnicodeStringToUTF8String t None).1 = STATUS_SUCCESS) :
  main_argv (K := K) wargv = inr (Some ((fun t => (RtlUnicodeStringToUTF8String t None).2) <$> wargv)) /\
  main_env (K := K) (Some (wenv ++ [v])) = Some (inr (Some ((fun t => (RtlUnicodeStringToUTF8String t None).2) <$> wenv))).
Proof.
  assert (forall l, (forall t, t ∈ l -> (RtlUnicodeStringToUTF8String t None).1 = STATUS_SUCCESS) -> convert_all (K := K) l = inr ((fun t => (RtlUnicodeStringToUTF8String t None).2) <$> l)) as Hall.
  { induction l as [|t l IH]; intros H; [done|]. cbn [convert_all fmap list_fmap]. pose proof (H t ltac:(left)) as Ht. destruct (RtlUnicodeStringToUTF8String t None) as [status u8]. cbn in Ht. subst status.
    rewrite bool_decide_eq_true_2, IH by (done || by intros; apply H; right). done. }
  unfold main_argv, main_env. rewrite !alloc_ok. cbn [andb]. split.
  - destruct wargv as [|a l]; [done|]. rewrite Hall; [done|]. intros t Ht. apply Hc, elem_of_app. by left.
  - rewrite length_app. cbn [length]. replace (Z.of_nat (length wenv + 1) - 1) with (zlen wenv) by lia. rewrite Nat2Z.id, take_app_length, Hall; [|intros t Ht; apply Hc, elem_of_app; by right].
    by rewrite (proj2 (Z.ltb_ge _ 0)) by lia.
Qed.

(** ** The name of the program *)

Definition turn (c : Z) : Z := if c =? 92 then ch "/" else c.

Lemma turn_slashes_app a : forall b i last, (forall c, c ∈ b -> c <> 92) ->
  turn_slashes (a ++ 92 :: b) i last = (turn <$> (a ++ 92 :: b), i + zlen a + 1).
Proof.
  assert (forall b i last, (forall c, c ∈ b -> c <> 92) -> turn_slashes b i last = (turn <$> b, last)) as Hb.
  { induction b as [|c b IH]; intros i last H; [done|]. cbn [turn_slashes fmap list_fmap]. unfold turn at 1. rewrite (proj2 (Z.eqb_neq c 92)) by (apply H; left). by rewrite IH by (intros; apply H; by right). }
  induction a as [|c a IH]; intros b i last H; cbn [app turn_slashes fmap list_fmap length].
  - cbn [Z.eqb Pos.eqb]. rewrite Hb by done. f_equal. lia.
  - rewrite IH by done. f_equal. lia.
Qed.

Lemma name_start_last a b : (forall c, c ∈ b -> c <> 92) -> name_start (a ++ 92 :: b) (length (a ++ 92 :: b)) = Some (S (length a)).
Proof.
  intros Hb. assert (forall n, (n <= length b)%nat -> name_start (a ++ 92 :: b) (S (length a) + n) = Some (S (length a))) as H.
  { induction n as [|n IH]; intros Hn.
    - rewrite Nat.add_0_r. cbn [name_start]. rewrite byte_at_app_r by lia. rewrite Z.sub_diag. done.
    - rewrite Nat.add_succ_r. cbn [name_start]. destruct (lookup_lt_is_Some_2 b n ltac:(lia)) as [c Hc].
      assert (byte_at (a ++ 92 :: b) (Z.of_nat (S (length a) + n)) = c) as ->.
      { rewrite byte_at_app_r by lia. unfold byte_at. replace (Z.to_nat (Z.of_nat (S (length a) + n) - zlen a)) with (S n) by lia. change ((92 :: b) !! S n) with (b !! n). by rewrite Hc. }
      rewrite (proj2 (Z.eqb_neq c 92)) by (by apply Hb, list_elem_of_lookup_2 with n). apply IH. lia. }
  replace (length (a ++ 92 :: b)) with (S (length a) + length b)%nat by (rewrite length_app; cbn [length]; lia). by apply H.
Qed.

(** the name of the program is its path with slashes; the short name is what is behind the
    last one; messages use the short name without its extension of four characters. *)
Theorem program_names (dir name ext : list Z)
    (Hname : forall c, c ∈ name ++ ext -> c <> 92) (Hext : length ext = 4%nat) (Hlen : zlen name <= 260) :
  let image := dir ++ 92 :: name ++ ext in
  init_program_name image = (turn <$> image, name ++ ext) /\ get_program_name image = Some name.
Proof.
  intros image. split.
  - unfold init_program_name, image. rewrite turn_slashes_app by done. f_equal. rewrite fmap_app, fmap_cons. rewrite drop_app_ge by (rewrite length_fmap; lia).
    rewrite length_fmap. replace (Z.to_nat (0 + zlen dir + 1) - length dir)%nat with 1%nat by lia. cbn [drop].
    rewrite <- (list_fmap_id (name ++ ext)) at 2. apply list_fmap_ext. intros i c Hc. unfold turn. rewrite (proj2 (Z.eqb_neq c 92)); [done|]. by apply Hname, list_elem_of_lookup_2 with i.
  - unfold get_program_name, image. rewrite name_start_last by done. cbn [mbind option_bind]. rewrite !length_app. cbn [length]. rewrite length_app, Hext.
    replace (Z.of_nat (length dir + S (length name + 4)) - Z.of_nat (S (length dir))) with (zlen name + 4) by lia. rewrite (proj2 (Z.ltb_ge _ 4)), (proj2 (Z.ltb_ge 260 _)) by lia. cbn [orb].
    change (dir ++ 92 :: name ++ ext) with (dir ++ [92] ++ (name ++ ext)). rewrite app_assoc, drop_app_length' by (rewrite length_app; cbn [length]; lia).
    by rewrite take_app_length' by lia.
Qed.

(** ** Random bytes *)

(** A step stores as many bytes as it is asked for. *)
Definition whole {K : Type} (step : nat -> K -> list Z * K) : Prop := forall n k, length (step n k).1 = n.

Definition even_part (n : Z) : Z := n - n mod 2.

Lemma run_steps_length {K} (step : nat -> K -> list Z * K) l k : whole step -> zlen (run_steps step l k).1 = fold_right (fun n m => Z.of_nat n + m) 0 l.
Proof.
  intros Hw. revert k. induction l as [|n l IH]; intros k; [done|]. cbn [run_steps fold_right]. pose proof (Hw n k) as Hn. destruct (step n k) as [bs k']. specialize (IH k').
  destruct (run_steps step l k') as [r k'']. cbn [fst] in *. rewrite length_app. lia.
Qed.

Lemma tail_steps_sum n : 0 < n < 8 -> fold_right (fun n m => Z.of_nat n + m) 0 (tail_steps n) = even_part n.
Proof.
  intros Hn. assert (n = 1 \/ n = 2 \/ n = 3 \/ n = 4 \/ n = 5 \/ n = 6 \/ n = 7) as H by lia. by destruct H as [->|[->|[->|[->|[->|[->| ->]]]]]].
Qed.

Lemma fill_buffer_ok {K} (step : nat -> K -> list Z * K) length : whole step -> forall fuel filled k, 0 <= filled <= length -> filled mod 8 = 0 -> length - filled < Z.of_nat fuel ->
  exists bs k', fill_buffer fuel step length filled k = Some (bs, even_part length, k') /\ zlen bs = even_part length - filled.
Proof.
  intros Hw. induction fuel as [|fuel IH]; intros filled k Hf Hm Hfuel; [lia|]. cbn [fill_buffer].
  assert (forall n, n mod 8 = 0 -> n mod 2 = 0) as Heven by (intros n Hn; Z.to_euclidean_division_equations; lia).
  destruct (Z.eqb_spec filled length) as [->|Hne].
  { exists [], k. unfold even_part. rewrite (Heven _ Hm). split; [by rewrite Z.sub_0_r | cbn; lia]. }
  rewrite Z.geb_leb. destruct (Z.leb_spec 8 (length - filled)) as [Hge|Hlt].
  - pose proof (Hw 8%nat k) as H8. destruct (step 8%nat k) as [bs k1]. cbn [fst] in H8. destruct (IH (filled + 8) k1) as (r & k2 & E & Hr); [lia | Z.to_euclidean_division_equations; lia | lia |].
    rewrite E. cbn [mbind option_bind]. exists (bs ++ r), k2. split; [done|]. rewrite length_app. lia.
  - pose proof (run_steps_length step (tail_steps (length - filled)) k Hw) as Hl. destruct (run_steps step _ k) as [bs k1]. cbn [fst] in Hl. rewrite tail_steps_sum in Hl by lia.
    exists bs, k1. rewrite tail_steps_sum by lia. unfold even_part in *. assert ((length - filled) mod 2 = length mod 2) as E by (Z.to_euclidean_division_equations; lia).
    rewrite E in *. split; [do 3 f_equal; lia | lia].
Qed.

(** getrandom stores as many bytes as it returns: all that are asked for, except that the
    last one of an odd number is left out; never more, and never more than the bound. *)
Theorem random_fills {K : Type} {KN : Kernel K} {RS : RandomSource K} (length source : Z) (s : state K)
    (Hr : whole rdrand_step) (Hs : whole rdseed_step) (Hl : 0 <= length) :
  exists r bs s', wlibc_generate_random_bytes true length source s = Some ((r, bs), s') /\
    if (length <=? MAX_LENGTH) && ((source =? RD_RAND) || (source =? RD_SEED)) then r = even_part length /\ zlen bs = r /\ errno s' = errno s
    else r = -1 /\ bs = [] /\ errno s' = EINVAL.
Proof.
  unfold wlibc_generate_random_bytes. cbn [negb orb]. rewrite Z.gtb_ltb, Z.leb_antisym. destruct (MAX_LENGTH <? length); cbn [negb andb]; [by eexists _, _, _|].
  rewrite <- negb_orb. destruct ((source =? RD_RAND) || (source =? RD_SEED)); cbn [negb]; [|by eexists _, _, _]. rewrite (M_bind_Some _ _ _ _ _ eq_refl).
  unfold fill_buffer_using_rdrand, fill_buffer_using_rdseed. destruct (source =? RD_RAND);
    [destruct (fill_buffer_ok rdrand_step length Hr (Z.to_nat length + 1) 0 (kernel s)) as (bs & k & E & Hb) | destruct (fill_buffer_ok rdseed_step length Hs (Z.to_nat length + 1) 0 (kernel s)) as (bs & k & E & Hb)];
    try done; try lia; rewrite E; eexists _, bs, _; (split; [done|]); (split; [done|]); (split; [lia | done]).
Qed.

(** ** Names of the machine *)

(** A text of ASCII with its NUL is converted as it is, if there is room for another NUL. *)
Class ValueText {K : Type} `{PathKernel K} : Prop := {
  value_text l max : Forall (fun c => 0 < c < 128) l -> zlen l < 32766 ->
    if zlen l + 2 <=? max then RtlUnicodeStringToUTF8String (l ++ [0]) (Some max) = (STATUS_SUCCESS, l ++ [0])
    else exists t, RtlUnicodeStringToUTF8String (l ++ [0]) (Some max) = (STATUS_BUFFER_TOO_SMALL, t)
}.

Section Facts.
Context {K : Type} {KN : Kernel K} {A : Allocator} {PK : PathKernel K} {YK : SystemKernel K}.
Context (alloc_ok : forall n, malloc_ok n = true).
Implicit Types (p : path_state) (s : state K).

Lemma registry_value key sub h n data p s :
  NtOpenKeyEx key (kernel s) = (STATUS_SUCCESS, h) -> NtQueryValueKey h sub 512 (kernel s) = (STATUS_SUCCESS, n, data) -> 1 < zlen data ->
  get_registry_value key sub p s = Some ((Some data, p), s).
Proof.
  intros E1 E2 Hd. unfold get_registry_value. rewrite (SM_bind_Some system _ p s (kernel s) p s eq_refl), E1, bool_decide_eq_true_2 by done. cbn [negb]. unfold allocate. rewrite alloc_ok, E2, bool_decide_eq_true_2 by done.
  rewrite Z.gtb_ltb, (proj2 (Z.ltb_lt _ _)) by lia. by rewrite alloc_ok.
Qed.

(** gethostname stores the name of the registry, which brings its own NUL: a block with
    just the room for the name and one NUL is refused with ERANGE. *)
Theorem hostname_needs_room (VT : ValueText) (length h n : Z) (name : list Z) p s
    (Hn : Forall (fun c => 0 < c < 128) name) (Hne : name <> []) (Hlen : zlen name < 32766) (Hl : 0 < length < 2 ^ 16)
    (Hkey : NtOpenKeyEx tcpip_key (kernel s) = (STATUS_SUCCESS, h)) (Hval : NtQueryValueKey h (str "HostName") 512 (kernel s) = (STATUS_SUCCESS, n, name ++ [0])) :
  wlibc_gethostname true length p s =
    if zlen name + 2 <=? length then Some (((0, Some (name ++ [0])), p), s) else Some (((-1, None), p), with_errno s ERANGE).
Proof.
  unfold wlibc_gethostname. cbn [negb orb]. rewrite (proj2 (Z.leb_gt length 0)) by lia.
  assert (1 < zlen (name ++ [0])) as Hd by (destruct name; [done|]; rewrite length_app; cbn [Datatypes.length]; lia).
  rewrite (SM_bind_Some _ _ _ _ _ _ _ (registry_value tcpip_key (str "HostName") h n (name ++ [0]) p s Hkey Hval Hd)). cbv beta iota. rewrite (SM_bind_Some (mret (Some (name ++ [0]))) _ p s _ p s eq_refl).
  unfold store_value. rewrite (wrap_small 16) by lia. pose proof (value_text name length Hn Hlen) as Ht. destruct (zlen name + 2 <=? length); [rewrite Ht; done|]. by destruct Ht as [t ->].
Qed.

(** a handle that is made a descriptor gets the lowest free one, of the kind of its
    device, and is the handle of that descriptor. *)
Theorem osfhandle_roundtrip (h flags attributes : Z) (device : device_type) s
    (H0 : h <> 0) (H1 : h <> INVALID_HANDLE_VALUE) (Hd : NtQueryFsDeviceType h (kernel s) = (STATUS_SUCCESS, device))
    (Ha : NtQueryFileAttributes h (kernel s) = (STATUS_SUCCESS, attributes)) (Hk : match device with FILE_DEVICE_other _ => False | _ => True end) :
  exists fd s', wlibc_open_osfhandle h flags s = Some (fd, s') /\ lowest_from 0 (view (table s)) fd /\ wlibc_get_osfhandle fd s' = Some (h, s') /\
    (type <$> view (table s') fd) = Some match device with
      | FILE_DEVICE_DISK => if has attributes FILE_ATTRIBUTE_DIRECTORY then DIRECTORY_HANDLE else FILE_HANDLE
      | FILE_DEVICE_NAMED_PIPE => PIPE_HANDLE | FILE_DEVICE_CONSOLE => CONSOLE_HANDLE | _ => NULL_HANDLE end.
Proof.
  set (t := match device with
      | FILE_DEVICE_DISK => if has attributes FILE_ATTRIBUTE_DIRECTORY then DIRECTORY_HANDLE else FILE_HANDLE
      | FILE_DEVICE_NAMED_PIPE => PIPE_HANDLE | FILE_DEVICE_CONSOLE => CONSOLE_HANDLE | _ => NULL_HANDLE end).
  assert (wlibc_open_osfhandle h flags s = register_to_fd_table h t flags s) as ->.
  { unfold wlibc_open_osfhandle. rewrite (proj2 (Z.eqb_neq _ _) H0), (proj2 (Z.eqb_neq _ _) H1). cbn [orb]. rewrite (M_bind_Some _ _ _ _ _ eq_refl), Hd. change (ok STATUS_SUCCESS) with true. cbn [negb].
    unfold t. destruct device; try done. rewrite Ha. by change (ok STATUS_SUCCESS) with true. }
  destruct (register_bound s h t flags (fun _ => alloc_ok _) H0) as (fd & s' & E & L & B). exists fd, s'. split; [exact E|]. split; [exact L|].
  assert (exists e, view (table s') fd = Some e /\ handle e = h /\ type e = t) as (e & Hv & Hh & Ht).
  { eexists. split; [rewrite (bound_view _ _ _ _ _ _ B); unfold update; by rewrite Z.eqb_refl | done]. }
  split; [|by rewrite Hv; cbn; rewrite Ht].
  unfold wlibc_get_osfhandle. rewrite (M_bind_Some _ _ _ _ _ (validate_fd_M s' fd)), (validate_open s' fd e Hv). cbn [negb]. unfold get_fd_handle. rewrite (M_bind_Some _ _ _ _ _ (entry_view s' fd e Hv)). by rewrite Hh.
Qed.
End Facts.

(** ** Libraries and the locale *)

Inductive dl_op := DlOpen (filename : option (list Z)) (flags : Z) | DlSym (handle : Z) (symbol : option (list Z)) | DlClose (handle : Z) | DlError.

Section Loading.
Context {K : Type} {KN : Kernel K} {PK : PathKernel K} {LK : LoaderKernel K}.
Implicit Types (s : state K) (e : dl_status).

Definition run_dl (o : dl_op) : SM dl_status K (option Z) :=
  match o with
  | DlOpen filename flags => r ← wlibc_dlopen filename flags; mret (Some r)
  | DlSym handle symbol => r ← wlibc_dlsym handle symbol; mret (Some r)
  | DlClose handle => r ← wlibc_dlclose handle; mret (Some r)
  | DlError => _ ← wlibc_dlerror; mret None
  end.

Fixpoint run_dls (l : list dl_op) : SM dl_status K unit := match l with [] => mret () | o :: l => _ ← run_dl o; run_dls l end.

(** The loader's status for a call, if it gets that far. *)
Definition loader_status (o : dl_op) (k : K) : option dl_status :=
  match o with
  | DlOpen (Some (c :: l)) _ => match RtlUTF8StringToUnicodeString (c :: l) None with (STATUS_SUCCESS, image) => Some (LdrLoadDll image k).1.1 | _ => None end
  | DlSym handle (Some (c :: l)) => if handle =? 0 then None else Some (LdrGetProcedureAddressForCaller handle (c :: l) k).1
  | DlClose handle => Some (LdrUnloadDll handle k).1
  | _ => None
  end.

(** The status that is remembered. *)
Definition remembered (o : dl_op) (k : K) e : dl_status := match loader_status o k with Some DL_SUCCESS | None => e | Some e' => e' end.

Lemma run_dl_remembers o e s : exists r s', run_dl o e s = Some ((r, remembered o (kernel s) e), s').
Proof.
  unfold remembered, run_dl. destruct o as [filename flags | handle symbol | handle |]; cbn [loader_status].
  - unfold wlibc_dlopen. destruct filename as [[|c l]|]; [by eexists _, _ | | by eexists _, _]. destruct (RtlUTF8StringToUnicodeString (c :: l) None) as [status image].
    destruct (ok status) eqn:Eo; cbn [negb]; [apply bool_decide_eq_true in Eo as -> | destruct status; first [by vm_compute in Eo | by eexists _, _]]. unfold mbind at 1, SM_bind at 1, mbind at 1, M_bind at 1. rewrite (SM_bind_Some kernel_S _ e s (kernel s) e s eq_refl). destruct (LdrLoadDll image (kernel s)) as [[st h] k]. destruct st; by eexists _, _.
  - unfold wlibc_dlsym. destruct (handle =? 0); [destruct symbol as [[|c l]|]; by eexists _, _|]. destruct symbol as [[|c l]|]; [by eexists _, _ | | by eexists _, _].
    unfold mbind at 1, SM_bind at 1, mbind at 1, M_bind at 1. rewrite (SM_bind_Some kernel_S _ e s (kernel s) e s eq_refl). destruct (LdrGetProcedureAddressForCaller handle (c :: l) (kernel s)) as [st h]. destruct st; by eexists _, _.
  - unfold wlibc_dlclose. unfold mbind at 1, SM_bind at 1, mbind at 1, M_bind at 1. rewrite (SM_bind_Some kernel_S _ e s (kernel s) e s eq_refl). destruct (LdrUnloadDll handle (kernel s)) as [st k]. destruct st; by eexists _, _.
  - by eexists _, _.
Qed.

(** a failure is remembered until the next failure: neither calls that succeed nor
    dlerror itself clear it, so that dlerror gives its message any number of times. *)
Theorem dlerror_never_cleared (l : list dl_op) e s
    (Hl : forall o k, o ∈ l -> loader_status o k = None \/ loader_status o k = Some DL_SUCCESS) :
  exists s', run_dls l e s = Some (((), e), s') /\ wlibc_dlerror e s' = Some ((dl_message e, e), s').
Proof.
  revert s. induction l as [|o l IH]; intros s; [by exists s|]. cbn [run_dls]. destruct (run_dl_remembers o e s) as (r & s1 & E).
  assert (remembered o (kernel s) e = e) as Hr by (unfold remembered; destruct (Hl o (kernel s) ltac:(left)) as [-> | ->]; done). rewrite Hr in E.
  rewrite (SM_bind_Some _ _ _ _ _ _ _ E). destruct (IH ltac:(intros o' k Ho; apply Hl; by right) s1) as (s' & E' & Hd). by exists s'.
Qed.
End Loading.

(** the items of langinfo.h, from 0 to 54, have a text and all others are EINVAL; the
    days and months are counted from their first item. *)
Theorem langinfo_items {K : Type} {L : Locale} (item : Z) (s : state K)
    (Hp : forall n, zlen (strftime_p n) < 32) (HA : forall n, zlen (strftime_A n) < 32) (Ha : forall n, zlen (strftime_a n) < 32) (HB : forall n, zlen (strftime_B n) < 32) (Hb : forall n, zlen (strftime_b n) < 32)
    (Hc : zlen decimal_point < 32 /\ zlen thousands_sep < 32 /\ zlen currency_symbol < 32) :
  (if (0 <=? item) && (item <=? NOEXPR) then exists text, wlibc_nl_langinfo item s = Some (Some text, s) else wlibc_nl_langinfo item s = Some (None, with_errno s EINVAL)) /\
  (forall i, 0 <= i < 7 -> wlibc_nl_langinfo (DAY_1 + i) s = Some (Some (strftime_A i), s) /\ wlibc_nl_langinfo (ABDAY_1 + i) s = Some (Some (strftime_a i), s)) /\
  (forall i, 0 <= i < 12 -> wlibc_nl_langinfo (MON_1 + i) s = Some (Some (strftime_B i), s) /\ wlibc_nl_langinfo (ABMON_1 + i) s = Some (Some (strftime_b i), s)).
Proof.
  assert (forall t, zlen t < 32 -> in_buffer t s = Some (Some t, s)) as Hin by (intros t Ht; unfold in_buffer, MAX_LANGINFO_LENGTH; by rewrite (proj2 (Z.ltb_lt _ _) Ht)).
  destruct Hc as (Hc1 & Hc2 & Hc3). split; [|split].
  - destruct ((0 <=? item) && (item <=? NOEXPR)) eqn:E.
    + unfold NOEXPR in *. assert (exists n : nat, item = Z.of_nat n /\ (n < 55)%nat) as (n & -> & Hn) by (exists (Z.to_nat item); lia). clear E.
      do 55 (destruct n as [|n]; [eexists; first [reflexivity | apply Hin; done]|]). lia.
    + unfold wlibc_nl_langinfo, NOEXPR, DAY_1, ABDAY_1, MON_1, ABMON_1, ERA in *. repeat match goal with |- context [if ?b then _ else _] => replace b with false by lia end. done.
  - intros i Hi. assert (i = 0 \/ i = 1 \/ i = 2 \/ i = 3 \/ i = 4 \/ i = 5 \/ i = 6) as H by lia. by destruct H as [->|[->|[->|[->|[->|[->| ->]]]]]]; split; apply Hin.
  - intros i Hi. assert (i = 0 \/ i = 1 \/ i = 2 \/ i = 3 \/ i = 4 \/ i = 5 \/ i = 6 \/ i = 7 \/ i = 8 \/ i = 9 \/ i = 10 \/ i = 11) as H by lia.
    by destruct H as [->|[->|[->|[->|[->|[->|[->|[->|[->|[->|[->| ->]]]]]]]]]]]; split; apply Hin.
Qed.

(** ** Witnesses *)

(** A machine with the name [box] in its registry, a loader that knows no library, and
    bytes that are all 4. *)
Module Box.
Export Idle.
Definition K : Type := unit.

#[export] Instance box_registry : PathKernel K := {
  RtlUTF8StringToUnicodeString l _ := (STATUS_SUCCESS, l);
  RtlUnicodeStringToUTF8String l max := match max with Some n => (if zlen l + 1 <=? n then STATUS_SUCCESS else STATUS_BUFFER_TOO_SMALL, l) | None => (STATUS_SUCCESS, l) end;
  CurrentDirectory _ := str "C:\";
  NtOpenSymbolicLinkObject v k := (STATUS_SUCCESS, v, k);
  NtQuerySymbolicLinkObject _ _ := (STATUS_SUCCESS, str "\Device\HarddiskVolume3");
  NtQueryObjectName _ _ _ := (STATUS_SUCCESS, 0, str "\Device\HarddiskVolume3");
  QueryDosVolumePaths _ _ := (STATUS_SUCCESS, str "C:");
  NtOpenKeyEx _ _ := (STATUS_SUCCESS, 5);
  NtQueryValueKey _ _ _ _ := (STATUS_SUCCESS, 8, str "box" ++ [0]);
  current_user_sid := []
}.

#[export] Instance box_text : ValueText (K := K).
Proof.
  split. intros l max _ _. cbn. rewrite length_app. cbn [length]. replace (Z.of_nat (length l + 1) + 1) with (zlen l + 2) by lia. destruct (zlen l + 2 <=? max); [done | by eexists].
Qed.

#[export] Instance box_system : SystemKernel K := {
  NtQueryProcessor _ := (STATUS_SUCCESS, PROCESSOR_ARCHITECTURE_AMD64);
  NtQueryPageSize _ := 4096;
  CurrentProcessId _ := 100;
  CurrentThreadId _ := 200;
  InheritedFromUniqueProcessId _ := 4;
  getenv_PATH _ := None;
  NtQueryFsDeviceType _ _ := (STATUS_SUCCESS, FILE_DEVICE_DISK);
  NtQueryFileAttributes _ _ := (STATUS_SUCCESS, FILE_ATTRIBUTE_DIRECTORY)
}.

#[export] Instance box_random : RandomSource K := { rdrand_step n k := (replicate n 4, k); rdseed_step n k := (replicate n 5, k) }.

#[export] Instance box_loader : LoaderKernel K := {
  LdrLoadDll _ k := (DL_SUCCESS, 8, k);
  LdrGetProcedureAddressForCaller _ _ _ := (DL_SUCCESS, 9);
  LdrUnloadDll _ k := (DL_SUCCESS, k)
}.

#[export] Instance c_locale : Locale := {
  setlocale_ctype := str "C";
  strftime_p n := if n <? 12 then str "AM" else str "PM";
  strftime_A n := str "day";
  strftime_a n := str "d";
  strftime_B n := str "month";
  strftime_b n := str "m";
  decimal_point := str ".";
  thousands_sep := [];
  currency_symbol := []
}.

Definition box : state K := process FILE_HANDLE tt.
End Box.

Import Box.

Lemma streams_closed_first_witness : exists before, at_exit (startup (Options true true false false false false true)) [] = before ++ [cleanup_stdio; cleanup_fd_table].
Proof. destruct (streams_closed_first (Options true true false false false false true) eq_refl) as (before & E & _). by exists before. Defined.

Lemma main_loses_variable_witness : main_argv (K := Box.K) [str "a"; str "b"] = inr (Some [str "a"; str "b"]) /\ main_env (K := Box.K) (Some [str "X=1"; str "Y=2"]) = Some (inr (Some [str "X=1"])).
Proof. exact (main_loses_variable (K := Box.K) [str "a"; str "b"] [str "X=1"] (str "Y=2") (fun _ => eq_refl) ltac:(done) (fun _ _ => eq_refl)). Defined.

Lemma program_names_witness : init_program_name (str "C:\bin\ls.exe") = (str "C:/bin/ls.exe", str "ls.exe") /\ get_program_name (str "C:\bin\ls.exe") = Some (str "ls").
Proof.
  apply (program_names (str "C:\bin") (str "ls") (str ".exe")); [|done | cbn; lia]. intros c Hc. assert (Forall (fun c => c <> 92) (str "ls" ++ str ".exe")) as H by (by apply (bool_decide_unpack _); vm_compute).
  rewrite Forall_forall in H. by apply H.
Defined.

Lemma random_fills_witness : exists r bs s', wlibc_generate_random_bytes true 13 RD_SEED box = Some ((r, bs), s') /\ r = 12 /\ zlen bs = r.
Proof.
  destruct (random_fills (K := Box.K) 13 RD_SEED box) as (r & bs & s' & E & Hr & Hb & _); [intros n k; apply length_replicate | intros n k; apply length_replicate | lia |]. by exists r, bs, s'.
Defined.

Lemma hostname_needs_room_witness : wlibc_gethostname true 4 initial_paths box = Some (((-1, None), initial_paths), with_errno box ERANGE).
Proof. exact (hostname_needs_room (K := Box.K) (fun _ => eq_refl) box_text 4 5 8 (str "box") initial_paths box ltac:(by repeat constructor) ltac:(done) ltac:(cbn; lia) ltac:(lia) eq_refl eq_refl). Defined.

Lemma osfhandle_roundtrip_witness : exists fd s', wlibc_open_osfhandle 77 O_RDONLY box = Some (fd, s') /\ wlibc_get_osfhandle fd s' = Some (77, s').
Proof. destruct (osfhandle_roundtrip (K := Box.K) (fun _ => eq_refl) 77 O_RDONLY FILE_ATTRIBUTE_DIRECTORY FILE_DEVICE_DISK box) as (fd & s' & E & _ & E' & _); [done..|]. by exists fd, s'. Defined.

Lemma dlerror_never_cleared_witness : exists s', run_dls [DlError; DlOpen (Some (str "a.dll")) 0; DlError] DL_DLL_NOT_FOUND box = Some (((), DL_DLL_NOT_FOUND), s') /\
  wlibc_dlerror DL_DLL_NOT_FOUND s' = Some ((Some (str "The specified module could not be found."), DL_DLL_NOT_FOUND), s').
Proof.
  destruct (dlerror_never_cleared (K := Box.K) [DlError; DlOpen (Some (str "a.dll")) 0; DlError] DL_DLL_NOT_FOUND box) as (s' & E & E'); [|by exists s'].
  intros o k Ho. rewrite !elem_of_cons in Ho. destruct Ho as [->|[->|[->|Ho]]]; [by left | by right | by left | by apply elem_of_nil in Ho].
Defined.

Lemma langinfo_items_witness : wlibc_nl_langinfo (K := Box.K) (DAY_1 + 3) box = Some (Some (str "day"), box).
Proof.
  assert (forall n, zlen (strftime_p n) < 32) as Hp by (intros n; cbn; destruct (n <? 12); cbn; lia).
  exact (proj1 (proj1 (proj2 (langinfo_items (K := Box.K) 0 box Hp ltac:(intros; cbn; lia) ltac:(intros; cbn; lia) ltac:(intros; cbn; lia) ltac:(intros; cbn; lia) ltac:(cbn; lia))) 3 ltac:(lia))).
Defined.
