(* ===== verification/Xattr.v ===== *)
(** * Extended attributes

    Setting, reading and listing the extended attributes of files
    (src/sys/xattr/setxattr.c, getxattr.c, listxattr.c), on the bytes that are exchanged
    with the kernel. *)

From stdpp Require Import strings gmap.
From S2P Require Import Prelude Errno Buffer FdTable FileIo Path PathFacts Open Dirent Security Time Stat Names.

Definition XATTR_CREATE : Z := 1.
Definition XATTR_REPLACE : Z := 2.
Definition XATTR_DELETE : Z := 3.

Definition FILE_SYNCHRONOUS_IO_ALERT : Z := 0x10.

Definition STATUS_NO_MORE_EAS : NTSTATUS := STATUS_other 0x80000012.
Definition STATUS_NO_EAS_ON_FILE : NTSTATUS := STATUS_other 0xC0000052.

(** What a query gives: the status, the length in the status block, which an error leaves
    as it is, and the bytes that are written. *)
Record ea_query := EaQuery { ea_status : NTSTATUS; ea_information : option Z; ea_bytes : list Z }.

(** A query for the attributes of a list, or for those that come next, into a buffer of
    some length, with [RestartScan]; a change. *)
Class EaKernel (K : Type) := {
  NtQueryEaFile : Z -> Z -> option (list Z) -> bool -> K -> ea_query * K;
  NtSetEaFile : Z -> list Z -> K -> NTSTATUS * K
}.

(** ** Entries *)

(** [FILE_GET_EA_INFORMATION] in a block of 260 bytes. *)
Definition name_block (name : list Z) : list Z :=
  le_bytes 4 0 ++ [zlen name] ++ name ++ replicate (Z.to_nat (255 - zlen name)) 0.

(** [FILE_FULL_EA_INFORMATION]: the next entry, the flags, the two lengths, the name with
    its NUL and the value. *)
Definition ea_entry (next : Z) (name value : list Z) : list Z :=
  le_bytes 4 next ++ [0; zlen name] ++ le_bytes 2 (zlen value) ++ name ++ [0] ++ value.

Definition sizeof_ea : Z := 12.

(** The block that is set: [sizeof] counts 4 bytes more than there are before the name. *)
Definition insert_block (name value : list Z) : list Z := ea_entry 0 name value ++ [0; 0; 0; 0].

(** The fields of the entry at [off]. *)
Definition next_entry_offset (l : list Z) (off : Z) : option Z := read_le l off 4.
Definition ea_name_length (l : list Z) (off : Z) : option Z := read_le l (off + 5) 1.
Definition ea_value_length (l : list Z) (off : Z) : option Z := read_le l (off + 6) 2.

(** [n] bytes from [off], which must be there. *)
Definition slice (l : list Z) (off n : Z) : option (list Z) :=
  if off + n <=? zlen l then Some (take (Z.to_nat n) (drop (Z.to_nat off) l)) else None.

(** What a buffer holds after bytes are written to it. *)
Definition written (old new : list Z) : list Z := new ++ drop (length new) old.

Definition too_small (status : NTSTATUS) : bool := bool_decide (status = STATUS_BUFFER_OVERFLOW) || bool_decide (status = STATUS_BUFFER_TOO_SMALL).

(** The names of the entries of a buffer, from [off] on, with their NULs: whether they
    fit in [size] bytes, their length, and what is stored. A size of 0 stores nothing. *)
Fixpoint list_entries (fuel : nat) (l : list Z) (information size off read_data data_length : Z) (out : list Z) : option (bool * Z * list Z) :=
  match fuel with
  | O => None
  | S fuel =>
      if read_data =? information then Some (true, data_length, out)
      else
        n ← ea_name_length l off;
        if negb (size =? 0) && (size <? data_length + n + 1) then Some (false, data_length, out)
        else
          name ← (if size =? 0 then Some [] else slice l (off + 8) (n + 1));
          v ← ea_value_length l off;
          next ← next_entry_offset l off;
          let read := read_data + (8 + n + v + 1) in
          let read := if next =? 0 then read else read + (if read mod 4 =? 0 then 0 else 4 - read mod 4) in
          list_entries fuel l information size (off + next) read (data_length + n + 1) (out ++ name)
  end.

Section Xattr.
Context {K : Type} {KN : Kernel K} {A : Allocator} {PK : PathKernel K} {OK : OpenKernel K} {SK : StatKernel K} {EK : EaKernel K}.

Abbreviation F := (SM (security * path_state) K).

Definition query_ea (h size : Z) (names : option (list Z)) : F ea_query :=
  k ← kernel_S;
  let '(q, k) := NtQueryEaFile h size names false k in
  _ ← run_M (set_kernel k);
  mret q.

(** ** Setting *)

(** Why an operation is refused: the attribute exists, or does not. *)
Definition refused (operation : Z) (q : ea_query) : F (option Z) :=
  if operation =? XATTR_CREATE then
    if too_small (ea_status q) then mret (Some EEXIST)
    else if ok (ea_status q) then v ← defined (ea_value_length (ea_bytes q) 0); mret (if 0 <? v then Some EEXIST else None)
    else mret None
  else if ok (ea_status q) then v ← defined (ea_value_length (ea_bytes q) 0); mret (if v =? 0 then Some ENODATA else None)
  else mret None.

(** The bytes that are copied for the value. *)
Definition value_bytes (value : option (list Z)) (size : Z) : option (list Z) :=
  if 0 <? size then l ← value; slice l 0 size else Some [].

Definition do_setxattr (h : Z) (name : list Z) (value : option (list Z)) (size operation : Z) : F Z :=
  if 254 <? zlen name then error E2BIG (-1)
  else
    e ← (if negb (operation =? 0) then q ← query_ea h 512 (Some (name_block name)); refused operation q else mret None);
    match e with
    | Some e => error e (-1)
    | None =>
        if malloc_ok (sizeof_ea + zlen name + 1 + size) then
          v ← defined (value_bytes value size);
          kernel_call (NtSetEaFile h (insert_block name v))
        else error ENOMEM (-1)
    end.

(** A call on the file of a path, opened with some rights. *)
Definition xattr_at {X} (t0 : handle_t) (fd : Z) (path : list Z) (access flags : Z) (e : X) (f : Z -> F X) : F X :=
  h ← with_paths (just_open t0 fd path access (Z.lor FILE_SYNCHRONOUS_IO_ALERT (if flags =? AT_SYMLINK_NOFOLLOW then FILE_OPEN_REPARSE_POINT else 0)));
  if h =? 0 then mret e else r ← f h; _ ← close_handle h; mret r.

Definition common_setxattr (t0 : handle_t) (fd : Z) (path name : list Z) (value : option (list Z)) (size operation flags : Z) : F Z :=
  xattr_at t0 fd path (Z.lor FILE_READ_EA (Z.lor FILE_WRITE_EA SYNCHRONIZE)) flags (-1) (fun h => do_setxattr h name value size operation).

(** The file of a path, or, with an empty path, of a descriptor. *)
Definition xattr_file {X} (info : fdinfo) (fd : Z) (path : option (list Z)) (flags : Z) (e : X) (at_path : list Z -> F X) (f : Z -> F X) : F X :=
  if negb (flags =? AT_EMPTY_PATH) then
    match path with
    | None | Some [] => error ENOENT e
    | Some path => at_path path
    end
  else
    i ← file_or_directory fd info;
    match i with
    | None => mret e
    | Some h => f h
    end.

Definition wlibc_common_setxattr (t0 : handle_t) (info : fdinfo) (fd : Z) (path name value : option (list Z)) (size operation flags : Z) : F Z :=
  let null := match value with None => true | Some _ => false end in
  if (operation <? 0) || (3 <? operation) then error EINVAL (-1)
  else if negb (operation =? XATTR_DELETE) && (null || (size =? 0)) then error EINVAL (-1)
  else if (operation =? XATTR_DELETE) && (negb null && negb (size =? 0)) then error EINVAL (-1)
  else if 65535 <? size then error E2BIG (-1)
  else if negb (known_flags flags) then error EINVAL (-1)
  else
    match name with
    | None | Some [] => error EINVAL (-1)
    | Some name =>
        xattr_file info fd path flags (-1) (fun path => common_setxattr t0 fd path name value size operation flags)
          (fun h => do_setxattr h name value size operation)
    end.

(** ** Reading *)

(** What the query for the value gives: an error, or the buffer. *)
Definition read_ea (h : Z) (name : list Z) : F (option (list Z)) :=
  q ← query_ea h 1024 (Some (name_block name));
  if ok (ea_status q) then mret (Some (ea_bytes q))
  else if too_small (ea_status q) then
    if malloc_ok 65536 then
      q' ← query_ea h 65536 (Some (name_block name));
      if ok (ea_status q') then mret (Some (written (ea_bytes q) (ea_bytes q'))) else _ ← fail_with (ea_status q'); mret None
    else error ENOMEM None
  else _ ← fail_with (ea_status q); mret None.

(** The result, and the bytes that are stored. *)
Definition do_getxattr (h : Z) (name : list Z) (size : Z) : F (Z * list Z) :=
  if 254 <? zlen name then error E2BIG (-1, [])
  else if malloc_ok 1024 then
    b ← read_ea h name;
    match b with
    | None => mret (-1, [])
    | Some l =>
        v ← defined (ea_value_length l 0);
        if v =? 0 then error ENODATA (-1, [])
        else if size =? 0 then mret (v, [])
        else if size <? v then error ERANGE (-1, [])
        else
          n ← defined (ea_name_length l 0);
          value ← defined (slice l (8 + n + 1) v);
          mret (v, value)
    end
  else error ENOMEM (-1, []).

Definition common_getxattr (t0 : handle_t) (fd : Z) (path name : list Z) (size flags : Z) : F (Z * list Z) :=
  xattr_at t0 fd path (Z.lor FILE_READ_EA SYNCHRONIZE) flags (-1, []) (fun h => do_getxattr h name size).

(** [buffer] says whether there is one. *)
Definition wlibc_common_getxattr (t0 : handle_t) (info : fdinfo) (fd : Z) (path name : option (list Z)) (buffer : bool) (size flags : Z) : F (Z * list Z) :=
  if negb (known_flags flags) then error EINVAL (-1, [])
  else
    match name with
    | None | Some [] => error EINVAL (-1, [])
    | Some name =>
        if negb (size =? 0) && negb buffer then error EINVAL (-1, [])
        else
          xattr_file info fd path flags (-1, []) (fun path => common_getxattr t0 fd path name size flags) (fun h => do_getxattr h name size)
    end.

(** ** Listing *)

(** One query of the loop, with a bigger buffer when the first is too small: the status,
    the size of the buffer, the length in the status block and what the buffer holds;
    [None] when the call ends. *)
Definition next_eas (h buffer_size : Z) (io : option Z) (l : list Z) : F (option Z + NTSTATUS * Z * option Z * list Z) :=
  q ← query_ea h buffer_size None;
  let told io (q : ea_query) := match ea_information q with Some n => Some n | None => io end in
  let io := told io q in
  let l := written l (ea_bytes q) in
  if bool_decide (ea_status q = STATUS_NO_EAS_ON_FILE) then mret (inl (Some 0))
  else if too_small (ea_status q) then
    if malloc_ok 65536 then
      q ← query_ea h 65536 None;
      if negb (ok (ea_status q)) then _ ← fail_with (ea_status q); mret (inl None)
      else mret (inr (ea_status q, 65536, told io q, written l (ea_bytes q)))
    else error ENOMEM (inl None)
  else mret (inr (ea_status q, buffer_size, io, l)).

Fixpoint list_loop (fuel : nat) (h size buffer_size : Z) (io : option Z) (l : list Z) (data_length : Z) (out : list Z) : F (Z * list Z) :=
  match fuel with
  | O => run_M UB
  | S fuel =>
      r ← next_eas h buffer_size io l;
      match r with
      | inl r => mret (default (-1) r, out)
      | inr (status, buffer_size, io, l) =>
          information ← defined io;
          '(fits, data_length, out) ← defined (list_entries fuel l information size 0 0 data_length out);
          if negb fits then error ERANGE (-1, out)
          else if bool_decide (status = STATUS_NO_MORE_EAS) then mret (data_length, out)
          else list_loop fuel h size buffer_size io l data_length out
      end
  end.

Definition do_listxattr (fuel : nat) (h size : Z) : F (Z * list Z) :=
  if malloc_ok 1024 then list_loop fuel h size 1024 None [] 0 [] else error ENOMEM (-1, []).

Definition common_listxattr (fuel : nat) (t0 : handle_t) (fd : Z) (path : list Z) (size flags : Z) : F (Z * list Z) :=
  xattr_at t0 fd path (Z.lor FILE_READ_EA SYNCHRONIZE) flags (-1, []) (fun h => do_listxattr fuel h size).

Definition wlibc_common_listxattr (fuel : nat) (t0 : handle_t) (info : fdinfo) (fd : Z) (path : option (list Z)) (buffer : bool) (size flags : Z) : F (Z * list Z) :=
  if negb (known_flags flags) then error EINVAL (-1, [])
  else if negb (size =? 0) && negb buffer then error EINVAL (-1, [])
  else xattr_file info fd path flags (-1, []) (fun path => common_listxattr fuel t0 fd path size flags) (fun h => do_listxattr fuel h size).

(** ** The calls of the header *)

Definition setxattr (t0 : handle_t) (info : fdinfo) (path name value : option (list Z)) (size operation : Z) : F Z :=
  wlibc_common_setxattr t0 info AT_FDCWD path name value size operation 0.
Definition lsetxattr (t0 : handle_t) (info : fdinfo) (path name value : option (list Z)) (size operation : Z) : F Z :=
  wlibc_common_setxattr t0 info AT_FDCWD path name value size operation AT_SYMLINK_NOFOLLOW.
Definition fsetxattr (t0 : handle_t) (info : fdinfo) (fd : Z) (name value : option (list Z)) (size operation : Z) : F Z :=
  wlibc_common_setxattr t0 info fd None name value size operation AT_EMPTY_PATH.
Definition getxattr (t0 : handle_t) (info : fdinfo) (path name : option (list Z)) (buffer : bool) (size : Z) : F (Z * list Z) :=
  wlibc_common_getxattr t0 info AT_FDCWD path name buffer size 0.
Definition lgetxattr (t0 : handle_t) (info : fdinfo) (path name : option (list Z)) (buffer : bool) (size : Z) : F (Z * list Z) :=
  wlibc_common_getxattr t0 info AT_FDCWD path name buffer size AT_SYMLINK_NOFOLLOW.
Definition fgetxattr (t0 : handle_t) (info : fdinfo) (fd : Z) (name : option (list Z)) (buffer : bool) (size : Z) : F (Z * list Z) :=
  wlibc_common_getxattr t0 info fd None name buffer size AT_EMPTY_PATH.
Definition listxattr (fuel : nat) (t0 : handle_t) (info : fdinfo) (path : option (list Z)) (buffer : bool) (size : Z) : F (Z * list Z) :=
  wlibc_common_listxattr fuel t0 info AT_FDCWD path buffer size 0.
Definition llistxattr (fuel : nat) (t0 : handle_t) (info : fdinfo) (path : option (list Z)) (buffer : bool) (size : Z) : F (Z * list Z) :=
  wlibc_common_listxattr fuel t0 info AT_FDCWD path buffer size AT_SYMLINK_NOFOLLOW.
Definition flistxattr (fuel : nat) (t0 : handle_t) (info : fdinfo) (fd : Z) (buffer : bool) (size : Z) : F (Z * list Z) :=
  wlibc_common_listxattr fuel t0 info fd None buffer size AT_EMPTY_PATH.
Definition removexattr (t0 : handle_t) (info : fdinfo) (path name : option (list Z)) : F Z :=
  wlibc_common_setxattr t0 info AT_FDCWD path name None 0 XATTR_DELETE 0.
Definition lremovexattr (t0 : handle_t) (info : fdinfo) (path name : option (list Z)) : F Z :=
  wlibc_common_setxattr t0 info AT_FDCWD path name None 0 XATTR_DELETE AT_SYMLINK_NOFOLLOW.
Definition fremovexattr (t0 : handle_t) (info : fdinfo) (fd : Z) (name : option (list Z)) : F Z :=
  wlibc_common_setxattr t0 info fd None name None 0 XATTR_DELETE AT_EMPTY_PATH.

End Xattr.
