(* ===== verification/XattrSpec.v ===== *)
(** * What extended attributes promise

    Through a descriptor, setting, reading and removing attributes refines a map from
    names to values; a listing is the names of the attributes in the order of the kernel,
    as long as one query gives them all. *)

From stdpp Require Import strings gmap.
From S2P Require Import Prelude Errno Buffer FdTable FdTableFacts FileIo Path PathFacts Open Dirent Security Time Stat Names Idle Xattr.

(** ** The bytes of entries *)

Abbreviation attribute := (list Z * list Z)%type.

Definition fits_entry (x : attribute) : Prop := 0 < zlen x.1 <= 254 /\ zlen x.2 <= 65535.

Definition entry_size (x : attribute) : Z := 9 + zlen x.1 + zlen x.2.
Definition padded (n : Z) : Z := n + (if n mod 4 =? 0 then 0 else 4 - n mod 4).

(** What the kernel writes for a list of attributes: entries at multiples of 4, the last
    one without a next. *)
Fixpoint encode (l : list attribute) : list Z :=
  match l with
  | [] => []
  | [x] => ea_entry 0 x.1 x.2
  | x :: l => let n := padded (entry_size x) in ea_entry n x.1 x.2 ++ replicate (Z.to_nat (n - entry_size x)) 0 ++ encode l
  end.

(** What a listing with [size] bytes stores. *)
Fixpoint listed (size : Z) (l : list attribute) (data_length : Z) (out : list Z) : bool * Z * list Z :=
  match l with
  | [] => (true, data_length, out)
  | x :: l =>
      if negb (size =? 0) && (size <? data_length + zlen x.1 + 1) then (false, data_length, out)
      else listed size l (data_length + zlen x.1 + 1) (out ++ (if size =? 0 then [] else x.1 ++ [0]))
  end.

Definition names_of (l : list attribute) : list Z := l ≫= fun x => x.1 ++ [0].

Lemma length_entry next n v : zlen (ea_entry next n v) = 9 + zlen n + zlen v.
Proof. unfold ea_entry. rewrite !length_app, !length_le_bytes. cbn [length]. lia. Qed.

Lemma padded_bounds n : 0 <= n -> n <= padded n < n + 4 /\ padded n mod 4 = 0.
Proof. intros H. unfold padded. destruct (Z.eqb_spec (n mod 4) 0); Z.to_euclidean_division_equations; lia. Qed.

Lemma read_byte pre x post : read_le (pre ++ x :: post) (zlen pre) 1 = Some x.
Proof. cbn [read_le]. rewrite Nat2Z.id, lookup_app_r, Nat.sub_diag by lia. cbn. f_equal. lia. Qed.

Section Fields.
Context (pre post : list Z) (next : Z) (x : attribute).
Context (Hx : fits_entry x) (Hn : 0 <= next < 2 ^ 32).
Let l := pre ++ ea_entry next x.1 x.2 ++ post.

Lemma next_of_entry : next_entry_offset l (zlen pre) = Some next.
Proof. unfold next_entry_offset, l, ea_entry. rewrite <- app_assoc. apply read_le_app. lia. Qed.

Lemma name_length_of_entry : ea_name_length l (zlen pre) = Some (zlen x.1).
Proof.
  unfold ea_name_length, l, ea_entry.
  set (rest := le_bytes 2 (zlen x.2) ++ x.1 ++ [0] ++ x.2). replace (pre ++ _ ++ post) with ((pre ++ le_bytes 4 next ++ [0]) ++ zlen x.1 :: rest ++ post)
    by (rewrite <- !app_assoc; reflexivity).
  replace (zlen pre + 5) with (zlen (pre ++ le_bytes 4 next ++ [0])) by (rewrite !length_app, length_le_bytes; cbn [length]; lia).
  apply read_byte.
Qed.

Lemma value_length_of_entry : ea_value_length l (zlen pre) = Some (zlen x.2).
Proof.
  unfold ea_value_length, l, ea_entry.
  replace (pre ++ _ ++ post) with ((pre ++ le_bytes 4 next ++ [0; zlen x.1]) ++ le_bytes 2 (zlen x.2) ++ (x.1 ++ [0] ++ x.2 ++ post))
    by (rewrite <- !app_assoc; reflexivity).
  replace (zlen pre + 6) with (zlen (pre ++ le_bytes 4 next ++ [0; zlen x.1])) by (rewrite !length_app, length_le_bytes; cbn [length]; lia).
  apply read_le_app. destruct Hx. lia.
Qed.

Lemma slice_app a b c : slice (a ++ b ++ c) (zlen a) (zlen b) = Some b.
Proof.
  unfold slice. rewrite (proj2 (Z.leb_le _ _)) by (rewrite !length_app; lia). rewrite !Nat2Z.id, drop_app_length, take_app_length. done.
Qed.

Lemma name_of_entry : slice l (zlen pre + 8) (zlen x.1 + 1) = Some (x.1 ++ [0]).
Proof.
  unfold l, ea_entry.
  replace (pre ++ _ ++ post) with ((pre ++ le_bytes 4 next ++ [0; zlen x.1] ++ le_bytes 2 (zlen x.2)) ++ (x.1 ++ [0]) ++ (x.2 ++ post))
    by (rewrite <- !app_assoc; reflexivity).
  replace (zlen pre + 8) with (zlen (pre ++ le_bytes 4 next ++ [0; zlen x.1] ++ le_bytes 2 (zlen x.2))) by (rewrite !length_app, !length_le_bytes; cbn [length]; lia).
  replace (zlen x.1 + 1) with (zlen (x.1 ++ [0])) by (rewrite length_app; cbn [length]; lia). apply slice_app.
Qed.

Lemma value_of_entry : slice l (zlen pre + (8 + zlen x.1 + 1)) (zlen x.2) = Some x.2.
Proof.
  unfold l, ea_entry.
  replace (pre ++ _ ++ post) with ((pre ++ le_bytes 4 next ++ [0; zlen x.1] ++ le_bytes 2 (zlen x.2) ++ x.1 ++ [0]) ++ x.2 ++ post)
    by (rewrite <- !app_assoc; reflexivity).
  replace (zlen pre + _) with (zlen (pre ++ le_bytes 4 next ++ [0; zlen x.1] ++ le_bytes 2 (zlen x.2) ++ x.1 ++ [0])) by (rewrite !length_app, !length_le_bytes; cbn [length]; lia).
  apply slice_app.
Qed.
End Fields.

Lemma encode_cons x y l :
  encode (x :: y :: l) = ea_entry (padded (entry_size x)) x.1 x.2 ++ replicate (Z.to_nat (padded (entry_size x) - entry_size x)) 0 ++ encode (y :: l).
Proof. done. Qed.

Lemma size_bounds x : fits_entry x -> 9 <= entry_size x < 2 ^ 31.
Proof. unfold fits_entry, entry_size. lia. Qed.

(** One step of the loop over the entries of a buffer. *)
Lemma list_entries_step fuel pre post next x size information data out :
  fits_entry x -> 0 <= next < 2 ^ 32 -> zlen pre <> information ->
  list_entries (S fuel) (pre ++ ea_entry next x.1 x.2 ++ post) information size (zlen pre) (zlen pre) data out =
  if negb (size =? 0) && (size <? data + zlen x.1 + 1) then Some (false, data, out)
  else
    let read := zlen pre + entry_size x in
    list_entries fuel (pre ++ ea_entry next x.1 x.2 ++ post) information size (zlen pre + next) (if next =? 0 then read else padded read)
      (data + zlen x.1 + 1) (out ++ (if size =? 0 then [] else x.1 ++ [0])).
Proof.
  intros Hx Hn Hi. cbn [list_entries]. rewrite (proj2 (Z.eqb_neq _ _) Hi), (name_length_of_entry _ _ _ _). cbn [mbind option_bind].
  destruct (_ && _); [done|]. rewrite (name_of_entry pre post next x), (value_length_of_entry pre post next x Hx), (next_of_entry pre post next x Hn).
  assert (entry_size x = 8 + zlen x.1 + zlen x.2 + 1) as -> by (unfold entry_size; lia). by destruct (size =? 0).
Qed.

Lemma list_entries_encode size l : l <> [] -> Forall fits_entry l -> forall fuel pre post data out,
  (length l < fuel)%nat -> zlen pre mod 4 = 0 ->
  list_entries fuel (pre ++ encode l ++ post) (zlen pre + zlen (encode l)) size (zlen pre) (zlen pre) data out = Some (listed size l data out).
Proof.
  induction l as [|x [|y l] IH]; intros Hne Hl fuel pre post data out Hf Hp; [done| |].
  - apply Forall_cons in Hl as [Hx _]. destruct fuel as [|[|fuel]]; [cbn in Hf; lia | cbn in Hf; lia |]. cbn [encode]. rewrite length_entry. pose proof (size_bounds x Hx).
    rewrite (list_entries_step (S fuel)) by first [done | unfold entry_size in *; lia | lia]. cbn [listed]. destruct (_ && _); [done|]. cbv zeta. cbn [list_entries].
    change (0 =? 0) with true. cbv iota. fold (entry_size x). rewrite Z.eqb_refl. done.
  - pose proof Hl as Hl'. apply Forall_cons in Hl as [Hx Hl]. destruct fuel as [|fuel]; [lia|]. pose proof (size_bounds x Hx) as Hs.
    destruct (padded_bounds (entry_size x) ltac:(lia)) as [Hpb Hpm]. set (n := padded (entry_size x)) in *.
    rewrite encode_cons. fold n. set (gap := replicate (Z.to_nat (n - entry_size x)) 0).
    assert (zlen (ea_entry n x.1 x.2 ++ gap) = n) as Hg by (rewrite length_app, Nat2Z.inj_add, length_entry; unfold gap; rewrite length_replicate; fold (entry_size x); lia).
    replace (pre ++ (ea_entry n x.1 x.2 ++ gap ++ encode (y :: l)) ++ post) with (pre ++ ea_entry n x.1 x.2 ++ (gap ++ encode (y :: l) ++ post)) by (by rewrite <- !app_assoc).
    set (info := zlen pre + _). assert (info = zlen (pre ++ ea_entry n x.1 x.2 ++ gap) + zlen (encode (y :: l))) as Hinfo.
    { unfold info. rewrite !app_assoc, !length_app. lia. }
    assert (zlen pre <> info) as Hi. { rewrite Hinfo, (length_app pre), Nat2Z.inj_add, Hg. lia. }
    rewrite list_entries_step by first [done | lia]. cbn [listed]. destruct (_ && _); [done|]. cbv zeta. rewrite (proj2 (Z.eqb_neq n 0)) by lia.
    assert (padded (zlen pre + entry_size x) = zlen pre + n) as ->.
    { unfold n, padded. rewrite (Z.add_mod (zlen pre)), Hp, Z.add_0_l, Z.mod_mod by lia. lia. }
    assert (zlen pre + n = zlen (pre ++ ea_entry n x.1 x.2 ++ gap)) as -> by (rewrite (length_app pre), Nat2Z.inj_add, Hg; done).
    replace (pre ++ ea_entry n x.1 x.2 ++ gap ++ encode (y :: l) ++ post) with ((pre ++ ea_entry n x.1 x.2 ++ gap) ++ encode (y :: l) ++ post) by (by rewrite <- !app_assoc).
    rewrite Hinfo. apply IH; [done | done | cbn [length] in *; lia |]. rewrite (length_app pre), Nat2Z.inj_add, Hg, Z.add_mod, Hp, Hpm by lia. done.
Qed.

(** What is listed: all names when they fit, their length when nothing is stored. *)
Lemma listed_all size l : forall data out, 0 < size -> data + zlen (names_of l) <= size ->
  listed size l data out = (true, data + zlen (names_of l), out ++ names_of l).
Proof.
  induction l as [|x l IH]; intros data out Hs Hd; cbn [listed].
  - unfold names_of. cbn. by rewrite Z.add_0_r, app_nil_r.
  - change (names_of (x :: l)) with ((x.1 ++ [0]) ++ names_of l) in *. rewrite !length_app in Hd. cbn [length] in Hd.
    rewrite (proj2 (Z.eqb_neq size 0)) by lia. cbn [negb andb]. rewrite (proj2 (Z.ltb_ge _ _)) by lia. rewrite IH by lia.
    rewrite <- app_assoc. do 2 f_equal. rewrite !length_app. cbn [length]. lia.
Qed.

Lemma listed_length l : forall data out, listed 0 l data out = (true, data + zlen (names_of l), out).
Proof.
  induction l as [|x l IH]; intros data out; cbn [listed].
  - unfold names_of. cbn. by rewrite Z.add_0_r.
  - change (0 =? 0) with true. cbn [negb andb]. rewrite IH, app_nil_r. change (names_of (x :: l)) with ((x.1 ++ [0]) ++ names_of l).
    rewrite !length_app. cbn [length]. do 2 f_equal. lia.
Qed.

Lemma listed_short size l : forall data out, 0 < size -> data <= size -> size < data + zlen (names_of l) ->
  exists n p, listed size l data out = (false, n, out ++ p) /\ p `prefix_of` names_of l /\ n = data + zlen p.
Proof.
  induction l as [|x l IH]; intros data out Hs Hd Hl.
  - unfold names_of in Hl. cbn in Hl. lia.
  - change (names_of (x :: l)) with ((x.1 ++ [0]) ++ names_of l) in *. rewrite !length_app in Hl. cbn [length listed] in *.
    rewrite (proj2 (Z.eqb_neq size 0)) by lia. cbn [negb andb]. destruct (Z.ltb_spec size (data + zlen x.1 + 1)).
    + exists data, []. rewrite app_nil_r. repeat split; [apply prefix_nil | cbn [length]; lia].
    + destruct (IH (data + zlen x.1 + 1) (out ++ x.1 ++ [0])) as (n & p & -> & Hp & Hn); [lia..|].
      exists n, ((x.1 ++ [0]) ++ p). rewrite <- (app_assoc out). repeat split; [by apply prefix_app|]. rewrite !length_app. cbn [length]. lia.
Qed.

(** ** The attributes of a file *)

Abbreviation attributes := (gmap (list Z) (list Z)).

(** The attributes of the file of [h], in the order of the kernel, and how many of them
    the scan of the handle has given. A query by name gives an entry with an empty value
    when there is no such attribute, and needs a buffer that holds the entry; an empty value
    removes the attribute, and another one replaces it when there is [room] for the
    attributes the file then has, and else is too large; a scan that is not restarted goes
    on where it ended. Names are compared in one spelling, of the same length. *)
Class EaFile {K : Type} `{EaKernel K} (h : Z) (key : list Z -> list Z) (room : attributes -> bool) (eas : K -> list attribute) (scanned : K -> nat) : Prop := {
  ea_key n : length (key n) = length n;
  ea_entries k : Forall fits_entry (eas k);
  ea_named n size k : 0 < zlen n <= 254 -> exists q, NtQueryEaFile h size (Some (name_block n)) false k = (q, k) /\
    let v := default [] ((list_to_map (eas k) : attributes) !! key n) in
    if entry_size (n, v) <=? size then ea_status q = STATUS_SUCCESS /\ ea_bytes q = ea_entry 0 (key n) v else too_small (ea_status q) = true;
  ea_set n v k : fits_entry (n, v) -> exists status k', NtSetEaFile h (insert_block n v) k = (status, k') /\
    let m' := (match v with [] => delete (key n) | _ => <[key n := v]> end) (list_to_map (eas k) : attributes) in
    if bool_decide (v = []) || room m' then status = STATUS_SUCCESS /\ (list_to_map (eas k') : attributes) = m'
    else status = STATUS_EA_TOO_LARGE /\ eas k' = eas k;
  ea_scan size k : exists q k', NtQueryEaFile h size None false k = (q, k') /\ eas k' = eas k /\
    if decide (eas k = []) then ea_status q = STATUS_NO_EAS_ON_FILE
    else match drop (scanned k) (eas k) with
         | [] => q = EaQuery STATUS_NO_MORE_EAS (Some 0) [] /\ k' = k
         | (x :: _) as l =>
             if zlen (encode l) <=? size then q = EaQuery STATUS_SUCCESS (Some (zlen (encode l))) (encode l) /\ scanned k' = length (eas k)
             else size < entry_size x -> q = EaQuery STATUS_BUFFER_TOO_SMALL None [] /\ k' = k
         end
}.

(** The calls on a descriptor. *)
Inductive xattr_call :=
  | SetXattr (operation : Z) (name value : list Z)
  | RemoveXattr (name : list Z)
  | GetXattr (name : list Z) (size : Z).

(** The arguments that are refused, whatever the attributes are. *)
Definition refused_name (n : list Z) : option Z :=
  if zlen n =? 0 then Some EINVAL else if zlen n <=? 254 then None else Some E2BIG.

Definition refused_arguments (c : xattr_call) : option Z :=
  match c with
  | SetXattr op n v =>
      if (op =? 0) || (op =? XATTR_CREATE) || (op =? XATTR_REPLACE) then
        if zlen v =? 0 then Some EINVAL else if zlen v <=? 65535 then refused_name n else Some E2BIG
      else Some EINVAL
  | RemoveXattr n | GetXattr n _ => refused_name n
  end.

(** What a call on a map of attributes returns and stores, the [errno] it leaves, and the
    map it leaves: a call that fails changes nothing, one that does not keeps [errno]. *)
Definition xattr_spec (key : list Z -> list Z) (room : attributes -> bool) (c : xattr_call) (m : attributes) (e : Z) : (Z * list Z) * Z * attributes :=
  let fails e := ((-1, []), e, m) in
  match refused_arguments c with
  | Some e => fails e
  | None =>
      match c with
      | SetXattr op n v =>
          match op =? XATTR_CREATE, op =? XATTR_REPLACE, m !! key n with
          | true, _, Some _ => fails EEXIST
          | _, true, None => fails ENODATA
          | _, _, _ => let m' := <[key n := v]> m in if room m' then ((0, []), e, m') else fails E2BIG
          end
      | RemoveXattr n => if decide (m !! key n = None) then fails ENODATA else ((0, []), e, delete (key n) m)
      | GetXattr n size =>
          match m !! key n with
          | None => fails ENODATA
          | Some v => if size =? 0 then ((zlen v, []), e, m) else if size <? zlen v then fails ERANGE else ((zlen v, v), e, m)
          end
      end
  end.

(** A sequence of calls: what each returns and stores, with its [errno]. *)
Fixpoint xattr_specs (key : list Z -> list Z) (room : attributes -> bool) (l : list xattr_call) (m : attributes) (e : Z) : list ((Z * list Z) * Z) * attributes :=
  match l with
  | [] => ([], m)
  | c :: l =>
      let '(r, e, m) := xattr_spec key room c m e in
      let '(rs, m) := xattr_specs key room l m e in ((r, e) :: rs, m)
  end.

(** An attribute that can be read back: not empty, and its entry fits in the buffer of a
    reading. *)
Definition readable (x : attribute) : Prop := x.2 <> [] /\ entry_size x <= 65536.

(** Calls the map tells: an attribute that is set can be read back, and [fsetxattr] is not
    used to remove one. *)
Definition call_fits (c : xattr_call) : Prop :=
  match c with
  | SetXattr op n v => (op = XATTR_DELETE -> v <> []) /\ (refused_arguments c = None -> entry_size (n, v) <= 65536)
  | RemoveXattr n => True
  | GetXattr n size => 0 <= size
  end.

Section Attributes.
Context {K : Type} {KN : Kernel K} {A : Allocator} {PK : PathKernel K} {OK : OpenKernel K} {SK : StatKernel K} {EK : EaKernel K}.
Context (alloc_ok : forall n, malloc_ok n = true).
Context (h : Z) (key : list Z -> list Z) (room : attributes -> bool) (eas : K -> list attribute) (scanned : K -> nat) {EF : EaFile h key room eas scanned}.
Implicit Types (x : security * path_state) (s : state K) (m : attributes).

Definition attrs s : attributes := list_to_map (eas (kernel s)).

(** An open descriptor on a file or a directory with the handle [h]. *)
Definition opened (fd : Z) s : Prop := exists e, view (table s) fd = Some e /\ handle e = h /\ (type e = FILE_HANDLE \/ type e = DIRECTORY_HANDLE).

Definition xattr_run (t0 : handle_t) (info : fdinfo) (fd : Z) (c : xattr_call) : SM (security * path_state) K (Z * list Z) :=
  match c with
  | SetXattr op n v => r ← fsetxattr t0 info fd (Some n) (Some v) (zlen v) op; mret (r, [])
  | RemoveXattr n => r ← fremovexattr t0 info fd (Some n); mret (r, [])
  | GetXattr n size => fgetxattr t0 info fd (Some n) true size
  end.

Lemma query_named n size x s : 0 < zlen n <= 254 -> exists q, query_ea h size (Some (name_block n)) x s = Some ((q, x), with_kernel s (kernel s)) /\
  let v := default [] (attrs s !! key n) in
  if entry_size (n, v) <=? size then ea_status q = STATUS_SUCCESS /\ ea_bytes q = ea_entry 0 (key n) v else too_small (ea_status q) = true.
Proof.
  intros Hn. destruct (ea_named n size (kernel s) Hn) as (q & Hq & Hr). exists q. split; [|exact Hr].
  unfold query_ea. rewrite (SM_bind_Some kernel_S _ x s (kernel s) x s eq_refl), Hq. done.
Qed.

Lemma with_kernel_same s : with_kernel s (kernel s) = s.
Proof. by destruct s. Qed.

(** The value that is stored, without an attribute none. *)
Definition value_of s n : list Z := default [] (attrs s !! key n).

Lemma stored_fits s n v : attrs s !! key n = Some v -> fits_entry (key n, v).
Proof. intros H%elem_of_list_to_map_2. pose proof (ea_entries (kernel s)) as F. rewrite Forall_forall in F. exact (F _ H). Qed.

Lemma value_fits s n : 0 < zlen n <= 254 -> fits_entry (key n, value_of s n).
Proof.
  intros Hn. unfold value_of. destruct (attrs s !! key n) as [v|] eqn:E; [exact (stored_fits s n v E)|].
  unfold fits_entry. cbn [fst snd default]. rewrite ea_key. cbn [length]. lia.
Qed.

Lemma entry_value_length s n post : 0 < zlen n <= 254 -> ea_value_length (ea_entry 0 (key n) (value_of s n) ++ post) 0 = Some (zlen (value_of s n)).
Proof. intros Hn. exact (value_length_of_entry [] post 0 (key n, value_of s n) (value_fits s n Hn)). Qed.

(** Whether the operation is refused. *)
Lemma refused_spec op n x s : 0 < zlen n <= 254 -> 0 < op <= 3 -> map_Forall (fun _ v => v <> []) (attrs s) -> exists q,
  query_ea h 512 (Some (name_block n)) x s = Some ((q, x), s) /\
  refused op q x s = Some ((if op =? XATTR_CREATE then (if decide (attrs s !! key n = None) then None else Some EEXIST)
                            else if decide (attrs s !! key n = None) then Some ENODATA else None, x), s).
Proof.
  intros Hn Hop Hm. destruct (query_named n 512 x s Hn) as (q & Hq & Hr). rewrite with_kernel_same in Hq. exists q. split; [exact Hq|].
  pose proof (entry_value_length s n [] Hn) as Hv. rewrite app_nil_r in Hv. fold (value_of s n) in Hr. cbv zeta in Hr.
  assert (if decide (attrs s !! key n = None) then zlen (value_of s n) = 0 else 0 < zlen (value_of s n)) as Hz.
  { unfold value_of. destruct (attrs s !! key n) as [v|] eqn:E; [|by rewrite decide_True].
    rewrite decide_False by done. pose proof (Hm _ _ E). destruct v as [|c v]; [done|]. change (0 < zlen (c :: v)). cbn [length]. lia. }
  unfold refused, XATTR_CREATE. destruct (entry_size _ <=? 512) eqn:Efit.
  - destruct Hr as [-> ->]. rewrite Hv. cbn [defined]. change (too_small STATUS_SUCCESS) with false. change (ok STATUS_SUCCESS) with true. cbv iota.
    destruct (decide _), (op =? 1); unfold mbind, SM_bind, mbind, M_bind, mret, SM_ret, M_ret; cbn.
    + by rewrite Hz.
    + by rewrite Hz.
    + by rewrite (proj2 (Z.ltb_lt _ _) Hz).
    + by rewrite (proj2 (Z.eqb_neq _ _)) by lia.
  - rewrite Hr. assert (attrs s !! key n <> None) as Hs.
    { intros E. unfold value_of in Efit. rewrite E in Efit. apply Z.leb_gt in Efit. unfold entry_size in Efit. cbn in Efit. lia. }
    rewrite !decide_False by done. destruct (op =? 1); [done|]. assert (ok (ea_status q) = false) as ->; [|done].
    unfold too_small, ok in *. rewrite bool_decide_eq_false. intros E. rewrite E in Hr. done.
Qed.

Lemma file_handle fd info x s : opened fd s -> file_or_directory fd info x s = Some ((Some h, x), s).
Proof.
  intros (e & He & <- & Ht). unfold file_or_directory, run_M, mbind, SM_bind, mbind, M_bind. rewrite (get_fdinfo_view s fd e info He).
  unfold mret, M_ret. by destruct Ht as [-> | ->].
Qed.

Lemma on_descriptor {X} info fd (e : X) f g x s : opened fd s -> xattr_file info fd None AT_EMPTY_PATH e f g x s = g h x s.
Proof. intros Ho. unfold xattr_file. change (negb (AT_EMPTY_PATH =? AT_EMPTY_PATH)) with false. cbv iota. by rewrite (SM_bind_Some _ _ _ _ _ _ _ (file_handle fd info x s Ho)). Qed.

(** The change itself. *)
Definition change (n v : list Z) m : attributes := (match v with [] => delete (key n) | _ => <[key n := v]> end) m.

Definition changed (n v : list Z) m (e : Z) : Z * Z * attributes :=
  if bool_decide (v = []) || room (change n v m) then (0, e, change n v m) else (-1, E2BIG, m).

Lemma set_attribute n v x s : fits_entry (n, v) -> exists r s', kernel_call (NtSetEaFile h (insert_block n v)) x s = Some ((r, x), s') /\ table s' = table s /\
  (r, errno s', attrs s') = changed n v (attrs s) (errno s).
Proof.
  intros Hf. destruct (ea_set n v (kernel s) Hf) as (status & k' & Hk & Hm). cbv zeta in Hm. fold (change n v (attrs s)) in Hm.
  unfold kernel_call, changed. rewrite (SM_bind_Some kernel_S _ x s (kernel s) x s eq_refl), Hk.
  destruct (_ || _); destruct Hm as [-> Hm]; do 2 eexists; (split; [reflexivity|]); (split; [done|]).
  - exact (f_equal (pair (0, errno s)) Hm).
  - unfold attrs. cbn. by rewrite Hm.
Qed.

(** An operation on an attribute: whether it may go on, and then the change. *)
Definition set_refused (op : Z) (n : list Z) m : option Z :=
  if op =? 0 then None
  else if op =? XATTR_CREATE then (if decide (m !! key n = None) then None else Some EEXIST)
  else if decide (m !! key n = None) then Some ENODATA else None.

Definition set_spec (op : Z) (n v : list Z) m (e : Z) : Z * Z * attributes :=
  match set_refused op n m with Some e => (-1, e, m) | None => changed n v m e end.

Lemma do_set_spec n value v op x s : fits_entry (n, v) -> 0 <= op <= 3 -> map_Forall (fun _ v => v <> []) (attrs s) -> value_bytes value (zlen v) = Some v ->
  exists r s', do_setxattr h n value (zlen v) op x s = Some ((r, x), s') /\ table s' = table s /\ (r, errno s', attrs s') = set_spec op n v (attrs s) (errno s).
Proof.
  intros Hf Hop Hm Hv. unfold do_setxattr, set_spec. destruct (Hf) as [Hn _]. cbn [fst] in Hn. rewrite (proj2 (Z.ltb_ge _ _)) by lia. rewrite alloc_ok.
  rewrite (SM_bind_Some _ _ x s (set_refused op n (attrs s)) x s); [|unfold set_refused; destruct (Z.eqb_spec op 0); cbn [negb]; [done|]].
  - destruct (set_refused _ _ _) as [e|]; [by do 2 eexists|]. rewrite Hv. destruct (set_attribute n v x s Hf) as (r & s' & Hr & Ht & Hc). exists r, s'.
    rewrite (SM_bind_Some _ _ x s v x s) by done. done.
  - destruct (refused_spec op n x s Hn ltac:(lia) Hm) as (q & Hq & Hr). by rewrite (SM_bind_Some _ _ _ _ _ _ _ Hq), Hr.
Qed.

Lemma whole_value v : value_bytes (Some v) (zlen v) = Some v.
Proof.
  unfold value_bytes, slice. destruct v as [|c v]; [done|]. rewrite (proj2 (Z.ltb_lt _ _)) by (cbn [length]; lia). cbn [mbind option_bind].
  rewrite Z.add_0_l, Z.leb_refl, Nat2Z.id, drop_0, firstn_all. done.
Qed.

(** The buffer of a reading begins with the entry. *)
Lemma read_ea_spec n x s : 0 < zlen n <= 254 -> entry_size (n, value_of s n) <= 65536 ->
  exists post, read_ea h n x s = Some ((Some (ea_entry 0 (key n) (value_of s n) ++ post), x), s).
Proof.
  intros Hn Hs. unfold read_ea. destruct (query_named n 1024 x s Hn) as (q & Hq & Hr). rewrite with_kernel_same in Hq. rewrite (SM_bind_Some _ _ _ _ _ _ _ Hq).
  fold (value_of s n) in Hr. cbv zeta in Hr. destruct (_ <=? 1024).
  - destruct Hr as [-> ->]. exists []. by rewrite app_nil_r.
  - assert (ok (ea_status q) = false) as ->. { unfold ok. rewrite bool_decide_eq_false. intros E. rewrite E in Hr. done. }
    rewrite Hr, alloc_ok. destruct (query_named n 65536 x s Hn) as (q' & Hq' & Hr'). rewrite with_kernel_same in Hq'. rewrite (SM_bind_Some _ _ _ _ _ _ _ Hq').
    fold (value_of s n) in Hr'. cbv zeta in Hr'. rewrite (proj2 (Z.leb_le _ _) Hs) in Hr'. destruct Hr' as [-> ->]. by eexists.
Qed.

Lemma do_get_spec n size x s : 0 < zlen n <= 254 -> 0 <= size -> entry_size (n, value_of s n) <= 65536 -> map_Forall (fun _ v => v <> []) (attrs s) ->
  do_getxattr h n size x s = match attrs s !! key n with
  | None => Some ((-1, [], x), with_errno s ENODATA)
  | Some v => if size =? 0 then Some ((zlen v, [], x), s) else if size <? zlen v then Some ((-1, [], x), with_errno s ERANGE) else Some ((zlen v, v, x), s)
  end.
Proof.
  intros Hn Hz Hs Hm. unfold do_getxattr. rewrite (proj2 (Z.ltb_ge _ _)), alloc_ok by lia. destruct (read_ea_spec n x s Hn Hs) as [post Hr].
  rewrite (SM_bind_Some _ _ _ _ _ _ _ Hr), (entry_value_length s n post Hn). cbn [defined]. rewrite (SM_bind_Some _ _ x s (zlen (value_of s n)) x s eq_refl).
  pose proof (name_length_of_entry [] post 0 (key n, value_of s n)) as Hl. pose proof (value_of_entry [] post 0 (key n, value_of s n)) as Hv.
  cbn [app fst snd] in Hl, Hv. change (zlen (@nil Z)) with 0 in Hl, Hv. rewrite Z.add_0_l in Hv. rewrite Hl. unfold value_of in *.
  destruct (attrs s !! key n) as [v|] eqn:E; [|done]. change (default [] (Some v)) with v in *. pose proof (Hm _ _ E) as Hne. cbv beta in Hne.
  rewrite (proj2 (Z.eqb_neq (zlen v) 0)) by (destruct v; [done | cbn [length]; lia]). destruct (size =? 0); [done|]. destruct (size <? zlen v); [done|].
  cbn [defined]. rewrite (SM_bind_Some _ _ x s (zlen (key n)) x s eq_refl), Hv. done.
Qed.

(** The attributes can be read back: none is empty, and each fits in the buffer. *)
Definition all_readable s : Prop := map_Forall (fun n v => readable (n, v)) (attrs s).

Lemma readable_values s : all_readable s -> map_Forall (fun _ v => v <> []) (attrs s).
Proof. intros H n v E. exact (proj1 (H n v E)). Qed.

Lemma readable_size s n : all_readable s -> 0 < zlen n <= 254 -> entry_size (n, value_of s n) <= 65536.
Proof.
  intros H Hn. unfold value_of. destruct (attrs s !! key n) as [v|] eqn:E.
  - pose proof (H _ _ E) as [_ Hs]. unfold entry_size in *. cbn [fst snd] in *. rewrite ea_key in Hs. exact Hs.
  - unfold entry_size. cbn [fst snd default from_option length]. change (zlen (default [] None)) with 0. lia.
Qed.

(** A call returns, leaves the descriptors, and does what the map tells. *)
Definition call_ok t0 info fd c x s : Prop := exists r s',
  xattr_run t0 info fd c x s = Some ((r, x), s') /\ table s' = table s /\ all_readable s' /\
  (r, errno s', attrs s') = xattr_spec key room c (attrs s) (errno s).

(** Names that are refused, and those that are not. *)
Lemma refused_name_spec n : match refused_name n with None => 0 < zlen n <= 254 | Some e => n = [] /\ e = EINVAL \/ 254 < zlen n /\ e = E2BIG end.
Proof.
  unfold refused_name. destruct (Z.eqb_spec (zlen n) 0) as [E|E]; [left; by destruct n|]. destruct (Z.leb_spec (zlen n) 254); [lia | by right].
Qed.

(** A change and a reading on the descriptor. *)
Lemma set_on_descriptor t0 info fd b n value size op x s : opened fd s -> 0 <= op <= 3 -> size <= 65535 ->
  match value with None => op = XATTR_DELETE | Some _ => op <> XATTR_DELETE /\ size <> 0 end ->
  wlibc_common_setxattr t0 info fd None (Some (b :: n)) value size op AT_EMPTY_PATH x s = do_setxattr h (b :: n) value size op x s.
Proof.
  intros Ho Hop Hs Hv. unfold wlibc_common_setxattr. rewrite (proj2 (Z.ltb_ge op 0)), (proj2 (Z.ltb_ge 3 op)) by lia. rewrite (proj2 (Z.ltb_ge 65535 _)) by lia.
  change (negb (known_flags AT_EMPTY_PATH)) with false. destruct value as [v|]; [destruct Hv as [Hv Hz] | subst op].
  - rewrite (proj2 (Z.eqb_neq op XATTR_DELETE)), (proj2 (Z.eqb_neq size 0)) by done. cbn [orb negb andb]. by apply on_descriptor.
  - cbn [orb negb andb]. change (XATTR_DELETE =? XATTR_DELETE) with true. cbv iota. by apply on_descriptor.
Qed.

Lemma get_on_descriptor t0 info fd b n size x s : opened fd s -> fgetxattr t0 info fd (Some (b :: n)) true size x s = do_getxattr h (b :: n) size x s.
Proof.
  intros Ho. unfold fgetxattr, wlibc_common_getxattr. change (negb (known_flags AT_EMPTY_PATH)) with false. cbn [negb]. rewrite andb_false_r. by apply on_descriptor.
Qed.

(** Refused arguments. *)
Lemma set_refused_run t0 info fd op n v x s e : opened fd s -> (op = XATTR_DELETE -> v <> []) -> refused_arguments (SetXattr op n v) = Some e ->
  fsetxattr t0 info fd (Some n) (Some v) (zlen v) op x s = Some ((-1, x), with_errno s e).
Proof.
  intros Ho Hd. cbn [refused_arguments]. unfold fsetxattr. destruct ((op =? 0) || _ || _) eqn:Eop.
  - assert (0 <= op <= 2) as Hop by (unfold XATTR_CREATE, XATTR_REPLACE in Eop; lia).
    destruct (Z.eqb_spec (zlen v) 0) as [Ev|Ev]; [|destruct (Z.leb_spec (zlen v) 65535) as [Hl|Hl]].
    + intros [= <-]. unfold wlibc_common_setxattr. rewrite (proj2 (Z.ltb_ge op 0)), (proj2 (Z.ltb_ge 3 op)), (proj2 (Z.eqb_neq op XATTR_DELETE)) by (unfold XATTR_DELETE; lia).
      by rewrite Ev.
    + pose proof (refused_name_spec n) as Hn. intros E. rewrite E in Hn. destruct Hn as [[-> ->] | [Hn ->]].
      * unfold wlibc_common_setxattr. rewrite (proj2 (Z.ltb_ge op 0)), (proj2 (Z.ltb_ge 3 op)), (proj2 (Z.eqb_neq op XATTR_DELETE)), (proj2 (Z.ltb_ge 65535 _)) by (unfold XATTR_DELETE; lia).
        by rewrite (proj2 (Z.eqb_neq _ _) Ev).
      * destruct n as [|b n]; [cbn in Hn; lia|]. rewrite set_on_descriptor by first [done | lia | split; [unfold XATTR_DELETE; lia | done]].
        unfold do_setxattr. by rewrite (proj2 (Z.ltb_lt _ _) Hn).
    + intros [= <-]. unfold wlibc_common_setxattr. rewrite (proj2 (Z.ltb_ge op 0)), (proj2 (Z.ltb_ge 3 op)), (proj2 (Z.eqb_neq op XATTR_DELETE)), (proj2 (Z.ltb_lt 65535 _)) by (unfold XATTR_DELETE; lia).
      by rewrite (proj2 (Z.eqb_neq _ _) Ev).
  - intros [= <-]. unfold wlibc_common_setxattr. destruct ((op <? 0) || (3 <? op)) eqn:Er; [done|].
    assert (op = XATTR_DELETE) as -> by (unfold XATTR_CREATE, XATTR_REPLACE, XATTR_DELETE in *; lia). destruct v as [|c v]; [by destruct (Hd eq_refl)|]. done.
Qed.

Lemma refused_run t0 info fd c x s e : opened fd s -> call_fits c -> refused_arguments c = Some e -> xattr_run t0 info fd c x s = Some ((-1, [], x), with_errno s e).
Proof.
  intros Ho Hc He. destruct c as [op n v | n | n size]; cbn [xattr_run].
  - by rewrite (SM_bind_Some _ _ _ _ _ _ _ (set_refused_run t0 info fd op n v x s e Ho (proj1 Hc) He)).
  - rewrite (SM_bind_Some _ _ x s (-1) x (with_errno s e)); [done|]. pose proof (refused_name_spec n) as Hn. cbn [refused_arguments] in He. rewrite He in Hn.
    destruct Hn as [[-> ->] | [Hn ->]]; [done|]. destruct n as [|b n]; [cbn in Hn; lia|]. unfold fremovexattr. rewrite set_on_descriptor by first [done | unfold XATTR_DELETE; lia].
    unfold do_setxattr. by rewrite (proj2 (Z.ltb_lt _ _) Hn).
  - pose proof (refused_name_spec n) as Hn. cbn [refused_arguments] in He. rewrite He in Hn. destruct Hn as [[-> ->] | [Hn ->]]; [done|].
    destruct n as [|b n]; [cbn in Hn; lia|]. rewrite get_on_descriptor by done. unfold do_getxattr. by rewrite (proj2 (Z.ltb_lt _ _) Hn).
Qed.

(** A change leaves attributes that can be read back. *)
Lemma changed_readable n v s s' r e : all_readable s -> v = [] \/ readable (n, v) -> (r, errno s', attrs s') = changed n v (attrs s) e -> all_readable s'.
Proof.
  unfold all_readable, changed, change. intros Ha Hv. destruct (_ || _); intros [= _ _ ->]; [|exact Ha]. destruct Hv as [-> | [Hv Hz]]; [by apply map_Forall_delete|].
  destruct v as [|c v]; [done|]. apply map_Forall_insert_2; [|exact Ha]. split; [exact Hv|]. unfold entry_size in *. cbn [fst snd] in *. by rewrite ea_key.
Qed.

Lemma set_spec_readable op n v s s' r : all_readable s -> v = [] \/ readable (n, v) -> (r, errno s', attrs s') = set_spec op n v (attrs s) (errno s) -> all_readable s'.
Proof.
  unfold set_spec. destruct (set_refused _ _ _); [|apply changed_readable]. unfold all_readable. by intros Ha _ [= _ _ ->].
Qed.

Lemma set_step_ok t0 info fd op n v x s : opened fd s -> all_readable s -> call_fits (SetXattr op n v) -> refused_arguments (SetXattr op n v) = None ->
  call_ok t0 info fd (SetXattr op n v) x s.
Proof.
  intros Ho Ha [_ Hz] Hr. specialize (Hz Hr). pose proof Hr as Hr0. cbn [refused_arguments] in Hr. destruct (_ || _ || _) eqn:Eop; [|done].
  destruct (Z.eqb_spec (zlen v) 0) as [Ev|Ev]; [done|]. destruct (Z.leb_spec (zlen v) 65535) as [Hl|Hl]; [|done].
  pose proof (refused_name_spec n) as Hn. rewrite Hr in Hn. assert (v <> []) as Hv by (by intros ->).
  assert (op = 0 \/ op = XATTR_CREATE \/ op = XATTR_REPLACE) as Hop by lia. assert (0 <= op <= 2) as Hb by (unfold XATTR_CREATE, XATTR_REPLACE in Hop; lia).
  destruct (do_set_spec n (Some v) v op x s ltac:(by split) ltac:(lia) (readable_values s Ha) (whole_value v)) as (r & s' & Hd & Ht & He).
  exists (r, []), s'. split; [|split; [done|]; split; [exact (set_spec_readable op n v s s' r Ha (or_intror (conj Hv Hz)) He)|]].
  - cbn [xattr_run]. rewrite (SM_bind_Some _ _ x s r x s'); [done|]. rewrite <- Hd. destruct n as [|b n]; [cbn in Hn; lia|].
    apply set_on_descriptor; [done | lia | lia |]. split; [unfold XATTR_DELETE; lia | done].
  - unfold xattr_spec. rewrite Hr0. unfold set_spec, set_refused, changed, change in He. rewrite bool_decide_eq_false_2 in He by done. destruct v as [|c v]; [done|].
    destruct Hop as [-> | [-> | ->]]; cbn [Z.eqb Pos.eqb XATTR_CREATE XATTR_REPLACE orb] in *; destruct (attrs s !! key n) as [w|] eqn:E; cbn in He; destruct (room _);
      by injection He as -> -> ->.
Qed.

Lemma remove_step_ok t0 info fd n x s : opened fd s -> all_readable s -> refused_name n = None -> call_ok t0 info fd (RemoveXattr n) x s.
Proof.
  intros Ho Ha Hr. pose proof (refused_name_spec n) as Hn. rewrite Hr in Hn. assert (fits_entry (n, [])) as Hf by (split; [exact Hn | done]).
  destruct (do_set_spec n None [] XATTR_DELETE x s Hf ltac:(unfold XATTR_DELETE; lia) (readable_values s Ha) eq_refl) as (r & s' & Hd & Ht & He).
  exists (r, []), s'. split; [|split; [done|]; split; [exact (set_spec_readable _ n [] s s' r Ha (or_introl eq_refl) He)|]].
  - cbn [xattr_run]. rewrite (SM_bind_Some _ _ x s r x s'); [done|]. rewrite <- Hd. destruct n as [|b n]; [cbn in Hn; lia|].
    apply (set_on_descriptor t0 info fd b n None 0); [done | unfold XATTR_DELETE; lia | lia | done].
  - unfold xattr_spec. cbn [refused_arguments]. rewrite Hr. unfold set_spec, set_refused, changed, change in He. cbn in He.
    destruct (decide _); by injection He as -> -> ->.
Qed.

Lemma get_step_ok t0 info fd n size x s : opened fd s -> all_readable s -> 0 <= size -> refused_name n = None -> call_ok t0 info fd (GetXattr n size) x s.
Proof.
  intros Ho Ha Hz Hr. pose proof (refused_name_spec n) as Hn. rewrite Hr in Hn. unfold call_ok, xattr_spec. cbn [xattr_run refused_arguments]. rewrite Hr.
  assert (fgetxattr t0 info fd (Some n) true size x s = do_getxattr h n size x s) as -> by (destruct n; [cbn in Hn; lia | by apply get_on_descriptor]).
  rewrite (do_get_spec n size x s Hn Hz (readable_size s n Ha Hn) (readable_values s Ha)).
  destruct (attrs s !! key n) as [v|]; [destruct (size =? 0); [|destruct (size <? zlen v)]|]; do 2 eexists; (split; [reflexivity | done]).
Qed.

Lemma call_ok_all t0 info fd c x s : opened fd s -> all_readable s -> call_fits c -> call_ok t0 info fd c x s.
Proof.
  intros Ho Ha Hc. destruct (refused_arguments c) as [e|] eqn:He.
  - exists (-1, []), (with_errno s e). unfold xattr_spec. rewrite He. split; [by apply refused_run | done].
  - destruct c as [op n v | n | n size]; [by apply set_step_ok | by apply remove_step_ok | by apply get_step_ok].
Qed.

(** The calls of a sequence, each with the [errno] it leaves. *)
Definition errno_S : SM (security * path_state) K Z := fun x s => Some ((errno s, x), s).

Fixpoint xattr_runs (t0 : handle_t) (info : fdinfo) (fd : Z) (l : list xattr_call) : SM (security * path_state) K (list ((Z * list Z) * Z)) :=
  match l with
  | [] => mret []
  | c :: l => r ← xattr_run t0 info fd c; e ← errno_S; rs ← xattr_runs t0 info fd l; mret ((r, e) :: rs)
  end.
(** C39: Extended attributes refine a map: any sequence of fsetxattr, fremovexattr and
    fgetxattr calls on an open descriptor gives, call by call, the result, the stored bytes
    and the errno of [xattr_specs] on a map from names to values, which ends as the
    attributes of the file: EINVAL and E2BIG for refused arguments, EEXIST and ENODATA for
    what is there or is not, ERANGE for a buffer that is too small, E2BIG for a new value
    exactly when the volume has no room for it, and errno unchanged by a call that
    succeeds. The attributes there and those that are set are such that reading gives them
    back (an entry of at most 64 KB, a value that is not empty); fsetxattr with the
    operation XATTR_DELETE and no value is not among the calls. *)
Theorem xattrs_refine t0 info fd l x s :
  opened fd s -> all_readable s -> Forall call_fits l ->
  exists rs s', xattr_runs t0 info fd l x s = Some ((rs, x), s') /\ opened fd s' /\ all_readable s' /\
    xattr_specs key room l (attrs s) (errno s) = (rs, attrs s').
Proof.
  revert s. induction l as [|c l IH]; intros s Ho Ha Hl; [by exists [], s|].
  apply Forall_cons in Hl as [Hc Hl]. destruct (call_ok_all t0 info fd c x s Ho Ha Hc) as (r & s1 & Hr & Ht & Ha1 & He).
  destruct (IH s1) as (rs & s2 & Hrs & Ho2 & Ha2 & Hs2); [by unfold opened in *; rewrite Ht | done | done |].
  exists ((r, errno s1) :: rs), s2. cbn [xattr_runs xattr_specs]. rewrite (SM_bind_Some _ _ _ _ _ _ _ Hr), (SM_bind_Some _ _ x s1 (errno s1) x s1 eq_refl).
  rewrite (SM_bind_Some _ _ _ _ _ _ _ Hrs), <- He, Hs2. done.
Qed.

(** ** Listing *)

Lemma query_scan size x s q k' : NtQueryEaFile h size None false (kernel s) = (q, k') -> query_ea h size None x s = Some ((q, x), with_kernel s k').
Proof. intros E. unfold query_ea. by rewrite (SM_bind_Some kernel_S _ x s (kernel s) x s eq_refl), E. Qed.

(** One query gives all attributes. *)
Definition one_query (l : list attribute) : Prop :=
  zlen (encode l) <= 1024 \/ (zlen (encode l) <= 65536 /\ match l with x :: _ => 1024 < entry_size x | [] => False end).

Lemma first_query io buf x s : eas (kernel s) <> [] -> scanned (kernel s) = 0%nat -> one_query (eas (kernel s)) -> exists size k' post,
  next_eas h 1024 io buf x s = Some ((inr (STATUS_SUCCESS, size, Some (zlen (encode (eas (kernel s)))), encode (eas (kernel s)) ++ post), x), with_kernel s k') /\
  eas k' = eas (kernel s) /\ scanned k' = length (eas (kernel s)).
Proof.
  intros Hne H0 Hq. unfold next_eas. destruct (ea_scan 1024 (kernel s)) as (q & k1 & E1 & He1 & Hs1). rewrite decide_False in Hs1 by done. rewrite H0, drop_0 in Hs1.
  destruct (eas (kernel s)) as [|a l] eqn:El; [done|]. rewrite (SM_bind_Some _ _ _ _ _ _ _ (query_scan _ x s _ _ E1)).
  cbv beta iota zeta in Hs1. destruct (zlen (encode (a :: l)) <=? 1024) eqn:Efit.
  - destruct Hs1 as [-> Hs1]. cbn [ea_status ea_information ea_bytes]. exists 1024, k1. eexists. split; [reflexivity | done].
  - destruct Hq as [Hq | [Hq Ha]]; [lia|]. destruct (Hs1 Ha) as [-> ->]. cbn [ea_status ea_information ea_bytes].
    change (bool_decide (STATUS_BUFFER_TOO_SMALL = STATUS_NO_EAS_ON_FILE)) with false. change (too_small STATUS_BUFFER_TOO_SMALL) with true. cbv iota. rewrite alloc_ok.
    destruct (ea_scan 65536 (kernel s)) as (q & k2 & E2 & He2 & Hs2). rewrite El in Hs2. rewrite decide_False in Hs2 by done. rewrite H0, drop_0 in Hs2. cbv beta iota zeta in Hs2.
    rewrite (proj2 (Z.leb_le _ _) Hq) in Hs2. destruct Hs2 as [-> Hs2]. rewrite with_kernel_same, (SM_bind_Some _ _ _ _ _ _ _ (query_scan _ x s _ _ E2)).
    exists 65536, k2. eexists. split; [reflexivity | by rewrite He2].
Qed.

(** A scan that has given everything ends. *)
Lemma last_query size io buf x s : eas (kernel s) <> [] -> scanned (kernel s) = length (eas (kernel s)) ->
  next_eas h size io buf x s = Some ((inr (STATUS_NO_MORE_EAS, size, Some 0, buf), x), s).
Proof.
  intros Hne Hs. unfold next_eas. destruct (ea_scan size (kernel s)) as (q & k1 & E1 & He1 & Hs1). rewrite decide_False in Hs1 by done.
  rewrite Hs, drop_all in Hs1. destruct Hs1 as [-> ->]. rewrite (SM_bind_Some _ _ _ _ _ _ _ (query_scan _ x s _ _ E1)), with_kernel_same. done.
Qed.

(** a listing of a file whose attributes one query gives returns the length of the names,
    each with its NUL, in the order of the kernel, and stores them when they fit; with a
    size of 0 nothing is stored, and with a size that is too small the call fails with
    ERANGE and has stored the first names. *)
Theorem listxattr_names fuel size x s :
  eas (kernel s) <> [] -> scanned (kernel s) = 0%nat -> one_query (eas (kernel s)) -> (length (eas (kernel s)) < fuel)%nat -> 0 <= size ->
  exists r s', do_listxattr (S fuel) h size x s = Some ((r, x), s') /\ eas (kernel s') = eas (kernel s) /\
    let names := names_of (eas (kernel s)) in
    if size =? 0 then r = (zlen names, []) /\ errno s' = errno s
    else if zlen names <=? size then r = (zlen names, names) /\ errno s' = errno s
    else r.1 = -1 /\ errno s' = ERANGE /\ r.2 `prefix_of` names.
Proof.
  intros Hne H0 Hq Hf Hz. unfold do_listxattr. rewrite alloc_ok. cbn [list_loop]. destruct (first_query None [] x s Hne H0 Hq) as (bs & k' & post & En & He & Hs).
  rewrite (SM_bind_Some _ _ _ _ _ _ _ En). cbn [defined]. rewrite (SM_bind_Some _ _ x (with_kernel s k') _ x (with_kernel s k') eq_refl).
  pose proof (list_entries_encode size (eas (kernel s)) Hne (ea_entries _) fuel [] post 0 [] Hf eq_refl) as El. cbn [app] in El. change (zlen (@nil Z)) with 0 in El. rewrite Z.add_0_l in El.
  rewrite El. cbn [defined]. rewrite (SM_bind_Some _ _ x (with_kernel s k') _ x (with_kernel s k') eq_refl).
  assert (forall n out, listed size (eas (kernel s)) 0 [] = (true, n, out) -> list_loop fuel h size bs (Some (zlen (encode (eas (kernel s))))) (encode (eas (kernel s)) ++ post) n out x (with_kernel s k') = Some ((n, out, x), with_kernel s k')) as Hend.
  { intros n out _. destruct fuel as [|[|fuel]]; [lia | destruct (eas (kernel s)); [done | cbn in Hf; lia] |]. cbn [list_loop].
    rewrite (SM_bind_Some _ _ _ _ _ _ _ (last_query bs _ _ x (with_kernel s k') ltac:(cbn; congruence) ltac:(cbn; congruence))). done. }
  destruct (Z.eqb_spec size 0) as [-> | Hs0].
  - rewrite listed_length in *. exists (zlen (names_of (eas (kernel s))), []), (with_kernel s k'). split; [|done]. exact (Hend _ _ eq_refl).
  - cbv zeta. destruct (Z.leb_spec (zlen (names_of (eas (kernel s)))) size) as [Hfit|Hfit].
    + rewrite (listed_all size _ 0 []) in * by lia. exists (zlen (names_of (eas (kernel s))), names_of (eas (kernel s))), (with_kernel s k'). split; [|done]. exact (Hend _ _ eq_refl).
    + destruct (listed_short size (eas (kernel s)) 0 [] ltac:(lia) ltac:(lia) ltac:(lia)) as (n & p & -> & Hp & _). exists (-1, p), (with_errno (with_kernel s k') ERANGE).
      split; [done|]. split; [exact He|]. done.
Qed.

(** a second listing through the same descriptor finds nothing: the scan of the handle is
    not restarted, so that once the attributes have been listed the call returns 0. *)
Theorem flistxattr_lists_once fuel t0 info fd buffer size x s :
  opened fd s -> eas (kernel s) <> [] -> scanned (kernel s) = length (eas (kernel s)) -> buffer = true -> (2 <= fuel)%nat ->
  flistxattr fuel t0 info fd buffer size x s = Some ((0, [], x), s).
Proof.
  intros Ho Hne Hs -> Hf. unfold flistxattr, wlibc_common_listxattr. change (negb (known_flags AT_EMPTY_PATH)) with false. cbn [negb]. rewrite andb_false_r.
  rewrite on_descriptor by done. unfold do_listxattr. rewrite alloc_ok. destruct fuel as [|[|fuel]]; [lia | lia |]. cbn [list_loop].
  by rewrite (SM_bind_Some _ _ _ _ _ _ _ (last_query 1024 None [] x s Hne Hs)).
Qed.
End Attributes.


(** ** What goes wrong *)

Section Faults.
Context {K : Type} {KN : Kernel K} {A : Allocator} {PK : PathKernel K} {OK : OpenKernel K} {SK : StatKernel K} {EK : EaKernel K}.
Context (alloc_ok : forall n, malloc_ok n = true).
Implicit Types (x : security * path_state) (s : state K).

(** a file whose attributes cannot be queried, for want of rights or because the volume
    has none: the error is not looked at and the length is read from a status block that
    was never written. *)
Theorem listxattr_error_undefined fuel h size x s status k' :
  NtQueryEaFile h 1024 None false (kernel s) = (EaQuery status None [], k') ->
  status <> STATUS_NO_EAS_ON_FILE -> too_small status = false -> do_listxattr fuel h size x s = None.
Proof.
  intros Hq Hn Ht. unfold do_listxattr. rewrite alloc_ok. destruct fuel as [|fuel]; [done|]. cbn [list_loop]. unfold next_eas, query_ea.
  rewrite (SM_bind_Some _ _ x s (inr (status, 1024, None, [])) x (with_kernel s k')); [done|].
  rewrite (SM_bind_Some _ _ x s (EaQuery status None []) x (with_kernel s k')) by (rewrite (SM_bind_Some kernel_S _ x s (kernel s) x s eq_refl), Hq; done).
  cbn [ea_status ea_information ea_bytes]. rewrite bool_decide_eq_false_2 by done. by rewrite Ht.
Qed.

(** a removal with a size and no value passes the checks and copies from a null
    pointer, once the attribute exists. *)
Theorem remove_with_size_undefined t0 info fd (name : list Z) size x s h q k' :
  0 < size <= 65535 -> 0 < zlen name <= 254 -> file_or_directory fd info x s = Some ((Some h, x), s) ->
  NtQueryEaFile h 512 (Some (name_block name)) false (kernel s) = (q, k') -> ea_status q = STATUS_SUCCESS -> (exists v, ea_value_length (ea_bytes q) 0 = Some v /\ v <> 0) ->
  wlibc_common_setxattr t0 info fd None (Some name) None size XATTR_DELETE AT_EMPTY_PATH x s = None.
Proof.
  intros Hs Hn Hfd Hq Hst (v & Hv & Hv0). unfold wlibc_common_setxattr. change (negb (known_flags AT_EMPTY_PATH)) with false. change (XATTR_DELETE =? XATTR_DELETE) with true.
  change ((XATTR_DELETE <? 0) || (3 <? XATTR_DELETE)) with false. cbn [negb andb]. rewrite (proj2 (Z.ltb_ge 65535 _)) by lia. destruct name as [|b name]; [cbn in Hn; lia|].
  unfold xattr_file. change (negb (AT_EMPTY_PATH =? AT_EMPTY_PATH)) with false. cbv iota. rewrite (SM_bind_Some _ _ _ _ _ _ _ Hfd). unfold do_setxattr.
  rewrite (proj2 (Z.ltb_ge _ _)), alloc_ok by lia. change (negb (XATTR_DELETE =? 0)) with true. cbv iota.
  rewrite (SM_bind_Some _ _ x s None x (with_kernel s k')).
  - unfold value_bytes. by rewrite (proj2 (Z.ltb_lt _ _)) by lia.
  - unfold query_ea. rewrite (SM_bind_Some _ _ x s q x (with_kernel s k')) by (rewrite (SM_bind_Some kernel_S _ x s (kernel s) x s eq_refl), Hq; done).
    unfold refused. change (XATTR_DELETE =? XATTR_CREATE) with false. rewrite Hst, Hv. change (ok STATUS_SUCCESS) with true. cbv iota. cbn [defined].
    rewrite (SM_bind_Some _ _ x (with_kernel s k') v x (with_kernel s k') eq_refl). by rewrite (proj2 (Z.eqb_neq _ _) Hv0).
Qed.

(** attributes that need more than 1024 bytes together: the entries a query that
    overflowed did give are dropped, and what is listed is what the next query gives. *)
Theorem listxattr_drops_overflow fuel h x s q k1 l k2 k3 size :
  NtQueryEaFile h 1024 None false (kernel s) = (q, k1) -> ea_status q = STATUS_BUFFER_OVERFLOW ->
  NtQueryEaFile h 65536 None false k1 = (EaQuery STATUS_SUCCESS (Some (zlen (encode l))) (encode l), k2) ->
  NtQueryEaFile h 65536 None false k2 = (EaQuery STATUS_NO_MORE_EAS (Some 0) [], k3) ->
  l <> [] -> Forall fits_entry l -> (length l < fuel)%nat -> 0 < size -> zlen (names_of l) <= size ->
  do_listxattr (S fuel) h size x s = Some ((zlen (names_of l), names_of l, x), with_kernel s k3).
Proof.
  intros Hq1 Hst Hq2 Hq3 Hne Hl Hf Hz Hsz. unfold do_listxattr. rewrite alloc_ok. cbn [list_loop].
  assert (forall n s q k, NtQueryEaFile h n None false (kernel s) = (q, k) -> query_ea h n None x s = Some ((q, x), with_kernel s k)) as Q.
  { intros n s0 q0 k0 E. unfold query_ea. by rewrite (SM_bind_Some kernel_S _ x s0 (kernel s0) x s0 eq_refl), E. }
  rewrite (SM_bind_Some _ _ x s (inr (STATUS_SUCCESS, 65536, Some (zlen (encode l)), encode l ++ drop (length (encode l)) (ea_bytes q ++ drop (length (ea_bytes q)) []))) x (with_kernel s k2)).
  - cbn [defined]. rewrite (SM_bind_Some _ _ x (with_kernel s k2) _ x (with_kernel s k2) eq_refl). set (post := drop _ _).
    pose proof (list_entries_encode size l Hne Hl fuel [] post 0 [] Hf eq_refl) as El. cbn [app] in El. change (zlen (@nil Z)) with 0 in El. rewrite Z.add_0_l in El.
    rewrite El, listed_all by lia. cbn [defined]. rewrite (SM_bind_Some _ _ x (with_kernel s k2) _ x (with_kernel s k2) eq_refl).
    destruct fuel as [|[|fuel]]; [lia | destruct l; [done | cbn in Hf; lia] |]. change (bool_decide (STATUS_SUCCESS = STATUS_NO_MORE_EAS)) with false. cbn [negb list_loop].
    unfold next_eas. rewrite (SM_bind_Some _ _ x (with_kernel s k2) (inr (STATUS_NO_MORE_EAS, 65536, Some 0, encode l ++ post)) x (with_kernel s k3)); [done|].
    by rewrite (SM_bind_Some _ _ _ _ _ _ _ (Q 65536 (with_kernel s k2) _ k3 Hq3)).
  - unfold next_eas. rewrite (SM_bind_Some _ _ _ _ _ _ _ (Q 1024 s q k1 Hq1)), Hst. change (bool_decide (STATUS_BUFFER_OVERFLOW = STATUS_NO_EAS_ON_FILE)) with false.
    change (too_small STATUS_BUFFER_OVERFLOW) with true. cbv iota. rewrite alloc_ok, (SM_bind_Some _ _ _ _ _ _ _ (Q 65536 (with_kernel s k1) _ k2 Hq2)). done.
Qed.
End Faults.

(** ** Instances *)

(** A volume that spells names in upper case and keeps new attributes last. *)
Module Ntfs.

#[export] Instance fits_entry_dec x : Decision (fits_entry x).
Proof. unfold fits_entry. apply _. Defined.

Record K := Attributes { stored : list attribute; given : nat }.

Definition key (n : list Z) : list Z := toupper <$> n.
Definition eas (k : K) : list attribute := filter fits_entry (stored k).

Definition value_in (k : K) (n : list Z) : list Z := default [] ((list_to_map (eas k) : attributes) !! key n).

(** The name in a block that is asked for, and the attribute in one that is set. *)
Definition asked (block : list Z) : list Z := take (Z.to_nat (byte_at block 4)) (drop 5 block).
Definition to_set (block : list Z) : list Z * list Z :=
  let n := default 0 (ea_name_length block 0) in
  (default [] (slice block 8 n), default [] (slice block (8 + n + 1) (default 0 (ea_value_length block 0)))).

(** A file has at most 64 KB of attributes. *)
Definition room (m : attributes) : bool := foldr (fun x n => entry_size x + n) 0 (map_to_list m) <=? 65535.

#[export] Instance ntfs : EaKernel K := {
  NtQueryEaFile _ size names _ k :=
    match names with
    | Some block =>
        let x := (asked block, value_in k (asked block)) in
        if entry_size x <=? size then (EaQuery STATUS_SUCCESS (Some (entry_size x)) (ea_entry 0 (key x.1) x.2), k) else (EaQuery STATUS_BUFFER_OVERFLOW None [], k)
    | None =>
        if decide (eas k = []) then (EaQuery STATUS_NO_EAS_ON_FILE None [], k)
        else match drop (given k) (eas k) with
             | [] => (EaQuery STATUS_NO_MORE_EAS (Some 0) [], k)
             | l => if zlen (encode l) <=? size then (EaQuery STATUS_SUCCESS (Some (zlen (encode l))) (encode l), Attributes (stored k) (length (eas k)))
                    else (EaQuery STATUS_BUFFER_TOO_SMALL None [], k)
             end
    end;
  NtSetEaFile _ block k :=
    let '(n, v) := to_set block in
    if bool_decide (v = []) || room (<[key n := v]> (list_to_map (eas k))) then
      (STATUS_SUCCESS, Attributes (filter (fun x => x.1 <> key n) (eas k) ++ match v with [] => [] | _ => [(key n, v)] end) (given k))
    else (STATUS_EA_TOO_LARGE, k)
}.

Lemma asked_block n : 0 < zlen n <= 254 -> asked (name_block n) = n.
Proof.
  intros Hn. unfold asked, name_block. change (byte_at _ 4) with (zlen n). rewrite Nat2Z.id.
  change (drop 5 _) with (n ++ replicate (Z.to_nat (255 - zlen n)) 0). by rewrite take_app_length.
Qed.

Lemma set_block n v : fits_entry (n, v) -> to_set (insert_block n v) = (n, v).
Proof.
  intros Hf. unfold to_set, insert_block. pose proof (name_length_of_entry [] [0; 0; 0; 0] 0 (n, v)) as En. pose proof (value_length_of_entry [] [0; 0; 0; 0] 0 (n, v) Hf) as Ev.
  pose proof (value_of_entry [] [0; 0; 0; 0] 0 (n, v)) as Es. cbn [app fst snd] in *. change (zlen (@nil Z)) with 0 in *. rewrite Z.add_0_l in Es. rewrite En, Ev. change (default 0 (Some ?z)) with z.
  rewrite Es. f_equal. unfold ea_entry. replace ((_ ++ _) ++ [0; 0; 0; 0]) with ((le_bytes 4 0 ++ [0; zlen n] ++ le_bytes 2 (zlen v)) ++ n ++ ([0] ++ v ++ [0; 0; 0; 0])).
  - replace 8 with (zlen (le_bytes 4 0 ++ [0; zlen n] ++ le_bytes 2 (zlen v))) at 1 by (rewrite !length_app, !length_le_bytes; done). by rewrite slice_app.
  - by rewrite <- !app_assoc.
Qed.

Lemma map_without a (l : list attribute) : (list_to_map (filter (fun x => x.1 <> a) l) : attributes) = delete a (list_to_map l).
Proof.
  induction l as [|[n v] l IH]; [symmetry; apply delete_empty|]. rewrite filter_cons, list_to_map_cons. cbn [fst].
  destruct (decide (n <> a)) as [N|N].
  - by rewrite list_to_map_cons, IH, delete_insert_ne.
  - apply dec_stable in N as ->. by rewrite IH, delete_insert_eq.
Qed.

Lemma filter_all (l : list attribute) : Forall fits_entry l -> filter fits_entry l = l.
Proof. induction 1 as [|x l Hx _ IH]; [done|]. by rewrite filter_cons_True, IH. Qed.

#[export] Instance ntfs_file h : EaFile h key room eas given.
Proof.
  split.
  - intros n. apply length_fmap.
  - intros k. unfold eas. apply Forall_forall. intros x [Hx _]%list_elem_of_filter. exact Hx.
  - intros n size k Hn. cbn [NtQueryEaFile ntfs]. rewrite (asked_block n Hn). fold (value_in k n). cbv zeta.
    destruct (_ <=? size); eexists; (split; [reflexivity|]); done.
  - intros n v k Hf. cbn [NtSetEaFile ntfs]. rewrite (set_block n v Hf). cbv zeta. change (match v with [] => _ | _ => _ end ?m) with (change key n v m).
    assert (bool_decide (v = []) || room (change key n v (list_to_map (eas k))) = bool_decide (v = []) || room (<[key n := v]> (list_to_map (eas k)))) as -> by (by destruct v).
    destruct (_ || _); do 2 eexists; (split; [reflexivity|]); [|done]. split; [done|]. unfold change.
    assert (fits_entry (key n, v)) as Hk by (unfold fits_entry in *; cbn [fst snd] in *; unfold key; by rewrite length_fmap).
    unfold eas at 1. cbn [stored]. rewrite filter_app. set (old := filter _ (filter _ (eas k))).
    assert (old = filter (fun x => x.1 <> key n) (eas k)) as ->.
    { unfold old. apply filter_all. apply Forall_forall. intros x [_ Hx]%list_elem_of_filter. by apply list_elem_of_filter in Hx as [? _]. }
    destruct v as [|b v]; [change (filter fits_entry []) with (@nil attribute); rewrite app_nil_r; apply map_without|].
    rewrite filter_cons_True by done. change (filter fits_entry []) with (@nil attribute). rewrite list_to_map_app, map_without. cbn [list_to_map foldr].
    apply map_eq. intros i. rewrite lookup_union. destruct (decide (i = key n)) as [-> | N].
    + rewrite lookup_delete_eq. by rewrite !lookup_insert_eq.
    + rewrite lookup_delete_ne, !lookup_insert_ne by done. by rewrite lookup_empty, option_union_right_id.
  - intros size k. cbn [NtQueryEaFile ntfs]. destruct (decide _) as [E|E]; [do 2 eexists; by rewrite E|].
    destruct (drop (given k) (eas k)) as [|x l]; [do 2 eexists; done|]. destruct (_ <=? size); do 2 eexists; done.
Qed.
End Ntfs.

Import Idle Ntfs.

Definition attr_name (c : Z) : list Z := str "user." ++ [c].

Definition two_attributes : Ntfs.K := Attributes [(Ntfs.key (attr_name (ch "a")), str "one"); (Ntfs.key (attr_name (ch "b")), str "two")] 0.

Definition long_value : list Z := replicate (Z.to_nat 40000) 1.

Definition some_xattrs : list xattr_call :=
  [SetXattr XATTR_CREATE (attr_name (ch "a")) (str "new"); SetXattr XATTR_REPLACE (attr_name (ch "a")) (str "three"); GetXattr (attr_name (ch "A")) 16;
   GetXattr (attr_name (ch "a")) 4; RemoveXattr (attr_name (ch "b")); GetXattr (attr_name (ch "b")) 16; SetXattr 0 (attr_name (ch "c")) long_value;
   SetXattr XATTR_CREATE (attr_name (ch "d")) long_value; SetXattr 7 (attr_name (ch "d")) (str "new"); RemoveXattr []].

Lemma two_opened k : opened 1 3 (process FILE_HANDLE k : state Ntfs.K).
Proof. eexists. split; [reflexivity|]. split; [reflexivity | by left]. Qed.

Lemma two_readable : all_readable Ntfs.eas (process FILE_HANDLE two_attributes).
Proof. apply (bool_decide_unpack _). vm_compute. exact I. Qed.

Lemma xattrs_refine_witness : exists rs s', xattr_runs INVALID_HANDLE (Fdinfo 0 INVALID_HANDLE 0 0) 3 some_xattrs start (process FILE_HANDLE two_attributes) = Some ((rs, start), s') /\
  rs = [(-1, [], EEXIST); (0, [], EEXIST); (5, str "three", EEXIST); (-1, [], ERANGE); (0, [], ERANGE); (-1, [], ENODATA); (0, [], ENODATA);
        (-1, [], E2BIG); (-1, [], EINVAL); (-1, [], EINVAL)] /\
  xattr_specs Ntfs.key Ntfs.room some_xattrs (attrs Ntfs.eas (process FILE_HANDLE two_attributes)) 0 = (rs, attrs Ntfs.eas s').
Proof.
  destruct (xattrs_refine (K := Ntfs.K) (fun _ => eq_refl) 1 Ntfs.key Ntfs.room Ntfs.eas given INVALID_HANDLE (Fdinfo 0 INVALID_HANDLE 0 0) 3 some_xattrs start (process FILE_HANDLE two_attributes))
    as (rs & s' & E & _ & _ & Hs).
  - apply two_opened.
  - exact two_readable.
  - unfold some_xattrs. repeat (apply Forall_cons; split; [first [exact I | split; [discriminate | intros _; apply Z.leb_le; vm_compute; reflexivity] | apply Z.leb_le; vm_compute; reflexivity]|]).
    apply Forall_nil_2.
  - exists rs, s'. split; [exact E|]. split; [|exact Hs]. clear E. apply (f_equal fst) in Hs. cbn [fst] in Hs. rewrite <- Hs. vm_compute. reflexivity.
Defined.

Lemma listxattr_names_witness : exists r s', do_listxattr 4 1 16 start (process FILE_HANDLE two_attributes) = Some ((r, start), s') /\
  r = (14, str "USER.A" ++ [0] ++ str "USER.B" ++ [0]).
Proof.
  destruct (listxattr_names (K := Ntfs.K) (fun _ => eq_refl) 1 Ntfs.key Ntfs.room Ntfs.eas given 3 16 start (process FILE_HANDLE two_attributes)) as (r & s' & E & _ & Hr).
  - discriminate.
  - reflexivity.
  - left. vm_compute. discriminate.
  - apply (bool_decide_unpack _). vm_compute. exact I.
  - lia.
  - exists r, s'. split; [exact E|]. exact (proj1 Hr).
Defined.

Lemma flistxattr_lists_once_witness :
  let s := process FILE_HANDLE (Attributes (stored two_attributes) 2) in
  flistxattr 2 INVALID_HANDLE (Fdinfo 0 INVALID_HANDLE 0 0) 3 true 16 start s = Some ((0, [], start), s).
Proof.
  apply (flistxattr_lists_once (K := Ntfs.K) (fun _ => eq_refl) 1 Ntfs.key Ntfs.room Ntfs.eas given); [apply two_opened | discriminate | reflexivity | reflexivity | lia].
Defined.

Lemma remove_with_size_undefined_witness :
  wlibc_common_setxattr INVALID_HANDLE (Fdinfo 0 INVALID_HANDLE 0 0) 3 None (Some (attr_name (ch "a"))) None 4 XATTR_DELETE AT_EMPTY_PATH start (process FILE_HANDLE two_attributes) = None.
Proof.
  eapply (remove_with_size_undefined (K := Ntfs.K) (fun _ => eq_refl) _ _ _ _ _ _ _ 1); [lia | cbn; lia | reflexivity | reflexivity | reflexivity |].
  exists 3. split; [reflexivity | discriminate].
Defined.

(** A volume without attributes, and one that overflows first. *)
#[local] Instance no_attributes : EaKernel unit := { NtQueryEaFile _ _ _ _ k := (EaQuery STATUS_EAS_NOT_SUPPORTED None [], k); NtSetEaFile _ _ k := (STATUS_EAS_NOT_SUPPORTED, k) }.

#[local] Instance overflowing : EaKernel nat := {
  NtQueryEaFile _ _ _ _ k :=
    match k with
    | O => (EaQuery STATUS_BUFFER_OVERFLOW (Some (entry_size (str "A", str "1"))) (ea_entry 0 (str "A") (str "1")), 1%nat)
    | 1%nat => (EaQuery STATUS_SUCCESS (Some (zlen (encode [(str "B", str "2")]))) (encode [(str "B", str "2")]), 2%nat)
    | _ => (EaQuery STATUS_NO_MORE_EAS (Some 0) [], k)
    end;
  NtSetEaFile _ _ k := (STATUS_SUCCESS, k)
}.

Lemma listxattr_error_undefined_witness : do_listxattr 9 1 16 start (process FILE_HANDLE ()) = None.
Proof. by apply (listxattr_error_undefined (K := unit) (fun _ => eq_refl) 9 1 16 _ _ STATUS_EAS_NOT_SUPPORTED ()). Defined.

Lemma listxattr_drops_overflow_witness : do_listxattr 4 1 16 start (process FILE_HANDLE 0%nat) = Some ((2, str "B" ++ [0], start), process FILE_HANDLE 2%nat).
Proof.
  apply (listxattr_drops_overflow (K := nat) (fun _ => eq_refl) 3 1 start (process FILE_HANDLE 0%nat)
           (EaQuery STATUS_BUFFER_OVERFLOW (Some (entry_size (str "A", str "1"))) (ea_entry 0 (str "A") (str "1"))) 1%nat [(str "B", str "2")] 2%nat 2%nat 16);
    try reflexivity; try discriminate; try (cbn; lia). repeat constructor; cbn; lia.
Defined.
