(* ===== verification/Temp.v ===== *)
(** * Temporary files and names

    mkstemp and its relatives (src/stdlib/mkstemp.c), tmpfile, tempnam and tmpnam
    (src/stdio/temp.c; [wlibc_tmpdir] is in [Path]). *)

From stdpp Require Import strings gmap.
From S2P Require Import Prelude Errno Buffer FdTable FdTableFacts FileIo Path PathFacts Open Dirent Security Time Stream StreamList Stat Idle.

Definition CREATE_FILE : Z := 1.
Definition CREATE_DIR : Z := 2.
Definition TRY_NAME : Z := 3.
Definition MKSTEMP_MAX_TRIES : nat := 32.
Definition TEMP_MAX_TRIES : nat := 16.
Definition F_OK : Z := 0.

(** The variable [TMPDIR] of the environment. *)
Class TempKernel (K : Type) := { getenv_TMPDIR : K -> option (list Z) }.

(** ** Templates *)

(** The suffix is added to 6 in an [int]. *)
Definition validate_template (template : list Z) (suffixlen : Z) : option bool :=
  if suffixlen <? 0 then Some false
  else
    n ← i32 (suffixlen + 6);
    Some (if zlen template <? n then false
          else forallb (fun i => byte_at template (zlen template - suffixlen - 1 - i) =? ch "X") [0; 1; 2; 3; 4; 5]).

(** [start[i] = buffer[i]] where there is an [X], or [x] behind the digits. *)
Fixpoint place_digits (l digits : list Z) : list Z :=
  match l with
  | [] => []
  | c :: l =>
      (if c =? ch "X" then match digits with d :: _ => d | [] => Z.lor c 32 end else c) :: place_digits l (tail digits)
  end.

Section Temp.
Context {K : Type} {KN : Kernel K} {A : Allocator} {PK : PathKernel K} {OK : OpenKernel K} {SK : StatKernel K} {TK : TempKernel K}.

Abbreviation F := (SM (security * path_state) K).

(** [rand_s] and [_ultoa_s(rn, buffer, 8, 36)]. *)
Definition random_digits {T} : SM T K (list Z) :=
  k ← kernel_S;
  let '(rn, k) := rand_s k in
  _ ← run_M (set_kernel k);
  mret (base36 7 (u32 rn) []).

(** The 6 characters from [at_]. *)
Definition gen_tempstring {T} (template : list Z) (at_ : Z) : SM T K (list Z) :=
  d ← random_digits;
  let n := Z.to_nat at_ in
  mret (take n template ++ place_digits (take 6 (drop n template)) d ++ drop (n + 6) template).

(** Until something is created. *)
Fixpoint create_loop (tries : nat) (at_ : Z) (create : list Z -> F Z) (status : Z) (template : list Z) : F (Z * list Z) :=
  match tries with
  | O => mret (status, template)
  | S tries =>
      if status =? -1 then
        template ← gen_tempstring template at_;
        status ← create template;
        create_loop tries at_ create status template
      else mret (status, template)
  end.

(** Until there is no file of the name. *)
Fixpoint try_loop (tries : nat) (t0 : handle_t) (at_ : Z) (status : Z) (template : list Z) : F (Z * list Z) :=
  match tries with
  | O => mret (status, template)
  | S tries =>
      template ← gen_tempstring template at_;
      '(status, _) ← wlibc_common_stat t0 AT_FDCWD (Some template) true AT_SYMLINK_NOFOLLOW;
      s ← run_M get;
      if (status =? -1) && (errno s =? ENOENT) then _ ← run_M (set_errno 0); mret (0, template)
      else try_loop tries t0 at_ status template
  end.

Definition open_temp (flags : Z) (name : list Z) : F Z :=
  with_paths (wlibc_common_open AT_FDCWD (Some name) (Z.lor O_CREAT (Z.lor O_EXCL (Z.lor O_RDWR flags))) 384).

(** The result, and what the template holds afterwards. *)
Definition wlibc_common_mkstemp (t0 : handle_t) (template : option (list Z)) (suffixlen flags operation : Z) : F (Z * list Z) :=
  match template with
  | None | Some [] => error EINVAL (-1, [])
  | Some template =>
      if (operation <? 1) || (3 <? operation) then error EINVAL (-1, template)
      else
        valid ← defined (validate_template template suffixlen);
        if negb valid then error EINVAL (-1, template)
        else
          r ← (if operation =? CREATE_FILE then create_loop MKSTEMP_MAX_TRIES (zlen template - suffixlen - 6) (open_temp flags) (-1) template
               else if operation =? CREATE_DIR then
                 create_loop MKSTEMP_MAX_TRIES (zlen template - 6) (fun name => wlibc_common_mkdir AT_FDCWD (Some name) 448) (-1) template
               else try_loop MKSTEMP_MAX_TRIES t0 (zlen template - 6) (-1) template);
          _ ← run_M (set_errno 0);
          mret r
  end.

Definition mkstemp (t0 : handle_t) (template : option (list Z)) : F (Z * list Z) := wlibc_common_mkstemp t0 template 0 0 1.
Definition mkostemp (t0 : handle_t) (template : option (list Z)) (flags : Z) : F (Z * list Z) := wlibc_common_mkstemp t0 template 0 flags 1.
Definition mkstemps (t0 : handle_t) (template : option (list Z)) (suffixlen : Z) : F (Z * list Z) := wlibc_common_mkstemp t0 template suffixlen 0 1.
Definition mkostemps (t0 : handle_t) (template : option (list Z)) (suffixlen flags : Z) : F (Z * list Z) := wlibc_common_mkstemp t0 template suffixlen flags 1.

(** The template, or a null pointer. *)
Definition mktemp (t0 : handle_t) (template : option (list Z)) : F (option (list Z)) :=
  '(status, template) ← wlibc_common_mkstemp t0 template 0 0 3;
  mret (if negb (status =? -1) then Some template else None).
Definition mkdtemp (t0 : handle_t) (template : option (list Z)) : F (option (list Z)) :=
  '(status, template) ← wlibc_common_mkstemp t0 template 0 0 2;
  mret (if negb (status =? -1) then Some template else None).

(** ** Names *)

(** [strcat] in a block of [cap] bytes. *)
Definition strcat {T} (cap : Z) (l d : list Z) : SM T K (list Z) := if cap <? zlen l + zlen d + 1 then run_M UB else mret (l ++ d).

Definition append_random_string {T} (cap : Z) (l : list Z) : SM T K (list Z) := d ← random_digits; strcat cap l d.

(** Whether there is a file of the name. *)
Definition exists_name (t0 : handle_t) (name : list Z) : F Z := wlibc_common_access t0 AT_FDCWD (Some name) F_OK AT_SYMLINK_NOFOLLOW.

Fixpoint free_name (tries : nat) (t0 : handle_t) (cap old_errno : Z) (name : list Z) : F (list Z) :=
  match tries with
  | O => mret name
  | S tries =>
      name ← append_random_string cap name;
      status ← exists_name t0 name;
      s ← run_M get;
      if (status =? -1) && (errno s =? ENOENT) then _ ← run_M (set_errno old_errno); mret name
      else free_name tries t0 cap old_errno name
  end.

(** The directory: the argument, the variable, the default one, which must be known. *)
Definition temp_directory (dir : option (list Z)) : F (list Z) :=
  match dir with
  | Some dir => mret dir
  | None =>
      k ← kernel_S;
      match getenv_TMPDIR k with
      | Some dir => mret dir
      | None => dir ← with_paths wlibc_tmpdir; defined dir
      end
  end.

(** [dir[dir_length - 1]] must be there. *)
Definition wlibc_tempnam (t0 : handle_t) (dir prefix : option (list Z)) : F (option (list Z)) :=
  s ← run_M get;
  let old_errno := errno s in
  dir ← temp_directory dir;
  let cap := zlen dir + zlen (default [] prefix) + 10 in
  if malloc_ok cap then
    c ← defined (last dir);
    let name := dir ++ (if negb (c =? ch "/") && negb (c =? 92) then str "/" else []) in
    name ← strcat cap name (default [] prefix);
    name ← free_name TEMP_MAX_TRIES t0 cap old_errno name;
    mret (Some name)
  else error ENOMEM None.

(** [strcpy] and [strcat] to an array of [L_tmpnam] bytes. *)
Definition tmpdir_prefix {T} (dir : option (list Z)) : SM T K (list Z) := d ← defined dir; strcat L_tmpnam d (str "\").

Definition wlibc_tmpnam (t0 : handle_t) (name : option (list Z)) : F (option (list Z)) :=
  s ← run_M get;
  dir ← with_paths wlibc_tmpdir;
  tempname ← tmpdir_prefix dir;
  match name with
  | None => n ← free_name TEMP_MAX_TRIES t0 L_tmpnam (errno s) tempname; mret (Some n)
  | Some name =>
      tempname ← strcat L_tmpnam tempname name;
      status ← exists_name t0 tempname;
      mret (if status =? 0 then None else Some tempname)
  end.

(** ** tmpfile *)

Context {FK : FileKernel K} {H : Heap} {SH : StreamHeap}.

(** Names are tried until one can be opened; a random number is appended each time. *)
Fixpoint tmpfile_loop (tries : nat) (name : list Z) : SM io_state K Z :=
  name ← append_random_string L_tmpnam name;
  f ← wlibc_fopen (Some name) (Some (str "w+Dx"));
  if f =? 0 then match tries with O => mret 0 | S tries => tmpfile_loop tries name end else mret f.

Definition wlibc_tmpfile : SM io_state K Z :=
  s ← run_M get;
  dir ← on_paths wlibc_tmpdir;
  name ← tmpdir_prefix dir;
  f ← tmpfile_loop 15 name;
  _ ← run_M (set_errno (errno s));
  mret f.

End Temp.

(** ** What temporary names promise

    A template is accepted when it has six X before the suffix; the name that is created
    has digits and small letters in their place. Only one name is ever tried for a
    template, and the names of tempnam grow with every try. *)
(** ** Characters *)

Definition alnum (c : Z) : Prop := 48 <= c <= 57 \/ 97 <= c <= 122.

Definition six_x : list Z := str "XXXXXX".

Lemma base36_alnum fuel : forall n acc, 0 <= n -> Forall alnum acc -> Forall alnum (base36 fuel n acc).
Proof.
  induction fuel as [|fuel IH]; intros n acc Hn Ha; [done|]. cbn [base36].
  assert (Forall alnum (digit36 (n mod 36) :: acc)) as Hd.
  { constructor; [|done]. pose proof (Z.mod_pos_bound n 36). unfold alnum, digit36. destruct (Z.ltb_spec (n mod 36) 10); lia. }
  destruct (_ =? 0); [done|]. apply IH; [apply Z.div_pos; lia | done].
Qed.

Lemma base36_length fuel : forall n acc, (length (base36 fuel n acc) <= fuel + length acc)%nat.
Proof.
  induction fuel as [|fuel IH]; intros n acc; [done|]. cbn [base36]. destruct (_ =? 0); [cbn [length]; lia|].
  pose proof (IH (n / 36) (digit36 (n mod 36) :: acc)) as H. cbn [length] in H. lia.
Qed.

Definition digits_of (rn : Z) : list Z := base36 7 (u32 rn) [].

Lemma digits_alnum rn : Forall alnum (digits_of rn).
Proof. apply base36_alnum; [|done]. pose proof (wrap_range 32 rn). lia. Qed.

Lemma digits_length rn : zlen (digits_of rn) <= 7.
Proof. pose proof (base36_length 7 (u32 rn) []) as H. unfold digits_of. cbn [length] in H. lia. Qed.

(** What is placed is alphanumeric, so that nothing is left to place. *)
Lemma placed l : forall d, Forall alnum d -> Forall (fun c => c = ch "X") l -> Forall alnum (place_digits l d) /\ length (place_digits l d) = length l.
Proof.
  induction l as [|c l IH]; intros d Hd Hl; [done|]. apply Forall_cons in Hl as [-> Hl]. cbn [place_digits]. change (ch "X" =? ch "X") with true.
  destruct (IH (tail d) ltac:(destruct d; [done | by apply Forall_cons in Hd as [_ ?]]) Hl) as [Ha Hn]. split; [|cbn [length]; by rewrite Hn].
  constructor; [|done]. destruct d as [|a d]; [right; change (97 <= 120 <= 122); lia | by apply Forall_cons in Hd as [? _]].
Qed.

Lemma nothing_placed l : forall d, Forall alnum l -> place_digits l d = l.
Proof.
  induction l as [|c l IH]; intros d Hl; [done|]. apply Forall_cons in Hl as [Hc Hl]. cbn [place_digits]. rewrite IH by done.
  rewrite (proj2 (Z.eqb_neq c (ch "X"))); [done|]. change (ch "X") with 88. unfold alnum in Hc. lia.
Qed.

(** ** Templates *)

Lemma validate_parts pre mid suf : length mid = 6%nat -> zlen suf < 2 ^ 31 - 6 ->
  validate_template (pre ++ mid ++ suf) (zlen suf) = Some (bool_decide (mid = six_x)).
Proof.
  intros Hm Hs. unfold validate_template. rewrite (proj2 (Z.ltb_ge _ _)) by lia. unfold i32.
  rewrite (proj2 (Z.leb_le _ _)), (proj2 (Z.ltb_lt _ _)) by lia. cbn [andb mbind option_bind].
  rewrite (proj2 (Z.ltb_ge _ _)) by (rewrite !length_app; lia). f_equal.
  assert (zlen (pre ++ mid ++ suf) - zlen suf - 1 = zlen pre + 5) as -> by (rewrite !length_app; lia).
  assert (forall i, 0 <= i <= 5 -> byte_at (pre ++ mid ++ suf) (zlen pre + 5 - i) = byte_at mid (5 - i)) as B.
  { intros i Hi. replace (zlen pre + 5 - i) with (zlen pre + (5 - i)) by lia. apply byte_at_middle. lia. }
  cbn [forallb]. rewrite !B by lia. destruct mid as [|a0 [|a1 [|a2 [|a3 [|a4 [|a5 [|a6 mid]]]]]]]; try done.
  change (byte_at [a0; a1; a2; a3; a4; a5] (5 - 0)) with a5. change (byte_at [a0; a1; a2; a3; a4; a5] (5 - 1)) with a4.
  change (byte_at [a0; a1; a2; a3; a4; a5] (5 - 2)) with a3. change (byte_at [a0; a1; a2; a3; a4; a5] (5 - 3)) with a2.
  change (byte_at [a0; a1; a2; a3; a4; a5] (5 - 4)) with a1. change (byte_at [a0; a1; a2; a3; a4; a5] (5 - 5)) with a0.
  apply eq_true_iff_eq. rewrite !andb_true_iff, !Z.eqb_eq, bool_decide_eq_true. unfold six_x. cbn. split; [by intros (-> & -> & -> & -> & -> & -> & _)|].
  by intros [= -> -> -> -> -> ->].
Qed.

(** templates are the names with six X before a suffix of the given length, and no other
    name is accepted. *)
Theorem templates_valid t n : 0 <= n < 2 ^ 31 - 6 ->
  validate_template t n = Some true <-> exists pre suf, t = pre ++ six_x ++ suf /\ zlen suf = n.
Proof.
  intros Hn. split.
  - intros Hv. destruct (Z.ltb_spec (zlen t) (n + 6)) as [Hlt|Hge].
    { exfalso. revert Hv. unfold validate_template, i32. rewrite (proj2 (Z.ltb_ge n 0)), (proj2 (Z.leb_le _ _)), (proj2 (Z.ltb_lt (n + 6) _)) by lia.
      cbn [andb mbind option_bind]. by rewrite (proj2 (Z.ltb_lt _ _) Hlt). }
    set (m := Z.to_nat (zlen t - n - 6)). assert (t = take m t ++ take 6 (drop m t) ++ drop (m + 6) t) as Et by (rewrite <- drop_drop, !take_drop; done).
    assert (length (take 6 (drop m t)) = 6%nat) as Hm by (rewrite length_take, length_drop; unfold m; lia).
    assert (zlen (drop (m + 6) t) = n) as Hs by (rewrite length_drop; unfold m; lia).
    rewrite Et, <- Hs in Hv. rewrite validate_parts in Hv by (done || lia). injection Hv as Hv%bool_decide_eq_true.
    exists (take m t), (drop (m + 6) t). by rewrite <- Hv.
  - intros (pre & suf & -> & <-). rewrite validate_parts by (done || lia). by rewrite bool_decide_eq_true_2.
Qed.

Section Names.
Context {K : Type} {KN : Kernel K} {A : Allocator} {PK : PathKernel K} {OK : OpenKernel K} {SK : StatKernel K} {TK : TempKernel K}.
Implicit Types (x : security * path_state) (s : state K) (k : K).

Abbreviation F := (SM (security * path_state) K).

Definition drawn s : state K := with_kernel s (rand_s (kernel s)).2.
Definition digits_at s : list Z := digits_of (rand_s (kernel s)).1.

Lemma random_drawn {T} (y : T) s : random_digits y s = Some ((digits_at s, y), drawn s).
Proof.
  unfold random_digits. rewrite (SM_bind_Some kernel_S _ y s (kernel s) y s eq_refl). unfold digits_at, drawn. by destruct (rand_s (kernel s)) as [rn k].
Qed.

Lemma gen_parts pre mid suf x s : length mid = 6%nat ->
  gen_tempstring (pre ++ mid ++ suf) (zlen pre) x s = Some ((pre ++ place_digits mid (digits_at s) ++ suf, x), drawn s).
Proof.
  intros Hm. unfold gen_tempstring. rewrite (SM_bind_Some _ _ _ _ _ _ _ (random_drawn x s)). cbv zeta. rewrite Nat2Z.id, take_app_length, drop_app_length.
  rewrite <- Hm at 1. rewrite take_app_length. replace (length pre + 6)%nat with (length (pre ++ mid)) by (rewrite length_app; lia).
  rewrite (app_assoc pre mid suf), drop_app_length. done.
Qed.

(** The name a template stands for. *)
Definition temp_name (pre suf : list Z) s : list Z := pre ++ place_digits six_x (digits_at s) ++ suf.

Lemma six_placed s : Forall alnum (place_digits six_x (digits_at s)) /\ length (place_digits six_x (digits_at s)) = 6%nat.
Proof. apply (placed six_x); [apply digits_alnum | repeat constructor]. Qed.

(** The name does not change any more. *)
Lemma gen_again pre suf s0 x s : gen_tempstring (temp_name pre suf s0) (zlen pre) x s = Some ((temp_name pre suf s0, x), drawn s).
Proof.
  destruct (six_placed s0) as [Ha Hl]. unfold temp_name. rewrite gen_parts by done. by rewrite nothing_placed.
Qed.

(** A call that creates something, at the name. *)
Lemma create_first tries pre suf create x s r x' s' : create (temp_name pre suf s) x (drawn s) = Some ((r, x'), s') -> r <> -1 ->
  create_loop (S tries) (zlen pre) create (-1) (pre ++ six_x ++ suf) x s = Some ((r, temp_name pre suf s, x'), s').
Proof.
  intros Hc Hr. cbn [create_loop]. rewrite Z.eqb_refl, (SM_bind_Some _ _ _ _ _ _ _ (gen_parts pre six_x suf x s eq_refl)). fold (temp_name pre suf s).
  rewrite (SM_bind_Some _ _ _ _ _ _ _ Hc). destruct tries; [done|]. cbn [create_loop]. by rewrite (proj2 (Z.eqb_neq _ _) Hr).
Qed.

(** Calls that fail for one name, in the states [I]. *)
Lemma create_never pre suf s0 create (I : security * path_state -> state K -> Prop) :
  (forall x s, I x s -> I x (drawn s)) ->
  (forall x s, I x s -> exists x' s', create (temp_name pre suf s0) x s = Some ((-1, x'), s') /\ I x' s') ->
  forall tries x s, I x s -> exists x' s', create_loop tries (zlen pre) create (-1) (temp_name pre suf s0) x s = Some ((-1, temp_name pre suf s0, x'), s') /\ I x' s'.
Proof.
  intros Hr Hc tries. induction tries as [|tries IH]; intros x s Hi; [by exists x, s|]. cbn [create_loop]. rewrite Z.eqb_refl.
  rewrite (SM_bind_Some _ _ _ _ _ _ _ (gen_again pre suf s0 x s)). destruct (Hc x (drawn s) (Hr _ _ Hi)) as (x' & s' & E & Hi').
  rewrite (SM_bind_Some _ _ _ _ _ _ _ E). apply IH. exact Hi'.
Qed.

Definition short (suf : list Z) : Prop := zlen suf < 2 ^ 31 - 6.

(** The beginning of the call for a valid template. *)
Lemma mkstemp_template t0 pre suf flags op x s : 1 <= op <= 3 -> short suf ->
  wlibc_common_mkstemp t0 (Some (pre ++ six_x ++ suf)) (zlen suf) flags op x s =
  (r ← (if op =? CREATE_FILE then create_loop MKSTEMP_MAX_TRIES (zlen pre) (open_temp flags) (-1) (pre ++ six_x ++ suf)
        else if op =? CREATE_DIR then
          create_loop MKSTEMP_MAX_TRIES (zlen (pre ++ six_x ++ suf) - 6) (fun name => wlibc_common_mkdir AT_FDCWD (Some name) 448) (-1) (pre ++ six_x ++ suf)
        else try_loop MKSTEMP_MAX_TRIES t0 (zlen (pre ++ six_x ++ suf) - 6) (-1) (pre ++ six_x ++ suf));
   _ ← run_M (set_errno 0);
   mret r) x s.
Proof.
  intros Hop Hs. unfold wlibc_common_mkstemp. destruct (pre ++ six_x ++ suf) as [|c t] eqn:Et; [by destruct pre|].
  rewrite (proj2 (Z.ltb_ge _ _)), (proj2 (Z.ltb_ge _ _)) by lia. cbn [orb]. rewrite <- Et, validate_parts by done. rewrite bool_decide_eq_true_2 by done. cbn [defined].
  rewrite (SM_bind_Some _ _ x s true x s eq_refl). cbn [negb]. replace (zlen (pre ++ six_x ++ suf) - zlen suf - 6) with (zlen pre) by (rewrite !length_app; cbn [six_x length]; change (length six_x) with 6%nat; lia). done.
Qed.

(** mkstemp and its relatives: the six X of the template become digits and small letters;
    when the file of that name can be created, its descriptor is returned, the template
    holds the name and errno is 0. *)
Theorem mkstemp_creates t0 pre suf flags x s fd x' s' :
  short suf -> open_temp flags (temp_name pre suf s) x (drawn s) = Some ((fd, x'), s') -> fd <> -1 ->
  wlibc_common_mkstemp t0 (Some (pre ++ six_x ++ suf)) (zlen suf) flags CREATE_FILE x s = Some ((fd, temp_name pre suf s, x'), with_errno s' 0) /\
  exists six, temp_name pre suf s = pre ++ six ++ suf /\ length six = 6%nat /\ Forall alnum six.
Proof.
  intros Hs Ho Hf. split.
  - rewrite mkstemp_template by (done || (unfold CREATE_FILE; lia)). change (CREATE_FILE =? CREATE_FILE) with true. cbv iota.
    by rewrite (SM_bind_Some _ _ _ _ _ _ _ (create_first 31 pre suf (open_temp flags) x s fd x' s' Ho Hf)).
  - destruct (six_placed s) as [Ha Hl]. by exists (place_digits six_x (digits_at s)).
Qed.

(** only one name is tried for a template: when the file of the first name cannot be
    created, whatever else could be, the call returns -1 after 32 tries, with errno 0. *)
Theorem mkstemp_tries_one_name t0 pre suf flags x s (I : security * path_state -> state K -> Prop) :
  short suf -> (forall x s, I x s -> I x (drawn s)) ->
  (forall x' s', I x' s' -> exists x'' s'', open_temp flags (temp_name pre suf s) x' s' = Some ((-1, x''), s'') /\ I x'' s'') -> I x s ->
  exists x' s', wlibc_common_mkstemp t0 (Some (pre ++ six_x ++ suf)) (zlen suf) flags CREATE_FILE x s = Some ((-1, temp_name pre suf s, x'), with_errno s' 0).
Proof.
  intros Hs Hr Hc Hi. rewrite mkstemp_template by (done || (unfold CREATE_FILE; lia)). change (CREATE_FILE =? CREATE_FILE) with true. cbv iota.
  destruct (Hc x (drawn s) (Hr _ _ Hi)) as (x1 & s1 & E1 & I1). destruct (create_never pre suf s (open_temp flags) I Hr Hc 31 x1 s1 I1) as (x2 & s2 & E2 & _).
  exists x2, s2. rewrite (SM_bind_Some _ _ x s (-1, temp_name pre suf s) x2 s2); [done|]. unfold MKSTEMP_MAX_TRIES. change 32%nat with (S 31). cbn [create_loop].
  rewrite Z.eqb_refl, (SM_bind_Some _ _ _ _ _ _ _ (gen_parts pre six_x suf x s eq_refl)). fold (temp_name pre suf s). rewrite (SM_bind_Some _ _ _ _ _ _ _ E1). exact E2.
Qed.

(** Files of the name are found, in the states [I]. *)
Lemma try_found pre s0 t0 (I : security * path_state -> state K -> Prop) :
  (forall x s, I x s -> I x (drawn s)) ->
  (forall x s, I x s -> exists st x' s', wlibc_common_stat t0 AT_FDCWD (Some (temp_name pre [] s0)) true AT_SYMLINK_NOFOLLOW x s = Some ((0, st, x'), s') /\ I x' s') ->
  forall tries x s, I x s -> exists x' s', try_loop tries t0 (zlen pre) 0 (temp_name pre [] s0) x s = Some ((0, temp_name pre [] s0, x'), s').
Proof.
  intros Hr Hc tries. induction tries as [|tries IH]; intros x s Hi; [by exists x, s|]. cbn [try_loop].
  rewrite (SM_bind_Some _ _ _ _ _ _ _ (gen_again pre [] s0 x s)). destruct (Hc x (drawn s) (Hr _ _ Hi)) as (st & x' & s' & E & Hi').
  rewrite (SM_bind_Some _ _ _ _ _ _ _ E). rewrite (SM_bind_Some (run_M get) _ x' s' s' x' s' eq_refl). apply IH. exact Hi'.
Qed.

(** mktemp gives the name when there is no such file; and when there is one, it gives the
    same name. *)
Theorem mktemp_always_succeeds t0 pre x s :
  (forall st x' s', wlibc_common_stat t0 AT_FDCWD (Some (temp_name pre [] s)) true AT_SYMLINK_NOFOLLOW x (drawn s) = Some ((-1, st, x'), s') -> errno s' = ENOENT ->
    mktemp t0 (Some (pre ++ six_x)) x s = Some ((Some (temp_name pre [] s), x'), with_errno s' 0)) /\
  (forall I : security * path_state -> state K -> Prop, (forall x s, I x s -> I x (drawn s)) ->
    (forall x' s', I x' s' -> exists st x'' s'', wlibc_common_stat t0 AT_FDCWD (Some (temp_name pre [] s)) true AT_SYMLINK_NOFOLLOW x' s' = Some ((0, st, x''), s'') /\ I x'' s'') -> I x s ->
    exists x' s', mktemp t0 (Some (pre ++ six_x)) x s = Some ((Some (temp_name pre [] s), x'), with_errno s' 0)).
Proof.
  assert (wlibc_common_mkstemp t0 (Some (pre ++ six_x)) 0 0 TRY_NAME x s = (r ← try_loop MKSTEMP_MAX_TRIES t0 (zlen pre) (-1) (pre ++ six_x); _ ← run_M (set_errno 0); mret r) x s) as Em.
  { pose proof (mkstemp_template t0 pre [] 0 TRY_NAME x s ltac:(unfold TRY_NAME; lia) ltac:(unfold short; cbn [length]; lia)) as E. rewrite app_nil_r in E.
    change (zlen (@nil Z)) with 0 in E. rewrite E. replace (zlen (pre ++ six_x) - 6) with (zlen pre) by (rewrite length_app; change (length six_x) with 6%nat; lia).
    change (TRY_NAME =? CREATE_FILE) with false. change (TRY_NAME =? CREATE_DIR) with false. cbv iota. reflexivity. }
  assert (forall r x' s', try_loop MKSTEMP_MAX_TRIES t0 (zlen pre) (-1) (pre ++ six_x) x s = Some ((0, temp_name pre [] s, x'), s') -> r = temp_name pre [] s ->
    mktemp t0 (Some (pre ++ six_x)) x s = Some ((Some r, x'), with_errno s' 0)) as Ht.
  { intros r x' s' E ->. unfold mktemp. change 3 with TRY_NAME. rewrite (SM_bind_Some _ _ x s (0, temp_name pre [] s) x' (with_errno s' 0)); [done|].
    rewrite Em. by rewrite (SM_bind_Some _ _ _ _ _ _ _ E). }
  pose proof (gen_parts pre six_x [] x s eq_refl) as Eg. rewrite app_nil_r in Eg. fold (temp_name pre [] s) in Eg.
  unfold MKSTEMP_MAX_TRIES in Ht. change 32%nat with (S 31) in Ht. cbn [try_loop] in Ht. split.
  - intros st x' s' Es He. apply (Ht (temp_name pre [] s) x' (with_errno s' 0)); [|done]. rewrite (SM_bind_Some _ _ _ _ _ _ _ Eg), (SM_bind_Some _ _ _ _ _ _ _ Es).
    rewrite (SM_bind_Some (run_M get) _ x' s' s' x' s' eq_refl), He. done.
  - intros I Hr Hc Hi. destruct (Hc x (drawn s) (Hr _ _ Hi)) as (st & x1 & s1 & E1 & I1). destruct (try_found pre s t0 I Hr Hc 31 x1 s1 I1) as (x2 & s2 & E2).
    exists x2, s2. apply (Ht (temp_name pre [] s) x2 s2); [|done]. rewrite (SM_bind_Some _ _ _ _ _ _ _ Eg), (SM_bind_Some _ _ _ _ _ _ _ E1).
    rewrite (SM_bind_Some (run_M get) _ x1 s1 s1 x1 s1 eq_refl). exact E2.
Qed.

(** ** tempnam *)

(** The beginning of the names below [dir]: [dir], a slash unless it ends with one, and
    the prefix. *)
Definition stem (dir prefix : list Z) : list Z :=
  dir ++ (match last dir with Some c => if negb (c =? ch "/") && negb (c =? 92) then str "/" else [] | None => [] end) ++ prefix.

Definition temp_block (dir prefix : list Z) : Z := zlen dir + zlen prefix + 10.

Lemma stem_length dir prefix : zlen dir + zlen prefix <= zlen (stem dir prefix) <= zlen dir + zlen prefix + 1.
Proof. unfold stem. rewrite !length_app. destruct (last dir) as [c|]; [destruct (_ && _)|]; cbn [str length fmap list_fmap String.list_ascii_of_string]; lia. Qed.

Lemma append_fits {T} cap l (y : T) s : zlen l + zlen (digits_at s) + 1 <= cap -> append_random_string cap l y s = Some ((l ++ digits_at s, y), drawn s).
Proof. intros Hc. unfold append_random_string. rewrite (SM_bind_Some _ _ _ _ _ _ _ (random_drawn y s)). unfold strcat. by rewrite (proj2 (Z.ltb_ge _ _)) by lia. Qed.

Lemma append_overflows {T} cap l (y : T) s : cap < zlen l + zlen (digits_at s) + 1 -> append_random_string cap l y s = None.
Proof. intros Hc. unfold append_random_string. rewrite (SM_bind_Some _ _ _ _ _ _ _ (random_drawn y s)). unfold strcat. by rewrite (proj2 (Z.ltb_lt _ _)) by lia. Qed.

Lemma tempnam_start t0 dir prefix x s : malloc_ok (temp_block dir prefix) = true -> dir <> [] ->
  wlibc_tempnam t0 (Some dir) (Some prefix) x s = (n ← free_name TEMP_MAX_TRIES t0 (temp_block dir prefix) (errno s) (stem dir prefix); mret (Some n)) x s.
Proof.
  intros Hm Hne. unfold wlibc_tempnam. rewrite (SM_bind_Some (run_M get) _ x s s x s eq_refl). cbn [temp_directory]. rewrite (SM_bind_Some _ _ x s dir x s eq_refl).
  change (default [] (Some prefix)) with prefix. fold (temp_block dir prefix). rewrite Hm. pose proof (stem_length dir prefix) as Hl. unfold stem in *.
  destruct (last dir) as [c|] eqn:El; [|by apply last_None in El]. cbn [defined]. rewrite (SM_bind_Some _ _ x s c x s eq_refl). unfold strcat.
  rewrite (SM_bind_Some _ _ x s (dir ++ (if negb (c =? ch "/") && negb (c =? 92) then str "/" else []) ++ prefix) x s); [done|].
  rewrite (proj2 (Z.ltb_ge _ _)); [by rewrite <- app_assoc|]. rewrite !length_app in *. unfold temp_block. lia.
Qed.

(** tempnam: when there is no file of the first name, that name, the directory, a slash,
    the prefix and up to seven random characters, is given, and errno is what it was. *)
Theorem tempnam_first_name t0 dir prefix x s x' s' :
  malloc_ok (temp_block dir prefix) = true -> dir <> [] ->
  exists_name t0 (stem dir prefix ++ digits_at s) x (drawn s) = Some ((-1, x'), s') -> errno s' = ENOENT ->
  wlibc_tempnam t0 (Some dir) (Some prefix) x s = Some ((Some (stem dir prefix ++ digits_at s), x'), with_errno s' (errno s)).
Proof.
  intros Hm Hne He Hn. rewrite tempnam_start by done. unfold TEMP_MAX_TRIES. change 16%nat with (S 15). cbn [free_name].
  rewrite (SM_bind_Some _ _ x s (stem dir prefix ++ digits_at s) x' (with_errno s' (errno s))); [done|]. pose proof (stem_length dir prefix). pose proof (digits_length (rand_s (kernel s)).1).
  rewrite (SM_bind_Some _ _ _ _ _ _ _ (append_fits (temp_block dir prefix) (stem dir prefix) x s ltac:(unfold temp_block, digits_at; lia))), (SM_bind_Some _ _ _ _ _ _ _ He).
  by rewrite (SM_bind_Some (run_M get) _ x' s' s' x' s' eq_refl), Hn.
Qed.

(** when there is a file of the first name, the next random characters are appended to it,
    and written past the block as soon as both numbers have five digits. *)
Theorem tempnam_retry_overflows t0 dir prefix x s r x' s' :
  malloc_ok (temp_block dir prefix) = true -> dir <> [] ->
  exists_name t0 (stem dir prefix ++ digits_at s) x (drawn s) = Some ((r, x'), s') -> r = 0 -> 5 <= zlen (digits_at s) -> 5 <= zlen (digits_at s') ->
  wlibc_tempnam t0 (Some dir) (Some prefix) x s = None.
Proof.
  intros Hm Hne He -> Hd Hd'. rewrite tempnam_start by done. unfold TEMP_MAX_TRIES. change 16%nat with (S (S 14)). pose proof (stem_length dir prefix). pose proof (digits_length (rand_s (kernel s)).1).
  assert (free_name (S (S 14)) t0 (temp_block dir prefix) (errno s) (stem dir prefix) x s = None) as E; [|unfold mbind, SM_bind, mbind, M_bind; by rewrite E].
  cbn [free_name]. rewrite (SM_bind_Some _ _ _ _ _ _ _ (append_fits (temp_block dir prefix) (stem dir prefix) x s ltac:(unfold temp_block, digits_at; lia))), (SM_bind_Some _ _ _ _ _ _ _ He).
  rewrite (SM_bind_Some (run_M get) _ x' s' s' x' s' eq_refl). cbn [andb Z.eqb]. unfold mbind at 1, SM_bind at 1, mbind at 1, M_bind at 1.
  by rewrite append_overflows by (rewrite length_app; unfold temp_block; lia).
Qed.

(** ** tmpfile *)

Context {FK : FileKernel K} {H : Heap} {SH : StreamHeap}.

(** tmpfile: the stream of the first name in the directory for temporary files that can be
    opened, and errno is what it was. *)
Theorem tmpfile_opens (y y1 : io_state) s s1 dir f y' s' :
  on_paths wlibc_tmpdir y s = Some ((Some dir, y1), s1) -> zlen dir <= 251 ->
  wlibc_fopen (Some (dir ++ str "\" ++ digits_at s1)) (Some (str "w+Dx")) y1 (drawn s1) = Some ((f, y'), s') -> f <> 0 ->
  wlibc_tmpfile y s = Some ((f, y'), with_errno s' (errno s)).
Proof.
  intros Hd Hl Hf Hn. unfold wlibc_tmpfile. rewrite (SM_bind_Some (run_M get) _ y s s y s eq_refl), (SM_bind_Some _ _ _ _ _ _ _ Hd). unfold tmpdir_prefix. cbn [defined].
  rewrite (SM_bind_Some _ _ y1 s1 (dir ++ str "\") y1 s1).
  - cbn [tmpfile_loop]. rewrite (SM_bind_Some _ _ y1 s1 f y' s'); [done|]. pose proof (digits_length (rand_s (kernel s1)).1).
    rewrite (SM_bind_Some _ _ _ _ _ _ _ (append_fits L_tmpnam (dir ++ str "\") y1 s1 ltac:(rewrite length_app; change (length (str "\")) with 1%nat; unfold L_tmpnam, digits_at; lia))).
    rewrite <- app_assoc. rewrite (SM_bind_Some _ _ _ _ _ _ _ Hf). by rewrite (proj2 (Z.eqb_neq _ _) Hn).
  - rewrite (SM_bind_Some _ _ y1 s1 dir y1 s1 eq_refl). unfold strcat. rewrite (proj2 (Z.ltb_ge _ _)); [done|]. change (length (str "\")) with 1%nat. unfold L_tmpnam. lia.
Qed.
End Names.

(** ** Instances *)

Import Idle.

(** A volume on which every name is that of a file, or none is; the random number has six
    digits. *)
#[local] Instance some_files : OpenKernel bool := {
  NtCreateFile a k :=
    match ca_disposition a, k with
    | FILE_OPEN, true | FILE_CREATE, false => (STATUS_SUCCESS, 7, k)
    | FILE_OPEN, false => (STATUS_OBJECT_NAME_NOT_FOUND, 0, k)
    | _, _ => (STATUS_OBJECT_NAME_COLLISION, 0, k)
    end;
  NtQueryTagInformation _ _ := (STATUS_SUCCESS, 0);
  NtQueryBasicInformation _ _ := STATUS_SUCCESS;
  NtSetLastAccessTime _ k := (STATUS_SUCCESS, k);
  rand_s k := (60466189, k)
}.

#[local] Instance no_tmpdir : TempKernel bool := { getenv_TMPDIR _ := None }.

Definition empty : state bool := process FILE_HANDLE false.
Definition full : state bool := process FILE_HANDLE true.

(** What a call leaves. *)
Definition after {T X} (m : SM T bool X) (x : T) (s : state bool) : T * state bool :=
  match m x s with Some ((_, x'), s') => (x', s') | None => (x, s) end.

(** Two states that a call leads to each other. *)
Definition either {T} (a b : T * state bool) : T -> state bool -> Prop := fun x s => (x, s) = a \/ (x, s) = b.

Lemma either_drawn {T} (a b : T * state bool) x s : either a b x s -> either a b x (drawn s).
Proof. assert (drawn s = s) as -> by (by destruct s). done. Qed.

Definition c_name : list Z := temp_name (str "C:/a") (str ".c") full.

Lemma templates_valid_witness : validate_template (str "C:/aXXXXXX.c") 2 = Some true.
Proof. apply (templates_valid (str "C:/aXXXXXX.c") 2); [lia|]. by exists (str "C:/a"), (str ".c"). Defined.

Lemma mkstemp_creates_witness : exists x' s', wlibc_common_mkstemp INVALID_HANDLE (Some (str "C:/aXXXXXX.c")) 2 0 CREATE_FILE start empty = Some ((0, str "C:/a10000d.c", x'), with_errno s' 0).
Proof.
  destruct (open_temp 0 c_name start empty) as [[[fd x'] s']|] eqn:E; [|by vm_compute in E].
  assert (fd = 0) as -> by (vm_compute in E; congruence).
  exists x', s'. exact (proj1 (mkstemp_creates INVALID_HANDLE (str "C:/a") (str ".c") 0 start empty 0 x' s' eq_refl E ltac:(done))).
Defined.

Lemma mkstemp_tries_one_name_witness : exists x' s', wlibc_common_mkstemp INVALID_HANDLE (Some (str "C:/a" ++ six_x ++ str ".c")) (zlen (str ".c")) 0 CREATE_FILE start full = Some ((-1, c_name, x'), with_errno s' 0).
Proof.
  apply (mkstemp_tries_one_name INVALID_HANDLE (str "C:/a") (str ".c") 0 start full (either (start, full) (after (open_temp 0 c_name) start full))).
  - done.
  - intros x s. apply either_drawn.
  - intros x s [[= -> ->] | Hb]; (eexists _, _; split; [|right; symmetry; apply surjective_pairing]).
    + vm_compute. reflexivity.
    + assert (x = (after (open_temp 0 c_name) start full).1) as -> by (by rewrite <- Hb). assert (s = (after (open_temp 0 c_name) start full).2) as -> by (by rewrite <- Hb).
      vm_compute. reflexivity.
  - by left.
Defined.

Definition stat_of (name : list Z) : SM (security * path_state) bool (Z * option stat) := wlibc_common_stat INVALID_HANDLE AT_FDCWD (Some name) true AT_SYMLINK_NOFOLLOW.
Definition d_name : list Z := temp_name (str "C:/d") [] full.

Lemma mktemp_always_succeeds_witness :
  (exists x' s', mktemp INVALID_HANDLE (Some (str "C:/d" ++ six_x)) start empty = Some ((Some d_name, x'), with_errno s' 0)) /\
  (exists x' s', mktemp INVALID_HANDLE (Some (str "C:/d" ++ six_x)) start full = Some ((Some d_name, x'), with_errno s' 0)).
Proof.
  split.
  - destruct (stat_of d_name start empty) as [[[[r st] x'] s']|] eqn:E; [|by vm_compute in E].
    assert (r = -1) as -> by (vm_compute in E; congruence). exists x', s'.
    apply (proj1 (mktemp_always_succeeds INVALID_HANDLE (str "C:/d") start empty) st x' s' E). vm_compute in E. by injection E as <- <- <-.
  - apply (proj2 (mktemp_always_succeeds INVALID_HANDLE (str "C:/d") start full) (either (start, full) (after (stat_of d_name) start full))).
    + intros x s. apply either_drawn.
    + intros x s [[= -> ->] | Hb]; (eexists _, _, _; split; [|right; symmetry; apply surjective_pairing]).
      * vm_compute. reflexivity.
      * assert (x = (after (stat_of d_name) start full).1) as -> by (by rewrite <- Hb). assert (s = (after (stat_of d_name) start full).2) as -> by (by rewrite <- Hb).
        vm_compute. reflexivity.
    + by left.
Defined.

Definition p_name : list Z := stem (str "C:/t") (str "p") ++ digits_at empty.

Lemma tempnam_first_name_witness : exists x' s', wlibc_tempnam INVALID_HANDLE (Some (str "C:/t")) (Some (str "p")) start empty = Some ((Some p_name, x'), with_errno s' (errno empty)).
Proof.
  destruct (exists_name INVALID_HANDLE p_name start empty) as [[[r x'] s']|] eqn:E; [|by vm_compute in E].
  assert (r = -1) as -> by (vm_compute in E; congruence). exists x', s'.
  apply (tempnam_first_name INVALID_HANDLE (str "C:/t") (str "p") start empty x' s'); [done | done | exact E |]. vm_compute in E. by injection E as <- <-.
Defined.

Lemma tempnam_retry_overflows_witness : wlibc_tempnam INVALID_HANDLE (Some (str "C:/t")) (Some (str "p")) start full = None.
Proof.
  destruct (exists_name INVALID_HANDLE p_name start full) as [[[r x'] s']|] eqn:E; [|by vm_compute in E].
  apply (tempnam_retry_overflows INVALID_HANDLE (str "C:/t") (str "p") start full r x' s'); [done | done | exact E | vm_compute in E; congruence | done |].
  done.
Defined.

#[local] Instance zeros : Heap := { heap_byte _ := 0; heap_free_ok := true }.

#[local] Instance fresh_addresses : StreamHeap.
Proof.
  refine {| new_address m := fresh ({[0]} ∪ dom m : gset Z) |}. intros m.
  pose proof (is_fresh ({[0]} ∪ dom m : gset Z)) as H. apply not_elem_of_union in H as [H0 Hm]. split; [by apply not_elem_of_singleton in H0 | by apply not_elem_of_dom].
Defined.

Definition with_temp : io_state := IoState ∅ 0 0 0 0 (with_tmpdir initial_paths (str "C:\Temp")).

Lemma tmpfile_opens_witness : exists f y' s', wlibc_tmpfile with_temp empty = Some ((f, y'), with_errno s' (errno empty)) /\ f <> 0.
Proof.
  destruct (wlibc_fopen (Some (str "C:\Temp" ++ str "\" ++ digits_at empty)) (Some (str "w+Dx")) with_temp empty) as [[[f y'] s']|] eqn:E; [|by vm_compute in E].
  assert (f <> 0) as Hf by (vm_compute in E; injection E; intros; subst; discriminate).
  exists f, y', s'. split; [|exact Hf]. exact (tmpfile_opens with_temp with_temp empty empty (str "C:\Temp") f y' s' eq_refl ltac:(cbn; lia) E Hf).
Defined.
