(* ===== verification/Pipe.v ===== *)
(** * Pipes

    pipe and its relatives (src/unistd/pipe.c), popen and pclose (src/stdio/popen.c,
    pclose.c). *)

From stdpp Require Import strings gmap.
From S2P Require Import Prelude Errno Buffer FdTable FdTableFacts FileIo Path PathFacts Open Dirent Security Time Stat Stream StreamFacts StreamList StreamListFacts Idle.

Definition OBJ_INHERIT : Z := 0x02.
Definition OBJ_CASE_INSENSITIVE : Z := 0x40.
Definition FILE_CREATE_PIPE_INSTANCE : Z := 0x04.
Definition FILE_PIPE_SYNCHRONOUS_OPERATION : Z := 0.
Definition FILE_PIPE_NONBLOCKING_OPERATION : Z := 1.

(** The arguments of [NtCreateNamedPipeFile] that differ: the root and the name, the
    attributes of the handle, the access, the options, the completion mode and the size of
    the buffers. *)
Record pipe_args := PipeArgs {
  pipe_root : option Z;
  pipe_name : list Z;
  pipe_attributes : Z;
  pipe_access : Z;
  pipe_options : Z;
  pipe_mode : Z;
  pipe_quota : Z
}.

(** [CreatePipe] gives the two ends; [CreateProcessA] takes the command and the standard
    input and output and gives the handle of the process; a process that has ended has an
    exit code. *)
Class PipeKernel (K : Type) := {
  NtCreateNamedPipeFile : pipe_args -> K -> NTSTATUS * Z * K;
  CreatePipe : Z -> K -> (DOSERROR + Z * Z) * K;
  ClearInherit : Z -> K -> K;
  CreateProcessA : list Z -> Z -> Z -> K -> (DOSERROR + Z) * K;
  CloseHandle : Z -> K -> K;
  WaitForSingleObject : Z -> K -> option DOSERROR * K;
  GetExitCodeProcess : Z -> K -> DOSERROR + Z
}.

(** [unsigned long] has 32 bits. *)
Definition roundup_16384 (size : Z) : Z := u32 (u32 (u32 size + 16383) / 16384 * 16384).

(** The second flag is taken from the attributes, not from the options. *)
Definition end_attributes (flags : Z) : Z :=
  let attributes := Z.lor OBJ_CASE_INSENSITIVE OBJ_INHERIT in
  let attributes := if has flags O_CLOEXEC then Z.ldiff attributes OBJ_INHERIT else attributes in
  if has flags O_NONBLOCK then Z.ldiff attributes FILE_SYNCHRONOUS_IO_NONALERT else attributes.

Definition end_options : Z := FILE_SYNCHRONOUS_IO_NONALERT.

Definition both_attributes : Z := Z.lor FILE_READ_ATTRIBUTES FILE_WRITE_ATTRIBUTES.
Definition read_access : Z := Z.lor both_attributes (Z.lor FILE_READ_DATA SYNCHRONIZE).
Definition write_access : Z := Z.lor both_attributes (Z.lor FILE_WRITE_DATA (Z.lor FILE_CREATE_PIPE_INSTANCE SYNCHRONIZE)).

Definition read_end (root : option Z) (name : list Z) (attributes flags size : Z) : pipe_args :=
  PipeArgs root name attributes read_access end_options
    (if negb (has flags O_NONBLOCK) then FILE_PIPE_SYNCHRONOUS_OPERATION else FILE_PIPE_NONBLOCKING_OPERATION) (roundup_16384 size).

(** The other end is opened below the first. *)
Definition write_end (h flags : Z) : create_args :=
  CreateArgs (Some h) [] (has (end_attributes flags) OBJ_INHERIT) None write_access 0 FILE_OPEN end_options.

Section Pipe.
Context {K : Type} {KN : Kernel K} {A : Allocator} {PK : PathKernel K} {OK : OpenKernel K} {PIK : PipeKernel K}.

Abbreviation P := (SM path_state K).

Definition create_read_end (a : pipe_args) : P (NTSTATUS * Z) :=
  k ← kernel_S;
  let '(status, h, k) := NtCreateNamedPipeFile a k in
  _ ← run_M (set_kernel k);
  mret (status, h).

Definition close_end (h : Z) : P unit := k ← kernel_S; run_M (set_kernel (NtClose h k).2).

(** The rest of the call when there is a read end; on failure the read end is closed. *)
Definition open_write_end (r flags : Z) : P (option (Z * Z)) :=
  '(status, w) ← create_file (write_end r flags);
  if negb (ok status) then _ ← fail_with status; _ ← close_end r; mret None else mret (Some (r, w)).

Definition create_anonymous_pipe (flags size : Z) : P (option (Z * Z)) :=
  '(status, root) ← create_file (CreateArgs None (str "\Device\NamedPipe\") false None SYNCHRONIZE 0 FILE_OPEN FILE_SYNCHRONOUS_IO_NONALERT);
  if negb (ok status) then _ ← fail_with status; mret None
  else
    '(status, r) ← create_read_end (read_end (Some root) [] (end_attributes flags) flags size);
    _ ← close_end root;
    if negb (ok status) then _ ← fail_with status; mret None else open_write_end r flags.

(** The read end has none of the attributes. *)
Definition create_named_pipe (path : list Z) (flags size : Z) : P (option (Z * Z)) :=
  '(status, r) ← create_read_end (read_end None path OBJ_CASE_INSENSITIVE flags size);
  if negb (ok status) then _ ← fail_with status; mret None else open_write_end r flags.

(** The result and the two descriptors. *)
Definition wlibc_common_pipe (name : option (list Z)) (flags size : Z) : P (Z * option (Z * Z)) :=
  if negb (Z.ldiff flags (Z.lor O_CLOEXEC (Z.lor O_DIRECT O_NONBLOCK)) =? 0) then _ ← run_M (set_errno EINVAL); mret (-1, None)
  else
    ends ← (match name with
            | Some name =>
                '(path, type) ← get_absolute_ntpath2 AT_FDCWD name INVALID_HANDLE;
                if negb (bool_decide (type = PIPE_HANDLE)) then mret None
                else path ← defined path; create_named_pipe path flags size
            | None => create_anonymous_pipe flags size
            end);
    match ends with
    | None => mret (-1, None)
    | Some (r, w) =>
        read_fd ← run_M (register_to_fd_table r PIPE_HANDLE (Z.lor O_RDONLY flags));
        write_fd ← run_M (register_to_fd_table w PIPE_HANDLE (Z.lor O_WRONLY flags));
        mret (0, Some (read_fd, write_fd))
    end.

Definition pipe : P (Z * option (Z * Z)) := wlibc_common_pipe None 0 16384.
Definition pipe2 (flags : Z) : P (Z * option (Z * Z)) := wlibc_common_pipe None flags 16384.
Definition pipe3 (flags size : Z) : P (Z * option (Z * Z)) := wlibc_common_pipe None flags size.
Definition named_pipe (name : list Z) : P (Z * option (Z * Z)) := wlibc_common_pipe (Some name) 0 16384.

(** ** popen *)

Context {FK : FileKernel K} {H : Heap} {SH : StreamHeap}.

(** Streams with the handles of their processes. *)
Abbreviation S := (SM (io_state * gmap Z Z) K).

Definition on_streams {X} (m : SM io_state K X) : S X := fun '(x, h) => '(r, x) ← m x; mret (r, (x, h)).

Definition dos_error {T} (e : DOSERROR) : SM T K unit := s ← run_M get; run_M (set_errno (map_doserror_to_errno e (errno s))).

(** A call that only changes the system. *)
Definition system_S {T} (f : K -> K) : SM T K unit := k ← kernel_S; run_M (set_kernel (f k)).

(** The process for the command: its end of the pipe is closed whatever happens, and once
    more when there is no process. The block for the command is not checked. *)
Definition start_command (command : list Z) (reading : bool) (r w : Z) : S (option Z) :=
  if malloc_ok (zlen command + 12) then
    k ← kernel_S;
    let '(p, k) := CreateProcessA (str "cmd.exe /C " ++ command) (if reading then 0 else r) (if reading then w else 0) k in
    _ ← run_M (set_kernel k);
    _ ← system_S (CloseHandle (if reading then w else r));
    match p with
    | inl e => _ ← dos_error e; _ ← system_S (CloseHandle r); _ ← system_S (CloseHandle w); mret None
    | inr h => mret (Some h)
    end
  else run_M UB.

Definition wlibc_popen (command mode : option (list Z)) : S Z :=
  match command, mode with
  | Some command, Some mode =>
      let pmode := parse_mode mode in
      if has pmode O_RDWR then _ ← run_M (set_errno EINVAL); mret 0
      else
        let pmode := if has pmode O_WRONLY then O_WRONLY else O_RDONLY in
        let reading := pmode =? O_RDONLY in
        k ← kernel_S;
        let '(ends, k) := CreatePipe 4096 k in
        _ ← run_M (set_kernel k);
        match ends with
        | inl e => _ ← dos_error e; mret 0
        | inr (r, w) =>
            _ ← system_S (ClearInherit (if reading then r else w));
            p ← start_command command reading r w;
            match p with
            | None => mret 0
            | Some process =>
                fd ← run_M (register_to_fd_table (if reading then r else w) PIPE_HANDLE pmode);
                a ← on_streams (create_stream fd (Z.lor (Z.lor _IOBUFFER_INTERNAL _IOFBF) (get_buf_mode pmode)) 4096);
                if a =? 0 then run_M UB
                else '(x, h) ← get_S; _ ← put_S (x, <[a := process]> h); mret a
            end
        end
  | _, _ => _ ← run_M (set_errno EINVAL); mret 0
  end.

(** [phandle] is not initialised for other streams. *)
Definition wlibc_pclose (a : Z) : S Z :=
  '(x, h) ← get_S;
  let bad : S Z := _ ← run_M (set_errno EINVAL); mret (-1) in
  if a =? 0 then bad
  else
    f ← on_streams (deref a);
    if negb (magic f =? FILE_STREAM_MAGIC) then bad
    else
      process ← defined (h !! a);
      _ ← on_streams (common_fclose a);
      k ← kernel_S;
      let '(e, k) := WaitForSingleObject process k in
      _ ← run_M (set_kernel k);
      match e with
      | Some e => _ ← dos_error e; mret (-1)
      | None =>
          match GetExitCodeProcess process k with
          | inl e => _ ← dos_error e; mret (-1)
          | inr code => mret (swrap 32 code)
          end
      end.

End Pipe.

(** ** What pipes promise

    The two descriptors of a pipe are the lowest free ones and what is written to one is
    read from the other, in order; a command that popen starts is waited for by pclose. *)
(** ** The two ends *)

(** What is asked for does not depend on O_NONBLOCK: the bit is removed from the
    attributes, which do not have it. *)
Lemma end_attributes_cases flags : end_attributes flags = if has flags O_CLOEXEC then OBJ_CASE_INSENSITIVE else Z.lor OBJ_CASE_INSENSITIVE OBJ_INHERIT.
Proof. unfold end_attributes. by destruct (has flags O_CLOEXEC), (has flags O_NONBLOCK). Qed.

(** Reads and writes as operations on a queue with room for [quota] bytes. *)
Inductive pipe_op := Put (bytes : list Z) | Get (count : Z).

Definition queue_step (quota : Z) (o : pipe_op) (q : list Z) : option (Z * list Z * list Z) :=
  match o with
  | Put bs => if (zlen q + zlen bs <=? quota) && (zlen bs <? 2 ^ 32) then Some (zlen bs, [], q ++ bs) else None
  | Get n => if (0 <? n) && (n <? 2 ^ 32) && (0 <? zlen q) then let t := take (Z.to_nat n) q in Some (zlen t, t, drop (Z.to_nat n) q) else None
  end.

Fixpoint queue_run (quota : Z) (l : list pipe_op) (q : list Z) : option (list (Z * list Z) * list Z) :=
  match l with
  | [] => Some ([], q)
  | o :: l => '(r, bs, q) ← queue_step quota o q; '(rs, q) ← queue_run quota l q; Some ((r, bs) :: rs, q)
  end.

(** A pipe of the system between two handles: as long as there is room a write is
    complete, and as long as there is something to read a read gives what there is. *)
Class Fifo {K : Type} `{FileKernel K} (r w quota : Z) (queue : K -> list Z) : Prop := {
  fifo_write bs o k : zlen (queue k) + zlen bs <= quota -> exists k', NtWriteFile w bs o k = (STATUS_SUCCESS, zlen bs, k') /\ queue k' = queue k ++ bs;
  fifo_read n o k : 0 < n -> queue k <> [] -> exists k', NtReadFile r n o k = (STATUS_SUCCESS, take (Z.to_nat n) (queue k), k') /\ queue k' = drop (Z.to_nat n) (queue k)
}.

Section Pipes.
Context {K : Type} {KN : Kernel K} {A : Allocator} {PK : PathKernel K} {OK : OpenKernel K} {PIK : PipeKernel K} {FK : FileKernel K}.
Context (alloc_ok : forall n, malloc_ok n = true).
Implicit Types (p : path_state) (s : state K) (k : K).

Definition pipe_op_run (fd0 fd1 : Z) (o : pipe_op) : M K (Z * list Z) :=
  match o with
  | Put bs => r ← wlibc_write fd1 (Some bs) (zlen bs); mret (r, [])
  | Get n => wlibc_read fd0 true n
  end.

Fixpoint pipe_run (fd0 fd1 : Z) (l : list pipe_op) : M K (list (Z * list Z)) :=
  match l with
  | [] => mret []
  | o :: l => r ← pipe_op_run fd0 fd1 o; rs ← pipe_run fd0 fd1 l; mret (r :: rs)
  end.

Definition is_pipe s (fd h : Z) : Prop := exists e, view (table s) fd = Some e /\ type e = PIPE_HANDLE /\ handle e = h.

Lemma pipe_step r w quota queue {F : Fifo r w quota queue} fd0 fd1 o s n bs q :
  is_pipe s fd0 r -> is_pipe s fd1 w -> queue_step quota o (queue (kernel s)) = Some (n, bs, q) ->
  exists k, pipe_op_run fd0 fd1 o s = Some ((n, bs), with_kernel s k) /\ queue k = q.
Proof.
  intros (e0 & E0 & T0 & H0) (e1 & E1 & T1 & H1) Hq. destruct o as [l | c]; cbn [queue_step pipe_op_run] in *.
  - destruct (_ && _) eqn:Hb; [|done]. apply andb_true_iff in Hb as [Hb1%Z.leb_le Hb2%Z.ltb_lt]. injection Hq as <- <- <-.
    set (o := if has (flags e1) O_APPEND then FILE_WRITE_TO_END_OF_FILE else FILE_USE_FILE_POINTER_POSITION).
    destruct (fifo_write (r := r) (w := w) l o (kernel s) Hb1) as (k & Hk & Hk'). exists k. split; [|done].
    unfold wlibc_write, mbind, M_bind. rewrite (get_fdinfo_view s fd1 e1 _ E1), T1, H1. cbn [decide]. fold o.
    rewrite !decide_False by done. rewrite (wrap_small 32) by lia. rewrite Z.ltb_irrefl, Nat2Z.id, firstn_all. cbn [get]. rewrite Hk. done.
  - destruct (_ && _) eqn:Hb; [|done]. rewrite !andb_true_iff, !Z.ltb_lt in Hb. destruct Hb as [[Hb1 Hb2] Hb3]. injection Hq as <- <- <-.
    destruct (fifo_read (r := r) (w := w) c FILE_USE_FILE_POINTER_POSITION (kernel s) Hb1) as (k & Hk & Hk'); [by intros E; rewrite E in Hb3|]. exists k. split; [|done].
    unfold wlibc_read. cbn [negb]. unfold mbind, M_bind. rewrite (get_fdinfo_view s fd0 e0 _ E0), T0, H0. rewrite !decide_False by done. cbn [get]. rewrite (wrap_small 32) by lia. by rewrite Hk.
Qed.

Lemma pipe_runs r w quota queue {F : Fifo r w quota queue} fd0 fd1 l : forall s rs q,
  is_pipe s fd0 r -> is_pipe s fd1 w -> queue_run quota l (queue (kernel s)) = Some (rs, q) ->
  exists k, pipe_run fd0 fd1 l s = Some (rs, with_kernel s k) /\ queue k = q.
Proof.
  induction l as [|o l IH]; intros s rs q H0 H1 Hq; cbn [queue_run pipe_run] in *.
  - injection Hq as <- <-. exists (kernel s). split; [|done]. by destruct s.
  - destruct (queue_step quota o (queue (kernel s))) as [[[n bs] q1]|] eqn:Es; [|done]. cbn [mbind option_bind] in Hq.
    destruct (pipe_step r w quota queue fd0 fd1 o s n bs q1 H0 H1 Es) as (k1 & Hk1 & <-).
    destruct (queue_run quota l (queue k1)) as [[rs' q2]|] eqn:El; [|done]. cbn [mbind option_bind] in Hq. injection Hq as <- <-.
    destruct (IH (with_kernel s k1) rs' q2 H0 H1 El) as (k2 & Hk2 & Hq2). exists k2. split; [|done].
    rewrite (M_bind_Some _ _ _ _ _ Hk1), (M_bind_Some _ _ _ _ _ Hk2). done.
Qed.

Definition pipe_flags (flags : Z) : Prop := Z.ldiff flags (Z.lor O_CLOEXEC (Z.lor O_DIRECT O_NONBLOCK)) = 0.

Definition root_args : create_args := CreateArgs None (str "\Device\NamedPipe\") false None SYNCHRONIZE 0 FILE_OPEN FILE_SYNCHRONOUS_IO_NONALERT.

Lemma create_file_opens a p s h k : NtCreateFile a (kernel s) = (STATUS_SUCCESS, h, k) -> create_file a p s = Some ((STATUS_SUCCESS, h, p), with_kernel s k).
Proof. intros E. unfold create_file. unfold system. rewrite (SM_bind_Some _ _ p s (kernel s) p s eq_refl), E. done. Qed.

Lemma create_file_fails a p s status h k : NtCreateFile a (kernel s) = (status, h, k) -> status <> STATUS_SUCCESS ->
  create_file a p s = Some ((status, 0, p), with_kernel s k).
Proof. intros E N. unfold create_file. unfold system. rewrite (SM_bind_Some _ _ p s (kernel s) p s eq_refl), E, bool_decide_eq_false_2 by done. done. Qed.

Lemma read_end_made a p s status h k : NtCreateNamedPipeFile a (kernel s) = (status, h, k) -> create_read_end a p s = Some ((status, h, p), with_kernel s k).
Proof. intros E. unfold create_read_end. by rewrite (SM_bind_Some kernel_S _ p s (kernel s) p s eq_refl), E. Qed.

(** The part that makes the read end of an anonymous pipe. *)
Lemma anonymous_start flags size p s root k1 r k2 :
  NtCreateFile root_args (kernel s) = (STATUS_SUCCESS, root, k1) ->
  NtCreateNamedPipeFile (read_end (Some root) [] (end_attributes flags) flags size) k1 = (STATUS_SUCCESS, r, k2) ->
  create_anonymous_pipe flags size p s = open_write_end r flags p (with_kernel s (NtClose root k2).2).
Proof.
  intros E1 E2. unfold create_anonymous_pipe. rewrite (SM_bind_Some _ _ _ _ _ _ _ (create_file_opens _ p s root k1 E1)).
  change (negb (ok STATUS_SUCCESS)) with false. cbv iota. rewrite (SM_bind_Some _ _ _ _ _ _ _ (read_end_made _ p (with_kernel s k1) _ r k2 E2)).
  unfold close_end. rewrite (SM_bind_Some _ _ p (with_kernel s k2) () p (with_kernel s (NtClose root k2).2)) by done. done.
Qed.

(** C31: Pipes are queues: pipe gives the two lowest free descriptors, the first for reading and
    the second for writing, leaves the others, and from then on every sequence of writes to
    the one and reads from the other returns what the operations of a queue return, as long
    as there is room for what is written and something to read. *)
Theorem pipe_is_queue flags size p s root k1 r k2 w k3 quota queue :
  pipe_flags flags -> NtCreateFile root_args (kernel s) = (STATUS_SUCCESS, root, k1) ->
  NtCreateNamedPipeFile (read_end (Some root) [] (end_attributes flags) flags size) k1 = (STATUS_SUCCESS, r, k2) ->
  NtCreateFile (write_end r flags) (NtClose root k2).2 = (STATUS_SUCCESS, w, k3) -> r <> 0 -> w <> 0 -> queue k3 = [] -> Fifo r w quota queue ->
  exists fd0 fd1 s', wlibc_common_pipe None flags size p s = Some ((0, Some (fd0, fd1), p), s') /\
    lowest_from 0 (view (table s)) fd0 /\ fd0 < fd1 /\ view (table s) fd1 = None /\ (forall fd, fd0 < fd < fd1 -> view (table s) fd <> None) /\
    (forall fd, fd <> fd0 -> fd <> fd1 -> view (table s') fd = view (table s) fd) /\
    forall l rs q, queue_run quota l [] = Some (rs, q) -> exists k, pipe_run fd0 fd1 l s' = Some (rs, with_kernel s' k) /\ queue k = q.
Proof.
  intros Hf E1 E2 E3 Hr Hw Hq HF. set (s3 := with_kernel s k3).
  destruct (register_bound s3 r PIPE_HANDLE (Z.lor O_RDONLY flags) (fun _ => alloc_ok _) Hr) as (fd0 & s4 & R4 & L4 & B4).
  destruct (register_bound s4 w PIPE_HANDLE (Z.lor O_WRONLY flags) (fun _ => alloc_ok _) Hw) as (fd1 & s5 & R5 & L5 & B5).
  assert (fd0 < fd1) as Hlt.
  { destruct L5 as (H0 & Hn & _). destruct L4 as (H0' & Hn' & Hlow). rewrite (bound_view _ _ _ _ _ _ B4) in Hn. unfold update in Hn.
    destruct (Z.eqb_spec fd1 fd0); [done|]. destruct (Z.lt_trichotomy fd0 fd1) as [|[|Hlt]]; [done | congruence|]. exfalso. apply (Hlow fd1); [lia | done]. }
  exists fd0, fd1, s5. split; [|split; [exact L4|]; split; [exact Hlt|]; split; [|split; [|split]]].
  - unfold wlibc_common_pipe. unfold pipe_flags in Hf. rewrite Hf. cbn [Z.eqb negb].
    rewrite (SM_bind_Some _ _ p s (Some (r, w)) p s3).
    + rewrite (SM_bind_Some _ _ p s3 fd0 p s4) by (unfold run_M; by rewrite (M_bind_Some _ _ _ _ _ R4)).
      by rewrite (SM_bind_Some _ _ p s4 fd1 p s5) by (unfold run_M; by rewrite (M_bind_Some _ _ _ _ _ R5)).
    + rewrite (anonymous_start flags size p s root k1 r k2 E1 E2). unfold open_write_end.
      by rewrite (SM_bind_Some _ _ _ _ _ _ _ (create_file_opens _ p (with_kernel s (NtClose root k2).2) w k3 E3)).
  - destruct L5 as (_ & Hn & _). rewrite (bound_view _ _ _ _ _ _ B4) in Hn. unfold update in Hn. by rewrite (proj2 (Z.eqb_neq fd1 fd0)) in Hn by lia.
  - intros fd Hfd. destruct L5 as (_ & _ & Hlow). assert (0 <= fd < fd1) as H by (destruct L4; lia). specialize (Hlow fd H). rewrite (bound_view _ _ _ _ _ _ B4) in Hlow.
    unfold update in Hlow. by rewrite (proj2 (Z.eqb_neq fd fd0)) in Hlow by lia.
  - intros fd N0 N1. rewrite (bound_view _ _ _ _ _ _ B5). unfold update. rewrite (proj2 (Z.eqb_neq fd fd1) N1). rewrite (bound_view _ _ _ _ _ _ B4). unfold update.
    by rewrite (proj2 (Z.eqb_neq fd fd0) N0).
  - intros l rs q Hl. apply (pipe_runs r w quota queue fd0 fd1 l s5 rs q).
    + eexists. split; [rewrite (bound_view _ _ _ _ _ _ B5); unfold update; rewrite (proj2 (Z.eqb_neq fd0 fd1)) by lia; rewrite (bound_view _ _ _ _ _ _ B4); unfold update; by rewrite Z.eqb_refl | done].
    + eexists. split; [rewrite (bound_view _ _ _ _ _ _ B5); unfold update; by rewrite Z.eqb_refl | done].
    + rewrite (bound_kernel _ _ _ _ _ _ B5), (bound_kernel _ _ _ _ _ _ B4). change (kernel s3) with k3. by rewrite Hq.
Qed.

(** a write end that cannot be opened: the read end is closed, the error is that of the
    kernel, and there are no new descriptors. *)
Theorem pipe_failure_closes flags size p s root k1 r k2 status w k3 :
  pipe_flags flags -> NtCreateFile root_args (kernel s) = (STATUS_SUCCESS, root, k1) ->
  NtCreateNamedPipeFile (read_end (Some root) [] (end_attributes flags) flags size) k1 = (STATUS_SUCCESS, r, k2) ->
  NtCreateFile (write_end r flags) (NtClose root k2).2 = (status, w, k3) -> status <> STATUS_SUCCESS ->
  wlibc_common_pipe None flags size p s = Some ((-1, None, p), with_kernel (with_errno (with_kernel s k3) (map_ntstatus_to_errno status (errno s))) (NtClose r k3).2).
Proof.
  intros Hf E1 E2 E3 N. unfold wlibc_common_pipe. unfold pipe_flags in Hf. rewrite Hf. cbn [Z.eqb negb].
  rewrite (SM_bind_Some _ _ p s None p (with_kernel (with_errno (with_kernel s k3) (map_ntstatus_to_errno status (errno s))) (NtClose r k3).2)); [done|].
  rewrite (anonymous_start flags size p s root k1 r k2 E1 E2). unfold open_write_end.
  rewrite (SM_bind_Some _ _ _ _ _ _ _ (create_file_fails _ p (with_kernel s (NtClose root k2).2) status w k3 E3 N)). unfold ok. rewrite bool_decide_eq_false_2 by done. cbn [negb].
  rewrite (SM_bind_Some _ _ p (with_kernel s k3) () p (with_errno (with_kernel s k3) (map_ntstatus_to_errno status (errno s)))) by done. done.
Qed.

(** a name that is not that of a pipe: the call returns -1 and errno is what it was. *)
Theorem named_pipe_other_name name flags size p s path t p' s' :
  pipe_flags flags -> get_absolute_ntpath2 AT_FDCWD name INVALID_HANDLE p s = Some ((path, t, p'), s') -> t <> PIPE_HANDLE ->
  wlibc_common_pipe (Some name) flags size p s = Some ((-1, None, p'), s').
Proof.
  intros Hf E N. unfold wlibc_common_pipe. unfold pipe_flags in Hf. rewrite Hf. cbn [Z.eqb negb].
  rewrite (SM_bind_Some _ _ p s None p' s'); [done|]. rewrite (SM_bind_Some _ _ _ _ _ _ _ E). by rewrite bool_decide_eq_false_2.
Qed.

(** O_NONBLOCK does not make the ends asynchronous: what is asked of the kernel differs
    only in the completion mode of the read end, and the write end is the same. *)
Theorem nonblock_read_end_only root name flags h size :
  end_attributes (Z.lor flags O_NONBLOCK) = end_attributes flags /\ write_end h (Z.lor flags O_NONBLOCK) = write_end h flags /\
  pipe_options (read_end root name (end_attributes (Z.lor flags O_NONBLOCK)) (Z.lor flags O_NONBLOCK) size) = FILE_SYNCHRONOUS_IO_NONALERT /\
  pipe_mode (read_end root name (end_attributes (Z.lor flags O_NONBLOCK)) (Z.lor flags O_NONBLOCK) size) = FILE_PIPE_NONBLOCKING_OPERATION.
Proof.
  assert (has (Z.lor flags O_NONBLOCK) O_CLOEXEC = has flags O_CLOEXEC) as Hc by (unfold has; rewrite Z.land_lor_distr_l; change (Z.land O_NONBLOCK O_CLOEXEC) with 0; by rewrite Z.lor_0_r).
  assert (end_attributes (Z.lor flags O_NONBLOCK) = end_attributes flags) as E by (by rewrite !end_attributes_cases, Hc).
  split; [exact E|]. split; [unfold write_end; by rewrite E|]. split; [done|]. unfold read_end. cbn [pipe_mode].
  assert (has (Z.lor flags O_NONBLOCK) O_NONBLOCK = true) as ->; [|done]. unfold has. rewrite negb_true_iff, Z.eqb_neq. intros Z0.
  assert (Z.testbit (Z.land (Z.lor flags O_NONBLOCK) O_NONBLOCK) 26 = false) as Hb by (by rewrite Z0, Z.bits_0). rewrite Z.land_spec, Z.lor_spec in Hb.
  change (Z.testbit O_NONBLOCK 26) with true in Hb. by rewrite orb_true_r in Hb.
Qed.
End Pipes.

(** ** Commands *)

Section Commands.
Context {K : Type} {KN : Kernel K} {A : Allocator} {PK : PathKernel K} {OK : OpenKernel K} {PIK : PipeKernel K} {FK : FileKernel K} {HP : Heap} {SH : StreamHeap}.
Context (alloc_ok : forall n, malloc_ok n = true).
Implicit Types (x : io_state) (hs : gmap Z Z) (s : state K) (k : K).

(** Which end is whose. *)
Definition reads (mode : list Z) : bool := negb (has (parse_mode mode) O_WRONLY).
Definition mine (mode : list Z) (r w : Z) : Z := if reads mode then r else w.
Definition theirs (mode : list Z) (r w : Z) : Z := if reads mode then w else r.

Definition create_command (command mode : list Z) (r w : Z) k : (DOSERROR + Z) * K :=
  CreateProcessA (str "cmd.exe /C " ++ command) (if reads mode then 0 else r) (if reads mode then w else 0) (ClearInherit (mine mode r w) k).

(** The call up to the process. *)
Lemma popen_start command mode x hs s r w k1 : has (parse_mode mode) O_RDWR = false -> CreatePipe 4096 (kernel s) = (inr (r, w), k1) ->
  wlibc_popen (Some command) (Some mode) (x, hs) s =
  (p ← start_command command (reads mode) r w;
   match p with
   | None => mret 0
   | Some process =>
       let pmode := if reads mode then O_RDONLY else O_WRONLY in
       fd ← run_M (register_to_fd_table (mine mode r w) PIPE_HANDLE pmode);
       a ← on_streams (create_stream fd (Z.lor (Z.lor _IOBUFFER_INTERNAL _IOFBF) (get_buf_mode pmode)) 4096);
       if a =? 0 then run_M UB else '(x, h) ← get_S; _ ← put_S (x, <[a := process]> h); mret a
   end) (x, hs) (with_kernel s (ClearInherit (mine mode r w) k1)).
Proof.
  intros Hm Hp. unfold wlibc_popen. rewrite Hm. rewrite (SM_bind_Some kernel_S _ (x, hs) s (kernel s) (x, hs) s eq_refl), Hp. unfold mine, reads.
  destruct (has (parse_mode mode) O_WRONLY); reflexivity.
Qed.

Lemma command_started command mode y s r w process k2 : create_command command mode r w (kernel s) = (inr process, k2) ->
  start_command command (reads mode) r w y (with_kernel s (ClearInherit (mine mode r w) (kernel s))) = Some ((Some process, y), with_kernel s (CloseHandle (theirs mode r w) k2)).
Proof.
  intros Hc. unfold start_command. rewrite alloc_ok. rewrite (SM_bind_Some kernel_S _ y _ _ y _ eq_refl). cbn [kernel with_kernel]. unfold create_command in Hc. rewrite Hc. done.
Qed.

(** popen: the command is run with the other end of a pipe as its standard output, or its
    standard input; the result is a new stream on the lowest free descriptor, which is our
    end of the pipe, and the end of the command is closed. *)
Theorem popen_opens command mode x hs s l r w k1 process k2 :
  linked x l -> has (parse_mode mode) O_RDWR = false -> CreatePipe 4096 (kernel s) = (inr (r, w), k1) -> r <> 0 -> w <> 0 ->
  create_command command mode r w k1 = (inr process, k2) ->
  exists a f x' s', wlibc_popen (Some command) (Some mode) (x, hs) s = Some ((a, (x', <[a := process]> hs)), s') /\ a <> 0 /\ linked x' (a :: l) /\
    streams x' !! a = Some f /\ lowest_from 0 (view (table s)) (fd f) /\ kernel s' = CloseHandle (theirs mode r w) k2 /\
    exists q, view (table s') (fd f) = Some (Fdinfo (mine mode r w) PIPE_HANDLE (if reads mode then O_RDONLY else O_WRONLY) q).
Proof.
  intros Hl Hm Hp Hr Hw Hc. rewrite (popen_start command mode x hs s r w k1 Hm Hp). pose proof (command_started command mode (x, hs) (with_kernel s k1) r w process k2 Hc) as Hs.
  change (with_kernel (with_kernel s k1) ?k) with (with_kernel s k) in Hs. cbn [kernel with_kernel] in Hs. rewrite (SM_bind_Some _ _ _ _ _ _ _ Hs). cbv zeta.
  set (s2 := with_kernel s _). assert (mine mode r w <> 0) as Hn by (unfold mine; by destruct (reads mode)).
  destruct (register_bound s2 (mine mode r w) PIPE_HANDLE (if reads mode then O_RDONLY else O_WRONLY) (fun _ => alloc_ok _) Hn) as (d & s3 & R3 & L3 & B3).
  destruct (create_stream_ok d (Z.lor (Z.lor _IOBUFFER_INTERNAL _IOFBF) (get_buf_mode (if reads mode then O_RDONLY else O_WRONLY))) 4096 x s3 l (alloc_ok _) Hl)
    as (a & x' & Hcr & Ha & _ & Hl' & Hf & _).
  exists a. eexists. exists x', s3. split; [|split; [exact Ha|]; split; [exact Hl'|]; split; [exact Hf|]; split; [exact L3|]; split; [exact (bound_kernel _ _ _ _ _ _ B3)|]].
  - rewrite (SM_bind_Some _ _ (x, hs) s2 d (x, hs) s3) by (unfold run_M; by rewrite (M_bind_Some _ _ _ _ _ R3)).
    rewrite (SM_bind_Some _ _ (x, hs) s3 a (x', hs) s3) by (unfold on_streams; by rewrite (M_bind_Some _ _ _ _ _ Hcr)). by rewrite (proj2 (Z.eqb_neq _ _) Ha).
  - eexists. rewrite (bound_view _ _ _ _ _ _ B3). unfold update. cbn. rewrite Z.eqb_refl. reflexivity.
Qed.

(** a command that cannot be started: its end of the pipe is closed twice. *)
Theorem popen_failure_closes_twice command mode x hs s r w k1 e k2 :
  has (parse_mode mode) O_RDWR = false -> CreatePipe 4096 (kernel s) = (inr (r, w), k1) -> create_command command mode r w k1 = (inl e, k2) ->
  wlibc_popen (Some command) (Some mode) (x, hs) s =
    Some ((0, (x, hs)), with_kernel (with_errno s (map_doserror_to_errno e (errno s))) (CloseHandle w (CloseHandle r (CloseHandle (theirs mode r w) k2)))).
Proof.
  intros Hm Hp Hc. rewrite (popen_start command mode x hs s r w k1 Hm Hp). unfold create_command in Hc.
  rewrite (SM_bind_Some _ _ (x, hs) (with_kernel s (ClearInherit (mine mode r w) k1)) None (x, hs) (with_kernel (with_errno s (map_doserror_to_errno e (errno s))) (CloseHandle w (CloseHandle r (CloseHandle (theirs mode r w) k2)))));
    [done|].
  unfold start_command. rewrite alloc_ok. rewrite (SM_bind_Some kernel_S _ (x, hs) _ _ (x, hs) _ eq_refl). cbn [kernel with_kernel]. rewrite Hc. done.
Qed.

(** pclose closes the stream, waits for the command and returns its exit code. *)
Theorem pclose_waits a f x hs s process r x' s1 k2 code :
  a <> 0 -> streams x !! a = Some f -> magic f = FILE_STREAM_MAGIC -> hs !! a = Some process ->
  common_fclose a x s = Some ((r, x'), s1) -> WaitForSingleObject process (kernel s1) = (None, k2) -> GetExitCodeProcess process k2 = inr code ->
  wlibc_pclose a (x, hs) s = Some ((swrap 32 code, (x', hs)), with_kernel s1 k2).
Proof.
  intros Ha Hf Hm Hh Hc Hw He. unfold wlibc_pclose. rewrite (SM_bind_Some get_S _ (x, hs) s (x, hs) (x, hs) s eq_refl). cbv zeta. rewrite (proj2 (Z.eqb_neq _ _) Ha).
  rewrite (SM_bind_Some _ _ (x, hs) s f (x, hs) s) by (unfold on_streams; by rewrite (M_bind_Some _ _ _ _ _ (deref_ok a f x s Hf))). rewrite Hm. cbn [negb].
  rewrite Z.eqb_refl. cbn [negb]. rewrite Hh. cbn [defined]. rewrite (SM_bind_Some _ _ (x, hs) s process (x, hs) s eq_refl).
  rewrite (SM_bind_Some _ _ (x, hs) s r (x', hs) s1) by (unfold on_streams; by rewrite (M_bind_Some _ _ _ _ _ Hc)).
  rewrite (SM_bind_Some kernel_S _ (x', hs) s1 (kernel s1) (x', hs) s1 eq_refl), Hw. rewrite (SM_bind_Some _ _ (x', hs) s1 () (x', hs) (with_kernel s1 k2) eq_refl). by rewrite He.
Qed.
End Commands.

(** ** Instances *)

Import Idle.

(** A system with one pipe, between the handles 5 and 6, and how often the second was
    closed. Commands that are not empty are started as process 9. *)
Module OnePipe.
Record K := Pipe { bytes : list Z; closed : nat }.

#[export] Instance one_pipe_files : FileKernel K := {
  NtReadFile _ n _ k := (STATUS_SUCCESS, take (Z.to_nat n) (bytes k), Pipe (drop (Z.to_nat n) (bytes k)) (closed k));
  NtWriteFile _ bs _ k := (STATUS_SUCCESS, zlen bs, Pipe (bytes k ++ bs) (closed k));
  NtQueryPosition _ _ := (STATUS_SUCCESS, 0);
  NtQueryEndOfFile _ _ := (STATUS_SUCCESS, 0);
  NtSetPosition _ _ k := (STATUS_SUCCESS, k)
}.

#[export] Instance one_pipe : PipeKernel K := {
  NtCreateNamedPipeFile _ k := (STATUS_SUCCESS, 5, k);
  CreatePipe _ k := (inr (5, 6), k);
  ClearInherit _ k := k;
  CreateProcessA c _ _ k := (if 11 <? zlen c then inr 9 else inl ERROR_FILE_NOT_FOUND, k);
  CloseHandle h k := Pipe (bytes k) (if h =? 6 then S (closed k) else closed k);
  WaitForSingleObject _ k := (None, k);
  GetExitCodeProcess _ _ := inr 3
}.

#[export] Instance one_pipe_fifo : Fifo (K := K) 5 6 16384 bytes.
Proof. split; intros; cbn; by eexists. Qed.

Definition quiet : K := Pipe [] 0.
End OnePipe.

Import OnePipe.

#[local] Instance pipe_device : OpenKernel OnePipe.K := {
  NtCreateFile a k := match ca_root a with Some _ => (STATUS_SUCCESS, 6, k) | None => (STATUS_SUCCESS, 4, k) end;
  NtQueryTagInformation _ _ := (STATUS_SUCCESS, 0);
  NtQueryBasicInformation _ _ := STATUS_SUCCESS;
  NtSetLastAccessTime _ k := (STATUS_SUCCESS, k);
  rand_s k := (7, k)
}.

Definition transfer : list pipe_op := [Put [1; 2; 3]; Get 2; Put [4]; Get 9].

Lemma pipe_is_queue_witness : exists fd0 fd1 s', wlibc_common_pipe None 0 16384 initial_paths (process FILE_HANDLE quiet) = Some ((0, Some (fd0, fd1), initial_paths), s') /\
  fd0 = 0 /\ fd1 = 1 /\ exists k, pipe_run fd0 fd1 transfer s' = Some ([(3, []); (2, [1; 2]); (1, []); (2, [3; 4])], with_kernel s' k).
Proof.
  destruct (pipe_is_queue (K := OnePipe.K) (fun _ => eq_refl) 0 16384 initial_paths (process FILE_HANDLE quiet) 4 quiet 5 quiet 6 quiet 16384 bytes) as (fd0 & fd1 & s' & E & _ & _ & _ & _ & _ & Hrun);
    try done; try exact one_pipe_fifo.
  exists fd0, fd1, s'. split; [exact E|]. assert (fd0 = 0 /\ fd1 = 1) as [-> ->] by (vm_compute in E; split; congruence).
  split; [done|]. split; [done|]. destruct (Hrun transfer [(3, []); (2, [1; 2]); (1, []); (2, [3; 4])] [] eq_refl) as (k & Hk & _). by exists k.
Defined.

Lemma named_pipe_other_name_witness : exists p' s', wlibc_common_pipe (Some (str "NUL")) 0 16384 initial_paths (process FILE_HANDLE quiet) = Some ((-1, None, p'), s').
Proof.
  destruct (get_absolute_ntpath2 AT_FDCWD (str "NUL") INVALID_HANDLE initial_paths (process FILE_HANDLE quiet)) as [[[[path t] p'] s']|] eqn:E; [|by vm_compute in E].
  exists p', s'. apply (named_pipe_other_name (K := OnePipe.K) (str "NUL") 0 16384 initial_paths (process FILE_HANDLE quiet) path t p' s'); [done | exact E |].
  vm_compute in E. injection E as <- <- <- <-. discriminate.
Defined.

#[local] Instance zeros : Heap := { heap_byte _ := 0; heap_free_ok := true }.

#[local] Instance fresh_addresses : StreamHeap.
Proof.
  refine {| new_address m := fresh ({[0]} ∪ dom m : gset Z) |}. intros m.
  pose proof (is_fresh ({[0]} ∪ dom m : gset Z)) as H. apply not_elem_of_union in H as [H0 Hm]. split; [by apply not_elem_of_singleton in H0 | by apply not_elem_of_dom].
Defined.

Definition no_streams : io_state := IoState ∅ 0 0 0 0 initial_paths.

Lemma empty_list_linked : linked no_streams [].
Proof. split; [done | constructor | constructor |]. intros a. cbn. rewrite lookup_empty. split; [by intros ?%elem_of_nil | by intros [? [=]]]. Qed.

Lemma popen_opens_witness : exists a f x' s', wlibc_popen (Some (str "dir")) (Some (str "r")) (no_streams, ∅) (process FILE_HANDLE quiet) = Some ((a, (x', {[a := 9]})), s') /\
  streams x' !! a = Some f /\ fd f = 0 /\ kernel s' = Pipe [] 1.
Proof.
  destruct (popen_opens (K := OnePipe.K) (fun _ => eq_refl) (str "dir") (str "r") no_streams ∅ (process FILE_HANDLE quiet) [] 5 6 quiet 9 quiet) as (a & f & x' & s' & E & _ & _ & Hf & Hlow & Hk & _);
    [exact empty_list_linked | done | done | done | done | done |].
  exists a, f, x', s'. split; [exact E|]. split; [exact Hf|]. split; [|exact Hk].
  destruct Hlow as (H0 & _ & Hl). destruct (Z.lt_trichotomy (fd f) 0) as [|[|Hlt]]; [lia | done|]. destruct (Hl 0); [lia | done].
Defined.

Lemma popen_failure_closes_twice_witness :
  wlibc_popen (Some []) (Some (str "r")) (no_streams, ∅) (process FILE_HANDLE quiet) = Some ((0, (no_streams, ∅)), with_kernel (with_errno (process FILE_HANDLE quiet) ENOENT) (Pipe [] 2)).
Proof. exact (popen_failure_closes_twice (K := OnePipe.K) (fun _ => eq_refl) [] (str "r") no_streams ∅ (process FILE_HANDLE quiet) 5 6 quiet ERROR_FILE_NOT_FOUND quiet eq_refl eq_refl eq_refl). Defined.

Definition one_stream : io_state := with_head (with_streams no_streams {[8 := File FILE_STREAM_MAGIC 3 (Z.lor (Z.lor _IOBUFFER_INTERNAL _IOFBF) _IOBUFFER_RDONLY) 0 None 4096 0 0 0 0 0 0]}) 8.

Lemma pclose_waits_witness : exists x' s1, wlibc_pclose 8 (one_stream, {[8 := 9]}) (process PIPE_HANDLE quiet) = Some ((3, (x', {[8 := 9]})), with_kernel s1 quiet).
Proof.
  destruct (common_fclose 8 one_stream (process PIPE_HANDLE quiet)) as [[[r x'] s1]|] eqn:E; [|by vm_compute in E].
  assert (kernel s1 = quiet) as Hk by (vm_compute in E; injection E; intros; subst; reflexivity).
  exists x', s1. eapply (pclose_waits (K := OnePipe.K) 8 _ one_stream {[8 := 9]} (process PIPE_HANDLE quiet) 9 r x' s1 quiet 3); [done | reflexivity | reflexivity | reflexivity | exact E | cbn; by rewrite Hk | done].
Defined.

(** A system that refuses to open the second end. *)
#[local] Instance no_second_end : OpenKernel nat := {
  NtCreateFile a k := match ca_root a with Some _ => (STATUS_ACCESS_DENIED, 0, k) | None => (STATUS_SUCCESS, 4, k) end;
  NtQueryTagInformation _ _ := (STATUS_SUCCESS, 0);
  NtQueryBasicInformation _ _ := STATUS_SUCCESS;
  NtSetLastAccessTime _ k := (STATUS_SUCCESS, k);
  rand_s k := (7, k)
}.

#[local] Instance counting : Kernel nat := {
  NtClose _ k := (STATUS_SUCCESS, S k);
  NtDuplicateObject _ _ k := (STATUS_SUCCESS, 1, k);
  NtQueryDeviceType _ _ := Some FILE_DEVICE_NAMED_PIPE;
  NtQueryAttributes _ _ := Some 0;
  NtQueryAccess _ _ := None;
  NtOpenConsole _ k := (0, k);
  garbage _ := Fdinfo 0 INVALID_HANDLE 0 0
}.

#[local] Instance counted_pipes : PipeKernel nat := {
  NtCreateNamedPipeFile _ k := (STATUS_SUCCESS, 5, k);
  CreatePipe _ k := (inr (5, 6), k);
  ClearInherit _ k := k;
  CreateProcessA _ _ _ k := (inr 9, k);
  CloseHandle _ k := S k;
  WaitForSingleObject _ k := (None, k);
  GetExitCodeProcess _ _ := inr 0
}.

Lemma pipe_failure_closes_witness :
  wlibc_common_pipe None 0 16384 initial_paths (process FILE_HANDLE 0%nat) = Some ((-1, None, initial_paths), with_kernel (with_errno (process FILE_HANDLE 0%nat) EACCES) 2%nat).
Proof.
  exact (pipe_failure_closes (K := nat) 0 16384 initial_paths (process FILE_HANDLE 0%nat) 4 0%nat 5 0%nat STATUS_ACCESS_DENIED 0 1%nat eq_refl eq_refl eq_refl eq_refl ltac:(done)).
Defined.
