(* ===== verification/Exec.v ===== *)
(** * Running programs

    The exec and spawn families (src/unistd/exec.c) and kill (src/unistd/kill.c). A call
    that ends the process gives the exit code: [inr]. *)

From S2P Require Import Signal.
From stdpp Require Import strings gmap.
From S2P Require Import Prelude Errno Buffer FdTable FdTableFacts FileIo Path PathFacts Open Process Sched SpawnActions CommandLine Spawn PathSpec OpenSpec ProcessSpec SpawnSpec.

Definition _P_OVERLAY : Z := 0.
Definition _P_WAIT : Z := 1.
Definition _P_DETACH : Z := 2.
Definition _P_NOWAIT : Z := 3.
Definition _P_NOWAITO : Z := 3.

Definition PROCESS_TERMINATE : Z := 0x0001.
Definition PROCESS_SUSPEND_RESUME : Z := 0x0800.

(** The number of this process; stopping and ending another one. *)
Class KillKernel (K : Type) := {
  NtCurrentProcessId : K -> Z;
  NtSuspendProcess : Z -> K -> NTSTATUS * K;
  TerminateProcess : Z -> Z -> K -> NTSTATUS * K
}.

(** ** Arguments *)

(** The strings of a variable argument list up to a null pointer, and what is behind it.
    Reading past the arguments is undefined. *)
Fixpoint strings_to_null (args : list (option (list Z))) : option (list (list Z) * list (option (list Z))) :=
  match args with
  | [] => None
  | None :: args => Some ([], args)
  | Some a :: args => '(l, rest) ← strings_to_null args; Some (a :: l, rest)
  end.

(** [argv] and [env] of the calls with a variable number of arguments; [env0] is what the
    block for the environment holds, which is not initialised. Without a first argument
    the arguments are counted for the environment, and the first of them is then stored
    behind [argv]: both arrays end only when the first two are null. *)
Definition collect_args (env_given : bool) (env0 : list (list Z)) (arg0 : option (list Z)) (args : list (option (list Z)))
    : option (list (list Z) * list (list Z)) :=
  match arg0 with
  | Some a =>
      '(l, rest) ← strings_to_null args;
      env ← (if env_given then fst <$> strings_to_null rest else Some env0);
      Some (a :: l, env)
  | None =>
      match args with
      | None :: rest => if env_given then match rest with None :: _ => Some ([], []) | _ => None end else Some ([], env0)
      | _ => None
      end
  end.

Section Exec.
Context {K : Type} {KN : Kernel K} {A : Allocator} {PK : PathKernel K} {OK : OpenKernel K} {FK : FileKernel K}.
Context {SK : SchedKernel K} {SP : SpawnKernel K} {WK : WaitKernel K} {KK : KillKernel K}.

Abbreviation W := (SM world K).

(** ** exec *)

Definition wlibc_execve (use_path : bool) (path : option (list Z)) (argv env : option (list (list Z))) : W (Z + Z) :=
  '(status, _, _) ← wlibc_common_spawn path None None use_path argv env;
  mret (if status =? 0 then inr 0 else inl status).

(** The two blocks, and then the call [f]. *)
Definition with_args (env_given : bool) (env0 : list (list Z)) (arg0 : option (list Z)) (args : list (option (list Z)))
    (f : option (list (list Z)) -> option (list (list Z)) -> W (Z + Z)) : W (Z + Z) :=
  '(argv, env) ← run_M (lift (collect_args env_given env0 arg0 args));
  if malloc_ok (8 * (zlen argv + 1)) && malloc_ok (8 * ((if env_given then zlen env else 0) + 1)) then f (Some argv) (Some env)
  else _ ← run_M (set_errno ENOMEM); mret (inl (-1)).

Definition wlibc_execl (use_path env_given : bool) (env0 : list (list Z)) (path arg0 : option (list Z)) (args : list (option (list Z))) : W (Z + Z) :=
  with_args env_given env0 arg0 args (fun argv env => wlibc_execve use_path path argv env).

(** ** spawn *)

Context {H : Handlers}.

(** [status] is what [waitpid] stores, or the 0 of the spawn. *)
Definition wlibc_spawnve (use_path : bool) (mode : Z) (path : option (list Z)) (argv env : option (list (list Z))) : W (Z + Z) :=
  if (mode <? _P_OVERLAY) || (_P_NOWAITO <? mode) then _ ← run_M (set_errno EINVAL); mret (inl (-1))
  else
    '(_, attributes) ← run_M (wlibc_spawnattr_init (Some (Spawnattr 0 0 0 0 0 0)));
    '(_, attributes) ← run_M (wlibc_spawnattr_setflags attributes (Z.lor POSIX_SPAWN_SETSCHEDULER (Z.lor POSIX_SPAWN_SETSCHEDPARAM POSIX_SPAWN_DETACH)));
    '(status, pid, _) ← wlibc_common_spawn path None attributes use_path argv env;
    if negb (status =? 0) then mret (inl (-1))
    else
      pid ← run_M (lift pid);
      if (mode =? _P_NOWAIT) || (mode =? _P_DETACH) then mret (inl pid)
      else if mode =? _P_WAIT then
        r ← in_procs (wlibc_waitpid pid 0);
        mret (match r with inl (_, status) => inl status | inr code => inr code end)
      else mret (inr 0).

Definition wlibc_spawnl (use_path env_given : bool) (env0 : list (list Z)) (mode : Z) (path arg0 : option (list Z)) (args : list (option (list Z))) : W (Z + Z) :=
  with_args env_given env0 arg0 args (fun argv env => wlibc_spawnve use_path mode path argv env).

(** ** kill *)

Abbreviation C := (SM proc_state K).

(** A signal to the process itself. *)
Definition raise_self (sig : Z) : C (Z + Z) :=
  p ← get_S;
  match wlibc_raise sig (signals_of p) with
  | Done r g => _ ← put_S (with_signals p g); mret (inl r)
  | Exited code g => _ ← put_S (with_signals p g); mret (inr code)
  | Undefined => run_M UB
  end.

(** The call, and then the handle is closed. *)
Definition on_process (h : Z) (f : K -> NTSTATUS * K) : C (Z + Z) :=
  s ← run_M get;
  let '(status, k) := f (kernel s) in
  _ ← run_M (set_kernel (NtClose h k).2);
  if negb (bool_decide (status = STATUS_SUCCESS)) then r ← run_M (fail_status status); mret (inl r) else mret (inl 0).

(** The handle of the process itself, which process 0 stands for, ends it. *)
Definition wlibc_kill (pid sig : Z) : C (Z + Z) :=
  if (sig <? 0) || (NSIG <? sig) then _ ← run_M (set_errno EINVAL); mret (inl (-1))
  else
    s ← run_M get;
    if pid =? NtCurrentProcessId (kernel s) then raise_self sig
    else
      h ← run_M (open_process pid (Z.lor PROCESS_TERMINATE PROCESS_SUSPEND_RESUME));
      if h =? 0 then mret (inl (-1))
      else if sig =? SIGSTOP then on_process h (NtSuspendProcess h)
      else if sig =? SIGCONT then on_process h (NtResumeProcess h)
      else if h =? NtCurrentProcess then mret (inr (128 + sig))
      else on_process h (TerminateProcess h (128 + sig)).

End Exec.

(** ** What running programs promises

    The calls with a variable number of arguments are the calls with arrays, except that
    without an environment theirs is not initialised; kill stops, resumes or ends another
    process. *)
Lemma strings_up_to_null l rest : strings_to_null ((Some <$> l) ++ None :: rest) = Some (l, rest).
Proof. induction l as [|a l IH]; [done|]. cbn [fmap list_fmap app strings_to_null]. by rewrite IH. Qed.

(** The arguments of a call, with the null pointers that end them. *)
Definition argument_list (l : list (list Z)) (env : option (list (list Z))) : list (option (list Z)) :=
  (Some <$> l) ++ [None] ++ (match env with Some e => (Some <$> e) ++ [None] | None => [] end).

Lemma collected a l env env0 : collect_args (match env with Some _ => true | None => false end) env0 (Some a) (argument_list l env) = Some (a :: l, default env0 env).
Proof.
  unfold collect_args, argument_list. cbn [app]. rewrite strings_up_to_null. cbn [mbind option_bind]. destruct env as [e|]; [|done]. by rewrite strings_up_to_null.
Qed.

Section Programs.
Context {K : Type} {KN : Kernel K} {A : Allocator} {PK : PathKernel K} {OK : OpenKernel K} {FK : FileKernel K}.
Context {SK : SchedKernel K} {SP : SpawnKernel K} {WK : WaitKernel K} {KK : KillKernel K} {H : Handlers}.
Context (alloc_ok : forall n, malloc_ok n = true).
Implicit Types (w : world) (s : state K) (p : proc_state).

Lemma with_args_runs a l env env0 f w s :
  with_args (match env with Some _ => true | None => false end) env0 (Some a) (argument_list l env) f w s = f (Some (a :: l)) (Some (default env0 env)) w s.
Proof. unfold with_args. rewrite collected. rewrite (SM_bind_Some _ _ w s (a :: l, default env0 env) w s eq_refl). by rewrite !alloc_ok. Qed.

(** the calls with a variable number of arguments are execve and spawnve on the arrays of
    their arguments; without an environment the array is the block that was allocated for
    it, whatever it holds, and not the environment of the process. *)
Theorem variadic_exec a l env env0 use_path mode path w s :
  let env_given := match env with Some _ => true | None => false end in
  wlibc_execl use_path env_given env0 path (Some a) (argument_list l env) w s = wlibc_execve use_path path (Some (a :: l)) (Some (default env0 env)) w s /\
  wlibc_spawnl use_path env_given env0 mode path (Some a) (argument_list l env) w s = wlibc_spawnve use_path mode path (Some (a :: l)) (Some (default env0 env)) w s.
Proof. intros env_given. unfold wlibc_execl, wlibc_spawnl, env_given. split; exact (with_args_runs a l env env0 _ w s). Qed.

(** The attributes of every spawn of the family. *)
Definition spawn_attributes : spawnattr_t := Spawnattr (Z.lor POSIX_SPAWN_SETSCHEDULER (Z.lor POSIX_SPAWN_SETSCHEDPARAM POSIX_SPAWN_DETACH)) 0 0 0 SCHED_RR 0.

(** what a successful spawn gives in each mode: the number of the child, the exit code of
    the child that was waited for, or the end of this process. *)
Theorem spawn_modes use_path mode path argv env w s pid acts w' s' : _P_OVERLAY <= mode <= _P_NOWAITO ->
  wlibc_common_spawn path None (Some spawn_attributes) use_path argv env w s = Some ((0, Some pid, acts, w'), s') ->
  (mode = _P_OVERLAY -> wlibc_spawnve use_path mode path argv env w s = Some ((inr 0, w'), s')) /\
  (mode = _P_DETACH \/ mode = _P_NOWAIT -> wlibc_spawnve use_path mode path argv env w s = Some ((inl pid, w'), s')) /\
  (mode = _P_WAIT -> forall child code q s'', wlibc_waitpid pid 0 (w_procs w') s' = Some ((inl (child, code), q), s'') ->
    wlibc_spawnve use_path mode path argv env w s = Some ((inl code, World (w_paths w') q), s'')).
Proof.
  unfold _P_OVERLAY, _P_NOWAITO, _P_DETACH, _P_NOWAIT, _P_WAIT. intros Hm Hs.
  assert (wlibc_spawnve use_path mode path argv env w s =
    (if (mode =? _P_NOWAIT) || (mode =? _P_DETACH) then mret (inl pid)
     else if mode =? _P_WAIT then r ← in_procs (wlibc_waitpid pid 0); mret (match r with inl (_, status) => inl status | inr code => inr code end) else mret (inr 0)) w' s') as ->.
  { unfold wlibc_spawnve. unfold _P_OVERLAY, _P_NOWAITO. rewrite (proj2 (Z.ltb_ge _ _)), (proj2 (Z.ltb_ge _ _)) by lia. cbn [orb].
    rewrite (SM_bind_Some _ _ w s (0, Some (Spawnattr 0 0 0 0 SCHED_RR 0)) w s eq_refl). rewrite (SM_bind_Some _ _ w s (0, Some spawn_attributes) w s eq_refl).
    rewrite (SM_bind_Some _ _ _ _ _ _ _ Hs). cbn [negb Z.eqb]. by rewrite (SM_bind_Some _ _ w' s' pid w' s' eq_refl). }
  split; [intros ->; done|]. split; [by intros [-> | ->]|]. intros -> child code q s'' Hw. cbn [_P_NOWAIT _P_DETACH _P_WAIT Z.eqb Pos.eqb orb].
  by rewrite (SM_bind_Some _ _ w' s' (inl (child, code)) (World (w_paths w') q) s'') by (unfold in_procs; by rewrite (M_bind_Some _ _ _ _ _ Hw)).
Qed.

(** execve ends the process with 0 when the program was started, and returns -1 with the
    process as it was otherwise. *)
Theorem execve_ends use_path path argv env w s r pid acts w' s' :
  wlibc_common_spawn path None None use_path argv env w s = Some ((r, pid, acts, w'), s') ->
  wlibc_execve use_path path argv env w s = Some ((if r =? 0 then inr 0 else inl r, w'), s').
Proof. intros Hs. unfold wlibc_execve. by rewrite (SM_bind_Some _ _ _ _ _ _ _ Hs). Qed.

(** ** kill *)

(** What is done to the process of a handle. *)
Definition kill_effect (h sig : Z) (k : K) : NTSTATUS * K :=
  if sig =? SIGSTOP then NtSuspendProcess h k else if sig =? SIGCONT then NtResumeProcess h k else TerminateProcess h (128 + sig) k.

(** kill of another process: SIGSTOP suspends it, SIGCONT resumes it, and every other
    signal ends it with the code 128 and the signal, also signal 0, which should only see
    whether there is such a process; the handle is closed, and -1 is returned with the
    error of the kernel when it refuses. *)
Theorem kill_other pid sig p s h k status k' :
  0 <= sig <= NSIG -> pid <> 0 -> pid <> NtCurrentProcessId (kernel s) ->
  NtOpenProcess pid (Z.lor PROCESS_TERMINATE PROCESS_SUSPEND_RESUME) (kernel s) = (STATUS_SUCCESS, h, k) -> h <> 0 -> h <> NtCurrentProcess ->
  kill_effect h sig k = (status, k') ->
  wlibc_kill pid sig p s = Some ((inl (if decide (status = STATUS_SUCCESS) then 0 else -1), p),
    with_errno (with_kernel s (NtClose h k').2) (if decide (status = STATUS_SUCCESS) then errno s else map_ntstatus_to_errno status (errno s))).
Proof.
  intros Hs Hp Hc Ho Hh Hn He. unfold wlibc_kill. rewrite (proj2 (Z.ltb_ge sig 0)), (proj2 (Z.ltb_ge NSIG sig)) by lia. cbn [orb].
  rewrite (SM_bind_Some (run_M get) _ p s s p s eq_refl), (proj2 (Z.eqb_neq _ _) Hc).
  assert (open_process pid (Z.lor PROCESS_TERMINATE PROCESS_SUSPEND_RESUME) s = Some (h, with_kernel s k)) as Eo.
  { unfold open_process. rewrite (proj2 (Z.eqb_neq _ _) Hp). unfold system_state, mbind, M_bind. cbn [get mret M_ret]. by rewrite Ho. }
  rewrite (SM_bind_Some _ _ p s h p (with_kernel s k)) by (unfold run_M; by rewrite (M_bind_Some _ _ _ _ _ Eo)). rewrite (proj2 (Z.eqb_neq _ _) Hh).
  assert (forall f, f k = (status, k') -> on_process h f p (with_kernel s k) = Some ((inl (if decide (status = STATUS_SUCCESS) then 0 else -1), p),
    with_errno (with_kernel s (NtClose h k').2) (if decide (status = STATUS_SUCCESS) then errno s else map_ntstatus_to_errno status (errno s)))) as Hf.
  { intros f E. unfold on_process. rewrite (SM_bind_Some (run_M get) _ p _ _ p _ eq_refl). cbn [kernel with_kernel]. rewrite E. destruct (decide (status = STATUS_SUCCESS)) as [->|N].
    - by destruct s.
    - by rewrite (bool_decide_eq_false_2 _ N). }
  unfold kill_effect in He. destruct (sig =? SIGSTOP); [by apply Hf|]. destruct (sig =? SIGCONT); [by apply Hf|]. rewrite (proj2 (Z.eqb_neq _ _) Hn). by apply Hf.
Qed.

(** process 0 is this process: a signal other than SIGSTOP and SIGCONT ends it at once,
    whatever its handler. *)
Theorem kill_zero_ends_self sig p s : 0 <= sig <= NSIG -> sig <> SIGSTOP -> sig <> SIGCONT -> NtCurrentProcessId (kernel s) <> 0 ->
  wlibc_kill 0 sig p s = Some ((inr (128 + sig), p), s).
Proof.
  intros Hs H1 H2 Hc. unfold wlibc_kill. rewrite (proj2 (Z.ltb_ge sig 0)), (proj2 (Z.ltb_ge NSIG sig)) by lia. cbn [orb].
  rewrite (SM_bind_Some (run_M get) _ p s s p s eq_refl), (proj2 (Z.eqb_neq 0 _)) by done. rewrite (SM_bind_Some _ _ p s NtCurrentProcess p s eq_refl).
  by rewrite (proj2 (Z.eqb_neq _ _) H1), (proj2 (Z.eqb_neq _ _) H2).
Qed.
End Programs.

(** ** Instances *)

Import FileIo.Disk Volume Willing Parent Factory.

(** Process 1; every process can be stopped and ended, except that the one with the handle
    5 may not be ended. *)
#[local] Instance factory_kill : KillKernel Disk.disk := {
  NtCurrentProcessId _ := 1;
  NtSuspendProcess _ k := (STATUS_SUCCESS, k);
  TerminateProcess h _ k := (if h =? 5 then STATUS_ACCESS_DENIED else STATUS_SUCCESS, k)
}.

Lemma spawn_modes_witness :
  exists w' s', wlibc_spawnve false _P_NOWAIT (Some (str "C:/prog.exe")) (Some [str "prog"]) None start (process O_RDWR [] 0) = Some ((inl 77, w'), s').
Proof.
  destruct (wlibc_common_spawn (Some (str "C:/prog.exe")) None (Some spawn_attributes) false (Some [str "prog"]) None start (process O_RDWR [] 0)) as [[[[[r pid] acts] w'] s']|] eqn:E;
    [|by vm_compute in E].
  assert (r = 0 /\ pid = Some 77) as [-> ->] by (vm_compute in E; split; congruence).
  exists w', s'. apply (proj1 (proj2 (spawn_modes false _P_NOWAIT (Some (str "C:/prog.exe")) (Some [str "prog"]) None start (process O_RDWR [] 0) 77 acts w' s' ltac:(unfold _P_NOWAIT, _P_OVERLAY, _P_NOWAITO; lia) E))).
  by right.
Defined.

Lemma execve_ends_witness : exists w' s', wlibc_execve false (Some (str "C:/prog.exe")) (Some [str "prog"]) None start (process O_RDWR [] 0) = Some ((inr 0, w'), s').
Proof.
  destruct (wlibc_common_spawn (Some (str "C:/prog.exe")) None None false (Some [str "prog"]) None start (process O_RDWR [] 0)) as [[[[[r pid] acts] w'] s']|] eqn:E;
    [|by vm_compute in E].
  assert (r = 0) as -> by (vm_compute in E; congruence). exists w', s'. exact (execve_ends false _ _ _ _ _ 0 pid acts w' s' E).
Defined.

Lemma variadic_exec_witness : wlibc_execl false false [str "x"] (Some (str "C:/prog.exe")) (Some (str "prog")) [Some (str "a"); None] start (process O_RDWR [] 0) =
  wlibc_execve false (Some (str "C:/prog.exe")) (Some [str "prog"; str "a"]) (Some [str "x"]) start (process O_RDWR [] 0).
Proof. exact (proj1 (variadic_exec (fun _ => eq_refl) (str "prog") [str "a"] None [str "x"] false 0 (Some (str "C:/prog.exe")) start (process O_RDWR [] 0))). Defined.

Lemma kill_other_witness :
  wlibc_kill 6 0 (w_procs start) (process O_RDWR [] 0) = Some ((inl 0, w_procs start), with_errno (with_kernel (process O_RDWR [] 0) ([], 0)) 0) /\
  wlibc_kill 5 0 (w_procs start) (process O_RDWR [] 0) = Some ((inl (-1), w_procs start), with_errno (with_kernel (process O_RDWR [] 0) ([], 0)) EACCES).
Proof.
  split.
  - etransitivity; [apply (kill_other 6 0 (w_procs start) (process O_RDWR [] 0) 6 ([], 0) STATUS_SUCCESS ([], 0)); done | reflexivity].
  - etransitivity; [apply (kill_other 5 0 (w_procs start) (process O_RDWR [] 0) 5 ([], 0) STATUS_ACCESS_DENIED ([], 0)); done | reflexivity].
Defined.

Lemma kill_zero_ends_self_witness : wlibc_kill 0 2 (w_procs start) (process O_RDWR [] 0) = Some ((inr 130, w_procs start), process O_RDWR [] 0).
Proof. by apply (kill_zero_ends_self 2). Defined.
